(* ===== verification/_CoqProject ===== *)
-Q . S2P
Prelude.v
Core.v
Log.v
GoNet.v
Packet.v
Conntrack.v
L3Codec.v
L3Tunnel.v
TCPTunnel.v
L3Link.v
TunnelRequests.v
Nodes.v
FakeIP.v
DNSMessage.v
TunDNS.v
UDPFlows.v
TunService.v
TunDevice.v
SystemDNS.v
ResumeStore.v
Underlay.v
UnderlayBind.v
Dial.v
Tracker.v
HalfClose.v
Routes.v
NetRuntime.v
BackendSwitch.v
ServiceWatch.v
ClientResource.v
AuthLogin.v
ClientSetup.v
ClientLife.v
GvisorStack.v
DeviceTrust.v
Resolver.v
ResolverSetup.v
Base64.v
RuntimeStart.v
Session.v
SessionSteps.v
SessionInv.v
SessionSafety.v
AuthBroker.v
ClientRun.v
Manager.v
DaemonConfig.v
ConfigFile.v
Controller.v
ManagedController.v
ControlEvents.v
ControlService.v
JSONLServer.v
ControlREST.v
Monitoring.v
Relay.v
TunConnection.v
Inbound.v
SocksInbound.v
DNSInbound.v
ConfigFlow.v
Daemon.v
