(* ===== verification/Prelude.v ===== *)
(** * A verification library for zju-portal-core

    The program is the core of a VPN client for the aTrust gateway, written in Go: it logs in,
    fetches the list of resources, opens tunnels to the nearest nodes, and offers them to the
    machine through SOCKS5, HTTP, DNS and TUN inbounds, under a daemon that clients control
    over JSONL lines or HTTP. The files of this library follow its packages, from the bottom up.

    ** The parts and the files

    - core/ (errors, session states, challenges, events, configuration): Core. Every other
      file uses its [error], its state table and its events. log/: Log.
    - The standard library's bytes, addresses and Base64, as far as they are called: GoNet,
      Base64, the rest of this file.
    - client/atrust/: ClientResource (parse.go), AuthLogin (auth/), DeviceTrust (auth/device.go,
      trust.go), Nodes (node.go), Packet, Conntrack, L3Codec, L3Tunnel and L3Link (l3tunnel*.go and
      ip.go, with internal/zctcpip), TCPTunnel and TunnelRequests (tcptunnel.go and the requests of the
      tunnels), ClientSetup (setup.go and the fields of client.go), ClientLife (Close, health and the
      virtual connections).
    - dial/, resolve/ and internal/underlay: Dial (the VPN and Internet outbounds, the router),
      Resolver, ResolverSetup (its constructor), Underlay (the choice of the physical interface),
      UnderlayBind (the binding of sockets to it).
    - stack/: GvisorStack (the endpoint between the gVisor stack and the client's layer-3 connection).
    - internal/dnsmessage, internal/networkruntime and internal/systemdns: DNSMessage, FakeIP, TunDNS,
      UDPFlows, TunService (the TUN inbound's life), TunDevice (its device and options), TunConnection (a
      TCP connection through it), SystemDNS (the macOS controller), Tracker,
      HalfClose (the wrappers around a connection), Routes, NetRuntime (start and
      failures), BackendSwitch (replacing the VPN backend of a running network), ServiceWatch (the
      ends of its services).
    - service/: Relay (connections, metadata, requests), Inbound (http.go), SocksInbound (socks.go),
      DNSInbound (dns.go).
    - internal/atrustruntime: RuntimeStart (one start, resume states), Session (state and
      operations of a session), SessionSteps (its goroutines as a transition system),
      SessionInv (the invariant, a lemma per step), SessionSafety (the theorems).
    - manager/: AuthBroker, Manager. daemonconfig/ and daemonruntime/: DaemonConfig, ConfigFile
      (files, patches, warnings), Controller, ManagedController (the controller over this manager).
    - control/: ControlEvents (the event hub), ControlService (methods, JSONL lines), JSONLServer (the
      server's goroutines), ControlREST.
    - internal/resumestate and main.go: ResumeStore, Daemon.
    - Compositions: ClientRun (a set-up driving a session), ConfigFlow (a configuration from the daemon
      down to the constructors that use it), Monitoring (a query from the manager down to the
      connection tracker).

    ** How the model corresponds to the code

    A struct is a [Record] with the fields that the operations read or write, an operation is
    a [Definition] with its name where Rocq allows it; setters named set_* only rebuild a
    record. A call that fails is a [result] or an [option error]; where Go would panic the
    result is an [option]. Machine integers are [Z] with their wrap-around or their range
    written out; bytes are [Z] in [0, 256); strings are their bytes. Maps are [gmap]; where the
    order of a Go map iteration can be seen, the order is a parameter that is any permutation,
    or the theorem does not depend on it. Shared objects (conntrack entries, fake IP entries,
    flows, clients, channels) are handles into a store, so that aliasing is what it is in Go.
    Time is an argument.

    Code that is a chain of calls over one state (set-up, device trust, system DNS, the daemon, the
    store) is written in the monad [StateError] of this file, and its safety properties in the logic
    [safely] on it: [safely P m Q] holds when [m], started in a state with [P], adds only effects to the
    trace that satisfy the section's invariant, and ends with [Q] of its result and state.

    Concurrency is interleaving. What a goroutine does under one hold of a mutex, or in one
    channel operation, is one step of an [Inductive] relation; program counters ([StartPC],
    [ClosePC], [MonitorPC], [RefreshPC], [ReplaceStage], [CloseStage], ...) say where each goroutine
    is. Theorems are about every state that the relation reaches. Data races and the memory
    model are outside.

    What the program asks of others (servers, files, TLS, JSON, hashes, sockets, the TUN library, the
    operating system) is an argument of the definitions; laws that are assumed of it are
    stated in the interface classes and have an instance that satisfies them: [DNSCache]
    (go-cache), [IPSetBuilder] (netaddr), [Outbound] (an outbound of dial/), [LawfulDNS] (the commands and
    files of the system resolver), [LawfulFS] (a file system with renames), [LawfulLibrary] (the DNS
    server library), [TrustServer] (the server's requests for a device), [SessionManager] (what the controller needs of the manager, proved of
    manager/manager.go by [managed_manager]), [StartsNoSession] (queries of the manager start nothing,
    proved of its queries by [managed_queries_quiet]).

    ** What the theorems show

    - Sessions: in every interleaving no client and no network is leaked or closed twice, a step makes at most one
      move and it follows the table of core/state.go, and [Close] comes to its end with everything closed by steps of its
      own, with the reader of the events taking one where the channel is full and SetRoutingMode waits on it
      ([session_no_leak], [session_state_machine], [close_completes]); starts are all or nothing
      ([start_all_or_nothing]), but for a service whose [Close] fails and for DNS settings that the system's
      controller cannot put back ([network_start_all_or_nothing], [tun_leaves_nothing]); resume states
      survive encoding, are refused for another account, and the daemon's file follows the session
      ([resume_state_roundtrip], [resume_save_atomic], [resume_file_follows_session]).
    - The client: the set-up goes through its stages in order and drives the session's states
      ([setup_in_order], [setup_drives_session]), closing it leaves nothing ([client_close_leaves_nothing]),
      the trust of a device changes only as asked ([trust_follows_request]).
    - Replacing the backend goes through its three locks one after another: dials and resolutions may see different
      backends meanwhile, but always one that is open, and the old one is closed only
      after both were switched away from it ([vpn_switch_without_gap]);
      one session is active in the process ([single_active_session]); each challenge is
      answered at most once ([auth_response_once]).
    - The controller tells the truth about the session it runs, and settings come into force
      only at their level ([controller_describes_session], [settings_apply_at_their_level],
      [candidate_splits_changes]); this holds for whatever clients send
      ([clients_keep_controller], [rest_requests_are_guarded], [control_responses]); subscribers miss
      no event ([subscribers_see_all_events]); every line that fits the scanner gets one attempt at its
      response ([jsonl_serves]); what is told of connections is true
      ([monitoring_is_true], [traffic_accounting]).
    - The daemon: it serves only guarded listeners and takes down what it opened, or ends with the error of what it
      could not ([daemon_guards_and_releases]); a patch changes what it names ([patch_changes_what_it_names]); a valid
      configuration is one that the components accept, and reaches them ([valid_core_config],
      [configuration_reaches_components]).
    - The login is bounded, keeps its credentials on the server and skips no step
      ([login_bounded]); resources are parsed exactly, but for IPv4 networks in the
      notation of IPv6 ([resources_parsed_exactly]).
    - Tunnels: no packet without an authorisation of its own flow ([conntrack_auth_safety],
      [authorised_write]), the first matching resource ([processIPV4_first_match]), no leaked
      connection ([tunnel_no_leak], [tcp_dial_sound]), faithful requests, streams and frames
      ([auth_request_of_flow], [tcp_stream_faithful], [l3_link_faithful], [parseDataPayload_exact],
      [readFrame_spec]).
    - The network: addresses of VPN resources never go out directly, and a result tells who dialed ([vpn_resource_no_leak],
      [router_isolation]), tunnels stay outside the TUN ([underlay_stays_outside]), routes are exactly those
      of the resources ([routes_exact]), DNS through the TUN leads back to the name
      ([tun_dns_leads_back], [fake_ip_bijection], [fake_ip_lease], [tcp_dns_stream],
      [dns_reply_well_formed], [resolve_is_cached]), the system's resolvers can be restored
      ([system_dns_recoverable]), flows are accounted for ([udp_no_leak], [udp_limit_kept]); the gVisor stack
      passes packets on in order and gives its connection back ([gvisor_stack_releases]); a service that ends is
      reported once, and the TUN's end is the runtime's ([service_end_reported]).
    - Inbounds: closing leaves no listener and no connection ([http_close_leaves_nothing],
      [socks_close_leaves_nothing]; [dns_close_needs_servers] shows when the DNS inbound does not),
      relays pass on exactly what they read ([relay_faithful]); a connection through the TUN is copied in
      order, counted and released ([tun_connection_released]), and the TUN's options fit together
      ([start_options_fit]).

    Examples next to the theorems show behaviour that the code has and does not seem to mean:
    [skipped_node_is_chosen], [udp_limit_can_be_lost], [late_adopt_leaks], [static_ipv4_answers_AAAA],
    [subsecond_durations_become_zero], [tcpResourceFor_last_match], [late_subscriber_is_forgotten],
    [session_id_is_unescaped_twice], [valid_but_refused], [empty_fake_range_is_not_routed],
    [host_names_reach_the_request], [half_close_loses_the_answer], [direct_send_blocks_emit],
    [failed_close_leaves_service_open], [failed_apply_leaves_dns], [mapped_network_is_one_address].

    ** Bounds and fuel

    [readFrame], [wait_protocol], [tcp_read_frames] and [handleTCPDNS] run on more fuel than the bytes
    that are still to come, and each round reads at least one; [readFrame_spec] and
    [tcp_dns_stream] show that they then return. [evict_oldest] has the size of the table, and
    one entry leaves per round. [reconnectDelay_loop] needs five rounds to reach the cap.
    [graph_loop] (5 attempts) and [continue_loop] (8 steps) count what the code counts and return
    its errors. The parsers of addresses run on the characters that are left.

    ** Not modelled

    The gVisor network stack and the SOCKS5, HTTP and DNS protocol code belong to libraries; the accept loops
    and goroutines around them are the steps of the inbounds. System calls, resume files on Windows and the
    TUN library's devices and monitors depend on the operating system: what they answer is an argument.
    Deadlines and ticks of the clock are steps or arguments. TLS, JSON, YAML, RSA, hashes and HTTP are the
    libraries'. Interfaces, accessors that return a field or a channel, and wrappers that only pass a call on
    have no definition. *)

From Stdlib Require Export ZArith Lia Ascii String.
From stdpp Require Export base tactics numbers list option gmap strings pretty.

(** ** Scope and notations *)

Declare Scope go_scope.
Delimit Scope go_scope with go.
Open Scope go_scope.
Open Scope Z_scope.

(** A Go call that returns either a value or an error. *)
Inductive result (E A : Type) : Type :=
| Ok (a : A)
| Err (e : E).

Arguments Ok {E A} a.
Arguments Err {E A} e.

Definition result_bind {E A B} (r : result E A) (k : A -> result E B) : result E B :=
  match r with
  | Ok a => k a
  | Err e => Err e
  end.

Definition is_ok {E A} (r : result E A) : bool :=
  match r with
  | Ok _ => true
  | Err _ => false
  end.

Notation "'let?' x ':=' c 'in' k" := (result_bind c (fun x => k))
  (at level 10, x pattern, c at level 100, k at level 200) : go_scope.

(** [if err := c; err != nil { return err }] for a call that returns only an error. *)
Notation "'guard?' c 'in' k" := (match c with Some e => Err e | None => k end)
  (at level 10, c at level 100, k at level 200) : go_scope.

(** ** The Go values [error] of the program

    [EText] is [errors.New] or [fmt.Errorf] without [%w], [EVar] a package-level error
    variable (compared by identity, which is its name), [EWrap] is [fmt.Errorf] with one
    [%w], [EJoin] is [errors.Join], [EDNS] is [*net.DNSError], and [ECore] is [*core.Error] (core/error.go): code,
    message, detail, retryable flag and the wrapped error. *)
Inductive error : Type :=
| EText (msg : string)
| EVar (name msg : string)
| EWrap (msg : string) (inner : error)
| EJoin (errs : list error)
| EDNS (msg name : string) (notFound temporary : bool)
| ECore (code msg detail : string) (retryable : bool) (inner : option error).

(** ** Code that changes a state and may fail

    [StateError S] is the monad of long chains of calls on one state, with stdpp's notations: a
    call that fails ends the chain and leaves the state as it is by then. *)
Definition StateError (S A : Type) : Type := S -> result error A * S.

#[export] Instance StateError_ret {S} : MRet (StateError S) := fun A a s => (Ok a, s).
#[export] Instance StateError_bind {S} : MBind (StateError S) := fun A B f m s =>
  match m s with
  | (Ok a, s) => f a s
  | (Err e, s) => (Err e, s)
  end.

Definition fail {S A} (e : error) : StateError S A := fun s => (Err e, s).
Definition lift {S A} (r : result error A) : StateError S A := fun s => (r, s).
(** [if err := ...; err != nil { return err }] for an error that is at hand. *)
Definition check {S} (err : option error) : StateError S unit := fun s =>
  (match err with Some e => Err e | None => Ok tt end, s).
(** The error of [m] as a value. *)
Definition attempt {S A} (m : StateError S A) : StateError S (result error A) := fun s =>
  let '(r, s) := m s in (Ok r, s).
Definition wrap_error {S A} (f : error -> error) (m : StateError S A) : StateError S A := fun s =>
  match m s with
  | (Err e, s) => (Err (f e), s)
  | r => r
  end.

(** *** Runs whose every step matters

    Where a crash between two steps matters, the state keeps a trace of what the surroundings
    went through. [safely trace I P m Q]: from a state in [P], [m] adds only worlds in [I] to the
    trace, and its result and its last state are in [Q]. *)
Section Safely.
Context {S W : Type} {trace : S -> list W} {I : W -> Prop}.

Definition safely {A} (P : S -> Prop) (m : StateError S A) (Q : result error A -> S -> Prop) : Prop :=
  forall s, P s ->
    (exists new, trace (m s).2 = trace s ++ new /\ Forall I new) /\ Q (m s).1 (m s).2.

Lemma safely_bind {A B} P (m : StateError S A) (f : A -> StateError S B) Q R :
  safely P m Q -> (forall a, safely (Q (Ok a)) (f a) R) -> (forall e s, Q (Err e) s -> R (Err e) s) ->
  safely P (m ≫= f) R.
Proof.
  intros Hm Hf He s Hs. unfold mbind, StateError_bind. destruct (Hm s Hs) as [(new & Htr & Hnew) HQ].
  destruct (m s) as [[a|e] s1]; simpl in *; [|split; [by exists new|by apply He]].
  destruct (Hf a s1 HQ) as [(new' & Htr' & Hnew') HR]. split; [|done]. exists (new ++ new').
  rewrite Htr', Htr, app_assoc. split; [done|by apply Forall_app].
Qed.

Lemma safely_weaken {A} (P P' : S -> Prop) (m : StateError S A) (Q Q' : result error A -> S -> Prop) :
  safely P m Q -> (forall s, P' s -> P s) -> (forall r s, Q r s -> Q' r s) -> safely P' m Q'.
Proof. intros Hm HP HQ s Hs. destruct (Hm s (HP s Hs)) as [? ?]. split; [done|by apply HQ]. Qed.

Lemma safely_pre {A} (P P' : S -> Prop) (m : StateError S A) (Q : result error A -> S -> Prop) :
  (forall s, P' s -> P s) -> safely P m Q -> safely P' m Q.
Proof. intros HP Hm s Hs. by apply Hm, HP. Qed.

Lemma safely_quiet {A} (m : StateError S A) (P : S -> Prop) (Q : result error A -> S -> Prop) :
  (forall s, P s -> trace (m s).2 = trace s /\ Q (m s).1 (m s).2) -> safely P m Q.
Proof. intros H s Hs. destruct (H s Hs). split; [exists []; by rewrite app_nil_r|done]. Qed.

Lemma safely_ret {A} (a : A) (P : S -> Prop) (Q : result error A -> S -> Prop) :
  (forall s, P s -> Q (Ok a) s) -> safely P (mret a) Q.
Proof. intros H. apply safely_quiet. intros s Hs. split; [done|by apply H]. Qed.

Lemma safely_wrap_error {A} f (m : StateError S A) P (Q : result error A -> S -> Prop) :
  safely P m Q -> (forall e e' s, Q (Err e) s -> Q (Err e') s) -> safely P (wrap_error f m) Q.
Proof.
  intros Hm He s Hs. destruct (Hm s Hs) as [Htr HQ]. unfold wrap_error.
  destruct (m s) as [[a|e] s1]; simpl in *; split; eauto.
Qed.

Lemma safely_attempt {A} (m : StateError S A) P (Q : result error A -> S -> Prop) :
  safely P m Q -> safely P (attempt m) (fun r s => exists r', r = Ok r' /\ Q r' s).
Proof.
  intros Hm s Hs. destruct (Hm s Hs) as [Htr HQ]. unfold attempt. destruct (m s) as [r s1].
  simpl in *. split; [done|]. by exists r.
Qed.

(** What is done behind [m], whatever its result. *)
Lemma safely_then {A} (m : StateError S A) (g : result error A -> S -> S) P Q (R : result error A -> S -> Prop) :
  safely P m Q ->
  (forall r s, Q r s ->
     (exists new, trace (g r s) = trace s ++ new /\ Forall I new) /\ R r (g r s)) ->
  safely P (fun s => ((m s).1, g (m s).1 (m s).2)) R.
Proof.
  intros Hm Hg s Hs. destruct (Hm s Hs) as [(new & Htr & Hnew) HQ]. simpl.
  destruct (Hg _ _ HQ) as [(new' & Htr' & Hnew') HR]. split; [|done]. exists (new ++ new').
  rewrite Htr', Htr, app_assoc. split; [done|by apply Forall_app].
Qed.

(** A fact before the run that is not about its state. *)
Lemma safely_pure {A} (F : Prop) (m : StateError S A) (P : S -> Prop) (Q : result error A -> S -> Prop) :
  (F -> safely P m Q) -> safely (fun s => F /\ P s) m Q.
Proof. intros Hm s [HF Hs]. by apply Hm. Qed.

(** What a longer trace cannot make false. *)
Lemma safely_frame {A} (R : S -> Prop) (m : StateError S A) P (Q : result error A -> S -> Prop) :
  (forall s s' new, R s -> trace s' = trace s ++ new -> R s') ->
  safely P m Q -> safely (fun s => P s /\ R s) m (fun r s => Q r s /\ R s).
Proof.
  intros HR Hm s [HP Hs]. destruct (Hm s HP) as [(new & Htr & Hnew) HQ].
  split; [by exists new|]. split; [done|]. by eapply HR.
Qed.
End Safely.
Arguments safely {S W} trace I {A}.

(** ** Strings (package strings and strconv, on the ASCII range) *)

Definition is_nil {A} (l : list A) : bool :=
  match l with [] => true | _ => false end.

Definition chars (s : string) : list ascii := String.list_ascii_of_string s.

Definition of_chars (l : list ascii) : string := String.string_of_list_ascii l.

Definition strlen (s : string) : Z := Z.of_nat (String.length s).

Definition is_empty (s : string) : bool := bool_decide (s = ""%string).

Definition lower_ascii (c : ascii) : ascii :=
  let n := nat_of_ascii c in
  if bool_decide (65 <= n <= 90)%nat then ascii_of_nat (n + 32) else c.

Definition upper_ascii (c : ascii) : ascii :=
  let n := nat_of_ascii c in
  if bool_decide (97 <= n <= 122)%nat then ascii_of_nat (n - 32) else c.

Definition ToLower (s : string) : string := of_chars (map lower_ascii (chars s)).

Definition ToUpper (s : string) : string := of_chars (map upper_ascii (chars s)).

(** [strings.EqualFold] on ASCII. *)
Definition EqualFold (s t : string) : bool := bool_decide (ToLower s = ToLower t).

Definition is_space (c : ascii) : bool :=
  let n := nat_of_ascii c in bool_decide (n = 32 \/ 9 <= n <= 13)%nat.

Fixpoint drop_space (l : list ascii) : list ascii :=
  match l with
  | c :: l' => if is_space c then drop_space l' else l
  | [] => []
  end.

Definition TrimSpace (s : string) : string :=
  of_chars (reverse (drop_space (reverse (drop_space (chars s))))).

Fixpoint prefix_chars (p l : list ascii) : bool :=
  match p, l with
  | [], _ => true
  | a :: p', b :: l' => bool_decide (a = b) && prefix_chars p' l'
  | _ :: _, [] => false
  end.

Definition HasPrefix (s p : string) : bool := prefix_chars (chars p) (chars s).

Definition HasSuffix (s p : string) : bool :=
  prefix_chars (reverse (chars p)) (reverse (chars s)).

Definition TrimPrefix (s p : string) : string :=
  if HasPrefix s p then of_chars (drop (String.length p) (chars s)) else s.

Definition TrimSuffix (s p : string) : string :=
  if HasSuffix s p then of_chars (take (String.length s - String.length p) (chars s)) else s.

Fixpoint contains_chars (p l : list ascii) : bool :=
  prefix_chars p l ||
  match l with
  | [] => false
  | _ :: l' => contains_chars p l'
  end.

Definition Contains (s sub : string) : bool := contains_chars (chars sub) (chars s).

(** [strings.Split s sep] for a one-byte separator: always at least one part. *)
Fixpoint split_chars (sep : ascii) (l : list ascii) : list (list ascii) :=
  match l with
  | [] => [[]]
  | c :: l' =>
      if bool_decide (c = sep) then [] :: split_chars sep l'
      else match split_chars sep l' with
           | part :: parts => (c :: part) :: parts
           | [] => [[c]]
           end
  end.

Definition Split (s : string) (sep : ascii) : list string :=
  map of_chars (split_chars sep (chars s)).

(** [strings.ReplaceAll s c ""] for a one-byte [c]. *)
Definition RemoveAll (s : string) (c : ascii) : string :=
  of_chars (List.filter (fun x => negb (bool_decide (x = c))) (chars s)).

Definition digit_of (c : ascii) : option Z :=
  let n := nat_of_ascii c in
  if bool_decide (48 <= n <= 57)%nat then Some (Z.of_nat n - 48) else None.

Fixpoint digits_value (acc : Z) (l : list ascii) : option Z :=
  match l with
  | [] => Some acc
  | c :: l' =>
      match digit_of c with
      | Some d => digits_value (10 * acc + d) l'
      | None => None
      end
  end.

Definition maxInt : Z := 2 ^ 63 - 1.
Definition minInt : Z := - 2 ^ 63.

(** [strconv.Atoi]: [None] is a syntax or range error. *)
Definition Atoi (s : string) : option Z :=
  let '(sign, body) :=
    match chars s with
    | "+"%char :: l => (1, l)
    | "-"%char :: l => (-1, l)
    | l => (1, l)
    end in
  match body with
  | [] => None
  | _ =>
      match digits_value 0 body with
      | Some v =>
          let r := sign * v in
          if bool_decide (minInt <= r <= maxInt) then Some r else None
      | None => None
      end
  end.

(** [%d]. *)
Definition itoa (z : Z) : string := pretty z.

(** [%q] for printable ASCII: quotes and backslashes are escaped. *)
Definition dquote : ascii := "034"%char.

Fixpoint escape_chars (l : list ascii) : list ascii :=
  match l with
  | [] => []
  | c :: l' =>
      if bool_decide (c = dquote \/ c = "\"%char) then "\"%char :: c :: escape_chars l'
      else c :: escape_chars l'
  end.

Definition quote (s : string) : string :=
  of_chars (dquote :: escape_chars (chars s) ++ [dquote]).

(** ** Shared automation *)

(** Case analysis on the first [bool_decide] of the goal, then on its subgoals. *)
Ltac bdestruct_all := repeat (case_bool_decide; simpl in * ).

(** Peel [option] binds in a hypothesis. *)
Ltac obind H :=
  repeat match type of H with
  | mbind _ ?o = Some _ =>
      let E := fresh "E" in destruct o eqn:E; simpl in H; [|discriminate H]
  end.

(** Split a hypothesis that is a boolean conjunction, and turn decisions into facts. *)
Ltac bool_hyps :=
  repeat match goal with
  | H : _ && _ = true |- _ => apply andb_true_iff in H as [? ?]
  | H : negb _ = true |- _ => apply negb_true_iff in H
  | H : negb _ = false |- _ => apply negb_false_iff in H
  | H : bool_decide _ = true |- _ => apply bool_decide_eq_true in H
  | H : bool_decide _ = false |- _ => apply bool_decide_eq_false in H
  end.

Create HintDb golib discriminated.

(** ** Lemmas on strings as lists of characters *)

Lemma chars_of_chars l : chars (of_chars l) = l.
Proof. apply list_ascii_of_string_of_list_ascii. Qed.

Lemma of_chars_chars s : of_chars (chars s) = s.
Proof. apply string_of_list_ascii_of_string. Qed.

Lemma chars_inj s t : chars s = chars t -> s = t.
Proof. intros H. by rewrite <-(of_chars_chars s), <-(of_chars_chars t), H. Qed.

Lemma chars_app s t : chars (s +:+ t) = chars s ++ chars t.
Proof.
  induction s as [|c s IH]; [done|]. simpl. unfold chars in *. simpl. by rewrite IH.
Qed.

Lemma length_chars s : length (chars s) = String.length s.
Proof. induction s as [|c s IH]; [done|]. unfold chars in *. simpl. by rewrite IH. Qed.

(** Two splits of one list at a separator that the left parts do not contain agree. *)
Lemma split_unique {A} (c : A) l1 l2 r1 r2 :
  c ∉ l1 -> c ∉ l2 -> l1 ++ c :: r1 = l2 ++ c :: r2 -> l1 = l2 /\ r1 = r2.
Proof.
  revert l2. induction l1 as [|x l1 IH]; intros [|y l2] H1 H2 H; simpl in H.
  - by injection H.
  - injection H as -> H. exfalso. apply H2. by left.
  - injection H as -> H. exfalso. apply H1. by left.
  - injection H as -> H.
    apply not_elem_of_cons in H1 as [_ H1]. apply not_elem_of_cons in H2 as [_ H2].
    destruct (IH l2 H1 H2 H) as [-> ->]. done.
Qed.

Definition is_digit (c : ascii) : Prop := exists d, digit_of c = Some d /\ 0 <= d < 10.

Lemma pretty_N_char_digit x :
  (x < 10)%N -> digit_of (pretty_N_char x) = Some (Z.of_N x).
Proof.
  intros H.
  assert (x = 0 \/ x = 1 \/ x = 2 \/ x = 3 \/ x = 4 \/ x = 5 \/ x = 6 \/ x = 7 \/ x = 8
          \/ x = 9)%N as D by lia.
  repeat destruct D as [->|D]; try subst; by vm_compute.
Qed.

Lemma digits_value_app acc l1 l2 v :
  digits_value acc l1 = Some v -> digits_value acc (l1 ++ l2) = digits_value v l2.
Proof.
  revert acc; induction l1 as [|c l1 IH]; intros acc; simpl; [by intros [= ->]|].
  destruct (digit_of c); [|done]. apply IH.
Qed.

(** Printing then reading a decimal accumulates it in front of what follows. *)
Lemma pretty_N_go_digits x s :
  exists l, chars (pretty_N_go x s) = l ++ chars s /\ Forall is_digit l /\
    digits_value 0 l = Some (Z.of_N x) /\ ((0 < x)%N -> l <> []).
Proof.
  revert s. induction (N.lt_wf_0 x) as [x _ IH]; intros s.
  assert (x = 0 \/ 0 < x)%N as [->|Hx] by lia.
  { rewrite pretty_N_go_0. exists []. split_and!; [done|constructor|done|lia]. }
  rewrite pretty_N_go_step by done.
  destruct (IH (x `div` 10)%N (N.div_lt x 10 Hx eq_refl)
              (String (pretty_N_char (x `mod` 10)) s)) as (l & Hl & Hd & Hv & _).
  assert (x `mod` 10 < 10)%N as Hm by (by apply N.mod_lt).
  pose proof (pretty_N_char_digit _ Hm) as Hc.
  exists (l ++ [pretty_N_char (x `mod` 10)]). split_and!.
  - rewrite Hl, <-app_assoc. done.
  - apply Forall_app. split; [done|]. apply Forall_singleton. exists (Z.of_N (x `mod` 10)). split; [exact Hc|].
    clear - Hm. generalize dependent (x `mod` 10)%N. intros m Hm. lia.
  - rewrite (digits_value_app _ _ _ _ Hv). cbn [digits_value]. rewrite Hc.
    f_equal. rewrite (N.div_mod x 10) at 3 by done. lia.
  - by destruct l.
Qed.

Lemma itoa_digits z :
  0 <= z -> Forall is_digit (chars (itoa z)) /\ digits_value 0 (chars (itoa z)) = Some z /\
    chars (itoa z) <> [].
Proof.
  intros Hz. unfold itoa. destruct z as [|p|p]; [| |lia].
  { split_and!; [|done|done]. repeat constructor. by exists 0. }
  change (pretty (Z.pos p)) with (pretty_N_go (N.pos p) "").
  destruct (pretty_N_go_digits (N.pos p) "") as (l & -> & Hd & Hv & Hn).
  rewrite app_nil_r. split_and!; [done|done|]. by apply Hn.
Qed.

Lemma itoa_inj z1 z2 : itoa z1 = itoa z2 -> z1 = z2.
Proof. apply (inj pretty). Qed.

Lemma not_digit_notin c l : digit_of c = None -> Forall is_digit l -> c ∉ l.
Proof. intros Hc Hl Hin. rewrite Forall_forall in Hl. destruct (Hl c Hin) as (d & ? & _). congruence. Qed.

Lemma split_chars_cons sep a b :
  sep ∉ a -> split_chars sep (a ++ sep :: b) = a :: split_chars sep b.
Proof.
  induction a as [|c a IH]; intros Hn; cbn.
  - by rewrite bool_decide_eq_true_2.
  - apply not_elem_of_cons in Hn as [Hc Hn]. rewrite bool_decide_eq_false_2 by done. by rewrite IH.
Qed.

Lemma split_chars_plain sep a : sep ∉ a -> split_chars sep a = [a].
Proof.
  induction a as [|c a IH]; intros Hn; cbn; [done|].
  apply not_elem_of_cons in Hn as [Hc Hn]. rewrite bool_decide_eq_false_2 by done. by rewrite IH.
Qed.

