(* ===== verification/Core.v ===== *)
(** Package core: errors, the session state table, authentication challenges and
    responses, events, configuration and the reports the other packages exchange
    (core/error.go, core/state.go, core/auth.go, core/event.go, core/session.go,
    core/stats.go, core/config.go). *)

From S2P Require Import Prelude.

(** ** core/error.go *)

Definition ErrorCode : Type := string.

Definition ErrorCodeUnknown : ErrorCode := "UNKNOWN".
Definition ErrorCodeResourceDataReadFailed : ErrorCode := "RESOURCE_DATA_READ_FAILED".
Definition ErrorCodeClientDataWriteFailed : ErrorCode := "CLIENT_DATA_WRITE_FAILED".
Definition ErrorCodeATrustSetupFailed : ErrorCode := "ATRUST_SETUP_FAILED".
Definition ErrorCodeInvalidStateTransition : ErrorCode := "INVALID_STATE_TRANSITION".
Definition ErrorCodeAuthChallengeInvalid : ErrorCode := "AUTH_CHALLENGE_INVALID".
Definition ErrorCodeAuthResponseInvalid : ErrorCode := "AUTH_RESPONSE_INVALID".
Definition ErrorCodeAuthHandlerUnavailable : ErrorCode := "AUTH_HANDLER_UNAVAILABLE".
Definition ErrorCodeSessionStartFailed : ErrorCode := "SESSION_START_FAILED".
Definition ErrorCodeSessionAlreadyRunning : ErrorCode := "SESSION_ALREADY_RUNNING".
Definition ErrorCodeSessionReconnectFailed : ErrorCode := "SESSION_RECONNECT_FAILED".
Definition ErrorCodeSessionCloseFailed : ErrorCode := "SESSION_CLOSE_FAILED".
Definition ErrorCodeInvalidRequest : ErrorCode := "INVALID_REQUEST".
Definition ErrorCodeMethodNotFound : ErrorCode := "METHOD_NOT_FOUND".
Definition ErrorCodeProtocolUnsupported : ErrorCode := "PROTOCOL_VERSION_UNSUPPORTED".
Definition ErrorCodeSessionNotFound : ErrorCode := "SESSION_NOT_FOUND".
Definition ErrorCodeSessionNotReady : ErrorCode := "SESSION_NOT_READY".
Definition ErrorCodeResourcesUnavailable : ErrorCode := "RESOURCES_UNAVAILABLE".
Definition ErrorCodeNetworkSetupFailed : ErrorCode := "NETWORK_SETUP_FAILED".
Definition ErrorCodeOutboundUnavailable : ErrorCode := "OUTBOUND_UNAVAILABLE".
Definition ErrorCodeAuthChallengeNotFound : ErrorCode := "AUTH_CHALLENGE_NOT_FOUND".
Definition ErrorCodeConnectionNotFound : ErrorCode := "CONNECTION_NOT_FOUND".
Definition ErrorCodeResumeStateInvalid : ErrorCode := "RESUME_STATE_INVALID".
Definition ErrorCodeResumeStateScope : ErrorCode := "RESUME_STATE_SCOPE_MISMATCH".
Definition ErrorCodeResumeStateUnavailable : ErrorCode := "RESUME_STATE_UNAVAILABLE".
Definition ErrorCodeConfigInvalid : ErrorCode := "CONFIG_INVALID".
Definition ErrorCodeConfigUnavailable : ErrorCode := "CONFIG_UNAVAILABLE".
Definition ErrorCodeRestartRequired : ErrorCode := "RESTART_REQUIRED".
Definition ErrorCodeAddressInUse : ErrorCode := "ADDRESS_IN_USE".
Definition ErrorCodePermissionDenied : ErrorCode := "PERMISSION_DENIED".
Definition ErrorCodeTUNUnavailable : ErrorCode := "TUN_UNAVAILABLE".
Definition ErrorCodeInterfaceUnavailable : ErrorCode := "INTERFACE_UNAVAILABLE".
Definition ErrorCodeRouteSetupFailed : ErrorCode := "ROUTE_SETUP_FAILED".
Definition ErrorCodeDNSStartFailed : ErrorCode := "DNS_START_FAILED".

Definition newline : string := String "010"%char "".

(** [err.Error()]; on [*core.Error] it is the method of core/error.go. *)
Fixpoint error_text (e : error) : string :=
  match e with
  | EText msg => msg
  | EVar _ msg => msg
  | EDNS msg name _ _ => "lookup " +:+ name +:+ ": " +:+ msg
  | EWrap msg _ => msg
  | EJoin errs =>
      (fix join (l : list error) : string :=
         match l with
         | [] => ""
         | [x] => error_text x
         | x :: l' => error_text x +:+ newline +:+ join l'
         end) errs
  | ECore _ msg detail _ inner =>
      match inner with
      | None => msg
      | Some i =>
          if is_empty msg then error_text i
          else if is_empty detail then msg
          else msg +:+ ": " +:+ detail
      end
  end.

Definition WrapError (code : ErrorCode) (message : string) (retryable : bool)
    (err : option error) : error :=
  let detail := match err with Some e => error_text e | None => "" end in
  ECore code message detail retryable err.

(** [errors.As(err, &coreError)]: the first [*core.Error] in depth-first order. *)
Fixpoint as_core (e : error) : option error :=
  match e with
  | ECore _ _ _ _ _ => Some e
  | EWrap _ i => as_core i
  | EJoin errs =>
      (fix first (l : list error) : option error :=
         match l with
         | [] => None
         | x :: l' => match as_core x with Some c => Some c | None => first l' end
         end) errs
  | EText _ | EVar _ _ | EDNS _ _ _ _ => None
  end.

(** [errors.As(err, &dnsError) && dnsError.IsNotFound]. *)
Fixpoint as_dns (e : error) : option error :=
  match e with
  | EDNS _ _ _ _ => Some e
  | EWrap _ i => as_dns i
  | EJoin errs =>
      (fix first (l : list error) : option error :=
         match l with
         | [] => None
         | x :: l' => match as_dns x with Some c => Some c | None => first l' end
         end) errs
  | ECore _ _ _ _ inner => match inner with Some i => as_dns i | None => None end
  | EText _ | EVar _ _ => None
  end.

Definition dns_IsNotFound (e : error) : bool :=
  match as_dns e with Some (EDNS _ _ nf _) => nf | _ => false end.

(** [errors.Is(err, target)] for a package-level variable [target]. *)
Fixpoint errors_Is (e : error) (target : string) : bool :=
  match e with
  | EText _ | EDNS _ _ _ _ => false
  | EVar name _ => bool_decide (name = target)
  | EWrap _ i => errors_Is i target
  | EJoin errs =>
      (fix any (l : list error) : bool :=
         match l with [] => false | x :: l' => errors_Is x target || any l' end) errs
  | ECore _ _ _ _ inner =>
      match inner with Some i => errors_Is i target | None => false end
  end.

Definition core_code (e : error) : ErrorCode :=
  match e with ECore code _ _ _ _ => code | _ => ErrorCodeUnknown end.

Definition core_retryable (e : error) : bool :=
  match e with ECore _ _ _ r _ => r | _ => false end.

Definition ErrorCodeOf (err : option error) : ErrorCode :=
  match err with
  | None => ErrorCodeUnknown
  | Some e => match as_core e with Some c => core_code c | None => ErrorCodeUnknown end
  end.

Definition IsRetryable (err : option error) : bool :=
  match err with
  | None => false
  | Some e => match as_core e with Some c => core_retryable c | None => false end
  end.

(** [asCoreError(code, message, err)] of internal/atrustruntime/session.go. *)
Definition asCoreError (code : ErrorCode) (message : string) (err : error) : error :=
  match as_core err with
  | Some c => c
  | None => WrapError code message false (Some err)
  end.

(** [errors.Join]: nil errors are dropped and joining nothing gives nil. *)
Definition errors_Join (errs : list (option error)) : option error :=
  match omap id errs with
  | [] => None
  | es => Some (EJoin es)
  end.

Definition ctx_Canceled : error := EVar "context.Canceled" "context canceled".
Definition ctx_DeadlineExceeded : error :=
  EVar "context.DeadlineExceeded" "context deadline exceeded".
Definition io_EOF : error := EVar "io.EOF" "EOF".
Definition io_ErrUnexpectedEOF : error := EVar "io.ErrUnexpectedEOF" "unexpected EOF".
Definition net_ErrClosed : error := EVar "net.ErrClosed" "use of closed network connection".

(** ** core/state.go *)

Definition SessionID : Type := string.
Definition SessionState : Type := string.

Definition SessionStateIdle : SessionState := "idle".
Definition SessionStateDiscoveringAuth : SessionState := "discovering_auth".
Definition SessionStateAuthenticating : SessionState := "authenticating".
Definition SessionStateFetchingResources : SessionState := "fetching_resources".
Definition SessionStateSelectingNodes : SessionState := "selecting_nodes".
Definition SessionStateEstablishingTunnel : SessionState := "establishing_tunnel".
Definition SessionStateReady : SessionState := "ready".
Definition SessionStateReconnecting : SessionState := "reconnecting".
Definition SessionStateFailed : SessionState := "failed".
Definition SessionStateStopping : SessionState := "stopping".
Definition SessionStateStopped : SessionState := "stopped".

(** [map[SessionState]map[SessionState]struct{}]. *)
Definition sessionStateTransitions : gmap string (gset string) :=
  list_to_map [
    (SessionStateIdle,
      {[ SessionStateDiscoveringAuth; SessionStateFailed; SessionStateStopping ]});
    (SessionStateDiscoveringAuth,
      {[ SessionStateAuthenticating; SessionStateFailed; SessionStateStopping ]});
    (SessionStateAuthenticating,
      {[ SessionStateFetchingResources; SessionStateFailed; SessionStateStopping ]});
    (SessionStateFetchingResources,
      {[ SessionStateSelectingNodes; SessionStateFailed; SessionStateStopping ]});
    (SessionStateSelectingNodes,
      {[ SessionStateEstablishingTunnel; SessionStateFailed; SessionStateStopping ]});
    (SessionStateEstablishingTunnel,
      {[ SessionStateReady; SessionStateFailed; SessionStateStopping ]});
    (SessionStateReady,
      {[ SessionStateReconnecting; SessionStateFailed; SessionStateStopping ]});
    (SessionStateReconnecting,
      {[ SessionStateReady; SessionStateFailed; SessionStateStopping ]});
    (SessionStateFailed, {[ SessionStateStopping ]});
    (SessionStateStopping, {[ SessionStateStopped ]});
    (SessionStateStopped, ∅) ].

Definition SessionState_Valid (s : SessionState) : bool :=
  match sessionStateTransitions !! s with Some _ => true | None => false end.

Definition SessionState_Terminal (s : SessionState) : bool :=
  bool_decide (s = SessionStateStopped).

Definition CanTransitionSessionState (from to : SessionState) : bool :=
  match sessionStateTransitions !! from with
  | None => false
  | Some transitions => bool_decide (to ∈ transitions)
  end.

Definition ValidateSessionStateTransition (from to : SessionState) : option error :=
  if CanTransitionSessionState from to then None
  else Some (WrapError ErrorCodeInvalidStateTransition
    ("cannot transition session state from " +:+ quote from +:+ " to " +:+ quote to)
    false None).

(** ** core/auth.go *)

Definition MaxAuthChallengeImageSize : Z := 4 * 1024 * 1024.

Definition AuthChallengeKind : Type := string.
Definition AuthChallengePassword : AuthChallengeKind := "password".
Definition AuthChallengeSMS : AuthChallengeKind := "sms".
Definition AuthChallengeSecondarySMS : AuthChallengeKind := "secondary_sms".
Definition AuthChallengeTOTP : AuthChallengeKind := "totp".
Definition AuthChallengeCASCallback : AuthChallengeKind := "cas_callback".
Definition AuthChallengeOAuthCallback : AuthChallengeKind := "oauth_callback".
Definition AuthChallengeGraphText : AuthChallengeKind := "graph_text".
Definition AuthChallengeGraphClick : AuthChallengeKind := "graph_click".
Definition AuthChallengeSelectAuthenticationMethod : AuthChallengeKind :=
  "select_authentication_method".

Definition validAuthChallengeKinds : gset string :=
  {[ AuthChallengePassword; AuthChallengeSMS; AuthChallengeSecondarySMS;
     AuthChallengeTOTP; AuthChallengeCASCallback; AuthChallengeOAuthCallback;
     AuthChallengeGraphText; AuthChallengeGraphClick;
     AuthChallengeSelectAuthenticationMethod ]}.

Record AuthChoice : Type := {
  choice_ID : string;
  choice_Label : string;
  choice_Description : string;
}.

Record AuthChallenge : Type := {
  challenge_ID : string;
  challenge_Kind : AuthChallengeKind;
  challenge_Prompt : string;
  challenge_URL : string;
  challenge_Image : list Z;
  challenge_AllowSkip : bool;
  challenge_Choices : list AuthChoice;
}.

Record AuthResponse : Type := {
  response_ChallengeID : string;
  response_Value : string;
  response_Skip : bool;
  response_ChoiceID : string;
}.

Definition AuthChallengeKind_Valid (kind : AuthChallengeKind) : bool :=
  bool_decide (kind ∈ validAuthChallengeKinds).

Definition invalidAuthChallenge (message : string) : error :=
  WrapError ErrorCodeAuthChallengeInvalid message false None.

Definition invalidAuthResponse (message : string) : error :=
  WrapError ErrorCodeAuthResponseInvalid message false None.

(** The loop over [challenge.Choices] with its set of seen identifiers. *)
Fixpoint validate_choices (seen : gset string) (choices : list AuthChoice) : option error :=
  match choices with
  | [] => None
  | choice :: rest =>
      if is_empty (choice_ID choice) then
        Some (invalidAuthChallenge "authentication choice ID is empty")
      else if bool_decide (choice_ID choice ∈ seen) then
        Some (invalidAuthChallenge
          ("authentication choice ID " +:+ quote (choice_ID choice) +:+ " is duplicated"))
      else validate_choices ({[ choice_ID choice ]} ∪ seen) rest
  end.

Definition AuthChallenge_Validate (challenge : AuthChallenge) : option error :=
  if is_empty (challenge_ID challenge) then
    Some (invalidAuthChallenge "authentication challenge ID is empty")
  else if negb (AuthChallengeKind_Valid (challenge_Kind challenge)) then
    Some (invalidAuthChallenge
      ("authentication challenge kind " +:+ quote (challenge_Kind challenge) +:+ " is invalid"))
  else if bool_decide
      (Z.of_nat (length (challenge_Image challenge)) > MaxAuthChallengeImageSize) then
    Some (invalidAuthChallenge
      ("authentication challenge image exceeds " +:+ itoa MaxAuthChallengeImageSize
        +:+ " bytes"))
  else match validate_choices ∅ (challenge_Choices challenge) with
  | Some err => Some err
  | None =>
      if bool_decide (challenge_Kind challenge = AuthChallengeSelectAuthenticationMethod)
         && is_nil (challenge_Choices challenge) then
        Some (invalidAuthChallenge "authentication method challenge has no choices")
      else None
  end.

Definition AuthResponse_Validate (response : AuthResponse) (challenge : AuthChallenge)
    : option error :=
  match AuthChallenge_Validate challenge with
  | Some err => Some err
  | None =>
  if negb (bool_decide (response_ChallengeID response = challenge_ID challenge)) then
    Some (invalidAuthResponse
      ("authentication response challenge ID " +:+ quote (response_ChallengeID response)
        +:+ " does not match " +:+ quote (challenge_ID challenge)))
  else if response_Skip response && negb (challenge_AllowSkip challenge) then
    Some (invalidAuthResponse "authentication challenge cannot be skipped")
  else if bool_decide (challenge_Kind challenge = AuthChallengeSelectAuthenticationMethod) then
    if is_empty (response_ChoiceID response) then
      Some (invalidAuthResponse "authentication method choice is empty")
    else if existsb (fun choice => bool_decide (choice_ID choice = response_ChoiceID response))
        (challenge_Choices challenge) then None
    else Some (invalidAuthResponse
      ("authentication method choice " +:+ quote (response_ChoiceID response)
        +:+ " is invalid"))
  else if is_empty (response_Value response) then
    Some (invalidAuthResponse "authentication response value is empty")
  else None
  end.

(** ** core/session.go *)

Record ResumeStateScope : Type := {
  scope_ServerAddress : string;
  scope_ServerPort : Z;
  scope_Username : string;
}.

Record ResumeState : Type := {
  resume_Format : string;
  resume_Version : Z;
  resume_Revision : Z;
  resume_Scope : ResumeStateScope;
  resume_UpdatedAt : Z;
  resume_Data : string;
  resume_Reused : bool;
}.

Definition ResumeStateFormatATrustClientData : string := "atrust-client-data".
Definition ResumeStateVersion1 : Z := 1.

(** [core.ResumeState{}]. *)
Definition zeroResumeState : ResumeState :=
  {| resume_Format := ""; resume_Version := 0; resume_Revision := 0;
     resume_Scope := {| scope_ServerAddress := ""; scope_ServerPort := 0;
                        scope_Username := "" |};
     resume_UpdatedAt := 0; resume_Data := ""; resume_Reused := false |}.

Definition ResumePolicy : Type := string.
Definition ResumePolicyAuto : ResumePolicy := "auto".
Definition ResumePolicyNone : ResumePolicy := "none".
Definition ResumePolicyProvided : ResumePolicy := "provided".

Record SessionStartOptions : Type := {
  opt_SessionID : SessionID;
  opt_Resume : ResumePolicy;
  opt_ResumeState : option ResumeState;
}.

Record IPResourceInfo : Type := {
  ri_IPMin : string; ri_IPMax : string;
  ri_PortMin : Z; ri_PortMax : Z;
  ri_Protocol : string; ri_AppID : string; ri_NodeGroupID : string;
}.

Record DomainResourceInfo : Type := {
  rd_PortMin : Z; rd_PortMax : Z;
  rd_Protocol : string; rd_AppID : string; rd_NodeGroupID : string;
}.

(** [core.Resources]; [None] is a nil slice or map. *)
Record Resources : Type := {
  res_Stale : bool;
  res_ClientIP : string;
  res_IPResources : option (list IPResourceInfo);
  res_DomainResources : option (gmap string DomainResourceInfo);
  res_DNSRecords : option (gmap string string);
  res_DNSServer : string;
}.

Definition zeroResources : Resources :=
  {| res_Stale := false; res_ClientIP := ""; res_IPResources := None;
     res_DomainResources := None; res_DNSRecords := None; res_DNSServer := "" |}.

Definition ServiceType : Type := string.
Definition ServiceTypeSOCKS5 : ServiceType := "socks5".
Definition ServiceTypeHTTP : ServiceType := "http".
Definition ServiceTypeTUN : ServiceType := "tun".
Definition ServiceTypeDNS : ServiceType := "dns".

Record ServiceStatus : Type := {
  svc_Type : ServiceType;
  svc_Address : string;
  svc_Running : bool;
  svc_LastError : string;
}.

Record SessionStatus : Type := {
  status_ID : SessionID;
  status_State : SessionState;
  status_LastError : option error;
}.

Definition zeroSessionStatus : SessionStatus :=
  {| status_ID := ""; status_State := ""; status_LastError := None |}.

Record CleanupResult : Type := {
  cleanup_Component : string;
  cleanup_Error : string;
}.

Record CleanupReport : Type := {
  report_StartedAt : Z;
  report_CompletedAt : Z;
  report_Results : list CleanupResult;
}.

Definition zeroCleanupReport : CleanupReport :=
  {| report_StartedAt := 0; report_CompletedAt := 0; report_Results := [] |}.

Definition CleanupReport_HasErrors (report : CleanupReport) : bool :=
  existsb (fun result => negb (is_empty (cleanup_Error result))) (report_Results report).

(** ** core/config.go *)

Definition RoutingMode : Type := string.
Definition RoutingModeGlobal : RoutingMode := "global".
Definition RoutingModeRule : RoutingMode := "rule".
Definition RoutingModeDirect : RoutingMode := "direct".

Definition RoutingMode_Valid (mode : RoutingMode) : bool :=
  bool_decide (mode = RoutingModeGlobal \/ mode = RoutingModeRule \/ mode = RoutingModeDirect).

Definition InternetOutboundType : Type := string.
Definition InternetOutboundDirect : InternetOutboundType := "direct".
Definition InternetOutboundSOCKS5 : InternetOutboundType := "socks5".
Definition InternetOutboundReject : InternetOutboundType := "reject".

Definition InternetOutboundType_Valid (t : InternetOutboundType) : bool :=
  bool_decide (t = InternetOutboundDirect) || bool_decide (t = InternetOutboundSOCKS5)
  || bool_decide (t = InternetOutboundReject).

Record InternetOutboundConfig : Type := {
  io_Type : InternetOutboundType;
  io_Address : string;
  io_Username : string;
  io_Password : string;
}.

(** [core.Config]; maps are options so that a nil map differs from an empty one. *)
Record CoreConfig : Type := {
  cc_Protocol : string;
  cc_ResumeState : option ResumeState;
  cc_SessionID : SessionID;
  cc_ServerAddress : string;
  cc_ServerPort : Z;
  cc_Username : string;
  cc_Password : string;
  cc_Phone : string;
  cc_LoginDomain : string;
  cc_AuthType : string;
  cc_GraphCodeFile : string;
  cc_CASTicket : string;
  cc_OAuth2Code : string;
  cc_SID : string;
  cc_DeviceID : string;
  cc_SignKey : string;
  cc_ClientDataFile : string;
  cc_UpdateBestNodesSeconds : Z;
  cc_BindInterface : string;
  cc_AutoDetectInterface : bool;
  cc_DisableAutoReconnect : bool;
  cc_DisableRemoteDNS : bool;
  cc_RemoteDNSServer : string;
  cc_SecondaryDNSServer : string;
  cc_DNSTTL : Z;
  cc_DNSBind : string;
  cc_Hosts : option (gmap string string);
  cc_SOCKSBind : string;
  cc_SOCKSUsername : string;
  cc_SOCKSPassword : string;
  cc_HTTPBind : string;
  cc_TUNEnabled : bool;
  cc_TUNName : string;
  cc_TUNAddress : string;
  cc_TUNMTU : Z;
  cc_TUNAutoRoute : bool;
  cc_TUNRouteAll : bool;
  cc_TUNOutboundInterface : string;
  cc_TUNUDPTimeoutSeconds : Z;
  cc_TUNUDPMaxFlows : Z;
  cc_TUNDNSHijack : bool;
  cc_TUNFakeIP : bool;
  cc_TUNFakeIPRange : string;
  cc_RoutingMode : RoutingMode;
  cc_InternetOutbound : InternetOutboundConfig;
}.

(** ** core/event.go *)

Definition EventType : Type := string.
Definition EventTypeSessionStateChanged : EventType := "session.state_changed".
Definition EventTypeAuthRequired : EventType := "auth.required".
Definition EventTypeAuthBrowserRequired : EventType := "auth.browser_required".
Definition EventTypeAuthCompleted : EventType := "auth.completed".
Definition EventTypeResourcesUpdated : EventType := "resources.updated".
Definition EventTypeNodeSelected : EventType := "node.selected".
Definition EventTypeServiceStarted : EventType := "service.started".
Definition EventTypeServiceStopped : EventType := "service.stopped".
Definition EventTypeSessionError : EventType := "session.error".
Definition EventTypeReconnectScheduled : EventType := "session.reconnect_scheduled".
Definition EventTypeReconnectFailed : EventType := "session.reconnect_failed".
Definition EventTypeReconnected : EventType := "session.reconnected".
Definition EventTypeRoutingModeChanged : EventType := "routing.mode_changed".
Definition EventTypeShutdownCompleted : EventType := "shutdown.completed".
Definition EventTypeResumeStateUpdated : EventType := "session.resume_state_updated".
Definition EventTypeResumeStateInvalidated : EventType := "session.resume_state_invalidated".

Record ResourceSummary : Type := {
  summary_ClientIP : string;
  summary_IPResourceCount : Z;
  summary_DomainResourceCount : Z;
  summary_DNSRecordCount : Z;
  summary_Stale : bool;
}.

Record ReconnectInfo : Type := {
  reconnect_Attempt : Z;
  reconnect_DelayMillis : Z;
}.

Record Event : Type := {
  event_SessionID : SessionID;
  event_Type : EventType;
  event_Timestamp : Z;
  event_PreviousState : SessionState;
  event_State : SessionState;
  event_Error : option error;
  event_Cleanup : option CleanupReport;
  event_Auth : option AuthChallenge;
  event_Reconnect : option ReconnectInfo;
  event_PreviousRoutingMode : RoutingMode;
  event_RoutingMode : RoutingMode;
  event_ResumeStateRevision : Z;
  event_ResumeStateReused : bool;
  event_Resources : option ResourceSummary;
  event_SelectedNodes : option (gmap string string);
  event_Service : option ServiceStatus;
}.

(** [core.Event{SessionID: id, Type: t, Timestamp: at}]. *)
Definition baseEvent (id : SessionID) (t : EventType) (at_ : Z) : Event :=
  {| event_SessionID := id; event_Type := t; event_Timestamp := at_;
     event_PreviousState := ""; event_State := ""; event_Error := None;
     event_Cleanup := None; event_Auth := None; event_Reconnect := None;
     event_PreviousRoutingMode := ""; event_RoutingMode := "";
     event_ResumeStateRevision := 0; event_ResumeStateReused := false;
     event_Resources := None; event_SelectedNodes := None; event_Service := None |}.

Definition NewStateChangedEvent (id : SessionID) (previous current : SessionState)
    (timestamp : Z) : Event :=
  {| event_SessionID := id; event_Type := EventTypeSessionStateChanged;
     event_Timestamp := timestamp;
     event_PreviousState := previous; event_State := current; event_Error := None;
     event_Cleanup := None; event_Auth := None; event_Reconnect := None;
     event_PreviousRoutingMode := ""; event_RoutingMode := "";
     event_ResumeStateRevision := 0; event_ResumeStateReused := false;
     event_Resources := None; event_SelectedNodes := None; event_Service := None |}.

Definition errorEvent (id : SessionID) (t : EventType) (err : error)
    (info : option ReconnectInfo) (timestamp : Z) : Event :=
  {| event_SessionID := id; event_Type := t; event_Timestamp := timestamp;
     event_PreviousState := ""; event_State := ""; event_Error := Some err;
     event_Cleanup := None; event_Auth := None; event_Reconnect := info;
     event_PreviousRoutingMode := ""; event_RoutingMode := "";
     event_ResumeStateRevision := 0; event_ResumeStateReused := false;
     event_Resources := None; event_SelectedNodes := None; event_Service := None |}.

Definition authEvent (id : SessionID) (t : EventType) (challenge : AuthChallenge)
    (timestamp : Z) : Event :=
  {| event_SessionID := id; event_Type := t; event_Timestamp := timestamp;
     event_PreviousState := ""; event_State := ""; event_Error := None;
     event_Cleanup := None; event_Auth := Some challenge; event_Reconnect := None;
     event_PreviousRoutingMode := ""; event_RoutingMode := "";
     event_ResumeStateRevision := 0; event_ResumeStateReused := false;
     event_Resources := None; event_SelectedNodes := None; event_Service := None |}.

Definition NewResumeStateUpdatedEvent (id : SessionID) (revision : Z) (reused : bool)
    (timestamp : Z) : Event :=
  {| event_SessionID := id; event_Type := EventTypeResumeStateUpdated;
     event_Timestamp := timestamp;
     event_PreviousState := ""; event_State := ""; event_Error := None;
     event_Cleanup := None; event_Auth := None; event_Reconnect := None;
     event_PreviousRoutingMode := ""; event_RoutingMode := "";
     event_ResumeStateRevision := revision; event_ResumeStateReused := reused;
     event_Resources := None; event_SelectedNodes := None; event_Service := None |}.

Definition NewResumeStateInvalidatedEvent (id : SessionID) (revision : Z)
    (timestamp : Z) : Event :=
  {| event_SessionID := id; event_Type := EventTypeResumeStateInvalidated;
     event_Timestamp := timestamp;
     event_PreviousState := ""; event_State := ""; event_Error := None;
     event_Cleanup := None; event_Auth := None; event_Reconnect := None;
     event_PreviousRoutingMode := ""; event_RoutingMode := "";
     event_ResumeStateRevision := revision; event_ResumeStateReused := false;
     event_Resources := None; event_SelectedNodes := None; event_Service := None |}.

Definition slice_len {A} (s : option (list A)) : Z :=
  match s with Some l => Z.of_nat (length l) | None => 0 end.

Definition map_len {A} (m : option (gmap string A)) : Z :=
  match m with Some x => Z.of_nat (size x) | None => 0 end.

Definition NewResourcesUpdatedEvent (id : SessionID) (resources : Resources)
    (timestamp : Z) : Event :=
  {| event_SessionID := id; event_Type := EventTypeResourcesUpdated;
     event_Timestamp := timestamp;
     event_PreviousState := ""; event_State := ""; event_Error := None;
     event_Cleanup := None; event_Auth := None; event_Reconnect := None;
     event_PreviousRoutingMode := ""; event_RoutingMode := "";
     event_ResumeStateRevision := 0; event_ResumeStateReused := false;
     event_Resources := Some {|
       summary_ClientIP := res_ClientIP resources;
       summary_IPResourceCount := slice_len (res_IPResources resources);
       summary_DomainResourceCount := map_len (res_DomainResources resources);
       summary_DNSRecordCount := map_len (res_DNSRecords resources);
       summary_Stale := res_Stale resources |};
     event_SelectedNodes := None; event_Service := None |}.

Definition NewNodeSelectedEvent (id : SessionID) (nodes : gmap string string)
    (timestamp : Z) : Event :=
  {| event_SessionID := id; event_Type := EventTypeNodeSelected;
     event_Timestamp := timestamp;
     event_PreviousState := ""; event_State := ""; event_Error := None;
     event_Cleanup := None; event_Auth := None; event_Reconnect := None;
     event_PreviousRoutingMode := ""; event_RoutingMode := "";
     event_ResumeStateRevision := 0; event_ResumeStateReused := false;
     event_Resources := None; event_SelectedNodes := Some nodes; event_Service := None |}.

Definition NewServiceEvent (id : SessionID) (t : EventType) (status : ServiceStatus)
    (timestamp : Z) : Event :=
  {| event_SessionID := id; event_Type := t; event_Timestamp := timestamp;
     event_PreviousState := ""; event_State := ""; event_Error := None;
     event_Cleanup := None; event_Auth := None; event_Reconnect := None;
     event_PreviousRoutingMode := ""; event_RoutingMode := "";
     event_ResumeStateRevision := 0; event_ResumeStateReused := false;
     event_Resources := None; event_SelectedNodes := None;
     event_Service := Some {| svc_Type := svc_Type status;
                              svc_Address := svc_Address status;
                              svc_Running := bool_decide (t = EventTypeServiceStarted);
                              svc_LastError := svc_LastError status |} |}.

(** ** Theorems *)

Lemma is_empty_true s : is_empty s = true <-> s = ""%string.
Proof. apply bool_decide_eq_true. Qed.

Lemma is_empty_false s : is_empty s = false <-> s <> ""%string.
Proof. apply bool_decide_eq_false. Qed.

Lemma validate_choices_none seen choices :
  validate_choices seen choices = None <->
  Forall (fun c => choice_ID c <> ""%string /\ choice_ID c ∉ seen) choices /\
  NoDup (map choice_ID choices).
Proof.
  revert seen; induction choices as [|c cs IH]; intros seen; simpl.
  { split; [intros _; split; constructor | done]. }
  destruct (is_empty (choice_ID c)) eqn:He.
  { apply is_empty_true in He. split; [done|].
    intros [[[] _]%Forall_cons _]; done. }
  apply is_empty_false in He.
  case_bool_decide as Hs.
  { split; [done|]. intros [[[] _]%Forall_cons _]; done. }
  rewrite IH, NoDup_cons, Forall_cons, !Forall_forall. split.
  - intros [Hf Hn]. split; [split; [done|]|split; [|done]].
    + intros x Hx. specialize (Hf x Hx). set_solver.
    + intros (x & Hx & Hin)%list_elem_of_fmap. specialize (Hf x Hin). set_solver.
  - intros [[_ Hf] [Hn Hd]]. split; [|done]. intros x Hx. split; [by apply Hf|].
    specialize (Hf x Hx). rewrite elem_of_union, elem_of_singleton. intros [Heq|?]; [|tauto].
    apply Hn. rewrite <-Heq. by apply list_elem_of_fmap_2.
Qed.

(** What a well-formed challenge is, as one proposition. *)
Definition challenge_ok (c : AuthChallenge) : Prop :=
  challenge_ID c <> ""%string /\
  challenge_Kind c ∈ validAuthChallengeKinds /\
  Z.of_nat (length (challenge_Image c)) <= MaxAuthChallengeImageSize /\
  Forall (fun x => choice_ID x <> ""%string) (challenge_Choices c) /\
  NoDup (map choice_ID (challenge_Choices c)) /\
  (challenge_Kind c = AuthChallengeSelectAuthenticationMethod -> challenge_Choices c <> []).

Lemma AuthChallenge_Validate_none c :
  AuthChallenge_Validate c = None <-> challenge_ok c.
Proof.
  unfold AuthChallenge_Validate, challenge_ok, AuthChallengeKind_Valid.
  destruct (is_empty (challenge_ID c)) eqn:He.
  { apply is_empty_true in He. naive_solver. }
  apply is_empty_false in He.
  case_bool_decide as Hk; simpl; [|naive_solver].
  case_bool_decide as Hi; [split; [done|]; intros (_&_&?&_); lia|].
  destruct (validate_choices ∅ (challenge_Choices c)) eqn:Hc.
  { split; [done|]. intros (_&_&_&Hf&Hn&_).
    assert (validate_choices ∅ (challenge_Choices c) = None) as Hc'; [|congruence].
    apply validate_choices_none. split; [|done].
    eapply Forall_impl; [exact Hf|]. intros x Hx. split; [exact Hx|apply not_elem_of_empty]. }
  apply validate_choices_none in Hc as [Hf Hn].
  assert (Forall (fun x => choice_ID x <> ""%string) (challenge_Choices c)).
  { eapply Forall_impl; [exact Hf|]. naive_solver. }
  assert (Z.of_nat (length (challenge_Image c)) <= MaxAuthChallengeImageSize) by lia.
  case_bool_decide as Hm; simpl; [|split; [by intros _; split_and!|done]].
  destruct (challenge_Choices c) as [|x xs]; simpl.
  - split; [done|]. intros (_&_&_&_&_&Hx). by destruct (Hx Hm).
  - split; [by intros _; split_and!|done].
Qed.

Lemma existsb_choice choices i :
  existsb (fun c => bool_decide (choice_ID c = i)) choices = true <->
  i ∈ map choice_ID choices.
Proof.
  rewrite existsb_exists, list_elem_of_fmap. split.
  - intros (c & Hin & Hc%bool_decide_eq_true). exists c. split; [done|].
    by apply list_elem_of_In.
  - intros (c & -> & Hin). exists c. split; [by apply list_elem_of_In|].
    by apply bool_decide_eq_true.
Qed.

Lemma validate_choices_code choices seen e :
  validate_choices seen choices = Some e ->
  ErrorCodeOf (Some e) = ErrorCodeAuthChallengeInvalid.
Proof.
  revert seen. induction choices as [|c cs IH]; intros seen; cbn [validate_choices]; [done|].
  destruct (is_empty _); [by intros [= <-]|].
  case_bool_decide; [by intros [= <-]|]. apply IH.
Qed.

(** A challenge of the wrong shape is reported with its own code. *)
Lemma AuthChallenge_Validate_code c e :
  AuthChallenge_Validate c = Some e -> ErrorCodeOf (Some e) = ErrorCodeAuthChallengeInvalid.
Proof.
  unfold AuthChallenge_Validate.
  destruct (is_empty _); [by intros [= <-]|].
  destruct (negb _); [by intros [= <-]|].
  case_bool_decide; [by intros [= <-]|].
  destruct (validate_choices _ _) eqn:Hc.
  - intros [= <-]. by eapply validate_choices_code.
  - destruct (_ && _); [by intros [= <-]|done].
Qed.

(** What an acceptable answer to a well-formed challenge is. *)
Definition response_ok (r : AuthResponse) (c : AuthChallenge) : Prop :=
  response_ChallengeID r = challenge_ID c /\
  (response_Skip r = true -> challenge_AllowSkip c = true) /\
  (challenge_Kind c = AuthChallengeSelectAuthenticationMethod ->
     response_ChoiceID r ∈ map choice_ID (challenge_Choices c)) /\
  (challenge_Kind c <> AuthChallengeSelectAuthenticationMethod ->
     response_Value r <> ""%string).

Lemma challenge_ok_choice_nonempty c i :
  challenge_ok c -> i ∈ map choice_ID (challenge_Choices c) -> i <> ""%string.
Proof.
  intros (_ & _ & _ & Hf & _) (x & -> & Hx)%list_elem_of_fmap.
  rewrite Forall_forall in Hf. auto.
Qed.

(** [AuthResponse.Validate] accepts a response exactly when the challenge itself is well
    formed (non-empty identifier, known kind, image of at most 4 MiB, distinct non-empty
    choices, choices present for a method selection), the response names that challenge,
    skips only where skipping is allowed, and carries a listed choice for a method selection
    and a non-empty value otherwise; and a rejected response carries the code of the side
    that is at fault. *)
Theorem AuthResponse_Validate_spec (r : AuthResponse) (c : AuthChallenge) :
  (AuthResponse_Validate r c = None <-> challenge_ok c /\ response_ok r c) /\
  (ErrorCodeOf (AuthResponse_Validate r c) = ErrorCodeAuthChallengeInvalid <->
     ~ challenge_ok c) /\
  (ErrorCodeOf (AuthResponse_Validate r c) = ErrorCodeAuthResponseInvalid <->
     challenge_ok c /\ ~ response_ok r c).
Proof.
  unfold AuthResponse_Validate.
  destruct (AuthChallenge_Validate c) as [e|] eqn:Hv.
  { assert (~ challenge_ok c) by (rewrite <-AuthChallenge_Validate_none; congruence).
    rewrite (AuthChallenge_Validate_code _ _ Hv). naive_solver. }
  apply AuthChallenge_Validate_none in Hv. unfold response_ok.
  case_bool_decide as Hid; simpl; [|naive_solver].
  destruct (response_Skip r) eqn:Hs, (challenge_AllowSkip c) eqn:Ha; simpl;
    try naive_solver.
  all: case_bool_decide as Hk;
    [ destruct (is_empty (response_ChoiceID r)) eqn:He;
      [ apply is_empty_true in He;
        assert (response_ChoiceID r ∉ map choice_ID (challenge_Choices c))
          by (intros Hin; by eapply challenge_ok_choice_nonempty); naive_solver
      | destruct (existsb _ _) eqn:Hx;
        [ apply existsb_choice in Hx; naive_solver
        | assert (response_ChoiceID r ∉ map choice_ID (challenge_Choices c))
            by (rewrite <-existsb_choice; congruence); naive_solver ] ]
    | destruct (is_empty (response_Value r)) eqn:He;
      [ apply is_empty_true in He | apply is_empty_false in He ]; naive_solver ].
Qed.

(** *** The session state table as a transition system *)

Definition session_step (a b : SessionState) : Prop := CanTransitionSessionState a b = true.

(** Steps that do not enter [via]. *)
Definition session_step_avoiding (via a b : SessionState) : Prop :=
  session_step a b /\ b <> via.

Definition startup_phases : list SessionState :=
  [SessionStateDiscoveringAuth; SessionStateAuthenticating; SessionStateFetchingResources;
   SessionStateSelectingNodes; SessionStateEstablishingTunnel].

(** All pairs of the table, as data. *)
Definition session_edges : list (string * string) :=
  from ← (map_to_list sessionStateTransitions).*1;
  to ← elements (default ∅ (sessionStateTransitions !! from)); [(from, to)].

Definition session_states : list SessionState := (map_to_list sessionStateTransitions).*1.

Lemma session_step_edge a b : session_step a b -> (a, b) ∈ session_edges.
Proof.
  unfold session_step, CanTransitionSessionState, session_edges. intros H.
  destruct (sessionStateTransitions !! a) as [ts|] eqn:E; [|done].
  apply bool_decide_eq_true in H.
  apply list_elem_of_bind. exists a. split.
  - apply list_elem_of_bind. exists b.
    split; [by left|]. apply elem_of_elements. unfold SessionState in *. by rewrite E.
  - apply list_elem_of_fmap. exists (a, ts). split; [done|]. by apply elem_of_map_to_list.
Qed.

(** A set of states closed under a step relation contains everything reachable from it. *)
Lemma rtc_closed {A} (R : relation A) (P : A -> Prop) x y :
  (forall a b, P a -> R a b -> P b) -> P x -> rtc R x y -> P y.
Proof. intros Hc Hx Hr. induction Hr; eauto. Qed.

(** The states that a run from [idle] can visit before entering [via]. *)
Definition states_before (via : SessionState) : list SessionState :=
  [SessionStateFailed; SessionStateStopping; SessionStateStopped] ++
  SessionStateIdle :: take (default 0%nat (fst <$> list_find (eq via) startup_phases)) startup_phases.

(** Closure of a finite set of states under the steps of the table, as a computation. *)
Definition closed_before (via : SessionState) (l : list SessionState) : bool :=
  forallb (fun '(a, b) => negb (bool_decide (a ∈ l)) || bool_decide (b = via)
                          || bool_decide (b ∈ l)) session_edges.

Lemma closed_before_sound via l a b :
  closed_before via l = true -> a ∈ l -> session_step_avoiding via a b -> b ∈ l.
Proof.
  unfold closed_before. rewrite forallb_forall. intros Hc Ha [Hs Hb].
  apply session_step_edge, list_elem_of_In, Hc in Hs.
  rewrite (bool_decide_true (a ∈ l)), (bool_decide_false (b = via)) in Hs by done.
  by apply bool_decide_eq_true in Hs.
Qed.

Lemma states_before_closed via :
  via ∈ startup_phases -> closed_before via (states_before via) = true.
Proof.
  unfold startup_phases. rewrite !elem_of_cons.
  intros [->|[->|[->|[->|[->|[]%elem_of_nil]]]]]; by vm_compute.
Qed.

Lemma states_before_not_ready via :
  via ∈ startup_phases -> SessionStateReady ∉ states_before via.
Proof.
  unfold startup_phases. rewrite !elem_of_cons.
  intros [->|[->|[->|[->|[->|[]%elem_of_nil]]]]];
    apply (bool_decide_eq_false (SessionStateReady ∈ _)); by vm_compute.
Qed.

Lemma SessionState_Valid_in s :
  SessionState_Valid s = true -> s ∈ session_states.
Proof.
  unfold SessionState_Valid, session_states. intros H.
  destruct (sessionStateTransitions !! s) as [ts|] eqn:E; [|done].
  apply list_elem_of_fmap. exists (s, ts). split; [done|]. by apply elem_of_map_to_list.
Qed.

(** A decidable fact about every row, or every edge, of the table is checked by computing it. *)
Lemma session_states_all (f : SessionState -> bool) s :
  forallb f session_states = true -> SessionState_Valid s = true -> f s = true.
Proof.
  intros Hf Hs%SessionState_Valid_in%list_elem_of_In.
  exact (proj1 (forallb_forall _ _) Hf s Hs).
Qed.

Lemma session_edges_all (f : SessionState * SessionState -> bool) a b :
  forallb f session_edges = true -> session_step a b -> f (a, b) = true.
Proof.
  intros Hf Hs%session_step_edge%list_elem_of_In.
  exact (proj1 (forallb_forall _ _) Hf (a, b) Hs).
Qed.

Lemma session_step_from a l t :
  forallb (fun '(x, y) => negb (bool_decide (x = a)) || bool_decide (y = l)) session_edges = true ->
  session_step a t -> t = l.
Proof.
  intros Hf Hs. apply (session_edges_all _ _ _ Hf) in Hs. revert Hs.
  rewrite bool_decide_true by done. simpl. by intros ?%bool_decide_eq_true.
Qed.

Lemma session_can_stop s :
  SessionState_Valid s = true ->
  s = SessionStateStopping \/ SessionState_Terminal s = true \/
  session_step s SessionStateStopping.
Proof.
  intros Hs.
  apply (session_states_all (fun s => bool_decide (s = SessionStateStopping)
    || SessionState_Terminal s || CanTransitionSessionState s SessionStateStopping)) in Hs;
    [|by vm_compute].
  apply orb_true_iff in Hs as [[Hs%bool_decide_eq_true|Hs]%orb_true_iff|Hs]; eauto.
Qed.

Lemma stopped_no_step t : ~ session_step SessionStateStopped t.
Proof. unfold session_step, CanTransitionSessionState. by vm_compute. Qed.

(** The transition table of core/state.go is a lifecycle: [ready] can be reached from
    [idle], but by no run that skips one of the five start-up phases (in particular none
    that skips authentication); every state other than [stopping] and [stopped] can go
    straight to [stopping], [stopping] leads only to [stopped], [failed] leads only to
    [stopping], [stopped] is the one terminal state, and every step ends in a valid state. *)
Theorem session_lifecycle :
  rtc session_step SessionStateIdle SessionStateReady /\
  (forall phase, phase ∈ startup_phases ->
     ~ rtc (session_step_avoiding phase) SessionStateIdle SessionStateReady) /\
  (forall s, SessionState_Valid s = true ->
     s = SessionStateStopping \/ SessionState_Terminal s = true \/
     session_step s SessionStateStopping) /\
  (forall s, session_step SessionStateStopping s <-> s = SessionStateStopped) /\
  (forall s, session_step SessionStateFailed s <-> s = SessionStateStopping) /\
  (forall s, SessionState_Valid s = true ->
     (SessionState_Terminal s = true <-> forall t, ~ session_step s t)) /\
  (forall s t, session_step s t -> SessionState_Valid t = true).
Proof.
  split_and!.
  - apply rtc_l with SessionStateDiscoveringAuth; [by vm_compute|].
    apply rtc_l with SessionStateAuthenticating; [by vm_compute|].
    apply rtc_l with SessionStateFetchingResources; [by vm_compute|].
    apply rtc_l with SessionStateSelectingNodes; [by vm_compute|].
    apply rtc_l with SessionStateEstablishingTunnel; [by vm_compute|].
    apply rtc_once. by vm_compute.
  - intros phase Hp Hr. apply (states_before_not_ready phase Hp).
    refine (rtc_closed _ (fun s => s ∈ states_before phase) _ _ _ _ Hr).
    + intros a b Ha. apply closed_before_sound; [by apply states_before_closed|done].
    + unfold states_before. set_solver.
  - apply session_can_stop.
  - intros s. split; [apply session_step_from; by vm_compute | intros ->; by vm_compute].
  - intros s. split; [apply session_step_from; by vm_compute | intros ->; by vm_compute].
  - intros s Hs. split.
    + intros Ht%bool_decide_eq_true t. rewrite Ht. apply stopped_no_step.
    + intros Hn. destruct (session_can_stop s Hs) as [->|[?|?]]; [|done|].
      * exfalso. apply (Hn SessionStateStopped). by vm_compute.
      * by exfalso; eapply Hn.
  - intros s t Hs.
    apply (session_edges_all (fun e => SessionState_Valid e.2) s t); [by vm_compute|done].
Qed.
