(* ===== verification/Log.v ===== *)
(** The log (log/log.go): one switch for debug lines and one writer, which the standard library's logger shares
    once it was told. A writer is a handle; formatting and hex dumps are the library's. *)

From S2P Require Import Prelude Core.

(** The handles of [os.Stdout], [os.Stderr] and [io.Discard]. *)
Definition Stdout : nat := 1.
Definition Stderr : nat := 2.
Definition Discard : nat := 0.

(** [lg_standard] is the output of the library's logger; [lg_written] is what was written, and is not in the
    code. *)
Record Logger : Type := {
  lg_debug : bool;
  lg_output : nat;
  lg_standard : nat;
  lg_written : list (nat * string);
}.

Definition startLogger : Logger := {| lg_debug := false; lg_output := Stdout; lg_standard := Stderr; lg_written := [] |}.

Definition log_Init (s : Logger) : Logger :=
  {| lg_debug := lg_debug s; lg_output := lg_output s; lg_standard := lg_output s; lg_written := lg_written s |}.

Definition SetOutput (writer : option nat) (s : Logger) : Logger :=
  let output := default Discard writer in
  {| lg_debug := lg_debug s; lg_output := output; lg_standard := output; lg_written := lg_written s |}.

Definition set_debug (debug : bool) (s : Logger) : Logger :=
  {| lg_debug := debug; lg_output := lg_output s; lg_standard := lg_standard s; lg_written := lg_written s |}.

Definition write_log (writer : nat) (text : string) (s : Logger) : Logger :=
  {| lg_debug := lg_debug s; lg_output := lg_output s; lg_standard := lg_standard s;
     lg_written := lg_written s ++ [(writer, text)] |}.

(** [Print], [Println] and [Printf], with the line that the library makes. *)
Definition log_Print (line : string) (s : Logger) : Logger := write_log (lg_standard s) line s.
Definition DebugPrint (line : string) (s : Logger) : Logger := if lg_debug s then log_Print line s else s.

(** [dumpHex], [DumpHex] and [DebugDumpHex]; [NewLogger] writes to the same writer for as long as it lives. *)
Definition DumpHex (dump : string) (s : Logger) : Logger := write_log (lg_output s) dump s.
Definition DebugDumpHex (dump : string) (s : Logger) : Logger := if lg_debug s then DumpHex dump s else s.

Inductive log_step : Logger -> Logger -> Prop :=
| log_init s : log_step s (log_Init s)
| log_set_output writer s : log_step s (SetOutput writer s)
| log_set_debug debug s : log_step s (set_debug debug s)
| log_print line s : log_step s (log_Print line s)
| log_debug_print line s : log_step s (DebugPrint line s)
| log_dump dump s : log_step s (DumpHex dump s)
| log_debug_dump dump s : log_step s (DebugDumpHex dump s).

(** Once [Init] or [SetOutput] was called, lines and dumps go to the same writer, whatever follows. *)
Lemma log_outputs_agree s s' : rtc log_step s s' -> lg_standard s = lg_output s -> lg_standard s' = lg_output s'.
Proof.
  intros Hr Hs. eapply (rtc_closed log_step (fun s => lg_standard s = lg_output s)); [|exact Hs|exact Hr].
  intros x y Hx Hxy. destruct Hxy as [x|w x|d x|line x|line x|dump x|dump x]; try done;
    unfold DebugPrint, DebugDumpHex; by destruct (lg_debug x).
Qed.
