(* ===== verification/GoNet.v ===== *)
(** Bytes and addresses: the parts of encoding/binary, bytes, net and net/netip that the
    program calls. A byte is a [Z] in [0, 256), a [net.IP] is its byte slice (nil is the
    empty list), a [netip.Addr] is a tagged number. *)

From S2P Require Import Prelude.

(** ** Bytes and big-endian fields *)

Definition byte_ok (b : Z) : Prop := 0 <= b < 256.

Definition bytes_ok (l : list Z) : Prop := Forall byte_ok l.

(** Conversions to [byte], [uint16] and [uint32]. *)
Definition u8 (z : Z) : Z := z mod 2 ^ 8.
Definition u16 (z : Z) : Z := z mod 2 ^ 16.
Definition u32 (z : Z) : Z := z mod 2 ^ 32.
Definition u64 (z : Z) : Z := z mod 2 ^ 64.

Definition len {A} (l : list A) : Z := Z.of_nat (length l).

(** [binary.BigEndian.Uint16] on two bytes, and [PutUint16]. *)
Definition be16 (hi lo : Z) : Z := 256 * hi + lo.

Definition put_be16 (n : Z) : list Z := [Z.shiftr (u16 n) 8; Z.land (u16 n) 255].

(** Indexing and slicing: [None] is the run-time panic of Go. *)
Definition index (p : list Z) (i : nat) : option Z := p !! i.

Definition Uint16 (p : list Z) (i : nat) : option Z :=
  match p !! i, p !! S i with
  | Some hi, Some lo => Some (be16 hi lo)
  | _, _ => None
  end.

(** [p[lo:hi]]. *)
Definition slice (p : list Z) (lo hi : Z) : option (list Z) :=
  if bool_decide (0 <= lo <= hi /\ hi <= len p) then
    Some (take (Z.to_nat (hi - lo)) (drop (Z.to_nat lo) p))
  else None.

Definition string_bytes (s : string) : list Z :=
  map (fun c => Z.of_N (N_of_ascii c)) (chars s).

(** [bytes.Compare] as the sign of a lexicographic comparison. *)
Fixpoint Compare (a b : list Z) : Z :=
  match a, b with
  | [], [] => 0
  | [], _ => -1
  | _, [] => 1
  | x :: a', y :: b' =>
      if bool_decide (x < y) then -1 else if bool_decide (y < x) then 1 else Compare a' b'
  end.

(** ** net.IP *)

Definition IP : Type := list Z.

Definition v4InV6Prefix : list Z := [0;0;0;0;0;0;0;0;0;0;255;255].

(** [net.IPv4(a, b, c, d)], of 16 bytes. *)
Definition IPv4 (a b c d : Z) : IP := v4InV6Prefix ++ [a; b; c; d].

(** [ip.To4()]: [None] is nil. *)
Definition To4 (ip : IP) : option IP :=
  if bool_decide (len ip = 4) then Some ip
  else if bool_decide (len ip = 16 /\ take 12 ip = v4InV6Prefix) then Some (drop 12 ip)
  else None.

(** ** Text of addresses *)

Definition dotted (l : list Z) : string :=
  match l with
  | [a; b; c; d] => itoa a +:+ "." +:+ itoa b +:+ "." +:+ itoa c +:+ "." +:+ itoa d
  | _ => ""
  end.

(** One field of a dotted address: decimal, at most 255, no leading zero. *)
Definition parse_octet (l : list ascii) : option Z :=
  match l with
  | [] => None
  | "0"%char :: _ :: _ => None
  | _ =>
      match digits_value 0 l with
      | Some v => if bool_decide (v <= 255) then Some v else None
      | None => None
      end
  end.

Definition parseIPv4 (l : list ascii) : option (list Z) :=
  match map parse_octet (split_chars "."%char l) with
  | [Some a; Some b; Some c; Some d] => Some [a; b; c; d]
  | _ => None
  end.

Definition hex_of (c : ascii) : option Z :=
  let n := nat_of_ascii c in
  if bool_decide (48 <= n <= 57)%nat then Some (Z.of_nat n - 48)
  else if bool_decide (97 <= n <= 102)%nat then Some (Z.of_nat n - 87)
  else if bool_decide (65 <= n <= 70)%nat then Some (Z.of_nat n - 55)
  else None.

(** The hex digits at the head of [l]: their value, their number and the rest. *)
Fixpoint hex_group (acc : Z) (n : nat) (l : list ascii) : Z * nat * list ascii :=
  match l with
  | c :: l' =>
      match hex_of c with
      | Some d => hex_group (16 * acc + d) (S n) l'
      | None => (acc, n, l)
      end
  | [] => (acc, n, l)
  end.

(** The loop of [netip.parseIPv6] over at most eight groups: the bytes so far, the byte
    position of the ellipsis and the input left. *)
Fixpoint parse_groups (fuel : nat) (ip : list Z) (ellipsis : option nat) (s : list ascii)
    : option (list Z * option nat * list ascii) :=
  match fuel with
  | O => Some (ip, ellipsis, s)
  | S fuel =>
      let '(acc, off, rest) := hex_group 0 0 s in
      if bool_decide (4 < off)%nat then None
      else if bool_decide (off = 0)%nat then None
      else match rest with
      | "."%char :: _ =>
          if bool_decide (ellipsis = None /\ length ip <> 12%nat) then None
          else if bool_decide (12 < length ip)%nat then None
          else match parseIPv4 s with
               | Some v4 => Some (ip ++ v4, ellipsis, [])
               | None => None
               end
      | _ =>
          let ip' := ip ++ put_be16 acc in
          match rest with
          | [] => Some (ip', ellipsis, [])
          | ":"%char :: [] => None
          | ":"%char :: ":"%char :: rest' =>
              match ellipsis with
              | Some _ => None
              | None =>
                  match rest' with
                  | [] => Some (ip', Some (length ip'), [])
                  | _ => parse_groups fuel ip' (Some (length ip')) rest'
                  end
              end
          | ":"%char :: rest' => parse_groups fuel ip' ellipsis rest'
          | _ => None
          end
      end
  end.

(** The end of [parseIPv6]: the ellipsis is filled with zeros. *)
Definition run_groups (ellipsis : option nat) (s : list ascii) : option (list Z) :=
  match parse_groups 8 [] ellipsis s with
  | Some (ip, e, []) =>
      if bool_decide (length ip < 16)%nat then
        match e with
        | None => None
        | Some k => Some (take k ip ++ replicate (16 - length ip) 0 ++ drop k ip)
        end
      else match e with Some _ => None | None => Some ip end
  | _ => None
  end.

Definition parseIPv6 (s : list ascii) : option (list Z) :=
  match s with
  | [":"%char; ":"%char] => Some (replicate 16 0)
  | ":"%char :: ":"%char :: s' => run_groups (Some 0%nat) s'
  | _ => run_groups None s
  end.

(** [net.ParseIP]: 16 bytes for both families, nil as [None]; a zone is refused. *)
Definition ParseIP (s : string) : option IP :=
  match List.find (fun c => bool_decide (c ∈ ["."%char; ":"%char; "%"%char])) (chars s) with
  | Some "."%char => match parseIPv4 (chars s) with
                     | Some l => Some (v4InV6Prefix ++ l)
                     | None => None
                     end
  | Some ":"%char =>
      if existsb (fun c => bool_decide (c = "%"%char)) (chars s) then None
      else parseIPv6 (chars s)
  | _ => None
  end.

(** ** Lower-case hexadecimal and the text of an IPv6 address (RFC 5952) *)

Definition hex_digit (n : Z) : ascii :=
  if bool_decide (n < 10) then ascii_of_nat (Z.to_nat (48 + n))
  else ascii_of_nat (Z.to_nat (87 + n)).

Fixpoint hex_chars (fuel : nat) (n : Z) (acc : list ascii) : list ascii :=
  match fuel with
  | O => acc
  | S fuel =>
      let acc' := hex_digit (n mod 16) :: acc in
      if bool_decide (n / 16 = 0) then acc' else hex_chars fuel (n / 16) acc'
  end.

Fixpoint groups_of (l : list Z) : list Z :=
  match l with
  | hi :: lo :: l' => be16 hi lo :: groups_of l'
  | _ => []
  end.

(** Length of the run of zeros at the head. *)
Fixpoint zero_run (l : list Z) : nat :=
  match l with
  | 0 :: l' => S (zero_run l')
  | _ => 0%nat
  end.

(** First longest run of at least two zero groups: its start and length. *)
Fixpoint longest_zero_run (i : nat) (l : list Z) (best : nat * nat) : nat * nat :=
  match l with
  | [] => best
  | _ :: l' =>
      let r := zero_run l in
      longest_zero_run (S i) l'
        (if bool_decide (2 <= r /\ best.2 < r)%nat then (i, r) else best)
  end.

Fixpoint join_with (sep : list ascii) (l : list (list ascii)) : list ascii :=
  match l with
  | [] => []
  | [x] => x
  | x :: l' => x ++ sep ++ join_with sep l'
  end.

Definition v6_text (l : list Z) : string :=
  let gs := groups_of l in
  let hex := map (fun g => hex_chars 4 g []) in
  let '(start, n) := longest_zero_run 0 gs (0%nat, 0%nat) in
  of_chars
    (if bool_decide (n = 0)%nat then join_with [":"%char] (hex gs)
     else join_with [":"%char] (hex (take start gs)) ++ [":"%char; ":"%char]
          ++ join_with [":"%char] (hex (drop (start + n) gs))).

(** [ip.String()]; a slice of another length is not produced by the program. *)
Definition IP_String (ip : IP) : string :=
  match ip with
  | [] => "<nil>"
  | _ => match To4 ip with Some l => dotted l | None => v6_text ip end
  end.

(** ** netip.Addr (no zones) *)

Inductive Addr : Type :=
| AddrInvalid
| Addr4 (n : Z)
| Addr6 (n : Z).

#[export] Instance Addr_eq_dec : EqDecision Addr.
Proof. solve_decision. Defined.

Definition addr_to_sum (a : Addr) : () + (Z + Z) :=
  match a with
  | AddrInvalid => inl ()
  | Addr4 n => inr (inl n)
  | Addr6 n => inr (inr n)
  end.

Definition sum_to_addr (s : () + (Z + Z)) : Addr :=
  match s with
  | inl _ => AddrInvalid
  | inr (inl n) => Addr4 n
  | inr (inr n) => Addr6 n
  end.

#[export] Instance Addr_countable : Countable Addr.
Proof. refine (inj_countable' addr_to_sum sum_to_addr _). by intros []. Defined.

Definition IsValid (a : Addr) : bool :=
  match a with AddrInvalid => false | _ => true end.

Definition Is4 (a : Addr) : bool := match a with Addr4 _ => true | _ => false end.
Definition Is6 (a : Addr) : bool := match a with Addr6 _ => true | _ => false end.

Definition bytes_value (l : list Z) : Z := foldl (fun acc b => 256 * acc + b) 0 l.

(** [netip.AddrFromSlice]. *)
Definition AddrFromSlice (l : IP) : Addr :=
  if bool_decide (len l = 4) then Addr4 (bytes_value l)
  else if bool_decide (len l = 16) then Addr6 (bytes_value l)
  else AddrInvalid.

(** [addr.Unmap()]. *)
Definition Unmap (a : Addr) : Addr :=
  match a with
  | Addr6 n => if bool_decide (Z.shiftr n 32 = 65535) then Addr4 (Z.land n (2 ^ 32 - 1)) else a
  | _ => a
  end.

(** [netip.ParseAddr]; an address with a zone is refused here, as all callers refuse it. *)
Definition ParseAddr (s : string) : option Addr :=
  match List.find (fun c => bool_decide (c ∈ ["."%char; ":"%char; "%"%char])) (chars s) with
  | Some "."%char => option_map (fun l => Addr4 (bytes_value l)) (parseIPv4 (chars s))
  | Some ":"%char =>
      if existsb (fun c => bool_decide (c = "%"%char)) (chars s) then None
      else option_map (fun l => Addr6 (bytes_value l)) (parseIPv6 (chars s))
  | _ => None
  end.

(** [netip.Prefix]. *)
Record Prefix : Type := { pfx_addr : Addr; pfx_bits : Z }.

Definition addr_bits (a : Addr) : Z :=
  match a with AddrInvalid => 0 | Addr4 _ => 32 | Addr6 _ => 128 end.

(** ** host:port *)

(** [strconv.Itoa] and [net.JoinHostPort]. *)
Definition JoinHostPort (host port : string) : string :=
  if existsb (fun c => bool_decide (c = ":"%char)) (chars host)
  then "[" +:+ host +:+ "]:" +:+ port
  else host +:+ ":" +:+ port.

(** Everything before and after the last occurrence of [c]. *)
Fixpoint split_last (c : ascii) (l : list ascii) : option (list ascii * list ascii) :=
  match l with
  | [] => None
  | x :: l' =>
      match split_last c l' with
      | Some (a, b) => Some (x :: a, b)
      | None => if bool_decide (x = c) then Some ([], l') else None
      end
  end.

(** Everything before and after the first occurrence of [c]. *)
Fixpoint split_first (c : ascii) (l : list ascii) : option (list ascii * list ascii) :=
  match l with
  | [] => None
  | x :: l' =>
      if bool_decide (x = c) then Some ([], l')
      else match split_first c l' with
           | Some (a, b) => Some (x :: a, b)
           | None => None
           end
  end.

Definition has_char (c : ascii) (l : list ascii) : bool :=
  existsb (fun x => bool_decide (x = c)) l.

(** [addr.AsSlice()], and the text of addresses and prefixes. *)
Fixpoint be_bytes (n : nat) (v : Z) (acc : list Z) : list Z :=
  match n with
  | O => acc
  | S n => be_bytes n (v / 256) (v mod 256 :: acc)
  end.

Definition AsSlice (a : Addr) : IP :=
  match a with
  | AddrInvalid => []
  | Addr4 n => be_bytes 4 n []
  | Addr6 n => be_bytes 16 n []
  end.

Definition Addr_String (a : Addr) : string :=
  match a with
  | AddrInvalid => "invalid IP"
  | Addr4 n => dotted (be_bytes 4 n [])
  | Addr6 n =>
      if bool_decide (Z.shiftr n 32 = 65535)
      then "::ffff:" +:+ dotted (be_bytes 4 (Z.land n (2 ^ 32 - 1)) [])
      else v6_text (be_bytes 16 n [])
  end.

Definition Prefix_String (p : Prefix) : string :=
  Addr_String (pfx_addr p) +:+ "/" +:+ itoa (pfx_bits p).

(** [netip.ParsePrefix]. *)
Definition ParsePrefix (s : string) : option Prefix :=
  match split_last "/"%char (chars s) with
  | None => None
  | Some (a, b) =>
      match ParseAddr (of_chars a), b with
      | Some addr, c :: rest =>
          if negb (is_nil rest) && bool_decide (c ∉ chars "123456789") then None
          else match Atoi (of_chars b) with
               | Some bits =>
                   if bool_decide (0 <= bits <= addr_bits addr)
                   then Some {| pfx_addr := addr; pfx_bits := bits |} else None
               | None => None
               end
      | _, _ => None
      end
  end.

(** [prefix.Masked()]: the bits behind the prefix are cleared. *)
Definition Masked (p : Prefix) : Prefix :=
  let clear n w := n - n mod 2 ^ (w - pfx_bits p) in
  {| pfx_addr := match pfx_addr p with
                 | Addr4 n => Addr4 (clear n 32)
                 | Addr6 n => Addr6 (clear n 128)
                 | AddrInvalid => AddrInvalid
                 end;
     pfx_bits := pfx_bits p |}.

(** [prefix.Contains(addr)]. *)
Definition Prefix_Contains (p : Prefix) (a : Addr) : bool :=
  match pfx_addr p, a with
  | Addr4 x, Addr4 y => bool_decide (Z.shiftr (Z.lxor x y) (32 - pfx_bits p) = 0)
  | Addr6 x, Addr6 y => bool_decide (Z.shiftr (Z.lxor x y) (128 - pfx_bits p) = 0)
  | _, _ => false
  end.

(** [addr.Next()]; the address after the last one is invalid. *)
Definition Addr_Next (a : Addr) : Addr :=
  match a with
  | Addr4 n => if bool_decide (n = 2 ^ 32 - 1) then AddrInvalid else Addr4 (n + 1)
  | Addr6 n => if bool_decide (n = 2 ^ 128 - 1) then AddrInvalid else Addr6 (n + 1)
  | AddrInvalid => AddrInvalid
  end.

(** [net.SplitHostPort]: [None] is an [*AddrError]. *)
Definition SplitHostPort (s : string) : option (string * string) :=
  match chars s with
  | "["%char :: l =>
      match split_first "]"%char l with
      | Some (host, ":"%char :: port) =>
          if has_char "["%char (host ++ port) || has_char "]"%char port
             || has_char ":"%char port then None
          else Some (of_chars host, of_chars port)
      | _ => None
      end
  | l =>
      match split_last ":"%char l with
      | Some (host, port) =>
          if has_char ":"%char host || has_char "["%char l || has_char "]"%char l then None
          else Some (of_chars host, of_chars port)
      | None => None
      end
  end.

(** [ip.IsLoopback()]. *)
Definition IsLoopback (ip : IP) : bool :=
  match To4 ip with
  | Some ip4 => bool_decide (nth 0 ip4 0 = 127)
  | None => bool_decide (ip = replicate 15 0 ++ [1])
  end.

(** ** Lemmas *)

Lemma lookup_byte (p : list Z) (i : nat) :
  (i < length p)%nat -> exists b, p !! i = Some b /\ (bytes_ok p -> byte_ok b).
Proof.
  intros H. destruct (lookup_lt_is_Some_2 p i H) as [b Hb]. exists b. split; [done|].
  intros Hp. by eapply Forall_lookup_1 in Hb.
Qed.

Lemma be16_bounds hi lo : byte_ok hi -> byte_ok lo -> 0 <= be16 hi lo < 65536.
Proof. unfold byte_ok, be16. lia. Qed.

Lemma Uint16_some (p : list Z) (i : nat) :
  (S i < length p)%nat -> exists v, Uint16 p i = Some v /\ (bytes_ok p -> 0 <= v < 65536).
Proof.
  intros H. unfold Uint16.
  destruct (lookup_byte p i) as (hi & -> & Hhi); [lia|].
  destruct (lookup_byte p (S i)) as (lo & -> & Hlo); [lia|].
  eexists. split; [done|]. intros Hp. apply be16_bounds; auto.
Qed.

Lemma put_be16_bytes n : bytes_ok (put_be16 n).
Proof.
  unfold put_be16, u16. pose proof (Z.mod_pos_bound n (2 ^ 16)) as Hm.
  rewrite Z.shiftr_div_pow2 by lia. change 255 with (Z.ones 8). rewrite Z.land_ones by lia.
  repeat constructor; unfold byte_ok.
  - apply Z.div_pos; lia.
  - apply Z.div_lt_upper_bound; lia.
  - apply Z.mod_pos_bound. lia.
  - apply Z.mod_pos_bound. lia.
Qed.

Lemma be16_put_be16 n :
  0 <= n < 65536 -> exists hi lo, put_be16 n = [hi; lo] /\ be16 hi lo = n.
Proof.
  intros H. unfold put_be16, u16. rewrite Z.mod_small by (simpl; lia).
  eexists _, _. split; [done|]. unfold be16.
  rewrite Z.shiftr_div_pow2 by lia. change 255 with (Z.ones 8). rewrite Z.land_ones by lia.
  change (2 ^ 8) with 256. pose proof (Z.div_mod n 256). lia.
Qed.

Lemma u16_le n : 0 <= n -> 0 <= u16 n <= n.
Proof.
  intros H. unfold u16. split; [apply Z.mod_pos_bound; lia|]. apply Z.mod_le; lia.
Qed.

Lemma slice_some (p : list Z) lo hi :
  0 <= lo <= hi -> hi <= len p -> exists q, slice p lo hi = Some q /\ len q = hi - lo.
Proof.
  intros H1 H2. unfold slice. rewrite bool_decide_true by done. eexists. split; [done|].
  unfold len in *. rewrite length_take, length_drop. lia.
Qed.

Lemma slice_bytes_ok (p : list Z) lo hi q : bytes_ok p -> slice p lo hi = Some q -> bytes_ok q.
Proof.
  unfold slice. intros Hp. case_bool_decide; [|done]. intros [= <-].
  by apply Forall_take, Forall_drop.
Qed.

Lemma len_nonneg {A} (l : list A) : 0 <= len l.
Proof. unfold len. lia. Qed.

Lemma pow_len_cons {A} (x : A) l : 256 ^ len (x :: l) = 256 * 256 ^ len l.
Proof.
  unfold len. change (length (x :: l)) with (S (length l)).
  rewrite Nat2Z.inj_succ, Z.pow_succ_r by lia. done.
Qed.

(** The comparison of two dotted addresses in 16-byte form is that of their values. *)
Lemma Compare_cons x a b : Compare (x :: a) (x :: b) = Compare a b.
Proof. simpl. rewrite !bool_decide_false by lia. done. Qed.

Lemma Compare_app l a b : Compare (l ++ a) (l ++ b) = Compare a b.
Proof. induction l as [|x l IH]; [done|]. by rewrite <-!app_comm_cons, Compare_cons. Qed.

Lemma foldl_value_shift acc l :
  foldl (fun acc b => 256 * acc + b) acc l = acc * 256 ^ len l + bytes_value l.
Proof.
  unfold bytes_value. revert acc. induction l as [|x l IH]; intros acc; cbn [foldl].
  - change (256 ^ len []) with 1. lia.
  - rewrite IH, (IH (256 * 0 + x)), pow_len_cons. lia.
Qed.

Lemma bytes_value_cons x l : bytes_value (x :: l) = x * 256 ^ len l + bytes_value l.
Proof. unfold bytes_value at 1. simpl. rewrite foldl_value_shift. f_equal. Qed.

Lemma bytes_value_bounds l : bytes_ok l -> 0 <= bytes_value l < 256 ^ len l.
Proof.
  induction l as [|x l IH]; intros H.
  - done.
  - apply Forall_cons in H as [Hx Hl]. rewrite bytes_value_cons.
    specialize (IH Hl). rewrite pow_len_cons. unfold byte_ok in Hx. nia.
Qed.

Lemma Compare_value a b :
  bytes_ok a -> bytes_ok b -> length a = length b ->
  Compare a b = (if bool_decide (bytes_value a < bytes_value b) then -1
                 else if bool_decide (bytes_value b < bytes_value a) then 1 else 0).
Proof.
  revert b. induction a as [|x a IH]; intros [|y b] Ha Hb Hl; simplify_eq/=.
  { done. }
  apply Forall_cons in Ha as [Hx Ha]. apply Forall_cons in Hb as [Hy Hb].
  rewrite (IH b) by done. rewrite !bytes_value_cons.
  pose proof (bytes_value_bounds a Ha). pose proof (bytes_value_bounds b Hb).
  assert (len a = len b) as Hlen by (unfold len; lia). rewrite Hlen in *.
  repeat case_bool_decide; try done; nia.
Qed.

Lemma IPv4_bytes_ok a b c d :
  byte_ok a -> byte_ok b -> byte_ok c -> byte_ok d -> bytes_ok (IPv4 a b c d).
Proof.
  intros. unfold IPv4, v4InV6Prefix. simpl.
  repeat (apply List.Forall_cons; [first [assumption | unfold byte_ok; lia]|]).
  apply List.Forall_nil.
Qed.

Lemma To4_IPv4 a b c d : To4 (IPv4 a b c d) = Some [a; b; c; d].
Proof. done. Qed.

Lemma IP_String_IPv4 a b c d : IP_String (IPv4 a b c d) = dotted [a; b; c; d].
Proof. done. Qed.

Lemma dot_not_digit : digit_of "."%char = None. Proof. done. Qed.
Lemma colon_not_digit : digit_of ":"%char = None. Proof. done. Qed.
Lemma dash_not_digit : digit_of "-"%char = None. Proof. done. Qed.

(** A printed non-negative number is determined by what precedes a separator. *)
Lemma itoa_prefix_unique sep a b r1 r2 :
  digit_of sep = None -> 0 <= a -> 0 <= b ->
  chars (itoa a) ++ sep :: r1 = chars (itoa b) ++ sep :: r2 -> a = b /\ r1 = r2.
Proof.
  intros Hs Ha Hb H. apply split_unique in H as [H ->].
  - split; [|done]. apply itoa_inj, chars_inj, H.
  - apply not_digit_notin; [done|]. by apply itoa_digits.
  - apply not_digit_notin; [done|]. by apply itoa_digits.
Qed.

(** Parsed IPv4 addresses are four bytes, so their value is a [uint32]. *)
Lemma digits_value_nonneg acc l v : 0 <= acc -> digits_value acc l = Some v -> 0 <= v.
Proof.
  revert acc. induction l as [|c l IH]; intros acc Ha; simpl; [by intros [= <-]|].
  unfold digit_of. case_bool_decide; [|done]. apply IH. lia.
Qed.

Lemma parse_octet_bounds l v : parse_octet l = Some v -> byte_ok v.
Proof.
  unfold parse_octet. intros H.
  assert (forall l', match digits_value 0 l' with
    | Some v => if bool_decide (v <= 255) then Some v else None
    | None => None end = Some v -> byte_ok v) as Hgen.
  { intros l'. destruct (digits_value 0 l') as [w|] eqn:E; [|done].
    case_bool_decide; [|done]. intros [= <-]. apply digits_value_nonneg in E; [|done].
    unfold byte_ok. lia. }
  destruct l as [|c l]; [done|]. apply (Hgen (c :: l)).
  destruct c as [[] [] [] [] [] [] [] []]; try exact H. by destruct l.
Qed.

Lemma parseIPv4_bytes l r : parseIPv4 l = Some r -> length r = 4%nat /\ bytes_ok r.
Proof.
  unfold parseIPv4. intros H.
  destruct (map parse_octet (split_chars "."%char l)) as [|[a|] [|[b|] [|[c|] [|[d|] [|]]]]]
    eqn:E; try done. injection H as <-. split; [done|].
  assert (forall v, Some v ∈ map parse_octet (split_chars "."%char l) -> byte_ok v) as Hall.
  { intros v (x & Hx & _)%list_elem_of_fmap. symmetry in Hx. by apply parse_octet_bounds in Hx. }
  rewrite E in Hall.
  repeat (apply List.Forall_cons; [apply Hall; set_solver|]). apply List.Forall_nil.
Qed.

Lemma ParseAddr_bounds s n : ParseAddr s = Some (Addr4 n) -> 0 <= n < 2 ^ 32.
Proof.
  unfold ParseAddr. destruct (List.find _ _) as [c|]; [|done]. intros H.
  assert (option_map (fun l => Addr4 (bytes_value l)) (parseIPv4 (chars s)) = Some (Addr4 n) ->
          0 <= n < 2 ^ 32) as Hgen.
  { destruct (parseIPv4 (chars s)) as [l|] eqn:E; [|done]. intros [= <-].
    apply parseIPv4_bytes in E as [Hl Hok]. pose proof (bytes_value_bounds l Hok) as Hb.
    unfold len in Hb. rewrite Hl in Hb. exact Hb. }
  destruct c as [[] [] [] [] [] [] [] []]; try done; [by apply Hgen|].
  destruct (existsb _ _); [done|]. by destruct (parseIPv6 (chars s)).
Qed.

Lemma ParsePrefix_bounds s p n :
  ParsePrefix s = Some p -> pfx_addr p = Addr4 n -> 0 <= n < 2 ^ 32 /\ 0 <= pfx_bits p <= 32.
Proof.
  unfold ParsePrefix. destruct (split_last _ _) as [[a b]|]; [|done].
  destruct (ParseAddr (of_chars a)) as [addr|] eqn:E; [|done].
  destruct b as [|c rest]; [done|]. destruct (_ && _); [done|].
  destruct (Atoi _) as [bits|]; [|done]. case_bool_decide as Hb; [|done].
  intros [= <-]. simpl. intros ->. simpl in Hb. split; [by eapply ParseAddr_bounds|done].
Qed.

(** A prefix of IPv4 addresses is a block. *)
Lemma Prefix_Contains_block n bits a :
  0 <= bits <= 32 ->
  Prefix_Contains {| pfx_addr := Addr4 n; pfx_bits := bits |} (Addr4 a) = true <->
  n / 2 ^ (32 - bits) = a / 2 ^ (32 - bits).
Proof.
  intros Hb. unfold Prefix_Contains. simpl. rewrite bool_decide_eq_true, Z.shiftr_lxor.
  rewrite Z.lxor_eq_0_iff, !Z.shiftr_div_pow2 by lia. done.
Qed.

Lemma Prefix_Contains_host n a :
  Prefix_Contains {| pfx_addr := Addr4 n; pfx_bits := 32 |} (Addr4 a) = true <-> n = a.
Proof. rewrite Prefix_Contains_block by lia. by rewrite !Z.div_1_r. Qed.

(** ** The text of an IPv4 address *)

Lemma parse_octet_itoa a : byte_ok a -> parse_octet (chars (itoa a)) = Some a.
Proof.
  intros [H0 H1].
  assert (forallb (fun n => bool_decide (parse_octet (chars (itoa (Z.of_nat n))) = Some (Z.of_nat n))) (seq 0 256) = true)
    as Hall by (by vm_compute).
  rewrite forallb_forall in Hall. specialize (Hall (Z.to_nat a)). rewrite Z2Nat.id, bool_decide_eq_true in Hall by done.
  apply Hall, in_seq. lia.
Qed.

Lemma itoa_no_dot a : byte_ok a -> "."%char ∉ chars (itoa a).
Proof. intros [H0 _]. apply not_digit_notin; [done|]. by apply itoa_digits. Qed.

Lemma chars_dotted a b c d :
  chars (dotted [a; b; c; d]) = chars (itoa a) ++ "."%char :: chars (itoa b) ++ "."%char :: chars (itoa c) ++ "."%char :: chars (itoa d).
Proof. unfold dotted. by rewrite !chars_app. Qed.

Lemma parseIPv4_dotted a b c d :
  bytes_ok [a; b; c; d] -> parseIPv4 (chars (dotted [a; b; c; d])) = Some [a; b; c; d].
Proof.
  intros Hok. repeat (apply Forall_cons in Hok as [? Hok]). unfold parseIPv4. rewrite chars_dotted.
  rewrite !split_chars_cons by (by apply itoa_no_dot). rewrite split_chars_plain by (by apply itoa_no_dot).
  cbn [map]. by rewrite !parse_octet_itoa.
Qed.

Lemma be_bytes_4 n :
  0 <= n < 2 ^ 32 -> exists a b c d, be_bytes 4 n [] = [a; b; c; d] /\ bytes_ok [a; b; c; d] /\ bytes_value [a; b; c; d] = n.
Proof.
  intros Hn. exists (n / 256 / 256 / 256 mod 256), (n / 256 / 256 mod 256), (n / 256 mod 256), (n mod 256).
  split; [done|]. split.
  - repeat (apply Forall_cons; split; [apply Z.mod_pos_bound; lia|]). by apply Forall_nil.
  - unfold bytes_value. cbn [foldl]. rewrite (Z.mod_small (n / 256 / 256 / 256)) by
      (split; [repeat apply Z.div_pos; lia|repeat apply Z.div_lt_upper_bound; lia]).
    pose proof (Z.div_mod n 256). pose proof (Z.div_mod (n / 256) 256). pose proof (Z.div_mod (n / 256 / 256) 256). lia.
Qed.

(** The text of an IPv4 address is read back. *)
Lemma ParseAddr_Addr4 n : 0 <= n < 2 ^ 32 -> ParseAddr (Addr_String (Addr4 n)) = Some (Addr4 n).
Proof.
  intros Hn. destruct (be_bytes_4 n Hn) as (a & b & c & d & Hb & Hok & Hv). cbn [Addr_String]. rewrite Hb.
  pose proof (parseIPv4_dotted a b c d Hok) as Hp. unfold ParseAddr.
  assert (List.find (fun c => bool_decide (c ∈ ["."%char; ":"%char; "%"%char])) (chars (dotted [a; b; c; d])) = Some "."%char) as ->.
  { rewrite chars_dotted. apply Forall_cons in Hok as [[Ha _] _]. destruct (itoa_digits a Ha) as [Hd _].
    induction Hd as [|x l (v & Hx & _) Hd IH]; [done|]. cbn. rewrite bool_decide_false; [done|].
    intros Hin. repeat (apply elem_of_cons in Hin as [->|Hin]; [done|]). by apply elem_of_nil in Hin. }
  rewrite Hp. change (Some (Addr4 (bytes_value [a; b; c; d])) = Some (Addr4 n)). by rewrite Hv.
Qed.
