(* ===== verification/Packet.v ===== *)
(** IPv4, TCP and UDP packet views (internal/zctcpip) and the classification of outgoing
    packets by the layer-3 tunnel (client/atrust/l3tunnelpacket.go). A view is a byte
    slice; an accessor that would panic in Go is [None]. *)

From S2P Require Import Prelude Core GoNet.

(** ** internal/zctcpip *)

Definition ICMP : Z := 1.
Definition TCP : Z := 6.
Definition UDP : Z := 17.
Definition IPv4HeaderSize : Z := 20.
Definition IPv4Version : Z := 4.
Definition TCPHeaderSize : Z := 20.
Definition UDPHeaderSize : Z := 8.

Definition TotalLen (p : list Z) : option Z := Uint16 p 2.

Definition HeaderLen (p : list Z) : option Z :=
  b0 ← index p 0; Some (u16 (u16 (Z.land b0 15) * 4)).

Definition Payload (p : list Z) : option (list Z) :=
  h ← HeaderLen p; t ← TotalLen p; slice p h t.

Definition Protocol (p : list Z) : option Z := index p 9.

Definition SourceIP (p : list Z) : option IP :=
  a ← index p 12; b ← index p 13; c ← index p 14; d ← index p 15; Some (IPv4 a b c d).

Definition DestinationIP (p : list Z) : option IP :=
  a ← index p 16; b ← index p 17; c ← index p 18; d ← index p 19; Some (IPv4 a b c d).

Definition IPv4Packet_Valid (p : list Z) : option bool :=
  if bool_decide (len p < IPv4HeaderSize) then Some false
  else
    b0 ← index p 0;
    if negb (bool_decide (Z.shiftr b0 4 = IPv4Version)) then Some false
    else
      headerLength ← HeaderLen p;
      totalLength ← TotalLen p;
      Some (bool_decide (headerLength >= IPv4HeaderSize)
            && bool_decide (totalLength >= headerLength)
            && bool_decide (u16 (len p) >= totalLength)).

Definition TCP_SourcePort (p : list Z) : option Z := Uint16 p 0.
Definition TCP_DestinationPort (p : list Z) : option Z := Uint16 p 2.
Definition TCPPacket_Valid (p : list Z) : bool := bool_decide (len p >= TCPHeaderSize).

Definition UDP_Length (p : list Z) : option Z := Uint16 p 4.
Definition UDP_SourcePort (p : list Z) : option Z := Uint16 p 0.
Definition UDP_DestinationPort (p : list Z) : option Z := Uint16 p 2.

Definition UDPPacket_Valid (p : list Z) : option bool :=
  if bool_decide (len p >= UDPHeaderSize) then
    l ← UDP_Length p; Some (bool_decide (u16 (len p) >= l))
  else Some false.

(** ** client/atrust/l3tunnelpacket.go *)

(** [client.IPResource]. *)
Record IPResource : Type := {
  IPMin : IP;
  IPMax : IP;
  PortMin : Z;
  PortMax : Z;
  ResProtocol : string;
  AppID : string;
  NodeGroupID : string;
}.

Definition ErrResourceNotFound : error :=
  EVar "client.ErrResourceNotFound" "resource not found".
Definition ErrNetworkUnreachable : error :=
  EVar "client.ErrNetworkUnreachable" "network is unreachable".
Definition ErrHostUnreachable : error :=
  EVar "client.ErrHostUnreachable" "host is unreachable".
Definition ErrConnectionRefused : error :=
  EVar "client.ErrConnectionRefused" "connection refused".
Definition ErrSessionInvalid : error :=
  EVar "client.ErrSessionInvalid" "session is invalid".

(** [fmt.Errorf("…: %w", …, err)]. *)
Definition wrapf (prefix : string) (err : error) : error :=
  EWrap (prefix +:+ ": " +:+ error_text err) err.

(** The protocol name and destination port read from the headers: the first half of
    [processIPV4]. The outer [option] is a panic. *)
Definition classify_packet (packet : list Z) : option (result error (string * Z)) :=
  valid ← IPv4Packet_Valid packet;
  if negb valid then
    Some (Err (EText ("invalid IPv4 packet length " +:+ itoa (len packet))))
  else
    protocol ← Protocol packet;
    if bool_decide (protocol = TCP) then
      tcpPacket ← Payload packet;
      if negb (TCPPacket_Valid tcpPacket) then
        Some (Err (EText ("invalid TCP packet length " +:+ itoa (len tcpPacket))))
      else port ← TCP_DestinationPort tcpPacket; Some (Ok ("tcp"%string, port))
    else if bool_decide (protocol = UDP) then
      udpPacket ← Payload packet;
      ok ← UDPPacket_Valid udpPacket;
      if negb ok then
        Some (Err (EText ("invalid UDP packet length " +:+ itoa (len udpPacket))))
      else port ← UDP_DestinationPort udpPacket; Some (Ok ("udp"%string, port))
    else if bool_decide (protocol = ICMP) then Some (Ok ("icmp"%string, -1))
    else Some (Err (wrapf ("protocol " +:+ itoa protocol) ErrResourceNotFound)).

(** The guards of the loop over [t.ipResources]. *)
Definition resource_matches (dst : IP) (protocol : string) (port : Z) (r : IPResource) : bool :=
  bool_decide (Compare dst (IPMin r) >= 0) && bool_decide (Compare dst (IPMax r) <= 0)
  && (bool_decide (ResProtocol r = protocol) || bool_decide (ResProtocol r = "all"%string))
  && (bool_decide (protocol = "icmp"%string)
      || bool_decide (PortMin r <= port) && bool_decide (port <= PortMax r)).

(** [processIPV4]; [writePacket] is the call at the two return statements of the loop, an
    action in a state of its own. *)
Section Process.
Context {S : Type}.
Variable writePacket : list Z -> string -> string -> S -> option error * S.

Fixpoint scan_resources (resources : list IPResource) (packet : list Z) (dst : IP)
    (protocol : string) (port : Z) (s : S) : option error * S :=
  match resources with
  | r :: rest =>
      if resource_matches dst protocol port r
      then writePacket packet (AppID r) (NodeGroupID r) s
      else scan_resources rest packet dst protocol port s
  | [] =>
      (Some (wrapf
         (if negb (bool_decide (port = -1))
          then IP_String dst +:+ ":" +:+ itoa port +:+ ", [" +:+ protocol +:+ "]"
          else IP_String dst +:+ ", [" +:+ protocol +:+ "]") ErrResourceNotFound), s)
  end.

Definition processIPV4 (ipResources : list IPResource) (packet : list Z) (s : S)
    : option (option error * S) :=
  c ← classify_packet packet;
  match c with
  | Err e => Some (Some e, s)
  | Ok (protocol, port) =>
      dst ← DestinationIP packet;
      Some (scan_resources ipResources packet dst protocol port s)
  end.
End Process.

Record packetMeta : Type := {
  meta_atype : Z;
  meta_proto : Z;
  meta_srcIP : IP;
  meta_dstIP : IP;
  meta_srcPort : Z;
  meta_dstPort : Z;
}.

Definition buildPacketMeta (packet : list Z) : option (result error packetMeta) :=
  proto ← Protocol packet;
  let meta sp dp :=
    src ← SourceIP packet; dst ← DestinationIP packet;
    Some (Ok {| meta_atype := 4; meta_proto := proto; meta_srcIP := src;
                meta_dstIP := dst; meta_srcPort := sp; meta_dstPort := dp |}) in
  if bool_decide (proto = ICMP) then meta 0 0
  else if bool_decide (proto = TCP) then
    p ← Payload packet; sp ← TCP_SourcePort p; dp ← TCP_DestinationPort p; meta sp dp
  else if bool_decide (proto = UDP) then
    p ← Payload packet; sp ← UDP_SourcePort p; dp ← UDP_DestinationPort p; meta sp dp
  else Some (Err (EText ("unsupported protocol " +:+ itoa proto))).

(** client/atrust/l3tunnelconn.go, [connTrackKey]. *)
Definition connTrackKey (meta : packetMeta) : string :=
  itoa (meta_atype meta) +:+ ":" +:+ IP_String (meta_srcIP meta) +:+ ":"
  +:+ itoa (meta_srcPort meta) +:+ "-" +:+ IP_String (meta_dstIP meta) +:+ ":"
  +:+ itoa (meta_dstPort meta).

(** ** Theorems *)

Lemma HeaderLen_some p :
  bytes_ok p -> 20 <= len p -> exists h, HeaderLen p = Some h /\ 0 <= h <= 60.
Proof.
  intros Hp Hl. unfold HeaderLen, index.
  destruct (lookup_byte p 0) as (b & Hb & Hok); [unfold len in Hl; lia|]. rewrite Hb. simpl.
  eexists. split; [done|].
  change 15 with (Z.ones 4). rewrite Z.land_ones by lia. change (2 ^ 4) with 16.
  pose proof (Z.mod_pos_bound b 16) as Hm. generalize dependent (b mod 16). intros m Hm.
  unfold u16. change (2 ^ 16) with 65536. rewrite (Z.mod_small m), Z.mod_small; lia.
Qed.

Lemma TotalLen_some p :
  bytes_ok p -> 20 <= len p -> exists t, TotalLen p = Some t /\ 0 <= t < 65536.
Proof.
  intros Hp Hl. destruct (Uint16_some p 2) as (t & Ht & Hb); [unfold len in Hl; lia|].
  exists t. auto.
Qed.

Lemma IPv4Packet_Valid_total p : bytes_ok p -> exists b, IPv4Packet_Valid p = Some b.
Proof.
  intros Hp. unfold IPv4Packet_Valid, IPv4HeaderSize, index.
  case_bool_decide; [by eexists|].
  destruct (lookup_byte p 0) as (b & -> & _); [unfold len in *; lia|]. simpl.
  destruct (negb _); [by eexists|].
  destruct (HeaderLen_some p) as (h & -> & _); [done|lia|].
  destruct (TotalLen_some p) as (t & -> & _); [done|lia|]. by eexists.
Qed.

(** What [Valid] guarantees to every accessor. *)
Lemma IPv4Packet_Valid_true p :
  bytes_ok p -> IPv4Packet_Valid p = Some true ->
  exists h t q, HeaderLen p = Some h /\ TotalLen p = Some t /\ 20 <= h <= t /\ t <= len p /\
    Payload p = Some q /\ len q = t - h /\ bytes_ok q.
Proof.
  intros Hp Hv. unfold IPv4Packet_Valid, IPv4HeaderSize, index in Hv.
  case_bool_decide as Hl; [done|].
  destruct (lookup_byte p 0) as (b & Hb & _); [unfold len in *; lia|].
  rewrite Hb in Hv. simpl in Hv. destruct (negb _); [done|].
  destruct (HeaderLen_some p) as (h & Hh & _); [done|lia|].
  destruct (TotalLen_some p) as (t & Ht & Hb2); [done|lia|].
  rewrite Hh, Ht in Hv. simpl in Hv. injection Hv as Hv. bool_hyps.
  pose proof (u16_le (len p) (len_nonneg p)) as Hu.
  destruct (slice_some p h t) as (q & Hq & Hlq); [lia|lia|].
  exists h, t, q. split_and!; try done; try lia.
  - unfold Payload. by rewrite Hh, Ht.
  - by eapply slice_bytes_ok.
Qed.

Lemma bytes_at p i :
  bytes_ok p -> 20 <= len p -> (i < 20)%nat -> exists b, index p i = Some b /\ byte_ok b.
Proof.
  intros Hp Hl Hi. destruct (lookup_byte p i) as (b & Hb & Hok); [unfold len in Hl; lia|].
  exists b. auto.
Qed.

Lemma DestinationIP_some p :
  bytes_ok p -> 20 <= len p ->
  exists a b c d, DestinationIP p = Some (IPv4 a b c d) /\
    byte_ok a /\ byte_ok b /\ byte_ok c /\ byte_ok d.
Proof.
  intros Hp Hl.
  destruct (bytes_at p 16) as (a & Ha & ?); [done|done|lia|].
  destruct (bytes_at p 17) as (b & Hb & ?); [done|done|lia|].
  destruct (bytes_at p 18) as (c & Hc & ?); [done|done|lia|].
  destruct (bytes_at p 19) as (d & Hd & ?); [done|done|lia|].
  exists a, b, c, d. split_and!; try done. unfold DestinationIP. by rewrite Ha, Hb, Hc, Hd.
Qed.

Lemma SourceIP_some p :
  bytes_ok p -> 20 <= len p ->
  exists a b c d, SourceIP p = Some (IPv4 a b c d) /\
    byte_ok a /\ byte_ok b /\ byte_ok c /\ byte_ok d.
Proof.
  intros Hp Hl.
  destruct (bytes_at p 12) as (a & Ha & ?); [done|done|lia|].
  destruct (bytes_at p 13) as (b & Hb & ?); [done|done|lia|].
  destruct (bytes_at p 14) as (c & Hc & ?); [done|done|lia|].
  destruct (bytes_at p 15) as (d & Hd & ?); [done|done|lia|].
  exists a, b, c, d. split_and!; try done. unfold SourceIP. by rewrite Ha, Hb, Hc, Hd.
Qed.

Lemma UDPPacket_Valid_total q :
  exists b, UDPPacket_Valid q = Some b /\ (b = true -> 8 <= len q).
Proof.
  unfold UDPPacket_Valid, UDPHeaderSize, UDP_Length. case_bool_decide as Hl.
  - destruct (Uint16_some q 4) as (l & -> & _); [unfold len in Hl; lia|].
    eexists. split; [done|]. intros _. lia.
  - by exists false.
Qed.

(** The destination of a classified packet, as the metadata of the tunnel sees it. *)
Definition meta_of (m : packetMeta) (protocol : string) (port : Z) (dst : IP) : Prop :=
  meta_atype m = 4 /\ meta_dstIP m = dst /\
  (protocol = "icmp"%string /\ port = -1 /\ meta_proto m = ICMP /\
     meta_srcPort m = 0 /\ meta_dstPort m = 0 \/
   protocol = "tcp"%string /\ meta_proto m = TCP /\ meta_dstPort m = port /\ 0 <= port < 65536 \/
   protocol = "udp"%string /\ meta_proto m = UDP /\ meta_dstPort m = port /\ 0 <= port < 65536).

Lemma classify_packet_spec p :
  bytes_ok p ->
  (exists e, classify_packet p = Some (Err e)) \/
  (exists protocol port dst m, classify_packet p = Some (Ok (protocol, port)) /\
     DestinationIP p = Some dst /\ buildPacketMeta p = Some (Ok m) /\
     meta_of m protocol port dst).
Proof.
  intros Hp. unfold classify_packet.
  destruct (IPv4Packet_Valid_total p Hp) as [[] Hv]; rewrite Hv; simpl; [|eauto].
  destruct (IPv4Packet_Valid_true p Hp Hv) as (h & t & q & _ & _ & Hht & Htl & Hq & Hlq & Hqok).
  destruct (bytes_at p 9) as (proto & Hproto & _); [done|lia|lia|].
  destruct (DestinationIP_some p) as (a & b & c & d & Hd & _); [done|lia|].
  destruct (SourceIP_some p) as (a' & b' & c' & d' & Hs & _); [done|lia|].
  unfold buildPacketMeta, Protocol. rewrite Hproto, Hd, Hs, Hq. simpl.
  unfold TCP_DestinationPort, TCP_SourcePort, UDP_DestinationPort, UDP_SourcePort.
  case_bool_decide as Ht; subst; simpl.
  { unfold TCPPacket_Valid, TCPHeaderSize. case_bool_decide as Hl; simpl; [|eauto].
    destruct (Uint16_some q 0) as (sp & -> & _); [unfold len in Hl; lia|].
    destruct (Uint16_some q 2) as (dp & -> & Hdp); [unfold len in Hl; lia|]. simpl.
    right. eexists _, _, _, _. split_and!; [done..|].
    split_and!; [done..|]. right. left. split_and!; try done; by apply Hdp. }
  case_bool_decide as Hu; subst; simpl.
  { destruct (UDPPacket_Valid_total q) as ([] & -> & Hl); simpl; [|eauto].
    specialize (Hl eq_refl).
    destruct (Uint16_some q 0) as (sp & -> & _); [unfold len in Hl; lia|].
    destruct (Uint16_some q 2) as (dp & -> & Hdp); [unfold len in Hl; lia|]. simpl.
    right. eexists _, _, _, _. split_and!; [done..|].
    split_and!; [done..|]. right. right. split_and!; try done; by apply Hdp. }
  case_bool_decide as Hi; subst; simpl; [|eauto].
  right. eexists _, _, _, _. split_and!; [done..|].
  split_and!; [done..|]. left. done.
Qed.

Lemma scan_resources_spec {S} (write : list Z -> string -> string -> S -> option error * S)
    rs p dst protocol port s :
  (exists pre r post, rs = pre ++ r :: post /\
     Forall (fun r' => resource_matches dst protocol port r' = false) pre /\
     resource_matches dst protocol port r = true /\
     scan_resources write rs p dst protocol port s = write p (AppID r) (NodeGroupID r) s) \/
  (Forall (fun r' => resource_matches dst protocol port r' = false) rs /\
   exists e, scan_resources write rs p dst protocol port s = (Some e, s) /\
     errors_Is e "client.ErrResourceNotFound" = true).
Proof.
  induction rs as [|r rs IH]; simpl.
  { right. split; [constructor|]. by eexists. }
  destruct (resource_matches dst protocol port r) eqn:Hr.
  { left. exists [], r, rs. split_and!; [done|constructor|done|done]. }
  destruct IH as [(pre & r' & post & -> & Hpre & Hr' & Heq)|(Hall & e & Heq & He)].
  - left. exists (r :: pre), r', post. split_and!; [done|by constructor|done|done].
  - right. split; [by constructor|]. eauto.
Qed.

(** On any byte slice [processIPV4] terminates without an out-of-range access. It either
    returns an error without touching the tunnel, or hands the packet unchanged to
    [writePacket] for the first resource, in list order, whose address range, protocol and
    port range admit it; then [buildPacketMeta] succeeds on the packet with the destination
    address and port that were matched. A packet of a known protocol that no resource admits
    is refused with [ErrResourceNotFound]. *)
Theorem processIPV4_first_match {S}
    (write : list Z -> string -> string -> S -> option error * S)
    (rs : list IPResource) (p : list Z) (s : S) (Hp : bytes_ok p) :
  exists r, processIPV4 write rs p s = Some r /\
    ((exists e, classify_packet p = Some (Err e) /\ r = (Some e, s)) \/
     exists protocol port dst m,
       classify_packet p = Some (Ok (protocol, port)) /\
       buildPacketMeta p = Some (Ok m) /\ meta_of m protocol port dst /\
       ((exists pre res post, rs = pre ++ res :: post /\
           Forall (fun r' => resource_matches dst protocol port r' = false) pre /\
           resource_matches dst protocol port res = true /\
           r = write p (AppID res) (NodeGroupID res) s) \/
        Forall (fun r' => resource_matches dst protocol port r' = false) rs /\
        exists e, r = (Some e, s) /\ errors_Is e "client.ErrResourceNotFound" = true)).
Proof.
  unfold processIPV4.
  destruct (classify_packet_spec p Hp)
    as [[e ->]|(protocol & port & dst & m & -> & Hd & Hm & Hmo)]; simpl.
  { eexists. split; [done|]. left. eauto. }
  rewrite Hd. simpl. eexists. split; [done|]. right.
  exists protocol, port, dst, m. split_and!; try done.
  apply scan_resources_spec.
Qed.

(** A TCP segment of 40 bytes from 10.0.0.1:4660 to 10.0.0.2:80, and two resources. *)
Definition sample_packet : list Z :=
  [69;0;0;40;0;0;0;0;64;6;0;0; 10;0;0;1; 10;0;0;2;
   18;52; 0;80; 0;0;0;0; 0;0;0;0; 80;2;0;0; 0;0;0;0].

Definition sample_resources : list IPResource :=
  [ {| IPMin := IPv4 10 0 0 0; IPMax := IPv4 10 0 0 255; PortMin := 443; PortMax := 443;
       ResProtocol := "tcp"; AppID := "a"; NodeGroupID := "g" |};
    {| IPMin := IPv4 10 0 0 0; IPMax := IPv4 10 0 0 255; PortMin := 1; PortMax := 100;
       ResProtocol := "all"; AppID := "b"; NodeGroupID := "h" |} ].

Definition record_write (p : list Z) (app group : string) (log : list (string * string))
    : option error * list (string * string) := (None, (app, group) :: log).

Lemma sample_packet_bytes : bytes_ok sample_packet.
Proof.
  unfold bytes_ok, sample_packet, byte_ok.
  repeat (apply List.Forall_cons; [lia|]). apply List.Forall_nil.
Defined.

Lemma processIPV4_first_match_witness :
  processIPV4 record_write sample_resources sample_packet [] =
    Some (None, [("b", "h")]%string) /\
  exists r, processIPV4 record_write sample_resources sample_packet [] = Some r.
Proof.
  split; [by vm_compute|].
  destruct (processIPV4_first_match record_write sample_resources sample_packet []
              sample_packet_bytes) as (r & Hr & _).
  exists r. exact Hr.
Defined.

(** The numeric value of an IPv4 address held in 16 bytes. *)
Definition v4_value (a b c d : Z) : Z := bytes_value [a; b; c; d].

Lemma Compare_IPv4 a b c d a' b' c' d' :
  bytes_ok [a; b; c; d] -> bytes_ok [a'; b'; c'; d'] ->
  Compare (IPv4 a b c d) (IPv4 a' b' c' d') =
    (if bool_decide (v4_value a b c d < v4_value a' b' c' d') then -1
     else if bool_decide (v4_value a' b' c' d' < v4_value a b c d) then 1 else 0).
Proof. intros H1 H2. unfold IPv4. rewrite Compare_app. by apply Compare_value. Qed.

(** For addresses in the 16-byte form that [net.IPv4] and [net.ParseIP] build, the two
    [bytes.Compare] guards of the resource loop are the numeric range test
    min <= destination <= max on 32-bit values, so a packet is admitted exactly when its
    destination lies in the range, the protocol agrees and, except for ICMP, the port lies
    in the port range. *)
Theorem resource_matches_range (a b c d a1 b1 c1 d1 a2 b2 c2 d2 pmin pmax port : Z)
    (protocol proto app group : string)
    (Hd : bytes_ok [a; b; c; d]) (H1 : bytes_ok [a1; b1; c1; d1])
    (H2 : bytes_ok [a2; b2; c2; d2]) :
  resource_matches (IPv4 a b c d) protocol port
    {| IPMin := IPv4 a1 b1 c1 d1; IPMax := IPv4 a2 b2 c2 d2; PortMin := pmin;
       PortMax := pmax; ResProtocol := proto; AppID := app; NodeGroupID := group |} = true <->
  v4_value a1 b1 c1 d1 <= v4_value a b c d <= v4_value a2 b2 c2 d2 /\
  (proto = protocol \/ proto = "all"%string) /\
  (protocol = "icmp"%string \/ pmin <= port <= pmax).
Proof.
  unfold resource_matches. cbn [IPMin IPMax ResProtocol PortMin PortMax].
  rewrite !Compare_IPv4 by done.
  rewrite !andb_true_iff, !orb_true_iff, andb_true_iff, !bool_decide_eq_true.
  assert (forall x y : Z, (if bool_decide (x < y) then -1 else if bool_decide (y < x) then 1
            else 0) >= 0 <-> y <= x) as Hge
    by (intros; repeat case_bool_decide; lia).
  assert (forall x y : Z, (if bool_decide (x < y) then -1 else if bool_decide (y < x) then 1
            else 0) <= 0 <-> x <= y) as Hle
    by (intros; repeat case_bool_decide; lia).
  rewrite Hge, Hle. tauto.
Qed.

Lemma resource_matches_range_witness :
  bytes_ok [10; 0; 0; 7] /\
  resource_matches (IPv4 10 0 0 7) "tcp" 80
    {| IPMin := IPv4 10 0 0 0; IPMax := IPv4 10 0 0 255; PortMin := 1; PortMax := 100;
       ResProtocol := "all"; AppID := "b"; NodeGroupID := "h" |} = true.
Proof.
  assert (forall x y z w, 0 <= x < 256 -> 0 <= y < 256 -> 0 <= z < 256 -> 0 <= w < 256 ->
            bytes_ok [x; y; z; w]) as Hok.
  { intros. repeat (apply List.Forall_cons; [assumption|]). apply List.Forall_nil. }
  split; [apply Hok; lia|].
  apply (resource_matches_range 10 0 0 7 10 0 0 0 10 0 0 255 1 100 80 "tcp" "all" "b" "h");
    [apply Hok; lia..|].
  split; [vm_compute; split; discriminate|]. split; [right; reflexivity|right; lia].
Defined.

(** Metadata as [buildPacketMeta] builds it. *)
Definition meta_wf (m : packetMeta) : Prop :=
  meta_atype m = 4 /\
  (exists a b c d, meta_srcIP m = IPv4 a b c d /\ bytes_ok [a; b; c; d]) /\
  (exists a b c d, meta_dstIP m = IPv4 a b c d /\ bytes_ok [a; b; c; d]) /\
  0 <= meta_srcPort m < 65536 /\ 0 <= meta_dstPort m < 65536.

Lemma bytes_ok4 a b c d :
  byte_ok a -> byte_ok b -> byte_ok c -> byte_ok d -> bytes_ok [a; b; c; d].
Proof.
  intros. repeat (apply List.Forall_cons; [assumption|]). apply List.Forall_nil.
Qed.

Lemma Payload_port_bounds p q i v :
  bytes_ok p -> Payload p = Some q -> Uint16 q i = Some v -> 0 <= v < 65536.
Proof.
  unfold Payload. intros Hp Hq Hv. obind Hq.
  assert (bytes_ok q) as Hok by (by eapply slice_bytes_ok).
  assert (S i < length q)%nat as Hl.
  { unfold Uint16 in Hv. destruct (q !! i) eqn:E1; [|done].
    destruct (q !! S i) eqn:E2; [|done]. by eapply lookup_lt_Some. }
  destruct (Uint16_some q i Hl) as (v' & Hv' & Hb). rewrite Hv in Hv'. injection Hv' as <-.
  by apply Hb.
Qed.

Lemma buildPacketMeta_wf p m :
  bytes_ok p -> 20 <= len p -> buildPacketMeta p = Some (Ok m) -> meta_wf m.
Proof.
  intros Hp Hl. unfold buildPacketMeta, meta_wf.
  destruct (DestinationIP_some p) as (a & b & c & d & -> & ? & ? & ? & ?); [done|lia|].
  destruct (SourceIP_some p) as (a' & b' & c' & d' & -> & ? & ? & ? & ?); [done|lia|].
  destruct (Protocol p) as [proto|]; [|done]. simpl.
  assert (forall sp dp, 0 <= sp < 65536 -> 0 <= dp < 65536 ->
    meta_wf {| meta_atype := 4; meta_proto := proto; meta_srcIP := IPv4 a' b' c' d';
               meta_dstIP := IPv4 a b c d; meta_srcPort := sp; meta_dstPort := dp |}) as Hwf.
  { intros sp dp ? ?. split_and!; simpl; try done; try lia.
    - exists a', b', c', d'. split; [done|]. by apply bytes_ok4.
    - exists a, b, c, d. split; [done|]. by apply bytes_ok4. }
  repeat case_bool_decide; intros Hm; obind Hm; simplify_eq; apply Hwf; try lia;
    by eapply Payload_port_bounds.
Qed.

Lemma bytes_ok4_inv a b c d :
  bytes_ok [a; b; c; d] -> byte_ok a /\ byte_ok b /\ byte_ok c /\ byte_ok d.
Proof.
  unfold bytes_ok. rewrite !Forall_cons. tauto.
Qed.

(** A dotted address is determined by what precedes a separator that is not a digit. *)
Lemma dotted_prefix_unique sep a b c d a' b' c' d' r r' :
  digit_of sep = None -> bytes_ok [a; b; c; d] -> bytes_ok [a'; b'; c'; d'] ->
  chars (dotted [a; b; c; d]) ++ sep :: r = chars (dotted [a'; b'; c'; d']) ++ sep :: r' ->
  [a; b; c; d] = [a'; b'; c'; d'] /\ r = r'.
Proof.
  unfold bytes_ok. intros Hs (?&?&?&?)%bytes_ok4_inv (?&?&?&?)%bytes_ok4_inv.
  unfold byte_ok in *. rewrite !chars_dotted. repeat (rewrite <-app_assoc; simpl).
  intros E.
  apply itoa_prefix_unique in E as [-> E]; [|done|lia|lia].
  apply itoa_prefix_unique in E as [-> E]; [|done|lia|lia].
  apply itoa_prefix_unique in E as [-> E]; [|done|lia|lia].
  apply itoa_prefix_unique in E as [-> E]; [|done|lia|lia].
  done.
Qed.

(** The conntrack key of a packet identifies its source and destination address and
    port, and nothing else: two metadata values built from packets have the same key exactly
    when these four agree. The protocol is not part of the key, so a TCP and a UDP flow with
    the same addresses and ports share one conntrack entry. *)
Theorem connTrackKey_identifies (m1 m2 : packetMeta) (H1 : meta_wf m1) (H2 : meta_wf m2) :
  connTrackKey m1 = connTrackKey m2 <->
  meta_srcIP m1 = meta_srcIP m2 /\ meta_srcPort m1 = meta_srcPort m2 /\
  meta_dstIP m1 = meta_dstIP m2 /\ meta_dstPort m1 = meta_dstPort m2.
Proof.
  destruct H1 as (A1 & (a & b & c & d & S1 & B1) & (a2 & b2 & c2 & d2 & D1 & B2) & P1 & Q1).
  destruct H2 as (A2 & (e & f & g & h & S2 & B3) & (e2 & f2 & g2 & h2 & D2 & B4) & P2 & Q2).
  unfold connTrackKey. rewrite A1, A2, S1, S2, D1, D2, !IP_String_IPv4.
  split; [|intros ([= -> -> -> ->] & -> & [= -> -> -> ->] & ->); done].
  intros H%(f_equal chars). rewrite !chars_app in H.
  change (chars ":") with [":"%char] in H. change (chars "-") with ["-"%char] in H.
  cbn [app] in H. apply app_inv_head in H. injection H as H.
  apply dotted_prefix_unique in H as [[= -> -> -> ->] H]; [|done..].
  apply itoa_prefix_unique in H as [-> H]; [|done|lia|lia].
  apply dotted_prefix_unique in H as [[= -> -> -> ->] H]; [|done..].
  apply chars_inj, itoa_inj in H. done.
Qed.

Definition sample_meta (proto : Z) : packetMeta :=
  {| meta_atype := 4; meta_proto := proto; meta_srcIP := IPv4 10 0 0 1;
     meta_dstIP := IPv4 10 0 0 2; meta_srcPort := 5353; meta_dstPort := 53 |}.

Lemma connTrackKey_identifies_witness :
  connTrackKey (sample_meta TCP) = connTrackKey (sample_meta UDP).
Proof.
  assert (forall proto, meta_wf (sample_meta proto)) as Hwf.
  { intros proto. split_and!; simpl; try lia.
    - exists 10, 0, 0, 1. split; [reflexivity|]. unfold bytes_ok, byte_ok.
      repeat (apply List.Forall_cons; [lia|]). apply List.Forall_nil.
    - exists 10, 0, 0, 2. split; [reflexivity|]. unfold bytes_ok, byte_ok.
      repeat (apply List.Forall_cons; [lia|]). apply List.Forall_nil. }
  apply (connTrackKey_identifies (sample_meta TCP) (sample_meta UDP)); [apply Hwf..|].
  split_and!; reflexivity.
Defined.
