(* ===== verification/Conntrack.v ===== *)
(** The connection-tracking table of a layer-3 tunnel connection
    (client/atrust/l3tunnelconntrack.go) and the wait of [ensureAuth] on it
    (client/atrust/l3tunnelconn.go). A [*conntrack] is a handle into an object store, so
    that both indexes and a waiting writer alias the same entry. The channel [authCh] is
    closed after the lock is released; a goroutine that still has to close it is in
    [mgr_closing]. Time is in nanoseconds. *)

From S2P Require Import Prelude Core GoNet.

Record conntrack : Type := {
  ct_key : string;
  ct_authID : Z;
  ct_connectToken : string;
  ct_appID : string;
  ct_nodeGroupID : string;
  ct_closed : bool;
  ct_authErr : option error;
  ct_authStarted : bool;
  ct_lastUsed : Z;
}.

Record conntrackMgr : Type := {
  mgr_nextAuthID : Z;
  mgr_byKey : gmap string nat;
  mgr_byID : gmap Z nat;
  mgr_limit : Z;
  mgr_idleAfter : Z;
  mgr_objs : gmap nat conntrack;
  mgr_closing : gset nat;
}.

Definition defaultConntrackLimit : Z := 4096.
Definition defaultConntrackIdleAfter : Z := 30 * 60 * 1000000000.

Definition newConntrackMgr : conntrackMgr :=
  {| mgr_nextAuthID := 0; mgr_byKey := ∅; mgr_byID := ∅; mgr_limit := defaultConntrackLimit;
     mgr_idleAfter := defaultConntrackIdleAfter; mgr_objs := ∅; mgr_closing := ∅ |}.

Definition set_indexes (byKey : gmap string nat) (byID : gmap Z nat) (m : conntrackMgr)
    : conntrackMgr :=
  {| mgr_nextAuthID := mgr_nextAuthID m; mgr_byKey := byKey; mgr_byID := byID;
     mgr_limit := mgr_limit m; mgr_idleAfter := mgr_idleAfter m; mgr_objs := mgr_objs m;
     mgr_closing := mgr_closing m |}.

Definition set_obj (p : nat) (ct : conntrack) (m : conntrackMgr) : conntrackMgr :=
  {| mgr_nextAuthID := mgr_nextAuthID m; mgr_byKey := mgr_byKey m; mgr_byID := mgr_byID m;
     mgr_limit := mgr_limit m; mgr_idleAfter := mgr_idleAfter m;
     mgr_objs := <[p := ct]> (mgr_objs m); mgr_closing := mgr_closing m |}.

Definition set_closing (c : gset nat) (m : conntrackMgr) : conntrackMgr :=
  {| mgr_nextAuthID := mgr_nextAuthID m; mgr_byKey := mgr_byKey m; mgr_byID := mgr_byID m;
     mgr_limit := mgr_limit m; mgr_idleAfter := mgr_idleAfter m; mgr_objs := mgr_objs m;
     mgr_closing := c |}.

Definition touch (now : Z) (ct : conntrack) : conntrack :=
  {| ct_key := ct_key ct; ct_authID := ct_authID ct; ct_connectToken := ct_connectToken ct;
     ct_appID := ct_appID ct; ct_nodeGroupID := ct_nodeGroupID ct; ct_closed := ct_closed ct;
     ct_authErr := ct_authErr ct; ct_authStarted := ct_authStarted ct; ct_lastUsed := now |}.

Definition with_result (token : string) (err : option error) (ct : conntrack) : conntrack :=
  {| ct_key := ct_key ct; ct_authID := ct_authID ct;
     ct_connectToken := if is_empty token then ct_connectToken ct else token;
     ct_appID := ct_appID ct; ct_nodeGroupID := ct_nodeGroupID ct; ct_closed := ct_closed ct;
     ct_authErr := err; ct_authStarted := ct_authStarted ct; ct_lastUsed := ct_lastUsed ct |}.

Definition with_closed (ct : conntrack) : conntrack :=
  {| ct_key := ct_key ct; ct_authID := ct_authID ct; ct_connectToken := ct_connectToken ct;
     ct_appID := ct_appID ct; ct_nodeGroupID := ct_nodeGroupID ct; ct_closed := true;
     ct_authErr := ct_authErr ct; ct_authStarted := ct_authStarted ct;
     ct_lastUsed := ct_lastUsed ct |}.

Definition with_started (ct : conntrack) : conntrack :=
  {| ct_key := ct_key ct; ct_authID := ct_authID ct; ct_connectToken := ct_connectToken ct;
     ct_appID := ct_appID ct; ct_nodeGroupID := ct_nodeGroupID ct; ct_closed := ct_closed ct;
     ct_authErr := ct_authErr ct; ct_authStarted := true; ct_lastUsed := ct_lastUsed ct |}.

(** [conntrackCompleted] on a handle. *)
Definition conntrackCompleted (m : conntrackMgr) (p : nat) : bool :=
  match mgr_objs m !! p with Some ct => ct_closed ct | None => false end.

Definition lastUsed (m : conntrackMgr) (p : nat) : Z :=
  match mgr_objs m !! p with Some ct => ct_lastUsed ct | None => 0 end.

Definition authID_of (m : conntrackMgr) (p : nat) : Z :=
  match mgr_objs m !! p with Some ct => ct_authID ct | None => 0 end.

(** The order in which [range] visits a map is unspecified: it is a parameter. *)
Section Cleanup.
Variable range : gmap string nat -> list (string * nat).

(** First loop of [cleanup]: drop completed entries idle since [cutoff]. *)
Definition drop_idle (cutoff : Z) (m : conntrackMgr) : conntrackMgr :=
  foldl (fun m '(key, p) =>
      if conntrackCompleted m p && bool_decide (lastUsed m p <= cutoff)
      then set_indexes (delete key (mgr_byKey m)) (delete (authID_of m p) (mgr_byID m)) m
      else m)
    m (range (mgr_byKey m)).

(** The inner loop of the second part: the completed entry used least recently. *)
Definition find_oldest (m : conntrackMgr) : option (string * nat) :=
  foldl (fun oldest '(key, p) =>
      match oldest with
      | Some (_, o) =>
          if negb (conntrackCompleted m p) || bool_decide (lastUsed m p >= lastUsed m o)
          then oldest else Some (key, p)
      | None => if negb (conntrackCompleted m p) then None else Some (key, p)
      end)
    None (range (mgr_byKey m)).

(** Second loop; one entry leaves per round, so the size of the table is enough fuel. *)
Fixpoint evict_oldest (fuel : nat) (m : conntrackMgr) : conntrackMgr :=
  if bool_decide (Z.of_nat (size (mgr_byKey m)) >= mgr_limit m) then
    match fuel, find_oldest m with
    | S fuel, Some (key, p) =>
        evict_oldest fuel
          (set_indexes (delete key (mgr_byKey m)) (delete (authID_of m p) (mgr_byID m)) m)
    | _, _ => m
    end
  else m.

Definition cleanup (now : Z) (m : conntrackMgr) : conntrackMgr :=
  let m1 := drop_idle (now - mgr_idleAfter m) m in
  evict_oldest (size (mgr_byKey m1)) m1.

Definition getOrCreate (now : Z) (key appID nodeGroupID : string) (m : conntrackMgr)
    : nat * conntrackMgr :=
  match mgr_byKey m !! key with
  | Some p => (p, match mgr_objs m !! p with
                  | Some ct => set_obj p (touch now ct) m
                  | None => m
                  end)
  | None =>
      let m := if bool_decide (Z.of_nat (size (mgr_byKey m)) >= mgr_limit m)
               then cleanup now m else m in
      let authID := u64 (mgr_nextAuthID m + 1) in
      let p := fresh (dom (mgr_objs m)) in
      let ct := {| ct_key := key; ct_authID := authID; ct_connectToken := "";
                   ct_appID := appID; ct_nodeGroupID := nodeGroupID; ct_closed := false;
                   ct_authErr := None; ct_authStarted := false; ct_lastUsed := now |} in
      (p, {| mgr_nextAuthID := authID; mgr_byKey := <[key := p]> (mgr_byKey m);
             mgr_byID := <[authID := p]> (mgr_byID m); mgr_limit := mgr_limit m;
             mgr_idleAfter := mgr_idleAfter m; mgr_objs := <[p := ct]> (mgr_objs m);
             mgr_closing := mgr_closing m |})
  end.
End Cleanup.

(** [markAuth] up to [m.mu.Unlock()]. *)
Definition markAuth (authID : Z) (token : string) (err : option error) (m : conntrackMgr)
    : conntrackMgr :=
  match mgr_byID m !! authID with
  | None => m
  | Some p =>
      match mgr_objs m !! p with
      | None => m
      | Some ct =>
          set_closing ({[p]} ∪ mgr_closing m)
            (set_obj p (with_result token err ct)
              (set_indexes (mgr_byKey m) (delete authID (mgr_byID m)) m))
      end
  end.

(** [timeoutAuth] up to [m.mu.Unlock()]. *)
Definition timeoutAuth (p : nat) (err : error) (m : conntrackMgr) : bool * conntrackMgr :=
  match mgr_objs m !! p with
  | None => (false, m)
  | Some ct =>
      if bool_decide (mgr_byID m !! ct_authID ct = Some p) then
        (true,
         set_closing ({[p]} ∪ mgr_closing m)
           (set_obj p (with_result "" (Some err) ct)
             (set_indexes
               (if bool_decide (mgr_byKey m !! ct_key ct = Some p)
                then delete (ct_key ct) (mgr_byKey m) else mgr_byKey m)
               (delete (ct_authID ct) (mgr_byID m)) m)))
      else (false, m)
  end.

(** [close(ct.authCh)]: closing a closed channel panics. *)
Definition closeAuthCh (p : nat) (m : conntrackMgr) : option conntrackMgr :=
  match mgr_objs m !! p with
  | Some ct =>
      if ct_closed ct then None
      else Some (set_closing (mgr_closing m ∖ {[p]}) (set_obj p (with_closed ct) m))
  | None => None
  end.

(** *** [ensureAuth] *)

Inductive ensure_result : Type :=
| EnsureDone (err : option error)
| EnsureWait.

(** Up to the second [select]; [send] is the outcome of [sendAuthRequest]. *)
Definition ensureAuth_begin (p : nat) (send : option error) (m : conntrackMgr)
    : option (ensure_result * conntrackMgr) :=
  ct ← mgr_objs m !! p;
  if ct_closed ct then Some (EnsureDone (ct_authErr ct), m)
  else if ct_authStarted ct then Some (EnsureWait, m)
  else
    let m := set_obj p (with_started ct) m in
    match send with
    | Some err => Some (EnsureDone (Some err), markAuth (ct_authID ct) "" (Some err) m)
    | None => Some (EnsureWait, m)
    end.

(** The timer branch: [EnsureWait] is the receive [<-ct.authCh] that follows a timeout that
    came too late. *)
Definition ensureAuth_timeout (p : nat) (err : error) (m : conntrackMgr)
    : ensure_result * conntrackMgr :=
  let '(timed_out, m) := timeoutAuth p err m in
  (if timed_out then EnsureDone (Some err) else EnsureWait, m).

(** Every interleaving of the critical sections. *)
Inductive ct_step (range : gmap string nat -> list (string * nat))
    : conntrackMgr -> conntrackMgr -> Prop :=
| step_get now key app group m :
    mgr_nextAuthID m + 1 < 2 ^ 64 ->
    ct_step range m (getOrCreate range now key app group m).2
| step_mark authID token err m : ct_step range m (markAuth authID token err m)
| step_ensure p send r m m' :
    ensureAuth_begin p send m = Some (r, m') -> ct_step range m m'
| step_timeout p err m : ct_step range m (ensureAuth_timeout p err m).2
| step_close p m m' :
    p ∈ mgr_closing m -> closeAuthCh p m = Some m' -> ct_step range m m'.

(** ** Theorems *)

Record mgr_inv (m : conntrackMgr) : Prop := {
  inv_byKey : forall k p, mgr_byKey m !! k = Some p ->
    exists ct, mgr_objs m !! p = Some ct /\ ct_key ct = k;
  inv_byID : forall i p, mgr_byID m !! i = Some p ->
    exists ct, mgr_objs m !! p = Some ct /\ ct_authID ct = i /\ ct_closed ct = false /\
      (p ∉ mgr_closing m) /\ mgr_byKey m !! ct_key ct = Some p;
  inv_open : forall p ct, mgr_objs m !! p = Some ct -> ct_closed ct = false ->
    (p ∈ mgr_closing m) \/ mgr_byID m !! ct_authID ct = Some p;
  inv_closing : forall p, p ∈ mgr_closing m ->
    exists ct, mgr_objs m !! p = Some ct /\ ct_closed ct = false;
  inv_ids : forall p ct, mgr_objs m !! p = Some ct -> 0 < ct_authID ct <= mgr_nextAuthID m;
  inv_inj : forall p q ct ct', mgr_objs m !! p = Some ct -> mgr_objs m !! q = Some ct' ->
    ct_authID ct = ct_authID ct' -> p = q;
  inv_next : 0 <= mgr_nextAuthID m
}.

Lemma newConntrackMgr_inv : mgr_inv newConntrackMgr.
Proof. split; simpl; try set_solver; lia. Qed.

Definition drop_entry (key : string) (p : nat) (m : conntrackMgr) : conntrackMgr :=
  set_indexes (delete key (mgr_byKey m)) (delete (authID_of m p) (mgr_byID m)) m.

(** Removing a completed entry, or one that is no longer indexed, keeps the invariant. *)
Lemma drop_entry_inv key p m :
  mgr_inv m -> conntrackCompleted m p = true ->
  (mgr_byKey m !! key = Some p \/ mgr_byKey m !! key = None) ->
  mgr_inv (drop_entry key p m).
Proof.
  intros [HA HB HC HD HE HF HG] Hc Hk.
  unfold conntrackCompleted in Hc. destruct (mgr_objs m !! p) as [ct|] eqn:Ep; [|done].
  assert (authID_of m p = ct_authID ct) as Hid by (unfold authID_of; by rewrite Ep).
  unfold drop_entry. split; simpl; try done.
  - intros k q [_ Hq]%lookup_delete_Some. by apply HA.
  - intros i q [_ Hq]%lookup_delete_Some.
    destruct (HB i q Hq) as (ct' & Hct & <- & Ho & Hn & Hb).
    exists ct'. split_and!; try done. apply lookup_delete_Some. split; [|done].
    intros ->. destruct Hk; congruence.
  - intros q ct' Hq Ho. destruct (HC q ct' Hq Ho) as [?|Hb]; [by left|]. right.
    apply lookup_delete_Some. split; [|done]. rewrite Hid. intros Heq.
    pose proof (HF p q ct ct' Ep Hq Heq). congruence.
Qed.

Section Range.
Variable range : gmap string nat -> list (string * nat).
Hypothesis range_perm : forall m, range m ≡ₚ map_to_list m.

Lemma elem_of_range m k p : (k, p) ∈ range m <-> m !! k = Some p.
Proof. by rewrite range_perm, elem_of_map_to_list. Qed.

(** The order on index states in which every step of [cleanup] goes down. *)
Definition below (m' m : conntrackMgr) : Prop :=
  mgr_objs m' = mgr_objs m /\ mgr_closing m' = mgr_closing m /\
  mgr_limit m' = mgr_limit m /\ mgr_idleAfter m' = mgr_idleAfter m /\
  mgr_nextAuthID m' = mgr_nextAuthID m /\ mgr_byKey m' ⊆ mgr_byKey m /\
  (forall k p, mgr_byKey m !! k = Some p -> conntrackCompleted m p = false ->
     mgr_byKey m' !! k = Some p).

Lemma below_refl m : below m m.
Proof. by split_and!. Qed.

Lemma below_completed m m' p :
  mgr_objs m' = mgr_objs m -> conntrackCompleted m' p = conntrackCompleted m p.
Proof. unfold conntrackCompleted. by intros ->. Qed.

Lemma below_lastUsed m m' p : mgr_objs m' = mgr_objs m -> lastUsed m' p = lastUsed m p.
Proof. unfold lastUsed. by intros ->. Qed.

Lemma below_trans m1 m2 m3 : below m1 m2 -> below m2 m3 -> below m1 m3.
Proof.
  intros (O1 & C1 & L1 & I1 & N1 & S1 & P1) (O2 & C2 & L2 & I2 & N2 & S2 & P2).
  split_and!; try congruence; [by etrans|].
  intros k p Hk Hc. apply P1; [by apply P2|]. by rewrite (below_completed m3 m2).
Qed.

Lemma drop_entry_below key p m :
  mgr_byKey m !! key = Some p \/ mgr_byKey m !! key = None ->
  conntrackCompleted m p = true -> below (drop_entry key p m) m.
Proof.
  intros Hk Hc. split_and!; try done; simpl.
  - apply delete_subseteq.
  - intros k q Hq Hn. apply lookup_delete_Some. split; [|done]. intros ->.
    destruct Hk; congruence.
Qed.

Definition drop_idle_step (cutoff : Z) (m : conntrackMgr) (e : string * nat) : conntrackMgr :=
  let '(key, p) := e in
  if conntrackCompleted m p && bool_decide (lastUsed m p <= cutoff)
  then drop_entry key p m else m.

(** The fold of the first loop over any list of entries that agrees with the index. *)
Lemma drop_idle_fold cutoff l m :
  mgr_inv m -> NoDup l.*1 ->
  (forall k p, (k, p) ∈ l -> mgr_byKey m !! k = Some p) ->
  let m' := foldl (drop_idle_step cutoff) m l in
  mgr_inv m' /\ below m' m /\
  (forall k p, mgr_byKey m !! k = Some p ->
     mgr_byKey m' !! k = Some p \/
     conntrackCompleted m p = true /\ lastUsed m p <= cutoff) /\
  (forall k p, (k, p) ∈ l -> mgr_byKey m' !! k = Some p ->
     conntrackCompleted m p = true -> cutoff < lastUsed m p).
Proof.
  revert m. induction l as [|[key p] l IH]; intros m Hm Hnd Hl; simpl.
  { split_and!; [done|apply below_refl|by left|by intros ?? ?%elem_of_nil]. }
  apply NoDup_cons in Hnd as [Hnk Hnd].
  assert (mgr_byKey m !! key = Some p) as Hkp by (apply Hl; by left).
  destruct (conntrackCompleted m p && bool_decide (lastUsed m p <= cutoff)) eqn:Hd.
  - bool_hyps.
    destruct (IH (drop_entry key p m)) as (Hi & Hb & Hx & Hy).
    + apply drop_entry_inv; auto.
    + done.
    + intros k q Hq. simpl. apply lookup_delete_Some. split; [|apply Hl; by right].
      intros ->. apply Hnk, list_elem_of_fmap. by exists (k, q).
    + assert (below (drop_entry key p m) m) as Hbm by (apply drop_entry_below; auto).
      split_and!; [done|by eapply below_trans| |].
      * intros k q Hq. destruct (decide (k = key)) as [->|Hne].
        { simplify_eq. by right. }
        destruct (Hx k q) as [?|[? ?]]; [simpl; by apply lookup_delete_Some|by left|].
        right. rewrite (below_completed m), (below_lastUsed m) in * by done. done.
      * intros k q [[= -> ->]|Hin]%elem_of_cons Hq Hc.
        { destruct Hb as (_&_&_&_&_&Hsub&_).
          pose proof (lookup_weaken _ _ _ _ Hq Hsub) as Hf. simpl in Hf.
          by rewrite lookup_delete_eq in Hf. }
        rewrite <-(below_lastUsed m (drop_entry key p m)) by done.
        apply (Hy k q); [done|done|]. by rewrite (below_completed m).
  - destruct (IH m Hm Hnd) as (Hi & Hb & Hx & Hy); [intros; apply Hl; by right|].
    split_and!; [done|done|done|].
    intros k q [[= -> ->]|Hin]%elem_of_cons Hq Hc; [|by eapply Hy].
    rewrite Hc in Hd. simpl in Hd. bool_hyps. lia.
Qed.

Lemma drop_idle_spec cutoff m :
  mgr_inv m ->
  let m' := drop_idle range cutoff m in
  mgr_inv m' /\ below m' m /\
  (forall k p, mgr_byKey m !! k = Some p ->
     mgr_byKey m' !! k = Some p \/
     conntrackCompleted m p = true /\ lastUsed m p <= cutoff) /\
  (forall k p, mgr_byKey m' !! k = Some p -> conntrackCompleted m p = true ->
     cutoff < lastUsed m p).
Proof.
  intros Hm. destruct (drop_idle_fold cutoff (range (mgr_byKey m)) m Hm) as (Hi & Hb & Hx & Hy).
  - rewrite range_perm. apply NoDup_fst_map_to_list.
  - intros k p. apply elem_of_range.
  - split_and!; [done|done|done|]. intros k p Hk. apply (Hy k p); [|done].
    apply elem_of_range. destruct Hb as (_&_&_&_&_&Hsub&_). by eapply lookup_weaken.
Qed.

Definition oldest_step (m : conntrackMgr) (oldest : option (string * nat))
    (e : string * nat) : option (string * nat) :=
  let '(key, p) := e in
  match oldest with
  | Some (_, o) =>
      if negb (conntrackCompleted m p) || bool_decide (lastUsed m p >= lastUsed m o)
      then oldest else Some (key, p)
  | None => if negb (conntrackCompleted m p) then None else Some (key, p)
  end.

Lemma oldest_fold m l acc :
  (forall k p, acc = Some (k, p) -> conntrackCompleted m p = true) ->
  match foldl (oldest_step m) acc l with
  | Some (k, p) =>
      ((k, p) ∈ l \/ acc = Some (k, p)) /\ conntrackCompleted m p = true /\
      (forall k' p', (k', p') ∈ l \/ acc = Some (k', p') ->
         conntrackCompleted m p' = true -> lastUsed m p <= lastUsed m p')
  | None => acc = None /\ forall k p, (k, p) ∈ l -> conntrackCompleted m p = false
  end.
Proof.
  revert acc. induction l as [|[k p] l IH]; intros acc Hacc; cbn [foldl].
  { destruct acc as [[k p]|]; [|split; [done|by intros ?? ?%elem_of_nil]].
    split_and!; [by right|by eapply Hacc|].
    intros k' p' [?%elem_of_nil|[= -> ->]] _; [done|lia]. }
  assert (forall k0 p0, oldest_step m acc (k, p) = Some (k0, p0) ->
            conntrackCompleted m p0 = true) as Hacc'.
  { intros k0 p0. unfold oldest_step. destruct acc as [[ko o]|].
    - destruct (_ || _) eqn:E; intros [= <- <-]; [by eapply Hacc|].
      apply orb_false_iff in E as [E _]. by apply negb_false_iff in E.
    - destruct (conntrackCompleted m p) eqn:E; simpl; [by intros [= <- <-]|done]. }
  specialize (IH _ Hacc').
  destruct (foldl (oldest_step m) (oldest_step m acc (k, p)) l) as [[kr r]|] eqn:Ef.
  - destruct IH as (Hin & Hc & Hmin). split_and!; [|done|].
    + destruct Hin as [?|Hin]; [left; by right|].
      unfold oldest_step in Hin. destruct acc as [[ko o]|].
      * destruct (_ || _); simplify_eq; [by right|left; by left].
      * destruct (negb _); simplify_eq. left; by left.
    + intros k' p' [[[= -> ->]|?]%elem_of_cons|Hp'] Hcp; [|apply (Hmin k' p'); [by left|done]|].
      * unfold oldest_step in Hmin. destruct acc as [[ko o]|].
        -- destruct (_ || _) eqn:E in Hmin.
           ++ rewrite Hcp in E. simpl in E. bool_hyps.
              pose proof (Hmin ko o (or_intror eq_refl) (Hacc _ _ eq_refl)). lia.
           ++ apply (Hmin k p); [by right|done].
        -- rewrite Hcp in Hmin. apply (Hmin k p); [by right|done].
      * subst acc. unfold oldest_step in Hmin.
        destruct (_ || _) eqn:E in Hmin; [apply (Hmin k' p'); [by right|done]|].
        apply orb_false_iff in E as [E1 E2]. bool_hyps.
        pose proof (Hmin k p (or_intror eq_refl) E1). lia.
  - destruct IH as [Hn Hall]. unfold oldest_step in Hn.
    destruct acc as [[ko o]|]; [by destruct (_ || _)|]. split; [done|].
    intros k' p' [[= -> ->]|?]%elem_of_cons; [|by eapply Hall].
    by destruct (conntrackCompleted m p).
Qed.

Lemma find_oldest_spec m :
  match find_oldest range m with
  | Some (k, p) =>
      mgr_byKey m !! k = Some p /\ conntrackCompleted m p = true /\
      (forall k' p', mgr_byKey m !! k' = Some p' -> conntrackCompleted m p' = true ->
         lastUsed m p <= lastUsed m p')
  | None => forall k p, mgr_byKey m !! k = Some p -> conntrackCompleted m p = false
  end.
Proof.
  pose proof (oldest_fold m (range (mgr_byKey m)) None) as H.
  change (find_oldest range m) with (foldl (oldest_step m) None (range (mgr_byKey m))).
  destruct (foldl _ _ _) as [[k p]|]; (destruct H as (H1 & H2); [done|]).
  - destruct H2 as [H2 H3]. destruct H1 as [H1|]; [|done].
    split_and!; [by apply elem_of_range|done|].
    intros k' p' Hk. apply (H3 k' p'). left. by apply elem_of_range.
  - intros k p Hk. apply (H2 k p). by apply elem_of_range.
Qed.

Definition all_pending (m : conntrackMgr) : Prop :=
  forall k p, mgr_byKey m !! k = Some p -> conntrackCompleted m p = false.

Lemma evict_oldest_spec fuel m :
  mgr_inv m -> (size (mgr_byKey m) <= fuel)%nat -> 0 < mgr_limit m ->
  let m' := evict_oldest range fuel m in
  mgr_inv m' /\ below m' m /\
  (Z.of_nat (size (mgr_byKey m')) < mgr_limit m \/ all_pending m') /\
  (forall k p k' p', mgr_byKey m !! k = Some p -> mgr_byKey m' !! k = None ->
     mgr_byKey m' !! k' = Some p' -> conntrackCompleted m p' = true ->
     lastUsed m p <= lastUsed m p').
Proof.
  revert m. induction fuel as [|fuel IH]; intros m Hm Hf Hl; simpl.
  { case_bool_decide; [lia|]. split_and!; [done|apply below_refl|lia|congruence]. }
  case_bool_decide as Hs; [|split_and!; [done|apply below_refl|lia|congruence]].
  pose proof (find_oldest_spec m) as Ho.
  destruct (find_oldest range m) as [[key p]|]; [|split_and!;
    [done|apply below_refl|by right|congruence]].
  destruct Ho as (Hk & Hc & Hmin).
  assert (below (drop_entry key p m) m) as Hbm by (apply drop_entry_below; auto).
  destruct (IH (drop_entry key p m)) as (Hi & Hb & Hx & Hy).
  - apply drop_entry_inv; auto.
  - simpl. rewrite map_size_delete_Some by (by eexists). lia.
  - done.
  - change (set_indexes _ _ m) with (drop_entry key p m).
    split_and!; [done|by eapply below_trans|done|].
    intros k q k' q' Hq Hn Hq' Hcq.
    assert (mgr_byKey (drop_entry key p m) !! k' = Some q') as Hd'.
    { destruct Hb as (_&_&_&_&_&Hsub&_). by eapply lookup_weaken. }
    destruct (decide (k = key)) as [->|Hne].
    + simplify_eq. apply (Hmin k' q'); [|done].
      simpl in Hd'. by apply lookup_delete_Some in Hd' as [_ ?].
    + apply (Hy k q k' q'); [simpl; by apply lookup_delete_Some|done..].
Qed.

Lemma cleanup_facts now m :
  mgr_inv m -> 0 < mgr_limit m ->
  let m' := cleanup range now m in
  mgr_inv m' /\ below m' m /\
  (Z.of_nat (size (mgr_byKey m')) < mgr_limit m \/ all_pending m') /\
  (forall k p k' p', mgr_byKey m !! k = Some p -> mgr_byKey m' !! k = None ->
     mgr_byKey m' !! k' = Some p' -> conntrackCompleted m p' = true ->
     lastUsed m p <= lastUsed m p').
Proof.
  intros Hm Hl. unfold cleanup.
  destruct (drop_idle_spec (now - mgr_idleAfter m) m Hm) as (Hi & Hb & Hx & Hy).
  pose proof Hb as (HO & _ & HL & _).
  destruct (evict_oldest_spec (size (mgr_byKey (drop_idle range (now - mgr_idleAfter m) m)))
              (drop_idle range (now - mgr_idleAfter m) m)) as (Hi2 & Hb2 & Hx2 & Hy2);
    [done|done|by rewrite HL|].
  split_and!; [done|by eapply below_trans|by rewrite HL in Hx2|].
  intros k p k' p' Hk Hn Hk' Hc.
  assert (mgr_byKey (drop_idle range (now - mgr_idleAfter m) m) !! k' = Some p') as Hd.
  { destruct Hb2 as (_&_&_&_&_&Hsub&_). by eapply lookup_weaken. }
  destruct (Hx k p Hk) as [Hs|[_ Hu]].
  - rewrite <-!(below_lastUsed m _ _ HO). apply (Hy2 k p k' p'); try done.
    by rewrite (below_completed m).
  - specialize (Hy k' p' Hd Hc). lia.
Qed.

(** Replacing an entry by one that differs in fields the indexes do not depend on. *)
Lemma set_obj_inv p ct ct' m :
  mgr_inv m -> mgr_objs m !! p = Some ct -> ct_key ct' = ct_key ct ->
  ct_authID ct' = ct_authID ct -> ct_closed ct' = ct_closed ct -> mgr_inv (set_obj p ct' m).
Proof.
  intros [HA HB HC HD HE HF HG] Hp Hk Hi Hc.
  assert (forall q c, <[p := ct']> (mgr_objs m) !! q = Some c ->
    exists c0, mgr_objs m !! q = Some c0 /\ ct_key c = ct_key c0 /\
      ct_authID c = ct_authID c0 /\ ct_closed c = ct_closed c0) as Hold.
  { intros q c [[<- <-]|[? ?]]%lookup_insert_Some; eauto. }
  assert (forall q c, mgr_objs m !! q = Some c ->
    exists c1, <[p := ct']> (mgr_objs m) !! q = Some c1 /\ ct_key c1 = ct_key c /\
      ct_authID c1 = ct_authID c /\ ct_closed c1 = ct_closed c) as Hnew.
  { intros q c Hq. destruct (decide (p = q)) as [->|Hn].
    - rewrite lookup_insert_eq. simplify_eq. eauto 6.
    - rewrite lookup_insert_ne by done. eauto 6. }
  split; simpl; try done.
  - intros k q Hq. destruct (HA k q Hq) as (c & Hc0 & <-).
    destruct (Hnew q c Hc0) as (c1 & ? & ? & _). eauto.
  - intros i q Hq. destruct (HB i q Hq) as (c & Hc0 & <- & ? & ? & ?).
    destruct (Hnew q c Hc0) as (c1 & ? & Hk1 & Hi1 & Hc1).
    exists c1. rewrite Hk1, Hi1, Hc1. done.
  - intros q c (c0 & Hc0 & _ & -> & ->)%Hold. by apply HC.
  - intros q Hq. destruct (HD q Hq) as (c & Hc0 & Ho).
    destruct (Hnew q c Hc0) as (c1 & ? & _ & _ & Hc1). exists c1. split; [done|congruence].
  - intros q c (c0 & Hc0 & _ & -> & _)%Hold. by eapply HE.
  - intros q q' c c' (c0 & Hc0 & _ & -> & _)%Hold (c0' & Hc0' & _ & -> & _)%Hold.
    by eapply HF.
Qed.

(** An entry that leaves [byID], and [byKey] or not, starts closing. *)
Lemma start_closing_inv p ct byKey m :
  mgr_inv m -> mgr_objs m !! p = Some ct -> mgr_byID m !! ct_authID ct = Some p ->
  (byKey = mgr_byKey m \/ byKey = delete (ct_key ct) (mgr_byKey m)) ->
  mgr_inv (set_closing ({[p]} ∪ mgr_closing m)
    (set_indexes byKey (delete (ct_authID ct) (mgr_byID m)) m)).
Proof.
  intros [HA HB HC HD HE HF HG] Hp Hid Hbk.
  assert (byKey ⊆ mgr_byKey m) as Hsub
    by (destruct Hbk as [->| ->]; [done|apply delete_subseteq]).
  destruct (HB _ _ Hid) as (c0 & Hc0 & _ & Hop & Hncl & Hbyk).
  rewrite Hp in Hc0. injection Hc0 as <-.
  split; simpl; try done.
  - intros k q Hq. eapply HA, lookup_weaken; done.
  - intros i q [Hne Hq]%lookup_delete_Some.
    destruct (HB i q Hq) as (c & Hc & <- & Ho & Hn & Hk).
    assert (q <> p) as Hqp by congruence.
    exists c. split_and!; try done; [set_solver|].
    destruct Hbk as [->| ->]; [done|]. apply lookup_delete_Some. split; [|done].
    intros Heq. rewrite <-Heq in Hk. congruence.
  - intros q c Hq Ho. destruct (decide (q = p)) as [->|Hqp]; [left; set_solver|].
    destruct (HC q c Hq Ho) as [?|Hb]; [left; set_solver|]. right.
    apply lookup_delete_Some. split; [|done]. intros Heq. rewrite <-Heq in Hb. congruence.
  - intros q [->%elem_of_singleton|Hq]%elem_of_union; [eauto|by apply HD].
Qed.

Lemma markAuth_inv authID token err m : mgr_inv m -> mgr_inv (markAuth authID token err m).
Proof.
  intros Hm. unfold markAuth. destruct (mgr_byID m !! authID) as [p|] eqn:Hid; [|done].
  destruct (inv_byID m Hm _ _ Hid) as (ct & Hp & Heq & _). rewrite Hp. subst authID.
  change (mgr_inv (set_obj p (with_result token err ct) (set_closing ({[p]} ∪ mgr_closing m)
    (set_indexes (mgr_byKey m) (delete (ct_authID ct) (mgr_byID m)) m)))).
  eapply set_obj_inv; [apply start_closing_inv; auto|done..].
Qed.

Lemma timeoutAuth_inv p err m : mgr_inv m -> mgr_inv (timeoutAuth p err m).2.
Proof.
  intros Hm. unfold timeoutAuth. destruct (mgr_objs m !! p) as [ct|] eqn:Hp; [|done].
  case_bool_decide as Hid; [|done]. cbn [snd].
  change (mgr_inv (set_obj p (with_result "" (Some err) ct)
    (set_closing ({[p]} ∪ mgr_closing m)
    (set_indexes (if bool_decide (mgr_byKey m !! ct_key ct = Some p)
              then delete (ct_key ct) (mgr_byKey m) else mgr_byKey m)
       (delete (ct_authID ct) (mgr_byID m)) m)))).
  eapply set_obj_inv; [apply start_closing_inv; auto|done..].
  case_bool_decide; auto.
Qed.

Lemma closeAuthCh_inv p m m' :
  mgr_inv m -> p ∈ mgr_closing m -> closeAuthCh p m = Some m' -> mgr_inv m'.
Proof.
  intros [HA HB HC HD HE HF HG] Hin. unfold closeAuthCh.
  destruct (mgr_objs m !! p) as [ct|] eqn:Hp; [|done].
  destruct (ct_closed ct) eqn:Hcl; [done|]. intros [= <-].
  split; simpl; try done.
  - intros k q Hq. destruct (HA k q Hq) as (c & Hc & <-).
    destruct (decide (p = q)) as [->|?].
    + rewrite lookup_insert_eq. simplify_eq. eauto.
    + rewrite lookup_insert_ne by done. eauto.
  - intros i q Hq. destruct (HB i q Hq) as (c & Hc & <- & Ho & Hn & Hk).
    assert (p <> q) by congruence. exists c. rewrite lookup_insert_ne by done.
    split_and!; try done. set_solver.
  - intros q c [[<- <-]|[? Hq]]%lookup_insert_Some Ho; [done|].
    destruct (HC q c Hq Ho); [left; set_solver|by right].
  - intros q [Hq ?%not_elem_of_singleton]%elem_of_difference.
    rewrite lookup_insert_ne by done. by apply HD.
  - intros q c [[<- <-]|[? Hq]]%lookup_insert_Some; simpl; eauto.
  - intros q q' c c' [[<- <-]|[? Hq]]%lookup_insert_Some
      [[<- <-]|[? Hq']]%lookup_insert_Some; simpl; eauto.
Qed.

Lemma insert_new_inv m key app group now :
  mgr_inv m -> mgr_byKey m !! key = None -> mgr_nextAuthID m + 1 < 2 ^ 64 ->
  let authID := u64 (mgr_nextAuthID m + 1) in
  let p := fresh (dom (mgr_objs m)) in
  let ct := {| ct_key := key; ct_authID := authID; ct_connectToken := "";
               ct_appID := app; ct_nodeGroupID := group; ct_closed := false;
               ct_authErr := None; ct_authStarted := false; ct_lastUsed := now |} in
  mgr_inv {| mgr_nextAuthID := authID; mgr_byKey := <[key := p]> (mgr_byKey m);
             mgr_byID := <[authID := p]> (mgr_byID m); mgr_limit := mgr_limit m;
             mgr_idleAfter := mgr_idleAfter m; mgr_objs := <[p := ct]> (mgr_objs m);
             mgr_closing := mgr_closing m |}.
Proof.
  intros [HA HB HC HD HE HF HG] Hk Hn authID p ct.
  assert (authID = mgr_nextAuthID m + 1) as Hid
    by (unfold authID, u64; apply Z.mod_small; lia).
  assert (mgr_objs m !! p = None) as Hp by (apply not_elem_of_dom, is_fresh).
  assert (forall q c, mgr_objs m !! q = Some c -> p <> q) as Hne by congruence.
  split; simpl.
  - intros k q [[<- <-]|[? Hq]]%lookup_insert_Some.
    + rewrite lookup_insert_eq. eauto.
    + destruct (HA k q Hq) as (c & Hc & Heq).
      rewrite lookup_insert_ne by eauto. eauto.
  - intros i q [[<- <-]|[? Hq]]%lookup_insert_Some.
    + rewrite lookup_insert_eq. exists ct. simpl. split_and!; try done.
      * intros Hin. destruct (HD p Hin) as (c & Hc & _). congruence.
      * by rewrite lookup_insert_eq.
    + destruct (HB i q Hq) as (c & Hc & <- & Ho & Hcl & Hby).
      exists c. rewrite lookup_insert_ne by eauto. split_and!; try done.
      rewrite lookup_insert_ne; [done|]. congruence.
  - intros q c [[<- <-]|[? Hq]]%lookup_insert_Some Ho; simpl.
    + right. by rewrite lookup_insert_eq.
    + destruct (HC q c Hq Ho) as [?|Hb]; [by left|]. right.
      rewrite lookup_insert_ne; [done|]. specialize (HE q c Hq). lia.
  - intros q Hq. destruct (HD q Hq) as (c & Hc & Ho).
    rewrite lookup_insert_ne by eauto. eauto.
  - intros q c [[<- <-]|[? Hq]]%lookup_insert_Some; simpl; [lia|].
    specialize (HE q c Hq). lia.
  - intros q q' c c' [[<- <-]|[? Hq]]%lookup_insert_Some
      [[<- <-]|[? Hq']]%lookup_insert_Some; simpl; intros Heq; try done.
    + specialize (HE q' c' Hq'). lia.
    + specialize (HE q c Hq). lia.
    + by eapply HF.
  - lia.
Qed.

Lemma getOrCreate_inv now key app group m :
  mgr_inv m -> 0 < mgr_limit m -> mgr_nextAuthID m + 1 < 2 ^ 64 ->
  mgr_inv (getOrCreate range now key app group m).2.
Proof.
  intros Hm Hl Hn. unfold getOrCreate.
  destruct (mgr_byKey m !! key) as [p|] eqn:Hk; simpl.
  { destruct (mgr_objs m !! p) as [ct|] eqn:Hp; [|done].
    by eapply set_obj_inv. }
  case_bool_decide; [|by apply insert_new_inv].
  destruct (cleanup_facts now m Hm Hl) as (Hi & (HO & _ & _ & _ & HN & Hsub & _) & _).
  apply insert_new_inv; [done| |by rewrite HN].
  by eapply lookup_weaken_None.
Qed.

Lemma ensureAuth_begin_inv p send r m m' :
  mgr_inv m -> ensureAuth_begin p send m = Some (r, m') -> mgr_inv m'.
Proof.
  intros Hm. unfold ensureAuth_begin.
  destruct (mgr_objs m !! p) as [ct|] eqn:Hp; [simpl|done].
  destruct (ct_closed ct); [by intros [= <- <-]|].
  destruct (ct_authStarted ct); [by intros [= <- <-]|].
  assert (mgr_inv (set_obj p (with_started ct) m)) by (by eapply set_obj_inv).
  destruct send; intros [= <- <-]; [by apply markAuth_inv|done].
Qed.

Definition ct_reachable (m : conntrackMgr) : Prop := rtc (ct_step range) newConntrackMgr m.

Lemma getOrCreate_limit now key app group m :
  mgr_limit (getOrCreate range now key app group m).2 = mgr_limit m.
Proof.
  unfold getOrCreate. destruct (mgr_byKey m !! key); simpl.
  { by destruct (mgr_objs m !! _). }
  case_bool_decide; [|done]. unfold cleanup, drop_idle.
  assert (forall l m0, mgr_limit (foldl (drop_idle_step (now - mgr_idleAfter m)) m0 l)
            = mgr_limit m0) as H1.
  { induction l as [|[k p] l IH]; intros m0; simpl; [done|]. rewrite IH. by case_match. }
  assert (forall f m0, mgr_limit (evict_oldest range f m0) = mgr_limit m0) as H2.
  { induction f as [|f IH]; intros m0; simpl; case_bool_decide; try done.
    destruct (find_oldest range m0) as [[]|]; [|done]. by rewrite IH. }
  rewrite H2. apply H1.
Qed.

Lemma ct_step_limit m m' : ct_step range m m' -> mgr_limit m' = mgr_limit m.
Proof.
  intros []; subst; try done.
  - apply getOrCreate_limit.
  - unfold markAuth. by repeat case_match.
  - unfold ensureAuth_begin, markAuth in *. obind H. repeat case_match; by simplify_eq.
  - unfold ensureAuth_timeout, timeoutAuth. by repeat case_match; simplify_eq.
  - unfold closeAuthCh in *. repeat case_match; by simplify_eq.
Qed.

Lemma ct_step_inv m m' :
  0 < mgr_limit m -> mgr_inv m -> ct_step range m m' -> mgr_inv m'.
Proof.
  intros Hl Hm Hs. destruct Hs; [by apply getOrCreate_inv|by apply markAuth_inv|..].
  - by eapply ensureAuth_begin_inv.
  - unfold ensureAuth_timeout. pose proof (timeoutAuth_inv p err m Hm) as Ht.
    by destruct (timeoutAuth p err m).
  - by eapply closeAuthCh_inv.
Qed.

Lemma ct_reachable_inv m : ct_reachable m -> mgr_inv m /\ mgr_limit m = defaultConntrackLimit.
Proof.
  apply (rtc_closed _ (fun m => mgr_inv m /\ mgr_limit m = defaultConntrackLimit)).
  - intros a b [Ha Hla] Hs. split; [|by rewrite (ct_step_limit a b Hs)].
    apply (ct_step_inv a); [rewrite Hla; unfold defaultConntrackLimit; lia|done|done].
  - split; [apply newConntrackMgr_inv|done].
Qed.

(** A completed entry keeps its outcome in every step. *)
Lemma ct_step_stable m m' p ct :
  mgr_inv m -> ct_step range m m' -> mgr_objs m !! p = Some ct -> ct_closed ct = true ->
  exists ct', mgr_objs m' !! p = Some ct' /\ ct_closed ct' = true /\
    ct_authErr ct' = ct_authErr ct /\ ct_connectToken ct' = ct_connectToken ct.
Proof.
  intros Hm Hs Hp Hc. destruct Hs.
  - unfold getOrCreate. destruct (mgr_byKey m !! key) as [q|]; simpl.
    + destruct (mgr_objs m !! q) as [cq|] eqn:Hq; [simpl|eauto].
      destruct (decide (q = p)) as [->|?]; [rewrite lookup_insert_eq; simplify_eq; eauto|].
      rewrite lookup_insert_ne by done. eauto.
    + set (m1 := if bool_decide _ then _ else _).
      assert (mgr_objs m1 = mgr_objs m) as HO.
      { unfold m1. case_bool_decide; [|done]. unfold cleanup, drop_idle.
        assert (forall l m0, mgr_objs (foldl (drop_idle_step (now - mgr_idleAfter m)) m0 l)
            = mgr_objs m0) as H1.
        { induction l as [|[k q] l IH]; intros m0; simpl; [done|]. rewrite IH. by case_match. }
        assert (forall f m0, mgr_objs (evict_oldest range f m0) = mgr_objs m0) as H2.
        { induction f as [|f IH]; intros m0; simpl; case_bool_decide; try done.
          destruct (find_oldest range m0) as [[]|]; [|done]. by rewrite IH. }
        rewrite H2. apply H1. }
      rewrite HO, lookup_insert_ne; [eauto|].
      intros Heq. pose proof (is_fresh (dom (mgr_objs m))) as Hf. apply Hf.
      rewrite Heq. by apply elem_of_dom_2 in Hp.
  - unfold markAuth. destruct (mgr_byID m !! authID) as [q|] eqn:Hid; [|eauto].
    destruct (inv_byID m Hm _ _ Hid) as (cq & Hq & _ & Ho & _). rewrite Hq. simpl.
    rewrite lookup_insert_ne by congruence. eauto.
  - unfold ensureAuth_begin in *. destruct (mgr_objs m !! p0) as [cq|] eqn:Hq; [|done].
    simpl in *. destruct (ct_closed cq) eqn:Hcq; [simplify_eq; eauto|].
    destruct (ct_authStarted cq); [simplify_eq; eauto|].
    assert (p0 <> p) by congruence.
    destruct send; simplify_eq.
    + unfold markAuth. simpl. destruct (mgr_byID m !! _) as [q|] eqn:Hid.
      * destruct (inv_byID m Hm _ _ Hid) as (cq' & Hq' & _ & Ho & _).
        destruct (decide (p0 = q)) as [->|?].
        -- rewrite lookup_insert_eq. simpl. rewrite !lookup_insert_ne by congruence. eauto.
        -- rewrite lookup_insert_ne, Hq' by done. simpl.
           rewrite !lookup_insert_ne by congruence. eauto.
      * simpl. rewrite lookup_insert_ne by done. eauto.
    + simpl. rewrite lookup_insert_ne by done. eauto.
  - unfold ensureAuth_timeout, timeoutAuth.
    destruct (mgr_objs m !! p0) as [cq|] eqn:Hq; [|eauto].
    case_bool_decide as Hid; [|eauto]. simpl.
    destruct (inv_byID m Hm _ _ Hid) as (cq' & Hq' & _ & Ho & _).
    rewrite lookup_insert_ne by congruence. eauto.
  - unfold closeAuthCh in *. destruct (mgr_objs m !! p0) as [cq|] eqn:Hq; [|done].
    destruct (ct_closed cq) eqn:Hcq; [done|]. simplify_eq. simpl.
    rewrite lookup_insert_ne by congruence. eauto.
Qed.
End Range.

(** C7: in every interleaving of lookups, authorisation answers, time-outs, table clean-ups
    and channel closes that starts from [newConntrackMgr], whatever order Go visits its maps
    in: a pending [close(ct.authCh)] never closes a closed channel; an entry that is not
    completed can still be completed (its identifier is registered, or a goroutine is about
    to close it); a writer whose time-out came too late waits for a channel that is closed
    or about to be closed; and a completed entry keeps its token and its error in every
    further step. *)
Theorem conntrack_auth_safety (range : gmap string nat -> list (string * nat))
    (range_perm : forall m, range m ≡ₚ map_to_list m)
    (m : conntrackMgr) (Hr : ct_reachable range m) :
  (forall p, p ∈ mgr_closing m -> exists m', closeAuthCh p m = Some m') /\
  (forall p ct, mgr_objs m !! p = Some ct -> ct_closed ct = false ->
     p ∈ mgr_closing m \/ mgr_byID m !! ct_authID ct = Some p) /\
  (forall p err m', p ∈ dom (mgr_objs m) -> ensureAuth_timeout p err m = (EnsureWait, m') ->
     conntrackCompleted m p = true \/ p ∈ mgr_closing m) /\
  (forall p ct m', ct_step range m m' -> mgr_objs m !! p = Some ct -> ct_closed ct = true ->
     exists ct', mgr_objs m' !! p = Some ct' /\ ct_closed ct' = true /\
       ct_authErr ct' = ct_authErr ct /\ ct_connectToken ct' = ct_connectToken ct).
Proof.
  destruct (ct_reachable_inv range range_perm m Hr) as [Hm _].
  split_and!.
  - intros p Hp. destruct (inv_closing m Hm p Hp) as (ct & Hct & Ho).
    unfold closeAuthCh. rewrite Hct, Ho. eauto.
  - apply inv_open, Hm.
  - intros p err m' [ct Hct]%elem_of_dom. unfold ensureAuth_timeout, timeoutAuth.
    unfold conntrackCompleted. rewrite Hct.
    case_bool_decide as Hid; [done|]. intros _.
    destruct (ct_closed ct) eqn:Ho; [by left|]. right.
    by destruct (inv_open m Hm p ct Hct Ho).
  - intros p ct m' Hs. by apply (ct_step_stable range).
Qed.

Lemma conntrack_auth_safety_witness :
  exists m, m = markAuth 1 "tok" None
                  (getOrCreate map_to_list 5 "k" "app" "group" newConntrackMgr).2 /\
    mgr_closing m = {[ 0%nat ]} /\
    (forall p, p ∈ mgr_closing m -> exists m', closeAuthCh p m = Some m').
Proof.
  eexists. split; [reflexivity|]. split; [vm_compute; reflexivity|].
  apply (conntrack_auth_safety map_to_list (fun m => reflexivity _)).
  eapply rtc_l; [apply (step_get map_to_list 5 "k" "app" "group"); vm_compute; reflexivity|].
  eapply rtc_l; [apply (step_mark map_to_list 1 "tok" None)|].
  apply rtc_refl.
Defined.

(** Making room in a reachable table only removes entries, never one whose authorisation
    is pending, leaves fewer entries than the limit or none that is completed, and removes
    least recently used entries first: no removed entry was used later than a completed
    entry that stays. *)
Theorem cleanup_evicts_lru (range : gmap string nat -> list (string * nat))
    (range_perm : forall m, range m ≡ₚ map_to_list m)
    (now : Z) (m : conntrackMgr) (Hr : ct_reachable range m) :
  let m' := cleanup range now m in
  mgr_byKey m' ⊆ mgr_byKey m /\
  (forall k p, mgr_byKey m !! k = Some p -> conntrackCompleted m p = false ->
     mgr_byKey m' !! k = Some p) /\
  (Z.of_nat (size (mgr_byKey m')) < mgr_limit m \/
   forall k p, mgr_byKey m' !! k = Some p -> conntrackCompleted m p = false) /\
  (forall k p k' p', mgr_byKey m !! k = Some p -> mgr_byKey m' !! k = None ->
     mgr_byKey m' !! k' = Some p' -> conntrackCompleted m p' = true ->
     lastUsed m p <= lastUsed m p').
Proof.
  destruct (ct_reachable_inv range range_perm m Hr) as [Hm Hl].
  destruct (cleanup_facts range range_perm now m Hm)
    as (_ & (HO & _ & _ & _ & _ & Hsub & Hp) & Hs & Hlru).
  { rewrite Hl. unfold defaultConntrackLimit. lia. }
  split_and!; [done|done| |done].
  destruct Hs as [?|Hs]; [by left|]. right. intros k p Hk.
  rewrite <-(below_completed m _ p HO). by apply (Hs k).
Qed.

Lemma cleanup_evicts_lru_witness :
  mgr_byKey (cleanup map_to_list 0 newConntrackMgr) ⊆ mgr_byKey newConntrackMgr.
Proof.
  apply (cleanup_evicts_lru map_to_list (fun m => reflexivity _) 0 newConntrackMgr).
  apply rtc_refl.
Defined.
