(* ===== verification/L3Codec.v ===== *)
(** The wire format of the layer-3 tunnel (client/atrust/l3tunnelconn.go): data payloads,
    response frames, the tunnel authentication request and the virtual IP blocks. The
    buffered reader is the list of bytes that are still to come, followed by the end of the
    stream; a read returns the bytes read and those left. *)

From S2P Require Import Prelude Core GoNet.

Definition l3Version : Z := 5.
Definition cmdAuthReq : Z := 19.
Definition cmdAuthResp : Z := 147.
Definition cmdDataReq : Z := 20.
Definition cmdDataResp : Z := 148.
Definition cmdHeartbeatReq : Z := 21.
Definition cmdHeartbeatResp : Z := 149.
Definition cmdSecondVipResp : Z := 150.
Definition maxDataPayload : Z := 4096.

(** [io.ReadFull(r, make([]byte, n))]. *)
Definition ReadFull (n : nat) (s : list Z) : result error (list Z * list Z) :=
  if bool_decide (n <= length s)%nat then Ok (take n s, drop n s)
  else if bool_decide (s = []) then Err io_EOF else Err io_ErrUnexpectedEOF.

(** Two bytes read as a big-endian length. *)
Definition read_be16 (s : list Z) : result error (Z * list Z * list Z) :=
  let? (b, s) := ReadFull 2 s in
  match b with
  | [hi; lo] => Ok (be16 hi lo, b, s)
  | _ => Err io_ErrUnexpectedEOF
  end.

(** ** Data payloads *)

Fixpoint append_packets (packets : list (list Z)) : list Z :=
  match packets with
  | [] => []
  | pkt :: rest => put_be16 (len pkt) ++ pkt ++ append_packets rest
  end.

Definition buildDataPayload (token : list Z) (packets : list (list Z)) : list Z :=
  [l3Version; cmdDataReq] ++ [u8 (len token)] ++ token ++ [0; 0]
  ++ [u8 (len packets)] ++ append_packets packets.

(** The loop of [parseDataPayload]: [payload] from index [idx] on. *)
Fixpoint parse_packets (count : nat) (payload : list Z) : result error (list (list Z)) :=
  match count with
  | O => Ok []
  | S count =>
      match payload with
      | hi :: lo :: rest =>
          let plen := Z.to_nat (be16 hi lo) in
          if bool_decide (plen <= length rest)%nat then
            let? packets := parse_packets count (drop plen rest) in
            Ok (take plen rest :: packets)
          else Err (EText "packet data overflow")
      | _ => Err (EText "packet length overflow")
      end
  end.

Definition parseDataPayload (payload : list Z) : result error (list (list Z)) :=
  match payload with
  | tokenLen :: tail =>
      if bool_decide (length payload < 4)%nat then Err (EText "payload too short")
      else if bool_decide (len payload < 1 + tokenLen + 3) then
        Err (EText "payload token overflow")
      else match drop (Z.to_nat tokenLen + 2) tail with
           | count :: rest => parse_packets (Z.to_nat count) rest
           | [] => Err (EText "payload token overflow")
           end
  | [] => Err (EText "payload too short")
  end.

(** The packet loop of the token mode: it returns the bytes it read. *)
Fixpoint read_packets (count : nat) (s : list Z) : result error (list Z * list Z) :=
  match count with
  | O => Ok ([], s)
  | S count =>
      let? (plen, lenBytes, s) := read_be16 s in
      if bool_decide (plen = 0) then
        let? (more, s) := read_packets count s in Ok (lenBytes ++ more, s)
      else
        let? (pkt, s) := ReadFull (Z.to_nat plen) s in
        let? (more, s) := read_packets count s in Ok (lenBytes ++ pkt ++ more, s)
  end.

(** [r.Peek(2)], whose error on a short stream is [io.EOF], read as a length. *)
Definition peek_be16 (s : list Z) : result error Z :=
  match s with
  | hi :: lo :: _ => Ok (be16 hi lo)
  | _ => Err io_EOF
  end.

(** The payload, the mode it was read in and the rest of the stream. *)
Definition readDataRespPayload (s : list Z) : result error (list Z * string * list Z) :=
  let? payloadLen := peek_be16 s in
  if bool_decide (payloadLen > 0) && bool_decide (payloadLen <= maxDataPayload) then
    let? (payload, s) := ReadFull (Z.to_nat payloadLen) (drop 2 s) in
    Ok (payload, "len"%string, s)
  else
    let? (h, s) := ReadFull 1 s in
    let tokenLen := hd 0 h in
    let? (token, s) := ReadFull (Z.to_nat tokenLen) s in
    let? (reserved, s) := ReadFull 2 s in
    let? (c, s) := ReadFull 1 s in
    let? (packets, s) := read_packets (Z.to_nat (hd 0 c)) s in
    Ok (h ++ token ++ reserved ++ c ++ packets, "token"%string, s).

(** ** Frames *)

Record frame : Type := {
  fr_cmd : Z;
  fr_status : Z;
  fr_payload : list Z;
  fr_dataMode : string;
}.

(** A length-prefixed block. *)
Definition read_block (s : list Z) : result error (list Z * list Z) :=
  let? (n, _, s) := read_be16 s in ReadFull (Z.to_nat n) s.

Definition hex2 (b : Z) : string :=
  of_chars ["0"%char; "x"%char; hex_digit (b / 16); hex_digit (b mod 16)].

(** [readFrame]: [None] is out of fuel; each turn of the loop reads at least four bytes. *)
Fixpoint readFrame (fuel : nat) (s : list Z) : option (result error (frame * list Z)) :=
  match fuel with
  | O => None
  | S fuel =>
      match ReadFull 2 s with
      | Err e => Some (Err e)
      | Ok (header, s) =>
          let h0 := nth 0 header 0 in
          let h1 := nth 1 header 0 in
          if bool_decide (h0 = l3Version) then
            let cmd := h1 in
            if bool_decide (cmd = cmdAuthResp) || bool_decide (cmd = cmdSecondVipResp) then
              Some (let? (st, s) := ReadFull 1 s in
                    let? (payload, s) := read_block s in
                    Ok ({| fr_cmd := cmd; fr_status := hd 0 st; fr_payload := payload;
                           fr_dataMode := "" |}, s))
            else if bool_decide (cmd = cmdDataResp) then
              Some (let? (payload, mode, s) := readDataRespPayload s in
                    Ok ({| fr_cmd := cmd; fr_status := 0; fr_payload := payload;
                           fr_dataMode := mode |}, s))
            else
              Some (let? (payload, s) := read_block s in
                    Ok ({| fr_cmd := cmd; fr_status := 0; fr_payload := payload;
                           fr_dataMode := "" |}, s))
          else if bool_decide (h0 = 83) && bool_decide (h1 = 0) then
            match read_block s with
            | Err e => Some (Err e)
            | Ok (_, s) => readFrame fuel s
            end
          else Some (Err (EText ("unexpected header: " +:+ hex2 h0 +:+ " " +:+ hex2 h1)))
      end
  end.

(** ** Tunnel authentication and virtual addresses *)

Definition wrapAuthReqData (payload : list Z) (addrType : Z) : list Z :=
  [l3Version; 1; 208] ++ [83; 0] ++ put_be16 (len payload) ++ payload
  ++ [5; 4; 0; addrType; 0; 0; 0; 0; 0; 0].

Definition vipPayloadLength (addrType : Z) : nat :=
  if bool_decide (addrType = 1) then 6%nat
  else if bool_decide (addrType = 4) then 18%nat
  else if bool_decide (addrType = 5) then 22%nat
  else 4%nat.

Definition parseVirtualIPData (data : list Z) : list IP :=
  match length data with
  | 6%nat => [IPv4 (nth 0 data 0) (nth 1 data 0) (nth 2 data 0) (nth 3 data 0)]
  | 18%nat => [take 16 data]
  | 22%nat => [IPv4 (nth 0 data 0) (nth 1 data 0) (nth 2 data 0) (nth 3 data 0);
               take 16 (drop 4 data)]
  | _ => []
  end.

Definition protoName (proto : Z) : string :=
  if bool_decide (proto = 6) then "tcp"
  else if bool_decide (proto = 17) then "udp"
  else if bool_decide (proto = 1) then "icmp"
  else if bool_decide (proto = 58) then "icmp6"
  else "ip".

Definition authIPType (atype : Z) : Z :=
  if bool_decide (atype = 6) then 34525 else 2048.

Fixpoint firstNonEmpty (values : list string) : string :=
  match values with
  | [] => ""
  | v :: rest => if is_empty v then firstNonEmpty rest else v
  end.

(** [langFromEnv] on the values of the four environment variables it reads. *)
Definition langFromEnv (values : list string) : string :=
  let lang := firstNonEmpty values in
  if is_empty lang then "en-US"
  else
    let lang := hd ""%string (Split lang "."%char) in
    let lang := of_chars (map (fun c => if bool_decide (c = "_"%char) then "-"%char else c)
                              (chars lang)) in
    if bool_decide (strlen lang = 2) then
      let lang := ToLower lang in lang +:+ "-" +:+ ToUpper lang
    else match Split lang "-"%char with
         | [a; b] => ToLower a +:+ "-" +:+ ToUpper b
         | _ => lang
         end.

(** ** Theorems *)

Lemma ReadFull_app a s : ReadFull (length a) (a ++ s) = Ok (a, s).
Proof.
  unfold ReadFull. rewrite bool_decide_true by (rewrite length_app; lia).
  by rewrite take_app_length, drop_app_length.
Qed.

Lemma ReadFull_len a s : ReadFull (Z.to_nat (len a)) (a ++ s) = Ok (a, s).
Proof. unfold len. rewrite Nat2Z.id. apply ReadFull_app. Qed.

Lemma read_be16_put n s :
  0 <= n < 65536 -> read_be16 (put_be16 n ++ s) = Ok (n, put_be16 n, s).
Proof.
  intros Hn. destruct (be16_put_be16 n Hn) as (hi & lo & Hp & Hb).
  unfold read_be16. rewrite Hp. change 2%nat with (length [hi; lo]).
  rewrite ReadFull_app. simpl. by rewrite Hb.
Qed.

Definition packet_ok (pkt : list Z) : Prop := len pkt < 65536.

Lemma parse_packets_append packets rest :
  Forall packet_ok packets ->
  parse_packets (length packets) (append_packets packets ++ rest) = Ok packets.
Proof.
  induction packets as [|pkt packets IH]; intros Hp; [done|].
  apply Forall_cons in Hp as [Hk Hp]. change (length (pkt :: packets)) with (S (length packets)).
  cbn [append_packets parse_packets].
  destruct (be16_put_be16 (len pkt)) as (hi & lo & -> & Hb).
  { unfold packet_ok in Hk. pose proof (len_nonneg pkt). lia. }
  cbn [app parse_packets]. rewrite Hb, <-app_assoc. unfold len. rewrite Nat2Z.id.
  rewrite bool_decide_true by (rewrite length_app; lia).
  rewrite drop_app_length, take_app_length, (IH Hp). done.
Qed.

Lemma u8_small n : 0 <= n < 256 -> u8 n = n.
Proof. intros H. unfold u8. by apply Z.mod_small. Qed.

Lemma drop_app_exact {A} (a b : list A) n : n = length a -> drop n (a ++ b) = b.
Proof. intros ->. apply drop_app_length. Qed.

Lemma length_len {A} (l : list A) : Z.to_nat (len l) = length l.
Proof. unfold len. apply Nat2Z.id. Qed.

Lemma len_app {A} (a b : list A) : len (a ++ b) = len a + len b.
Proof. unfold len. rewrite length_app. lia. Qed.

(** A data payload as [parseDataPayload] sees it. *)
Definition data_body (token reserved : list Z) (packets : list (list Z)) : list Z :=
  [len token] ++ token ++ reserved ++ [len packets] ++ append_packets packets.

Lemma parseDataPayload_body token reserved packets rest :
  length reserved = 2%nat -> Forall packet_ok packets ->
  parseDataPayload (data_body token reserved packets ++ rest) = Ok packets.
Proof.
  intros Hr Hp. unfold parseDataPayload, data_body. cbn [app].
  rewrite bool_decide_false by
    (simpl; rewrite ?length_app; simpl; rewrite ?length_app; simpl; lia).
  rewrite bool_decide_false by
    (unfold len at 1; simpl; rewrite !length_app; simpl; unfold len; lia).
  rewrite length_len, <-!app_assoc, (app_assoc token reserved).
  rewrite drop_app_exact by (rewrite length_app, Hr; done).
  cbn [app]. rewrite length_len. by apply parse_packets_append.
Qed.

(** A data request carries its packets faithfully: for a token of at most 255 bytes and
    at most 255 packets of less than 64 KiB, [buildDataPayload] is the two command bytes
    followed by a body from which [parseDataPayload] recovers exactly the packets, whatever
    bytes follow. *)
Theorem buildDataPayload_roundtrip (token : list Z) (packets : list (list Z)) (rest : list Z)
    (Ht : len token <= 255) (Hn : len packets <= 255) (Hp : Forall packet_ok packets) :
  take 2 (buildDataPayload token packets) = [l3Version; cmdDataReq] /\
  parseDataPayload (drop 2 (buildDataPayload token packets) ++ rest) = Ok packets.
Proof.
  split; [done|]. unfold buildDataPayload.
  rewrite !u8_small by (pose proof (len_nonneg token); pose proof (len_nonneg packets); lia).
  change (drop 2 ([l3Version; cmdDataReq] ++ ?x)) with x.
  by apply (parseDataPayload_body token [0; 0]).
Qed.

Lemma buildDataPayload_roundtrip_witness :
  parseDataPayload (drop 2 (buildDataPayload [97; 98] [[1; 2; 3]; []]) ++ [9]) =
    Ok [[1; 2; 3]; []].
Proof.
  apply (buildDataPayload_roundtrip [97; 98] [[1; 2; 3]; []] [9]);
    [vm_compute; discriminate|vm_compute; discriminate|].
  apply List.Forall_cons; [vm_compute; reflexivity|].
  apply List.Forall_cons; [vm_compute; reflexivity|]. apply List.Forall_nil.
Defined.

Lemma parse_packets_bounds count p packets :
  bytes_ok p -> parse_packets count p = Ok packets ->
  length packets = count /\ exists rest, p = append_packets packets ++ rest /\
    Forall packet_ok packets.
Proof.
  revert p packets. induction count as [|count IH]; intros p packets Hok H; cbn in H.
  { injection H as <-. split; [done|]. by exists p. }
  destruct p as [|hi [|lo p]]; [done|done|].
  apply Forall_cons in Hok as [Hhi [Hlo Hok]%Forall_cons].
  pose proof (be16_bounds hi lo Hhi Hlo) as Hb.
  case_bool_decide as Hl; [|done].
  destruct (parse_packets count (drop _ p)) as [ps|] eqn:E; [|done].
  injection H as <-. destruct (IH _ _ (Forall_drop _ _ _ Hok) E) as (Hlen & rest & Hr & Hp).
  assert (len (take (Z.to_nat (be16 hi lo)) p) = be16 hi lo) as Hlt
    by (unfold len; rewrite length_take; lia).
  split; [simpl; lia|]. exists rest. split.
  - cbn [append_packets]. rewrite Hlt.
    assert (put_be16 (be16 hi lo) = [hi; lo]) as ->.
    { destruct (be16_put_be16 _ Hb) as (h & l & Hp1 & Hp2). rewrite Hp1.
      pose proof (put_be16_bytes (be16 hi lo)) as Hby. rewrite Hp1 in Hby.
      apply Forall_cons in Hby as [H1 [H2 _]%Forall_cons].
      unfold be16, byte_ok in *. repeat f_equal; lia. }
    simpl. rewrite <-app_assoc, <-Hr, take_drop. done.
  - constructor; [|done]. unfold packet_ok. lia.
Qed.

(** C40: [parseDataPayload] accepts exactly the well-formed payloads. On a byte slice it
    returns packets if and only if the slice is a token length, that many token bytes, two
    reserved bytes, a packet count and that many length-prefixed packets, followed by
    anything; so no accepted length field ever points outside the slice. *)
Theorem parseDataPayload_exact (p : list Z) (packets : list (list Z)) (Hok : bytes_ok p) :
  parseDataPayload p = Ok packets <->
  Forall packet_ok packets /\
  exists token reserved rest, length reserved = 2%nat /\
    p = data_body token reserved packets ++ rest.
Proof.
  split; [|intros (Hp & token & reserved & rest & Hr & ->); by apply parseDataPayload_body].
  unfold parseDataPayload. destruct p as [|tokenLen tail]; [done|].
  apply Forall_cons in Hok as [Htl Hok].
  case_bool_decide as Hl; [done|]. case_bool_decide as Ht; [done|].
  destruct (drop (Z.to_nat tokenLen + 2) tail) as [|count rest] eqn:Hd; [done|].
  intros H.
  assert (bytes_ok (count :: rest)) as [Hc Hrest]%Forall_cons
    by (rewrite <-Hd; by apply Forall_drop).
  destruct (parse_packets_bounds _ _ _ Hrest H) as (Hlen & rest' & Hr & Hp).
  split; [done|].
  exists (take (Z.to_nat tokenLen) tail), (take 2 (drop (Z.to_nat tokenLen) tail)), rest'.
  assert (1 + Z.to_nat tokenLen + 3 <= length (tokenLen :: tail))%nat as Hlt
    by (unfold len in Ht; lia).
  simpl in Hlt. unfold byte_ok in *. split.
  { rewrite length_take, length_drop. lia. }
  unfold data_body. rewrite <-!app_assoc. cbn [app].
  assert (len (take (Z.to_nat tokenLen) tail) = tokenLen) as ->
    by (unfold len; rewrite length_take; lia).
  assert (len packets = count) as -> by (unfold len; lia).
  f_equal. rewrite <-Hr, <-Hd, <-drop_drop, (take_drop 2), take_drop. done.
Qed.

Lemma parseDataPayload_exact_witness :
  parseDataPayload [1; 7; 0; 0; 1; 0; 2; 8; 9] = Ok [[8; 9]] <->
  Forall packet_ok [[8; 9]] /\
  exists token reserved rest, length reserved = 2%nat /\
    [1; 7; 0; 0; 1; 0; 2; 8; 9] = data_body token reserved [[8; 9]] ++ rest.
Proof.
  apply (parseDataPayload_exact [1; 7; 0; 0; 1; 0; 2; 8; 9] [[8; 9]]).
  unfold bytes_ok, byte_ok. repeat (apply List.Forall_cons; [lia|]). apply List.Forall_nil.
Defined.

Lemma read_packets_append packets rest :
  Forall packet_ok packets ->
  read_packets (length packets) (append_packets packets ++ rest) =
    Ok (append_packets packets, rest).
Proof.
  induction packets as [|pkt packets IH]; intros Hp; [done|].
  apply Forall_cons in Hp as [Hk Hp]. change (length (pkt :: packets)) with (S (length packets)).
  cbn [append_packets read_packets]. rewrite <-!app_assoc.
  pose proof (len_nonneg pkt). unfold packet_ok in Hk.
  rewrite read_be16_put by lia. cbn [result_bind].
  case_bool_decide as Hz.
  - destruct pkt; [|unfold len in Hz; simpl in Hz; lia].
    cbn [app]. rewrite (IH Hp). done.
  - rewrite ReadFull_len. cbn [result_bind]. rewrite (IH Hp). done.
Qed.

(** The first two bytes of a token body, read as a length, do not look like one. *)
Definition token_mode (token : list Z) : Prop :=
  match token with
  | [] => True
  | b :: _ => be16 (len token) b > maxDataPayload
  end.

(** A data response is read back in full in both of its forms. A block of 1 to 4096
    bytes behind its length is returned as it is, in "len" mode; a token body whose first
    two bytes do not read as such a length, that is whose token is empty, has at least 17
    bytes, or has 16 bytes of which the first is not zero, is returned whole in "token"
    mode, and [parseDataPayload] recovers its packets. A body with a shorter token is
    taken for a length. *)
Theorem readDataRespPayload_modes (rest : list Z) :
  (forall pkt, 1 <= len pkt <= maxDataPayload ->
     readDataRespPayload (put_be16 (len pkt) ++ pkt ++ rest) = Ok (pkt, "len"%string, rest)) /\
  (forall token packets, token_mode token -> len token <= 255 -> len packets <= 255 ->
     Forall packet_ok packets ->
     readDataRespPayload (data_body token [0; 0] packets ++ rest) =
       Ok (data_body token [0; 0] packets, "token"%string, rest) /\
     parseDataPayload (data_body token [0; 0] packets) = Ok packets) /\
  (forall b token packets s, byte_ok b -> len token < 15 ->
     readDataRespPayload (data_body (b :: token) [0; 0] packets ++ rest) = Ok s ->
     s.1.2 = "len"%string).
Proof.
  unfold maxDataPayload. split_and!.
  - intros pkt Hp. unfold readDataRespPayload.
    destruct (be16_put_be16 (len pkt)) as (hi & lo & Hput & Hb); [lia|].
    rewrite Hput. cbn [app peek_be16 result_bind]. rewrite Hb.
    change (drop 2 (hi :: lo :: pkt ++ rest)) with (pkt ++ rest).
    unfold maxDataPayload. rewrite !bool_decide_true by lia. cbn [andb].
    rewrite ReadFull_len. done.
  - intros token packets Hm Ht Hn Hp. split.
    2: { rewrite <-(app_nil_r (data_body _ _ _)). by apply parseDataPayload_body. }
    assert (exists v, peek_be16 (data_body token [0; 0] packets ++ rest) = Ok v /\
              (v > 0 -> v > maxDataPayload)) as (v & Hv & Hv').
    { unfold data_body. destruct token as [|b token]; cbn [app peek_be16].
      - eexists. split; [done|]. unfold be16. change (len []) with 0. lia.
      - eexists. split; [done|]. intros _. exact Hm. }
    unfold readDataRespPayload. rewrite Hv. cbn [result_bind].
    assert (bool_decide (v > 0) && bool_decide (v <= maxDataPayload) = false) as ->
      by (repeat case_bool_decide; simpl; try done; lia).
    unfold data_body. rewrite <-!app_assoc.
    rewrite (ReadFull_app [len token]). cbn [result_bind hd].
    rewrite ReadFull_len. cbn [result_bind].
    rewrite (ReadFull_app [0; 0]). cbn [result_bind].
    rewrite (ReadFull_app [len packets]). cbn [result_bind hd].
    rewrite length_len, read_packets_append by done. cbn [result_bind].
    rewrite <-?app_assoc. done.
  - intros b token packets s Hb Ht. unfold readDataRespPayload, data_body.
    cbn [app peek_be16 result_bind].
    assert (0 < be16 (len (b :: token)) b <= maxDataPayload) as Hlen.
    { unfold be16, maxDataPayload, byte_ok, len in *. simpl length. lia. }
    rewrite !bool_decide_true by lia. cbn [andb].
    destruct (ReadFull _ _) as [[? ?]|]; cbn [result_bind]; [|done]. by intros [= <-].
Qed.

(** Every read leaves a suffix of the stream. *)
Lemma ReadFull_ok n s a r : ReadFull n s = Ok (a, r) -> s = a ++ r /\ length a = n.
Proof.
  unfold ReadFull. case_bool_decide; [|by case_bool_decide]. intros [= <- <-].
  rewrite take_drop, length_take. split; [done|lia].
Qed.

Lemma read_be16_ok s n b r : read_be16 s = Ok (n, b, r) -> s = b ++ r /\ length b = 2%nat.
Proof.
  unfold read_be16. destruct (ReadFull 2 s) as [[a r']|] eqn:E; cbn [result_bind]; [|done].
  apply ReadFull_ok in E as [-> Hl]. destruct a as [|hi [|lo [|]]]; try done.
  intros [= _ <- <-]. done.
Qed.

Lemma read_block_ok s a r : read_block s = Ok (a, r) -> exists h, s = h ++ a ++ r /\ length h = 2%nat.
Proof.
  unfold read_block. destruct (read_be16 s) as [[[n b] r']|] eqn:E; cbn [result_bind]; [|done].
  apply read_be16_ok in E as [-> Hl]. intros [-> _]%ReadFull_ok. by exists b.
Qed.

Lemma read_packets_ok count s a r : read_packets count s = Ok (a, r) -> s = a ++ r.
Proof.
  revert s a. induction count as [|count IH]; intros s a; cbn [read_packets].
  { by intros [= <- <-]. }
  destruct (read_be16 s) as [[[n b] s1]|] eqn:E; cbn [result_bind]; [|done].
  apply read_be16_ok in E as [-> _].
  case_bool_decide.
  - destruct (read_packets count s1) as [[m s2]|] eqn:E; cbn [result_bind]; [|done].
    intros [= <- <-]. by rewrite <-app_assoc, <-(IH _ _ E).
  - destruct (ReadFull _ s1) as [[p s2]|] eqn:Ep; cbn [result_bind]; [|done].
    apply ReadFull_ok in Ep as [-> _].
    destruct (read_packets count s2) as [[m s3]|] eqn:E; cbn [result_bind]; [|done].
    intros [= <- <-]. by rewrite <-!app_assoc, <-(IH _ _ E).
Qed.

Lemma readDataRespPayload_ok s p mode r :
  readDataRespPayload s = Ok (p, mode, r) -> exists h, s = h ++ r /\ (2 <= length h)%nat.
Proof.
  unfold readDataRespPayload. destruct s as [|hi [|lo s]]; try done. cbn [peek_be16 result_bind].
  destruct (_ && _).
  - change (drop 2 (hi :: lo :: s)) with s.
    destruct (ReadFull _ s) as [[a r']|] eqn:E; cbn [result_bind]; [|done].
    apply ReadFull_ok in E as [-> _]. intros [= <- <- <-].
    exists (hi :: lo :: a). simpl. split; [done|lia].
  - destruct (ReadFull 1 _) as [[h s1]|] eqn:E1; cbn [result_bind]; [|done].
    apply ReadFull_ok in E1 as [E1 L1]. rewrite E1.
    destruct (ReadFull _ s1) as [[t s2]|] eqn:E2; cbn [result_bind]; [|done].
    apply ReadFull_ok in E2 as [-> _].
    destruct (ReadFull 2 s2) as [[v s3]|] eqn:E3; cbn [result_bind]; [|done].
    apply ReadFull_ok in E3 as [-> L3].
    destruct (ReadFull 1 s3) as [[c s4]|] eqn:E4; cbn [result_bind]; [|done].
    apply ReadFull_ok in E4 as [-> _].
    destruct (read_packets _ s4) as [[m s5]|] eqn:E5; cbn [result_bind]; [|done].
    apply read_packets_ok in E5 as ->. intros [= _ _ <-].
    exists (h ++ t ++ v ++ c ++ m). rewrite <-!app_assoc. split; [done|].
    rewrite !length_app. lia.
Qed.

Lemma readFrame_ok fuel s f r :
  readFrame fuel s = Some (Ok (f, r)) -> exists h, s = h ++ r /\ (4 <= length h)%nat.
Proof.
  revert s. induction fuel as [|fuel IH]; intros s; cbn [readFrame]; [done|].
  destruct (ReadFull 2 s) as [[header s1]|] eqn:E; [|done].
  apply ReadFull_ok in E as [-> Lh].
  case_bool_decide.
  - destruct (_ || _).
    + destruct (ReadFull 1 s1) as [[st s2]|] eqn:E1; cbn [result_bind]; [|done].
      apply ReadFull_ok in E1 as [-> L1].
      destruct (read_block s2) as [[p s3]|] eqn:E2; cbn [result_bind]; [|done].
      apply read_block_ok in E2 as (h & -> & L2). intros [= _ <-].
      exists (header ++ st ++ h ++ p). rewrite <-!app_assoc, !length_app. split; [done|lia].
    + case_bool_decide.
      * destruct (readDataRespPayload s1) as [[[p mode] s2]|] eqn:E1; cbn [result_bind]; [|done].
        apply readDataRespPayload_ok in E1 as (h & -> & L2). intros [= _ <-].
        exists (header ++ h). rewrite <-!app_assoc, !length_app. split; [done|lia].
      * destruct (read_block s1) as [[p s2]|] eqn:E1; cbn [result_bind]; [|done].
        apply read_block_ok in E1 as (h & -> & L2). intros [= _ <-].
        exists (header ++ h ++ p). rewrite <-!app_assoc, !length_app. split; [done|lia].
  - destruct (_ && _); [|done].
    destruct (read_block s1) as [[p s2]|] eqn:E1; [|done].
    apply read_block_ok in E1 as (h & -> & L2). intros H2.
    destruct (IH _ H2) as (h' & -> & L3).
    exists (header ++ h ++ p ++ h'). rewrite <-!app_assoc, !length_app. split; [done|lia].
Qed.

Lemma readFrame_total fuel s :
  (length s < fuel)%nat -> exists r, readFrame fuel s = Some r.
Proof.
  revert s. induction fuel as [|fuel IH]; intros s Hl; [lia|]. cbn [readFrame].
  destruct (ReadFull 2 s) as [[header s1]|] eqn:E; [|by eexists].
  apply ReadFull_ok in E as [-> Lh]. rewrite length_app in Hl.
  case_bool_decide.
  { destruct (_ || _); [by eexists|]. by case_bool_decide; eexists. }
  destruct (_ && _); [|by eexists].
  destruct (read_block s1) as [[p s2]|] eqn:E1; [|by eexists].
  apply read_block_ok in E1 as (h & -> & L2). apply IH. rewrite !length_app in Hl. lia.
Qed.

(** The two frames a server may send that carry a length-prefixed block. *)
Definition data_frame (pkt : list Z) : list Z :=
  [l3Version; cmdDataResp] ++ put_be16 (len pkt) ++ pkt.

Definition protocol_frame (block : list Z) : list Z := [83; 0] ++ put_be16 (len block) ++ block.

Lemma read_block_put block s :
  len block < 65536 -> read_block (put_be16 (len block) ++ block ++ s) = Ok (block, s).
Proof.
  intros H. pose proof (len_nonneg block). unfold read_block.
  rewrite read_be16_put by lia. cbn [result_bind]. apply ReadFull_len.
Qed.

Lemma readFrame_skip_protocol fuel blocks s :
  Forall packet_ok blocks ->
  readFrame (length blocks + fuel) (concat (map protocol_frame blocks) ++ s) = readFrame fuel s.
Proof.
  induction blocks as [|b blocks IH]; intros Hb; [done|].
  apply Forall_cons in Hb as [Hb Hbs]. rewrite <-(IH Hbs).
  change (length (b :: blocks) + fuel)%nat with (S (length blocks + fuel)).
  cbn [readFrame map concat]. unfold protocol_frame at 1. rewrite <-!app_assoc.
  rewrite (ReadFull_app [83; 0]). cbn [nth]. rewrite read_block_put by done. done.
Qed.

(** Reading a frame always terminates: fuel beyond the number of buffered bytes is
    never used up; a frame that is returned was a prefix of at least four bytes of the
    stream and the rest of the stream is untouched; and protocol frames are skipped, so
    that behind any number of them a data frame of 1 to 4096 bytes is returned with its
    packet. *)
Theorem readFrame_spec (s : list Z) :
  (exists r, readFrame (S (length s)) s = Some r) /\
  (forall fuel f rest, readFrame fuel s = Some (Ok (f, rest)) ->
     exists consumed, s = consumed ++ rest /\ (4 <= length consumed)%nat) /\
  (forall blocks pkt fuel, Forall packet_ok blocks -> 1 <= len pkt <= maxDataPayload ->
     readFrame (length blocks + S fuel)
       (concat (map protocol_frame blocks) ++ data_frame pkt ++ s) =
     Some (Ok ({| fr_cmd := cmdDataResp; fr_status := 0; fr_payload := pkt;
                  fr_dataMode := "len" |}, s))).
Proof.
  split_and!.
  - apply readFrame_total. lia.
  - intros fuel f rest. apply readFrame_ok.
  - intros blocks pkt fuel Hb Hp. rewrite readFrame_skip_protocol by done.
    cbn [readFrame]. unfold data_frame. rewrite <-!app_assoc.
    rewrite (ReadFull_app [l3Version; cmdDataResp]). cbn [nth].
    rewrite (bool_decide_true (l3Version = l3Version)),
      (bool_decide_false (cmdDataResp = cmdAuthResp)),
      (bool_decide_false (cmdDataResp = cmdSecondVipResp)),
      (bool_decide_true (cmdDataResp = cmdDataResp)) by done. cbn [orb].
    unfold readDataRespPayload.
    destruct (be16_put_be16 (len pkt)) as (hi & lo & Hput & Hbe);
      [unfold maxDataPayload in Hp; lia|].
    rewrite Hput. cbn [app peek_be16 result_bind]. rewrite Hbe.
    rewrite !bool_decide_true by lia.
    change (drop 2 (hi :: lo :: pkt ++ s)) with (pkt ++ s). cbn [andb].
    rewrite ReadFull_len. done.
Qed.
