(* ===== verification/L3Tunnel.v ===== *)
(** The layer-3 tunnel: authorised writes and answers of one connection
    (client/atrust/l3tunnelconn.go), the connection table of the tunnel
    (client/atrust/l3tunnel.go) and the write with one retry
    (client/atrust/l3tunnelpacket.go). *)

From S2P Require Import Prelude Core GoNet Packet Conntrack L3Codec.

Definition errL3TunnelAuthTimeout : error :=
  EVar "errL3TunnelAuthTimeout" "l3-tunnel auth timeout".
Definition errL3HeartbeatTimeout : error :=
  EVar "errL3HeartbeatTimeout" "l3-tunnel heartbeat timeout".

Definition isAuthTimeoutErr (err : option error) : bool :=
  match err with Some e => errors_Is e "errL3TunnelAuthTimeout" | None => false end.

Definition classifyL3SessionError (err : error) (message : string) : error :=
  if Contains (ToLower message) "invalid sid"
  then EWrap (error_text err +:+ ": " +:+ error_text ErrSessionInvalid) ErrSessionInvalid
  else err.

(** ** Authorisation answers *)

(** [authResponseIP], the fields that are read. *)
Record authResponseIP : Type := {
  air_Code : Z;
  air_Message : string;
  air_ConntrackHash : Z;
  air_ConnectToken : string;
  air_Token : string;
}.

Section AuthResponse.
(** [json.Unmarshal] into an [authResponseIP]. *)
Variable unmarshal : list Z -> result error authResponseIP.

(** The conntrack table after the answer and the error given to [reportHealthError]. *)
Definition markAuthErrorFromPayload (payload : list Z) (err : error) (m : conntrackMgr)
    : conntrackMgr * option error :=
  match unmarshal payload with
  | Ok resp =>
      let err := classifyL3SessionError err (air_Message resp) in
      (if negb (bool_decide (air_ConntrackHash resp = 0))
       then markAuth (air_ConntrackHash resp) "" (Some err) m else m, Some err)
  | Err _ => (m, Some err)
  end.

Definition handleAuthResp (status : Z) (payload : list Z) (m : conntrackMgr)
    : conntrackMgr * option error :=
  if negb (bool_decide (status = 0)) then
    markAuthErrorFromPayload payload (EText ("auth status " +:+ itoa status)) m
  else match unmarshal payload with
  | Err e => markAuthErrorFromPayload payload e m
  | Ok resp =>
      if bool_decide (air_ConntrackHash resp = 0) then
        markAuthErrorFromPayload payload (EText "missing conntrack hash") m
      else
        let err :=
          if negb (bool_decide (air_Code resp = 0)) then
            Some (classifyL3SessionError
              (EText ("auth failed: " +:+ itoa (air_Code resp) +:+ " " +:+ air_Message resp))
              (air_Message resp))
          else None in
        let token := TrimSpace (air_ConnectToken resp) in
        let token := if is_empty token then TrimSpace (air_Token resp) else token in
        let err := match err with
                   | None => if is_empty token then Some (EText "missing connect token")
                             else None
                   | _ => err
                   end in
        (markAuth (air_ConntrackHash resp) token err m, err)
  end.

(** [reportHealthError]: the error that reaches [onHealthError]. *)
Definition reportHealthError (err : option error) : option error :=
  match err with
  | Some e => if errors_Is e "client.ErrSessionInvalid" then Some e else None
  | None => None
  end.
End AuthResponse.

(** ** [WritePacket] *)

(** Up to the point where the packet is authorised or has to wait. *)
Definition WritePacket_begin (range : gmap string nat -> list (string * nat)) (now : Z)
    (key appID nodeGroupID : string) (send : option error) (m : conntrackMgr)
    : option (nat * ensure_result * conntrackMgr) :=
  let '(p, m) := getOrCreate range now key appID nodeGroupID m in
  '(r, m) ← ensureAuth_begin p send m; Some (p, r, m).

(** After [ensureAuth] returned [err]: the frame that is written. *)
Definition WritePacket_finish (p : nat) (err : option error) (pkt : list Z) (m : conntrackMgr)
    : option (result error (list Z)) :=
  match err with
  | Some e => Some (Err e)
  | None =>
      ct ← mgr_objs m !! p;
      let token := ct_connectToken ct in
      if is_empty token then
        Some (Err (EText ("l3-tunnel missing connect token for " +:+ ct_key ct)))
      else if bool_decide (strlen token > 255) then
        Some (Err (EText ("l3-tunnel connect token too long: " +:+ itoa (strlen token))))
      else Some (Ok (buildDataPayload (string_bytes token) [pkt]))
  end.

(** ** Life of one connection *)

Definition heartbeatTimeout : Z := 75 * 1000000000.

Record l3Life : Type := {
  life_closed : bool;
  life_closeErr : option error;
  life_terminalErr : option error;
  life_lastHeartbeat : Z;
}.

(** [Close]; [tlsErr] is the outcome of closing the TLS connection. *)
Definition l3_Close (tlsErr : option error) (c : l3Life) : option error * l3Life :=
  if life_closed c then (life_closeErr c, c)
  else (tlsErr, {| life_closed := true; life_closeErr := tlsErr;
                   life_terminalErr := life_terminalErr c;
                   life_lastHeartbeat := life_lastHeartbeat c |}).

Definition l3_fail (tlsErr err : option error) (c : l3Life) : l3Life :=
  let c := match err, life_terminalErr c with
           | Some e, None =>
               {| life_closed := life_closed c; life_closeErr := life_closeErr c;
                  life_terminalErr := Some e; life_lastHeartbeat := life_lastHeartbeat c |}
           | _, _ => c
           end in
  (l3_Close tlsErr c).2.

(** The branch of [ReadPacket] on a closed connection. *)
Definition ReadPacket_closed (c : l3Life) : error :=
  match life_terminalErr c with Some e => e | None => io_EOF end.

Definition heartbeatExpired (now : Z) (c : l3Life) : bool :=
  bool_decide (now - life_lastHeartbeat c >= heartbeatTimeout).

Definition heartbeat_received (now : Z) (c : l3Life) : l3Life :=
  {| life_closed := life_closed c; life_closeErr := life_closeErr c;
     life_terminalErr := life_terminalErr c; life_lastHeartbeat := now |}.

(** One tick of [watchHeartbeats] on an open connection. *)
Definition watchHeartbeats_tick (tlsErr : option error) (now : Z) (c : l3Life) : l3Life :=
  if heartbeatExpired now c then l3_fail tlsErr (Some errL3HeartbeatTimeout) c else c.

(** ** The connection table

    A connection is a handle. [lt_open] holds the handles whose TLS connection is open,
    [lt_dialed] those a [getConn] has dialed and not yet registered, and [lt_toClose] those
    a goroutine has taken out of the table and is about to close. *)

Record L3TunnelState : Type := {
  lt_cause : option error;
  lt_conns : gmap string nat;
  lt_open : gset nat;
  lt_dialed : gmap nat string;
  lt_toClose : gset nat;
  lt_closeOnce : bool;
  lt_next : nat;
}.

Definition NewL3Tunnel_state : L3TunnelState :=
  {| lt_cause := None; lt_conns := ∅; lt_open := ∅; lt_dialed := ∅; lt_toClose := ∅;
     lt_closeOnce := false; lt_next := 0 |}.

(** [getConn] up to the dial. *)
Inductive getConn_result : Type :=
| GetErr (e : error)
| GetConn (p : nat)
| GetDial (addr : string).

Definition getConn_begin (bestNodes : gmap string string) (major group : string)
    (t : L3TunnelState) : getConn_result :=
  match lt_cause t with
  | Some e => GetErr e
  | None =>
      match lt_conns t !! group with
      | Some p => GetConn p
      | None =>
          let addr := default ""%string (bestNodes !! group) in
          let addr := if is_empty addr then default ""%string (bestNodes !! major) else addr in
          if is_empty addr then GetErr (EText ("no available node for group " +:+ group))
          else GetDial addr
      end
  end.

(** [newL3TunnelConn] returned a connection. *)
Definition getConn_dialed (group : string) (t : L3TunnelState) : nat * L3TunnelState :=
  let p := lt_next t in
  (p, {| lt_cause := lt_cause t; lt_conns := lt_conns t; lt_open := {[p]} ∪ lt_open t;
         lt_dialed := <[p := group]> (lt_dialed t); lt_toClose := lt_toClose t;
         lt_closeOnce := lt_closeOnce t; lt_next := S p |}).

(** The second critical section of [getConn] (and the check in front of it). *)
Definition getConn_register (p : nat) (group : string) (t : L3TunnelState)
    : result error nat * L3TunnelState :=
  let abandon r :=
    (r, {| lt_cause := lt_cause t; lt_conns := lt_conns t; lt_open := lt_open t ∖ {[p]};
           lt_dialed := delete p (lt_dialed t); lt_toClose := lt_toClose t;
           lt_closeOnce := lt_closeOnce t; lt_next := lt_next t |}) in
  match lt_cause t with
  | Some e => abandon (Err e)
  | None =>
      match lt_conns t !! group with
      | Some existing => abandon (Ok existing)
      | None =>
          (Ok p, {| lt_cause := lt_cause t; lt_conns := <[group := p]> (lt_conns t);
                    lt_open := lt_open t; lt_dialed := delete p (lt_dialed t);
                    lt_toClose := lt_toClose t; lt_closeOnce := lt_closeOnce t;
                    lt_next := lt_next t |})
      end
  end.

Definition evictConn (group : string) (p : nat) (t : L3TunnelState) : bool * L3TunnelState :=
  if bool_decide (lt_conns t !! group = Some p) then
    (true, {| lt_cause := lt_cause t; lt_conns := delete group (lt_conns t);
              lt_open := lt_open t; lt_dialed := lt_dialed t; lt_toClose := lt_toClose t;
              lt_closeOnce := lt_closeOnce t; lt_next := lt_next t |})
  else (false, t).

(** [if t.evictConn(group, conn) { _ = conn.Close() }] up to the close. *)
Definition evict_to_close (group : string) (p : nat) (t : L3TunnelState) : L3TunnelState :=
  let '(evicted, t) := evictConn group p t in
  if evicted then
    {| lt_cause := lt_cause t; lt_conns := lt_conns t; lt_open := lt_open t;
       lt_dialed := lt_dialed t; lt_toClose := {[p]} ∪ lt_toClose t;
       lt_closeOnce := lt_closeOnce t; lt_next := lt_next t |}
  else t.

(** The lifetime context of the client is cancelled. *)
Definition parent_cancel (err : error) (t : L3TunnelState) : L3TunnelState :=
  {| lt_cause := Some (default err (lt_cause t)); lt_conns := lt_conns t;
     lt_open := lt_open t; lt_dialed := lt_dialed t; lt_toClose := lt_toClose t;
     lt_closeOnce := lt_closeOnce t; lt_next := lt_next t |}.

(** [conn.Close()], or the connection failing by itself. *)
Definition conn_Close (p : nat) (t : L3TunnelState) : L3TunnelState :=
  {| lt_cause := lt_cause t; lt_conns := lt_conns t; lt_open := lt_open t ∖ {[p]};
     lt_dialed := lt_dialed t; lt_toClose := lt_toClose t ∖ {[p]};
     lt_closeOnce := lt_closeOnce t; lt_next := lt_next t |}.

(** [terminate] up to [t.connsMu.Unlock()]. *)
Definition terminate (err : option error) (t : L3TunnelState) : L3TunnelState :=
  if lt_closeOnce t then t
  else {| lt_cause := Some (match lt_cause t with
                            | Some c => c
                            | None => match err with Some e => e | None => io_EOF end
                            end);
          lt_conns := ∅; lt_open := lt_open t; lt_dialed := lt_dialed t;
          lt_toClose := list_to_set ((map_to_list (lt_conns t)).*2) ∪ lt_toClose t;
          lt_closeOnce := true; lt_next := lt_next t |}.

(** The interleavings of the goroutines that use the tunnel. *)
Inductive lt_step : L3TunnelState -> L3TunnelState -> Prop :=
| lt_dial group t : lt_step t (getConn_dialed group t).2
| lt_register p group t :
    lt_dialed t !! p = Some group -> lt_step t (getConn_register p group t).2
| lt_evict group p t : lt_step t (evict_to_close group p t)
| lt_forward_end group p t : p ∉ lt_open t -> lt_step t (evictConn group p t).2
| lt_cancel err t : lt_step t (parent_cancel err t)
| lt_close p t : lt_step t (conn_Close p t)
| lt_terminate err t : lt_step t (terminate err t).

(** ** [writePacket] *)

Section WriteRetry.
Context {S : Type}.
Variable getConn : string -> S -> result error nat * S.
Variable write : nat -> string -> string -> list Z -> S -> option error * S.
Variable evict : string -> nat -> S -> bool * S.
Variable close : nat -> S -> S.

Definition evict_and_close (group : string) (p : nat) (s : S) : S :=
  let '(evicted, s) := evict group p s in if evicted then close p s else s.

(** [writePacket] once the metadata is built. *)
Definition writePacket (packet : list Z) (appID group : string) (s : S)
    : option error * S :=
  match getConn group s with
  | (Err e, s) => (Some e, s)
  | (Ok conn, s) =>
      let '(err, s) := write conn appID group packet s in
      if isAuthTimeoutErr err then
        let s := evict_and_close group conn s in
        match getConn group s with
        | (Err e, s) => (Some e, s)
        | (Ok conn, s) =>
            let '(err, s) := write conn appID group packet s in
            if isAuthTimeoutErr err then (None, evict_and_close group conn s) else (err, s)
        end
      else (err, s)
  end.
End WriteRetry.

(** ** Theorems *)

Record lt_inv (t : L3TunnelState) : Prop := {
  lti_open : forall p, p ∈ lt_open t ->
    (exists g, lt_dialed t !! p = Some g) \/ (exists g, lt_conns t !! g = Some p) \/
    p ∈ lt_toClose t;
  lti_done : lt_closeOnce t = true -> lt_conns t = ∅ /\ is_Some (lt_cause t);
  lti_fresh : forall p, is_Some (lt_dialed t !! p) -> (p < lt_next t)%nat
}.

Lemma lt_step_inv t t' : lt_inv t -> lt_step t t' -> lt_inv t'.
Proof.
  intros [Ho Hd Hf] Hs. destruct Hs; simpl.
  - split; simpl; [|done|].
    + intros p [->%elem_of_singleton|Hp]%elem_of_union.
      * left. exists group. by rewrite lookup_insert_eq.
      * destruct (Ho p Hp) as [[g Hg]|[?|?]]; [left|by right; left|by right; right].
        exists g. rewrite lookup_insert_ne; [done|]. intros <-.
        specialize (Hf _ (mk_is_Some _ _ Hg)). lia.
    + intros p [g [[<- _]|[_ Hg]]%lookup_insert_Some]; [lia|].
      specialize (Hf p (mk_is_Some _ _ Hg)). lia.
  - unfold getConn_register.
    assert (forall q g, lt_dialed t !! q = Some g -> q <> p ->
              delete p (lt_dialed t) !! q = Some g) as Hdel
      by (intros; by apply lookup_delete_Some).
    assert (forall q, is_Some (delete p (lt_dialed t) !! q) -> (q < lt_next t)%nat) as Hf'.
    { intros q [g [_ Hg]%lookup_delete_Some]. eauto. }
    destruct (lt_cause t) as [e|] eqn:Hc;
      [|destruct (lt_conns t !! group) as [ex|] eqn:Hg]; simpl.
    + split; simpl; [|by eauto|done].
      intros q [Hq Hne%not_elem_of_singleton]%elem_of_difference.
      destruct (Ho q Hq) as [[g' ?]|?]; [left|by right]. eauto.
    + split; simpl; [|by rewrite ?Hc; eauto|done].
      intros q [Hq Hne%not_elem_of_singleton]%elem_of_difference.
      destruct (Ho q Hq) as [[g' ?]|?]; [left|by right]. eauto.
    + split; simpl; [| |done].
      * intros q Hq. destruct (decide (q = p)) as [->|Hne].
        { right. left. exists group. by rewrite lookup_insert_eq. }
        destruct (Ho q Hq) as [[g' ?]|[[g' Hg']|?]]; [left; eauto| |by right; right].
        right. left. exists g'. rewrite lookup_insert_ne; [done|congruence].
      * intros H1. destruct (Hd H1) as [_ [? ?]]. congruence.
  - unfold evict_to_close, evictConn. case_bool_decide as Hb; [|done].
    split; simpl; [|intros H1; destruct (Hd H1) as [-> ?]; by rewrite delete_empty|done].
    intros q Hq. destruct (decide (q = p)) as [->|Hne]; [right; right; set_solver|].
    destruct (Ho q Hq) as [?|[[g' Hg']|?]]; [by left| |right; right; set_solver].
    right. left. exists g'. apply lookup_delete_Some. split; [congruence|done].
  - unfold evictConn. case_bool_decide as Hb; [|done]. simpl.
    split; simpl; [|intros H1; destruct (Hd H1) as [-> ?]; by rewrite delete_empty|done].
    intros q Hq. destruct (Ho q Hq) as [?|[[g' Hg']|?]]; [by left| |by right; right].
    right. left. exists g'. apply lookup_delete_Some. split; [congruence|done].
  - split; simpl; [done| |done]. intros H1. destruct (Hd H1) as [? _]. eauto.
  - split; simpl; [|done|done].
    intros q [Hq Hne]%elem_of_difference.
    destruct (Ho q Hq) as [?|[?|?]]; [by left|by right; left|right; right; set_solver].
  - unfold terminate. destruct (lt_closeOnce t) eqn:Hc; [constructor; auto|].
    split; simpl; [|intros _; split; [done|by eexists]|done].
    intros q Hq. destruct (Ho q Hq) as [?|[[g Hg]|?]]; [by left| |right; right; set_solver].
    right. right. apply elem_of_union. left. apply elem_of_list_to_set, list_elem_of_fmap.
    exists (g, q). split; [done|]. by apply elem_of_map_to_list.
Qed.

(** C9: no connection of the tunnel leaks. In every interleaving of dials, registrations,
    evictions, failures, cancellations and [terminate], an open connection is held by a
    [getConn] in progress, by the table, or by a goroutine about to close it. After
    [terminate] the table stays empty, no [getConn] starts or registers a connection any
    more, and once the calls in progress are over no connection is open. *)
Theorem tunnel_no_leak (t : L3TunnelState) (Hr : rtc lt_step NewL3Tunnel_state t) :
  (forall p, p ∈ lt_open t ->
     (exists g, lt_dialed t !! p = Some g) \/ (exists g, lt_conns t !! g = Some p) \/
     p ∈ lt_toClose t) /\
  (lt_closeOnce t = true ->
     lt_conns t = ∅ /\
     (forall nodes major group, exists e, getConn_begin nodes major group t = GetErr e) /\
     (forall p group, exists e, (getConn_register p group t).1 = Err e /\
        p ∉ lt_open (getConn_register p group t).2) /\
     (lt_dialed t = ∅ -> lt_toClose t = ∅ -> lt_open t = ∅)).
Proof.
  assert (lt_inv t) as [Ho Hd Hf].
  { apply (rtc_closed lt_step lt_inv NewL3Tunnel_state t); [apply lt_step_inv| |done].
    split; simpl; [set_solver|done|by intros ? [? ?]]. }
  split; [done|]. intros H1. destruct (Hd H1) as [Hc [e He]]. split_and!.
  - done.
  - intros. unfold getConn_begin. rewrite He. eauto.
  - intros. unfold getConn_register. rewrite He. simpl. exists e. split; [done|set_solver].
  - intros Hd0 Hcl. apply elem_of_equiv_empty_L. intros p Hp.
    destruct (Ho p Hp) as [[g Hg]|[[g Hg]|?]].
    + by rewrite Hd0 in Hg.
    + by rewrite Hc in Hg.
    + set_solver.
Qed.

Lemma tunnel_no_leak_witness :
  exists t, t = terminate None (getConn_register 0 "g"
                  (getConn_dialed "g" NewL3Tunnel_state).2).2 /\
    lt_toClose t = {[ 0%nat ]} /\
    (exists e, getConn_begin ∅ "g" "g" t = GetErr e).
Proof.
  eexists. split; [reflexivity|]. split; [vm_compute; reflexivity|].
  refine (proj1 (proj2 (proj2 (tunnel_no_leak _ _) _)) ∅ "g" "g"); [|vm_compute; reflexivity].
  eapply rtc_l; [apply (lt_dial "g")|].
  eapply rtc_l; [apply (lt_register 0 "g"); vm_compute; reflexivity|].
  eapply rtc_l; [apply (lt_terminate None)|]. apply rtc_refl.
Defined.

Lemma length_string_bytes s : len (string_bytes s) = strlen s.
Proof. unfold len, string_bytes, strlen. by rewrite length_map, length_chars. Qed.

(** The token an answer carries. *)
Definition answer_token (resp : authResponseIP) : string :=
  let token := TrimSpace (air_ConnectToken resp) in
  if is_empty token then TrimSpace (air_Token resp) else token.

Lemma markAuth_get authID token err m p ct :
  mgr_byID m !! authID = Some p -> mgr_objs m !! p = Some ct ->
  mgr_objs (markAuth authID token err m) !! p = Some (with_result token err ct).
Proof. intros Hid Hp. unfold markAuth. rewrite Hid, Hp. simpl. apply lookup_insert_eq. Qed.

Lemma close_after_mark authID token err m p ct :
  mgr_byID m !! authID = Some p -> mgr_objs m !! p = Some ct -> ct_closed ct = false ->
  exists m2, closeAuthCh p (markAuth authID token err m) = Some m2 /\
    mgr_objs m2 !! p = Some (with_closed (with_result token err ct)).
Proof.
  intros Hid Hp Ho. unfold closeAuthCh. rewrite (markAuth_get _ _ _ _ _ ct Hid Hp). simpl.
  rewrite Ho. eexists. split; [done|]. simpl. apply lookup_insert_eq.
Qed.

(** C8: authorisation of a flow, end to end. Let an answer name the identifier of a pending
    entry of a reachable table. If it reports success with a token of at most 255 bytes,
    then after [handleAuthResp] and the close of the channel every writer waiting on the
    entry proceeds, no health error is reported, and the frame it writes carries that token
    and exactly its packet. If it reports a failure, every writer gets that error, and the
    session is reported invalid exactly when the message contains "invalid sid". *)
Theorem authorised_write (range : gmap string nat -> list (string * nat))
    (range_perm : forall m, range m ≡ₚ map_to_list m)
    (unmarshal : list Z -> result error authResponseIP)
    (m : conntrackMgr) (Hr : ct_reachable range m) (payload : list Z)
    (resp : authResponseIP) (Hu : unmarshal payload = Ok resp)
    (p : nat) (Hid : mgr_byID m !! air_ConntrackHash resp = Some p)
    (Hh : air_ConntrackHash resp <> 0) :
  let '(m1, health) := handleAuthResp unmarshal 0 payload m in
  exists m2, closeAuthCh p m1 = Some m2 /\
  (air_Code resp = 0 -> answer_token resp <> ""%string -> strlen (answer_token resp) <= 255 ->
     health = None /\
     forall send pkt, len pkt < 65536 ->
       ensureAuth_begin p send m2 = Some (EnsureDone None, m2) /\
       exists frame, WritePacket_finish p None pkt m2 = Some (Ok frame) /\
         take (Z.to_nat (strlen (answer_token resp))) (drop 3 frame)
           = string_bytes (answer_token resp) /\
         parseDataPayload (drop 2 frame) = Ok [pkt]) /\
  (air_Code resp <> 0 ->
     exists e, health = Some e /\
       (reportHealthError health <> None <->
          Contains (ToLower (air_Message resp)) "invalid sid" = true) /\
       forall send, ensureAuth_begin p send m2 = Some (EnsureDone (Some e), m2)).
Proof.
  destruct (ct_reachable_inv range range_perm m Hr) as [Hm _].
  destruct (inv_byID m Hm _ _ Hid) as (ct & Hp & _ & Ho & _).
  unfold handleAuthResp. rewrite Hu. change (negb (bool_decide (0 = 0))) with false. cbn iota.
  rewrite (bool_decide_false (air_ConntrackHash resp = 0)) by done.
  fold (answer_token resp).
  set (err := match _ with Some _ => _ | None => _ end).
  destruct (close_after_mark (air_ConntrackHash resp) (answer_token resp) err m p ct)
    as (m2 & Hm2 & Hg); [done..|].
  exists m2. split; [exact Hm2|]. split.
  - intros Hcode Htok Hlen.
    assert (is_empty (answer_token resp) = false) as He by (by apply is_empty_false).
    assert (err = None) as Herr.
    { unfold err. rewrite Hcode. simpl. by rewrite He. }
    split; [done|]. intros send pkt Hpkt. unfold ensureAuth_begin. rewrite Hg. simpl.
    rewrite Herr in *. split; [done|].
    unfold WritePacket_finish. rewrite Hg. simpl. rewrite He.
    rewrite He, bool_decide_false by lia. eexists. split; [done|].
    unfold buildDataPayload. rewrite length_string_bytes.
    assert (u8 (strlen (answer_token resp)) = len (string_bytes (answer_token resp))) as Hu8.
    { rewrite length_string_bytes. apply u8_small. unfold strlen in *. lia. }
    rewrite Hu8. split.
    + match goal with |- context [drop 3 (?a ++ ?b ++ ?y)] =>
        change (drop 3 (a ++ b ++ y)) with y end.
      rewrite <-length_string_bytes, length_len. apply take_app_length.
    + rewrite <-(app_nil_r (drop 2 _)).
      apply (parseDataPayload_body _ [0; 0] [pkt]); [done|].
      apply List.Forall_cons; [exact Hpkt|apply List.Forall_nil].
  - intros Hcode. unfold err. rewrite bool_decide_false by done. cbn [negb].
    eexists. split; [done|]. split.
    + unfold reportHealthError, classifyL3SessionError.
      destruct (Contains _ _); simpl; [|done]. split; [done|by intros _].
    + intros send. unfold ensureAuth_begin. rewrite Hg. simpl.
      unfold err. rewrite bool_decide_false by done. done.
Qed.

Definition sample_answer : authResponseIP :=
  {| air_Code := 0; air_Message := ""; air_ConntrackHash := 1; air_ConnectToken := " tok ";
     air_Token := "" |}.

Lemma authorised_write_witness :
  exists m2,
    closeAuthCh 0 (markAuth 1 "tok" None
      (getOrCreate map_to_list 5 "k" "app" "g" newConntrackMgr).2) = Some m2 /\
    exists frame, WritePacket_finish 0 None [1; 2; 3] m2 = Some (Ok frame) /\
      parseDataPayload (drop 2 frame) = Ok [[1; 2; 3]].
Proof.
  pose proof (authorised_write map_to_list (fun m => reflexivity _) (fun _ => Ok sample_answer)
    (getOrCreate map_to_list 5 "k" "app" "g" newConntrackMgr).2) as H.
  destruct (H (rtc_l _ _ _ _ (step_get map_to_list 5 "k" "app" "g" newConntrackMgr eq_refl)
                 (rtc_refl _ _)) [] sample_answer eq_refl 0%nat)
    as (m2 & Hm2 & Hok & _); [vm_compute; reflexivity|discriminate|].
  exists m2. split; [exact Hm2|].
  destruct Hok as [_ Hok]; [reflexivity|vm_compute; discriminate|vm_compute; discriminate|].
  destruct (Hok None [1; 2; 3]) as [_ (frame & Hf & _ & Hp)]; [vm_compute; reflexivity|].
  exists frame. split; assumption.
Defined.

(** The calls that [writePacket] makes, recorded next to the state of the tunnel. *)
Inductive write_event : Type :=
| EvWrite (p : nat) (timed_out : bool)
| EvEvict (p : nat) (evicted : bool)
| EvClose (p : nat).

Section Recorded.
Context {S : Type}.
Variable getConn : string -> S -> result error nat * S.
Variable write : nat -> string -> string -> list Z -> S -> option error * S.
Variable evict : string -> nat -> S -> bool * S.
Variable close : nat -> S -> S.

Definition rec_getConn (g : string) (s : S * list write_event) :=
  let '(r, t) := getConn g s.1 in (r, (t, s.2)).
Definition rec_write (p : nat) (app g : string) (pkt : list Z) (s : S * list write_event) :=
  let '(e, t) := write p app g pkt s.1 in (e, (t, s.2 ++ [EvWrite p (isAuthTimeoutErr e)])).
Definition rec_evict (g : string) (p : nat) (s : S * list write_event) :=
  let '(b, t) := evict g p s.1 in (b, (t, s.2 ++ [EvEvict p b])).
Definition rec_close (p : nat) (s : S * list write_event) :=
  (close p s.1, s.2 ++ [EvClose p]).

Definition recorded_writePacket (pkt : list Z) (app g : string) (s : S) :=
  writePacket rec_getConn rec_write rec_evict rec_close pkt app g (s, []).
End Recorded.

(** A connection on which a write timed out is evicted, and closed if this goroutine was
    the one to evict it. *)
Definition recovery (p : nat) (b : bool) : list write_event :=
  EvWrite p true :: EvEvict p b :: (if b then [EvClose p] else []).

(** [writePacket] retries an authorisation time-out exactly once. Whatever the tunnel
    does, its calls are one of: no write (no connection); one write without time-out, whose
    outcome is returned; a timed-out write that is followed by an eviction (and a close when
    the eviction was ours), then no second connection; or the same followed by a second
    write whose outcome is returned, unless it times out too: then that connection is
    evicted as well and the packet is dropped without an error. *)
Theorem writePacket_retries_once {S : Type}
    (getConn : string -> S -> result error nat * S)
    (write : nat -> string -> string -> list Z -> S -> option error * S)
    (evict : string -> nat -> S -> bool * S) (close : nat -> S -> S)
    (pkt : list Z) (app g : string) (s : S) :
  let '(err, (_, calls)) := recorded_writePacket getConn write evict close pkt app g s in
  (calls = [] /\ err <> None) \/
  (exists p, calls = [EvWrite p false] /\ isAuthTimeoutErr err = false) \/
  (exists p b, calls = recovery p b /\ err <> None) \/
  (exists p b q, calls = recovery p b ++ [EvWrite q false] /\ isAuthTimeoutErr err = false) \/
  (exists p b q c, calls = recovery p b ++ recovery q c /\ err = None).
Proof.
  unfold recorded_writePacket, writePacket, evict_and_close, rec_getConn, rec_write,
    rec_evict, rec_close, recovery. cbn.
  destruct (getConn g s) as [[p|e] s1]; cbn; [|by left].
  destruct (write p app g pkt s1) as [e1 s2]. cbn.
  destruct (isAuthTimeoutErr e1) eqn:E1; cbn; [|right; left; by exists p].
  destruct (evict g p s2) as [b s3]. cbn.
  destruct b; cbn.
  - destruct (getConn g (close p s3)) as [[q|e] s4]; cbn; [|right; right; left; by exists p, true].
    destruct (write q app g pkt s4) as [e2 s5]. cbn.
    destruct (isAuthTimeoutErr e2) eqn:E2; cbn; [|do 3 right; left; by exists p, true, q].
    destruct (evict g q s5) as [c s6]. destruct c; cbn; do 4 right; [by exists p, true, q, true|by exists p, true, q, false].
  - destruct (getConn g s3) as [[q|e] s4]; cbn; [|right; right; left; by exists p, false].
    destruct (write q app g pkt s4) as [e2 s5]. cbn.
    destruct (isAuthTimeoutErr e2) eqn:E2; cbn; [|do 3 right; left; by exists p, false, q].
    destruct (evict g q s5) as [c s6]. destruct c; cbn; do 4 right; [by exists p, false, q, true|by exists p, false, q, false].
Qed.
