(* ===== verification/TCPTunnel.v ===== *)
(** The TCP tunnel of the aTrust client (client/atrust/tcptunnel.go): the set-up answers,
    the framed stream and the choice of the resource a connection is made under. The
    connection is the list of bytes the server has still to deliver. *)

From S2P Require Import Prelude Core GoNet Packet L3Codec.

(** ** Set-up *)

Definition readTCPProtocolResponse (s : list Z) : result error (list Z * list Z) :=
  read_block s.

Definition bytes_string (l : list Z) : string :=
  of_chars (map (fun b => ascii_of_N (Z.to_N b)) l).

Definition validateTCPProtocolResponse (response : string) : option error :=
  if Contains response "OK" then None
  else if Contains response "invalid SID" then
    Some (wrapf "tcp tunnel authentication failed: invalid SID" ErrSessionInvalid)
  else Some (EText ("tcp tunnel setup failed: " +:+ response)).

Definition HEX2 (b : Z) : string := ToUpper (of_chars [hex_digit (b / 16); hex_digit (b mod 16)]).

Definition readTCPConnectStatus (s : list Z) : result error (Z * list Z) :=
  let? (header, s) := ReadFull 4 s in
  let h i := nth i header 0 in
  if negb (bool_decide (h 0%nat = 5)) then
    Err (EText ("unexpected tcp tunnel connect status: " +:+ HEX2 (h 0%nat) +:+ " "
                +:+ HEX2 (h 1%nat)))
  else if negb (bool_decide (h 1%nat = 0)) then Ok (h 1%nat, s)
  else
    let? (addressLength, s) :=
      if bool_decide (h 3%nat = 1) then Ok (4%nat, s)
      else if bool_decide (h 3%nat = 3) then
        let? (l, s) := ReadFull 1 s in Ok (Z.to_nat (hd 0 l), s)
      else if bool_decide (h 3%nat = 4) then Ok (16%nat, s)
      else Err (EText ("unexpected tcp tunnel address type: 0x" +:+ HEX2 (h 3%nat))) in
    let? (_, s) := ReadFull (addressLength + 2) s in
    Ok (h 1%nat, s).

(** The final [switch] of [waitForTCPConnect]. *)
Definition connect_status_error (status : Z) : option error :=
  match status with
  | 0 => None
  | 1 => Some (EText "tcp tunnel server failure")
  | 2 => Some (EText "tcp tunnel connection not allowed")
  | 3 => Some ErrNetworkUnreachable
  | 4 => Some ErrHostUnreachable
  | 5 => Some ErrConnectionRefused
  | 6 => Some (EText "tcp tunnel TTL expired")
  | 7 => Some (EText "tcp tunnel command not supported")
  | 8 => Some (EText "tcp tunnel address type not supported")
  | _ => Some (EText ("tcp tunnel connect failed with status 0x" +:+ HEX2 status))
  end.

(** The header loop: [None] is out of fuel; each turn reads two bytes. *)
Fixpoint wait_protocol (fuel : nat) (s : list Z) : option (result error (list Z)) :=
  match fuel with
  | O => None
  | S fuel =>
      match ReadFull 2 s with
      | Err e => Some (Err (wrapf "failed to read tcp tunnel response" e))
      | Ok (header, s) =>
          let h0 := nth 0 header 0 in
          let h1 := nth 1 header 0 in
          if bool_decide (h0 = 5) && bool_decide (h1 = 129) then wait_protocol fuel s
          else if negb (bool_decide (h0 = 83)) || negb (bool_decide (h1 = 0)) then
            Some (Err (EText ("unexpected tcp tunnel response: " +:+ HEX2 h0 +:+ " "
                              +:+ HEX2 h1)))
          else match readTCPProtocolResponse s with
          | Err e => Some (Err (wrapf "failed to read tcp tunnel protocol response" e))
          | Ok (response, s) =>
              match validateTCPProtocolResponse (bytes_string response) with
              | Some e => Some (Err e)
              | None => Some (Ok s)
              end
          end
      end
  end.

Definition waitForTCPConnect (fuel : nat) (s : list Z) : option (result error (list Z)) :=
  r ← wait_protocol fuel s;
  Some (let? s := r in
        match readTCPConnectStatus s with
        | Err e => Err (wrapf "failed to read tcp tunnel connect status" e)
        | Ok (status, s) => guard? connect_status_error status in Ok s
        end).

(** ** The framed stream *)

(** [tcpTunnelConn]: the buffered tail of a frame, the stream, and whether [Read] closed it. *)
Record tcpTunnelConn : Type := {
  tc_readBuf : list Z;
  tc_stream : list Z;
  tc_closed : bool;
  tc_health : option error;
}.

Definition tc_set (buf s : list Z) (c : tcpTunnelConn) : tcpTunnelConn :=
  {| tc_readBuf := buf; tc_stream := s; tc_closed := tc_closed c; tc_health := tc_health c |}.

Definition tc_shut (s : list Z) (health : option error) (c : tcpTunnelConn) : tcpTunnelConn :=
  {| tc_readBuf := tc_readBuf c; tc_stream := s; tc_closed := true;
     tc_health := match tc_health c with Some e => Some e | None => health end |}.

(** The frame loop of [Read(b)] with [n = len(b)]: the bytes copied into [b]. *)
Fixpoint tcp_read_frames (fuel n : nat) (s : list Z) (c : tcpTunnelConn)
    : option (result error (list Z) * tcpTunnelConn) :=
  match fuel with
  | O => None
  | S fuel =>
      match ReadFull 2 s with
      | Err e => Some (Err e, tc_set [] [] c)
      | Ok (header, s) =>
          let h0 := nth 0 header 0 in
          let h1 := nth 1 header 0 in
          if bool_decide (h0 = 1) && bool_decide (h1 = 0) then
            match read_block s with
            | Err e => Some (Err e, tc_set [] [] c)
            | Ok (data, s) => Some (Ok (take n data), tc_set (drop n data) s c)
            end
          else if bool_decide (h0 = 1) && bool_decide (h1 = 1) then
            match ReadFull 2 s with
            | Err e => Some (Err e, tc_set [] [] c)
            | Ok (h, s) =>
                if bool_decide (nth 0 h 0 = 48) && bool_decide (nth 1 h 0 = 48)
                then Some (Err (EText "connection closed by server"), tc_shut s None c)
                else tcp_read_frames fuel n s c
            end
          else if bool_decide (h0 = 83) && bool_decide (h1 = 0) then
            match read_block s with
            | Err e => Some (Err e, tc_set [] [] c)
            | Ok (data, s) =>
                match validateTCPProtocolResponse (bytes_string data) with
                | Some e =>
                    Some (Err e, tc_shut s (if errors_Is e "client.ErrSessionInvalid"
                                            then Some e else None) c)
                | None => tcp_read_frames fuel n s c
                end
            end
          else tcp_read_frames fuel n s c
      end
  end.

(** [Read]; two bytes at least leave the stream in each turn, so its length bounds them. *)
Definition tcp_Read (n : nat) (c : tcpTunnelConn)
    : option (result error (list Z) * tcpTunnelConn) :=
  if bool_decide (0 < length (tc_readBuf c))%nat then
    Some (Ok (take n (tc_readBuf c)), tc_set (drop n (tc_readBuf c)) (tc_stream c) c)
  else tcp_read_frames (S (length (tc_stream c))) n (tc_stream c) c.

(** [Write]: the frame, [None] when the data is refused. *)
Definition tcp_Write (b : list Z) : option (list Z) :=
  if bool_decide (len b > 65535) then None
  else Some ([1; 0] ++ put_be16 (len b) ++ b).

Definition tcp_close_message : list Z := [1; 1; 0; 0].

(** ** The resource of a connection *)

(** [tcpResourceFor]: [domain] is the resource and host that the resolver put into the
    context; otherwise the loop keeps the last resource that admits the address. *)
Definition tcp_resource_admits (ip : IP) (port : Z) (r : IPResource) : bool :=
  match To4 (IPMin r), To4 (IPMax r) with
  | Some ipMin, Some ipMax =>
      bool_decide (Compare ip ipMin >= 0) && bool_decide (Compare ip ipMax <= 0)
      && (bool_decide (PortMin r <= port) && bool_decide (port <= PortMax r))
      && (bool_decide (ResProtocol r = "tcp"%string) || bool_decide (ResProtocol r = "all"%string))
  | _, _ => false
  end.

Definition tcpResourceFor (domain : option (string * string * string))
    (resources : list IPResource) (addr : IP) (port : Z) : string * string * string :=
  match domain with
  | Some r => r
  | None =>
      match To4 addr with
      | None => ("", "", "")%string
      | Some ip =>
          foldl (fun acc r => if tcp_resource_admits ip port r
                              then (AppID r, NodeGroupID r, ""%string) else acc)
            ("", "", "")%string resources
      end
  end.

(** The node a connection is made through. *)
Definition dial_node (bestNodes : gmap string string) (major group : string)
    : result error string :=
  let nodeAddr := default ""%string (bestNodes !! group) in
  let nodeAddr := if is_empty nodeAddr then default ""%string (bestNodes !! major)
                  else nodeAddr in
  if is_empty nodeAddr
  then Err (EText ("no available aTrust node for group " +:+ quote group))
  else Ok nodeAddr.

(** The destination part of the request of [DialTCP]. *)
Definition dest_message (domain : string) (destIP : IP) (port : Z) : result error (list Z) :=
  if is_empty domain then Ok ([5; 1; 1; 1] ++ destIP ++ put_be16 port)
  else if bool_decide (strlen domain > 255) then
    Err (EText ("domain name too long: " +:+ domain))
  else Ok ([5; 1; 1; 3] ++ [u8 (strlen domain)] ++ string_bytes domain ++ put_be16 port).

(** ** Theorems *)

Definition chunk_frames (chunks : list (list Z)) : list Z :=
  concat (map (fun b => [1; 0] ++ put_be16 (len b) ++ b) chunks).

(** Successive reads with buffers of the given sizes: their outputs, until one fails. *)
Fixpoint tcp_reads (sizes : list nat) (c : tcpTunnelConn)
    : option (list (list Z) * tcpTunnelConn) :=
  match sizes with
  | [] => Some ([], c)
  | n :: sizes =>
      match tcp_Read n c with
      | Some (Ok out, c) =>
          '(outs, c) ← tcp_reads sizes c; Some (out :: outs, c)
      | _ => None
      end
  end.

Lemma tcp_Read_chunk n c chunk chunks :
  tc_readBuf c = [] -> tc_stream c = chunk_frames (chunk :: chunks) -> packet_ok chunk ->
  tcp_Read n c = Some (Ok (take n chunk), tc_set (drop n chunk) (chunk_frames chunks) c).
Proof.
  intros Hb Hs Hc. unfold tcp_Read. rewrite Hb. cbn [length]. rewrite bool_decide_false by lia.
  rewrite Hs. generalize (length (chunk_frames (chunk :: chunks))) as fuel. intros fuel.
  unfold chunk_frames. cbn [map concat tcp_read_frames]. rewrite <-!app_assoc.
  rewrite (ReadFull_app [1; 0]). cbn [nth].
  change (bool_decide (1 = 1) && bool_decide (0 = 0)) with true. cbn iota.
  by rewrite read_block_put.
Qed.

(** The bytes still to be delivered, and the reads that are sure to deliver them. *)
Definition pending_bytes (buf : list Z) (chunks : list (list Z)) : list Z := buf ++ concat chunks.

Definition reads_left (buf : list Z) (chunks : list (list Z)) : nat :=
  length buf + sum_list_with (fun c => S (length c)) chunks.

Lemma tcp_Read_step n c buf chunks :
  tc_readBuf c = buf -> tc_stream c = chunk_frames chunks -> Forall packet_ok chunks ->
  buf <> [] \/ chunks <> [] ->
  exists out buf' chunks',
    tcp_Read n c = Some (Ok out, tc_set buf' (chunk_frames chunks') c) /\
    Forall packet_ok chunks' /\ (length out <= n)%nat /\
    out ++ pending_bytes buf' chunks' = pending_bytes buf chunks /\
    ((0 < n)%nat -> (reads_left buf' chunks' < reads_left buf chunks)%nat).
Proof.
  intros Hb Hs Hp Hne. unfold pending_bytes, reads_left. destruct buf as [|x buf].
  - destruct chunks as [|chunk chunks]; [by destruct Hne|].
    apply Forall_cons in Hp as [Hc Hp].
    exists (take n chunk), (drop n chunk), chunks. rewrite (tcp_Read_chunk n c chunk chunks) by done.
    split_and!; [done|done|rewrite length_take; lia| |].
    + rewrite app_assoc, take_drop. done.
    + intros Hn. simpl. rewrite length_drop. lia.
  - exists (take n (x :: buf)), (drop n (x :: buf)), chunks. split_and!.
    + unfold tcp_Read. rewrite Hb, Hs. by rewrite bool_decide_true by (simpl; lia).
    + done.
    + rewrite length_take. lia.
    + by rewrite app_assoc, take_drop.
    + intros Hn. rewrite length_drop. simpl. lia.
Qed.

Lemma reads_left_nil buf chunks : reads_left buf chunks = 0%nat -> buf = [] /\ chunks = [].
Proof. unfold reads_left. destruct buf, chunks; simpl; [done|lia..]. Qed.

Lemma tcp_Read_end n c :
  tc_readBuf c = [] -> tc_stream c = [] -> tcp_Read n c = Some (Err io_EOF, tc_set [] [] c).
Proof. intros Hb Hs. unfold tcp_Read. rewrite Hb, Hs. done. Qed.

(** Reads with any buffers, from any point of the stream. *)
Lemma tcp_reads_deliver sizes chunks buf c :
  Forall packet_ok chunks -> tc_readBuf c = buf -> tc_stream c = chunk_frames chunks ->
  exists k outs c' rest,
    (k <= length sizes)%nat /\ tcp_reads (take k sizes) c = Some (outs, c') /\
    Forall2 (fun n out => (length out <= n)%nat) (take k sizes) outs /\
    tc_stream c' = chunk_frames rest /\
    concat outs ++ pending_bytes (tc_readBuf c') rest = pending_bytes buf chunks /\
    ((k < length sizes)%nat -> tc_readBuf c' = [] /\ rest = []) /\
    (Forall (fun n => (0 < n)%nat) sizes -> k = length sizes ->
     (length sizes + reads_left (tc_readBuf c') rest <= reads_left buf chunks)%nat).
Proof.
  revert chunks buf c. induction sizes as [|n sizes IH]; intros chunks buf c Hc Hb Hs.
  { exists 0%nat, [], c, chunks. rewrite Hb. split_and!; try done; simpl; lia. }
  destruct (decide (buf <> [] \/ chunks <> [])) as [Hne|Hne].
  - destruct (tcp_Read_step n c buf chunks Hb Hs Hc Hne)
      as (out & buf' & chunks' & Heq & Hc' & Hlen & Hbytes & Hleft).
    destruct (IH chunks' buf' (tc_set buf' (chunk_frames chunks') c) Hc' eq_refl eq_refl)
      as (k & outs & c' & rest & Hk & Hr & Hf & Hst & Hcat & Hend & Hbound).
    exists (S k), (out :: outs), c', rest. cbn [take tcp_reads concat length]. rewrite Heq, Hr.
    split_and!; try done; [lia|by constructor|by rewrite <-app_assoc, Hcat|intros ?; apply Hend; lia|].
    intros [Hn Hns]%Forall_cons [= ->]. specialize (Hbound Hns eq_refl). specialize (Hleft Hn). lia.
  - assert (buf = [] /\ chunks = []) as [-> ->].
    { destruct buf; [|exfalso; apply Hne; by left].
      destruct chunks; [done|exfalso; apply Hne; by right]. }
    exists 0%nat, [], c, []. rewrite Hb. split_and!; try done; simpl; lia.
Qed.

(** C10: the TCP tunnel is a faithful byte stream. Frames built by [Write] (each at most
    65535 bytes) are delivered by [Read] completely, in order and without duplication,
    whatever buffer sizes the reader uses: no read of such a stream fails before its end, no
    read exceeds its buffer, and at every moment the bytes read, the buffered tail and the
    frames not yet read are the bytes that were written. When a read fails all bytes have been
    delivered, and it fails with [io.EOF]; with non-empty buffers the whole stream is delivered
    after one read per byte plus one per frame at the latest. *)
Theorem tcp_stream_faithful (chunks : list (list Z)) (Hc : Forall packet_ok chunks) :
  Forall (fun b => tcp_Write b = Some ([1; 0] ++ put_be16 (len b) ++ b)) chunks /\
  forall sizes c, tc_readBuf c = [] -> tc_stream c = chunk_frames chunks ->
    exists k outs c' rest,
      (k <= length sizes)%nat /\ tcp_reads (take k sizes) c = Some (outs, c') /\
      Forall2 (fun n out => (length out <= n)%nat) (take k sizes) outs /\
      tc_stream c' = chunk_frames rest /\
      concat outs ++ tc_readBuf c' ++ concat rest = concat chunks /\
      ((k < length sizes)%nat -> concat outs = concat chunks /\
       forall n, exists c'', tcp_Read n c' = Some (Err io_EOF, c'')) /\
      (Forall (fun n => (0 < n)%nat) sizes -> (reads_left [] chunks <= length sizes)%nat ->
       concat outs = concat chunks).
Proof.
  split.
  { eapply Forall_impl; [exact Hc|]. intros b Hb. unfold tcp_Write, packet_ok in *.
    by rewrite bool_decide_false by lia. }
  intros sizes c Hb Hs.
  destruct (tcp_reads_deliver sizes chunks [] c Hc Hb Hs)
    as (k & outs & c' & rest & Hk & Hr & Hf & Hst & Hcat & Hend & Hbound).
  exists k, outs, c', rest.
  assert (tc_readBuf c' = [] /\ rest = [] -> concat outs = concat chunks) as Hall.
  { intros [H1 ->]. unfold pending_bytes in Hcat. rewrite H1 in Hcat. simpl in Hcat.
    by rewrite app_nil_r in Hcat. }
  split_and!; try done.
  - intros Hlt. destruct (Hend Hlt) as [H1 ->]. split; [by apply Hall|]. intros n.
    eexists. by apply tcp_Read_end.
  - intros Hpos Hlen. apply Hall. destruct (decide (k = length sizes)) as [E|E].
    + specialize (Hbound Hpos E). apply reads_left_nil. lia.
    + apply Hend. lia.
Qed.

Lemma tcp_stream_faithful_witness :
  Forall (fun b => tcp_Write b = Some ([1; 0] ++ put_be16 (len b) ++ b)) [[1; 2; 3]; [4]] /\
  exists outs, concat outs = [1; 2; 3; 4] /\ Forall (fun out => (length out <= 2)%nat) outs /\
    exists k c', tcp_reads (take k [2; 2; 2; 2; 2; 2]%nat)
      {| tc_readBuf := []; tc_stream := chunk_frames [[1; 2; 3]; [4]]; tc_closed := false;
         tc_health := None |} = Some (outs, c').
Proof.
  assert (Forall packet_ok [[1; 2; 3]; [4]]) as Hok.
  { apply List.Forall_cons; [vm_compute; reflexivity|].
    apply List.Forall_cons; [vm_compute; reflexivity|]. apply List.Forall_nil. }
  destruct (tcp_stream_faithful [[1; 2; 3]; [4]] Hok) as [Hw Hd]. split; [exact Hw|].
  destruct (Hd [2; 2; 2; 2; 2; 2]%nat {| tc_readBuf := [];
    tc_stream := chunk_frames [[1; 2; 3]; [4]]; tc_closed := false; tc_health := None |} eq_refl eq_refl)
    as (k & outs & c' & rest & _ & Hr & Hf & _ & _ & _ & Hall).
  exists outs. split_and!.
  - apply Hall; [repeat constructor|vm_compute; lia].
  - apply Forall_forall. intros out [i Hi]%list_elem_of_lookup.
    destruct (Forall2_lookup_r _ _ _ _ _ Hf Hi) as (n & Hn & Hle).
    assert (n = 2%nat) as ->; [|exact Hle].
    apply lookup_take_Some in Hn as [Hn _]. by do 6 (destruct i as [|i]; [by injection Hn as <-|]).
  - exists k, c'. exact Hr.
Defined.

Example tcp_stream_read :
  tcp_reads [2; 2; 2]%nat
    {| tc_readBuf := []; tc_stream := chunk_frames [[1; 2; 3]; [4]]; tc_closed := false;
       tc_health := None |} =
  Some ([[1; 2]; [3]; [4]],
        {| tc_readBuf := []; tc_stream := []; tc_closed := false; tc_health := None |}).
Proof. reflexivity. Qed.

Lemma wait_protocol_total fuel s :
  (length s < fuel)%nat -> exists r, wait_protocol fuel s = Some r.
Proof.
  revert s. induction fuel as [|fuel IH]; intros s Hl; [lia|]. cbn [wait_protocol].
  destruct (ReadFull 2 s) as [[header s1]|] eqn:E; [|by eexists].
  apply ReadFull_ok in E as [-> Lh]. rewrite length_app in Hl.
  destruct (_ && _); [apply IH; lia|]. destruct (_ || _); [by eexists|].
  destruct (readTCPProtocolResponse s1) as [[response s2]|]; [|by eexists].
  destruct (validateTCPProtocolResponse _); by eexists.
Qed.

Lemma wait_protocol_skip k fuel s :
  wait_protocol (k + fuel) (concat (replicate k [5; 129]) ++ s) = wait_protocol fuel s.
Proof.
  induction k as [|k IH]; [done|]. cbn [replicate concat].
  change (S k + fuel)%nat with (S (k + fuel)). cbn [wait_protocol]. rewrite <-app_assoc.
  rewrite (ReadFull_app [5; 129]). cbn [nth].
  change (bool_decide (5 = 5) && bool_decide (129 = 129)) with true. cbn iota. exact IH.
Qed.

Lemma wait_protocol_answer fuel response s :
  packet_ok response ->
  wait_protocol (S fuel) (protocol_frame response ++ s) =
    Some (guard? validateTCPProtocolResponse (bytes_string response) in Ok s).
Proof.
  intros Hr. cbn [wait_protocol]. unfold protocol_frame. rewrite <-!app_assoc.
  rewrite (ReadFull_app [83; 0]). cbn [nth].
  change (bool_decide (83 = 5) && bool_decide (0 = 129)) with false.
  change (negb (bool_decide (83 = 83)) || negb (bool_decide (0 = 0))) with false. cbn iota.
  unfold readTCPProtocolResponse. rewrite read_block_put by done.
  by destruct (validateTCPProtocolResponse _).
Qed.

(** A connect status as the server sends it, with the address block of its type. *)
Definition status_block (status atyp : Z) (addr : list Z) : list Z :=
  [5; status; 0; atyp]
  ++ (if bool_decide (status = 0)
      then (if bool_decide (atyp = 3) then [len addr - 2] else []) ++ addr else []).

Definition addr_block_ok (atyp : Z) (addr : list Z) : Prop :=
  (atyp = 1 /\ len addr = 6) \/ (atyp = 4 /\ len addr = 18) \/
  (atyp = 3 /\ 2 <= len addr < 258).

Lemma readTCPConnectStatus_block status atyp addr s :
  addr_block_ok atyp addr ->
  readTCPConnectStatus (status_block status atyp addr ++ s) = Ok (status, s).
Proof.
  intros Ha. unfold readTCPConnectStatus, status_block. rewrite <-app_assoc.
  rewrite (ReadFull_app [5; status; 0; atyp]). cbn [result_bind nth].
  change (negb (bool_decide (5 = 5))) with false. cbn iota.
  case_bool_decide as Hs; cbn [negb]; [subst status|done].
  destruct Ha as [[-> Hl]|[[-> Hl]|[-> Hl]]].
  - change (bool_decide (1 = 1)) with true. change (bool_decide (1 = 3)) with false.
    cbn [result_bind app]. replace (4 + 2)%nat with (length addr) by (unfold len in Hl; lia).
    rewrite ReadFull_app. done.
  - change (bool_decide (4 = 1)) with false. change (bool_decide (4 = 3)) with false.
    change (bool_decide (4 = 4)) with true. cbn [result_bind app].
    replace (16 + 2)%nat with (length addr) by (unfold len in Hl; lia).
    rewrite ReadFull_app. done.
  - change (bool_decide (3 = 1)) with false. change (bool_decide (3 = 3)) with true.
    rewrite <-app_assoc, (ReadFull_app [len addr - 2]). cbn [result_bind hd].
    replace (Z.to_nat (len addr - 2) + 2)%nat with (length addr) by (unfold len in *; lia).
    rewrite ReadFull_app. done.
Qed.

(** Waiting for the server's answer always terminates, and reports what the server
    said. After any number of method answers, a refusal of the protocol request is an error,
    and it is [ErrSessionInvalid] exactly when the text names an invalid SID; behind an "OK"
    the whole status block, whatever its address type, is consumed, a status of zero leaves
    exactly the application data in the stream, and every other status is an error, with
    codes 3, 4 and 5 mapped to the network, host and refusal errors. *)
Theorem waitForTCPConnect_spec (s : list Z) :
  (exists r, waitForTCPConnect (S (length s)) s = Some r) /\
  (forall k fuel response rest, packet_ok response ->
     Contains (bytes_string response) "OK" = false ->
     exists e, waitForTCPConnect (k + S fuel)
         (concat (replicate k [5; 129]) ++ protocol_frame response ++ rest) = Some (Err e) /\
       (errors_Is e "client.ErrSessionInvalid" = true <->
        Contains (bytes_string response) "invalid SID" = true)) /\
  (forall k fuel response status atyp addr, packet_ok response ->
     Contains (bytes_string response) "OK" = true -> addr_block_ok atyp addr ->
     waitForTCPConnect (k + S fuel)
         (concat (replicate k [5; 129]) ++ protocol_frame response
          ++ status_block status atyp addr ++ s) =
       Some (match connect_status_error status with Some e => Err e | None => Ok s end) /\
     (connect_status_error status = None <-> status = 0) /\
     (status = 3 -> connect_status_error status = Some ErrNetworkUnreachable) /\
     (status = 4 -> connect_status_error status = Some ErrHostUnreachable) /\
     (status = 5 -> connect_status_error status = Some ErrConnectionRefused)).
Proof.
  split_and!.
  - unfold waitForTCPConnect. destruct (wait_protocol_total (S (length s)) s) as [r ->]; [lia|].
    by eexists.
  - intros k fuel response rest Hr Hok. unfold waitForTCPConnect.
    rewrite wait_protocol_skip, wait_protocol_answer by done.
    unfold validateTCPProtocolResponse. rewrite Hok.
    destruct (Contains (bytes_string response) "invalid SID") eqn:E; simpl; by eexists.
  - intros k fuel response status atyp addr Hr Hok Ha. split_and!.
    + unfold waitForTCPConnect.
      rewrite wait_protocol_skip, wait_protocol_answer by done.
      unfold validateTCPProtocolResponse. rewrite Hok. cbn [mbind option_bind result_bind].
      rewrite readTCPConnectStatus_block by done. cbn. done.
    + split; [|by intros ->]. unfold connect_status_error. by repeat case_match.
    + by intros ->.
    + by intros ->.
    + by intros ->.
Qed.

Lemma foldl_last_match {A B} (f : A -> bool) (g : A -> B) l acc :
  (foldl (fun acc r => if f r then g r else acc) acc l = acc /\
     Forall (fun r => f r = false) l) \/
  exists pre r post, l = pre ++ r :: post /\ f r = true /\
    Forall (fun r' => f r' = false) post /\
    foldl (fun acc r => if f r then g r else acc) acc l = g r.
Proof.
  revert acc. induction l as [|x l IH]; intros acc; simpl; [by left|].
  destruct (IH (if f x then g x else acc)) as [[Heq Hall]|(pre & r & post & -> & Hr & Hp & Heq)].
  - destruct (f x) eqn:Hx.
    + right. exists [], x, l. split_and!; done.
    + left. split; [done|by constructor].
  - right. exists (x :: pre), r, post. done.
Qed.

(** A TCP connection to an IPv4 address that carries no domain resource is made under
    the last resource, in list order, whose range, port and protocol admit it, and under no
    resource when none does. (A packet of the layer-3 tunnel to the same address is sent
    under the first such resource.) *)
Theorem tcpResourceFor_last_match (rs : list IPResource) (a b c d port : Z) :
  let admits := tcp_resource_admits [a; b; c; d] port in
  (Forall (fun r => admits r = false) rs /\
     tcpResourceFor None rs (IPv4 a b c d) port = ("", "", "")%string) \/
  exists pre r post, rs = pre ++ r :: post /\ admits r = true /\
    Forall (fun r' => admits r' = false) post /\
    tcpResourceFor None rs (IPv4 a b c d) port = (AppID r, NodeGroupID r, ""%string).
Proof.
  intros admits. unfold tcpResourceFor. rewrite To4_IPv4.
  destruct (foldl_last_match admits (fun r => (AppID r, NodeGroupID r, ""%string)) rs
              ("", "", "")%string) as [[H1 H2]|(pre & r & post & H1 & H2 & H3 & H4)].
  - left. done.
  - right. exists pre, r, post. done.
Qed.
