(* ===== verification/L3Link.v ===== *)
(** One connection of the layer-3 tunnel (client/atrust/l3tunnelconn.go): its set-up with the
    tunnel's authentication and the virtual addresses, and the loop that reads the server's
    frames; and the request for the client's address (client/atrust/ip.go). A connection is
    the list of bytes that the server has still to send; JSON is decoded by parameters. *)

From S2P Require Import Prelude Core GoNet Packet Conntrack L3Codec L3Tunnel TCPTunnel.

(** ** Tunnel authentication *)

(** [authResponseSID], the fields that are read. *)
Record authResponseSID : Type := { ars_Code : Z; ars_Message : string }.

(** [hex.DecodeString]. *)
Fixpoint hex_decode (l : list ascii) : result error (list Z) :=
  match l with
  | [] => Ok []
  | [c] => Err (match hex_of c with
                | Some _ => EText "encoding/hex: odd length hex string"
                | None => EText "encoding/hex: invalid byte"
                end)
  | a :: b :: rest =>
      match hex_of a, hex_of b with
      | Some x, Some y => let? more := hex_decode rest in Ok (16 * x + y :: more)
      | _, _ => Err (EText "encoding/hex: invalid byte")
      end
  end.

(** JSON values, as far as [visitJSONValues] tells them apart. *)
Inductive JSON : Type :=
| JSONString (s : string)
| JSONArray (items : list JSON)
| JSONObject (fields : list (string * JSON))
| JSONOther.

(** The strings that [visitJSONValues] visits; the fields of an object come in the order in
    which the program ranges over them. *)
Fixpoint visitJSONValues (v : JSON) : list string :=
  match v with
  | JSONString s => [s]
  | JSONArray items => flat_map visitJSONValues items
  | JSONObject fields => flat_map (fun '(_, item) => visitJSONValues item) fields
  | JSONOther => []
  end.

Section Link.
Context (unmarshalSID : list Z -> result error authResponseSID).
Context (unmarshal : list Z -> result error authResponseIP).
Context (unmarshalAny : list Z -> result error JSON).

Definition extractVIPs (payload : list Z) : list IP :=
  match unmarshalAny payload with
  | Err _ => []
  | Ok v => omap ParseIP (visitJSONValues v)
  end.

(** The answer to the tunnel's authentication: its status, its payload and what it decodes to. *)
Definition read_auth_answer (s : list Z) : result error (Z * list Z * authResponseSID * list Z) :=
  let? (method, s) := ReadFull 2 s in
  if negb (bool_decide (nth 0 method 0 = l3Version)) || negb (bool_decide (nth 1 method 0 = 208)) then
    Err (EText ("l3-tunnel unexpected auth method resp: " +:+ hex2 (nth 0 method 0) +:+ " "
                +:+ hex2 (nth 1 method 0)))
  else
  let? (header, s) := ReadFull 4 s in
  if negb (bool_decide (nth 0 header 0 = 83)) then
    Err (EText ("l3-tunnel unexpected auth resp version: " +:+ hex2 (nth 0 header 0)))
  else
  let? (payload, s) := ReadFull (Z.to_nat (be16 (nth 2 header 0) (nth 3 header 0))) s in
  let? resp := (if is_nil payload then Ok {| ars_Code := 0; ars_Message := "" |}
                else unmarshalSID payload) in
  Ok (nth 1 header 0, payload, resp, s).

(** The verdict of an answer. *)
Definition auth_verdict (status : Z) (payload : list Z) (resp : authResponseSID) : option error :=
  if negb (bool_decide (status = 0)) then
    Some (classifyL3SessionError (EText ("l3-tunnel tunnel auth status " +:+ itoa status))
            (ars_Message resp))
  else if negb (is_nil payload) && negb (bool_decide (ars_Code resp = 0)) then
    Some (classifyL3SessionError
            (EText ("l3-tunnel tunnel auth failed: " +:+ itoa (ars_Code resp) +:+ " " +:+ ars_Message resp))
            (ars_Message resp))
  else None.

(** The virtual addresses behind the answer; a block of another version is not read further. *)
Definition read_vips (s : list Z) : result error (list IP * list Z) :=
  let? (vipHeader, s) := ReadFull 4 s in
  if negb (bool_decide (nth 0 vipHeader 0 = l3Version)) then Ok ([], s)
  else
  let? (vipData, s) := ReadFull (vipPayloadLength (nth 3 vipHeader 0)) s in
  Ok (parseVirtualIPData vipData, s).

(** [authTunnel] after the request was written: its error with the error given to
    [onHealthError], or the addresses given to [onVIP] and the rest of the stream. *)
Definition authTunnel (writeErr : option error) (s : list Z)
    : result (error * option error) (list IP * list Z) :=
  match writeErr with
  | Some e => Err (e, None)
  | None =>
      match read_auth_answer s with
      | Err e => Err (e, None)
      | Ok (status, payload, resp, s) =>
          match auth_verdict status payload resp with
          | Some e => Err (e, reportHealthError (Some e))
          | None => match read_vips s with
                    | Err e => Err (e, None)
                    | Ok r => Ok r
                    end
          end
      end
  end.

(** The request of [authTunnel]. *)
Definition authTunnel_request (marshalSID : string -> list Z) (sid : string) : list Z :=
  wrapAuthReqData (marshalSID sid) 1.

(** What [newL3TunnelConn] does to the TLS connection. *)
Inductive tls_effect : Type := TLSOpened | TLSClosed.

(** [newL3TunnelConn]: [dial] is the TLS connection that is made, or the error. *)
Definition newL3TunnelConn (dial : result error (list Z)) (writeErr : option error)
    (signKeyHex : string) : result (error * option error) (list IP * list Z) * list tls_effect :=
  match dial with
  | Err e => (Err (e, None), [])
  | Ok s =>
      match hex_decode (chars signKeyHex) with
      | Err e => (Err (EWrap ("invalid sign key: " +:+ error_text e) e, None), [TLSOpened; TLSClosed])
      | Ok _ =>
          match authTunnel writeErr s with
          | Err e => (Err e, [TLSOpened; TLSClosed])
          | Ok r => (Ok r, [TLSOpened])
          end
      end
  end.

(** ** The read loop *)

Record LinkState : Type := {
  lk_mgr : conntrackMgr;
  lk_life : l3Life;
  lk_incoming : list (list Z);
  lk_vips : list (list IP);
  lk_health : list error;
}.

Definition set_lk_mgr (m : conntrackMgr) (st : LinkState) : LinkState :=
  {| lk_mgr := m; lk_life := lk_life st; lk_incoming := lk_incoming st; lk_vips := lk_vips st;
     lk_health := lk_health st |}.
Definition set_lk_life (l : l3Life) (st : LinkState) : LinkState :=
  {| lk_mgr := lk_mgr st; lk_life := l; lk_incoming := lk_incoming st; lk_vips := lk_vips st;
     lk_health := lk_health st |}.
(** [c.incoming <- pkt]. *)
Definition deliver_packet (pkt : list Z) (st : LinkState) : LinkState :=
  {| lk_mgr := lk_mgr st; lk_life := lk_life st; lk_incoming := lk_incoming st ++ [pkt];
     lk_vips := lk_vips st; lk_health := lk_health st |}.

(** The [select] between [c.incoming <- pkt] and [<-c.closeCh]: [closing] has, for the packets
    of a frame in their order, the life of the connection when another goroutine has closed it
    and this case is taken; the packet is then dropped. The first component tells whether
    [readLoop] returns. *)
Definition deliver_single (closing : nat -> option l3Life) (pkt : list Z) (st : LinkState)
    : bool * LinkState :=
  match closing 0%nat with
  | None => (false, deliver_packet pkt st)
  | Some life => (false, set_lk_life life st)
  end.

Fixpoint deliver_packets (closing : nat -> option l3Life) (i : nat) (packets : list (list Z))
    (st : LinkState) : bool * LinkState :=
  match packets with
  | [] => (false, st)
  | pkt :: rest =>
      match closing i with
      | None => deliver_packets closing (S i) rest (deliver_packet pkt st)
      | Some life => (true, set_lk_life life st)
      end
  end.
Definition report_health (err : option error) (st : LinkState) : LinkState :=
  {| lk_mgr := lk_mgr st; lk_life := lk_life st; lk_incoming := lk_incoming st; lk_vips := lk_vips st;
     lk_health := lk_health st ++ match reportHealthError err with Some e => [e] | None => [] end |}.

Definition handleSecondVipResp (status : Z) (payload : list Z) (st : LinkState) : LinkState :=
  let ips := extractVIPs payload in
  if negb (bool_decide (status = 0)) || is_nil ips then st
  else {| lk_mgr := lk_mgr st; lk_life := lk_life st; lk_incoming := lk_incoming st;
          lk_vips := lk_vips st ++ [ips]; lk_health := lk_health st |}.

Definition link_auth (status : Z) (payload : list Z) (st : LinkState) : LinkState :=
  let '(m, err) := handleAuthResp unmarshal status payload (lk_mgr st) in
  report_health err (set_lk_mgr m st).

(** The body of the loop behind [readFrame]; a packet that comes alone is dropped without
    leaving the loop. *)
Definition handle_frame (now : Z) (closing : nat -> option l3Life) (fr : frame) (st : LinkState)
    : bool * LinkState :=
  if bool_decide (fr_cmd fr = cmdDataResp) then
    if bool_decide (fr_dataMode fr = "len"%string) then deliver_single closing (fr_payload fr) st
    else match parseDataPayload (fr_payload fr) with
         | Err _ => (false, st)
         | Ok packets => deliver_packets closing 0 packets st
         end
  else if bool_decide (fr_cmd fr = cmdAuthResp) then
    (false, link_auth (fr_status fr) (fr_payload fr) st)
  else if bool_decide (fr_cmd fr = cmdSecondVipResp) then
    (false, handleSecondVipResp (fr_status fr) (fr_payload fr) st)
  else if bool_decide (fr_cmd fr = cmdHeartbeatResp) then
    (false, set_lk_life (heartbeat_received now (lk_life st)) st)
  else (false, st).

(** [readLoop] until it returns; [clock] is the time, and [closing] what the selects find, when
    so many bytes are left. *)
Fixpoint readLoop (fuel : nat) (clock : nat -> Z) (closing : nat -> nat -> option l3Life)
    (tlsErr : option error) (s : list Z) (st : LinkState) : option LinkState :=
  match fuel with
  | O => None
  | S fuel =>
      match readFrame (S (length s)) s with
      | None => None
      | Some (Err e) => Some (set_lk_life (l3_fail tlsErr (Some e) (lk_life st)) st)
      | Some (Ok (fr, rest)) =>
          match handle_frame (clock (length rest)) (closing (length rest)) fr st with
          | (true, st) => Some st
          | (false, st) => readLoop fuel clock closing tlsErr rest st
          end
      end
  end.
End Link.

(** ** The client's address (ip.go) *)

(** The JSON text of the session identifier, by a format string. *)
Definition sid_json (sid : string) : string :=
  let q := String dquote EmptyString in
  "{" +:+ q +:+ "sid" +:+ q +:+ ":" +:+ q +:+ sid +:+ q +:+ "}".

Definition getIP_request (sid : string) : list Z :=
  [5; 1; 208; 83; 0; 0; 83] ++ string_bytes (sid_json sid)
  ++ [5; 4; 0; 1; 0; 0; 0; 0; 0; 0].

(** The node that is asked: the one of the major group, or any; [others] are the best nodes in
    the order of the range. *)
Definition getIP_node (best : gmap string string) (major : string) (others : list string)
    : option string :=
  let addr := default ""%string (best !! major) in
  let addr := if is_empty addr then match others with n :: _ => n | [] => "" end else addr in
  if is_empty addr then None else Some addr.

(** The loop of [getIP]: two bytes at a time until a block is known. *)
Fixpoint getIP_loop (fuel : nat) (s : list Z) : option (result error IP) :=
  match fuel with
  | O => None
  | S fuel =>
      match ReadFull 2 s with
      | Err e => Some (Err e)
      | Ok (header, s) =>
          let h0 := nth 0 header 0 in
          let h1 := nth 1 header 0 in
          if bool_decide (h0 = 83) && bool_decide (h1 = 0) then
            match read_block s with
            | Err e => Some (Err e)
            | Ok (data, s) =>
                if Contains (bytes_string data) "OK" then getIP_loop fuel s
                else Some (Err (EText ("failed to connect to the server: " +:+ bytes_string data)))
            end
          else if bool_decide (h0 = 5) && bool_decide (h1 = 0) then
            Some (let? (data, _) := ReadFull 6 s in
                  if negb (bool_decide (nth 0 data 0 = 0)) || negb (bool_decide (nth 1 data 0 = 1))
                  then Err (EText "unexpected response")
                  else Ok (IPv4 (nth 2 data 0) (nth 3 data 0) (nth 4 data 0) (nth 5 data 0)))
          else getIP_loop fuel s
      end
  end.

(** [getIP]: the address that [c.ip] is set to. *)
Definition getIP (dial : string -> result error (list Z)) (best : gmap string string) (major : string)
    (others : list string) : option (result error IP) :=
  match getIP_node best major others with
  | None => Some (Err (EText "no reachable node for ip request"))
  | Some addr =>
      match dial addr with
      | Err e => Some (Err e)
      | Ok s => getIP_loop (S (length s)) s
      end
  end.

(** ** What the server sends *)

(** The messages of the server, in their wire format; [Batch] is a data response with a token. *)
Inductive Message : Type :=
| Packet (pkt : list Z)
| Batch (token : list Z) (packets : list (list Z))
| AuthAnswer (status : Z) (payload : list Z)
| SecondVIP (status : Z) (payload : list Z)
| Heartbeat (payload : list Z)
| Other (cmd : Z) (payload : list Z).

Definition encode_message (m : Message) : list Z :=
  match m with
  | Packet pkt => data_frame pkt
  | Batch token packets => [l3Version; cmdDataResp] ++ data_body token [0; 0] packets
  | AuthAnswer status payload =>
      [l3Version; cmdAuthResp] ++ [status] ++ put_be16 (len payload) ++ payload
  | SecondVIP status payload =>
      [l3Version; cmdSecondVipResp] ++ [status] ++ put_be16 (len payload) ++ payload
  | Heartbeat payload => [l3Version; cmdHeartbeatResp] ++ put_be16 (len payload) ++ payload
  | Other cmd payload => [l3Version; cmd] ++ put_be16 (len payload) ++ payload
  end.

Definition message_ok (m : Message) : Prop :=
  match m with
  | Packet pkt => 1 <= len pkt <= maxDataPayload
  | Batch token packets => token_mode token /\ len token <= 255 /\ len packets <= 255 /\
      Forall packet_ok packets
  | AuthAnswer _ payload | SecondVIP _ payload | Heartbeat payload => packet_ok payload
  | Other cmd payload => packet_ok payload /\
      cmd ∉ [cmdDataResp; cmdAuthResp; cmdSecondVipResp; cmdHeartbeatResp]
  end.

Definition message_frame (m : Message) : frame :=
  match m with
  | Packet pkt => {| fr_cmd := cmdDataResp; fr_status := 0; fr_payload := pkt; fr_dataMode := "len" |}
  | Batch token packets => {| fr_cmd := cmdDataResp; fr_status := 0;
                              fr_payload := data_body token [0; 0] packets; fr_dataMode := "token" |}
  | AuthAnswer status payload => {| fr_cmd := cmdAuthResp; fr_status := status;
                                    fr_payload := payload; fr_dataMode := "" |}
  | SecondVIP status payload => {| fr_cmd := cmdSecondVipResp; fr_status := status;
                                   fr_payload := payload; fr_dataMode := "" |}
  | Heartbeat payload => {| fr_cmd := cmdHeartbeatResp; fr_status := 0; fr_payload := payload;
                            fr_dataMode := "" |}
  | Other cmd payload => {| fr_cmd := cmd; fr_status := 0; fr_payload := payload; fr_dataMode := "" |}
  end.

(** A message with the protocol frames in front of it. *)
Definition encode_item (item : list (list Z) * Message) : list Z :=
  concat (map protocol_frame item.1) ++ encode_message item.2.

Definition item_ok (item : list (list Z) * Message) : Prop :=
  Forall packet_ok item.1 /\ message_ok item.2.

Lemma readFrame_block fuel cmd payload s :
  packet_ok payload -> cmd <> cmdDataResp -> cmd <> cmdAuthResp -> cmd <> cmdSecondVipResp ->
  readFrame (S fuel) (([l3Version; cmd] ++ put_be16 (len payload) ++ payload) ++ s) =
  Some (Ok ({| fr_cmd := cmd; fr_status := 0; fr_payload := payload; fr_dataMode := "" |}, s)).
Proof.
  intros Hp H1 H2 H3. cbn [readFrame]. rewrite <-!app_assoc, (ReadFull_app [l3Version; cmd]).
  cbn [nth]. rewrite (bool_decide_true (l3Version = l3Version)) by done.
  rewrite !bool_decide_false by done. cbn [orb].
  by rewrite read_block_put.
Qed.

Lemma readFrame_status fuel cmd status payload s :
  packet_ok payload -> cmd = cmdAuthResp \/ cmd = cmdSecondVipResp ->
  readFrame (S fuel) (([l3Version; cmd] ++ [status] ++ put_be16 (len payload) ++ payload) ++ s) =
  Some (Ok ({| fr_cmd := cmd; fr_status := status; fr_payload := payload; fr_dataMode := "" |}, s)).
Proof.
  intros Hp Hc. cbn [readFrame]. rewrite <-!app_assoc, (ReadFull_app [l3Version; cmd]).
  cbn [nth]. rewrite (bool_decide_true (l3Version = l3Version)) by done.
  assert (bool_decide (cmd = cmdAuthResp) || bool_decide (cmd = cmdSecondVipResp) = true) as ->
    by (by destruct Hc as [->| ->]).
  rewrite (ReadFull_app [status]). cbn [result_bind hd]. by rewrite read_block_put.
Qed.

Lemma readFrame_data fuel body payload mode s :
  readDataRespPayload (body ++ s) = Ok (payload, mode, s) ->
  readFrame (S fuel) (([l3Version; cmdDataResp] ++ body) ++ s) =
  Some (Ok ({| fr_cmd := cmdDataResp; fr_status := 0; fr_payload := payload; fr_dataMode := mode |}, s)).
Proof.
  intros Hr. cbn [readFrame]. rewrite <-!app_assoc, (ReadFull_app [l3Version; cmdDataResp]).
  cbn [nth]. rewrite (bool_decide_true (l3Version = l3Version)) by done.
  rewrite (bool_decide_false (cmdDataResp = cmdAuthResp)),
    (bool_decide_false (cmdDataResp = cmdSecondVipResp)),
    (bool_decide_true (cmdDataResp = cmdDataResp)) by done.
  cbn [orb]. by rewrite Hr.
Qed.

Lemma readFrame_message fuel m s :
  message_ok m -> readFrame (S fuel) (encode_message m ++ s) = Some (Ok (message_frame m, s)).
Proof.
  destruct (readDataRespPayload_modes s) as (Hlen & Htoken & _).
  destruct m as [pkt|token packets|status p|status p|p|cmd p]; cbn [message_ok encode_message message_frame].
  - intros Hp. unfold data_frame. apply readFrame_data. rewrite <-app_assoc. by apply Hlen.
  - intros (Hm & Ht & Hn & Hp). apply readFrame_data. by apply Htoken.
  - intros Hp. apply readFrame_status; [done|by left].
  - intros Hp. apply readFrame_status; [done|by right].
  - intros Hp. by apply readFrame_block.
  - intros [Hp Hc]. apply readFrame_block; [done|..]; intros ->; apply Hc; set_solver.
Qed.

Lemma encode_message_length m : (4 <= length (encode_message m))%nat.
Proof.
  assert (forall n, length (put_be16 n) = 2%nat) as H2 by done.
  destruct m; simpl; unfold data_frame, data_body; rewrite ?length_app, ?H2; simpl; rewrite ?length_app; simpl; lia.
Qed.

Lemma protocol_frames_length blocks :
  (length blocks <= length (concat (map protocol_frame blocks)))%nat.
Proof.
  induction blocks as [|b blocks IH]; [done|]. cbn [map concat].
  rewrite length_app. unfold protocol_frame at 1. simpl length at 1 2. lia.
Qed.

Lemma readFrame_item item s :
  item_ok item ->
  readFrame (S (length (encode_item item ++ s))) (encode_item item ++ s) =
  Some (Ok (message_frame item.2, s)).
Proof.
  intros [Hb Hm]. destruct item as [blocks m]; unfold encode_item; cbn [fst snd] in *. rewrite <-app_assoc.
  pose proof (protocol_frames_length blocks) as Hl.
  set (n := length (concat _ ++ _)).
  assert (length blocks <= n)%nat as Hn by (unfold n; rewrite length_app; lia).
  replace (S n) with (length blocks + S (n - length blocks))%nat by lia.
  by rewrite readFrame_skip_protocol, readFrame_message.
Qed.

Section Stream.
Context (unmarshalSID : list Z -> result error authResponseSID).
Context (unmarshal : list Z -> result error authResponseIP).
Context (unmarshalAny : list Z -> result error JSON).

(** The packets of a message, and what it does to a connection that stays open. *)
Definition message_packets (m : Message) : list (list Z) :=
  match m with Packet pkt => [pkt] | Batch _ packets => packets | _ => [] end.

Definition process_message (now : Z) (m : Message) (st : LinkState) : LinkState :=
  match m with
  | Packet pkt => deliver_packet pkt st
  | Batch _ packets => fold_left (fun st pkt => deliver_packet pkt st) packets st
  | AuthAnswer status payload => link_auth unmarshal status payload st
  | SecondVIP status payload => handleSecondVipResp unmarshalAny status payload st
  | Heartbeat _ => set_lk_life (heartbeat_received now (lk_life st)) st
  | Other _ _ => st
  end.

Lemma deliver_open closing i packets st :
  (forall i, closing i = None) ->
  deliver_packets closing i packets st =
    (false, fold_left (fun st pkt => deliver_packet pkt st) packets st).
Proof.
  intros Hc. revert i st. induction packets as [|pkt packets IH]; intros i st; [done|].
  cbn [deliver_packets fold_left]. rewrite Hc. apply IH.
Qed.

(** What reaches the channel, and what a select that finds the connection closed leaves. *)
Lemma deliver_sublist closing i packets st stop st' :
  (forall i life, closing i = Some life -> life_closed life = true) ->
  deliver_packets closing i packets st = (stop, st') ->
  exists d, lk_incoming st' = lk_incoming st ++ d /\ d `sublist_of` packets /\
    (stop = true -> life_closed (lk_life st') = true).
Proof.
  intros Hc. revert i st. induction packets as [|pkt packets IH]; intros i st H;
    cbn [deliver_packets] in H.
  { injection H as <- <-. exists []. by rewrite app_nil_r. }
  destruct (closing i) as [life|] eqn:E.
  - injection H as <- <-. exists []. rewrite app_nil_r.
    split_and!; [done|apply sublist_nil_l|]. intros _. by eapply Hc.
  - destruct (IH _ _ H) as (d & Hd & Hs & Hstop). exists (pkt :: d). split_and!; [|by constructor|done].
    rewrite Hd. simpl. by rewrite <-app_assoc.
Qed.

Lemma link_auth_incoming status payload st :
  lk_incoming (link_auth unmarshal status payload st) = lk_incoming st.
Proof. unfold link_auth. by destruct (handleAuthResp _ _ _ _). Qed.

Lemma handleSecondVipResp_incoming status payload st :
  lk_incoming (handleSecondVipResp unmarshalAny status payload st) = lk_incoming st.
Proof. unfold handleSecondVipResp. by destruct (_ || _). Qed.

(** The frame of a message, whatever the selects find. *)
Lemma handle_frame_cases now closing m st :
  message_ok m ->
  handle_frame unmarshal unmarshalAny now closing (message_frame m) st =
  match m with
  | Packet pkt => deliver_single closing pkt st
  | Batch _ packets => deliver_packets closing 0 packets st
  | _ => (false, process_message now m st)
  end.
Proof.
  destruct m as [pkt|token packets|status p|status p|p|cmd p]; intros Hm; try done.
  - destruct Hm as (Hm & Ht & Hn & Hp). unfold handle_frame.
    cbn [message_frame fr_cmd fr_dataMode fr_payload].
    destruct (readDataRespPayload_modes []) as (_ & H & _).
    destruct (H token packets Hm Ht Hn Hp) as [_ H']. by rewrite H'.
  - destruct Hm as [_ Hc]. unfold handle_frame. simpl.
    repeat (rewrite bool_decide_false by (intros ->; apply Hc; set_solver)). done.
Qed.

Lemma handle_frame_message now closing m st :
  message_ok m -> (forall i, closing i = None) ->
  handle_frame unmarshal unmarshalAny now closing (message_frame m) st =
    (false, process_message now m st).
Proof.
  intros Hm Hc. rewrite handle_frame_cases by done. destruct m; try done.
  - unfold deliver_single. by rewrite Hc.
  - by rewrite deliver_open.
Qed.

Lemma handle_frame_delivers now closing m st stop st' :
  message_ok m -> (forall i life, closing i = Some life -> life_closed life = true) ->
  handle_frame unmarshal unmarshalAny now closing (message_frame m) st = (stop, st') ->
  exists d, lk_incoming st' = lk_incoming st ++ d /\ d `sublist_of` message_packets m /\
    (stop = true -> life_closed (lk_life st') = true).
Proof.
  intros Hm Hc H. rewrite handle_frame_cases in H by done.
  destruct m as [pkt|token packets|status p|status p|p|cmd p].
  2:{ by eapply deliver_sublist. }
  1:{ unfold deliver_single in H. destruct (closing 0%nat) as [life|]; injection H as <- <-.
      - exists []. rewrite app_nil_r. split_and!; [done|apply sublist_nil_l|done].
      - by exists [pkt]. }
  all: injection H as <- <-; exists []; rewrite app_nil_r; split_and!; try done.
  - apply link_auth_incoming.
  - apply handleSecondVipResp_incoming.
Qed.

Fixpoint process_items (clock : nat -> Z) (items : list (list (list Z) * Message)) (tail : nat)
    (st : LinkState) : LinkState :=
  match items with
  | [] => st
  | item :: rest =>
      process_items clock rest tail
        (process_message (clock (length (concat (map encode_item rest)) + tail)%nat) item.2 st)
  end.

Lemma encode_item_length item : (4 <= length (encode_item item))%nat.
Proof. unfold encode_item. rewrite length_app. pose proof (encode_message_length item.2). lia. Qed.

Lemma readLoop_items fuel clock closing tlsErr items tail st :
  Forall item_ok items -> (forall left i, closing left i = None) ->
  (length (concat (map encode_item items) ++ tail) < fuel)%nat ->
  readLoop unmarshal unmarshalAny fuel clock closing tlsErr (concat (map encode_item items) ++ tail) st =
  readLoop unmarshal unmarshalAny (fuel - length items) clock closing tlsErr tail
    (process_items clock items (length tail) st) /\
  (length tail < fuel - length items)%nat.
Proof.
  intros Hok Hc. revert fuel st. induction items as [|item items IH]; intros fuel st Hf.
  { simpl in *. by rewrite Nat.sub_0_r. }
  apply Forall_cons in Hok as [Hi Hok]. cbn [map concat process_items] in *. rewrite <-app_assoc in *.
  pose proof (encode_item_length item) as H4.
  rewrite length_app in Hf. destruct fuel as [|fuel]; [lia|]. cbn [readLoop].
  rewrite readFrame_item by done. rewrite handle_frame_message by (apply Hi || apply Hc).
  rewrite length_app. apply IH; [done|lia].
Qed.

Lemma l3_fail_closed tlsErr err c : life_closed (l3_fail tlsErr err c) = true.
Proof.
  unfold l3_fail, l3_Close. destruct err, (life_terminalErr c), (life_closed c) eqn:E; simpl; by rewrite ?E.
Qed.

(** Another goroutine may close the connection at any time: the loop still ends, with the
    connection closed, and what it has delivered is part of what was sent, in order. *)
Lemma readLoop_delivers fuel clock closing tlsErr items tail st ending :
  Forall item_ok items ->
  (forall left i life, closing left i = Some life -> life_closed life = true) ->
  readFrame (S (length tail)) tail = Some (Err ending) ->
  (length (concat (map encode_item items) ++ tail) < fuel)%nat ->
  exists st' d, readLoop unmarshal unmarshalAny fuel clock closing tlsErr
                  (concat (map encode_item items) ++ tail) st = Some st' /\
    life_closed (lk_life st') = true /\ lk_incoming st' = lk_incoming st ++ d /\
    d `sublist_of` flat_map (fun item => message_packets item.2) items.
Proof.
  intros Hok Hc Hend. revert fuel st. induction items as [|item items IH]; intros fuel st Hf;
    (destruct fuel as [|fuel]; [lia|]); cbn [map concat flat_map app] in *.
  { cbn [readLoop]. rewrite Hend. eexists _, []. split_and!; [done|apply l3_fail_closed| |done].
    by rewrite app_nil_r. }
  apply Forall_cons in Hok as [Hi Hok]. rewrite <-app_assoc in *.
  pose proof (encode_item_length item) as H4. rewrite length_app in Hf. cbn [readLoop].
  rewrite readFrame_item by done.
  destruct (handle_frame _ _ _ _ _ _) as [stop st1] eqn:Hh.
  destruct (handle_frame_delivers _ _ _ _ _ _ (proj2 Hi) (Hc _) Hh) as (d1 & Hd1 & Hs1 & Hstop).
  destruct stop.
  - exists st1, d1. split_and!; [done|by apply Hstop|done|]. by apply sublist_inserts_r.
  - destruct (IH Hok fuel st1) as (st' & d & Hr & Hcl & Hd & Hs); [lia|].
    exists st', (d1 ++ d). split_and!; [done|done|by rewrite Hd, Hd1, app_assoc|by apply sublist_app].
Qed.

(** The server's side of the set-up. *)
Definition auth_answer (status : Z) (payload : list Z) : list Z :=
  [l3Version; 208] ++ [83; status] ++ put_be16 (len payload) ++ payload.

Definition vip_block (b1 b2 addrType : Z) (data : list Z) : list Z := [l3Version; b1; b2; addrType] ++ data.

Lemma read_auth_answer_ok status payload resp s :
  packet_ok payload ->
  (payload = [] -> resp = {| ars_Code := 0; ars_Message := "" |}) ->
  (payload <> [] -> unmarshalSID payload = Ok resp) ->
  read_auth_answer unmarshalSID (auth_answer status payload ++ s) = Ok (status, payload, resp, s).
Proof.
  intros Hp H0 H1. unfold read_auth_answer, auth_answer. rewrite <-!app_assoc.
  rewrite (ReadFull_app [l3Version; 208]). cbn [result_bind nth].
  rewrite !bool_decide_true by done. cbn [negb orb].
  destruct (be16_put_be16 (len payload)) as (hi & lo & Hput & Hb);
    [pose proof (len_nonneg payload); unfold packet_ok in Hp; lia|].
  rewrite Hput. cbn [app]. change (83 :: status :: hi :: lo :: payload ++ s) with ([83; status; hi; lo] ++ payload ++ s).
  rewrite (ReadFull_app [83; status; hi; lo]). cbn [result_bind nth].
  rewrite bool_decide_true by done. cbn [negb]. rewrite Hb, ReadFull_len. cbn [result_bind].
  destruct payload as [|b p]; simpl; [by rewrite H0|]. by rewrite H1.
Qed.

Lemma read_vips_ok b1 b2 addrType data s :
  length data = vipPayloadLength addrType ->
  read_vips (vip_block b1 b2 addrType data ++ s) = Ok (parseVirtualIPData data, s).
Proof.
  intros Hl. unfold read_vips, vip_block. rewrite <-app_assoc.
  rewrite (ReadFull_app [l3Version; b1; b2; addrType]). cbn [result_bind nth].
  rewrite bool_decide_true by done. cbn [negb]. rewrite <-Hl, ReadFull_app. done.
Qed.

Lemma auth_verdict_bad status payload resp :
  status <> 0 \/ ars_Code resp <> 0 -> (payload = [] -> ars_Code resp = 0) ->
  exists text, auth_verdict status payload resp =
    Some (classifyL3SessionError (EText text) (ars_Message resp)).
Proof.
  intros Hbad Hnil. unfold auth_verdict. case_bool_decide as Hs; cbn [negb]; [|by eexists].
  destruct Hbad as [?|Hc]; [done|]. rewrite bool_decide_false by done.
  destruct payload; [by destruct Hc; apply Hnil|]. by eexists.
Qed.

(** C16: A layer-3 connection hands on exactly what the server sends. Let the server accept the
    session, assign addresses and then send messages, any number of protocol frames in front of
    each, and let the stream then end or break. The messages are those that the format can
    carry unambiguously: payloads and packets fit their length fields, a packet that comes
    alone has 1 to 4096 bytes, and the token of a data response is not one that its reader
    takes for such a length (a token of 1 to 15 bytes, or a 16-byte one that starts with a zero
    byte). The set-up opens one TLS connection and keeps it, reports the addresses, and leaves
    the rest to the read loop; while nobody else closes the connection the loop processes every
    message once and in order - packets delivered, answers matched, addresses and heartbeats
    noted, the rest ignored - and ends by closing the connection with the error that ended the
    stream. If another goroutine closes it meanwhile, the loop still ends, and the packets it
    has delivered are some of those sent, in order and without duplicates. A set-up that fails
    closes what it opened, and an answer that refuses the session fails it, with
    [ErrSessionInvalid] made known when the server says that the session is invalid. *)
Theorem l3_link_faithful (signKeyHex : string) (key payload data tail : list Z)
    (resp : authResponseSID) (b1 b2 addrType : Z) (items : list (list (list Z) * Message))
    (clock : nat -> Z) (closing : nat -> nat -> option l3Life) (tlsErr : option error)
    (st : LinkState) (ending : error)
    (Hkey : hex_decode (chars signKeyHex) = Ok key)
    (Hpayload : packet_ok payload)
    (Hempty : payload = [] -> resp = {| ars_Code := 0; ars_Message := "" |})
    (Hresp : payload <> [] -> unmarshalSID payload = Ok resp)
    (Hdata : length data = vipPayloadLength addrType)
    (Hitems : Forall item_ok items)
    (Hending : readFrame (S (length tail)) tail = Some (Err ending)) :
  let messages := concat (map encode_item items) ++ tail in
  (ars_Code resp = 0 ->
     newL3TunnelConn unmarshalSID
       (Ok (auth_answer 0 payload ++ vip_block b1 b2 addrType data ++ messages)) None signKeyHex =
       (Ok (parseVirtualIPData data, messages), [TLSOpened]) /\
     ((forall left i, closing left i = None) ->
      readLoop unmarshal unmarshalAny (S (length messages)) clock closing tlsErr messages st =
       Some (let st := process_items clock items (length tail) st in
             set_lk_life (l3_fail tlsErr (Some ending) (lk_life st)) st))) /\
  ((forall left i life, closing left i = Some life -> life_closed life = true) ->
     exists st' delivered,
       readLoop unmarshal unmarshalAny (S (length messages)) clock closing tlsErr messages st = Some st' /\
       life_closed (lk_life st') = true /\ lk_incoming st' = lk_incoming st ++ delivered /\
       delivered `sublist_of` flat_map (fun item => message_packets item.2) items) /\
  (forall dial writeErr key err health effects,
     newL3TunnelConn unmarshalSID dial writeErr key = (Err (err, health), effects) ->
     effects = [] \/ effects = [TLSOpened; TLSClosed]) /\
  (forall status s, status <> 0 \/ ars_Code resp <> 0 ->
     exists e health, newL3TunnelConn unmarshalSID (Ok (auth_answer status payload ++ s)) None signKeyHex =
                (Err (e, health), [TLSOpened; TLSClosed]) /\
       (Contains (ToLower (ars_Message resp)) "invalid sid" = true ->
          health = Some e /\ errors_Is e "client.ErrSessionInvalid" = true)).
Proof.
  intros messages. split_and!.
  - intros Hcode. split.
    + unfold newL3TunnelConn, authTunnel. rewrite Hkey, (read_auth_answer_ok _ _ resp) by done.
      unfold auth_verdict. rewrite (bool_decide_true (0 = 0)), (bool_decide_true (ars_Code resp = 0)) by done.
      cbn [negb]. rewrite andb_false_r. by rewrite read_vips_ok.
    + intros Hopen. subst messages. set (fuel := S (length _)).
      destruct (readLoop_items fuel clock closing tlsErr items tail st Hitems Hopen) as [-> Hf]; [unfold fuel; lia|].
      destruct (fuel - length items)%nat; [lia|]. cbn [readLoop]. by rewrite Hending.
  - intros Hclosing. eapply readLoop_delivers; [done|done|exact Hending|unfold messages; lia].
  - intros dial writeErr k err health effects. unfold newL3TunnelConn.
    repeat case_match; intros [= <- <- <-] || intros [=]; auto.
  - intros status s Hbad. unfold newL3TunnelConn, authTunnel.
    rewrite Hkey, (read_auth_answer_ok _ _ resp) by done.
    destruct (auth_verdict_bad status payload resp Hbad) as [text ->]; [intros ->; by rewrite Hempty|].
    eexists _, _. split; [done|]. intros Hsid. unfold classifyL3SessionError. by rewrite Hsid.
Qed.
End Stream.

(** ** The request for the address *)

Lemma getIP_loop_total fuel s : (length s < fuel)%nat -> exists r, getIP_loop fuel s = Some r.
Proof.
  revert s. induction fuel as [|fuel IH]; intros s Hf; [lia|]. cbn [getIP_loop].
  destruct (ReadFull 2 s) as [[header rest]|e] eqn:Hr; [|by eexists].
  apply ReadFull_ok in Hr as [-> Hl]. rewrite length_app, Hl in Hf.
  destruct (_ && _).
  - destruct (read_block rest) as [[data rest']|e] eqn:Hb; [|by eexists].
    apply read_block_ok in Hb as (h & -> & _). rewrite !length_app in Hf.
    destruct (Contains _ _); [apply IH; lia|by eexists].
  - destruct (_ && _); [by eexists|]. apply IH. lia.
Qed.

Lemma getIP_loop_skip blocks fuel s :
  Forall packet_ok blocks -> Forall (fun b => Contains (bytes_string b) "OK" = true) blocks ->
  getIP_loop (length blocks + fuel) (concat (map protocol_frame blocks) ++ s) = getIP_loop fuel s.
Proof.
  induction blocks as [|b blocks IH]; intros Hp Hok; [done|].
  apply Forall_cons in Hp as [Hb Hp]. apply Forall_cons in Hok as [HOK Hok].
  rewrite <-(IH Hp Hok). change (length (b :: blocks) + fuel)%nat with (S (length blocks + fuel)).
  cbn [getIP_loop map concat]. unfold protocol_frame at 1. rewrite <-!app_assoc.
  rewrite (ReadFull_app [83; 0]). cbn [nth].
  rewrite (bool_decide_true (83 = 83)), (bool_decide_true (0 = 0)) by done. cbn [andb].
  rewrite read_block_put by done. by rewrite HOK.
Qed.

Lemma sid_json_length sid : len (string_bytes (sid_json sid)) = 10 + strlen sid.
Proof.
  rewrite length_string_bytes. unfold strlen. rewrite <-!length_chars. unfold sid_json.
  rewrite !chars_app, !length_app. simpl. lia.
Qed.

(** The address request. Asking for the client's address always ends, with an error or an
    address; behind protocol frames that say OK, the address of the server's block is taken.
    The request is the one that the tunnel's own authentication would send exactly when the
    session identifier has 73 bytes: the length in front of its JSON text is a constant. *)
Theorem address_request (sid : string) (dial : string -> result error (list Z))
    (best : gmap string string) (major : string) (others : list string) :
  (exists r, getIP dial best major others = Some r) /\
  (forall addr blocks a b c d rest,
     getIP_node best major others = Some addr ->
     Forall packet_ok blocks -> Forall (fun b => Contains (bytes_string b) "OK" = true) blocks ->
     dial addr = Ok (concat (map protocol_frame blocks) ++ [5; 0; 0; 1; a; b; c; d] ++ rest) ->
     getIP dial best major others = Some (Ok (IPv4 a b c d))) /\
  (strlen sid + 10 < 65536 ->
     getIP_request sid = authTunnel_request (fun sid => string_bytes (sid_json sid)) sid <->
     strlen sid = 73).
Proof.
  split_and!.
  - unfold getIP. destruct (getIP_node _ _ _); [|by eexists]. destruct (dial _); [|by eexists].
    apply getIP_loop_total. lia.
  - intros addr blocks a b c d rest Haddr Hp Hok Hdial. unfold getIP. rewrite Haddr, Hdial.
    set (fuel := S (length _)).
    assert (length blocks < fuel)%nat as Hf.
    { unfold fuel. rewrite length_app. pose proof (protocol_frames_length blocks). lia. }
    replace fuel with (length blocks + S (fuel - length blocks - 1))%nat by lia.
    rewrite getIP_loop_skip by done. cbn [getIP_loop app].
    change (5 :: 0 :: 0 :: 1 :: a :: b :: c :: d :: rest) with ([5; 0] ++ [0; 1; a; b; c; d] ++ rest).
    rewrite (ReadFull_app [5; 0]). cbn [nth].
    rewrite (bool_decide_false (5 = 83)), (bool_decide_true (5 = 5)), (bool_decide_true (0 = 0)) by done.
    cbn [andb]. rewrite (ReadFull_app [0; 1; a; b; c; d]). done.
  - intros Hsid. unfold getIP_request, authTunnel_request, wrapAuthReqData. rewrite sid_json_length.
    pose proof (Zle_0_nat (String.length sid)) as H0. fold (strlen sid) in H0.
    split.
    + destruct (be16_put_be16 (10 + strlen sid)) as (hi & lo & -> & Hbe); [lia|]. unfold be16 in Hbe.
      intros Heq. injection Heq as <- <-. lia.
    + intros ->. done.
Qed.

(** ** Witness *)

Definition demo_items : list (list (list Z) * Message) :=
  [([string_bytes "OK"], Packet [69; 0; 0]); ([], Heartbeat []); ([], Batch [] [[1]; [2; 3]]);
   ([[]], Other 1 [7])].

Definition demo_link : LinkState :=
  {| lk_mgr := newConntrackMgr;
     lk_life := {| life_closed := false; life_closeErr := None; life_terminalErr := None;
                   life_lastHeartbeat := 0 |};
     lk_incoming := []; lk_vips := []; lk_health := [] |}.

(** The connection stays open; and the connection is closed while the second packet of the batch waits. *)
Definition closed_by_other : l3Life :=
  {| life_closed := true; life_closeErr := None; life_terminalErr := None; life_lastHeartbeat := 5 |}.

Definition demo_closing (left i : nat) : option l3Life :=
  if bool_decide (i = 1%nat) then Some closed_by_other else None.

Lemma l3_link_faithful_witness :
  (exists st, readLoop (fun _ => Err io_EOF) (fun _ => Err io_EOF)
      (S (length (concat (map encode_item demo_items)))) (fun _ => 5) (fun _ _ => None) None
      (concat (map encode_item demo_items)) demo_link = Some st /\
    lk_incoming st = [[69; 0; 0]; [1]; [2; 3]] /\ life_lastHeartbeat (lk_life st) = 5 /\
    life_terminalErr (lk_life st) = Some io_EOF) /\
  (exists st delivered, readLoop (fun _ => Err io_EOF) (fun _ => Err io_EOF)
      (S (length (concat (map encode_item demo_items)))) (fun _ => 5) demo_closing None
      (concat (map encode_item demo_items)) demo_link = Some st /\
    life_closed (lk_life st) = true /\ lk_incoming st = delivered /\
    delivered `sublist_of` [[69; 0; 0]; [1]; [2; 3]]).
Proof.
  assert (Forall item_ok demo_items) as Hok by (repeat constructor; try done; set_solver).
  split.
  - destruct (l3_link_faithful (fun _ => Err io_EOF) (fun _ => Err io_EOF) (fun _ => Err io_EOF) "0aFf"
      [10; 255] [] [10; 0; 0; 1; 0; 0] [] {| ars_Code := 0; ars_Message := "" |} 0 0 1 demo_items (fun _ => 5)
      (fun _ _ => None) None demo_link io_EOF) as (H & _); try done.
    destruct (H eq_refl) as [_ Hl]. rewrite app_nil_r in Hl. eexists. split; [by apply Hl|]. by vm_compute.
  - destruct (l3_link_faithful (fun _ => Err io_EOF) (fun _ => Err io_EOF) (fun _ => Err io_EOF) "0aFf"
      [10; 255] [] [10; 0; 0; 1; 0; 0] [] {| ars_Code := 0; ars_Message := "" |} 0 0 1 demo_items (fun _ => 5)
      demo_closing None demo_link io_EOF) as (_ & H & _); try done.
    destruct H as (st & d & Hr & Hc & Hd & Hs).
    { intros left i life. unfold demo_closing. case_bool_decide; [|done]. by intros [= <-]. }
    rewrite app_nil_r in Hr. exists st, d. by split_and!.
Defined.
