(* ===== verification/TunnelRequests.v ===== *)
(** The requests with which tunnels are opened: the authorisation request of a layer-3 flow
    (client/atrust/l3tunnelconn.go) and the whole dial of a TCP tunnel (client/atrust/tcptunnel.go),
    from the choice of the resource over the signed text to the answer, with the clean-up of every
    failure. SHA-256, HMAC, JSON encoding, TLS and time are parameters. *)

From S2P Require Import Prelude Core GoNet Packet Conntrack L3Codec TCPTunnel L3Link.

(** ** Signatures *)

(** [%X] of bytes and upper-cased [hex.EncodeToString]. *)
Definition HEX (l : list Z) : string := String.concat "" (map HEX2 l).

Section Requests.
(** [sha256.Sum256] and the sum of [hmac.New(sha256.New, key)]. *)
Context (sha256 : list Z -> list Z) (hmac : list Z -> list Z -> list Z).

Definition calcXRequestSig (key data : list Z) : string := HEX (hmac key data).

(** ** The authorisation of a layer-3 flow *)

Record clientInfo : Type := {
  info_sid : string;
  info_deviceID : string;
  info_connectionID : string;
  info_username : string;
}.

Record authIP : Type := {
  aip_Atype : Z;
  aip_Protocol : Z;
  aip_DestAddr : string;
  aip_DestPort : Z;
  aip_SrcAddr : string;
  aip_SrcPort : Z;
}.

(** [trustEnv], whose nested structs hold one process. *)
Record trustEnv : Type := {
  env_Name : string;
  env_DigitalSignature : string;
  env_Platform : string;
  env_Fingerprint : string;
  env_Description : string;
  env_Path : string;
  env_Version : string;
  env_SecurityEnv : string;
  env_ProcessTrusted : string;
}.

Record authRequestIP : Type := {
  req_Sid : string;
  req_AppID : string;
  req_URL : string;
  req_DeviceID : string;
  req_ConnectionID : string;
  req_Env : option trustEnv;
  req_ConntrackHash : Z;
  req_Lang : string;
  req_IP : authIP;
  req_Domain : string;
  req_ProcHash : string;
  req_XRequestSig : string;
}.

Definition set_sig (sig : string) (r : authRequestIP) : authRequestIP :=
  {| req_Sid := req_Sid r; req_AppID := req_AppID r; req_URL := req_URL r; req_DeviceID := req_DeviceID r;
     req_ConnectionID := req_ConnectionID r; req_Env := req_Env r; req_ConntrackHash := req_ConntrackHash r;
     req_Lang := req_Lang r; req_IP := req_IP r; req_Domain := req_Domain r; req_ProcHash := req_ProcHash r;
     req_XRequestSig := sig |}.

Definition platform_name (GOOS : string) : string :=
  if bool_decide (GOOS = "darwin"%string) then "macOS"
  else if bool_decide (GOOS = "windows"%string) then "Windows"
  else if bool_decide (GOOS = "linux"%string) then "Linux"
  else GOOS.

Definition procPath : string := "/usr/bin/zju-portal-core".

Definition defaultEnv (GOOS : string) : trustEnv :=
  {| env_Name := "zju-portal-core"; env_DigitalSignature := "TrustAppClosed"; env_Platform := platform_name GOOS;
     env_Fingerprint := HEX (sha256 (string_bytes procPath)); env_Description := "TrustAppClosed";
     env_Path := procPath; env_Version := "TrustAppClosed"; env_SecurityEnv := "normal";
     env_ProcessTrusted := "TRUSTED" |}.

(** [json.Marshal] of a request; [langs] are the four environment variables. *)
Context (marshal : authRequestIP -> result error (list Z)) (GOOS : string) (langs : list string).

(** The request before it is signed. *)
Definition unsignedAuthRequest (info : clientInfo) (meta : packetMeta) (ct : conntrack) : authRequestIP :=
  let url := protoName (meta_proto meta) +:+ ":" +:+ IP_String (meta_dstIP meta) +:+ ":" +:+ itoa (meta_dstPort meta) in
  let env := defaultEnv GOOS in
  {| req_Sid := info_sid info; req_AppID := ct_appID ct; req_URL := url; req_DeviceID := info_deviceID info;
     req_ConnectionID := info_connectionID info; req_Env := Some env; req_ConntrackHash := ct_authID ct;
     req_Lang := langFromEnv langs;
     req_IP := {| aip_Atype := authIPType (meta_atype meta); aip_Protocol := meta_proto meta;
                  aip_DestAddr := IP_String (meta_dstIP meta); aip_DestPort := meta_dstPort meta;
                  aip_SrcAddr := IP_String (meta_srcIP meta); aip_SrcPort := meta_srcPort meta |};
     req_Domain := ""; req_ProcHash := env_Fingerprint env; req_XRequestSig := "" |}.

Definition buildAuthRequest (info : clientInfo) (signKey : list Z) (meta : packetMeta) (ct : conntrack)
    : result error (list Z) :=
  let req := unsignedAuthRequest info meta ct in
  let? unsigned := marshal req in
  marshal (set_sig (calcXRequestSig signKey unsigned) req).

(** [sendAuthRequest]: the frame that is written; the length is 16 bits. *)
Definition sendAuthRequest (info : clientInfo) (signKey : list Z) (meta : packetMeta) (ct : conntrack)
    : result error (list Z) :=
  let? req := buildAuthRequest info signKey meta ct in
  Ok ([l3Version; cmdAuthReq] ++ put_be16 (len req) ++ req).

(** ** The dial of a TCP tunnel *)

Definition in_quotes (s : string) : string := String dquote (s +:+ String dquote EmptyString).
Definition member (name value : string) : string := in_quotes name +:+ ":" +:+ in_quotes value.

(** The process that a connection is said to come from, by the port. *)
Definition process_of (port : Z) : string * string :=
  if bool_decide (port = 22) then ("ssh", "/usr/bin/ssh")%string
  else ("google-chrome-stable", "/usr/bin/google-chrome-stable")%string.

(** The format of [DialTCP] up to the value of its last member: values are put between quotes as they
    are. *)
Definition tcp_request_body (sid appID destAddr deviceID connectionID username : string) (port : Z) : string :=
  let '(procName, procPath) := process_of port in
  let procHash := HEX (sha256 (string_bytes procPath)) in
  "{" +:+ member "sid" sid +:+ "," +:+ member "appId" appID +:+ "," +:+ member "url" ("tcp://" +:+ destAddr)
  +:+ "," +:+ member "deviceId" deviceID +:+ "," +:+ member "connectionId" connectionID
  +:+ "," +:+ member "procHash" procHash +:+ "," +:+ member "userName" username
  +:+ "," +:+ in_quotes "rcAppliedInfo" +:+ ":0," +:+ member "lang" "en-US" +:+ "," +:+ member "destAddr" destAddr
  +:+ "," +:+ in_quotes "env" +:+ ":{" +:+ in_quotes "application" +:+ ":{" +:+ in_quotes "runtime" +:+ ":{"
  +:+ in_quotes "process" +:+ ":{" +:+ member "name" procName +:+ "," +:+ member "digital_signature" "TrustAppClosed"
  +:+ "," +:+ member "platform" "Linux" +:+ "," +:+ member "fingerprint" procHash
  +:+ "," +:+ member "description" "TrustAppClosed" +:+ "," +:+ member "path" procPath
  +:+ "," +:+ member "version" "TrustAppClosed" +:+ "," +:+ member "security_env" "normal" +:+ "},"
  +:+ member "process_trusted" "TRUSTED" +:+ "}}}," +:+ in_quotes "xRequestSig" +:+ ":".

(** The text that is signed. *)
Definition tcp_request_text (sid appID destAddr deviceID connectionID username : string) (port : Z) : string :=
  tcp_request_body sid appID destAddr deviceID connectionID username port +:+ in_quotes "" +:+ "}".

(** The signature takes the place of the last three bytes. *)
Definition sign_request (signKey : list Z) (msg : string) : string :=
  let sig := calcXRequestSig signKey (string_bytes msg) in
  of_chars (take (length (chars msg) - 3) (chars msg)) +:+ in_quotes sig +:+ "}".

(** [c], the fields of the client that [DialTCP] reads. *)
Record TunnelClient : Type := {
  tu_SID : string;
  tu_DeviceID : string;
  tu_ConnectionID : string;
  tu_Username : string;
  tu_SignKey : string;
  tu_ipResources : list IPResource;
  tu_BestNodes : gmap string string;
  tu_MajorNodeGroup : string;
  tu_skipWait : bool;
}.

(** What is done to the network. *)
Inductive dial_effect : Type :=
| Connected (node : string)
| DeadlineSet
| Written (request : list Z)
| DeadlineCleared
| Disconnected.

(** What the connection, the context and the clock answer. [da_canceled] tells whether the function
    registered with the context ran, [da_ctxAfter] is the context's error when the answer is there. *)
Record DialAnswers : Type := {
  da_dial : string -> result error unit;
  da_setDeadline : option error;
  da_ctxBefore : option error;
  da_write : Z * option error;
  da_stream : list Z;
  da_canceled : bool;
  da_ctxAfter : option error;
  da_clearDeadline : option error;
}.

(** [establishTCPConnection]: the stream behind the answer, and the error that the health handler is
    told of. *)
Definition establishTCPConnection (skipWait : bool) (request : list Z) (a : DialAnswers)
    : result error (list Z) * option error * list dial_effect :=
  match da_ctxBefore a with
  | Some err => (Err err, None, [])
  | None =>
      let '(r, health) :=
        match da_write a with
        | (_, Some err) => (Err (wrapf "failed to send tcp tunnel request" err), None)
        | (n, None) =>
            if negb (bool_decide (n = len request)) then
              (Err (wrapf "failed to send tcp tunnel request" (EVar "io.ErrShortWrite" "short write")), None)
            else if skipWait then (Ok (da_stream a), None)
            else match waitForTCPConnect (S (length (da_stream a))) (da_stream a) with
            | Some (Ok s) => (Ok s, None)
            | Some (Err err) =>
                (Err err, if errors_Is err "client.ErrSessionInvalid" then Some err else None)
            | None => (Err (EText "out of fuel"), None)
            end
        end in
      (match da_ctxAfter a with Some err => Err err | None => r end, health,
       [Written request] ++ (if da_canceled a then [Disconnected] else []))
  end.

(** The message of [DialTCP]: the header, the signed text behind its length, and the destination. *)
Definition tcp_request (c : TunnelClient) (appID domain : string) (ip destIP : IP) (port : Z)
    : result error (list Z) :=
  let addr := JoinHostPort (match ip with [] => "" | _ => IP_String ip end) (itoa port) in
  let destAddr := if is_empty domain then addr else domain +:+ ":" +:+ itoa port in
  let msg := tcp_request_text (tu_SID c) appID destAddr (tu_DeviceID c) (tu_ConnectionID c) (tu_Username c) port in
  match hex_decode (chars (tu_SignKey c)) with
  | Err err => Err (wrapf "invalid sign key" err)
  | Ok signKey =>
      let msgBytes := string_bytes (sign_request signKey msg) in
      let? destMsg := dest_message domain destIP port in
      Ok ([5; 1; 129; 83; 3] ++ put_be16 (len msgBytes) ++ msgBytes ++ destMsg)
  end.

(** [DialTCP]: the tunnel with the stream behind the answer, the error of the health handler, and the
    effects. *)
Definition DialTCP (c : TunnelClient) (domainResource : option (string * string * string)) (ip : IP) (port : Z)
    (a : DialAnswers) : result error tcpTunnelConn * option error * list dial_effect :=
  let '(appID, nodeGroupID, domain) := tcpResourceFor domainResource (tu_ipResources c) ip port in
  if is_empty appID then
    (Err (EText ("no matching aTrust TCP resource with appId for "
                 +:+ JoinHostPort (match ip with [] => "" | _ => IP_String ip end) (itoa port))), None, [])
  else match dial_node (tu_BestNodes c) (tu_MajorNodeGroup c) nodeGroupID with
  | Err err => (Err err, None, [])
  | Ok node =>
  match da_dial a node with
  | Err err => (Err (wrapf "failed to connect to aTrust server" err), None, [])
  | Ok _ =>
  match To4 ip with
  | None => (Err (EText "invalid IPv4 address"), None, [Connected node; Disconnected])
  | Some destIP =>
  match tcp_request c appID domain ip destIP port with
  | Err err => (Err err, None, [Connected node; Disconnected])
  | Ok request =>
  match da_setDeadline a with
  | Some err =>
      (Err (wrapf "failed to set tcp tunnel deadline" err), None, [Connected node; DeadlineSet; Disconnected])
  | None =>
  let '(r, health, effects) := establishTCPConnection (tu_skipWait c) request a in
  let done := [Connected node; DeadlineSet] ++ effects in
  match r with
  | Err err => (Err err, health, done ++ [Disconnected])
  | Ok s =>
      match da_clearDeadline a with
      | Some err =>
          (Err (wrapf "failed to clear tcp tunnel deadline" err), health,
           done ++ [DeadlineCleared; Disconnected])
      | None =>
          (Ok {| tc_readBuf := []; tc_stream := s; tc_closed := false; tc_health := None |}, health,
           done ++ [DeadlineCleared])
      end
  end end end end end end.
End Requests.

(** ** Lemmas *)

(** A text without quotes. *)
Definition plain (s : string) : Prop := dquote ∉ chars s.

#[export] Instance plain_dec s : Decision (plain s).
Proof. unfold plain. apply _. Defined.

Ltac plain_text := apply (bool_decide_unpack _); vm_compute; exact I.

(** Texts with quotes between them. *)
Fixpoint quoted_chars (pieces : list string) : list ascii :=
  match pieces with
  | [] => []
  | [p] => chars p
  | p :: rest => chars p ++ dquote :: quoted_chars rest
  end.

Lemma Split_quoted pieces s :
  pieces <> [] -> Forall plain pieces -> chars s = quoted_chars pieces -> Split s dquote = pieces.
Proof.
  intros Hne Hp ->%(f_equal (fun l => of_chars l))%(eq_trans (eq_sym (of_chars_chars s))).
  unfold Split. rewrite chars_of_chars. revert Hne. induction Hp as [|p rest Hp _ IH]; [done|]. intros _.
  destruct rest as [|p' rest].
  - cbn [quoted_chars]. rewrite split_chars_plain by done. cbn. by rewrite of_chars_chars.
  - cbn [quoted_chars] in *. rewrite split_chars_cons by done. cbn [map]. rewrite of_chars_chars.
    f_equal. by apply IH.
Qed.

Lemma chars_in_quotes s : chars (in_quotes s) = dquote :: chars s ++ [dquote].
Proof. unfold in_quotes. cbn. f_equal. change (chars (s +:+ String dquote EmptyString) = chars s ++ [dquote]). by rewrite chars_app. Qed.

Lemma chars_concat l : chars (String.concat "" l) = concat (map chars l).
Proof.
  induction l as [|s l IH]; [done|]. destruct l as [|t l]; [cbn; by rewrite app_nil_r|].
  change (chars (s +:+ String.concat "" (t :: l)) = chars s ++ concat (map chars (t :: l))).
  by rewrite chars_app, IH.
Qed.

Lemma hex_upper_plain n : 0 <= n < 16 -> upper_ascii (hex_digit n) <> dquote.
Proof.
  intros Hn. assert (exists k, n = Z.of_nat k /\ (k < 16)%nat) as (k & -> & Hk)
    by (exists (Z.to_nat n); lia).
  do 16 (destruct k as [|k]; [by vm_compute|]). lia.
Qed.

Lemma HEX2_plain b : byte_ok b -> plain (HEX2 b).
Proof.
  intros Hb. unfold byte_ok in Hb. unfold plain, HEX2, ToUpper. rewrite !chars_of_chars. cbn [map].
  rewrite !not_elem_of_cons. split_and!; [| |by apply not_elem_of_nil];
    apply not_eq_sym, hex_upper_plain.
  - split; [apply Z.div_pos; lia|apply Z.div_lt_upper_bound; lia].
  - by apply Z.mod_pos_bound.
Qed.

Lemma HEX_plain l : bytes_ok l -> plain (HEX l).
Proof.
  unfold plain, HEX. rewrite chars_concat. induction 1 as [|b l Hb _ IH]; [by apply not_elem_of_nil|].
  cbn [map concat]. rewrite not_elem_of_app. split; [by apply HEX2_plain|exact IH].
Qed.

Section Spec.
Context (sha256 : list Z -> list Z) (hmac : list Z -> list Z -> list Z).
(** Both return bytes. *)
Context (sha256_bytes : forall data, bytes_ok (sha256 data)) (hmac_bytes : forall key data, bytes_ok (hmac key data)).

(** The texts between the quotes of a signed request. *)
Definition request_pieces (sid appID destAddr deviceID connectionID username sig : string) (port : Z) : list string :=
  let '(procName, procPath) := process_of port in
  let procHash := HEX (sha256 (string_bytes procPath)) in
  ["{"; "sid"; ":"; sid; ","; "appId"; ":"; appID; ","; "url"; ":"; "tcp://" +:+ destAddr; ","; "deviceId"; ":";
   deviceID; ","; "connectionId"; ":"; connectionID; ","; "procHash"; ":"; procHash; ","; "userName"; ":"; username;
   ","; "rcAppliedInfo"; ":0,"; "lang"; ":"; "en-US"; ","; "destAddr"; ":"; destAddr; ","; "env"; ":{";
   "application"; ":{"; "runtime"; ":{"; "process"; ":{"; "name"; ":"; procName; ","; "digital_signature"; ":";
   "TrustAppClosed"; ","; "platform"; ":"; "Linux"; ","; "fingerprint"; ":"; procHash; ","; "description"; ":";
   "TrustAppClosed"; ","; "path"; ":"; procPath; ","; "version"; ":"; "TrustAppClosed"; ","; "security_env"; ":";
   "normal"; "},"; "process_trusted"; ":"; "TRUSTED"; "}}},"; "xRequestSig"; ":"; sig; "}"]%string.

Lemma sign_request_text key body :
  sign_request hmac key (body +:+ in_quotes "" +:+ "}") =
  body +:+ in_quotes (calcXRequestSig hmac key (string_bytes (body +:+ in_quotes "" +:+ "}"))) +:+ "}".
Proof.
  unfold sign_request. f_equal. apply chars_inj. rewrite chars_of_chars, !chars_app, chars_in_quotes.
  rewrite length_app. cbn [length chars app]. apply take_app_length'. cbn. lia.
Qed.

Lemma request_body_pieces sid appID destAddr deviceID connectionID username sig port :
  chars (tcp_request_body sha256 sid appID destAddr deviceID connectionID username port +:+ in_quotes sig +:+ "}") =
  quoted_chars (request_pieces sid appID destAddr deviceID connectionID username sig port).
Proof.
  unfold tcp_request_body, request_pieces, member. destruct (process_of port) as [procName procPath]. cbv zeta.
  rewrite !chars_app, !chars_in_quotes. cbn [quoted_chars]. rewrite !chars_app. rewrite <-?app_assoc. cbn [app].
  repeat (rewrite <-?app_assoc; cbn [app]). reflexivity.
Qed.

Lemma request_pieces_plain sid appID destAddr deviceID connectionID username sig port :
  Forall plain [sid; appID; destAddr; deviceID; connectionID; username; sig] ->
  Forall plain (request_pieces sid appID destAddr deviceID connectionID username sig port).
Proof.
  intros Hp. repeat (apply Forall_cons in Hp as [? Hp]). clear Hp. unfold request_pieces.
  assert (plain (process_of port).1 /\ plain (process_of port).2) as [Hn Hpath].
  { unfold process_of. case_bool_decide; split; plain_text. }
  destruct (process_of port) as [procName procPath]. cbn [fst snd] in Hn, Hpath. cbv zeta.
  assert (plain (HEX (sha256 (string_bytes procPath)))) as Hh by apply HEX_plain, sha256_bytes.
  assert (plain ("tcp://" +:+ destAddr)) as Hurl.
  { unfold plain. rewrite chars_app, not_elem_of_app. split; [|done]. change (plain "tcp://"). plain_text. }
  repeat (apply Forall_cons; split; [first [assumption|plain_text]|]). apply Forall_nil. done.
Qed.

Lemma establish_ok skip request a r health effects :
  establishTCPConnection skip request a = (r, health, effects) ->
  (forall s, r = Ok s -> da_ctxBefore a = None /\ da_ctxAfter a = None /\ da_write a = (len request, None) /\
     effects = Written request :: (if da_canceled a then [Disconnected] else []) /\
     (if skip then s = da_stream a
      else waitForTCPConnect (S (length (da_stream a))) (da_stream a) = Some (Ok s))).
Proof.
  unfold establishTCPConnection. intros H s ->. destruct (da_ctxBefore a); [done|].
  destruct (da_write a) as [n [err|]] eqn:Hw.
  { destruct (da_ctxAfter a); by injection H. }
  case_bool_decide as Hn; cbn [negb] in H; [|by destruct (da_ctxAfter a)].
  destruct skip.
  - destruct (da_ctxAfter a); [done|]. injection H as -> _ <-. by rewrite Hn.
  - destruct (waitForTCPConnect _ _) as [[s'|err]|] eqn:E; [|by destruct (da_ctxAfter a)..].
    destruct (da_ctxAfter a); [done|]. injection H as -> _ <-. by rewrite Hn.
Qed.
Lemma establish_health skip request a r health effects :
  establishTCPConnection skip request a = (r, health, effects) ->
  forall err, health = Some err -> errors_Is err "client.ErrSessionInvalid" = true.
Proof.
  unfold establishTCPConnection. intros H err ->. destruct (da_ctxBefore a); [done|].
  destruct (da_write a) as [n [e|]]; [done|]. destruct (negb _); [done|]. destruct skip; [done|].
  destruct (waitForTCPConnect _ _) as [[s'|e]|]; try done.
  destruct (errors_Is e "client.ErrSessionInvalid") eqn:E; injection H as _ H; by simplify_eq.
Qed.

(** C11: Dialing through a TCP tunnel. A dial that fails leaves no connection behind: nothing was connected, or
    the last thing done is to close it. A tunnel is handed out only when the request of exactly one resource
    with an application was written once, to the node of that resource's group or of the major one,
    inside a deadline that is cleared again. Unless the client was told not to wait
    ([SetSkipTCPTunnelWait]), the server has answered that it is connected, and what the tunnel reads starts
    right behind this answer; a client that does not wait reads all that the server sends. The request can be
    read back by its length as the signed text
    and the destination while the text is shorter than 64 KiB. The text ends in the signature of itself
    with an empty signature, and when no value contains a quote, splitting it at the quotes gives
    the session, application, destination, device, connection and user that it was made of. The health
    handler is told of an invalid session only. *)
Theorem tcp_dial_sound (c : TunnelClient) domainResource ip port (a : DialAnswers) r health effects :
  (da_canceled a = true -> is_Some (da_ctxAfter a)) ->
  DialTCP sha256 hmac c domainResource ip port a = (r, health, effects) ->
  (forall err, r = Err err -> effects = [] \/ last effects = Some Disconnected) /\
  (forall err, health = Some err -> errors_Is err "client.ErrSessionInvalid" = true) /\
  (forall t, r = Ok t -> exists appID group domain node destIP request key,
     let addr := JoinHostPort (match ip with [] => "" | _ => IP_String ip end) (itoa port) in
     let destAddr := if is_empty domain then addr else domain +:+ ":" +:+ itoa port in
     let text := sign_request hmac key (tcp_request_text sha256 (tu_SID c) appID destAddr (tu_DeviceID c)
                   (tu_ConnectionID c) (tu_Username c) port) in
     tcpResourceFor domainResource (tu_ipResources c) ip port = (appID, group, domain) /\ appID <> ""%string /\
     dial_node (tu_BestNodes c) (tu_MajorNodeGroup c) group = Ok node /\ To4 ip = Some destIP /\
     hex_decode (chars (tu_SignKey c)) = Ok key /\
     effects = [Connected node; DeadlineSet; Written request; DeadlineCleared] /\
     (if tu_skipWait c then tc_stream t = da_stream a
      else waitForTCPConnect (S (length (da_stream a))) (da_stream a) = Some (Ok (tc_stream t))) /\
     (len (string_bytes text) < 65536 -> exists dest, dest_message domain destIP port = Ok dest /\
        read_block (drop 5 request) = Ok (string_bytes text, dest)) /\
     (exists body, text = body +:+ in_quotes (calcXRequestSig hmac key
                           (string_bytes (body +:+ in_quotes "" +:+ "}"))) +:+ "}") /\
     (Forall plain [tu_SID c; appID; destAddr; tu_DeviceID c; tu_ConnectionID c; tu_Username c] ->
        exists sig, Split text dquote = request_pieces (tu_SID c) appID destAddr (tu_DeviceID c)
                                          (tu_ConnectionID c) (tu_Username c) sig port)).
Proof.
  intros Hcancel H. unfold DialTCP in H.
  destruct (tcpResourceFor domainResource (tu_ipResources c) ip port) as [[appID group] domain] eqn:Hres.
  destruct (is_empty appID) eqn:Happ.
  { injection H as <- <- <-. split_and!; [by left|done|done]. }
  destruct (dial_node _ _ group) as [node|err] eqn:Hnode; [|injection H as <- <- <-; split_and!; [by left|done|done]].
  destruct (da_dial a node) as [u|err] eqn:Hdial; [|injection H as <- <- <-; split_and!; [by left|done|done]].
  destruct (To4 ip) as [destIP|] eqn:Hip; [|injection H as <- <- <-; split_and!; [by right|done|done]].
  destruct (tcp_request sha256 hmac c appID domain ip destIP port) as [request|err] eqn:Hreq;
    [|injection H as <- <- <-; split_and!; [by right|done|done]].
  destruct (da_setDeadline a) as [err|]; [injection H as <- <- <-; split_and!; [by right|done|done]|].
  destruct (establishTCPConnection (tu_skipWait c) request a) as [[r1 health1] effects1] eqn:He.
  pose proof (establish_health _ _ _ _ _ _ He) as Hhealth. pose proof (establish_ok _ _ _ _ _ _ He) as Hok. clear He.
  destruct r1 as [s|err].
  2:{ injection H as <- <- <-. split_and!; [|done|done]. intros _ _. right. exact (last_snoc Disconnected ([Connected node; DeadlineSet] ++ effects1)). }
  destruct (Hok s eq_refl) as (_ & Hafter & _ & -> & Hwait). clear Hok.
  assert (da_canceled a = false) as Hc.
  { destruct (da_canceled a); [|done]. destruct (Hcancel eq_refl) as [e E]. congruence. }
  rewrite Hc in H.
  destruct (da_clearDeadline a) as [err|]; injection H as <- <- <-; (split_and!; [|done|]); try done.
  { intros _ _. by right. }
  intros t [= <-]. unfold tcp_request in Hreq. cbv zeta in Hreq.
  destruct (hex_decode (chars (tu_SignKey c))) as [key|err] eqn:Hkey; [|done].
  destruct (dest_message domain destIP port) as [dest|err] eqn:Hdest; [|done]. cbn [result_bind] in Hreq.
  injection Hreq as Hreq.
  exists appID, group, domain, node, destIP, request, key. cbv zeta. split_and!; try done.
  - by apply is_empty_false.
  - intros Hlen. exists dest. split; [done|]. rewrite <-Hreq.
    change (drop 5 ([5; 1; 129; 83; 3] ++ ?x)) with x. by apply read_block_put.
  - eexists. apply sign_request_text.
  - intros Hp. eexists. unfold tcp_request_text. rewrite sign_request_text.
    apply Split_quoted; [by unfold request_pieces; destruct (process_of port)| |apply request_body_pieces].
    apply request_pieces_plain. repeat (apply Forall_cons in Hp as [? Hp]).
    repeat (apply Forall_cons; split; [assumption|]). apply Forall_cons. split; [|by apply Forall_nil].
    apply HEX_plain, hmac_bytes.
Qed.

(** The authorisation request of a layer-3 flow can be read back from its frame while its JSON is shorter than
    64 KiB; it is the encoding of a request that names the flow's application, number, protocol,
    addresses and ports, and is signed over its own encoding without a signature. *)
Theorem auth_request_of_flow marshal GOOS langs info signKey meta ct bytes :
  sendAuthRequest sha256 hmac marshal GOOS langs info signKey meta ct = Ok bytes ->
  exists r unsigned body,
    marshal (set_sig "" r) = Ok unsigned /\ marshal r = Ok body /\
    req_XRequestSig r = calcXRequestSig hmac signKey unsigned /\
    req_AppID r = ct_appID ct /\ req_ConntrackHash r = ct_authID ct /\ req_Sid r = info_sid info /\
    aip_Protocol (req_IP r) = meta_proto meta /\
    aip_DestAddr (req_IP r) = IP_String (meta_dstIP meta) /\ aip_DestPort (req_IP r) = meta_dstPort meta /\
    aip_SrcAddr (req_IP r) = IP_String (meta_srcIP meta) /\ aip_SrcPort (req_IP r) = meta_srcPort meta /\
    take 2 bytes = [l3Version; cmdAuthReq] /\
    (len body < 65536 -> read_block (drop 2 bytes) = Ok (body, [])).
Proof.
  unfold sendAuthRequest, buildAuthRequest. cbv zeta. intros H.
  destruct (marshal (unsignedAuthRequest sha256 GOOS langs info meta ct)) as [unsigned|err] eqn:Hu; [|done].
  cbn [result_bind] in H. destruct (marshal (set_sig _ _)) as [body|err] eqn:Hb; [|done]. injection H as <-.
  eexists _, unsigned, body. split; [|split; [exact Hb|]]; [exact Hu|]. split_and!; try done.
  intros Hlen. change (read_block (put_be16 (len body) ++ body) = Ok (body, [])).
  pose proof (read_block_put body [] Hlen) as Hr. by rewrite app_nil_r in Hr.
Qed.
End Spec.

(** ** A run *)

(** Stand-ins for the hash and the keyed hash: any functions to bytes will do. *)
Definition demo_sha256 (data : list Z) : list Z := [u8 (len data)].
Definition demo_hmac (key data : list Z) : list Z := [u8 (len key); u8 (len data)].

Definition demo_client : TunnelClient :=
  {| tu_SID := "s1"; tu_DeviceID := "d1"; tu_ConnectionID := "c1"; tu_Username := "u"; tu_SignKey := "0a0b";
     tu_ipResources := []; tu_BestNodes := {["g"%string := "node:443"%string]}; tu_MajorNodeGroup := "";
     tu_skipWait := false |}.

Definition demo_answers : DialAnswers :=
  {| da_dial _ := Ok tt; da_setDeadline := None; da_ctxBefore := None;
     da_write := (match tcp_request demo_sha256 demo_hmac demo_client "app" "a.example" [10; 0; 0; 1] [10; 0; 0; 1] 80
                  with Ok r => len r | Err _ => 0 end, None);
     da_stream := [5; 129] ++ [83; 0; 0; 2; 79; 75] ++ [5; 0; 0; 1; 10; 0; 0; 1; 0; 80] ++ [1; 0; 0; 1; 7]; da_canceled := false; da_ctxAfter := None; da_clearDeadline := None |}.

Definition demo_dial : result error tcpTunnelConn * option error * list dial_effect :=
  DialTCP demo_sha256 demo_hmac demo_client (Some ("app", "g", "a.example")%string) [10; 0; 0; 1] 80 demo_answers.

Lemma demo_bytes : (forall data, bytes_ok (demo_sha256 data)) /\ (forall key data, bytes_ok (demo_hmac key data)).
Proof.
  split; intros; repeat constructor; unfold u8; first [apply Z.mod_pos_bound; lia].
Qed.

Lemma demo_dial_ok :
  exists effects, demo_dial = (Ok {| tc_readBuf := []; tc_stream := [1; 0; 0; 1; 7]; tc_closed := false; tc_health := None |},
                               None, effects).
Proof. vm_compute. by eexists. Qed.

(** The server takes the method, accepts the request, reports the connection and sends a byte. *)
Lemma tcp_dial_sound_witness :
  exists request t, demo_dial = (Ok t, None, [Connected "node:443"; DeadlineSet; Written request; DeadlineCleared]) /\
    waitForTCPConnect (S (length (da_stream demo_answers))) (da_stream demo_answers) = Some (Ok (tc_stream t)) /\
    tc_stream t = [1; 0; 0; 1; 7].
Proof.
  destruct demo_dial_ok as [effects H].
  destruct (tcp_dial_sound demo_sha256 demo_hmac (proj1 demo_bytes) (proj2 demo_bytes) demo_client
    (Some ("app", "g", "a.example")%string) [10; 0; 0; 1] 80 demo_answers _ _ _ ltac:(done) H) as (_ & _ & Hok).
  destruct (Hok _ eq_refl) as (appID & group & domain & node & destIP & request & key & Hres & _ & Hnode & _ & _ & He & Hw & _).
  injection Hres as <- <- <-. injection Hnode as <-. exists request. eexists. rewrite H, He.
  split; [reflexivity|]. split; [exact Hw|reflexivity].
Defined.

(** Values are not escaped: different sessions and applications make one text, and a host name with a quote
    puts members of its own into what is signed. *)
Example request_text_is_ambiguous :
  let q := String dquote EmptyString in
  let text sid appID := tcp_request_text demo_sha256 sid appID "10.0.0.1:80" "d" "c" "u" 80 in
  text ("s" +:+ q +:+ "," +:+ member "appId" "a" +:+ "," +:+ in_quotes "x" +:+ ":" +:+ q) "b" =
  text "s" ("a" +:+ q +:+ "," +:+ member "x" "" +:+ "," +:+ in_quotes "appId" +:+ ":" +:+ q +:+ "b").
Proof. vm_compute. reflexivity. Qed.

Example host_names_reach_the_request :
  let q := String dquote EmptyString in
  let host := "h" +:+ q +:+ "," +:+ in_quotes "appId" +:+ ":" +:+ q +:+ "other.vpn.example" in
  exists before after,
    tcp_request_text demo_sha256 "s" "app" (host +:+ ":80") "d" "c" "u" 80 =
      before +:+ member "appId" "other.vpn.example:80" +:+ after.
Proof.
  cbv zeta. exists ("{" +:+ member "sid" "s" +:+ "," +:+ member "appId" "app" +:+ "," +:+ member "url" "tcp://h" +:+ ",").
  eexists. unfold tcp_request_text, tcp_request_body. cbn -[HEX]. reflexivity.
Qed.
