(* ===== verification/Nodes.v ===== *)
(** The choice of the nearest VPN nodes (client/atrust/node.go) and the TCP ping behind it
    (internal/ping). Durations are in nanoseconds; what each dial answers is an argument, and
    [None] as a result is a Go panic. *)

From S2P Require Import Prelude Core.

Definition pingNum : Z := 3.

Record PingResult : Type := {
  pr_Counter : Z;
  pr_SuccessCounter : Z;
  pr_MinDuration : Z;
  pr_MaxDuration : Z;
  pr_TotalDuration : Z;
}.

Definition newPingResult : PingResult :=
  {| pr_Counter := 0; pr_SuccessCounter := 0; pr_MinDuration := 0; pr_MaxDuration := 0;
     pr_TotalDuration := 0 |}.

(** One dial: its duration, if it succeeded. *)
Definition record_ping (outcome : option Z) (r : PingResult) : PingResult :=
  let r := {| pr_Counter := pr_Counter r + 1; pr_SuccessCounter := pr_SuccessCounter r;
              pr_MinDuration := pr_MinDuration r; pr_MaxDuration := pr_MaxDuration r;
              pr_TotalDuration := pr_TotalDuration r |} in
  match outcome with
  | None => r
  | Some d =>
      let min := if bool_decide (pr_MinDuration r = 0) then d else pr_MinDuration r in
      let max := if bool_decide (pr_MaxDuration r = 0) then d else pr_MaxDuration r in
      {| pr_Counter := pr_Counter r; pr_SuccessCounter := pr_SuccessCounter r + 1;
         pr_MaxDuration := if bool_decide (d > max) then d else max;
         pr_MinDuration := if bool_decide (d > max) then min
                           else if bool_decide (d < min) then d else min;
         pr_TotalDuration := pr_TotalDuration r + d |}
  end.

(** [Start]: one dial at each tick until the counter is reached; the list ends where the
    context does. *)
Fixpoint ping_run (counter : Z) (ticks : list (option Z)) (r : PingResult) : PingResult :=
  match ticks with
  | [] => r
  | outcome :: rest =>
      if bool_decide (pr_Counter r >= counter) && negb (bool_decide (counter = 0)) then r
      else ping_run counter rest (record_ping outcome r)
  end.

(** [Avg] and [Duration.Milliseconds]. *)
Definition Avg (r : PingResult) : Z :=
  if bool_decide (pr_SuccessCounter r = 0) then 0
  else Z.quot (pr_TotalDuration r) (pr_SuccessCounter r).

Definition Milliseconds (d : Z) : Z := Z.quot d 1000000.

(** *** [getBestNodes] *)

(** The target of a node: [None] when [parts[1]] does not exist, [Some None] when the port is
    not a number and the node is skipped. *)
Definition node_target (node : string) : option (option (string * Z)) :=
  match Split node ":" with
  | host :: port :: _ =>
      match Atoi port with Some p => Some (Some (host, p)) | None => Some None end
  | _ => None
  end.

(** [pingList]: a result for each node that is not skipped. *)
Fixpoint ping_list (ticks : string -> list (option Z)) (nodes : list string)
    : option (list PingResult) :=
  match nodes with
  | [] => Some []
  | node :: rest =>
      match node_target node with
      | None => None
      | Some target =>
          match ping_list ticks rest with
          | None => None
          | Some results =>
              Some (match target with
                    | Some _ => ping_run pingNum (ticks node) newPingResult :: results
                    | None => results
                    end)
          end
      end
  end.

(** The loop over [pingList] from index [i]; an index out of range panics. *)
Fixpoint pick_best (nodes : list string) (i : nat) (results : list PingResult)
    (bestLatency : Z) (bestNode : string) : option (Z * string) :=
  match results with
  | [] => Some (bestLatency, bestNode)
  | r :: rest =>
      if bool_decide (pr_SuccessCounter r = pingNum) then
        let latency := Milliseconds (Avg r) in
        if bool_decide (bestLatency = 0) || bool_decide (latency < bestLatency) then
          match nodes !! i with
          | Some node => pick_best nodes (S i) rest latency node
          | None => None
          end
        else pick_best nodes (S i) rest bestLatency bestNode
      else pick_best nodes (S i) rest bestLatency bestNode
  end.

(** One group: [Some None] leaves the group out. *)
Definition best_node (ticks : string -> list (option Z)) (nodes : list string)
    : option (option string) :=
  match nodes with
  | [] => Some None
  | [node] => Some (Some node)
  | first :: _ =>
      match ping_list ticks nodes with
      | None => None
      | Some results =>
          match pick_best nodes 0 results 0 "" with
          | None => None
          | Some (_, best) => Some (Some (if is_empty best then first else best))
          end
      end
  end.

Fixpoint getBestNodes (ticks : string -> list (option Z)) (groups : list (string * list string))
    (best : gmap string string) : option (gmap string string) :=
  match groups with
  | [] => Some best
  | (group, nodes) :: rest =>
      match best_node ticks nodes with
      | None => None
      | Some None => getBestNodes ticks rest best
      | Some (Some node) => getBestNodes ticks rest (<[group := node]> best)
      end
  end.

(** [equalNodes]: a missing group reads as the empty address. *)
Definition equalNodes (left right : gmap string string) : bool :=
  bool_decide (size left = size right)
  && forallb (fun e => bool_decide (default ""%string (right !! e.1) = e.2)) (map_to_list left).

(** One round of [updateBestNodes]: the nodes kept and whether the handler is called. *)
Definition updateBestNodes (current best : gmap string string) : gmap string string * bool :=
  (best, negb (equalNodes current best)).

(** ** Theorems *)

Definition latency (ticks : string -> list (option Z)) (node : string) : Z :=
  Milliseconds (Avg (ping_run pingNum (ticks node) newPingResult)).

Definition reachable_node (ticks : string -> list (option Z)) (node : string) : Prop :=
  pr_SuccessCounter (ping_run pingNum (ticks node) newPingResult) = pingNum.

Definition proper_node (node : string) : Prop :=
  node <> ""%string /\ exists target, node_target node = Some (Some target).

(** A list of nodes that all have a port part is measured without a panic. *)
Lemma ping_list_total ticks nodes :
  Forall (fun n => node_target n <> None) nodes ->
  exists results, ping_list ticks nodes = Some results /\ (length results <= length nodes)%nat.
Proof.
  induction 1 as [|n nodes Hn _ (results & IH & Hl)]; [by exists []|]. cbn [ping_list].
  destruct (node_target n) as [t|]; [|done]. rewrite IH. eexists. split; [done|].
  destruct t; simpl; lia.
Qed.

Lemma pick_best_total nodes i results lat best :
  (i + length results <= length nodes)%nat -> exists r, pick_best nodes i results lat best = Some r.
Proof.
  revert i lat best. induction results as [|r results IH]; intros i lat best Hl; [by eexists|].
  simpl in Hl. cbn [pick_best]. destruct (lookup_lt_is_Some_2 nodes i) as [n ->]; [lia|].
  repeat case_match; apply IH; lia.
Qed.

Lemma best_node_total ticks nodes :
  Forall (fun n => node_target n <> None) nodes -> exists r, best_node ticks nodes = Some r.
Proof.
  intros Hn. unfold best_node. destruct nodes as [|first [|second rest]]; [by eexists..|].
  destruct (ping_list_total ticks _ Hn) as (results & -> & Hl).
  destruct (pick_best_total (first :: second :: rest) 0 results 0 "" Hl) as [[] ->]. by eexists.
Qed.

Lemma getBestNodes_total ticks groups best :
  Forall (fun g => Forall (fun n => node_target n <> None) g.2) groups ->
  exists r, getBestNodes ticks groups best = Some r.
Proof.
  intros Hg. revert best. induction Hg as [|[group nodes] groups Hn _ IH]; intros best; [by eexists|].
  cbn [getBestNodes]. destruct (best_node_total ticks nodes Hn) as [[node|] ->]; apply IH.
Qed.

Lemma ping_list_proper ticks nodes :
  Forall proper_node nodes ->
  ping_list ticks nodes = Some (map (fun n => ping_run pingNum (ticks n) newPingResult) nodes).
Proof. induction 1 as [|n nodes (_ & t & Hn) _ IH]; [done|]. simpl. by rewrite Hn, IH. Qed.

(** The loop keeps the best of the nodes it has seen. *)
Lemma pick_best_spec ticks nodes seen rest lat best :
  nodes = seen ++ rest -> Forall proper_node nodes ->
  (forall n, n ∈ nodes -> reachable_node ticks n -> 1 <= latency ticks n) ->
  (best = ""%string /\ lat = 0 /\ (forall n, n ∈ seen -> ~ reachable_node ticks n)) \/
  (best ∈ seen /\ reachable_node ticks best /\ lat = latency ticks best /\
   forall n, n ∈ seen -> reachable_node ticks n -> latency ticks best <= latency ticks n) ->
  exists lat' best',
    pick_best nodes (length seen) (map (fun n => ping_run pingNum (ticks n) newPingResult) rest)
      lat best = Some (lat', best') /\
    ((best' = ""%string /\ forall n, n ∈ nodes -> ~ reachable_node ticks n) \/
     (best' ∈ nodes /\ reachable_node ticks best' /\
      forall n, n ∈ nodes -> reachable_node ticks n -> latency ticks best' <= latency ticks n)).
Proof.
  revert seen lat best. induction rest as [|x rest IH]; intros seen lat best Heq Hp Hpos Hinv.
  - rewrite app_nil_r in Heq. subst seen. exists lat, best. split; [done|].
    destruct Hinv as [(-> & _ & H)|(? & ? & _ & ?)]; [by left|by right].
  - assert (nodes = (seen ++ [x]) ++ rest) as Heq' by (by rewrite <-app_assoc).
    assert (length (seen ++ [x]) = S (length seen)) as Hlen by (rewrite length_app; simpl; lia).
    assert (x ∈ nodes) as Hx by (rewrite Heq; apply elem_of_app; right; by left).
    simpl. fold (latency ticks x).
    assert (forall lat best,
      (best = ""%string /\ lat = 0 /\ (forall n, n ∈ seen ++ [x] -> ~ reachable_node ticks n)) \/
      (best ∈ seen ++ [x] /\ reachable_node ticks best /\ lat = latency ticks best /\
       forall n, n ∈ seen ++ [x] -> reachable_node ticks n -> latency ticks best <= latency ticks n) ->
      exists lat' best', pick_best nodes (S (length seen))
        (map (fun n => ping_run pingNum (ticks n) newPingResult) rest) lat best = Some (lat', best') /\
        ((best' = ""%string /\ forall n, n ∈ nodes -> ~ reachable_node ticks n) \/
         (best' ∈ nodes /\ reachable_node ticks best' /\
          forall n, n ∈ nodes -> reachable_node ticks n -> latency ticks best' <= latency ticks n)))
      as Hgo.
    { intros l b Hl. rewrite <-Hlen. by apply IH. }
    assert (forall P : string -> Prop, (forall n, n ∈ seen -> P n) -> P x ->
              forall n, n ∈ seen ++ [x] -> P n) as Hsnoc.
    { intros P H1 H2 n [Hn| ->%list_elem_of_singleton]%elem_of_app; auto. }
    case_bool_decide as Hr.
    + pose proof (Hpos x Hx Hr) as Hlx.
      assert (nodes !! length seen = Some x) as ->
        by (rewrite Heq; by apply list_lookup_middle).
      destruct (bool_decide (lat = 0) || bool_decide (latency ticks x < lat)) eqn:Hb.
      * apply Hgo. right. split; [apply elem_of_app; right; by left|]. split_and!; [done|done|].
        apply (Hsnoc (fun n => reachable_node ticks n -> latency ticks x <= latency ticks n)); [|lia].
        intros n Hn Hrn.
        destruct Hinv as [(_ & _ & H)|(Hbs & Hrb & -> & H)]; [by destruct (H n Hn)|].
        specialize (H n Hn Hrn). apply orb_true_iff in Hb as [Hb|Hb];
          apply bool_decide_eq_true in Hb; [|lia].
        assert (best ∈ nodes) as Hbn by (rewrite Heq; apply elem_of_app; by left).
        specialize (Hpos best Hbn Hrb). lia.
      * apply orb_false_iff in Hb as [Hb1 Hb2].
        apply bool_decide_eq_false in Hb1. apply bool_decide_eq_false in Hb2.
        apply Hgo. destruct Hinv as [(_ & Hz & _)|(Hbs & Hrb & -> & H)]; [by destruct Hb1|].
        right. split; [apply elem_of_app; by left|]. split_and!; [done|done|].
        apply (Hsnoc (fun n => reachable_node ticks n -> latency ticks best <= latency ticks n));
          [done|lia].
    + apply Hgo. destruct Hinv as [(-> & -> & H)|(Hbs & Hrb & Hl & H)]; [left|right].
      * split_and!; [done|done|]. by apply (Hsnoc (fun n => ~ reachable_node ticks n)).
      * split; [apply elem_of_app; by left|]. split_and!; [done|done|].
        apply (Hsnoc (fun n => reachable_node ticks n -> latency ticks best <= latency ticks n));
          [done|]. intros Hrx. by destruct Hr.
Qed.

(** The node chosen for a group is the nearest one. If every address of the group is a
    host and a numeric port, and no reachable node answers within less than a millisecond, then
    the choice does not fail, it is a node of the group, and it is one with all pings answered
    and the least average latency, if there is any; the first node otherwise. *)
Theorem best_node_nearest (ticks : string -> list (option Z)) (nodes : list string) :
  (2 <= length nodes)%nat -> Forall proper_node nodes ->
  (forall n, n ∈ nodes -> reachable_node ticks n -> 1 <= latency ticks n) ->
  exists best, best_node ticks nodes = Some (Some best) /\ best ∈ nodes /\
    ((reachable_node ticks best /\
      forall n, n ∈ nodes -> reachable_node ticks n -> latency ticks best <= latency ticks n) \/
     (Some best = head nodes /\ forall n, n ∈ nodes -> ~ reachable_node ticks n)).
Proof.
  intros Hlen Hp Hpos. destruct nodes as [|first [|second rest]]; simpl in Hlen; [lia..|].
  set (nodes := first :: second :: rest) in *.
  destruct (pick_best_spec ticks nodes [] nodes 0 "" eq_refl Hp Hpos) as (lat & best & Hb & Hc).
  { left. split_and!; [done|done|]. by intros n ?%elem_of_nil. }
  assert (best_node ticks nodes = Some (Some (if is_empty best then first else best))) as ->.
  { unfold best_node. fold nodes. rewrite ping_list_proper by done.
    change 0%nat with (@length string []). by rewrite Hb. }
  destruct Hc as [[-> Hn]|(Hin & Hr & Hm)]; simpl.
  - exists first. split_and!; [done|by left|]. by right.
  - assert (proper_node best) as [Hne _] by (by eapply Forall_forall in Hp; [|exact Hin]).
    unfold is_empty. rewrite bool_decide_eq_false_2 by done. exists best.
    split_and!; [done|done|by left].
Qed.

(** What the choice for one group promises: a group without nodes has none, a single node is
    taken without a measurement, and among more nodes the nearest one is chosen when all their
    addresses have a numeric port ([skipped_node_is_chosen] shows the other case) and no
    reachable one answers within less than a millisecond. *)
Definition nearest_chosen (ticks : string -> list (option Z)) (nodes : list string)
    (chosen : option string) : Prop :=
  match nodes with
  | [] => chosen = None
  | [node] => chosen = Some node
  | _ =>
      Forall proper_node nodes ->
      (forall n, n ∈ nodes -> reachable_node ticks n -> 1 <= latency ticks n) ->
      exists best, chosen = Some best /\ best ∈ nodes /\
        ((reachable_node ticks best /\
          forall n, n ∈ nodes -> reachable_node ticks n -> latency ticks best <= latency ticks n) \/
         (Some best = head nodes /\ forall n, n ∈ nodes -> ~ reachable_node ticks n))
  end.

Lemma best_node_chosen ticks nodes chosen :
  best_node ticks nodes = Some chosen -> nearest_chosen ticks nodes chosen.
Proof.
  intros H. destruct nodes as [|first [|second rest]]; [by injection H|by injection H|].
  intros Hp Hpos.
  destruct (best_node_nearest ticks (first :: second :: rest)) as (best & Hb & ?);
    [simpl; lia|done|done|].
  rewrite H in Hb. injection Hb as ->. by exists best.
Qed.

Lemma getBestNodes_other ticks groups best m id :
  id ∉ groups.*1 -> getBestNodes ticks groups best = Some m -> m !! id = best !! id.
Proof.
  revert best. induction groups as [|[group nodes] groups IH]; intros best Hid H.
  { by injection H as <-. }
  apply not_elem_of_cons in Hid as [Hne Hid]. cbn [getBestNodes] in H. simpl in Hne.
  destruct (best_node ticks nodes) as [[node|]|]; [|by eapply IH|done].
  rewrite (IH _ Hid H). by apply lookup_insert_ne.
Qed.

Lemma getBestNodes_chosen ticks groups best m id nodes :
  NoDup (groups.*1) -> (id, nodes) ∈ groups -> best !! id = None ->
  getBestNodes ticks groups best = Some m -> nearest_chosen ticks nodes (m !! id).
Proof.
  revert best. induction groups as [|[group gnodes] groups IH]; intros best Hnd Hin Hid H.
  { by apply elem_of_nil in Hin. }
  apply NoDup_cons in Hnd as [Hg Hnd]. cbn [getBestNodes] in H. simpl in Hg.
  apply elem_of_cons in Hin as [[= -> ->]|Hin].
  - destruct (best_node ticks gnodes) as [chosen|] eqn:Hb; [|done]. apply best_node_chosen in Hb.
    destruct chosen as [node|]; rewrite (getBestNodes_other _ _ _ _ _ Hg H);
      [by rewrite lookup_insert_eq|by rewrite Hid].
  - assert (id <> group) as Hne.
    { intros ->. apply Hg. apply list_elem_of_fmap. by exists (group, nodes). }
    destruct (best_node ticks gnodes) as [[node|]|]; [| |done].
    + apply (IH (<[group := node]> best)); try done. by rewrite lookup_insert_ne.
    + by apply (IH best).
Qed.

(** Two nodes, the second nearer. *)
Definition sample_ticks (node : string) : list (option Z) :=
  if bool_decide (node = "a:443"%string) then [Some 30000000; Some 30000000; Some 30000000]
  else if bool_decide (node = "b:443"%string) then [Some 10000000; Some 10000000; Some 10000000]
  else [].

Lemma best_node_nearest_witness :
  exists best, best_node sample_ticks ["a:443"; "b:443"]%string = Some (Some best) /\
    best = "b:443"%string.
Proof.
  destruct (best_node_nearest sample_ticks ["a:443"; "b:443"]%string) as (best & Hb & _).
  - simpl. lia.
  - repeat constructor; try discriminate; by eexists.
  - intros n [->|[->|?%elem_of_nil]%elem_of_cons]%elem_of_cons _; [by vm_compute..|done].
  - exists best. split; [done|]. vm_compute in Hb. by injection Hb as <-.
Defined.

(** A node whose port is not a number shifts the results against the nodes: the unreachable
    node itself is chosen, although two nodes answer. *)
Example skipped_node_is_chosen :
  best_node sample_ticks ["c:https"; "b:443"; "a:443"]%string = Some (Some "c:https"%string).
Proof. by vm_compute. Qed.
