(* ===== verification/FakeIP.v ===== *)
(** The fake IP table of the TUN inbound (internal/networkruntime/tun_fakeip.go). An entry
    is a handle into an object store: both maps of the program point to the same entry, and
    reassigning it is visible through both. Time is in nanoseconds. *)

From S2P Require Import Prelude Core GoNet.

Definition fakeIPReuseAfter : Z := 30 * 60 * 1000000000.
Definition defaultTUNFakeIPRange : string := "198.18.0.0/16".

Record fakeIPEntry : Type := {
  fe_domain : string;
  fe_address : Addr;
  fe_resolved : Addr;
  fe_lastUsed : Z;
}.

Record fakeIPStore : Type := {
  fs_prefix : Prefix;
  fs_domainToIP : gmap string nat;
  fs_ipToDomain : gmap Addr nat;
  fs_entries : gmap nat fakeIPEntry;
  fs_next : Z;
  fs_last : Z;
}.

Definition normalizeDomain (domain : string) : string :=
  TrimSuffix (ToLower (TrimSpace domain)) ".".

Definition addrToUint32 (a : Addr) : Z := match a with Addr4 n => n | _ => 0 end.

Definition uint32ToAddr (value : Z) : Addr := Addr4 value.

Definition newFakeIPStore (prefixText : string) : result error fakeIPStore :=
  match ParsePrefix prefixText with
  | None => Err (EText ("parse TUN fake IP range " +:+ quote prefixText))
  | Some prefix =>
      let prefix := Masked prefix in
      if negb (Is4 (pfx_addr prefix)) || bool_decide (pfx_bits prefix < 8)
         || bool_decide (pfx_bits prefix > 30) then
        Err (EText "TUN fake IP range must be an IPv4 prefix between /8 and /30")
      else
        let base := addrToUint32 (pfx_addr prefix) in
        let count := u64 (Z.shiftl 1 (32 - pfx_bits prefix)) in
        Ok {| fs_prefix := prefix; fs_domainToIP := ∅; fs_ipToDomain := ∅; fs_entries := ∅;
              fs_next := u32 (base + 2); fs_last := u32 (u64 (base + count - 2)) |}
  end.

Definition set_entry (h : nat) (e : fakeIPEntry) (s : fakeIPStore) : fakeIPStore :=
  {| fs_prefix := fs_prefix s; fs_domainToIP := fs_domainToIP s;
     fs_ipToDomain := fs_ipToDomain s; fs_entries := <[h := e]> (fs_entries s);
     fs_next := fs_next s; fs_last := fs_last s |}.

Definition set_domains (m : gmap string nat) (s : fakeIPStore) : fakeIPStore :=
  {| fs_prefix := fs_prefix s; fs_domainToIP := m; fs_ipToDomain := fs_ipToDomain s;
     fs_entries := fs_entries s; fs_next := fs_next s; fs_last := fs_last s |}.

Definition used (domain : string) (resolved : Addr) (now : Z) (e : fakeIPEntry) : fakeIPEntry :=
  {| fe_domain := domain; fe_address := fe_address e; fe_resolved := resolved;
     fe_lastUsed := now |}.

Definition entry_lastUsed (s : fakeIPStore) (h : nat) : Z :=
  match fs_entries s !! h with Some e => fe_lastUsed e | None => 0 end.

(** The order in which [range] visits a map is unspecified: it is a parameter. *)
Section Assign.
Variable range : gmap string nat -> list (string * nat).

Definition oldestReusable (now : Z) (s : fakeIPStore) : option nat :=
  let cutoff := now - fakeIPReuseAfter in
  foldl (fun oldest '(_, h) =>
      if bool_decide (entry_lastUsed s h > cutoff)
         || match oldest with
            | Some o => negb (bool_decide (entry_lastUsed s h < entry_lastUsed s o))
            | None => false
            end
      then oldest else Some h)
    None (range (fs_domainToIP s)).

Definition assign (now : Z) (domain : string) (resolved : Addr) (s : fakeIPStore)
    : result error Addr * fakeIPStore :=
  let domain := normalizeDomain domain in
  match fs_domainToIP s !! domain with
  | Some h =>
      match fs_entries s !! h with
      | Some e => (Ok (fe_address e), set_entry h (used (fe_domain e) resolved now e) s)
      | None => (Err (EText "nil entry"), s)
      end
  | None =>
      if bool_decide (fs_next s > fs_last s) then
        match oldestReusable now s with
        | None => (Err (EText ("TUN fake IP range " +:+ Prefix_String (fs_prefix s)
                                    +:+ " is exhausted")), s)
        | Some h =>
            match fs_entries s !! h with
            | Some e =>
                (Ok (fe_address e),
                 set_domains (<[domain := h]> (delete (fe_domain e) (fs_domainToIP s)))
                   (set_entry h (used domain resolved now e) s))
            | None => (Err (EText "nil entry"), s)
            end
        end
      else
        let address := uint32ToAddr (fs_next s) in
        let h := fresh (dom (fs_entries s)) in
        (Ok address,
         {| fs_prefix := fs_prefix s;
            fs_domainToIP := <[domain := h]> (fs_domainToIP s);
            fs_ipToDomain := <[address := h]> (fs_ipToDomain s);
            fs_entries := <[h := {| fe_domain := domain; fe_address := address;
                                    fe_resolved := resolved; fe_lastUsed := now |}]> (fs_entries s);
            fs_next := u32 (fs_next s + 1); fs_last := fs_last s |})
  end.

Definition Assign (now : Z) (domain : string) (s : fakeIPStore) : result error Addr * fakeIPStore :=
  assign now domain AddrInvalid s.

Definition AssignResolved (now : Z) (domain : string) (resolved : Addr) (s : fakeIPStore)
    : result error Addr * fakeIPStore :=
  let resolved := Unmap resolved in
  if negb (Is4 resolved) then
    (Err (EText "resolved TUN fake IP destination must be IPv4"), s)
  else assign now domain resolved s.
End Assign.

Definition LookupDestination (now : Z) (address : Addr) (s : fakeIPStore)
    : option (string * Addr) * fakeIPStore :=
  if negb (IsValid address) then (None, s)
  else
    match fs_ipToDomain s !! Unmap address with
    | None => (None, s)
    | Some h =>
        match fs_entries s !! h with
        | None => (None, s)
        | Some e =>
            (Some (fe_domain e, fe_resolved e),
             set_entry h (used (fe_domain e) (fe_resolved e) now e) s)
        end
    end.

Definition Lookup (now : Z) (address : Addr) (s : fakeIPStore) : option string * fakeIPStore :=
  let '(r, s) := LookupDestination now address s in (option_map fst r, s).

(** The calls on a store, each at the time it takes the lock. *)
Inductive fake_step (range : gmap string nat -> list (string * nat)) (now : Z)
    : fakeIPStore -> fakeIPStore -> Prop :=
| fake_assign domain s : fake_step range now s (Assign range now domain s).2
| fake_assign_resolved domain resolved s :
    fake_step range now s (AssignResolved range now domain resolved s).2
| fake_lookup address s : fake_step range now s (LookupDestination now address s).2.

(** ** Theorems *)

Definition fs_base (s : fakeIPStore) : Z := addrToUint32 (pfx_addr (fs_prefix s)).

Record fake_inv (s : fakeIPStore) : Prop := {
  fi_dom : forall d h, fs_domainToIP s !! d = Some h ->
    exists e, fs_entries s !! h = Some e /\ fe_domain e = d /\
      fs_ipToDomain s !! fe_address e = Some h;
  fi_ip : forall a h, fs_ipToDomain s !! a = Some h ->
    exists e, fs_entries s !! h = Some e /\ fe_address e = a /\
      fs_domainToIP s !! fe_domain e = Some h;
  fi_range : forall a h, fs_ipToDomain s !! a = Some h ->
    exists n, a = Addr4 n /\ fs_base s + 2 <= n < fs_next s;
  fi_next : 0 <= fs_base s /\ fs_base s + 2 <= fs_next s <= fs_last s + 1 /\
    fs_last s < 2 ^ 32 - 1
}.

(** The bounds that the arithmetic of [newFakeIPStore] establishes for a prefix of 8 to 30
    bits: the first and the last address of the block stay free, and nothing wraps. *)
Lemma masked_block n bits :
  0 <= n < 2 ^ 32 -> 8 <= bits <= 30 ->
  let base := n - n mod 2 ^ (32 - bits) in
  0 <= base /\ 4 <= 2 ^ (32 - bits) <= 2 ^ 24 /\ base + 2 ^ (32 - bits) <= 2 ^ 32.
Proof.
  intros Hn Hb base.
  assert (2 ^ 2 <= 2 ^ (32 - bits) <= 2 ^ 24) as Hc by (split; apply Z.pow_le_mono_r; lia).
  set (c := 2 ^ (32 - bits)) in *. assert (0 < c) as Hpos by lia.
  pose proof (Z.div_mod n c) as Hdm. pose proof (Z.mod_pos_bound n c) as Hm.
  assert (2 ^ 32 = 2 ^ bits * c) as Hpow
    by (unfold c; rewrite <-Z.pow_add_r by lia; f_equal; lia).
  assert (base = c * (n / c)) as Hbase by (unfold base; lia).
  assert (n / c < 2 ^ bits) as Hlt by (apply Z.div_lt_upper_bound; lia).
  assert (0 <= n / c) by (apply Z.div_pos; lia).
  split_and!; [lia|lia|lia|]. rewrite Hpow, Hbase. nia.
Qed.

Lemma newFakeIPStore_fields text s :
  newFakeIPStore text = Ok s ->
  exists n bits, fs_prefix s = {| pfx_addr := Addr4 n; pfx_bits := bits |} /\
    8 <= bits <= 30 /\ 0 <= n /\ n + 2 ^ (32 - bits) <= 2 ^ 32 /\
    fs_next s = n + 2 /\ fs_last s = n + 2 ^ (32 - bits) - 2 /\
    fs_domainToIP s = ∅ /\ fs_ipToDomain s = ∅.
Proof.
  unfold newFakeIPStore. destruct (ParsePrefix text) as [p|] eqn:Hp; [|done].
  destruct (_ || _) eqn:Hg; [done|]. intros [= <-]. cbn [fs_prefix fs_next fs_last fs_domainToIP fs_ipToDomain].
  apply orb_false_iff in Hg as [[H4 H8]%orb_false_iff H30]. bool_hyps.
  destruct p as [a bits]. destruct a as [|n|n]; simpl in *; try done.
  destruct (ParsePrefix_bounds _ _ _ Hp eq_refl) as [Hn _].
  destruct (masked_block n bits Hn) as (H0 & Hc & Hend); [lia|].
  exists (n - n mod 2 ^ (32 - bits)), bits. rewrite Z.shiftl_1_l.
  unfold u32, u64. rewrite (Z.mod_small (2 ^ (32 - bits))) by lia.
  split_and!; try done; try lia.
  - apply Z.mod_small. lia.
  - rewrite (Z.mod_small _ (2 ^ 64)) by lia. apply Z.mod_small. lia.
Qed.

Lemma newFakeIPStore_inv text s : newFakeIPStore text = Ok s -> fake_inv s.
Proof.
  intros H. destruct (newFakeIPStore_fields text s H)
    as (n & bits & Hp & Hb & Hn & Hend & Hnext & Hlast & Hd & Hi).
  assert (4 <= 2 ^ (32 - bits)) by (apply (Z.pow_le_mono_r 2 2); lia).
  split.
  - intros d h. by rewrite Hd.
  - intros a h. by rewrite Hi.
  - intros a h. by rewrite Hi.
  - unfold fs_base. rewrite Hp. simpl. rewrite Hnext, Hlast. lia.
Qed.

Lemma entry_inv s d h e : fake_inv s -> fs_domainToIP s !! d = Some h ->
  fs_entries s !! h = Some e -> fe_domain e = d /\ fs_ipToDomain s !! fe_address e = Some h.
Proof.
  intros Hs Hd He. destruct (fi_dom s Hs d h Hd) as (e' & He' & ? & ?). by simplify_eq.
Qed.

(** Touching an entry keeps the invariant. *)
Lemma set_entry_inv s h e resolved now :
  fake_inv s -> fs_entries s !! h = Some e ->
  fake_inv (set_entry h (used (fe_domain e) resolved now e) s).
Proof.
  intros [Hd Hi Hr Hn] He. split; simpl; [| |done|done].
  - intros d h' Hh. destruct (Hd d h' Hh) as (e' & He' & ? & ?).
    destruct (decide (h = h')) as [<-|?].
    + rewrite lookup_insert_eq. simplify_eq. eauto.
    + rewrite lookup_insert_ne by done. eauto.
  - intros a h' Hh. destruct (Hi a h' Hh) as (e' & He' & ? & ?).
    destruct (decide (h = h')) as [<-|?].
    + rewrite lookup_insert_eq. simplify_eq. eauto.
    + rewrite lookup_insert_ne by done. eauto.
Qed.

(** Handing the address of an entry to another domain. *)
Lemma reassign_inv s h e domain resolved now :
  fake_inv s -> fs_domainToIP s !! domain = None ->
  fs_domainToIP s !! fe_domain e = Some h -> fs_entries s !! h = Some e ->
  fake_inv (set_domains (<[domain := h]> (delete (fe_domain e) (fs_domainToIP s)))
              (set_entry h (used domain resolved now e) s)).
Proof.
  intros Hs Hnew Hold He. pose proof (entry_inv s _ h e Hs Hold He) as [_ Hip].
  destruct Hs as [Hd Hi Hr Hn]. split; simpl; [| |done|done].
  - intros d h' [[<- <-]|[Hne [Hne' Hh]%lookup_delete_Some]]%lookup_insert_Some.
    + rewrite lookup_insert_eq. eexists. split; [done|]. done.
    + destruct (Hd d h' Hh) as (e' & He' & Hde & Hia).
      assert (h <> h') by (intros <-; simplify_eq).
      rewrite lookup_insert_ne by done. eauto.
  - intros a h' Hh. destruct (Hi a h' Hh) as (e' & He' & Hae & Hdo).
    destruct (decide (h = h')) as [<-|Hne].
    + rewrite lookup_insert_eq. simplify_eq. eexists. split; [done|]. simpl.
      split; [done|]. apply lookup_insert_eq.
    + rewrite lookup_insert_ne by done. exists e'. split_and!; [done..|].
      rewrite lookup_insert_ne by congruence. apply lookup_delete_Some. split; [congruence|done].
Qed.

Lemma fresh_entry_inv s domain resolved now :
  fake_inv s -> fs_domainToIP s !! domain = None -> fs_next s <= fs_last s ->
  let h := fresh (dom (fs_entries s)) in
  fake_inv {| fs_prefix := fs_prefix s;
              fs_domainToIP := <[domain := h]> (fs_domainToIP s);
              fs_ipToDomain := <[uint32ToAddr (fs_next s) := h]> (fs_ipToDomain s);
              fs_entries := <[h := {| fe_domain := domain; fe_address := uint32ToAddr (fs_next s);
                                      fe_resolved := resolved; fe_lastUsed := now |}]> (fs_entries s);
              fs_next := u32 (fs_next s + 1); fs_last := fs_last s |}.
Proof.
  intros [Hd Hi Hr Hn] Hnew Hle h.
  assert (fs_entries s !! h = None) as Hf by (apply not_elem_of_dom, is_fresh).
  assert (u32 (fs_next s + 1) = fs_next s + 1) as Hu by (unfold u32; apply Z.mod_small; lia).
  split; simpl; rewrite ?Hu.
  - intros d h' [[<- <-]|[Hne Hh]]%lookup_insert_Some.
    + rewrite lookup_insert_eq. eexists. split_and!; [done..|]. by rewrite lookup_insert_eq.
    + destruct (Hd d h' Hh) as (e & He & Hde & Hia).
      rewrite lookup_insert_ne by congruence. exists e. split_and!; [done..|].
      rewrite lookup_insert_ne; [done|]. intros Heq. rewrite <-Heq in Hia.
      destruct (Hr _ _ Hia) as (n & [= <-] & ?). lia.
  - intros a h' [[<- <-]|[Hne Hh]]%lookup_insert_Some.
    + rewrite lookup_insert_eq. eexists. split_and!; [done..|]. by rewrite lookup_insert_eq.
    + destruct (Hi a h' Hh) as (e & He & Hae & Hdo).
      rewrite lookup_insert_ne by congruence. exists e. split_and!; [done..|].
      rewrite lookup_insert_ne; [done|]. congruence.
  - intros a h' [[<- <-]|[Hne Hh]]%lookup_insert_Some.
    + eexists. split; [done|]. unfold fs_base in *. simpl. lia.
    + destruct (Hr a h' Hh) as (n & -> & ?). exists n. unfold fs_base in *. simpl.
      split; [done|lia].
  - unfold fs_base in *. simpl. lia.
Qed.

(** What [oldestReusable] picks: an indexed entry idle for the reuse period, if any. *)
Lemma oldest_fold_spec s now l acc :
  (forall o, acc = Some o -> entry_lastUsed s o <= now - fakeIPReuseAfter) ->
  match foldl (fun oldest '(_, h) =>
      if bool_decide (entry_lastUsed s h > now - fakeIPReuseAfter)
         || match oldest with
            | Some o => negb (bool_decide (entry_lastUsed s h < entry_lastUsed s o))
            | None => false
            end
      then oldest else Some h) acc (l : list (string * nat)) with
  | Some h => ((exists d, (d, h) ∈ l) \/ acc = Some h) /\
      entry_lastUsed s h <= now - fakeIPReuseAfter
  | None => acc = None /\
      forall d h, (d, h) ∈ l -> now - fakeIPReuseAfter < entry_lastUsed s h
  end.
Proof.
  revert acc. induction l as [|[d h] l IH]; intros acc Hacc; cbn [foldl].
  { destruct acc as [o|]; [split; [by right|by apply Hacc]|].
    split; [done|]. by intros ?? ?%elem_of_nil. }
  set (acc' := if _ || _ then acc else Some h).
  assert ((acc' = acc /\ (acc = None -> now - fakeIPReuseAfter < entry_lastUsed s h)) \/
          (acc' = Some h /\ entry_lastUsed s h <= now - fakeIPReuseAfter)) as Hcase.
  { unfold acc'. case_bool_decide; simpl; [left; split; [done|lia]|].
    destruct acc as [o|]; [case_bool_decide; simpl; [right; split; [done|lia]|by left]|].
    right. split; [done|lia]. }
  assert (forall o, acc' = Some o -> entry_lastUsed s o <= now - fakeIPReuseAfter) as Hacc'.
  { destruct Hcase as [[-> _]|[-> ?]]; [done|by intros o [= <-]]. }
  specialize (IH acc' Hacc').
  destruct (foldl _ acc' l) as [r|].
  - destruct IH as [[[d' Hin]|Heq] Hr]; (split; [|done]).
    + left. exists d'. by right.
    + destruct Hcase as [[Ha _]|[Ha _]]; rewrite Ha in Heq; [by right|].
      injection Heq as <-. left. exists d. by left.
  - destruct IH as [Hn Hall]. destruct Hcase as [[Ha Hold]|[Ha _]]; [|congruence].
    rewrite Ha in Hn. split; [done|].
    intros d' h' [[= -> ->]|?]%elem_of_cons; [by apply Hold|by eapply Hall].
Qed.

Section FakeRange.
Variable range : gmap string nat -> list (string * nat).
Hypothesis range_perm : forall m, range m ≡ₚ map_to_list m.

Lemma oldestReusable_spec now s :
  match oldestReusable range now s with
  | Some h => (exists d, fs_domainToIP s !! d = Some h) /\
      entry_lastUsed s h <= now - fakeIPReuseAfter
  | None => forall d h, fs_domainToIP s !! d = Some h ->
      now - fakeIPReuseAfter < entry_lastUsed s h
  end.
Proof.
  pose proof (oldest_fold_spec s now (range (fs_domainToIP s)) None) as H.
  unfold oldestReusable. destruct (foldl _ _ _) as [h|]; (destruct H as [H1 H2]; [done|]).
  - destruct H1 as [[d Hd]|]; [|done]. split; [|done]. exists d.
    by rewrite range_perm, elem_of_map_to_list in Hd.
  - intros d h Hd. apply (H2 d h). by rewrite range_perm, elem_of_map_to_list.
Qed.

(** The three outcomes of [assign]. *)
Lemma assign_cases now domain resolved s :
  fake_inv s ->
  let d := normalizeDomain domain in
  (exists h e, fs_domainToIP s !! d = Some h /\ fs_entries s !! h = Some e /\ fe_domain e = d /\
     assign range now domain resolved s =
       (Ok (fe_address e), set_entry h (used (fe_domain e) resolved now e) s)) \/
  (exists h e, fs_domainToIP s !! d = None /\ fs_last s < fs_next s /\
     fs_domainToIP s !! fe_domain e = Some h /\ fs_entries s !! h = Some e /\
     fe_lastUsed e <= now - fakeIPReuseAfter /\
     assign range now domain resolved s =
       (Ok (fe_address e), set_domains (<[d := h]> (delete (fe_domain e) (fs_domainToIP s)))
                             (set_entry h (used d resolved now e) s))) \/
  (fs_domainToIP s !! d = None /\ fs_last s < fs_next s /\
     (forall d' h e, fs_domainToIP s !! d' = Some h -> fs_entries s !! h = Some e ->
        now - fakeIPReuseAfter < fe_lastUsed e) /\
     exists err, assign range now domain resolved s = (Err err, s)) \/
  (fs_domainToIP s !! d = None /\ fs_next s <= fs_last s /\
     let h := fresh (dom (fs_entries s)) in
     assign range now domain resolved s =
       (Ok (uint32ToAddr (fs_next s)),
        {| fs_prefix := fs_prefix s;
           fs_domainToIP := <[d := h]> (fs_domainToIP s);
           fs_ipToDomain := <[uint32ToAddr (fs_next s) := h]> (fs_ipToDomain s);
           fs_entries := <[h := {| fe_domain := d; fe_address := uint32ToAddr (fs_next s);
                                   fe_resolved := resolved; fe_lastUsed := now |}]> (fs_entries s);
           fs_next := u32 (fs_next s + 1); fs_last := fs_last s |})).
Proof.
  intros Hs d. unfold assign. fold d.
  destruct (fs_domainToIP s !! d) as [h|] eqn:Hd.
  { left. destruct (fi_dom s Hs d h Hd) as (e & He & Hde & _). rewrite He. eauto 6. }
  right. case_bool_decide as Hn; [|right; right; split_and!; [done|lia|done]].
  pose proof (oldestReusable_spec now s) as Ho.
  destruct (oldestReusable range now s) as [h|].
  - left. destruct Ho as [[d' Hd'] Hu]. destruct (fi_dom s Hs d' h Hd') as (e & He & <- & _).
    unfold entry_lastUsed in Hu. rewrite He in *. exists h, e. split_and!; try done. lia.
  - right; left. split_and!; [done|lia| |eauto].
    intros d' h e Hd' He. specialize (Ho d' h Hd'). unfold entry_lastUsed in Ho. by rewrite He in Ho.
Qed.

Lemma assign_inv now domain resolved s :
  fake_inv s -> fake_inv (assign range now domain resolved s).2.
Proof.
  intros Hs. destruct (assign_cases now domain resolved s Hs)
    as [(h&e&Hd&He&_&->)|[(h&e&Hd&_&Ho&He&_&->)|[(_&_&_&err&->)|(Hd&Hn&->)]]]; simpl.
  - by apply set_entry_inv.
  - by apply reassign_inv.
  - done.
  - by apply fresh_entry_inv.
Qed.

Lemma fake_step_inv now s s' : fake_inv s -> fake_step range now s s' -> fake_inv s'.
Proof.
  intros Hs Hst. destruct Hst as [domain s|domain resolved s|address s];
    [by apply assign_inv| |].
  - unfold AssignResolved. destruct (negb _); [done|by apply assign_inv].
  - unfold LookupDestination. destruct (negb _); [done|].
    destruct (fs_ipToDomain s !! _) as [h|] eqn:Hh; [|done].
    destruct (fs_entries s !! h) as [e|] eqn:He; [|done]. by apply set_entry_inv.
Qed.

(** An entry held by a domain and used since [since]. *)
Definition leased (s : fakeIPStore) (d : string) (a : Addr) (since : Z) : Prop :=
  exists h e, fs_domainToIP s !! d = Some h /\ fs_entries s !! h = Some e /\
    fe_address e = a /\ since <= fe_lastUsed e.

Lemma leased_set_entry s h e resolved now d a since :
  fake_inv s -> fs_entries s !! h = Some e -> since <= now ->
  leased s d a since -> leased (set_entry h (used (fe_domain e) resolved now e) s) d a since.
Proof.
  intros Hs He Hnow (h' & e' & Hd & He' & Ha & Hu). exists h'.
  destruct (decide (h = h')) as [<-|Hne].
  - exists (used (fe_domain e) resolved now e). simpl. rewrite lookup_insert_eq. by simplify_eq.
  - exists e'. simpl. by rewrite lookup_insert_ne.
Qed.

Lemma assign_leased now domain resolved s d a since :
  fake_inv s -> since <= now < since + fakeIPReuseAfter -> leased s d a since ->
  leased (assign range now domain resolved s).2 d a since.
Proof.
  intros Hs Hnow Hl.
  destruct (assign_cases now domain resolved s Hs)
    as [(h&e&Hd&He&_&->)|[(h&e&Hd&_&Ho&He&Hu&->)|[(_&_&_&err&->)|(Hd&Hn&->)]]]; simpl.
  - apply leased_set_entry; [done|done|lia|done].
  - destruct Hl as (h' & e' & Hd' & He' & Ha & Hu').
    assert (h <> h') by (intros ->; simplify_eq; lia).
    pose proof (entry_inv s _ _ _ Hs Hd' He') as [<- _].
    exists h', e'. simpl. rewrite !lookup_insert_ne by congruence.
    split_and!; try done. apply lookup_delete_Some. split; [|done]. congruence.
  - done.
  - destruct Hl as (h' & e' & Hd' & He' & Ha & Hu').
    exists h', e'. simpl.
    assert (h' <> fresh (dom (fs_entries s))).
    { pose proof (is_fresh (dom (fs_entries s))) as Hf. intros ->. apply Hf, elem_of_dom. eauto. }
    rewrite !lookup_insert_ne by congruence. done.
Qed.

Lemma fake_step_leased now s s' d a since :
  fake_inv s -> since <= now < since + fakeIPReuseAfter -> leased s d a since ->
  fake_step range now s s' -> leased s' d a since.
Proof.
  intros Hs Hnow Hl Hst. destruct Hst as [domain s|domain resolved s|address s];
    [by apply assign_leased| |].
  - unfold AssignResolved. destruct (negb _); [done|by apply assign_leased].
  - unfold LookupDestination. destruct (negb _); [done|].
    destruct (fs_ipToDomain s !! _) as [h|] eqn:Hh; [|done].
    destruct (fs_entries s !! h) as [e|] eqn:He; [|done].
    apply leased_set_entry; [done|done|lia|done].
Qed.
End FakeRange.

(** Any sequence of calls, at any times. *)
Definition fake_run (range : gmap string nat -> list (string * nat)) (lo hi : Z)
    : relation fakeIPStore :=
  rtc (fun s s' => exists now, lo <= now < hi /\ fake_step range now s s').

Definition fake_reachable (range : gmap string nat -> list (string * nat)) (text : string)
    (s : fakeIPStore) : Prop :=
  exists s0 lo hi, newFakeIPStore text = Ok s0 /\ fake_run range lo hi s0 s.

Lemma fake_reachable_inv range (range_perm : forall m, range m ≡ₚ map_to_list m) text s :
  fake_reachable range text s -> fake_inv s.
Proof.
  intros (s0 & lo & hi & H0 & Hr). revert Hr.
  apply (rtc_closed _ fake_inv s0 s); [|by eapply newFakeIPStore_inv].
  intros a b Ha (now & _ & Hs). by eapply fake_step_inv.
Qed.

(** The fake IP table is a bijection into its range. After any calls on a store built
    by [newFakeIPStore] no address is held by two domains, every address handed out is an
    IPv4 address of the configured prefix that is neither its first two nor its last one
    (so the 32-bit counter never wraps), and an address that [Assign] returns for a domain
    is looked up to that domain. *)
Theorem fake_ip_bijection (range : gmap string nat -> list (string * nat))
    (range_perm : forall m, range m ≡ₚ map_to_list m)
    (text : string) (s : fakeIPStore) (Hr : fake_reachable range text s) :
  (forall now d s' a, Assign range now d s = (Ok a, s') ->
     (exists n, a = Addr4 n /\ fs_base s + 2 <= n <= fs_last s /\ fs_last s < 2 ^ 32 - 1) /\
     (Lookup now a s').1 = Some (normalizeDomain d)) /\
  (forall d1 d2 h1 h2 e1 e2, fs_domainToIP s !! d1 = Some h1 -> fs_domainToIP s !! d2 = Some h2 ->
     fs_entries s !! h1 = Some e1 -> fs_entries s !! h2 = Some e2 ->
     fe_address e1 = fe_address e2 -> d1 = d2).
Proof.
  pose proof (fake_reachable_inv range range_perm text s Hr) as Hs. split.
  - intros now d s' a Ha.
    assert (fake_inv s') as Hs'.
    { pose proof (assign_inv range range_perm now d AddrInvalid s Hs) as H.
      unfold Assign in Ha. by rewrite Ha in H. }
    assert (exists h e, fs_domainToIP s' !! normalizeDomain d = Some h /\
              fs_entries s' !! h = Some e /\ fe_address e = a /\ fs_last s' = fs_last s /\
              fs_base s' = fs_base s) as (h & e & Hd & He & <- & Hl & Hb).
    { unfold Assign in Ha. destruct (assign_cases range range_perm now d AddrInvalid s Hs)
        as [(h&e&Hd&He&Hde&Heq)|[(h&e&Hd&_&Ho&He&_&Heq)|[(_&_&_&err&Heq)|(Hd&Hn&Heq)]]];
        rewrite Heq in Ha; simplify_eq.
      - exists h, (used (fe_domain e) AddrInvalid now e). simpl. by rewrite lookup_insert_eq.
      - exists h, (used (normalizeDomain d) AddrInvalid now e). simpl.
        by rewrite !lookup_insert_eq.
      - eexists _, _. simpl. rewrite !lookup_insert_eq. done. }
    destruct (entry_inv s' _ h e Hs' Hd He) as [Hde Hip].
    destruct (fi_range s' Hs' _ _ Hip) as (n & Hn & Hlo & Hhi).
    destruct (fi_next s' Hs') as (_ & [_ Hnl] & Hmax).
    split; [exists n; split; [done|lia]|].
    unfold Lookup, LookupDestination. rewrite Hn in *. simpl. rewrite Hip, He. simpl. by rewrite Hde.
  - intros d1 d2 h1 h2 e1 e2 H1 H2 He1 He2 Heq.
    destruct (entry_inv s _ _ _ Hs H1 He1) as [<- Hi1].
    destruct (entry_inv s _ _ _ Hs H2 He2) as [<- Hi2]. congruence.
Qed.

(** The store of a prefix with a single usable address. *)
Lemma sample_store : exists s, newFakeIPStore "198.18.0.0/30" = Ok s.
Proof. by eexists. Defined.

Lemma sample_assign :
  match newFakeIPStore "198.18.0.0/30" with
  | Ok s => match Assign map_to_list 7 "Example.COM." s with
            | (Ok a, _) => Addr_String a = "198.18.0.2"%string
            | _ => False
            end
  | Err _ => False
  end.
Proof. by vm_compute. Qed.

Lemma fake_ip_bijection_witness :
  exists s, newFakeIPStore "198.18.0.0/30" = Ok s /\
    forall a s', Assign map_to_list 7 "Example.COM." s = (Ok a, s') ->
      (Lookup 7 a s').1 = Some (normalizeDomain "Example.COM.").
Proof.
  destruct sample_store as [s Hs]. exists s. split; [exact Hs|].
  intros a s' Ha.
  exact (proj2 (proj1 (fake_ip_bijection map_to_list (fun m => reflexivity _) "198.18.0.0/30"
    s (ex_intro _ s (ex_intro _ 0 (ex_intro _ 1 (conj Hs (rtc_refl _ _))))))
    7 "Example.COM."%string s' a Ha)).
Defined.

(** An address is never taken from a domain that uses it. If a domain held an address
    that was handed out or looked up at time [since], then after any calls made before 30
    minutes have passed since then the domain still holds the same address, however full the
    range is; and when the range is exhausted [Assign] refuses a new domain exactly when
    every entry was used within those 30 minutes. *)
Theorem fake_ip_lease (range : gmap string nat -> list (string * nat))
    (range_perm : forall m, range m ≡ₚ map_to_list m)
    (text : string) (s : fakeIPStore) (Hr : fake_reachable range text s) :
  (forall since s' d a, leased s d a since ->
     fake_run range since (since + fakeIPReuseAfter) s s' -> leased s' d a since) /\
  (forall now d, fs_domainToIP s !! normalizeDomain d = None ->
     ((exists e, (Assign range now d s).1 = Err e) <->
      fs_last s < fs_next s /\
      forall d' h e, fs_domainToIP s !! d' = Some h -> fs_entries s !! h = Some e ->
        now - fakeIPReuseAfter < fe_lastUsed e)).
Proof.
  pose proof (fake_reachable_inv range range_perm text s Hr) as Hs. split.
  - intros since s' d a Hl Hrun.
    assert (fake_inv s' /\ leased s' d a since) as [_ ?]; [|done].
    revert Hrun. apply (rtc_closed _ (fun s => fake_inv s /\ leased s d a since) s s'); [|done].
    intros x y [Hx Hlx] (now & Hnow & Hst). split; [by eapply fake_step_inv|].
    by eapply fake_step_leased.
  - intros now d Hd. unfold Assign.
    destruct (assign_cases range range_perm now d AddrInvalid s Hs)
      as [(h&e&Hd'&_)|[(h&e&_&Hfull&Ho&He&Hu&->)|[(_&Hfull&Hall&err&->)|(_&Hn&->)]]]; simpl.
    + congruence.
    + split; [by intros [? ?]|]. intros [_ Hall]. specialize (Hall _ _ _ Ho He). lia.
    + split; [done|]. intros _. by exists err.
    + split; [by intros [? ?]|]. intros [? _]. lia.
Qed.

Lemma fake_ip_lease_witness :
  exists s, newFakeIPStore "198.18.0.0/30" = Ok s /\
    forall since s' d a, leased s d a since ->
      fake_run map_to_list since (since + fakeIPReuseAfter) s s' -> leased s' d a since.
Proof.
  destruct sample_store as [s Hs]. exists s. split; [exact Hs|].
  exact (proj1 (fake_ip_lease map_to_list (fun m => reflexivity _) "198.18.0.0/30"
    s (ex_intro _ s (ex_intro _ 0 (ex_intro _ 1 (conj Hs (rtc_refl _ _))))))).
Defined.
