(* ===== verification/DNSMessage.v ===== *)
(** The DNS question handler shared by the DNS service and the TUN inbound
    (internal/dnsmessage/handler.go), over any resolver. A message of the miekg/dns library is
    the fields the handler reads and writes; what [SetReply] copies is not. *)

From S2P Require Import Prelude Core GoNet FakeIP.

(** Numbers of the DNS protocol. *)
Definition OpcodeQuery : Z := 0.
Definition ClassINET : Z := 1.
Definition TypeA : Z := 1.
Definition TypeAAAA : Z := 28.
Definition RcodeSuccess : Z := 0.
Definition RcodeServerFailure : Z := 2.
Definition RcodeNameError : Z := 3.
Definition RcodeNotImplemented : Z := 4.

Definition DefaultTTL : Z := 60.

Record Question : Type := { q_Name : string; q_Qtype : Z; q_Qclass : Z }.

Record Msg : Type := { msg_Opcode : Z; msg_Question : list Question }.

Record RR : Type := { rr_Name : string; rr_Type : Z; rr_TTL : Z; rr_Data : IP }.

Record Response : Type := { res_Rcode : Z; res_Answer : list RR }.

(** A resolver with its state, and [ResolveStatic] if it has one. *)
Record ResolverOps (S : Type) : Type := {
  res_Resolve : string -> S -> result error IP * S;
  res_ResolveStatic : option (string -> S -> option IP);
}.
Arguments res_Resolve {S}.
Arguments res_ResolveStatic {S}.

Record Handler (S : Type) : Type := {
  hd_Resolver : option (ResolverOps S);
  hd_FakeIPv4 : option (string -> S -> result error Addr * S);
  hd_TTL : Z;
}.
Arguments hd_Resolver {S}.
Arguments hd_FakeIPv4 {S}.
Arguments hd_TTL {S}.

Definition ttl {S} (h : Handler S) : Z :=
  if bool_decide (hd_TTL h = 0) then DefaultTTL else hd_TTL h.

Definition errorRCode (e : error) : Z :=
  if dns_IsNotFound e then RcodeNameError else RcodeServerFailure.

(** [dnsmessage.NormalizeDomain] is [normalizeDomain] of tun_fakeip.go. *)
Definition NormalizeDomain (domain : string) : string :=
  TrimSuffix (ToLower (TrimSpace domain)) ".".

Section Handle.
Context {S : Type} (h : Handler S).

Definition resolveStatic (domain : string) (s : S) : option Addr :=
  match hd_Resolver h with
  | None => None
  | Some r =>
      match res_ResolveStatic r with
      | None => None
      | Some static =>
          match static domain s with
          | None => None
          | Some address =>
              let parsed := AddrFromSlice address in
              if IsValid parsed then Some parsed else None
          end
      end
  end.

Definition handler_resolve (domain : string) (s : S) : result error Addr * S :=
  match hd_Resolver h with
  | None => (Err (EDNS "resolver unavailable" domain false true), s)
  | Some r =>
      let '(res, s) := res_Resolve r domain s in
      match res with
      | Err e => (Err e, s)
      | Ok address =>
          let parsed := AddrFromSlice address in
          if IsValid parsed then (Ok parsed, s)
          else (Err (EDNS "invalid address" domain false true), s)
      end
  end.

(** An address, if one of the right family was found. *)
Definition found_if (found : bool) (a : Addr) : option Addr := if found then Some a else None.

Definition resolveIPv4 (domain : string) (s : S) : result error (option Addr) * S :=
  match resolveStatic domain s with
  | Some a => (Ok (found_if (Is4 (Unmap a)) (Unmap a)), s)
  | None =>
      match hd_FakeIPv4 h with
      | Some fake =>
          let '(res, s) := fake domain s in
          (match res with Ok a => Ok (Some a) | Err e => Err e end, s)
      | None =>
          let '(res, s) := handler_resolve domain s in
          (match res with
           | Ok a => Ok (found_if (Is4 (Unmap a)) (Unmap a))
           | Err e => Err e
           end, s)
      end
  end.

Definition resolveIPv6 (domain : string) (s : S) : result error (option Addr) * S :=
  match resolveStatic domain s with
  | Some a => (Ok (found_if (Is6 a) a), s)
  | None =>
      match hd_FakeIPv4 h with
      | Some _ => (Ok None, s)
      | None =>
          let '(res, s) := handler_resolve domain s in
          (match res with Ok a => Ok (found_if (Is6 a) a) | Err e => Err e end, s)
      end
  end.

(** One question: the answer to it, if any, or the response code that ends the reply. *)
Definition answer (q : Question) (s : S) : result Z (option RR) * S :=
  if negb (bool_decide (q_Qclass q = ClassINET)) then (Err RcodeNotImplemented, s)
  else
    let domain := NormalizeDomain (q_Name q) in
    let reply res :=
      match res with
      | Err e => Err (errorRCode e)
      | Ok None => Ok None
      | Ok (Some a) =>
          Ok (Some {| rr_Name := q_Name q; rr_Type := q_Qtype q; rr_TTL := ttl h;
                      rr_Data := AsSlice a |})
      end in
    if bool_decide (q_Qtype q = TypeA) then
      let '(res, s) := resolveIPv4 domain s in (reply res, s)
    else if bool_decide (q_Qtype q = TypeAAAA) then
      let '(res, s) := resolveIPv6 domain s in (reply res, s)
    else (Err RcodeNotImplemented, s).

Fixpoint answer_all (questions : list Question) (answers : list RR) (s : S) : Response * S :=
  match questions with
  | [] => ({| res_Rcode := RcodeSuccess; res_Answer := answers |}, s)
  | q :: rest =>
      let '(res, s) := answer q s in
      match res with
      | Err code => ({| res_Rcode := code; res_Answer := [] |}, s)
      | Ok None => answer_all rest answers s
      | Ok (Some rr) => answer_all rest (answers ++ [rr]) s
      end
  end.

Definition Handle (request : Msg) (s : S) : Response * S :=
  if negb (bool_decide (msg_Opcode request = OpcodeQuery)) then
    ({| res_Rcode := RcodeNotImplemented; res_Answer := [] |}, s)
  else answer_all (msg_Question request) [] s.
End Handle.

(** ** Theorems *)

Lemma length_be_bytes n v acc : length (be_bytes n v acc) = (n + length acc)%nat.
Proof. revert v acc. induction n as [|n IH]; intros v acc; simpl; [done|]. rewrite IH. simpl. lia. Qed.

Lemma length_AsSlice a :
  length (AsSlice a) = match a with AddrInvalid => 0 | Addr4 _ => 4 | Addr6 _ => 16 end%nat.
Proof. by destruct a; simpl; rewrite ?length_be_bytes. Qed.

(** What [FakeIPv4] hands out, for the questions that reach it. *)
Definition fake_is_ipv4 {S} (h : Handler S) : Prop :=
  forall fake d s a s', hd_FakeIPv4 h = Some fake -> fake d s = (Ok a, s') -> Is4 a = true.

Definition rr_well_formed {S} (h : Handler S) (rr : RR) : Prop :=
  rr_TTL rr = ttl h /\
  ((rr_Type rr = TypeA /\ length (rr_Data rr) = 4%nat) \/
   (rr_Type rr = TypeAAAA /\ length (rr_Data rr) = 16%nat)).

Lemma found_if_some b a x : found_if b a = Some x -> b = true /\ x = a.
Proof. destruct b; [|done]. by intros [= ->]. Qed.

Lemma resolveIPv4_is4 {S} (h : Handler S) d s a s' :
  fake_is_ipv4 h -> resolveIPv4 h d s = (Ok (Some a), s') -> Is4 a = true.
Proof.
  intros Hf. unfold resolveIPv4.
  destruct (resolveStatic h d s); [intros [= H _]; by apply found_if_some in H as [? ->]|].
  destruct (hd_FakeIPv4 h) as [fake|] eqn:E.
  - destruct (fake d s) as [[x|e] s1] eqn:Ef; intros [= <- <-]. by eapply Hf.
  - destruct (handler_resolve h d s) as [[x|e] s1]; intros [= H <-].
    by apply found_if_some in H as [? ->].
Qed.

Lemma resolveIPv6_is6 {S} (h : Handler S) d s a s' :
  resolveIPv6 h d s = (Ok (Some a), s') -> Is6 a = true.
Proof.
  unfold resolveIPv6.
  destruct (resolveStatic h d s); [intros [= H _]; by apply found_if_some in H as [? ->]|].
  destruct (hd_FakeIPv4 h) as [fake|]; [done|].
  destruct (handler_resolve h d s) as [[x|e] s1]; intros [= H <-].
  by apply found_if_some in H as [? ->].
Qed.

Lemma answer_well_formed {S} (h : Handler S) q s rr s' :
  fake_is_ipv4 h -> answer h q s = (Ok (Some rr), s') ->
  rr_well_formed h rr /\ rr_Name rr = q_Name q /\ rr_Type rr = q_Qtype q.
Proof.
  intros Hf. unfold answer. destruct (negb _); [done|].
  case_bool_decide as Ha; [|case_bool_decide as H6; [|done]].
  - destruct (resolveIPv4 h _ s) as [[[a|]|e] s1] eqn:E; intros [= <- <-]. simpl.
    apply resolveIPv4_is4 in E; [|done]. split; [|done]. split; [done|]. left.
    split; [done|]. simpl. rewrite length_AsSlice. by destruct a.
  - destruct (resolveIPv6 h _ s) as [[[a|]|e] s1] eqn:E; intros [= <- <-]. simpl.
    apply resolveIPv6_is6 in E. split; [|done]. split; [done|]. right.
    split; [done|]. simpl. rewrite length_AsSlice. by destruct a.
Qed.

Definition rr_question (rr : RR) : string * Z := (rr_Name rr, rr_Type rr).
Definition question_key (q : Question) : string * Z := (q_Name q, q_Qtype q).

Lemma answer_all_well_formed {S} (h : Handler S) qs pre s r s' :
  fake_is_ipv4 h -> Forall (rr_well_formed h) pre -> answer_all h qs pre s = (r, s') ->
  Forall (rr_well_formed h) (res_Answer r) /\
  (res_Rcode r <> RcodeSuccess -> res_Answer r = []) /\
  (exists tail, res_Answer r = [] \/
     (res_Answer r = pre ++ tail /\ map rr_question tail `sublist_of` map question_key qs)).
Proof.
  intros Hf. revert pre s. induction qs as [|q qs IH]; intros pre s Hp; simpl.
  - intros [= <- <-]. simpl. split_and!; [done|done|]. exists []. right.
    rewrite app_nil_r. split; [done|constructor].
  - destruct (answer h q s) as [[[rr|]|code] s1] eqn:E.
    + destruct (answer_well_formed h q s rr s1 Hf E) as (Hw & Hn & Ht). intros H.
      apply IH in H as (H1 & H2 & tail & H3); [|by apply Forall_app; split; [|constructor]].
      split_and!; [done|done|]. destruct H3 as [H3|[H3 H4]]; [by exists []; left|].
      exists (rr :: tail). right. rewrite H3, <-app_assoc. split; [done|]. simpl.
      unfold rr_question at 1, question_key at 1. rewrite Hn, Ht. by constructor.
    + intros H. apply IH in H as (H1 & H2 & tail & H3); [|done].
      split_and!; [done|done|]. exists tail.
      destruct H3 as [H3|[H3 H4]]; [by left|right]. split; [done|]. by apply sublist_cons.
    + intros [= <- <-]. simpl. split_and!; [constructor|done|by exists []; left].
Qed.

(** Every reply of the DNS handler is well formed, whatever the resolver does. Each
    answer is an A record of 4 bytes or an AAAA record of 16 bytes with the handler's TTL;
    the answers are to questions of the request, at most one each and in their order; a
    reply with a failure code carries none. An unsupported opcode, class or type, or a
    failed resolution, makes the whole reply a failure: NXDOMAIN exactly when the resolver
    says that the name does not exist. *)
Theorem dns_reply_well_formed {S} (h : Handler S) (request : Msg) (s s' : S) (r : Response) :
  fake_is_ipv4 h -> Handle h request s = (r, s') ->
  Forall (rr_well_formed h) (res_Answer r) /\
  map rr_question (res_Answer r) `sublist_of` map question_key (msg_Question request) /\
  (res_Rcode r <> RcodeSuccess -> res_Answer r = []) /\
  (forall q, msg_Opcode request = OpcodeQuery -> msg_Question request = [q] ->
     q_Qclass q = ClassINET -> q_Qtype q = TypeA ->
     (res_Rcode r = RcodeNameError <->
      exists e s1, resolveIPv4 h (NormalizeDomain (q_Name q)) s = (Err e, s1) /\
                   dns_IsNotFound e = true)).
Proof.
  intros Hf H. unfold Handle in H. case_bool_decide as Hop; simpl in H.
  2:{ injection H as <- <-. simpl. split_and!; [constructor|apply sublist_nil_l|done|done]. }
  destruct (answer_all_well_formed h _ [] s r s' Hf ltac:(constructor) H) as (H1 & H2 & tail & H3).
  split_and!; [done| |done|].
  - destruct H3 as [->|[-> H3]]; [apply sublist_nil_l|done].
  - intros q _ Hq Hc Ht. rewrite Hq in H. simpl in H. unfold answer in H.
    rewrite Hc, Ht, !bool_decide_eq_true_2 in H by done. simpl in H.
    destruct (resolveIPv4 h _ s) as [[[a|]|e] s1]; simpl in H; injection H as <- <-; simpl.
    1,2: split; [done|]; by intros (? & ? & [=] & _).
    unfold errorRCode. destruct (dns_IsNotFound e) eqn:E; simpl.
    + split; [|done]. intros _. by exists e, s1.
    + split; [done|]. intros (e' & s2 & [= <- <-] & He'). congruence.
Qed.

(** A resolver with one static IPv4 record, kept in its 16-byte form as [net.ParseIP] returns
    it, that knows no other name. *)
Definition sample_static : ResolverOps unit :=
  {| res_Resolve := fun host s => (Err (EDNS "no such host" host true false), s);
     res_ResolveStatic := Some (fun host _ =>
       if bool_decide (host = "a.example"%string) then Some (IPv4 10 0 0 1) else None) |}.

Definition sample_handler : Handler unit :=
  {| hd_Resolver := Some sample_static; hd_FakeIPv4 := None; hd_TTL := 0 |}.

Definition ask (name : string) (qtype : Z) : Msg :=
  {| msg_Opcode := OpcodeQuery;
     msg_Question := [{| q_Name := name; q_Qtype := qtype; q_Qclass := ClassINET |}] |}.

Lemma dns_reply_well_formed_witness :
  (exists rr, res_Answer (Handle sample_handler (ask "A.example." TypeA) tt).1 = [rr] /\
     rr_Data rr = [10; 0; 0; 1] /\ rr_well_formed sample_handler rr) /\
  res_Rcode (Handle sample_handler (ask "b.example." TypeA) tt).1 = RcodeNameError.
Proof.
  assert (fake_is_ipv4 sample_handler) as Hf by done. split.
  - destruct (Handle sample_handler (ask "A.example." TypeA) tt) as [r s] eqn:H.
    destruct (dns_reply_well_formed _ _ _ _ _ Hf H) as (Hw & _).
    vm_compute in H. injection H as <- <-. eexists. split_and!; [done|done|].
    by apply Forall_cons_1 in Hw as [Hw _].
  - destruct (Handle sample_handler (ask "b.example." TypeA) tt) as [r s] eqn:H.
    destruct (dns_reply_well_formed _ _ _ _ _ Hf H) as (_ & _ & _ & Hn).
    apply (Hn {| q_Name := "b.example."; q_Qtype := TypeA; q_Qclass := ClassINET |});
      try done. eexists _, tt. split; [by vm_compute|done].
Defined.

(** A static IPv4 record also answers AAAA questions, with the IPv4-mapped IPv6 address. *)
Example static_ipv4_answers_AAAA :
  res_Answer (Handle sample_handler (ask "a.example." TypeAAAA) tt).1 =
    [{| rr_Name := "a.example."; rr_Type := TypeAAAA; rr_TTL := 60;
        rr_Data := [0;0;0;0;0;0;0;0;0;0;255;255;10;0;0;1] |}].
Proof. by vm_compute. Qed.
