(* ===== verification/TunDNS.v ===== *)
(** DNS through the TUN inbound (internal/networkruntime/tun_dns.go and the routing helpers of
    tun.go): the fake IP resolver in front of the session's resolver, the DNS streams, and the
    way back from a fake address to the name. The store of fake addresses is threaded
    together with the state of the resolver behind it. *)

From S2P Require Import Prelude Core GoNet FakeIP DNSMessage.

(** The address that the system's DNS settings point at. *)
Definition tunDNSServerAddress (prefix : Prefix) : result error Addr :=
  if negb (Is4 (pfx_addr prefix)) then
    Err (EText "TUN DNS hijack requires an IPv4 TUN address")
  else
    let base := pfx_addr (Masked prefix) in
    let candidate := Addr_Next base in
    let candidate := if bool_decide (candidate = pfx_addr prefix) then Addr_Next candidate
                     else candidate in
    if negb (IsValid candidate) || negb (Prefix_Contains prefix candidate) then
      Err (EText ("TUN address " +:+ Prefix_String prefix +:+ " has no peer address for system DNS"))
    else Ok candidate.

(** [routeAddressesFor]: the DNS address is routed through the TUN as well. [dnsServer] is the
    text the service keeps. *)
Definition routeAddressesFor (DNSHijack : bool) (dnsServer : string) (addresses : list Prefix)
    : list Prefix :=
  if is_nil addresses || negb DNSHijack then addresses
  else match ParseAddr dnsServer with
  | None => addresses
  | Some dnsAddress =>
      if existsb (fun route => Prefix_Contains route dnsAddress) addresses then addresses
      else addresses ++ [{| pfx_addr := dnsAddress; pfx_bits := addr_bits dnsAddress |}]
  end.

(** A destination as the TUN stack reports it: its address, port and text. *)
Record Socksaddr : Type := { sa_Addr : Addr; sa_Port : Z; sa_String : string }.

Record tunDestination : Type := { dst_dial : string; dst_display : string }.

(** [fakes] is [None] when fake addresses are off. *)
Definition routeDestination (now : Z) (destination : Socksaddr) (fakes : option fakeIPStore)
    : tunDestination * option fakeIPStore :=
  let result := {| dst_dial := sa_String destination; dst_display := sa_String destination |} in
  match fakes with
  | None => (result, fakes)
  | Some store =>
      if negb (IsValid (sa_Addr destination)) then (result, fakes)
      else
        let '(found, store) := LookupDestination now (sa_Addr destination) store in
        (match found with
         | None => result
         | Some (domain, resolved) =>
             let display := JoinHostPort domain (itoa (sa_Port destination)) in
             {| dst_dial := if IsValid resolved
                            then JoinHostPort (Addr_String resolved) (itoa (sa_Port destination))
                            else display;
                dst_display := display |}
         end, Some store)
  end.

Section FakeResolver.
Context {R : Type}.
Variable range : gmap string nat -> list (string * nat).

(** [tunFakeIPResolver]; the resolver and the matcher behind it work on a state of type [R]. *)
Record tunFakeIPResolver : Type := {
  fr_resolver : string -> R -> result error IP * R;
  fr_matcher : option (string -> R -> bool);
  fr_controlServerHost : string;
  fr_routeAll : bool;
  fr_routes : list Prefix;
}.

Definition fake_assign_ip (now : Z) (host : string) (s : fakeIPStore * R)
    : result error IP * (fakeIPStore * R) :=
  let '(res, store) := Assign range now host s.1 in
  (match res with Ok a => Ok (AsSlice a) | Err e => Err e end, (store, s.2)).

Definition fake_assign_resolved_ip (now : Z) (host : string) (resolved : Addr)
    (s : fakeIPStore * R) : result error IP * (fakeIPStore * R) :=
  let '(res, store) := AssignResolved range now host resolved s.1 in
  (match res with Ok a => Ok (AsSlice a) | Err e => Err e end, (store, s.2)).

Definition inner_resolve (r : tunFakeIPResolver) (host : string) (s : fakeIPStore * R)
    : result error IP * (fakeIPStore * R) :=
  let '(res, inner) := fr_resolver r host s.2 in (res, (s.1, inner)).

(** Each use of the clock is at [now]. *)
Definition fake_Resolve (r : tunFakeIPResolver) (now : Z) (host : string) (s : fakeIPStore * R)
    : result error IP * (fakeIPStore * R) :=
  if negb (is_empty (fr_controlServerHost r))
     && bool_decide (normalizeDomain host = fr_controlServerHost r)
  then inner_resolve r host s
  else if match fr_matcher r with Some m => m host s.2 | None => false end
  then fake_assign_ip now host s
  else
    let '(res, s) := inner_resolve r host s in
    match res with
    | Err e => (Err e, s)
    | Ok address =>
        let parsed := Unmap (AddrFromSlice address) in
        if IsValid (AddrFromSlice address) then
          if existsb (fun route => Prefix_Contains route parsed) (fr_routes r)
          then fake_assign_ip now host s
          else if fr_routeAll r && Is4 parsed then fake_assign_resolved_ip now host parsed s
          else (Ok address, s)
        else (Ok address, s)
    end.

(** What the TUN service knows for DNS: its resolver, if any, whether the resolver tells VPN
    names apart, and whether fake addresses are on. *)
Record tunDNSConfig : Type := {
  td_resolver : option (ResolverOps R);
  td_matcher : option (string -> R -> bool);
  td_fakeIPs : bool;
  td_controlServerHost : string;
  td_routeAll : bool;
  td_routes : list Prefix;
}.

Definition fake_resolver_of (c : tunDNSConfig) (r : ResolverOps R) : tunFakeIPResolver :=
  {| fr_resolver := res_Resolve r; fr_matcher := td_matcher c;
     fr_controlServerHost := normalizeDomain (td_controlServerHost c);
     fr_routeAll := td_routeAll c; fr_routes := td_routes c |}.

(** The session's resolver next to the store. *)
Definition beside_store (r : ResolverOps R) : ResolverOps (fakeIPStore * R) :=
  {| res_Resolve := fun host s => let '(res, inner) := res_Resolve r host s.2 in
                                  (res, (s.1, inner));
     res_ResolveStatic := match res_ResolveStatic r with
                          | Some static => Some (fun host s => static host s.2)
                          | None => None
                          end |}.

(** The handler that [handleDNSPayload] builds. *)
Definition tun_handler (c : tunDNSConfig) (now : Z) : Handler (fakeIPStore * R) :=
  if td_fakeIPs c then
    match td_resolver c with
    | None =>
        {| hd_Resolver := None;
           hd_FakeIPv4 := Some (fun d s => let '(res, store) := Assign range now d s.1 in
                                           (res, (store, s.2)));
           hd_TTL := 0 |}
    | Some r =>
        {| hd_Resolver := Some {| res_Resolve := fake_Resolve (fake_resolver_of c r) now;
                                  res_ResolveStatic := None |};
           hd_FakeIPv4 := None; hd_TTL := 0 |}
    end
  else {| hd_Resolver := option_map beside_store (td_resolver c); hd_FakeIPv4 := None;
          hd_TTL := 0 |}.

(** [Unpack] and [Pack] are the DNS library's. *)
Variable Unpack : list Z -> result error Msg.
Variable Pack : Msg -> Response -> result error (list Z).

Definition handleDNSPayload (c : tunDNSConfig) (now : Z) (payload : list Z) (s : fakeIPStore * R)
    : result error (list Z) * (fakeIPStore * R) :=
  match Unpack payload with
  | Err e => (Err (EWrap ("unpack TUN DNS query: " +:+ error_text e) e), s)
  | Ok request =>
      let '(response, s) := Handle (tun_handler c now) request s in
      (Pack request response, s)
  end.

(** *** DNS over TCP

    The connection is what is still to be read, then the end of the stream, and what was
    written, with the answer of each write. *)

Variable expected_close : error -> bool.
Variable conn_Write : list Z -> list Z -> option error.

Definition read_full (n : nat) (input : list Z) : result error (list Z * list Z) :=
  if bool_decide (length input < n)%nat then
    Err (if is_nil input then io_EOF else io_ErrUnexpectedEOF)
  else Ok (take n input, drop n input).

(** One round: the rest of the input and the output, or the end of the loop. Each query is
    answered at the time that [clock] gives. *)
Definition tcp_dns_round (c : tunDNSConfig) (clock : nat -> Z) (input output : list Z)
    (s : fakeIPStore * R)
    : (list Z + option error) * list Z * (fakeIPStore * R) :=
  match read_full 2 input with
  | Err e => (inr (if expected_close e then None else Some e), output, s)
  | Ok (header, input) =>
      let length_ := match Uint16 header 0 with Some n => n | None => 0 end in
      if bool_decide (length_ = 0) then (inl input, output, s)
      else match read_full (Z.to_nat length_) input with
      | Err e => (inr (Some e), output, s)
      | Ok (request, input) =>
          let '(res, s) := handleDNSPayload c (clock (length input)) request s in
          match res with
          | Err e => (inr (Some e), output, s)
          | Ok response =>
              if bool_decide (len response > 65535)
              then (inr (Some (EText "TUN DNS response is too large")), output, s)
              else match conn_Write output (put_be16 (len response)) with
              | Some e => (inr (Some e), output, s)
              | None =>
                  let output := output ++ put_be16 (len response) in
                  match conn_Write output response with
                  | Some e => (inr (Some e), output, s)
                  | None => (inl input, output ++ response, s)
                  end
              end
          end
      end
  end.

(** Every round reads two bytes at least, so [length input + 1] rounds are enough; [None] is
    running out of them. *)
Fixpoint handleTCPDNS (fuel : nat) (c : tunDNSConfig) (clock : nat -> Z) (input output : list Z)
    (s : fakeIPStore * R) : option (option error * list Z * (fakeIPStore * R)) :=
  match fuel with
  | O => None
  | S fuel =>
      let '(res, output, s) := tcp_dns_round c clock input output s in
      match res with
      | inl input => handleTCPDNS fuel c clock input output s
      | inr err => Some (err, output, s)
      end
  end.
End FakeResolver.
Arguments fr_resolver {R}.
Arguments fr_matcher {R}.
Arguments fr_controlServerHost {R}.
Arguments fr_routeAll {R}.
Arguments fr_routes {R}.
Arguments td_resolver {R}.
Arguments td_matcher {R}.
Arguments td_fakeIPs {R}.
Arguments td_controlServerHost {R}.
Arguments td_routeAll {R}.
Arguments td_routes {R}.

(** ** Names and fake addresses *)

Lemma AddrFromSlice_AsSlice4 n : 0 <= n < 2 ^ 32 -> AddrFromSlice (AsSlice (Addr4 n)) = Addr4 n.
Proof.
  intros Hn. unfold AddrFromSlice, AsSlice, be_bytes, bytes_value. simpl. f_equal.
  Z.to_euclidean_division_equations. lia.
Qed.

(** A reply to a single question of type A, as the outcome of its resolution. *)
Definition reply_A {S} (h : Handler S) (name : string) (res : result error (option Addr))
    : Response :=
  match res with
  | Err e => {| res_Rcode := errorRCode e; res_Answer := [] |}
  | Ok None => {| res_Rcode := RcodeSuccess; res_Answer := [] |}
  | Ok (Some a) =>
      {| res_Rcode := RcodeSuccess;
         res_Answer := [{| rr_Name := name; rr_Type := TypeA; rr_TTL := ttl h;
                           rr_Data := AsSlice a |}] |}
  end.

Lemma Handle_ask_A {S} (h : Handler S) name s :
  Handle h (ask name TypeA) s =
  let '(res, s') := resolveIPv4 h (NormalizeDomain name) s in (reply_A h name res, s').
Proof.
  unfold Handle, ask. simpl. unfold answer. simpl.
  by destruct (resolveIPv4 h _ s) as [[[a|]|e] s'].
Qed.

(** [Assign] hands out an address of the range, which leads back to the name. *)
Lemma assigned_address range (range_perm : forall m, range m ≡ₚ map_to_list m) now d s a s' :
  fake_inv s -> Assign range now d s = (Ok a, s') ->
  fake_inv s' /\ leased s' (normalizeDomain d) a now /\
  exists n, a = Addr4 n /\ 0 <= n < 2 ^ 32 /\ fs_base s + 2 <= n <= fs_last s.
Proof.
  intros Hs Ha. unfold Assign in Ha.
  pose proof (assign_inv range range_perm now d AddrInvalid s Hs) as Hs'. rewrite Ha in Hs'.
  split; [done|].
  assert (leased s' (normalizeDomain d) a now /\ fs_base s' = fs_base s /\ fs_last s' = fs_last s)
    as (Hl & Hb & Hlast).
  { destruct (assign_cases range range_perm now d AddrInvalid s Hs)
      as [(h&e&Hd&He&Hde&Heq)|[(h&e&Hd&_&Ho&He&_&Heq)|[(_&_&_&err&Heq)|(Hd&Hn&Heq)]]];
      rewrite Heq in Ha; simplify_eq; (split; [|done]).
    - exists h, (used (fe_domain e) AddrInvalid now e). simpl. rewrite lookup_insert_eq.
      split_and!; [done|done|done|lia].
    - exists h, (used (normalizeDomain d) AddrInvalid now e). simpl. rewrite !lookup_insert_eq.
      split_and!; [done|done|done|lia].
    - eexists _, _. simpl. rewrite !lookup_insert_eq. split_and!; [done|done|done|simpl; lia]. }
  split; [done|]. destruct Hl as (h & e & Hd & He & <- & _).
  destruct (entry_inv s' _ h e Hs' Hd He) as [_ Hip].
  destruct (fi_range s' Hs' _ _ Hip) as (n & -> & Hlo & Hhi).
  destruct (fi_next s' Hs') as (Hbase & [_ Hnl] & Hmax).
  exists n. split; [done|]. lia.
Qed.

Lemma errorRCode_assign range (range_perm : forall m, range m ≡ₚ map_to_list m) now d s e s' :
  fake_inv s -> Assign range now d s = (Err e, s') -> errorRCode e = RcodeServerFailure.
Proof.
  intros Hs. unfold Assign, assign. repeat case_match; intros [= <- <-]; done.
Qed.

(** The address that was resolved for the name of an entry. *)
Definition entry_resolved (s : fakeIPStore) (d : string) (r : Addr) : Prop :=
  exists h e, fs_domainToIP s !! d = Some h /\ fs_entries s !! h = Some e /\ fe_resolved e = r.

(** While the lease lasts, a connection to the address is one to the name, and dialed by the name or at the address
    that was resolved for it. *)
Lemma leased_destination s d a r since now port text :
  fake_inv s -> leased s d a since -> entry_resolved s d r ->
  (routeDestination now {| sa_Addr := a; sa_Port := port; sa_String := text |} (Some s)).1
  = {| dst_dial := JoinHostPort (if IsValid r then Addr_String r else d) (itoa port);
       dst_display := JoinHostPort d (itoa port) |}.
Proof.
  intros Hs (h & e & Hd & He & <- & _) (h' & e' & Hd' & He' & <-).
  assert (h' = h) as -> by congruence. assert (e' = e) as -> by congruence.
  destruct (entry_inv s d h e Hs Hd He) as [Hde Hip].
  destruct (fi_range s Hs _ _ Hip) as (n & Hn & _). rewrite Hn in Hip.
  unfold routeDestination, LookupDestination. simpl. rewrite Hn. simpl. rewrite Hip, He, Hde. simpl.
  by destruct (IsValid (fe_resolved e)).
Qed.

Lemma fake_run_leased range (range_perm : forall m, range m ≡ₚ map_to_list m) since s s' d a :
  fake_inv s -> leased s d a since -> fake_run range since (since + fakeIPReuseAfter) s s' ->
  fake_inv s' /\ leased s' d a since.
Proof.
  intros Hs Hl. apply (rtc_closed _ (fun s => fake_inv s /\ leased s d a since) s s'); [|done].
  intros x y [Hx Hlx] (now & Hnow & Hst). split; [by eapply fake_step_inv|].
  by eapply fake_step_leased.
Qed.

Lemma set_entry_resolved s h e r resolved now d :
  fake_inv s -> fs_entries s !! h = Some e -> entry_resolved s d r ->
  entry_resolved (set_entry h (used (fe_domain e) resolved now e) s) d r \/
  fe_domain e = d /\ entry_resolved (set_entry h (used (fe_domain e) resolved now e) s) d resolved.
Proof.
  intros Hs He (h' & e' & Hd & He' & Hr). destruct (decide (h = h')) as [<-|Hne].
  - right. assert (e' = e) as -> by congruence. split; [by destruct (entry_inv s _ _ _ Hs Hd He')|].
    eexists h, _. simpl. by rewrite lookup_insert_eq.
  - left. exists h', e'. simpl. by rewrite lookup_insert_ne.
Qed.

Lemma assign_resolved range (range_perm : forall m, range m ≡ₚ map_to_list m) now domain resolved s d a since r :
  fake_inv s -> since <= now < since + fakeIPReuseAfter -> leased s d a since -> entry_resolved s d r ->
  entry_resolved (assign range now domain resolved s).2 d r \/
  normalizeDomain domain = d /\ entry_resolved (assign range now domain resolved s).2 d resolved.
Proof.
  intros Hs Hnow Hl Hr.
  destruct (assign_cases range range_perm now domain resolved s Hs)
    as [(h&e&Hd&He&Hde&->)|[(h&e&Hd&_&Ho&He&Hu&->)|[(_&_&_&err&->)|(Hd&Hn&->)]]]; simpl.
  - rewrite <-Hde. by apply set_entry_resolved.
  - left. destruct Hr as (h' & e' & Hd' & He' & Hr), Hl as (h2 & e2 & Hd2 & He2 & _ & Hu2).
    assert (h2 = h') as -> by congruence. assert (e2 = e') as -> by congruence.
    assert (h <> h') by (intros ->; assert (e = e') as -> by congruence; lia).
    pose proof (entry_inv s _ _ _ Hs Hd' He') as [<- _].
    exists h', e'. simpl. rewrite !lookup_insert_ne by congruence.
    split_and!; try done. apply lookup_delete_Some. split; [|done]. congruence.
  - by left.
  - left. destruct Hr as (h' & e' & Hd' & He' & Hr). exists h', e'. simpl.
    assert (h' <> fresh (dom (fs_entries s))).
    { pose proof (is_fresh (dom (fs_entries s))) as Hf. intros ->. apply Hf, elem_of_dom. eauto. }
    rewrite !lookup_insert_ne by congruence. done.
Qed.

(** Between two states, [AssignResolved] has given the name an address. *)
Definition resolved_between (range : gmap string nat -> list (string * nat)) (lo hi : Z) (s s' : fakeIPStore)
    (d : string) (r : Addr) : Prop :=
  exists now domain ip s1, fake_run range lo hi s s1 /\ lo <= now < hi /\ normalizeDomain domain = d /\
    r = Unmap ip /\ Is4 r = true /\ fake_run range lo hi (AssignResolved range now domain ip s1).2 s'.

Lemma fake_run_resolved range (range_perm : forall m, range m ≡ₚ map_to_list m) since s s' d a :
  fake_inv s -> leased s d a since -> entry_resolved s d AddrInvalid ->
  fake_run range since (since + fakeIPReuseAfter) s s' ->
  exists r, entry_resolved s' d r /\
    (r = AddrInvalid \/ resolved_between range since (since + fakeIPReuseAfter) s s' d r).
Proof.
  intros Hs Hl H0. revert s'. apply (rtc_ind_r (fun s' => exists r, entry_resolved s' d r /\
    (r = AddrInvalid \/ resolved_between range since (since + fakeIPReuseAfter) s s' d r)) s); [exists AddrInvalid; auto|].
  intros s1 s2 Hrun Hst (r & Hr & Hfrom). destruct (fake_run_leased range range_perm since s s1 d a Hs Hl Hrun) as [Hs1 Hl1].
  assert (resolved_between range since (since + fakeIPReuseAfter) s s1 d r ->
    resolved_between range since (since + fakeIPReuseAfter) s s2 d r) as Hlift.
  { intros (t & dom & ip & u & H1 & H2 & H3 & H4 & H5 & H6). exists t, dom, ip, u.
    repeat (split; [done|]). by eapply rtc_r. }
  assert (entry_resolved s2 d r -> exists r, entry_resolved s2 d r /\
    (r = AddrInvalid \/ resolved_between range since (since + fakeIPReuseAfter) s s2 d r)) as Hkeep.
  { intros Hr2. exists r. split; [done|]. destruct Hfrom as [?|?]; [by left|right; by apply Hlift]. }
  destruct Hst as (now & Hnow & Hst). destruct Hst as [domain s1|domain ip s1|address s1].
  - destruct (assign_resolved range range_perm now domain AddrInvalid s1 d a since r Hs1 Hnow Hl1 Hr) as [H|[_ H]]; [by apply Hkeep|].
    exists AddrInvalid. by split; [|left].
  - destruct (Is4 (Unmap ip)) eqn:H4; [|apply Hkeep; unfold AssignResolved; by rewrite H4].
    assert ((AssignResolved range now domain ip s1).2 = (assign range now domain (Unmap ip) s1).2) as Ea
      by (unfold AssignResolved; by rewrite H4).
    destruct (assign_resolved range range_perm now domain (Unmap ip) s1 d a since r Hs1 Hnow Hl1 Hr) as [H|[Hd H]];
      rewrite <-Ea in H; [by apply Hkeep|].
    exists (Unmap ip). split; [exact H|]. right. exists now, domain, ip, s1.
    repeat (split; [done|]). apply rtc_refl.
  - unfold LookupDestination in *. destruct (negb _); [by apply Hkeep|].
    destruct (fs_ipToDomain s1 !! _) as [h|] eqn:Hh; [|by apply Hkeep].
    destruct (fs_entries s1 !! h) as [e|] eqn:He; [|by apply Hkeep].
    destruct (set_entry_resolved s1 h e r (fe_resolved e) now d Hs1 He Hr) as [H|[Hd H]]; [by apply Hkeep|].
    apply Hkeep. destruct Hr as (h' & e' & Hd' & He' & Hr'). destruct (entry_inv s1 _ _ _ Hs1 Hd' He') as [_ Hip].
    destruct (decide (h = h')) as [->|Hne]; [by simplify_eq|]. exists h', e'. simpl. by rewrite lookup_insert_ne.
Qed.

Lemma resolved_valid range lo hi s s' d r : resolved_between range lo hi s s' d r -> IsValid r = true.
Proof. intros (? & ? & ? & ? & _ & _ & _ & _ & H & _). by destruct r. Qed.

(** An answered question has forgotten an address that was resolved before. *)
Lemma assigned_unresolved range (range_perm : forall m, range m ≡ₚ map_to_list m) now d s a s' :
  fake_inv s -> Assign range now d s = (Ok a, s') -> entry_resolved s' (normalizeDomain d) AddrInvalid.
Proof.
  intros Hs Ha. unfold Assign in Ha.
  destruct (assign_cases range range_perm now d AddrInvalid s Hs)
    as [(h&e&Hd&He&Hde&E)|[(h&e&Hd&_&Ho&He&Hu&E)|[(_&_&_&err&E)|(Hd&Hn&E)]]]; rewrite E in Ha; simplify_eq;
    eexists _, _; simpl; rewrite ?lookup_insert_eq; done.
Qed.

Section Names.
Context {R : Type} (range : gmap string nat -> list (string * nat)).
Context (range_perm : forall m, range m ≡ₚ map_to_list m).
Context (c : tunDNSConfig (R := R)) (r : ResolverOps R).
Context (fake_on : td_fakeIPs c = true) (resolver : td_resolver c = Some r).

Definition is_control_server (host : string) : bool :=
  negb (is_empty (normalizeDomain (td_controlServerHost c)))
  && bool_decide (normalizeDomain host = normalizeDomain (td_controlServerHost c)).

Lemma resolveIPv4_tun now d s :
  resolveIPv4 (tun_handler range c now) d s =
  let '(res, s') := handler_resolve (tun_handler range c now) d s in
  (match res with
   | Ok a => Ok (found_if (Is4 (Unmap a)) (Unmap a))
   | Err e => Err e
   end, s').
Proof. unfold tun_handler. rewrite fake_on, resolver. reflexivity. Qed.

Lemma handler_resolve_tun now d s :
  handler_resolve (tun_handler range c now) d s =
  let '(res, s') := fake_Resolve range (fake_resolver_of c r) now d s in
  match res with
  | Err e => (Err e, s')
  | Ok address =>
      if IsValid (AddrFromSlice address) then (Ok (AddrFromSlice address), s')
      else (Err (EDNS "invalid address" d false true), s')
  end.
Proof. unfold tun_handler. rewrite fake_on, resolver. reflexivity. Qed.

(** A reply to a single question of type AAAA. *)
Definition reply_AAAA (name : string) (res : result error IP) : Response :=
  match res with
  | Err e => {| res_Rcode := errorRCode e; res_Answer := [] |}
  | Ok ip =>
      let a := AddrFromSlice ip in
      if negb (IsValid a) then {| res_Rcode := RcodeServerFailure; res_Answer := [] |}
      else {| res_Rcode := RcodeSuccess;
              res_Answer := if Is6 a then [{| rr_Name := name; rr_Type := TypeAAAA;
                                              rr_TTL := DefaultTTL; rr_Data := AsSlice a |}]
                            else [] |}
  end.

Lemma Handle_ask_AAAA_fake now name s res s' :
  fake_Resolve range (fake_resolver_of c r) now (NormalizeDomain name) s = (res, s') ->
  Handle (tun_handler range c now) (ask name TypeAAAA) s = (reply_AAAA name res, s').
Proof.
  intros HR. unfold Handle, ask, answer_all, answer, tun_handler.
  rewrite fake_on, resolver. cbn -[fake_Resolve NormalizeDomain].
  unfold resolveIPv6, resolveStatic, handler_resolve. cbn -[fake_Resolve NormalizeDomain].
  rewrite HR. destruct res as [ip|e]; [|done]. unfold reply_AAAA.
  destruct (AddrFromSlice ip) eqn:E; cbn -[AddrFromSlice]; rewrite ?E; done.
Qed.

(** The session's resolver asked directly. *)
Definition direct_handler : Handler R :=
  {| hd_Resolver := Some {| res_Resolve := res_Resolve r; res_ResolveStatic := None |};
     hd_FakeIPv4 := None; hd_TTL := 0 |}.

Definition beside {A} (store : fakeIPStore) (x : A * R) : A * (fakeIPStore * R) :=
  (x.1, (store, x.2)).

Lemma control_server_resolve now d store inner :
  is_control_server d = true ->
  handler_resolve (tun_handler range c now) d (store, inner) =
  beside store (handler_resolve direct_handler d inner).
Proof.
  intros Hc. rewrite handler_resolve_tun. unfold is_control_server in Hc.
  unfold fake_Resolve. simpl. rewrite Hc. unfold inner_resolve, handler_resolve. simpl.
  destruct (res_Resolve r d inner) as [[ip|e] inner']; [|done]. by destruct (IsValid _).
Qed.

Lemma control_server_direct now name qtype store inner :
  is_control_server (NormalizeDomain name) = true ->
  Handle (tun_handler range c now) (ask name qtype) (store, inner) =
  beside store (Handle direct_handler (ask name qtype) inner).
Proof.
  intros Hc. pose proof (control_server_resolve now _ store inner Hc) as HR.
  assert (hd_FakeIPv4 (tun_handler range c now) = None /\
          (forall d s, resolveStatic (tun_handler range c now) d s = None) /\
          ttl (tun_handler range c now) = ttl direct_handler) as (Hf & Hs & Ht).
  { unfold tun_handler. by rewrite fake_on, resolver. }
  revert HR Hf Hs Ht Hc. generalize (tun_handler range c now) as h1. intros h1 HR Hf Hs Ht _.
  unfold Handle, ask. cbn [msg_Opcode msg_Question]. simpl. unfold answer. simpl.
  unfold resolveIPv4, resolveIPv6. rewrite !Hs, Hf, HR, Ht. clear.
  generalize (NormalizeDomain name) as d. intros d. simpl.
  destruct (handler_resolve direct_handler d inner) as [[a|e] inner']; unfold beside; simpl;
    destruct (bool_decide (qtype = TypeA)); try reflexivity;
    [destruct (found_if (Is4 (Unmap a)) (Unmap a))|destruct (bool_decide (qtype = TypeAAAA));
      [destruct (found_if (Is6 a) a)|]|destruct (bool_decide (qtype = TypeAAAA))]; reflexivity.
Qed.

Lemma vpn_name_faked now d store inner m :
  td_matcher c = Some m -> m d inner = true -> is_control_server d = false ->
  fake_Resolve range (fake_resolver_of c r) now d (store, inner) =
  fake_assign_ip range now d (store, inner).
Proof.
  intros Hm Hd Hc. unfold is_control_server in Hc. unfold fake_Resolve. simpl.
  by rewrite Hc, Hm, Hd.
Qed.
End Names.


(** ** DNS over TCP *)

Definition dns_frame (message : list Z) : list Z := put_be16 (len message) ++ message.

Section Stream.
Context {R : Type} (range : gmap string nat -> list (string * nat)).
Context (Unpack : list Z -> result error Msg) (Pack : Msg -> Response -> result error (list Z)).
Context (expected_close : error -> bool) (conn_Write : list Z -> list Z -> option error).
Context (c : tunDNSConfig (R := R)) (clock : nat -> Z).

Abbreviation payload := (handleDNSPayload range Unpack Pack c).
Abbreviation round := (tcp_dns_round range Unpack Pack expected_close conn_Write c clock).
Abbreviation stream := (handleTCPDNS range Unpack Pack expected_close conn_Write).

(** The queries one after another: the responses up to the first failure, and the failure. *)
Fixpoint answer_requests (requests : list (list Z)) (s : fakeIPStore * R)
    : list (list Z) * option error * (fakeIPStore * R) :=
  match requests with
  | [] => ([], None, s)
  | q :: rest =>
      let '(res, s) := payload (clock (length (concat (map dns_frame rest)))) q s in
      match res with
      | Err e => ([], Some e, s)
      | Ok response =>
          if bool_decide (len response > 65535)
          then ([], Some (EText "TUN DNS response is too large"), s)
          else let '(responses, err, s) := answer_requests rest s in
               (response :: responses, err, s)
      end
  end.

Lemma read_full_length n input x rest :
  read_full n input = Ok (x, rest) -> length input = (n + length rest)%nat.
Proof.
  unfold read_full. case_bool_decide as H; [done|]. intros [= <- <-]. rewrite length_drop. lia.
Qed.

Lemma read_full_app x rest : read_full (length x) (x ++ rest) = Ok (x, rest).
Proof.
  unfold read_full. rewrite bool_decide_eq_false_2 by (rewrite length_app; lia).
  by rewrite take_app_length, drop_app_length.
Qed.

(** A round that goes on has read the two bytes of a length. *)
Lemma tcp_dns_round_reads input output s input' output' s' :
  round input output s = (inl input', output', s') -> (length input' < length input)%nat.
Proof.
  unfold tcp_dns_round. destruct (read_full 2 input) as [[header rest]|e] eqn:E1; [|done].
  apply read_full_length in E1. case_bool_decide; [intros [= <- _ _]; lia|].
  destruct (read_full _ rest) as [[request rest']|e] eqn:E2; [|done].
  apply read_full_length in E2.
  destruct (payload _ _ _) as [[response|e] s1]; [|done].
  case_bool_decide; [done|]. destruct (conn_Write _ _); [done|].
  destruct (conn_Write _ _); [done|]. intros [= <- _ _]. lia.
Qed.

Lemma stream_enough fuel input output s :
  (length input < fuel)%nat -> is_Some (stream fuel c clock input output s).
Proof.
  revert input output s. induction fuel as [|fuel IH]; intros input output s Hf; [lia|]. simpl.
  destruct (round input output s) as [[[input'|err] output'] s'] eqn:E; [|by eexists].
  apply tcp_dns_round_reads in E. apply IH. lia.
Qed.

(** One framed query. *)
Lemma tcp_dns_round_frame (writes : forall out data, conn_Write out data = None) q rest output s :
  0 < len q <= 65535 ->
  round (dns_frame q ++ rest) output s =
  let '(res, s') := payload (clock (length rest)) q s in
  match res with
  | Err e => (inr (Some e), output, s')
  | Ok response =>
      if bool_decide (len response > 65535)
      then (inr (Some (EText "TUN DNS response is too large")), output, s')
      else (inl rest, output ++ dns_frame response, s')
  end.
Proof.
  intros Hq. unfold dns_frame, tcp_dns_round. rewrite <-app_assoc.
  assert (length (put_be16 (len q)) = 2%nat) as H2 by done. rewrite <-H2, read_full_app.
  assert (Uint16 (put_be16 (len q)) 0 = Some (len q)) as ->.
  { destruct (be16_put_be16 (len q) ltac:(lia)) as (hi & lo & -> & Hb).
    unfold Uint16. simpl. by rewrite Hb. }
  rewrite bool_decide_eq_false_2 by lia.
  unfold len at 1. rewrite Nat2Z.id, read_full_app.
  destruct (payload _ _ _) as [[response|e] s']; [|done].
  case_bool_decide; [done|]. rewrite !writes. by rewrite <-app_assoc.
Qed.

Lemma stream_frames (writes : forall out data, conn_Write out data = None) requests fuel output s :
  Forall (fun q => 0 < len q <= 65535) requests ->
  (length (concat (map dns_frame requests)) < fuel)%nat ->
  stream fuel c clock (concat (map dns_frame requests)) output s =
  let '(responses, err, s') := answer_requests requests s in
  Some (match err with
        | Some e => Some e
        | None => if expected_close io_EOF then None else Some io_EOF
        end, output ++ concat (map dns_frame responses), s').
Proof.
  intros Hq. revert fuel output s. induction Hq as [|q requests Hq _ IH]; intros fuel output s Hf.
  - destruct fuel as [|fuel]; [simpl in Hf; lia|]. simpl. by rewrite app_nil_r.
  - destruct fuel as [|fuel]; [lia|]. cbn [map concat] in *. rewrite length_app in Hf.
    cbn [handleTCPDNS]. rewrite (tcp_dns_round_frame writes) by done. cbn [answer_requests].
    destruct (payload _ q s) as [[response|e] s1]; [|by rewrite app_nil_r].
    case_bool_decide; [by rewrite app_nil_r|].
    assert (length (dns_frame q) = 2 + length q)%nat by done.
    rewrite IH by lia. destruct (answer_requests requests s1) as [[responses err] s2].
    cbn [map concat]. by rewrite <-app_assoc.
Qed.
End Stream.

(** The DNS stream of the TUN inbound frames its messages faithfully and ends. On any input
    the loop ends within one round per two bytes. On framed queries of at most 65535 bytes,
    with a connection that can be written, it writes exactly the framed responses, in
    order, up to the first query that cannot be answered, and reports that failure; after the
    last query it ends without one, when the end of the stream counts as an expected
    close. *)
Theorem tcp_dns_stream {R} (range : gmap string nat -> list (string * nat))
    (Unpack : list Z -> result error Msg) (Pack : Msg -> Response -> result error (list Z))
    (expected_close : error -> bool) (conn_Write : list Z -> list Z -> option error)
    (c : tunDNSConfig (R := R)) (clock : nat -> Z) (s : fakeIPStore * R) :
  let stream := handleTCPDNS range Unpack Pack expected_close conn_Write in
  (forall input output, is_Some (stream (S (length input)) c clock input output s)) /\
  (forall requests,
     (forall out data, conn_Write out data = None) ->
     Forall (fun q => 0 < len q <= 65535) requests ->
     let input := concat (map dns_frame requests) in
     stream (S (length input)) c clock input [] s =
     let '(responses, err, s') := answer_requests range Unpack Pack c clock requests s in
     Some (match err with
           | Some e => Some e
           | None => if expected_close io_EOF then None else Some io_EOF
           end, concat (map dns_frame responses), s')).
Proof.
  cbv zeta. split; [intros; apply stream_enough; lia|].
  intros requests Hw Hq. rewrite stream_frames; [done|done|done|lia].
Qed.

(** ** Witnesses *)

Definition sample_names : ResolverOps unit :=
  {| res_Resolve := fun host s => (Err (EDNS "no such host" host true false), s);
     res_ResolveStatic := None |}.

(** Fake addresses from 198.18.0.0/30, which has room for one; "vpn.example" is a VPN name. *)
Definition sample_tun : tunDNSConfig :=
  {| td_resolver := Some sample_names;
     td_matcher := Some (fun d _ => bool_decide (d = "vpn.example"%string)); td_fakeIPs := true;
     td_controlServerHost := "control.example"; td_routeAll := false; td_routes := [] |}.


(** Two queries, the second of which the library cannot read. *)
Definition one_byte_queries (payload : list Z) : result error Msg :=
  match payload with
  | [n] => Ok (ask "vpn.example" n)
  | _ => Err (EText "bad query")
  end.

Definition rcode_only (request : Msg) (r : Response) : result error (list Z) :=
  Ok [res_Rcode r; len (res_Answer r)].

Lemma tcp_dns_stream_witness :
  exists store, newFakeIPStore "198.18.0.0/30" = Ok store /\
    let run input := handleTCPDNS map_to_list one_byte_queries rcode_only (fun e => errors_Is e "io.EOF")
                       (fun _ _ => None) (S (length input)) sample_tun (fun _ => 5) input []
                       (store, tt) in
    (exists s', run (concat (map dns_frame [[TypeA]; [TypeAAAA]])) = Some (None, [0;2;0;1;0;2;0;0], s')) /\
    (exists s' e, run (concat (map dns_frame [[TypeA]; [7; 7]])) = Some (Some e, [0;2;0;1], s')).
Proof.
  destruct sample_store as [store Hs]. exists store. split; [exact Hs|].
  pose proof (fun requests => proj2 (tcp_dns_stream map_to_list one_byte_queries rcode_only
    (fun e => errors_Is e "io.EOF") (fun _ _ => None) sample_tun (fun _ => 5) (store, tt))
    requests (fun _ _ => eq_refl)) as H.
  vm_compute in Hs. injection Hs as <-. cbv zeta. split.
  - specialize (H [[TypeA]; [TypeAAAA]]). cbv zeta in H.
    rewrite H by (by repeat constructor). vm_compute. by eexists.
  - specialize (H [[TypeA]; [7; 7]]). cbv zeta in H.
    rewrite H by (by repeat constructor). vm_compute. by eexists _, _.
Defined.
