(* ===== verification/UDPFlows.v ===== *)
(** UDP through the TUN inbound (internal/networkruntime/tun_udp.go): associations with their
    flows, the service-wide limit, idle clean-up and closing. Flows are handles into an
    object store; each critical section is one step, and the goroutines interleave. *)

From S2P Require Import Prelude Core.

Definition second : Z := 1000000000.

(** How far [Close] of a flow has come: not begun, deleted from its association, unregistered
    from the service, or with its remote connection closed. [closeOnce] makes one goroutine
    go through the stages. *)
Inductive CloseStage : Type := NotClosed | Deleted | Unregistered | Closed.

#[export] Instance CloseStage_eq_dec : EqDecision CloseStage.
Proof. solve_decision. Defined.

Record tunUDPFlow : Type := {
  uf_association : nat;
  uf_address : string;
  uf_lastActive : Z;
  uf_stage : CloseStage;
}.

(** What the goroutine of an association does: wait for packets, between the dial and the
    insertion of a new flow, between its insertion and its registration, about to close the
    flow that makes room, or closing the flows of the association. *)
Inductive Association : Type :=
| Waiting
| Dialed (f : nat)
| Installed (f : nat)
| Evicting (oldest : nat)
| Ending (flows : list nat)
| Ended.

Record UDPState : Type := {
  us_flows : gmap nat tunUDPFlow;
  us_installed : gmap (nat * string) nat;
  us_associations : gmap nat Association;
  us_registered : gset nat;
}.

Definition newUDPState : UDPState :=
  {| us_flows := ∅; us_installed := ∅; us_associations := ∅; us_registered := ∅ |}.

(** The remote connection of a flow is open until the last stage. *)
Definition remote_open (s : UDPState) (f : nat) : bool :=
  match us_flows s !! f with
  | Some flow => negb (bool_decide (uf_stage flow = Closed))
  | None => false
  end.

Definition set_flow (f : nat) (flow : tunUDPFlow) (s : UDPState) : UDPState :=
  {| us_flows := <[f := flow]> (us_flows s); us_installed := us_installed s;
     us_associations := us_associations s; us_registered := us_registered s |}.

Definition set_installed (m : gmap (nat * string) nat) (s : UDPState) : UDPState :=
  {| us_flows := us_flows s; us_installed := m; us_associations := us_associations s;
     us_registered := us_registered s |}.

Definition set_association (a : nat) (t : Association) (s : UDPState) : UDPState :=
  {| us_flows := us_flows s; us_installed := us_installed s;
     us_associations := <[a := t]> (us_associations s); us_registered := us_registered s |}.

Definition set_registered (r : gset nat) (s : UDPState) : UDPState :=
  {| us_flows := us_flows s; us_installed := us_installed s;
     us_associations := us_associations s; us_registered := r |}.

Definition at_stage (stage : CloseStage) (flow : tunUDPFlow) : tunUDPFlow :=
  {| uf_association := uf_association flow; uf_address := uf_address flow;
     uf_lastActive := uf_lastActive flow; uf_stage := stage |}.

Definition touched (now : Z) (flow : tunUDPFlow) : tunUDPFlow :=
  {| uf_association := uf_association flow; uf_address := uf_address flow;
     uf_lastActive := now; uf_stage := uf_stage flow |}.

(** ** Closing a flow *)

(** The first section of [Close]: it is done once, and the association forgets the flow only
    if it still knows it under its address. *)
Definition close_begin (f : nat) (s : UDPState) : UDPState :=
  match us_flows s !! f with
  | Some flow =>
      if bool_decide (uf_stage flow = NotClosed) then
        let key := (uf_association flow, uf_address flow) in
        set_flow f (at_stage Deleted flow)
          (if bool_decide (us_installed s !! key = Some f)
           then set_installed (delete key (us_installed s)) s else s)
      else s
  | None => s
  end.

Definition unregisterUDPFlow (f : nat) (s : UDPState) : UDPState :=
  set_registered (us_registered s ∖ {[f]}) s.

(** The sections after it. *)
Definition close_next (f : nat) (s : UDPState) : UDPState :=
  match us_flows s !! f with
  | Some flow =>
      match uf_stage flow with
      | Deleted => set_flow f (at_stage Unregistered flow) (unregisterUDPFlow f s)
      | Unregistered => set_flow f (at_stage Closed flow) s
      | _ => s
      end
  | None => s
  end.

(** [flow.Close()] with nothing in between. *)
Definition close_all (f : nat) (s : UDPState) : UDPState :=
  close_next f (close_next f (close_begin f s)).

(** ** Opening a flow *)

Definition lastActivity (s : UDPState) (f : nat) : Z :=
  match us_flows s !! f with Some flow => uf_lastActive flow | None => 0 end.

Section Steps.
Variable maxFlows : nat.
(** The order in which [range] visits a set. *)
Variable range : gset nat -> list nat.

Definition older (s : UDPState) (f candidate : nat) (oldest : option nat) : option nat :=
  if negb (bool_decide (candidate = f))
     && match oldest with
        | None => true
        | Some o => bool_decide (lastActivity s candidate < lastActivity s o)
        end
  then Some candidate else oldest.

(** [registerUDPFlow] up to the call of [Close]: the flow that has to make room. *)
Definition registerUDPFlow (f : nat) (s : UDPState) : option nat * UDPState :=
  let registered := {[f]} ∪ us_registered s in
  let s := set_registered registered s in
  (if bool_decide (maxFlows < size registered)%nat
   then fold_left (fun oldest candidate => older s f candidate oldest) (range registered) None
   else None, s).

(** [flow] after the lookup missed: the dial. *)
Definition flow_dial (a : nat) (key : string) (f : nat) (now : Z) (s : UDPState) : UDPState :=
  set_association a (Dialed f)
    (set_flow f {| uf_association := a; uf_address := key; uf_lastActive := now;
                   uf_stage := NotClosed |} s).

(** The insertion: if the association got a flow for the address meanwhile, the new one is
    closed. *)
Definition flow_install (a f : nat) (key : string) (s : UDPState) : UDPState :=
  match us_installed s !! (a, key) with
  | Some _ => set_association a Waiting (close_begin f s)
  | None => set_association a (Installed f) (set_installed (<[(a, key) := f]> (us_installed s)) s)
  end.

Definition flow_register (a f : nat) (s : UDPState) : UDPState :=
  let '(oldest, s) := registerUDPFlow f s in
  set_association a (match oldest with Some o => Evicting o | None => Waiting end) s.

(** The flows that [Close] of the association has to close. *)
Definition association_flows (a : nat) (s : UDPState) : list nat :=
  omap (fun e => if bool_decide (e.1.1 = a) then Some e.2 else None)
    (map_to_list (us_installed s)).

(** What a packet is for. *)
Inductive PacketAction : Type := AnswerDNS | SendTo (key : string).

Definition packet_action (DNSHijack : bool) (port : Z) (key : string) : PacketAction :=
  if DNSHijack && bool_decide (port = 53) then AnswerDNS else SendTo key.

(** The period of [cleanupIdle] and the flows it closes. *)
Definition cleanup_interval (timeout : Z) : Z :=
  let interval := timeout / 2 in
  if bool_decide (interval < second) then second else interval.

Definition idle_flows (a : nat) (now timeout : Z) (s : UDPState) : list nat :=
  List.filter (fun f => bool_decide (now - lastActivity s f >= timeout)) (association_flows a s).

Inductive udp_step : UDPState -> UDPState -> Prop :=
| udp_open a s : us_associations s !! a = None -> udp_step s (set_association a Waiting s)
| udp_dial a key f now s :
    us_associations s !! a = Some Waiting -> us_installed s !! (a, key) = None ->
    us_flows s !! f = None -> udp_step s (flow_dial a key f now s)
| udp_install a f flow s :
    us_associations s !! a = Some (Dialed f) -> us_flows s !! f = Some flow ->
    udp_step s (flow_install a f (uf_address flow) s)
| udp_register a f s :
    us_associations s !! a = Some (Installed f) -> udp_step s (flow_register a f s)
| udp_evict a oldest s :
    us_associations s !! a = Some (Evicting oldest) ->
    udp_step s (set_association a Waiting (close_begin oldest s))
(** A packet sent or received. *)
| udp_touch f flow now s :
    us_flows s !! f = Some flow -> udp_step s (set_flow f (touched now flow) s)
(** A failed read or write, or the idle clean-up: all of them hold a flow that was inserted. *)
| udp_close a f s :
    f ∈ association_flows a s -> udp_step s (close_begin f s)
| udp_close_reader f flow s :
    us_flows s !! f = Some flow ->
    us_associations s !! uf_association flow <> Some (Dialed f) ->
    udp_step s (close_begin f s)
| udp_close_next f s : udp_step s (close_next f s)
(** [Close] of the association: each of its flows is closed, by it or by another goroutine
    that it waits for. *)
| udp_end a s :
    us_associations s !! a = Some Waiting ->
    udp_step s (set_association a (Ending (association_flows a s)) s)
| udp_end_one a f flows s :
    us_associations s !! a = Some (Ending flows) -> f ∈ flows -> udp_step s (close_begin f s)
| udp_ended a flows s :
    us_associations s !! a = Some (Ending flows) ->
    (forall f, f ∈ flows -> remote_open s f = false) ->
    udp_step s (set_association a Ended s).

(** ** No connection is lost *)

Definition dialed_flow (s : UDPState) (f : nat) (flow : tunUDPFlow) : Prop :=
  us_associations s !! uf_association flow = Some (Dialed f).

(** A flow that is past its dial. *)
Definition settled (s : UDPState) (f : nat) : Prop :=
  exists flow, us_flows s !! f = Some flow /\ ~ dialed_flow s f flow.

(** The flows that a goroutine of an association holds. *)
Definition holds (t : Association) (f : nat) : Prop :=
  match t with
  | Installed g | Evicting g => f = g
  | Ending flows => f ∈ flows
  | _ => False
  end.

Record udp_inv (s : UDPState) : Prop := {
  ui_installed : forall a key f, us_installed s !! (a, key) = Some f ->
    exists flow, us_flows s !! f = Some flow /\ uf_association flow = a /\
      uf_address flow = key /\ uf_stage flow = NotClosed /\ ~ dialed_flow s f flow;
  ui_kept : forall f flow, us_flows s !! f = Some flow -> uf_stage flow = NotClosed ->
    us_installed s !! (uf_association flow, uf_address flow) = Some f \/ dialed_flow s f flow;
  ui_dialed : forall a f, us_associations s !! a = Some (Dialed f) ->
    exists flow, us_flows s !! f = Some flow /\ uf_association flow = a /\
      uf_stage flow = NotClosed /\ us_installed s !! (a, uf_address flow) = None;
  ui_known : forall f flow, us_flows s !! f = Some flow ->
    is_Some (us_associations s !! uf_association flow);
  ui_settled : forall f, f ∈ us_registered s -> settled s f;
  ui_held : forall a t f, us_associations s !! a = Some t -> holds t f -> settled s f;
  ui_ending : forall a flows f flow, us_associations s !! a = Some (Ending flows) ->
    us_flows s !! f = Some flow -> uf_association flow = a -> uf_stage flow = NotClosed ->
    f ∈ flows;
  ui_ended : forall a f flow, us_associations s !! a = Some Ended ->
    us_flows s !! f = Some flow -> uf_association flow = a -> uf_stage flow <> NotClosed;
}.

Lemma elem_of_association_flows a f s :
  f ∈ association_flows a s <-> exists key, us_installed s !! (a, key) = Some f.
Proof.
  unfold association_flows. rewrite list_elem_of_omap. split.
  - intros ([[b key] g] & Hin & Hg). apply elem_of_map_to_list in Hin. simpl in Hg.
    case_bool_decide; [|done]. simplify_eq. by exists key.
  - intros [key Hk]. exists ((a, key), f). rewrite elem_of_map_to_list. simpl.
    by rewrite bool_decide_eq_true_2.
Qed.

Lemma installed_settled s a key f :
  udp_inv s -> us_installed s !! (a, key) = Some f -> settled s f.
Proof.
  intros Hi H. destruct (ui_installed s Hi _ _ _ H) as (flow & Hf & _ & _ & _ & Hd). by exists flow.
Qed.

(** The goroutine of [a] moves on, neither from nor to a dial. *)
Definition not_dialed (t : option Association) : Prop := forall f, t <> Some (Dialed f).

Lemma dialed_set_association a t s f flow :
  not_dialed (us_associations s !! a) -> not_dialed (Some t) ->
  dialed_flow (set_association a t s) f flow <-> dialed_flow s f flow.
Proof.
  intros H1 H2. unfold dialed_flow. simpl. destruct (decide (a = uf_association flow)) as [->|Hne].
  - rewrite lookup_insert_eq. split; intros H; [by destruct (H2 f)|by destruct (H1 f)].
  - by rewrite lookup_insert_ne.
Qed.

Lemma settled_set_association a t s f :
  not_dialed (us_associations s !! a) -> not_dialed (Some t) ->
  settled (set_association a t s) f <-> settled s f.
Proof.
  intros H1 H2. unfold settled. simpl. split; intros (flow & Hf & Hd); exists flow;
    (split; [done|]); by rewrite dialed_set_association in *.
Qed.

Lemma set_association_inv a t s :
  udp_inv s -> not_dialed (us_associations s !! a) -> not_dialed (Some t) ->
  (forall f, holds t f -> settled s f) ->
  (forall f flow, us_flows s !! f = Some flow -> uf_association flow = a ->
     uf_stage flow = NotClosed -> match t with Ending flows => f ∈ flows | Ended => False | _ => True end) ->
  udp_inv (set_association a t s).
Proof.
  intros Hi H1 H2 Hh He. split; simpl.
  - intros b key f H. destruct (ui_installed s Hi _ _ _ H) as (flow & ? & ? & ? & ? & ?).
    exists flow. by rewrite dialed_set_association.
  - intros f flow Hf Hs. rewrite dialed_set_association by done. by apply (ui_kept s Hi).
  - intros b f. destruct (decide (a = b)) as [<-|Hne].
    + rewrite lookup_insert_eq. intros H. by destruct (H2 f).
    + rewrite lookup_insert_ne by done. apply (ui_dialed s Hi).
  - intros f flow Hf. destruct (decide (a = uf_association flow)) as [->|Hne].
    + rewrite lookup_insert_eq. by eexists.
    + rewrite lookup_insert_ne by done. by eapply (ui_known s Hi).
  - intros f Hf. rewrite settled_set_association by done. by apply (ui_settled s Hi).
  - intros b u f Hb Hu. rewrite settled_set_association by done.
    destruct (decide (a = b)) as [<-|Hne].
    + rewrite lookup_insert_eq in Hb. simplify_eq. by apply Hh.
    + rewrite lookup_insert_ne in Hb by done. by eapply (ui_held s Hi).
  - intros b flows f flow Hb Hf Ha Hs. destruct (decide (a = b)) as [<-|Hne].
    + rewrite lookup_insert_eq in Hb. simplify_eq. by apply (He f flow).
    + rewrite lookup_insert_ne in Hb by done. by eapply (ui_ending s Hi).
  - intros b f flow Hb Hf Ha Hs. destruct (decide (a = b)) as [<-|Hne].
    + rewrite lookup_insert_eq in Hb. simplify_eq. by apply (He f flow).
    + rewrite lookup_insert_ne in Hb by done. by eapply (ui_ended s Hi).
Qed.

(** A flow changes its activity, or its stage beyond [NotClosed], and nothing else. *)
Lemma set_flow_inv f flow flow' s :
  udp_inv s -> us_flows s !! f = Some flow -> uf_association flow' = uf_association flow ->
  uf_address flow' = uf_address flow ->
  (uf_stage flow' = uf_stage flow \/ (uf_stage flow <> NotClosed /\ uf_stage flow' <> NotClosed)) ->
  udp_inv (set_flow f flow' s).
Proof.
  intros Hi Hf Ha Hk Hs.
  assert (uf_stage flow' = NotClosed <-> uf_stage flow = NotClosed) as Hst.
  { destruct Hs as [->|[H1 H2]]; [done|]. by split. }
  assert (forall g x, <[f := flow']> (us_flows s) !! g = Some x ->
    exists y, us_flows s !! g = Some y /\ uf_association x = uf_association y /\
      uf_address x = uf_address y /\ (uf_stage x = NotClosed <-> uf_stage y = NotClosed)) as Hback.
  { intros g x. destruct (decide (f = g)) as [<-|Hne].
    - rewrite lookup_insert_eq. intros [= <-]. by exists flow.
    - rewrite lookup_insert_ne by done. intros H. by exists x. }
  assert (forall g y, us_flows s !! g = Some y ->
    exists x, <[f := flow']> (us_flows s) !! g = Some x /\ uf_association x = uf_association y /\
      uf_address x = uf_address y /\ (uf_stage x = NotClosed <-> uf_stage y = NotClosed)) as Hforth.
  { intros g y. destruct (decide (f = g)) as [<-|Hne].
    - rewrite lookup_insert_eq. intros ?. simplify_eq. by exists flow'.
    - rewrite lookup_insert_ne by done. intros H. by exists y. }
  assert (forall g, settled s g -> settled (set_flow f flow' s) g) as Hset.
  { intros g (y & Hy & Hd). destruct (Hforth _ _ Hy) as (x & Hx & Hax & _).
    exists x. split; [done|]. unfold dialed_flow in *. simpl. by rewrite Hax. }
  split; simpl.
  - intros a key g H. destruct (ui_installed s Hi _ _ _ H) as (y & Hy & <- & <- & Hsy & Hd).
    destruct (Hforth _ _ Hy) as (x & Hx & Hax & Hkx & Hsx). exists x.
    unfold dialed_flow in *. simpl. rewrite Hax. by rewrite Hsx.
  - intros g x Hx Hsx. destruct (Hback _ _ Hx) as (y & Hy & Hay & Hky & Hsy).
    unfold dialed_flow. simpl. rewrite Hay, Hky. apply (ui_kept s Hi g y Hy). by apply Hsy.
  - intros a g H. destruct (ui_dialed s Hi _ _ H) as (y & Hy & <- & Hsy).
    destruct (Hforth _ _ Hy) as (x & Hx & Hax & Hkx & Hsx). exists x. by rewrite Hsx, Hkx.
  - intros g x Hx. destruct (Hback _ _ Hx) as (y & Hy & -> & _). by eapply (ui_known s Hi).
  - intros g Hg. by apply Hset, (ui_settled s Hi).
  - intros a t g H1 H2. by eapply Hset, (ui_held s Hi).
  - intros a flows g x H Hx Hax Hsx. destruct (Hback _ _ Hx) as (y & Hy & Hay & _ & Hsy).
    apply (ui_ending s Hi a flows g y H Hy); [congruence|]. by apply Hsy.
  - intros a g x H Hx Hax Hsx. destruct (Hback _ _ Hx) as (y & Hy & Hay & _ & Hsy).
    apply (ui_ended s Hi a g y H Hy); [congruence|]. by apply Hsy.
Qed.

Lemma close_begin_inv f s : udp_inv s -> settled s f -> udp_inv (close_begin f s).
Proof.
  intros Hi (flow & Hf & Hd). unfold close_begin. rewrite Hf.
  case_bool_decide as Hs; [|done].
  destruct (ui_kept s Hi f flow Hf Hs) as [Hk|]; [|done]. rewrite bool_decide_eq_true_2 by done.
  set (key := (uf_association flow, uf_address flow)) in *.
  assert (forall g x, <[f := at_stage Deleted flow]> (us_flows s) !! g = Some x ->
    (g = f /\ x = at_stage Deleted flow) \/ (g <> f /\ us_flows s !! g = Some x)) as Hback.
  { intros g x. destruct (decide (f = g)) as [<-|Hne].
    - rewrite lookup_insert_eq. intros [= <-]. by left.
    - rewrite lookup_insert_ne by done. by right. }
  assert (forall g, settled s g -> settled (set_flow f (at_stage Deleted flow)
            (set_installed (delete key (us_installed s)) s)) g) as Hset.
  { intros g (y & Hy & Hdy). destruct (decide (f = g)) as [<-|Hne].
    - exists (at_stage Deleted flow). simpl. by rewrite lookup_insert_eq.
    - exists y. simpl. by rewrite lookup_insert_ne. }
  split; simpl.
  - intros a k g H. apply lookup_delete_Some in H as [Hne H].
    destruct (ui_installed s Hi _ _ _ H) as (y & Hy & <- & <- & Hsy & Hdy). exists y.
    rewrite lookup_insert_ne; [done|]. intros <-. simplify_eq.
  - intros g x Hx Hsx. destruct (Hback _ _ Hx) as [[-> ->]|[Hne Hy]]; [done|].
    destruct (ui_kept s Hi g x Hy Hsx) as [Hin|Hdx]; [left|by right].
    apply lookup_delete_Some. split; [|done]. congruence.
  - intros a g H. destruct (ui_dialed s Hi _ _ H) as (y & Hy & <- & Hsy & Hn). exists y.
    rewrite lookup_insert_ne; [|intros <-; by simplify_eq].
    split_and!; [done|done|done|]. apply lookup_delete_None. by right.
  - intros g x Hx. destruct (Hback _ _ Hx) as [[-> ->]|[Hne Hy]];
      [exact (ui_known s Hi f flow Hf)|by eapply (ui_known s Hi)].
  - intros g Hg. by apply Hset, (ui_settled s Hi).
  - intros a t g H1 H2. by eapply Hset, (ui_held s Hi).
  - intros a flows g x H Hx Hax Hsx. destruct (Hback _ _ Hx) as [[-> ->]|[Hne Hy]]; [done|].
    by eapply (ui_ending s Hi).
  - intros a g x H Hx Hax. destruct (Hback _ _ Hx) as [[-> ->]|[Hne Hy]]; [done|].
    by eapply (ui_ended s Hi).
Qed.

Lemma close_begin_associations f s : us_associations (close_begin f s) = us_associations s.
Proof. unfold close_begin. repeat case_match; done. Qed.

Lemma set_registered_inv r s :
  udp_inv s -> (forall f, f ∈ r -> settled s f) -> udp_inv (set_registered r s).
Proof. intros [] Hr. by split. Qed.

Lemma close_next_inv f s : udp_inv s -> udp_inv (close_next f s).
Proof.
  intros Hi. unfold close_next. destruct (us_flows s !! f) as [flow|] eqn:Hf; [|done].
  destruct (uf_stage flow) eqn:Hs; try done.
  - eapply set_flow_inv; [|exact Hf|done|done|right; by rewrite Hs].
    apply set_registered_inv; [done|]. intros g Hg. apply (ui_settled s Hi). set_solver.
  - eapply set_flow_inv; [done|exact Hf|done|done|right; by rewrite Hs].
Qed.

Lemma flow_dial_inv a key f now s :
  udp_inv s -> us_associations s !! a = Some Waiting -> us_installed s !! (a, key) = None ->
  us_flows s !! f = None -> udp_inv (flow_dial a key f now s).
Proof.
  intros Hi Ha Hk Hf. unfold flow_dial.
  assert (forall g x, us_flows s !! g = Some x ->
    (dialed_flow (flow_dial a key f now s) g x <-> dialed_flow s g x)) as Hd.
  { intros g x Hx. unfold dialed_flow. simpl. destruct (decide (a = uf_association x)) as [->|Hne].
    - rewrite lookup_insert_eq, Ha. split; [|done]. intros [= ->]. congruence.
    - by rewrite lookup_insert_ne. }
  assert (forall g, settled s g -> settled (flow_dial a key f now s) g) as Hset.
  { intros g (y & Hy & Hdy). exists y. rewrite Hd by done. split; [|done]. simpl.
    rewrite lookup_insert_ne; [done|]. congruence. }
  split; simpl.
  - intros b k g H. destruct (ui_installed s Hi _ _ _ H) as (y & Hy & ? & ? & ? & ?).
    exists y. rewrite Hd by done. rewrite lookup_insert_ne by congruence. done.
  - intros g x. destruct (decide (f = g)) as [<-|Hne].
    + rewrite lookup_insert_eq. intros [= <-] _. right. unfold dialed_flow. simpl.
      by rewrite lookup_insert_eq.
    + rewrite lookup_insert_ne by done. intros Hx Hs. pose proof (Hd g x Hx) as Hdx.
      unfold flow_dial in Hdx. rewrite Hdx. by apply (ui_kept s Hi).
  - intros b g. destruct (decide (a = b)) as [<-|Hne].
    + rewrite lookup_insert_eq. intros [= <-]. rewrite lookup_insert_eq. eexists. done.
    + rewrite lookup_insert_ne by done. intros H.
      destruct (ui_dialed s Hi _ _ H) as (y & Hy & ? & ? & ?). exists y.
      by rewrite lookup_insert_ne by congruence.
  - intros g x. destruct (decide (a = uf_association x)) as [->|Ha'];
      [rewrite lookup_insert_eq; by eexists|]. rewrite (lookup_insert_ne _ a) by done.
    destruct (decide (f = g)) as [<-|Hne]; [rewrite lookup_insert_eq; by intros [= <-]|].
    rewrite lookup_insert_ne by done. apply (ui_known s Hi).
  - intros g Hg. by apply Hset, (ui_settled s Hi).
  - intros b t g. destruct (decide (a = b)) as [<-|Hne].
    + rewrite lookup_insert_eq. by intros [= <-].
    + rewrite lookup_insert_ne by done. intros Hb Ht. by eapply Hset, (ui_held s Hi).
  - intros b flows g x. destruct (decide (a = b)) as [<-|Hne]; [by rewrite lookup_insert_eq|].
    rewrite (lookup_insert_ne _ a) by done. intros Hb.
    destruct (decide (f = g)) as [<-|Hne']; [rewrite lookup_insert_eq; by intros [= <-] ? |].
    rewrite lookup_insert_ne by done. by eapply (ui_ending s Hi).
  - intros b g x. destruct (decide (a = b)) as [<-|Hne]; [by rewrite lookup_insert_eq|].
    rewrite (lookup_insert_ne _ a) by done. intros Hb.
    destruct (decide (f = g)) as [<-|Hne']; [rewrite lookup_insert_eq; by intros [= <-] ? |].
    rewrite lookup_insert_ne by done. by eapply (ui_ended s Hi).
Qed.

Lemma flow_install_inv a f flow s :
  udp_inv s -> us_associations s !! a = Some (Dialed f) -> us_flows s !! f = Some flow ->
  udp_inv (flow_install a f (uf_address flow) s).
Proof.
  intros Hi Ha Hf. destruct (ui_dialed s Hi _ _ Ha) as (x & Hx & Hax & Hsx & Hn). simplify_eq.
  unfold flow_install. rewrite Hn. set (a := uf_association flow) in *.
  set (s' := set_association a (Installed f) _).
  assert (forall g x, dialed_flow s' g x -> dialed_flow s g x) as Hd.
  { intros g x. unfold dialed_flow, s'. simpl.
    destruct (decide (a = uf_association x)) as [<-|Hne]; [by rewrite lookup_insert_eq|].
    by rewrite lookup_insert_ne. }
  assert (~ dialed_flow s' f flow) as Hnd.
  { unfold dialed_flow, s'. simpl. by rewrite lookup_insert_eq. }
  assert (forall g, settled s g -> settled s' g) as Hset.
  { intros g (y & Hy & Hdy). exists y. split; [done|]. by intros H%Hd. }
  split; simpl.
  - intros b k g H. destruct (decide ((a, uf_address flow) = (b, k))) as [[= <- <-]|Hne].
    + rewrite lookup_insert_eq in H. simplify_eq. by exists flow.
    + rewrite lookup_insert_ne in H by done.
      destruct (ui_installed s Hi _ _ _ H) as (y & Hy & ? & ? & ? & Hdy). exists y.
      split_and!; try done. by intros Hc%Hd.
  - intros g x Hx Hs. destruct (ui_kept s Hi g x Hx Hs) as [Hin|Hdx].
    + left. rewrite lookup_insert_ne; [done|]. intros Heq. rewrite <-Heq in Hin. congruence.
    + unfold dialed_flow in Hdx. destruct (decide (a = uf_association x)) as [Heq|Hne].
      * left. rewrite <-Heq in Hdx. simplify_eq. by rewrite lookup_insert_eq.
      * right. unfold dialed_flow, s'. simpl. by rewrite lookup_insert_ne.
  - intros b g. destruct (decide (a = b)) as [<-|Hne]; [by rewrite lookup_insert_eq|].
    rewrite lookup_insert_ne by done. intros H.
    destruct (ui_dialed s Hi _ _ H) as (y & Hy & Hay & Hsy & Hny). exists y.
    rewrite lookup_insert_ne by congruence. done.
  - intros g x Hx. destruct (decide (a = uf_association x)) as [->|Hne].
    + rewrite lookup_insert_eq. by eexists.
    + rewrite lookup_insert_ne by done. by eapply (ui_known s Hi).
  - intros g Hg. by apply Hset, (ui_settled s Hi).
  - intros b t g. destruct (decide (a = b)) as [<-|Hne].
    + rewrite lookup_insert_eq. intros [= <-]. simpl. intros ->. by exists flow.
    + rewrite lookup_insert_ne by done. intros Hb Ht. by eapply Hset, (ui_held s Hi).
  - intros b flows g x. destruct (decide (a = b)) as [<-|Hne]; [by rewrite lookup_insert_eq|].
    rewrite lookup_insert_ne by done. apply (ui_ending s Hi).
  - intros b g x. destruct (decide (a = b)) as [<-|Hne]; [by rewrite lookup_insert_eq|].
    rewrite lookup_insert_ne by done. apply (ui_ended s Hi).
Qed.

(** The fold of [registerUDPFlow] finds a least active flow other than the new one. *)
Lemma oldest_spec s f l acc :
  match fold_left (fun oldest candidate => older s f candidate oldest) l acc with
  | Some o => (acc = Some o \/ (o ∈ l /\ o <> f)) /\
      (forall c, c ∈ l -> c <> f -> lastActivity s o <= lastActivity s c) /\
      (forall o', acc = Some o' -> lastActivity s o <= lastActivity s o')
  | None => acc = None /\ forall c, c ∈ l -> c = f
  end.
Proof.
  revert acc. induction l as [|c l IH]; intros acc; simpl.
  - destruct acc as [o|].
    + split_and!; [by left|by intros ? ?%elem_of_nil|by intros ? [= ->]].
    + split; [done|]. by intros ? ?%elem_of_nil.
  - specialize (IH (older s f c acc)).
    destruct (fold_left _ l _) as [o|].
    + destruct IH as (Ho & Hl & Hacc). unfold older in *.
      destruct (decide (c = f)) as [->|Hc];
        [rewrite bool_decide_eq_true_2 in * by done|rewrite bool_decide_eq_false_2 in * by done];
        simpl in *.
      * split_and!; [|intros x [->|Hx]%elem_of_cons ?; [done|by apply Hl]|done].
        destruct Ho as [->|[? ?]]; [by left|right; split; [by right|done]].
      * destruct acc as [o'|]; [case_bool_decide|].
        -- pose proof (Hacc c eq_refl). split_and!.
           ++ destruct Ho as [[= ->]|[? ?]]; right; split; try done; [by left|by right].
           ++ intros x [->|Hx]%elem_of_cons ?; [done|by apply Hl].
           ++ intros ? [= <-]. lia.
        -- pose proof (Hacc o' eq_refl). split_and!.
           ++ destruct Ho as [->|[? ?]]; [by left|right; split; [by right|done]].
           ++ intros x [->|Hx]%elem_of_cons ?; [lia|by apply Hl].
           ++ intros ? [= <-]. lia.
        -- pose proof (Hacc c eq_refl). split_and!.
           ++ destruct Ho as [[= ->]|[? ?]]; right; split; try done; [by left|by right].
           ++ intros x [->|Hx]%elem_of_cons ?; [done|by apply Hl].
           ++ done.
    + destruct IH as [Hacc Hl]. unfold older in Hacc.
      destruct (decide (c = f)) as [->|Hc];
        [rewrite bool_decide_eq_true_2 in Hacc by done|rewrite bool_decide_eq_false_2 in Hacc by done];
        simpl in Hacc.
      * split; [done|]. intros x [->|Hx]%elem_of_cons; [done|by apply Hl].
      * destruct acc; [by case_bool_decide|done].
Qed.

Context (range_perm : forall r, range r ≡ₚ elements r).

(** Over the limit there is always a flow to close: a registered one, not the new one. *)
Lemma registerUDPFlow_spec f s :
  let '(oldest, s') := registerUDPFlow f s in
  us_registered s' = {[f]} ∪ us_registered s /\ s' = set_registered ({[f]} ∪ us_registered s) s /\
  match oldest with
  | Some o => o ∈ us_registered s /\ o <> f /\
      (forall c, c ∈ us_registered s -> c <> f -> lastActivity s o <= lastActivity s c)
  | None => (size ({[f]} ∪ us_registered s) <= Nat.max 1 maxFlows)%nat
  end.
Proof.
  unfold registerUDPFlow. split_and!; [done|done|].
  case_bool_decide as Hlen; [|lia].
  set (s1 := set_registered _ s).
  pose proof (oldest_spec s1 f (range ({[f]} ∪ us_registered s)) None) as H.
  assert (forall c, c ∈ range ({[f]} ∪ us_registered s) <-> c = f \/ c ∈ us_registered s) as Hr.
  { intros c. rewrite range_perm, elem_of_elements. set_solver. }
  destruct (fold_left _ _ None) as [o|].
  - destruct H as ([?|[Ho Hne]] & Hl & _); [done|]. apply Hr in Ho as [?|Ho]; [done|].
    split_and!; [done|done|]. intros c Hc Hcf. apply Hl; [|done]. apply Hr. by right.
  - destruct H as [_ H].
    assert ({[f]} ∪ us_registered s ⊆ ({[f]} : gset nat)) as Hsub.
    { intros c Hc. assert (c = f) as ->; [|set_solver]. apply H, Hr. set_solver. }
    apply subseteq_size in Hsub. rewrite size_singleton in Hsub. lia.
Qed.

Lemma flow_register_inv a f s :
  udp_inv s -> us_associations s !! a = Some (Installed f) -> udp_inv (flow_register a f s).
Proof.
  intros Hi Ha. unfold flow_register. pose proof (registerUDPFlow_spec f s) as H.
  destruct (registerUDPFlow f s) as [oldest s']. destruct H as (_ & -> & Ho).
  assert (settled s f) as Hf by (by eapply (ui_held s Hi)).
  apply set_association_inv.
  - apply set_registered_inv; [done|]. intros g [->%elem_of_singleton|Hg]%elem_of_union; [done|].
    by apply (ui_settled s Hi).
  - simpl. rewrite Ha. by intros ?.
  - by destruct oldest.
  - destruct oldest as [o|]; [|done]. simpl. intros g ->. destruct Ho as [Ho _].
    by apply (ui_settled s Hi).
  - by destruct oldest.
Qed.

Lemma udp_step_inv s s' : udp_step s s' -> udp_inv s -> udp_inv s'.
Proof.
  destruct 1; intros Hi.
  - apply set_association_inv; try done. rewrite H. done.
  - by apply flow_dial_inv.
  - by apply flow_install_inv.
  - by apply flow_register_inv.
  - assert (settled s oldest) as Ho by (by eapply (ui_held s Hi)).
    apply set_association_inv; [by apply close_begin_inv| |done|done|done].
    rewrite close_begin_associations, H. done.
  - by eapply set_flow_inv; [..|left].
  - apply close_begin_inv; [done|]. apply elem_of_association_flows in H as [key H].
    by eapply installed_settled.
  - apply close_begin_inv; [done|]. by exists flow.
  - by apply close_next_inv.
  - apply set_association_inv; try done; [by rewrite H| |].
    + intros f [key Hf]%elem_of_association_flows. by eapply installed_settled.
    + intros f flow Hf Ha Hs. apply elem_of_association_flows. exists (uf_address flow).
      destruct (ui_kept s Hi f flow Hf Hs) as [Hk|Hd]; [by rewrite <-Ha|].
      unfold dialed_flow in Hd. rewrite Ha, H in Hd. done.
  - apply close_begin_inv; [done|]. by eapply (ui_held s Hi).
  - apply set_association_inv; try done; [by rewrite H|].
    intros f flow Hf Ha Hs. pose proof (ui_ending s Hi a flows f flow H Hf Ha Hs) as Hin.
    specialize (H0 f Hin). unfold remote_open in H0. rewrite Hf in H0. by rewrite Hs in H0.
Qed.
End Steps.

Definition udp_reachable (maxFlows : nat) (range : gset nat -> list nat) (s : UDPState) : Prop :=
  rtc (udp_step maxFlows range) newUDPState s.

Lemma newUDPState_inv : udp_inv newUDPState.
Proof.
  split; simpl; try (intros *; rewrite lookup_empty; done). intros f Hf. set_solver.
Qed.

Lemma udp_reachable_inv maxFlows range (range_perm : forall r, range r ≡ₚ elements r) s :
  udp_reachable maxFlows range s -> udp_inv s.
Proof.
  apply (rtc_closed _ udp_inv); [|apply newUDPState_inv].
  intros x y Hx Hxy. by eapply udp_step_inv.
Qed.

(** C29: no UDP connection of the TUN inbound is lost. In whatever order the associations, the
    readers, the idle clean-up and the evictions interleave, a connection that is open is the
    one its association keeps for its address, or is about to be inserted there, or is
    being closed; an association keeps one flow per address, and the flow it has just
    dialled never finds another one in its place. Once an association has been closed, every
    connection it opened is closed or on the way there. *)
Theorem udp_no_leak (maxFlows : nat) (range : gset nat -> list nat)
    (range_perm : forall r, range r ≡ₚ elements r) (s : UDPState)
    (Hr : udp_reachable maxFlows range s) :
  (forall f flow, us_flows s !! f = Some flow -> remote_open s f = true ->
     us_installed s !! (uf_association flow, uf_address flow) = Some f \/
     us_associations s !! uf_association flow = Some (Dialed f) \/
     uf_stage flow = Deleted \/ uf_stage flow = Unregistered) /\
  (forall a f flow, us_associations s !! a = Some (Dialed f) -> us_flows s !! f = Some flow ->
     us_installed s !! (a, uf_address flow) = None) /\
  (forall a f flow, us_associations s !! a = Some Ended -> us_flows s !! f = Some flow ->
     uf_association flow = a -> uf_stage flow <> NotClosed) /\
  (forall a key f, us_installed s !! (a, key) = Some f -> remote_open s f = true).
Proof.
  pose proof (udp_reachable_inv _ _ range_perm s Hr) as Hi. split_and!.
  - intros f flow Hf Ho. destruct (uf_stage flow) eqn:Hs; auto.
    + destruct (ui_kept s Hi f flow Hf Hs) as [?|?]; auto.
    + unfold remote_open in Ho. by rewrite Hf, Hs in Ho.
  - intros a f flow Ha Hf. destruct (ui_dialed s Hi a f Ha) as (x & Hx & _ & _ & Hn). by simplify_eq.
  - apply (ui_ended s Hi).
  - intros a key f Hk. destruct (ui_installed s Hi a key f Hk) as (x & Hx & _ & _ & Hs & _).
    unfold remote_open. by rewrite Hx, Hs.
Qed.

(** ** The limit *)

Lemma close_all_registered f flow s :
  us_flows s !! f = Some flow -> uf_stage flow = NotClosed ->
  us_registered (close_all f s) = us_registered s ∖ {[f]}.
Proof.
  intros Hf Hs. unfold close_all, close_begin. rewrite Hf, bool_decide_eq_true_2 by done.
  assert (forall t, us_registered t = us_registered s ->
    us_registered (close_next f (close_next f (set_flow f (at_stage Deleted flow) t)))
    = us_registered s ∖ {[f]}) as H.
  { intros t Ht. unfold close_next. simpl. rewrite !lookup_insert_eq. simpl.
    rewrite lookup_insert_eq. simpl. by rewrite Ht. }
  case_bool_decide; by apply H.
Qed.

(** A new UDP flow makes room for itself. Registering one flow and closing the flow that
    [registerUDPFlow] picks keeps the number of registered flows within the configured limit,
    when no flow that is already closed is registered: it picks a least recently active other
    flow exactly when the limit would be exceeded. *)
Theorem udp_limit_kept (maxFlows : nat) (range : gset nat -> list nat)
    (range_perm : forall r, range r ≡ₚ elements r) (f : nat) (s : UDPState) :
  (1 <= maxFlows)%nat -> (size (us_registered s) <= maxFlows)%nat ->
  (forall g, g ∈ us_registered s -> exists flow, us_flows s !! g = Some flow /\
     uf_stage flow = NotClosed) ->
  let '(oldest, s') := registerUDPFlow maxFlows range f s in
  match oldest with
  | Some o => (maxFlows < size ({[f]} ∪ us_registered s))%nat /\ o ∈ us_registered s /\ o <> f /\
      (forall c, c ∈ us_registered s -> c <> f -> lastActivity s o <= lastActivity s c) /\
      f ∈ us_registered (close_all o s') /\ (size (us_registered (close_all o s')) <= maxFlows)%nat
  | None => f ∈ us_registered s' /\ (size (us_registered s') <= maxFlows)%nat
  end.
Proof.
  intros Hm Hsize Hopen.
  pose proof (registerUDPFlow_spec maxFlows range range_perm f s) as H.
  destruct (registerUDPFlow maxFlows range f s) as [oldest s'] eqn:E.
  destruct H as (_ & -> & Ho). destruct oldest as [o|].
  - destruct Ho as (Hin & Hne & Hleast). destruct (Hopen o Hin) as (flow & Hf & Hs).
    rewrite (close_all_registered o flow) by done. simpl.
    assert (maxFlows < size ({[f]} ∪ us_registered s))%nat.
    { unfold registerUDPFlow in E. case_bool_decide; [done|]. by injection E. }
    split_and!; try done; [set_solver|].
    rewrite size_difference by set_solver. rewrite size_singleton.
    rewrite size_union_alt, size_singleton.
    pose proof (subseteq_size (us_registered s ∖ {[f]}) (us_registered s) ltac:(set_solver)). lia.
  - split; [simpl; set_solver|]. simpl. lia.
Qed.

(** A step of one flow's life, for running examples. *)
Definition open_flow (maxFlows : nat) (a f : nat) (key : string) (now : Z) (s : UDPState) : UDPState :=
  flow_register maxFlows elements a f (flow_install a f key (flow_dial a key f now s)).

Definition evict_of (a : nat) (s : UDPState) : UDPState :=
  match us_associations s !! a with
  | Some (Evicting o) => set_association a Waiting (close_all o s)
  | _ => s
  end.

Definition open_flows (s : UDPState) : list nat :=
  List.filter (remote_open s) (map fst (map_to_list (us_flows s))).

Lemma udp_limit_kept_witness :
  let s := open_flow 1 0 0 "10.0.0.1:53" 0 (set_association 0 Waiting newUDPState) in
  exists oldest s', registerUDPFlow 1 elements 1 s = (Some oldest, s') /\ oldest = 0%nat /\
    (size (us_registered (close_all oldest s')) <= 1)%nat.
Proof.
  set (s := open_flow _ _ _ _ _ _). cbv zeta.
  pose proof (udp_limit_kept 1 elements (fun r => reflexivity _) 1 s ltac:(lia)
                ltac:(by vm_compute)) as H.
  destruct (registerUDPFlow 1 elements 1 s) as [[o|] s'] eqn:E; [|by vm_compute in E].
  assert (o = 0%nat) as -> by (by vm_compute in E; injection E as <- _).
  exists 0%nat, s'. split_and!; [done|done|]. apply H. intros g Hg.
  assert (g = 0%nat) as ->; [|by vm_compute; eexists].
  assert (us_registered s = {[0%nat]}) as Hreg by (by vm_compute). set_solver.
Defined.

(** ** A registration that comes too late

    [flow] inserts a flow before it registers it. When the idle clean-up closes the flow in
    between, the service registers a closed flow; it is the least active one from then on, and
    closing it again does nothing, so no flow makes room any more. *)

Lemma dial_install_run maxFlows a f key now s :
  us_associations s !! a = Some Waiting -> us_installed s !! (a, key) = None ->
  us_flows s !! f = None ->
  rtc (udp_step maxFlows elements) s (flow_install a f key (flow_dial a key f now s)).
Proof.
  intros Ha Hk Hf. eapply rtc_l; [by apply udp_dial|]. apply rtc_once.
  set (flow := {| uf_association := a; uf_address := key; uf_lastActive := now;
                  uf_stage := NotClosed |}).
  apply (udp_install _ _ a f flow); simpl; by rewrite lookup_insert_eq.
Qed.

Definition late_registration : UDPState :=
  flow_register 1 elements 0 0 (close_all 0
    (flow_install 0 0 "a" (flow_dial 0 "a" 0 0 (set_association 0 Waiting newUDPState)))).

Definition evict_closed (f : nat) (key : string) (s : UDPState) : UDPState :=
  set_association 0 Waiting (close_begin 0 (open_flow 1 0 f key (Z.of_nat f) s)).

Definition over_the_limit : UDPState := evict_closed 2 "c" (evict_closed 1 "b" late_registration).

Lemma late_registration_run : rtc (udp_step 1 elements) newUDPState late_registration.
Proof.
  eapply rtc_l; [by apply (udp_open _ _ 0)|].
  etransitivity; [by apply (dial_install_run 1 0 0 "a" 0)|].
  eapply rtc_l; [apply (udp_close _ _ 0 0); by vm_compute; constructor|].
  eapply rtc_l; [apply (udp_close_next _ _ 0)|]. eapply rtc_l; [apply (udp_close_next _ _ 0)|].
  apply rtc_once, udp_register. by vm_compute.
Qed.

Lemma evict_closed_run f key s :
  us_associations s !! 0%nat = Some Waiting -> us_installed s !! (0%nat, key) = None ->
  us_flows s !! f = None ->
  us_associations (open_flow 1 0 f key (Z.of_nat f) s) !! 0%nat = Some (Evicting 0) ->
  rtc (udp_step 1 elements) s (evict_closed f key s).
Proof.
  intros Ha Hk Hf He. etransitivity; [by apply (dial_install_run 1 0 f key (Z.of_nat f))|].
  eapply rtc_l; [apply (udp_register _ _ 0 f)|apply rtc_once, (udp_evict _ _ 0 0); exact He].
  unfold flow_install, flow_dial. simpl. rewrite Hk. simpl. by rewrite lookup_insert_eq.
Qed.

Example udp_limit_can_be_lost :
  udp_reachable 1 elements over_the_limit /\
  us_associations over_the_limit = {[0%nat := Waiting]} /\
  open_flows over_the_limit = [2; 1]%nat /\
  remote_open over_the_limit 0 = false /\ us_registered over_the_limit = {[0; 1; 2]}%nat.
Proof.
  split; [|by split_and!; vm_compute]. unfold udp_reachable.
  etransitivity; [exact late_registration_run|].
  etransitivity; [apply (evict_closed_run 1 "b"); by vm_compute|].
  apply (evict_closed_run 2 "c"); by vm_compute.
Qed.

Lemma udp_no_leak_witness :
  remote_open over_the_limit 1 = true /\
  (us_installed over_the_limit !! (0%nat, "b"%string) = Some 1%nat \/
   us_associations over_the_limit !! 0%nat = Some (Dialed 1)).
Proof.
  assert (udp_reachable 1 elements over_the_limit) as Hr.
  { unfold udp_reachable. etransitivity; [exact late_registration_run|].
    etransitivity; [apply (evict_closed_run 1 "b"); by vm_compute|].
    apply (evict_closed_run 2 "c"); by vm_compute. }
  destruct (udp_no_leak 1 elements (fun r => reflexivity _) over_the_limit Hr) as (H & _).
  split; [by vm_compute|].
  destruct (us_flows over_the_limit !! 1%nat) as [flow|] eqn:Hf; [|by vm_compute in Hf].
  assert (flow = {| uf_association := 0; uf_address := "b"; uf_lastActive := 1;
                    uf_stage := NotClosed |}) as -> by (vm_compute in Hf; congruence).
  destruct (H 1%nat _ Hf ltac:(by vm_compute)) as [?|[?|[?|?]]]; [by left|by right|done..].
Defined.
