(* ===== verification/TunService.v ===== *)
(** The TUN inbound's life (internal/networkruntime/tun.go): its configuration, its start with
    the clean-up of every failure, route updates, device errors and [Close], which may run
    at the same time as [Start]. What the device, the stack and the system's DNS settings
    answer is chosen by the step; what is open of them is part of the state. *)

From S2P Require Import Prelude Core GoNet FakeIP TunDNS.

(** ** [newTUNService] *)

Definition defaultTUNName : string := "ZJU-Portal".
Definition defaultTUNAddress : string := "172.19.0.1/30".
Definition defaultTUNMTU : Z := 1400.
Definition defaultTUNStack : string := "auto".
Definition defaultTUNUDPTimeout : Z := 60 * 1000000000.
Definition defaultTUNUDPMaxFlows : Z := 512.

(** [TUNConfig], the fields that the constructor reads or completes. *)
Record TunConfig : Type := {
  tn_Name : string;
  tn_Address : string;
  tn_MTU : Z;
  tn_AutoRoute : bool;
  tn_Stack : string;
  tn_UDPTimeout : Z;
  tn_UDPMaxFlows : Z;
  tn_DNSHijack : bool;
  tn_FakeIP : bool;
  tn_FakeIPRange : string;
}.

Definition complete_config (c : TunConfig) : TunConfig :=
  {| tn_Name := if is_empty (tn_Name c) then defaultTUNName else tn_Name c;
     tn_Address := if is_empty (tn_Address c) then defaultTUNAddress else tn_Address c;
     tn_MTU := if bool_decide (tn_MTU c = 0) then defaultTUNMTU else tn_MTU c;
     tn_AutoRoute := tn_AutoRoute c;
     tn_Stack := if is_empty (tn_Stack c) then defaultTUNStack else tn_Stack c;
     tn_UDPTimeout := if bool_decide (tn_UDPTimeout c <= 0) then defaultTUNUDPTimeout
                      else tn_UDPTimeout c;
     tn_UDPMaxFlows := if bool_decide (tn_UDPMaxFlows c <= 0) then defaultTUNUDPMaxFlows
                       else tn_UDPMaxFlows c;
     tn_DNSHijack := tn_DNSHijack c || tn_FakeIP c;
     tn_FakeIP := tn_FakeIP c;
     tn_FakeIPRange := if tn_FakeIP c && is_empty (tn_FakeIPRange c) then defaultTUNFakeIPRange
                       else tn_FakeIPRange c |}.

(** What the constructor makes: the configuration, the DNS address and the fake IP store. *)
Record TunParts : Type := {
  tp_config : TunConfig;
  tp_dnsServer : string;
  tp_fakeIPs : option fakeIPStore;
}.

Definition newTUNService (config : TunConfig) : result error TunParts :=
  if tn_FakeIP config && negb (tn_AutoRoute config) then
    Err (EText "TUN fake IP requires auto route")
  else
  let config := complete_config config in
  match ParsePrefix (tn_Address config) with
  | None => Err (EText ("parse TUN address " +:+ quote (tn_Address config)))
  | Some prefix =>
      let? dnsServer :=
        (if tn_DNSHijack config then
           if negb (tn_AutoRoute config) then Err (EText "TUN DNS hijack requires auto route")
           else let? dnsAddress := tunDNSServerAddress prefix in Ok (Addr_String dnsAddress)
         else Ok ""%string) in
      let? fakes := (if tn_FakeIP config
                     then let? store := newFakeIPStore (tn_FakeIPRange config) in Ok (Some store)
                     else Ok None) in
      Ok {| tp_config := config; tp_dnsServer := dnsServer; tp_fakeIPs := fakes |}
  end.

(** ** State *)

(** How far [start] has come; it returns at each failure. *)
Inductive StartStage : Type :=
| NotStarted
| DeviceCreated
| DeviceStarted
| StackCreated
| StackStarted
| DNSApplied
| StartReturned (err : option error).

(** How far [close] has come. It closes the device and the stack that it found when it
    began: [found] tells whether [start] had published them. *)
Inductive TunCloseStage : Type :=
| CloseIdle
| CloseMarked (found : bool)
| DNSRestored (found : bool)
| StackClosed (found : bool)
| DeviceClosed (found : bool)
| CloseFinished (found : bool).

(** The system's DNS settings: as they were, redirected to the TUN by an [Apply], whose controller keeps the old
    settings and which a [Restore] may have [failed] to put back, or left changed by an [Apply] that failed, with
    nothing kept. *)
Inductive SystemDNSView : Type :=
| DNSOriginal
| DNSRedirected (failed : option error)
| DNSLeft (err : error).

(** [device_open], [stack_open] and [monitors_open]: created, and [Close] was not called yet. They and [tun_dns] are
    not in the code. [tun_restoreErr] is the [restoreErr] among [closeErrors]. *)
Record TunState : Type := {
  device_open : bool;
  stack_open : bool;
  monitors_open : bool;
  tun_dns : SystemDNSView;
  tun_closed : bool;
  tun_published : bool;
  tun_addr : string;
  tun_runErr : option error;
  tun_restoreErr : option error;
  tun_done : bool;
  tun_start : StartStage;
  tun_close : TunCloseStage;
}.

Definition newTunState : TunState :=
  {| device_open := false; stack_open := false; monitors_open := false; tun_dns := DNSOriginal;
     tun_closed := false; tun_published := false; tun_addr := ""; tun_runErr := None; tun_restoreErr := None;
     tun_done := false; tun_start := NotStarted; tun_close := CloseIdle |}.

Definition set_open (device stack monitors : bool) (dns : SystemDNSView) (s : TunState) : TunState :=
  {| device_open := device; stack_open := stack; monitors_open := monitors; tun_dns := dns;
     tun_closed := tun_closed s; tun_published := tun_published s; tun_addr := tun_addr s;
     tun_runErr := tun_runErr s; tun_restoreErr := tun_restoreErr s; tun_done := tun_done s; tun_start := tun_start s;
     tun_close := tun_close s |}.

Definition set_start (t : StartStage) (s : TunState) : TunState :=
  {| device_open := device_open s; stack_open := stack_open s; monitors_open := monitors_open s;
     tun_dns := tun_dns s; tun_closed := tun_closed s; tun_published := tun_published s;
     tun_addr := tun_addr s; tun_runErr := tun_runErr s; tun_restoreErr := tun_restoreErr s; tun_done := tun_done s; tun_start := t;
     tun_close := tun_close s |}.

Definition set_tun_close (c : TunCloseStage) (s : TunState) : TunState :=
  {| device_open := device_open s; stack_open := stack_open s; monitors_open := monitors_open s;
     tun_dns := tun_dns s; tun_closed := tun_closed s; tun_published := tun_published s;
     tun_addr := tun_addr s; tun_runErr := tun_runErr s; tun_restoreErr := tun_restoreErr s; tun_done := tun_done s;
     tun_start := tun_start s; tun_close := c |}.

(** [device.Close], [stack.Close], [closeMonitors] and [systemDNS.Restore], which may fail or run out of its five
    seconds, with the settings [left] as they are; without an [Apply] before it, it has nothing to do. *)
Definition close_device (s : TunState) : TunState :=
  set_open false (stack_open s) (monitors_open s) (tun_dns s) s.
Definition close_tun_stack (s : TunState) : TunState :=
  set_open (device_open s) false (monitors_open s) (tun_dns s) s.
Definition closeMonitors (s : TunState) : TunState :=
  set_open (device_open s) (stack_open s) false (tun_dns s) s.
Definition set_dns (dns : SystemDNSView) (s : TunState) : TunState :=
  set_open (device_open s) (stack_open s) (monitors_open s) dns s.
Definition restore_dns (err : option error) (left : bool) (s : TunState) : option error * TunState :=
  match tun_dns s, err with
  | DNSRedirected _, None => (None, set_dns DNSOriginal s)
  | DNSRedirected _, Some e => (Some e, if left then set_dns (DNSRedirected (Some e)) s else set_dns DNSOriginal s)
  | _, _ => (None, s)
  end.

(** *** [start] *)

(** [ctx.Err()], then [newDevice]; a device that could not be created leaves nothing open. *)
Definition start_device (err : option error) (s : TunState) : TunState :=
  match err with
  | Some e => set_start (StartReturned (Some e)) s
  | None => set_start DeviceCreated (set_open true (stack_open s) true (tun_dns s) s)
  end.

Definition start_start_device (err : option error) (s : TunState) : TunState :=
  match err with
  | Some e => set_start (StartReturned (Some (EWrap ("start TUN device: " +:+ error_text e) e)))
                (closeMonitors (close_device s))
  | None => set_start DeviceStarted s
  end.

Definition start_new_stack (err : option error) (s : TunState) : TunState :=
  match err with
  | Some e => set_start (StartReturned (Some (EWrap ("create TUN stack: " +:+ error_text e) e)))
                (closeMonitors (close_device s))
  | None => set_start StackCreated (set_open (device_open s) true (monitors_open s) (tun_dns s) s)
  end.

Definition start_start_stack (err : option error) (s : TunState) : TunState :=
  match err with
  | Some e => set_start (StartReturned (Some (EWrap ("start TUN stack: " +:+ error_text e) e)))
                (closeMonitors (close_device (close_tun_stack s)))
  | None => set_start StackStarted s
  end.

(** [systemDNS] is set exactly when DNS is hijacked. An [Apply] that fails may have [left] the settings changed, when
    it could not undo what it had done. *)
Definition configure_error (e : error) : error := EWrap ("configure system DNS: " +:+ error_text e) e.

Definition start_dns (systemDNS : bool) (err : option error) (left : bool) (s : TunState) : TunState :=
  if systemDNS then
    match err with
    | Some e => set_start (StartReturned (Some (configure_error e)))
                  (closeMonitors (close_device (close_tun_stack (if left then set_dns (DNSLeft e) s else s))))
    | None => set_start DNSApplied (set_dns (DNSRedirected None) s)
    end
  else set_start DNSApplied s.

(** The last section of [start]. *)
Definition start_publish (systemDNS : bool) (addr : string) (err : option error) (left : bool) (s : TunState) : TunState :=
  if tun_closed s then
    set_start (StartReturned (Some ctx_Canceled))
      (closeMonitors (close_device (close_tun_stack (if systemDNS then (restore_dns err left s).2 else s))))
  else
    {| device_open := device_open s; stack_open := stack_open s; monitors_open := monitors_open s;
       tun_dns := tun_dns s; tun_closed := tun_closed s; tun_published := true;
       tun_addr := addr; tun_runErr := tun_runErr s; tun_restoreErr := tun_restoreErr s; tun_done := tun_done s;
       tun_start := StartReturned None; tun_close := tun_close s |}.

(** *** [close] *)

Definition tun_close_mark (s : TunState) : TunState :=
  {| device_open := device_open s; stack_open := stack_open s; monitors_open := monitors_open s;
     tun_dns := tun_dns s; tun_closed := true; tun_published := tun_published s;
     tun_addr := ""; tun_runErr := tun_runErr s; tun_restoreErr := tun_restoreErr s; tun_done := tun_done s;
     tun_start := tun_start s; tun_close := CloseMarked (tun_published s) |}.

Definition set_restoreErr (err : option error) (s : TunState) : TunState :=
  {| device_open := device_open s; stack_open := stack_open s; monitors_open := monitors_open s;
     tun_dns := tun_dns s; tun_closed := tun_closed s; tun_published := tun_published s; tun_addr := tun_addr s;
     tun_runErr := tun_runErr s; tun_restoreErr := err; tun_done := tun_done s; tun_start := tun_start s;
     tun_close := tun_close s |}.

Definition close_dns (systemDNS : bool) (err : option error) (left : bool) (s : TunState) : TunState :=
  if systemDNS then let '(restoreErr, s) := restore_dns err left s in set_restoreErr restoreErr s else s.

(** [err] and [left] are the answer of [Restore], where it is called. *)
Definition tun_close_next (systemDNS : bool) (err : option error) (left : bool) (s : TunState) : TunState :=
  match tun_close s with
  | CloseIdle => tun_close_mark s
  | CloseMarked found => set_tun_close (DNSRestored found) (close_dns systemDNS err left s)
  | DNSRestored found => set_tun_close (StackClosed found) (if found then close_tun_stack s else s)
  | StackClosed found => set_tun_close (DeviceClosed found) (if found then close_device s else s)
  | DeviceClosed found =>
      let s := closeMonitors s in
      set_tun_close (CloseFinished found)
        {| device_open := device_open s; stack_open := stack_open s;
           monitors_open := monitors_open s; tun_dns := tun_dns s;
           tun_closed := tun_closed s; tun_published := tun_published s; tun_addr := tun_addr s;
           tun_runErr := tun_runErr s; tun_restoreErr := tun_restoreErr s; tun_done := true; tun_start := tun_start s;
           tun_close := tun_close s |}
  | CloseFinished _ => s
  end.

(** [handleDeviceError] before it calls [Close]: the first unexpected error is kept. *)
Definition handleDeviceError (expected_close : error -> bool) (err : error) (s : TunState)
    : bool * TunState :=
  if tun_closed s || expected_close err then (false, s)
  else match tun_runErr s with
  | Some _ => (false, s)
  | None =>
      (true,
       {| device_open := device_open s; stack_open := stack_open s;
          monitors_open := monitors_open s; tun_dns := tun_dns s;
          tun_closed := tun_closed s; tun_published := tun_published s; tun_addr := tun_addr s;
          tun_runErr := Some err; tun_restoreErr := tun_restoreErr s; tun_done := true; tun_start := tun_start s;
          tun_close := tun_close s |})
  end.

Section Steps.
Variable systemDNS : bool.
Variable expected_close : error -> bool.

Inductive tun_step : TunState -> TunState -> Prop :=
| tun_create err s : tun_start s = NotStarted -> tun_step s (start_device err s)
| tun_device err s : tun_start s = DeviceCreated -> tun_step s (start_start_device err s)
| tun_stack err s : tun_start s = DeviceStarted -> tun_step s (start_new_stack err s)
| tun_stack_start err s : tun_start s = StackCreated -> tun_step s (start_start_stack err s)
| tun_apply err left s : tun_start s = StackStarted -> tun_step s (start_dns systemDNS err left s)
| tun_publish addr err left s : tun_start s = DNSApplied -> tun_step s (start_publish systemDNS addr err left s)
| tun_closing err left s : tun_step s (tun_close_next systemDNS err left s)
| tun_device_error err s : tun_step s (handleDeviceError expected_close err s).2.
End Steps.

(** ** Nothing stays open *)

Definition close_found (c : TunCloseStage) : bool :=
  match c with
  | CloseIdle => true
  | CloseMarked f | DNSRestored f | StackClosed f | DeviceClosed f | CloseFinished f => f
  end.

Definition all_closed (s : TunState) : Prop :=
  device_open s = false /\ stack_open s = false /\ monitors_open s = false.

(** The settings of a service that runs. *)
Definition redirected (systemDNS : bool) : SystemDNSView := if systemDNS then DNSRedirected None else DNSOriginal.

(** The settings after a [start] that failed: they are as they were, but for an [Apply] that left them changed, whose
    error [start] returns, or a [Restore] that did. *)
Definition dns_after_start (e : error) (dns : SystemDNSView) : Prop :=
  match dns with
  | DNSOriginal => True
  | DNSRedirected failed => failed <> None /\ e = ctx_Canceled
  | DNSLeft err => e = configure_error err
  end.

(** The settings after [close]: they are as they were, but for a [Restore] that left them changed, whose error [close]
    has recorded. *)
Definition dns_after_close (s : TunState) : Prop :=
  match tun_dns s with
  | DNSOriginal => True
  | DNSRedirected failed => failed <> None /\ tun_restoreErr s = failed
  | DNSLeft _ => False
  end.

(** What is open at each stage of [start], before it publishes. *)
Definition start_open (systemDNS : bool) (s : TunState) : Prop :=
  match tun_start s with
  | NotStarted => all_closed s /\ tun_dns s = DNSOriginal
  | DeviceCreated | DeviceStarted =>
      device_open s = true /\ stack_open s = false /\ tun_dns s = DNSOriginal /\
      (tun_closed s = false -> monitors_open s = true)
  | StackCreated | StackStarted =>
      device_open s = true /\ stack_open s = true /\ tun_dns s = DNSOriginal /\
      (tun_closed s = false -> monitors_open s = true)
  | DNSApplied =>
      device_open s = true /\ stack_open s = true /\ (forall err, tun_dns s <> DNSLeft err) /\
      (tun_closed s = false -> monitors_open s = true /\ tun_dns s = redirected systemDNS)
  | StartReturned (Some e) => all_closed s /\ dns_after_start e (tun_dns s)
  | StartReturned None => True
  end.

(** What is open at each stage of [close], once published. *)
Definition close_open (systemDNS : bool) (s : TunState) : Prop :=
  match tun_close s with
  | CloseIdle =>
      device_open s = true /\ stack_open s = true /\ monitors_open s = true /\
      tun_dns s = redirected systemDNS
  | CloseMarked _ => tun_dns s = redirected systemDNS
  | DNSRestored _ => dns_after_close s
  | StackClosed _ => dns_after_close s /\ stack_open s = false
  | DeviceClosed _ => dns_after_close s /\ stack_open s = false /\ device_open s = false
  | CloseFinished _ => dns_after_close s /\ all_closed s
  end.

Definition tun_is_idle (c : TunCloseStage) : bool := match c with CloseIdle => true | _ => false end.

Record tun_inv (systemDNS : bool) (s : TunState) : Prop := {
  tni_start : start_open systemDNS s;
  tni_published : tun_published s = true <-> tun_start s = StartReturned None;
  tni_close : tun_published s = true -> close_open systemDNS s /\ close_found (tun_close s) = true;
  tni_unpublished : tun_published s = false -> tun_is_idle (tun_close s) = false ->
    close_found (tun_close s) = false;
  tni_closed : tun_closed s = negb (tun_is_idle (tun_close s));
  tni_dns : tun_dns s <> DNSOriginal -> systemDNS = true;
}.

Lemma newTunState_inv systemDNS : tun_inv systemDNS newTunState.
Proof. by split. Qed.

(** A step of [start] that publishes nothing. *)
Lemma unpublished_inv systemDNS s s' :
  tun_inv systemDNS s -> tun_start s <> StartReturned None -> tun_start s' <> StartReturned None ->
  tun_published s' = tun_published s -> tun_close s' = tun_close s ->
  tun_closed s' = tun_closed s -> start_open systemDNS s' ->
  (tun_dns s' <> DNSOriginal -> systemDNS = true) -> tun_inv systemDNS s'.
Proof.
  intros [Hs Hp Hc Hu Hcl Hd] Hn Hn' Hpub Hclose Hclosed Hs' Hd'.
  assert (tun_published s = false) as Hnp.
  { destruct (tun_published s); [|done]. by destruct Hn, (proj1 Hp). }
  split; rewrite ?Hpub, ?Hnp, ?Hclose, ?Hclosed; try done. intros _. by apply Hu.
Qed.

Ltac start_stage Hs :=
  unfold start_open, all_closed in *; simpl; match goal with
  | Hn : tun_start _ = _ |- _ => rewrite Hn in Hs
  end; destruct_and? Hs; repeat match goal with
  | H : tun_dns _ = _ |- _ => rewrite H in *; clear H
  end; simpl; intuition congruence.

(** What [Restore] makes of the settings. *)
Definition restored_to (before after : SystemDNSView) (restoreErr : option error) : Prop :=
  match before with
  | DNSOriginal => after = DNSOriginal
  | DNSRedirected _ => after = DNSOriginal \/ exists e, after = DNSRedirected (Some e) /\ restoreErr = Some e
  | DNSLeft e => after = DNSLeft e
  end.

Lemma set_dns_id dns s : tun_dns s = dns -> set_dns dns s = s.
Proof. intros <-. by destruct s. Qed.

Lemma restore_dns_spec err left s :
  exists dns, (restore_dns err left s).2 = set_dns dns s /\ restored_to (tun_dns s) dns (restore_dns err left s).1.
Proof.
  unfold restore_dns. destruct (tun_dns s) as [|failed|e] eqn:E.
  - exists DNSOriginal. by rewrite set_dns_id.
  - destruct err as [e|]; [destruct left|]; cbn; eexists; (split; [done|]); first [by left|by right; exists e].
  - exists (DNSLeft e). by rewrite set_dns_id.
Qed.

Lemma restored_original systemDNS before after restoreErr :
  restored_to before after restoreErr -> (before <> DNSOriginal -> systemDNS = true) -> after <> DNSOriginal -> systemDNS = true.
Proof. destruct before; simpl; [done|by intros _ H _; apply H..]. Qed.

Lemma start_publish_inv systemDNS addr err left s :
  tun_inv systemDNS s -> tun_start s = DNSApplied -> tun_inv systemDNS (start_publish systemDNS addr err left s).
Proof.
  intros Hi Hn. pose proof (tni_start _ _ Hi) as Hs. unfold start_open in Hs. rewrite Hn in Hs.
  destruct Hs as (Hdev & Hst & Hleft & Hopen). unfold start_publish.
  destruct (tun_closed s) eqn:Hc.
  - destruct systemDNS eqn:E.
    + destruct (restore_dns_spec err left s) as (dns & -> & Hdns).
      eapply unpublished_inv; try exact Hi; simpl; rewrite ?Hn; try done.
      unfold start_open, all_closed. simpl. split; [done|]. unfold restored_to in Hdns.
      destruct (tun_dns s) as [|failed|e]; [by subst|by destruct Hdns as [->|(e & -> & _)]|by destruct (Hleft e)].
    + eapply unpublished_inv; try exact Hi; simpl; rewrite ?Hn; try done; [|apply (tni_dns _ _ Hi)].
      unfold start_open, all_closed. simpl. split; [done|]. pose proof (tni_dns _ _ Hi) as Hd.
      destruct (tun_dns s); [done|by specialize (Hd ltac:(done))..].
  - destruct (Hopen eq_refl) as [Hm Hdns].
    pose proof (tni_closed _ _ Hi) as Hcl. rewrite Hc in Hcl.
    destruct (tun_close s) eqn:E; try discriminate Hcl.
    split; unfold start_open, close_open, tun_is_idle; simpl; rewrite ?E; simpl; try done.
    rewrite Hdns. by destruct systemDNS.
Qed.

(** [Close] changes the settings by its [Restore] only. *)
Lemma close_dns_spec systemDNS err left s :
  (tun_dns s <> DNSOriginal -> systemDNS = true) ->
  exists dns restoreErr, close_dns systemDNS err left s = set_restoreErr restoreErr (set_dns dns s) /\
    restored_to (tun_dns s) dns restoreErr.
Proof.
  intros Hd. unfold close_dns. destruct systemDNS.
  - destruct (restore_dns_spec err left s) as (dns & Hr & Hdns). destruct (restore_dns err left s) as [restoreErr s'].
    cbn in Hr, Hdns. subst s'. by exists dns, restoreErr.
  - assert (tun_dns s = DNSOriginal) as E by (destruct (tun_dns s); [done|by specialize (Hd ltac:(done))..]).
    exists DNSOriginal, (tun_restoreErr s). rewrite (set_dns_id _ _ E), E. by destruct s.
Qed.

Lemma close_restore_inv systemDNS err left found s :
  tun_inv systemDNS s -> tun_close s = CloseMarked found ->
  tun_inv systemDNS (set_tun_close (DNSRestored found) (close_dns systemDNS err left s)).
Proof.
  intros Hi E. pose proof Hi as [Hs Hp Hc Hu Hcl Hd].
  destruct (close_dns_spec systemDNS err left s Hd) as (dns & restoreErr & -> & Hdns).
  rewrite E in *. split; cbn [set_tun_close set_restoreErr set_dns set_open tun_published tun_start tun_close tun_closed tun_dns]; try done.
  - unfold start_open, all_closed in *. cbn. unfold restored_to in Hdns.
    destruct (tun_start s) as [| | | | | |[e|]]; [| | | | | | |done];
      try (destruct Hs as (? & ? & Hs & ?); rewrite Hs in Hdns; by subst).
    + destruct Hs as (? & Hs). rewrite Hs in Hdns. by subst.
    + destruct Hs as (? & ? & Hleft & Hopen). split_and!; [done|done| |].
      * destruct (tun_dns s) as [|failed|e]; [by subst|by destruct Hdns as [->|(e & -> & _)]|by destruct (Hleft e)].
      * rewrite Hcl. done.
    + destruct Hs as (? & Hs). split; [done|]. unfold dns_after_start in *.
      destruct (tun_dns s) as [|failed|e']; [by subst|destruct Hdns as [->|(e' & -> & _)]|by subst]; [done|by destruct Hs].
  - intros Hpub. destruct (Hc Hpub) as [Ho Hf]. split; [|done]. unfold close_open, dns_after_close in *. rewrite E in Ho. cbn.
    rewrite Ho in Hdns. unfold redirected, restored_to in Hdns.
    destruct systemDNS; [|by subst]. by destruct Hdns as [->|(e & -> & ->)].
  - by eapply restored_original.
Qed.

Lemma tun_close_next_inv systemDNS err left s :
  tun_inv systemDNS s -> tun_inv systemDNS (tun_close_next systemDNS err left s).
Proof.
  intros Hi. unfold tun_close_next. destruct (tun_close s) as [|f|f|f|f|f] eqn:E; [|by apply close_restore_inv|..|exact Hi].
  all: pose proof Hi as [Hs Hp Hc Hu Hcl Hd].
  all: assert (tun_published s = false -> tun_start s <> StartReturned None) as Hnp
    by (intros Hx Hy; apply Hp in Hy; congruence).
  all: unfold start_open, close_open, all_closed, dns_after_close in *; rewrite E in *; simpl in *.
  all: split; unfold start_open, close_open, all_closed, dns_after_close, tun_close_mark, set_tun_close;
    try destruct f; simpl; try done.
  all: try (destruct (tun_published s); intuition congruence; fail).
  all: destruct (tun_start s) as [| | | | | |[e|]]; try (intuition congruence; fail).
  all: destruct (tun_published s); intuition congruence.
Qed.

Lemma tun_step_inv systemDNS expected s s' :
  tun_step systemDNS expected s s' -> tun_inv systemDNS s -> tun_inv systemDNS s'.
Proof.
  intros Hst Hi. pose proof (tni_start _ _ Hi) as Hs. pose proof (tni_dns _ _ Hi) as Hd.
  destruct Hst as [err s Hn|err s Hn|err s Hn|err s Hn|err left s Hn|addr err left s Hn|err left s|err s];
    [..|by apply start_publish_inv|by apply tun_close_next_inv|].
  1-4: destruct err as [e|]; (apply (unpublished_inv systemDNS s); [done|by rewrite Hn|done..| |]);
       [start_stage Hs|done| |]; start_stage Hs.
  - unfold start_dns. destruct systemDNS; [destruct err as [e|]; [destruct left|]|];
      (apply (unpublished_inv _ s); [done|by rewrite Hn|done..| |]); start_stage Hs.
  - unfold handleDeviceError. destruct (_ || _); [done|]. destruct (tun_runErr s); [done|].
    destruct Hi as [? ? ? ? ? ?]. by split.
Qed.

(** C30: the TUN inbound leaves nothing behind but what could not be undone. However [Start], [Close] and device errors
    interleave, and wherever the start fails: once [Start] has returned an error, the device, the stack and the monitors
    have been closed and the system's DNS settings are as they were, unless an [Apply] failed and left them changed,
    which is then the error of [Start], or a [Restore] failed, when [Close] had overtaken [Start]. Once [Close] has ended
    and no [Start] is under way, the device, the stack and the monitors have been closed in any case; of a service
    that was never started the settings are untouched, and of one that was, they are as they were, unless the
    [Restore] of [Close] failed, and then [Close] has recorded its error. While the service is started and not
    closed, its device and stack are open and DNS is redirected exactly if it is to be. *)
Theorem tun_leaves_nothing (systemDNS : bool) (expected_close : error -> bool) (s : TunState)
    (Hr : rtc (tun_step systemDNS expected_close) newTunState s) :
  (forall e, tun_start s = StartReturned (Some e) -> all_closed s /\ dns_after_start e (tun_dns s)) /\
  (forall found, tun_close s = CloseFinished found ->
     (tun_start s = NotStarted -> all_closed s /\ tun_dns s = DNSOriginal) /\
     (tun_start s = StartReturned None -> all_closed s /\ dns_after_close s)) /\
  (tun_start s = StartReturned None -> tun_close s = CloseIdle ->
     device_open s = true /\ stack_open s = true /\ monitors_open s = true /\
     tun_dns s = redirected systemDNS).
Proof.
  assert (tun_inv systemDNS s) as Hi.
  { apply (rtc_closed (tun_step systemDNS expected_close) (tun_inv systemDNS) newTunState s);
      [|apply newTunState_inv|exact Hr]. intros x y Hx Hxy. by eapply tun_step_inv. }
  pose proof (tni_start _ _ Hi) as Hs. unfold start_open in Hs. split_and!.
  - intros e He. by rewrite He in Hs.
  - intros found Hf. split; intros Hn; rewrite Hn in Hs; [done|].
    destruct (tni_close _ _ Hi) as [Hc _]; [by apply (tni_published _ _ Hi)|].
    unfold close_open in Hc. rewrite Hf in Hc. by destruct Hc.
  - intros Hn Hc. destruct (tni_close _ _ Hi) as [Ho _]; [by apply (tni_published _ _ Hi)|].
    unfold close_open in Ho. by rewrite Hc in Ho.
Qed.

(** A start that is overtaken by [Close] just before its last section; the [Restore] of [Close] runs out of its time,
    that of [start] does not. *)
Definition demo_timeout : option error := Some ctx_DeadlineExceeded.

Definition demo_overtaken : TunState :=
  let up := start_dns true None false (start_start_stack None (start_new_stack None
              (start_start_device None (start_device None newTunState)))) in
  let next := tun_close_next true demo_timeout true in
  start_publish true "tun" None false (next (next (next (next (next up))))).

Lemma demo_overtaken_run : rtc (tun_step true (fun _ => false)) newTunState demo_overtaken.
Proof.
  eapply rtc_l; [by apply (tun_create _ _ None)|]. eapply rtc_l; [by apply (tun_device _ _ None)|].
  eapply rtc_l; [by apply (tun_stack _ _ None)|]. eapply rtc_l; [by apply (tun_stack_start _ _ None)|].
  eapply rtc_l; [by apply (tun_apply _ _ None false)|].
  do 5 (eapply rtc_l; [apply (tun_closing _ _ demo_timeout true)|]). apply rtc_once.
  by apply (tun_publish _ _ "tun" None false).
Qed.

Lemma tun_leaves_nothing_witness :
  tun_start demo_overtaken = StartReturned (Some ctx_Canceled) /\ tun_restoreErr demo_overtaken = demo_timeout /\
  all_closed demo_overtaken /\ dns_after_start ctx_Canceled (tun_dns demo_overtaken).
Proof.
  split; [by vm_compute|]. split; [by vm_compute|].
  apply (tun_leaves_nothing true (fun _ => false) demo_overtaken demo_overtaken_run). by vm_compute.
Defined.

(** An [Apply] that fails without undoing what it has done leaves the system's DNS changed, and no [Close] changes
    that. *)
Example failed_apply_leaves_dns (e : error) :
  let s := start_dns true (Some e) true (start_start_stack None (start_new_stack None
             (start_start_device None (start_device None newTunState)))) in
  tun_start s = StartReturned (Some (configure_error e)) /\ tun_dns s = DNSLeft e /\
  tun_dns (tun_close_next true None false (tun_close_next true None false s)) = DNSLeft e.
Proof. by vm_compute. Qed.

(** ** Route updates *)

(** The routes that the device has, and [config.RouteAddresses]. *)
Record TunRoutes : Type := { tr_options : list Prefix; tr_config : list Prefix }.

(** [UpdateRouteAddresses]: the answers of the device to the new and to the old routes. The
    second result is an error that is also reported as a device error. *)
Definition UpdateRouteAddresses (available : bool) (DNSHijack : bool) (dnsServer : string)
    (addresses : list Prefix) (update rollback : option error) (r : TunRoutes)
    : option error * option error * TunRoutes :=
  if negb available then
    (Some (WrapError ErrorCodeTUNUnavailable "update TUN resource routes" false None), None, r)
  else match update with
  | Some e =>
      match rollback with
      | Some re =>
          let combined := EJoin [e; EWrap ("restore previous TUN routes: " +:+ error_text re) re] in
          (Some (WrapError ErrorCodeTUNUnavailable "update TUN resource routes" false
                   (Some combined)), Some combined, r)
      | None =>
          (Some (WrapError ErrorCodeRouteSetupFailed "update TUN resource routes" true (Some e)),
           None, r)
      end
  | None =>
      (None, None, {| tr_options := routeAddressesFor DNSHijack dnsServer addresses;
                      tr_config := addresses |})
  end.

(** The DNS address that a TUN with hijacked DNS answers on is always routed to it. *)
Lemma dns_server_routed dnsServer addresses a :
  addresses <> [] -> ParseAddr dnsServer = Some (Addr4 a) ->
  exists route, route ∈ routeAddressesFor true dnsServer addresses /\
    Prefix_Contains route (Addr4 a) = true.
Proof.
  intros Hne Hp. unfold routeAddressesFor. destruct addresses as [|x l]; [done|].
  set (addresses := x :: l). simpl is_nil. cbn [orb negb]. rewrite Hp.
  destruct (existsb _ _) eqn:E.
  - apply existsb_exists in E as (route & Hin & Hc). exists route.
    split; [by apply list_elem_of_In|done].
  - eexists. rewrite elem_of_app. split; [right; by left|]. by apply Prefix_Contains_host.
Qed.

Lemma Addr_Next_ne a : IsValid (Addr_Next a) = true -> Addr_Next a <> a.
Proof. destruct a; simpl; try done; case_bool_decide; try done; intros _ [=]; lia. Qed.

(** The DNS address is in the TUN's network, and is not the TUN's own. *)
Lemma tunDNSServerAddress_peer prefix a :
  tunDNSServerAddress prefix = Ok a -> a <> pfx_addr prefix /\ Prefix_Contains prefix a = true.
Proof.
  intros Ht.
  unfold tunDNSServerAddress in Ht. destruct (negb (Is4 (pfx_addr prefix))); [done|].
  case_bool_decide as Hc.
  - destruct (_ || _) eqn:Hv; [done|]. injection Ht as <-.
    apply orb_false_iff in Hv as [Hv1 Hv2]. apply negb_false_iff in Hv1, Hv2.
    split; [|done]. rewrite Hc in Hv1.
    change (Addr_Next (Addr_Next (pfx_addr (Masked prefix))) <> pfx_addr prefix).
    rewrite Hc. by apply Addr_Next_ne.
  - destruct (_ || _) eqn:Hv; [done|]. injection Ht as <-.
    apply orb_false_iff in Hv as [_ Hv2]. by apply negb_false_iff in Hv2.
Qed.

(** A service that is built answers DNS on an address of its own TUN network, which is not the
    TUN's own address. *)
Lemma newTUNService_dns config parts :
  newTUNService config = Ok parts -> tn_DNSHijack (tp_config parts) = true ->
  tn_AutoRoute config = true /\
  exists prefix a, ParsePrefix (tn_Address (tp_config parts)) = Some prefix /\
    tp_dnsServer parts = Addr_String a /\ a <> pfx_addr prefix /\ Prefix_Contains prefix a = true.
Proof.
  unfold newTUNService. destruct (tn_FakeIP config && _) eqn:E1; [done|].
  destruct (ParsePrefix _) as [prefix|] eqn:Hp; [|done].
  destruct (tn_DNSHijack (complete_config config)) eqn:Hd.
  2:{ simpl. destruct (if tn_FakeIP _ then _ else _); simpl; [|done].
      intros [= <-] H. cbn [tp_config] in H. congruence. }
  destruct (tn_AutoRoute (complete_config config)) eqn:Ha; [|done]. cbn [negb].
  destruct (tunDNSServerAddress prefix) as [a|e] eqn:Ht; simpl; [|done].
  destruct (if tn_FakeIP _ then _ else _); simpl; [|done]. intros [= <-] _. cbn [tp_config tp_dnsServer].
  split; [done|]. exists prefix, a. split; [done|]. split; [done|].
  by eapply tunDNSServerAddress_peer.
Qed.
