(* ===== verification/TunDevice.v ===== *)
(** The device below the TUN inbound (internal/networkruntime/tun.go, tun_health.go, tun_stack_gvisor.go):
    how it is made with its two monitors, the options that [start] gives to the TUN library, and the
    wrapper that reports the device's errors. The library's answers are arguments. *)

From S2P Require Import Prelude Core GoNet FakeIP TunDNS TunService.

(** ** [createDevice]

    What is open afterwards; it is not in the code. *)
Record DeviceParts : Type := { dp_network : bool; dp_interface : bool; dp_device : bool }.

Definition no_parts : DeviceParts := {| dp_network := false; dp_interface := false; dp_device := false |}.

(** What the library answers: the interface finder, making and starting each monitor, and the device. *)
Record DeviceAnswers : Type := {
  an_finder : option error;
  an_network : option error;
  an_networkStart : option error;
  an_interface : option error;
  an_interfaceStart : option error;
  an_device : option error;
}.

Definition open_network (p : DeviceParts) : DeviceParts :=
  {| dp_network := true; dp_interface := dp_interface p; dp_device := dp_device p |}.
Definition close_network (p : DeviceParts) : DeviceParts :=
  {| dp_network := false; dp_interface := dp_interface p; dp_device := dp_device p |}.
Definition open_interface (p : DeviceParts) : DeviceParts :=
  {| dp_network := dp_network p; dp_interface := true; dp_device := dp_device p |}.
Definition close_interface (p : DeviceParts) : DeviceParts :=
  {| dp_network := dp_network p; dp_interface := false; dp_device := dp_device p |}.
Definition open_tun (p : DeviceParts) : DeviceParts :=
  {| dp_network := dp_network p; dp_interface := dp_interface p; dp_device := true |}.

Definition device_error (what : string) (err : error) : option error :=
  Some (EWrap (what +:+ ": " +:+ error_text err) err).

Definition createDevice (an : DeviceAnswers) : option error * DeviceParts :=
  let p := no_parts in
  match an_finder an with
  | Some err => (device_error "initialize TUN interface finder" err, p)
  | None =>
  match an_network an with
  | Some err => (device_error "create TUN network monitor" err, p)
  | None =>
  let p := open_network p in
  match an_networkStart an with
  | Some err => (device_error "start TUN network monitor" err, close_network p)
  | None =>
  match an_interface an with
  | Some err => (device_error "create TUN interface monitor" err, close_network p)
  | None =>
  let p := open_interface p in
  match an_interfaceStart an with
  | Some err => (device_error "start TUN interface monitor" err, close_network (close_interface p))
  | None =>
  match an_device an with
  | Some err => (Some err, close_network (close_interface p))
  | None => (None, open_tun p)
  end end end end end end.

(** ** Options *)

(** [automaticTUNStackName] depends on the build. *)
Definition automaticTUNStackName (with_gvisor : bool) : string := if with_gvisor then "gvisor" else "".

Definition tunStackName (with_gvisor : bool) (configured : string) : string :=
  if is_empty configured || bool_decide (configured = defaultTUNStack) then automaticTUNStackName with_gvisor
  else configured.

(** [tun.Options], what [start] sets of it. *)
Record TunOptions : Type := {
  to_Name : string;
  to_MTU : Z;
  to_Inet4Address : list Prefix;
  to_AutoRoute : bool;
  to_StrictRoute : bool;
  to_Inet4RouteAddress : list Prefix;
  to_DisableDNSHijack : bool;
  to_DNSServers : list Addr;
}.

(** [calculate] is the library's [CalculateInterfaceName]; a prefix that cannot be parsed is the zero value. *)
Definition start_options (calculate : string -> string) (StrictRoute : bool) (addresses : list Prefix) (parts : TunParts)
    : result error TunOptions :=
  let config := tp_config parts in
  let prefix := default {| pfx_addr := AddrInvalid; pfx_bits := 0 |} (ParsePrefix (tn_Address config)) in
  let options servers :=
    {| to_Name := calculate (tn_Name config); to_MTU := tn_MTU config; to_Inet4Address := [prefix];
       to_AutoRoute := tn_AutoRoute config; to_StrictRoute := StrictRoute;
       to_Inet4RouteAddress := routeAddressesFor (tn_DNSHijack config) (tp_dnsServer parts) addresses;
       to_DisableDNSHijack := negb (tn_DNSHijack config); to_DNSServers := servers |} in
  if tn_DNSHijack config then
    match ParseAddr (tp_dnsServer parts) with
    | Some dnsAddress => Ok (options [dnsAddress])
    | None => Err (EText ("parse TUN DNS server " +:+ quote (tp_dnsServer parts)))
    end
  else Ok (options []).

(** ** The monitored device

    The interfaces of the library that a device may implement, and the wrapper that it gets. *)
Inductive TunInterface : Type := GVisorTun | DarwinTUN | LinuxTUN | WinTun.

#[export] Instance TunInterface_eq_dec : EqDecision TunInterface.
Proof. solve_decision. Defined.

Definition wrapStandardTUNDevice (implements : list TunInterface) : option TunInterface :=
  if bool_decide (DarwinTUN ∈ implements) then Some DarwinTUN
  else if bool_decide (LinuxTUN ∈ implements) then Some LinuxTUN
  else if bool_decide (WinTun ∈ implements) then Some WinTun
  else None.

Definition wrapTUNDevice (with_gvisor : bool) (implements : list TunInterface) : option TunInterface :=
  if with_gvisor && bool_decide (GVisorTun ∈ implements) then Some GVisorTun
  else wrapStandardTUNDevice implements.

(** [report], with the service's [handleDeviceError] behind it. *)
Definition report (expected_close : error -> bool) (err : option error) (s : TunState) : TunState :=
  match err with Some e => (handleDeviceError expected_close e s).2 | None => s end.

(** [Read], [Write] and the like of every wrapper: the device's answer, and its error reported. *)
Definition monitored {A} (expected_close : error -> bool) (answer : A * option error) (s : TunState)
    : (A * option error) * TunState :=
  (answer, report expected_close answer.2 s).

(** [NewError]: what it logs. *)
Definition NewError (expected_close : error -> bool) (err : error) (s : TunState) : option string :=
  if tun_closed s || expected_close err then None else Some ("TUN stack error: " +:+ error_text err).

(** [Start], which runs [start] once: what it answers once that has returned. *)
Definition tun_Start_answer (s : TunState) : option (option error) :=
  match tun_start s with StartReturned err => Some err | _ => None end.

(** [Close] as its caller sees it: the result of the one clean-up, or the end of its own context. *)
Definition tun_Close_answer (closeErr ctx : option error) (s : TunState) : option (option error) :=
  match tun_close s with
  | CloseFinished _ => Some closeErr
  | _ => match ctx with Some e => Some (Some e) | None => None end
  end.

(** ** Lemmas *)

(** Whatever fails, nothing that was opened stays open, and TunService's step says what is. *)
Lemma createDevice_refines an s :
  all_closed s ->
  let '(err, p) := createDevice an in
  let s' := start_device err s in
  device_open s' = dp_device p /\ monitors_open s' = (dp_network p && dp_interface p) /\
  (err <> None -> p = no_parts) /\ (err = None -> dp_network p = true /\ dp_interface p = true /\ dp_device p = true).
Proof.
  intros (Hd & _ & Hm). destruct an as [[f|] [n|] [ns|] [i|] [st|] [d|]]; cbn; rewrite ?Hd, ?Hm; done.
Qed.

(** The first error that a device reports while the service runs is the service's error. *)
Lemma monitored_reports {A} expected_close (count : A) err s :
  tun_closed s = false -> expected_close err = false -> tun_runErr s = None ->
  let '(answer, s') := monitored expected_close (count, Some err) s in
  answer = (count, Some err) /\ tun_runErr s' = Some err /\ tun_done s' = true.
Proof. intros Hc He Hr. unfold monitored, report, handleDeviceError. cbn. by rewrite Hc, He, Hr. Qed.

(** An IPv4 address after another one. *)
Lemma Addr_Next_Addr4 n a :
  0 <= n < 2 ^ 32 -> Addr_Next (Addr4 n) = a -> IsValid a = true -> exists k, a = Addr4 k /\ 0 <= k < 2 ^ 32.
Proof. intros Hn <-. cbn. case_bool_decide; [done|]. intros _. exists (n + 1). split; [done|lia]. Qed.

Lemma tunDNSServerAddress_Addr4 s prefix a :
  ParsePrefix s = Some prefix -> tunDNSServerAddress prefix = Ok a -> exists k, a = Addr4 k /\ 0 <= k < 2 ^ 32.
Proof.
  intros Hp Ht. unfold tunDNSServerAddress in Ht. destruct (pfx_addr prefix) as [|n|n] eqn:Ha; try done. cbn [Is4 negb] in Ht.
  destruct (ParsePrefix_bounds _ _ _ Hp Ha) as [Hn Hb].
  unfold Masked in Ht. rewrite Ha in Ht. cbn [pfx_addr] in Ht. set (base := n - n mod 2 ^ (32 - pfx_bits prefix)) in Ht.
  assert (0 <= base < 2 ^ 32) as Hbase.
  { unfold base. assert (0 < 2 ^ (32 - pfx_bits prefix)) as Hpos by (apply Z.pow_pos_nonneg; lia).
    pose proof (Z.mod_le n (2 ^ (32 - pfx_bits prefix))). pose proof (Z.mod_pos_bound n _ Hpos). lia. }
  case_bool_decide as Heq.
  - destruct (negb _ || _) eqn:Hv; [done|]. injection Ht as <-. apply orb_false_iff in Hv as [Hv _]. apply negb_false_iff in Hv.
    change (exists k, Addr_Next (Addr_Next (Addr4 base)) = Addr4 k /\ 0 <= k < 2 ^ 32).
    rewrite Heq in Hv |- *. exact (Addr_Next_Addr4 n _ Hn eq_refl Hv).
  - destruct (negb _ || _) eqn:Hv; [done|]. injection Ht as <-. apply orb_false_iff in Hv as [Hv _]. apply negb_false_iff in Hv.
    exact (Addr_Next_Addr4 base _ Hbase eq_refl Hv).
Qed.

(** What the parts of a service with hijacked DNS are. *)
Lemma newTUNService_parts config parts :
  newTUNService config = Ok parts ->
  exists prefix, ParsePrefix (tn_Address (tp_config parts)) = Some prefix /\
    (tn_DNSHijack (tp_config parts) = true -> exists k, tunDNSServerAddress prefix = Ok (Addr4 k) /\
       tp_dnsServer parts = Addr_String (Addr4 k) /\ 0 <= k < 2 ^ 32).
Proof.
  unfold newTUNService. destruct (tn_FakeIP config && _); [done|].
  destruct (ParsePrefix (tn_Address (complete_config config))) as [prefix|] eqn:Hp; [|done].
  destruct (tn_DNSHijack (complete_config config)) eqn:Hd.
  - destruct (negb _); [done|]. destruct (tunDNSServerAddress prefix) as [a|e] eqn:Ht; [|done]. cbn.
    destruct (tunDNSServerAddress_Addr4 _ _ _ Hp Ht) as (k & -> & Hk).
    destruct (if tn_FakeIP _ then _ else _); cbn; [|done]. intros [= <-]. cbn. exists prefix. split; [done|].
    intros _. by exists k.
  - cbn. destruct (if tn_FakeIP _ then _ else _); cbn; [|done]. intros [= <-]. cbn. exists prefix. split; [done|].
    intros H. change (tn_DNSHijack (complete_config config) = true) in H. congruence.
Qed.

(** A TUN service that was built starts the device with options that fit together: making them does not fail, the
    device has exactly the configured prefix, and if DNS is to be hijacked, the library's own hijacking is
    on, the one DNS server given to the system is an address of the TUN's network, other than the
    TUN's own, which the service's text of it is parsed back to, and as soon as routes are limited to some addresses,
    one of the routes leads to it. *)
Theorem start_options_fit (config : TunConfig) (parts : TunParts) (calculate : string -> string) (StrictRoute : bool)
    (addresses : list Prefix) (built : newTUNService config = Ok parts) :
  exists options prefix, start_options calculate StrictRoute addresses parts = Ok options /\
    ParsePrefix (tn_Address (tp_config parts)) = Some prefix /\ to_Inet4Address options = [prefix] /\
    to_DisableDNSHijack options = negb (tn_DNSHijack (tp_config parts)) /\
    (tn_DNSHijack (tp_config parts) = true -> exists dns, to_DNSServers options = [dns] /\
       ParseAddr (tp_dnsServer parts) = Some dns /\ Prefix_Contains prefix dns = true /\ dns <> pfx_addr prefix /\
       (addresses <> [] -> exists route, route ∈ to_Inet4RouteAddress options /\ Prefix_Contains route dns = true)).
Proof.
  destruct (newTUNService_parts config parts built) as (prefix & Hp & Hdns). unfold start_options. rewrite Hp. cbn [default].
  destruct (tn_DNSHijack (tp_config parts)) eqn:Hd.
  - destruct (Hdns eq_refl) as (k & Ht & Hs & Hk).
    assert (ParseAddr (tp_dnsServer parts) = Some (Addr4 k)) as Hparse by (rewrite Hs; by apply ParseAddr_Addr4).
    destruct (tunDNSServerAddress_peer _ _ Ht) as [Hne Hin].
    rewrite Hparse. eexists _, prefix. do 4 (split; [done|]). intros _. exists (Addr4 k).
    do 4 (split; [done|]). intros Hne'. by apply dns_server_routed.
  - eexists _, prefix. do 4 (split; [done|]). done.
Qed.

(** The default configuration with hijacked DNS. *)
Definition demo_hijack : TunConfig :=
  {| tn_Name := ""; tn_Address := ""; tn_MTU := 0; tn_AutoRoute := true; tn_Stack := ""; tn_UDPTimeout := 0;
     tn_UDPMaxFlows := 0; tn_DNSHijack := true; tn_FakeIP := false; tn_FakeIPRange := "" |}.

Definition demo_hijack_parts : TunParts :=
  {| tp_config := complete_config demo_hijack; tp_dnsServer := "172.19.0.2"; tp_fakeIPs := None |}.

Lemma demo_hijack_built : newTUNService demo_hijack = Ok demo_hijack_parts.
Proof. by vm_compute. Qed.

Lemma start_options_fit_witness :
  exists options dns, start_options (fun name => name) false [] demo_hijack_parts = Ok options /\
    to_DNSServers options = [dns] /\ ParseAddr "172.19.0.2" = Some dns.
Proof.
  destruct (start_options_fit demo_hijack demo_hijack_parts (fun name => name) false [] demo_hijack_built)
    as (options & prefix & Ho & _ & _ & _ & Hdns).
  destruct (Hdns eq_refl) as (dns & Hs & Hp & _). exists options, dns. split; [exact Ho|]. split; [exact Hs|exact Hp].
Defined.
