(* ===== verification/SystemDNS.v ===== *)
(** The system's DNS servers on macOS (internal/systemdns/controller_darwin.go): the controller
    takes a lock, writes a snapshot to a file, sets the servers of the services of an interface,
    and puts the old servers back, also after a crash. The commands and the files answer as
    parameters; the trace of the worlds that a run goes through is not in the code. *)

From S2P Require Import Prelude Core.

(** ** Reading the output of networksetup *)

(** [\s] of a regular expression. *)
Definition re_space (c : ascii) : bool :=
  let n := nat_of_ascii c in bool_decide (n = 32 \/ n = 9 \/ n = 10 \/ n = 12 \/ n = 13)%nat.

Fixpoint take_while (f : ascii -> bool) (l : list ascii) : list ascii * list ascii :=
  match l with
  | [] => ([], [])
  | c :: l' => if f c then let '(a, b) := take_while f l' in (c :: a, b) else ([], l)
  end.

(** [^\([0-9]+\)\s+(.+)$] on a line without spaces around it: what the group matches. *)
Definition servicePattern (line : list ascii) : option (list ascii) :=
  match line with
  | "("%char :: rest =>
      let '(digits, rest) := take_while (fun c => match digit_of c with Some _ => true | None => false end) rest in
      match digits, rest with
      | _ :: _, ")"%char :: rest =>
          let '(spaces, name) := take_while re_space rest in
          if is_nil spaces || is_nil name then None else Some name
      | _, _ => None
      end
  | _ => None
  end.

(** [\s*([^,)]+)] at the start of the text. *)
Definition device_group (l : list ascii) : option (list ascii) :=
  let '(spaces, rest) := take_while re_space l in
  match take_while (fun c => negb (bool_decide (c = ","%char)) && negb (bool_decide (c = ")"%char))) rest with
  | ([], _) => match last spaces with Some c => Some [c] | None => None end
  | (group, _) => Some group
  end.

(** [Device:\s*([^,)]+)] anywhere in the line. *)
Fixpoint devicePattern (line : list ascii) : option (list ascii) :=
  let here := match prefix_chars (chars "Device:") line with
              | true => device_group (drop 7 line)
              | false => None
              end in
  match here, line with
  | Some group, _ => Some group
  | None, _ :: rest => devicePattern rest
  | None, [] => None
  end.

Fixpoint services_of_lines (lines : list string) (service interfaceName : string) : list string :=
  match lines with
  | [] => []
  | rawLine :: rest =>
      let line := chars (TrimSpace rawLine) in
      match servicePattern line with
      | Some name => services_of_lines rest (TrimSpace (of_chars name)) interfaceName
      | None =>
          if is_empty service then services_of_lines rest service interfaceName
          else match devicePattern line with
          | Some device =>
              (if bool_decide (TrimSpace (of_chars device) = interfaceName) then [service] else [])
              ++ services_of_lines rest "" interfaceName
          | None => services_of_lines rest service interfaceName
          end
      end
  end.

Definition networkServicesForInterface (output interfaceName : string) : list string :=
  services_of_lines (Split output "010"%char) "" interfaceName.

Definition parseDNSServers (output : string) : list string :=
  if Contains output "There aren't any DNS Servers set on" then []
  else List.filter (fun s => negb (is_empty s)) (map TrimSpace (Split output "010"%char)).

(** ** The controller *)

Record dnsSnapshot : Type := { sn_Service : string; sn_Servers : list string }.

Inductive DNSCommand : Type :=
| ListServiceOrder
| GetDNSServers (service : string)
| SetDNSServers (service : string) (servers : list string).

(** The steps that write and remove files; [RenameTemp] puts a file with these bytes in the place
    of the snapshot. *)
Inductive FileStep : Type :=
| MakeDirectory
| CreateTemp
| WriteTemp (data : list Z)
| SyncTemp
| CloseTemp
| RenameTemp (data : list Z)
| RemoveTemp
| RemoveState.

(** What the controller uses of its surroundings. A file that is not there is read as [None]; the
    error of removing it is that of another failure. *)
Record DNSSystem (W : Type) : Type := {
  sy_Run : DNSCommand -> W -> result error string * W;
  sy_File : FileStep -> W -> option error * W;
  sy_ReadState : W -> result error (option (list Z));
  sy_acquire : W -> option error * W;
  sy_release : W -> W;
  sy_marshal : list dnsSnapshot -> result error (list Z);
  sy_unmarshal : list Z -> result error (list dnsSnapshot);
}.
Arguments sy_Run {W}.
Arguments sy_File {W}.
Arguments sy_ReadState {W}.
Arguments sy_acquire {W}.
Arguments sy_release {W}.
Arguments sy_marshal {W}.
Arguments sy_unmarshal {W}.

Record DNSState (W : Type) : Type := {
  dn_snapshots : list dnsSnapshot;
  dn_locked : bool;
  dn_world : W;
  dn_trace : list W;
}.
Arguments dn_snapshots {W}.
Arguments dn_locked {W}.
Arguments dn_world {W}.
Arguments dn_trace {W}.
Arguments Build_DNSState {W}.

(** The controller of a process that starts. *)
Definition newPlatformController {W} (w : W) : DNSState W := Build_DNSState [] false w [].

Section Controller.
Context {W : Type} (sys : DNSSystem W) (interfaceName : string).

#[local] Abbreviation DNS := (StateError (DNSState W)).

(** An effect on the surroundings. *)
Definition touch {A} (f : W -> result error A * W) : DNS A := fun s =>
  let '(r, w) := f (dn_world s) in
  (r, Build_DNSState (dn_snapshots s) (dn_locked s) w (dn_trace s ++ [w])).

Definition as_result (f : W -> option error * W) : W -> result error unit * W := fun w =>
  let '(err, w) := f w in (match err with Some e => Err e | None => Ok tt end, w).

Definition run_command (c : DNSCommand) : DNS string := touch (sy_Run sys c).
Definition file_step (f : FileStep) : DNS unit := touch (as_result (sy_File sys f)).
Definition set_snapshots (l : list dnsSnapshot) : DNS unit := fun s =>
  (Ok tt, Build_DNSState l (dn_locked s) (dn_world s) (dn_trace s)).

(** A message in front of an error. *)
Definition wrapped {A} (what : string) (m : DNS A) : DNS A :=
  wrap_error (fun e => EWrap (what +:+ ": " +:+ error_text e) e) m.

Definition acquireLock : DNS unit := fun s =>
  match sy_acquire sys (dn_world s) with
  | (Some e, w) => (Err e, Build_DNSState (dn_snapshots s) (dn_locked s) w (dn_trace s ++ [w]))
  | (None, w) => (Ok tt, Build_DNSState (dn_snapshots s) true w (dn_trace s ++ [w]))
  end.

Definition releaseLock (s : DNSState W) : DNSState W :=
  if dn_locked s then
    let w := sy_release sys (dn_world s) in Build_DNSState (dn_snapshots s) false w (dn_trace s ++ [w])
  else s.

Definition release : DNS unit := fun s => (Ok tt, releaseLock s).

(** [if err != nil { controller.releaseLock(); return err }]. *)
Definition or_release {A} (m : DNS A) : DNS A := fun s =>
  match m s with
  | (Err e, s) => (Err e, releaseLock s)
  | r => r
  end.

Definition readServers (service : string) : DNS (list string) :=
  output ← run_command (GetDNSServers service); mret (parseDNSServers output).

Definition restore_command (snapshot : dnsSnapshot) : DNSCommand :=
  SetDNSServers (sn_Service snapshot)
    (match sn_Servers snapshot with [] => ["Empty"%string] | l => l end).

(** The loop of [restoreSnapshotsContext] over the snapshots in reverse, with the errors so far. *)
Fixpoint restore_loop (snapshots : list dnsSnapshot) (errs : list (option error)) : DNS (option error) :=
  match snapshots with
  | [] => mret (errors_Join errs)
  | snapshot :: rest =>
      r ← attempt (run_command (restore_command snapshot));
      restore_loop rest (errs ++ [match r with Err e => Some e | Ok _ => None end])
  end.

Definition restoreSnapshots (snapshots : list dnsSnapshot) : DNS (option error) :=
  restore_loop (reverse snapshots) [].

Definition recoverStaleSnapshot : DNS unit :=
  data ← wrapped "read stale system DNS snapshot" (fun s => (sy_ReadState sys (dn_world s), s));
  match data with
  | None => mret tt
  | Some data =>
      snapshots ← wrapped "decode stale system DNS snapshot" (lift (sy_unmarshal sys data));
      err ← restoreSnapshots snapshots;
      _ ← wrapped "restore stale system DNS snapshot" (check err);
      wrapped "remove stale system DNS snapshot" (file_step RemoveState)
  end.

(** [defer os.Remove(temporaryName)] around the steps from the creation on. *)
Definition with_temp (m : DNS unit) : DNS unit := fun s =>
  let '(r, s) := m s in let '(_, s) := file_step RemoveTemp s in (r, s).

Definition or_close (m : DNS unit) : DNS unit := fun s =>
  match m s with
  | (Err e, s) => let '(_, s) := file_step CloseTemp s in (Err e, s)
  | r => r
  end.

Definition writeSnapshot (snapshots : list dnsSnapshot) : DNS unit :=
  data ← wrapped "encode system DNS snapshot" (lift (sy_marshal sys snapshots));
  _ ← wrapped "create system DNS state directory" (file_step MakeDirectory);
  _ ← wrapped "create system DNS snapshot" (file_step CreateTemp);
  with_temp (
    _ ← or_close (wrapped "write system DNS snapshot" (file_step (WriteTemp data)));
    _ ← or_close (wrapped "sync system DNS snapshot" (file_step SyncTemp));
    _ ← wrapped "close system DNS snapshot" (file_step CloseTemp);
    wrapped "install system DNS snapshot" (file_step (RenameTemp data))).

Fixpoint read_snapshots (services : list string) : DNS (list dnsSnapshot) :=
  match services with
  | [] => mret []
  | service :: rest =>
      servers ← readServers service;
      more ← read_snapshots rest;
      mret ({| sn_Service := service; sn_Servers := servers |} :: more)
  end.

(** A service could not be set: the old servers are put back, and the file is removed if all
    of them were. *)
Definition undo_apply (snapshots : list dnsSnapshot) (applyErr : error) : DNS unit :=
  restoreErr ← restoreSnapshots snapshots;
  _ ← match restoreErr with
      | None => _ ← attempt (file_step RemoveState); mret tt
      | Some _ => mret tt
      end;
  or_release (check (errors_Join [Some applyErr; restoreErr])).

Fixpoint set_servers (todo snapshots : list dnsSnapshot) (dnsServer : string) : DNS unit :=
  match todo with
  | [] => mret tt
  | snapshot :: rest =>
      r ← attempt (run_command (SetDNSServers (sn_Service snapshot) [dnsServer]));
      match r with
      | Err applyErr => undo_apply snapshots applyErr
      | Ok _ => set_servers rest snapshots dnsServer
      end
  end.

(** [Apply] behind its first checks. *)
Definition apply_services (dnsServer : string) : DNS unit :=
  _ ← acquireLock;
  _ ← or_release recoverStaleSnapshot;
  output ← or_release (run_command ListServiceOrder);
  let services := networkServicesForInterface output interfaceName in
  if is_nil services then
    or_release (fail (EText ("find macOS network service for interface " +:+ quote interfaceName)))
  else
  snapshots ← or_release (read_snapshots services);
  _ ← or_release (writeSnapshot snapshots);
  _ ← set_servers snapshots snapshots dnsServer;
  set_snapshots snapshots.

Definition Apply (dnsServer : string) : DNS unit := fun s =>
  if negb (is_nil (dn_snapshots s)) then (Ok tt, s)
  else if is_empty interfaceName then (Err (EText "system DNS control requires an outbound interface"), s)
  else if is_empty dnsServer then (Err (EText "system DNS server is empty"), s)
  else apply_services dnsServer s.

Definition Restore : DNS unit := fun s =>
  if is_nil (dn_snapshots s) then (Ok tt, s)
  else
  (err ← restoreSnapshots (dn_snapshots s);
   match err with
   | Some e => fail e
   | None =>
       _ ← set_snapshots [];
       r ← attempt (file_step RemoveState);
       _ ← release;
       lift r
   end) s.
End Controller.

(** ** A lawful system *)

(** What a list of arguments of [-setdnsservers] sets. *)
Definition servers_of (args : list string) : list string :=
  if bool_decide (args = ["Empty"%string]) then [] else args.

Definition set_dns (service : string) (servers : list string) (dns : string -> list string)
    : string -> list string :=
  fun x => if bool_decide (x = service) then servers else dns x.

(** The servers of each service and the snapshot file, as the commands and the files of the
    operating system change them. A command or a renaming that reports an error may have been
    done or not; removing a file that fails has not. *)
Class LawfulDNS {W : Type} (sys : DNSSystem W) := {
  dns_of : W -> string -> list string;
  file_of : W -> option (list Z);
  law_list w : dns_of (sy_Run sys ListServiceOrder w).2 = dns_of w /\
    file_of (sy_Run sys ListServiceOrder w).2 = file_of w;
  law_get service w : dns_of (sy_Run sys (GetDNSServers service) w).2 = dns_of w /\
    file_of (sy_Run sys (GetDNSServers service) w).2 = file_of w /\
    forall output, (sy_Run sys (GetDNSServers service) w).1 = Ok output ->
      parseDNSServers output = dns_of w service;
  law_set service args w :
    let call := sy_Run sys (SetDNSServers service args) w in
    file_of call.2 = file_of w /\
    (dns_of call.2 = set_dns service (servers_of args) (dns_of w) \/
     is_ok call.1 = false /\ dns_of call.2 = dns_of w);
  law_file step w :
    let call := sy_File sys step w in
    dns_of call.2 = dns_of w /\
    match step with
    | RenameTemp data => file_of call.2 = Some data \/ call.1 <> None /\ file_of call.2 = file_of w
    | RemoveState => call.1 = None /\ file_of call.2 = None \/ call.1 <> None /\ file_of call.2 = file_of w
    | _ => file_of call.2 = file_of w
    end;
  law_read w data : sy_ReadState sys w = Ok data -> data = file_of w;
  law_acquire w : dns_of (sy_acquire sys w).2 = dns_of w /\ file_of (sy_acquire sys w).2 = file_of w;
  law_release w : dns_of (sy_release sys w) = dns_of w /\ file_of (sy_release sys w) = file_of w;
  law_codec l data : sy_marshal sys l = Ok data -> sy_unmarshal sys data = Ok l;
}.

Section Recovery.
Context {W : Type} (sys : DNSSystem W) `{lawful : !LawfulDNS sys}.
(** The servers before the controller; a service without servers has the empty list. *)
Context (orig : string -> list string) (orig_proper : forall x, orig x <> ["Empty"%string]).

#[local] Abbreviation DNS := (StateError (DNSState W)).

(** Whatever differs from the original servers is in the snapshot file, which holds original
    servers only. *)
Definition recoverable_view (dns : string -> list string) (file : option (list Z)) : Prop :=
  (forall x, dns x <> orig x ->
     exists data l, file = Some data /\ sy_unmarshal sys data = Ok l /\ x ∈ map sn_Service l) /\
  (forall data l sn, file = Some data -> sy_unmarshal sys data = Ok l -> sn ∈ l ->
     sn_Servers sn = orig (sn_Service sn)).

Definition recoverable (w : W) : Prop := recoverable_view (dns_of w) (file_of w).

(** The state of the controller with a predicate on what it sees of the system. *)
Definition at_state (l : list dnsSnapshot) (locked : bool)
    (P : (string -> list string) -> option (list Z) -> Prop) (s : DNSState W) : Prop :=
  dn_snapshots s = l /\ dn_locked s = locked /\ recoverable (dn_world s) /\
  P (dns_of (dn_world s)) (file_of (dn_world s)).

#[local] Abbreviation safe := (safely dn_trace recoverable).

(** A touch of the system that ends in recoverable worlds. *)
Lemma safe_touch {A} (f : W -> result error A * W) (P : DNSState W -> Prop) l locked
    (Q : result error A -> (string -> list string) -> option (list Z) -> Prop) :
  (forall s, P s -> dn_snapshots s = l /\ dn_locked s = locked /\
     let call := f (dn_world s) in
     recoverable call.2 /\ Q call.1 (dns_of call.2) (file_of call.2)) ->
  safe P (touch f) (fun r => at_state l locked (Q r)).
Proof.
  intros H s Hs. destruct (H s Hs) as (Hl & Hb & Hrec & HQ). unfold touch.
  destruct (f (dn_world s)) as [r w]. simpl in *. split; [|done]. exists [w]. split; [done|by constructor].
Qed.

Lemma releaseLock_safe l locked P s :
  at_state l locked P s ->
  (exists new, dn_trace (releaseLock sys s) = dn_trace s ++ new /\ Forall recoverable new) /\
  at_state l false P (releaseLock sys s).
Proof.
  intros (Hl & Hb & Hrec & HP). unfold releaseLock. destruct (dn_locked s) eqn:E.
  - simpl. destruct (law_release (dn_world s)) as [Hd Hf].
    assert (recoverable (sy_release sys (dn_world s))) as Hrec' by (unfold recoverable; by rewrite Hd, Hf).
    split; [eexists; split; [done|by constructor]|]. split_and!; try done. simpl. by rewrite Hd, Hf.
  - split; [exists []; by rewrite app_nil_r|]. by split_and!.
Qed.

Lemma safe_or_release {A} (m : DNS A) P (Q : result error A -> DNSState W -> Prop) l locked
    (E : (string -> list string) -> option (list Z) -> Prop) :
  safe P m Q -> (forall e s, Q (Err e) s -> at_state l locked E s) ->
  safe P (or_release sys m)
    (fun r s => match r with Ok a => Q (Ok a) s | Err _ => at_state l false E s end).
Proof.
  intros Hm He s Hs. destruct (Hm s Hs) as [(new & Htr & Hnew) HQ]. unfold or_release.
  destruct (m s) as [[a|e] s1]; simpl in *; [split; [by exists new|done]|].
  destruct (releaseLock_safe l locked E s1) as [(new' & Htr' & Hnew') HR]; [by eapply He|].
  split; [|done]. exists (new ++ new'). rewrite Htr', Htr, app_assoc. split; [done|by apply Forall_app].
Qed.

(** *** Restoring *)

Definition clean (dns : string -> list string) : Prop := forall x, dns x = orig x.

Lemma recoverable_clean dns file :
  clean dns ->
  (forall data l sn, file = Some data -> sy_unmarshal sys data = Ok l -> sn ∈ l ->
     sn_Servers sn = orig (sn_Service sn)) ->
  recoverable_view dns file.
Proof. intros Hc Hf. split; [|done]. intros x Hx. by rewrite Hc in Hx. Qed.

Lemma servers_restored sn : sn_Servers sn = orig (sn_Service sn) ->
  servers_of (match sn_Servers sn with [] => ["Empty"%string] | l => l end) = orig (sn_Service sn).
Proof.
  intros Hsn. rewrite Hsn. pose proof (orig_proper (sn_Service sn)) as Hne.
  destruct (orig (sn_Service sn)) as [|x l] eqn:E; unfold servers_of; [done|].
  by rewrite bool_decide_eq_false_2.
Qed.

Lemma set_dns_restores service dns x : set_dns service (orig service) dns x <> orig x -> dns x <> orig x.
Proof. unfold set_dns. case_bool_decide as Hx; [by subst|done]. Qed.

(** Setting a service to its original servers. *)
Lemma safe_restore_one ls locked data l sn (P : (string -> list string) -> Prop) :
  sy_unmarshal sys data = Ok l -> sn ∈ l ->
  safe (at_state ls locked (fun dns file => file = Some data /\ P dns))
    (run_command sys (restore_command sn))
    (fun r => at_state ls locked (fun dns file => file = Some data /\
       exists dns0, P dns0 /\ (forall x, dns x <> orig x -> dns0 x <> orig x) /\
         (is_ok r = true -> dns (sn_Service sn) = orig (sn_Service sn)))).
Proof.
  intros Hl Hsn. apply safe_touch. intros s (Hls & Hlk & Hrec & Hfile & HP). split; [done|]. split; [done|].
  destruct Hrec as [Hdiff Horig]. pose proof (Horig data l sn Hfile Hl Hsn) as Hsn'.
  unfold restore_command. set (args := match sn_Servers sn with [] => _ | _ => _ end).
  destruct (law_set (sn_Service sn) args (dn_world s)) as [Hf Hd]. unfold args in Hd.
  rewrite (servers_restored sn Hsn') in Hd. fold args in Hd.
  set (call := sy_Run sys _ _) in *.
  assert (forall x, dns_of call.2 x <> orig x -> dns_of (dn_world s) x <> orig x) as Hmono.
  { intros x. destruct Hd as [->|[_ ->]]; [apply set_dns_restores|done]. }
  split; [split|split].
  - intros x Hx. rewrite Hf. by apply Hdiff, Hmono.
  - rewrite Hf. exact Horig.
  - by rewrite Hf.
  - exists (dns_of (dn_world s)). split_and!; [done|done|]. intros Hok.
    destruct Hd as [->|[Hno _]]; [|congruence]. unfold set_dns. by rewrite bool_decide_eq_true_2.
Qed.

Lemma safe_restore_loop ls locked data l todo errs :
  sy_unmarshal sys data = Ok l -> (forall sn, sn ∈ todo -> sn ∈ l) ->
  safe (at_state ls locked (fun dns file => file = Some data /\
          (omap id errs = [] -> forall x, dns x <> orig x -> x ∈ map sn_Service todo)))
    (restore_loop sys todo errs)
    (fun r => at_state ls locked (fun dns file => file = Some data /\
       exists err, r = Ok err /\ (err = None -> clean dns))).
Proof.
  intros Hl. revert errs. induction todo as [|sn todo IH]; intros errs Hin; cbn [restore_loop].
  - apply safely_ret. intros s (? & ? & ? & ? & Hno). split_and!; try done. exists (errors_Join errs).
    split; [done|]. unfold errors_Join. destruct (omap id errs) eqn:E; [|done]. intros _ x.
    destruct (decide (dns_of (dn_world s) x = orig x)) as [|Hx]; [done|].
    by apply (Hno eq_refl), elem_of_nil in Hx.
  - eapply safely_bind.
    + eapply safely_attempt, (safe_restore_one ls locked data l sn); [done|apply Hin; by left].
    + intros a. eapply safely_weaken; [apply IH; intros; apply Hin; by right| |by intros].
      intros s (r & [= <-] & ? & ? & ? & ? & dns0 & HP & Hmono & Hok). split_and!; try done.
      rewrite omap_app. intros Hno x Hx. apply app_nil in Hno as [Hno Hr].
      pose proof (HP Hno x (Hmono x Hx)) as Hx'. apply elem_of_cons in Hx' as [->|?]; [|done].
      destruct a; [|done]. by rewrite Hok in Hx.
    + intros e s (r & ? & _). done.
Qed.

Lemma safe_restoreSnapshots ls locked data l :
  sy_unmarshal sys data = Ok l ->
  safe (at_state ls locked (fun _ file => file = Some data))
    (restoreSnapshots sys l)
    (fun r => at_state ls locked (fun dns file => file = Some data /\
       exists err, r = Ok err /\ (err = None -> clean dns))).
Proof.
  intros Hl. unfold restoreSnapshots. eapply safely_weaken; [apply (safe_restore_loop ls locked data l)| |by intros].
  - done.
  - intros sn. by rewrite elem_of_reverse.
  - intros s (? & ? & Hrec & Hfile). split_and!; try done. intros _ x Hx.
    destruct (proj1 Hrec x Hx) as (data' & l' & Hf' & Hl' & Hx').
    assert (data' = data) as -> by congruence. assert (l' = l) as -> by congruence.
    apply list_elem_of_fmap in Hx' as (sn & -> & Hsn). apply list_elem_of_fmap. exists sn. by rewrite elem_of_reverse.
Qed.

(** A file step that leaves the snapshot file. *)
Lemma safe_file_step ls locked step (P : (string -> list string) -> option (list Z) -> Prop) :
  match step with RenameTemp _ | RemoveState => False | _ => True end ->
  safe (at_state ls locked P) (file_step sys step) (fun _ => at_state ls locked P).
Proof.
  intros Hstep. apply safe_touch. intros s (? & ? & Hrec & HP). split; [done|]. split; [done|].
  unfold as_result. destruct (law_file step (dn_world s)) as [Hd Hf].
  destruct (sy_File sys step (dn_world s)) as [err w]. simpl in *.
  assert (file_of w = file_of (dn_world s)) as Hf' by (destruct step; done).
  unfold recoverable. rewrite Hd, Hf'. done.
Qed.

(** Removing the snapshot once the servers are the original ones. *)
Lemma safe_remove_state ls locked (P : option (list Z) -> Prop) :
  safe (at_state ls locked (fun dns file => clean dns /\ P file)) (file_step sys RemoveState)
    (fun r => at_state ls locked (fun dns file => clean dns /\ (r = Ok tt -> file = None))).
Proof.
  apply safe_touch. intros s (? & ? & [_ Horig] & Hclean & _). split; [done|]. split; [done|].
  unfold as_result. destruct (law_file RemoveState (dn_world s)) as [Hd Hf].
  destruct (sy_File sys RemoveState (dn_world s)) as [err w]. simpl in *.
  unfold recoverable. rewrite Hd. split.
  - apply recoverable_clean; [done|]. destruct Hf as [[_ ->]|[_ ->]]; [done|exact Horig].
  - split; [done|]. destruct Hf as [[-> ->]|[Herr _]]; [done|]. by destruct err.
Qed.

Definition any_view : (string -> list string) -> option (list Z) -> Prop := fun _ _ => True.
(** The original servers, and no snapshot. *)
Definition as_found : (string -> list string) -> option (list Z) -> Prop :=
  fun dns file => clean dns /\ file = None.

Lemma at_state_any ls locked P s : at_state ls locked P s -> at_state ls locked any_view s.
Proof. intros (? & ? & ? & _). by split_and!. Qed.

(** Recovering what a crash has left. *)
Lemma safe_recover ls locked :
  safe (at_state ls locked any_view) (recoverStaleSnapshot sys)
    (fun r => at_state ls locked (fun dns file => r = Ok tt -> as_found dns file)).
Proof.
  unfold recoverStaleSnapshot. eapply safely_bind.
  - apply safely_wrap_error with (Q := fun r => at_state ls locked (fun _ file => forall data, r = Ok data -> file = data)).
    + apply safely_quiet. intros s (? & ? & Hrec & _). split; [done|]. split_and!; try done.
      intros data Hread. simpl in Hread. symmetry. by apply law_read.
    + intros e e' s (? & ? & ? & _). by split_and!.
  - intros [data|].
    + eapply safely_bind.
      { eapply safely_wrap_error with (Q := fun r => at_state ls locked (fun _ file => file = Some data /\
          forall l, r = Ok l -> sy_unmarshal sys data = Ok l)).
        - apply safely_quiet. intros s (? & ? & ? & Hf). split; [done|]. split_and!; try done. simpl. auto.
        - intros e e' s (? & ? & ? & ? & _). by split_and!. }
      { intros l. apply (safely_weaken (fun s => at_state ls locked (fun _ file => file = Some data) s /\
          sy_unmarshal sys data = Ok l) _ _
          (fun r => at_state ls locked (fun dns file => r = Ok tt -> as_found dns file))); [|
          intros s (? & ? & ? & ? & Hl); split; [by split_and!|by apply Hl]|done].
        intros s [Hs Hl]. revert s Hs.
        change (safe (at_state ls locked (fun _ file => file = Some data))
          (err ← restoreSnapshots sys l; _ ← wrapped "restore stale system DNS snapshot" (check err);
           wrapped "remove stale system DNS snapshot" (file_step sys RemoveState))
          (fun r => at_state ls locked (fun dns file => r = Ok tt -> as_found dns file))).
        eapply safely_bind; [by apply (safe_restoreSnapshots ls locked data l)| |].
        2:{ intros e s (_ & _ & _ & _ & err & [=] & _). }
        intros err. eapply safely_bind with (Q := fun r => at_state ls locked (fun dns file => file = Some data /\
          (r = Ok tt -> clean dns))).
        - eapply safely_wrap_error.
          + apply safely_quiet. intros s (? & ? & ? & ? & err' & [= <-] & Hclean). split; [done|].
            split_and!; try done. simpl. destruct err; [done|]. intros _. by apply Hclean.
          + intros e e' s (? & ? & ? & ? & _). by split_and!.
        - intros []. eapply safely_wrap_error.
          + eapply safely_weaken; [apply (safe_remove_state ls locked (fun _ => True))| |].
            * intros s (? & ? & ? & _ & Hclean). split_and!; try done. by apply Hclean.
            * intros r s (? & ? & ? & ? & Hnone). split_and!; try done. intros Hr. split; [done|by apply Hnone].
          + intros e e' s (? & ? & ? & _). by split_and!.
        - intros e s (? & ? & ? & _). by split_and!. }
      { intros e s (? & ? & ? & _). by split_and!. }
    + apply safely_ret. intros s (? & ? & [Hdiff ?] & Hnone). specialize (Hnone None eq_refl).
      split_and!; try done. intros _. split; [|done]. intros x.
      destruct (decide (dns_of (dn_world s) x = orig x)) as [|Hx]; [done|].
      destruct (Hdiff x Hx) as (? & ? & ? & _). congruence.
  - intros e s (? & ? & ? & _). by split_and!.
Qed.

(** *** Applying *)

(** Snapshots of these services, with the original servers. *)
Definition snapshots_of (services : list string) (l : list dnsSnapshot) : Prop :=
  map sn_Service l = services /\ forall sn, sn ∈ l -> sn_Servers sn = orig (sn_Service sn).

Lemma safe_list ls locked P :
  safe (at_state ls locked P) (run_command sys ListServiceOrder) (fun _ => at_state ls locked P).
Proof.
  apply safe_touch. intros s (? & ? & Hrec & HP). split; [done|]. split; [done|].
  destruct (law_list (dn_world s)) as [Hd Hf]. unfold recoverable. by rewrite Hd, Hf.
Qed.

Lemma safe_read_snapshots ls locked services :
  safe (at_state ls locked as_found) (read_snapshots sys services)
    (fun r => at_state ls locked (fun dns file => as_found dns file /\
       forall l, r = Ok l -> snapshots_of services l)).
Proof.
  induction services as [|service services IH]; cbn [read_snapshots].
  - apply safely_ret. intros s (? & ? & ? & ?). split_and!; try done. intros l [= <-]. split; [done|].
    by intros sn ?%elem_of_nil.
  - unfold readServers. eapply safely_bind with (Q := fun r => at_state ls locked (fun dns file => as_found dns file /\
      forall servers, r = Ok servers -> servers = orig service)).
    + eapply safely_bind with (Q := fun r => at_state ls locked (fun dns file => as_found dns file /\
        forall output, r = Ok output -> parseDNSServers output = orig service)).
      * apply safe_touch. intros s (? & ? & Hrec & [Hclean Hnone]). split; [done|]. split; [done|].
        destruct (law_get service (dn_world s)) as (Hd & Hf & Hout). unfold recoverable, as_found, clean.
        rewrite Hd, Hf. split_and!; try done. intros output Ho. by rewrite (Hout output Ho).
      * intros output. apply safely_ret. intros s (? & ? & ? & ? & Ho). split_and!; try done.
        intros servers [= <-]. by apply Ho.
      * intros e s (? & ? & ? & ? & _). by split_and!.
    + intros servers. eapply safely_bind with (Q := fun r => at_state ls locked (fun dns file => as_found dns file /\
        servers = orig service /\ forall l, r = Ok l -> snapshots_of services l)).
      * intros s (? & ? & ? & Hfound & Hs). destruct (IH s) as [Htr (? & ? & ? & ? & Hl)]; [by split_and!|].
        split; [done|]. split_and!; try done. by apply Hs.
      * intros l. apply safely_ret. intros s (? & ? & ? & ? & -> & Hl). split_and!; try done.
        intros l' [= <-]. destruct (Hl l eq_refl) as [<- Ho]. split; [done|].
        intros sn [->|?]%elem_of_cons; [done|by apply Ho].
      * intros e s (? & ? & ? & ? & _). by split_and!.
    + intros e s (? & ? & ? & ? & _). by split_and!.
Qed.

(** The file of a snapshot. *)
Definition recorded (l : list dnsSnapshot) : option (list Z) -> Prop :=
  fun file => exists data, file = Some data /\ sy_unmarshal sys data = Ok l.

Lemma safe_rename ls locked data l services :
  sy_unmarshal sys data = Ok l -> snapshots_of services l ->
  safe (at_state ls locked as_found) (file_step sys (RenameTemp data))
    (fun r => at_state ls locked (fun dns file => clean dns /\ (r = Ok tt -> recorded l file))).
Proof.
  intros Hl [_ Horig]. apply safe_touch. intros s (? & ? & Hrec & [Hclean Hnone]). split; [done|]. split; [done|].
  unfold as_result. destruct (law_file (RenameTemp data) (dn_world s)) as [Hd Hf].
  destruct (sy_File sys (RenameTemp data) (dn_world s)) as [err w]. simpl in *. unfold recoverable. rewrite Hd.
  split.
  - apply recoverable_clean; [done|]. intros data' l' sn Hfile Hl' Hin. destruct Hf as [Hf|[_ Hf]]; [|congruence].
    assert (l' = l) as -> by congruence. by apply Horig.
  - split; [done|]. destruct Hf as [->|[Herr _]]; [intros _; by exists data|]. by destruct err.
Qed.

(** Steps before the renaming. *)
Lemma safe_wrapped_step ls locked what step P :
  match step with RenameTemp _ | RemoveState => False | _ => True end ->
  safe (at_state ls locked P) (wrapped what (file_step sys step)) (fun _ => at_state ls locked P).
Proof. intros Hstep. eapply safely_wrap_error; [by apply safe_file_step|by intros]. Qed.

Lemma safe_or_close {A} ls locked (m : DNS unit) (P : (string -> list string) -> option (list Z) -> Prop) (f : unit -> DNS A) Q :
  safe (at_state ls locked P) m (fun _ => at_state ls locked P) ->
  safe (at_state ls locked P) (f tt) Q -> (forall e s, at_state ls locked P s -> Q (Err e) s) ->
  safe (at_state ls locked P) (or_close sys m ≫= f) Q.
Proof.
  intros Hm Hf He. apply (safely_bind _ _ _ (fun _ => at_state ls locked P)); [|by intros []|done].
  intros s Hs. unfold or_close. destruct (Hm s Hs) as [(new & Htr & Hnew) HP].
  destruct (m s) as [[a|e] s1]; simpl in *; [split; [by exists new|done]|].
  destruct (safe_file_step ls locked CloseTemp P I s1 HP) as [(new' & Htr' & Hnew') HP'].
  destruct (file_step sys CloseTemp s1) as [r s2]. simpl in *. split; [|done].
  exists (new ++ new'). rewrite Htr', Htr, app_assoc. split; [done|by apply Forall_app].
Qed.

Lemma safe_writeSnapshot ls locked services l :
  snapshots_of services l ->
  safe (at_state ls locked as_found) (writeSnapshot sys l)
    (fun r => at_state ls locked (fun dns file => clean dns /\ (r = Ok tt -> recorded l file))).
Proof.
  intros Hl. set (Q := fun r : result error unit => at_state ls locked (fun dns file => clean dns /\ (r = Ok tt -> recorded l file))).
  assert (forall e s, at_state ls locked as_found s -> Q (Err e) s) as Herr.
  { intros e s (? & ? & ? & ? & ?). by split_and!. }
  unfold writeSnapshot. eapply (safely_bind _ _ _ (fun r s => at_state ls locked as_found s /\
    forall data, r = Ok data -> sy_unmarshal sys data = Ok l)).
  { eapply safely_wrap_error; [|by intros e e' s [? _]]. apply safely_quiet. intros s Hs. split; [done|].
    split; [done|]. intros data Hdata. by apply law_codec. }
  2:{ intros e s [Hs _]. by apply Herr. }
  intros data. intros s [Hs Hdata]. specialize (Hdata data eq_refl). revert s Hs.
  change (safe (at_state ls locked as_found)
    (_ ← wrapped "create system DNS state directory" (file_step sys MakeDirectory);
     _ ← wrapped "create system DNS snapshot" (file_step sys CreateTemp);
     with_temp sys (
       _ ← or_close sys (wrapped "write system DNS snapshot" (file_step sys (WriteTemp data)));
       _ ← or_close sys (wrapped "sync system DNS snapshot" (file_step sys SyncTemp));
       _ ← wrapped "close system DNS snapshot" (file_step sys CloseTemp);
       wrapped "install system DNS snapshot" (file_step sys (RenameTemp data)))) Q).
  eapply safely_bind; [by apply safe_wrapped_step|intros ?|exact Herr].
  eapply safely_bind; [by apply safe_wrapped_step|intros ?|exact Herr].
  set (m := or_close sys _ ≫= _). assert (safe (at_state ls locked as_found) m Q) as Hm.
  { apply safe_or_close; [by apply safe_wrapped_step| |exact Herr].
    apply safe_or_close; [by apply safe_wrapped_step| |exact Herr].
    eapply safely_bind; [by apply safe_wrapped_step|intros ?|exact Herr].
    eapply safely_wrap_error; [by eapply safe_rename|]. intros e e' s' (? & ? & ? & ? & _). by split_and!. }
  intros s Hs. unfold with_temp. destruct (Hm s Hs) as [(new & Htr & Hnew) HQ].
  destruct (m s) as [r s1]. simpl in *.
  destruct (safe_file_step ls locked RemoveTemp _ I s1 HQ) as [(new' & Htr' & Hnew') HQ'].
  destruct (file_step sys RemoveTemp s1) as [r' s2]. simpl in *. split; [|exact HQ'].
  exists (new ++ new'). rewrite Htr', Htr, app_assoc. split; [done|by apply Forall_app].
Qed.

Lemma safe_undo ls locked data l applyErr :
  sy_unmarshal sys data = Ok l ->
  safe (at_state ls locked (fun _ file => file = Some data)) (undo_apply sys l applyErr)
    (fun r s => is_ok r = false /\ at_state ls false any_view s).
Proof.
  intros Hl. unfold undo_apply. eapply safely_bind; [by apply (safe_restoreSnapshots ls locked data l)| |].
  2:{ intros e s (_ & _ & _ & _ & err & [=] & _). }
  intros restoreErr. eapply safely_bind with (Q := fun r s => is_ok r = true /\ at_state ls locked any_view s).
  - destruct restoreErr as [e|].
    + apply safely_ret. intros s Hs. split; [done|by eapply at_state_any].
    + eapply safely_bind.
      * eapply safely_attempt. eapply safely_weaken; [apply (safe_remove_state ls locked (fun _ => True))| |by intros].
        intros s (? & ? & ? & _ & err & [= <-] & Hclean). split_and!; try done. by apply Hclean.
      * intros r. apply safely_ret. intros s (r' & _ & Hs). split; [done|by eapply at_state_any].
      * intros e s (r' & ? & _). done.
  - intros []. eapply safely_weaken.
    + eapply (safe_or_release (check _) (at_state ls locked any_view)
        (fun r s => is_ok r = false /\ at_state ls locked any_view s) ls locked any_view).
      * apply safely_quiet. intros s Hs. split; [done|]. unfold check. simpl. by destruct restoreErr.
      * by intros e s [_ Hs].
    + by intros s [_ Hs].
    + intros [a|e] s; [by intros [? _]|by split].
  - by intros e s [? _].
Qed.

(** Services that have been set, the others being as before. *)
Definition served (names : list string) (dnsServer : string) (dns : string -> list string) : Prop :=
  forall x, dns x = if bool_decide (x ∈ names) then servers_of [dnsServer] else orig x.

Lemma safe_set_one ls locked data l sn dnsServer names :
  sy_unmarshal sys data = Ok l -> sn ∈ l ->
  safe (at_state ls locked (fun dns file => file = Some data /\ served names dnsServer dns))
    (run_command sys (SetDNSServers (sn_Service sn) [dnsServer]))
    (fun r => at_state ls locked (fun dns file => file = Some data /\
       (is_ok r = true -> served (names ++ [sn_Service sn]) dnsServer dns))).
Proof.
  intros Hl Hsn. apply safe_touch. intros s (Hls & Hlk & Hrec & Hfile & Hserved). split; [done|]. split; [done|].
  destruct (law_set (sn_Service sn) [dnsServer] (dn_world s)) as [Hf Hd]. set (call := sy_Run sys _ _) in *.
  split; [split|split].
  - intros x Hx. rewrite Hf. destruct (decide (x = sn_Service sn)) as [->|Hne].
    { exists data, l. split_and!; [done|done|]. apply list_elem_of_fmap. by exists sn. }
    apply (proj1 Hrec). destruct Hd as [Hd|[_ Hd]]; rewrite Hd in Hx; [|done].
    unfold set_dns in Hx. by rewrite bool_decide_eq_false_2 in Hx.
  - rewrite Hf. apply Hrec.
  - by rewrite Hf.
  - intros Hok x. destruct Hd as [->|[Hno _]]; [|congruence]. unfold set_dns. rewrite (Hserved x).
    destruct (decide (x = sn_Service sn)) as [->|Hne].
    + rewrite !bool_decide_eq_true_2; [done| |done]. set_solver.
    + rewrite (bool_decide_eq_false_2 (x = _)) by done.
      rewrite (bool_decide_ext (x ∈ names ++ [sn_Service sn]) (x ∈ names)) by set_solver. done.
Qed.

Lemma safe_set_servers ls locked data l todo done_ dnsServer :
  sy_unmarshal sys data = Ok l -> l = done_ ++ todo ->
  safe (at_state ls locked (fun dns file => file = Some data /\ served (map sn_Service done_) dnsServer dns))
    (set_servers sys todo l dnsServer)
    (fun r s => match r with
                | Ok _ => at_state ls locked (fun dns file => file = Some data /\
                            served (map sn_Service l) dnsServer dns) s
                | Err _ => at_state ls false any_view s
                end).
Proof.
  intros Hl. revert done_. induction todo as [|sn todo IH]; intros done_ Hsplit; cbn [set_servers].
  - apply safely_ret. rewrite app_nil_r in Hsplit. by subst done_.
  - eapply safely_bind.
    + eapply safely_attempt, (safe_set_one ls locked data l sn); [done|]. subst l. set_solver.
    + intros [out|applyErr].
      * eapply safely_weaken; [apply (IH (done_ ++ [sn]))|..]; [by rewrite <-app_assoc| |by intros].
        intros s (r & [= <-] & ? & ? & ? & ? & Hserved). split_and!; try done. rewrite map_app. by apply Hserved.
      * eapply safely_weaken; [by apply (safe_undo ls locked data l applyErr)| |].
        -- intros s (r & [= <-] & ? & ? & ? & ? & _). by split_and!.
        -- intros [a|e] s [Hr Hs]; done.
    + intros e s (r & ? & _). done.
Qed.

(** The controller in the state [s] is one of [orig]: what it holds is in the file. *)
Definition controller_ok (s : DNSState W) : Prop :=
  recoverable (dn_world s) /\
  (dn_snapshots s = [] /\ dn_locked s = false \/
   dn_snapshots s <> [] /\ dn_locked s = true /\ recorded (dn_snapshots s) (file_of (dn_world s))).

(** An idle controller after an error. *)
Definition gave_up : DNSState W -> Prop := at_state [] false any_view.

(** The services of the interface in what the system answers. *)
Definition applied (interfaceName dnsServer : string) (s : DNSState W) : Prop :=
  exists output, let services := networkServicesForInterface output interfaceName in
    services <> [] /\ map sn_Service (dn_snapshots s) = services /\ dn_locked s = true /\
    recoverable (dn_world s) /\ recorded (dn_snapshots s) (file_of (dn_world s)) /\
    served services dnsServer (dns_of (dn_world s)).

Lemma safe_acquire :
  safe (at_state [] false any_view) (acquireLock sys)
    (fun r => at_state [] (is_ok r) any_view).
Proof.
  intros s (Hs & Hlk & Hrec & _). unfold acquireLock. destruct (law_acquire (dn_world s)) as [Hd Hf].
  destruct (sy_acquire sys (dn_world s)) as [[e|] w]; simpl in *.
  all: assert (recoverable w) as Hrec' by (unfold recoverable; by rewrite Hd, Hf).
  all: split; [exists [w]; split; [done|by constructor]|by split_and!].
Qed.

(** A call behind which the lock is released on an error. *)
Lemma guarded_bind {A B} (m : DNS A) (f : A -> DNS B) P
    (Q : A -> (string -> list string) -> option (list Z) -> Prop) (R : B -> DNSState W -> Prop) :
  let ends r s := match r with Ok b => R b s | Err _ => gave_up s end in
  safe P m (fun r => at_state [] true (fun dns file => forall a, r = Ok a -> Q a dns file)) ->
  (forall a, safe (at_state [] true (Q a)) (f a) ends) ->
  safe P (or_release sys m ≫= f) ends.
Proof.
  intros ends Hm Hf. eapply safely_bind.
  - eapply (safe_or_release m P _ [] true any_view); [exact Hm|]. intros e s Hs. exact (at_state_any _ _ _ _ Hs).
  - intros a. eapply safely_weaken; [apply Hf| |by intros]. intros s (? & ? & ? & HQ). split_and!; try done. by apply HQ.
  - by intros e s Hs.
Qed.

Lemma safe_apply_services interfaceName dnsServer :
  safe (at_state [] false any_view) (apply_services sys interfaceName dnsServer)
    (fun r s => match r with Ok _ => applied interfaceName dnsServer s | Err _ => gave_up s end).
Proof.
  unfold apply_services. eapply safely_bind; [apply safe_acquire|intros []|by intros]. cbn [is_ok].
  apply guarded_bind with (Q := fun _ => as_found).
  { eapply safely_weaken; [apply (safe_recover [] true)|by intros|].
    intros r s (? & ? & ? & Hr). split_and!; try done. intros [] Hok. by apply Hr. }
  intros []. apply guarded_bind with (Q := fun _ => as_found).
  { eapply safely_weaken; [apply (safe_list [] true as_found)|by intros|].
    intros r s (? & ? & ? & ?). by split_and!. }
  intros output. set (services := networkServicesForInterface output interfaceName).
  destruct (is_nil services) eqn:Hnil.
  { eapply safely_weaken.
    - eapply (safe_or_release (fail _) (at_state [] true any_view) (fun r s => is_ok r = false /\ at_state [] true any_view s) [] true any_view).
      + apply safely_quiet. intros s Hs. by split.
      + by intros e s [_ Hs].
    - intros s Hs. by eapply at_state_any.
    - intros [a|e] s Hs; [by destruct Hs|done]. }
  apply guarded_bind with (Q := fun l dns file => as_found dns file /\ snapshots_of services l).
  { eapply safely_weaken; [apply (safe_read_snapshots [] true services)|by intros|].
    intros r s (? & ? & ? & ? & Hl). split_and!; try done. intros l Hr. by auto. }
  intros l s Hs. assert (snapshots_of services l) as Hl by apply Hs.
  assert (at_state [] true as_found s) as Hs' by (destruct Hs as (? & ? & ? & ? & _); by split_and!).
  clear Hs.
  enough (safe (at_state [] true as_found)
    (_ ← or_release sys (writeSnapshot sys l); _ ← set_servers sys l l dnsServer; set_snapshots l)
    (fun r s => match r with Ok _ => applied interfaceName dnsServer s | Err _ => gave_up s end)) as H by auto.
  clear s Hs'. apply (guarded_bind _ _ _ (fun _ dns file => clean dns /\ recorded l file)).
  { eapply safely_weaken; [by apply (safe_writeSnapshot [] true services)|by intros|].
    intros r s (? & ? & ? & ? & Hrec). split_and!; try done. intros [] Hr. by auto. }
  intros [] s (Hsn & Hlk & Hrec & Hclean & data & Hfile & Hdata).
  assert (at_state [] true (fun dns file => file = Some data /\ served [] dnsServer dns) s) as Hs.
  { by split_and!. }
  enough (safe (at_state [] true (fun dns file => file = Some data /\ served [] dnsServer dns))
    (_ ← set_servers sys l l dnsServer; set_snapshots l)
    (fun r s => match r with Ok _ => applied interfaceName dnsServer s | Err _ => gave_up s end)) as H by auto.
  clear s Hs Hsn Hlk Hrec Hclean Hfile. eapply safely_bind; [by apply (safe_set_servers [] true data l l [])| |by intros].
  intros []. apply safely_quiet. intros s (_ & Hlk & Hrec & Hfile & Hserved). split; [done|].
  exists output. destruct Hl as [Hnames _]. fold services. simpl. rewrite <-Hnames at 2 3.
  split_and!; try done; first [by destruct services|by exists data].
Qed.

(** *** The controller *)

(** What a [Restore] that has snapshots comes to. *)
Definition restored (r : result error unit) (s : DNSState W) : Prop :=
  match r with
  | Ok _ => at_state [] false as_found s
  | Err _ => controller_ok s
  end.

Lemma safe_Restore l :
  l <> [] ->
  safe (at_state l true (fun _ => recorded l)) (Restore sys) restored.
Proof.
  intros Hne s Hs. destruct Hs as (Hl & Hlk & Hrec & data & Hfile & Hdata). unfold Restore.
  rewrite Hl. destruct (is_nil l) eqn:Hnil; [by destruct l|]. clear Hnil.
  enough (safe (at_state l true (fun _ file => file = Some data))
    (err ← restoreSnapshots sys l;
     match err with
     | Some e => fail e
     | None => _ ← set_snapshots []; r ← attempt (file_step sys RemoveState); _ ← release sys; lift r
     end) restored) as H by (apply H; by split_and!).
  clear s Hl Hlk Hrec Hfile. eapply safely_bind; [by apply (safe_restoreSnapshots l true data l)| |].
  2:{ intros e s (_ & _ & _ & _ & err & [=] & _). }
  intros [e|].
  - apply safely_quiet. intros s (Hl & Hlk & Hrec & Hfile & _). split; [done|]. split; [done|].
    right. simpl. rewrite Hl, Hlk. split_and!; [done|done|by exists data].
  - eapply safely_bind with (Q := fun r s => is_ok r = true /\ at_state [] true (fun dns _ => clean dns /\ True) s); [| |by intros e s [? _]].
    { apply safely_quiet. intros s (_ & Hlk & Hrec & _ & err & [= <-] & Hclean). split; [done|]. split; [done|].
      split_and!; try done. by apply Hclean. }
    intros []. eapply safely_bind.
    { eapply safely_weaken; [eapply safely_attempt, (safe_remove_state [] true (fun _ => True))| |by intros].
      by intros s [_ Hs]. }
    2:{ by intros e s (r' & ? & _). }
    intros r s (r' & [= <-] & Hs). unfold mbind, StateError_bind, release, lift. cbn.
    destruct (releaseLock_safe _ _ _ _ Hs) as [Htr (Hl & Hlk & Hrec & Hclean & Hnone)]. split; [exact Htr|].
    destruct r as [[]|e]; simpl; [split_and!; try done; by split; [|apply Hnone]|]. split; [done|]. by left.
Qed.

(** C26: The DNS servers of a macOS system are always recoverable. Take a system in which what differs from
    the original servers is in the snapshot file, which holds original servers only, and a
    controller that holds nothing or what the file holds. Applying a DNS server and restoring go
    only through such systems, whatever fails: a process that starts after a crash at any point
    has such a controller again. When the controller holds nothing, an [Apply] that succeeds has set the
    server on all services of the interface and on no other, with the lock held, and one that fails
    holds nothing and no lock; a [Restore] has nothing to do and succeeds. When it holds the snapshots of an
    [Apply], a second [Apply] succeeds without doing anything, whatever its server is, and a [Restore] that
    succeeds leaves the original servers, no snapshot and no lock. *)
Theorem system_dns_recoverable (interfaceName dnsServer : string) (s : DNSState W)
    (Hok : controller_ok s) :
  let apply := Apply sys interfaceName dnsServer s in
  let restore := Restore sys s in
  (exists new, dn_trace apply.2 = dn_trace s ++ new /\
     Forall (fun w => controller_ok (newPlatformController w)) new) /\
  (exists new, dn_trace restore.2 = dn_trace s ++ new /\
     Forall (fun w => controller_ok (newPlatformController w)) new) /\
  controller_ok apply.2 /\ controller_ok restore.2 /\
  (dn_snapshots s = [] ->
     match apply.1 with
     | Ok _ => applied interfaceName dnsServer apply.2
     | Err _ => dn_snapshots apply.2 = [] /\ dn_locked apply.2 = false
     end) /\
  (dn_snapshots s = [] -> restore = (Ok tt, s)) /\
  (dn_snapshots s <> [] -> apply = (Ok tt, s)) /\
  (restore.1 = Ok tt -> dn_snapshots restore.2 = [] /\ dn_locked restore.2 = false) /\
  (dn_snapshots s <> [] -> restore.1 = Ok tt ->
     clean (dns_of (dn_world restore.2)) /\ file_of (dn_world restore.2) = None).
Proof.
  assert (forall new, Forall recoverable new -> Forall (fun w => controller_ok (newPlatformController w)) new) as Hstart.
  { intros new Hnew. eapply Forall_impl; [exact Hnew|]. intros w Hw. split; [done|by left]. }
  destruct Hok as [Hrec [[Hl Hlk]|(Hl & Hlk & Hfile)]]; intros apply restore.
  - assert (restore = (Ok tt, s)) as -> by (unfold restore, Restore; by rewrite Hl).
    assert (at_state [] false any_view s) as Hs by (by split_and!).
    assert ((exists new, dn_trace apply.2 = dn_trace s ++ new /\ Forall recoverable new) /\
      match apply.1 with Ok _ => applied interfaceName dnsServer apply.2 | Err _ => gave_up apply.2 end)
      as [(new & Htr & Hnew) HQ].
    { unfold apply, Apply. rewrite Hl. cbn [is_nil negb].
      destruct (is_empty interfaceName); [split; [exists []; by rewrite app_nil_r|done]|].
      destruct (is_empty dnsServer); [split; [exists []; by rewrite app_nil_r|done]|].
      by apply safe_apply_services. }
    split_and!.
    + exists new. auto.
    + exists []. by rewrite app_nil_r.
    + destruct apply.1.
      * destruct HQ as (output & Hne & Hnames & Hlock & Hr & Hf & _). split; [done|]. right. split_and!; try done.
        intros Hnil. rewrite Hnil in Hnames. by rewrite <-Hnames in Hne.
      * destruct HQ as (? & ? & ? & _). split; [done|]. by left.
    + split; [done|by left].
    + intros _. destruct apply.1; [done|]. by destruct HQ as (? & ? & _).
    + done.
    + done.
    + done.
    + done.
  - assert (apply = (Ok tt, s)) as -> by (unfold apply, Apply; destruct (dn_snapshots s); done).
    destruct (safe_Restore (dn_snapshots s) Hl s) as [(new & Htr & Hnew) HQ]; [by split_and!|].
    fold restore in Htr, HQ. split_and!.
    + exists []. by rewrite app_nil_r.
    + exists new. auto.
    + split; [done|]. right. by split_and!.
    + destruct restore.1; [|exact HQ]. destruct HQ as (? & ? & ? & _). split; [done|by left].
    + done.
    + done.
    + done.
    + intros Hok. rewrite Hok in HQ. by destruct HQ as (? & ? & _).
    + intros _ Hok. rewrite Hok in HQ. by destruct HQ as (_ & _ & _ & ? & ?).
Qed.
End Recovery.

(** ** A system *)

#[export] Instance dnsSnapshot_eq_dec : EqDecision dnsSnapshot.
Proof. solve_decision. Defined.

Record DemoMac : Type := { dm_dns : string -> list string; dm_file : option (list Z) }.

Definition demo_order : string :=
  of_chars (concat (map (fun line => chars line ++ ["010"%char])
    ["An asterisk (*) denotes that a network service is disabled.";
     "(1) Wi-Fi"; "(Hardware Port: Wi-Fi, Device: en0)"; "";
     "(2) Thunderbolt Bridge"; "(Hardware Port: Thunderbolt Bridge, Device: bridge0)"]%string)).

Definition demo_snapshot : list dnsSnapshot := [{| sn_Service := "Wi-Fi"; sn_Servers := ["1.1.1.1"%string] |}].

Definition demo_get (servers : list string) (service : string) : result error string :=
  match servers with
  | [] => Ok ("There aren't any DNS Servers set on " +:+ service +:+ ".")
  | _ => if bool_decide (servers = ["1.1.1.1"%string]) then Ok "1.1.1.1"
         else if bool_decide (servers = ["10.0.0.1"%string]) then Ok "10.0.0.1"
         else Err (EText "exit status 1")
  end.

Definition demo_mac : DNSSystem DemoMac := {|
  sy_Run c w :=
    match c with
    | ListServiceOrder => (Ok demo_order, w)
    | GetDNSServers service => (demo_get (dm_dns w service) service, w)
    | SetDNSServers service args =>
        (Ok ""%string, {| dm_dns := set_dns service (servers_of args) (dm_dns w); dm_file := dm_file w |})
    end;
  sy_File step w :=
    (None, {| dm_dns := dm_dns w;
              dm_file := match step with RenameTemp data => Some data | RemoveState => None | _ => dm_file w end |});
  sy_ReadState w := Ok (dm_file w);
  sy_acquire w := (None, w);
  sy_release w := w;
  sy_marshal l := if bool_decide (l = demo_snapshot) then Ok [1] else Err (EText "unsupported");
  sy_unmarshal data := if bool_decide (data = [1]) then Ok demo_snapshot else Err (EText "syntax");
|}.

Lemma contains_prefix sub l : contains_chars sub (sub ++ l) = true.
Proof.
  assert (prefix_chars sub (sub ++ l) = true) as H.
  { induction sub as [|c sub IH]; [by destruct l|]. simpl. by rewrite bool_decide_eq_true_2. }
  destruct (sub ++ l); simpl in *; by rewrite H.
Qed.

#[export] Instance demo_mac_lawful : LawfulDNS demo_mac.
Proof.
  refine {| dns_of := dm_dns; file_of := dm_file |}.
  - done.
  - intros service w. split_and!; [done|done|]. intros output. simpl. unfold demo_get.
    destruct (dm_dns w service) as [|x l] eqn:E.
    + intros [= <-]. unfold parseDNSServers, Contains. rewrite chars_app.
      change (chars "There aren't any DNS Servers set on ") with (chars "There aren't any DNS Servers set on" ++ [" "%char]).
      by rewrite <-app_assoc, contains_prefix.
    + case_bool_decide as H1; [intros [= <-]; by rewrite H1|].
      case_bool_decide as H2; [intros [= <-]; by rewrite H2|done].
  - intros service args w. split; [done|by left].
  - intros step w. split; [done|]. destruct step; simpl; auto.
  - by intros w data [= <-].
  - done.
  - done.
  - intros l data. simpl. case_bool_decide as Hl; [|done]. intros [= <-]. by rewrite Hl.
Defined.

Definition demo_before : DemoMac :=
  {| dm_dns := fun x => if bool_decide (x = "Wi-Fi"%string) then ["1.1.1.1"%string] else []; dm_file := None |}.

Lemma demo_apply_ok :
  (Apply demo_mac "en0" "10.0.0.1" (newPlatformController demo_before)).1 = Ok tt.
Proof. vm_compute. reflexivity. Qed.

Lemma system_dns_recoverable_witness :
  let s := (Apply demo_mac "en0" "10.0.0.1" (newPlatformController demo_before)).2 in
  controller_ok demo_mac (dm_dns demo_before) s /\
  applied demo_mac (dm_dns demo_before) "en0" "10.0.0.1" s.
Proof.
  destruct (system_dns_recoverable demo_mac (dm_dns demo_before)
    ltac:(intros x; simpl; case_bool_decide; discriminate) "en0" "10.0.0.1" (newPlatformController demo_before))
    as (_ & _ & Hok & _ & Hap & _).
  - split; [split|by left].
    + intros x Hx. destruct (Hx eq_refl).
    + intros data l sn Hf. discriminate Hf.
  - split; [exact Hok|]. specialize (Hap eq_refl). rewrite demo_apply_ok in Hap. exact Hap.
Defined.

(** What the patterns find in the listing. *)
Example services_of_en0 :
  networkServicesForInterface demo_order "en0" = ["Wi-Fi"%string] /\
  networkServicesForInterface demo_order "bridge0" = ["Thunderbolt Bridge"%string] /\
  networkServicesForInterface demo_order "en7" = [].
Proof. vm_compute. split_and!; reflexivity. Qed.
