(* ===== verification/ResumeStore.v ===== *)
(** Storing resume states (internal/resumestate/store.go, metadata_unix.go): a file that is
    written beside its place with its permissions and its owner, synced, and renamed, on Linux and macOS; on Windows
    permissions, owners and the directory are left alone. The file
    system answers as a parameter; the trace of the worlds is not in the code. *)

From S2P Require Import Prelude Core.

Record fileMetadata : Type := { md_mode : Z; md_uid : Z; md_gid : Z }.
Record fileOwner : Type := { ow_uid : Z; ow_gid : Z }.

(** What [os.Stat] tells; the owner is [None] for an information of another system. *)
Record FileInfo : Type := { fi_mode : Z; fi_owner : option (Z * Z) }.

Inductive StoreOp : Type :=
| OpMkdirAll
| OpCreateTemp
| OpWrite (data : list Z)
| OpChown (uid gid : Z)
| OpChmod (mode : Z)
| OpSync
| OpClose
| OpRename
| OpRemove
| OpOpenDir
| OpSyncDir
| OpCloseDir.

Record FileSystem (W : Type) : Type := {
  fs_Op : StoreOp -> W -> option error * W;
  fs_ReadFile : W -> result error (option (list Z));
  fs_Stat : W -> result error (option FileInfo);
  fs_StatDir : W -> result error FileInfo;
  fs_euid : Z;
  fs_SUDO_UID : string;
  fs_SUDO_GID : string;
  fs_MarshalIndent : ResumeState -> result error (list Z);
  fs_Unmarshal : list Z -> result error ResumeState;
}.
Arguments fs_Op {W}.
Arguments fs_ReadFile {W}.
Arguments fs_Stat {W}.
Arguments fs_StatDir {W}.
Arguments fs_euid {W}.
Arguments fs_SUDO_UID {W}.
Arguments fs_SUDO_GID {W}.
Arguments fs_MarshalIndent {W}.
Arguments fs_Unmarshal {W}.

Definition selectOwner (euid : Z) (sudoUID sudoGID : string) (existingOwner directoryOwner : fileOwner)
    : fileOwner :=
  let fallback := if bool_decide (ow_uid existingOwner >= 0) && bool_decide (ow_gid existingOwner >= 0)
                  then existingOwner else directoryOwner in
  if bool_decide (euid = 0) then
    match Atoi sudoUID, Atoi sudoGID with
    | Some uid, Some gid =>
        if bool_decide (uid >= 0) && bool_decide (gid >= 0) then {| ow_uid := uid; ow_gid := gid |}
        else fallback
    | _, _ => fallback
    end
  else fallback.

Definition ownerFromFileInfo (info : FileInfo) : fileOwner :=
  match fi_owner info with
  | Some (uid, gid) => {| ow_uid := uid; ow_gid := gid |}
  | None => {| ow_uid := -1; ow_gid := -1 |}
  end.

Record StoreState (W : Type) : Type := {
  st_world : W;
  st_removeTemporary : bool;
  st_trace : list W;
}.
Arguments st_world {W}.
Arguments st_removeTemporary {W}.
Arguments st_trace {W}.
Arguments Build_StoreState {W}.

Section Store.
Context {W : Type} (fs : FileSystem W).

#[local] Abbreviation Store := (StateError (StoreState W)).

(** [resumestate.Load]; a file that does not exist is [None]. *)
Definition resume_Load (w : W) : result error (option ResumeState) :=
  match fs_ReadFile fs w with
  | Err err => Err (EWrap ("read resume state: " +:+ error_text err) err)
  | Ok None => Ok None
  | Ok (Some data) =>
      match fs_Unmarshal fs data with
      | Err err => Err (EWrap ("decode resume state: " +:+ error_text err) err)
      | Ok state => Ok (Some state)
      end
  end.

Definition inspectFile (w : W) : result error fileMetadata :=
  match fs_Stat fs w with
  | Err err => Err (EWrap ("stat resume state: " +:+ error_text err) err)
  | Ok info =>
      match fs_StatDir fs w with
      | Err err => Err (EWrap ("stat resume state directory: " +:+ error_text err) err)
      | Ok directoryInfo =>
          let existingOwner := match info with
                               | Some info => ownerFromFileInfo info
                               | None => {| ow_uid := -1; ow_gid := -1 |}
                               end in
          let owner := selectOwner (fs_euid fs) (fs_SUDO_UID fs) (fs_SUDO_GID fs) existingOwner
                         (ownerFromFileInfo directoryInfo) in
          Ok {| md_mode := match info with Some info => fi_mode info | None => 384 end;
                md_uid := ow_uid owner; md_gid := ow_gid owner |}
      end
  end.

Definition op (o : StoreOp) : Store unit := fun s =>
  let '(err, w) := fs_Op fs o (st_world s) in
  (match err with Some e => Err e | None => Ok tt end,
   Build_StoreState w (st_removeTemporary s) (st_trace s ++ [w])).

Definition applyFileMetadata (metadata : fileMetadata) : Store unit :=
  _ ← (if bool_decide (fs_euid fs = 0) && bool_decide (md_uid metadata >= 0) && bool_decide (md_gid metadata >= 0)
       then wrap_error (fun e => EWrap ("set resume state owner: " +:+ error_text e) e)
              (op (OpChown (md_uid metadata) (md_gid metadata)))
       else mret tt);
  wrap_error (fun e => EWrap ("set resume state permissions: " +:+ error_text e) e) (op (OpChmod (md_mode metadata))).

(** [removeTemporary = b]. *)
Definition set_removeTemporary (b : bool) : Store unit := fun s =>
  (Ok tt, Build_StoreState (st_world s) b (st_trace s)).

(** The deferred function: the errors are not looked at. *)
Definition clean_up (s : StoreState W) : StoreState W :=
  let s := (op OpClose s).2 in
  if st_removeTemporary s then (op OpRemove s).2 else s.

Definition deferred (m : Store unit) : Store unit := fun s => ((m s).1, clean_up (m s).2).

(** [defer directory.Close()]. *)
Definition closing_directory (m : Store unit) : Store unit := fun s => ((m s).1, (op OpCloseDir (m s).2).2).

(** [runtime.GOOS] is not ["windows"]. *)
Definition sync_directory : Store unit := _ ← op OpOpenDir; closing_directory (op OpSyncDir).

Definition inspect : Store fileMetadata := fun s => (inspectFile (st_world s), s).

(** [Save] behind the creation of the temporary file. *)
Definition store_temporary (data : list Z) (metadata : fileMetadata) : Store unit :=
  _ ← op (OpWrite data);
  _ ← applyFileMetadata metadata;
  _ ← op OpSync;
  _ ← op OpClose;
  _ ← op OpRename;
  _ ← set_removeTemporary false;
  sync_directory.

(** [resumestate.Save]. *)
Definition resume_Save (state : ResumeState) : Store unit :=
  data ← lift (fs_MarshalIndent fs state);
  _ ← op OpMkdirAll;
  metadata ← inspect;
  _ ← op OpCreateTemp;
  _ ← set_removeTemporary true;
  deferred (store_temporary data metadata).
End Store.

(** ** A lawful file system *)

Record File : Type := { file_data : list Z; file_mode : Z; file_owner : Z * Z }.

(** The file in its place and the temporary one. An operation that reports an error may have
    changed the temporary file; renaming and removing are done or not. *)
Class LawfulFS {W : Type} (fs : FileSystem W) := {
  path_of : W -> option File;
  temp_of : W -> option File;
  fs_effect o w :
    let call := fs_Op fs o w in
    match o with
    | OpRename =>
        call.1 = None /\ path_of call.2 = temp_of w /\ temp_of call.2 = None \/
        call.1 <> None /\ path_of call.2 = path_of w
    | OpRemove => path_of call.2 = path_of w /\ (call.1 = None -> temp_of call.2 = None)
    | OpCreateTemp => path_of call.2 = path_of w /\
        (call.1 = None -> exists owner, temp_of call.2 = Some {| file_data := []; file_mode := 384; file_owner := owner |})
    | OpWrite data => path_of call.2 = path_of w /\
        (call.1 = None -> forall f, temp_of w = Some f ->
           temp_of call.2 = Some {| file_data := file_data f ++ data; file_mode := file_mode f; file_owner := file_owner f |})
    | OpChown uid gid => path_of call.2 = path_of w /\
        (call.1 = None -> forall f, temp_of w = Some f ->
           temp_of call.2 = Some {| file_data := file_data f; file_mode := file_mode f; file_owner := (uid, gid) |})
    | OpChmod mode => path_of call.2 = path_of w /\
        (call.1 = None -> forall f, temp_of w = Some f ->
           temp_of call.2 = Some {| file_data := file_data f; file_mode := mode; file_owner := file_owner f |})
    | _ => path_of call.2 = path_of w /\ temp_of call.2 = temp_of w
    end;
  fs_reads w data : fs_ReadFile fs w = Ok data -> data = file_data <$> path_of w;
  fs_stats w info : fs_Stat fs w = Ok info -> fi_mode <$> info = file_mode <$> path_of w;
}.

Section StoreSpec.
Context {W : Type} (fs : FileSystem W) `{lawful : !LawfulFS fs}.
(** The file before, and the bytes and the permissions of the new one. *)
Context (old : option File) (data : list Z) (mode : Z).

Definition stored (f : File) : Prop := file_data f = data /\ file_mode f = mode.

(** The old file or the whole new one. *)
Definition whole (p : option File) : Prop := p = old \/ exists f, p = Some f /\ stored f.

#[local] Abbreviation safe := (safely st_trace (fun w => whole (path_of w))).

Definition at_path (P : option File -> Prop) (s : StoreState W) : Prop := P (path_of (st_world s)).

(** An operation that leaves the file in its place. *)
Lemma op_path o (P : option File -> Prop) :
  o <> OpRename -> (forall p, P p -> whole p) -> safe (at_path P) (op fs o) (fun _ => at_path P).
Proof.
  intros Ho HP s Hs. unfold op, at_path in *. pose proof (fs_effect o (st_world s)) as He.
  destruct (fs_Op fs o (st_world s)) as [err w]. simpl in *.
  assert (path_of w = path_of (st_world s)) as Hp by (destruct o; try done; by destruct He).
  split; [|by rewrite Hp]. exists [w]. split; [done|]. constructor; [|done]. rewrite Hp. by apply HP.
Qed.

(** What an operation makes of the temporary file. *)
Definition op_file (o : StoreOp) (f : File) : File :=
  match o with
  | OpWrite d => {| file_data := file_data f ++ d; file_mode := file_mode f; file_owner := file_owner f |}
  | OpChown uid gid => {| file_data := file_data f; file_mode := file_mode f; file_owner := (uid, gid) |}
  | OpChmod m => {| file_data := file_data f; file_mode := m; file_owner := file_owner f |}
  | _ => f
  end.

Definition with_temp_file (f : File -> Prop) (s : StoreState W) : Prop :=
  path_of (st_world s) = old /\ exists x, temp_of (st_world s) = Some x /\ f x.

Lemma op_temp o (P Q : File -> Prop) :
  match o with OpRename | OpRemove | OpCreateTemp => False | _ => True end ->
  (forall f, P f -> Q (op_file o f)) ->
  safe (with_temp_file P) (op fs o)
    (fun r s => match r with Ok _ => with_temp_file Q s | Err _ => at_path (eq old) s end).
Proof.
  intros Ho HPQ s (Hp & f & Hf & HP). unfold op, with_temp_file, at_path. pose proof (fs_effect o (st_world s)) as He.
  destruct (fs_Op fs o (st_world s)) as [err w]. simpl in *.
  assert (path_of w = path_of (st_world s)) as Hp' by (destruct o; try done; by destruct He).
  split; [exists [w]; split; [done|]; constructor; [|done]; left; by rewrite Hp'|].
  destruct err as [e|]; [by rewrite Hp'|]. split; [by rewrite Hp'|]. exists (op_file o f). split; [|by apply HPQ].
  destruct o; try done; destruct He as [_ He]; try (by rewrite He); by apply He.
Qed.

Lemma safe_rename_temp :
  safe (with_temp_file stored) (op fs OpRename)
    (fun r s => match r with
                | Ok _ => (exists f, path_of (st_world s) = Some f /\ stored f) /\ temp_of (st_world s) = None
                | Err _ => at_path (eq old) s
                end).
Proof.
  intros s (Hp & f & Hf & Hst). unfold op, at_path. pose proof (fs_effect OpRename (st_world s)) as He.
  destruct (fs_Op fs OpRename (st_world s)) as [err w]. simpl in *.
  destruct He as [(-> & He & Ht)|(Herr & He)].
  - split; [|split; [exists f; by rewrite He|done]]. exists [w]. split; [done|]. constructor; [|done].
    right. exists f. by rewrite He.
  - destruct err as [e|]; [|done]. split; [|by rewrite He]. exists [w]. split; [done|]. constructor; [|done].
    left. by rewrite He.
Qed.

(** The owner and the permissions of the temporary file. *)
Lemma safe_metadata metadata :
  md_mode metadata = mode ->
  safe (with_temp_file (fun f => file_data f = data)) (applyFileMetadata fs metadata)
    (fun r s => match r with Ok _ => with_temp_file stored s | Err _ => at_path (eq old) s end).
Proof.
  intros Hm. unfold applyFileMetadata. eapply safely_bind with (Q := fun r s => match r with
    | Ok _ => with_temp_file (fun f => file_data f = data) s | Err _ => at_path (eq old) s end); [|intros []|done].
  - destruct (_ && _); [|by apply safely_ret].
    apply safely_wrap_error; [by apply op_temp|by intros].
  - apply safely_wrap_error; [|by intros]. apply op_temp; [done|]. intros f Hf. by split.
Qed.

(** The new file stays where it is, and nothing is left beside it. *)
Definition in_place (s : StoreState W) : Prop :=
  (exists f, path_of (st_world s) = Some f /\ stored f) /\ temp_of (st_world s) = None.

Lemma op_in_place o :
  match o with OpClose | OpOpenDir | OpSyncDir | OpCloseDir => True | _ => False end ->
  safe in_place (op fs o) (fun _ => in_place).
Proof.
  intros Ho s [(f & Hf & Hst) Ht]. unfold op, in_place. pose proof (fs_effect o (st_world s)) as He.
  destruct (fs_Op fs o (st_world s)) as [err w]. simpl in *.
  assert (path_of w = path_of (st_world s) /\ temp_of w = temp_of (st_world s)) as [Hp Htemp] by (by destruct o).
  split; [|rewrite Hp, Htemp; eauto]. exists [w]. split; [done|]. constructor; [|done]. right. exists f. by rewrite Hp.
Qed.

(** Behind the renaming, or with a temporary file that is still to be removed. *)
Definition stored_or_not (r : result error unit) (s : StoreState W) : Prop :=
  in_place s /\ st_removeTemporary s = false \/ is_ok r = false /\ at_path whole s.

Lemma op_flag o s : st_removeTemporary (op fs o s).2 = st_removeTemporary s.
Proof. unfold op. by destruct (fs_Op fs o (st_world s)). Qed.

(** [op_in_place] with the flag. *)
Lemma op_done o :
  match o with OpClose | OpOpenDir | OpSyncDir | OpCloseDir => True | _ => False end ->
  safe (fun s => in_place s /\ st_removeTemporary s = false) (op fs o)
    (fun _ s => in_place s /\ st_removeTemporary s = false).
Proof.
  intros Ho s [Hs Hflag]. destruct (op_in_place o Ho s Hs) as [Htr HQ]. split; [done|]. split; [done|].
  by rewrite op_flag.
Qed.

Lemma safe_sync :
  safe (fun s => in_place s /\ st_removeTemporary s = false) (sync_directory fs) (fun r => stored_or_not r).
Proof.
  unfold sync_directory.
  eapply safely_bind; [by apply op_done|intros []|intros e s Hs; by left].
  unfold closing_directory. apply (safely_then _ (fun _ s => (op fs OpCloseDir s).2) _
    (fun _ s => in_place s /\ st_removeTemporary s = false)); [by apply op_done|].
  intros r s Hs. destruct (op_done OpCloseDir I s Hs) as [Htr HQ]. split; [exact Htr|by left].
Qed.

Lemma at_old_whole p : eq old p -> whole p.
Proof. intros ->. by left. Qed.

Lemma safe_store_temporary metadata :
  md_mode metadata = mode ->
  safe (with_temp_file (fun f => file_data f = [])) (store_temporary fs data metadata) (fun r => stored_or_not r).
Proof.
  intros Hm. unfold store_temporary.
  assert (forall (e : error) s, at_path (eq old) s -> stored_or_not (Err e) s) as Herr.
  { intros e s Hs. right. split; [done|by apply at_old_whole]. }
  eapply safely_bind; [apply (op_temp (OpWrite data) _ (fun f => file_data f = data)); [done|]|intros []|exact Herr].
  { intros f Hf. simpl. by rewrite Hf. }
  eapply safely_bind; [by apply safe_metadata|intros []|exact Herr].
  eapply safely_bind; [by apply (op_temp OpSync stored stored)|intros []|exact Herr].
  eapply safely_bind; [by apply (op_temp OpClose stored stored)|intros []|exact Herr].
  eapply safely_bind; [apply safe_rename_temp|intros []|exact Herr].
  eapply safely_bind with (Q := fun r s => is_ok r = true /\ in_place s /\ st_removeTemporary s = false);
    [|intros []|by intros e s [? _]].
  - apply safely_quiet. intros s Hs. by split_and!.
  - eapply safely_weaken; [apply safe_sync|by intros s [_ Hs]|by intros].
Qed.

Lemma safe_deferred m P :
  safe P m (fun r => stored_or_not r) ->
  safe P (deferred fs m) (fun r s => match r with Ok _ => in_place s | Err _ => at_path whole s end).
Proof.
  intros Hm. apply (safely_then m (fun _ => clean_up fs) P (fun r => stored_or_not r) _ Hm).
  intros r s [Hs|[Hr Hs]]; unfold clean_up.
  - destruct (op_done OpClose I s Hs) as [Htr [HQ Hflag]]. rewrite Hflag. split; [exact Htr|].
    destruct r; [done|]. destruct HQ as [(f & Hf & Hst) _]. right. by exists f.
  - destruct (op_path OpClose whole ltac:(done) ltac:(done) s Hs) as [(new & Htr & Hnew) HQ].
    destruct (st_removeTemporary _).
    + destruct (op_path OpRemove whole ltac:(done) ltac:(done) _ HQ) as [(new' & Htr' & Hnew') HQ'].
      split; [|by destruct r]. exists (new ++ new'). rewrite Htr', Htr, app_assoc. split; [done|by apply Forall_app].
    + split; [by exists new|]. by destruct r.
Qed.

Lemma safe_Save state :
  fs_MarshalIndent fs state = Ok data ->
  mode = match old with Some f => file_mode f | None => 384 end ->
  safe (at_path (eq old)) (resume_Save fs state)
    (fun r s => match r with Ok _ => in_place s | Err _ => at_path whole s end).
Proof.
  intros Hdata Hmode. unfold resume_Save.
  assert (forall (e : error) s, at_path (eq old) s -> at_path whole s) as Herr by (intros e s Hs; by apply at_old_whole).
  eapply safely_bind with (Q := fun r s => at_path (eq old) s /\ (forall d, r = Ok d -> d = data));
    [|intros d|by intros e s [? _]; apply Herr].
  { apply safely_quiet. intros s Hs. split; [done|]. split; [done|]. simpl. intros d Hd. congruence. }
  intros s [Hs Hd]. rewrite (Hd d eq_refl). revert s Hs. clear d Hd.
  change (safe (at_path (eq old)) (_ ← op fs OpMkdirAll; metadata ← inspect fs; _ ← op fs OpCreateTemp;
    _ ← set_removeTemporary true; deferred fs (store_temporary fs data metadata))
    (fun r s => match r with Ok _ => in_place s | Err _ => at_path whole s end)).
  eapply safely_bind; [by apply (op_path OpMkdirAll (eq old)); [|apply at_old_whole]|intros ?|exact Herr].
  eapply safely_bind with (Q := fun r s => at_path (eq old) s /\ (forall m, r = Ok m -> md_mode m = mode));
    [|intros metadata|by intros e s [? _]; apply Herr].
  { apply safely_quiet. intros s Hs. split; [done|]. split; [done|]. simpl. unfold inspectFile. intros m.
    destruct (fs_Stat fs (st_world s)) as [info|] eqn:Hstat; [|done]. destruct (fs_StatDir fs (st_world s)); [|done].
    intros [= <-]. simpl. apply fs_stats in Hstat. unfold at_path in Hs. rewrite <-Hs in Hstat. rewrite Hmode.
    destruct info, old; simpl in Hstat; congruence. }
  intros s [Hs Hm]. specialize (Hm metadata eq_refl). revert s Hs.
  change (safe (at_path (eq old)) (_ ← op fs OpCreateTemp; _ ← set_removeTemporary true;
    deferred fs (store_temporary fs data metadata))
    (fun r s => match r with Ok _ => in_place s | Err _ => at_path whole s end)).
  eapply safely_bind with (Q := fun r s => match r with
    | Ok _ => with_temp_file (fun f => file_data f = []) s | Err _ => at_path (eq old) s end); [|intros []|exact Herr].
  { intros s Hs. unfold op, at_path, with_temp_file in *. pose proof (fs_effect OpCreateTemp (st_world s)) as [Hp Ht].
    destruct (fs_Op fs OpCreateTemp (st_world s)) as [err w]. simpl in *.
    split; [exists [w]; split; [done|]; constructor; [|done]; left; by rewrite Hp|].
    destruct err; [by rewrite Hp|]. split; [by rewrite Hp|]. destruct (Ht eq_refl) as [owner ->]. by eexists. }
  eapply safely_bind with (Q := fun _ => with_temp_file (fun f => file_data f = []));
    [by apply safely_quiet|intros []|].
  - by apply safe_deferred, safe_store_temporary.
  - intros e s (Hp & _). by left.
Qed.
End StoreSpec.

(** Storing a resume state is atomic. In every world that [Save] goes through, and so after a
    crash anywhere, the file is the old one or the whole new one with its permissions, which
    are those of the old file, or 0600; this holds after an error too. When [Save] succeeds the
    file is the new one, nothing is left beside it, and a [Load] that can read it gives the
    state back when its encoding can be decoded. *)
Theorem resume_save_atomic {W : Type} (fs : FileSystem W) `{lawful : !LawfulFS fs}
    (state : ResumeState) (data : list Z) (s : StoreState W)
    (Hdata : fs_MarshalIndent fs state = Ok data) :
  let old := path_of (st_world s) in
  let mode := match old with Some f => file_mode f | None => 384 end in
  let new_file p := exists f, p = Some f /\ file_data f = data /\ file_mode f = mode in
  let call := resume_Save fs state s in
  (exists new, st_trace call.2 = st_trace s ++ new /\
     Forall (fun w => path_of w = old \/ new_file (path_of w)) new) /\
  (path_of (st_world call.2) = old \/ new_file (path_of (st_world call.2))) /\
  (call.1 = Ok tt ->
     new_file (path_of (st_world call.2)) /\ temp_of (st_world call.2) = None /\
     (fs_Unmarshal fs data = Ok state ->
      forall found, resume_Load fs (st_world call.2) = Ok found -> found = Some state)).
Proof.
  intros old mode new_file call.
  destruct (safe_Save fs old data mode state Hdata eq_refl s eq_refl) as [Htr HQ]. fold call in Htr, HQ.
  split; [exact Htr|]. destruct call.1 as [[]|e].
  - destruct HQ as [Hnew Ht]. split; [by right|]. intros _. split; [exact Hnew|]. split; [exact Ht|].
    intros Hcodec found. unfold resume_Load. destruct (fs_ReadFile fs _) as [d|] eqn:Hread; [|done].
    apply fs_reads in Hread. destruct Hnew as (f & Hf & Hfd & _). rewrite Hf in Hread. simpl in Hread. subst d.
    rewrite Hfd, Hcodec. by intros [= <-].
  - split; [exact HQ|done].
Qed.

(** ** A disk *)

Record Disk : Type := { dk_path : option File; dk_temp : option File }.

Definition demo_state : ResumeState := {|
  resume_Format := ResumeStateFormatATrustClientData; resume_Version := ResumeStateVersion1; resume_Revision := 3;
  resume_Scope := {| scope_ServerAddress := "vpn.example.org"; scope_ServerPort := 443; scope_Username := "alice" |};
  resume_UpdatedAt := 0; resume_Data := "data"; resume_Reused := false;
|}.

Definition disk_op (o : StoreOp) (w : Disk) : option error * Disk :=
  match o with
  | OpCreateTemp =>
      (None, {| dk_path := dk_path w; dk_temp := Some {| file_data := []; file_mode := 384; file_owner := (0, 0) |} |})
  | OpWrite _ | OpChmod _ => (None, {| dk_path := dk_path w; dk_temp := op_file o <$> dk_temp w |})
  | OpChown _ _ => (Some (EText "operation not permitted"), w)
  | OpRename => (None, {| dk_path := dk_temp w; dk_temp := None |})
  | OpRemove => (None, {| dk_path := dk_path w; dk_temp := None |})
  | _ => (None, w)
  end.

Definition demo_disk : FileSystem Disk := {|
  fs_Op := disk_op;
  fs_ReadFile w := Ok (file_data <$> dk_path w);
  fs_Stat w := Ok ((fun f => {| fi_mode := file_mode f; fi_owner := Some (file_owner f) |}) <$> dk_path w);
  fs_StatDir _ := Ok {| fi_mode := 493; fi_owner := None |};
  fs_euid := 501;
  fs_SUDO_UID := ""; fs_SUDO_GID := "";
  fs_MarshalIndent state := Ok [resume_Revision state];
  fs_Unmarshal data := if bool_decide (data = [3]) then Ok demo_state else Err (EText "syntax");
|}.

#[export] Instance demo_disk_lawful : LawfulFS demo_disk.
Proof.
  refine {| path_of := dk_path; temp_of := dk_temp |}.
  - intros o w. destruct o; simpl; split_and?; try done; eauto; intros _ f ->; done.
  - by intros w data [= <-].
  - intros w info [= <-]. by destruct (dk_path w).
Defined.

Definition demo_stored : StoreState Disk :=
  Build_StoreState {| dk_path := Some {| file_data := [1]; file_mode := 420; file_owner := (501, 20) |};
                      dk_temp := None |} false [].

Lemma demo_save_ok : (resume_Save demo_disk demo_state demo_stored).1 = Ok tt.
Proof. vm_compute. reflexivity. Qed.

Lemma resume_save_atomic_witness :
  let call := resume_Save demo_disk demo_state demo_stored in
  (exists f, dk_path (st_world call.2) = Some f /\ file_data f = [3] /\ file_mode f = 420) /\
  dk_temp (st_world call.2) = None.
Proof.
  destruct (resume_save_atomic demo_disk demo_state [3] demo_stored eq_refl) as (_ & _ & Hok).
  destruct (Hok demo_save_ok) as (Hnew & Htemp & _). split; [exact Hnew|exact Htemp].
Defined.

(** Whose the file is: the user behind [sudo], else the owner of the file, else that of the
    directory. *)
Example owner_of_store :
  selectOwner 0 "501" "20" {| ow_uid := 0; ow_gid := 0 |} {| ow_uid := 7; ow_gid := 8 |} = {| ow_uid := 501; ow_gid := 20 |} /\
  selectOwner 501 "0" "0" {| ow_uid := -1; ow_gid := -1 |} {| ow_uid := 7; ow_gid := 8 |} = {| ow_uid := 7; ow_gid := 8 |} /\
  selectOwner 0 "x" "20" {| ow_uid := 3; ow_gid := 4 |} {| ow_uid := 7; ow_gid := 8 |} = {| ow_uid := 3; ow_gid := 4 |}.
Proof. vm_compute. split_and!; reflexivity. Qed.
