(* ===== verification/Underlay.v ===== *)
(** The dialer of the VPN's own connections (internal/underlay/dialer.go): which interface a
    socket is bound to, so that the TUN interface does not capture it. Interfaces, the system's
    default interface and the dials themselves answer as parameters. *)

From S2P Require Import Prelude Core GoNet Packet.

(** [ip.Equal(x)]: an IPv4 address and its mapped form are the same. *)
Definition IP_Equal (ip x : IP) : bool :=
  if bool_decide (len ip = len x) then bool_decide (ip = x)
  else if bool_decide (len ip = 4) && bool_decide (len x = 16) then
    bool_decide (take 12 x = v4InV6Prefix) && bool_decide (ip = drop 12 x)
  else if bool_decide (len ip = 16) && bool_decide (len x = 4) then
    bool_decide (take 12 ip = v4InV6Prefix) && bool_decide (drop 12 ip = x)
  else false.

(** An interface: its flags and its addresses, those of other types than [*net.IPNet] and
    [*net.IPAddr] being [None]. *)
Record Interface : Type := {
  if_Name : string;
  if_Up : bool;
  if_Loopback : bool;
  if_Addrs : result error (list (option IP));
}.

Record UnderlayWorld (W : Type) : Type := {
  uw_InterfaceByName : string -> W -> option Interface;
  uw_Interfaces : W -> result error (list Interface);
  uw_findDefaultInterface : W -> string * W;
  (** The local address of a UDP socket to a server. *)
  uw_localIP : string -> string -> W -> option IP;
  uw_dial : string -> string -> W -> result error nat * W;
}.
Arguments uw_InterfaceByName {W}.
Arguments uw_Interfaces {W}.
Arguments uw_findDefaultInterface {W}.
Arguments uw_localIP {W}.
Arguments uw_dial {W}.

Record Dialer : Type := {
  di_interfaceName : string;
  di_autoDetect : bool;
  di_excludedIPs : list IP;
  di_requireBound : bool;
}.

(** [underlay.Options]. *)
Record DialerOptions : Type := { op_InterfaceName : string; op_AutoDetect : bool }.

Definition isLoopbackDestination (address : string) : bool :=
  let host := match SplitHostPort address with Some (host, _) => host | None => address end in
  let host := TrimSuffix host "." in
  EqualFold host "localhost" || match ParseIP host with Some ip => IsLoopback ip | None => false end.

(** [d.ExcludeIP(ip)] for an address that is not nil. *)
Definition ExcludeIP (ip : IP) (d : Dialer) : Dialer :=
  {| di_interfaceName := di_interfaceName d; di_autoDetect := di_autoDetect d;
     di_excludedIPs := di_excludedIPs d ++ [ip]; di_requireBound := true |}.

Section Underlay.
Context {W : Type} (uw : UnderlayWorld W).

(** Whether one of the addresses of an interface is excluded. *)
Definition carries_excluded (addresses : list (option IP)) (excludedIPs : list IP) : bool :=
  existsb (fun address => match address with
                          | Some ip => existsb (IP_Equal ip) excludedIPs
                          | None => false
                          end) addresses.

Definition usableInterface (interfaceName : string) (excludedIPs : list IP) (w : W) : bool :=
  if is_empty interfaceName then false
  else match uw_InterfaceByName uw interfaceName w with
  | None => false
  | Some iface =>
      if negb (if_Up iface) || if_Loopback iface then false
      else if is_nil excludedIPs then true
      else match if_Addrs iface with
      | Err _ => false
      | Ok addresses => negb (carries_excluded addresses excludedIPs)
      end
  end.

(** The interface of a local address. *)
Fixpoint interface_of (ip : IP) (interfaces : list Interface) : option string :=
  match interfaces with
  | [] => None
  | iface :: rest =>
      match if_Addrs iface with
      | Err _ => interface_of ip rest
      | Ok addrs =>
          if existsb (fun a => match a with Some x => IP_Equal x ip | None => false end) addrs
          then Some (if_Name iface) else interface_of ip rest
      end
  end.

Definition detectInterface (serverAddress : string) (w : W) : string * W :=
  let '(interfaceName, w) := uw_findDefaultInterface uw w in
  if usableInterface interfaceName [] w then (interfaceName, w)
  else
  let '(host, port) := match SplitHostPort serverAddress with
                       | Some hp => hp
                       | None => (serverAddress, "443"%string)
                       end in
  (match uw_localIP uw host port w with
   | None => ""%string
   | Some localIP =>
       match uw_Interfaces uw w with
       | Err _ => ""%string
       | Ok interfaces =>
           match interface_of localIP interfaces with
           | Some name => if usableInterface name [] w then name else ""%string
           | None => ""%string
           end
       end
   end, w).

(** [New] with its options. *)
Definition newDialer (serverAddress : string) (option : DialerOptions) (w : W) : Dialer * W :=
  if negb (is_empty (op_InterfaceName option)) then
    ({| di_interfaceName := op_InterfaceName option; di_autoDetect := false; di_excludedIPs := [];
        di_requireBound := false |}, w)
  else if negb (op_AutoDetect option) then
    ({| di_interfaceName := ""; di_autoDetect := false; di_excludedIPs := []; di_requireBound := false |}, w)
  else
    let '(name, w) := detectInterface serverAddress w in
    ({| di_interfaceName := name; di_autoDetect := true; di_excludedIPs := []; di_requireBound := false |}, w).

Definition refreshInterface (previous : string) (d : Dialer) (w : W) : string * Dialer * W :=
  if negb (di_autoDetect d) then (""%string, d, w)
  else
  let '(interfaceName, w) := uw_findDefaultInterface uw w in
  if negb (usableInterface interfaceName (di_excludedIPs d) w) then (""%string, d, w)
  else
  (interfaceName,
   if bool_decide (interfaceName = previous) then d
   else {| di_interfaceName := interfaceName; di_autoDetect := di_autoDetect d;
           di_excludedIPs := di_excludedIPs d; di_requireBound := di_requireBound d |}, w).

(** [DialContext]: the result, the interfaces that were dialed on, the dialer and the world.
    [address] goes to the dials; a dialer that is nil dials without an interface. *)
Definition underlay_DialContext (address : string) (d : Dialer) (w : W)
    : result error nat * list string * Dialer * W :=
  if isLoopbackDestination address then
    let '(r, w) := uw_dial uw address "" w in (r, [""%string], d, w)
  else
  let '(interfaceName, d, w) :=
    if di_autoDetect d && di_requireBound d && is_empty (di_interfaceName d)
    then refreshInterface "" d w else (di_interfaceName d, d, w) in
  if di_autoDetect d && di_requireBound d && is_empty interfaceName then
    (Err (EText "no usable underlay interface"), [], d, w)
  else
  match uw_dial uw address interfaceName w with
  | (Ok conn, w) => (Ok conn, [interfaceName], d, w)
  | (Err err, w) =>
      let '(refreshedInterface, d, w) := refreshInterface interfaceName d w in
      if is_empty refreshedInterface || bool_decide (refreshedInterface = interfaceName) then
        (Err err, [interfaceName], d, w)
      else
      match uw_dial uw address refreshedInterface w with
      | (Ok conn, w) => (Ok conn, [interfaceName; refreshedInterface], d, w)
      | (Err retryErr, w) =>
          (Err (EWrap ("dial underlay via " +:+ quote refreshedInterface +:+ " failed after "
                       +:+ quote interfaceName +:+ " failed: " +:+ error_text retryErr) retryErr),
           [interfaceName; refreshedInterface], d, w)
      end
  end.

(** [DialTLSContext]: a handshake that fails closes the connection. *)
Definition DialTLSContext (address : string) (handshake : nat -> W -> option error * W) (d : Dialer) (w : W)
    : result error nat * list nat * Dialer * W :=
  let '(r, _, d, w) := underlay_DialContext address d w in
  match r with
  | Err err => (Err err, [], d, w)
  | Ok conn =>
      match handshake conn w with
      | (Some err, w) => (Err err, [], d, w)
      | (None, w) => (Ok conn, [conn], d, w)
      end
  end.
End Underlay.

(** ** Theorems *)

Section UnderlaySpec.
Context {W : Type} (uw : UnderlayWorld W).

(** The system named [i] as its default interface; it is up, is no loopback interface and
    carries none of the addresses. *)
Definition found_outside (i : string) (excluded : list IP) : Prop :=
  exists w0 w iface, uw_findDefaultInterface uw w0 = (i, w) /\ uw_InterfaceByName uw i w = Some iface /\
    if_Up iface = true /\ if_Loopback iface = false /\
    forall addrs a ip, if_Addrs iface = Ok addrs -> Some a ∈ addrs -> ip ∈ excluded -> IP_Equal a ip = false.

Lemma usable_found i excluded w0 w :
  uw_findDefaultInterface uw w0 = (i, w) -> usableInterface uw i excluded w = true ->
  i <> ""%string /\ found_outside i excluded.
Proof.
  unfold usableInterface. intros Hfind. destruct (is_empty i) eqn:He; [done|]. apply is_empty_false in He.
  destruct (uw_InterfaceByName uw i w) as [iface|] eqn:Hi; [|done].
  destruct (if_Up iface) eqn:Hup, (if_Loopback iface) eqn:Hlo; try done. cbn [negb orb].
  intros Hu. split; [done|]. exists w0, w, iface. split_and!; try done. intros addrs a ip Haddrs Ha Hip.
  destruct excluded as [|x excluded]; [by apply elem_of_nil in Hip|]. simpl in Hu. rewrite Haddrs in Hu.
  apply negb_true_iff in Hu. unfold carries_excluded in Hu.
  destruct (IP_Equal a ip) eqn:Heq; [|done]. exfalso. apply not_true_iff_false in Hu. apply Hu.
  apply existsb_exists. exists (Some a). split; [by apply list_elem_of_In|].
  apply (existsb_exists (IP_Equal a) (x :: excluded)). exists ip. split; [by apply list_elem_of_In|done].
Qed.

(** [d'] is [d] but for its interface. *)
Definition same_dialer (d d' : Dialer) : Prop :=
  di_autoDetect d' = di_autoDetect d /\ di_excludedIPs d' = di_excludedIPs d /\
  di_requireBound d' = di_requireBound d.

Lemma refresh_spec previous d w i d' w' :
  refreshInterface uw previous d w = (i, d', w') ->
  same_dialer d d' /\
  (i = ""%string /\ d' = d \/
   i <> ""%string /\ di_autoDetect d = true /\ found_outside i (di_excludedIPs d) /\
   (i = previous /\ d' = d \/ i <> previous /\ di_interfaceName d' = i)).
Proof.
  unfold refreshInterface. destruct (di_autoDetect d) eqn:Hauto; cbn [negb]; [|intros [= <- <- <-]; by split; [|left]].
  destruct (uw_findDefaultInterface uw w) as [name w1] eqn:Hfind.
  destruct (usableInterface uw name (di_excludedIPs d) w1) eqn:Hu; cbn [negb]; [|intros [= <- <- <-]; by split; [|left]].
  destruct (usable_found _ _ _ _ Hfind Hu) as [Hne Hout].
  case_bool_decide as Hp; intros [= <- <- <-]; (split; [by rewrite ?Hauto|right]).
  - split_and!; auto.
  - split_and!; auto.
Qed.

(** What a dial that is no loopback dial has tried, from the interface [i] on. *)
Lemma dial_tried address i d w r tried d' w' :
  (match uw_dial uw address i w with
   | (Ok conn, w) => (Ok conn, [i], d, w)
   | (Err err, w) =>
       let '(refreshedInterface, d, w) := refreshInterface uw i d w in
       if is_empty refreshedInterface || bool_decide (refreshedInterface = i) then (Err err, [i], d, w)
       else
       match uw_dial uw address refreshedInterface w with
       | (Ok conn, w) => (Ok conn, [i; refreshedInterface], d, w)
       | (Err retryErr, w) =>
           (Err (EWrap ("dial underlay via " +:+ quote refreshedInterface +:+ " failed after "
                        +:+ quote i +:+ " failed: " +:+ error_text retryErr) retryErr),
            [i; refreshedInterface], d, w)
       end
   end) = (r, tried, d', w') ->
  same_dialer d d' /\
  (tried = [i] /\ d' = d \/
   exists j, tried = [i; j] /\ j <> ""%string /\ j <> i /\ di_autoDetect d = true /\
     found_outside j (di_excludedIPs d) /\ di_interfaceName d' = j).
Proof.
  destruct (uw_dial uw address i w) as [[conn|err] w1]; [intros [= <- <- <- <-]; by split; [|left]|].
  destruct (refreshInterface uw i d w1) as [[j d1] w2] eqn:Hr. apply refresh_spec in Hr as [Hsame Hj].
  destruct (is_empty j) eqn:He; cbn [orb].
  { apply is_empty_true in He. intros [= <- <- <- <-]. split; [done|left]. split; [done|].
    by destruct Hj as [[_ ?]|[? _]]. }
  apply is_empty_false in He. destruct Hj as [[? _]|(_ & Hauto & Hout & Hd)]; [done|].
  destruct (decide (j = i)) as [->|Hne].
  { rewrite bool_decide_eq_true_2 by done. intros [= <- <- <- <-]. split; [done|left]. split; [done|].
    by destruct Hd as [[_ ?]|[? _]]. }
  rewrite bool_decide_eq_false_2 by done. destruct Hd as [[? _]|[_ Hd]]; [done|].
  destruct (uw_dial uw address j w2) as [[conn|e] w3]; intros [= <- <- <- <-]; (split; [done|right]); exists j; auto 10.
Qed.
End UnderlaySpec.

(** C27: The VPN's own connections stay outside the tunnel. A dial to a loopback destination is made
    once, on no interface; a dialer without detection makes one attempt, on the interface it was
    given. A dialer that detects makes at most two attempts, on different interfaces; any
    interface but the one it knew was named by the system, up, no loopback interface and
    without an address of the VPN client; and once an address of the client is excluded it
    never dials unbound, but fails without an attempt where no interface is left. The dialer
    then knows the interface it tried last, and nothing else of it changes. *)
Theorem underlay_stays_outside {W : Type} (uw : UnderlayWorld W) (address : string) (d d' : Dialer)
    (w w' : W) (r : result error nat) (tried : list string)
    (Hdial : underlay_DialContext uw address d w = (r, tried, d', w')) :
  same_dialer d d' /\
  (isLoopbackDestination address = true -> tried = [""%string] /\ d' = d) /\
  (isLoopbackDestination address = false -> di_autoDetect d = false ->
     tried = [di_interfaceName d] /\ d' = d) /\
  (isLoopbackDestination address = false -> di_autoDetect d = true ->
     (length tried <= 2)%nat /\ NoDup tried /\
     (forall i, i ∈ tried -> i = di_interfaceName d \/ found_outside uw i (di_excludedIPs d)) /\
     (di_requireBound d = true -> ""%string ∉ tried) /\
     (tried = [] -> r = Err (EText "no usable underlay interface")) /\
     (forall i, last tried = Some i -> di_interfaceName d' = i)).
Proof.
  unfold underlay_DialContext in Hdial. destruct (isLoopbackDestination address) eqn:Hloop.
  { destruct (uw_dial uw address "" w) as [r0 w0]. injection Hdial as <- <- <- <-. by split_and!. }
  destruct (di_autoDetect d && di_requireBound d && is_empty (di_interfaceName d)) eqn:Hneed.
  - apply andb_true_iff in Hneed as [[Hauto Hbound]%andb_true_iff Hempty].
    destruct (refreshInterface uw "" d w) as [[i d1] w1] eqn:Hr. apply refresh_spec in Hr as [Hsame Hi].
    destruct Hsame as (Hs1 & Hs2 & Hs3). rewrite Hs1, Hs3, Hauto, Hbound in Hdial. cbn [andb] in Hdial.
    destruct (is_empty i) eqn:He.
    { injection Hdial as <- <- <- <-. apply is_empty_true in He. destruct Hi as [[_ ->]|[? _]]; [|done].
      split_and!; try done; [intros; congruence|]. intros _ _. split_and!; try done; [simpl; lia|constructor|..];
        intros; set_solver. }
    apply is_empty_false in He. destruct Hi as [[? _]|(_ & _ & Hout & Hd1)]; [done|].
    destruct Hd1 as [[? _]|[_ Hd1]]; [done|].
    apply dial_tried in Hdial as [(H1 & H2 & H3) Htried].
    split; [split_and!; congruence|]. split; [done|]. split; [intros; congruence|]. intros _ _.
    rewrite Hs2 in Htried.
    destruct Htried as [[-> ->]|(j & -> & Hj & Hji & _ & Houtj & Hd')].
    + split_and!; [simpl; lia|apply NoDup_singleton|set_solver|set_solver|done|by intros ? [= <-]].
    + split_and!; [simpl; lia| |set_solver|set_solver|done|by intros ? [= <-]].
      apply NoDup_cons. split; [set_solver|apply NoDup_singleton].
  - rewrite Hneed in Hdial.
    apply dial_tried in Hdial as [Hsame Htried]. split; [done|]. split; [done|]. split.
    + intros _ Hauto. destruct Htried as [?|(j & _ & _ & _ & ? & _)]; [done|congruence].
    + intros _ Hauto. rewrite Hauto in Hneed. cbn [andb] in Hneed.
      assert (di_requireBound d = true -> di_interfaceName d <> ""%string) as Hknown.
      { intros Hb. rewrite Hb in Hneed. by apply is_empty_false. }
      destruct Htried as [[-> ->]|(j & -> & Hj & Hji & _ & Houtj & Hd')].
      * split_and!; [simpl; lia|apply NoDup_singleton|set_solver| |done|by intros ? [= <-]].
        intros Hb ?%list_elem_of_singleton. by apply (Hknown Hb).
      * split_and!; [simpl; lia| |set_solver| |done|by intros ? [= <-]].
        -- apply NoDup_cons. split; [set_solver|apply NoDup_singleton].
        -- intros Hb Hin. specialize (Hknown Hb). set_solver.
Qed.

(** ** Witness: the known interface fails, and the system names another one *)

Definition demo_net : UnderlayWorld unit := {|
  uw_InterfaceByName i _ :=
    if bool_decide (i = "en1"%string)
    then Some {| if_Name := "en1"; if_Up := true; if_Loopback := false; if_Addrs := Ok [Some (IPv4 192 168 1 5)] |}
    else None;
  uw_Interfaces _ := Ok [];
  uw_findDefaultInterface w := ("en1"%string, w);
  uw_localIP _ _ _ := None;
  uw_dial _ i w := (if bool_decide (i = "en1"%string) then Ok 7%nat else Err (EText "no route"), w);
|}.

Definition demo_dialer : Dialer :=
  ExcludeIP (IPv4 10 0 0 9) {| di_interfaceName := "en0"; di_autoDetect := true; di_excludedIPs := [];
                               di_requireBound := false |}.

Lemma underlay_stays_outside_witness :
  exists d', underlay_DialContext demo_net "vpn.example:441" demo_dialer tt
      = (Ok 7%nat, ["en0"; "en1"]%string, d', tt) /\
    (""%string ∉ ["en0"; "en1"]%string) /\ di_interfaceName d' = "en1"%string.
Proof.
  eexists. split; [vm_compute; reflexivity|].
  destruct (underlay_stays_outside demo_net "vpn.example:441" demo_dialer _ tt tt (Ok 7%nat) ["en0"; "en1"]%string
    ltac:(vm_compute; reflexivity)) as (_ & _ & _ & H).
  destruct (H eq_refl eq_refl) as (_ & _ & _ & Hbound & _ & Hlast).
  split; [exact (Hbound eq_refl)|exact (Hlast "en1"%string eq_refl)].
Defined.
