(* ===== verification/UnderlayBind.v ===== *)
(** How a socket is bound to an interface (internal/underlay/bind_*.go), the dial on an interface, and the question for
    the system's default interface (dialer.go). *)

From S2P Require Import Prelude Core GoNet.

(** The systems with a [bindInterface] of their own. *)
Inductive OS : Type := Linux | Darwin | Windows | OtherOS.

(** The option that is set on a socket. *)
Inductive SocketOption : Type :=
| SO_BINDTODEVICE (name : string)
| IP_BOUND_IF (index : Z)
| IPV6_BOUND_IF (index : Z)
| IP_UNICAST_IF (value : Z)
| IPV6_UNICAST_IF (index : Z).

(** A [uint32] read from memory on a little-endian machine. *)
Fixpoint le_value (l : list Z) : Z :=
  match l with [] => 0 | b :: l => b + 256 * le_value l end.

(** [binary.BigEndian.PutUint32] and the word at that place. *)
Definition network_order (index : Z) : Z := le_value (be_bytes 4 (index mod 2 ^ 32) []).

(** [bindInterface]: what [ControlContext] sets on a socket of a network; [byName] is the index of
    [net.InterfaceByName]. Other systems leave the socket alone. *)
Definition bindInterface (os : OS) (byName : string -> result error Z) (interfaceName : string)
    : result error (string -> option SocketOption) :=
  match os with
  | Linux => Ok (fun _ => Some (SO_BINDTODEVICE interfaceName))
  | Darwin =>
      let? index := byName interfaceName in
      Ok (fun network => Some (if HasSuffix network "6" then IPV6_BOUND_IF index else IP_BOUND_IF index))
  | Windows =>
      let? index := byName interfaceName in
      Ok (fun network => Some (if HasSuffix network "6" then IPV6_UNICAST_IF index
                               else IP_UNICAST_IF (network_order index)))
  | OtherOS => Ok (fun _ => None)
  end.

(** How the sockets of a dial are bound: those of the connection, and those of the lookup of its host. *)
Record BoundDial : Type := {
  bd_conn : option (string -> option SocketOption);
  bd_dns : option (string -> option SocketOption);
}.

(** [dialContextOnInterface] up to the dial. *)
Definition dialContextOnInterface (os : OS) (byName : string -> result error Z) (interfaceName : string)
    : result error BoundDial :=
  if is_empty interfaceName then Ok {| bd_conn := None; bd_dns := None |}
  else match bindInterface os byName interfaceName with
  | Err err => Err (EWrap ("bind underlay interface " +:+ quote interfaceName +:+ ": " +:+ error_text err) err)
  | Ok bind => Ok {| bd_conn := Some bind; bd_dns := Some bind |}
  end.

(** ** The default interface

    [detectDefaultInterface]: what the library answers, and the monitors that were opened and closed. *)
Inductive MonitorEvent : Type := OpenedNetwork | ClosedNetwork | OpenedInterface | ClosedInterface.

Definition detectDefaultInterface (finder network networkStart interface interfaceStart : option error)
    (found : option string) : string * list MonitorEvent :=
  match finder, network with
  | Some _, _ | _, Some _ => (""%string, [])
  | None, None =>
      match networkStart with
      | Some _ => (""%string, [OpenedNetwork; ClosedNetwork])
      | None =>
          match interface with
          | Some _ => (""%string, [OpenedNetwork; ClosedNetwork])
          | None =>
              (match interfaceStart with Some _ => ""%string | None => default ""%string found end,
               [OpenedNetwork; OpenedInterface; ClosedInterface; ClosedNetwork])
          end
      end
  end.

(** ** Lemmas *)

(** The word has the bytes of the index in network order in memory. *)
Lemma le_value_bytes l : bytes_ok l -> be_bytes (length l) (le_value l) [] = rev l.
Proof.
  intros Hl. rewrite <-(app_nil_r (rev l)). generalize (@nil Z) as acc. induction Hl as [|b l Hb Hl IH]; intros acc; [done|].
  cbn [le_value length be_bytes]. replace (b + 256 * le_value l) with (le_value l * 256 + b) by lia.
  rewrite Z.div_add_l, Z.div_small, Z.add_0_r by (unfold byte_ok in Hb; lia).
  replace ((le_value l * 256 + b) mod 256) with b.
  - rewrite IH. cbn. by rewrite <-app_assoc.
  - rewrite Z.add_comm, Z_mod_plus_full, Z.mod_small by (unfold byte_ok in Hb; lia). done.
Qed.

Lemma network_order_bytes index :
  0 <= index < 2 ^ 32 -> rev (be_bytes 4 (network_order index) []) = be_bytes 4 index [].
Proof.
  intros Hi. unfold network_order. rewrite Z.mod_small by done. destruct (be_bytes_4 index Hi) as (a & b & c & d & -> & Hok & _).
  change 4%nat with (length [a; b; c; d]). rewrite le_value_bytes by done. apply rev_involutive.
Qed.

(** An option that binds a socket to an interface. *)
Definition binds_to (interfaceName : string) (index : Z) (option : SocketOption) : Prop :=
  match option with
  | SO_BINDTODEVICE name => name = interfaceName
  | IP_BOUND_IF i | IPV6_BOUND_IF i | IPV6_UNICAST_IF i => i = index
  | IP_UNICAST_IF value => value = network_order index
  end.

(** A dial on an interface binds its socket and those of the lookup to it, or fails, where the system can. *)
Lemma bound_to_interface os byName interfaceName bd network index :
  interfaceName <> ""%string -> os <> OtherOS -> dialContextOnInterface os byName interfaceName = Ok bd ->
  byName interfaceName = Ok index ->
  exists bind option, bd_conn bd = Some bind /\ bd_dns bd = Some bind /\ bind network = Some option /\
    binds_to interfaceName index option.
Proof.
  intros Hn Hos Hd Hi. unfold dialContextOnInterface, is_empty in Hd. rewrite bool_decide_false in Hd by done.
  destruct (bindInterface os byName interfaceName) as [bind|err] eqn:Hb; [|done]. injection Hd as <-.
  unfold bindInterface in Hb. rewrite Hi in Hb. exists bind.
  destruct os; cbn [result_bind] in Hb; try done; injection Hb as <-; eexists; (do 3 (split; [done|])); [done|by destruct (HasSuffix network "6")..].
Qed.

(** Whatever the library answers, every monitor that was opened is closed again. *)
Lemma detect_closes finder network networkStart interface interfaceStart found :
  let events := (detectDefaultInterface finder network networkStart interface interfaceStart found).2 in
  (OpenedNetwork ∈ events -> last events = Some ClosedNetwork) /\ (OpenedInterface ∈ events -> ClosedInterface ∈ events).
Proof.
  destruct finder, network, networkStart, interface, interfaceStart; cbn; (split; [first [done|by intros ?%elem_of_nil]|set_solver]).
Qed.
