(* ===== verification/Dial.v ===== *)
(** The outbounds and the routing policy (dial/vpn_outbound.go, dial/router.go,
    dial/internet_outbound.go). An outbound acts on a world of type [S] that the client of
    the section chooses; the values a context carries are an explicit record. *)

From S2P Require Import Prelude Core GoNet Packet.

Definition ErrNotInResources : error :=
  EVar "dial.ErrNotInResources" "destination is not in VPN resources".
Definition ErrUnsupportedNetwork : error :=
  EVar "dial.ErrUnsupportedNetwork" "VPN outbound only supports TCP and UDP".
Definition ErrRejected : error :=
  EVar "dial.ErrRejected" "connection rejected by routing policy".
Definition ErrSOCKS5UDPUnsupported : error :=
  EVar "dial.ErrSOCKS5UDPUnsupported" "SOCKS5 internet outbound only supports TCP".

Definition OutboundATrust : string := "atrust".
Definition OutboundInternet : string := "internet".
Definition OutboundDirect : string := "direct".
Definition RouteReasonVPNResource : string := "vpn_resource".
Definition RouteReasonResourceNotMatched : string := "resource_not_matched".
Definition RouteReasonGlobalMode : string := "global_mode".
Definition RouteReasonDirectMode : string := "direct_mode".

(** [client.DomainResource]. *)
Record DomainResource : Type := {
  dr_PortMin : Z;
  dr_PortMax : Z;
  dr_Protocol : string;
  dr_AppID : string;
  dr_NodeGroupID : string;
}.

(** The values that [resolve] and [dial] read from a [context.Context]. *)
Record DialCtx : Type := {
  ctx_DomainResource : option DomainResource;
  ctx_ResolveHost : option string;
}.

Definition emptyCtx : DialCtx := {| ctx_DomainResource := None; ctx_ResolveHost := None |}.

Record RouteInfo : Type := { route_Outbound : string; route_Reason : string }.

(** A connection: a handle of the world and the route it was given. *)
Record Conn : Type := { conn_handle : nat; conn_route : RouteInfo }.

Definition noRoute : RouteInfo := {| route_Outbound := ""; route_Reason := "" |}.

Definition newRoutedConn (c : Conn) (route : RouteInfo) : Conn :=
  {| conn_handle := conn_handle c; conn_route := route |}.

(** The interface [core.Outbound]. *)
Class Outbound (O S : Type) : Type := {
  DialContext : O -> DialCtx -> string -> string -> S -> result error Conn * S;
  CloseOutbound : O -> S -> option error * S
}.

(** ** VPN outbound *)

Definition resourceMatches (portMin portMax : Z) (protocol : string) (port : Z)
    (network : string) : bool :=
  bool_decide (portMin <= port) && bool_decide (port <= portMax)
  && (bool_decide (protocol = network) || bool_decide (protocol = "all"%string)).

Definition resourceNetwork (network : string) : string :=
  if bool_decide (network = "tcp4"%string) then "tcp"
  else if bool_decide (network = "udp4"%string) then "udp"
  else network.

Definition ipResourceMatches (ip : IP) (port : Z) (network : string) (r : IPResource) : bool :=
  match To4 (IPMin r), To4 (IPMax r) with
  | Some ipMin, Some ipMax =>
      bool_decide (Compare ip ipMin >= 0) && bool_decide (Compare ip ipMax <= 0)
      && resourceMatches (PortMin r) (PortMax r) (ResProtocol r) port network
  | _, _ => false
  end.

Definition matchesResources (ipResources : list IPResource) (ctx : DialCtx) (ip : IP)
    (port : Z) (network : string) : bool :=
  match ctx_DomainResource ctx with
  | Some r => resourceMatches (dr_PortMin r) (dr_PortMax r) (dr_Protocol r) port
                (resourceNetwork network)
  | None => false
  end
  || existsb (ipResourceMatches ip port (resourceNetwork network)) ipResources.

(** [VPNOutbound]: its stack and, when present, its resolver. *)
Record VPNOutbound (S : Type) : Type := {
  vpn_DialTCP : DialCtx -> IP -> Z -> S -> result error Conn * S;
  vpn_DialUDP : DialCtx -> IP -> Z -> S -> result error Conn * S;
  vpn_Resolve : option (DialCtx -> string -> S -> result error (DialCtx * IP) * S);
  vpn_ipResources : list IPResource;
}.

Arguments vpn_DialTCP {S}. Arguments vpn_DialUDP {S}.
Arguments vpn_Resolve {S}. Arguments vpn_ipResources {S}.

(** The part of [DialContext] behind address resolution. *)
Definition vpn_dial_ip {S} (o : VPNOutbound S) (ctx : DialCtx) (network address : string)
    (ip : IP) (port : Z) (s : S) : result error Conn * S :=
  match To4 ip with
  | None => (Err (EWrap (error_text ErrNotInResources +:+ ": " +:+ address) ErrNotInResources), s)
  | Some ip =>
      if negb (matchesResources (vpn_ipResources o) ctx ip port network) then
        (Err (EWrap (error_text ErrNotInResources +:+ ": " +:+ address +:+ "/" +:+ network)
                ErrNotInResources), s)
      else if bool_decide (network = "tcp"%string \/ network = "tcp4"%string) then
        vpn_DialTCP o ctx ip port s
      else if bool_decide (network = "udp"%string \/ network = "udp4"%string) then
        vpn_DialUDP o ctx ip port s
      else (Err (EWrap (error_text ErrUnsupportedNetwork +:+ ": " +:+ network)
                   ErrUnsupportedNetwork), s)
  end.

Definition vpn_DialContext {S} (o : VPNOutbound S) (ctx : DialCtx) (network address : string)
    (s : S) : result error Conn * S :=
  match SplitHostPort address with
  | None => (Err (EWrap ("invalid VPN destination " +:+ quote address) (EText "net.AddrError")), s)
  | Some (host, portText) =>
      match Atoi portText with
      | None => (Err (EWrap ("invalid VPN destination port " +:+ quote portText)
                        (EText "strconv.NumError")), s)
      | Some port =>
          match ParseIP host with
          | Some ip => vpn_dial_ip o ctx network address ip port s
          | None =>
              match vpn_Resolve o with
              | None => (Err (EText ("resolve VPN destination " +:+ quote host
                                     +:+ ": resolver unavailable")), s)
              | Some resolve =>
                  match resolve ctx host s with
                  | (Err e, s) =>
                      (Err (EWrap ("resolve VPN destination " +:+ quote host +:+ ": "
                                   +:+ error_text e) e), s)
                  | (Ok (ctx, ip), s) => vpn_dial_ip o ctx network address ip port s
                  end
              end
          end
      end
  end.

#[export] Instance VPNOutbound_Outbound S : Outbound (VPNOutbound S) S := {|
  DialContext := vpn_DialContext;
  CloseOutbound := fun _ s => (None, s)
|}.

(** ** Internet outbounds *)

(** What [NewInternetOutboundWithDialer] builds: the base dialer itself, a SOCKS5 dialer of
    golang.org/x/net/proxy on top of it, or a refusal. *)
Inductive internetOutbound : Type :=
| directOutbound
| socks5Outbound (address : string) (auth : option (string * string))
| rejectOutbound.

Definition NewInternetOutbound (config : InternetOutboundConfig)
    : result error internetOutbound :=
  let t := io_Type config in
  if bool_decide (t = ""%string \/ t = InternetOutboundDirect) then Ok directOutbound
  else if bool_decide (t = InternetOutboundSOCKS5) then
    if is_empty (io_Address config) then
      Err (WrapError ErrorCodeConfigInvalid "SOCKS5 internet outbound address is required"
             false None)
    else
      Ok (socks5Outbound (io_Address config)
            (if negb (is_empty (io_Username config)) || negb (is_empty (io_Password config))
             then Some (io_Username config, io_Password config) else None))
  else if bool_decide (t = InternetOutboundReject) then Ok rejectOutbound
  else Err (WrapError ErrorCodeConfigInvalid
              ("unsupported internet outbound type " +:+ quote t) false None).

Section Internet.
Context {S : Type}.
Variable base : DialCtx -> string -> string -> S -> result error Conn * S.
Variable socks5 : string -> option (string * string) -> DialCtx -> string -> S ->
  result error Conn * S.

Definition internet_DialContext (o : internetOutbound) (ctx : DialCtx)
    (network address : string) (s : S) : result error Conn * S :=
  match o with
  | directOutbound => base ctx network address s
  | socks5Outbound server auth =>
      if negb (bool_decide (network = "tcp"%string))
         && negb (bool_decide (network = "tcp4"%string)) then
        (Err (WrapError ErrorCodeOutboundUnavailable
                "SOCKS5 internet outbound only supports TCP" false
                (Some (EWrap (error_text ErrSOCKS5UDPUnsupported +:+ ": " +:+ network)
                         ErrSOCKS5UDPUnsupported))), s)
      else socks5 server auth ctx address s
  | rejectOutbound =>
      (Err (EWrap (error_text ErrRejected +:+ ": " +:+ address +:+ "/" +:+ network)
              ErrRejected), s)
  end.
End Internet.

(** ** Router *)

Section RouterModel.
Context {V I D S : Type} `{Outbound V S} `{Outbound I S} `{Outbound D S}.

Record Router : Type := {
  router_vpn : V;
  router_internet : I;
  router_direct : D;
  router_mode : RoutingMode;
}.

Definition NewRouterWithDirect (vpn : V) (internet : I) (direct : D) (mode : RoutingMode)
    : result error Router :=
  let mode := if is_empty mode then RoutingModeRule else mode in
  if negb (RoutingMode_Valid mode) then
    Err (WrapError ErrorCodeConfigInvalid ("invalid routing mode " +:+ quote mode) false None)
  else Ok {| router_vpn := vpn; router_internet := internet; router_direct := direct;
             router_mode := mode |}.

Definition routed (outbound reason : string) (r : result error Conn * S)
    : result error Conn * S :=
  match r with
  | (Ok c, s) => (Ok (newRoutedConn c {| route_Outbound := outbound; route_Reason := reason |}), s)
  | (Err e, s) => (Err e, s)
  end.

Definition dialRule (r : Router) (ctx : DialCtx) (network address : string) (s : S)
    : result error Conn * S :=
  match DialContext (router_vpn r) ctx network address s with
  | (Ok c, s) =>
      (Ok (newRoutedConn c {| route_Outbound := OutboundATrust;
                              route_Reason := RouteReasonVPNResource |}), s)
  | (Err e, s) =>
      if negb (errors_Is e "dial.ErrNotInResources") then (Err e, s)
      else routed OutboundInternet RouteReasonResourceNotMatched
             (DialContext (router_internet r) ctx network address s)
  end.

Definition Router_DialContext (r : Router) (ctx : DialCtx) (network address : string) (s : S)
    : result error Conn * S :=
  if bool_decide (router_mode r = RoutingModeGlobal) then
    routed OutboundATrust RouteReasonGlobalMode
      (DialContext (router_vpn r) ctx network address s)
  else if bool_decide (router_mode r = RoutingModeDirect) then
    routed OutboundDirect RouteReasonDirectMode
      (DialContext (router_direct r) ctx network address s)
  else dialRule r ctx network address s.

Definition Router_SetMode (mode : RoutingMode) (r : Router)
    : result error RoutingMode * Router :=
  if negb (RoutingMode_Valid mode) then
    (Err (WrapError ErrorCodeInvalidRequest ("invalid routing mode " +:+ quote mode) false None), r)
  else (Ok (router_mode r),
        {| router_vpn := router_vpn r; router_internet := router_internet r;
           router_direct := router_direct r; router_mode := mode |}).

Definition Router_Close (r : Router) (s : S) : option error * S :=
  let '(e1, s) := CloseOutbound (router_vpn r) s in
  let '(e2, s) := CloseOutbound (router_internet r) s in
  let '(e3, s) := CloseOutbound (router_direct r) s in
  (errors_Join [e1; e2; e3], s).

End RouterModel.

Arguments Router : clear implicits.

(** ** Theorems *)

(** An outbound that records its dials next to the world it acts on. *)
Record Logged (O : Type) : Type := { lg_name : string; lg_inner : O }.

Arguments lg_name {O}. Arguments lg_inner {O}.

#[export] Instance Logged_Outbound {O S} `{Outbound O S} : Outbound (Logged O) (S * list string) := {|
  DialContext := fun o ctx network address s =>
    let '(r, t) := DialContext (lg_inner o) ctx network address s.1 in
    (r, (t, s.2 ++ [lg_name o]));
  CloseOutbound := fun o s => let '(e, t) := CloseOutbound (lg_inner o) s.1 in (e, (t, s.2))
|}.

Definition logged_router {V I D} (vpn : V) (internet : I) (direct : D) (mode : RoutingMode)
    : Router (Logged V) (Logged I) (Logged D) :=
  {| router_vpn := {| lg_name := OutboundATrust; lg_inner := vpn |};
     router_internet := {| lg_name := OutboundInternet; lg_inner := internet |};
     router_direct := {| lg_name := OutboundDirect; lg_inner := direct |};
     router_mode := mode |}.

Definition route_of (r : result error Conn) : option string :=
  match r with Ok c => Some (route_Outbound (conn_route c)) | Err _ => None end.

(** Routing isolation. In global mode only the VPN outbound is dialed and in direct
    mode only the direct one; in rule mode the VPN is dialed first, and the internet
    outbound only after the VPN has answered that the destination is not among its
    resources. A connection is labelled with the outbound that made it, and an error is the
    error of the last outbound dialed. *)
Theorem router_isolation {V I D S} `{Outbound V S} `{Outbound I S} `{Outbound D S}
    (vpn : V) (internet : I) (direct : D) (mode : RoutingMode) (ctx : DialCtx)
    (network address : string) (s : S) :
  let '(r, (_, dialed)) :=
    Router_DialContext (logged_router vpn internet direct mode) ctx network address (s, []) in
  (mode = RoutingModeGlobal -> dialed = [OutboundATrust]) /\
  (mode = RoutingModeDirect -> dialed = [OutboundDirect]) /\
  (mode <> RoutingModeGlobal -> mode <> RoutingModeDirect ->
     dialed = [OutboundATrust] \/
     dialed = [OutboundATrust; OutboundInternet] /\
     exists e, (DialContext vpn ctx network address s).1 = Err e /\
       errors_Is e "dial.ErrNotInResources" = true) /\
  (forall o, route_of r = Some o -> last dialed = Some o).
Proof.
  unfold Router_DialContext, dialRule, routed, logged_router. cbn [router_mode router_vpn
    router_internet router_direct DialContext Logged_Outbound lg_inner lg_name fst snd].
  destruct (decide (mode = RoutingModeGlobal)) as [->|Hg].
  { rewrite bool_decide_true by done.
    destruct (DialContext vpn ctx network address s) as [[c|e] t]; simpl;
      (split_and!; intros; simplify_eq/=; done). }
  rewrite bool_decide_false by done.
  destruct (decide (mode = RoutingModeDirect)) as [->|Hd].
  { rewrite bool_decide_true by done.
    destruct (DialContext direct ctx network address s) as [[c|e] t]; simpl;
      (split_and!; intros; simplify_eq/=; done). }
  rewrite bool_decide_false by done.
  destruct (DialContext vpn ctx network address s) as [[c|e] t]; simpl.
  { split_and!; try done; by left. }
  destruct (errors_Is e "dial.ErrNotInResources") eqn:E; simpl.
  - destruct (DialContext internet ctx network address t) as [[c|e2] u]; simpl;
      (split_and!; [done|done|intros; right; eauto|intros; by simplify_eq/=]).
  - split_and!; try done. by left.
Qed.

(** The world of a VPN outbound whose failures are its own: neither the stack nor the
    resolver answers with [ErrNotInResources]. *)
Definition vpn_own_errors {S} (o : VPNOutbound S) : Prop :=
  (forall ctx ip port s e s', vpn_DialTCP o ctx ip port s = (Err e, s') ->
     errors_Is e "dial.ErrNotInResources" = false) /\
  (forall ctx ip port s e s', vpn_DialUDP o ctx ip port s = (Err e, s') ->
     errors_Is e "dial.ErrNotInResources" = false) /\
  (forall f ctx host s e s', vpn_Resolve o = Some f -> f ctx host s = (Err e, s') ->
     errors_Is e "dial.ErrNotInResources" = false).

Lemma vpn_dial_ip_not_in_resources {S} (o : VPNOutbound S) ctx network address ip port s e s' :
  vpn_own_errors o -> vpn_dial_ip o ctx network address ip port s = (Err e, s') ->
  (errors_Is e "dial.ErrNotInResources" = true <->
   match To4 ip with
   | Some ip4 => matchesResources (vpn_ipResources o) ctx ip4 port network = false
   | None => True
   end) /\
  (errors_Is e "dial.ErrNotInResources" = true -> s' = s).
Proof.
  intros (Ht & Hu & _) Hd. unfold vpn_dial_ip in Hd.
  destruct (To4 ip) as [ip4|]; [|by simplify_eq].
  destruct (matchesResources _ _ _ _ _); simpl in Hd; [|by simplify_eq].
  case_bool_decide; [by rewrite (Ht _ _ _ _ _ _ Hd)|].
  case_bool_decide; [by rewrite (Hu _ _ _ _ _ _ Hd)|].
  simplify_eq. done.
Qed.

(** The address a destination resolves to, and the context and world after that. *)
Definition vpn_resolved {S} (o : VPNOutbound S) (ctx : DialCtx) (host : string) (s : S)
    (ctx' : DialCtx) (ip : IP) (s' : S) : Prop :=
  ParseIP host = Some ip /\ ctx' = ctx /\ s' = s \/
  ParseIP host = None /\ exists f, vpn_Resolve o = Some f /\ f ctx host s = (Ok (ctx', ip), s').

(** A dial's result with the label of the outbound that it was made by. *)
Definition labelled (outbound reason : string) (r : result error Conn) : result error Conn :=
  match r with
  | Ok c => Ok (newRoutedConn c {| route_Outbound := outbound; route_Reason := reason |})
  | Err e => Err e
  end.

(** A dial in rule mode. *)
Lemma dial_in_rule_mode {V I D S} `{Outbound V S} `{Outbound I S} `{Outbound D S}
    (vpn : V) (internet : I) (direct : D) (ctx : DialCtx) (network address : string) (s : S) :
  Router_DialContext (logged_router vpn internet direct RoutingModeRule) ctx network address (s, []) =
    let '(r, t) := DialContext vpn ctx network address s in
    if match r with Ok _ => false | Err e => errors_Is e "dial.ErrNotInResources" end then
      let '(r, u) := DialContext internet ctx network address t in
      (labelled OutboundInternet RouteReasonResourceNotMatched r, (u, [OutboundATrust; OutboundInternet]))
    else (labelled OutboundATrust RouteReasonVPNResource r, (t, [OutboundATrust])).
Proof.
  unfold Router_DialContext, dialRule, routed, logged_router. cbn -[DialContext].
  cbn [DialContext Logged_Outbound lg_inner lg_name fst snd].
  destruct (DialContext vpn ctx network address s) as [[c|e] t]; cbn; [done|].
  destruct (errors_Is e "dial.ErrNotInResources"); cbn; [|done].
  by destruct (DialContext internet ctx network address t) as [[c|e2] u].
Qed.

(** C36: traffic for VPN resources never leaves through the internet outbound. In rule mode,
    with a VPN outbound whose stack and resolver report their own errors, there are two cases. Only the VPN is dialed,
    and its answer is the result: its connection, labelled as one of the VPN, or its error, which is never that the
    destination is no resource. Or the internet outbound is dialed as well, for a destination that was parsed and
    resolved and that is no IPv4 address or matches no resource, and then the VPN stack has not been dialed, and the
    result is the answer of the internet outbound, labelled as such. So an unparsable destination, a failing
    resolution and a failing VPN connection are all returned as their errors without any dial outside the VPN. *)
Theorem vpn_resource_no_leak {S I D} `{Outbound I S} `{Outbound D S}
    (vpn : VPNOutbound S) (Hown : vpn_own_errors vpn) (internet : I) (direct : D)
    (ctx : DialCtx) (network address : string) (s : S) :
  let '(r, (_, dialed)) := Router_DialContext
    (logged_router vpn internet direct RoutingModeRule) ctx network address (s, []) in
  let '(vpn_answer, s') := vpn_DialContext vpn ctx network address s in
  dialed = [OutboundATrust] /\ r = labelled OutboundATrust RouteReasonVPNResource vpn_answer /\
    (forall e, vpn_answer = Err e -> errors_Is e "dial.ErrNotInResources" = false) \/
  dialed = [OutboundATrust; OutboundInternet] /\
  r = labelled OutboundInternet RouteReasonResourceNotMatched (DialContext internet ctx network address s').1 /\
  exists host portText port ctx' ip,
    SplitHostPort address = Some (host, portText) /\ Atoi portText = Some port /\
    vpn_resolved vpn ctx host s ctx' ip s' /\
    match To4 ip with
    | Some ip4 => matchesResources (vpn_ipResources vpn) ctx' ip4 port network = false
    | None => True
    end.
Proof.
  rewrite dial_in_rule_mode. cbn [DialContext VPNOutbound_Outbound].
  destruct (vpn_DialContext vpn ctx network address s) as [[c|e] s2] eqn:E; [left; by split_and!|].
  destruct (errors_Is e "dial.ErrNotInResources") eqn:Hn; [|left; split_and!; [done|done|by intros e' [= <-]]].
  destruct (DialContext internet ctx network address s2) as [r2 s3] eqn:Hi. right. split_and!; [done|done|].
  unfold vpn_DialContext in E.
  destruct (SplitHostPort address) as [[host portText]|]; [|by simplify_eq].
  destruct (Atoi portText) as [port|] eqn:Hport; [|by simplify_eq].
  destruct (ParseIP host) as [ip|] eqn:Hip.
  - destruct (vpn_dial_ip_not_in_resources _ _ _ _ _ _ _ _ _ Hown E) as [Hm Hs].
    exists host, portText, port, ctx, ip. rewrite (Hs Hn). split_and!; [done|done|by left|by apply Hm].
  - destruct (vpn_Resolve vpn) as [f|] eqn:Hf; [|by simplify_eq].
    destruct (f ctx host s) as [[[ctx' ip]|e1] s4] eqn:Hr.
    + destruct (vpn_dial_ip_not_in_resources _ _ _ _ _ _ _ _ _ Hown E) as [Hm Hs].
      exists host, portText, port, ctx', ip. rewrite (Hs Hn). split_and!; [done|done|right; eauto|by apply Hm].
    + simplify_eq. simpl in Hn. destruct Hown as (_ & _ & Hres).
      by rewrite (Hres _ _ _ _ _ _ Hf Hr) in Hn.
Qed.

Definition sample_vpn : VPNOutbound nat :=
  {| vpn_DialTCP := fun _ _ _ s => (Err (EText "tunnel down"), S s);
     vpn_DialUDP := fun _ _ _ s => (Err (EText "tunnel down"), S s);
     vpn_Resolve := None; vpn_ipResources := sample_resources |}.

Lemma sample_vpn_own : vpn_own_errors sample_vpn.
Proof. split_and!; simpl; intros; simplify_eq; done. Defined.

(** The VPN's connection fails: its error is the result, and nothing else is dialed. *)
Lemma vpn_resource_no_leak_witness :
  vpn_own_errors sample_vpn /\
  exists s', Router_DialContext (logged_router sample_vpn sample_vpn sample_vpn RoutingModeRule) emptyCtx "tcp"
    "10.0.0.7:80" (0%nat, []) = (Err (EText "tunnel down"), (s', [OutboundATrust])).
Proof.
  split; [exact sample_vpn_own|].
  pose proof (vpn_resource_no_leak sample_vpn sample_vpn_own sample_vpn sample_vpn emptyCtx "tcp"
    "10.0.0.7:80" 0%nat) as H.
  destruct (Router_DialContext _ emptyCtx "tcp" "10.0.0.7:80" (0%nat, [])) as [r [s1 dialed]] eqn:E.
  exists s1. destruct (vpn_DialContext sample_vpn emptyCtx "tcp" "10.0.0.7:80" 0%nat) as [answer s'] eqn:Ea.
  assert (answer = Err (EText "tunnel down")) as -> by (vm_compute in Ea; by injection Ea as <- _).
  destruct H as [(-> & -> & _)|(Hd & _)]; [reflexivity|]. vm_compute in E. injection E as _ _ <-. discriminate Hd.
Defined.
