(* ===== verification/Tracker.v ===== *)
(** Traffic accounting (internal/networkruntime/tracker.go): the transport connections of the
    tracked outbound, the logical connections of the inbounds, and the dial of the runtime
    that makes one of each. Connections are handles, numbered in the order of their opening;
    each operation of the program that is one atomic section, or touches one connection, is one
    function. Time is in nanoseconds. *)

From S2P Require Import Prelude Core GoNet Dial.

Definition transportIdleAfter : Z := 5 * 1000000000.

Definition ConnectionStateActive : string := "active".
Definition ConnectionStateIdle : string := "idle".

Record ConnectionMetadata : Type := {
  md_Inbound : string;
  md_Outbound : string;
  md_RouteReason : string;
  md_Source : string;
  md_Network : string;
  md_Destination : string;
  md_TransportConnectionID : string;
}.

(** [closeOnce] and [closeErr]: [None] until [Close] has run. *)
Record trackedConn : Type := {
  tc_id : string;
  tc_route : RouteInfo;
  tc_network : string;
  tc_destination : string;
  tc_openedAt : Z;
  tc_lastActivity : Z;
  tc_uploaded : Z;
  tc_downloaded : Z;
  tc_closed : option (option error);
}.

(** [closeFunc] closes the transport connection with the given handle, if any. *)
Record logicalConnection : Type := {
  lc_id : string;
  lc_metadata : ConnectionMetadata;
  lc_openedAt : Z;
  lc_lastActivity : Z;
  lc_uploaded : Z;
  lc_downloaded : Z;
  lc_transport : option nat;
  lc_closed : option (option error);
}.

Record trackedOutbound : Type := {
  to_nextID : Z;
  to_uploaded : Z;
  to_download : Z;
  to_total : Z;
  to_connections : gmap string nat;
  to_conns : list trackedConn;
}.

Record connectionTracker : Type := {
  ct_nextID : Z;
  ct_total : Z;
  ct_connections : gmap string nat;
  ct_conns : list logicalConnection;
}.

Record Traffic : Type := { outbound : trackedOutbound; tracker : connectionTracker }.

Definition newTraffic : Traffic :=
  {| outbound := {| to_nextID := 0; to_uploaded := 0; to_download := 0; to_total := 0;
                    to_connections := ∅; to_conns := [] |};
     tracker := {| ct_nextID := 0; ct_total := 0; ct_connections := ∅; ct_conns := [] |} |}.

Definition set_outbound (o : trackedOutbound) (s : Traffic) : Traffic :=
  {| outbound := o; tracker := tracker s |}.

Definition set_tracker (t : connectionTracker) (s : Traffic) : Traffic :=
  {| outbound := outbound s; tracker := t |}.

(** ** Transport connections *)

(** [trackedOutbound.DialContext]; the connection the delegate made, if any, is known by its
    route. *)
Definition outbound_DialContext (res : result error RouteInfo) (now : Z) (network address : string)
    (o : trackedOutbound) : result error nat * trackedOutbound :=
  match res with
  | Err e => (Err e, o)
  | Ok route =>
      let next := u64 (to_nextID o + 1) in
      let id := "transport-" +:+ itoa next in
      let h := length (to_conns o) in
      (Ok h,
       {| to_nextID := next; to_uploaded := to_uploaded o; to_download := to_download o;
          to_total := u64 (to_total o + 1); to_connections := <[id := h]> (to_connections o);
          to_conns := to_conns o ++
            [{| tc_id := id; tc_route := route; tc_network := network; tc_destination := address;
                tc_openedAt := now; tc_lastActivity := now; tc_uploaded := 0; tc_downloaded := 0;
                tc_closed := None |}] |})
  end.

Definition set_conns (conns : list trackedConn) (o : trackedOutbound) : trackedOutbound :=
  {| to_nextID := to_nextID o; to_uploaded := to_uploaded o; to_download := to_download o;
     to_total := to_total o; to_connections := to_connections o; to_conns := conns |}.

Definition outbound_remove (id : string) (o : trackedOutbound) : trackedOutbound :=
  {| to_nextID := to_nextID o; to_uploaded := to_uploaded o; to_download := to_download o;
     to_total := to_total o; to_connections := delete id (to_connections o);
     to_conns := to_conns o |}.

Definition set_counts (up down last : Z) (c : trackedConn) : trackedConn :=
  {| tc_id := tc_id c; tc_route := tc_route c; tc_network := tc_network c;
     tc_destination := tc_destination c; tc_openedAt := tc_openedAt c; tc_lastActivity := last;
     tc_uploaded := up; tc_downloaded := down; tc_closed := tc_closed c |}.

Definition set_closed (err : option error) (c : trackedConn) : trackedConn :=
  {| tc_id := tc_id c; tc_route := tc_route c; tc_network := tc_network c;
     tc_destination := tc_destination c; tc_openedAt := tc_openedAt c;
     tc_lastActivity := tc_lastActivity c; tc_uploaded := tc_uploaded c;
     tc_downloaded := tc_downloaded c; tc_closed := Some err |}.

Section Errors.
(** [errors.As(err, &networkError) && networkError.Timeout()]. *)
Variable is_timeout : error -> bool.

Definition isTerminalConnectionError (err : option error) : bool :=
  match err with
  | None => false
  | Some e => errors_Is e "io.EOF" || errors_Is e "net.ErrClosed" || negb (is_timeout e)
  end.

(** [finish]. *)
Definition finish_if (terminal : bool) (h : nat) (o : trackedOutbound) : trackedOutbound :=
  match to_conns o !! h with
  | Some c => if terminal then outbound_remove (tc_id c) o else o
  | None => o
  end.

(** [trackedConn.Read] and [Write]: what the connection below answered is an argument. *)
Definition transport_Read (h : nat) (count : Z) (err : option error) (now : Z)
    (o : trackedOutbound) : trackedOutbound :=
  finish_if (isTerminalConnectionError err) h
    (if bool_decide (count > 0) then
       {| to_nextID := to_nextID o; to_uploaded := to_uploaded o;
          to_download := u64 (to_download o + count); to_total := to_total o;
          to_connections := to_connections o;
          to_conns := alter (fun c => set_counts (tc_uploaded c) (u64 (tc_downloaded c + count)) now c)
                        h (to_conns o) |}
     else o).

Definition transport_Write (h : nat) (count : Z) (err : option error) (now : Z)
    (o : trackedOutbound) : trackedOutbound :=
  finish_if (isTerminalConnectionError err) h
    (if bool_decide (count > 0) then
       {| to_nextID := to_nextID o; to_uploaded := u64 (to_uploaded o + count);
          to_download := to_download o; to_total := to_total o;
          to_connections := to_connections o;
          to_conns := alter (fun c => set_counts (u64 (tc_uploaded c + count)) (tc_downloaded c) now c)
                        h (to_conns o) |}
     else o).
End Errors.

(** [trackedConn.Close]; the answer of the connection below is used the first time. *)
Definition transport_Close (h : nat) (err : option error) (o : trackedOutbound)
    : option error * trackedOutbound :=
  match to_conns o !! h with
  | None => (None, o)
  | Some c =>
      match tc_closed c with
      | Some e => (e, o)
      | None => (err, outbound_remove (tc_id c) (set_conns (<[h := set_closed err c]> (to_conns o)) o))
      end
  end.

(** [trackedOutbound.Close]: the connections it finds, then the delegate. *)
Definition outbound_close_conns (handles : list nat) (errs : nat -> option error)
    (o : trackedOutbound) : list (option error) * trackedOutbound :=
  fold_left (fun '(es, o) h => let '(e, o) := transport_Close h (errs h) o in (es ++ [e], o))
    handles ([], o).

Definition outbound_Close (range : gmap string nat -> list (string * nat))
    (errs : nat -> option error) (delegate : option error) (o : trackedOutbound)
    : option error * trackedOutbound :=
  let '(es, o) := outbound_close_conns (map snd (range (to_connections o))) errs o in
  (errors_Join (es ++ [delegate]), o).

(** ** Logical connections *)

Definition OpenConnection (metadata : ConnectionMetadata) (transport : option nat) (now : Z)
    (t : connectionTracker) : nat * connectionTracker :=
  let next := u64 (ct_nextID t + 1) in
  let id := "connection-" +:+ itoa next in
  let l := length (ct_conns t) in
  (l,
   {| ct_nextID := next; ct_total := u64 (ct_total t + 1);
      ct_connections := <[id := l]> (ct_connections t);
      ct_conns := ct_conns t ++
        [{| lc_id := id; lc_metadata := metadata; lc_openedAt := now; lc_lastActivity := now;
            lc_uploaded := 0; lc_downloaded := 0; lc_transport := transport; lc_closed := None |}] |}).

Definition set_lconns (conns : list logicalConnection) (t : connectionTracker) : connectionTracker :=
  {| ct_nextID := ct_nextID t; ct_total := ct_total t; ct_connections := ct_connections t;
     ct_conns := conns |}.

Definition tracker_remove (id : string) (t : connectionTracker) : connectionTracker :=
  {| ct_nextID := ct_nextID t; ct_total := ct_total t;
     ct_connections := delete id (ct_connections t); ct_conns := ct_conns t |}.

Definition set_lcounts (up down last : Z) (c : logicalConnection) : logicalConnection :=
  {| lc_id := lc_id c; lc_metadata := lc_metadata c; lc_openedAt := lc_openedAt c;
     lc_lastActivity := last; lc_uploaded := up; lc_downloaded := down;
     lc_transport := lc_transport c; lc_closed := lc_closed c |}.

Definition set_lclosed (err : option error) (c : logicalConnection) : logicalConnection :=
  {| lc_id := lc_id c; lc_metadata := lc_metadata c; lc_openedAt := lc_openedAt c;
     lc_lastActivity := lc_lastActivity c; lc_uploaded := lc_uploaded c;
     lc_downloaded := lc_downloaded c; lc_transport := lc_transport c; lc_closed := Some err |}.

Definition RecordUploaded (l : nat) (count now : Z) (t : connectionTracker) : connectionTracker :=
  if bool_decide (count = 0) then t
  else set_lconns (alter (fun c => set_lcounts (u64 (lc_uploaded c + count)) (lc_downloaded c) now c)
                     l (ct_conns t)) t.

Definition RecordDownloaded (l : nat) (count now : Z) (t : connectionTracker) : connectionTracker :=
  if bool_decide (count = 0) then t
  else set_lconns (alter (fun c => set_lcounts (lc_uploaded c) (u64 (lc_downloaded c + count)) now c)
                     l (ct_conns t)) t.

(** [logicalConnection.Close]: the transport connection is closed through [closeFunc]. *)
Definition logical_Close (l : nat) (err : option error) (s : Traffic) : option error * Traffic :=
  match ct_conns (tracker s) !! l with
  | None => (None, s)
  | Some c =>
      match lc_closed c with
      | Some e => (e, s)
      | None =>
          let '(e, o) := match lc_transport c with
                         | Some h => transport_Close h err (outbound s)
                         | None => (None, outbound s)
                         end in
          (e, {| outbound := o;
                 tracker := tracker_remove (lc_id c)
                   (set_lconns (<[l := set_lclosed e c]> (ct_conns (tracker s))) (tracker s)) |})
      end
  end.

Definition CloseConnection (id : string) (err : option error) (s : Traffic)
    : option error * Traffic :=
  match ct_connections (tracker s) !! id with
  | None =>
      (Some (WrapError ErrorCodeConnectionNotFound ("connection " +:+ quote id +:+ " not found")
               false None), s)
  | Some l => logical_Close l err s
  end.

Definition tracker_close_conns (handles : list nat) (errs : nat -> option error) (s : Traffic)
    : list (option error) * Traffic :=
  fold_left (fun '(es, s) l => let '(e, s) := logical_Close l (errs l) s in (es ++ [e], s))
    handles ([], s).

Definition tracker_Close (range : gmap string nat -> list (string * nat))
    (errs : nat -> option error) (s : Traffic) : option error * Traffic :=
  let '(es, s) := tracker_close_conns (map snd (range (ct_connections (tracker s)))) errs s in
  (errors_Join es, s).

(** ** What is reported *)

Record TrafficStats : Type := {
  stats_UploadedBytes : Z;
  stats_DownloadedBytes : Z;
  stats_ActiveConnections : Z;
  stats_TotalConnections : Z;
  stats_OpenTransportConnections : Z;
  stats_TotalTransportConnections : Z;
}.

(** [Runtime.TrafficStats]; the two times are left out. *)
Definition runtime_TrafficStats (s : Traffic) : TrafficStats :=
  {| stats_UploadedBytes := to_uploaded (outbound s);
     stats_DownloadedBytes := to_download (outbound s);
     stats_ActiveConnections := Z.of_nat (size (ct_connections (tracker s)));
     stats_TotalConnections := ct_total (tracker s);
     stats_OpenTransportConnections := Z.of_nat (size (to_connections (outbound s)));
     stats_TotalTransportConnections := to_total (outbound s) |}.

Definition transport_state (now : Z) (c : trackedConn) : string :=
  if bool_decide (now - tc_lastActivity c >= transportIdleAfter) then ConnectionStateIdle
  else ConnectionStateActive.

(** ** The dial of the runtime *)

(** [Runtime.DialContext]: a transport connection and its logical connection. *)
Definition runtime_DialContext (res : result error RouteInfo) (now : Z) (network address : string)
    (s : Traffic) : result error nat * Traffic :=
  let '(r, o) := outbound_DialContext res now network address (outbound s) in
  match r with
  | Err e => (Err e, set_outbound o s)
  | Ok h =>
      let id := match to_conns o !! h with Some c => tc_id c | None => "" end in
      let route := match to_conns o !! h with Some c => tc_route c | None => noRoute end in
      let '(l, t) := OpenConnection
        {| md_Inbound := "embedded"; md_Outbound := route_Outbound route;
           md_RouteReason := route_Reason route; md_Source := ""; md_Network := network;
           md_Destination := address; md_TransportConnectionID := id |} (Some h) now (tracker s) in
      (Ok l, {| outbound := o; tracker := t |})
  end.

Section Steps.
Variable is_timeout : error -> bool.

(** [logicalTrackedConn.Read] and [Write]: through the transport connection [h] below. *)
Definition logical_Read (l h : nat) (count : Z) (err : option error) (now : Z) (s : Traffic)
    : Traffic :=
  {| outbound := transport_Read is_timeout h count err now (outbound s);
     tracker := RecordDownloaded l count now (tracker s) |}.

Definition logical_Write (l h : nat) (count : Z) (err : option error) (now : Z) (s : Traffic)
    : Traffic :=
  {| outbound := transport_Write is_timeout h count err now (outbound s);
     tracker := RecordUploaded l count now (tracker s) |}.

(** Any operation on any connection. The counts are those of [io.Reader] and [io.Writer]. *)
Inductive traffic_step : Traffic -> Traffic -> Prop :=
| tr_dial res now network address s r o :
    outbound_DialContext res now network address (outbound s) = (r, o) ->
    traffic_step s (set_outbound o s)
| tr_runtime_dial res now network address s r s' :
    runtime_DialContext res now network address s = (r, s') -> traffic_step s s'
| tr_open metadata transport now s l t :
    OpenConnection metadata transport now (tracker s) = (l, t) -> traffic_step s (set_tracker t s)
| tr_read h count err now s : is_Some (to_conns (outbound s) !! h) ->
    traffic_step s (set_outbound (transport_Read is_timeout h count err now (outbound s)) s)
| tr_write h count err now s : is_Some (to_conns (outbound s) !! h) ->
    traffic_step s (set_outbound (transport_Write is_timeout h count err now (outbound s)) s)
| tr_logical_read l h count err now s : 0 <= count -> is_Some (to_conns (outbound s) !! h) ->
    traffic_step s (logical_Read l h count err now s)
| tr_logical_write l h count err now s : 0 <= count -> is_Some (to_conns (outbound s) !! h) ->
    traffic_step s (logical_Write l h count err now s)
| tr_record_up l count now s :
    traffic_step s (set_tracker (RecordUploaded l count now (tracker s)) s)
| tr_record_down l count now s :
    traffic_step s (set_tracker (RecordDownloaded l count now (tracker s)) s)
| tr_transport_close h err s e o :
    transport_Close h err (outbound s) = (e, o) -> traffic_step s (set_outbound o s)
| tr_logical_close l err s e s' :
    logical_Close l err s = (e, s') -> traffic_step s s'.
End Steps.

(** ** Accounting *)

Definition sum_by {A} (f : A -> Z) (l : list A) : Z := foldr (fun x acc => f x + acc) 0 l.

Lemma sum_by_app {A} (f : A -> Z) l1 l2 : sum_by f (l1 ++ l2) = sum_by f l1 + sum_by f l2.
Proof. induction l1 as [|x l1 IH]; simpl; [done|]. unfold sum_by in *. simpl. lia. Qed.

Lemma sum_by_alter {A} (f : A -> Z) (g : A -> A) h l x :
  l !! h = Some x -> sum_by f (alter g h l) = sum_by f l - f x + f (g x).
Proof.
  unfold sum_by. revert h.
  induction l as [|y l IH]; intros [|h] H; simplify_eq/=; [lia|]. specialize (IH h H).
  unfold alter, list_alter in *. lia.
Qed.

Lemma sum_by_alter_same {A} (f : A -> Z) (g : A -> A) h l :
  (forall x, f (g x) = f x) -> sum_by f (alter g h l) = sum_by f l.
Proof.
  intros Hg. unfold sum_by. revert h. induction l as [|y l IH]; intros [|h]; simpl; try done.
  - by rewrite Hg.
  - f_equal. apply IH.
Qed.

Lemma sum_by_insert_same {A} (f : A -> Z) h l x y :
  l !! h = Some x -> f y = f x -> sum_by f (<[h := y]> l) = sum_by f l.
Proof.
  unfold sum_by. revert h. induction l as [|z l IH]; intros [|h] H Hf; simplify_eq/=; [lia|].
  by rewrite (IH h H Hf).
Qed.

Lemma u64_add a b : u64 (u64 a + b) = u64 (a + b).
Proof. unfold u64. by rewrite Zplus_mod_idemp_l. Qed.

Definition transport_id (h : nat) : string := "transport-" +:+ itoa (u64 (Z.of_nat h + 1)).
Definition connection_id (l : nat) : string := "connection-" +:+ itoa (u64 (Z.of_nat l + 1)).

Lemma numbered_inj prefix (a b : nat) :
  Z.of_nat a + 1 < 2 ^ 64 -> Z.of_nat b + 1 < 2 ^ 64 ->
  prefix +:+ itoa (u64 (Z.of_nat a + 1)) = prefix +:+ itoa (u64 (Z.of_nat b + 1)) -> a = b.
Proof.
  intros Ha Hb H. apply (f_equal chars) in H. rewrite !chars_app in H.
  apply app_inv_head, chars_inj, itoa_inj in H. unfold u64 in H. rewrite !Z.mod_small in H by lia. lia.
Qed.

(** What holds of the transport connections. *)
Record outbound_inv (o : trackedOutbound) : Prop := {
  oi_next : to_nextID o = u64 (Z.of_nat (length (to_conns o)));
  oi_total : to_total o = u64 (Z.of_nat (length (to_conns o)));
  oi_up : to_uploaded o = u64 (sum_by tc_uploaded (to_conns o));
  oi_down : to_download o = u64 (sum_by tc_downloaded (to_conns o));
  oi_id : forall h c, to_conns o !! h = Some c -> tc_id c = transport_id h;
  oi_listed : Z.of_nat (length (to_conns o)) < 2 ^ 64 -> forall id h, to_connections o !! id = Some h ->
    exists c, to_conns o !! h = Some c /\ tc_id c = id /\ tc_closed c = None;
}.

Lemma lookup_snoc {A} (l : list A) x i y :
  (l ++ [x]) !! i = Some y -> (l !! i = Some y) \/ (i = length l /\ y = x).
Proof.
  intros H. destruct (decide (i < length l)%nat) as [Hi|Hi].
  - left. by rewrite lookup_app_l in H.
  - right. rewrite lookup_app_r in H by lia. apply list_lookup_singleton_Some in H as [? <-].
    split; [lia|done].
Qed.

Lemma outbound_DialContext_inv res now network address o r o' :
  outbound_inv o -> outbound_DialContext res now network address o = (r, o') -> outbound_inv o'.
Proof.
  intros Hi. unfold outbound_DialContext. destruct res as [route|e]; intros [= <- <-]; [|done].
  pose proof (oi_next o Hi) as Hn.
  assert (u64 (to_nextID o + 1) = u64 (Z.of_nat (length (to_conns o)) + 1)) as Hn1.
  { by rewrite Hn, u64_add. }
  split; simpl; rewrite ?length_app, ?sum_by_app; simpl.
  - rewrite Hn1. f_equal. lia.
  - rewrite (oi_total o Hi), u64_add. f_equal. lia.
  - rewrite (oi_up o Hi). f_equal. lia.
  - rewrite (oi_down o Hi). f_equal. lia.
  - intros h c [H|[-> ->]]%lookup_snoc; [by apply (oi_id o Hi)|]. simpl. by rewrite Hn1.
  - intros Hlen id h H. destruct (decide ("transport-" +:+ itoa (u64 (to_nextID o + 1)) = id)) as [<-|Hne].
    + rewrite lookup_insert_eq in H. injection H as <-. eexists.
      split; [by apply list_lookup_middle|done].
    + rewrite lookup_insert_ne in H by done.
      destruct (oi_listed o Hi ltac:(lia) _ _ H) as (c & Hc & ? & ?). exists c.
      split; [|done]. by apply lookup_app_l_Some.
Qed.

Lemma outbound_remove_inv id o : outbound_inv o -> outbound_inv (outbound_remove id o).
Proof.
  intros []. split; simpl; try done. intros Hlen x h [_ H]%lookup_delete_Some. by apply oi_listed0.
Qed.

Lemma finish_if_inv terminal h o : outbound_inv o -> outbound_inv (finish_if terminal h o).
Proof.
  intros Hi. unfold finish_if. destruct (to_conns o !! h); [|done].
  destruct terminal; [by apply outbound_remove_inv|done].
Qed.

(** Counting bytes on a connection keeps what is known of it. *)
Lemma alter_counts_listed (f g : trackedConn -> Z) now h (conns : list trackedConn) i c :
  alter (fun c => set_counts (f c) (g c) now c) h conns !! i = Some c ->
  exists d, conns !! i = Some d /\ tc_id c = tc_id d /\ tc_closed c = tc_closed d.
Proof.
  rewrite list_lookup_alter. case_decide as Heq; [subst|intros H; by exists c].
  destruct (conns !! i) as [d|]; [|done]. simpl. intros [= <-]. by exists d.
Qed.

Lemma alter_counts_inv (f g : trackedConn -> Z) now h o up down :
  outbound_inv o ->
  up = u64 (sum_by tc_uploaded (alter (fun c => set_counts (f c) (g c) now c) h (to_conns o))) ->
  down = u64 (sum_by tc_downloaded (alter (fun c => set_counts (f c) (g c) now c) h (to_conns o))) ->
  outbound_inv {| to_nextID := to_nextID o; to_uploaded := up; to_download := down;
                  to_total := to_total o; to_connections := to_connections o;
                  to_conns := alter (fun c => set_counts (f c) (g c) now c) h (to_conns o) |}.
Proof.
  intros Hi -> ->. split; simpl; rewrite ?length_alter; try done.
  - apply (oi_next o Hi).
  - apply (oi_total o Hi).
  - intros i c H. apply alter_counts_listed in H as (d & Hd & -> & _). by apply (oi_id o Hi).
  - intros Hlen id i H. destruct (oi_listed o Hi Hlen id i H) as (c & Hc & Hid & Hcl).
    rewrite list_lookup_alter. case_decide as Heq; [subst|by exists c].
    rewrite Hc. by eexists.
Qed.

Lemma transport_Read_inv is_timeout h count err now o :
  outbound_inv o -> is_Some (to_conns o !! h) ->
  outbound_inv (transport_Read is_timeout h count err now o).
Proof.
  intros Hi [c Hc]. apply finish_if_inv. case_bool_decide; [|done]. apply alter_counts_inv; [done|..].
  - rewrite sum_by_alter_same by done. apply (oi_up o Hi).
  - rewrite (sum_by_alter _ _ _ _ c Hc), (oi_down o Hi), u64_add. simpl. unfold u64.
    rewrite Zplus_mod_idemp_r. f_equal. lia.
Qed.

Lemma transport_Write_inv is_timeout h count err now o :
  outbound_inv o -> is_Some (to_conns o !! h) ->
  outbound_inv (transport_Write is_timeout h count err now o).
Proof.
  intros Hi [c Hc]. apply finish_if_inv. case_bool_decide; [|done]. apply alter_counts_inv; [done|..].
  - rewrite (sum_by_alter _ _ _ _ c Hc), (oi_up o Hi), u64_add. simpl. unfold u64.
    rewrite Zplus_mod_idemp_r. f_equal. lia.
  - rewrite sum_by_alter_same by done. apply (oi_down o Hi).
Qed.

Lemma transport_Close_inv h err o e o' :
  outbound_inv o -> transport_Close h err o = (e, o') -> outbound_inv o'.
Proof.
  intros Hi. unfold transport_Close. destruct (to_conns o !! h) as [c|] eqn:Hc; [|by intros [= <- <-]].
  destruct (tc_closed c); intros [= <- <-]; [done|].
  assert (length (to_conns o) = length (<[h := set_closed err c]> (to_conns o))) as Hlen by
    (by rewrite length_insert).
  split; simpl; rewrite ?length_insert.
  - apply (oi_next o Hi).
  - apply (oi_total o Hi).
  - rewrite (sum_by_insert_same _ _ _ c) by done. apply (oi_up o Hi).
  - rewrite (sum_by_insert_same _ _ _ c) by done. apply (oi_down o Hi).
  - intros i d H. apply list_lookup_insert_Some in H as [(<- & <- & _)|[_ H]];
      [exact (oi_id o Hi _ _ Hc)|by apply (oi_id o Hi)].
  - intros Hl id i [Hne H]%lookup_delete_Some.
    destruct (oi_listed o Hi Hl id i H) as (d & Hd & Hid & Hcl). exists d.
    rewrite list_lookup_insert_ne; [done|]. intros <-. simplify_eq.
Qed.

Lemma transport_Close_closed h err o e o' d :
  outbound_inv o -> Z.of_nat (length (to_conns o)) < 2 ^ 64 ->
  transport_Close h err o = (e, o') -> to_conns o' !! h = Some d ->
  tc_closed d = Some e /\ to_connections o' !! tc_id d = None.
Proof.
  intros Hi Hlen. unfold transport_Close.
  destruct (to_conns o !! h) as [c|] eqn:Hc; [|intros [= <- <-]; congruence].
  destruct (tc_closed c) as [e0|] eqn:Hcl; intros [= <- <-] Hd.
  - assert (d = c) as -> by congruence. split; [done|].
    destruct (to_connections o !! tc_id c) as [i|] eqn:E; [|done].
    destruct (oi_listed o Hi Hlen _ _ E) as (x & Hx & Hid & Hxc). exfalso.
    rewrite (oi_id o Hi _ _ Hx), (oi_id o Hi _ _ Hc) in Hid.
    apply lookup_lt_Some in Hx as ?. apply lookup_lt_Some in Hc as ?.
    apply numbered_inj in Hid; [|lia..]. congruence.
  - simpl in Hd. rewrite list_lookup_insert_eq in Hd by (by eapply lookup_lt_Some).
    injection Hd as <-. simpl. split; [done|]. by rewrite lookup_delete_eq.
Qed.

(** What holds of the logical connections: those listed are those not closed. *)
Definition is_open (c : logicalConnection) : bool := bool_decide (lc_closed c = None).

Record tracker_inv (t : connectionTracker) : Prop := {
  ti_next : ct_nextID t = u64 (Z.of_nat (length (ct_conns t)));
  ti_total : ct_total t = u64 (Z.of_nat (length (ct_conns t)));
  ti_id : forall l c, ct_conns t !! l = Some c -> lc_id c = connection_id l;
  ti_listed : Z.of_nat (length (ct_conns t)) < 2 ^ 64 -> forall id l,
    ct_connections t !! id = Some l <->
    exists c, ct_conns t !! l = Some c /\ lc_id c = id /\ lc_closed c = None;
  ti_active : Z.of_nat (length (ct_conns t)) < 2 ^ 64 ->
    size (ct_connections t) = length (List.filter is_open (ct_conns t));
}.

Lemma OpenConnection_inv metadata transport now t l t' :
  tracker_inv t -> OpenConnection metadata transport now t = (l, t') -> tracker_inv t'.
Proof.
  intros Hi [= <- <-]. pose proof (ti_next t Hi) as Hn.
  assert (u64 (ct_nextID t + 1) = u64 (Z.of_nat (length (ct_conns t)) + 1)) as Hn1.
  { by rewrite Hn, u64_add. }
  assert (forall Hlen : Z.of_nat (length (ct_conns t)) + 1 < 2 ^ 64,
    ct_connections t !! ("connection-" +:+ itoa (u64 (ct_nextID t + 1))) = None) as Hfresh.
  { intros Hlen. destruct (ct_connections t !! _) as [l|] eqn:E; [|done].
    apply (ti_listed t Hi) in E as (c & Hc & Hid & _); [|lia].
    rewrite (ti_id t Hi _ _ Hc), Hn1 in Hid. pose proof (lookup_lt_Some _ _ _ Hc).
    apply numbered_inj in Hid; lia. }
  split; simpl; rewrite ?length_app; simpl.
  - rewrite Hn1. f_equal. lia.
  - rewrite (ti_total t Hi), u64_add. f_equal. lia.
  - intros l c [H|[-> ->]]%lookup_snoc; [by apply (ti_id t Hi)|]. simpl. by rewrite Hn1.
  - intros Hlen id l. specialize (Hfresh ltac:(lia)).
    destruct (decide ("connection-" +:+ itoa (u64 (ct_nextID t + 1)) = id)) as [<-|Hne].
    + rewrite lookup_insert_eq. split.
      * intros [= <-]. eexists. split; [by apply list_lookup_middle|done].
      * intros (c & [Hc|[-> ->]]%lookup_snoc & Hid & Hcl); [|done]. exfalso.
        assert (ct_connections t !! lc_id c = Some l) as Hx
          by (apply (ti_listed t Hi); [lia|by exists c]). rewrite Hid in Hx. congruence.
    + rewrite lookup_insert_ne, (ti_listed t Hi) by (done || lia). split.
      * intros (c & Hc & ? & ?). exists c. split; [|done]. by apply lookup_app_l_Some.
      * intros (c & [Hc|[-> ->]]%lookup_snoc & Hid & Hcl); [by exists c|]. by destruct Hne.
  - intros Hlen. rewrite map_size_insert_None by (apply Hfresh; lia).
    rewrite List.filter_app, length_app, (ti_active t Hi) by lia. simpl. lia.
Qed.

Lemma length_filter_alter {A} (f : A -> bool) (g : A -> A) h l :
  (forall x, f (g x) = f x) -> length (List.filter f (alter g h l)) = length (List.filter f l).
Proof.
  intros Hg. revert h. induction l as [|y l IH]; intros [|h]; simpl; try done.
  - rewrite Hg. by destruct (f y).
  - destruct (f y); simpl; [f_equal|]; apply IH.
Qed.

Lemma length_filter_insert {A} (f : A -> bool) h l x y :
  l !! h = Some x -> f x = true -> f y = false ->
  S (length (List.filter f (<[h := y]> l))) = length (List.filter f l).
Proof.
  intros H Hx Hy. revert h H. induction l as [|z l IH]; intros [|h] H; simplify_eq/=.
  - by rewrite Hx, Hy.
  - specialize (IH h H). destruct (f z); simpl; rewrite <-IH; done.
Qed.

Lemma alter_lcounts_inv (f g : logicalConnection -> Z) now l t :
  tracker_inv t ->
  tracker_inv (set_lconns (alter (fun c => set_lcounts (f c) (g c) now c) l (ct_conns t)) t).
Proof.
  intros Hi.
  assert (forall i c, alter (fun c => set_lcounts (f c) (g c) now c) l (ct_conns t) !! i = Some c ->
    exists d, ct_conns t !! i = Some d /\ lc_id c = lc_id d /\ lc_closed c = lc_closed d) as Hback.
  { intros i c. rewrite list_lookup_alter. case_decide as Heq; [subst|intros H; by exists c].
    destruct (ct_conns t !! i) as [d|]; [|done]. simpl. intros [= <-]. by exists d. }
  split; simpl; rewrite ?length_alter.
  - apply (ti_next t Hi).
  - apply (ti_total t Hi).
  - intros i c (d & Hd & -> & _)%Hback. by apply (ti_id t Hi).
  - intros Hlen id i. rewrite (ti_listed t Hi Hlen). split.
    + intros (d & Hd & Hid & Hcl). rewrite list_lookup_alter. case_decide as Heq; [subst|by exists d].
      rewrite Hd. by eexists.
    + intros (c & (d & Hd & Hid & Hcl)%Hback & Hc1 & Hc2). exists d. split; [done|]. split; congruence.
  - intros Hlen. rewrite length_filter_alter by done. by apply (ti_active t Hi).
Qed.

Lemma Record_inv l count now t :
  tracker_inv t ->
  tracker_inv (RecordUploaded l count now t) /\ tracker_inv (RecordDownloaded l count now t).
Proof.
  intros Hi. unfold RecordUploaded, RecordDownloaded.
  case_bool_decide; [done|]. by split; apply alter_lcounts_inv.
Qed.

Lemma logical_closed_inv l c e t :
  tracker_inv t -> ct_conns t !! l = Some c -> lc_closed c = None ->
  tracker_inv (tracker_remove (lc_id c) (set_lconns (<[l := set_lclosed e c]> (ct_conns t)) t)).
Proof.
  intros Hi Hc Hcl. split; simpl; rewrite ?length_insert.
  - apply (ti_next t Hi).
  - apply (ti_total t Hi).
  - intros i d [(<- & <- & _)|[_ H]]%list_lookup_insert_Some;
      [exact (ti_id t Hi _ _ Hc)|by apply (ti_id t Hi)].
  - intros Hlen id i. rewrite lookup_delete_Some, (ti_listed t Hi Hlen). split.
    + intros (Hne & d & Hd & Hid & Hdc). exists d. rewrite list_lookup_insert_ne; [done|].
      intros <-. simplify_eq.
    + intros (d & [(<- & <- & _)|[Hne H]]%list_lookup_insert_Some & Hid & Hdc); [done|].
      split; [|by exists d]. intros Heq.
      assert (ct_connections t !! lc_id c = Some l) as H1
        by (apply (ti_listed t Hi Hlen); by exists c).
      assert (ct_connections t !! lc_id d = Some i) as H2
        by (apply (ti_listed t Hi Hlen); by exists d).
      rewrite Hid, <-Heq in H2. congruence.
  - intros Hlen. pose proof (ti_active t Hi Hlen) as Ha.
    rewrite map_size_delete_Some by (exists l; apply (ti_listed t Hi Hlen); by exists c).
    rewrite Ha.
    rewrite <-(length_filter_insert is_open l _ c (set_lclosed e c) Hc);
      [done| |done]. unfold is_open. by rewrite bool_decide_eq_true_2.
Qed.

Definition traffic_inv (s : Traffic) : Prop :=
  outbound_inv (outbound s) /\ tracker_inv (tracker s).

Lemma logical_Close_inv l err s e s' :
  traffic_inv s -> logical_Close l err s = (e, s') -> traffic_inv s'.
Proof.
  intros [Ho Ht]. unfold logical_Close. destruct (ct_conns (tracker s) !! l) as [c|] eqn:Hc;
    [|by intros [= <- <-]].
  destruct (lc_closed c) eqn:Hcl; [by intros [= <- <-]|].
  destruct (lc_transport c) as [h|].
  - destruct (transport_Close h err (outbound s)) as [e1 o] eqn:H1. intros [= <- <-].
    split; [by eapply transport_Close_inv|by apply logical_closed_inv].
  - intros [= <- <-]. split; [done|by apply logical_closed_inv].
Qed.

Lemma traffic_step_inv is_timeout s s' :
  traffic_step is_timeout s s' -> traffic_inv s -> traffic_inv s'.
Proof.
  destruct 1; intros [Ho Ht]; try (split; simpl; try done; fail).
  - split; [by eapply outbound_DialContext_inv|done].
  - unfold runtime_DialContext in H.
    destruct (outbound_DialContext res now network address (outbound s)) as [[h|e] o] eqn:E.
    + destruct (OpenConnection _ _ _ _) as [l t] eqn:El. injection H as <- <-.
      split; [by eapply outbound_DialContext_inv|by eapply OpenConnection_inv].
    + injection H as <- <-. split; [by eapply outbound_DialContext_inv|done].
  - split; [done|by eapply OpenConnection_inv].
  - split; [by apply transport_Read_inv|done].
  - split; [by apply transport_Write_inv|done].
  - split; [by apply transport_Read_inv|by apply Record_inv].
  - split; [by apply transport_Write_inv|by apply Record_inv].
  - split; [done|by apply Record_inv].
  - split; [done|by apply Record_inv].
  - split; [by eapply transport_Close_inv|done].
  - by eapply logical_Close_inv.
Qed.

Lemma newTraffic_inv : traffic_inv newTraffic.
Proof.
  split; split; simpl; try done. intros _ id l. rewrite lookup_empty. split; [done|].
  by intros (c & Hc & _).
Qed.

Definition traffic_reachable (is_timeout : error -> bool) (s : Traffic) : Prop :=
  rtc (traffic_step is_timeout) newTraffic s.

Lemma traffic_reachable_inv is_timeout s : traffic_reachable is_timeout s -> traffic_inv s.
Proof.
  intros Hr.
  apply (rtc_closed (traffic_step is_timeout) traffic_inv newTraffic s); [|apply newTraffic_inv|exact Hr].
  intros x y Hx Hxy. by eapply traffic_step_inv.
Qed.

(** The traffic statistics are right. After any operations, in any order, on any
    connections, the reported totals of bytes are the sums over all transport connections,
    closed ones included, up to wrap-around at 64 bits; the connections reported as active
    are exactly the logical connections that have not been closed, and the totals are the
    numbers ever opened. Closing a connection by its identifier succeeds exactly for an active
    one; it is not active afterwards, and neither is its transport connection open or
    listed. *)
Theorem traffic_accounting (is_timeout : error -> bool) (s : Traffic)
    (Hr : traffic_reachable is_timeout s)
    (few_t : Z.of_nat (length (to_conns (outbound s))) < 2 ^ 64)
    (few_l : Z.of_nat (length (ct_conns (tracker s))) < 2 ^ 64) :
  let stats := runtime_TrafficStats s in
  stats_UploadedBytes stats = u64 (sum_by tc_uploaded (to_conns (outbound s))) /\
  stats_DownloadedBytes stats = u64 (sum_by tc_downloaded (to_conns (outbound s))) /\
  stats_ActiveConnections stats = Z.of_nat (length (List.filter is_open (ct_conns (tracker s)))) /\
  stats_TotalConnections stats = Z.of_nat (length (ct_conns (tracker s))) /\
  stats_TotalTransportConnections stats = Z.of_nat (length (to_conns (outbound s))) /\
  (forall id err e s', CloseConnection id err s = (e, s') ->
     match ct_connections (tracker s) !! id with
     | None => s' = s /\ ErrorCodeOf e = ErrorCodeConnectionNotFound
     | Some l => ct_connections (tracker s') !! id = None /\
         forall c h d, ct_conns (tracker s) !! l = Some c -> lc_transport c = Some h ->
           to_conns (outbound s') !! h = Some d ->
           tc_closed d = Some e /\ to_connections (outbound s') !! tc_id d = None
     end).
Proof.
  destruct (traffic_reachable_inv is_timeout s Hr) as [Ho Ht].
  simpl. split_and!.
  - apply (oi_up _ Ho).
  - apply (oi_down _ Ho).
  - by rewrite (ti_active _ Ht few_l).
  - rewrite (ti_total _ Ht). unfold u64. rewrite Z.mod_small; lia.
  - rewrite (oi_total _ Ho). unfold u64. rewrite Z.mod_small; lia.
  - intros id err e s' H. unfold CloseConnection in H.
    destruct (ct_connections (tracker s) !! id) as [l|] eqn:Hid;
      [|by injection H as <- <-].
    destruct (proj1 (ti_listed _ Ht few_l id l) Hid) as (c & Hc & <- & Hcl).
    unfold logical_Close in H. rewrite Hc, Hcl in H.
    destruct (match lc_transport c with Some h => _ | None => _ end) as [e1 o] eqn:H1.
    injection H as <- <-. simpl. split; [by rewrite lookup_delete_eq|].
    intros c' h d Hc' Hh Hd. simplify_eq. rewrite Hh in H1.
    by eapply transport_Close_closed.
Qed.

(** ** A run *)

Definition atrust_route : RouteInfo :=
  {| route_Outbound := OutboundATrust; route_Reason := RouteReasonVPNResource |}.

Definition demo_dialed : Traffic :=
  (runtime_DialContext (Ok atrust_route) 1 "tcp" "10.0.0.1:80" newTraffic).2.

Definition demo_written : Traffic := logical_Write (fun _ => false) 0 0 10 None 2 demo_dialed.

Definition demo_read : Traffic := logical_Read (fun _ => false) 0 0 70000 None 3 demo_written.

Lemma demo_read_reachable : traffic_reachable (fun _ => false) demo_read.
Proof.
  apply (rtc_l _ _ demo_dialed).
  { eapply tr_runtime_dial. apply surjective_pairing. }
  apply (rtc_l _ _ demo_written); [by apply tr_logical_write; [|eexists]|].
  apply rtc_once. by apply tr_logical_read; [|eexists].
Qed.

Lemma traffic_accounting_witness :
  runtime_TrafficStats demo_read =
    {| stats_UploadedBytes := 10; stats_DownloadedBytes := 70000; stats_ActiveConnections := 1;
       stats_TotalConnections := 1; stats_OpenTransportConnections := 1;
       stats_TotalTransportConnections := 1 |} /\
  (forall e s', CloseConnection "connection-1" None demo_read = (e, s') ->
     ct_connections (tracker s') !! "connection-1"%string = None).
Proof.
  destruct (traffic_accounting (fun _ => false) demo_read demo_read_reachable
              ltac:(done) ltac:(done)) as (_ & _ & _ & _ & _ & Hclose).
  split; [by vm_compute|]. intros e s' H. apply Hclose in H.
  replace (ct_connections (tracker demo_read) !! "connection-1"%string) with (Some 0%nat) in H
    by (by vm_compute). apply H.
Defined.

(** ** Closing everything *)

(** A run of [Close] calls leaves every connection named in it closed. *)
Lemma outbound_close_conns_closed handles errs es o o' :
  fold_left (fun '(es, o) h => let '(e, o) := transport_Close h (errs h) o in (es ++ [e], o))
    handles (es, o) = o' ->
  outbound_inv o -> outbound_inv o'.2 /\
  (forall h c, to_conns o'.2 !! h = Some c -> (h ∈ handles \/ exists d, to_conns o !! h = Some d /\ is_Some (tc_closed d)) ->
     is_Some (tc_closed c)) /\
  (forall id h, to_connections o'.2 !! id = Some h -> to_connections o !! id = Some h) /\
  length (to_conns o'.2) = length (to_conns o).
Proof.
  revert es o. induction handles as [|x handles IH]; intros es o H Hi; simpl in H.
  - subst o'. split_and!; [done| |done|done]. simpl. intros h c Hc [?%elem_of_nil|(d & Hd & Hcl)]; [done|].
    by simplify_eq.
  - destruct (transport_Close x (errs x) o) as [e o1] eqn:E.
    pose proof (transport_Close_inv _ _ _ _ _ Hi E) as Hi1.
    destruct (IH _ _ H Hi1) as (Hi' & Hcl & Hsub & Hlen).
    assert (length (to_conns o1) = length (to_conns o) /\
      (forall h c, to_conns o1 !! h = Some c -> h = x \/ (exists d, to_conns o !! h = Some d /\ is_Some (tc_closed d)) ->
         is_Some (tc_closed c)) /\
      (forall id h, to_connections o1 !! id = Some h -> to_connections o !! id = Some h))
      as (Hl1 & Hc1 & Hs1).
    { unfold transport_Close in E. destruct (to_conns o !! x) as [c|] eqn:Hx.
      - destruct (tc_closed c) as [e0|] eqn:Hc0; injection E as <- <-.
        + split_and!; [done| |done]. intros h d Hd [->|(d' & Hd' & ?)]; simplify_eq; [by eexists|done].
        + simpl. split_and!; [by rewrite length_insert| |by intros id h [_ ?]%lookup_delete_Some].
          intros h d [(<- & <- & _)|[Hne Hd]]%list_lookup_insert_Some ?; [by eexists|].
          destruct H0 as [->|(d' & Hd' & ?)]; [done|]. by simplify_eq.
      - injection E as <- <-. split_and!; [done| |done].
        intros h d Hd [->|(d' & Hd' & ?)]; [congruence|by simplify_eq]. }
    split_and!; [done| |by intros id h Hh; apply Hs1, Hsub|congruence].
    intros h c Hc Hin. apply (Hcl h c Hc).
    destruct (lookup_lt_is_Some_2 (to_conns o1) h) as [c1 Hh1].
    { rewrite <-Hlen. by eapply lookup_lt_Some. }
    destruct Hin as [[->|Hin]%elem_of_cons|Hd]; [|by left|]; right; exists c1; (split; [done|]);
      apply (Hc1 _ _ Hh1); [by left|by right].
Qed.

(** Closing the outbound closes every connection it still lists. After [Close], whatever
    the connections answer, no transport connection is listed, and each one that was listed
    is closed. *)
Theorem outbound_Close_closes_all (is_timeout : error -> bool)
    (range : gmap string nat -> list (string * nat)) (range_perm : forall m, range m ≡ₚ map_to_list m)
    (errs : nat -> option error) (delegate e : option error) (s : Traffic) (o : trackedOutbound)
    (Hr : traffic_reachable is_timeout s)
    (few_t : Z.of_nat (length (to_conns (outbound s))) < 2 ^ 64) :
  outbound_Close range errs delegate (outbound s) = (e, o) ->
  to_connections o = ∅ /\
  (forall id h c, to_connections (outbound s) !! id = Some h -> to_conns o !! h = Some c ->
     is_Some (tc_closed c)).
Proof.
  intros H. destruct (traffic_reachable_inv is_timeout s Hr) as [Ho _].
  unfold outbound_Close, outbound_close_conns in H.
  destruct (outbound_close_conns_closed (map snd (range (to_connections (outbound s)))) errs []
    (outbound s) _ eq_refl Ho) as (Hi & Hc & Hs & Hl).
  destruct (fold_left _ _ _) as [es o']. injection H as _ <-. cbn [snd] in *.
  assert (forall id h, to_connections (outbound s) !! id = Some h ->
    h ∈ map snd (range (to_connections (outbound s)))) as Hin.
  { intros id h Hid. apply (list_elem_of_fmap snd).
    exists (id, h). split; [done|]. rewrite range_perm. by apply elem_of_map_to_list. }
  split.
  - apply map_eq. intros id. rewrite lookup_empty.
    destruct (to_connections o' !! id) as [h|] eqn:E; [|done].
    destruct (oi_listed _ Hi ltac:(lia) _ _ E) as (c & Hh & _ & Hcl).
    destruct (Hc h c Hh) as [x Hx]; [left; by eapply Hin, Hs|congruence].
  - intros id h c Hid Hh. apply (Hc h c Hh). left. by eapply Hin.
Qed.

Lemma outbound_Close_closes_all_witness :
  to_connections (outbound_Close map_to_list (fun _ => None) None (outbound demo_read)).2 = ∅.
Proof.
  destruct (outbound_Close map_to_list (fun _ => None) None (outbound demo_read)) as [e o] eqn:E.
  apply (outbound_Close_closes_all (fun _ => false) map_to_list (fun m => reflexivity _)
           (fun _ => None) None e demo_read o demo_read_reachable ltac:(done) E).
Defined.
