(* ===== verification/HalfClose.v ===== *)
(** Ending one direction of a connection (dial/router.go, internal/networkruntime/tracker.go, service/connection.go): the
    wrappers around a connection pass [CloseWrite] on, and the one below which it is missing closes what it wraps. *)

From S2P Require Import Prelude Core GoNet Dial Tracker.

(** A connection and its wrappers, from the inside; a [trackedConn] has its transport connection, an [observedConn] its
    logical connection. *)
Inductive ConnLayers : Type :=
| RawConn (canCloseWrite : bool)
| RoutedConn (conn : ConnLayers)
| TrackedConn (h : nat) (conn : ConnLayers)
| ObservedConn (l : nat) (conn : ConnLayers).

(** What the raw connection was asked for; [None] is nothing. *)
Inductive RawEffect : Type := HalfClosed | FullyClosed.

(** [conn.(interface{ CloseWrite() error })]. *)
Definition has_CloseWrite (c : ConnLayers) : bool := match c with RawConn b => b | _ => true end.

(** [Close] of each wrapper; the raw connection answers [err]. [logical_Close] goes through the transport
    connection that its activity was opened with. *)
Fixpoint layers_Close (err : option error) (c : ConnLayers) (s : Traffic) : option error * Traffic :=
  match c with
  | RawConn _ => (err, s)
  | RoutedConn conn => layers_Close err conn s
  | TrackedConn h _ => let '(e, o) := transport_Close h err (outbound s) in (e, set_outbound o s)
  | ObservedConn l _ => logical_Close l err s
  end.

Fixpoint layers_CloseWrite (err : option error) (c : ConnLayers) (s : Traffic)
    : option RawEffect * option error * Traffic :=
  match c with
  | RawConn true => (Some HalfClosed, err, s)
  | RawConn false => (None, None, s)
  | RoutedConn conn | TrackedConn _ conn | ObservedConn _ conn =>
      if has_CloseWrite conn then layers_CloseWrite err conn s
      else let '(e, s) := layers_Close err c s in (Some FullyClosed, e, s)
  end.

(** The connection below all wrappers. *)
Fixpoint raw_of (c : ConnLayers) : bool :=
  match c with RawConn b => b | RoutedConn c | TrackedConn _ c | ObservedConn _ c => raw_of c end.

Definition wrapped (c : ConnLayers) : bool := match c with RawConn _ => false | _ => true end.

(** A half close reaches a connection that can do it, through any wrappers, and leaves the accounts alone. *)
Lemma half_close_reaches err c s :
  raw_of c = true -> layers_CloseWrite err c s = (Some HalfClosed, err, s).
Proof.
  induction c as [b|c IH|h c IH|l c IH]; cbn; intros Hb; [by subst|..]; rewrite IH by done;
    (destruct (has_CloseWrite c) eqn:Hc; [done|]); destruct c; cbn in *; congruence.
Qed.

(** Where it cannot be done the connection is closed, for good. *)
Lemma half_close_closes err c s :
  raw_of c = false -> wrapped c = true -> (layers_CloseWrite err c s).1.1 = Some FullyClosed.
Proof.
  induction c as [b|c IH|h c IH|l c IH]; [done|..]; intros Hb _; cbn [layers_CloseWrite raw_of] in *;
    (destruct (has_CloseWrite c) eqn:Hc; [apply IH; [done|]; destruct c; cbn in *; [congruence|done..]|];
     by destruct (layers_Close err _ s)).
Qed.

(** As the router's wrapper is the innermost one, the accounts do not see it: the connection counts as active until
    a read fails or it is closed. *)
Lemma half_close_unseen err l h b s :
  (layers_CloseWrite err (ObservedConn l (TrackedConn h (RoutedConn (RawConn b)))) s).2 = s.
Proof. by destruct b. Qed.
