(* ===== verification/Routes.v ===== *)
(** The routes of VPN resources (internal/networkruntime/routes.go). The address sets of
    inet.af/netaddr are an interface with its documented laws. *)

From S2P Require Import Prelude Core GoNet Packet.

(** [netaddr.FromStdIP]: an IPv4-mapped address is an IPv4 address. *)
Definition FromStdIP (ip : IP) : Addr := Unmap (AddrFromSlice ip).

(** What the program relies on of [netaddr.IPSetBuilder], for IPv4 addresses as numbers:
    [b_member] is the set a builder stands for, and [b_IPSet] the prefixes of its set, if it
    has one. *)
Class IPSetBuilder (B : Type) : Type := {
  b_empty : B;
  b_AddRange : Z -> Z -> B -> B;
  b_AddPrefix : Prefix -> B -> B;
  b_Remove : Z -> B -> B;
  b_IPSet : B -> result error (list Prefix);
  b_ParseIPPrefix : string -> option Prefix;
  b_member : B -> Z -> Prop;
  b_parse_ok s p n : b_ParseIPPrefix s = Some p -> pfx_addr p = Addr4 n -> 0 <= pfx_bits p <= 32;
  b_empty_spec a : ~ b_member b_empty a;
  b_range_spec lo hi b a : b_member (b_AddRange lo hi b) a <-> lo <= a <= hi \/ b_member b a;
  b_prefix_spec p n b a : pfx_addr p = Addr4 n -> 0 <= pfx_bits p <= 32 ->
    b_member (b_AddPrefix p b) a <-> Prefix_Contains p (Addr4 a) = true \/ b_member b a;
  b_remove_spec x b a : b_member (b_Remove x b) a <-> b_member b a /\ a <> x;
  b_prefixes b ps a : b_IPSet b = Ok ps ->
    (exists p, p ∈ ps /\ Prefix_Contains p (Addr4 a) = true) <-> b_member b a;
}.

Section Routes.
Context {B : Type} `{IPSetBuilder B}.

Definition add_resource (b : B) (r : IPResource) : B :=
  match FromStdIP (IPMin r), FromStdIP (IPMax r) with
  | Addr4 first, Addr4 last => b_AddRange first last b
  | _, _ => b
  end.

Definition add_address (b : B) (ip : IP) : B :=
  match FromStdIP ip with Addr4 n => b_AddRange n n b | _ => b end.

Definition remove_address (b : B) (ip : IP) : B :=
  match FromStdIP ip with Addr4 n => b_Remove n b | _ => b end.

Definition add_fake_range (fakeIPRange : string) (b : B) : result error B :=
  if is_empty fakeIPRange then Ok b
  else match b_ParseIPPrefix fakeIPRange with
  | Some p =>
      if Is4 (pfx_addr p) then Ok (b_AddPrefix p b)
      else Err (EText ("parse TUN fake IP route " +:+ quote fakeIPRange))
  | None => Err (EText ("parse TUN fake IP route " +:+ quote fakeIPRange))
  end.

(** [dnsRecords] in the order of the walk; the conversion of prefixes is the identity here. *)
Definition buildResourceRoutePrefixes (ipResources : list IPResource)
    (dnsRecords : list (string * IP)) (excludedIPs : list IP) (fakeIPRange : string)
    : result error (list Prefix) :=
  let b := fold_left add_resource ipResources b_empty in
  let b := fold_left add_address (map snd dnsRecords) b in
  match add_fake_range fakeIPRange b with
  | Err e => Err e
  | Ok b =>
      match b_IPSet (fold_left remove_address excludedIPs b) with
      | Err e => Err (EWrap ("build TUN resource routes: " +:+ error_text e) e)
      | Ok prefixes => Ok prefixes
      end
  end.
End Routes.

Definition addStaticDNSResources (resources : list IPResource) (dnsRecords : list (string * IP))
    : list IPResource :=
  resources ++ omap (fun record =>
    match To4 record.2 with
    | Some ipv4 => Some {| IPMin := ipv4; IPMax := ipv4; PortMin := 0; PortMax := 65535;
                           ResProtocol := "all"; AppID := ""; NodeGroupID := "" |}
    | None => None
    end) dnsRecords.

#[export] Instance Prefix_eq_dec : EqDecision Prefix.
Proof. solve_decision. Defined.

Definition equalRoutePrefixes (left right : list Prefix) : bool := bool_decide (left = right).

(** ** Theorem *)

Definition resource_covers (a : Z) (r : IPResource) : Prop :=
  exists first last, FromStdIP (IPMin r) = Addr4 first /\ FromStdIP (IPMax r) = Addr4 last /\
    first <= a <= last.

Section RoutesSpec.
Context {B : Type} `{IPSetBuilder B}.

Lemma add_resources_member rs (b : B) a :
  b_member (fold_left add_resource rs b) a <-> Exists (resource_covers a) rs \/ b_member b a.
Proof.
  revert b. induction rs as [|r rs IH]; intros b; simpl.
  - rewrite Exists_nil. tauto.
  - rewrite IH, Exists_cons. unfold add_resource, resource_covers.
    destruct (FromStdIP (IPMin r)) as [|x|x], (FromStdIP (IPMax r)) as [|y|y];
      try (split; [tauto|]; intros [[(f & l & ? & ? & _)|?]|?]; [done|tauto..]; fail).
    rewrite b_range_spec. split; [intros [?|[?|?]]|intros [[(f & l & [= <-] & [= <-] & ?)|?]|?]];
      try tauto. left. left. by exists x, y.
Qed.

Lemma add_addresses_member ips (b : B) a :
  b_member (fold_left add_address ips b) a <->
  (exists ip, ip ∈ ips /\ FromStdIP ip = Addr4 a) \/ b_member b a.
Proof.
  revert b. induction ips as [|ip ips IH]; intros b; simpl.
  - split; [tauto|]. intros [(? & ?%elem_of_nil & _)|?]; [done|tauto].
  - rewrite IH. unfold add_address.
    assert ((exists x, x ∈ ip :: ips /\ FromStdIP x = Addr4 a) <->
            FromStdIP ip = Addr4 a \/ (exists x, x ∈ ips /\ FromStdIP x = Addr4 a)) as Heq.
    { split.
      - intros (x & [->|Hx]%elem_of_cons & Ha); [by left|right; by exists x].
      - intros [Ha|(x & Hx & Ha)]; [exists ip|exists x]; (split; [|done]); [by left|by right]. }
    rewrite Heq. destruct (FromStdIP ip) as [|x|x].
    + split; [tauto|]. intros [[?|?]|?]; [done|tauto..].
    + rewrite b_range_spec. split.
      * intros [?|[?|?]]; try tauto. left. left. f_equal. lia.
      * intros [[[= ->]|?]|?]; try tauto. right. left. lia.
    + split; [tauto|]. intros [[?|?]|?]; [done|tauto..].
Qed.

Lemma remove_addresses_member ips (b : B) a :
  b_member (fold_left remove_address ips b) a <->
  b_member b a /\ ~ exists ip, ip ∈ ips /\ FromStdIP ip = Addr4 a.
Proof.
  revert b. induction ips as [|ip ips IH]; intros b; simpl.
  - split; [|tauto]. intros Hb. split; [done|]. by intros (? & ?%elem_of_nil & _).
  - rewrite IH. unfold remove_address.
    assert ((exists x, x ∈ ip :: ips /\ FromStdIP x = Addr4 a) <->
            FromStdIP ip = Addr4 a \/ (exists x, x ∈ ips /\ FromStdIP x = Addr4 a)) as ->.
    { split.
      - intros (x & [->|Hx]%elem_of_cons & Ha); [by left|right; by exists x].
      - intros [Ha|(x & Hx & Ha)]; [exists ip|exists x]; (split; [|done]); [by left|by right]. }
    destruct (FromStdIP ip) as [|x|x].
    + split; [intros [? Hn]|tauto]. split; [done|]. intros [?|?]; [done|tauto].
    + rewrite b_remove_spec. split.
      * intros [[? Hne] Hn]. split; [done|]. intros [[= ->]|?]; [done|tauto].
      * intros [? Hn]. split; [split; [done|]|]; [|tauto]. intros ->. tauto.
    + split; [intros [? Hn]|tauto]. split; [done|]. intros [?|?]; [done|tauto].
Qed.
End RoutesSpec.

(** The TUN routes are exactly the VPN's addresses. When the routes can be built, an IPv4
    address is routed through the TUN if and only if it lies in the range of an IPv4 resource,
    is the address of a static DNS record or lies in the fake range, and is not one of the
    excluded addresses, those of the VPN's own servers. *)
Theorem routes_exact {B} `{IPSetBuilder B} (ipResources : list IPResource)
    (dnsRecords : list (string * IP)) (excludedIPs : list IP) (fakeIPRange : string)
    (routes : list Prefix) (a : Z) :
  buildResourceRoutePrefixes ipResources dnsRecords excludedIPs fakeIPRange = Ok routes ->
  ((exists p, p ∈ routes /\ Prefix_Contains p (Addr4 a) = true) <->
   (Exists (resource_covers a) ipResources \/
    (exists host ip, (host, ip) ∈ dnsRecords /\ FromStdIP ip = Addr4 a) \/
    (fakeIPRange <> ""%string /\ exists p, b_ParseIPPrefix fakeIPRange = Some p /\
       Prefix_Contains p (Addr4 a) = true)) /\
   ~ (exists ip, ip ∈ excludedIPs /\ FromStdIP ip = Addr4 a)).
Proof.
  unfold buildResourceRoutePrefixes. intros Hb.
  set (b0 := fold_left add_address _ _) in Hb.
  assert (b_member b0 a <-> Exists (resource_covers a) ipResources \/
    exists host ip, (host, ip) ∈ dnsRecords /\ FromStdIP ip = Addr4 a) as H0.
  { unfold b0. rewrite add_addresses_member, add_resources_member.
    pose proof (b_empty_spec a). split.
    - intros [(ip & Hin & Ha)|[?|?]]; [|tauto..].
      apply (list_elem_of_fmap snd) in Hin as ([host ip'] & -> & Hin). right. by exists host, ip'.
    - intros [?|(host & ip & Hin & Ha)]; [tauto|]. left. exists ip. split; [|done].
      apply (list_elem_of_fmap snd). by exists (host, ip). }
  destruct (add_fake_range fakeIPRange b0) as [b1|e] eqn:Hf; [|done].
  assert (b_member b1 a <-> b_member b0 a \/ (fakeIPRange <> ""%string /\
    exists p, b_ParseIPPrefix fakeIPRange = Some p /\ Prefix_Contains p (Addr4 a) = true)) as H1.
  { unfold add_fake_range, is_empty in Hf. case_bool_decide as He.
    - injection Hf as <-. split; [tauto|]. intros [?|[? _]]; [tauto|done].
    - destruct (b_ParseIPPrefix fakeIPRange) as [p|] eqn:Hp; [|done].
      destruct (pfx_addr p) as [|n|] eqn:Hn; [done| |done]. injection Hf as <-.
      rewrite (b_prefix_spec p n) by (done || by eapply b_parse_ok).
      split; [intros [?|?]|intros [?|(_ & q & [= <-] & ?)]]; try tauto.
      right. split; [done|]. by exists p. }
  destruct (b_IPSet _) as [prefixes|e] eqn:Hs; [|done]. injection Hb as <-.
  rewrite (b_prefixes _ _ _ Hs), remove_addresses_member. tauto.
Qed.

(** ** Address sets as lists of ranges *)

Definition Ranges : Type := list (Z * Z).

Definition in_range (a : Z) (r : Z * Z) : Prop := r.1 <= a <= r.2.

Definition ranges_AddPrefix (p : Prefix) (b : Ranges) : Ranges :=
  match pfx_addr p with
  | Addr4 n =>
      let block := 2 ^ (32 - pfx_bits p) in
      (n / block * block, n / block * block + block - 1) :: b
  | _ => b
  end.

Definition ranges_Remove (x : Z) (b : Ranges) : Ranges :=
  flat_map (fun r => if bool_decide (r.1 <= x <= r.2) then [(r.1, x - 1); (x + 1, r.2)] else [r]) b.

Definition host_prefixes (r : Z * Z) : list Prefix :=
  map (fun a => {| pfx_addr := Addr4 a; pfx_bits := 32 |}) (seqZ r.1 (r.2 - r.1 + 1)).

Lemma in_flat_map_Exists {A} (P : Z -> A -> Prop) (f : A -> list A) (Q : Z -> A -> Prop) a l :
  (forall x, Exists (P a) (f x) <-> Q a x) -> Exists (P a) (flat_map f l) <-> Exists (Q a) l.
Proof.
  intros Hf. induction l as [|x l IH]; simpl; [by rewrite !Exists_nil|].
  by rewrite Exists_app, Exists_cons, Hf, IH.
Qed.

#[export] Instance ranges_builder : IPSetBuilder Ranges.
Proof.
  refine {| b_empty := []; b_AddRange lo hi b := (lo, hi) :: b; b_AddPrefix := ranges_AddPrefix;
            b_Remove := ranges_Remove; b_IPSet b := Ok (flat_map host_prefixes b);
            b_ParseIPPrefix := ParsePrefix; b_member b a := Exists (in_range a) b |}.
  - intros s p n Hp Hn. by eapply ParsePrefix_bounds.
  - intros a H. by apply Exists_nil in H.
  - intros lo hi b a. by rewrite Exists_cons.
  - intros p n b a Hp Hbits. unfold ranges_AddPrefix. rewrite Hp. destruct p as [addr bits].
    simpl in *. subst addr. rewrite Exists_cons, Prefix_Contains_block by done.
    unfold in_range. simpl.
    assert (0 < 2 ^ (32 - bits)) as Hpos by (apply Z.pow_pos_nonneg; lia).
    assert (n / 2 ^ (32 - bits) * 2 ^ (32 - bits) <= a <=
            n / 2 ^ (32 - bits) * 2 ^ (32 - bits) + 2 ^ (32 - bits) - 1 <->
            n / 2 ^ (32 - bits) = a / 2 ^ (32 - bits)) as ->; [|done].
    generalize dependent (2 ^ (32 - bits)). intros k Hk.
    pose proof (Z.div_mod a k ltac:(lia)). pose proof (Z.mod_pos_bound a k Hk).
    split; intros; nia.
  - intros x b a. induction b as [|[lo hi] b IH]; simpl.
    + rewrite !Exists_nil. tauto.
    + rewrite Exists_app, Exists_cons, IH. unfold in_range at 3.
      simpl. generalize (Exists (in_range a) b) as P. intros P.
      case_bool_decide; rewrite !Exists_cons, Exists_nil; unfold in_range; simpl;
        (split; [intros [?|?]|]); intuition lia.
  - intros b ps a [= <-]. induction b as [|[lo hi] b IH]; simpl.
    + rewrite Exists_nil. split; [|done]. by intros (p & ?%elem_of_nil & _).
    + rewrite Exists_cons, <-IH. unfold in_range at 1. simpl. split.
      * intros (p & [Hp|Hp]%elem_of_app & Hc); [left|right; by exists p].
        apply (list_elem_of_fmap (fun a => {| pfx_addr := Addr4 a; pfx_bits := 32 |})) in Hp
          as (x & -> & Hx%elem_of_seqZ). apply Prefix_Contains_host in Hc. simpl in *. lia.
      * intros [Ha|(p & Hp & Hc)].
        -- exists {| pfx_addr := Addr4 a; pfx_bits := 32 |}. rewrite elem_of_app. split.
           ++ left. apply (list_elem_of_fmap (fun a => {| pfx_addr := Addr4 a; pfx_bits := 32 |})).
              exists a. split; [done|]. apply elem_of_seqZ. simpl. lia.
           ++ by apply Prefix_Contains_host.
        -- exists p. rewrite elem_of_app. split; [by right|done].
Defined.

Definition sample_route_resource : IPResource :=
  {| IPMin := IPv4 10 0 0 1; IPMax := IPv4 10 0 0 3; PortMin := 0; PortMax := 65535;
     ResProtocol := "all"; AppID := ""; NodeGroupID := "" |}.

(** Of 10.0.0.1 to 10.0.0.3, the VPN server 10.0.0.2 is left out. *)
Lemma routes_exact_witness :
  exists routes, buildResourceRoutePrefixes (B := Ranges) [sample_route_resource] []
                   [IPv4 10 0 0 2] "" = Ok routes /\
    length routes = 2%nat /\
    ~ (exists p, p ∈ routes /\ Prefix_Contains p (Addr4 167772162) = true).
Proof.
  destruct (buildResourceRoutePrefixes (B := Ranges) [sample_route_resource] []
              [IPv4 10 0 0 2] "") as [routes|e] eqn:H; [|vm_compute in H; discriminate].
  exists routes. split; [done|]. split; [vm_compute in H; by injection H as <-|].
  rewrite (routes_exact _ _ _ _ _ 167772162 H). intros [_ Hn]. apply Hn.
  exists (IPv4 10 0 0 2). split; [by constructor|by vm_compute].
Defined.
