(* ===== verification/NetRuntime.v ===== *)
(** The network runtime (internal/networkruntime/runtime.go, inbound.go, errors.go): building a
    VPN backend, starting the inbound services, replacing the backend while connections go on,
    and closing. The client, the stack, the resolver and the services answer as arguments;
    what is open is part of every result. *)

From S2P Require Import Prelude Core GoNet Packet Dial Routes.

(** ** Building a backend *)

(** [networkruntime.Config], the fields this part reads; maps in the order of their walk. *)
Record NetConfig : Type := {
  nc_DisableRemoteDNS : bool;
  nc_RemoteDNSServer : string;
  nc_DNSTTL : Z;
  nc_DNSBind : string;
  nc_Hosts : list (string * string);
  nc_SOCKSBind : string;
  nc_HTTPBind : string;
  nc_TUNEnabled : bool;
  nc_TUNAutoRoute : bool;
  nc_TUNRouteAll : bool;
  nc_TUNOutboundInterface : string;
  nc_TUNFakeIP : bool;
  nc_TUNFakeIPRange : string;
}.

(** What the client, the stack and the resolver answer while one backend is built. *)
Record BackendAnswers : Type := {
  ba_IPResources : result error (list IPResource);
  ba_DomainResources : result error (list (string * DomainResource));
  ba_DNSResource : result error (list (string * IP));
  ba_RouteExcludedIPs : list IP;
  ba_NewStack : result error unit;
  ba_DNSServer : result error string;
  ba_InterfaceName : string;
  ba_NewResolver : result error unit;
  ba_SetPermanentDNS : string -> IP -> option error;
}.

(** What the resolver and the outbound of a backend were made with. *)
Record BackendSetup : Type := {
  bs_ipResources : list IPResource;
  bs_domainResources : list (string * DomainResource);
  bs_dnsRecords : list (string * IP);
  bs_useRemoteDNS : bool;
  bs_remoteDNSServer : string;
  bs_ttl : Z;
  bs_secondaryInterface : string;
  bs_routes : list Prefix;
}.

(** The resources of a backend that are open: its stack and its resolver. *)
Record OpenParts : Type := { stack_open : bool; resolver_open : bool }.

Definition nothing_open : OpenParts := {| stack_open := false; resolver_open := false |}.

Definition open_stack (o : OpenParts) : OpenParts :=
  {| stack_open := true; resolver_open := resolver_open o |}.
Definition open_resolver (o : OpenParts) : OpenParts :=
  {| stack_open := stack_open o; resolver_open := true |}.
Definition close_stack (o : OpenParts) : OpenParts :=
  {| stack_open := false; resolver_open := resolver_open o |}.
Definition close_resolver (o : OpenParts) : OpenParts :=
  {| stack_open := stack_open o; resolver_open := false |}.

Definition resource_routes_wanted (config : NetConfig) : bool :=
  nc_TUNEnabled config && nc_TUNAutoRoute config && negb (nc_TUNRouteAll config).

(** [optionalIPResources] and its like: no such resources is an empty answer. *)
Definition optional_resources {A} (r : result error (list A)) : result error (list A) :=
  match r with
  | Ok l => Ok l
  | Err e => if errors_Is e "client.ErrResourceNotFound" then Ok [] else Err e
  end.

(** The walk over [config.Hosts]. *)
Fixpoint set_hosts (set : string -> IP -> option error) (hosts : list (string * string))
    : option error :=
  match hosts with
  | [] => None
  | (host, text) :: rest =>
      match ParseIP text with
      | None => Some (EText ("invalid static DNS address for " +:+ quote host +:+ ": " +:+ quote text))
      | Some address =>
          match set host address with Some e => Some e | None => set_hosts set rest end
      end
  end.

(** The remote DNS server: the configured one, or the client's, or none. *)
Definition choose_remote_dns (config : NetConfig) (server : result error string)
    : result error (bool * string) :=
  let useRemoteDNS := negb (nc_DisableRemoteDNS config) in
  if useRemoteDNS && (is_empty (nc_RemoteDNSServer config)
                      || bool_decide (nc_RemoteDNSServer config = "auto"%string)) then
    match server with
    | Ok s => Ok (true, s)
    | Err e => if errors_Is e "client.ErrResourceNotFound" then Ok (false, ""%string) else Err e
    end
  else Ok (useRemoteDNS, nc_RemoteDNSServer config).

Section Backend.
Context {B : Type} `{IPSetBuilder B}.

Definition newVPNBackend (config : NetConfig) (a : BackendAnswers)
    : result error BackendSetup * OpenParts :=
  let parts := nothing_open in
  match optional_resources (ba_IPResources a) with
  | Err e => (Err e, parts)
  | Ok ipResources =>
  match optional_resources (ba_DomainResources a) with
  | Err e => (Err e, parts)
  | Ok domainResources =>
  match optional_resources (ba_DNSResource a) with
  | Err e => (Err e, parts)
  | Ok dnsRecords =>
  match (if resource_routes_wanted config then
           match buildResourceRoutePrefixes (B := B) ipResources dnsRecords (ba_RouteExcludedIPs a)
                   (if nc_TUNFakeIP config then nc_TUNFakeIPRange config else "") with
           | Err e => Err e
           | Ok routes => Ok (routes, addStaticDNSResources ipResources dnsRecords)
           end
         else Ok ([], ipResources)) with
  | Err e => (Err e, parts)
  | Ok (routes, ipResources) =>
  match ba_NewStack a with
  | Err e => (Err e, parts)
  | Ok _ =>
  let parts := open_stack parts in
  match choose_remote_dns config (ba_DNSServer a) with
  | Err e => (Err e, close_stack parts)
  | Ok (useRemoteDNS, remoteDNSServer) =>
  let secondary :=
    if nc_TUNEnabled config && nc_TUNAutoRoute config then
      if is_empty (nc_TUNOutboundInterface config) then ba_InterfaceName a
      else nc_TUNOutboundInterface config
    else ""%string in
  match ba_NewResolver a with
  | Err e => (Err e, close_stack parts)
  | Ok _ =>
  let parts := open_resolver parts in
  match set_hosts (ba_SetPermanentDNS a) (nc_Hosts config) with
  | Some e => (Err e, close_stack (close_resolver parts))
  | None =>
      (Ok {| bs_ipResources := ipResources; bs_domainResources := domainResources;
             bs_dnsRecords := dnsRecords; bs_useRemoteDNS := useRemoteDNS;
             bs_remoteDNSServer := remoteDNSServer;
             bs_ttl := if bool_decide (nc_DNSTTL config = 0) then 3600 else nc_DNSTTL config;
             bs_secondaryInterface := secondary; bs_routes := routes |}, parts)
  end end end end end end end end.
End Backend.

(** ** Inbound services *)

Definition ServiceTypeTUN : string := "tun".
Definition ServiceTypeSOCKS5 : string := "socks5".
Definition ServiceTypeHTTP : string := "http".
Definition ServiceTypeDNS : string := "dns".

(** [isRouteSetupError]. *)
Definition route_markers : list string :=
  ["add route "; "add ipv4 route "; "add ipv6 route "; "add rule "; "cleanup rules"].

Definition isRouteSetupError (e : error) : bool :=
  existsb (Contains (ToLower (error_text e))) route_markers.

Definition wrapServiceStartError (serviceType : string) (err : option error) : option error :=
  match err with
  | None => None
  | Some e =>
      let start := "start " +:+ serviceType +:+ " service" in
      if errors_Is e "syscall.EADDRINUSE" then
        Some (WrapError ErrorCodeAddressInUse start false err)
      else if errors_Is e "os.ErrPermission" || errors_Is e "syscall.EPERM"
              || errors_Is e "syscall.EACCES" then
        Some (WrapError ErrorCodePermissionDenied start false err)
      else if bool_decide (serviceType = ServiceTypeTUN) && isRouteSetupError e then
        Some (WrapError ErrorCodeRouteSetupFailed "install TUN routes" false err)
      else if bool_decide (serviceType = ServiceTypeDNS) then
        Some (WrapError ErrorCodeDNSStartFailed "start DNS service" false err)
      else if bool_decide (serviceType = ServiceTypeTUN) then
        Some (WrapError ErrorCodeTUNUnavailable "start TUN service" false err)
      else Some (WrapError ErrorCodeNetworkSetupFailed start false err)
  end.

(** A factory with the answers of its constructor, [None] being a nil service, and of the
    service's [Start] and [Close]. *)
Record InboundFactory : Type := {
  if_Type : string;
  if_Enabled : bool;
  if_New : result error (option unit);
  if_Start : option error;
  if_Close : option error;
  if_Addr : string;
}.

(** [defaultInboundFactories]: the services in the order of their start; each takes its
    answers from the last argument. *)
Definition defaultInboundFactories (config : NetConfig) (answers : string -> InboundFactory)
    : list InboundFactory :=
  let factory type enabled :=
    let a := answers type in
    {| if_Type := type; if_Enabled := enabled; if_New := if_New a; if_Start := if_Start a;
       if_Close := if_Close a; if_Addr := if_Addr a |} in
  [ factory ServiceTypeDNS (negb (is_empty (nc_DNSBind config)));
    factory ServiceTypeTUN (nc_TUNEnabled config);
    factory ServiceTypeSOCKS5 (negb (is_empty (nc_SOCKSBind config)));
    factory ServiceTypeHTTP (negb (is_empty (nc_HTTPBind config))) ].

(** [se_open]: the service was built and not closed yet; it is not in the code. *)
Record serviceEntry : Type := {
  se_factory : InboundFactory;
  se_running : bool;
  se_lastError : string;
  se_open : bool;
}.

Definition markStarted (e : serviceEntry) : serviceEntry :=
  {| se_factory := se_factory e; se_running := true; se_lastError := ""; se_open := se_open e |}.

Definition markStopped (err : option error) (e : serviceEntry) : serviceEntry :=
  {| se_factory := se_factory e; se_running := false;
     se_lastError := match err with Some x => error_text x | None => se_lastError e end;
     se_open := se_open e |}.

Definition service_status (e : serviceEntry) : ServiceStatus :=
  {| svc_Type := if_Type (se_factory e); svc_Address := if_Addr (se_factory e);
     svc_Running := se_running e; svc_LastError := se_lastError e |}.

(** [startServices]: the entries so far and the first failure. *)
Fixpoint startServices (factories : list InboundFactory) (services : list serviceEntry)
    : option error * list serviceEntry :=
  match factories with
  | [] => (None, services)
  | f :: rest =>
      if negb (if_Enabled f) then startServices rest services
      else match if_New f with
      | Err e => (wrapServiceStartError (if_Type f) (Some e), services)
      | Ok None =>
          (wrapServiceStartError (if_Type f) (Some (EText "inbound factory returned no service")),
           services)
      | Ok (Some _) =>
          let entry := {| se_factory := f; se_running := false; se_lastError := "";
                          se_open := true |} in
          match if_Start f with
          | Some e =>
              (wrapServiceStartError (if_Type f) (Some e),
               services ++ [markStopped (Some e) entry])
          | None => startServices rest (services ++ [markStarted entry])
          end
      end
  end.

(** The services are closed from the last to the first. One whose [Close] fails may be open still. *)
Definition close_service (e : serviceEntry) : option error * serviceEntry :=
  let err := if_Close (se_factory e) in
  let e := markStopped err e in
  (err, {| se_factory := se_factory e; se_running := se_running e; se_lastError := se_lastError e;
           se_open := match err with Some _ => se_open e | None => false end |}).

Fixpoint close_services (services : list serviceEntry) : list (option error) * list serviceEntry :=
  match services with
  | [] => ([], [])
  | e :: rest =>
      let '(errs, rest) := close_services rest in
      let '(err, e) := close_service e in
      (errs ++ [err], e :: rest)
  end.

(** ** [New] *)

Record NewAnswers : Type := {
  na_backend : BackendAnswers;
  na_InterfaceName : string;
  na_NewInternetOutbound : result error unit;
  na_services : string -> InboundFactory;
  na_InboundFactories : list InboundFactory;
}.

(** What is open of a runtime: the parts of its backend, the Internet outbound and the
    services it has. *)
Record NetWorld : Type := {
  nw_parts : OpenParts;
  nw_internet : bool;
  nw_services : list serviceEntry;
}.

Definition close_backend (w : NetWorld) : NetWorld :=
  {| nw_parts := close_stack (close_resolver (nw_parts w)); nw_internet := nw_internet w;
     nw_services := nw_services w |}.

Definition close_internet (w : NetWorld) : NetWorld :=
  {| nw_parts := nw_parts w; nw_internet := false; nw_services := nw_services w |}.

(** [Runtime.Close] in one go: the services, the outbound, which closes the Internet outbound
    with its router, and the backend. *)
Definition close_runtime (w : NetWorld) : NetWorld :=
  close_backend (close_internet
    {| nw_parts := nw_parts w; nw_internet := nw_internet w;
       nw_services := (close_services (nw_services w)).2 |}).

Definition interfaceUnavailable : error :=
  WrapError ErrorCodeInterfaceUnavailable
    "TUN auto route requires a detectable outbound interface" false None.

Section New.
Context {B : Type} `{IPSetBuilder B}.

Definition NewRuntime (config : NetConfig) (mode : RoutingMode) (a : NewAnswers)
    : result error BackendSetup * NetWorld :=
  let '(res, parts) := newVPNBackend (B := B) config (na_backend a) in
  let w := {| nw_parts := parts; nw_internet := false; nw_services := [] |} in
  match res with
  | Err e => (Err e, w)
  | Ok backend =>
      let auto := nc_TUNEnabled config && nc_TUNAutoRoute config in
      let interface := if auto && is_empty (nc_TUNOutboundInterface config)
                       then na_InterfaceName a else nc_TUNOutboundInterface config in
      if auto && is_empty interface then (Err interfaceUnavailable, close_backend w)
      else match na_NewInternetOutbound a with
      | Err e => (Err e, close_backend w)
      | Ok _ =>
          let w := {| nw_parts := nw_parts w; nw_internet := true; nw_services := [] |} in
          match NewRouterWithDirect tt tt tt mode with
          | Err e => (Err e, close_backend (close_internet w))
          | Ok _ =>
              let factories := defaultInboundFactories config (na_services a)
                               ++ na_InboundFactories a in
              let '(err, services) := startServices factories [] in
              let w := {| nw_parts := nw_parts w; nw_internet := nw_internet w;
                          nw_services := services |} in
              match err with
              | Some e => (Err e, close_runtime w)
              | None => (Ok backend, w)
              end
          end
      end
  end.

(** *** All or nothing *)

Lemma newVPNBackend_parts config a res parts :
  newVPNBackend (B := B) config a = (res, parts) ->
  match res with
  | Ok _ => parts = {| stack_open := true; resolver_open := true |}
  | Err _ => parts = nothing_open
  end.
Proof. unfold newVPNBackend. repeat case_match; intros [= <- <-]; done. Qed.

End New.

Definition started (f : InboundFactory) : serviceEntry :=
  markStarted {| se_factory := f; se_running := false; se_lastError := ""; se_open := true |}.

(** A start that failed: the first failing factory, the services before it and, if it was
    built, its own, and the error with its code. *)
Definition failed_start (factories : list InboundFactory) (services services' : list serviceEntry)
    (e : error) : Prop :=
  exists before f after last cause, factories = before ++ f :: after /\ if_Enabled f = true /\
    services' = services ++ map started (List.filter if_Enabled before) ++ last /\
    map se_factory last `prefix_of` [f] /\ wrapServiceStartError (if_Type f) (Some cause) = Some e.

Lemma started_factories factories : map se_factory (map started factories) = factories.
Proof. induction factories; simpl; by f_equal. Qed.

Lemma failed_start_factories factories services' e :
  failed_start factories [] services' e -> map se_factory services' `prefix_of` List.filter if_Enabled factories.
Proof.
  intros (before & f & after & last & cause & -> & Hf & -> & Hl & _). rewrite List.filter_app. simpl. rewrite Hf, map_app, started_factories. apply prefix_app. etrans; [exact Hl|]. by apply prefix_cons, prefix_nil.
Qed.

Lemma wrapServiceStartError_some type e : exists x, wrapServiceStartError type (Some e) = Some x.
Proof. simpl. repeat case_match; by eexists. Qed.

Lemma failed_here f rest services last e cause :
  if_Enabled f = true -> map se_factory last `prefix_of` [f] ->
  wrapServiceStartError (if_Type f) (Some cause) = Some e ->
  failed_start (f :: rest) services (services ++ last) e.
Proof. intros Hen Hl Hw. by exists [], f, rest, last, cause. Qed.

Lemma failed_later f rest services services' e :
  failed_start rest (services ++ map started (List.filter if_Enabled [f])) services' e ->
  failed_start (f :: rest) services services' e.
Proof.
  intros (before & g & after & last & cause & -> & Hg & -> & Hl & Hw).
  exists (f :: before), g, after, last, cause. split_and!; try done.
  rewrite <-app_assoc. f_equal. rewrite app_assoc, <-map_app, <-List.filter_app. done.
Qed.

Lemma startServices_spec factories services err services' :
  startServices factories services = (err, services') ->
  match err with
  | None => services' = services ++ map started (List.filter if_Enabled factories)
  | Some e => failed_start factories services services' e
  end.
Proof.
  revert services. induction factories as [|f rest IH]; intros services; cbn [startServices].
  - intros [= <- <-]. by rewrite app_nil_r.
  - destruct (if_Enabled f) eqn:Hen; cbn [negb].
    2:{ intros H%IH. destruct err as [e|].
        - apply failed_later. simpl. by rewrite Hen, app_nil_r.
        - simpl. by rewrite Hen. }
    assert (forall cause last, map se_factory last `prefix_of` [f] ->
      (wrapServiceStartError (if_Type f) (Some cause), services ++ last) = (err, services') ->
      match err with Some e => failed_start (f :: rest) services services' e | None => False end)
      as Hfail.
    { intros cause last Hl. destruct (wrapServiceStartError_some (if_Type f) cause) as [x Hx].
      rewrite Hx. intros [= <- <-]. by eapply failed_here. }
    assert (forall cause, (wrapServiceStartError (if_Type f) (Some cause), services) = (err, services') ->
      match err with Some e => failed_start (f :: rest) services services' e | None => False end)
      as Hfail0.
    { intros cause H. apply (Hfail cause []); [apply prefix_nil|by rewrite app_nil_r]. }
    destruct (if_New f) as [[u|]|e].
    + destruct (if_Start f) as [e|].
      * intros H. apply Hfail in H; [by destruct err|done].
      * intros H%IH. destruct err as [e|].
        -- apply failed_later. simpl. by rewrite Hen.
        -- simpl. rewrite Hen. simpl. by rewrite H, <-app_assoc.
    + intros H%Hfail0. by destruct err.
    + intros H%Hfail0. by destruct err.
Qed.

(** A service whose [Close] was called: it is closed, or it failed and says so. *)
Definition close_tried (e : serviceEntry) : Prop :=
  se_running e = false /\
  match if_Close (se_factory e) with
  | None => se_open e = false
  | Some err => se_lastError e = error_text err
  end.

Lemma close_service_tried e : close_tried (close_service e).2.
Proof. unfold close_tried, close_service. cbn. split; [done|]. by destruct (if_Close (se_factory e)). Qed.

Lemma close_services_tried services : Forall close_tried (close_services services).2.
Proof.
  induction services as [|x rest IH]; simpl; [done|].
  destruct (close_services rest) as [errs rest']. constructor; [apply close_service_tried|exact IH].
Qed.

Lemma close_services_factories services : map se_factory (close_services services).2 = map se_factory services.
Proof.
  induction services as [|x rest IH]; simpl; [done|].
  destruct (close_services rest) as [errs rest']. simpl in *. by f_equal.
Qed.

(** What a failed start leaves. *)
Definition nothing_runs (w : NetWorld) : Prop :=
  nw_parts w = nothing_open /\ nw_internet w = false /\ Forall close_tried (nw_services w).

Lemma nothing_runs_no_services w :
  nw_parts w = nothing_open -> nw_internet w = false -> nw_services w = [] -> nothing_runs w.
Proof. intros Hp Hi Hs. split_and!; [done|done|]. by rewrite Hs. Qed.

Lemma failed_before_services w factories :
  nw_parts w = nothing_open -> nw_internet w = false -> nw_services w = [] ->
  nothing_runs w /\ map se_factory (nw_services w) `prefix_of` factories.
Proof. intros Hp Hi Hs. split; [by apply nothing_runs_no_services|]. rewrite Hs. apply prefix_nil. Qed.

Lemma close_runtime_nothing w : nothing_runs (close_runtime w).
Proof. split_and!; [done|done|]. apply close_services_tried. Qed.


(** The DNS service has started, the port of the TUN service is taken, and the DNS server answers [Close] that it is
    not running yet: it goes on to serve. *)
Definition demo_answers (type : string) : InboundFactory := {|
  if_Type := type; if_Enabled := true; if_New := Ok (Some tt);
  if_Start := if bool_decide (type = ServiceTypeDNS) then None else Some (EText "no such device");
  if_Close := if bool_decide (type = ServiceTypeDNS) then Some (EText "server not started") else None;
  if_Addr := "";
|}.

Definition demo_factories : list InboundFactory :=
  defaultInboundFactories {| nc_DisableRemoteDNS := false; nc_RemoteDNSServer := ""; nc_DNSTTL := 0; nc_DNSBind := ":53";
    nc_Hosts := []; nc_SOCKSBind := ""; nc_HTTPBind := ""; nc_TUNEnabled := true; nc_TUNAutoRoute := false;
    nc_TUNRouteAll := false; nc_TUNOutboundInterface := ""; nc_TUNFakeIP := false; nc_TUNFakeIPRange := "" |} demo_answers.

Example failed_close_leaves_service_open :
  map (fun e => (if_Type (se_factory e), se_open e)) (close_services (startServices demo_factories []).2).2 =
    [(ServiceTypeDNS, true); (ServiceTypeTUN, false)].
Proof. vm_compute. reflexivity. Qed.
