(* ===== verification/BackendSwitch.v ===== *)
(** Replacing the VPN backend of a running network (internal/networkruntime/runtime.go): the
    switchable outbound and resolver, [ReplaceVPN] from several goroutines, failures of the
    backend and of the TUN, and [Close]. Backends are handles. Every critical section is a
    step; [ReplaceVPN] holds [backendMu] over three of them, since the dials and the resolutions
    take the mutexes of the switchable outbound and resolver only and can come in between. *)

From S2P Require Import Prelude Core GoNet Routes NetRuntime.

(** What a call of [ReplaceVPN] does: it has built a backend; it holds [backendMu], has made
    its backend the runtime's and has to switch the outbound, or the resolver only; it has to
    close a backend before it returns its error; or it has returned. *)
Inductive ReplaceStage : Type :=
| Built (b : nat)
| SwitchingOutbound (b : nat) (old : option nat)
| SwitchingResolver (b : nat) (old : option nat)
| Discarding (b : nat) (err : option error)
| Returned (err : option error).

(** How far [Runtime.Close] has come: not called, closing the services, past the outbound,
    closing the backend that it took, done. *)
Inductive CloseProgress : Type :=
| NotClosing
| ClosingServices
| OutboundClosed
| ClosingBackend (b : option nat)
| CloseDone.

#[export] Instance CloseProgress_eq_dec : EqDecision CloseProgress.
Proof. solve_decision. Defined.

(** [ns_locked]: the call of [ReplaceVPN] that is between two steps with [backendMu] held.
    [ns_open]: the backends that were built and not closed; it is not in the code. *)
Record NetState : Type := {
  ns_open : gset nat;
  ns_built : gset nat;
  ns_backend : option nat;
  ns_vpn : option nat;
  ns_vpn_closed : bool;
  ns_resolver : option nat;
  ns_closed : bool;
  ns_runErr : option error;
  ns_resourceRoutes : bool;
  ns_routeAddresses : list Prefix;
  ns_done : gset nat;
  ns_errs : gmap nat error;
  ns_replaces : gmap nat ReplaceStage;
  ns_close : CloseProgress;
  ns_locked : option nat;
}.

(** The state [New] returns, with backend 0. *)
Definition newNetState (resourceRoutes : bool) (routes : list Prefix) : NetState :=
  {| ns_open := {[0%nat]}; ns_built := {[0%nat]}; ns_backend := Some 0%nat; ns_vpn := Some 0%nat;
     ns_vpn_closed := false; ns_resolver := Some 0%nat; ns_closed := false; ns_runErr := None;
     ns_resourceRoutes := resourceRoutes; ns_routeAddresses := routes; ns_done := ∅;
     ns_errs := ∅; ns_replaces := ∅; ns_close := NotClosing;
     ns_locked := None |}.

Definition set_replace (r : nat) (t : ReplaceStage) (s : NetState) : NetState :=
  {| ns_open := ns_open s; ns_built := ns_built s; ns_backend := ns_backend s;
     ns_vpn := ns_vpn s; ns_vpn_closed := ns_vpn_closed s; ns_resolver := ns_resolver s;
     ns_closed := ns_closed s; ns_runErr := ns_runErr s; ns_resourceRoutes := ns_resourceRoutes s;
     ns_routeAddresses := ns_routeAddresses s; ns_done := ns_done s; ns_errs := ns_errs s;
     ns_replaces := <[r := t]> (ns_replaces s); ns_close := ns_close s;
     ns_locked := ns_locked s |}.

Definition set_close (c : CloseProgress) (s : NetState) : NetState :=
  {| ns_open := ns_open s; ns_built := ns_built s; ns_backend := ns_backend s;
     ns_vpn := ns_vpn s; ns_vpn_closed := ns_vpn_closed s; ns_resolver := ns_resolver s;
     ns_closed := ns_closed s; ns_runErr := ns_runErr s; ns_resourceRoutes := ns_resourceRoutes s;
     ns_routeAddresses := ns_routeAddresses s; ns_done := ns_done s; ns_errs := ns_errs s;
     ns_replaces := ns_replaces s; ns_close := c;
     ns_locked := ns_locked s |}.

(** [newVPNBackend] succeeded. *)
Definition add_backend (b : nat) (s : NetState) : NetState :=
  {| ns_open := {[b]} ∪ ns_open s; ns_built := {[b]} ∪ ns_built s; ns_backend := ns_backend s;
     ns_vpn := ns_vpn s; ns_vpn_closed := ns_vpn_closed s; ns_resolver := ns_resolver s;
     ns_closed := ns_closed s; ns_runErr := ns_runErr s; ns_resourceRoutes := ns_resourceRoutes s;
     ns_routeAddresses := ns_routeAddresses s; ns_done := ns_done s; ns_errs := ns_errs s;
     ns_replaces := ns_replaces s; ns_close := ns_close s;
     ns_locked := ns_locked s |}.

(** [backend.signalDone] and [backend.Close]. *)
Definition signalDone (b : nat) (s : NetState) : NetState :=
  {| ns_open := ns_open s; ns_built := ns_built s; ns_backend := ns_backend s;
     ns_vpn := ns_vpn s; ns_vpn_closed := ns_vpn_closed s; ns_resolver := ns_resolver s;
     ns_closed := ns_closed s; ns_runErr := ns_runErr s; ns_resourceRoutes := ns_resourceRoutes s;
     ns_routeAddresses := ns_routeAddresses s; ns_done := {[b]} ∪ ns_done s; ns_errs := ns_errs s;
     ns_replaces := ns_replaces s; ns_close := ns_close s;
     ns_locked := ns_locked s |}.

Definition backend_Close (b : nat) (s : NetState) : NetState :=
  signalDone b
    {| ns_open := ns_open s ∖ {[b]}; ns_built := ns_built s; ns_backend := ns_backend s;
       ns_vpn := ns_vpn s; ns_vpn_closed := ns_vpn_closed s; ns_resolver := ns_resolver s;
       ns_closed := ns_closed s; ns_runErr := ns_runErr s;
       ns_resourceRoutes := ns_resourceRoutes s; ns_routeAddresses := ns_routeAddresses s;
       ns_done := ns_done s; ns_errs := ns_errs s; ns_replaces := ns_replaces s;
       ns_close := ns_close s;
     ns_locked := ns_locked s |}.

(** [backend.fail]: the first error stays. *)
Definition backend_fail (b : nat) (err : error) (s : NetState) : NetState :=
  signalDone b
    {| ns_open := ns_open s; ns_built := ns_built s; ns_backend := ns_backend s;
       ns_vpn := ns_vpn s; ns_vpn_closed := ns_vpn_closed s; ns_resolver := ns_resolver s;
       ns_closed := ns_closed s; ns_runErr := ns_runErr s;
       ns_resourceRoutes := ns_resourceRoutes s; ns_routeAddresses := ns_routeAddresses s;
       ns_done := ns_done s;
       ns_errs := match ns_errs s !! b with Some _ => ns_errs s | None => <[b := err]> (ns_errs s) end;
       ns_replaces := ns_replaces s; ns_close := ns_close s;
     ns_locked := ns_locked s |}.

(** [runStack] after [RunContext] returned. *)
Definition runStack_ended (b : nat) (err : option error) (s : NetState) : NetState :=
  match err with
  | Some e => if errors_Is e "context.Canceled" then signalDone b s else backend_fail b e s
  | None => signalDone b s
  end.

Definition runtimeClosed : error :=
  WrapError ErrorCodeOutboundUnavailable "network runtime is closed" false None.

(** [updateTUNRouteAddresses]: the first TUN service, which may be able to update its routes. *)
Fixpoint updateTUNRouteAddresses (services : list (string * option (list Prefix -> option error)))
    (addresses : list Prefix) : option error :=
  match services with
  | [] => Some (WrapError ErrorCodeTUNUnavailable
                  "TUN service is unavailable while updating VPN resource routes" false None)
  | (type, updater) :: rest =>
      if negb (bool_decide (type = ServiceTypeTUN)) then updateTUNRouteAddresses rest addresses
      else match updater with
      | None => Some (WrapError ErrorCodeRestartRequired
                        "TUN service does not support updating VPN resource routes" false None)
      | Some update => update addresses
      end
  end.

(** The call [r] takes [backendMu] and makes [b] the backend of the runtime. *)
Definition switch_backend (r b : nat) (routes : list Prefix) (s : NetState) : NetState :=
  set_replace r (SwitchingOutbound b (ns_backend s))
    {| ns_open := ns_open s; ns_built := ns_built s; ns_backend := Some b;
       ns_vpn := ns_vpn s; ns_vpn_closed := ns_vpn_closed s; ns_resolver := ns_resolver s;
       ns_closed := ns_closed s; ns_runErr := ns_runErr s;
       ns_resourceRoutes := ns_resourceRoutes s; ns_routeAddresses := routes;
       ns_done := ns_done s; ns_errs := ns_errs s; ns_replaces := ns_replaces s;
       ns_close := ns_close s; ns_locked := Some r |}.

(** [ReplaceVPN] once its backend [b] is built, with the routes of that backend, up to its
    first access to the switchable outbound: refused, it gives the mutex back and has [b] to
    close. *)
Definition ReplaceVPN (services : list (string * option (list Prefix -> option error)))
    (r b : nat) (routes : list Prefix) (s : NetState) : NetState :=
  if ns_closed s then set_replace r (Discarding b (Some runtimeClosed)) s
  else match ns_runErr s with
  | Some e => set_replace r (Discarding b (Some e)) s
  | None =>
      if ns_resourceRoutes s && negb (equalRoutePrefixes (ns_routeAddresses s) routes) then
        match updateTUNRouteAddresses services routes with
        | Some e => set_replace r (Discarding b (Some e)) s
        | None => switch_backend r b routes s
        end
      else switch_backend r b (ns_routeAddresses s) s
  end.

(** [switchableOutbound.Replace], ignored once closed. *)
Definition switch_outbound (r b : nat) (old : option nat) (s : NetState) : NetState :=
  set_replace r (SwitchingResolver b old)
    {| ns_open := ns_open s; ns_built := ns_built s; ns_backend := ns_backend s;
       ns_vpn := if ns_vpn_closed s then ns_vpn s else Some b;
       ns_vpn_closed := ns_vpn_closed s; ns_resolver := ns_resolver s;
       ns_closed := ns_closed s; ns_runErr := ns_runErr s;
       ns_resourceRoutes := ns_resourceRoutes s; ns_routeAddresses := ns_routeAddresses s;
       ns_done := ns_done s; ns_errs := ns_errs s; ns_replaces := ns_replaces s;
       ns_close := ns_close s; ns_locked := ns_locked s |}.

(** [switchableResolver.Replace], and the mutex is given back; the old backend is left to
    close. *)
Definition switch_resolver (r b : nat) (old : option nat) (s : NetState) : NetState :=
  set_replace r (match old with Some x => Discarding x None | None => Returned None end)
    {| ns_open := ns_open s; ns_built := ns_built s; ns_backend := ns_backend s;
       ns_vpn := ns_vpn s; ns_vpn_closed := ns_vpn_closed s; ns_resolver := Some b;
       ns_closed := ns_closed s; ns_runErr := ns_runErr s;
       ns_resourceRoutes := ns_resourceRoutes s; ns_routeAddresses := ns_routeAddresses s;
       ns_done := ns_done s; ns_errs := ns_errs s; ns_replaces := ns_replaces s;
       ns_close := ns_close s; ns_locked := None |}.

(** [failTUN]. *)
Definition failTUN (err : option error) (s : NetState) : NetState :=
  if ns_closed s || bool_decide (ns_runErr s <> None) then s
  else
    let s := {| ns_open := ns_open s; ns_built := ns_built s; ns_backend := ns_backend s;
                ns_vpn := ns_vpn s; ns_vpn_closed := ns_vpn_closed s; ns_resolver := ns_resolver s;
                ns_closed := ns_closed s;
                ns_runErr := Some (WrapError ErrorCodeTUNUnavailable "TUN service stopped" false err);
                ns_resourceRoutes := ns_resourceRoutes s;
                ns_routeAddresses := ns_routeAddresses s; ns_done := ns_done s;
                ns_errs := ns_errs s; ns_replaces := ns_replaces s; ns_close := ns_close s;
     ns_locked := ns_locked s |} in
    match ns_backend s with Some b => signalDone b s | None => s end.

(** [Runtime.Err] and [Runtime.Done]. *)
Definition runtime_Err (s : NetState) : option error :=
  match ns_runErr s with
  | Some e => Some e
  | None => match ns_backend s with Some b => ns_errs s !! b | None => None end
  end.

Definition runtime_Done (s : NetState) : bool :=
  match ns_backend s with Some b => bool_decide (b ∈ ns_done s) | None => false end.

(** The sections of [Runtime.Close]. *)
Definition close_mark (s : NetState) : NetState :=
  set_close ClosingServices
    {| ns_open := ns_open s; ns_built := ns_built s; ns_backend := ns_backend s;
       ns_vpn := ns_vpn s; ns_vpn_closed := ns_vpn_closed s; ns_resolver := ns_resolver s;
       ns_closed := true; ns_runErr := ns_runErr s; ns_resourceRoutes := ns_resourceRoutes s;
       ns_routeAddresses := ns_routeAddresses s; ns_done := ns_done s; ns_errs := ns_errs s;
       ns_replaces := ns_replaces s; ns_close := ns_close s;
     ns_locked := ns_locked s |}.

(** [switchableOutbound.Close]. *)
Definition close_outbound (s : NetState) : NetState :=
  set_close OutboundClosed
    {| ns_open := ns_open s; ns_built := ns_built s; ns_backend := ns_backend s;
       ns_vpn := None; ns_vpn_closed := true; ns_resolver := ns_resolver s;
       ns_closed := ns_closed s; ns_runErr := ns_runErr s;
       ns_resourceRoutes := ns_resourceRoutes s; ns_routeAddresses := ns_routeAddresses s;
       ns_done := ns_done s; ns_errs := ns_errs s; ns_replaces := ns_replaces s;
       ns_close := ns_close s;
     ns_locked := ns_locked s |}.

Definition close_take (s : NetState) : NetState :=
  set_close (ClosingBackend (ns_backend s))
    {| ns_open := ns_open s; ns_built := ns_built s; ns_backend := None;
       ns_vpn := ns_vpn s; ns_vpn_closed := ns_vpn_closed s; ns_resolver := ns_resolver s;
       ns_closed := ns_closed s; ns_runErr := ns_runErr s;
       ns_resourceRoutes := ns_resourceRoutes s; ns_routeAddresses := ns_routeAddresses s;
       ns_done := ns_done s; ns_errs := ns_errs s; ns_replaces := ns_replaces s;
       ns_close := ns_close s;
     ns_locked := ns_locked s |}.

Definition close_taken (b : option nat) (s : NetState) : NetState :=
  set_close CloseDone (match b with Some b => backend_Close b s | None => s end).

(** [switchableOutbound.DialContext]: the backend that a dial goes to. *)
Definition vpn_delegate (s : NetState) : result error nat :=
  match ns_vpn s with
  | Some b => if ns_vpn_closed s then Err (WrapError ErrorCodeOutboundUnavailable
                                             "VPN outbound is unavailable" true None) else Ok b
  | None => Err (WrapError ErrorCodeOutboundUnavailable "VPN outbound is unavailable" true None)
  end.

(** [switchableResolver.Resolve]: the backend that resolves. *)
Definition resolver_delegate (s : NetState) : result error nat :=
  match ns_resolver s with
  | Some b => Ok b
  | None => Err (WrapError ErrorCodeOutboundUnavailable "VPN resolver is unavailable" true None)
  end.

(** The steps that take [backendMu] wait for it. *)
Inductive net_step : NetState -> NetState -> Prop :=
| net_build r b s : ns_replaces s !! r = None -> b ∉ ns_built s ->
    net_step s (set_replace r (Built b) (add_backend b s))
| net_replace services r b routes s : ns_replaces s !! r = Some (Built b) -> ns_locked s = None ->
    net_step s (ReplaceVPN services r b routes s)
| net_switch_outbound r b old s : ns_replaces s !! r = Some (SwitchingOutbound b old) ->
    net_step s (switch_outbound r b old s)
| net_switch_resolver r b old s : ns_replaces s !! r = Some (SwitchingResolver b old) ->
    net_step s (switch_resolver r b old s)
| net_discard r b err s : ns_replaces s !! r = Some (Discarding b err) ->
    net_step s (set_replace r (Returned err) (backend_Close b s))
| net_stack_ended b err s : net_step s (runStack_ended b err s)
| net_unhealthy b err s : net_step s (backend_fail b err s)
| net_tun_stopped err s : ns_locked s = None -> net_step s (failTUN err s)
| net_close_begin s : ns_close s = NotClosing -> ns_locked s = None -> net_step s (close_mark s)
| net_close_outbound s : ns_close s = ClosingServices -> net_step s (close_outbound s)
| net_close_take s : ns_close s = OutboundClosed -> ns_locked s = None -> net_step s (close_take s)
| net_close_backend b s : ns_close s = ClosingBackend b -> net_step s (close_taken b s).

(** ** Who owns a backend

    Every open backend is owned by the runtime, by one call of [ReplaceVPN] or by [Close]. *)

Inductive Owner : Type := ByRuntime | ByReplace (r : nat) | ByClose.

#[export] Instance Owner_eq_dec : EqDecision Owner.
Proof. solve_decision. Defined.

Definition stage_backend (t : option ReplaceStage) : option nat :=
  match t with
  | Some (Built b) | Some (Discarding b _) => Some b
  | Some (SwitchingOutbound _ old) | Some (SwitchingResolver _ old) => old
  | _ => None
  end.

Definition switching (t : option ReplaceStage) : bool :=
  match t with Some (SwitchingOutbound _ _) | Some (SwitchingResolver _ _) => true | _ => false end.

Definition closing_backend (c : CloseProgress) : option nat :=
  match c with ClosingBackend b => b | _ => None end.

Definition owned (s : NetState) (o : Owner) : option nat :=
  match o with
  | ByRuntime => ns_backend s
  | ByReplace r => stage_backend (ns_replaces s !! r)
  | ByClose => closing_backend (ns_close s)
  end.

Definition owners_ok (own : Owner -> option nat) (opened : gset nat) : Prop :=
  (forall b, b ∈ opened <-> exists o, own o = Some b) /\
  (forall o1 o2 b, own o1 = Some b -> own o2 = Some b -> o1 = o2).

Definition update_owner (o : Owner) (x : option nat) (own : Owner -> option nat) : Owner -> option nat :=
  fun p => if decide (p = o) then x else own p.

Lemma update_owner_same o x own p : own o = x -> update_owner o x own p = own p.
Proof. unfold update_owner. intros <-. by destruct (decide (p = o)) as [->|]. Qed.

Lemma owners_ext own own' opened :
  (forall o, own' o = own o) -> owners_ok own opened -> owners_ok own' opened.
Proof.
  intros He [H1 H2]. split.
  - intros b. rewrite H1. split; intros [o Ho]; exists o; congruence.
  - intros o1 o2 b. rewrite !He. apply H2.
Qed.

Lemma owners_release o b own opened :
  owners_ok own opened -> own o = Some b -> owners_ok (update_owner o None own) (opened ∖ {[b]}).
Proof.
  intros [H1 H2] Ho. unfold update_owner. split.
  - intros x. rewrite elem_of_difference, elem_of_singleton, H1. split.
    + intros [[p Hp] Hne]. exists p. destruct (decide (p = o)) as [->|]; [congruence|done].
    + intros [p Hp]. destruct (decide (p = o)) as [->|Hpo]; [done|]. split; [by exists p|].
      intros ->. by destruct Hpo, (H2 p o b).
  - intros o1 o2 x. repeat case_decide; try done. apply H2.
Qed.

Lemma owners_add o b own opened :
  owners_ok own opened -> own o = None -> b ∉ opened ->
  owners_ok (update_owner o (Some b) own) ({[b]} ∪ opened).
Proof.
  intros [H1 H2] Ho Hb. unfold update_owner. split.
  - intros x. rewrite elem_of_union, elem_of_singleton, H1. split.
    + intros [->|[p Hp]]; [exists o; by rewrite decide_True|]. exists p.
      destruct (decide (p = o)) as [->|]; [congruence|done].
    + intros [p Hp]. destruct (decide (p = o)) as [->|]; [left; congruence|right; by exists p].
  - intros o1 o2 x. repeat case_decide; subst; try done.
    + intros [= ->] Hx. destruct Hb. apply H1. by exists o2.
    + intros Hx [= ->]. destruct Hb. apply H1. by exists o1.
    + apply H2.
Qed.

Lemma owners_swap o1 o2 own opened :
  owners_ok own opened ->
  owners_ok (update_owner o1 (own o2) (update_owner o2 (own o1) own)) opened.
Proof.
  intros [H1 H2]. unfold update_owner.
  set (f := fun o => if decide (o = o1) then o2 else if decide (o = o2) then o1 else o).
  assert (forall o, (if decide (o = o1) then own o2
             else if decide (o = o2) then own o1 else own o) = own (f o)) as Hf.
  { intros o. unfold f. destruct (decide (o = o1)); [done|]. by destruct (decide (o = o2)). }
  assert (forall o, f (f o) = o) as Hff.
  { intros o. unfold f. destruct (decide (o = o1)) as [->|H1'].
    - destruct (decide (o2 = o1)) as [->|]; [done|]. by rewrite decide_True.
    - destruct (decide (o = o2)) as [->|]; [by rewrite decide_True|].
      by rewrite !decide_False. }
  split.
  - intros b. rewrite H1. split; intros [o Ho]; exists (f o).
    + by rewrite Hf, Hff.
    + by rewrite <-Hf.
  - intros p q b. rewrite !Hf. intros Hp Hq. rewrite <-(Hff p), <-(Hff q). f_equal. by eapply H2.
Qed.

(** ** The invariant *)

Definition before_outbound_closed (c : CloseProgress) : bool :=
  match c with NotClosing | ClosingServices => true | _ => false end.

Definition after_take (c : CloseProgress) : bool :=
  match c with ClosingBackend _ | CloseDone => true | _ => false end.

(** The outbound and the resolver against the backend, given what the call that holds the
    mutex has still to do. *)
Definition delegates_ok (s : NetState) : Prop :=
  exists b, ns_backend s = Some b /\
  match ns_locked s with
  | None => ns_vpn s = Some b /\ ns_resolver s = Some b
  | Some r => exists old,
      (ns_replaces s !! r = Some (SwitchingOutbound b (Some old)) /\
       ns_vpn s = Some old /\ ns_resolver s = Some old) \/
      (ns_replaces s !! r = Some (SwitchingResolver b (Some old)) /\
       ns_vpn s = Some b /\ ns_resolver s = Some old)
  end.

Record net_inv (s : NetState) : Prop := {
  nsi_owners : owners_ok (owned s) (ns_open s);
  nsi_built : ns_open s ⊆ ns_built s;
  nsi_live : before_outbound_closed (ns_close s) = true ->
    ns_vpn_closed s = false /\ delegates_ok s;
  nsi_dead : before_outbound_closed (ns_close s) = false -> ns_vpn s = None;
  nsi_closed : ns_closed s = negb (bool_decide (ns_close s = NotClosing));
  nsi_taken : after_take (ns_close s) = true -> ns_backend s = None;
  nsi_locked : is_Some (ns_locked s) -> ns_close s = NotClosing;
  nsi_switching : forall r, switching (ns_replaces s !! r) = true -> ns_locked s = Some r;
}.

Lemma owned_set_replace r t s o :
  owned (set_replace r t s) o = update_owner (ByReplace r) (stage_backend (Some t)) (owned s) o.
Proof.
  unfold update_owner. destruct o as [|q|]; simpl; [done| |done].
  destruct (decide (ByReplace q = ByReplace r)) as [[= ->]|Hne].
  - by rewrite lookup_insert_eq.
  - rewrite lookup_insert_ne; [done|]. congruence.
Qed.

Lemma delegates_same s s' :
  delegates_ok s -> ns_backend s' = ns_backend s -> ns_vpn s' = ns_vpn s ->
  ns_resolver s' = ns_resolver s -> ns_locked s' = ns_locked s ->
  (forall r, ns_locked s = Some r -> ns_replaces s' !! r = ns_replaces s !! r) ->
  delegates_ok s'.
Proof.
  intros (b & Hb & H) H1 H2 H3 H4 H5. exists b. rewrite H1, H4, H2, H3. split; [done|].
  destruct (ns_locked s) as [r|]; [|done]. by rewrite H5.
Qed.

(** A step that moves no backend. *)
Lemma net_inv_same s s' :
  net_inv s -> ns_open s' = ns_open s -> ns_built s' = ns_built s ->
  ns_backend s' = ns_backend s -> ns_vpn s' = ns_vpn s -> ns_vpn_closed s' = ns_vpn_closed s ->
  ns_resolver s' = ns_resolver s -> ns_closed s' = ns_closed s ->
  ns_replaces s' = ns_replaces s -> ns_close s' = ns_close s -> ns_locked s' = ns_locked s ->
  net_inv s'.
Proof.
  intros [] Ho Hb Hbk Hv Hvc Hr Hc Hrep Hcl Hl.
  split; rewrite ?Ho, ?Hb, ?Hbk, ?Hv, ?Hvc, ?Hc, ?Hcl, ?Hl, ?Hrep; try done.
  - apply (owners_ext (owned s)); [|done]. intros [|q|]; simpl; congruence.
  - intros H. destruct (nsi_live0 H) as [? ?]. split; [done|].
    apply (delegates_same s); try done. intros. by rewrite Hrep.
Qed.

Lemma signalDone_inv b s : net_inv s -> net_inv (signalDone b s).
Proof. intros Hi. by apply (net_inv_same s). Qed.

Lemma backend_fail_inv b err s : net_inv s -> net_inv (backend_fail b err s).
Proof. intros Hi. by apply (net_inv_same s). Qed.

Lemma failTUN_inv err s : net_inv s -> net_inv (failTUN err s).
Proof.
  intros Hi. unfold failTUN. destruct (ns_closed s || _); [done|]. cbv zeta. simpl.
  destruct (ns_backend s) eqn:E; by apply (net_inv_same s).
Qed.

(** A call that is not switching moves on without the mutex. *)
Lemma switching_set_replace r t s q :
  (forall q, switching (ns_replaces s !! q) = true -> ns_locked s = Some q) ->
  switching (ns_replaces s !! r) = false -> switching (Some t) = false ->
  switching (<[r := t]> (ns_replaces s) !! q) = true -> ns_locked s = Some q /\ q <> r.
Proof.
  intros H H1 H2. destruct (decide (q = r)) as [->|Hne].
  - rewrite lookup_insert_eq. congruence.
  - rewrite lookup_insert_ne by done. auto.
Qed.

Lemma delegates_set_replace r t s s' :
  delegates_ok s -> switching (ns_replaces s !! r) = false ->
  ns_backend s' = ns_backend s -> ns_vpn s' = ns_vpn s -> ns_resolver s' = ns_resolver s ->
  ns_locked s' = ns_locked s -> ns_replaces s' = <[r := t]> (ns_replaces s) -> delegates_ok s'.
Proof.
  intros Hd Hr H1 H2 H3 H4 H5. apply (delegates_same s); try done. rewrite H5.
  intros q Hq. destruct (decide (q = r)) as [->|Hne]; [|by rewrite lookup_insert_ne].
  destruct Hd as (b & _ & Hd). rewrite Hq in Hd.
  destruct Hd as (old & [(E & _)|(E & _)]); rewrite E in Hr; done.
Qed.

Lemma ReplaceVPN_cases services r b routes s :
  (exists e, ReplaceVPN services r b routes s = set_replace r (Discarding b (Some e)) s) \/
  (ns_closed s = false /\ ns_runErr s = None /\ exists routes',
     ReplaceVPN services r b routes s = switch_backend r b routes' s).
Proof.
  unfold ReplaceVPN. destruct (ns_closed s); [left; by eexists|].
  destruct (ns_runErr s); [left; by eexists|].
  destruct (ns_resourceRoutes s && _); [|right; split_and!; [done..|]; by eexists].
  destruct (updateTUNRouteAddresses _ _); [left; by eexists|right; split_and!; [done..|]; by eexists].
Qed.

Lemma not_closed_not_closing s : net_inv s -> ns_closed s = false -> ns_close s = NotClosing.
Proof. intros Hi Hc. rewrite (nsi_closed s Hi) in Hc. by case_bool_decide. Qed.

Lemma switch_backend_inv r b routes s :
  net_inv s -> ns_replaces s !! r = Some (Built b) -> ns_locked s = None -> ns_closed s = false ->
  net_inv (switch_backend r b routes s).
Proof.
  intros Hi Hr Hl Hc. pose proof (not_closed_not_closing s Hi Hc) as Hn.
  destruct (nsi_live s Hi) as (Hv & old & Hold & Hd); [by rewrite Hn|]. rewrite Hl in Hd.
  destruct Hd as [Hvpn Hres]. unfold switch_backend. rewrite Hold. split; simpl.
  - apply (owners_ext (update_owner (ByReplace r) (owned s ByRuntime)
             (update_owner ByRuntime (owned s (ByReplace r)) (owned s)))).
    + intros o. rewrite owned_set_replace. unfold update_owner. simpl. rewrite Hr, Hold. simpl.
      destruct o as [|q|]; repeat case_decide; done.
    + apply owners_swap, (nsi_owners s Hi).
  - apply (nsi_built s Hi).
  - intros _. split; [done|]. exists b. simpl. split; [done|]. exists old. left.
    by rewrite lookup_insert_eq.
  - by rewrite Hn.
  - by apply (nsi_closed s Hi).
  - by rewrite Hn.
  - done.
  - intros q Hq. destruct (decide (q = r)) as [->|Hne]; [done|].
    rewrite lookup_insert_ne in Hq by done. apply (nsi_switching s Hi) in Hq. congruence.
Qed.

Lemma net_replace_inv services r b routes s :
  net_inv s -> ns_replaces s !! r = Some (Built b) -> ns_locked s = None ->
  net_inv (ReplaceVPN services r b routes s).
Proof.
  intros Hi Hr Hl.
  destruct (ReplaceVPN_cases services r b routes s) as [[e ->]|(Hc & _ & routes' & ->)];
    [|by apply switch_backend_inv].
  assert (switching (ns_replaces s !! r) = false) as Hns by (by rewrite Hr).
  pose proof (nsi_live s Hi) as Hlive. pose proof (nsi_switching s Hi) as Hsw.
  destruct Hi. split; simpl; try done.
  - apply (owners_ext (owned s)); [|done].
    intros o. rewrite owned_set_replace. apply update_owner_same. simpl. by rewrite Hr.
  - intros H. destruct (Hlive H) as [? ?]. split; [done|]. by eapply delegates_set_replace.
  - intros q Hq. by eapply switching_set_replace in Hq as [? _].
Qed.

(** What the call that holds the mutex finds. *)
Lemma switching_state r s :
  net_inv s -> switching (ns_replaces s !! r) = true ->
  ns_locked s = Some r /\ ns_close s = NotClosing /\ ns_vpn_closed s = false /\
  exists b old, ns_backend s = Some b /\
    ((ns_replaces s !! r = Some (SwitchingOutbound b (Some old)) /\
      ns_vpn s = Some old /\ ns_resolver s = Some old) \/
     (ns_replaces s !! r = Some (SwitchingResolver b (Some old)) /\
      ns_vpn s = Some b /\ ns_resolver s = Some old)).
Proof.
  intros Hi Hr. pose proof (nsi_switching s Hi r Hr) as Hl.
  assert (ns_close s = NotClosing) as Hn by (apply (nsi_locked s Hi); by rewrite Hl).
  destruct (nsi_live s Hi) as (Hv & b & Hb & Hd); [by rewrite Hn|]. rewrite Hl in Hd.
  destruct Hd as [old Hd]. split_and!; [done..|]. by exists b, old.
Qed.

Lemma switch_outbound_inv r b old s :
  net_inv s -> ns_replaces s !! r = Some (SwitchingOutbound b old) ->
  net_inv (switch_outbound r b old s).
Proof.
  intros Hi Hr. destruct (switching_state r s Hi) as (Hl & Hn & Hv & b' & old' & Hb & Hd);
    [by rewrite Hr|].
  destruct Hd as [(E & Hvpn & Hres)|(E & _)]; rewrite Hr in E; [|done]. injection E as <- ->.
  pose proof (nsi_switching s Hi) as Hsw. unfold switch_outbound. rewrite Hv.
  destruct Hi. split; simpl; try done.
  - apply (owners_ext (owned s)); [|done].
    intros o. rewrite owned_set_replace. apply update_owner_same. simpl. by rewrite Hr.
  - intros _. split; [done|]. exists b. simpl. rewrite Hl. split; [done|]. exists old'. right.
    by rewrite lookup_insert_eq.
  - by rewrite Hn.
  - intros q Hq. destruct (decide (q = r)) as [->|Hne]; [done|].
    rewrite lookup_insert_ne in Hq by done. by apply Hsw.
Qed.

Lemma switch_resolver_inv r b old s :
  net_inv s -> ns_replaces s !! r = Some (SwitchingResolver b old) ->
  net_inv (switch_resolver r b old s).
Proof.
  intros Hi Hr. destruct (switching_state r s Hi) as (Hl & Hn & Hv & b' & old' & Hb & Hd);
    [by rewrite Hr|].
  destruct Hd as [(E & _)|(E & Hvpn & Hres)]; rewrite Hr in E; [done|]. injection E as <- ->.
  pose proof (nsi_switching s Hi) as Hsw. unfold switch_resolver.
  destruct Hi. split; simpl; try done.
  - apply (owners_ext (owned s)); [|done].
    intros o. rewrite owned_set_replace. apply update_owner_same. simpl. by rewrite Hr.
  - intros _. split; [done|]. by exists b.
  - intros q Hq. destruct (decide (q = r)) as [->|Hne]; [by rewrite lookup_insert_eq in Hq|].
    rewrite lookup_insert_ne in Hq by done. apply Hsw in Hq. congruence.
Qed.

(** A backend that its owner closes. *)
Lemma backend_Close_inv o b s t :
  net_inv s -> owned s o = Some b ->
  ns_open t = ns_open s ∖ {[b]} -> ns_built t = ns_built s -> ns_backend t = ns_backend s ->
  ns_vpn t = ns_vpn s -> ns_vpn_closed t = ns_vpn_closed s ->
  ns_closed t = ns_closed s -> ns_locked t = ns_locked s ->
  (delegates_ok s -> delegates_ok t) ->
  before_outbound_closed (ns_close t) = before_outbound_closed (ns_close s) ->
  ns_closed t = negb (bool_decide (ns_close t = NotClosing)) ->
  (after_take (ns_close t) = true -> ns_backend t = None) ->
  (is_Some (ns_locked t) -> ns_close t = NotClosing) ->
  (forall r, switching (ns_replaces t !! r) = true -> ns_locked t = Some r) ->
  (forall p, owned t p = update_owner o None (owned s) p) -> net_inv t.
Proof.
  intros Hi Ho Hop Hb Hbk Hv Hvc Hc Hl Hdel Hbef Hcl Hd Hlk Hsw Hown.
  split; rewrite ?Hop, ?Hb, ?Hbk, ?Hv, ?Hvc, ?Hbef; try done.
  - apply (owners_ext (update_owner o None (owned s))); [done|].
    by apply owners_release; [apply (nsi_owners s Hi)|].
  - pose proof (nsi_built s Hi). set_solver.
  - intros H. destruct (nsi_live s Hi H). auto.
  - apply (nsi_dead s Hi).
  - by rewrite <-Hbk.
Qed.

Lemma net_build_inv r b s :
  net_inv s -> ns_replaces s !! r = None -> b ∉ ns_built s ->
  net_inv (set_replace r (Built b) (add_backend b s)).
Proof.
  intros Hi H Hb. assert (switching (ns_replaces s !! r) = false) as Hns by (by rewrite H).
  pose proof (nsi_live s Hi) as Hlive. pose proof (nsi_switching s Hi) as Hsw.
  destruct Hi. split; simpl; try done.
  - apply (owners_ext (update_owner (ByReplace r) (Some b) (owned s))).
    + intros o. rewrite owned_set_replace. unfold update_owner. by destruct o; case_decide.
    + apply owners_add; [done|simpl; by rewrite H|]. set_solver.
  - set_solver.
  - intros H'. destruct (Hlive H') as [? ?]. split; [done|]. by eapply (delegates_set_replace r).
  - intros q Hq. by eapply (switching_set_replace r) in Hq as [? _].
Qed.

Lemma net_discard_inv r b err s :
  net_inv s -> ns_replaces s !! r = Some (Discarding b err) ->
  net_inv (set_replace r (Returned err) (backend_Close b s)).
Proof.
  intros Hi H. assert (switching (ns_replaces s !! r) = false) as Hns by (by rewrite H).
  apply (backend_Close_inv (ByReplace r) b s); try done.
  - simpl. by rewrite H.
  - intros Hd. by eapply (delegates_set_replace r).
  - apply (nsi_closed s Hi).
  - apply (nsi_taken s Hi).
  - apply (nsi_locked s Hi).
  - intros q Hq. simpl in Hq.
    by eapply (switching_set_replace r) in Hq as [? _]; [|apply (nsi_switching s Hi)|..].
  - intros p. rewrite owned_set_replace. unfold update_owner. by destruct p; case_decide.
Qed.

(** Nobody holds the mutex once [Close] has begun. *)
Lemma closing_unlocked s : net_inv s -> ns_close s <> NotClosing -> ns_locked s = None.
Proof.
  intros Hi Hn. destruct (ns_locked s) eqn:E; [|done]. destruct Hn. apply (nsi_locked s Hi).
  by rewrite E.
Qed.

Lemma delegates_close s s' :
  delegates_ok s -> ns_backend s' = ns_backend s -> ns_vpn s' = ns_vpn s ->
  ns_resolver s' = ns_resolver s -> ns_locked s' = ns_locked s ->
  ns_replaces s' = ns_replaces s -> delegates_ok s'.
Proof. intros Hd H1 H2 H3 H4 H5. apply (delegates_same s); try done. intros. by rewrite H5. Qed.

Lemma net_close_inv s s' :
  net_inv s ->
  (ns_close s = NotClosing /\ ns_locked s = None /\ s' = close_mark s) \/
  (ns_close s = ClosingServices /\ s' = close_outbound s) \/
  (ns_close s = OutboundClosed /\ s' = close_take s) \/
  (exists b, ns_close s = ClosingBackend b /\ s' = close_taken b s) -> net_inv s'.
Proof.
  intros Hi [(H & Hl & ->)|[(H & ->)|[(H & ->)|(b & H & ->)]]].
  - pose proof (nsi_live s Hi) as Hlive. rewrite H in Hlive. destruct (Hlive eq_refl) as [Hv Hd].
    destruct Hi. split; simpl; try done.
    + apply (owners_ext (owned s)); [|done]. intros [|q|]; simpl; [done..|]. by rewrite H.
    + rewrite Hl. intros [? ?]. done.
  - pose proof (closing_unlocked s Hi) as Hl. rewrite H in Hl. specialize (Hl ltac:(done)).
    pose proof (nsi_closed s Hi) as Hc. rewrite H in Hc.
    destruct Hi. split; simpl; try done.
    + apply (owners_ext (owned s)); [|done]. intros [|q|]; simpl; [done..|]. by rewrite H.
    + rewrite Hl. intros [? ?]. done.
  - pose proof (closing_unlocked s Hi) as Hl. rewrite H in Hl. specialize (Hl ltac:(done)).
    pose proof (nsi_closed s Hi) as Hc. rewrite H in Hc.
    pose proof (nsi_dead s Hi) as Hdead. rewrite H in Hdead.
    destruct Hi. split; simpl; try done.
    + apply (owners_ext (update_owner ByClose (owned s ByRuntime)
               (update_owner ByRuntime (owned s ByClose) (owned s)))).
      * intros [|q|]; unfold update_owner; repeat case_decide; simpl; rewrite ?H; done.
      * by apply owners_swap.
    + rewrite Hl. intros [? ?]. done.
  - pose proof (nsi_taken s Hi) as Ht. rewrite H in Ht.
    pose proof (closing_unlocked s Hi) as Hl. rewrite H in Hl. specialize (Hl ltac:(done)).
    pose proof (nsi_closed s Hi) as Hc. rewrite H in Hc.
    pose proof (nsi_dead s Hi) as Hdead. rewrite H in Hdead.
    destruct b as [b|].
    + apply (backend_Close_inv ByClose b s); try done; simpl.
      * by rewrite H.
      * by rewrite H.
      * rewrite Hl. intros [? ?]. done.
      * apply (nsi_switching s Hi).
      * intros p. unfold update_owner. destruct p; by case_decide.
    + destruct Hi. split; simpl; try done.
      * apply (owners_ext (owned s)); [|done]. intros [|q|]; simpl; [done..|]. by rewrite H.
      * rewrite Hl. intros [? ?]. done.
Qed.

Lemma net_step_inv s s' : net_step s s' -> net_inv s -> net_inv s'.
Proof.
  destruct 1; intros Hi.
  - by apply net_build_inv.
  - by apply net_replace_inv.
  - by apply switch_outbound_inv.
  - by apply switch_resolver_inv.
  - by apply net_discard_inv.
  - unfold runStack_ended. destruct err as [e|]; [|by apply signalDone_inv].
    destruct (errors_Is _ _); [by apply signalDone_inv|by apply backend_fail_inv].
  - by apply backend_fail_inv.
  - by apply failTUN_inv.
  - apply (net_close_inv s); [done|]. by left.
  - apply (net_close_inv s); [done|]. right. by left.
  - apply (net_close_inv s); [done|]. right. right. by left.
  - apply (net_close_inv s); [done|]. do 3 right. by exists b.
Qed.

Lemma newNetState_inv resourceRoutes routes : net_inv (newNetState resourceRoutes routes).
Proof.
  split; simpl; try done.
  - split.
    + intros b. rewrite elem_of_singleton. split.
      * intros ->. by exists ByRuntime.
      * intros [[|r|] Ho]; simpl in Ho; [by injection Ho|by rewrite lookup_empty in Ho|done].
    + intros o1 o2 b H1 H2. destruct o1, o2; simpl in *; rewrite ?lookup_empty in *; done.
  - intros _. split; [done|]. by exists 0%nat.
Qed.

Definition net_reachable (resourceRoutes : bool) (routes : list Prefix) (s : NetState) : Prop :=
  rtc net_step (newNetState resourceRoutes routes) s.

Lemma net_reachable_inv resourceRoutes routes s :
  net_reachable resourceRoutes routes s -> net_inv s.
Proof.
  apply (rtc_closed net_step net_inv); [|apply newNetState_inv].
  intros x y Hx Hxy. by eapply net_step_inv.
Qed.

(** The call that holds the mutex finishes its switch by itself. *)
Lemma net_unlocks s :
  net_inv s -> exists s', rtc net_step s s' /\ net_inv s' /\ ns_locked s' = None /\
    ns_closed s' = ns_closed s.
Proof.
  intros Hi. destruct (ns_locked s) as [r|] eqn:Hl; [|exists s; by split_and!; [apply rtc_refl|..]].
  assert (ns_close s = NotClosing) as Hn by (apply (nsi_locked s Hi); by rewrite Hl).
  destruct (nsi_live s Hi) as (_ & b & _ & Hd); [by rewrite Hn|]. rewrite Hl in Hd.
  assert (forall t b old, net_inv t -> ns_replaces t !! r = Some (SwitchingResolver b old) ->
    exists s', rtc net_step t s' /\ net_inv s' /\ ns_locked s' = None /\ ns_closed s' = ns_closed t)
    as Hlast.
  { intros t x old Ht Hr. exists (switch_resolver r x old t).
    split_and!; [by apply rtc_once, net_switch_resolver|by apply switch_resolver_inv|done..]. }
  destruct Hd as (old & [(Hr & _)|(Hr & _)]); [|by eapply Hlast].
  destruct (Hlast (switch_outbound r b (Some old) s) b (Some old)) as (s' & Hs & H);
    [by apply switch_outbound_inv|by simpl; rewrite lookup_insert_eq|].
  exists s'. split; [|exact H]. eapply rtc_l; [by apply net_switch_outbound|done].
Qed.

(** C3: the backend of a running network is replaced without a gap. Whatever calls of
    [ReplaceVPN], failures and [Close] interleave: until [Close] has closed the outbound, the
    dials and the resolutions of the inbounds each go to a backend that is open. They go to the
    same one, the runtime's, except while a call of [ReplaceVPN] holds the mutex between its
    switches: the new backend is then the runtime's, the old one is still open, and the
    resolutions go to the new one only once the dials do. A [ReplaceVPN] that is refused changes
    nothing and has its own backend to close; one that is not goes from the old backend to its
    own, first the dials and then the resolutions, and only then has the old one to close. Every
    other open backend is one that a call is about to install or to close. When [Close] and all
    calls have returned, no backend is open and a dial is refused as unavailable. *)
Theorem vpn_switch_without_gap (resourceRoutes : bool) (routes : list Prefix) (s : NetState)
    (Hr : net_reachable resourceRoutes routes s) :
  (before_outbound_closed (ns_close s) = true ->
     exists d q, d ∈ ns_open s /\ q ∈ ns_open s /\
       vpn_delegate s = Ok d /\ resolver_delegate s = Ok q /\
       (ns_locked s = None -> d = q /\ ns_backend s = Some d) /\
       (forall r, ns_locked s = Some r -> exists b old, ns_backend s = Some b /\ b <> old /\
          q = old /\ (d = old \/ d = b) /\ stage_backend (ns_replaces s !! r) = Some old)) /\
  (forall services r b routes', ns_replaces s !! r = Some (Built b) -> ns_locked s = None ->
     let s0 := ReplaceVPN services r b routes' s in
     (exists e, s0 = set_replace r (Discarding b (Some e)) s) \/
     (exists old, ns_backend s = Some old /\
        let s1 := switch_outbound r b (Some old) s0 in
        let s2 := switch_resolver r b (Some old) s1 in
        net_step s0 s1 /\ net_step s1 s2 /\
        vpn_delegate s0 = Ok old /\ resolver_delegate s0 = Ok old /\
        vpn_delegate s1 = Ok b /\ resolver_delegate s1 = Ok old /\
        vpn_delegate s2 = Ok b /\ resolver_delegate s2 = Ok b /\
        ns_backend s2 = Some b /\ ns_locked s2 = None /\
        ns_replaces s2 !! r = Some (Discarding old None))) /\
  (forall b, b ∈ ns_open s -> ns_backend s = Some b \/ ns_close s = ClosingBackend (Some b) \/
     exists r, ns_replaces s !! r = Some (Built b) \/
               stage_backend (ns_replaces s !! r) = Some b) /\
  (ns_close s = CloseDone ->
     (forall r t, ns_replaces s !! r = Some t -> exists err, t = Returned err) ->
     ns_open s = ∅ /\ exists e, vpn_delegate s = Err e /\
       ErrorCodeOf (Some e) = ErrorCodeOutboundUnavailable).
Proof.
  pose proof (net_reachable_inv _ _ _ Hr) as Hi. destruct (nsi_owners s Hi) as [Hown Huniq].
  assert (forall b, b ∈ ns_open s -> ns_backend s = Some b \/ ns_close s = ClosingBackend (Some b) \/
     exists r, stage_backend (ns_replaces s !! r) = Some b) as Hopen.
  { intros b [[|r|] Ho]%Hown; simpl in Ho; [by left|right; right|right; left].
    - by exists r.
    - destruct (ns_close s); simplify_eq/=; done. }
  split_and!.
  - intros Hb. destruct (nsi_live s Hi Hb) as (Hv & b & Hbk & Hd).
    assert (b ∈ ns_open s) as Hob by (apply Hown; by exists ByRuntime).
    unfold vpn_delegate, resolver_delegate. rewrite Hv.
    destruct (ns_locked s) as [r|] eqn:Hl.
    + destruct Hd as (old & Hd).
      assert (owned s (ByReplace r) = Some old) as Ho by (simpl; by destruct Hd as [(-> & _)|(-> & _)]).
      assert (old ∈ ns_open s) as Hoo by (apply Hown; by exists (ByReplace r)).
      assert (b <> old) as Hne by (intros ->; by pose proof (Huniq ByRuntime (ByReplace r) old Hbk Ho)).
      destruct Hd as [(Hst & -> & ->)|(Hst & -> & ->)]; [exists old, old|exists b, old];
        split_and!; try done; intros r' [= <-]; exists b, old; rewrite Hst; split_and!; auto.
    + destruct Hd as [-> ->]. exists b, b. by split_and!.
  - intros services r b routes' Hrb Hl s0. subst s0.
    destruct (ReplaceVPN_cases services r b routes' s) as [[e ->]|(Hc & _ & routes2 & ->)];
      [left; by exists e|right].
    pose proof (not_closed_not_closing s Hi Hc) as Hn.
    destruct (nsi_live s Hi) as (Hv & old & Hbk & Hd); [by rewrite Hn|].
    rewrite Hl in Hd. destruct Hd as [Hvpn Hres]. exists old. split; [done|]. cbv zeta.
    split_and!.
    1:{ apply net_switch_outbound. simpl. by rewrite lookup_insert_eq, Hbk. }
    1:{ apply net_switch_resolver. simpl. by rewrite lookup_insert_eq. }
    all: unfold vpn_delegate, resolver_delegate; simpl; rewrite ?Hv, ?Hvpn, ?Hres, ?lookup_insert_eq;
      done.
  - intros b Hb. destruct (Hopen b Hb) as [?|[?|[r ?]]]; eauto.
  - intros Hd Hret. split.
    + apply elem_of_equiv_empty_L. intros b Hb.
      pose proof (nsi_taken s Hi) as Ht. rewrite Hd in Ht.
      destruct (Hopen b Hb) as [Hx|[Hx|[r Hx]]]; [by rewrite Ht in Hx|by rewrite Hd in Hx|].
      destruct (ns_replaces s !! r) eqn:E; [|done]. by destruct (Hret _ _ E) as [err ->].
    + eexists. unfold vpn_delegate. rewrite (nsi_dead s Hi) by (by rewrite Hd). done.
Qed.

(** A replacement, stopped between its switches, and followed by [Close]. *)
Definition demo_replacing : NetState :=
  switch_outbound 0 1 (Some 0%nat)
    (ReplaceVPN [] 0 1 [] (set_replace 0 (Built 1) (add_backend 1 (newNetState false [])))).

Definition demo_net_closed : NetState :=
  let s := set_replace 0 (Returned None) (backend_Close 0 (switch_resolver 0 1 (Some 0%nat) demo_replacing)) in
  close_taken (Some 1%nat) (close_take (close_outbound (close_mark s))).

Lemma demo_replacing_run : net_reachable false [] demo_replacing.
Proof.
  eapply rtc_l; [by apply (net_build 0 1)|].
  eapply rtc_l; [by apply (net_replace [] 0 1 [])|]. apply rtc_once.
  by apply (net_switch_outbound 0 1 (Some 0%nat)).
Qed.

Lemma demo_net_closed_run : net_reachable false [] demo_net_closed.
Proof.
  unfold net_reachable. etransitivity; [exact demo_replacing_run|].
  eapply rtc_l; [by apply (net_switch_resolver 0 1 (Some 0%nat))|].
  eapply rtc_l; [by apply (net_discard 0 0 None)|]. eapply rtc_l; [by apply net_close_begin|].
  eapply rtc_l; [by apply net_close_outbound|]. eapply rtc_l; [by apply net_close_take|].
  apply rtc_once. by apply (net_close_backend (Some 1%nat)).
Qed.

(** Between the two switches a dial goes to the new backend and a resolution to the old one. *)
Lemma vpn_switch_without_gap_witness :
  (exists d q, d ∈ ns_open demo_replacing /\ q ∈ ns_open demo_replacing /\
     vpn_delegate demo_replacing = Ok d /\ resolver_delegate demo_replacing = Ok q /\ d <> q) /\
  ns_open demo_net_closed = ∅.
Proof.
  split.
  - destruct (vpn_switch_without_gap false [] demo_replacing demo_replacing_run) as [H _].
    destruct (H eq_refl) as (d & q & Hd & Hq & Hv & Hres & _). exists d, q.
    split_and!; try done. intros <-. assert (Ok (A:=nat) (E:=error) 1%nat = Ok d) as E1 by exact Hv.
    assert (Ok (A:=nat) (E:=error) 0%nat = Ok d) as E2 by exact Hres. congruence.
  - apply (vpn_switch_without_gap false [] demo_net_closed demo_net_closed_run); [done|].
    intros r t H. destruct r as [|r]; [vm_compute in H; injection H as <-; by eexists|].
    exfalso. revert H. change (ns_replaces demo_net_closed) with
      (<[0%nat := Returned None]> (<[0%nat := Discarding 0 None]>
        (<[0%nat := SwitchingResolver 1 (Some 0%nat)]>
        (<[0%nat := SwitchingOutbound 1 (Some 0%nat)]>
        (<[0%nat := Built 1]> (∅ : gmap nat ReplaceStage)))))).
    by rewrite !lookup_insert_ne.
Defined.
