(* ===== verification/ServiceWatch.v ===== *)
(** The watch over the inbound services of a running network (internal/networkruntime/runtime.go): a goroutine per
    service waits for its end, marks it stopped, makes the end of the TUN a failure of the runtime, and sends the
    status on the runtime's channel, while the backend is replaced and the runtime closed as in
    BackendSwitch. *)

From S2P Require Import Prelude Core GoNet Routes NetRuntime BackendSwitch.

Definition serviceEvents_capacity : nat := 16.

(** ** State *)

(** How far [monitorService]'s goroutine is; a service that cannot say when it has ended is not watched. *)
Inductive WatchPC : Type :=
| WatchNone
| WatchWaiting
| WatchMarked (err : option error)
| WatchFailing (err : option error)
| WatchSending
| WatchOver.

(** [wt_ended]: [Done] is closed, and [Err] answers this. *)
Record Watched : Type := {
  wt_entry : serviceEntry;
  wt_ended : option (option error);
  wt_pc : WatchPC;
}.

(** [sw_sent] has what was sent, with the service, and [sw_received] what the reader took; they are not in the code. *)
Record WatchState : Type := {
  sw_net : NetState;
  sw_services : list Watched;
  sw_chan : list ServiceStatus;
  sw_sent : list (nat * ServiceStatus);
  sw_received : list ServiceStatus;
}.

(** [monitorService]: [watchable] says whether the service has a [Done]. *)
Definition monitorService (entry : serviceEntry) (watchable : bool) : Watched :=
  {| wt_entry := entry; wt_ended := None; wt_pc := if watchable then WatchWaiting else WatchNone |}.

Definition watch_start (net : NetState) (entries : list (serviceEntry * bool)) : WatchState :=
  {| sw_net := net; sw_services := map (fun '(e, w) => monitorService (markStarted e) w) entries; sw_chan := [];
     sw_sent := []; sw_received := [] |}.

Definition set_watch (pc : WatchPC) (w : Watched) : Watched :=
  {| wt_entry := wt_entry w; wt_ended := wt_ended w; wt_pc := pc |}.

Definition set_entry (e : serviceEntry) (w : Watched) : Watched :=
  {| wt_entry := e; wt_ended := wt_ended w; wt_pc := wt_pc w |}.

Definition set_ended (err : option error) (w : Watched) : Watched :=
  {| wt_entry := wt_entry w; wt_ended := Some err; wt_pc := wt_pc w |}.

Definition put_watched (i : nat) (w : Watched) (net : NetState) (s : WatchState) : WatchState :=
  {| sw_net := net; sw_services := <[i := w]> (sw_services s); sw_chan := sw_chan s; sw_sent := sw_sent s;
     sw_received := sw_received s |}.

(** ** Steps *)

(** The service ends, by itself or because it is closed. *)
Definition watch_end (i : nat) (err : option error) (s : WatchState) : option WatchState :=
  w ← sw_services s !! i;
  match wt_ended w with
  | None => Some (put_watched i (set_ended err w) (sw_net s) s)
  | Some _ => None
  end.

(** [<-provider.Done()] and [markStopped]. *)
Definition watch_mark (i : nat) (s : WatchState) : option WatchState :=
  w ← sw_services s !! i;
  match wt_pc w, wt_ended w with
  | WatchWaiting, Some err =>
      Some (put_watched i (set_watch (WatchMarked err) (set_entry (markStopped err (wt_entry w)) w)) (sw_net s) s)
  | _, _ => None
  end.

(** [closed := runtime.closed] and what follows from it; like [failTUN], it waits for [backendMu]. *)
Definition watch_look (i : nat) (s : WatchState) : option WatchState :=
  w ← sw_services s !! i;
  match wt_pc w, ns_locked (sw_net s) with
  | WatchMarked err, None =>
      let pc := if ns_closed (sw_net s) then WatchOver
                else if bool_decide (if_Type (se_factory (wt_entry w)) = ServiceTypeTUN) then WatchFailing err
                else WatchSending in
      Some (put_watched i (set_watch pc w) (sw_net s) s)
  | _, _ => None
  end.

Definition watch_fail (i : nat) (s : WatchState) : option WatchState :=
  w ← sw_services s !! i;
  match wt_pc w, ns_locked (sw_net s) with
  | WatchFailing err, None => Some (put_watched i (set_watch WatchSending w) (failTUN err (sw_net s)) s)
  | _, _ => None
  end.

(** [runtime.serviceEvents <- entry.status()], which waits while the channel is full. *)
Definition watch_send (i : nat) (s : WatchState) : option WatchState :=
  w ← sw_services s !! i;
  match wt_pc w with
  | WatchSending =>
      if bool_decide (length (sw_chan s) < serviceEvents_capacity)%nat then
        let status := service_status (wt_entry w) in
        Some {| sw_net := sw_net s; sw_services := <[i := set_watch WatchOver w]> (sw_services s);
                sw_chan := sw_chan s ++ [status]; sw_sent := sw_sent s ++ [(i, status)]; sw_received := sw_received s |}
      else None
  | _ => None
  end.

Definition watch_receive (s : WatchState) : option WatchState :=
  match sw_chan s with
  | [] => None
  | status :: rest =>
      Some {| sw_net := sw_net s; sw_services := sw_services s; sw_chan := rest; sw_sent := sw_sent s;
              sw_received := sw_received s ++ [status] |}
  end.

(** [Close] marks each service stopped once it has closed it. *)
Definition watch_close (i : nat) (err : option error) (s : WatchState) : option WatchState :=
  w ← sw_services s !! i;
  if ns_closed (sw_net s) then
    Some (put_watched i (set_entry (markStopped err (wt_entry w)) w) (sw_net s) s)
  else None.

Definition set_net (net : NetState) (s : WatchState) : WatchState :=
  {| sw_net := net; sw_services := sw_services s; sw_chan := sw_chan s; sw_sent := sw_sent s; sw_received := sw_received s |}.

Inductive watch_step : WatchState -> WatchState -> Prop :=
| wt_end i err s s' : watch_end i err s = Some s' -> watch_step s s'
| wt_mark i s s' : watch_mark i s = Some s' -> watch_step s s'
| wt_look i s s' : watch_look i s = Some s' -> watch_step s s'
| wt_fail i s s' : watch_fail i s = Some s' -> watch_step s s'
| wt_send i s s' : watch_send i s = Some s' -> watch_step s s'
| wt_receive s s' : watch_receive s = Some s' -> watch_step s s'
| wt_close i err s s' : watch_close i err s = Some s' -> watch_step s s'
| wt_net net s : net_step (sw_net s) net -> watch_step s (set_net net s).

(** ** The failed runtime *)

(** A runtime whose TUN has stopped is done, until it is closed. *)
Record down_inv (s : NetState) : Prop := {
  dn_net : net_inv s;
  dn_done : ns_runErr s <> None -> ns_closed s = false -> runtime_Done s = true;
}.

(** A step that keeps the backend, and what is done. *)
Lemma down_grow s s' :
  (ns_runErr s <> None -> ns_closed s = false -> runtime_Done s = true) ->
  ns_backend s' = ns_backend s -> ns_done s ⊆ ns_done s' -> ns_runErr s' = ns_runErr s -> ns_closed s' = ns_closed s ->
  ns_runErr s' <> None -> ns_closed s' = false -> runtime_Done s' = true.
Proof.
  intros Hd Hb Hs Hr Hc. rewrite Hr, Hc. intros H1 H2. specialize (Hd H1 H2). unfold runtime_Done in *. rewrite Hb.
  destruct (ns_backend s); [|done]. apply bool_decide_eq_true in Hd. apply bool_decide_eq_true. set_solver.
Qed.

Lemma failTUN_down err s : down_inv s -> down_inv (failTUN err s).
Proof.
  intros [Hi Hd]. split; [by apply failTUN_inv|]. unfold failTUN.
  destruct (ns_closed s) eqn:Hc; [cbn; by rewrite Hc|]. case_bool_decide as Hr; cbn [orb]; [intros H1 H2; by apply Hd|].
  pose proof (nsi_closed s Hi) as Hcl. rewrite Hc in Hcl. assert (ns_close s = NotClosing) as Hn by (by case_bool_decide).
  destruct (nsi_live s Hi) as (_ & b & Hb & _); [by rewrite Hn|]. intros _ _. unfold runtime_Done. cbv zeta. rewrite Hb. cbn.
  apply bool_decide_eq_true. set_solver.
Qed.

Lemma net_step_down s s' : net_step s s' -> down_inv s -> down_inv s'.
Proof.
  intros Hstep [Hi Hd]. split; [by eapply net_step_inv|].
  assert (forall b t, ns_done t ⊆ ns_done (signalDone b t)) as Hgrow by (intros b t; cbn; set_solver).
  destruct Hstep as [r b s Hr Hb|services r b routes s Hr Hl|r b old s Hr|r b old s Hr|r b err s Hr|b err s|b err s
                    |err s Hl|s Hc Hl|s Hc|s Hc Hl|b s Hc].
  - by apply (down_grow s).
  - destruct (ReplaceVPN_cases services r b routes s) as [[e ->]|(_ & He & routes' & ->)]; [by apply (down_grow s)|].
    cbn. by rewrite He.
  - by apply (down_grow s).
  - by apply (down_grow s).
  - apply (down_grow s); try done. cbn. set_solver.
  - unfold runStack_ended. destruct err as [e|]; [destruct (errors_Is _ _)|];
      by apply (down_grow s); try done; cbn; set_solver.
  - by apply (down_grow s); try done; cbn; set_solver.
  - apply (dn_done _ (failTUN_down err s (Build_down_inv s Hi Hd))).
  - done.
  - cbn. pose proof (nsi_closed s Hi) as Hcl. rewrite Hc in Hcl. by rewrite Hcl.
  - cbn. pose proof (nsi_closed s Hi) as Hcl. rewrite Hc in Hcl. by rewrite Hcl.
  - pose proof (nsi_closed s Hi) as Hcl. rewrite Hc in Hcl. unfold close_taken. destruct b; cbn; by rewrite Hcl.
Qed.

(** What no step takes back. *)
Definition settled (s s' : NetState) : Prop :=
  (ns_closed s = true -> ns_closed s' = true) /\
  (ns_runErr s <> None -> ns_runErr s' <> None).

Lemma failTUN_settled err s :
  settled s (failTUN err s) /\ (ns_closed (failTUN err s) = true \/ ns_runErr (failTUN err s) <> None).
Proof.
  unfold failTUN. destruct (ns_closed s) eqn:Hc; [split; [done|by left]|]. case_bool_decide as Hr; cbn [orb].
  - split; [done|by right].
  - unfold settled. cbv zeta. cbn. destruct (ns_backend s); cbn; rewrite Hc; (split; [done|by right]).
Qed.

Lemma net_step_settled s s' : net_step s s' -> settled s s'.
Proof.
  destruct 1; try done.
  - by destruct (ReplaceVPN_cases services r b routes s) as [[e ->]|(_ & _ & routes' & ->)].
  - unfold runStack_ended. destruct err; [destruct (errors_Is _ _)|]; done.
  - apply failTUN_settled.
  - unfold close_taken. by destruct b.
Qed.

(** ** What is reported *)

Definition reported (i : nat) (sent : list (nat * ServiceStatus)) : list ServiceStatus :=
  omap (fun p => if bool_decide (p.1 = i) then Some p.2 else None) sent.
#[local] Arguments reported : simpl never.

Definition is_TUN (w : Watched) : Prop := if_Type (se_factory (wt_entry w)) = ServiceTypeTUN.

(** The runtime has failed, unless it is being closed. *)
Definition failed_or_closed (net : NetState) : Prop := ns_closed net = true \/ ns_runErr net <> None.

(** The status of a service that is over. *)
Definition stopped_status (w : Watched) (status : ServiceStatus) : Prop :=
  svc_Running status = false /\ svc_Type status = if_Type (se_factory (wt_entry w)).

Definition stopped (w : Watched) : Prop := is_Some (wt_ended w) /\ se_running (wt_entry w) = false.

Definition watched_ok (net : NetState) (reports : list ServiceStatus) (w : Watched) : Prop :=
  match wt_pc w with
  | WatchNone | WatchWaiting => reports = []
  | WatchMarked err | WatchFailing err => reports = [] /\ stopped w
  | WatchSending => reports = [] /\ stopped w /\ (is_TUN w -> failed_or_closed net)
  | WatchOver => stopped w /\
      ((reports = [] /\ ns_closed net = true) \/
       (exists status, reports = [status] /\ stopped_status w status /\ (is_TUN w -> failed_or_closed net)))
  end.

Record watch_inv (s : WatchState) : Prop := {
  wi_net : down_inv (sw_net s);
  wi_services : forall i w, sw_services s !! i = Some w -> watched_ok (sw_net s) (reported i (sw_sent s)) w;
  wi_chan : (sw_sent s).*2 = sw_received s ++ sw_chan s;
}.

Lemma failed_settled net net' : settled net net' -> failed_or_closed net -> failed_or_closed net'.
Proof. intros [Hc Hr] [H|H]; [left; by apply Hc|right; by apply Hr]. Qed.

Lemma watched_ok_settled net net' reports w :
  settled net net' -> watched_ok net reports w -> watched_ok net' reports w.
Proof.
  intros Hs. pose proof (failed_settled _ _ Hs) as Hf. unfold watched_ok. destruct (wt_pc w); try done.
  - intros (? & ? & H). split_and!; [done|done|]. intros Ht. by apply Hf, H.
  - intros (? & [[-> H]|(status & ? & ? & H)]); (split; [done|]).
    + left. split; [done|]. by apply Hs.
    + right. exists status. split_and!; [done|done|]. intros Ht. by apply Hf, H.
Qed.

(** One service goes on, with the network. *)
Lemma put_watched_inv i w net s :
  watch_inv s -> down_inv net -> settled (sw_net s) net -> watched_ok net (reported i (sw_sent s)) w ->
  watch_inv (put_watched i w net s).
Proof.
  intros [Hn Hs Hc] Hd Hset Hw. split; cbn; [done| |done].
  intros k x [(<- & <- & _)|[_ H]]%list_lookup_insert_Some; [done|]. eapply watched_ok_settled; [done|]. by apply Hs.
Qed.

Lemma settled_refl net : settled net net.
Proof. done. Qed.

(** Marking a service stopped again. *)
Lemma watched_ok_entry net reports err w :
  watched_ok net reports w -> watched_ok net reports (set_entry (markStopped err (wt_entry w)) w).
Proof.
  unfold watched_ok, stopped, stopped_status, is_TUN. cbn. destruct (wt_pc w); try done.
  - by intros (? & ? & _).
  - by intros (? & ? & _).
  - intros (? & [? _] & ?). done.
  - intros [[? _] ?]. done.
Qed.

Lemma watched_ok_ended net reports err w :
  wt_ended w = None -> watched_ok net reports w -> watched_ok net reports (set_ended err w).
Proof.
  intros He. unfold watched_ok, stopped. cbn. rewrite He. destruct (wt_pc w); try done.
  - by intros (? & [[? ?] ?]).
  - by intros (? & [[? ?] ?]).
  - by intros (? & [[? ?] ?] & ?).
  - by intros [[[? ?] ?] ?].
Qed.

Lemma reported_snoc i sent j status :
  reported i (sent ++ [(j, status)]) = reported i sent ++ (if bool_decide (j = i) then [status] else []).
Proof. unfold reported. rewrite omap_app. cbn. f_equal. by case_bool_decide. Qed.

Lemma watch_step_inv s s' : watch_step s s' -> watch_inv s -> watch_inv s'.
Proof.
  intros Hstep Hi. pose proof (wi_net s Hi) as Hn. pose proof (wi_services s Hi) as Hs.
  destruct Hstep as [i err s s' H|i s s' H|i s s' H|i s s' H|i s s' H|s s' H|i err s s' H|net s H].
  - unfold watch_end in H. destruct (sw_services s !! i) as [w|] eqn:Hw; [|done]. cbn in H. destruct (wt_ended w) eqn:He; [done|].
    injection H as <-. apply put_watched_inv; [done|done|done|]. apply watched_ok_ended; [done|by apply Hs].
  - unfold watch_mark in H. destruct (sw_services s !! i) as [w|] eqn:Hw; [|done]. cbn in H.
    destruct (wt_pc w) eqn:Hpc; try done. destruct (wt_ended w) as [err|] eqn:He; [|done]. injection H as <-.
    apply put_watched_inv; [done|done|done|]. specialize (Hs i w Hw). unfold watched_ok in *. rewrite Hpc in Hs. cbn.
    split; [done|]. split; [|done]. cbn. rewrite He. by eexists.
  - unfold watch_look in H. destruct (sw_services s !! i) as [w|] eqn:Hw; [|done]. cbn in H.
    destruct (wt_pc w) as [| |err| | |] eqn:Hpc; try done. destruct (ns_locked (sw_net s)); [done|]. injection H as <-.
    apply put_watched_inv; [done|done|done|]. specialize (Hs i w Hw). unfold watched_ok in *. rewrite Hpc in Hs. destruct Hs as [Hr Hst].
    cbn. destruct (ns_closed (sw_net s)) eqn:Hc; [|case_bool_decide as Ht].
    + split; [done|]. by left.
    + done.
    + split_and!; [done|done|]. intros H. by destruct Ht.
  - unfold watch_fail in H. destruct (sw_services s !! i) as [w|] eqn:Hw; [|done]. cbn in H.
    destruct (wt_pc w) as [| | |err| |] eqn:Hpc; try done. destruct (ns_locked (sw_net s)); [done|]. injection H as <-.
    destruct (failTUN_settled err (sw_net s)) as [Hset Hfail].
    apply put_watched_inv; [done|by apply failTUN_down|done|]. specialize (Hs i w Hw). unfold watched_ok in *. rewrite Hpc in Hs.
    destruct Hs as [Hr Hst]. cbn. split_and!; [done|done|]. intros _. exact Hfail.
  - unfold watch_send in H. destruct (sw_services s !! i) as [w|] eqn:Hw; [|done]. cbn in H.
    destruct (wt_pc w) eqn:Hpc; try done. case_bool_decide; [|done]. injection H as <-.
    pose proof (Hs i w Hw) as Hok. unfold watched_ok in Hok. rewrite Hpc in Hok. destruct Hok as (Hr & [He Hrun] & Ht).
    split; cbn; [done| |].
    + intros k x [(<- & <- & _)|[Hne H']]%list_lookup_insert_Some.
      * rewrite reported_snoc, Hr, bool_decide_true by done. cbn. split; [by split|]. right. eexists. split; [done|].
        split; [|done]. split; [exact Hrun|done].
      * rewrite reported_snoc, bool_decide_false, app_nil_r by done. by apply Hs.
    + rewrite fmap_app, (wi_chan s Hi), <-app_assoc. done.
  - unfold watch_receive in H. destruct (sw_chan s) as [|status rest] eqn:Hc; [done|]. injection H as <-.
    split; cbn; [done|done|]. rewrite (wi_chan s Hi), Hc, <-app_assoc. done.
  - unfold watch_close in H. destruct (sw_services s !! i) as [w|] eqn:Hw; [|done]. cbn in H.
    destruct (ns_closed (sw_net s)) eqn:Hc; [|done]. injection H as <-.
    apply put_watched_inv; [done|done|done|]. apply watched_ok_entry. by apply Hs.
  - split; cbn; [by eapply net_step_down| |apply (wi_chan s Hi)].
    intros i w Hw. eapply watched_ok_settled; [by apply net_step_settled|by apply Hs].
Qed.

Lemma watch_start_inv net entries : down_inv net -> watch_inv (watch_start net entries).
Proof.
  intros Hd. split; cbn; [done| |done]. intros i w Hw. change (map ?f entries) with (f <$> entries) in Hw.
  rewrite list_lookup_fmap in Hw.
  destruct (entries !! i) as [[e b]|]; [|done]. cbn in Hw. injection Hw as <-. unfold watched_ok. cbn. by destruct b.
Qed.

Lemma newNetState_down resourceRoutes routes : down_inv (newNetState resourceRoutes routes).
Proof. split; [apply newNetState_inv|done]. Qed.

(** ** The end of a service is reported

    A service that has ended goes from its marking to the channel by itself, if there is room, once a replacement in
    progress has given the mutex back. *)
Lemma watch_net_run net net' s :
  rtc net_step net net' -> sw_net s = net -> rtc watch_step s (set_net net' s).
Proof.
  intros Hr. revert s. induction Hr as [net|net net1 net' Hstep _ IH]; intros s <-.
  - destruct s. apply rtc_refl.
  - eapply rtc_l; [by apply (wt_net net1)|]. exact (IH (set_net net1 s) eq_refl).
Qed.

Lemma watch_reports_unlocked s i w err :
  sw_services s !! i = Some w -> wt_pc w = WatchWaiting -> wt_ended w = Some err -> ns_closed (sw_net s) = false ->
  ns_locked (sw_net s) = None -> (length (sw_chan s) < serviceEvents_capacity)%nat ->
  exists s', rtc watch_step s s' /\ sw_sent s' = sw_sent s ++ [(i, service_status (markStopped err (wt_entry w)))].
Proof.
  intros Hw Hpc He Hc Hl Hroom.
  assert (i < length (sw_services s))%nat as Hi by (by eapply lookup_lt_Some).
  set (w1 := set_watch (WatchMarked err) (set_entry (markStopped err (wt_entry w)) w)).
  assert (watch_mark i s = Some (put_watched i w1 (sw_net s) s)) as H1 by (unfold watch_mark; rewrite Hw; cbn; by rewrite Hpc, He).
  assert (forall net k, sw_services (put_watched i k net s) !! i = Some k) as Hput by (intros; cbn; by rewrite list_lookup_insert_eq).
  assert (forall net k, wt_pc k = WatchSending -> wt_entry k = markStopped err (wt_entry w) ->
    exists s', rtc watch_step (put_watched i k net s) s' /\
      sw_sent s' = sw_sent s ++ [(i, service_status (markStopped err (wt_entry w)))]) as Hsend.
  { intros net k Hk Hent. eexists. split; [apply rtc_once, (wt_send i); unfold watch_send; rewrite Hput; cbn; rewrite Hk|].
    - rewrite bool_decide_true by done. reflexivity.
    - cbn. by rewrite Hent. }
  assert (forall a b net net', put_watched i a net (put_watched i b net' s) = put_watched i a net s) as Hpp.
  { intros. unfold put_watched. cbn. f_equal. apply list_insert_insert_eq. }
  destruct (decide (is_TUN w)) as [Ht|Ht].
  - destruct (Hsend (failTUN err (sw_net s)) (set_watch WatchSending (set_watch (WatchFailing err) w1)) eq_refl eq_refl) as (s' & Hr & Hsent).
    exists s'. split; [|done].
    eapply rtc_l; [by apply (wt_mark i)|].
    eapply rtc_l; [apply (wt_look i); unfold watch_look; rewrite Hput; cbn; rewrite Hl, Hc, bool_decide_true by exact Ht; reflexivity|].
    rewrite Hpp. eapply rtc_l; [apply (wt_fail i); unfold watch_fail; rewrite Hput; cbn; rewrite Hl; reflexivity|].
    rewrite Hpp. exact Hr.
  - destruct (Hsend (sw_net s) (set_watch WatchSending w1) eq_refl eq_refl) as (s' & Hr & Hsent).
    exists s'. split; [|done].
    eapply rtc_l; [by apply (wt_mark i)|].
    eapply rtc_l; [apply (wt_look i); unfold watch_look; rewrite Hput; cbn; rewrite Hl, Hc, bool_decide_false by exact Ht; reflexivity|].
    rewrite Hpp. exact Hr.
Qed.

Lemma watch_reports s i w err :
  net_inv (sw_net s) ->
  sw_services s !! i = Some w -> wt_pc w = WatchWaiting -> wt_ended w = Some err -> ns_closed (sw_net s) = false ->
  (length (sw_chan s) < serviceEvents_capacity)%nat ->
  exists s', rtc watch_step s s' /\ sw_sent s' = sw_sent s ++ [(i, service_status (markStopped err (wt_entry w)))].
Proof.
  intros Hn Hw Hpc He Hc Hroom. destruct (net_unlocks _ Hn) as (net & Hrun & _ & Hl & Hc').
  destruct (watch_reports_unlocked (set_net net s) i w err) as (s' & Hr & Hsent); try done; [by cbn; rewrite Hc'|].
  exists s'. split; [|exact Hsent]. etransitivity; [|exact Hr]. by eapply watch_net_run.
Qed.

(** C33: The end of a service is reported, in every interleaving of the watching goroutines, of services that end, of the
    reader, of replacements and failures of the backend, and of [Close]. At most one status is sent for a
    service, it says that the service does not run, and it is sent only when the service has ended; the reader gets what
    was sent, in order. When the watch of a service is over and the runtime is not being closed, its status was
    sent, and if it was the TUN, the runtime is done and has an error. A service that has ended can get to
    the channel while there is room, with its error as the status's. *)
Theorem service_end_reported (resourceRoutes : bool) (routes : list Prefix) (entries : list (serviceEntry * bool))
    (s : WatchState) (run : rtc watch_step (watch_start (newNetState resourceRoutes routes) entries) s) :
  (forall i w, sw_services s !! i = Some w ->
     (length (reported i (sw_sent s)) <= 1)%nat /\
     (forall status, status ∈ reported i (sw_sent s) -> stopped_status w status /\ is_Some (wt_ended w)) /\
     (wt_pc w = WatchOver -> ns_closed (sw_net s) = false ->
        (exists status, reported i (sw_sent s) = [status]) /\
        (is_TUN w -> is_Some (runtime_Err (sw_net s)) /\ runtime_Done (sw_net s) = true)) /\
     (forall err, wt_pc w = WatchWaiting -> wt_ended w = Some err -> ns_closed (sw_net s) = false ->
        (length (sw_chan s) < serviceEvents_capacity)%nat -> exists s', rtc watch_step s s' /\
          reported i (sw_sent s') = [service_status (markStopped err (wt_entry w))])) /\
  (sw_sent s).*2 = sw_received s ++ sw_chan s.
Proof.
  assert (watch_inv s) as Hi.
  { pose proof (watch_start_inv (newNetState resourceRoutes routes) entries (newNetState_down resourceRoutes routes)) as Hstart.
    eapply (rtc_closed watch_step watch_inv); [|exact Hstart|exact run]. eauto using watch_step_inv. }
  split; [|apply (wi_chan s Hi)]. intros i w Hw. pose proof (wi_services s Hi i w Hw) as Hok. unfold watched_ok in Hok.
  assert (reported i (sw_sent s) = [] \/ exists status, reported i (sw_sent s) = [status] /\ stopped_status w status /\ stopped w)
    as Hcases.
  { destruct (wt_pc w); try (by left); try (left; apply Hok).
    destruct Hok as [Hst [[Hr _]|(status & Hr & Hs & _)]]; [by left|right; by exists status]. }
  split_and!.
  - destruct Hcases as [->|(status & -> & _)]; cbn; lia.
  - intros status Hin. destruct Hcases as [Hr|(status' & Hr & Hs & He & _)]; rewrite Hr in Hin; [by apply elem_of_nil in Hin|].
    apply list_elem_of_singleton in Hin as ->. done.
  - intros Hpc Hc. rewrite Hpc in Hok. destruct Hok as [_ [[_ H]|(status & Hr & _ & Ht)]]; [congruence|].
    split; [by exists status|]. intros HT. destruct (Ht HT) as [H|H]; [congruence|].
    split; [|by apply (dn_done _ (wi_net s Hi))]. unfold runtime_Err. destruct (ns_runErr (sw_net s)); [by eexists|done].
  - intros err Hpc He Hc Hroom. destruct (watch_reports s i w err (dn_net _ (wi_net s Hi)) Hw Hpc He Hc Hroom) as (s' & Hr & Hsent).
    exists s'. split; [done|]. rewrite Hsent, reported_snoc, bool_decide_true by done. rewrite Hpc in Hok. by rewrite Hok.
Qed.

(** ** A TUN that stops *)

Definition demo_tun_factory : InboundFactory :=
  {| if_Type := ServiceTypeTUN; if_Enabled := true; if_New := Ok (Some tt); if_Start := None; if_Close := None;
     if_Addr := "ZJU-Portal 172.19.0.1/30" |}.

Definition demo_watch_start : WatchState :=
  watch_start (newNetState false [])
    [({| se_factory := demo_tun_factory; se_running := false; se_lastError := ""; se_open := true |}, true)].

Definition demo_watched : WatchState :=
  default demo_watch_start (fold_left (fun s op => s ≫= op)
    [watch_end 0 (Some (EText "read tun: file already closed")); watch_mark 0; watch_look 0; watch_fail 0; watch_send 0]
    (Some demo_watch_start)).

Lemma demo_watched_run : rtc watch_step demo_watch_start demo_watched.
Proof.
  eapply rtc_l; [by apply (wt_end 0 (Some (EText "read tun: file already closed")))|].
  eapply rtc_l; [by apply (wt_mark 0)|]. eapply rtc_l; [by apply (wt_look 0)|]. eapply rtc_l; [by apply (wt_fail 0)|].
  eapply rtc_l; [by apply (wt_send 0)|]. apply rtc_refl.
Qed.

Lemma service_end_reported_witness :
  runtime_Done (sw_net demo_watched) = true /\ (sw_sent demo_watched).*2 = sw_received demo_watched ++ sw_chan demo_watched.
Proof.
  destruct (service_end_reported false [] [({| se_factory := demo_tun_factory; se_running := false; se_lastError := "";
    se_open := true |}, true)] demo_watched demo_watched_run) as [Hs Hc].
  split; [|exact Hc]. destruct (Hs 0%nat _ eq_refl) as (_ & _ & Hover & _).
  destruct (Hover eq_refl eq_refl) as [_ Ht]. exact (proj2 (Ht eq_refl)).
Defined.
