(* ===== verification/ClientResource.v ===== *)
(** The resources of the aTrust client (client/atrust/parse.go): the application list that the
    server sends becomes IP ranges, domains, DNS records and node groups. Decoding the JSON
    text is a parameter; addresses, masks and port ranges are computed as the code does. *)

From S2P Require Import Prelude Core GoNet Packet Dial Routes Nodes.

(** ** [net.ParseCIDR] and masks *)

(** [dtoi]: the digits of the whole text, below 0xFFFFFF. *)
Definition dtoi (l : list ascii) : option Z :=
  match l with
  | [] => None
  | _ => match digits_value 0 l with
         | Some v => if bool_decide (v < 16777215) then Some v else None
         | None => None
         end
  end.

(** Byte [j] of a mask of [ones] bits. *)
Definition mask_byte (ones : Z) (j : nat) : Z :=
  256 - 2 ^ (8 - Z.min 8 (Z.max 0 (ones - 8 * Z.of_nat j))).

Definition CIDRMask (ones : Z) (bytes : nat) : list Z := map (mask_byte ones) (seq 0 bytes).

(** [ip.Mask(mask)]; nil is [None]. *)
Definition IP_Mask (ip : IP) (mask : list Z) : option IP :=
  let mask := if bool_decide (len mask = 16) && bool_decide (len ip = 4)
                 && forallb (fun b => bool_decide (b = 255)) (take 12 mask)
              then drop 12 mask else mask in
  let ip := if bool_decide (len mask = 4) && bool_decide (len ip = 16)
               && bool_decide (take 12 ip = v4InV6Prefix)
            then drop 12 ip else ip in
  if bool_decide (len ip = len mask) then Some (zip_with Z.land ip mask) else None.

(** [addr.As16()]. *)
Definition As16 (a : Addr) : IP :=
  match a with
  | Addr4 _ => v4InV6Prefix ++ AsSlice a
  | _ => AsSlice a
  end.

(** The network of [net.ParseCIDR]: its address and its mask. *)
Definition ParseCIDR (s : string) : option (IP * list Z) :=
  match split_first "/"%char (chars s) with
  | None => None
  | Some (addr, mask) =>
      match ParseAddr (of_chars addr), dtoi mask with
      | Some ipAddr, Some n =>
          let bytes := if Is4 ipAddr then 4%nat else 16%nat in
          if bool_decide (n > 8 * Z.of_nat bytes) then None
          else let m := CIDRMask n bytes in
               match IP_Mask (As16 ipAddr) m with
               | Some ip => Some (ip, m)
               | None => None
               end
      | _, _ => None
      end
  end.

Definition To16 (ip : IP) : IP := if bool_decide (len ip = 4) then v4InV6Prefix ++ ip else ip.

(** ** The decoded resource *)

Record AppAddress : Type := {
  ad_Protocol : string;
  ad_Port : string;
  ad_Host : string;
  ad_IP : option (list string);
}.

Record App : Type := { app_ID : string; app_NodeGroupID : string; app_AddressList : list AppAddress }.

Record NodeAddress : Type := { na_Address : string; na_Type : string }.
Record NodeGroup : Type := { ng_AddressInfo : list NodeAddress; ng_ID : string }.

Record ClientResource : Type := {
  cr_AppInfo : list (list App);
  cr_MajorNodeGroup : string;
  cr_NodeGroupList : list NodeGroup;
  cr_DNSOption : string;
  cr_DNSOptionV2 : string;
}.

(** ** What the client keeps *)

Record ClientResources : Type := {
  cl_ipResources : list IPResource;
  cl_domainResources : gmap string DomainResource;
  cl_dnsResource : gmap string IP;
}.

Definition no_resources : ClientResources :=
  {| cl_ipResources := []; cl_domainResources := ∅; cl_dnsResource := ∅ |}.

Record ParsedClient : Type := {
  pc_resources : option ClientResources;
  pc_dnsServer : string;
  pc_MajorNodeGroup : string;
  pc_NodeGroups : gmap string (list string);
}.

(** *** One address of an application *)

(** The port range, [None] where the address is skipped. *)
Definition parse_ports (port : string) : option (Z * Z) :=
  if Contains port "-" then
    match Split port "-"%char with
    | [first; last] =>
        match Atoi first, Atoi last with
        | Some portMin, Some portMax => Some (portMin, portMax)
        | _, _ => None
        end
    | _ => None
    end
  else match Atoi port with Some p => Some (p, p) | None => None end.

(** What the host stands for: a range of IPv4 addresses, an IPv6 address, network or range,
    which is skipped, or a domain. *)
Inductive Host : Type :=
| HostRange (first last : IP)
| HostIPv6
| HostDomain.

(** [ip4[i] | ^ipNet.Mask[i]] for the bytes of [ip4]; [None] is an index out of range. *)
Fixpoint broadcast_bytes (ip4 mask : list Z) : option (list Z) :=
  match ip4, mask with
  | [], _ => Some []
  | b :: ip4, m :: mask =>
      match broadcast_bytes ip4 mask with
      | Some l => Some (Z.lor b (Z.lxor m 255) :: l)
      | None => None
      end
  | _ :: _, [] => None
  end.

Definition classify_host (host : string) : option Host :=
  match ParseIP host with
  | Some ip => Some (match To4 ip with Some _ => HostRange ip ip | None => HostIPv6 end)
  | None =>
      match ParseCIDR host with
      | Some (ip, mask) =>
          match To4 ip with
          | Some ip4 =>
              match broadcast_bytes ip4 mask with
              | Some ipMax4 => Some (HostRange (To16 ip4) (To16 ipMax4))
              | None => None
              end
          | None => Some HostIPv6
          end
      | None =>
          match Split host "-"%char with
          | [first; last] =>
              match ParseIP first, ParseIP last with
              | Some ipMin, Some ipMax =>
                  Some (match To4 ipMin with Some _ => HostRange ipMin ipMax | None => HostIPv6 end)
              | _, _ => Some HostDomain
              end
          | _ => Some HostDomain
          end
      end
  end.

(** The first of the records that is an IPv4 address. *)
Fixpoint first_ipv4 (ips : list string) : option IP :=
  match ips with
  | [] => None
  | s :: ips =>
      match ParseIP s with
      | Some ip => match To4 ip with Some _ => Some ip | None => first_ipv4 ips end
      | None => first_ipv4 ips
      end
  end.

Definition known_protocol (protocol : string) : bool :=
  bool_decide (protocol = "tcp"%string) || bool_decide (protocol = "udp"%string)
  || bool_decide (protocol = "all"%string).

(** The loop body; [None] is a panic. *)
Definition add_app_address (app : App) (address : AppAddress) (c : ClientResources)
    : option ClientResources :=
  if negb (known_protocol (ad_Protocol address)) then Some c
  else match parse_ports (ad_Port address) with
  | None => Some c
  | Some (portMin, portMax) =>
      match classify_host (ad_Host address) with
      | None => None
      | Some (HostRange first last) =>
          Some {| cl_ipResources := cl_ipResources c ++
                    [{| IPMin := first; IPMax := last; PortMin := portMin; PortMax := portMax;
                        ResProtocol := ad_Protocol address; AppID := app_ID app;
                        NodeGroupID := app_NodeGroupID app |}];
                  cl_domainResources := cl_domainResources c; cl_dnsResource := cl_dnsResource c |}
      | Some HostIPv6 => Some c
      | Some HostDomain =>
          let domain := {| dr_PortMin := portMin; dr_PortMax := portMax;
                           dr_Protocol := ad_Protocol address; dr_AppID := app_ID app;
                           dr_NodeGroupID := app_NodeGroupID app |} in
          Some {| cl_ipResources := cl_ipResources c;
                  cl_domainResources :=
                    <[RemoveAll (ad_Host address) "*"%char := domain]> (cl_domainResources c);
                  cl_dnsResource :=
                    match ad_IP address with
                    | Some ips => match first_ipv4 ips with
                                  | Some ip => <[ad_Host address := ip]> (cl_dnsResource c)
                                  | None => cl_dnsResource c
                                  end
                    | None => cl_dnsResource c
                    end |}
      end
  end.

Fixpoint add_app_addresses (addresses : list (App * AppAddress)) (c : ClientResources)
    : option ClientResources :=
  match addresses with
  | [] => Some c
  | (app, address) :: rest =>
      match add_app_address app address c with
      | Some c => add_app_addresses rest c
      | None => None
      end
  end.

(** The three nested loops. *)
Definition all_addresses (appInfo : list (list App)) : list (App * AppAddress) :=
  flat_map (fun apps => flat_map (fun app => map (pair app) (app_AddressList app)) apps) appInfo.

(** *** Nodes *)

Definition node_address (serverAddress : string) (info : NodeAddress) : string :=
  let address := if bool_decide (na_Address info = "{{sdpcHost}}"%string) then serverAddress
                 else na_Address info in
  if negb (Contains address ":") then address +:+ ":441" else address.

Definition node_groups (serverAddress : string) (groups : list NodeGroup) : gmap string (list string) :=
  fold_left (fun m g => <[ng_ID g := map (node_address serverAddress) (ng_AddressInfo g)]> m) groups ∅.

(** [parseResource]; [None] is a panic. *)
Definition parseResource (unmarshal : string -> result error ClientResource) (serverAddress : string)
    (resource : string) (c : ParsedClient) : option (option error * ParsedClient) :=
  match unmarshal resource with
  | Err err => Some (Some err, c)
  | Ok r =>
      match add_app_addresses (all_addresses (cr_AppInfo r)) no_resources with
      | None => None
      | Some resources =>
          Some (None,
            {| pc_resources := Some resources;
               pc_dnsServer := if negb (is_empty (cr_DNSOption r)) then cr_DNSOption r
                               else if negb (is_empty (cr_DNSOptionV2 r)) then cr_DNSOptionV2 r
                               else pc_dnsServer c;
               pc_MajorNodeGroup := cr_MajorNodeGroup r;
               pc_NodeGroups := node_groups serverAddress (cr_NodeGroupList r) |})
      end
  end.

(** [RouteExcludedIPs] (client.go): the node addresses that are IPv4, in some order of the
    groups. *)
Definition excluded_ip (address : string) : option IP :=
  match SplitHostPort address with
  | None => None
  | Some (host, _) => match ParseIP host with Some ip => To4 ip | None => None end
  end.

Definition RouteExcludedIPs (range : gmap string (list string) -> list (string * list string))
    (groups : gmap string (list string)) : list IP :=
  omap excluded_ip (concat (map snd (range groups))).

(** ** Addresses as numbers *)

Lemma bytes_value_app l1 l2 : bytes_value (l1 ++ l2) = bytes_value l1 * 256 ^ len l2 + bytes_value l2.
Proof. unfold bytes_value at 1. rewrite foldl_app, foldl_value_shift. done. Qed.

Lemma bytes_value_inj l1 l2 :
  bytes_ok l1 -> bytes_ok l2 -> length l1 = length l2 -> bytes_value l1 = bytes_value l2 -> l1 = l2.
Proof.
  revert l2. induction l1 as [|x l1 IH]; intros [|y l2] H1 H2 Hl Hv; simplify_eq/=; [done|].
  apply Forall_cons in H1 as [Hx H1]. apply Forall_cons in H2 as [Hy H2].
  rewrite !bytes_value_cons in Hv. pose proof (bytes_value_bounds l1 H1) as B1.
  pose proof (bytes_value_bounds l2 H2) as B2.
  assert (len l1 = len l2) as Hlen by (unfold len; lia). rewrite Hlen in *.
  assert (x = y) as -> by nia. f_equal. apply IH; [done..|lia].
Qed.

Lemma split_word x y :
  0 <= y < 2 ^ 32 ->
  Z.shiftr (x * 2 ^ 32 + y) 32 = x /\ Z.land (x * 2 ^ 32 + y) (2 ^ 32 - 1) = y.
Proof.
  intros Hy. split.
  - rewrite Z.shiftr_div_pow2 by done. rewrite Z.div_add_l by done. rewrite Z.div_small by done. apply Z.add_0_r.
  - change (2 ^ 32 - 1) with (Z.ones 32). rewrite Z.land_ones by done. rewrite Z.add_comm, Z_mod_plus_full.
    by apply Z.mod_small.
Qed.

(** An address is IPv4 for [FromStdIP] exactly when [To4] takes it. *)
Lemma FromStdIP_To4 ip a :
  bytes_ok ip -> FromStdIP ip = Addr4 a <-> exists ip4, To4 ip = Some ip4 /\ bytes_value ip4 = a.
Proof.
  intros Hok. unfold FromStdIP, AddrFromSlice, To4.
  destruct (bool_decide (len ip = 4)) eqn:E4; simpl.
  { split; [intros [= <-]; eauto|by intros (ip4 & [= <-] & ->)]. }
  destruct (decide (len ip = 16)) as [E16|E16].
  2:{ rewrite (bool_decide_eq_false_2 (len ip = 16)) by done.
      rewrite (bool_decide_eq_false_2 (_ /\ _)) by tauto. split; [done|by intros (? & [=] & _)]. }
  rewrite (bool_decide_eq_true_2 (len ip = 16)) by done. cbn [Unmap].
  assert (length ip = 16%nat) as Hlen by (unfold len in E16; lia).
  assert (bytes_value ip = bytes_value (take 12 ip) * 256 ^ len (drop 12 ip) + bytes_value (drop 12 ip)) as Hv
    by (rewrite <-bytes_value_app; by rewrite take_drop).
  assert (bytes_ok (take 12 ip) /\ bytes_ok (drop 12 ip)) as [Hok1 Hok2] by (by split; [apply Forall_take|apply Forall_drop]).
  assert (len (drop 12 ip) = 4) as Hl4 by (unfold len; rewrite length_drop; lia).
  pose proof (bytes_value_bounds _ Hok2) as B. rewrite Hl4 in *. change (256 ^ 4) with (2 ^ 32) in *.
  destruct (split_word (bytes_value (take 12 ip)) _ B) as [Hs Hland]. rewrite Hv.
  rewrite Hs. rewrite (bool_decide_ext (bytes_value (take 12 ip) = 65535)
    (len ip = 16 /\ take 12 ip = v4InV6Prefix)).
  2:{ split; [|by intros [_ ->]]. intros Hp. split; [done|]. apply bytes_value_inj; [done| | |done].
      - by apply (bool_decide_unpack _).
      - by rewrite length_take, Hlen. }
  destruct (bool_decide (len ip = 16 /\ _)); [|split; [done|by intros (? & [=] & _)]].
  rewrite Hland.
  split; [intros [= <-]; eauto|by intros (ip4 & [= <-] & ->)].
Qed.

Lemma parse_groups_bytes fuel ip e s r e' s' :
  bytes_ok ip -> parse_groups fuel ip e s = Some (r, e', s') -> bytes_ok r.
Proof.
  revert ip e s. induction fuel as [|fuel IH]; intros ip e s Hok H; simpl in H; [by simplify_eq|].
  destruct (hex_group 0 0 s) as [[acc off] rest]. repeat (case_bool_decide; [done|]).
  assert (bytes_ok (ip ++ put_be16 acc)) as Hok' by (apply Forall_app; split; [done|apply put_be16_bytes]).
  destruct rest as [|c rest]; [by simplify_eq|].
  destruct (decide (c = "."%char)) as [->|Hdot].
  { repeat (case_bool_decide; [done|]). destruct (parseIPv4 s) as [v4|] eqn:E; [|done].
    apply parseIPv4_bytes in E as [_ ?]. simplify_eq. by apply Forall_app. }
  destruct (decide (c = ":"%char)) as [->|Hcol].
  2:{ destruct c as [[] [] [] [] [] [] [] []]; first [discriminate H|congruence]. }
  destruct rest as [|d rest]; [done|].
  destruct (decide (d = ":"%char)) as [->|Hd].
  { destruct e; [done|]. destruct rest; [by simplify_eq|]. exact (IH _ _ _ Hok' H). }
  destruct d as [[] [] [] [] [] [] [] []]; first [exact (IH _ _ _ Hok' H)|discriminate H|congruence].
Qed.

Lemma run_groups_bytes e s r : run_groups e s = Some r -> bytes_ok r.
Proof.
  unfold run_groups. destruct (parse_groups 8 [] e s) as [[[ip e'] [|]]|] eqn:E; try done.
  apply parse_groups_bytes in E; [|constructor]. case_bool_decide; destruct e'; intros Hr; simplify_eq; [|done].
  apply Forall_app. split; [by apply Forall_take|]. apply Forall_app. split; [|by apply Forall_drop].
  apply Forall_replicate. unfold byte_ok. lia.
Qed.

Lemma parseIPv6_bytes s r : parseIPv6 s = Some r -> bytes_ok r.
Proof.
  unfold parseIPv6. intros H. pose proof (run_groups_bytes None s r) as Hn.
  destruct s as [|c s]; [exact (Hn H)|].
  destruct (decide (c = ":"%char)) as [->|Hc].
  2:{ destruct c as [[] [] [] [] [] [] [] []]; first [exact (Hn H)|congruence]. }
  destruct s as [|d s]; [exact (Hn H)|].
  destruct (decide (d = ":"%char)) as [->|Hd].
  2:{ destruct d as [[] [] [] [] [] [] [] []]; first [exact (Hn H)|congruence]. }
  destruct s; [|exact (run_groups_bytes _ _ _ H)].
  injection H as <-. change (bytes_ok (replicate 16 0)). apply Forall_replicate. unfold byte_ok. lia.
Qed.

Lemma ParseIP_bytes s ip : ParseIP s = Some ip -> bytes_ok ip.
Proof.
  unfold ParseIP. destruct (List.find _ _) as [c|]; [|done].
  assert (match parseIPv4 (chars s) with Some l => Some (v4InV6Prefix ++ l) | None => None end = Some ip ->
    bytes_ok ip) as H4.
  { destruct (parseIPv4 (chars s)) eqn:E; [|done]. intros H. injection H as <-. apply parseIPv4_bytes in E as [_ ?].
    apply (Forall_app_2 byte_ok v4InV6Prefix); [|done]. by apply (bool_decide_unpack _). }
  assert ((if existsb (fun c => bool_decide (c = "%"%char)) (chars s) then None
           else parseIPv6 (chars s)) = Some ip -> bytes_ok ip) as H6
    by (destruct (existsb _ _); [done|apply parseIPv6_bytes]).
  destruct c as [[] [] [] [] [] [] [] []]; first [exact H4|exact H6|done].
Qed.

(** *** Networks *)

(** The bytes of a masked octet, and the last address it leaves room for. *)
Lemma mask_octet b k :
  byte_ok b -> 0 <= k <= 8 ->
  let m := 256 - 2 ^ (8 - k) in
  Z.land b m = b - b mod 2 ^ (8 - k) /\
  Z.lor (b - b mod 2 ^ (8 - k)) (Z.lxor m 255) = b - b mod 2 ^ (8 - k) + (2 ^ (8 - k) - 1) /\
  byte_ok (b - b mod 2 ^ (8 - k)) /\ byte_ok (b - b mod 2 ^ (8 - k) + (2 ^ (8 - k) - 1)).
Proof.
  intros Hb Hk m. unfold byte_ok in *.
  assert (forallb (fun b => forallb (fun k =>
    let m := 256 - 2 ^ (8 - k) in let first := b - b mod 2 ^ (8 - k) in
    let last := first + (2 ^ (8 - k) - 1) in
    bool_decide (Z.land b m = first) && bool_decide (Z.lor first (Z.lxor m 255) = last)
    && bool_decide (0 <= first < 256) && bool_decide (0 <= last < 256))
    (map Z.of_nat (seq 0 9))) (map Z.of_nat (seq 0 256)) = true) as H by (by vm_compute).
  rewrite forallb_forall in H.
  specialize (H b). rewrite forallb_forall in H.
  assert (In b (map Z.of_nat (seq 0 256))) as H1.
  { apply in_map_iff. exists (Z.to_nat b). split; [lia|]. apply in_seq. lia. }
  assert (In k (map Z.of_nat (seq 0 9))) as H2.
  { apply in_map_iff. exists (Z.to_nat k). split; [lia|]. apply in_seq. lia. }
  specialize (H H1 k H2). rewrite !andb_true_iff, !bool_decide_eq_true in H. tauto.
Qed.

(** The unit of octet [j] under a mask of [n] bits. *)
Definition octet_unit (n : Z) (j : Z) : Z := 2 ^ (8 - Z.min 8 (Z.max 0 (n - 8 * j))).

Lemma mask_values (n b0 b1 b2 b3 : Z) :
  0 <= n <= 32 -> byte_ok b0 -> byte_ok b1 -> byte_ok b2 -> byte_ok b3 ->
  let floor b j := b - b mod octet_unit n j in
  let ceil b j := b - b mod octet_unit n j + (octet_unit n j - 1) in
  let v := bytes_value [b0; b1; b2; b3] in
  bytes_value [floor b0 0; floor b1 1; floor b2 2; floor b3 3] = v - v mod 2 ^ (32 - n) /\
  bytes_value [ceil b0 0; ceil b1 1; ceil b2 2; ceil b3 3] = v - v mod 2 ^ (32 - n) + (2 ^ (32 - n) - 1).
Proof.
  intros Hn H0 H1 H2 H3. unfold byte_ok in *.
  assert (n ∈ map Z.of_nat (seq 0 33)) as Hin.
  { apply list_elem_of_fmap. exists (Z.to_nat n). split; [lia|]. apply elem_of_seq. lia. }
  unfold octet_unit, bytes_value. cbn [foldl].
  (repeat (apply elem_of_cons in Hin as [->|Hin]; [clear Hn;
    repeat match goal with |- context [2 ^ ?e] => let x := eval vm_compute in (2 ^ e) in change (2 ^ e) with x end;
    split; Z.div_mod_to_equations; lia|])).
  by apply elem_of_nil in Hin.
Qed.

Lemma be_bytes_ok n v acc : bytes_ok acc -> bytes_ok (be_bytes n v acc).
Proof.
  revert v acc. induction n as [|n IH]; intros v acc Hacc; simpl; [done|]. apply IH.
  constructor; [|done]. unfold byte_ok. pose proof (Z.mod_pos_bound v 256). lia.
Qed.

Lemma AsSlice_v4 v :
  0 <= v < 2 ^ 32 -> exists b0 b1 b2 b3, AsSlice (Addr4 v) = [b0; b1; b2; b3] /\
    byte_ok b0 /\ byte_ok b1 /\ byte_ok b2 /\ byte_ok b3 /\ bytes_value [b0; b1; b2; b3] = v.
Proof.
  intros Hv. pose proof (be_bytes_ok 4 v [] ltac:(constructor)) as Hok. simpl in Hok |- *.
  do 4 eexists. split; [reflexivity|].
  unfold bytes_ok in Hok. repeat (apply Forall_cons in Hok as [? Hok]).
  split_and!; [done..|]. unfold bytes_value. cbn [foldl]. change (2 ^ 32) with 4294967296 in Hv.
  Z.div_mod_to_equations. lia.
Qed.

Lemma FromStdIP_To16 l : length l = 4%nat -> bytes_ok l -> FromStdIP (To16 l) = Addr4 (bytes_value l).
Proof.
  intros Hl Hok. unfold To16. rewrite bool_decide_eq_true_2 by (unfold len; lia).
  apply FromStdIP_To4.
  - apply (Forall_app_2 byte_ok v4InV6Prefix); [by apply (bool_decide_unpack _)|done].
  - exists l. destruct l as [|a [|b [|c [|d [|]]]]]; done.
Qed.

(** *** What a host covers *)

Definition in_network (host : string) (a : Z) : Prop :=
  exists addr mask base n, split_first "/"%char (chars host) = Some (addr, mask) /\
    ParseAddr (of_chars addr) = Some (Addr4 base) /\ dtoi mask = Some n /\ n <= 32 /\
    base / 2 ^ (32 - n) = a / 2 ^ (32 - n).

(** A network in the notation of IPv6 has the address in its 16 bytes. *)
Definition in_network6 (host : string) (a : Z) : Prop :=
  exists ip mask x, ParseCIDR host = Some (ip, mask) /\ len mask = 16 /\
    len x = 16 /\ FromStdIP x = Addr4 a /\ IP_Mask x mask = Some ip.

Definition in_range (host : string) (a : Z) : Prop :=
  ParseCIDR host = None /\
  exists first last ipMin ipMax x y, Split host "-"%char = [first; last] /\
    ParseIP first = Some ipMin /\ ParseIP last = Some ipMax /\
    FromStdIP ipMin = Addr4 x /\ FromStdIP ipMax = Addr4 y /\ x <= a <= y.

(** A host that is an address, a network or a range. *)
Definition host_covers (host : string) (a : Z) : Prop :=
  match ParseIP host with
  | Some ip => FromStdIP ip = Addr4 a
  | None => in_network host a \/ in_network6 host a \/ in_range host a
  end.

(** The IPv4 addresses from one to another. *)
Definition between (first last : IP) (a : Z) : Prop :=
  exists x y, FromStdIP first = Addr4 x /\ FromStdIP last = Addr4 y /\ x <= a <= y.

Lemma dtoi_nonneg l n : dtoi l = Some n -> 0 <= n.
Proof.
  unfold dtoi. destruct l; [done|]. destruct (digits_value _ _) eqn:E; [|done].
  case_bool_decide; [|done]. intros [= <-]. by apply digits_value_nonneg in E.
Qed.

Lemma same_block x a P : 0 < P -> x / P = a / P <-> x - x mod P <= a <= x - x mod P + (P - 1).
Proof.
  intros HP. pose proof (Z.div_mod x P ltac:(lia)). pose proof (Z.div_mod a P ltac:(lia)).
  pose proof (Z.mod_pos_bound x P HP). pose proof (Z.mod_pos_bound a P HP).
  split; [intros E; rewrite E in *; lia|]. intros Ha.
  assert (P * (x / P) <= a < P * (x / P) + P) as Hb by lia.
  apply (Z.div_unique a P (x / P) (a - P * (x / P))); lia.
Qed.

(** An IPv4 network is the block of its address. *)
Lemma ParseCIDR_v4 host addr mask base n :
  split_first "/"%char (chars host) = Some (addr, mask) -> ParseAddr (of_chars addr) = Some (Addr4 base) ->
  dtoi mask = Some n -> n <= 32 ->
  exists ip m ipMax, ParseCIDR host = Some (ip, m) /\ len m = 4 /\ To4 ip = Some ip /\
    broadcast_bytes ip m = Some ipMax /\
    forall a, between (To16 ip) (To16 ipMax) a <-> base / 2 ^ (32 - n) = a / 2 ^ (32 - n).
Proof.
  intros Hs Hp Hd Hn. pose proof (dtoi_nonneg _ _ Hd) as Hn0. pose proof (ParseAddr_bounds _ _ Hp) as Hb.
  destruct (AsSlice_v4 base Hb) as (b0 & b1 & b2 & b3 & Hbytes & H0 & H1 & H2 & H3 & Hv).
  destruct (mask_values n b0 b1 b2 b3 ltac:(lia) H0 H1 H2 H3) as [Hfirst Hlast].
  assert (forall b j, byte_ok b -> let m := 256 - octet_unit n j in
    Z.land b m = b - b mod octet_unit n j /\
    Z.lor (b - b mod octet_unit n j) (Z.lxor m 255) = b - b mod octet_unit n j + (octet_unit n j - 1) /\
    byte_ok (b - b mod octet_unit n j) /\ byte_ok (b - b mod octet_unit n j + (octet_unit n j - 1))) as Hoct.
  { intros b j Hbj. apply mask_octet; [done|lia]. }
  destruct (Hoct b0 0 H0) as (L0 & U0 & F0 & C0). destruct (Hoct b1 1 H1) as (L1 & U1 & F1 & C1).
  destruct (Hoct b2 2 H2) as (L2 & U2 & F2 & C2). destruct (Hoct b3 3 H3) as (L3 & U3 & F3 & C3).
  clear Hoct.
  set (first := [b0 - b0 mod octet_unit n 0; b1 - b1 mod octet_unit n 1; b2 - b2 mod octet_unit n 2;
                 b3 - b3 mod octet_unit n 3]).
  set (last := [b0 - b0 mod octet_unit n 0 + (octet_unit n 0 - 1);
                b1 - b1 mod octet_unit n 1 + (octet_unit n 1 - 1);
                b2 - b2 mod octet_unit n 2 + (octet_unit n 2 - 1);
                b3 - b3 mod octet_unit n 3 + (octet_unit n 3 - 1)]).
  assert (CIDRMask n 4 = [256 - octet_unit n 0; 256 - octet_unit n 1; 256 - octet_unit n 2; 256 - octet_unit n 3])
    as Hmask by done.
  exists first, (CIDRMask n 4), last. split_and!.
  - unfold ParseCIDR. rewrite Hs, Hp, Hd. cbn [Is4]. rewrite bool_decide_eq_false_2 by lia.
    unfold As16. rewrite Hbytes, Hmask. unfold IP_Mask. simpl. by rewrite L0, L1, L2, L3.
  - done.
  - done.
  - rewrite Hmask. unfold first. cbn [broadcast_bytes]. by rewrite U0, U1, U2, U3.
  - intros a.
    assert (FromStdIP (To16 first) = Addr4 (bytes_value first)) as Ef.
    { apply FromStdIP_To16; [done|]. unfold first. by repeat apply List.Forall_cons. }
    assert (FromStdIP (To16 last) = Addr4 (bytes_value last)) as El.
    { apply FromStdIP_To16; [done|]. unfold last. by repeat apply List.Forall_cons. }
    unfold between. rewrite Ef, El. unfold first, last. rewrite Hfirst, Hlast, Hv.
    rewrite same_block by (apply Z.pow_pos_nonneg; lia).
    split; [intros (x & y & [= <-] & [= <-] & Ha); exact Ha|]. intros Ha. by do 2 eexists.
Qed.

(** A mapped IPv6 network has the first 96 bits of its mask set, which leaves its only IPv4
    address as it is. *)
Lemma mapped_mask b n : byte_ok b -> Z.land b (mask_byte n 10) = 255 -> 88 <= n.
Proof.
  intros Hb H. unfold mask_byte in H. change (Z.of_nat 10) with 10 in H.
  destruct (decide (88 <= n)) as [?|Hlt]; [done|].
  set (k := Z.min 8 (Z.max 0 (n - 8 * 10))) in *. assert (0 <= k <= 7) as Hk by lia.
  assert (2 <= 2 ^ (8 - k)) as Hp.
  { change 2 with (2 ^ 1) at 1. apply Z.pow_le_mono_r; lia. }
  assert (Z.land b (256 - 2 ^ (8 - k)) <= 254) as Hle; [|lia].
  destruct (mask_octet b k Hb ltac:(lia)) as (-> & _ & Hf & Hc). unfold byte_ok in *. lia.
Qed.

Lemma full_mask n (j : nat) : 88 <= n -> (j < 4)%nat -> mask_byte n j = 255.
Proof. intros Hn Hj. unfold mask_byte. rewrite Z.max_r, Z.min_l by lia. done. Qed.

Lemma broadcast_full l rest : length l = 4%nat -> broadcast_bytes l ([255; 255; 255; 255] ++ rest) = Some l.
Proof.
  intros Hl. destruct l as [|a [|b [|c [|d [|]]]]]; simplify_eq/=. simpl. by rewrite !Z.lor_0_r.
Qed.

Lemma To4_length ip ip4 : To4 ip = Some ip4 -> length ip4 = 4%nat.
Proof.
  unfold To4. case_bool_decide as H; [intros [= <-]; unfold len in H; lia|].
  case_bool_decide as H16; [|done]. intros [= <-]. destruct H16 as [H16 _]. unfold len in H16.
  rewrite length_drop. lia.
Qed.

Lemma To4_bytes ip ip4 : bytes_ok ip -> To4 ip = Some ip4 -> bytes_ok ip4.
Proof.
  intros Hok. unfold To4. case_bool_decide; [by intros [= <-]|]. case_bool_decide; [|done].
  intros [= <-]. by apply Forall_drop.
Qed.

Lemma CIDRMask_bytes n k : bytes_ok (CIDRMask n k).
Proof.
  apply Forall_map, Forall_forall. intros j _. unfold mask_byte, byte_ok.
  set (e := 8 - Z.min 8 (Z.max 0 (n - 8 * Z.of_nat j))). assert (0 <= e <= 8) as He by lia.
  assert (1 <= 2 ^ e) by (change 1 with (2 ^ 0) at 1; apply Z.pow_le_mono_r; lia).
  assert (2 ^ e <= 2 ^ 8) by (apply Z.pow_le_mono_r; lia). change (2 ^ 8) with 256 in *. lia.
Qed.

Lemma zip_land_bytes l m : bytes_ok l -> bytes_ok m -> bytes_ok (zip_with Z.land l m).
Proof.
  revert m. induction l as [|x l IH]; intros [|y m] Hl Hm; simpl; try constructor.
  - apply Forall_cons in Hl as [Hx _]. apply Forall_cons in Hm as [Hy _]. unfold byte_ok in *.
    split; [apply Z.land_nonneg; lia|].
    destruct (decide (x = 0)) as [->|]; [by rewrite Z.land_0_l|].
    destruct (decide (Z.land x y = 0)) as [->|Hz]; [lia|].
    assert (0 <= Z.land x y) by (apply Z.land_nonneg; lia).
    apply (Z.log2_lt_pow2 _ 8); [lia|]. pose proof (Z.log2_land x y ltac:(lia) ltac:(lia)).
    assert (Z.log2 x < 8) by (apply Z.log2_lt_pow2; lia). lia.
  - apply IH; [by apply Forall_cons in Hl as [_ ?]|by apply Forall_cons in Hm as [_ ?]].
Qed.

Lemma ParseCIDR_v6 host ip m a :
  ParseCIDR host = Some (ip, m) -> len m = 16 ->
  match To4 ip with
  | Some ip4 => broadcast_bytes ip4 m = Some ip4 /\
      (between (To16 ip4) (To16 ip4) a <-> FromStdIP ip = Addr4 a)
  | None => FromStdIP ip <> Addr4 a
  end.
Proof.
  intros H Hm. unfold ParseCIDR in H. destruct (split_first _ _) as [[addr mask]|]; [|done].
  destruct (ParseAddr (of_chars addr)) as [ipAddr|]; [|done]. destruct (dtoi mask) as [n|]; [|done].
  destruct (Is4 ipAddr) eqn:E4; (case_bool_decide as Hn; [done|]).
  { destruct (IP_Mask _ _); [|done]. by injection H as _ <-. }
  destruct (IP_Mask (As16 ipAddr) (CIDRMask n 16)) as [ip'|] eqn:Hi; [|done]. injection H as -> <-.
  assert (As16 ipAddr = AsSlice ipAddr) as HA by (by destruct ipAddr).
  assert (bytes_ok (AsSlice ipAddr)) as Hok.
  { destruct ipAddr; [constructor|by apply be_bytes_ok; constructor..]. }
  assert (ip = zip_with Z.land (AsSlice ipAddr) (CIDRMask n 16)) as Hip.
  { unfold IP_Mask in Hi. rewrite HA in Hi. change (len (CIDRMask n 16)) with 16 in Hi.
    destruct ipAddr as [|x|x]; [by simpl in Hi|done|].
    change (len (AsSlice (Addr6 x))) with 16 in Hi. simpl andb in Hi. cbn [andb] in Hi.
    rewrite bool_decide_eq_true_2 in Hi by done. by injection Hi as <-. }
  assert (bytes_ok ip) as Hbytes by (rewrite Hip; apply zip_land_bytes; [done|apply CIDRMask_bytes]).
  pose proof (FromStdIP_To4 ip a Hbytes) as Hf.
  destruct (To4 ip) as [ip4|] eqn:Ht.
  2:{ intros Ha. by apply Hf in Ha as (? & [=] & _). }
  pose proof (To4_length _ _ Ht) as Hl. pose proof (To4_bytes _ _ Hbytes Ht) as Hb4.
  split.
  - assert (88 <= n) as Hn88.
    { unfold To4 in Ht. destruct ipAddr as [|x|x]; [by simpl in Hi|done|].
      rewrite bool_decide_eq_false_2 in Ht by (by rewrite Hip).
      case_bool_decide as Hpre; [|done]. destruct Hpre as [_ Hpre].
      assert ((zip_with Z.land (AsSlice (Addr6 x)) (CIDRMask n 16) : list Z) !! 10%nat = Some 255) as H10.
      { rewrite <-Hip, <-(take_drop 12 ip), Hpre. done. }
      rewrite lookup_zip_with in H10. obind H10. apply (mapped_mask z).
      - eapply (Forall_lookup_1 byte_ok); [exact Hok|done].
      - change (CIDRMask n 16 !! 10%nat) with (Some (mask_byte n 10)) in H10. simpl in H10. congruence. }
    change (CIDRMask n 16) with ([mask_byte n 0; mask_byte n 1; mask_byte n 2; mask_byte n 3]
                                 ++ map (mask_byte n) (seq 4 12)).
    rewrite !full_mask by lia. by apply broadcast_full.
  - rewrite Hf. unfold between. rewrite FromStdIP_To16 by done. split.
    + intros (x & y & [= <-] & [= <-] & Ha). exists ip4. split; [done|lia].
    + intros (x & [= <-] & <-). do 2 eexists. split_and!; [done..|lia|lia].
Qed.

(** A network's own address is in it. *)
Lemma zip_land_idempotent l m : zip_with Z.land (zip_with Z.land l m) m = zip_with Z.land l m.
Proof. revert m. induction l as [|x l IH]; intros [|y m]; simpl; [done..|]. by rewrite IH, <-Z.land_assoc, Z.land_diag. Qed.

Lemma ParseCIDR_own host ip m a :
  ParseCIDR host = Some (ip, m) -> len m = 16 -> FromStdIP ip = Addr4 a -> in_network6 host a.
Proof.
  intros H Hm Hf. exists ip, m, ip. pose proof H as Hc. unfold ParseCIDR in Hc.
  destruct (split_first _ _) as [[addr mask]|]; [|done]. destruct (ParseAddr (of_chars addr)) as [ipAddr|]; [|done].
  destruct (dtoi mask) as [n|]; [|done]. destruct (Is4 ipAddr) eqn:E4; (case_bool_decide as Hn; [done|]).
  { destruct (IP_Mask _ _); [|done]. by injection Hc as _ <-. }
  destruct (IP_Mask (As16 ipAddr) (CIDRMask n 16)) as [ip'|] eqn:Hi; [|done]. injection Hc as -> <-.
  destruct ipAddr as [|x|x]; [by simpl in Hi|done|].
  assert (forall l, len l = 16 -> IP_Mask l (CIDRMask n 16) = Some (zip_with Z.land l (CIDRMask n 16))) as Hmask.
  { intros l Hl. unfold IP_Mask. rewrite Hl, (bool_decide_eq_false_2 (16 = 4)%Z), andb_false_r by done. cbn [andb].
    change (len (CIDRMask n 16)) with 16. by rewrite Hl, bool_decide_eq_true_2. }
  rewrite (Hmask (As16 (Addr6 x)) eq_refl) in Hi.
  assert (ip = zip_with Z.land (As16 (Addr6 x)) (CIDRMask n 16)) as Eip by congruence.
  assert (len ip = 16) as Hl by (by rewrite Eip).
  split_and!; [done|done|exact Hl|exact Hf|]. rewrite Hmask by exact Hl. f_equal. rewrite Eip. apply zip_land_idempotent.
Qed.

(** No host makes the parser panic, and the range it becomes has only addresses that the host covers, and all
    of them, but for a network in the notation of IPv6. *)
Definition exactly_covered (h : Host) (host : string) : Prop :=
  (forall a, match h with HostRange first last => between first last a | _ => False end -> host_covers host a) /\
  ((forall a, ~ in_network6 host a) ->
   forall a, host_covers host a -> match h with HostRange first last => between first last a | _ => False end).

Lemma exactly_covered_iff (h : Host) host :
  (forall a, match h with HostRange first last => between first last a | _ => False end <-> host_covers host a) ->
  exactly_covered h host.
Proof. intros H. split; [intros a; apply H|intros _ a; apply H]. Qed.

Lemma classify_network host ip m :
  ParseIP host = None -> ParseCIDR host = Some (ip, m) ->
  exists h, classify_host host = Some h /\ exactly_covered h host.
Proof.
  intros Hp Hc. unfold classify_host. rewrite Hp, Hc.
  assert (forall a, ~ in_range host a) as Hr by (intros a [H _]; congruence).
  pose proof Hc as Hc'. unfold ParseCIDR in Hc'.
  destruct (split_first _ _) as [[addr mask]|] eqn:Hs; [|done].
  destruct (ParseAddr (of_chars addr)) as [ipAddr|] eqn:Ha; [|done].
  destruct (dtoi mask) as [n|] eqn:Hd; [|done].
  destruct (Is4 ipAddr) eqn:E4; (case_bool_decide as Hn; [done|]).
  - destruct ipAddr as [|base|]; try done.
    destruct (ParseCIDR_v4 host addr mask base n Hs Ha Hd ltac:(lia))
      as (ip' & m' & ipMax & Hc2 & Hlen & H4 & Hbr & Hcov). rewrite Hc in Hc2. injection Hc2 as <- <-.
    rewrite H4, Hbr. eexists. split; [done|]. apply exactly_covered_iff. intros a. unfold host_covers. rewrite Hp, Hcov. split.
    + intros Hb. left. by exists addr, mask, base, n.
    + intros [(addr' & mask' & base' & n' & H1 & H2 & H3 & H5 & H6)|[(ip2 & m2 & x & H1 & H2 & _)|H]];
        [by simplify_eq| |by destruct (Hr a)]. simplify_eq. lia.
  - assert (len m = 16) as Hm by (destruct (IP_Mask _ _); [|done]; by injection Hc' as _ <-).
    assert ((forall a, ~ in_network6 host a) -> forall a, ~ host_covers host a) as Hno.
    { intros H6 a. unfold host_covers. rewrite Hp. intros [(? & ? & ? & ? & H1 & H2 & _)|[H|H]];
        [|by destruct (H6 a)|by destruct (Hr a)].
      rewrite Hs in H1. injection H1 as <- <-. rewrite Ha in H2. by simplify_eq. }
    destruct (To4 ip) as [ip4|] eqn:H4.
    + pose proof (fun a => ParseCIDR_v6 host ip m a Hc Hm) as Hv6. rewrite H4 in Hv6.
      destruct (Hv6 0) as [-> _]. eexists. split; [done|]. split.
      * intros a Hb. apply Hv6 in Hb. unfold host_covers. rewrite Hp. right. left. by eapply ParseCIDR_own.
      * intros H6 a Ha'. by destruct (Hno H6 a).
    + eexists. split; [done|]. split; [done|]. intros H6 a Ha'. by destruct (Hno H6 a).
Qed.

Lemma classify_host_covers host :
  exists h, classify_host host = Some h /\ exactly_covered h host.
Proof.
  destruct (ParseIP host) as [ip|] eqn:Hp.
  { unfold classify_host. rewrite Hp. eexists. split; [done|]. apply exactly_covered_iff. unfold host_covers. rewrite Hp.
    intros a. pose proof (FromStdIP_To4 ip a (ParseIP_bytes _ _ Hp)) as Hf.
    destruct (To4 ip) as [ip4|].
    - unfold between. split; [intros (x & y & Hx & Hy & Ha)|intros ->; by do 2 eexists].
      rewrite Hx in Hy. injection Hy as <-. rewrite Hx. f_equal. lia.
    - rewrite Hf. split; [done|by intros (? & [=] & _)]. }
  destruct (ParseCIDR host) as [[ip m]|] eqn:Hc; [by eapply classify_network|].
  unfold classify_host. rewrite Hp, Hc.
  assert (forall a, ~ in_network host a) as Hnet.
  { intros a (addr & mask & base & n & Hs & Ha & Hd & Hn & _).
    destruct (ParseCIDR_v4 host addr mask base n Hs Ha Hd Hn) as (? & ? & ? & H & _). congruence. }
  assert (forall a, ~ in_network6 host a) as Hmap by (intros a (? & ? & ? & H & _); congruence).
  unfold exactly_covered, host_covers. rewrite Hp.
  destruct (Split host "-"%char) as [|first [|last [|other others]]] eqn:Hsp.
  all: try (eexists; split; [done|]; split; [done|]; intros _ a;
    intros [H|[H|(_ & f & l & ? & ? & ? & ? & H & _)]]; [by destruct (Hnet a)|by destruct (Hmap a)|congruence]).
  destruct (ParseIP first) as [ipMin|] eqn:H1, (ParseIP last) as [ipMax|] eqn:H2.
  2-4: eexists; split; [done|]; split; [done|]; intros _ a;
    intros [H|[H|(_ & f & l & ? & ? & ? & ? & H & ? & ? & _)]];
    [by destruct (Hnet a)|by destruct (Hmap a)|rewrite Hsp in H; injection H as <- <-; congruence].
  eexists. split; [done|]. pose proof (fun x => FromStdIP_To4 ipMin x (ParseIP_bytes _ _ H1)) as Hf.
  assert (forall a, in_network host a \/ in_network6 host a \/ in_range host a <-> between ipMin ipMax a) as Hcov.
  { intros a. split.
    - intros [H|[H|(_ & f & l & i & j & x & y & H & Hi & Hj & Hx & Hy & Hle)]];
        [by destruct (Hnet a)|by destruct (Hmap a)|]. rewrite Hsp in H. injection H as <- <-. simplify_eq.
      by exists x, y.
    - intros (x & y & Hx & Hy & ? & ?). right. right. split; [done|].
      exists first, last, ipMin, ipMax, x, y. by split_and!. }
  destruct (To4 ipMin) as [ip4|]; [split; [|intros _]; intros a; apply Hcov|]. split; [done|]. intros _ a Ha.
  apply Hcov in Ha as (x & y & Hx & _). by apply Hf in Hx as (? & [=] & _).
Qed.

(** ** The whole list *)

(** What one address of an application adds. *)
Definition adds_entry (app : App) (ad : AppAddress) (e : IPResource) (a : Z) : Prop :=
  known_protocol (ad_Protocol ad) = true /\ parse_ports (ad_Port ad) = Some (PortMin e, PortMax e) /\
  ResProtocol e = ad_Protocol ad /\ AppID e = app_ID app /\ NodeGroupID e = app_NodeGroupID app /\
  host_covers (ad_Host ad) a.

(** [e] up to the bounds of its addresses. *)
Definition same_entry (e e' : IPResource) : Prop :=
  PortMin e = PortMin e' /\ PortMax e = PortMax e' /\ ResProtocol e = ResProtocol e' /\
  AppID e = AppID e' /\ NodeGroupID e = NodeGroupID e'.

Definition admits (c : ClientResources) (e : IPResource) (a : Z) : Prop :=
  exists e', e' ∈ cl_ipResources c /\ same_entry e' e /\ resource_covers a e'.

Definition dns_ipv4 (c : ClientResources) : Prop :=
  forall host ip, cl_dnsResource c !! host = Some ip -> is_Some (To4 ip).

Lemma first_ipv4_ok ips ip : first_ipv4 ips = Some ip -> is_Some (To4 ip).
Proof.
  induction ips as [|s ips IH]; simpl; [done|]. destruct (ParseIP s) as [x|]; [|exact IH].
  destruct (To4 x) as [y|] eqn:E; [|exact IH]. intros [= <-]. by rewrite E.
Qed.

(** A host is not a network in the notation of IPv6 with an IPv4 address in it. *)
Definition no_network6 (ad : AppAddress) : Prop := forall a, ~ in_network6 (ad_Host ad) a.

Lemma add_app_address_admits app ad c :
  exists c', add_app_address app ad c = Some c' /\ (dns_ipv4 c -> dns_ipv4 c') /\
    forall e a, (admits c' e a -> admits c e a \/ adds_entry app ad e a) /\
      (admits c e a \/ no_network6 ad /\ adds_entry app ad e a -> admits c' e a).
Proof.
  unfold add_app_address. destruct (known_protocol _) eqn:Hk; cbn [negb].
  2:{ exists c. split_and!; [done|done|]. intros e a. split; [by left|]. intros [?|(_ & ? & _)]; [done|congruence]. }
  destruct (parse_ports _) as [[portMin portMax]|] eqn:Hports.
  2:{ exists c. split_and!; [done|done|]. intros e a. split; [by left|]. intros [?|(_ & _ & ? & _)]; [done|congruence]. }
  destruct (classify_host_covers (ad_Host ad)) as (h & -> & Hsound & Hfull).
  assert (match h with HostRange _ _ => False | _ => True end -> forall c', cl_ipResources c' = cl_ipResources c ->
    forall e a, (admits c' e a -> admits c e a \/ adds_entry app ad e a) /\
      (admits c e a \/ no_network6 ad /\ adds_entry app ad e a -> admits c' e a)) as Hno.
  { intros Hh c' Hip e a. unfold admits. rewrite Hip. split; [by left|].
    intros [?|(H6 & _ & _ & _ & _ & _ & H)]; [done|]. specialize (Hfull H6 a H). by destruct h. }
  destruct h as [first last| |]; (eexists; split; [done|]).
  - split; [done|]. intros e a. unfold admits, adds_entry. simpl. split.
    + intros (e' & [Hin| ->%list_elem_of_singleton]%elem_of_app & Hs & Hc); [left; by exists e'|right].
      destruct Hs as (<- & <- & <- & <- & <-). split_and!; try done. by apply Hsound.
    + intros [(e' & Hin & Hs & Hc)|(H6 & _ & Hp & Hr & Ha & Hg & Hh)].
      * exists e'. split; [by apply elem_of_app; left|done].
      * eexists. split; [apply elem_of_app; right; by left|]. unfold same_entry. simpl.
        injection (eq_trans (eq_sym Hports) Hp) as -> ->. split; [by rewrite Hr, Ha, Hg|].
        by apply (Hfull H6) in Hh.
  - split; [done|]. by apply Hno.
  - split; [|by apply Hno].
    intros Hd host ip. simpl. destruct (ad_IP ad) as [ips|]; [|by apply Hd].
    destruct (first_ipv4 ips) as [x|] eqn:E; [|by apply Hd].
    intros [[_ <-]|[_ H]]%lookup_insert_Some; [by eapply first_ipv4_ok|by apply (Hd host)].
Qed.

Lemma add_app_addresses_admits l c :
  exists c', add_app_addresses l c = Some c' /\ (dns_ipv4 c -> dns_ipv4 c') /\
    forall e a,
      (admits c' e a -> admits c e a \/ exists app ad, (app, ad) ∈ l /\ adds_entry app ad e a) /\
      (admits c e a -> admits c' e a) /\
      (forall app ad, (app, ad) ∈ l -> no_network6 ad -> adds_entry app ad e a -> admits c' e a).
Proof.
  revert c. induction l as [|[app ad] l IH]; intros c; simpl.
  { exists c. split_and!; [done|done|]. intros e a. split_and!; [by left|done|]. by intros ? ? ?%elem_of_nil. }
  destruct (add_app_address_admits app ad c) as (c1 & -> & Hd1 & H1).
  destruct (IH c1) as (c2 & -> & Hd2 & H2). exists c2. split_and!; [done|by auto|].
  intros e a. destruct (H1 e a) as [H1s H1c], (H2 e a) as (H2s & H2k & H2c). split_and!.
  - intros [Hx%H1s|(app' & ad' & Hin & ?)]%H2s; [destruct Hx as [?|?]; [by left|right]|right].
    + exists app, ad. split; [by left|done].
    + exists app', ad'. split; [by right|done].
  - intros Hx. apply H2k, H1c. by left.
  - intros app' ad' [[= -> ->]|Hin]%elem_of_cons H6 Ha; [apply H2k, H1c; by right|by apply (H2c app' ad')].
Qed.

(** ** Nodes *)

Lemma contains_char c l : contains_chars [c] l = true <-> c ∈ l.
Proof.
  induction l as [|x l IH]; simpl; [split; [done|by intros ?%elem_of_nil]|].
  rewrite orb_true_iff, IH, andb_true_r, bool_decide_eq_true, elem_of_cons. done.
Qed.

Lemma split_chars_two c l : c ∈ l -> exists p q rest, split_chars c l = p :: q :: rest.
Proof.
  induction l as [|x l IH]; [by intros ?%elem_of_nil|]. intros Hin. simpl. case_bool_decide as Hx.
  - destruct (split_chars c l) as [|p rest] eqn:E; [|by eauto].
    destruct l as [|y l]; simpl in E; [done|]. case_bool_decide; [done|].
    by destruct (split_chars c l).
  - apply elem_of_cons in Hin as [->|Hin]; [done|]. destruct (IH Hin) as (p & q & rest & ->). eauto.
Qed.

Lemma node_address_target serverAddress info : node_target (node_address serverAddress info) <> None.
Proof.
  assert (":"%char ∈ chars (node_address serverAddress info)) as Hin.
  { unfold node_address. set (address := if bool_decide _ then _ else _).
    destruct (Contains address ":") eqn:E; cbn [negb].
    - by apply contains_char in E.
    - rewrite chars_app. apply elem_of_app. right. by left. }
  unfold node_target, Split. destruct (split_chars_two _ _ Hin) as (p & q & rest & ->). simpl.
  by destruct (Atoi _).
Qed.

Lemma node_groups_targets serverAddress groups id nodes node :
  node_groups serverAddress groups !! id = Some nodes -> node ∈ nodes -> node_target node <> None.
Proof.
  unfold node_groups.
  assert (forall m : gmap string (list string),
    (forall id nodes node, m !! id = Some nodes -> node ∈ nodes -> node_target node <> None) ->
    forall id nodes node, fold_left (fun m g => <[ng_ID g := map (node_address serverAddress) (ng_AddressInfo g)]> m)
      groups m !! id = Some nodes -> node ∈ nodes -> node_target node <> None) as H.
  { induction groups as [|g groups IH]; intros m Hm; simpl; [exact Hm|]. apply IH.
    intros i l x [[_ <-]|[_ Hl]]%lookup_insert_Some Hx; [|by eapply Hm].
    apply list_elem_of_fmap in Hx as (info & -> & _). apply node_address_target. }
  apply H. intros i l x Hl. by rewrite lookup_empty in Hl.
Qed.

(** C37: The client's resources are those of the application list. Parsing a resource that
    decodes does not panic. An IPv4 address is admitted under a protocol, a port range, an
    application and a node group only if some address of the list names these, with a
    known protocol and a port or port range, and its host is that address, a network that
    contains it or a range around it. Conversely, whatever an address of the list names and covers is admitted, unless
    its host is a network in the notation of IPv6 that contains IPv4 addresses, which the parser does not keep whole
    ([mapped_network_is_one_address]). Every DNS record is an IPv4 address. Every node of the
    groups has a port part, so choosing the nearest nodes does not panic either. *)
Theorem resources_parsed_exactly (unmarshal : string -> result error ClientResource)
    (serverAddress resource : string) (r : ClientResource) (c : ParsedClient)
    (Hdecodes : unmarshal resource = Ok r) :
  exists resources c', parseResource unmarshal serverAddress resource c = Some (None, c') /\
    pc_resources c' = Some resources /\
    (forall e a, admits resources e a ->
       exists app ad, (app, ad) ∈ all_addresses (cr_AppInfo r) /\ adds_entry app ad e a) /\
    (forall app ad e a, (app, ad) ∈ all_addresses (cr_AppInfo r) -> no_network6 ad -> adds_entry app ad e a ->
       admits resources e a) /\
    (forall host ip, cl_dnsResource resources !! host = Some ip -> is_Some (To4 ip)) /\
    (forall id nodes node, pc_NodeGroups c' !! id = Some nodes -> node ∈ nodes ->
       node_target node <> None).
Proof.
  unfold parseResource. rewrite Hdecodes.
  destruct (add_app_addresses_admits (all_addresses (cr_AppInfo r)) no_resources) as (res & -> & Hd & Ha).
  exists res. eexists. split; [done|]. simpl. split_and!; [done| | | |].
  - intros e a H. by apply Ha in H as [(? & ?%elem_of_nil & _)|?].
  - intros app ad e a Hin H6 H. destruct (Ha e a) as (_ & _ & Hc). by apply (Hc app ad).
  - apply Hd. intros host ip. simpl. by rewrite lookup_empty.
  - intros id nodes node. apply node_groups_targets.
Qed.

(** ** Witness *)

Definition demo_app : App :=
  {| app_ID := "app"; app_NodeGroupID := "group";
     app_AddressList :=
       [{| ad_Protocol := "all"; ad_Port := "1-65535"; ad_Host := "10.200.0.0/15"; ad_IP := None |};
        {| ad_Protocol := "tcp"; ad_Port := "443"; ad_Host := "*.zju.edu.cn"; ad_IP := Some ["10.10.0.1"%string] |}] |}.

Definition demo_resource : ClientResource :=
  {| cr_AppInfo := [[demo_app]]; cr_MajorNodeGroup := "group";
     cr_NodeGroupList := [{| ng_AddressInfo := [{| na_Address := "{{sdpcHost}}"; na_Type := "" |}]; ng_ID := "group" |}];
     cr_DNSOption := "10.10.0.21"; cr_DNSOptionV2 := "" |}.

Definition no_client : ParsedClient :=
  {| pc_resources := None; pc_dnsServer := ""; pc_MajorNodeGroup := ""; pc_NodeGroups := ∅ |}.

Lemma resources_parsed_exactly_witness :
  exists resources e, admits resources e (10 * 2 ^ 24 + 201 * 2 ^ 16 + 7) /\ AppID e = "app"%string.
Proof.
  destruct (resources_parsed_exactly (fun _ => Ok demo_resource) "vpn.zju.edu.cn" "" demo_resource no_client
    eq_refl) as (resources & c' & _ & _ & _ & H & _).
  exists resources, {| IPMin := []; IPMax := []; PortMin := 1; PortMax := 65535; ResProtocol := "all";
                       AppID := "app"; NodeGroupID := "group" |}.
  split; [|done].
  apply (H demo_app {| ad_Protocol := "all"; ad_Port := "1-65535"; ad_Host := "10.200.0.0/15"; ad_IP := None |}); [by left| |].
  - intros a (ip & mask & x & Hc & Hm & _). vm_compute in Hc. injection Hc as <- <-. discriminate Hm.
  - split_and!; try done. unfold host_covers. simpl. left.
    exists (chars "10.200.0.0"), (chars "15"), (10 * 2 ^ 24 + 200 * 2 ^ 16), 15. by split_and!.
Defined.

(** A network of 256 addresses in the notation of IPv6 becomes its first one. *)
Example mapped_network_is_one_address :
  classify_host "::ffff:10.0.0.0/120" = Some (HostRange (To16 [10; 0; 0; 0]) (To16 [10; 0; 0; 0])) /\
  in_network6 "::ffff:10.0.0.0/120" (10 * 2 ^ 24 + 7).
Proof.
  split; [by vm_compute|]. eexists _, _, (To16 [10; 0; 0; 7]). split; [vm_compute; reflexivity|].
  split_and!; by vm_compute.
Qed.
