(* ===== verification/AuthLogin.v ===== *)
(** The aTrust login (client/atrust/auth): the requests of one login, its challenges and its
    loops, in a state and error monad over an arbitrary server. A request is written with
    the values that vary ([env] is the device of the header x-sdp-env); its URL, its fixed
    headers and the trace identifiers are left out.
    HTTP, cookies, RSA and decoding JSON are parameters; the log of what was sent and asked is
    not in the code. *)

From S2P Require Import Prelude Core GoNet.

Definition maxAttempts : nat := 5.
Definition maxAuthSteps : nat := 8.
Definition maxAuthResponseBodySize : Z := 4 * 2 ^ 20.

Record Cookie : Type := {
  cookie_Host : string; cookie_Scheme : string; cookie_Name : string; cookie_Value : string;
}.

Record AuthInfo : Type := {
  ai_LoginDomain : string; ai_AuthType : string; ai_AuthName : string; ai_LoginURL : string;
}.

Record LoginOptions : Type := { lo_DeviceID : string; lo_Cookies : list Cookie }.

Record LoginResult : Type := {
  lr_Username : string; lr_SID : string; lr_Cookies : list Cookie; lr_Reused : bool;
}.

(** [PasswordLogin], [SMSLogin], [CASLogin] and [HTTPSOauth2Login]. *)
Inductive LoginMethod : Type :=
| PasswordLogin (username password domain : string)
| SMSLogin (phone domain : string)
| CASLogin (domain ticket : string)
| HTTPSOauth2Login (domain code callback : string).

Definition AuthType (m : LoginMethod) : string :=
  match m with
  | PasswordLogin _ _ _ => "auth/psw"
  | SMSLogin _ _ => "auth/smsCheckCode"
  | CASLogin _ _ => "auth/cas"
  | HTTPSOauth2Login _ _ _ => "auth/httpsOauth2"
  end.

Definition LoginDomain (m : LoginMethod) : string :=
  match m with
  | PasswordLogin _ _ d | SMSLogin _ d | CASLogin d _ | HTTPSOauth2Login d _ _ => d
  end.

(** ** Steps of the second factors *)

Inductive smsMode : Type := smsModeUnknown | smsWithoutAuthID | smsWithAuthID.

Record authServiceInfo : Type := { si_AuthID : string; si_AuthType : string }.

Record authStepData : Type := { sd_NextService : string; sd_NextServiceList : list authServiceInfo }.

Record authStep : Type := { st_Service : string; st_AuthID : string; st_SMSMode : smsMode }.

Definition authStepFromData (data : authStepData) : authStep :=
  let service := sd_NextService data in
  let selected :=
    match List.find (fun s => negb (is_empty service) && bool_decide (si_AuthType s = service))
            (sd_NextServiceList data) with
    | Some s => Some s
    | None => head (sd_NextServiceList data)
    end in
  let '(authID, service) :=
    match selected with
    | Some s => (si_AuthID s, if is_empty service then si_AuthType s else service)
    | None => (""%string, service)
    end in
  let service := if is_empty service && negb (is_empty authID) then "auth/sms"%string else service in
  {| st_Service := service; st_AuthID := authID;
     st_SMSMode := if bool_decide (service = "auth/sms"%string)
                   then if is_empty authID then smsWithoutAuthID else smsWithAuthID
                   else smsModeUnknown |}.

(** ** Requests and the server *)

Inductive AuthRequest : Type :=
| GetAuthConfig (mod_ needTicket : bool)
| ReportEnv (ticket deviceID : string)
| AuthCheck
| PhoneNumber (authID : string)
| SendSMS (authID : option string)
| CheckSMS (code : string) (skip : bool) (authID : option string)
| SendCustomSMS
| CheckCustomSMS (code : string) (skip : bool)
| OnlineInfo
| CheckCode
| LoginPassword (env username password graphCheckCode : string)
| LoginSendSMS (env phone graphCheckCode : string)
| LoginCheckSMS (env code phone graphCheckCode : string)
| Callback (url : string)
| ClientResourceRequest
| QueryDeviceRequest
| TrustDeviceRequest (idList : list string)
| UntrustDeviceRequest (idList : list string).

(** A response: [hp_ReadErr] is the error that ends its body, if any. *)
Record HTTPReply : Type := {
  hp_Status : Z; hp_Location : string; hp_Body : string; hp_ReadErr : option error;
}.

Record URL : Type := {
  url_Scheme : string; url_Host : string; url_Path : string; url_Query : list (string * string);
}.

(** [url.Values.Get]. *)
Fixpoint query_Get (query : list (string * string)) (key : string) : string :=
  match query with
  | [] => ""
  | (k, v) :: rest => if bool_decide (k = key) then v else query_Get rest key
  end.

(** What the login uses of its surroundings: the context, the HTTP client with the CSRF token
    as a header, the handler of challenges, identifiers, RSA and the cookie jar. *)
Record AuthWorld (W : Type) : Type := {
  aw_ctxErr : W -> option error;
  aw_Do : option string -> AuthRequest -> W -> result error HTTPReply * W;
  aw_Handle : option (AuthChallenge -> W -> result error AuthResponse * W);
  aw_randSdpId : W -> string * W;
  aw_Encrypt : string -> string -> string -> W -> result error string * W;
  aw_SetCookie : Cookie -> W -> W;
  aw_JarCookies : string -> W -> list (string * string);
}.
Arguments aw_ctxErr {W}.
Arguments aw_Do {W}.
Arguments aw_Handle {W}.
Arguments aw_randSdpId {W}.
Arguments aw_Encrypt {W}.
Arguments aw_SetCookie {W}.
Arguments aw_JarCookies {W}.

Record AuthConfigData : Type := {
  ac_IsLogin : Z; ac_AuthServerInfoList : list AuthInfo; ac_CSRF : string; ac_SecurityCSRF : string;
  ac_PubKey : string; ac_PubKeyExp : string; ac_AntiReplayRand : string;
}.

(** [json.Unmarshal] into the answers. *)
Record AuthJSON : Type := {
  js_AuthConfig : string -> result error AuthConfigData;
  js_Code : string -> result error Z;
  js_Step : string -> result error (Z * string * authStepData);
  js_Phone : string -> result error (Z * string * string * string);
  js_Message : string -> result error (Z * string);
  js_Online : string -> result error (Z * string);
  js_Graph : string -> result error (Z * string * string * Z);
  js_Strings : string -> result error (list string);
  js_String : string -> result error string;
  js_Ticket : string -> result error string;
}.

(** ** The monad *)

Record AuthSession : Type := {
  as_deviceID : string;
  as_csrfToken : string;
  as_pubKey : string;
  as_pubKeyExp : string;
  as_antiReplayRand : string;
  as_ticket : string;
}.

Definition newAuthSession : AuthSession :=
  {| as_deviceID := ""; as_csrfToken := ""; as_pubKey := ""; as_pubKeyExp := "";
     as_antiReplayRand := ""; as_ticket := "" |}.

Inductive AuthEvent : Type :=
| Sent (r : AuthRequest)
| Asked (c : AuthChallenge).

Record LoginState (W : Type) : Type := {
  ls_session : AuthSession;
  ls_world : W;
  ls_log : list AuthEvent;
}.
Arguments ls_session {W}.
Arguments ls_world {W}.
Arguments ls_log {W}.
Arguments Build_LoginState {W}.

Section Login.
Context {W : Type}.

#[local] Abbreviation Auth := (StateError (LoginState W)).

Definition get_session : Auth AuthSession := fun s => (Ok (ls_session s), s).
Definition put_session (x : AuthSession) : Auth unit := fun s =>
  (Ok tt, Build_LoginState x (ls_world s) (ls_log s)).
Definition on_world {A} (f : W -> result error A * W) : Auth A := fun s =>
  let '(r, w) := f (ls_world s) in (r, Build_LoginState (ls_session s) w (ls_log s)).
Definition log_event (e : AuthEvent) : Auth unit := fun s =>
  (Ok tt, Build_LoginState (ls_session s) (ls_world s) (ls_log s ++ [e])).
Definition set_ticket (ticket : string) : Auth unit :=
  x ← get_session;
  put_session {| as_deviceID := as_deviceID x; as_csrfToken := as_csrfToken x; as_pubKey := as_pubKey x;
                 as_pubKeyExp := as_pubKeyExp x; as_antiReplayRand := as_antiReplayRand x;
                 as_ticket := ticket |}.

Context (aw : AuthWorld W) (js : AuthJSON) (parse_url : string -> result error URL) (baseHost : string).

Definition check_ctx : Auth unit := fun s => check (aw_ctxErr aw (ls_world s)) s.

Definition randSdpId : Auth string :=
  on_world (fun w => let '(id, w) := aw_randSdpId aw w in (Ok id, w)).

(** [newRequest] and [s.client.Do]; only the image of a captcha is fetched without the token. *)
Definition send (r : AuthRequest) : Auth HTTPReply :=
  x ← get_session;
  _ ← log_event (Sent r);
  on_world (aw_Do aw (match r with CheckCode => None | _ => Some (as_csrfToken x) end) r).

(** [io.ReadAll(io.LimitReader(body, limit+1))] with the check of the length. *)
Definition read_limited (limit : Z) (too_long : error) (wrap : error -> error) (reply : HTTPReply)
    : Auth string :=
  if bool_decide (strlen (hp_Body reply) > limit) then fail too_long
  else match hp_ReadErr reply with
  | Some e => fail (wrap e)
  | None => mret (hp_Body reply)
  end.

Definition readAuthResponse : HTTPReply -> Auth string :=
  read_limited maxAuthResponseBodySize
    (EText ("authentication response exceeds " +:+ itoa maxAuthResponseBodySize +:+ " bytes"))
    (fun e => EWrap ("read authentication response: " +:+ error_text e) e).

(** A request whose answer is JSON. *)
Definition exchange {A} (r : AuthRequest) (decode : string -> result error A) : Auth A :=
  reply ← send r; body ← readAuthResponse reply; lift (decode body).

Definition code_error {A} (what : string) (code : Z) (message : string) : Auth A :=
  fail (EText (what +:+ " failed with code " +:+ itoa code +:+ ": " +:+ message)).

Definition handleChallenge (challenge : AuthChallenge) : Auth AuthResponse :=
  match AuthChallenge_Validate challenge with
  | Some err => fail err
  | None =>
      match aw_Handle aw with
      | None => fail (WrapError ErrorCodeAuthHandlerUnavailable
                        "authentication handler is unavailable" false None)
      | Some handle =>
          _ ← log_event (Asked challenge);
          response ← on_world (handle challenge);
          match AuthResponse_Validate response challenge with
          | Some err => fail err
          | None => mret response
          end
      end
  end.

Definition newChallenge (id : string) (kind : AuthChallengeKind) (prompt url : string) (image : list Z)
    (allowSkip : bool) : AuthChallenge :=
  {| challenge_ID := id; challenge_Kind := kind; challenge_Prompt := prompt; challenge_URL := url;
     challenge_Image := image; challenge_AllowSkip := allowSkip; challenge_Choices := [] |}.

(** ** Requests (request.go) *)

Definition authConfig (mod_ needTicket : bool) : Auth (Z * list AuthInfo) :=
  re ← exchange (GetAuthConfig mod_ needTicket) (js_AuthConfig js);
  x ← get_session;
  _ ← put_session {| as_deviceID := as_deviceID x;
                     as_csrfToken := if is_empty (ac_CSRF re) then ac_SecurityCSRF re else ac_CSRF re;
                     as_pubKey := ac_PubKey re; as_pubKeyExp := ac_PubKeyExp re;
                     as_antiReplayRand := ac_AntiReplayRand re; as_ticket := as_ticket x |};
  mret (ac_IsLogin re, ac_AuthServerInfoList re).

Definition reportEnv : Auth unit :=
  x ← get_session;
  if is_empty (as_ticket x) then fail (EText "ticket is empty")
  else
  code ← exchange (ReportEnv (as_ticket x) (as_deviceID x)) (js_Code js);
  if bool_decide (code = 0) then mret tt
  else fail (EText ("reportEnv failed with code " +:+ itoa code)).

(** An answer that names the next step. *)
Definition next_step (what : string) (r : AuthRequest) : Auth authStep :=
  re ← exchange r (js_Step js);
  let '(code, message, data) := re in
  if bool_decide (code = 0) then mret (authStepFromData data) else code_error what code message.

Definition authCheck : Auth authStep := next_step "authCheck" AuthCheck.

Definition parsePhoneNumbers (raw : string) : result error (list string) :=
  let raw := TrimSpace raw in
  if is_empty raw || bool_decide (raw = "null"%string) then Ok []
  else if HasPrefix raw "[" then
    match js_Strings js raw with
    | Ok l => Ok l
    | Err e => Err (EWrap ("parse phoneNumber list: " +:+ error_text e) e)
    end
  else match js_String js raw with
  | Err e => Err (EWrap ("parse phoneNumber: " +:+ error_text e) e)
  | Ok p => Ok (if is_empty p then [] else [p])
  end.

Definition phoneNumber (authID : string) : Auth (list string) :=
  re ← exchange (PhoneNumber authID) (js_Phone js);
  let '(code, message, raw, mask) := re in
  if negb (bool_decide (code = 0)) then code_error "phoneNumber" code message
  else
  numbers ← lift (parsePhoneNumbers raw);
  mret (if is_nil numbers && negb (is_empty mask) then [mask] else numbers).

Definition sms_authID (step : authStep) : Auth (option string) :=
  match st_SMSMode step with
  | smsWithAuthID =>
      if is_empty (st_AuthID step) then fail (EText "SMS authentication requires authId")
      else mret (Some (st_AuthID step))
  | smsWithoutAuthID => mret None
  | smsModeUnknown => fail (EText "unknown SMS authentication mode")
  end.

Definition authSms (step : authStep) : Auth unit :=
  authID ← sms_authID step;
  re ← exchange (SendSMS authID) (js_Message js);
  let '(code, message) := re in
  if negb (bool_decide (code = 0)) && negb (bool_decide (code = 75500401))
  then code_error "authSms" code message else mret tt.

Definition secondarySMSCheckCodeImpl (step : authStep) (code : string) (skip : bool) : Auth authStep :=
  authID ← sms_authID step; next_step "smsCheckCode" (CheckSMS code skip authID).

Definition smsCheckCode (step : authStep) : Auth authStep :=
  id ← randSdpId;
  response ← handleChallenge
    (newChallenge id AuthChallengeSecondarySMS "Enter SMS verification code: " "" [] true);
  secondarySMSCheckCodeImpl step (response_Value response) (response_Skip response).

Definition onlineInfo : Auth string :=
  re ← exchange OnlineInfo (js_Online js);
  let '(code, username) := re in
  if bool_decide (code = 0) then mret username
  else fail (EText ("onlineInfo failed with code " +:+ itoa code)).

Definition ClientResourceContext : Auth string :=
  reply ← send ClientResourceRequest; readAuthResponse reply.

Definition checkCode : Auth (list Z) :=
  reply ← send CheckCode;
  body ← read_limited MaxAuthChallengeImageSize
           (EText ("check code image exceeds " +:+ itoa MaxAuthChallengeImageSize +:+ " bytes")) id reply;
  mret (string_bytes body).

Definition parsePortalTicketFromRedirect (location : string) : result error string :=
  let? u := parse_url location in
  if negb (bool_decide (url_Scheme u = "https"%string)) then
    Err (EText "invalid redirect url: scheme not https")
  else if negb (bool_decide (url_Host u = baseHost)) then
    Err (EText "invalid redirect url: host not match")
  else if negb (bool_decide (url_Path u = "/portal/shortcut.html"%string)) then
    Err (EText "invalid redirect url: path not match")
  else if is_empty (query_Get (url_Query u) "data") then
    Err (EText "invalid redirect url: data not found")
  else
    let? ticket := js_Ticket js (query_Get (url_Query u) "data") in
    if is_empty ticket then Err (EText "invalid portal data: ticket not found") else Ok ticket.
End Login.

(** ** Logging in *)

(** [url.QueryEscape]. *)
Definition query_escape_char (c : ascii) : string :=
  let n := Z.of_nat (nat_of_ascii c) in
  let between lo hi := bool_decide (lo <= n <= hi) in
  let hex d := ascii_of_nat (Z.to_nat (if bool_decide (d < 10) then 48 + d else 55 + d)) in
  if between 48 57 || between 65 90 || between 97 122
     || bool_decide (n = 45) || bool_decide (n = 46) || bool_decide (n = 95) || bool_decide (n = 126)
  then String c ""
  else if bool_decide (n = 32) then "+"
  else String "%" (String (hex (n / 16)) (String (hex (n `mod` 16)) "")).

Fixpoint QueryEscape (s : string) : string :=
  match s with
  | EmptyString => ""
  | String c rest => query_escape_char c +:+ QueryEscape rest
  end.

Section LoginMethods.
Context {W : Type} (aw : AuthWorld W) (js : AuthJSON).
Context (parse_url : string -> result error URL) (baseHost : string).

#[local] Abbreviation Auth := (StateError (LoginState W)).

Definition baseURL : string := "https://" +:+ baseHost.

(** One round of the loop of [withGraphCheckCode]. *)
Definition graph_round (process : string -> Auth Z) : Auth Z :=
  _ ← check_ctx aw;
  image ← checkCode aw;
  _ ← authConfig aw js false true;
  id ← randSdpId aw;
  response ← wrap_error (fun e => EWrap ("get graph check code: " +:+ error_text e) e)
    (handleChallenge aw
       (newChallenge id AuthChallengeGraphClick "Enter graph check code JSON: " "" image false));
  process (response_Value response).

(** The loop, with [n] attempts left and the last answer's [enable]. *)
Fixpoint graph_loop (process : string -> Auth Z) (n : nat) (enable : Z) : Auth unit :=
  if bool_decide (enable = 1) && negb (bool_decide (n = 0%nat)) then
    match n with
    | O => mret tt
    | S n =>
        enable ← graph_round process;
        if bool_decide (enable = 0) then mret tt else graph_loop process n enable
    end
  else if bool_decide (enable = 0) then mret tt
  else fail (EText ("captcha verification failed after " +:+ itoa (Z.of_nat maxAttempts) +:+ " attempts")).

Definition withGraphCheckCode (process : string -> Auth Z) : Auth unit :=
  _ ← check_ctx aw;
  enable ← process "";
  graph_loop process maxAttempts enable.

(** The answer of a password or an SMS code: its ticket, whatever its code. *)
Definition login_answer (r : AuthRequest) : Auth Z :=
  re ← exchange aw r (js_Graph js);
  let '(code, message, ticket, enable) := re in
  _ ← set_ticket ticket;
  mret enable.

Definition pswImpl (username password loginDomain graphCheckCode : string) : Auth Z :=
  x ← get_session;
  encrypted ← on_world (aw_Encrypt aw (as_pubKey x) (as_pubKeyExp x)
                          (password +:+ "_" +:+ as_antiReplayRand x));
  login_answer (LoginPassword (as_deviceID x) (username +:+ "@" +:+ loginDomain) encrypted graphCheckCode).

Definition loginAuthPsw (username password loginDomain : string) : Auth unit :=
  withGraphCheckCode (pswImpl username password loginDomain).

Definition sendSms (phone loginDomain graphCheckCode : string) : Auth Z :=
  x ← get_session;
  re ← exchange aw (LoginSendSMS (as_deviceID x) (phone +:+ "@" +:+ loginDomain) graphCheckCode) (js_Graph js);
  let '(code, message, ticket, enable) := re in
  mret enable.

Definition smsCheckCodeImpl (code phone loginDomain graphCheckCode : string) : Auth Z :=
  x ← get_session;
  login_answer (LoginCheckSMS (as_deviceID x) code (phone +:+ "@" +:+ loginDomain) graphCheckCode).

Definition loginAuthSmsCheckCode (phone loginDomain : string) : Auth unit :=
  _ ← withGraphCheckCode (sendSms phone loginDomain);
  id ← randSdpId aw;
  response ← handleChallenge aw
    (newChallenge id AuthChallengeSMS "Enter SMS verification code: " "" [] false);
  withGraphCheckCode (smsCheckCodeImpl (response_Value response) phone loginDomain).

(** *** Callbacks *)

(** The check of a pasted callback URL: [validateCASCallbackURL] and
    [validateHTTPSOauth2CallbackURL] differ in the path and the parameter. *)
Definition validateCallbackURL (path key : string) (u : URL) : option error :=
  if negb (bool_decide (url_Scheme u = "https"%string)) then
    Some (EText "invalid callback url: scheme not https")
  else if negb (bool_decide (url_Host u = baseHost)) then
    Some (EText "invalid callback url: host not match")
  else if negb (bool_decide (url_Path u = path)) then
    Some (EText "invalid callback url: path not match")
  else if is_empty (query_Get (url_Query u) key) then
    Some (EText ("invalid callback url: " +:+ key +:+ " not found"))
  else None.

Definition validateCASCallbackURL : URL -> option error :=
  validateCallbackURL "/passport/v1/auth/cas" "ticket".
Definition validateHTTPSOauth2CallbackURL : URL -> option error :=
  validateCallbackURL "/passport/v1/auth/httpsOauth2" "code".

(** A callback URL asked of the user. *)
Definition interactive_callback (kind : AuthChallengeKind) (prompt loginURL : string)
    (validate : URL -> option error) : Auth string :=
  id ← randSdpId aw;
  response ← handleChallenge aw (newChallenge id kind prompt loginURL [] false);
  u ← lift (parse_url (response_Value response));
  match validate u with
  | Some err => fail err
  | None => mret (response_Value response)
  end.

Definition interactiveCas (loginURL : string) : Auth string :=
  interactive_callback AuthChallengeCASCallback "Enter CAS callback URL: " loginURL
    validateCASCallbackURL.
Definition interactiveHttpsOauth2 (loginURL : string) : Auth string :=
  interactive_callback AuthChallengeOAuthCallback "Enter OAuth2 callback URL: " loginURL
    validateHTTPSOauth2CallbackURL.

Definition casCallbackFromTicket (loginDomain ticket : string) : string :=
  baseURL +:+ "/passport/v1/auth/cas?sfDomain=" +:+ QueryEscape loginDomain
  +:+ "&ticket=" +:+ QueryEscape ticket.
Definition httpsOauth2CallbackFromCode (loginDomain code : string) : string :=
  baseURL +:+ "/passport/v1/auth/httpsOauth2?code=" +:+ QueryEscape code
  +:+ "&sfDomain=" +:+ QueryEscape loginDomain +:+ "&state=null".

(** The callback is fetched without following its redirect. *)
Definition fetch_callback (callback : string) : Auth unit :=
  reply ← send aw (Callback callback);
  if negb (bool_decide (hp_Status reply = 302)) then
    fail (EText ("invalid status code: " +:+ itoa (hp_Status reply)))
  else
  ticket ← lift (parsePortalTicketFromRedirect js parse_url baseHost (hp_Location reply));
  _ ← readAuthResponse reply;
  set_ticket ticket.

Definition cas : string -> Auth unit := fetch_callback.
Definition httpsOauth2 : string -> Auth unit := fetch_callback.

Definition loginAuthCas (loginURL loginDomain ticket : string) : Auth unit :=
  callback ← (if is_empty ticket then interactiveCas loginURL
              else mret (casCallbackFromTicket loginDomain ticket));
  _ ← cas callback;
  _ ← authConfig aw js true false;
  mret tt.

Definition loginAuthHttpsOauth2 (loginURL loginDomain code callback : string) : Auth unit :=
  let callback := if is_empty callback && negb (is_empty code)
                  then httpsOauth2CallbackFromCode loginDomain code else callback in
  callback ← (if is_empty callback then interactiveHttpsOauth2 loginURL else mret callback);
  _ ← httpsOauth2 callback;
  _ ← authConfig aw js true false;
  mret tt.

(** [LoginMethod.login]. *)
Definition method_login (method : LoginMethod) (info : AuthInfo) : Auth unit :=
  match method with
  | PasswordLogin username password domain => loginAuthPsw username password domain
  | SMSLogin phone domain => loginAuthSmsCheckCode phone domain
  | CASLogin domain ticket => loginAuthCas (ai_LoginURL info) domain ticket
  | HTTPSOauth2Login domain code callback =>
      loginAuthHttpsOauth2 (ai_LoginURL info) domain code callback
  end.

(** *** Second factors *)

Definition sendCustomSMS : Auth unit :=
  re ← exchange aw SendCustomSMS (js_Message js);
  let '(code, message) := re in
  if bool_decide (code = 0) then mret tt else code_error "sendCustomSMS" code message.

Definition customSMSCheckCode (code : string) (skip : bool) : Auth authStep :=
  next_step aw js "customSMSCheckCode" (CheckCustomSMS code skip).

Definition completeCustomSMS : Auth authStep :=
  _ ← sendCustomSMS;
  id ← randSdpId aw;
  response ← handleChallenge aw
    (newChallenge id AuthChallengeSecondarySMS "Enter SMS verification code: " "" [] true);
  customSMSCheckCode (response_Value response) (response_Skip response).

Definition refresh_config (now : bool) : Auth unit :=
  if now then _ ← authConfig aw js true true; mret tt else mret tt.

Definition completeSMS (step : authStep) : Auth authStep :=
  _ ← (match st_SMSMode step with
       | smsModeUnknown => fail (EText "unknown SMS authentication mode")
       | mode => refresh_config (match mode with smsWithAuthID => true | _ => false end)
       end);
  _ ← attempt (phoneNumber aw js (st_AuthID step));
  _ ← authSms aw js step;
  _ ← refresh_config (match st_SMSMode step with smsWithoutAuthID => true | _ => false end);
  smsCheckCode aw js step.

(** One iteration of [continueAuth]: [None] when the chain has ended. *)
Definition auth_service (step : authStep) : Auth (option authStep) :=
  if is_empty (st_Service step) then mret None
  else if bool_decide (st_Service step = "auth/authCheck"%string) then
    step ← authCheck aw js; mret (Some step)
  else if bool_decide (st_Service step = "auth/sms"%string) then
    step ← completeSMS step; mret (Some step)
  else if bool_decide (st_Service step = "auth/customSms"%string) then
    step ← completeCustomSMS; mret (Some step)
  else fail (EText ("unsupported next authentication service: " +:+ st_Service step)).

Fixpoint continue_loop (n : nat) (step : authStep) : Auth unit :=
  match n with
  | O => fail (EText ("authentication chain exceeded " +:+ itoa (Z.of_nat maxAuthSteps) +:+ " steps"))
  | S n =>
      _ ← check_ctx aw;
      next ← auth_service step;
      match next with
      | None => mret tt
      | Some step => continue_loop n step
      end
  end.

Definition continueAuth : authStep -> Auth unit := continue_loop maxAuthSteps.

Definition first_step : authStep :=
  {| st_Service := "auth/authCheck"; st_AuthID := ""; st_SMSMode := smsModeUnknown |}.

(** *** The login *)

Definition saved_sid (cookies : list Cookie) : string :=
  fold_left (fun sid c =>
      if bool_decide (cookie_Host c = baseHost) && bool_decide (cookie_Scheme c = "https"%string)
         && bool_decide (cookie_Name c = "sid"%string)
      then cookie_Value c else sid) cookies "".

Definition jar_sid (jar : list (string * string)) (sid : string) : string :=
  fold_left (fun sid '(name, value) => if bool_decide (name = "sid"%string) then value else sid) jar sid.

Definition set_device (deviceID : string) : Auth unit :=
  x ← get_session;
  put_session {| as_deviceID := deviceID; as_csrfToken := as_csrfToken x; as_pubKey := as_pubKey x;
                 as_pubKeyExp := as_pubKeyExp x; as_antiReplayRand := as_antiReplayRand x;
                 as_ticket := as_ticket x |}.

Definition method_info (method : LoginMethod) (infos : list AuthInfo) : option AuthInfo :=
  List.find (fun info => bool_decide (ai_AuthType info = AuthType method)
                         && bool_decide (ai_LoginDomain info = LoginDomain method)) infos.

(** A login that the saved cookies do not make unnecessary. *)
Definition fresh_login (method : LoginMethod) (info : AuthInfo) (sid : string) : Auth LoginResult :=
  _ ← method_login method info;
  _ ← reportEnv aw js;
  _ ← continueAuth first_step;
  username ← onlineInfo aw js;
  jar ← on_world (fun w => (Ok (aw_JarCookies aw baseHost w), w));
  mret {| lr_Username := username; lr_SID := jar_sid jar sid;
          lr_Cookies := map (fun '(name, value) =>
            {| cookie_Host := baseHost; cookie_Scheme := "https"; cookie_Name := name;
               cookie_Value := value |}) jar;
          lr_Reused := false |}.

(** Callers look at the error first: the result that accompanies an error of [onlineInfo]
    is left out. *)
Definition LoginContext (method : option LoginMethod) (opts : LoginOptions) : Auth LoginResult :=
  _ ← check_ctx aw;
  let sid := saved_sid (lo_Cookies opts) in
  _ ← on_world (fun w => (Ok tt, fold_left (fun w c => aw_SetCookie aw c w) (lo_Cookies opts) w));
  _ ← set_device (lo_DeviceID opts);
  config ← authConfig aw js false true;
  let '(isLogin, infos) := config in
  if bool_decide (isLogin = 1) then
    username ← onlineInfo aw js;
    mret {| lr_Username := username; lr_SID := sid; lr_Cookies := lo_Cookies opts; lr_Reused := true |}
  else match method with
  | None => fail (EText "login method is nil, but user is not logged in")
  | Some method =>
      match method_info method infos with
      | None => fail (EText ("auth type/login domain combination not found: auth type: "
                             +:+ AuthType method +:+ ", login domain: " +:+ LoginDomain method))
      | Some info => fresh_login method info sid
      end
  end.
End LoginMethods.

(** ** What a login sends and asks *)

(** What may be sent or asked, with what is known of the callbacks. *)
Definition allowed (callback_ok : string -> Prop) (e : AuthEvent) : Prop :=
  match e with
  | Sent (Callback url) => callback_ok url
  | Sent (ReportEnv ticket _) => ticket <> ""%string
  | Sent (SendSMS (Some authID)) => authID <> ""%string
  | Sent (CheckSMS code _ authID) => code <> ""%string /\ authID <> Some ""%string
  | Sent (CheckCustomSMS code _) | Sent (LoginCheckSMS _ code _ _) => code <> ""%string
  | Asked c => AuthChallenge_Validate c = None
  | _ => True
  end.

(** [does m n Q]: [m] adds at most [n] allowed events to the log, and its result and these
    events are in [Q] if it succeeds. *)
Definition does {W A} (callback_ok : string -> Prop) (m : StateError (LoginState W) A) (n : nat)
    (Q : A -> list AuthEvent -> Prop) : Prop :=
  forall s, exists new,
    ls_log (m s).2 = ls_log s ++ new /\ (length new <= n)%nat /\
    Forall (allowed callback_ok) new /\ forall a, (m s).1 = Ok a -> Q a new.

Definition anything {A} : A -> list AuthEvent -> Prop := fun _ _ => True.
Definition quietly {A} : A -> list AuthEvent -> Prop := fun _ l => l = [].

(** Where the callbacks come from: they are on the server, or the one of the login method. *)
Definition callback_from (parse_url : string -> result error URL) (baseHost : string)
    (method : LoginMethod) (url : string) : Prop :=
  (exists u, parse_url url = Ok u /\ url_Scheme u = "https"%string /\ url_Host u = baseHost) \/
  (exists path, url = baseURL baseHost +:+ "/" +:+ path) \/
  (exists domain code, method = HTTPSOauth2Login domain code url).

Create HintDb login.

Section Does.
Context {W : Type} (aw : AuthWorld W) (js : AuthJSON).
Context (parse_url : string -> result error URL) (baseHost : string) (callback_ok : string -> Prop).

#[local] Abbreviation Auth := (StateError (LoginState W)).
#[local] Abbreviation runs := (does (W := W) callback_ok).

Lemma does_weaken {A} (m : Auth A) n n' (Q R : A -> list AuthEvent -> Prop) :
  runs m n Q -> (n <= n')%nat -> (forall a l, Q a l -> R a l) -> runs m n' R.
Proof.
  intros Hm Hn HR s. destruct (Hm s) as (new & ? & ? & ? & HQ).
  exists new. split_and!; [done|lia|done|]. intros a Ha. by apply HR, HQ.
Qed.

Lemma does_bind {A B} (m : Auth A) (f : A -> Auth B) n k Q R :
  runs m n Q -> (forall a l, Q a l -> runs (f a) k (fun b l' => R b (l ++ l'))) ->
  runs (m ≫= f) (n + k) R.
Proof.
  intros Hm Hf s. unfold mbind, StateError_bind. destruct (Hm s) as (new & Hlog & Hn & Hnew & HQ).
  destruct (m s) as [[a|e] s1]; simpl in *.
  - destruct (Hf a new (HQ a eq_refl) s1) as (new' & Hlog' & Hn' & Hnew' & HR).
    exists (new ++ new'). rewrite Hlog', Hlog, length_app, app_assoc.
    split_and!; [done|lia|by apply Forall_app|done].
  - exists new. split_and!; [done|lia|done|done].
Qed.

(** An operation that neither sends nor asks. *)
Lemma does_quiet {A} (m : Auth A) (Q : A -> list AuthEvent -> Prop) :
  (forall s, ls_log (m s).2 = ls_log s /\ forall a, (m s).1 = Ok a -> Q a []) -> runs m 0 Q.
Proof.
  intros Hm s. exists []. rewrite app_nil_r. destruct (Hm s).
  split_and!; [done|simpl; lia|done|done].
Qed.

Lemma does_ret {A} (a : A) (Q : A -> list AuthEvent -> Prop) : Q a [] -> runs (mret a) 0 Q.
Proof. intros HQ. apply does_quiet. intros s. split; [done|]. by intros b [= <-]. Qed.

Lemma does_fail {A} e (Q : A -> list AuthEvent -> Prop) : runs (fail e) 0 Q.
Proof. apply does_quiet. intros s. split; [done|]. by intros b [=]. Qed.

Lemma does_fail_anything {A} e : runs (fail (A := A) e) 0 anything.
Proof. apply does_fail. Qed.

Lemma does_lift {A} (r : result error A) : runs (lift r) 0 (fun a l => r = Ok a /\ l = []).
Proof. by apply does_quiet. Qed.

Lemma does_on_world {A} (f : W -> result error A * W) : runs (on_world f) 0 quietly.
Proof. apply does_quiet. intros s. unfold on_world. by destruct (f _). Qed.

Lemma does_get_session : runs get_session 0 quietly.
Proof. by apply does_quiet. Qed.

Lemma does_put_session x : runs (put_session x) 0 quietly.
Proof. by apply does_quiet. Qed.

Lemma does_log e : allowed callback_ok e -> runs (log_event e) 1 (fun _ l => l = [e]).
Proof. intros He s. exists [e]. split_and!; [done|simpl; lia|by repeat constructor|done]. Qed.

Lemma does_if {A} (b : bool) (m1 m2 : Auth A) n1 n2 Q :
  (b = true -> runs m1 n1 Q) -> (b = false -> runs m2 n2 Q) ->
  runs (if b then m1 else m2) (n1 `max` n2) Q.
Proof. destruct b; intros H1 H2; (eapply does_weaken; [first [by apply H1|by apply H2]|lia|done]). Qed.

Lemma does_option {A B} (o : option B) (m1 : Auth A) m2 n1 n2 Q :
  (o = None -> runs m1 n1 Q) -> (forall b, o = Some b -> runs (m2 b) n2 Q) ->
  runs (match o with Some b => m2 b | None => m1 end) (n1 `max` n2) Q.
Proof. destruct o; intros H1 H2; (eapply does_weaken; [first [by apply H2|by apply H1]|lia|done]). Qed.

Lemma does_attempt {A} (m : Auth A) n Q : runs m n Q -> runs (attempt m) n anything.
Proof.
  intros Hm s. unfold attempt. destruct (Hm s) as (new & ? & ? & ? & ?).
  destruct (m s). by exists new.
Qed.

Lemma does_wrap {A} f (m : Auth A) n Q : runs m n Q -> runs (wrap_error f m) n Q.
Proof.
  intros Hm s. unfold wrap_error. destruct (Hm s) as (new & ? & ? & ? & HQ).
  destruct (m s) as [[a|e] s']; by exists new.
Qed.

Lemma does_check_ctx : runs (check_ctx aw) 0 quietly.
Proof. by apply does_quiet. Qed.

Lemma does_randSdpId : runs (randSdpId aw) 0 quietly.
Proof. apply does_on_world. Qed.

#[local] Hint Resolve does_fail_anything does_lift does_on_world does_get_session does_put_session does_log
  does_attempt does_wrap does_check_ctx does_randSdpId : login.

Lemma does_le {A} (m : Auth A) n n' Q : runs m n Q -> (n <= n')%nat -> runs m n' Q.
Proof. intros Hm Hn. by eapply does_weaken. Qed.

#[local] Hint Extern 2 (allowed _ _) =>
  simpl; repeat case_match; first [naive_solver | by apply is_empty_false] : login.

(** The steps of a body: its operations by the lemmas above and the hints, its branches by
    [does_if] and [does_option]; what is left are the facts about the events. *)
Ltac login_facts :=
  unfold quietly, anything in *; destruct_and?; simplify_eq; simpl in *; rewrite ?app_nil_r; try done.

Ltac login_go :=
  lazymatch goal with
  | |- does _ (mret _) _ _ => apply does_ret; login_facts
  | |- does _ (fail _) _ _ => apply does_fail
  | |- does _ (code_error _ _ _) _ _ => apply does_fail
  | |- does _ (if _ then _ else _) _ _ => apply does_if; intros ?; login_go
  | |- does _ (match ?o with Some _ => _ | None => _ end) _ _ =>
      apply does_option; [intros ?|intros ? ?]; login_go
  | |- does _ (match ?p with (_, _) => _ end) _ _ => destruct p; login_go
  | |- does _ (_ ≫= _) _ _ =>
      eapply does_bind; [solve [eauto 6 with login] | intros ? ? ?; login_facts; login_go]
  | |- _ => eapply does_weaken; [solve [eauto 6 with login]|reflexivity|intros ? ? ?; login_facts]
  end.

Ltac login := eapply does_le; [login_go | simpl; lia].

Lemma does_send r : allowed callback_ok (Sent r) -> runs (send aw r) 1 (fun _ l => l = [Sent r]).
Proof. intros Hr. unfold send. login. Qed.
#[local] Hint Resolve does_send : login.

Lemma does_read_limited limit e wrap reply : runs (read_limited limit e wrap reply) 0 quietly.
Proof. unfold read_limited. login. Qed.
#[local] Hint Resolve does_read_limited : login.

Lemma does_exchange {A} r (decode : string -> result error A) :
  allowed callback_ok (Sent r) -> runs (exchange aw r decode) 1 (fun _ l => l = [Sent r]).
Proof. intros Hr. unfold exchange, readAuthResponse. login. Qed.
#[local] Hint Resolve does_exchange : login.

Lemma valid_response_value r c :
  AuthResponse_Validate r c = None -> challenge_Kind c <> AuthChallengeSelectAuthenticationMethod ->
  response_Value r <> ""%string.
Proof.
  unfold AuthResponse_Validate. intros Hv Hk. repeat case_match; simplify_eq; try done.
  - by case_bool_decide.
  - by apply is_empty_false.
Qed.

(** A challenge is asked in its well-formed form, and its answer is not empty. *)
Lemma does_handleChallenge challenge :
  challenge_Kind challenge <> AuthChallengeSelectAuthenticationMethod ->
  runs (handleChallenge aw challenge) 1
    (fun response l => l = [Asked challenge] /\ response_Value response <> ""%string).
Proof.
  intros Hk. unfold handleChallenge.
  destruct (AuthChallenge_Validate challenge) eqn:Hc; [eapply does_le; [apply does_fail|lia]|].
  login. eauto using valid_response_value.
Qed.
#[local] Hint Resolve does_handleChallenge : login.

(** *** Requests *)

Lemma does_authConfig mod_ needTicket :
  runs (authConfig aw js mod_ needTicket) 1 (fun _ l => l = [Sent (GetAuthConfig mod_ needTicket)]).
Proof. unfold authConfig. login. Qed.

Lemma does_reportEnv :
  runs (reportEnv aw js) 1 (fun _ l => exists ticket device,
    ticket <> ""%string /\ l = [Sent (ReportEnv ticket device)]).
Proof.
  unfold reportEnv. login. eexists _, _. split; [|done]. by apply is_empty_false.
Qed.

Lemma does_next_step what r :
  allowed callback_ok (Sent r) -> runs (next_step aw js what r) 1 (fun _ l => l = [Sent r]).
Proof. intros Hr. unfold next_step. login. Qed.
#[local] Hint Resolve does_authConfig does_reportEnv does_next_step : login.

Lemma does_phoneNumber authID : runs (phoneNumber aw js authID) 1 anything.
Proof. unfold phoneNumber. login. Qed.

Lemma does_sms_authID step :
  runs (sms_authID step) 0 (fun authID l => authID <> Some ""%string /\ l = []).
Proof. unfold sms_authID. destruct (st_SMSMode step); login. split; [|done]. by intros [= He]; rewrite He in *. Qed.
#[local] Hint Resolve does_phoneNumber does_sms_authID : login.

Lemma does_authSms step : runs (authSms aw js step) 1 anything.
Proof. unfold authSms. login. Qed.

Lemma does_smsCheckCode step : runs (smsCheckCode aw js step) 2 anything.
Proof. unfold smsCheckCode, secondarySMSCheckCodeImpl. login. Qed.

Lemma does_onlineInfo : runs (onlineInfo aw js) 1 (fun _ l => l = [Sent OnlineInfo]).
Proof. unfold onlineInfo. login. Qed.

Lemma does_checkCode : runs (checkCode aw) 1 anything.
Proof. unfold checkCode. login. Qed.
#[local] Hint Resolve does_authSms does_smsCheckCode does_onlineInfo does_checkCode : login.

(** *** Second factors *)

Lemma does_sendCustomSMS : runs (sendCustomSMS aw js) 1 anything.
Proof. unfold sendCustomSMS. login. Qed.
#[local] Hint Resolve does_sendCustomSMS : login.

Lemma does_completeCustomSMS : runs (completeCustomSMS aw js) 3 anything.
Proof. unfold completeCustomSMS, customSMSCheckCode. login. Qed.

Lemma does_refresh_config : runs (refresh_config aw js true) 1 anything.
Proof. unfold refresh_config. login. Qed.

Lemma does_not_refresh : runs (refresh_config aw js false) 0 anything.
Proof. unfold refresh_config. login. Qed.
#[local] Hint Resolve does_completeCustomSMS does_refresh_config does_not_refresh : login.

Lemma does_completeSMS step : runs (completeSMS aw js step) 5 anything.
Proof.
  unfold completeSMS. destruct (st_SMSMode step); cbn iota; [|login..].
  apply (does_le _ 0); [|lia]. apply does_quiet. by intros s.
Qed.
#[local] Hint Resolve does_completeSMS : login.

Lemma does_auth_service step : runs (auth_service aw js step) 5 anything.
Proof. unfold auth_service, authCheck. login. Qed.
#[local] Hint Resolve does_auth_service : login.

Lemma does_continue_loop n step : runs (continue_loop aw js n step) (5 * n) anything.
Proof.
  revert step. induction n as [|n IH]; intros step; simpl; [login|].
  eapply does_le with (n := (0 + (5 + (0 `max` (5 * n))))%nat); [|lia].
  eapply does_bind; [eauto with login|intros ???].
  eapply does_bind; [eauto with login|intros ???].
  apply does_option; [intros ?; login|intros ? ?; apply IH].
Qed.

(** The chain starts with [authCheck]. *)
Lemma does_continueAuth :
  runs (continueAuth aw js first_step) 36 (fun _ l => exists l', l = Sent AuthCheck :: l').
Proof.
  unfold continueAuth, maxAuthSteps. 
  eapply does_le with (n := (0 + (1 + (0 `max` 35)))%nat); [|lia].
  cbn [continue_loop]. eapply does_bind; [eauto with login|intros ? ? ->].
  eapply does_bind with (Q := fun _ l => l = [Sent AuthCheck]).
  - change (auth_service aw js first_step) with
      (step ← authCheck aw js; mret (M := Auth) (Some step)).
    unfold authCheck. login.
  - intros next l ->. apply does_option; [intros _|intros step ->].
    + apply does_ret. by exists [].
    + eapply does_weaken; [apply (does_continue_loop 7)|reflexivity|]. intros _ l _. by exists l.
Qed.

(** *** The methods *)

Section Graph.
Context (process : string -> Auth Z) (Hprocess : forall code, runs (process code) 1 anything).

Lemma does_graph_round : runs (graph_round aw js process) 4 anything.
Proof. unfold graph_round. pose proof Hprocess. login. Qed.

Lemma does_graph_loop n enable : runs (graph_loop aw js process n enable) (4 * n) anything.
Proof.
  revert enable. induction n as [|n IH]; intros enable.
  - cbn [graph_loop]. rewrite andb_false_r. login.
  - cbn [graph_loop]. rewrite andb_true_r.
    eapply does_le with (n := ((4 + (0 `max` (4 * n))) `max` (0 `max` 0))%nat); [|lia].
    apply does_if; intros _; [|login_go].
    eapply does_bind; [apply does_graph_round|intros ? ? _].
    apply does_if; intros _; [login_go|apply IH].
Qed.

Lemma does_withGraphCheckCode : runs (withGraphCheckCode aw js process) 21 anything.
Proof.
  unfold withGraphCheckCode. pose proof Hprocess. pose proof (does_graph_loop maxAttempts). login.
Qed.
End Graph.

#[local] Hint Resolve does_withGraphCheckCode : login.

Lemma does_login_answer r : allowed callback_ok (Sent r) -> runs (login_answer aw js r) 1 anything.
Proof. intros Hr. unfold login_answer, set_ticket. login. Qed.
#[local] Hint Resolve does_login_answer : login.

Lemma does_loginAuthPsw username password domain :
  runs (loginAuthPsw aw js username password domain) 21 anything.
Proof. apply does_withGraphCheckCode. intros code. unfold pswImpl. login. Qed.

Lemma does_loginAuthSmsCheckCode phone domain :
  runs (loginAuthSmsCheckCode aw js phone domain) 43 anything.
Proof.
  assert (forall code, runs (sendSms aw js phone domain code) 1 anything).
  { intros code. unfold sendSms. login. }
  assert (forall code graph, code <> ""%string ->
    runs (smsCheckCodeImpl aw js code phone domain graph) 1 anything).
  { intros code graph Hc. unfold smsCheckCodeImpl. login. }
  unfold loginAuthSmsCheckCode. login.
Qed.

Lemma does_set_ticket ticket : runs (set_ticket ticket) 0 quietly.
Proof. by apply does_quiet. Qed.

Lemma does_readAuthResponse reply : runs (readAuthResponse reply) 0 quietly.
Proof. apply does_read_limited. Qed.
#[local] Hint Resolve does_set_ticket does_readAuthResponse : login.

Lemma does_fetch_callback callback :
  callback_ok callback -> runs (fetch_callback aw js parse_url baseHost callback) 1 anything.
Proof. intros Hc. unfold fetch_callback. login. Qed.
#[local] Hint Resolve does_fetch_callback : login.

Lemma validateCallbackURL_none path key u :
  validateCallbackURL baseHost path key u = None ->
  url_Scheme u = "https"%string /\ url_Host u = baseHost.
Proof. unfold validateCallbackURL. intros Hv. repeat case_bool_decide; simplify_eq; done. Qed.

(** A pasted callback URL is accepted only for the server. *)
Lemma does_interactive_callback kind prompt loginURL path key :
  kind <> AuthChallengeSelectAuthenticationMethod ->
  runs (interactive_callback aw parse_url kind prompt loginURL (validateCallbackURL baseHost path key)) 1
    (fun url _ => exists u, parse_url url = Ok u /\ url_Scheme u = "https"%string /\ url_Host u = baseHost).
Proof.
  intros Hk. unfold interactive_callback. login. 
  eauto using validateCallbackURL_none.
Qed.

Section Method.
Context (method : LoginMethod).
Context (Hcallback : forall url, callback_from parse_url baseHost method url -> callback_ok url).

Lemma callback_then (m : Auth string) n :
  runs m n (fun url _ => callback_from parse_url baseHost method url) ->
  runs (callback ← m; _ ← fetch_callback aw js parse_url baseHost callback;
        _ ← authConfig aw js true false; mret tt) (n + 2) anything.
Proof.
  intros Hm. eapply does_bind; [exact Hm|]. intros url l Hurl.
  pose proof (does_fetch_callback _ (Hcallback _ Hurl)). login.
Qed.

Lemma does_interactive kind prompt loginURL path key :
  kind <> AuthChallengeSelectAuthenticationMethod ->
  runs (interactive_callback aw parse_url kind prompt loginURL (validateCallbackURL baseHost path key)) 1
    (fun url _ => callback_from parse_url baseHost method url).
Proof.
  intros Hk. eapply does_weaken; [by apply does_interactive_callback|reflexivity|].
  intros url l Hurl. by left.
Qed.

Lemma does_loginAuthCas loginURL domain ticket :
  runs (loginAuthCas aw js parse_url baseHost loginURL domain ticket) 3 anything.
Proof.
  unfold loginAuthCas, cas. change 3%nat with (1 `max` 0 + 2)%nat. apply callback_then.
  apply does_if; intros _.
  - by apply does_interactive.
  - apply does_ret. right; left. by eexists.
Qed.

Lemma does_loginAuthHttpsOauth2 loginURL domain code callback :
  method = HTTPSOauth2Login domain code callback ->
  runs (loginAuthHttpsOauth2 aw js parse_url baseHost loginURL domain code callback) 3 anything.
Proof.
  intros Hm. unfold loginAuthHttpsOauth2, httpsOauth2. change 3%nat with (1 `max` 0 + 2)%nat.
  apply callback_then, does_if; intros _.
  - by apply does_interactive.
  - apply does_ret. destruct (_ && _); [right; left; by eexists|].
    right; right. by exists domain, code.
Qed.

Lemma does_method_login info :
  runs (method_login aw js parse_url baseHost method info) 43 anything.
Proof.
  pose proof does_loginAuthCas as Hcas. pose proof does_loginAuthHttpsOauth2 as Hoauth.
  clear Hcallback. destruct method as [u p d|ph d|d t|d c cb]; simpl.
  - eapply does_le; [apply does_loginAuthPsw|lia].
  - apply does_loginAuthSmsCheckCode.
  - eapply does_le; [apply Hcas|lia].
  - eapply does_le; [by apply Hoauth|lia].
Qed.
End Method.

(** *** The whole login *)

Lemma method_info_some method infos info :
  method_info method infos = Some info ->
  info ∈ infos /\ ai_AuthType info = AuthType method /\ ai_LoginDomain info = LoginDomain method.
Proof.
  intros [Hin Hb]%find_some. apply list_elem_of_In in Hin.
  apply andb_true_iff in Hb as [?%bool_decide_eq_true ?%bool_decide_eq_true]. done.
Qed.

(** What the events of a successful login are. *)
Definition login_events (method : option LoginMethod) (r : LoginResult) (l : list AuthEvent) : Prop :=
  if lr_Reused r then l = [Sent (GetAuthConfig false true); Sent OnlineInfo]
  else method <> None /\ exists credentials ticket device factors,
    l = Sent (GetAuthConfig false true) :: credentials
        ++ Sent (ReportEnv ticket device) :: Sent AuthCheck :: factors ++ [Sent OnlineInfo].

Lemma does_fresh_login method info sid :
  (forall url, callback_from parse_url baseHost method url -> callback_ok url) ->
  runs (fresh_login aw js parse_url baseHost method info sid) 81
    (fun r l => lr_Reused r = false /\ exists credentials ticket device factors,
      ticket <> ""%string /\
      l = credentials ++ Sent (ReportEnv ticket device) :: Sent AuthCheck :: factors ++ [Sent OnlineInfo]).
Proof.
  intros Hcb. unfold fresh_login. change 81%nat with (43 + (1 + (36 + (1 + (0 + 0)))))%nat.
  eapply does_bind; [by apply does_method_login|intros ? credentials _].
  eapply does_bind; [apply does_reportEnv|intros ? ? (ticket & device & Ht & ->)].
  eapply does_bind; [apply does_continueAuth|intros ? ? (factors & ->)].
  eapply does_bind; [apply does_onlineInfo|intros username ? ->].
  eapply does_bind; [apply does_on_world|intros jar ? ->].
  apply does_ret. split; [done|]. by exists credentials, ticket, device, factors.
Qed.

Lemma does_LoginContext method opts :
  (forall m url, method = Some m -> callback_from parse_url baseHost m url -> callback_ok url) ->
  runs (LoginContext aw js parse_url baseHost method opts) 82 (login_events method).
Proof.
  intros Hcb. unfold LoginContext.
  change 82%nat with (0 + (0 + (0 + (1 + ((1 + 0) `max` (0 `max` (0 `max` 81)))))))%nat.
  eapply does_bind; [apply does_check_ctx|intros ? ? ->].
  eapply does_bind; [apply does_on_world|intros ? ? ->].
  eapply does_bind; [by apply does_quiet with (Q := quietly)|intros ? ? ->].
  eapply does_bind; [apply does_authConfig|intros [isLogin infos] ? ->].
  apply does_if; intros _.
  { eapply does_bind; [apply does_onlineInfo|intros ? ? ->]. by apply does_ret. }
  apply does_option; [intros _; apply does_fail|intros m ->].
  apply does_option; [intros _; apply does_fail|intros info _].
  eapply does_weaken; [apply does_fresh_login; eauto|reflexivity|].
  intros r l (Hr & credentials & ticket & device & factors & _ & ->).
  unfold login_events. rewrite Hr. split; [done|]. by exists credentials, ticket, device, factors.
Qed.
End Does.

Lemma authStepFromData_sms data :
  let step := authStepFromData data in
  st_Service step = "auth/sms"%string ->
  st_SMSMode step = (if is_empty (st_AuthID step) then smsWithoutAuthID else smsWithAuthID).
Proof.
  unfold authStepFromData. destruct (match List.find _ _ with Some _ => _ | None => _ end); simpl.
  all: intros Hs; by rewrite bool_decide_eq_true_2 by done.
Qed.

(** C12: A login against any server, whatever it answers and whatever the user answers, sends
    and asks at most 82 times. It sends no empty ticket, no empty SMS code and no empty authId,
    asks only well-formed challenges, and fetches a callback URL only if it lies on the server
    (by scheme and host) or is the one of the configured login method. A login that succeeds
    either found the saved cookies still valid, and then only fetched the configuration and
    the user name, or has a login method and has gone through reporting the environment with a
    ticket, the chain of second factors from authCheck on, and the user name, in this order. *)
Theorem login_bounded {W : Type} (aw : AuthWorld W) (js : AuthJSON)
    (parse_url : string -> result error URL) (baseHost : string) (method : option LoginMethod)
    (opts : LoginOptions) (s : LoginState W) :
  let callback_ok url := exists m, method = Some m /\ callback_from parse_url baseHost m url in
  let '(r, s') := LoginContext aw js parse_url baseHost method opts s in
  exists events, ls_log s' = ls_log s ++ events /\ (length events <= 82)%nat /\
    Forall (allowed callback_ok) events /\
    match r with Ok result => login_events method result events | Err _ => True end.
Proof.
  intros callback_ok.
  destruct (does_LoginContext aw js parse_url baseHost callback_ok method opts
              ltac:(unfold callback_ok; eauto) s) as (new & ? & ? & ? & HQ).
  destruct (LoginContext _ _ _ _ _ _ s) as [[res|e] s']; simpl in *; exists new; auto.
Qed.

(** ** A login *)

Definition demo_data (service : string) (ids : list authServiceInfo) : authStepData :=
  {| sd_NextService := service; sd_NextServiceList := ids |}.

(** A server that asks for a captcha, then for an SMS code. *)
Definition demo_reply (r : AuthRequest) : string :=
  match r with
  | LoginPassword _ _ _ graph => if is_empty graph then "captcha" else "ticket"
  | AuthCheck => "sms"
  | _ => "ok"
  end.

Definition demo_json : AuthJSON := {|
  js_AuthConfig _ := Ok {| ac_IsLogin := 0;
    ac_AuthServerInfoList := [{| ai_LoginDomain := "local"; ai_AuthType := "auth/psw";
                                 ai_AuthName := "Password"; ai_LoginURL := "" |}];
    ac_CSRF := "csrf"; ac_SecurityCSRF := ""; ac_PubKey := "ab"; ac_PubKeyExp := "65537";
    ac_AntiReplayRand := "r" |};
  js_Code _ := Ok 0;
  js_Step body := Ok (0, "", if bool_decide (body = "sms"%string)
    then demo_data "auth/sms" [{| si_AuthID := "7"; si_AuthType := "auth/sms" |}] else demo_data "" []);
  js_Phone _ := Err (EText "no phone number");
  js_Message _ := Ok (0, "");
  js_Online _ := Ok (0, "user");
  js_Graph body := Ok (if bool_decide (body = "captcha"%string) then (1, "", "", 1) else (0, "", "T", 0));
  js_Strings _ := Ok [];
  js_String _ := Ok "";
  js_Ticket _ := Ok "";
|}.

Definition demo_auth : AuthWorld unit := {|
  aw_ctxErr _ := None;
  aw_Do _ r w := (Ok {| hp_Status := 200; hp_Location := ""; hp_Body := demo_reply r; hp_ReadErr := None |}, w);
  aw_Handle := Some (fun c w => (Ok {| response_ChallengeID := challenge_ID c; response_Value := "123456";
                                       response_ChoiceID := ""; response_Skip := false |}, w));
  aw_randSdpId w := ("0123456789abcdef", w);
  aw_Encrypt _ _ message w := (Ok message, w);
  aw_SetCookie _ w := w;
  aw_JarCookies _ _ := [("sid", "S")];
|}.

Definition sent (e : AuthEvent) : option AuthRequest :=
  match e with Sent r => Some r | Asked _ => None end.

Definition demo_login (method : option LoginMethod) : result error LoginResult * LoginState unit :=
  LoginContext demo_auth demo_json (fun _ => Err (EText "no URL")) "vpn.example"
    method {| lo_DeviceID := "D"; lo_Cookies := [] |} (Build_LoginState newAuthSession tt []).

Example demo_password :
  let '(r, s) := demo_login (Some (PasswordLogin "u" "p" "local")) in
  (match r with Ok x => Some (lr_Username x, lr_SID x) | Err _ => None end,
   omap sent (ls_log s)) =
  (Some ("user"%string, "S"%string),
   [GetAuthConfig false true; LoginPassword "D" "u@local" "p_r" ""; CheckCode;
    GetAuthConfig false true; LoginPassword "D" "u@local" "p_r" "123456"; ReportEnv "T" "D"; AuthCheck;
    GetAuthConfig true true; PhoneNumber "7"; SendSMS (Some "7"%string);
    CheckSMS "123456" false (Some "7"%string); OnlineInfo]).
Proof. vm_compute. reflexivity. Qed.

Example demo_no_method : (demo_login None).1 = Err (EText "login method is nil, but user is not logged in").
Proof. vm_compute. reflexivity. Qed.
