(* ===== verification/ClientSetup.v ===== *)
(** The aTrust client (client/atrust/setup.go, client.go): its set-up from the login over the
    resources and the nodes to the tunnel, and its life. The set-up is a chain of calls in
    the state and error monad of the prelude; the log of what it announces, sends and asks is
    not in the code. *)

From S2P Require Import Prelude Core GoNet Packet L3Codec L3Tunnel L3Link Dial Nodes ClientResource AuthLogin.

Record SetupConfig : Type := {
  su_ServerAddress : string;
  su_ServerPort : Z;
  su_Username : string;
  su_Password : string;
  su_Phone : string;
  su_LoginDomain : string;
  su_AuthType : string;
  su_CASTicket : string;
  su_OAuth2Code : string;
  su_UpdateBestNodesInterval : Z;
}.

Definition SetupStageDiscoveringAuth : string := "discovering_auth".
Definition SetupStageAuthenticating : string := "authenticating".
Definition SetupStageFetchingResources : string := "fetching_resources".
Definition SetupStageSelectingNodes : string := "selecting_nodes".
Definition SetupStageEstablishingTunnel : string := "establishing_tunnel".

Record ClientAuthData : Type := { cad_Cookies : list Cookie; cad_DeviceID : string }.

#[export] Instance Cookie_eq_dec : EqDecision Cookie.
Proof. solve_decision. Defined.
#[export] Instance ClientAuthData_eq_dec : EqDecision ClientAuthData.
Proof. solve_decision. Defined.

(** [Client], the fields that the set-up reads and writes; [c_tunnel] tells whether there is an
    [L3Tunnel], [c_updating] whether [updateBestNodes] runs. *)
Record Client : Type := {
  c_Username : string;
  c_SID : string;
  c_DeviceID : string;
  c_ConnectionID : string;
  c_SignKey : string;
  c_ResumeStateReused : bool;
  c_serverAddress : string;
  c_parsed : ParsedClient;
  c_BestNodes : gmap string string;
  c_ip : option IP;
  c_tunnel : bool;
  c_updating : bool;
}.

(** [NewClientContext]. *)
Definition newClient (username sid deviceID signKey : string) : Client :=
  {| c_Username := username; c_SID := sid; c_DeviceID := deviceID; c_ConnectionID := "";
     c_SignKey := signKey; c_ResumeStateReused := false; c_serverAddress := "";
     c_parsed := {| pc_resources := None; pc_dnsServer := ""; pc_MajorNodeGroup := ""; pc_NodeGroups := ∅ |};
     c_BestNodes := ∅; c_ip := None; c_tunnel := false; c_updating := false |}.

(** ** Reading the client *)

Definition client_IP (c : Client) : result error IP :=
  match c_ip c with
  | None => Err (EText "IP not available")
  | Some ip => Ok (default [] (To4 ip))
  end.

Definition client_IPResources (c : Client) : result error (list IPResource) :=
  match pc_resources (c_parsed c) with
  | None => Err (EText "IP resources not available")
  | Some r => Ok (cl_ipResources r)
  end.

Definition client_DomainResources (c : Client) : result error (gmap string DomainResource) :=
  match pc_resources (c_parsed c) with
  | None => Err (EText "domain resources not available")
  | Some r => Ok (cl_domainResources r)
  end.

Definition client_DNSResource (c : Client) : result error (gmap string IP) :=
  match pc_resources (c_parsed c) with
  | None => Err (EText "DNS resource not available")
  | Some r => Ok (cl_dnsResource r)
  end.

Definition client_DNSServer (c : Client) : result error string :=
  if is_empty (pc_dnsServer (c_parsed c)) then Err (EText "DNS server not available")
  else Ok (pc_dnsServer (c_parsed c)).

Definition NewL3Conn (c : Client) : option error :=
  if c_tunnel c then None else Some (EText "L3 tunnel not initialized").

(** ** The set-up *)

Inductive SetupEvent : Type :=
| Notified (stage : string)
| NodesNotified (nodes : gmap string string)
| LoginEvent (e : AuthEvent).

Record SetupState (W : Type) : Type := {
  ss_client : Client;
  ss_auth : AuthSession;
  ss_world : W;
  ss_log : list SetupEvent;
}.
Arguments ss_client {W}.
Arguments ss_auth {W}.
Arguments ss_world {W}.
Arguments ss_log {W}.
Arguments Build_SetupState {W}.

(** What the set-up uses of its surroundings, besides the login. *)
Record SetupWorld (W : Type) : Type := {
  sw_randHex : nat -> W -> string * W;
  sw_connectionID : string -> W -> string * W;
  sw_ticks : W -> string -> list (option Z);
  sw_dialNode : W -> string -> result error (list Z);
  sw_unmarshalAuth : list Z -> result error ClientAuthData;
  sw_marshalAuth : ClientAuthData -> result error (list Z);
  sw_resource : string -> result error ClientResource;
}.
Arguments sw_randHex {W}.
Arguments sw_connectionID {W}.
Arguments sw_ticks {W}.
Arguments sw_dialNode {W}.
Arguments sw_unmarshalAuth {W}.
Arguments sw_marshalAuth {W}.
Arguments sw_resource {W}.

Section Setup.
Context {W : Type} (aw : AuthWorld W) (js : AuthJSON) (parse_url : string -> result error URL).
Context (sw : SetupWorld W).
(** The order in which Go ranges over a map. *)
Context (range_groups : gmap string (list string) -> list (string * list string)).
Context (range_nodes : gmap string string -> list (string * string)).
(** What a Go panic is taken for: any value does, since no set-up panics. *)
Context (panic : error).

#[local] Abbreviation Setup := (StateError (SetupState W)).

Definition get_client : Setup Client := fun s => (Ok (ss_client s), s).
Definition put_client (c : Client) : Setup unit := fun s =>
  (Ok tt, Build_SetupState c (ss_auth s) (ss_world s) (ss_log s)).
Definition log_setup (e : SetupEvent) : Setup unit := fun s =>
  (Ok tt, Build_SetupState (ss_client s) (ss_auth s) (ss_world s) (ss_log s ++ [e])).
Definition on_setup_world {A} (f : W -> A * W) : Setup A := fun s =>
  let '(a, w) := f (ss_world s) in (Ok a, Build_SetupState (ss_client s) (ss_auth s) w (ss_log s)).
Definition read_world : Setup W := fun s => (Ok (ss_world s), s).
Definition setup_ctx : Setup unit := fun s => check (aw_ctxErr aw (ss_world s)) s.

(** A call of the authentication session. *)
Definition in_session {A} (m : StateError (LoginState W) A) : Setup A := fun s =>
  let '(r, l) := m (Build_LoginState (ss_auth s) (ss_world s) []) in
  (r, Build_SetupState (ss_client s) (ls_session l) (ls_world l) (ss_log s ++ map LoginEvent (ls_log l))).
Definition new_session : Setup unit := fun s =>
  (Ok tt, Build_SetupState (ss_client s) newAuthSession (ss_world s) (ss_log s)).

Definition notify (stage : string) : Setup unit := log_setup (Notified stage).
Definition notifyNodeSelection (nodes : gmap string string) : Setup unit := log_setup (NodesNotified nodes).

(** Assignments to fields of the client. *)
Definition set_address (address : string) (c : Client) : Client :=
  {| c_Username := c_Username c; c_SID := c_SID c; c_DeviceID := c_DeviceID c;
     c_ConnectionID := c_ConnectionID c; c_SignKey := c_SignKey c;
     c_ResumeStateReused := c_ResumeStateReused c; c_serverAddress := address; c_parsed := c_parsed c;
     c_BestNodes := c_BestNodes c; c_ip := c_ip c; c_tunnel := c_tunnel c; c_updating := c_updating c |}.
Definition set_device_keys (device connection signKey : string) (c : Client) : Client :=
  {| c_Username := c_Username c; c_SID := c_SID c; c_DeviceID := device;
     c_ConnectionID := connection; c_SignKey := signKey;
     c_ResumeStateReused := c_ResumeStateReused c; c_serverAddress := c_serverAddress c;
     c_parsed := c_parsed c; c_BestNodes := c_BestNodes c; c_ip := c_ip c; c_tunnel := c_tunnel c;
     c_updating := c_updating c |}.
Definition set_login (username sid : string) (reused : bool) (c : Client) : Client :=
  {| c_Username := username; c_SID := sid; c_DeviceID := c_DeviceID c;
     c_ConnectionID := c_ConnectionID c; c_SignKey := c_SignKey c;
     c_ResumeStateReused := reused; c_serverAddress := c_serverAddress c; c_parsed := c_parsed c;
     c_BestNodes := c_BestNodes c; c_ip := c_ip c; c_tunnel := c_tunnel c; c_updating := c_updating c |}.
Definition set_network (parsed : ParsedClient) (best : gmap string string) (ip : option IP)
    (tunnel updating : bool) (c : Client) : Client :=
  {| c_Username := c_Username c; c_SID := c_SID c; c_DeviceID := c_DeviceID c;
     c_ConnectionID := c_ConnectionID c; c_SignKey := c_SignKey c;
     c_ResumeStateReused := c_ResumeStateReused c; c_serverAddress := c_serverAddress c;
     c_parsed := parsed; c_BestNodes := best; c_ip := ip; c_tunnel := tunnel; c_updating := updating |}.

Definition modify_client (f : Client -> Client) : Setup unit := c ← get_client; put_client (f c).

(** The server's address; the choice of an interface is the dialer's. *)
Definition configureUnderlay (config : SetupConfig) : Setup unit :=
  modify_client (set_address (su_ServerAddress config)).

Definition buildLoginMethod (config : SetupConfig) : result error (option LoginMethod) :=
  let t := su_AuthType config in
  if bool_decide (t = "auth/psw"%string) then
    Ok (Some (PasswordLogin (su_Username config) (su_Password config) (su_LoginDomain config)))
  else if bool_decide (t = "auth/cas"%string) then
    Ok (Some (CASLogin (su_LoginDomain config) (su_CASTicket config)))
  else if bool_decide (t = "auth/httpsOauth2"%string) then
    Ok (Some (HTTPSOauth2Login (su_LoginDomain config) (su_OAuth2Code config) ""))
  else if bool_decide (t = "auth/smsCheckCode"%string) then
    Ok (Some (SMSLogin (su_Phone config) (su_LoginDomain config)))
  else if is_empty t then Ok None
  else Err (EText ("unsupported auth type: " +:+ t)).

Definition authServerHost (config : SetupConfig) : string :=
  if bool_decide (su_ServerPort config = 443) then su_ServerAddress config
  else su_ServerAddress config +:+ ":" +:+ itoa (su_ServerPort config).

(** The client has a session and is given the resources. *)
Definition can_skip_login (c : Client) (resourceData : option string) : bool :=
  negb (is_empty (c_SID c)) && negb (is_empty (c_DeviceID c))
  && match resourceData with Some _ => true | None => false end.

Definition skip_login (authData : option (list Z)) (resource : string)
    : Setup (option (list Z) * string) :=
  c ← get_client;
  connection ← on_setup_world (sw_connectionID sw (c_DeviceID c));
  signKey ← (if is_empty (c_SignKey c) then on_setup_world (sw_randHex sw 64) else mret (c_SignKey c));
  _ ← put_client (set_login (c_Username c) (c_SID c) true
                    (set_device_keys (c_DeviceID c) connection signKey c));
  _ ← notify SetupStageFetchingResources;
  mret (authData, resource).

Definition authenticateAndFetchResources (config : SetupConfig) (authData : option (list Z))
    (resourceData : option string) : Setup (option (list Z) * string) :=
  c ← get_client;
  match (if can_skip_login c resourceData then resourceData else None) with
  | Some resource => skip_login authData resource
  | None =>
  saved ← lift (match authData with
                | Some data => sw_unmarshalAuth sw data
                | None => Ok {| cad_Cookies := []; cad_DeviceID := "" |}
                end);
  device ← (if is_empty (cad_DeviceID saved)
            then hex ← on_setup_world (sw_randHex sw 32); mret (ToLower hex)
            else mret (cad_DeviceID saved));
  connection ← on_setup_world (sw_connectionID sw device);
  signKey ← on_setup_world (sw_randHex sw 64);
  _ ← modify_client (set_device_keys device connection signKey);
  method ← lift (buildLoginMethod config);
  _ ← new_session;
  login ← in_session (LoginContext aw js parse_url (authServerHost config) method
                        {| lo_DeviceID := device; lo_Cookies := cad_Cookies saved |});
  _ ← modify_client (set_login (lr_Username login) (lr_SID login) (lr_Reused login));
  _ ← notify SetupStageFetchingResources;
  resource ← in_session (ClientResourceContext aw);
  (** An error of encoding the cookies is only logged. *)
  mret (match sw_marshalAuth sw {| cad_Cookies := lr_Cookies login; cad_DeviceID := device |} with
        | Ok data => Some data
        | Err _ => None
        end, resource)
  end.

Definition setup_resources (resource : string) : Setup unit :=
  c ← get_client;
  match ClientResource.parseResource (sw_resource sw) (c_serverAddress c) resource (c_parsed c) with
  | None => fail panic
  | Some (Some err, _) => fail err
  | Some (None, parsed) =>
      put_client (set_network parsed (c_BestNodes c) (c_ip c) (c_tunnel c) (c_updating c) c)
  end.

Definition selectNodesAndAcquireIP : Setup unit :=
  _ ← setup_ctx;
  c ← get_client;
  w ← read_world;
  match getBestNodes (sw_ticks sw w) (range_groups (pc_NodeGroups (c_parsed c))) ∅ with
  | None => fail panic
  | Some best =>
      _ ← put_client (set_network (c_parsed c) best (c_ip c) (c_tunnel c) (c_updating c) c);
      match getIP (sw_dialNode sw w) best (pc_MajorNodeGroup (c_parsed c)) (map snd (range_nodes best)) with
      | None => fail panic
      | Some (Err err) => fail err
      | Some (Ok ip) =>
          put_client (set_network (c_parsed c) best (Some ip) (c_tunnel c) (c_updating c) c)
      end
  end.

(** [establishL3Tunnel] with [NewL3Tunnel]. *)
Definition establishL3Tunnel : Setup unit :=
  c ← get_client;
  let failed err := EWrap ("failed to create L3 tunnel: " +:+ error_text err) err in
  _ ← lift (match client_IPResources c with
            | Err e => Err (failed (EWrap ("failed to get IP resources: " +:+ error_text e) e))
            | Ok _ => Ok tt
            end);
  _ ← lift (match client_IP c with
            | Err e => Err (failed (EText ("failed to get client IP: " +:+ error_text e)))
            | Ok _ => Ok tt
            end);
  put_client (set_network (c_parsed c) (c_BestNodes c) (c_ip c) true (c_updating c) c).

Definition SetupContext (config : SetupConfig) (authData : option (list Z)) (resourceData : option string)
    : Setup (option (list Z)) :=
  _ ← setup_ctx;
  _ ← notify SetupStageDiscoveringAuth;
  _ ← configureUnderlay config;
  _ ← notify SetupStageAuthenticating;
  fetched ← authenticateAndFetchResources config authData resourceData;
  let '(authData, resource) := fetched in
  _ ← setup_resources resource;
  _ ← notify SetupStageSelectingNodes;
  _ ← selectNodesAndAcquireIP;
  c ← get_client;
  _ ← notifyNodeSelection (c_BestNodes c);
  _ ← notify SetupStageEstablishingTunnel;
  _ ← establishL3Tunnel;
  _ ← modify_client (fun c => set_network (c_parsed c) (c_BestNodes c) (c_ip c) (c_tunnel c)
                                (bool_decide (su_UpdateBestNodesInterval config > 0)) c);
  mret authData.
End Setup.

(** ** What a set-up announces *)

Definition login_event (e : SetupEvent) : option AuthEvent :=
  match e with LoginEvent e => Some e | _ => None end.
Definition stage_of (e : SetupEvent) : option string :=
  match e with Notified stage => Some stage | _ => None end.
Definition is_announcement (e : SetupEvent) : bool :=
  match e with LoginEvent _ => false | _ => true end.
Definition announcements (l : list SetupEvent) : list SetupEvent := List.filter is_announcement l.

(** The announcements of a complete set-up. *)
Definition all_announcements (best : gmap string string) : list SetupEvent :=
  [Notified SetupStageDiscoveringAuth; Notified SetupStageAuthenticating;
   Notified SetupStageFetchingResources; Notified SetupStageSelectingNodes; NodesNotified best;
   Notified SetupStageEstablishingTunnel].

Lemma announcements_login l : announcements (map LoginEvent l) = [].
Proof. by induction l. Qed.

Lemma announcements_app l1 l2 : announcements (l1 ++ l2) = announcements l1 ++ announcements l2.
Proof. apply List.filter_app. Qed.

Lemma login_events_login l : omap login_event (map LoginEvent l) = l.
Proof. induction l as [|e l IH]; [done|]. csimpl. by rewrite IH. Qed.

(** The log of a login, a stage and a further exchange. *)
Lemma login_log events stage events' :
  let l := map LoginEvent events ++ Notified stage :: map LoginEvent events' in
  omap login_event l = events ++ events' /\ announcements l = [Notified stage].
Proof.
  cbn zeta. rewrite announcements_app, omap_app. csimpl.
  by rewrite !login_events_login, !announcements_login.
Qed.

(** [c'] is [c] but for what the login and the resources set. *)
Definition same_network (c c' : Client) : Prop :=
  c_BestNodes c' = c_BestNodes c /\ c_ip c' = c_ip c /\ c_tunnel c' = c_tunnel c /\
  c_updating c' = c_updating c.

Section SetupSpec.
Context {W : Type} (aw : AuthWorld W) (js : AuthJSON) (parse_url : string -> result error URL).
Context (sw : SetupWorld W).
Context (range_groups : gmap string (list string) -> list (string * list string)).
Context (range_nodes : gmap string string -> list (string * string)).

#[local] Abbreviation Setup := (StateError (SetupState W)).

(** [runs c m Q]: from the client [c], [m] appends events to the log; its result, these events
    and the client after it are in [Q]. *)
Definition runs {A} (c : Client) (m : Setup A)
    (Q : result error A -> list SetupEvent -> Client -> Prop) : Prop :=
  forall s, ss_client s = c -> exists new, ss_log (m s).2 = ss_log s ++ new /\
    Q (m s).1 new (ss_client (m s).2).

Lemma runs_bind {A B} c (m : Setup A) (f : A -> Setup B) Q R :
  runs c m Q ->
  (forall e l c', Q (Err e) l c' -> R (Err e) l c') ->
  (forall a l c1, Q (Ok a) l c1 -> runs c1 (f a) (fun r l' c' => R r (l ++ l') c')) ->
  runs c (m ≫= f) R.
Proof.
  intros Hm Herr Hf s Hs. unfold mbind, StateError_bind. destruct (Hm s Hs) as (new & Hlog & HQ).
  destruct (m s) as [[a|e] s1]; simpl in *; [|exists new; eauto].
  destruct (Hf a new _ HQ s1 eq_refl) as (new' & Hlog' & HR). exists (new ++ new').
  rewrite Hlog', Hlog, app_assoc. auto.
Qed.

Lemma runs_weaken {A} c (m : Setup A) (Q R : result error A -> list SetupEvent -> Client -> Prop) :
  runs c m Q -> (forall r l c', Q r l c' -> R r l c') -> runs c m R.
Proof. intros Hm HR s Hs. destruct (Hm s Hs) as (new & ? & ?). exists new. auto. Qed.

(** An operation that succeeds and logs nothing. *)
Lemma runs_quiet {A B} c (m : Setup A) (f : A -> Setup B) R :
  (forall s, ss_client s = c -> exists a, (m s).1 = Ok a /\ ss_log (m s).2 = ss_log s /\
     runs (ss_client (m s).2) (f a) R) ->
  runs c (m ≫= f) R.
Proof.
  intros Hm s Hs. unfold mbind, StateError_bind. destruct (Hm s Hs) as (a & Ha & Hlog & Hf).
  destruct (m s) as [r s1]. simpl in *. rewrite Ha. rewrite <-Hlog. by apply Hf.
Qed.

Lemma runs_get {B} c (f : Client -> Setup B) R : runs c (f c) R -> runs c (get_client ≫= f) R.
Proof. intros H. apply runs_quiet. intros s Hs. exists c. simpl. by rewrite Hs. Qed.

Lemma runs_read {B} c (f : W -> Setup B) R : (forall w, runs c (f w) R) -> runs c (read_world ≫= f) R.
Proof. intros H. apply runs_quiet. intros s <-. eexists. by split_and!. Qed.

Lemma runs_put {B} c d (f : unit -> Setup B) R : runs d (f tt) R -> runs c (put_client d ≫= f) R.
Proof. intros H. apply runs_quiet. intros s Hs. by exists tt. Qed.

Lemma runs_modify {B} c g (f : unit -> Setup B) R :
  runs (g c) (f tt) R -> runs c (modify_client g ≫= f) R.
Proof. intros H. apply runs_quiet. intros s <-. by exists tt. Qed.

Lemma runs_world {A B} c (g : W -> A * W) (f : A -> Setup B) R :
  (forall a, runs c (f a) R) -> runs c (on_setup_world g ≫= f) R.
Proof.
  intros H. apply runs_quiet. intros s Hs. unfold on_setup_world. destruct (g _) as [a w].
  exists a. simpl. by rewrite Hs.
Qed.

Lemma runs_new_session {B} c (f : unit -> Setup B) R : runs c (f tt) R -> runs c (new_session ≫= f) R.
Proof. intros H. apply runs_quiet. intros s <-. by exists tt. Qed.

Lemma runs_lift {A B} c (x : result error A) (f : A -> Setup B) (R : _ -> _ -> _ -> Prop) :
  (forall e, x = Err e -> R (Err e) [] c) -> (forall a, x = Ok a -> runs c (f a) R) ->
  runs c (lift x ≫= f) R.
Proof.
  intros Herr Hok. destruct x as [a|e].
  - apply runs_quiet. intros s <-. exists a. split_and!; [done..|]. by apply Hok.
  - intros s <-. exists []. rewrite app_nil_r. split; [done|]. by apply Herr.
Qed.

Lemma runs_notify {B} c stage (f : unit -> Setup B) R :
  runs c (f tt) (fun r l c' => R r (Notified stage :: l) c') -> runs c (notify stage ≫= f) R.
Proof.
  intros H s Hs. unfold mbind, StateError_bind. simpl.
  destruct (H (log_setup (Notified stage) s).2 Hs) as (new & Hlog & HR).
  exists (Notified stage :: new). simpl in *. rewrite Hlog, <-app_assoc. done.
Qed.

Lemma runs_notify_nodes {B} c nodes (f : unit -> Setup B) R :
  runs c (f tt) (fun r l c' => R r (NodesNotified nodes :: l) c') ->
  runs c (notifyNodeSelection nodes ≫= f) R.
Proof.
  intros H s Hs. unfold mbind, StateError_bind. simpl.
  destruct (H (log_setup (NodesNotified nodes) s).2 Hs) as (new & Hlog & HR).
  exists (NodesNotified nodes :: new). simpl in *. rewrite Hlog, <-app_assoc. done.
Qed.

Lemma runs_ret {A} c (a : A) (Q : result error A -> list SetupEvent -> Client -> Prop) :
  Q (Ok a) [] c -> runs c (mret a) Q.
Proof. intros H s <-. exists []. by rewrite app_nil_r. Qed.

Lemma runs_fail {A} c e (Q : result error A -> list SetupEvent -> Client -> Prop) :
  Q (Err e) [] c -> runs c (fail e) Q.
Proof. intros H s <-. exists []. by rewrite app_nil_r. Qed.

Lemma runs_ctx {B} c (f : unit -> Setup B) (R : _ -> _ -> _ -> Prop) :
  (forall e, R (Err e) [] c) -> runs c (f tt) R -> runs c (setup_ctx aw ≫= f) R.
Proof.
  intros Herr H s <-. unfold mbind, StateError_bind, setup_ctx, check.
  destruct (aw_ctxErr aw (ss_world s)); [|by apply H].
  exists []. rewrite app_nil_r. split; [done|apply Herr].
Qed.

Lemma runs_session {A} c (m : StateError (LoginState W) A) n Q ok :
  does ok m n Q ->
  runs c (in_session m) (fun r l c' => c' = c /\ exists events, l = map LoginEvent events /\
    (length events <= n)%nat /\ forall a, r = Ok a -> Q a events).
Proof.
  intros Hm s <-. unfold in_session.
  destruct (Hm (Build_LoginState (ss_auth s) (ss_world s) [])) as (new & Hlog & Hn & _ & HQ).
  destruct (m _) as [r l]. simpl in *. rewrite Hlog. exists (map LoginEvent new). split; [done|].
  split; [done|]. by exists new.
Qed.

(** *** The phases *)

(** The login of a set-up that has its resources: a session that is reused is kept as it is;
    else the client has the session of the login, the device of the saved data or a fresh one,
    and the data to save hold the cookies of the login and that device. *)
Definition logged_in (config : SetupConfig) (authData : option (list Z)) (resourceData : option string)
    (c : Client) (data : option (list Z)) (login : list AuthEvent) (c' : Client) : Prop :=
  if can_skip_login c resourceData then
    data = authData /\ c_SID c' = c_SID c /\ c_DeviceID c' = c_DeviceID c /\ c_ResumeStateReused c' = true
  else exists saved method r events,
    (authData = None /\ saved = {| cad_Cookies := []; cad_DeviceID := "" |} \/
     exists text, authData = Some text /\ sw_unmarshalAuth sw text = Ok saved) /\
    buildLoginMethod config = Ok method /\
    login_events method r events /\ login = events ++ [Sent ClientResourceRequest] /\
    c_SID c' = lr_SID r /\
    (cad_DeviceID saved <> ""%string -> c_DeviceID c' = cad_DeviceID saved) /\
    ((forall w, (sw_randHex sw 32 w).1 <> ""%string) -> c_DeviceID c' <> ""%string) /\
    (forall text, data = Some text ->
       sw_marshalAuth sw {| cad_Cookies := lr_Cookies r; cad_DeviceID := c_DeviceID c' |} = Ok text).

(** What the login and the resources come to. *)
Definition fetched (config : SetupConfig) (authData : option (list Z)) (resourceData : option string)
    (c : Client) (r : result error (option (list Z) * string)) (l : list SetupEvent) (c' : Client)
    : Prop :=
  same_network c c' /\
  (length (omap login_event l) <= 83)%nat /\
  (can_skip_login c resourceData = true -> omap login_event l = []) /\
  match r with
  | Err _ => announcements l = [] \/ announcements l = [Notified SetupStageFetchingResources]
  | Ok (data, resource) =>
      announcements l = [Notified SetupStageFetchingResources] /\
      (can_skip_login c resourceData = true -> Some resource = resourceData) /\
      logged_in config authData resourceData c data (omap login_event l) c'
  end.

Lemma does_ClientResourceContext :
  does (fun _ => True) (ClientResourceContext aw) 1 (fun _ l => l = [Sent ClientResourceRequest]).
Proof.
  unfold ClientResourceContext. eapply does_bind with (n := 1%nat) (k := 0%nat).
  - by apply does_send.
  - intros ? ? ->. eapply does_weaken; [apply does_readAuthResponse|done|]. by intros ? ? ->.
Qed.

Lemma runs_skip_login c authData resource :
  runs c (skip_login sw authData resource) (fun r l c' =>
    same_network c c' /\ l = [Notified SetupStageFetchingResources] /\ r = Ok (authData, resource) /\
    c_SID c' = c_SID c /\ c_DeviceID c' = c_DeviceID c /\ c_ResumeStateReused c' = true).
Proof.
  unfold skip_login. apply runs_get, runs_world. intros connection.
  destruct (is_empty (c_SignKey c)).
  - apply runs_world. intros key. apply runs_put, runs_notify, runs_ret. by split_and!.
  - apply runs_quiet. intros s <-. eexists. split_and!; [done..|].
    apply runs_put, runs_notify, runs_ret. by split_and!.
Qed.

Lemma runs_device c saved :
  runs c (if is_empty (cad_DeviceID saved)
          then hex ← on_setup_world (sw_randHex sw 32); mret (ToLower hex)
          else mret (M := Setup) (cad_DeviceID saved))
    (fun r l c' => (exists device, r = Ok device /\
       (cad_DeviceID saved <> ""%string -> device = cad_DeviceID saved) /\
       ((forall w, (sw_randHex sw 32 w).1 <> ""%string) -> device <> ""%string)) /\ l = [] /\ c' = c).
Proof.
  destruct (is_empty (cad_DeviceID saved)) eqn:He.
  - apply is_empty_true in He. intros s <-. exists []. rewrite app_nil_r.
    unfold mbind, StateError_bind, on_setup_world.
    destruct (sw_randHex sw 32 (ss_world s)) as [hex w] eqn:Hhex. cbn. split_and!; [done| |done..].
    eexists. split_and!; [done|by rewrite He|]. intros Hrand. specialize (Hrand (ss_world s)).
    rewrite Hhex in Hrand. by destruct hex.
  - apply runs_ret. split_and!; [|done..]. eexists. split_and!; [done..|].
    apply is_empty_false in He. done.
Qed.

(** The login and the resources. *)
Lemma runs_authenticate config authData resourceData c :
  runs c (authenticateAndFetchResources aw js parse_url sw config authData resourceData)
    (fetched config authData resourceData c).
Proof.
  unfold authenticateAndFetchResources, fetched, logged_in. apply runs_get.
  destruct (can_skip_login c resourceData) eqn:Hskip.
  { destruct resourceData as [resource|]; [|unfold can_skip_login in Hskip; by rewrite andb_false_r in Hskip].
    eapply runs_weaken; [by apply runs_skip_login|]. intros r l c' (Hn & -> & -> & H). cbn.
    split_and!; [done|lia|done|done|tauto..]. }
  apply runs_lift; [intros e _; cbn; split_and!; [done|lia|done|by left]|]. intros saved Hsaved.
  eapply runs_bind; [apply runs_device|by intros ? ? ? ((? & ? & _) & _)|].
  intros device ? ? ((? & [= <-] & Hdevice & Hrand) & -> & ->). apply runs_world. intros connection.
  apply runs_world. intros signKey. apply runs_modify.
  apply runs_lift; [intros e _; cbn; split_and!; [done|lia|done|by left]|]. intros method Hmethod.
  apply runs_new_session.
  eapply runs_bind; [by eapply runs_session, (does_LoginContext aw js parse_url _ (fun _ => True))| |].
  { intros e l c' (-> & events & -> & Hlen & _). cbn [app].
    rewrite login_events_login, announcements_login. split_and!; [done|lia|done|by left]. }
  intros login l c' (-> & events & -> & Hlen & Hlogin). specialize (Hlogin login eq_refl).
  apply runs_modify, runs_notify. eapply runs_bind; [eapply runs_session, does_ClientResourceContext| |].
  { intros e l c' (-> & events' & -> & Hlen' & _). cbn [app].
    destruct (login_log events SetupStageFetchingResources events') as [-> ->].
    rewrite length_app. split_and!; [done|lia|done|by right]. }
  intros resource l c' (-> & events' & -> & _ & Hevents). rewrite (Hevents resource eq_refl).
  apply runs_ret. cbn [app]. rewrite app_nil_r.
  destruct (login_log events SetupStageFetchingResources [Sent ClientResourceRequest]) as [-> ->].
  rewrite length_app. split_and!; [done|simpl; lia|done..|].
  exists saved, method, login, events. split_and!; try done.
  - destruct authData as [text|]; [right; by exists text|left; by injection Hsaved as <-].
  - intros text. by destruct (sw_marshalAuth sw _); intros [= <-].
Qed.

Lemma parseResource_total unmarshal serverAddress resource parsed :
  (exists err, parseResource unmarshal serverAddress resource parsed = Some (Some err, parsed)) \/
  (exists resources parsed', parseResource unmarshal serverAddress resource parsed = Some (None, parsed') /\
     pc_resources parsed' = Some resources /\
     forall id nodes, pc_NodeGroups parsed' !! id = Some nodes ->
       Forall (fun n => node_target n <> None) nodes).
Proof.
  unfold parseResource. destruct (unmarshal resource) as [r|err]; [right|left; by eexists].
  destruct (add_app_addresses_admits (all_addresses (cr_AppInfo r)) no_resources) as (res & -> & _).
  exists res. eexists. split_and!; [done..|]. intros id nodes Hid. apply Forall_forall.
  intros node. by eapply node_groups_targets.
Qed.

Lemma getIP_total dial best major others : exists r, getIP dial best major others = Some r.
Proof.
  unfold getIP. destruct (getIP_node _ _ _); [|by eexists]. destruct (dial _); [|by eexists].
  apply getIP_loop_total. lia.
Qed.

(** [c'] is [c] but for what [set_network] assigns. *)
Definition same_identity (c c' : Client) : Prop :=
  exists parsed best ip tunnel updating, c' = set_network parsed best ip tunnel updating c.

Lemma same_identity_refl c : same_identity c c.
Proof. by exists (c_parsed c), (c_BestNodes c), (c_ip c), (c_tunnel c), (c_updating c); destruct c. Qed.

Lemma same_identity_trans c1 c2 c3 : same_identity c1 c2 -> same_identity c2 c3 -> same_identity c1 c3.
Proof. intros (?&?&?&?&?&->) (?&?&?&?&?&->). by repeat eexists. Qed.

Lemma same_identity_set c parsed best ip tunnel updating :
  same_identity c (set_network parsed best ip tunnel updating c).
Proof. by repeat eexists. Qed.

Lemma runs_resources panic c resource :
  runs c (setup_resources sw panic resource) (fun r l c' =>
    l = [] /\ same_identity c c' /\ c_tunnel c' = c_tunnel c /\ c_updating c' = c_updating c /\
    (r = Ok tt -> is_Some (pc_resources (c_parsed c')))).
Proof.
  unfold setup_resources. apply runs_get.
  destruct (parseResource_total (sw_resource sw) (c_serverAddress c) resource (c_parsed c))
    as [(err & ->)|(res & parsed & -> & Hres & _)].
  - apply runs_fail. split_and!; try done; apply same_identity_refl.
  - intros s <-. exists []. rewrite app_nil_r. simpl. split_and!; try done. apply same_identity_set.
Qed.

Lemma runs_select panic c :
  runs c (selectNodesAndAcquireIP aw sw range_groups range_nodes panic) (fun r l c' =>
    l = [] /\ same_identity c c' /\ c_tunnel c' = c_tunnel c /\ c_updating c' = c_updating c /\
    c_parsed c' = c_parsed c /\
    (r = Ok tt -> is_Some (c_ip c') /\ exists w,
       getBestNodes (sw_ticks sw w) (range_groups (pc_NodeGroups (c_parsed c))) ∅ = Some (c_BestNodes c') /\
       getIP (sw_dialNode sw w) (c_BestNodes c') (pc_MajorNodeGroup (c_parsed c))
         (map snd (range_nodes (c_BestNodes c'))) = Some (Ok (default [] (c_ip c'))))).
Proof.
  unfold selectNodesAndAcquireIP. apply runs_ctx.
  { intros e. split_and!; try done; apply same_identity_refl. }
  apply runs_get, runs_read. intros w.
  destruct (getBestNodes _ _ _) as [best|] eqn:Hbest.
  2:{ apply runs_fail. split_and!; try done; apply same_identity_refl. }
  apply runs_put. destruct (getIP _ _ _ _) as [[ip|err]|] eqn:Hip.
  - intros s Hs. exists []. rewrite app_nil_r. simpl. split_and!; try done; [apply same_identity_set|].
    intros _. split; [by eexists|]. by exists w.
  - apply runs_fail. split_and!; try done; apply same_identity_set.
  - apply runs_fail. split_and!; try done; apply same_identity_set.
Qed.

Lemma runs_establish c :
  runs c establishL3Tunnel (fun r l c' =>
    l = [] /\ same_identity c c' /\ c_updating c' = c_updating c /\ c_BestNodes c' = c_BestNodes c /\
    c_parsed c' = c_parsed c /\ c_ip c' = c_ip c /\
    match r with
    | Ok _ => c_tunnel c' = true /\ is_Some (pc_resources (c_parsed c)) /\ is_Some (c_ip c)
    | Err _ => c_tunnel c' = c_tunnel c
    end).
Proof.
  unfold establishL3Tunnel. apply runs_get. apply runs_lift.
  { intros e _. split_and!; try done; apply same_identity_refl. }
  unfold client_IPResources. intros ? Hres. apply runs_lift.
  { intros e _. split_and!; try done; apply same_identity_refl. }
  unfold client_IP. intros ? Hip. intros s Hs. exists []. rewrite app_nil_r. simpl.
  destruct (pc_resources _); [|done]. destruct (c_ip c); [|done].
  split_and!; try done. apply same_identity_set.
Qed.

(** *** The whole set-up *)

(** What a set-up that succeeds has done. *)
Definition established (config : SetupConfig) (authData : option (list Z)) (resourceData : option string)
    (c : Client) (data : option (list Z)) (login : list AuthEvent) (c' : Client) : Prop :=
  c_tunnel c' = true /\ c_updating c' = bool_decide (su_UpdateBestNodesInterval config > 0) /\
  is_Some (pc_resources (c_parsed c')) /\
  (exists w ip, c_ip c' = Some ip /\
     getBestNodes (sw_ticks sw w) (range_groups (pc_NodeGroups (c_parsed c'))) ∅ = Some (c_BestNodes c') /\
     getIP (sw_dialNode sw w) (c_BestNodes c') (pc_MajorNodeGroup (c_parsed c'))
       (map snd (range_nodes (c_BestNodes c'))) = Some (Ok ip)) /\
  logged_in config authData resourceData c data login c'.

Definition set_up (config : SetupConfig) (authData : option (list Z)) (resourceData : option string)
    (c : Client) (r : result error (option (list Z))) (l : list SetupEvent) (c' : Client) : Prop :=
  (length (omap login_event l) <= 83)%nat /\
  (can_skip_login c resourceData = true -> omap login_event l = []) /\
  match r with
  | Err _ => announcements l `prefix_of` all_announcements (c_BestNodes c') /\
      c_tunnel c' = c_tunnel c /\ c_updating c' = c_updating c
  | Ok data => announcements l = all_announcements (c_BestNodes c') /\
      established config authData resourceData c data (omap login_event l) c'
  end.

Lemma logged_in_identity config authData resourceData address c data login c1 c2 :
  same_identity c1 c2 ->
  logged_in config authData resourceData (set_address address c) data login c1 ->
  logged_in config authData resourceData c data login c2.
Proof. by intros (?&?&?&?&?&->). Qed.

(** The log of a set-up with the log [l] of its login and what follows it. *)
Lemma setup_log l tail :
  announcements l = [Notified SetupStageFetchingResources] ->
  omap login_event tail = [] -> announcements tail = tail ->
  let all := Notified SetupStageDiscoveringAuth :: Notified SetupStageAuthenticating :: l ++ tail in
  omap login_event all = omap login_event l /\
  announcements all = [Notified SetupStageDiscoveringAuth; Notified SetupStageAuthenticating;
                       Notified SetupStageFetchingResources] ++ tail.
Proof.
  intros Hl Ht Ha. csimpl. rewrite omap_app, Ht, app_nil_r, announcements_app, Hl, Ha. done.
Qed.

Lemma runs_SetupContext panic config authData resourceData c :
  runs c (SetupContext aw js parse_url sw range_groups range_nodes panic config authData resourceData)
    (set_up config authData resourceData c).
Proof.
  unfold SetupContext, set_up. apply runs_ctx.
  { intros e. split_and!; try done; [simpl; lia|apply prefix_nil]. }
  apply runs_notify, runs_modify, runs_notify.
  eapply runs_bind; [apply runs_authenticate| |].
  { intros e l c' ((Hb & Hi & Ht & Hu) & Hlen & Hskip & Hl). split_and!; [done..| |done|done].
    destruct Hl as [Hl|Hl]; csimpl; rewrite Hl; [by eexists [_; _; _; _]|by eexists [_; _; _]]. }
  intros [data resource] l c1 ((Hb & Hi & Ht & Hu) & Hlen & Hskip & Hl & _ & Hlogin).
  cbn in Hb, Hi, Ht, Hu.
  eapply runs_bind; [apply runs_resources| |].
  { intros e l' c' (-> & Hid & Ht' & Hu' & _).
    destruct (setup_log l []) as [-> ->]; [done..|]. split_and!; [done|done| |congruence..].
    by eexists [_; _; _]. }
  intros [] l' c2 (-> & Hid2 & Ht2 & Hu2 & Hres). apply runs_notify.
  eapply runs_bind; [apply runs_select| |].
  { intros e l' c' (-> & Hid & Ht' & Hu' & _). cbn [app].
    destruct (setup_log l [Notified SetupStageSelectingNodes]) as [-> ->]; [done..|].
    split_and!; [done|done| |congruence..]. by eexists [_; _]. }
  intros [] l' c3 (-> & Hid3 & Ht3 & Hu3 & Hp3 & Hip). cbn [app].
  apply runs_get, runs_notify_nodes, runs_notify.
  eapply runs_bind; [apply runs_establish| |].
  { intros e l' c' (-> & Hid & Hu' & Hb' & _ & _ & Ht'). cbn [app].
    destruct (setup_log l [Notified SetupStageSelectingNodes; NodesNotified (c_BestNodes c3);
      Notified SetupStageEstablishingTunnel]) as [-> ->]; [done..|].
    split_and!; [done|done| |congruence..]. rewrite Hb'. done. }
  intros [] l' c4 (-> & Hid4 & Hu4 & Hb4 & Hp4 & Hip4 & Ht4 & Hres4 & _). apply runs_modify, runs_ret.
  cbn [app].
  destruct (setup_log l [Notified SetupStageSelectingNodes; NodesNotified (c_BestNodes c3);
    Notified SetupStageEstablishingTunnel]) as [-> ->]; [done..|].
  split_and!; [done|done|by cbn; rewrite Hb4|]. split_and!; [done|done|cbn; congruence| |].
  - cbn. destruct (Hip eq_refl) as [[ip Hc] (w & Hbest & Haddr)]. exists w, ip.
    rewrite Hp4, Hip4, Hp3, Hb4, Hc in *. done.
  - eapply logged_in_identity; [|exact Hlogin].
    repeat (eapply same_identity_trans; [eassumption|]). apply same_identity_set.
Qed.

(** *** Panics *)

Lemma bind_same {A B} (m1 m2 : Setup A) (f1 f2 : A -> Setup B) s :
  m1 s = m2 s -> (forall a s1, m2 s = (Ok a, s1) -> f1 a s1 = f2 a s1) ->
  (m1 ≫= f1) s = (m2 ≫= f2) s.
Proof.
  intros Hm Hf. unfold mbind, StateError_bind. rewrite Hm. destruct (m2 s) as [[a|e] s1] eqn:E; [|done].
  by apply Hf.
Qed.

Definition groups_ok (c : Client) : Prop :=
  forall id nodes, pc_NodeGroups (c_parsed c) !! id = Some nodes ->
    Forall (fun n => node_target n <> None) nodes.

Lemma setup_resources_same p1 p2 resource s :
  setup_resources sw p1 resource s = setup_resources sw p2 resource s /\
  forall s1, setup_resources sw p2 resource s = (Ok tt, s1) -> groups_ok (ss_client s1).
Proof.
  unfold setup_resources, mbind, StateError_bind, get_client.
  destruct (parseResource_total (sw_resource sw) (c_serverAddress (ss_client s)) resource (c_parsed (ss_client s)))
    as [(err & ->)|(res & parsed & -> & _ & Hg)]; [done|].
  split; [done|]. by intros s1 [= <-].
Qed.

Lemma select_same p1 p2 s :
  (forall groups, range_groups groups ≡ₚ map_to_list groups) -> groups_ok (ss_client s) ->
  selectNodesAndAcquireIP aw sw range_groups range_nodes p1 s
  = selectNodesAndAcquireIP aw sw range_groups range_nodes p2 s.
Proof.
  intros Hrange Hg. apply bind_same; [done|]. unfold setup_ctx, check. intros [] s1.
  destruct (aw_ctxErr _ _); [done|]. intros [= <-].
  unfold mbind, StateError_bind, get_client, read_world.
  destruct (getBestNodes_total (sw_ticks sw (ss_world s)) (range_groups (pc_NodeGroups (c_parsed (ss_client s)))) ∅)
    as [best ->].
  { rewrite Hrange. apply Forall_forall. intros [id nodes] Hin%elem_of_map_to_list. by eapply Hg. }
  cbn. destruct (getIP_total (sw_dialNode sw (ss_world s)) best
    (pc_MajorNodeGroup (c_parsed (ss_client s))) (map snd (range_nodes best))) as [r Hr].
  by rewrite Hr.
Qed.

Lemma SetupContext_same p1 p2 config authData resourceData s :
  (forall groups, range_groups groups ≡ₚ map_to_list groups) ->
  SetupContext aw js parse_url sw range_groups range_nodes p1 config authData resourceData s
  = SetupContext aw js parse_url sw range_groups range_nodes p2 config authData resourceData s.
Proof.
  intros Hrange. unfold SetupContext. do 5 (apply bind_same; [done|intros ? ? _]). destruct a3 as [data resource].
  apply bind_same; [by apply setup_resources_same|]. intros [] s5 Hs5.
  apply (setup_resources_same p1 p2) in Hs5. apply bind_same; [done|]. intros ? s6 Hs6.
  apply bind_same; [|done]. apply select_same; [done|]. unfold notify, log_setup in Hs6. by simplify_eq.
Qed.
End SetupSpec.

(** C13: The set-up of the client. Whatever the server, the nodes and the user answer, a set-up
    announces its five stages and the nodes it chose in their order, and stops at a prefix of
    them when it fails, which leaves the tunnel as it was; it sends and asks at most 83 times
    during the login, and nothing when the session is reused; and it never panics: its result
    does not depend on what a panic would be. A set-up that succeeds has resources, a node for
    each group that has nodes, the address that such a node gave it, a tunnel, the session of
    the login, and returns the encoding of the cookies and the device of this session. The node
    of a group is its only one, or the nearest one when the addresses of the group all have a
    numeric port and no reachable node answers within less than a millisecond. *)
Theorem setup_in_order {W : Type} (aw : AuthWorld W) (js : AuthJSON)
    (parse_url : string -> result error URL) (sw : SetupWorld W)
    (range_groups : gmap string (list string) -> list (string * list string))
    (range_nodes : gmap string string -> list (string * string)) (panic : error)
    (config : SetupConfig) (authData : option (list Z)) (resourceData : option string)
    (s s' : SetupState W) (r : result error (option (list Z)))
    (Hrange : forall groups, range_groups groups ≡ₚ map_to_list groups)
    (Hrun : SetupContext aw js parse_url sw range_groups range_nodes panic config authData resourceData s
            = (r, s')) :
  let c := ss_client s in
  let c' := ss_client s' in
  (forall panic', SetupContext aw js parse_url sw range_groups range_nodes panic' config authData resourceData s
                  = (r, s')) /\
  exists new, ss_log s' = ss_log s ++ new /\
    (length (omap login_event new) <= 83)%nat /\
    (can_skip_login c resourceData = true -> omap login_event new = []) /\
    match r with
    | Err _ => announcements new `prefix_of` all_announcements (c_BestNodes c') /\
        c_tunnel c' = c_tunnel c /\ c_updating c' = c_updating c
    | Ok data => announcements new = all_announcements (c_BestNodes c') /\
        established sw range_groups range_nodes config authData resourceData c data (omap login_event new) c' /\
        exists w, forall id nodes, pc_NodeGroups (c_parsed c') !! id = Some nodes ->
          nearest_chosen (sw_ticks sw w) nodes (c_BestNodes c' !! id)
    end.
Proof.
  split; [intros panic'; rewrite <-Hrun; by apply SetupContext_same|].
  destruct (runs_SetupContext aw js parse_url sw range_groups range_nodes panic config authData resourceData
    (ss_client s) s eq_refl) as (new & Hlog & Hlen & Hskip & Hset). rewrite Hrun in *. exists new.
  split_and!; [done..|]. cbn [fst snd] in Hset. destruct r as [data|e]; [|exact Hset].
  destruct Hset as [Hann Hest]. split; [exact Hann|]. split; [exact Hest|].
  destruct Hest as (_ & _ & _ & (w & ip & _ & Hbest & _) & _). exists w. intros id nodes Hid.
  eapply getBestNodes_chosen; [| |apply lookup_empty|exact Hbest].
  - rewrite Hrange. apply NoDup_fst_map_to_list.
  - rewrite Hrange. by apply elem_of_map_to_list.
Qed.

(** The device of a client survives restarts. Where decoding what is encoded gives it back, a
    set-up that logs in returns data with which a later set-up has the same device identifier,
    whether that set-up logs in anew from the data or reuses the session, which it then keeps
    without asking the server to log in. *)
Theorem device_survives_restart {W : Type} (aw : AuthWorld W) (js : AuthJSON)
    (parse_url : string -> result error URL) (sw : SetupWorld W)
    (range_groups : gmap string (list string) -> list (string * list string))
    (range_nodes : gmap string string -> list (string * string)) (panic : error)
    (config config2 : SetupConfig) (authData out : option (list Z)) (data : list Z)
    (resourceData resourceData2 : option string) (s s1 s2 s3 : SetupState W)
    (Hcodec : forall d text, sw_marshalAuth sw d = Ok text -> sw_unmarshalAuth sw text = Ok d)
    (Hrand : forall w, (sw_randHex sw 32 w).1 <> ""%string)
    (Hlogin : can_skip_login (ss_client s) resourceData = false)
    (Hfirst : SetupContext aw js parse_url sw range_groups range_nodes panic config authData resourceData s
              = (Ok (Some data), s1))
    (Hsecond : SetupContext aw js parse_url sw range_groups range_nodes panic config2 (Some data)
                 resourceData2 s2 = (Ok out, s3)) :
  (can_skip_login (ss_client s2) resourceData2 = false ->
     c_DeviceID (ss_client s3) = c_DeviceID (ss_client s1)) /\
  (forall username signKey, is_Some resourceData2 -> c_SID (ss_client s1) <> ""%string ->
     ss_client s2 = newClient username (c_SID (ss_client s1)) (c_DeviceID (ss_client s1)) signKey ->
     c_DeviceID (ss_client s3) = c_DeviceID (ss_client s1) /\ c_SID (ss_client s3) = c_SID (ss_client s1) /\
     c_ResumeStateReused (ss_client s3) = true /\ out = Some data /\
     exists new, ss_log s3 = ss_log s2 ++ new /\ omap login_event new = []).
Proof.
  destruct (runs_SetupContext aw js parse_url sw range_groups range_nodes panic config authData resourceData
    _ s eq_refl) as (new & _ & _ & _ & H1). rewrite Hfirst in H1. cbn in H1.
  destruct H1 as (_ & _ & _ & _ & _ & H1). unfold logged_in in H1. rewrite Hlogin in H1.
  destruct H1 as (_ & _ & r & _ & _ & _ & _ & _ & _ & _ & Hdev & Hdata).
  specialize (Hdev Hrand). specialize (Hdata data eq_refl). apply Hcodec in Hdata.
  destruct (runs_SetupContext aw js parse_url sw range_groups range_nodes panic config2 (Some data)
    resourceData2 _ s2 eq_refl) as (new2 & Hlog & _ & Hskip & H2). rewrite Hsecond in H2, Hlog. cbn in H2, Hlog.
  destruct H2 as (_ & _ & _ & _ & _ & H2). unfold logged_in in H2. split.
  - intros Hno. rewrite Hno in H2.
    destruct H2 as (saved & _ & _ & _ & [[? _]|(text & [= <-] & Hsaved)] & _ & _ & _ & _ & Hsame & _); [done|].
    rewrite Hdata in Hsaved. injection Hsaved as <-. by apply Hsame.
  - intros username signKey [resource ->] Hsid Hc.
    assert (can_skip_login (ss_client s2) (Some resource) = true) as Hyes.
    { rewrite Hc. unfold can_skip_login. simpl. apply is_empty_false in Hsid, Hdev. by rewrite Hsid, Hdev. }
    rewrite Hyes in H2. destruct H2 as (-> & -> & -> & ->). rewrite Hc. split_and!; [done..|].
    exists new2. by auto.
Qed.

(** ** A set-up *)

(** The data of one device, under a code that knows only them. *)
Definition demo_saved : ClientAuthData := {|
  cad_Cookies := [{| cookie_Host := "vpn.example"; cookie_Scheme := "https"; cookie_Name := "sid";
                     cookie_Value := "S" |}];
  cad_DeviceID := "aaaaaaaaaaaaaaaaaaaaaaaaaaaaaaaa";
|}.

(** A server whose node gives the address 10.0.0.9 after an answer that says OK. *)
Definition demo_setup : SetupWorld unit := {|
  sw_randHex n w := (String.concat "" (repeat "A"%string n), w);
  sw_connectionID device w := (device +:+ "-1", w);
  sw_ticks _ := sample_ticks;
  sw_dialNode _ node := if bool_decide (node = "vpn.example:441"%string)
                        then Ok (protocol_frame (string_bytes "OK") ++ [5; 0; 0; 1; 10; 0; 0; 9])
                        else Err (EText "unreachable");
  sw_unmarshalAuth text := if bool_decide (text = [1]) then Ok demo_saved else Err (EText "syntax");
  sw_marshalAuth d := if bool_decide (d = demo_saved) then Ok [1] else Err (EText "unsupported");
  sw_resource _ := Ok demo_resource;
|}.

Lemma demo_codec d text :
  sw_marshalAuth demo_setup d = Ok text -> sw_unmarshalAuth demo_setup text = Ok d.
Proof.
  unfold demo_setup, sw_marshalAuth, sw_unmarshalAuth. destruct (bool_decide (d = demo_saved)) eqn:Hd; [|done].
  apply bool_decide_eq_true in Hd. subst d. intros H. injection H as <-. reflexivity.
Qed.

Definition demo_config : SetupConfig := {|
  su_ServerAddress := "vpn.example"; su_ServerPort := 443; su_Username := "u"; su_Password := "p";
  su_Phone := ""; su_LoginDomain := "local"; su_AuthType := "auth/psw"; su_CASTicket := "";
  su_OAuth2Code := ""; su_UpdateBestNodesInterval := 60;
|}.

Definition fresh_state (c : Client) : SetupState unit := Build_SetupState c newAuthSession tt [].

#[local] Abbreviation run_demo authData resourceData c :=
  (SetupContext demo_auth demo_json (fun _ => Err (EText "no URL")) demo_setup map_to_list map_to_list
     (EText "panic") demo_config authData resourceData (fresh_state c)).

(** The first set-up logs in, and a second one is given its data. *)
Lemma demo_first_runs :
  exists s1, run_demo None None (newClient "" "" "" "") = (Ok (Some [1]), s1) /\
    announcements (ss_log s1) = all_announcements {["group" := "vpn.example:441"]}%string /\
    c_tunnel (ss_client s1) = true /\ c_ip (ss_client s1) = Some (IPv4 10 0 0 9) /\
    c_SID (ss_client s1) = "S"%string.
Proof. eexists. vm_compute. split_and!; reflexivity. Qed.

Lemma demo_second_runs : exists out s3, run_demo (Some [1]) None (newClient "" "" "" "") = (Ok out, s3).
Proof. eexists _, _. vm_compute. reflexivity. Qed.

Lemma setup_in_order_witness :
  exists s1, run_demo None None (newClient "" "" "" "") = (Ok (Some [1]), s1) /\
    c_ip (ss_client s1) = Some (IPv4 10 0 0 9) /\
    exists new, ss_log s1 = new /\ (length (omap login_event new) <= 83)%nat /\
      announcements new = all_announcements (c_BestNodes (ss_client s1)).
Proof.
  destruct demo_first_runs as (s1 & E & _ & _ & Hip & _). exists s1. split; [exact E|]. split; [exact Hip|].
  destruct (setup_in_order demo_auth demo_json (fun _ => Err (EText "no URL")) demo_setup map_to_list map_to_list
    (EText "panic") demo_config None None _ s1 (Ok (Some [1])) (fun _ => reflexivity _) E)
    as (_ & new & Hlog & Hlen & _ & Hann & _).
  exists new. split; [exact Hlog|]. split; [exact Hlen|exact Hann].
Defined.

Lemma device_survives_restart_witness :
  exists s1 out s3,
    run_demo None None (newClient "" "" "" "") = (Ok (Some [1]), s1) /\
    run_demo (Some [1]) None (newClient "" "" "" "") = (Ok out, s3) /\
    c_DeviceID (ss_client s3) = c_DeviceID (ss_client s1).
Proof.
  destruct demo_first_runs as (s1 & E1 & _). destruct demo_second_runs as (out & s3 & E3).
  exists s1, out, s3. split; [exact E1|]. split; [exact E3|]. 
  refine (proj1 (device_survives_restart demo_auth demo_json (fun _ => Err (EText "no URL")) demo_setup
    map_to_list map_to_list (EText "panic") demo_config demo_config None out [1] None None
    (fresh_state (newClient "" "" "" "")) s1 (fresh_state (newClient "" "" "" "")) s3 _ _ _ E1 E3) _).
  - apply demo_codec.
  - intros w. discriminate.
  - reflexivity.
  - reflexivity.
Defined.
