(* ===== verification/ClientLife.v ===== *)
(** The life of an aTrust client (client/atrust/client.go) around its tunnel (l3tunnel.go,
    l3conn.go): the lifetime context, [Close] with its goroutines, the health error, and the
    packets that the tunnel's connections hand over to its readers. *)

From S2P Require Import Prelude Core GoNet Packet L3Tunnel.

(** ** The health of a client *)

Record ClientHealth : Type := { ch_healthErr : option error; ch_done : bool }.

Definition client_health : ClientHealth := {| ch_healthErr := None; ch_done := false |}.

Definition client_reportHealthError (err : option error) (h : ClientHealth) : ClientHealth :=
  match err with
  | None => h
  | Some e => if ch_done h then h else {| ch_healthErr := Some e; ch_done := true |}
  end.

(** ** [Close] and the tunnel *)

(** How far the one run of [closeOnce.Do] is; [close_has] holds the tunnel that it read. *)
Inductive close_phase : Type := close_open | close_begun | close_has (tunnel : bool) | close_over.

(** [cli_built] is a tunnel of [NewL3Tunnel] that [establishL3Tunnel] has not stored yet,
    [cli_setup] tells whether it has been called: a client is set up once. *)
Record ClientLife : Type := {
  cli_cancelled : bool;
  cli_close : close_phase;
  cli_setup : bool;
  cli_built : option L3TunnelState;
  cli_tunnel : option L3TunnelState;
}.

Definition NewClientContext_life : ClientLife :=
  {| cli_cancelled := false; cli_close := close_open; cli_setup := false; cli_built := None;
     cli_tunnel := None |}.

(** The lifetime context ends, by [lifecycleCancel] or by its parent: so do those derived
    from it. *)
Definition lifecycle_cancel (c : ClientLife) : ClientLife :=
  {| cli_cancelled := true; cli_close := cli_close c; cli_setup := cli_setup c;
     cli_built := parent_cancel ctx_Canceled <$> cli_built c;
     cli_tunnel := parent_cancel ctx_Canceled <$> cli_tunnel c |}.

(** [establishL3Tunnel] up to the lock: the context of the new tunnel derives from the
    lifetime context. *)
Definition build_tunnel (c : ClientLife) : ClientLife :=
  {| cli_cancelled := cli_cancelled c; cli_close := cli_close c; cli_setup := true;
     cli_built := Some (if cli_cancelled c then parent_cancel ctx_Canceled NewL3Tunnel_state
                        else NewL3Tunnel_state);
     cli_tunnel := cli_tunnel c |}.

(** The critical section of [establishL3Tunnel]. *)
Definition store_tunnel (t : L3TunnelState) (c : ClientLife) : ClientLife :=
  {| cli_cancelled := cli_cancelled c; cli_close := cli_close c; cli_setup := cli_setup c;
     cli_built := None; cli_tunnel := Some t |}.

Definition set_close (p : close_phase) (c : ClientLife) : ClientLife :=
  {| cli_cancelled := cli_cancelled c; cli_close := p; cli_setup := cli_setup c;
     cli_built := cli_built c; cli_tunnel := cli_tunnel c |}.

Definition set_tunnel (t : L3TunnelState) (c : ClientLife) : ClientLife :=
  {| cli_cancelled := cli_cancelled c; cli_close := cli_close c; cli_setup := cli_setup c;
     cli_built := cli_built c; cli_tunnel := Some t |}.

(** [Close] once, up to [l3TunnelMu.Lock()]. *)
Definition close_begin (c : ClientLife) : ClientLife :=
  match cli_close c with
  | close_open => set_close close_begun (lifecycle_cancel c)
  | _ => c
  end.

(** The critical section of [Close]. *)
Definition close_read (c : ClientLife) : ClientLife :=
  match cli_close c with
  | close_begun => set_close (close_has (match cli_tunnel c with Some _ => true | None => false end)) c
  | _ => c
  end.

(** [tunnel.Close()], if there is a tunnel, up to the end of the lock of the table. *)
Definition close_tunnel (c : ClientLife) : ClientLife :=
  match cli_close c with
  | close_has true =>
      set_close close_over
        match cli_tunnel c with
        | Some t => set_tunnel (terminate (Some io_EOF) t) c
        | None => c
        end
  | close_has false => set_close close_over c
  | _ => c
  end.

(** The interleavings of the set-up, of [Close] (called, or run by [context.AfterFunc] when the
    lifetime context ends), and of the goroutines that use the stored tunnel. *)
Inductive client_step : ClientLife -> ClientLife -> Prop :=
| client_cancel c : client_step c (lifecycle_cancel c)
| client_build c : cli_setup c = false -> client_step c (build_tunnel c)
| client_store t c : cli_built c = Some t -> client_step c (store_tunnel t c)
| client_close_begin c : client_step c (close_begin c)
| client_close_read c : client_step c (close_read c)
| client_close_tunnel c : client_step c (close_tunnel c)
| client_use t t' c : cli_tunnel c = Some t -> lt_step t t' -> client_step c (set_tunnel t' c).

(** ** From the connections to the readers *)

(** [dataChan] with the goroutines that fill it: what each connection has still to give, the
    packet that its [forwardFromConn] holds, and what [Read] has taken so far. *)
Record ForwardState : Type := {
  fw_conns : gmap nat (list (list Z));
  fw_hand : gmap nat (list Z);
  fw_chan : list (nat * list Z);
  fw_read : list (nat * list Z);
  fw_cancelled : bool;
}.

Definition dataChan_capacity : nat := 4096.

Definition forward_start (conns : gmap nat (list (list Z))) : ForwardState :=
  {| fw_conns := conns; fw_hand := ∅; fw_chan := []; fw_read := []; fw_cancelled := false |}.

(** [conn.ReadPacket()]. *)
Definition forward_take (p : nat) (pkt : list Z) (rest : list (list Z)) (s : ForwardState) : ForwardState :=
  {| fw_conns := <[p := rest]> (fw_conns s); fw_hand := <[p := pkt]> (fw_hand s);
     fw_chan := fw_chan s; fw_read := fw_read s; fw_cancelled := fw_cancelled s |}.

(** [t.dataChan <- pkt]. *)
Definition forward_put (p : nat) (pkt : list Z) (s : ForwardState) : ForwardState :=
  {| fw_conns := fw_conns s; fw_hand := delete p (fw_hand s);
     fw_chan := fw_chan s ++ [(p, pkt)]; fw_read := fw_read s; fw_cancelled := fw_cancelled s |}.

(** [case <-t.ctx.Done(): return]: the goroutine ends with the packet in its hand. *)
Definition forward_quit (p : nat) (s : ForwardState) : ForwardState :=
  {| fw_conns := delete p (fw_conns s); fw_hand := fw_hand s; fw_chan := fw_chan s;
     fw_read := fw_read s; fw_cancelled := fw_cancelled s |}.

(** [L3Conn.Read] takes a packet. *)
Definition l3conn_take (e : nat * list Z) (rest : list (nat * list Z)) (s : ForwardState) : ForwardState :=
  {| fw_conns := fw_conns s; fw_hand := fw_hand s; fw_chan := rest; fw_read := fw_read s ++ [e];
     fw_cancelled := fw_cancelled s |}.

Definition forward_cancel (s : ForwardState) : ForwardState :=
  {| fw_conns := fw_conns s; fw_hand := fw_hand s; fw_chan := fw_chan s; fw_read := fw_read s;
     fw_cancelled := true |}.

Inductive forward_step : ForwardState -> ForwardState -> Prop :=
| fw_take p pkt rest s :
    fw_conns s !! p = Some (pkt :: rest) -> fw_hand s !! p = None -> forward_step s (forward_take p pkt rest s)
| fw_put p pkt s :
    fw_hand s !! p = Some pkt -> is_Some (fw_conns s !! p) ->
    (length (fw_chan s) < dataChan_capacity)%nat -> forward_step s (forward_put p pkt s)
| fw_quit p s : fw_cancelled s = true -> is_Some (fw_hand s !! p) -> forward_step s (forward_quit p s)
| fw_reader e rest s : fw_chan s = e :: rest -> forward_step s (l3conn_take e rest s)
| fw_cancel s : forward_step s (forward_cancel s).

(** The bytes that [Read] gives a reader with a buffer of [size] bytes. *)
Definition l3conn_copy (size : nat) (pkt : list Z) : list Z := take size pkt.

(** [L3Conn.Write]: the number of bytes, with the packet given to the tunnel unless its context
    has ended. *)
Definition l3conn_Write {S} (cause : option error) (processIPV4 : list Z -> S -> option error * S)
    (p : list Z) (s : S) : result error Z * S :=
  match cause with
  | Some e => (Err e, s)
  | None =>
      match processIPV4 p s with
      | (Some e, s) => (Err e, s)
      | (None, s) => (Ok (len p), s)
      end
  end.

(** ** Theorems *)

(** A tunnel that can have no connection any more. *)
Definition tunnel_dead (t : L3TunnelState) : Prop := is_Some (lt_cause t) /\ lt_conns t = ∅.

Lemma lt_step_dead t t' : lt_step t t' -> tunnel_dead t -> tunnel_dead t'.
Proof.
  intros Hs [[e He] Hc]. destruct Hs; simpl.
  - split; [by eexists|done].
  - unfold getConn_register. rewrite He. split; simpl; [by eexists|done].
  - unfold evict_to_close, evictConn. case_bool_decide; [|by split; [eexists|]].
    split; simpl; [by eexists|]. by rewrite Hc, delete_empty.
  - unfold evictConn. case_bool_decide; [|by split; [eexists|]].
    split; simpl; [by eexists|]. by rewrite Hc, delete_empty.
  - split; simpl; [by eexists|done].
  - split; simpl; [by eexists|done].
  - unfold terminate. destruct (lt_closeOnce t); split; simpl; rewrite ?He; by eauto.
Qed.

Lemma lt_step_cause t t' : lt_step t t' -> is_Some (lt_cause t) -> is_Some (lt_cause t').
Proof.
  intros Hs [e He]. destruct Hs; simpl; try by eexists.
  - unfold getConn_register. rewrite He. by eexists.
  - unfold evict_to_close, evictConn. case_bool_decide; by eexists.
  - unfold evictConn. case_bool_decide; by eexists.
  - unfold terminate. destruct (lt_closeOnce t); simpl; rewrite ?He; by eexists.
Qed.

Lemma new_tunnel_inv : lt_inv NewL3Tunnel_state.
Proof. split; simpl; [set_solver|done|by intros ? [? ?]]. Qed.

Lemma cancel_inv err t : lt_inv t -> lt_inv (parent_cancel err t).
Proof. intros Ht. by eapply lt_step_inv, lt_cancel. Qed.

Definition close_done (p : close_phase) : bool :=
  match p with close_has false | close_over => true | _ => false end.

Record client_inv (c : ClientLife) : Prop := {
  cli_cancels : cli_close c <> close_open -> cli_cancelled c = true;
  cli_builds : forall t, cli_built c = Some t ->
    cli_setup c = true /\ cli_tunnel c = None /\ lt_inv t /\ lt_conns t = ∅ /\
    (cli_cancelled c = true -> is_Some (lt_cause t));
  cli_stores : forall t, cli_tunnel c = Some t ->
    cli_setup c = true /\ cli_built c = None /\ lt_inv t /\
    (cli_cancelled c = true -> is_Some (lt_cause t)) /\
    (close_done (cli_close c) = true -> tunnel_dead t);
  cli_has : cli_close c = close_has true -> is_Some (cli_tunnel c)
}.

(** What ends a context keeps the invariant. *)
Lemma lifecycle_cancel_inv c : client_inv c -> client_inv (lifecycle_cancel c).
Proof.
  intros [Hc Hb Ht Hh]. split; simpl; [done| | |by destruct (cli_tunnel c)].
  - intros t (t0 & H0 & ->)%fmap_Some. destruct (Hb t0 H0) as (? & -> & ? & ? & _).
    split_and!; [done|done|by apply cancel_inv|done|by eexists].
  - intros t (t0 & H0 & ->)%fmap_Some. destruct (Ht t0 H0) as (? & -> & ? & _ & Hd).
    split_and!; [done|done|by apply cancel_inv|by eexists|].
    intros Hdone. destruct (Hd Hdone). split; [by eexists|done].
Qed.

Lemma client_step_inv c c' : client_inv c -> client_step c c' -> client_inv c'.
Proof.
  intros Hinv Hs. pose proof Hinv as [Hc Hb Ht Hh]. destruct Hs as [c|c Hno|t c Hbt|c|c|c|t t' c Htt Hlt].
  - by apply lifecycle_cancel_inv.
  - assert (cli_tunnel c = None) as Hnone.
    { destruct (cli_tunnel c) as [t|] eqn:E; [|done]. destruct (Ht t eq_refl) as [? _]. congruence. }
    split; simpl; [done| |by rewrite Hnone|done]. intros t [= <-].
    destruct (cli_cancelled c); split_and!; try done; try apply cancel_inv; try apply new_tunnel_inv.
  - destruct (Hb t Hbt) as (Hset & Hnone & Hlt & Hempty & Hcause).
    split; simpl; [done|done| |by eexists]. intros t' [= <-]. split_and!; [done..|].
    intros Hdone. split; [|done]. apply Hcause, Hc. by destruct (cli_close c).
  - unfold close_begin. destruct (cli_close c) eqn:E; [|done..].
    destruct (lifecycle_cancel_inv c Hinv) as [_ Hb' Ht' _]. split; simpl in *; [done|done| |done].
    intros t Hct. destruct (Ht' t Hct) as (? & ? & ? & ? & _). by split_and!.
  - unfold close_read. destruct (cli_close c) eqn:E; [done| |done..].
    split; simpl; [by auto|done| |by destruct (cli_tunnel c)].
    intros t Htun. rewrite Htun. destruct (Ht t Htun) as (? & ? & ? & ? & _). by split_and!.
  - unfold close_tunnel. destruct (cli_close c) as [| |[]|] eqn:E; [done|done| | |done].
    + destruct (Hh eq_refl) as [t Htun]. rewrite Htun. destruct (Ht t Htun) as (? & ? & Hlt & Hcause & _).
      assert (lt_inv (terminate (Some io_EOF) t)) as Hterm by (by eapply lt_step_inv, lt_terminate).
      split; simpl; [by auto| | |done].
      * intros t0 Ht0. destruct (Hb t0 Ht0) as (? & ? & _). congruence.
      * intros t0 [= <-]. split_and!; [done|done|done| |].
        -- intros _. eapply lt_step_cause; [apply lt_terminate|]. by apply Hcause, Hc.
        -- intros _. destruct (lti_done _ Hterm) as [? ?]; [|by split].
           unfold terminate. by destruct (lt_closeOnce t) eqn:?.
    + split; simpl; [by auto|done| |done]. intros t Htun. by destruct (Ht t Htun) as (? & ? & ? & ? & ?).
  - destruct (Ht t Htt) as (? & Hnone & Hi & Hcause & Hd). split; simpl; [done|by rewrite Hnone| |by eexists].
    intros t0 [= <-]. split_and!; [done|done|by eapply lt_step_inv| |].
    + intros Hcan. eapply lt_step_cause; [done|by apply Hcause].
    + intros Hdone. eapply lt_step_dead; [done|by apply Hd].
Qed.

(** C15: A closed client keeps no connection. In every interleaving of the set-up, of [Close], of the
    end of the lifetime context and of the goroutines of the tunnel, an open connection is in
    the hands of a dial in progress, in the table, or about to be closed. Once the lifetime
    context has ended no [getConn] starts or registers a connection; once [Close] is through,
    even if the set-up stores its tunnel only afterwards, the table is empty and stays so, and
    when the dials and closes in progress are over no connection is open. *)
Theorem client_close_leaves_nothing (c : ClientLife)
    (Hr : rtc client_step NewClientContext_life c) :
  (cli_close c <> close_open -> cli_cancelled c = true) /\
  forall t, cli_tunnel c = Some t \/ cli_built c = Some t ->
    (forall p, p ∈ lt_open t ->
       (exists g, lt_dialed t !! p = Some g) \/ (exists g, lt_conns t !! g = Some p) \/ p ∈ lt_toClose t) /\
    (cli_cancelled c = true ->
       (forall nodes major group, exists e, getConn_begin nodes major group t = GetErr e) /\
       (forall p group, exists e, (getConn_register p group t).1 = Err e /\
          p ∉ lt_open (getConn_register p group t).2)) /\
    (cli_close c = close_over ->
       lt_conns t = ∅ /\ (lt_dialed t = ∅ -> lt_toClose t = ∅ -> lt_open t = ∅)).
Proof.
  assert (client_inv c) as [Hc Hb Ht _].
  { apply (rtc_closed client_step client_inv NewClientContext_life c); [apply client_step_inv|by split|done]. }
  split; [done|]. intros t Hin.
  assert (lt_inv t /\ (cli_cancelled c = true -> is_Some (lt_cause t)) /\
    (cli_close c = close_over -> lt_conns t = ∅)) as (Hi & Hcause & Hempty).
  { destruct Hin as [Hin|Hin].
    - destruct (Ht t Hin) as (_ & _ & ? & ? & Hdead). split_and!; [done|done|]. intros Ho. apply Hdead. by rewrite Ho.
    - destruct (Hb t Hin) as (_ & _ & ? & ? & ?). by split_and!. }
  split_and!; [apply Hi| |].
  - intros Hcan. destruct (Hcause Hcan) as [e He]. split.
    + intros. unfold getConn_begin. rewrite He. by eexists.
    + intros. unfold getConn_register. rewrite He. exists e. split; [done|]. simpl. set_solver.
  - intros Hover. specialize (Hempty Hover). split; [done|]. intros Hd Hclose.
    apply elem_of_equiv_empty_L. intros p Hp.
    destruct (lti_open t Hi p Hp) as [[g Hg]|[[g Hg]|?]]; [by rewrite Hd in Hg|by rewrite Hempty in Hg|set_solver].
Qed.

(** *** Packets *)

Definition packets_of (p : nat) (l : list (nat * list Z)) : list (list Z) :=
  omap (fun e => if bool_decide (e.1 = p) then Some e.2 else None) l.

Definition in_hand (p : nat) (s : ForwardState) : list (list Z) :=
  match fw_hand s !! p with Some pkt => [pkt] | None => [] end.

Lemma packets_of_app p l1 l2 : packets_of p (l1 ++ l2) = packets_of p l1 ++ packets_of p l2.
Proof. apply omap_app. Qed.

Lemma packets_of_one p q pkt : packets_of p [(q, pkt)] = if bool_decide (q = p) then [pkt] else [].
Proof. unfold packets_of. csimpl. by case_bool_decide. Qed.

(** What is known of connection [p] that gives [packets]. *)
Definition forwarded (p : nat) (packets : option (list (list Z))) (s : ForwardState) : Prop :=
  exists rest, packets_of p (fw_read s ++ fw_chan s) ++ in_hand p s ++ rest = default [] packets /\
    (fw_conns s !! p = Some rest \/
     fw_conns s !! p = None /\ (fw_cancelled s = true \/ packets = None)).

Lemma forward_step_keeps p packets s s' :
  forward_step s s' -> forwarded p packets s -> forwarded p packets s'.
Proof.
  intros Hs (rest & Heq & Hrest).
  destruct Hs as [q pkt l s Hq Hh|q pkt s Hh Hc Hcap|q s Hcan Hh|[q pkt] l s Hl|s]; unfold forwarded, in_hand in *; simpl in *.
  - destruct (decide (q = p)) as [->|Hne].
    + destruct Hrest as [Hrest|[Hrest _]]; rewrite Hrest in Hq; [|done]. injection Hq as ->.
      exists l. rewrite !lookup_insert_eq. rewrite Hh in Heq. by auto.
    + exists rest. by rewrite !lookup_insert_ne by done.
  - exists rest. split; [|done]. rewrite <-Heq. rewrite !packets_of_app, packets_of_one.
    case_bool_decide as Hqp.
    + subst q. rewrite lookup_delete_eq, Hh. by rewrite <-!app_assoc.
    + rewrite lookup_delete_ne by done. by rewrite app_nil_r.
  - exists rest. split; [done|]. destruct (decide (q = p)) as [->|Hne].
    + rewrite lookup_delete_eq. auto.
    + rewrite lookup_delete_ne by done. done.
  - exists rest. split; [|done]. rewrite Hl in Heq. by rewrite <-app_assoc.
  - exists rest. split; [done|]. destruct Hrest as [?|[? _]]; auto.
Qed.

(** Packets reach the readers in order. Whatever the interleaving of connections and readers,
    what has been read and what waits in the channel of a connection's packets is a prefix of
    what the connection gave, in its order; until the tunnel is cancelled the only packets that
    are missing are the one its goroutine holds and those not received yet, so none is lost or
    doubled; the channel never holds more than its capacity, and nothing comes from elsewhere. *)
Theorem forwarding_in_order (conns : gmap nat (list (list Z))) (s : ForwardState)
    (Hr : rtc forward_step (forward_start conns) s) :
  (length (fw_chan s) <= dataChan_capacity)%nat /\
  forall p,
    packets_of p (fw_read s ++ fw_chan s) `prefix_of` default [] (conns !! p) /\
    (fw_cancelled s = false -> forall packets, conns !! p = Some packets ->
       exists rest, fw_conns s !! p = Some rest /\
         packets_of p (fw_read s) ++ packets_of p (fw_chan s) ++ in_hand p s ++ rest = packets).
Proof.
  split.
  - apply (rtc_closed forward_step (fun s => (length (fw_chan s) <= dataChan_capacity)%nat) (forward_start conns) s);
      [|apply Nat.le_0_l|done].
    intros s1 s2 Hl Hs. destruct Hs as [| | |e l s1 He|]; simpl; [done| |done| |done].
    + rewrite length_app, Nat.add_1_r. by apply Nat.le_succ_l.
    + rewrite He in Hl. simpl in Hl. lia.
  - intros p. assert (forwarded p (conns !! p) s) as (rest & Heq & Hrest).
    { apply (rtc_closed forward_step (forwarded p (conns !! p)) (forward_start conns) s); [|..|done].
      - intros s1 s2 ? ?. by eapply forward_step_keeps.
      - exists (default [] (conns !! p)). split; [by unfold in_hand; simpl; rewrite lookup_empty|].
        simpl. destruct (conns !! p); auto. }
    split; [by eexists; rewrite <-Heq|].
    intros Hno packets Hp. rewrite Hp in *. destruct Hrest as [?|[_ [?|?]]]; [|congruence|done].
    exists rest. split; [done|]. by rewrite packets_of_app, <-!app_assoc in Heq.
Qed.

(** ** Witnesses *)

(** The client is closed while its set-up has built the tunnel and not stored it yet. *)
Lemma client_close_leaves_nothing_witness :
  exists c t, cli_tunnel c = Some t /\ cli_close c = close_over /\ lt_closeOnce t = false /\
    exists e, getConn_begin {["g" := "node:443"]}%string "g" "g" t = GetErr e.
Proof.
  set (c := store_tunnel (parent_cancel ctx_Canceled NewL3Tunnel_state)
              (close_tunnel (close_read (close_begin (build_tunnel NewClientContext_life))))).
  exists c. eexists. split; [reflexivity|]. split; [reflexivity|]. split; [reflexivity|].
  refine (proj1 (proj1 (proj2 (proj2 (client_close_leaves_nothing c _) _ (or_introl eq_refl))) eq_refl) _ "g" "g").
  eapply rtc_l; [apply client_build; reflexivity|]. eapply rtc_l; [apply client_close_begin|].
  eapply rtc_l; [apply client_close_read|]. eapply rtc_l; [apply client_close_tunnel|].
  eapply rtc_l; [apply client_store; reflexivity|]. apply rtc_refl.
Defined.

Lemma forwarding_in_order_witness :
  exists s, fw_read s = [(0%nat, [1])] /\ fw_chan s = [] /\
    packets_of 0 (fw_read s ++ fw_chan s) `prefix_of` [[1]; [2]].
Proof.
  set (conns := {[0%nat := [[1]; [2]]]} : gmap nat (list (list Z))).
  set (s1 := forward_take 0 [1] [[2]] (forward_start conns)).
  set (s2 := forward_put 0 [1] s1).
  exists (l3conn_take (0%nat, [1]) [] s2). split; [reflexivity|]. split; [reflexivity|].
  refine (proj1 (proj2 (forwarding_in_order conns _ _) 0%nat)).
  eapply rtc_l; [by apply (fw_take 0 [1] [[2]])|].
  eapply rtc_l; [apply (fw_put 0 [1]); [reflexivity|by eexists|apply Nat.ltb_lt; reflexivity]|].
  eapply rtc_l; [by apply fw_reader|]. apply rtc_refl.
Defined.
