(* ===== verification/GvisorStack.v ===== *)
(** The stacks of the VPN (stack/gvisor, stack/tcptunnel). The gVisor stack hands the packets of its
    network to the client's layer-3 connection and delivers what that receives: [RunContext], [Close] and
    [fail] interleave as steps. The network stack itself is a library; what it delivers to is the
    dispatcher. The other stack passes dials to the client's TCP tunnel. *)

From S2P Require Import Prelude Core GoNet Packet L3Tunnel ClientLife.

Definition MTU : nat := 1400.

(** ** Packets to the client

    [conn] says whether the endpoint has a connection when it looks for the packet of an index, and
    [write] is the connection's [Write] with the state below. *)

Inductive TcpipError : Type := ErrAborted.

Section WritePackets.
Context {S : Type} (conn : nat -> bool) (write : list Z -> S -> result error Z * S).

Fixpoint WritePackets_from (index : nat) (packets : list (list (list Z))) (s : S)
    : (nat * option TcpipError) * S :=
  match packets with
  | [] => ((index, None), s)
  | packetBuffer :: packets =>
      let buf := concat packetBuffer in
      if conn index then
        match write buf s with
        | (Err err, s) =>
            if errors_Is err "client.ErrResourceNotFound" then WritePackets_from (index + 1) packets s
            else ((index, Some ErrAborted), s)
        | (Ok _, s) => WritePackets_from (index + 1) packets s
        end
      else WritePackets_from (index + 1) packets s
  end.

Definition WritePackets (packets : list (list (list Z))) (s : S) : (nat * option TcpipError) * S :=
  WritePackets_from 0 packets s.
End WritePackets.

(** ** Packets from the client

    The whole buffer of the read is delivered: the packet with zeros behind it. *)
Definition read_buffer (data : list Z) : list Z :=
  let p := l3conn_copy MTU data in p ++ repeat 0 (MTU - length p).

(** ** State

    A layer-3 connection is a handle. [gs_open] has those on which [Close] was not called yet, [gs_failing] those that a [fail] has
    taken and not yet closed, [gs_received] and [gs_delivered] the packets that were read and delivered; they are
    not in the code. *)

(** How far [RunContext] is; it reads after [RunReading]. *)
Inductive RunPC : Type :=
| RunIdle
| RunDialed (h : nat)
| RunReading (h : nat)
| RunReadFailed (err : error)
| RunCheckClosed (err : error)
| RunDeferred (res : option error)
| RunClosing (res : option error)
| RunReturned (res : option error).

(** [closeOnce] with its goroutine. *)
Inductive StackClosePC : Type :=
| CloseNotCalled
| CloseStarted
| CloseTaken (conn : option nat)
| CloseDone (err : option error).

Record GvisorStack : Type := {
  gs_l3Conn : option nat;
  gs_closed : bool;
  gs_runErr : option error;
  gs_ctx : option error;
  gs_run : RunPC;
  gs_close : StackClosePC;
  gs_open : gset nat;
  gs_failing : gset nat;
  gs_received : list (list Z);
  gs_delivered : list (list Z);
}.

Definition NewStack_state : GvisorStack :=
  {| gs_l3Conn := None; gs_closed := false; gs_runErr := None; gs_ctx := None; gs_run := RunIdle;
     gs_close := CloseNotCalled; gs_open := ∅; gs_failing := ∅; gs_received := []; gs_delivered := [] |}.

(** [NewStack] with the network stack's answers; the address of the client gets a prefix of 32 bits. *)
Definition NewStack (createNIC : option string) (ip : result error IP) (addAddress : IP -> option string)
    : result error GvisorStack :=
  match createNIC with
  | Some text => Err (EText text)
  | None =>
      let? ip := ip in
      match addAddress ip with
      | Some text => Err (EText text)
      | None => Ok NewStack_state
      end
  end.

Definition set_run (pc : RunPC) (s : GvisorStack) : GvisorStack :=
  {| gs_l3Conn := gs_l3Conn s; gs_closed := gs_closed s; gs_runErr := gs_runErr s; gs_ctx := gs_ctx s; gs_run := pc;
     gs_close := gs_close s; gs_open := gs_open s; gs_failing := gs_failing s; gs_received := gs_received s;
     gs_delivered := gs_delivered s |}.

Definition set_stack_close (pc : StackClosePC) (s : GvisorStack) : GvisorStack :=
  {| gs_l3Conn := gs_l3Conn s; gs_closed := gs_closed s; gs_runErr := gs_runErr s; gs_ctx := gs_ctx s; gs_run := gs_run s;
     gs_close := pc; gs_open := gs_open s; gs_failing := gs_failing s; gs_received := gs_received s;
     gs_delivered := gs_delivered s |}.

Definition set_l3 (conn : option nat) (closed : bool) (runErr : option error) (failing : gset nat) (s : GvisorStack)
    : GvisorStack :=
  {| gs_l3Conn := conn; gs_closed := closed; gs_runErr := runErr; gs_ctx := gs_ctx s; gs_run := gs_run s;
     gs_close := gs_close s; gs_open := gs_open s; gs_failing := failing; gs_received := gs_received s;
     gs_delivered := gs_delivered s |}.

Definition set_gs_open (open : gset nat) (s : GvisorStack) : GvisorStack :=
  {| gs_l3Conn := gs_l3Conn s; gs_closed := gs_closed s; gs_runErr := gs_runErr s; gs_ctx := gs_ctx s; gs_run := gs_run s;
     gs_close := gs_close s; gs_open := open; gs_failing := gs_failing s; gs_received := gs_received s;
     gs_delivered := gs_delivered s |}.

Definition close_l3 (conn : option nat) (s : GvisorStack) : GvisorStack :=
  match conn with Some h => set_gs_open (gs_open s ∖ {[h]}) s | None => s end.

(** [RunContext] up to the dial; a new connection has a new handle. *)
Definition run_dial (dial : result error nat) (s : GvisorStack) : GvisorStack :=
  match gs_ctx s with
  | Some e => set_run (RunReturned (Some e)) s
  | None =>
      match dial with
      | Err e => set_run (RunReturned (Some e)) s
      | Ok h => set_run (RunDialed h) (set_gs_open ({[h]} ∪ gs_open s) s)
      end
  end.

(** [setConnection]. *)
Definition setConnection (h : nat) (s : GvisorStack) : option error * GvisorStack :=
  if gs_closed s then (Some ctx_Canceled, close_l3 (Some h) s)
  else (None, set_l3 (Some h) (gs_closed s) (gs_runErr s) (gs_failing s) s).

Definition run_set (s : GvisorStack) : GvisorStack :=
  match gs_run s with
  | RunDialed h =>
      match setConnection h s with
      | (Some e, s) => set_run (RunReturned (Some e)) s
      | (None, s) => set_run (RunReading h) s
      end
  | _ => s
  end.

(** One round of the loop, up to what an error leads to. *)
Definition run_read (answer : result error (list Z)) (s : GvisorStack) : GvisorStack :=
  match gs_run s, answer with
  | RunReading _, Ok data =>
      {| gs_l3Conn := gs_l3Conn s; gs_closed := gs_closed s; gs_runErr := gs_runErr s; gs_ctx := gs_ctx s;
         gs_run := gs_run s; gs_close := gs_close s; gs_open := gs_open s; gs_failing := gs_failing s;
         gs_received := gs_received s ++ [data]; gs_delivered := gs_delivered s ++ [read_buffer data] |}
  | RunReading _, Err err => set_run (RunReadFailed err) s
  | _, _ => s
  end.

(** [terminalError], then [ctx.Err] and [isClosed]. *)
Definition run_terminal (s : GvisorStack) : GvisorStack :=
  match gs_run s with
  | RunReadFailed err =>
      set_run (match gs_runErr s with Some e => RunDeferred (Some e) | None => RunCheckClosed err end) s
  | _ => s
  end.

Definition run_closed (s : GvisorStack) : GvisorStack :=
  match gs_run s with
  | RunCheckClosed err => set_run (RunDeferred (if bool_decide (gs_ctx s <> None) || gs_closed s then None else Some err)) s
  | _ => s
  end.

(** [Close] up to its [select]. *)
Definition stack_Close (s : GvisorStack) : GvisorStack :=
  match gs_close s with CloseNotCalled => set_stack_close CloseStarted s | _ => s end.

(** The deferred [Close], and its end. *)
Definition run_defer (s : GvisorStack) : GvisorStack :=
  match gs_run s with RunDeferred res => set_run (RunClosing res) (stack_Close s) | _ => s end.

Definition run_return (s : GvisorStack) : GvisorStack :=
  match gs_run s, gs_close s with RunClosing res, CloseDone _ => set_run (RunReturned res) s | _, _ => s end.

(** [Endpoint.close] in the goroutine of [Close]: its critical section, and closing what it took. *)
Definition close_take (s : GvisorStack) : GvisorStack :=
  match gs_close s with
  | CloseStarted => set_stack_close (CloseTaken (gs_l3Conn s)) (set_l3 None true (gs_runErr s) (gs_failing s) s)
  | _ => s
  end.

Definition close_finish (err : option error) (s : GvisorStack) : GvisorStack :=
  match gs_close s with
  | CloseTaken conn => set_stack_close (CloseDone (match conn with Some _ => err | None => None end)) (close_l3 conn s)
  | _ => s
  end.

(** [fail], its critical section and the rest. *)
Definition fail_take (err : error) (s : GvisorStack) : GvisorStack :=
  set_l3 None (gs_closed s) (Some (default err (gs_runErr s)))
    (match gs_l3Conn s with Some h => {[h]} ∪ gs_failing s | None => gs_failing s end) s.

Definition fail_close (h : nat) (s : GvisorStack) : GvisorStack :=
  set_l3 (gs_l3Conn s) (gs_closed s) (gs_runErr s) (gs_failing s ∖ {[h]}) (close_l3 (Some h) s).

(** The context of [RunContext] ends; [AfterFunc] is there while it reads. *)
Definition ctx_cancel (err : error) (s : GvisorStack) : GvisorStack :=
  {| gs_l3Conn := gs_l3Conn s; gs_closed := gs_closed s; gs_runErr := gs_runErr s;
     gs_ctx := Some (default err (gs_ctx s)); gs_run := gs_run s;
     gs_close := gs_close s; gs_open := gs_open s; gs_failing := gs_failing s; gs_received := gs_received s;
     gs_delivered := gs_delivered s |}.

Definition after_ctx (s : GvisorStack) : GvisorStack :=
  match gs_ctx s, gs_run s with
  | Some _, (RunReading _ | RunReadFailed _ | RunCheckClosed _ | RunDeferred _ | RunClosing _) => stack_Close s
  | _, _ => s
  end.

Inductive gs_step : GvisorStack -> GvisorStack -> Prop :=
| gs_dial dial s : gs_run s = RunIdle -> (forall h, dial = Ok h -> h ∉ gs_open s) -> gs_step s (run_dial dial s)
| gs_set s : gs_step s (run_set s)
| gs_read answer s : gs_step s (run_read answer s)
| gs_terminal s : gs_step s (run_terminal s)
| gs_check s : gs_step s (run_closed s)
| gs_defer s : gs_step s (run_defer s)
| gs_return s : gs_step s (run_return s)
| gs_Close s : gs_step s (stack_Close s)
| gs_take s : gs_step s (close_take s)
| gs_finish err s : gs_step s (close_finish err s)
| gs_fail err s : gs_step s (fail_take err s)
| gs_fail_close h s : h ∈ gs_failing s -> gs_step s (fail_close h s)
| gs_cancel err s : gs_step s (ctx_cancel err s)
| gs_after s : gs_step s (after_ctx s).

(** ** The TCP tunnel stack *)

Section TCPTunnelStack.
Context {Conn : Type} (canUseTCPTunnel : bool) (dialTCP : result error Conn).

Definition tunnel_DialTCP : result error Conn :=
  if canUseTCPTunnel then dialTCP
  else Err (WrapError ErrorCodeOutboundUnavailable "TCP tunnel is unavailable" false None).

Definition tunnel_DialUDP : result error Conn :=
  Err (WrapError ErrorCodeOutboundUnavailable "TCP tunnel stack does not support UDP" false None).

(** [gonet] is the dial of the network stack. *)
Definition gvisor_DialTCP (gonet : result error Conn) : result error Conn :=
  if canUseTCPTunnel then dialTCP else gonet.
End TCPTunnelStack.

(** [RunContext] waits for the end of its context. *)
Definition tunnel_RunContext (ctx : option error) : option (option error) :=
  match ctx with Some e => Some (Some e) | None => None end.

(** ** Lemmas *)

(** [RunContext] has a connection published, or has had it. *)
Definition past_set (pc : RunPC) : Prop :=
  match pc with RunIdle | RunDialed _ | RunReturned _ => False | _ => True end.

(** Who is to close an open connection. *)
Definition held (s : GvisorStack) (h : nat) : Prop :=
  gs_run s = RunDialed h \/ gs_l3Conn s = Some h \/ gs_close s = CloseTaken (Some h) \/ h ∈ gs_failing s.

Record gs_inv (s : GvisorStack) : Prop := {
  gi_closed : gs_closed s = match gs_close s with CloseTaken _ | CloseDone _ => true | _ => false end;
  gi_none : gs_closed s = true -> gs_l3Conn s = None;
  gi_conn : forall h, gs_l3Conn s = Some h -> past_set (gs_run s);
  gi_taken : forall h, gs_close s = CloseTaken (Some h) -> past_set (gs_run s);
  gi_open : forall h, h ∈ gs_open s -> held s h;
  gi_delivered : gs_delivered s = map read_buffer (gs_received s);
}.

Lemma NewStack_state_inv : gs_inv NewStack_state.
Proof. by split. Qed.

(** A step that leaves the endpoint and the set of open connections. *)
Lemma set_run_inv pc s :
  (past_set (gs_run s) -> past_set pc \/ (gs_l3Conn s = None /\ forall h, gs_close s <> CloseTaken (Some h))) ->
  (forall h, gs_run s = RunDialed h -> h ∉ gs_open s \/ gs_l3Conn s = Some h) -> gs_inv s -> gs_inv (set_run pc s).
Proof.
  intros Hp Hd [Hc Hn Hl Ht Ho Hdel]. split; cbn; try done.
  - intros h Hh. destruct (Hp (Hl h Hh)) as [?|[H _]]; [done|congruence].
  - intros h Hh. destruct (Hp (Ht h Hh)) as [?|[_ H]]; [done|]. by destruct (H h).
  - intros h Hh. destruct (Ho h Hh) as [H|H]; [|by right]. destruct (Hd h H) as [?|?]; [done|]. right. by left.
Qed.

Lemma not_past s pc : gs_inv s -> gs_run s = pc -> ~ past_set pc ->
  gs_l3Conn s = None /\ forall h, gs_close s <> CloseTaken (Some h).
Proof.
  intros Hi <- Hp. split.
  - destruct (gs_l3Conn s) as [h|] eqn:H; [|done]. destruct Hp. by apply (gi_conn s Hi h).
  - intros h H. destruct Hp. by apply (gi_taken s Hi h).
Qed.

Lemma stack_Close_inv s : gs_inv s -> gs_inv (stack_Close s).
Proof.
  intros [Hc Hn Hl Ht Ho Hd]. unfold stack_Close. destruct (gs_close s) eqn:E; try (by split; rewrite ?E).
  split; cbn; try done. intros h Hh. destruct (Ho h Hh) as [?|[?|[?|?]]]; [by left|right; by left|congruence|by do 3 right].
Qed.

Lemma run_dial_inv dial s :
  gs_run s = RunIdle -> (forall h, dial = Ok h -> h ∉ gs_open s) -> gs_inv s -> gs_inv (run_dial dial s).
Proof.
  intros Hr Hd Hi. assert (~ past_set RunIdle) as Hp by (intros []).
  destruct (not_past s RunIdle Hi Hr Hp) as [Hl Ht].
  assert (forall e, gs_inv (set_run (RunReturned e) s)) as Hret.
  { intros e. apply set_run_inv; [rewrite Hr; by intros []|by rewrite Hr|done]. }
  unfold run_dial. destruct (gs_ctx s); [apply Hret|]. destruct dial as [h|e]; [|apply Hret].
  destruct Hi as [Hc Hn _ _ Ho Hdel]. split; cbn; try done.
  - intros k Hk. congruence.
  - intros k [->%elem_of_singleton|Hk]%elem_of_union; [by left|].
    destruct (Ho k Hk) as [H|H]; [congruence|by right].
Qed.

Lemma run_set_inv s : gs_inv s -> gs_inv (run_set s).
Proof.
  intros Hi. unfold run_set. destruct (gs_run s) eqn:Hr; try done. unfold setConnection.
  destruct (not_past s _ Hi Hr ltac:(intros [])) as [Hl Ht]. destruct Hi as [Hc Hn _ _ Ho Hd].
  destruct (gs_closed s) eqn:Hcl.
  - split; cbn; rewrite ?Hcl; try done.
    + intros k Hk. congruence.
    + intros k [Hk Hne]%elem_of_difference. destruct (Ho k Hk) as [H|H]; [|by right].
      assert (k = h) as -> by congruence. set_solver.
  - split; cbn; rewrite ?Hcl; try done.
    intros k Hk. destruct (Ho k Hk) as [H|[H|H]]; [|congruence|by do 2 right]. right. left. cbn. congruence.
Qed.

Lemma close_take_inv s : gs_inv s -> gs_inv (close_take s).
Proof.
  intros [Hc Hn Hl Ht Ho Hd]. unfold close_take. destruct (gs_close s) eqn:E; try (by split; rewrite ?E).
  split; cbn; try done.
  - intros h [= H]. by apply (Hl h).
  - intros h Hh. destruct (Ho h Hh) as [?|[H|[?|?]]]; [by left| |congruence|by do 3 right].
    right. right. left. cbn. by rewrite H.
Qed.

Lemma close_finish_inv err s : gs_inv s -> gs_inv (close_finish err s).
Proof.
  intros [Hc Hn Hl Ht Ho Hd]. unfold close_finish. destruct (gs_close s) as [| |conn|] eqn:E; try (by split; rewrite ?E).
  split; destruct conn as [h|]; cbn; try done.
  - intros k [Hk Hne]%elem_of_difference. destruct (Ho k Hk) as [?|[?|[?|?]]]; [by left|right; by left| |by do 3 right].
    assert (k = h) as -> by congruence. set_solver.
  - intros k Hk. destruct (Ho k Hk) as [?|[?|[?|?]]]; [by left|right; by left|congruence|by do 3 right].
Qed.

Lemma fail_inv err h s : gs_inv s -> gs_inv (fail_take err s) /\ gs_inv (fail_close h s).
Proof.
  intros [Hc Hn Hl Ht Ho Hd]. split; split; cbn; try done.
  - intros k Hk. destruct (Ho k Hk) as [?|[H|[?|?]]]; [by left| |do 2 right; by left|do 3 right].
    + do 3 right. cbn. rewrite H. set_solver.
    + cbn. destruct (gs_l3Conn s); set_solver.
  - intros k [Hk Hne]%elem_of_difference. destruct (Ho k Hk) as [?|[?|[?|?]]]; [by left|right; by left|do 2 right; by left|].
    do 3 right. cbn. set_solver.
Qed.

Lemma gs_step_inv s s' : gs_step s s' -> gs_inv s -> gs_inv s'.
Proof.
  intros Hstep Hi.
  destruct Hstep as [dial s Hr Hd|s|answer s|s|s|s|s|s|s|err s|err s|h s Hh|err s|s].
  - by apply run_dial_inv.
  - by apply run_set_inv.
  - unfold run_read. destruct (gs_run s) eqn:Hr; try done. destruct answer as [data|e].
    + destruct Hi as [Hc Hn Hl Ht Ho Hd]. split; cbn; [exact Hc|exact Hn|done|done|by unfold held; cbn; rewrite <-Hr|].
      by rewrite Hd, map_app.
    + apply set_run_inv; [by left|by rewrite Hr|done].
  - unfold run_terminal. destruct (gs_run s) eqn:Hr; try done.
    apply set_run_inv; [left; by destruct (gs_runErr s)|by rewrite Hr|done].
  - unfold run_closed. destruct (gs_run s) eqn:Hr; try done. apply set_run_inv; [by left|by rewrite Hr|done].
  - unfold run_defer. destruct (gs_run s) eqn:Hr; try done.
    assert (gs_run (stack_Close s) = RunDeferred res) as Hr' by (unfold stack_Close; by destruct (gs_close s)).
    apply set_run_inv; [by left|by rewrite Hr'|by apply stack_Close_inv].
  - unfold run_return. destruct (gs_run s) eqn:Hr; try done. destruct (gs_close s) eqn:Hc; try done.
    apply set_run_inv; [right|by rewrite Hr|done]. rewrite Hc. split; [|done].
    apply (gi_none s Hi). by rewrite (gi_closed s Hi), Hc.
  - by apply stack_Close_inv.
  - by apply close_take_inv.
  - by apply close_finish_inv.
  - by apply (fail_inv err 0).
  - by apply (fail_inv io_EOF h).
  - destruct Hi. by split.
  - unfold after_ctx. destruct (gs_ctx s); [|done]. destruct (gs_run s); try done; by apply stack_Close_inv.
Qed.

(** Everything that is left to do once [Close] has been called, in an order of its own: the goroutine of
    [Close], then [RunContext], whose read fails, then the ends of the calls of [fail]. Each operation leaves the states
    of others alone. *)
Definition drain_run (s : GvisorStack) : GvisorStack :=
  run_return (run_defer (run_closed (run_terminal (run_read (Err io_EOF) (run_set (close_finish None (close_take s))))))).

Fixpoint close_fails (l : list nat) (s : GvisorStack) : GvisorStack :=
  match l with
  | [] => s
  | h :: l => close_fails l (if decide (h ∈ gs_failing s) then fail_close h s else s)
  end.

Definition drain (s : GvisorStack) : GvisorStack := close_fails (elements (gs_failing s)) (drain_run s).

(** What [RunContext] answers in the end, if it was called and nothing else fails. *)
Definition run_result (s : GvisorStack) : option (option error) :=
  match gs_run s with
  | RunIdle => None
  | RunDialed _ => Some (Some ctx_Canceled)
  | RunReading _ | RunReadFailed _ => Some (gs_runErr s)
  | RunCheckClosed _ => Some None
  | RunDeferred res | RunClosing res | RunReturned res => Some res
  end.

Lemma close_fails_spec l s :
  let t := close_fails l s in
  rtc gs_step s t /\ gs_run t = gs_run s /\ gs_close t = gs_close s /\ gs_failing t = gs_failing s ∖ list_to_set l.
Proof.
  revert s. induction l as [|h l IH]; intros s; cbn [close_fails list_to_set]; [split_and!; [done..|set_solver]|].
  destruct (decide (h ∈ gs_failing s)) as [Hh|Hh].
  - destruct (IH (fail_close h s)) as (Hr & H1 & H2 & H3). split_and!; [|done..|].
    + eapply rtc_l; [by apply gs_fail_close|exact Hr].
    + rewrite H3. cbn. set_solver.
  - destruct (IH s) as (Hr & H1 & H2 & H3). split_and!; [done..|]. rewrite H3. set_solver.
Qed.

Lemma drain_steps s : rtc gs_step s (drain s).
Proof.
  etrans; [|apply close_fails_spec].
  unfold drain_run. eapply rtc_l; [apply gs_take|]. eapply rtc_l; [apply (gs_finish None)|].
  eapply rtc_l; [apply gs_set|]. eapply rtc_l; [apply (gs_read (Err io_EOF))|].
  eapply rtc_l; [apply gs_terminal|]. eapply rtc_l; [apply gs_check|]. eapply rtc_l; [apply gs_defer|].
  eapply rtc_l; [apply gs_return|]. apply rtc_refl.
Qed.

Lemma close_drained s :
  gs_inv s -> gs_close s <> CloseNotCalled ->
  let t := close_finish None (close_take s) in
  (exists e, gs_close t = CloseDone e) /\ gs_closed t = true /\ gs_run t = gs_run s /\ gs_runErr t = gs_runErr s /\
  gs_failing t = gs_failing s.
Proof.
  intros Hi Hc. pose proof (gi_closed s Hi) as Hcl. unfold close_finish, close_take.
  destruct (gs_close s) as [| |conn|e] eqn:E; [done| | |].
  - cbn. destruct (gs_l3Conn s); cbn; eauto 10.
  - rewrite E. destruct conn; cbn; eauto 10.
  - rewrite E. eauto 10.
Qed.

Lemma drain_run_ends s :
  gs_inv s -> gs_close s <> CloseNotCalled ->
  (exists e, gs_close (drain_run s) = CloseDone e) /\ gs_failing (drain_run s) = gs_failing s /\
  gs_run (drain_run s) = match run_result s with None => RunIdle | Some res => RunReturned res end.
Proof.
  intros Hi Hc. destruct (close_drained s Hi Hc) as ((e & He) & Hcl & Hr & Herr & Hf). unfold run_result.
  unfold drain_run. set (t := close_finish None (close_take s)) in *. clearbody t. rewrite <-Hr, <-Hf, <-Herr. clear Hi Hc Hr Hf Herr.
  unfold run_set, setConnection. destruct (gs_run t) as [|h|h|err|err|res|res|res] eqn:E; rewrite ?Hcl;
    destruct (gs_runErr t) as [e'|] eqn:Et;
    unfold run_read, run_terminal, run_closed, run_defer, run_return, stack_Close;
    repeat (progress (cbn; rewrite ?E, ?He, ?Hcl, ?Et, ?orb_true_r)); (split_and!; [by eauto|done|done]).
Qed.

Lemma drain_ends s :
  gs_inv s -> gs_close s <> CloseNotCalled ->
  (exists e, gs_close (drain s) = CloseDone e) /\ gs_failing (drain s) = ∅ /\
  gs_run (drain s) = match run_result s with None => RunIdle | Some res => RunReturned res end.
Proof.
  intros Hi Hc. destruct (drain_run_ends s Hi Hc) as ((e & He) & Hf & Hr).
  destruct (close_fails_spec (elements (gs_failing s)) (drain_run s)) as (_ & H1 & H2 & H3).
  unfold drain. rewrite H1, H2, H3, Hf, He, Hr, list_to_set_elements_L. split_and!; [by exists e|set_solver|done].
Qed.

(** *** What is delivered *)

Lemma Uint16_app p q i : (S i < length p)%nat -> Uint16 (p ++ q) i = Uint16 p i.
Proof. intros H. unfold Uint16. by rewrite !lookup_app_l by lia. Qed.

Lemma index_app p q i : (i < length p)%nat -> index (p ++ q) i = index p i.
Proof. intros H. unfold index. by rewrite lookup_app_l by lia. Qed.

Lemma slice_app p q lo hi : hi <= len p -> slice (p ++ q) lo hi = slice p lo hi.
Proof.
  intros H. unfold slice, len in *. rewrite length_app. repeat case_bool_decide; try done; try lia.
  f_equal. destruct (decide (Z.to_nat lo <= length p)%nat); [|lia].
  rewrite drop_app_le by lia. rewrite take_app_le; [done|]. rewrite length_drop. lia.
Qed.

(** The zeros behind a packet are not seen: the packet says how long it is. *)
Lemma read_buffer_packet p :
  IPv4Packet_Valid p = Some true -> (length p <= MTU)%nat ->
  let b := read_buffer p in
  length b = MTU /\ take (length p) b = p /\ IPv4Packet_Valid b = Some true /\ Protocol b = Protocol p /\
  SourceIP b = SourceIP p /\ DestinationIP b = DestinationIP p /\ Payload b = Payload p.
Proof.
  intros Hv Hl b. unfold b, read_buffer, l3conn_copy. rewrite take_ge by lia.
  set (q := repeat 0 (MTU - length p)). assert (length (p ++ q) = MTU) as Hlen.
  { unfold q. rewrite length_app, repeat_length. lia. }
  clearbody q.
  unfold IPv4Packet_Valid in Hv. case_bool_decide as H20; [done|]. unfold IPv4HeaderSize, len in H20.
  assert (HeaderLen (p ++ q) = HeaderLen p) as Hh by (unfold HeaderLen; by rewrite index_app by lia).
  assert (TotalLen (p ++ q) = TotalLen p) as Ht by (unfold TotalLen; by apply Uint16_app; lia).
  destruct (index p 0) as [b0|] eqn:H0; [|done]. cbn in Hv. destruct (negb _) eqn:Hver; [done|].
  destruct (HeaderLen p) as [h|] eqn:Hh'; [|done]. cbn in Hv. destruct (TotalLen p) as [t|] eqn:Ht'; [|done].
  cbn in Hv. injection Hv as Hv. apply andb_prop in Hv as [Hv Hu]. apply andb_prop in Hv as [Hh20 Hth].
  apply bool_decide_eq_true in Hh20, Hth, Hu. unfold u16 in Hu. rewrite Z.mod_small in Hu by (unfold len, MTU in *; lia).
  split_and!; [done|by rewrite take_app_length| | | | |].
  - unfold IPv4Packet_Valid. rewrite bool_decide_false by (unfold IPv4HeaderSize, len; rewrite Hlen; unfold MTU; lia).
    rewrite Hh, Ht, index_app, H0 by lia. cbn. rewrite Hver. f_equal.
    rewrite !andb_true_iff, !bool_decide_eq_true. split_and!; [done|done|]. unfold u16, len. rewrite Hlen.
    rewrite Z.mod_small by (unfold MTU; lia). unfold len, MTU in *. lia.
  - unfold Protocol. by apply index_app; lia.
  - unfold SourceIP. by rewrite !index_app by lia.
  - unfold DestinationIP. by rewrite !index_app by lia.
  - unfold Payload. rewrite Hh, Ht, Hh', Ht'. cbn. apply slice_app. lia.
Qed.

(** *** What is written *)

Section WritePacketsSpec.
Context {S : Type} (conn : nat -> bool) (write : list Z -> S -> result error Z * S).

(** The state after every packet of a list was given to the connection, if there is one. *)
Fixpoint written (index : nat) (packets : list (list (list Z))) (s : S) : S :=
  match packets with
  | [] => s
  | p :: packets => written (index + 1) packets (if conn index then (write (concat p) s).2 else s)
  end.

Lemma WritePackets_from_spec packets index s :
  match WritePackets_from conn write index packets s with
  | ((n, None), s') => n = (index + length packets)%nat /\ s' = written index packets s
  | ((n, Some ErrAborted), s') => exists before p after err,
      packets = before ++ p :: after /\ n = (index + length before)%nat /\
      (write (concat p) (written index before s)) = (Err err, s') /\ conn n = true /\
      errors_Is err "client.ErrResourceNotFound" = false
  end.
Proof.
  revert index s. induction packets as [|p packets IH]; intros index s; [split; [cbn; lia|done]|].
  cbn [WritePackets_from].
  assert (forall s1, s1 = (if conn index then (write (concat p) s).2 else s) ->
    match WritePackets_from conn write (index + 1) packets s1 with
    | ((n, None), s') => n = (index + length (p :: packets))%nat /\ s' = written index (p :: packets) s
    | ((n, Some ErrAborted), s') => exists before q after err,
        p :: packets = before ++ q :: after /\ n = (index + length before)%nat /\
        (write (concat q) (written index before s)) = (Err err, s') /\ conn n = true /\
        errors_Is err "client.ErrResourceNotFound" = false
    end) as Hnext.
  { intros s1 ->. specialize (IH (index + 1)%nat (if conn index then (write (concat p) s).2 else s)).
    destruct (WritePackets_from _ _ _ _ _) as [[n [[]|]] s'].
    - destruct IH as (before & q & after & err & -> & -> & Hw & Hn & He).
      exists (p :: before), q, after, err. split_and!; [done|cbn; lia|done|done|done].
    - destruct IH as [-> ->]. split; [cbn; lia|done]. }
  destruct (conn index) eqn:Hc; [|by apply Hnext]. destruct (write (concat p) s) as [[n|err] s1] eqn:Hw; [by apply Hnext|].
  destruct (errors_Is _ _) eqn:He; [by apply Hnext|].
  exists [], p, packets, err. cbn. rewrite Nat.add_0_r. done.
Qed.
End WritePacketsSpec.

(** C32: The gVisor stack, in every interleaving of [RunContext], [Close], [fail] and the end of the context.
    The packets that the connection receives are delivered in order, and the network sees in each
    buffer the packet that was received, provided that it is valid and fits the MTU. A connection of the
    layer-3 tunnel that was not closed has one holder that is going to close it, a closed stack has none published, and
    once [RunContext] has returned there is none but those a [fail] is closing. After [Close] has been called, the
    stack can always come to its end: [Close] is done, every connection has been closed, and [RunContext], if it was
    called, has returned; from reading it returns the error of the first [fail], and no error if there was none. *)
Theorem gvisor_stack_releases (s : GvisorStack) (run : rtc gs_step NewStack_state s) :
  gs_delivered s = map read_buffer (gs_received s) /\
  (forall p, p ∈ gs_received s -> IPv4Packet_Valid p = Some true -> (length p <= MTU)%nat ->
     let b := read_buffer p in
     take (length p) b = p /\ IPv4Packet_Valid b = Some true /\ Payload b = Payload p) /\
  (forall h, h ∈ gs_open s -> held s h) /\ (gs_closed s = true -> gs_l3Conn s = None) /\
  (forall res, gs_run s = RunReturned res -> gs_open s ⊆ gs_failing s) /\
  (gs_close s <> CloseNotCalled -> exists s' e, rtc gs_step s s' /\ gs_close s' = CloseDone e /\
     gs_open s' = ∅ /\ gs_failing s' = ∅ /\
     gs_run s' = match run_result s with None => RunIdle | Some res => RunReturned res end).
Proof.
  assert (forall s, rtc gs_step NewStack_state s -> gs_inv s) as Hinv.
  { intros t Ht. eapply (rtc_closed gs_step gs_inv); [|exact NewStack_state_inv|exact Ht]. eauto using gs_step_inv. }
  assert (forall s, gs_inv s -> ~ past_set (gs_run s) -> (forall h, gs_run s <> RunDialed h) -> gs_open s ⊆ gs_failing s) as Hout.
  { intros t Ht Hp Hd h Hh. destruct (not_past t _ Ht eq_refl Hp) as [Hl Hc].
    destruct (gi_open t Ht h Hh) as [H|[H|[H|H]]]; [by destruct (Hd h)|congruence|by destruct (Hc h)|done]. }
  pose proof (Hinv s run) as Hi. split_and!.
  - apply (gi_delivered s Hi).
  - intros p _ Hv Hl. destruct (read_buffer_packet p Hv Hl) as (_ & H1 & H2 & _ & _ & _ & H3). done.
  - apply (gi_open s Hi).
  - apply (gi_none s Hi).
  - intros res Hr. apply Hout; [done|by rewrite Hr; intros []|by rewrite Hr].
  - intros Hc. destruct (drain_ends s Hi Hc) as ((e & He) & Hf & Hr).
    exists (drain s), e. split_and!; [apply drain_steps|done| |done|done].
    assert (gs_open (drain s) ⊆ gs_failing (drain s)) as Hsub; [|rewrite Hf in Hsub; set_solver].
    apply Hout; [apply Hinv; etrans; [exact run|apply drain_steps]|rewrite Hr; destruct (run_result s); by intros []|].
    rewrite Hr. by destruct (run_result s).
Qed.

(** ** A run

    A packet is read, the context ends, and the stack comes to rest. *)
Definition demo_ip_packet : list Z := [69; 0; 0; 24; 0; 0; 0; 0; 64; 17; 0; 0; 10; 0; 0; 1; 10; 0; 0; 2; 1; 2; 3; 4].

Definition demo_reading : GvisorStack :=
  run_read (Ok demo_ip_packet) (run_set (run_dial (Ok 0%nat) NewStack_state)).
Definition demo_cancelled : GvisorStack := after_ctx (ctx_cancel ctx_Canceled demo_reading).

Lemma demo_cancelled_run : rtc gs_step NewStack_state demo_cancelled.
Proof.
  eapply rtc_l; [apply (gs_dial (Ok 0%nat)); [done|intros h _; set_solver]|]. eapply rtc_l; [apply gs_set|].
  eapply rtc_l; [apply (gs_read (Ok demo_ip_packet))|]. eapply rtc_l; [apply (gs_cancel ctx_Canceled)|].
  eapply rtc_l; [apply gs_after|]. apply rtc_refl.
Qed.

Lemma demo_ip_packet_valid : IPv4Packet_Valid demo_ip_packet = Some true.
Proof. by vm_compute. Qed.

Lemma gvisor_stack_releases_witness :
  Payload (read_buffer demo_ip_packet) = Payload demo_ip_packet /\
  exists s', rtc gs_step demo_cancelled s' /\ gs_run s' = RunReturned None /\ gs_open s' = ∅.
Proof.
  destruct (gvisor_stack_releases demo_cancelled demo_cancelled_run) as (_ & Hp & _ & _ & _ & Hend).
  split.
  - apply (Hp demo_ip_packet); [by left|apply demo_ip_packet_valid|apply Nat.leb_le; reflexivity].
  - destruct (Hend ltac:(done)) as (s' & e & Hrun & _ & Ho & _ & Hres).
    exists s'. split; [exact Hrun|]. split; [exact Hres|exact Ho].
Defined.
