(* ===== verification/DeviceTrust.v ===== *)
(** Trusting the device (client/atrust/auth/device.go, GetAuthInfoList of auth.go, and
    GetAuthInfoList and SetTrusted of client/atrust/client.go), on the requests of the login.
    These calls have no context that ends. *)

From S2P Require Import Prelude Core GoNet AuthLogin ClientSetup.

Record QueryDeviceResult : Type := { qd_SelfID : string; qd_DeviceTrusted : bool }.

(** [context.Background()]. *)
Definition background {W} (aw : AuthWorld W) : AuthWorld W := {|
  aw_ctxErr _ := None;
  aw_Do := aw_Do aw;
  aw_Handle := aw_Handle aw;
  aw_randSdpId := aw_randSdpId aw;
  aw_Encrypt := aw_Encrypt aw;
  aw_SetCookie := aw_SetCookie aw;
  aw_JarCookies := aw_JarCookies aw;
|}.

Section Trust.
Context {W : Type} (aw : AuthWorld W) (js : AuthJSON) (parse_url : string -> result error URL).
(** [json.Unmarshal] into the answer of queryDevice: its code, its message and its data. *)
Context (js_Device : string -> result error (Z * string * QueryDeviceResult)).
Context (sw : SetupWorld W).

#[local] Abbreviation Auth := (StateError (LoginState W)).

Definition QueryDevice : Auth QueryDeviceResult :=
  re ← exchange aw QueryDeviceRequest js_Device;
  let '(code, message, data) := re in
  if bool_decide (code = 0) then mret data else code_error "queryDevice" code message.

(** [TrustDevice] and [UntrustDevice]. *)
Definition change_trust (what : string) (r : AuthRequest) : Auth unit :=
  re ← exchange aw r (js_Message js);
  let '(code, message) := re in
  if bool_decide (code = 0) then mret tt else code_error what code message.

Definition TrustDevice (idList : list string) : Auth unit :=
  change_trust "trustDevice" (TrustDeviceRequest idList).

Definition UntrustDevice (idList : list string) : Auth unit :=
  change_trust "untrustDevice" (UntrustDeviceRequest idList).

Definition session_GetAuthInfoList : Auth (list AuthInfo) :=
  re ← authConfig aw js false true; mret re.2.

(** The function of client.go: a new session. *)
Definition GetAuthInfoList : W -> result error (list AuthInfo) * LoginState W := fun w =>
  session_GetAuthInfoList (Build_LoginState newAuthSession w []).

(** The session of [SetTrusted]; an error of the login is not looked at. *)
Definition trust_session (host : string) (saved : ClientAuthData) (device : string) (trusted : bool)
    : Auth unit :=
  _ ← attempt (LoginContext (background aw) js parse_url host None
                 {| lo_DeviceID := device; lo_Cookies := cad_Cookies saved |});
  result ← QueryDevice;
  if trusted then
    if qd_DeviceTrusted result then mret tt else TrustDevice [qd_SelfID result]
  else
    if negb (qd_DeviceTrusted result) then mret tt else UntrustDevice [qd_SelfID result].

Definition SetTrusted (serverAddress : string) (serverPort : Z) (authData : option (list Z))
    (trusted : bool) (w : W) : result error unit * LoginState W :=
  match (match authData with
         | Some data => sw_unmarshalAuth sw data
         | None => Ok {| cad_Cookies := []; cad_DeviceID := "" |}
         end) with
  | Err err => (Err err, Build_LoginState newAuthSession w [])
  | Ok saved =>
      let '(device, w) :=
        if is_empty (cad_DeviceID saved)
        then let '(hex, w) := sw_randHex sw 32 w in (ToLower hex, w)
        else (cad_DeviceID saved, w) in
      let host := if bool_decide (serverPort = 443) then serverAddress
                  else serverAddress +:+ ":" +:+ itoa serverPort in
      trust_session host saved device trusted (Build_LoginState newAuthSession w [])
  end.
End Trust.

(** ** A server that keeps the trust *)

Definition changes_trust (r : AuthRequest) : option (bool * list string) :=
  match r with
  | TrustDeviceRequest ids => Some (true, ids)
  | UntrustDeviceRequest ids => Some (false, ids)
  | _ => None
  end.

Definition trust_request (trusted : bool) (id : string) : AuthRequest :=
  if trusted then TrustDeviceRequest [id] else UntrustDeviceRequest [id].

(** The server knows the device that asks and whether it is trusted: it tells so, a request to
    change the trust that it answers with code 0 has done that, and other requests have not. *)
Class TrustServer {W : Type} (aw : AuthWorld W) (js : AuthJSON)
    (js_Device : string -> result error (Z * string * QueryDeviceResult)) (sw : SetupWorld W) := {
  srv_self : string;
  srv_trusted : W -> bool;
  srv_query : forall token w reply data message,
    (aw_Do aw token QueryDeviceRequest w).1 = Ok reply ->
    js_Device (hp_Body reply) = Ok (0, message, data) ->
    data = {| qd_SelfID := srv_self; qd_DeviceTrusted := srv_trusted w |};
  srv_change : forall token trusted w reply message,
    (aw_Do aw token (trust_request trusted srv_self) w).1 = Ok reply ->
    js_Message js (hp_Body reply) = Ok (0, message) ->
    srv_trusted (aw_Do aw token (trust_request trusted srv_self) w).2 = trusted;
  srv_other : forall token r w, changes_trust r = None -> srv_trusted (aw_Do aw token r w).2 = srv_trusted w;
  srv_cookie : forall c w, srv_trusted (aw_SetCookie aw c w) = srv_trusted w;
  srv_rand : forall n w, srv_trusted (sw_randHex sw n w).2 = srv_trusted w;
}.

Section TrustSpec.
Context {W : Type} (aw : AuthWorld W) (js : AuthJSON) (parse_url : string -> result error URL).
Context (js_Device : string -> result error (Z * string * QueryDeviceResult)) (sw : SetupWorld W).
Context `{srv : !TrustServer aw js js_Device sw}.

#[local] Abbreviation Auth := (StateError (LoginState W)).

(** [keeps m l]: [m] sends and asks [l], or if it fails a prefix of it, and leaves the trust. *)
Definition keeps {A} (m : Auth A) (l : list AuthEvent) : Prop :=
  forall s, exists l', ls_log (m s).2 = ls_log s ++ l' /\ l' `prefix_of` l /\
    (forall a, (m s).1 = Ok a -> l' = l) /\ srv_trusted (ls_world (m s).2) = srv_trusted (ls_world s).

Lemma keeps_bind {A B} (m : Auth A) (f : A -> Auth B) l1 l2 :
  keeps m l1 -> (forall a, keeps (f a) l2) -> keeps (m ≫= f) (l1 ++ l2).
Proof.
  intros Hm Hf s. unfold mbind, StateError_bind. destruct (Hm s) as (l & Hlog & Hp & Hok & Ht).
  destruct (m s) as [[a|e] s1]; simpl in *.
  - destruct (Hf a s1) as (l' & Hlog' & Hp' & Hok' & Ht'). rewrite (Hok a eq_refl) in *.
    exists (l1 ++ l'). rewrite Hlog', Hlog, app_assoc. split_and!; [done|by apply prefix_app| |congruence].
    intros b Hb. by rewrite (Hok' b Hb).
  - exists l. split_and!; [done|by apply prefix_app_r|done|done].
Qed.

Lemma keeps_quiet {A} (m : Auth A) :
  (forall s, ls_log (m s).2 = ls_log s /\ srv_trusted (ls_world (m s).2) = srv_trusted (ls_world s)) ->
  keeps m [].
Proof. intros Hm s. destruct (Hm s) as [Hl Ht]. exists []. rewrite app_nil_r. by split_and!. Qed.

Lemma keeps_fail {A} e l : keeps (A := A) (fail e) l.
Proof. intros s. exists []. rewrite app_nil_r. split_and!; [done|apply prefix_nil|done|done]. Qed.

Lemma keeps_ret {A} (a : A) : keeps (mret a) [].
Proof. by apply keeps_quiet. Qed.

Lemma exchange_effect {A} r (decode : string -> result error A) s :
  let call := exchange aw r decode s in
  exists token,
    ls_log call.2 = ls_log s ++ [Sent r] /\ ls_world call.2 = (aw_Do aw token r (ls_world s)).2 /\
    forall a, call.1 = Ok a ->
      exists reply, (aw_Do aw token r (ls_world s)).1 = Ok reply /\ decode (hp_Body reply) = Ok a.
Proof.
  exists (match r with CheckCode => None | _ => Some (as_csrfToken (ls_session s)) end).
  unfold exchange, send, mbind, StateError_bind, get_session, log_event, on_world. cbn.
  destruct (aw_Do aw _ r (ls_world s)) as [[reply|e] w]; cbn; [|done].
  unfold readAuthResponse, read_limited, fail, lift, mret, StateError_ret.
  destruct (bool_decide _); [done|]. destruct (hp_ReadErr reply); [done|]. cbn.
  split_and!; [done..|]. intros a Ha. by exists reply.
Qed.

Lemma keeps_exchange {A} r (decode : string -> result error A) :
  changes_trust r = None -> keeps (exchange aw r decode) [Sent r].
Proof.
  intros Hr s. destruct (exchange_effect r decode s) as (token & Hlog & Hw & _).
  exists [Sent r]. split_and!; [done..|]. rewrite Hw. by apply srv_other.
Qed.

Lemma keeps_authConfig mod_ needTicket : keeps (authConfig aw js mod_ needTicket) [Sent (GetAuthConfig mod_ needTicket)].
Proof.
  unfold authConfig. change ([Sent (GetAuthConfig mod_ needTicket)])
    with ([Sent (GetAuthConfig mod_ needTicket)] ++ [] : list AuthEvent).
  apply keeps_bind; [by apply keeps_exchange|]. intros re. by apply keeps_quiet.
Qed.

Lemma keeps_onlineInfo : keeps (onlineInfo aw js) [Sent OnlineInfo].
Proof.
  unfold onlineInfo. change [Sent OnlineInfo] with ([Sent OnlineInfo] ++ [] : list AuthEvent).
  apply keeps_bind; [by apply keeps_exchange|]. intros [code username].
  destruct (bool_decide _); by apply keeps_quiet.
Qed.

(** A login without a method only looks whether the cookies are still valid. *)
Lemma keeps_login host opts :
  keeps (LoginContext aw js parse_url host None opts) [Sent (GetAuthConfig false true); Sent OnlineInfo].
Proof.
  unfold LoginContext.
  change [Sent (GetAuthConfig false true); Sent OnlineInfo]
    with ([] ++ [] ++ [] ++ [Sent (GetAuthConfig false true)] ++ [Sent OnlineInfo] : list AuthEvent).
  apply keeps_bind; [by apply keeps_quiet|intros _].
  apply keeps_bind; [|intros _].
  { apply keeps_quiet. intros s. split; [done|]. simpl. generalize (ls_world s).
    induction (lo_Cookies opts) as [|c l IH]; intros w; simpl; [done|]. by rewrite IH, srv_cookie. }
  apply keeps_bind; [by apply keeps_quiet|intros _].
  apply keeps_bind; [apply keeps_authConfig|]. intros [isLogin infos].
  destruct (bool_decide _); [|apply keeps_fail].
  change [Sent OnlineInfo] with ([Sent OnlineInfo] ++ [] : list AuthEvent).
  apply keeps_bind; [apply keeps_onlineInfo|]. intros username. apply keeps_ret.
Qed.
End TrustSpec.

#[export] Instance background_server {W : Type} (aw : AuthWorld W) (js : AuthJSON)
    (js_Device : string -> result error (Z * string * QueryDeviceResult)) (sw : SetupWorld W)
    `{srv : !TrustServer aw js js_Device sw} : TrustServer (background aw) js js_Device sw := {
  srv_self := srv_self;
  srv_trusted := srv_trusted;
  srv_query := srv_query;
  srv_change := srv_change;
  srv_other := srv_other;
  srv_cookie := srv_cookie;
  srv_rand := srv_rand;
}.

Section SetTrustedSpec.
Context {W : Type} (aw : AuthWorld W) (js : AuthJSON) (parse_url : string -> result error URL).
Context (js_Device : string -> result error (Z * string * QueryDeviceResult)) (sw : SetupWorld W).
Context `{srv : !TrustServer aw js js_Device sw}.

Lemma QueryDevice_effect s :
  let call := QueryDevice aw js_Device s in
  ls_log call.2 = ls_log s ++ [Sent QueryDeviceRequest] /\
  srv_trusted (ls_world call.2) = srv_trusted (ls_world s) /\
  forall data, call.1 = Ok data ->
    data = {| qd_SelfID := srv_self; qd_DeviceTrusted := srv_trusted (ls_world s) |}.
Proof.
  unfold QueryDevice, mbind, StateError_bind.
  destruct (exchange_effect aw QueryDeviceRequest js_Device s) as (token & Hlog & Hw & Hok).
  destruct (exchange aw QueryDeviceRequest js_Device s) as [[[[code message] data]|e] s1]; simpl in *;
    [|split_and!; [done|rewrite Hw; by apply srv_other|done]].
  case_bool_decide as Hcode; simpl; (split_and!; [done|rewrite Hw; by apply srv_other|]); [|done].
  intros d [= <-]. destruct (Hok _ eq_refl) as (reply & Hdo & Hjs). rewrite Hcode in Hjs.
  by eapply srv_query.
Qed.

Lemma change_trust_effect trusted what s :
  let call := change_trust aw js what (trust_request trusted srv_self) s in
  ls_log call.2 = ls_log s ++ [Sent (trust_request trusted srv_self)] /\
  (call.1 = Ok tt -> srv_trusted (ls_world call.2) = trusted).
Proof.
  unfold change_trust, mbind, StateError_bind.
  destruct (exchange_effect aw (trust_request trusted srv_self) (js_Message js) s) as (token & Hlog & Hw & Hok).
  destruct (exchange aw _ _ s) as [[[code message]|e] s1]; simpl in *; [|done].
  case_bool_decide as Hcode; simpl; [|done]. split; [done|]. intros _.
  destruct (Hok _ eq_refl) as (reply & Hdo & Hjs). rewrite Hcode in Hjs. rewrite Hw. by eapply srv_change.
Qed.

(** What a run of [SetTrusted] has sent and done. *)
Definition trust_run (trusted : bool) (w : W) (r : result error unit) (s : LoginState W) : Prop :=
  exists login tail, ls_log s = login ++ tail /\
    login `prefix_of` [Sent (GetAuthConfig false true); Sent OnlineInfo] /\
    (tail = [] \/ tail = [Sent QueryDeviceRequest] \/
     srv_trusted w <> trusted /\ tail = [Sent QueryDeviceRequest; Sent (trust_request trusted srv_self)]) /\
    (r = Ok tt -> srv_trusted (ls_world s) = trusted) /\
    (srv_trusted w = trusted -> srv_trusted (ls_world s) = trusted).

Lemma trust_session_run host saved device trusted w :
  let call := trust_session aw js parse_url js_Device host saved device trusted
                (Build_LoginState newAuthSession w []) in
  trust_run trusted w call.1 call.2.
Proof.
  unfold trust_session, mbind, StateError_bind, attempt.
  pose proof (keeps_login (background aw) js parse_url js_Device sw host
    {| lo_DeviceID := device; lo_Cookies := cad_Cookies saved |} (Build_LoginState newAuthSession w []))
    as (login & Hlog & Hp & _ & Ht).
  destruct (LoginContext _ _ _ _ _ _ _) as [r0 s1]. simpl in Hlog, Ht. cbn.
  destruct (QueryDevice_effect s1) as (Hlog2 & Ht2 & Hok).
  destruct (QueryDevice aw js_Device s1) as [[data|e] s2]; simpl in *.
  2:{ exists login, [Sent QueryDeviceRequest]. split_and!; [by rewrite Hlog2, Hlog|done|auto|done|congruence]. }
  rewrite (Hok data eq_refl). simpl. rewrite Ht.
  assert (trust_run trusted w (Ok tt) s2 \/ srv_trusted w <> trusted) as Hsame.
  { destruct (decide (srv_trusted w = trusted)) as [Heq|]; [left|by right].
    exists login, [Sent QueryDeviceRequest]. split_and!; [by rewrite Hlog2, Hlog|done|auto|congruence..]. }
  assert (forall what, srv_trusted w <> trusted -> let call := change_trust aw js what (trust_request trusted srv_self) s2 in
    trust_run trusted w call.1 call.2) as Hchange.
  { intros what Hne. destruct (change_trust_effect trusted what s2) as (Hlog3 & Hok3).
    exists login, [Sent QueryDeviceRequest; Sent (trust_request trusted srv_self)].
    split_and!; [by rewrite Hlog3, Hlog2, Hlog, <-app_assoc|done|auto|done|done]. }
  destruct trusted, (srv_trusted w) eqn:Hw; simpl; try (destruct Hsame; done);
    by apply Hchange.
Qed.

(** The device is trusted as it is asked for. Against a server that tells whether the device
    is trusted and does what it answers, a change of the trust that reports success leaves
    it as asked. It sends at most two requests of a login, without credentials or a challenge,
    the question, and, only where the answer differs, one request to change the trust of this
    very device; where the trust is already as asked it stays so even on an error. *)
Theorem trust_follows_request (serverAddress : string) (serverPort : Z) (authData : option (list Z))
    (trusted : bool) (w : W) (r : result error unit) (s : LoginState W)
    (Hrun : SetTrusted aw js parse_url js_Device sw serverAddress serverPort authData trusted w = (r, s)) :
  exists login tail, ls_log s = login ++ tail /\
    login `prefix_of` [Sent (GetAuthConfig false true); Sent OnlineInfo] /\
    (tail = [] \/ tail = [Sent QueryDeviceRequest] \/
     srv_trusted w <> trusted /\ tail = [Sent QueryDeviceRequest; Sent (trust_request trusted srv_self)]) /\
    (r = Ok tt -> srv_trusted (ls_world s) = trusted) /\
    (srv_trusted w = trusted -> srv_trusted (ls_world s) = trusted).
Proof.
  change (trust_run trusted w r s). unfold SetTrusted in Hrun.
  destruct (match authData with Some _ => _ | None => _ end) as [saved|e].
  2:{ injection Hrun as <- <-. exists [], []. split_and!; [done|apply prefix_nil|auto|done|done]. }
  assert (forall host device w1, srv_trusted w1 = srv_trusted w ->
    trust_session aw js parse_url js_Device host saved device trusted (Build_LoginState newAuthSession w1 []) = (r, s) ->
    trust_run trusted w r s) as H.
  { intros host device w1 Hw1 Hs. pose proof (trust_session_run host saved device trusted w1) as Hr.
    rewrite Hs in Hr. unfold trust_run in *. by rewrite Hw1 in Hr. }
  destruct (is_empty (cad_DeviceID saved)); [|by eapply H].
  destruct (sw_randHex sw 32 w) as [hex w1] eqn:Hhex. eapply H; [|exact Hrun].
  pose proof (srv_rand 32 w) as Hr. by rewrite Hhex in Hr.
Qed.
End SetTrustedSpec.

(** ** Witness: a server whose state is the trust *)

Definition trust_json : AuthJSON := {|
  js_AuthConfig := js_AuthConfig demo_json;
  js_Code := js_Code demo_json;
  js_Step := js_Step demo_json;
  js_Phone := js_Phone demo_json;
  js_Message _ := Ok (0, "");
  js_Online := js_Online demo_json;
  js_Graph := js_Graph demo_json;
  js_Strings := js_Strings demo_json;
  js_String := js_String demo_json;
  js_Ticket := js_Ticket demo_json;
|}.

Definition trust_answer (body : string) : HTTPReply :=
  {| hp_Status := 200; hp_Location := ""; hp_Body := body; hp_ReadErr := None |}.

Definition trust_server : AuthWorld bool := {|
  aw_ctxErr _ := None;
  aw_Do _ r w := (Ok (trust_answer (if (w : bool) then "trusted" else "")%string),
                  match changes_trust r with Some (b, _) => b | None => w end);
  aw_Handle := None;
  aw_randSdpId w := ("", w);
  aw_Encrypt _ _ message w := (Ok message, w);
  aw_SetCookie _ w := w;
  aw_JarCookies _ _ := [];
|}.

Definition trust_setup : SetupWorld bool := {|
  sw_randHex n w := ("ABC", w);
  sw_connectionID device w := (device, w);
  sw_ticks _ _ := [];
  sw_dialNode _ _ := Err (EText "unreachable");
  sw_unmarshalAuth _ := Err (EText "syntax");
  sw_marshalAuth _ := Err (EText "unsupported");
  sw_resource _ := Err (EText "unsupported");
|}.

Definition trust_device (body : string) : result error (Z * string * QueryDeviceResult) :=
  Ok (0, "", {| qd_SelfID := "me"; qd_DeviceTrusted := bool_decide (body = "trusted"%string) |}).

#[export] Instance trust_server_lawful : TrustServer trust_server trust_json trust_device trust_setup.
Proof.
  refine {| srv_self := "me"; srv_trusted w := w |}.
  - intros token w reply data message. simpl. intros [= <-] [= _ <-]. by destruct w.
  - by intros token [] w reply message _ _.
  - intros token r w Hr. simpl. by rewrite Hr.
  - done.
  - done.
Defined.

Lemma trust_follows_request_witness :
  exists r s, SetTrusted trust_server trust_json (fun _ => Err (EText "no URL")) trust_device trust_setup
      "vpn.example" 443 None true false = (r, s) /\
    r = Ok tt /\ ls_world s = true.
Proof.
  eexists. eexists. split; [vm_compute; reflexivity|]. split; [reflexivity|].
  destruct (trust_follows_request trust_server trust_json (fun _ => Err (EText "no URL")) trust_device trust_setup
    "vpn.example" 443 None true false (Ok tt) _ ltac:(vm_compute; reflexivity)) as (login & tail & _ & _ & _ & H & _).
  exact (H eq_refl).
Defined.
