(* ===== verification/Resolver.v ===== *)
(** The DNS resolver (resolve/resolver.go, resolve/cache.go). The expiring cache of
    github.com/patrickmn/go-cache is an interface with laws; the three [net.Resolver]s are
    lookups in a world of type [S]; time is in nanoseconds. *)

From S2P Require Import Prelude Core GoNet Dial.

Definition normalizeDNSName (host : string) : string :=
  TrimSuffix (ToLower (TrimSpace host)) ".".

(** What the resolver relies on of its cache: an entry set without expiration stays until it
    is set again, and setting one key does not change another. *)
Class DNSCache (C : Type) : Type := {
  cache_Get : Z -> string -> C -> option IP;
  cache_SetDefault : Z -> string -> IP -> C -> C;
  cache_SetForever : Z -> string -> IP -> C -> C;
  cache_forever : C -> string -> option IP;
  cache_forever_get now k c ip : cache_forever c k = Some ip -> cache_Get now k c = Some ip;
  cache_forever_set now k ip c : cache_forever (cache_SetForever now k ip c) k = Some ip;
  cache_forever_other now k k' ip c : k <> k' ->
    cache_forever (cache_SetForever now k ip c) k' = cache_forever c k';
  cache_default_other now k k' ip c : k <> k' ->
    cache_forever (cache_SetDefault now k ip c) k' = cache_forever c k';
  cache_default_get now k ip c : cache_Get now k (cache_SetDefault now k ip c) = Some ip
}.

Definition tcpFallbackPeriod : Z := 10 * 60 * 1000000000.

Section ResolverModel.
Context {C S : Type} `{DNSCache C}.

(** The lookups: remote DNS over UDP and TCP (IPv4), secondary DNS for "ip4" and "ip6". *)
Variable lookupUDP lookupTCP secondary4 secondary6 :
  string -> S -> result error (list IP) * S.

Record Resolver : Type := {
  rs_domainResources : gmap string DomainResource;
  rs_dnsResource : option (gmap string IP);
  rs_permanentDNS : gmap string IP;
  rs_useRemoteDNS : bool;
  rs_cache : C;
  rs_useTCP : bool;
  rs_timer : option Z;
}.

Definition set_cache (c : C) (r : Resolver) : Resolver :=
  {| rs_domainResources := rs_domainResources r; rs_dnsResource := rs_dnsResource r;
     rs_permanentDNS := rs_permanentDNS r; rs_useRemoteDNS := rs_useRemoteDNS r;
     rs_cache := c; rs_useTCP := rs_useTCP r; rs_timer := rs_timer r |}.

Definition set_tcp (useTCP : bool) (timer : option Z) (r : Resolver) : Resolver :=
  {| rs_domainResources := rs_domainResources r; rs_dnsResource := rs_dnsResource r;
     rs_permanentDNS := rs_permanentDNS r; rs_useRemoteDNS := rs_useRemoteDNS r;
     rs_cache := rs_cache r; rs_useTCP := useTCP; rs_timer := timer |}.

Definition getDNSCache (now : Z) (host : string) (r : Resolver) : option IP :=
  cache_Get now (normalizeDNSName host) (rs_cache r).

Definition setDNSCache (now : Z) (host : string) (ip : IP) (r : Resolver) : Resolver :=
  set_cache (cache_SetDefault now (normalizeDNSName host) ip (rs_cache r)) r.

Definition normalizeDNSRecords (order : list (string * IP)) : gmap string IP :=
  foldl (fun m '(host, address) => <[normalizeDNSName host := address]> m) ∅ order.

Definition SetPermanentDNS (now : Z) (host : string) (ip : option IP) (r : Resolver)
    : option error * Resolver :=
  let host := normalizeDNSName host in
  if is_empty host then (Some (EText "static DNS host is empty"), r)
  else match ip with
  | None => (Some (EText ("static DNS address for " +:+ quote host +:+ " is invalid")), r)
  | Some ip =>
      (None, {| rs_domainResources := rs_domainResources r; rs_dnsResource := rs_dnsResource r;
                rs_permanentDNS := <[host := ip]> (rs_permanentDNS r);
                rs_useRemoteDNS := rs_useRemoteDNS r;
                rs_cache := cache_SetForever now host ip (rs_cache r);
                rs_useTCP := rs_useTCP r; rs_timer := rs_timer r |})
  end.

Definition dns_resource (r : Resolver) (host : string) : option IP :=
  match rs_dnsResource r with Some m => m !! host | None => None end.

Definition ResolveStatic (host : string) (r : Resolver) : option IP :=
  let host := normalizeDNSName host in
  match rs_permanentDNS r !! host with
  | Some address => Some address
  | None => dns_resource r host
  end.

(** The order in which a [range] visits the domain resources, another one each time. *)
Definition MapOrder : Type := gmap string DomainResource -> list (string * DomainResource).

Definition map_order (order : MapOrder) : Prop := forall m, order m ≡ₚ map_to_list m.

Definition matchDomainResource (order : MapOrder) (host : string) (r : Resolver) : option DomainResource :=
  option_map snd
    (List.find (fun '(domain, _) => HasSuffix host domain) (order (rs_domainResources r))).

Definition IsVPNDomain (order : MapOrder) (host : string) (r : Resolver) : bool :=
  match matchDomainResource order (normalizeDNSName host) r with Some _ => true | None => false end.

(** [targets[0]] of a successful lookup, which [net.Resolver] never leaves empty; [None] is
    the panic. *)
Definition ResolveWithSecondaryDNS (now : Z) (host : string) (r : Resolver) (s : S)
    : option (result error IP * Resolver * S) :=
  match secondary4 host s with
  | (Ok (t :: _), s) => Some (Ok t, setDNSCache now host t r, s)
  | (Ok [], _) => None
  | (Err _, s) =>
      match secondary6 host s with
      | (Ok (t :: _), s) => Some (Ok t, setDNSCache now host t r, s)
      | (Ok [], _) => None
      | (Err e, s) => Some (Err e, r, s)
      end
  end.

Definition cacheRemoteResult (now : Z) (host : string) (addresses : list IP) (r : Resolver)
    : result error IP * Resolver :=
  match addresses with
  | [] => (Err (EText "remote DNS returned no IPv4 addresses"), r)
  | address :: _ => (Ok address, setDNSCache now host address r)
  end.

(** The timer function of [resolveRemote], when it has fired by [now]. *)
Definition fire_timer (now : Z) (r : Resolver) : Resolver :=
  match rs_timer r with
  | Some t => if bool_decide (t <= now) then set_tcp false None r else r
  | None => r
  end.

Definition resolveRemote (now : Z) (host : string) (r : Resolver) (s : S)
    : option (result error IP * Resolver * S) :=
  let done addresses r s :=
    let '(res, r) := cacheRemoteResult now host addresses r in Some (res, r, s) in
  if rs_useTCP r then
    match lookupTCP host s with
    | (Err _, s) => ResolveWithSecondaryDNS now host r s
    | (Ok ips, s) => done ips r s
    end
  else
    match lookupUDP host s with
    | (Ok ips, s) => done ips r s
    | (Err _, s) =>
        match lookupTCP host s with
        | (Err _, s) => ResolveWithSecondaryDNS now host r s
        | (Ok ips, s) =>
            let timer := match rs_timer r with
                         | Some t => Some t
                         | None => Some (now + tcpFallbackPeriod)
                         end in
            done ips (set_tcp true timer r) s
        end
    end.

(** The context returned by [Resolve]: [ok] is [resErr == nil]. *)
Definition resolve_ctx (ctx : DialCtx) (host : string) (resource : option DomainResource)
    (ok : bool) : DialCtx :=
  {| ctx_DomainResource := match resource with Some d => Some d | None => ctx_DomainResource ctx end;
     ctx_ResolveHost := if ok then Some host else ctx_ResolveHost ctx |}.

(** [Resolve] for a caller that is not cancelled and shares no lookup with another. *)
Definition Resolve (order : MapOrder) (now : Z) (ctx : DialCtx) (host : string) (r : Resolver) (s : S)
    : option (DialCtx * result error IP * Resolver * S) :=
  let r := fire_timer now r in
  let host := normalizeDNSName host in
  let resource := matchDomainResource order host r in
  let answer '(res, r, s) := Some (resolve_ctx ctx host resource (is_ok res), res, r, s) in
  match getDNSCache now host r with
  | Some ip => answer (Ok ip, r, s)
  | None =>
      match dns_resource r host with
      | Some ip => answer (Ok ip, r, s)
      | None =>
          x ← (if rs_useRemoteDNS r then resolveRemote now host r s
               else ResolveWithSecondaryDNS now host r s);
          answer x
      end
  end.

(** The wait of [Resolve] on a lookup shared through the single-flight group: what each
    [select] sees, in order. A shared lookup that was cancelled by its leader is retried. *)
Inductive lookup_event : Type :=
| LookupCtxDone (err : error)
| LookupResult (shared : bool) (ctxErr : option error) (r : result error IP).

Fixpoint await_lookup (events : list lookup_event) : option (result error IP) :=
  match events with
  | [] => None
  | LookupCtxDone err :: _ => Some (Err err)
  | LookupResult shared ctxErr r :: rest =>
      match r with
      | Err e =>
          if shared && match ctxErr with None => true | Some _ => false end
             && (errors_Is e "context.Canceled" || errors_Is e "context.DeadlineExceeded")
          then await_lookup rest
          else Some (Err e)
      | Ok ip => Some (Ok ip)
      end
  end.

(** The calls that change the state of a resolver. *)
Inductive resolver_step : Resolver -> Resolver -> Prop :=
| rs_step_resolve order now ctx host r s c res r' s' :
    map_order order -> Resolve order now ctx host r s = Some (c, res, r', s') -> resolver_step r r'
| rs_step_permanent now host ip r : resolver_step r (SetPermanentDNS now host ip r).2
| rs_step_timer now r : resolver_step r (fire_timer now r).

End ResolverModel.

Arguments Resolver : clear implicits.

(** ** Theorems *)

Section ResolverFacts.
Context {C S : Type} `{DNSCache C}.
Variable lookupUDP lookupTCP secondary4 secondary6 :
  string -> S -> result error (list IP) * S.

(** The domain resource of a host, or that it has none. *)
Definition resource_matches (r : Resolver C) (host : string) (resource : option DomainResource) : Prop :=
  match resource with
  | Some d => exists domain, rs_domainResources r !! domain = Some d /\ HasSuffix host domain = true
  | None => forall domain d, rs_domainResources r !! domain = Some d -> HasSuffix host domain = false
  end.

Lemma matchDomainResource_spec order host (r : Resolver C) :
  map_order order -> resource_matches r host (matchDomainResource order host r).
Proof.
  intros Ho. specialize (Ho (rs_domainResources r)). unfold matchDomainResource. destruct (List.find _ _) as [[domain d]|] eqn:Hf; simpl.
  - apply List.find_some in Hf as [Hin%list_elem_of_In Hs]. exists domain. split; [|done].
    by rewrite Ho, elem_of_map_to_list in Hin.
  - intros domain d Hd. apply elem_of_map_to_list in Hd. rewrite <-Ho, list_elem_of_In in Hd.
    by apply (List.find_none _ _ Hf) in Hd.
Qed.

(** The matching resources of a host are all the same. *)
Definition one_resource (r : Resolver C) (host : string) : Prop :=
  forall d d', resource_matches r host (Some d) -> resource_matches r host (Some d') -> d = d'.

Lemma one_resource_same (r : Resolver C) host o o' :
  one_resource r host -> resource_matches r host o -> resource_matches r host o' -> o = o'.
Proof.
  intros H1 Ho Ho'. destruct o as [d|], o' as [d'|]; [f_equal; by apply H1|..|done].
  - destruct Ho as (domain & Hd & Hs). by rewrite (Ho' domain d Hd) in Hs.
  - destruct Ho' as (domain & Hd & Hs). by rewrite (Ho domain d' Hd) in Hs.
Qed.

Definition same_setup (r r' : Resolver C) : Prop :=
  rs_domainResources r' = rs_domainResources r /\ rs_dnsResource r' = rs_dnsResource r /\
  rs_permanentDNS r' = rs_permanentDNS r /\ rs_useRemoteDNS r' = rs_useRemoteDNS r.

Lemma fire_timer_setup now (r : Resolver C) :
  same_setup r (fire_timer now r) /\ rs_cache (fire_timer now r) = rs_cache r.
Proof. unfold fire_timer. destruct (rs_timer r); [case_bool_decide|]; done. Qed.

(** What a lookup leaves behind: the setup, and a cache that differs at most by the answer. *)
Definition looked_up (now : Z) (host : string) (r : Resolver C) (res : result error IP)
    (r' : Resolver C) : Prop :=
  same_setup r r' /\
  match res with
  | Ok ip => rs_cache r' = cache_SetDefault now (normalizeDNSName host) ip (rs_cache r)
  | Err _ => rs_cache r' = rs_cache r
  end.

Lemma secondary_looked_up now host r s res r' s' :
  ResolveWithSecondaryDNS secondary4 secondary6 now host r s = Some (res, r', s') ->
  looked_up now host r res r'.
Proof.
  unfold ResolveWithSecondaryDNS, looked_up, same_setup.
  destruct (secondary4 host s) as [[[|t ts]|e] s1]; [done|by intros [= <- <- <-]|].
  destruct (secondary6 host s1) as [[[|t ts]|e2] s2]; [done|by intros [= <- <- <-]..].
Qed.

Lemma remote_looked_up now host r s res r' s' :
  resolveRemote lookupUDP lookupTCP secondary4 secondary6 now host r s = Some (res, r', s') ->
  looked_up now host r res r'.
Proof.
  unfold resolveRemote, cacheRemoteResult.
  destruct (rs_useTCP r).
  - destruct (lookupTCP host s) as [[[|t ts]|e] s1]; [by intros [= <- <- <-]..|].
    apply secondary_looked_up.
  - destruct (lookupUDP host s) as [[[|t ts]|e] s1]; [by intros [= <- <- <-]..|].
    destruct (lookupTCP host s1) as [[[|t ts]|e2] s2]; [by intros [= <- <- <-]..|].
    apply secondary_looked_up.
Qed.

(** The three ways [Resolve] answers. *)
Lemma Resolve_cases order now ctx host r s c res r' s' :
  Resolve lookupUDP lookupTCP secondary4 secondary6 order now ctx host r s
    = Some (c, res, r', s') ->
  let h := normalizeDNSName host in
  let r0 := fire_timer now r in
  c = resolve_ctx ctx h (matchDomainResource order h r) (is_ok res) /\
  ((exists ip, getDNSCache now h r = Some ip /\ res = Ok ip /\ r' = r0 /\ s' = s) \/
   (exists ip, getDNSCache now h r = None /\ dns_resource r h = Some ip /\ res = Ok ip /\
      r' = r0 /\ s' = s) \/
   (getDNSCache now h r = None /\ dns_resource r h = None /\ looked_up now h r0 res r' /\
    (if rs_useRemoteDNS r
     then resolveRemote lookupUDP lookupTCP secondary4 secondary6 now h r0 s
     else ResolveWithSecondaryDNS secondary4 secondary6 now h r0 s) = Some (res, r', s'))).
Proof.
  intros HR h r0. unfold Resolve in HR. fold h r0 in HR.
  destruct (fire_timer_setup now r) as [(E1 & E2 & E3 & E4) E5]. fold r0 in E1, E2, E3, E4, E5.
  unfold getDNSCache, dns_resource, matchDomainResource in *. rewrite E1, E2, E4, E5 in HR.
  destruct (cache_Get now (normalizeDNSName h) (rs_cache r)) as [ip|] eqn:Hc.
  { injection HR as <- <- <- <-. split; [done|]. left. by exists ip. }
  destruct (match rs_dnsResource r with Some m => m !! h | None => None end) as [ip|] eqn:Hd.
  { injection HR as <- <- <- <-. split; [done|]. right; left. by exists ip. }
  obind HR. destruct p as [[res1 r1] s1]. injection HR as <- <- <- <-.
  split; [done|]. right; right. split_and!; try done.
  destruct (rs_useRemoteDNS r); [by eapply remote_looked_up|by eapply secondary_looked_up].
Qed.

Definition static_inv (r : Resolver C) : Prop :=
  forall k ip, rs_permanentDNS r !! k = Some ip -> cache_forever (rs_cache r) k = Some ip.

Lemma looked_up_static now host r res r' :
  static_inv r -> getDNSCache now host r = None -> looked_up now host r res r' -> static_inv r'.
Proof.
  intros Hi Hn [(_ & _ & E & _) Hc] k ip. rewrite E. intros Hk. specialize (Hi k ip Hk).
  destruct res; rewrite Hc; [|done].
  rewrite cache_default_other; [done|]. intros <-. unfold getDNSCache in Hn.
  by rewrite (cache_forever_get now _ _ _ Hi) in Hn.
Qed.

Lemma fire_timer_static now r : static_inv r -> static_inv (fire_timer now r).
Proof.
  destruct (fire_timer_setup now r) as [(_ & _ & E & _) Ec]. unfold static_inv. by rewrite E, Ec.
Qed.

Lemma resolver_step_static r r' :
  static_inv r ->
  resolver_step lookupUDP lookupTCP secondary4 secondary6 r r' -> static_inv r'.
Proof.
  intros Hi Hs. destruct Hs as [order now ctx host r s c res r' s' _ HR|now host ip r|now r].
  - destruct (Resolve_cases _ _ _ _ _ _ _ _ _ _ HR)
      as [_ [(ip & _ & _ & -> & _)|[(ip & _ & _ & _ & -> & _)|(Hn & _ & Hl & _)]]];
      [by apply fire_timer_static..|].
    apply (looked_up_static now (normalizeDNSName host) (fire_timer now r) res);
      [by apply fire_timer_static| |done].
    unfold getDNSCache in *. by rewrite (proj2 (fire_timer_setup now r)).
  - unfold SetPermanentDNS. destruct (is_empty _); [done|]. destruct ip as [ip|]; [|done].
    intros k ip'. simpl. intros [[<- <-]|[Hne Hk]]%lookup_insert_Some.
    + apply cache_forever_set.
    + rewrite cache_forever_other by done. by apply Hi.
  - by apply fire_timer_static.
Qed.

(** A resolver that starts without static records. *)
Definition resolver_reachable (r : Resolver C) : Prop :=
  exists r0, rs_permanentDNS r0 = ∅ /\
    rtc (resolver_step lookupUDP lookupTCP secondary4 secondary6) r0 r.

Lemma resolver_reachable_static r : resolver_reachable r -> static_inv r.
Proof.
  intros (r0 & Hp & Hr). revert Hr. apply (rtc_closed _ static_inv r0 r).
  - apply resolver_step_static.
  - intros k ip. by rewrite Hp.
Qed.
End ResolverFacts.

(** A static DNS record always wins. At every point of any sequence of resolutions,
    timer expiries and static registrations, a host with a static record (whose normalised
    name is stable under normalisation) resolves to that record at any time, without any
    lookup and without changing the world, and [ResolveStatic] agrees; no answer from DNS
    ever replaces it. *)
Theorem static_record_wins {C S} `{DNSCache C}
    (lookupUDP lookupTCP secondary4 secondary6 : string -> S -> result error (list IP) * S)
    (r : Resolver C)
    (Hr : resolver_reachable lookupUDP lookupTCP secondary4 secondary6 r)
    (host : string) (ip : IP)
    (Hnorm : normalizeDNSName (normalizeDNSName host) = normalizeDNSName host)
    (Hp : rs_permanentDNS r !! normalizeDNSName host = Some ip) :
  ResolveStatic host r = Some ip /\
  forall order now ctx s, exists c r',
    Resolve lookupUDP lookupTCP secondary4 secondary6 order now ctx host r s
      = Some (c, Ok ip, r', s) /\
    ctx_ResolveHost c = Some (normalizeDNSName host) /\
    rs_permanentDNS r' = rs_permanentDNS r.
Proof.
  split; [unfold ResolveStatic; by rewrite Hp|]. intros order now ctx s.
  pose proof (resolver_reachable_static _ _ _ _ r Hr _ _ Hp) as Hf.
  unfold Resolve, getDNSCache. rewrite Hnorm.
  destruct (fire_timer_setup now r) as [(_ & _ & E & _) Ec]. rewrite Ec.
  rewrite (cache_forever_get now _ _ _ Hf). eexists _, _. by split_and!.
Qed.

(** C38: a resolution is stable. If [Resolve] returned an address, resolving the same name
    again at the same time returns the same address without any lookup and changes nothing but a timer that is due,
    whatever the orders are in which the two calls walk the domain resources. The resolved host is recorded in the context exactly
    when the resolution succeeded. The domain resource of the context is one that matches the name, when there is one,
    and the context's own otherwise; so the two contexts are the same if the resources that match are. When several
    match, each call may pick another one. *)
Theorem resolve_is_cached {C S} `{DNSCache C}
    (lookupUDP lookupTCP secondary4 secondary6 : string -> S -> result error (list IP) * S)
    (order : MapOrder) (Ho : map_order order)
    (now : Z) (ctx : DialCtx) (host : string) (r r' : Resolver C) (s s' : S) (c : DialCtx)
    (res : result error IP)
    (HR : Resolve lookupUDP lookupTCP secondary4 secondary6 order now ctx host r s
            = Some (c, res, r', s')) :
  let h := normalizeDNSName host in
  (ctx_ResolveHost ctx = None -> (ctx_ResolveHost c = Some h <-> is_ok res = true)) /\
  (exists resource, resource_matches r h resource /\
     ctx_DomainResource c = match resource with Some d => Some d | None => ctx_DomainResource ctx end) /\
  (forall ip order2 s2, res = Ok ip -> map_order order2 ->
     exists c2, Resolve lookupUDP lookupTCP secondary4 secondary6 order2 now ctx host r' s2
       = Some (c2, Ok ip, fire_timer now r', s2) /\
       ctx_ResolveHost c2 = ctx_ResolveHost c /\
       (exists resource, resource_matches r h resource /\
          ctx_DomainResource c2 = match resource with Some d => Some d | None => ctx_DomainResource ctx end) /\
       (one_resource r h -> c2 = c)).
Proof.
  intros h. destruct (Resolve_cases _ _ _ _ _ _ _ _ _ _ _ _ _ _ HR) as [-> Hcase]. fold h in Hcase |- *.
  split_and!.
  - intros Hn. simpl. rewrite Hn. destruct (is_ok res); by split.
  - exists (matchDomainResource order h r). split; [by apply matchDomainResource_spec|done].
  - intros ip order2 s2 -> Ho2.
    assert (same_setup r r') as (E1 & E2 & E3 & E4).
    { destruct (fire_timer_setup now r) as [(F1 & F2 & F3 & F4) _].
      destruct Hcase as [(_ & _ & _ & -> & _)|[(_ & _ & _ & _ & -> & _)|(_ & _ & [Hs _] & _)]];
        [done..|]. destruct Hs as (G1 & G2 & G3 & G4). split_and!; congruence. }
    exists (resolve_ctx ctx h (matchDomainResource order2 h r) true). split_and!; [|done| |].
    + unfold Resolve. destruct (fire_timer_setup now r') as [(F1 & F2 & F3 & F4) F5]. fold h.
      unfold getDNSCache, dns_resource, matchDomainResource in *.
      rewrite F1, F2, F5, E1, E2.
      destruct Hcase as [(ip' & Hc & [= ->] & -> & _)
        |[(ip' & Hc & Hd & [= ->] & -> & _)|(_ & _ & [_ Hl] & _)]].
      * rewrite (proj2 (fire_timer_setup now r)), Hc. done.
      * rewrite (proj2 (fire_timer_setup now r)), Hc, Hd. done.
      * rewrite Hl, cache_default_get. done.
    + exists (matchDomainResource order2 h r). split; [by apply matchDomainResource_spec|done].
    + intros H1. f_equal. by apply (one_resource_same r h); [|apply matchDomainResource_spec..].
Qed.

(** The fallback to DNS over TCP lasts ten minutes. When a remote lookup fails over UDP
    and succeeds over TCP, the resolver switches to TCP until ten minutes later. Until then
    no resolution consults DNS over UDP and the switch keeps its deadline; from the deadline
    on the resolver is back to UDP. *)
Theorem tcp_fallback_window {C S} `{DNSCache C}
    (lookupUDP lookupTCP secondary4 secondary6 : string -> S -> result error (list IP) * S)
    (domain_order : MapOrder) :
  (forall now host (r : Resolver C) s s1 s2 e ip ips,
     rs_useTCP r = false -> rs_timer r = None ->
     lookupUDP host s = (Err e, s1) -> lookupTCP host s1 = (Ok (ip :: ips), s2) ->
     exists r', resolveRemote lookupUDP lookupTCP secondary4 secondary6 now host r s
                  = Some (Ok ip, r', s2) /\
       rs_useTCP r' = true /\ rs_timer r' = Some (now + tcpFallbackPeriod)) /\
  (forall now ctx host (r : Resolver C) s t lookupUDP',
     rs_useTCP r = true -> rs_timer r = Some t -> now < t ->
     Resolve lookupUDP lookupTCP secondary4 secondary6 domain_order now ctx host r s =
       Resolve lookupUDP' lookupTCP secondary4 secondary6 domain_order now ctx host r s /\
     forall c res r' s',
       Resolve lookupUDP lookupTCP secondary4 secondary6 domain_order now ctx host r s
         = Some (c, res, r', s') -> rs_useTCP r' = true /\ rs_timer r' = Some t) /\
  (forall now (r : Resolver C) t, rs_timer r = Some t -> t <= now ->
     rs_useTCP (fire_timer now r) = false /\ rs_timer (fire_timer now r) = None).
Proof.
  split_and!.
  - intros now host r s s1 s2 e ip ips Hu Ht HU HT. unfold resolveRemote.
    rewrite Hu, HU, HT. simpl. rewrite Ht. by eexists.
  - intros now ctx host r s t lookupUDP' Hu Ht Hnow.
    assert (fire_timer now r = r) as Hf.
    { unfold fire_timer. rewrite Ht. by rewrite bool_decide_false by lia. }
    assert (forall f host s, resolveRemote f lookupTCP secondary4 secondary6 now host r s =
      match lookupTCP host s with
      | (Err _, s) => ResolveWithSecondaryDNS secondary4 secondary6 now host r s
      | (Ok ips, s) => let '(res, r) := cacheRemoteResult now host ips r in Some (res, r, s)
      end) as Hr by (intros; unfold resolveRemote; by rewrite Hu).
    split; [unfold Resolve; by rewrite Hf, !Hr|].
    assert (forall h s res r' s',
      ResolveWithSecondaryDNS secondary4 secondary6 now h r s = Some (res, r', s') ->
      rs_useTCP r' = true /\ rs_timer r' = Some t) as Hsec.
    { intros h s0 res r' s'. unfold ResolveWithSecondaryDNS.
      destruct (secondary4 h s0) as [[[|? ?]|?] s1]; [done|by intros [= <- <- <-]|].
      by destruct (secondary6 h s1) as [[[|? ?]|?] s2]; [|intros [= <- <- <-]..]. }
    intros c res r' s' HR. unfold Resolve in HR. rewrite Hf in HR.
    destruct (getDNSCache _ _ _); [by simplify_eq|].
    destruct (dns_resource _ _); [by simplify_eq|]. obind HR.
    destruct p as [[res1 r1] s1]. injection HR as <- <- <- <-.
    destruct (rs_useRemoteDNS r); [|by eapply Hsec].
    rewrite Hr in E. destruct (lookupTCP _ s) as [[ips|e] s2]; [|by eapply Hsec].
    unfold cacheRemoteResult in E. destruct ips; by simplify_eq/=.
  - intros now r t Ht Hnow. unfold fire_timer. rewrite Ht.
    by rewrite bool_decide_true by lia.
Qed.

(** A cache that satisfies the interface: entries with an optional deadline, 60 seconds by
    default. *)
Record ttl_cache : Type := { ttl_entries : gmap string (IP * option Z) }.

Definition ttl_Get (now : Z) (k : string) (c : ttl_cache) : option IP :=
  match ttl_entries c !! k with
  | Some (ip, None) => Some ip
  | Some (ip, Some t) => if bool_decide (now < t) then Some ip else None
  | None => None
  end.

Definition ttl_Set (k : string) (ip : IP) (deadline : option Z) (c : ttl_cache) : ttl_cache :=
  {| ttl_entries := <[k := (ip, deadline)]> (ttl_entries c) |}.

Definition ttl_forever (c : ttl_cache) (k : string) : option IP :=
  match ttl_entries c !! k with Some (ip, None) => Some ip | _ => None end.

#[export] Program Instance ttl_cache_DNSCache : DNSCache ttl_cache := {|
  cache_Get := ttl_Get;
  cache_SetDefault := fun now k ip c => ttl_Set k ip (Some (now + 60000000000)) c;
  cache_SetForever := fun _ k ip c => ttl_Set k ip None c;
  cache_forever := ttl_forever
|}.
Next Obligation. intros now k c ip. unfold ttl_forever, ttl_Get. by destruct (ttl_entries c !! k) as [[? []]|]. Qed.
Next Obligation. intros now k ip c. unfold ttl_forever. simpl. by rewrite lookup_insert_eq. Qed.
Next Obligation. intros now k k' ip c Hk. unfold ttl_forever. simpl. by rewrite lookup_insert_ne. Qed.
Next Obligation. intros now k k' ip c Hk. unfold ttl_forever. simpl. by rewrite lookup_insert_ne. Qed.
Next Obligation.
  intros now k ip c. unfold ttl_Get. simpl. rewrite lookup_insert_eq. by rewrite bool_decide_true by lia.
Qed.

Definition no_answer (host : string) (s : unit) : result error (list IP) * unit :=
  (Err (EText "no such host"), s).

Definition sample_resolver : Resolver ttl_cache :=
  {| rs_domainResources := ∅; rs_dnsResource := None; rs_permanentDNS := ∅;
     rs_useRemoteDNS := false; rs_cache := {| ttl_entries := ∅ |}; rs_useTCP := false;
     rs_timer := None |}.

Lemma static_record_wins_witness :
  exists r, r = (SetPermanentDNS 5 "Printer.LAN." (Some (IPv4 10 0 0 9)) sample_resolver).2 /\
    ResolveStatic "printer.lan" r = Some (IPv4 10 0 0 9).
Proof.
  eexists. split; [reflexivity|].
  refine (proj1 (static_record_wins no_answer no_answer no_answer no_answer
    _ _ "printer.lan"%string (IPv4 10 0 0 9) _ _)); [|vm_compute; reflexivity|vm_compute; reflexivity].
  exists sample_resolver. split; [reflexivity|].
  eapply rtc_l; [apply (rs_step_permanent no_answer no_answer no_answer no_answer
    5 "Printer.LAN." (Some (IPv4 10 0 0 9)) sample_resolver)|]. apply rtc_refl.
Defined.

Definition one_answer (host : string) (s : unit) : result error (list IP) * unit :=
  (Ok [IPv4 10 0 0 8], s).

Definition sample_domain (app : string) : DomainResource :=
  {| dr_PortMin := 1; dr_PortMax := 65535; dr_Protocol := "all"; dr_AppID := app; dr_NodeGroupID := "" |}.

(** Two domain resources that both match "x.a.b". *)
Definition overlapping_resolver : Resolver ttl_cache :=
  {| rs_domainResources := {[ "a.b" := sample_domain "1"; "b" := sample_domain "2" ]}; rs_dnsResource := None;
     rs_permanentDNS := ∅; rs_useRemoteDNS := false; rs_cache := {| ttl_entries := ∅ |}; rs_useTCP := false;
     rs_timer := None |}.

Definition backwards : MapOrder := fun m => reverse (map_to_list m).

Lemma map_to_list_order : map_order map_to_list.
Proof. intros m. reflexivity. Qed.

Lemma backwards_order : map_order backwards.
Proof. intros m. apply reverse_Permutation. Qed.

Lemma resolve_is_cached_witness :
  exists c r' c2, Resolve no_answer no_answer one_answer no_answer map_to_list 5 emptyCtx "x.a.b" overlapping_resolver tt
      = Some (c, Ok (IPv4 10 0 0 8), r', tt) /\
    Resolve no_answer no_answer no_answer no_answer backwards 5 emptyCtx "x.a.b" r' tt
      = Some (c2, Ok (IPv4 10 0 0 8), r', tt) /\
    ctx_ResolveHost c2 = ctx_ResolveHost c /\ ctx_DomainResource c2 <> ctx_DomainResource c.
Proof.
  destruct (Resolve no_answer no_answer one_answer no_answer map_to_list 5 emptyCtx "x.a.b"
    overlapping_resolver tt) as [[[[c res] r'] []]|] eqn:E; [|vm_compute in E; discriminate E].
  assert (res = Ok (IPv4 10 0 0 8)) as -> by (vm_compute in E; by injection E as _ <- _).
  destruct (resolve_is_cached no_answer no_answer one_answer no_answer map_to_list map_to_list_order 5
    emptyCtx "x.a.b" overlapping_resolver r' tt tt c (Ok (IPv4 10 0 0 8)) E) as (_ & _ & Hagain).
  destruct (Hagain _ backwards tt eq_refl backwards_order) as (c2 & E2 & Hh & _).
  exists c, r', c2. split; [reflexivity|]. vm_compute in E. injection E as <- <-.
  split; [|split; [exact Hh|]]; revert E2; vm_compute; intros [= <-]; [reflexivity|discriminate].
Defined.
