(* ===== verification/ResolverSetup.v ===== *)
(** How the DNS resolver is built and closed (resolve/resolver.go): the three [net.Resolver]s are known by what
    their [Dial] asks for. *)

From S2P Require Import Prelude Core GoNet Dial Resolver.

(** What a lookup dials: the VPN's stack, the dialer that was given, or one of its own. *)
Inductive DNSDial : Type :=
| StackUDP (ip : option IP) (port : Z)
| StackTCP (ip : option IP) (port : Z)
| SecondaryDial (network address : string)
| SystemDial (network address : string).

(** [Dial] of each resolver with the network and the address that the library chose. *)
Definition remoteUDP_Dial (remoteDNSServer network address : string) : DNSDial := StackUDP (ParseIP remoteDNSServer) 53.
Definition remoteTCP_Dial (remoteDNSServer network address : string) : DNSDial := StackTCP (ParseIP remoteDNSServer) 53.

(** [None] is a resolver without a [Dial] of its own: the library dials the system's servers. *)
Definition secondary_Dial (secondaryDial : bool) (secondaryDNSServer : string)
    : option (string -> string -> DNSDial) :=
  if secondaryDial then
    Some (fun network address =>
      SecondaryDial network
        (if negb (is_empty secondaryDNSServer) then JoinHostPort secondaryDNSServer "53" else address))
  else if negb (is_empty secondaryDNSServer) then
    Some (fun network _ => SystemDial network (JoinHostPort secondaryDNSServer "53"))
  else None.

(** [dnsResource] in the order in which [range] visits it; a nil map is [None]. [cache] is the one of go-cache
    with the default expiration [ttl]. *)
Definition NewResolverWithSecondaryDialer {C} (cache : Z -> C) (ttl : Z) (domainResources : gmap string DomainResource)
    (dnsResource : option (list (string * IP))) (useRemoteDNS : bool) : Resolver C :=
  {| rs_domainResources := domainResources; rs_dnsResource := normalizeDNSRecords <$> dnsResource;
     rs_permanentDNS := ∅; rs_useRemoteDNS := useRemoteDNS; rs_cache := cache (ttl * 1000000000);
     rs_useTCP := false; rs_timer := None |}.

Definition defaultRemoteDNSLookupTimeout : Z := 1500 * 1000000.

(** [lookupRemoteIP]: how long a lookup may take. *)
Definition remote_timeout (remoteDNSTimeout : Z) : Z :=
  if bool_decide (remoteDNSTimeout <= 0) then defaultRemoteDNSLookupTimeout else remoteDNSTimeout.

(** [Close]: the timer that would end the use of TCP is stopped. *)
Definition resolver_Close {C} (r : Resolver C) : Resolver C :=
  {| rs_domainResources := rs_domainResources r; rs_dnsResource := rs_dnsResource r;
     rs_permanentDNS := rs_permanentDNS r; rs_useRemoteDNS := rs_useRemoteDNS r; rs_cache := rs_cache r;
     rs_useTCP := rs_useTCP r; rs_timer := None |}.

(** ** Lemmas *)

(** Lookups for the VPN go through its stack, to the one server; the others never do. *)
Lemma dns_dials_stay_apart remote secondaryDial secondary network address :
  (exists ip, remoteUDP_Dial remote network address = StackUDP ip 53 /\ remoteTCP_Dial remote network address = StackTCP ip 53 /\
     ip = ParseIP remote) /\
  match secondary_Dial secondaryDial secondary with
  | Some dial => exists to, (dial network address = SecondaryDial network to \/ dial network address = SystemDial network to) /\
      (secondary <> ""%string -> to = JoinHostPort secondary "53")
  | None => secondaryDial = false /\ secondary = ""%string
  end.
Proof.
  split; [by exists (ParseIP remote)|]. unfold secondary_Dial, is_empty. destruct secondaryDial.
  - eexists. split; [by left|]. intros H. by rewrite bool_decide_false.
  - case_bool_decide as H; cbn; [done|]. eexists. split; [by right|done].
Qed.

(** A resolver that was just built is one from which Resolver's theorems start. *)
Lemma new_resolver_reachable {C S} `{DNSCache C} lookupUDP lookupTCP secondary4 secondary6
    (cache : Z -> C) ttl domainResources dnsResource useRemoteDNS :
  resolver_reachable (S := S) lookupUDP lookupTCP secondary4 secondary6
    (NewResolverWithSecondaryDialer cache ttl domainResources dnsResource useRemoteDNS).
Proof. eexists. split; [|apply rtc_refl]. done. Qed.

(** After [Close] no timer changes the resolver any more. *)
Lemma closed_timer {C} now (r : Resolver C) : fire_timer now (resolver_Close r) = resolver_Close r.
Proof. done. Qed.
