(* ===== verification/Base64.v ===== *)
(** [base64.StdEncoding] (package encoding/base64) as the resume states use it: padded
    encoding, and a decoder that skips line breaks and does not check the unused bits of
    the last quantum. *)

From S2P Require Import Prelude.

Definition encodeStd : list ascii :=
  chars "ABCDEFGHIJKLMNOPQRSTUVWXYZabcdefghijklmnopqrstuvwxyz0123456789+/".

Definition b64_char (i : Z) : ascii := nth (Z.to_nat i) encodeStd "="%char.

Fixpoint index_of (c : ascii) (l : list ascii) (i : Z) : option Z :=
  match l with
  | [] => None
  | d :: l' => if bool_decide (c = d) then Some i else index_of c l' (i + 1)
  end.

Definition b64_value (c : ascii) : option Z := index_of c encodeStd 0.

Fixpoint b64_encode (data : list Z) : list ascii :=
  match data with
  | [] => []
  | [a] => [b64_char (a / 4); b64_char (a mod 4 * 16); "="%char; "="%char]
  | [a; b] =>
      [b64_char (a / 4); b64_char (a mod 4 * 16 + b / 16); b64_char (b mod 16 * 4); "="%char]
  | a :: b :: c :: rest =>
      b64_char (a / 4) :: b64_char (a mod 4 * 16 + b / 16)
        :: b64_char (b mod 16 * 4 + c / 64) :: b64_char (c mod 64) :: b64_encode rest
  end.

Definition EncodeToString (data : list Z) : string := of_chars (b64_encode data).

(** One quantum of four characters at a time; [None] is a [CorruptInputError]. *)
Fixpoint b64_decode (l : list ascii) : option (list Z) :=
  match l with
  | [] => Some []
  | w :: x :: y :: z :: rest =>
      vw ← b64_value w;
      vx ← b64_value x;
      if bool_decide (y = "="%char) then
        if bool_decide (z = "="%char) && is_nil rest then Some [vw * 4 + vx / 16] else None
      else
        vy ← b64_value y;
        if bool_decide (z = "="%char) then
          if is_nil rest then Some [vw * 4 + vx / 16; vx mod 16 * 16 + vy / 4] else None
        else
          vz ← b64_value z;
          tail ← b64_decode rest;
          Some (vw * 4 + vx / 16 :: vx mod 16 * 16 + vy / 4 :: vy mod 4 * 64 + vz :: tail)
  | _ => None
  end.

Definition is_line_break (c : ascii) : bool := bool_decide (c = "010"%char \/ c = "013"%char).

Definition DecodeString (s : string) : result error (list Z) :=
  match b64_decode (List.filter (fun c => negb (is_line_break c)) (chars s)) with
  | Some data => Ok data
  | None => Err (EText "illegal base64 data")
  end.

(** ** Round trip *)

Definition is_byte (b : Z) : Prop := 0 <= b < 256.

Lemma b64_alphabet (f : Z -> bool) :
  forallb f (map Z.of_nat (seq 0 64)) = true -> forall i, 0 <= i < 64 -> f i = true.
Proof.
  intros H i Hi. rewrite forallb_forall in H. apply H. apply in_map_iff.
  exists (Z.to_nat i). split; [lia|]. apply in_seq. lia.
Qed.

Lemma b64_value_char i : 0 <= i < 64 -> b64_value (b64_char i) = Some i.
Proof.
  intros Hi.
  pose proof (b64_alphabet
    (fun i => match b64_value (b64_char i) with Some j => (i =? j)%Z | None => false end)
    eq_refl i Hi) as H.
  simpl in H. destruct (b64_value _); [|done]. by apply Z.eqb_eq in H as ->.
Qed.

Lemma b64_char_plain i :
  0 <= i < 64 -> b64_char i <> "="%char /\ is_line_break (b64_char i) = false.
Proof.
  intros Hi.
  pose proof (b64_alphabet
    (fun i => negb (Ascii.eqb (b64_char i) "="%char) && negb (is_line_break (b64_char i)))
    eq_refl i Hi) as H.
  simpl in H. bool_hyps. split; [|done]. by apply Ascii.eqb_neq.
Qed.

Lemma b64_ind (P : list Z -> Prop) :
  P [] -> (forall a, P [a]) -> (forall a b, P [a; b]) ->
  (forall a b c l, P l -> P (a :: b :: c :: l)) -> forall l, P l.
Proof.
  intros H0 H1 H2 H3. fix IH 1. intros [|a [|b [|c l]]]; [exact H0|apply H1|apply H2|apply H3, IH].
Qed.

(** Bounds on the sextets of bytes, and the bytes back from their sextets. *)
Ltac sextets := unfold is_byte in *; Z.div_mod_to_equations; lia.

Lemma b64_encode_plain data :
  Forall is_byte data ->
  List.filter (fun c => negb (is_line_break c)) (b64_encode data) = b64_encode data.
Proof.
  induction data as [|a|a b|a b c data IH] using b64_ind; intros Hb; [done|..];
    repeat match goal with
    | H : Forall is_byte (_ :: _) |- _ => apply Forall_cons_1 in H as [? ?]
    end; simpl;
    rewrite ?(proj2 (b64_char_plain (a / 4) ltac:(sextets))),
      ?(proj2 (b64_char_plain (a mod 4 * 16) ltac:(sextets))),
      ?(proj2 (b64_char_plain (a mod 4 * 16 + b / 16) ltac:(sextets))),
      ?(proj2 (b64_char_plain (b mod 16 * 4) ltac:(sextets))),
      ?(proj2 (b64_char_plain (b mod 16 * 4 + c / 64) ltac:(sextets))),
      ?(proj2 (b64_char_plain (c mod 64) ltac:(sextets))); simpl; try done.
  by rewrite IH.
Qed.

Lemma b64_decode_encode data : Forall is_byte data -> b64_decode (b64_encode data) = Some data.
Proof.
  induction data as [|a|a b|a b c data IH] using b64_ind; intros Hb; [done|..];
    repeat match goal with
    | H : Forall is_byte (_ :: _) |- _ => apply Forall_cons_1 in H as [? ?]
    end; simpl;
    rewrite ?(b64_value_char (a / 4) ltac:(sextets)),
      ?(b64_value_char (a mod 4 * 16) ltac:(sextets)),
      ?(b64_value_char (a mod 4 * 16 + b / 16) ltac:(sextets)),
      ?(b64_value_char (b mod 16 * 4) ltac:(sextets)),
      ?(b64_value_char (b mod 16 * 4 + c / 64) ltac:(sextets)),
      ?(b64_value_char (c mod 64) ltac:(sextets)); simpl;
    rewrite ?(bool_decide_eq_false_2 _ (proj1 (b64_char_plain (b mod 16 * 4) ltac:(sextets)))),
      ?(bool_decide_eq_false_2 _
          (proj1 (b64_char_plain (b mod 16 * 4 + c / 64) ltac:(sextets)))),
      ?(bool_decide_eq_false_2 _ (proj1 (b64_char_plain (c mod 64) ltac:(sextets)))); simpl.
  - f_equal. f_equal. sextets.
  - f_equal. f_equal; [sextets|]. f_equal. sextets.
  - rewrite IH by done. simpl. do 2 f_equal; [sextets|]. f_equal; [sextets|]. f_equal. sextets.
Qed.

Lemma DecodeString_EncodeToString data :
  Forall is_byte data -> DecodeString (EncodeToString data) = Ok data.
Proof.
  intros Hb. unfold DecodeString, EncodeToString.
  by rewrite chars_of_chars, b64_encode_plain, b64_decode_encode.
Qed.
