(* ===== verification/RuntimeStart.v ===== *)
(** Starting one aTrust runtime (internal/atrustruntime/runtime.go, resume.go): resume
    states, set-up errors and the cleanup of a start that fails half-way. *)

From S2P Require Import Prelude Core Base64.

(** [atrustruntime.Config], the fields this part reads. *)
Record StartConfig : Type := {
  sc_ResumeState : option ResumeState;
  sc_ServerAddress : string;
  sc_ServerPort : Z;
  sc_Username : string;
  sc_ClientDataFile : string;
  sc_ResourceFile : string;
  sc_SetupNetwork : bool;
}.

(** ** Resume states *)

Section Resume.
(** The device identifier that [json.Unmarshal] finds in client data. *)
Variable client_device : list Z -> result error string.

Definition decodeResumeState (config : StartConfig) (state : ResumeState)
    : result error (list Z * Z) :=
  if negb (bool_decide (resume_Format state = ResumeStateFormatATrustClientData))
     || negb (bool_decide (resume_Version state = ResumeStateVersion1)) then
    Err (WrapError ErrorCodeResumeStateInvalid
           ("unsupported resume state format " +:+ quote (resume_Format state) +:+ " version "
            +:+ itoa (resume_Version state)) false None)
  else if negb (EqualFold (scope_ServerAddress (resume_Scope state)) (sc_ServerAddress config))
          || negb (bool_decide (scope_ServerPort (resume_Scope state) = sc_ServerPort config)) then
    Err (WrapError ErrorCodeResumeStateScope "resume state server does not match session config"
           false None)
  else if negb (is_empty (scope_Username (resume_Scope state)))
          && negb (is_empty (sc_Username config))
          && negb (bool_decide (scope_Username (resume_Scope state) = sc_Username config)) then
    Err (WrapError ErrorCodeResumeStateScope "resume state username does not match session config"
           false None)
  else match DecodeString (resume_Data state) with
  | Err e => Err (WrapError ErrorCodeResumeStateInvalid "decode resume state data" false (Some e))
  | Ok data =>
      match client_device data with
      | Err e => Err (WrapError ErrorCodeResumeStateInvalid "parse resume state client data"
                        false (Some e))
      | Ok device =>
          if is_empty device then
            Err (WrapError ErrorCodeResumeStateInvalid "resume state device ID is empty" false None)
          else Ok (data, resume_Revision state)
      end
  end.

(** [client.Username] and [client.ResumeStateReused] are those of the client after set-up. *)
Definition encodeResumeState (config : StartConfig) (clientUsername : string)
    (clientReused : bool) (data : list Z) (revision now : Z) : ResumeState :=
  if is_nil data then zeroResumeState
  else
    let username := if is_empty clientUsername then sc_Username config else clientUsername in
    {| resume_Format := ResumeStateFormatATrustClientData;
       resume_Version := ResumeStateVersion1;
       resume_Revision := revision;
       resume_Scope := {| scope_ServerAddress := sc_ServerAddress config;
                          scope_ServerPort := sc_ServerPort config;
                          scope_Username := username |};
       resume_UpdatedAt := now;
       resume_Data := EncodeToString data;
       resume_Reused := clientReused |}.

(** ** Set-up errors *)

(** The predicates of the operating system and of [net.Error] are parameters. *)
Variable is_network_retryable : error -> bool.

Definition isRetryableATrustSetupError (err : error) : bool :=
  if negb (bool_decide (ErrorCodeOf (Some err) = ErrorCodeUnknown)) then IsRetryable (Some err)
  else if errors_Is err "context.Canceled" then false
  else if errors_Is err "context.DeadlineExceeded" || errors_Is err "io.EOF"
          || errors_Is err "io.ErrUnexpectedEOF" then true
  else is_network_retryable err.

Definition wrapATrustSetupError (err : error) : error :=
  let code := ErrorCodeOf (Some err) in
  let code := if bool_decide (code = ErrorCodeUnknown) then ErrorCodeATrustSetupFailed else code in
  WrapError code "setup aTrust client" (isRetryableATrustSetupError err) (Some err).

(** ** [startWithStageHandler] *)

(** What the dependencies answer in one start: files, the client's set-up (its data, its
    user name and whether it reused the session) and the network. *)
Record StartWorld : Type := {
  sw_ctxErr : option error;
  sw_readFile : string -> result error (list Z);
  sw_setup : option (list Z) -> option (list Z) -> result error (list Z * string * bool);
  sw_setupNetwork : result error (option nat);
  sw_writeFile : option error;
}.

(** What a start does to the outside, in order. *)
Inductive start_effect : Type :=
| NewClient
| CloseClient
| OpenNetwork (n : nat)
| CloseNetwork (n : nat)
| WriteClientData (data : list Z).

Record StartedRuntime : Type := {
  sr_network : option nat;
  sr_resume : ResumeState;
}.

(** The client data and revision that set-up starts from. *)
Definition start_client_data (config : StartConfig) (w : StartWorld)
    : result error (option (list Z) * Z) :=
  match sc_ResumeState config with
  | Some state =>
      if negb (is_empty (sc_ClientDataFile config)) then
        Err (WrapError ErrorCodeInvalidRequest
               "resume_state and client_data_file cannot be used together" false None)
      else let? (data, revision) := decodeResumeState config state in Ok (Some data, revision)
  | None =>
      if is_empty (sc_ClientDataFile config) then Ok (None, 0)
      else match sw_readFile w (sc_ClientDataFile config) with
           | Ok data => Ok (Some data, 0)
           | Err _ => Ok (None, 0)
           end
  end.

Definition start_network (config : StartConfig) (w : StartWorld) : result error (option nat) :=
  if negb (sc_SetupNetwork config) then Ok None
  else match sw_setupNetwork w with
  | Err err =>
      let code := ErrorCodeOf (Some err) in
      if negb (bool_decide (code = ErrorCodeUnknown)) then
        Err (WrapError code "setup VPN network runtime" (IsRetryable (Some err)) (Some err))
      else Err (WrapError ErrorCodeNetworkSetupFailed "setup VPN network runtime" false (Some err))
  | Ok None =>
      Err (WrapError ErrorCodeNetworkSetupFailed "setup VPN network runtime" false
             (Some (EText "network runtime returned no outbound")))
  | Ok (Some n) => Ok (Some n)
  end.

Definition startWithStageHandler (now : Z) (config : StartConfig) (w : StartWorld)
    : result error StartedRuntime * list start_effect :=
  match sw_ctxErr w with
  | Some err => (Err err, [])
  | None =>
  match (if is_empty (sc_ResourceFile config) then Ok None
         else match sw_readFile w (sc_ResourceFile config) with
              | Ok d => Ok (Some d)
              | Err err => Err (WrapError ErrorCodeResourceDataReadFailed
                                  ("read resource file " +:+ quote (sc_ResourceFile config))
                                  false (Some err))
              end) with
  | Err err => (Err err, [])
  | Ok resourceData =>
  match start_client_data config w with
  | Err err => (Err err, [])
  | Ok (clientData, resumeRevision) =>
  match sw_setup w clientData resourceData with
  | Err err => (Err (wrapATrustSetupError err), [NewClient; CloseClient])
  | Ok (data, username, reused) =>
  match start_network config w with
  | Err err => (Err err, [NewClient; CloseClient])
  | Ok network =>
      let opened := match network with Some n => [OpenNetwork n] | None => [] end in
      let closed := match network with Some n => [CloseNetwork n] | None => [] end in
      let runtime := {| sr_network := network;
                        sr_resume := encodeResumeState config username reused data
                                       ((resumeRevision + 1) mod 2 ^ 64) now |} in
      if is_empty (sc_ClientDataFile config) then (Ok runtime, [NewClient] ++ opened)
      else match sw_writeFile w with
      | Some err =>
          (Err (WrapError ErrorCodeClientDataWriteFailed
                  ("write client data file " +:+ quote (sc_ClientDataFile config)) false (Some err)),
           [NewClient] ++ opened ++ closed ++ [CloseClient])
      | None => (Ok runtime, [NewClient] ++ opened ++ [WriteClientData data])
      end
  end end end end end.
End Resume.

(** ** Theorems *)

Fixpoint open_after (effects : list start_effect) (clients : nat) (nets : gset nat)
    : nat * gset nat :=
  match effects with
  | [] => (clients, nets)
  | NewClient :: rest => open_after rest (S clients) nets
  | CloseClient :: rest => open_after rest (pred clients) nets
  | OpenNetwork n :: rest => open_after rest clients ({[n]} ∪ nets)
  | CloseNetwork n :: rest => open_after rest clients (nets ∖ {[n]})
  | WriteClientData _ :: rest => open_after rest clients nets
  end.

(** [decodeResumeState] never uses a resume state outside its scope: what it accepts has
    the known format and version, names the configured server (up to letter case) and port,
    no other user than the configured one, decodes from base64 to exactly the data returned,
    and names a device; the revision returned is the state's own. *)
Theorem decodeResumeState_scope dev config state data revision :
  decodeResumeState dev config state = Ok (data, revision) ->
  resume_Format state = ResumeStateFormatATrustClientData /\
  resume_Version state = ResumeStateVersion1 /\
  ToLower (scope_ServerAddress (resume_Scope state)) = ToLower (sc_ServerAddress config) /\
  scope_ServerPort (resume_Scope state) = sc_ServerPort config /\
  (scope_Username (resume_Scope state) = ""%string \/ sc_Username config = ""%string \/
   scope_Username (resume_Scope state) = sc_Username config) /\
  revision = resume_Revision state /\ DecodeString (resume_Data state) = Ok data /\
  exists device, dev data = Ok device /\ device <> ""%string.
Proof.
  unfold decodeResumeState. intros H.
  destruct (_ || _) eqn:E1 in H; [done|]. destruct (_ || _) eqn:E2 in H; [done|].
  destruct (_ && _) eqn:E3 in H; [done|].
  apply orb_false_iff in E1 as [E1 E1']. apply orb_false_iff in E2 as [E2 E2'].
  unfold EqualFold in E2. bool_hyps.
  destruct (DecodeString _) as [d|] eqn:Hd; [|done]. destruct (dev d) as [device|] eqn:Hdev; [|done].
  destruct (is_empty device) eqn:Hem; [done|]. injection H as <- <-.
  apply is_empty_false in Hem. split_and!; try done; [|by exists device].
  destruct (is_empty (scope_Username _)) eqn:Eu; [apply is_empty_true in Eu; auto|].
  destruct (is_empty (sc_Username _)) eqn:Ec; [apply is_empty_true in Ec; auto|].
  simpl in E3. bool_hyps. auto.
Qed.

Lemma startWithStageHandler_cases dev net now config w r effects :
  startWithStageHandler dev net now config w = (r, effects) ->
  (exists err, r = Err err /\ (effects = [] \/ open_after effects 0 ∅ = (0%nat, ∅))) \/
  (exists rt data revision username reused,
     r = Ok rt /\ open_after effects 0 ∅ =
       (1%nat, match sr_network rt with Some n => {[n]} | None => ∅ end) /\
     (is_Some (sr_network rt) <-> sc_SetupNetwork config = true) /\
     start_client_data dev config w = Ok (data, revision) /\
     sr_resume rt = encodeResumeState config username reused
       (match sw_setup w data (match sw_readFile w (sc_ResourceFile config) with
                               | Ok d => if is_empty (sc_ResourceFile config) then None else Some d
                               | Err _ => None end) with Ok (d, _, _) => d | Err _ => [] end)
       ((revision + 1) mod 2 ^ 64) now).
Proof.
  unfold startWithStageHandler. intros H.
  destruct (sw_ctxErr w); [injection H as <- <-; left; eauto|].
  set (res := if is_empty (sc_ResourceFile config) then _ else _) in H.
  destruct res as [resourceData|e] eqn:Hres; [|injection H as <- <-; left; eauto].
  assert (resourceData = match sw_readFile w (sc_ResourceFile config) with
            | Ok d => if is_empty (sc_ResourceFile config) then None else Some d
            | Err _ => None end) as Hrd.
  { unfold res in Hres. destruct (is_empty _); [injection Hres as <-; by destruct (sw_readFile _ _)|].
    destruct (sw_readFile _ _); by simplify_eq. }
  rewrite <-Hrd. clear Hrd Hres res.
  destruct (start_client_data dev config w) as [[data revision]|e] eqn:Hc;
    [|injection H as <- <-; left; eauto].
  destruct (sw_setup w data resourceData) as [[[d username] reused]|e] eqn:Hs;
    [|injection H as <- <-; left; eauto].
  destruct (start_network config w) as [network|e] eqn:Hn;
    [|injection H as <- <-; left; eauto].
  assert (is_Some network <-> sc_SetupNetwork config = true) as Hnet.
  { unfold start_network in Hn. destruct (sc_SetupNetwork config); simpl in Hn.
    - destruct (sw_setupNetwork w) as [[n|]|e]; [|done|].
      + injection Hn as <-. by split.
      + by destruct (negb _).
    - injection Hn as <-. split; [by intros [? ?]|done]. }
  destruct (is_empty (sc_ClientDataFile config)).
  - injection H as <- <-. right. eexists _, data, revision, username, reused.
    split; [done|]. simpl. rewrite Hs. split_and!; try done.
    destruct network; simpl; [by rewrite union_empty_r_L|done].
  - destruct (sw_writeFile w) as [err|]; injection H as <- <-.
    + left. eexists. split; [done|]. right. destruct network as [n|]; simpl; [|done].
      f_equal. set_solver.
    + right. eexists _, data, revision, username, reused.
      split; [done|]. simpl. rewrite Hs. split_and!; try done.
      destruct network; simpl; [by rewrite union_empty_r_L|done].
Qed.

(** [startWithStageHandler] is all or nothing. When it returns an error, whatever it
    opened is closed again: no client and no network is left. When it returns a runtime,
    exactly one client is open, the only open network is the runtime's own, and there is
    one exactly when the configuration asks for one. *)
Theorem start_all_or_nothing dev net now config w r effects :
  startWithStageHandler dev net now config w = (r, effects) ->
  open_after effects 0 ∅ =
    match r with
    | Err _ => (0%nat, ∅)
    | Ok rt => (1%nat, match sr_network rt with Some n => {[n]} | None => ∅ end)
    end /\
  match r with
  | Err _ => True
  | Ok rt => is_Some (sr_network rt) <-> sc_SetupNetwork config = true
  end.
Proof.
  intros H. destruct (startWithStageHandler_cases _ _ _ _ _ _ _ H)
    as [(err & -> & [->| ->])|(rt & data & revision & username & reused & -> & Ho & Hn & _)];
    split; done.
Qed.

Definition demo_config : StartConfig :=
  {| sc_ResumeState := None; sc_ServerAddress := "vpn.example.com"; sc_ServerPort := 443;
     sc_Username := "u"; sc_ClientDataFile := "client.json"; sc_ResourceFile := "";
     sc_SetupNetwork := true |}.

Definition demo_world : StartWorld :=
  {| sw_ctxErr := None; sw_readFile := fun _ => Err (EText "no such file");
     sw_setup := fun _ _ => Ok ([1; 2; 3], "u"%string, false);
     sw_setupNetwork := Ok (Some 7%nat); sw_writeFile := Some (EText "disk full") |}.

Lemma start_all_or_nothing_witness :
  exists r effects,
    startWithStageHandler (fun _ => Ok "device"%string) (fun _ => false) 0 demo_config demo_world
      = (r, effects) /\ is_ok r = false /\ effects <> [] /\ open_after effects 0 ∅ = (0%nat, ∅).
Proof.
  destruct (startWithStageHandler (fun _ => Ok "device"%string) (fun _ => false) 0
              demo_config demo_world) as [r effects] eqn:H.
  pose proof (start_all_or_nothing _ _ _ _ _ _ _ H) as [Ho _].
  exists r, effects. split; [done|]. vm_compute in H. injection H as <- <-. split; [done|].
  split; [done|exact Ho].
Defined.

Lemma decodeResumeState_scope_witness :
  let state := encodeResumeState demo_config "u" true [1; 2; 3] 4 0 in
  decodeResumeState (fun _ => Ok "device"%string) demo_config state = Ok ([1; 2; 3], 4) /\
  scope_ServerPort (resume_Scope state) = 443.
Proof.
  intros state.
  assert (decodeResumeState (fun _ => Ok "device"%string) demo_config state = Ok ([1; 2; 3], 4))
    as H by (by vm_compute).
  split; [exact H|]. exact (proj1 (proj2 (proj2 (proj2 (decodeResumeState_scope _ _ _ _ _ H))))).
Defined.

(** A resume state survives the round trip through base64. The state that
    [encodeResumeState] builds after a set-up is accepted by [decodeResumeState] for the same
    server (in any letter case) and a compatible user, and gives back the client data, byte
    for byte, and the revision. *)
Theorem resume_state_roundtrip dev config config' username reused data revision now device :
  Forall is_byte data -> data <> [] -> dev data = Ok device -> device <> ""%string ->
  EqualFold (sc_ServerAddress config) (sc_ServerAddress config') = true ->
  sc_ServerPort config = sc_ServerPort config' ->
  (sc_Username config' = ""%string \/ sc_Username config' = username) ->
  username <> ""%string ->
  decodeResumeState dev config' (encodeResumeState config username reused data revision now)
    = Ok (data, revision).
Proof.
  intros Hb Hne Hdev Hdv Hs Hp Hu Hun. unfold encodeResumeState.
  destruct data as [|b data]; [done|]. simpl is_nil. cbv iota.
  rewrite (proj2 (is_empty_false username) Hun).
  unfold decodeResumeState. cbn [resume_Format resume_Version resume_Scope resume_Data
    resume_Revision scope_ServerAddress scope_ServerPort scope_Username].
  rewrite Hs, Hp, !bool_decide_true by done. simpl.
  rewrite (proj2 (is_empty_false username) Hun). simpl.
  rewrite DecodeString_EncodeToString, Hdev by done.
  rewrite (proj2 (is_empty_false device) Hdv).
  destruct Hu as [->| ->]; [done|]. rewrite bool_decide_true by done. by rewrite andb_false_r.
Qed.

Lemma resume_state_roundtrip_witness :
  let config := {| sc_ResumeState := None; sc_ServerAddress := "VPN.example.com";
                   sc_ServerPort := 443; sc_Username := "u"; sc_ClientDataFile := "";
                   sc_ResourceFile := ""; sc_SetupNetwork := true |} in
  decodeResumeState (fun _ => Ok "device"%string) config
    (encodeResumeState demo_config "u" true [0; 255; 16; 131] 5 99) = Ok ([0; 255; 16; 131], 5).
Proof.
  intros config.
  apply (resume_state_roundtrip _ demo_config config "u" true [0; 255; 16; 131] 5 99 "device");
    [|done|done|done|by vm_compute|done|by right|done].
  repeat (apply List.Forall_cons; [unfold is_byte; lia|]). apply List.Forall_nil.
Defined.
