(* ===== verification/Session.v ===== *)
(** The aTrust session (internal/atrustruntime/session.go, resources.go, routing.go,
    stats.go, network.go): its state, its event buffer and every operation on them. The
    interleaving of the session's goroutines is in SessionSteps.v. *)

From S2P Require Import Prelude Core RuntimeStart.

Definition sessionEventBuffer : nat := 32.

(** Durations are in nanoseconds, as [time.Duration]. *)
Definition second : Z := 1000000000.
Definition reconnectInitialDelay : Z := second.
Definition reconnectMaxDelay : Z := 30 * second.

(** ** Data *)

(** [Runtime] (runtime.go): clients and networks are identified by numbers; [rt_closed] is
    [closeOnce]. *)
Record Runtime : Type := {
  rt_client : option nat;
  rt_outbound : option nat;
  rt_owns : bool;
  rt_closed : bool;
  rt_resume : ResumeState;
}.

(** The [Config] fields that session.go reads. *)
Record SessionConfig : Type := {
  scfg_ResumeState : option ResumeState;
  scfg_ClientDataFile : string;
  scfg_DisableAutoReconnect : bool;
}.

(** The objects behind the session's pointers: the runtimes ever built, and the clients and
    networks that are open. *)
Record Heap : Type := {
  runtimes : gmap nat Runtime;
  clients : gset nat;
  networks : gset nat;
}.

(** The goroutines that stand in a send on the full event channel: the direct send of
    [SetRoutingMode], and the last send of [emit], which holds [eventMu]. *)
Inductive Sender : Type :=
| DirectSend (event : Event)
| EmitSend (event : Event).

(** The event channel: what it holds, the senders that wait for room in it (in their order)
    and the emits that wait for [eventMu]. The mutex promises its waiters no order; here they
    are served in the order of their calls. *)
Record EventChannel : Type := {
  ec_buffer : list Event;
  ec_senders : list Sender;
  ec_emits : list Event;
}.

(** [Session]: the fields guarded by [mu], then the heap and the event channel. *)
Record Session : Type := {
  ss_id : SessionID;
  ss_config : SessionConfig;
  ss_state : SessionState;
  ss_lastError : option error;
  ss_runtime : option nat;
  ss_network : option nat;
  ss_canceled : bool;
  ss_stageErr : option error;
  ss_resources : Resources;
  ss_selectedNodes : option (gmap string string);
  ss_resumeState : ResumeState;
  ss_heap : Heap;
  ss_events : EventChannel;
}.

Definition newSession (id : SessionID) (config : SessionConfig) : Session :=
  {| ss_id := id; ss_config := config; ss_state := SessionStateIdle; ss_lastError := None;
     ss_runtime := None; ss_network := None; ss_canceled := false; ss_stageErr := None;
     ss_resources := zeroResources; ss_selectedNodes := None;
     ss_resumeState := zeroResumeState;
     ss_heap := {| runtimes := ∅; clients := ∅; networks := ∅ |};
     ss_events := {| ec_buffer := []; ec_senders := []; ec_emits := [] |} |}.

(** *** Field updates *)

Definition set_state (v : SessionState) (s : Session) : Session :=
  {| ss_id := ss_id s; ss_config := ss_config s; ss_state := v;
     ss_lastError := ss_lastError s; ss_runtime := ss_runtime s; ss_network := ss_network s;
     ss_canceled := ss_canceled s; ss_stageErr := ss_stageErr s;
     ss_resources := ss_resources s; ss_selectedNodes := ss_selectedNodes s;
     ss_resumeState := ss_resumeState s; ss_heap := ss_heap s; ss_events := ss_events s |}.

Definition set_lastError (v : option error) (s : Session) : Session :=
  {| ss_id := ss_id s; ss_config := ss_config s; ss_state := ss_state s;
     ss_lastError := v; ss_runtime := ss_runtime s; ss_network := ss_network s;
     ss_canceled := ss_canceled s; ss_stageErr := ss_stageErr s;
     ss_resources := ss_resources s; ss_selectedNodes := ss_selectedNodes s;
     ss_resumeState := ss_resumeState s; ss_heap := ss_heap s; ss_events := ss_events s |}.

Definition set_runtime (v : option nat) (s : Session) : Session :=
  {| ss_id := ss_id s; ss_config := ss_config s; ss_state := ss_state s;
     ss_lastError := ss_lastError s; ss_runtime := v; ss_network := ss_network s;
     ss_canceled := ss_canceled s; ss_stageErr := ss_stageErr s;
     ss_resources := ss_resources s; ss_selectedNodes := ss_selectedNodes s;
     ss_resumeState := ss_resumeState s; ss_heap := ss_heap s; ss_events := ss_events s |}.

Definition set_network (v : option nat) (s : Session) : Session :=
  {| ss_id := ss_id s; ss_config := ss_config s; ss_state := ss_state s;
     ss_lastError := ss_lastError s; ss_runtime := ss_runtime s; ss_network := v;
     ss_canceled := ss_canceled s; ss_stageErr := ss_stageErr s;
     ss_resources := ss_resources s; ss_selectedNodes := ss_selectedNodes s;
     ss_resumeState := ss_resumeState s; ss_heap := ss_heap s; ss_events := ss_events s |}.

(** [cancel()]. *)
Definition cancel (s : Session) : Session :=
  {| ss_id := ss_id s; ss_config := ss_config s; ss_state := ss_state s;
     ss_lastError := ss_lastError s; ss_runtime := ss_runtime s; ss_network := ss_network s;
     ss_canceled := true; ss_stageErr := ss_stageErr s;
     ss_resources := ss_resources s; ss_selectedNodes := ss_selectedNodes s;
     ss_resumeState := ss_resumeState s; ss_heap := ss_heap s; ss_events := ss_events s |}.

Definition set_stageErr (v : option error) (s : Session) : Session :=
  {| ss_id := ss_id s; ss_config := ss_config s; ss_state := ss_state s;
     ss_lastError := ss_lastError s; ss_runtime := ss_runtime s; ss_network := ss_network s;
     ss_canceled := ss_canceled s; ss_stageErr := v;
     ss_resources := ss_resources s; ss_selectedNodes := ss_selectedNodes s;
     ss_resumeState := ss_resumeState s; ss_heap := ss_heap s; ss_events := ss_events s |}.

Definition set_resources (v : Resources) (s : Session) : Session :=
  {| ss_id := ss_id s; ss_config := ss_config s; ss_state := ss_state s;
     ss_lastError := ss_lastError s; ss_runtime := ss_runtime s; ss_network := ss_network s;
     ss_canceled := ss_canceled s; ss_stageErr := ss_stageErr s;
     ss_resources := v; ss_selectedNodes := ss_selectedNodes s;
     ss_resumeState := ss_resumeState s; ss_heap := ss_heap s; ss_events := ss_events s |}.

Definition set_selectedNodes (v : option (gmap string string)) (s : Session) : Session :=
  {| ss_id := ss_id s; ss_config := ss_config s; ss_state := ss_state s;
     ss_lastError := ss_lastError s; ss_runtime := ss_runtime s; ss_network := ss_network s;
     ss_canceled := ss_canceled s; ss_stageErr := ss_stageErr s;
     ss_resources := ss_resources s; ss_selectedNodes := v;
     ss_resumeState := ss_resumeState s; ss_heap := ss_heap s; ss_events := ss_events s |}.

Definition set_resumeState (v : ResumeState) (s : Session) : Session :=
  {| ss_id := ss_id s; ss_config := ss_config s; ss_state := ss_state s;
     ss_lastError := ss_lastError s; ss_runtime := ss_runtime s; ss_network := ss_network s;
     ss_canceled := ss_canceled s; ss_stageErr := ss_stageErr s;
     ss_resources := ss_resources s; ss_selectedNodes := ss_selectedNodes s;
     ss_resumeState := v; ss_heap := ss_heap s; ss_events := ss_events s |}.

Definition set_heap (v : Heap) (s : Session) : Session :=
  {| ss_id := ss_id s; ss_config := ss_config s; ss_state := ss_state s;
     ss_lastError := ss_lastError s; ss_runtime := ss_runtime s; ss_network := ss_network s;
     ss_canceled := ss_canceled s; ss_stageErr := ss_stageErr s;
     ss_resources := ss_resources s; ss_selectedNodes := ss_selectedNodes s;
     ss_resumeState := ss_resumeState s; ss_heap := v; ss_events := ss_events s |}.

Definition set_events (v : EventChannel) (s : Session) : Session :=
  {| ss_id := ss_id s; ss_config := ss_config s; ss_state := ss_state s;
     ss_lastError := ss_lastError s; ss_runtime := ss_runtime s; ss_network := ss_network s;
     ss_canceled := ss_canceled s; ss_stageErr := ss_stageErr s;
     ss_resources := ss_resources s; ss_selectedNodes := ss_selectedNodes s;
     ss_resumeState := ss_resumeState s; ss_heap := ss_heap s; ss_events := v |}.

(** ** The event channel *)

Definition sender_event (w : Sender) : Event :=
  match w with DirectSend event | EmitSend event => event end.

Definition is_emit (w : Sender) : bool :=
  match w with EmitSend _ => true | DirectSend _ => false end.

(** Some emit holds [eventMu] and waits for room. *)
Definition emit_blocked (c : EventChannel) : bool := existsb is_emit (ec_senders c).

(** [emit] once it holds [eventMu]. A full channel loses its oldest event; a receive from a
    full channel at once takes the next waiting sender in, so that a direct send can take the
    room just made, and the emit then waits in its turn. A direct send that arrives between
    the receive and the send leaves the channel in the same way. *)
Definition emit_locked (event : Event) (c : EventChannel) : EventChannel :=
  if bool_decide (length (ec_buffer c) < sessionEventBuffer)%nat then
    {| ec_buffer := ec_buffer c ++ [event]; ec_senders := ec_senders c;
       ec_emits := ec_emits c |}
  else match ec_senders c with
  | [] => {| ec_buffer := drop 1 (ec_buffer c) ++ [event]; ec_senders := [];
             ec_emits := ec_emits c |}
  | w :: rest =>
      {| ec_buffer := drop 1 (ec_buffer c) ++ [sender_event w];
         ec_senders := rest ++ [EmitSend event]; ec_emits := ec_emits c |}
  end.

(** [emit]: it waits for [eventMu] while another emit is blocked. *)
Definition emit_event (event : Event) (c : EventChannel) : EventChannel :=
  if emit_blocked c then
    {| ec_buffer := ec_buffer c; ec_senders := ec_senders c; ec_emits := ec_emits c ++ [event] |}
  else emit_locked event c.

Definition emit (event : Event) (s : Session) : Session :=
  set_events (emit_event event (ss_events s)) s.

#[global] Arguments emit : simpl never.

(** The emits that waited for [eventMu] go on; one that blocks keeps the later ones waiting. *)
Definition resume_emits (c : EventChannel) : EventChannel :=
  fold_left (fun c event => emit_event event c) (ec_emits c)
    {| ec_buffer := ec_buffer c; ec_senders := ec_senders c; ec_emits := [] |}.

(** The reader of [Events] receives: the oldest event leaves, the first waiting sender gets
    its room, and when that is an emit it releases [eventMu]. *)
Definition receive_event (c : EventChannel) : option (Event * EventChannel) :=
  match ec_buffer c with
  | [] => None
  | event :: rest =>
      match ec_senders c with
      | [] => Some (event, {| ec_buffer := rest; ec_senders := []; ec_emits := ec_emits c |})
      | w :: senders =>
          let c := {| ec_buffer := rest ++ [sender_event w]; ec_senders := senders;
                      ec_emits := ec_emits c |} in
          Some (event, if is_emit w then resume_emits c else c)
      end
  end.

(** [s.events <- event] outside [emit]; [false] is a send that waits. *)
Definition send_event (event : Event) (c : EventChannel) : bool * EventChannel :=
  if bool_decide (length (ec_buffer c) < sessionEventBuffer)%nat then
    (true, {| ec_buffer := ec_buffer c ++ [event]; ec_senders := ec_senders c;
              ec_emits := ec_emits c |})
  else (false, {| ec_buffer := ec_buffer c; ec_senders := ec_senders c ++ [DirectSend event];
                  ec_emits := ec_emits c |}).

(** Every emit so far has returned. *)
Definition emits_returned (s : Session) : bool :=
  negb (emit_blocked (ss_events s)) && is_nil (ec_emits (ss_events s)).

Definition emit_all (events : list Event) (s : Session) : Session :=
  fold_left (fun s event => emit event s) events s.

(** ** Closing clients, networks and runtimes *)

Definition close_client (c : nat) (h : Heap) : Heap :=
  {| runtimes := runtimes h; clients := clients h ∖ {[c]}; networks := networks h |}.

Definition close_network (n : nat) (h : Heap) : Heap :=
  {| runtimes := runtimes h; clients := clients h; networks := networks h ∖ {[n]} |}.

Definition put_runtime (r : nat) (rt : Runtime) (h : Heap) : Heap :=
  {| runtimes := <[r := rt]> (runtimes h); clients := clients h; networks := networks h |}.

(** [Runtime.CloseContext]: once; the network first when the runtime still owns it, then the
    client. *)
Definition closeRuntime (r : nat) (h : Heap) : Heap :=
  match runtimes h !! r with
  | None => h
  | Some rt =>
      if rt_closed rt then h
      else
        let h := if rt_owns rt
                 then match rt_outbound rt with Some n => close_network n h | None => h end
                 else h in
        let h := match rt_client rt with Some c => close_client c h | None => h end in
        put_runtime r {| rt_client := None; rt_outbound := rt_outbound rt;
                         rt_owns := rt_owns rt; rt_closed := true;
                         rt_resume := rt_resume rt |} h
  end.

Definition close_network_opt (n : option nat) (h : Heap) : Heap :=
  match n with Some n => close_network n h | None => h end.

Definition close_runtime_opt (r : option nat) (h : Heap) : Heap :=
  match r with Some r => closeRuntime r h | None => h end.

(** [Runtime.DetachOutbound]. *)
Definition DetachOutbound (r : nat) (h : Heap) : option nat * Heap :=
  match runtimes h !! r with
  | None => (None, h)
  | Some rt =>
      (rt_outbound rt,
       put_runtime r {| rt_client := rt_client rt; rt_outbound := rt_outbound rt;
                        rt_owns := false; rt_closed := rt_closed rt;
                        rt_resume := rt_resume rt |} h)
  end.

(** [Runtime.adoptClient]: the client of [candidate] moves to [r]; the client to close is
    returned. *)
Definition adoptClient (r candidate : nat) (h : Heap) : option nat * Heap :=
  match runtimes h !! r, runtimes h !! candidate with
  | Some rt, Some crt =>
      let h := put_runtime candidate {| rt_client := None; rt_outbound := rt_outbound crt;
                                        rt_owns := rt_owns crt; rt_closed := rt_closed crt;
                                        rt_resume := rt_resume crt |} h in
      (rt_client rt,
       put_runtime r {| rt_client := rt_client crt; rt_outbound := rt_outbound rt;
                        rt_owns := rt_owns rt; rt_closed := rt_closed rt;
                        rt_resume := rt_resume crt |} h)
  | _, _ => (None, h)
  end.

Definition Runtime_ResumeState (r : nat) (h : Heap) : result error ResumeState :=
  match runtimes h !! r with
  | Some rt =>
      if is_empty (resume_Data (rt_resume rt)) then
        Err (WrapError ErrorCodeResumeStateUnavailable "resume state is unavailable" true None)
      else Ok (rt_resume rt)
  | None => Err (WrapError ErrorCodeResumeStateUnavailable "resume state is unavailable" true None)
  end.

(** [resumeState, _ := runtime.ResumeState()]. *)
Definition runtime_resume (r : nat) (h : Heap) : ResumeState :=
  match Runtime_ResumeState r h with Ok state => state | Err _ => zeroResumeState end.

(** ** Operations

    [now] is the clock reading of the operation ([time.Now]). *)

Section Operations.
Variable now : Z.

Definition transition (next : SessionState) (s : Session) : option error * Session :=
  let previous := ss_state s in
  match ValidateSessionStateTransition previous next with
  | Some err => (Some err, s)
  | None => (None, emit (NewStateChangedEvent (ss_id s) previous next now) (set_state next s))
  end.

Definition stopping (state : SessionState) : bool :=
  bool_decide (state = SessionStateStopping) || bool_decide (state = SessionStateStopped).

Definition failWith (code : ErrorCode) (message : string) (err : error) (s : Session) : Session :=
  let coreError := asCoreError code message err in
  let s := set_lastError (Some coreError) s in
  let s := if negb (stopping (ss_state s))
              && negb (bool_decide (ss_state s = SessionStateFailed))
           then (transition SessionStateFailed s).2 else s in
  emit (errorEvent (ss_id s) EventTypeSessionError coreError None now) s.

Definition fail_session (err : error) (s : Session) : Session :=
  failWith ErrorCodeSessionStartFailed "start session" err s.


(** *** Set-up stages *)

Definition setupStageState (stage : string) : option SessionState :=
  if bool_decide (stage = "discovering_auth") then Some SessionStateDiscoveringAuth
  else if bool_decide (stage = "authenticating") then Some SessionStateAuthenticating
  else if bool_decide (stage = "fetching_resources") then Some SessionStateFetchingResources
  else if bool_decide (stage = "selecting_nodes") then Some SessionStateSelectingNodes
  else if bool_decide (stage = "establishing_tunnel") then Some SessionStateEstablishingTunnel
  else None.

Definition handleSetupStage (stage : string) (s : Session) : Session :=
  match setupStageState stage with
  | None => s
  | Some state =>
      match transition state s with
      | (None, s) => s
      | (Some err, s) =>
          match ss_stageErr s with
          | None => set_stageErr (Some err) s
          | Some _ => s
          end
      end
  end.

(** *** Resources and nodes *)

(** [equalStringMaps]: a nil map is empty, and a missing key reads as the empty string. *)
Definition map_of (m : option (gmap string string)) : gmap string string := default ∅ m.

Definition equalStringMaps (left right : option (gmap string string)) : bool :=
  bool_decide (size (map_of left) = size (map_of right)) &&
  forallb (fun kv => bool_decide (default ""%string (map_of right !! kv.1) = kv.2))
    (map_to_list (map_of left)).

Definition handleNodeSelection (nodes : option (gmap string string)) (s : Session) : Session :=
  let changed := negb (equalStringMaps (ss_selectedNodes s) nodes) in
  let s := set_selectedNodes nodes s in
  if changed && bool_decide (ss_state s = SessionStateReady)
  then emit (NewNodeSelectedEvent (ss_id s) (map_of nodes) now) s else s.

Definition no_resources (resources : Resources) : bool :=
  match res_IPResources resources, res_DomainResources resources, res_DNSRecords resources with
  | None, None, None => true
  | _, _, _ => false
  end.

Definition emitResourcesUpdated (resources : Resources) (s : Session) : Session :=
  if no_resources resources then s
  else emit (NewResourcesUpdatedEvent (ss_id s) resources now) s.

Definition emitSelectedNodes (s : Session) : Session :=
  let nodes := map_of (ss_selectedNodes s) in
  if bool_decide (size nodes = 0%nat) then s
  else emit (NewNodeSelectedEvent (ss_id s) nodes now) s.

Definition emitServiceEvents (services : list ServiceStatus) (eventType : EventType)
    (s : Session) : Session :=
  emit_all (map (fun status => NewServiceEvent (ss_id s) eventType status now)
              (List.filter (fun status =>
                 negb (bool_decide (eventType = EventTypeServiceStarted)
                       && negb (svc_Running status))) services)) s.

(** [cloneResources] on pure values; [append([]T(nil), l...)] of an empty list is nil. *)
Definition cloneResources (resources : Resources) : Resources :=
  {| res_ClientIP := res_ClientIP resources;
     res_IPResources := match res_IPResources resources with
                        | Some (_ :: _ as l) => Some l | _ => None end;
     res_DomainResources := res_DomainResources resources;
     res_DNSRecords := res_DNSRecords resources;
     res_DNSServer := res_DNSServer resources; res_Stale := res_Stale resources |}.

Definition set_Stale (stale : bool) (resources : Resources) : Resources :=
  {| res_ClientIP := res_ClientIP resources; res_IPResources := res_IPResources resources;
     res_DomainResources := res_DomainResources resources;
     res_DNSRecords := res_DNSRecords resources; res_DNSServer := res_DNSServer resources;
     res_Stale := stale |}.

Definition session_Resources (s : Session) : result error Resources :=
  let resources := cloneResources (ss_resources s) in
  let unavailable :=
    WrapError ErrorCodeResourcesUnavailable
      ("session " +:+ quote (ss_id s) +:+ " resources are unavailable") true None in
  if stopping (ss_state s) then Err unavailable
  else if no_resources resources then Err unavailable
  else Ok (set_Stale (res_Stale resources
                      || negb (bool_decide (ss_state s = SessionStateReady))) resources).

Definition session_ResumeState (s : Session) : result error ResumeState :=
  if is_empty (resume_Data (ss_resumeState s)) then
    Err (WrapError ErrorCodeResumeStateUnavailable "resume state is unavailable" true None)
  else Ok (ss_resumeState s).

Definition session_Status (s : Session) : SessionStatus :=
  {| status_ID := ss_id s; status_State := ss_state s; status_LastError := ss_lastError s |}.

Definition session_Outbound (s : Session) : result error nat :=
  let unavailable :=
    WrapError ErrorCodeOutboundUnavailable "session outbound is unavailable" true None in
  if stopping (ss_state s) then Err unavailable
  else match ss_network s with Some n => Ok n | None => Err unavailable end.

Definition stableNetwork (s : Session) : result error nat :=
  let unavailable :=
    WrapError ErrorCodeOutboundUnavailable "session runtime is unavailable" true None in
  match ss_network s with
  | None => Err unavailable
  | Some n => if stopping (ss_state s) then Err unavailable else Ok n
  end.

(** [SetRoutingMode]: the network's own [SetRoutingMode] is an argument. The event is sent on
    the channel directly, not by [emit]; [None] is a call that waits in this send (it answers
    nil once the reader has made room). *)
Definition session_SetRoutingMode
    (network_SetRoutingMode : nat -> RoutingMode -> result error RoutingMode)
    (mode : RoutingMode) (s : Session) : option (option error) * Session :=
  if negb (RoutingMode_Valid mode) then
    (Some (Some (WrapError ErrorCodeInvalidRequest "invalid routing mode" false None)), s)
  else match ss_network s with
  | None =>
      (Some (Some (WrapError ErrorCodeOutboundUnavailable "routing mode is unavailable" true
                     None)), s)
  | Some n =>
      match network_SetRoutingMode n mode with
      | Err err =>
          (Some (Some (WrapError ErrorCodeInvalidRequest "set routing mode" false (Some err))), s)
      | Ok previous =>
          if bool_decide (previous = mode) then (Some None, s)
          else
            let '(sent, c) := send_event
              {| event_SessionID := ss_id s; event_Type := EventTypeRoutingModeChanged;
                 event_Timestamp := now; event_PreviousState := ""; event_State := "";
                 event_Error := None; event_Cleanup := None; event_Auth := None;
                 event_Reconnect := None; event_PreviousRoutingMode := previous;
                 event_RoutingMode := mode; event_ResumeStateRevision := 0;
                 event_ResumeStateReused := false; event_Resources := None;
                 event_SelectedNodes := None; event_Service := None |} (ss_events s) in
            (if sent then Some None else None, set_events c s)
      end
  end.

(** *** Service statuses *)

(** [byType] keeps the last status of each type. *)
Definition status_by_type (after : list ServiceStatus) : gmap string ServiceStatus :=
  fold_left (fun m status => <[svc_Type status := status]> m) after ∅.

Definition mergeStoppedServiceStatuses (before after : list ServiceStatus)
    : list ServiceStatus :=
  let byType := status_by_type after in
  map (fun b =>
    match byType !! svc_Type b with
    | None => b
    | Some status =>
        {| svc_Type := svc_Type b;
           svc_Address := if is_empty (svc_Address b) then svc_Address status else svc_Address b;
           svc_Running := svc_Running status; svc_LastError := svc_LastError status |}
    end) before.

(** *** Reconnection delays *)

Fixpoint reconnectDelay_loop (fuel : nat) (current attempt delay : Z) : Z :=
  match fuel with
  | O => delay
  | S fuel' =>
      if bool_decide (current < attempt) && bool_decide (delay < reconnectMaxDelay) then
        let delay := delay * 2 in
        let delay := if bool_decide (delay > reconnectMaxDelay) then reconnectMaxDelay else delay in
        reconnectDelay_loop fuel' (current + 1) attempt delay
      else delay
  end.

(** The loop runs at most five times: the delay doubles up to its maximum. *)
Definition reconnectDelay (attempt : Z) : Z :=
  if bool_decide (attempt <= 1) then 0
  else reconnectDelay_loop 5 2 attempt reconnectInitialDelay.

(** *** [start], after [startWithStageHandler]

    The pieces of [start] between its accesses to the shared state; SessionSteps.v
    interleaves them with the other goroutines. *)

(** The runtime came up: the stage error and the state decide whether it is kept. [inl] is
    the error that [start] returns. *)
Definition start_check (r : nat) (s : Session) : (error * Session) + Session :=
  let err := ss_stageErr s in
  let closed := stopping (ss_state s) in
  let s := if closed then set_heap (closeRuntime r (ss_heap s)) s else s in
  let err := if closed then match err with None => Some ctx_Canceled | Some _ => err end
             else err in
  match err with
  | Some err => inl (err, fail_session err (cancel s))
  | None => inr s
  end.

Definition start_failed (err : error) (s : Session) : Session := fail_session err (cancel s).

Definition start_resources_failed (r : nat) (network : option nat) (err : error) (s : Session)
    : Session :=
  let s := set_heap (closeRuntime r (close_network_opt network (ss_heap s))) s in
  let resourceErr :=
    WrapError ErrorCodeResourcesUnavailable "read initial resource snapshot" false (Some err) in
  failWith ErrorCodeResourcesUnavailable "read initial resource snapshot" resourceErr (cancel s).

Definition start_install (r : nat) (network : option nat) (resources : Resources) (s : Session)
    : Session :=
  let resumeState := runtime_resume r (ss_heap s) in
  set_resumeState resumeState
    (set_resources resources (set_network network (set_runtime (Some r) s))).

Definition emitResumeEvents (config_resume : option ResumeState) (resumeState : ResumeState)
    (s : Session) : Session :=
  if is_empty (resume_Data resumeState) then s
  else
    let s := match config_resume with
             | Some old =>
                 if resume_Reused resumeState then s
                 else emit (NewResumeStateInvalidatedEvent (ss_id s) (resume_Revision old) now) s
             | None => s
             end in
    emit (NewResumeStateUpdatedEvent (ss_id s) (resume_Revision resumeState)
            (resume_Reused resumeState) now) s.

Definition start_ready (r : nat) (network : option nat) (resources : Resources)
    (resumeState : ResumeState) (services : list ServiceStatus) (s : Session)
    : option error * Session :=
  match transition SessionStateReady s with
  | (Some err, s) =>
      let s := set_heap (closeRuntime r (close_network_opt network (ss_heap s))) s in
      (Some err, fail_session err (cancel s))
  | (None, s) =>
      let s := emitSelectedNodes (emitResourcesUpdated resources s) in
      let s := emitServiceEvents services EventTypeServiceStarted s in
      (None, emitResumeEvents (scfg_ResumeState (ss_config s)) resumeState s)
  end.

(** *** [close] *)

(** The transition to [stopping], given the state read before; its error goes to the
    report. *)
Definition close_stop (state : SessionState) (s : Session) : option error * Session :=
  if negb (bool_decide (state = SessionStateStopping))
     && negb (bool_decide (state = SessionStateStopped))
  then transition SessionStateStopping s else (None, s).

(** Closing what was read; the errors of the closes are arguments. *)
Definition close_release (runtime network : option nat) (s : Session) : Session :=
  set_heap (close_runtime_opt runtime (close_network_opt network (ss_heap s))) s.

Definition close_errors (runtime network : option nat) (networkErr runtimeErr : option error)
    : CleanupResult * option error :=
  let networkErr := match network with Some _ => networkErr | None => None end in
  let runtimeErr := match runtime with Some _ => runtimeErr | None => None end in
  let closeErr := match networkErr with
                  | Some err => Some (WrapError ErrorCodeSessionCloseFailed
                                        "close VPN network runtime" false (Some err))
                  | None => None
                  end in
  let text := match networkErr with Some err => error_text err | None => ""%string end in
  match runtimeErr with
  | None => ({| cleanup_Component := "atrust.runtime"; cleanup_Error := text |}, closeErr)
  | Some err =>
      ({| cleanup_Component := "atrust.runtime";
          cleanup_Error := match errors_Join [closeErr; Some err] with
                           | Some e => error_text e | None => "" end |},
       match closeErr with
       | Some _ => closeErr
       | None => Some (WrapError ErrorCodeSessionCloseFailed "close aTrust runtime" false
                         (Some err))
       end)
  end.

(** The last events of the services. *)
Definition emit_stopped_services (services : list ServiceStatus) (s : Session) : Session :=
  emit_all (map (fun status => NewServiceEvent (ss_id s) EventTypeServiceStopped status now)
              services) s.

(** The transition to [stopped]. *)
Definition close_stopped (closeErr : option error) (s : Session) : option error * Session :=
  if negb (bool_decide (ss_state s = SessionStateStopped)) then
    match transition SessionStateStopped s with
    | (Some err, s) =>
        (match closeErr with
         | None => Some (WrapError ErrorCodeSessionCloseFailed "mark session stopped" false
                           (Some err))
         | Some _ => closeErr
         end, s)
    | (None, s) => (closeErr, s)
    end
  else (closeErr, s).

(** The report: an error of the transition to [stopping], then the release. *)
Definition close_report (started : Z) (stopErr : option error) (result : CleanupResult)
    (s : Session) : CleanupReport * Session :=
  let stopResults := match stopErr with
                     | Some err => [{| cleanup_Component := "session.state";
                                       cleanup_Error := error_text err |}]
                     | None => []
                     end in
  let report := {| report_StartedAt := started; report_CompletedAt := now;
                   report_Results := stopResults ++ [result] |} in
  (report,
   emit {| event_SessionID := ss_id s; event_Type := EventTypeShutdownCompleted;
           event_Timestamp := now; event_PreviousState := ""; event_State := "";
           event_Error := None; event_Cleanup := Some report; event_Auth := None;
           event_Reconnect := None; event_PreviousRoutingMode := ""; event_RoutingMode := "";
           event_ResumeStateRevision := 0; event_ResumeStateReused := false;
           event_Resources := None; event_SelectedNodes := None; event_Service := None |} s).

(** [waitRuntimeClosed]. *)
Definition waitRuntimeClosed (s : Session) : Session :=
  close_release (ss_runtime s) (ss_network s) s.

(** *** [monitorRuntime] and [reconnect] *)

(** The network runtime failed for good: everything is closed, then the session fails. *)
Definition monitor_fail (runtimeErr : error) (s : Session) : Session :=
  if bool_decide (ErrorCodeOf (Some runtimeErr) = ErrorCodeTUNUnavailable) then
    failWith ErrorCodeTUNUnavailable "TUN service stopped" runtimeErr s
  else failWith ErrorCodeSessionReconnectFailed "VPN network runtime stopped" runtimeErr s.

Definition gives_up (runtimeErr : error) (s : Session) : bool :=
  bool_decide (ErrorCodeOf (Some runtimeErr) = ErrorCodeTUNUnavailable)
  || scfg_DisableAutoReconnect (ss_config s).

(** The resume state that [reconnectConfig] starts the next runtime from. *)
Definition reconnectConfig_ResumeState (r : nat) (s : Session) : option ResumeState :=
  if negb (is_empty (scfg_ClientDataFile (ss_config s))) then None
  else
    let resumeState := if is_empty (resume_Data (ss_resumeState s))
                       then runtime_resume r (ss_heap s) else ss_resumeState s in
    if is_empty (resume_Data resumeState) then scfg_ResumeState (ss_config s)
    else Some resumeState.

Definition reconnect_schedule (attempt : Z) (runtimeErr : error) (s : Session) : Session :=
  emit (errorEvent (ss_id s) EventTypeReconnectScheduled
          (asCoreError ErrorCodeSessionReconnectFailed "VPN network runtime stopped" runtimeErr)
          (Some {| reconnect_Attempt := attempt;
                   reconnect_DelayMillis := reconnectDelay attempt / 1000000 |}) now) s.

(** An attempt that failed; the session keeps trying when the error is retryable. *)
Definition reconnect_failed (attempt : Z) (err : error) (s : Session) : Session :=
  let coreError := asCoreError ErrorCodeSessionReconnectFailed "reconnect session" err in
  let s := set_lastError (Some coreError) s in
  emit (errorEvent (ss_id s) EventTypeReconnectFailed coreError
          (Some {| reconnect_Attempt := attempt; reconnect_DelayMillis := 0 |}) now) s.

(** An error that is not retryable: the session's network is closed, then the session fails. *)
Definition reconnect_close_network (s : Session) : Session :=
  set_heap (close_network_opt (ss_network s) (ss_heap s)) s.

Definition reconnect_give_up (err : error) (s : Session) : Session :=
  let coreError := asCoreError ErrorCodeSessionReconnectFailed "reconnect session" err in
  let message := match coreError with ECore _ m _ _ _ => m | _ => ""%string end in
  failWith (core_code coreError) message coreError s.

(** [installReconnectedRuntime] with what [readResources] answered. *)
Definition installReconnectedRuntime (r : nat) (read : result error Resources) (s : Session)
    : bool * Session :=
  let '(network, h) := DetachOutbound r (ss_heap s) in
  let s := set_heap h s in
  let resumeState := runtime_resume r h in
  if ss_canceled s || negb (bool_decide (ss_state s = SessionStateReconnecting)) then
    (false, set_heap (close_network_opt network (ss_heap s)) s)
  else
    let previous := ss_state s in
    match ValidateSessionStateTransition previous SessionStateReady with
    | Some _ => (false, set_heap (close_network_opt network (ss_heap s)) s)
    | None =>
        let oldNetwork := ss_network s in
        let resources := match read with
                         | Ok resources => resources
                         | Err _ => set_Stale true (cloneResources (ss_resources s))
                         end in
        let s := set_resources resources (set_network network (set_runtime (Some r) s)) in
        let s := if is_empty (resume_Data resumeState) then s
                 else set_resumeState resumeState s in
        let s := set_lastError None (set_state SessionStateReady s) in
        let s := match oldNetwork with
                 | Some n => if bool_decide (network = Some n) then s
                             else set_heap (close_network n (ss_heap s)) s
                 | None => s
                 end in
        let s := emit (NewStateChangedEvent (ss_id s) previous SessionStateReady now) s in
        let s := if is_ok read then emitResourcesUpdated resources s else s in
        (true, emitSelectedNodes s)
    end.

(** After a successful [installReconnectedRuntime]. *)
Definition reconnect_installed (attempt : Z) (config_resume : option ResumeState) (r : nat)
    (s : Session) : Session :=
  let s := match Runtime_ResumeState r (ss_heap s) with
           | Ok resumeState => emitResumeEvents config_resume resumeState s
           | Err _ => s
           end in
  emit {| event_SessionID := ss_id s; event_Type := EventTypeReconnected;
          event_Timestamp := now; event_PreviousState := ""; event_State := "";
          event_Error := None; event_Cleanup := None; event_Auth := None;
          event_Reconnect := Some {| reconnect_Attempt := attempt; reconnect_DelayMillis := 0 |};
          event_PreviousRoutingMode := ""; event_RoutingMode := "";
          event_ResumeStateRevision := 0; event_ResumeStateReused := false;
          event_Resources := None; event_SelectedNodes := None; event_Service := None |} s.

(** *** [RefreshResources] *)

Definition refresh_not_ready (s : Session) : error :=
  WrapError ErrorCodeSessionNotReady ("session " +:+ quote (ss_id s) +:+ " is not ready") true None.

(** The runtime and network that a refresh starts from; [replaceable] says whether a network
    can swap its VPN side. A nil network has no [replaceable] method to call: the code would
    panic there, which [None] stands for. *)
Definition refresh_begin (replaceable : nat -> bool) (s : Session)
    : option (result error (nat * nat)) :=
  if negb (bool_decide (ss_state s = SessionStateReady)) then Some (Err (refresh_not_ready s))
  else match ss_runtime s with
  | None => Some (Err (refresh_not_ready s))
  | Some r =>
      match ss_network s with
      | None => None
      | Some n =>
          if negb (replaceable n) then
            Some (Err (WrapError ErrorCodeOutboundUnavailable
                         "session network runtime cannot refresh VPN resources" false None))
          else Some (Ok (r, n))
      end
  end.

(** The critical section that adopts the candidate's client: the session must still be ready
    with the same runtime, and the network returned by [setupNetwork] must be the session's
    own. The result holds the client to close. *)
Definition refresh_adopt (r network candidate : nat) (resources : Resources)
    (setup : result error (option nat)) (nodes : option (gmap string string)) (s : Session)
    : result error (option nat * Session) :=
  if negb (bool_decide (ss_state s = SessionStateReady))
     || negb (bool_decide (ss_runtime s = Some r)) then
    Err (WrapError ErrorCodeSessionNotReady
           ("session " +:+ quote (ss_id s) +:+ " changed while refreshing resources") true None)
  else match setup with
  | Err err => Err err
  | Ok None =>
      Err (WrapError ErrorCodeOutboundUnavailable "refreshed network runtime is unavailable" true
             None)
  | Ok (Some refreshed) =>
      if negb (bool_decide (refreshed = network)) then
        Err (WrapError ErrorCodeOutboundUnavailable
               "resource refresh replaced the stable network runtime" false None)
      else
        let resumeState := runtime_resume candidate (ss_heap s) in
        let '(old, h) := adoptClient r candidate (ss_heap s) in
        let s := set_resources resources (set_heap h s) in
        let s := if is_empty (resume_Data resumeState) then s
                 else set_resumeState resumeState s in
        let s := if bool_decide (size (map_of nodes) = 0%nat) then s
                 else set_selectedNodes nodes s in
        Ok (old, s)
  end.

(** The events of a successful refresh. *)
Definition refresh_finish (resources : Resources) (nodes : option (gmap string string))
    (config_resume : option ResumeState) (resumeState : ResumeState) (old : option nat)
    (s : Session) : Session :=
  let s := match old with
           | Some c => set_heap (close_client c (ss_heap s)) s
           | None => s
           end in
  let s := emitResourcesUpdated resources s in
  let s := if bool_decide (size (map_of nodes) = 0%nat) then s
           else emit (NewNodeSelectedEvent (ss_id s) (map_of nodes) now) s in
  emitResumeEvents config_resume resumeState s.
End Operations.

#[global] Arguments failWith : simpl never.

(** ** What the operations leave alone

    [view] is the part of the session that the goroutines decide on; events, resources,
    nodes and the last error are not in it. *)

Record View : Type := {
  v_state : SessionState;
  v_runtime : option nat;
  v_network : option nat;
  v_canceled : bool;
  v_stageErr : option error;
  v_heap : Heap;
}.

Definition view (s : Session) : View :=
  {| v_state := ss_state s; v_runtime := ss_runtime s; v_network := ss_network s;
     v_canceled := ss_canceled s; v_stageErr := ss_stageErr s; v_heap := ss_heap s |}.

Definition v_set_state (state : SessionState) (v : View) : View :=
  {| v_state := state; v_runtime := v_runtime v; v_network := v_network v;
     v_canceled := v_canceled v; v_stageErr := v_stageErr v; v_heap := v_heap v |}.

Lemma view_emit e s : view (emit e s) = view s.
Proof. done. Qed.

Lemma view_emit_all es s : view (emit_all es s) = view s.
Proof.
  unfold emit_all. revert s; induction es as [|e es IH]; intros s; simpl; [done|].
  by rewrite IH, view_emit.
Qed.

Lemma view_transition now next s err s' :
  transition now next s = (err, s') ->
  (err = None /\ CanTransitionSessionState (ss_state s) next = true /\
   view s' = v_set_state next (view s)) \/
  (is_Some err /\ CanTransitionSessionState (ss_state s) next = false /\ s' = s).
Proof.
  unfold transition, ValidateSessionStateTransition. intros H.
  destruct (CanTransitionSessionState _ _) eqn:E; injection H as <- <-; [left|right];
    split_and!; try done; by rewrite view_emit.
Qed.

(** The state after a failure: [failed] when the machine allows it. *)
Definition failed_state (state : SessionState) : SessionState :=
  if CanTransitionSessionState state SessionStateFailed then SessionStateFailed else state.

Lemma failed_cannot_fail state :
  stopping state = true \/ state = SessionStateFailed ->
  CanTransitionSessionState state SessionStateFailed = false.
Proof.
  unfold stopping. intros [H|H]; [apply orb_true_iff in H as [H|H]; bool_hyps|]; subst;
    by vm_compute.
Qed.

Lemma view_failWith now code message err s :
  view (failWith now code message err s) = v_set_state (failed_state (ss_state s)) (view s).
Proof.
  unfold failWith. rewrite view_emit.
  set (s0 := set_lastError _ s).
  assert (ss_state s0 = ss_state s) as Hs by done. rewrite Hs.
  destruct (negb (stopping (ss_state s)) && _) eqn:E.
  - destruct (transition now SessionStateFailed s0) as [e s'] eqn:Ht.
    destruct (view_transition _ _ _ _ _ Ht) as [(_ & Hc & Hv)|(_ & Hc & Hv)];
      rewrite Hs in Hc; unfold failed_state; rewrite Hc; simpl; rewrite Hv; done.
  - unfold failed_state. rewrite failed_cannot_fail; [done|].
    apply andb_false_iff in E as [E|E]; bool_hyps; auto.
Qed.

Lemma view_fail_session now err s :
  view (fail_session now err s) = v_set_state (failed_state (ss_state s)) (view s).
Proof. apply view_failWith. Qed.

Lemma view_emitResourcesUpdated now r s : view (emitResourcesUpdated now r s) = view s.
Proof. unfold emitResourcesUpdated. destruct (no_resources r); [done|apply view_emit]. Qed.

Lemma view_emitSelectedNodes now s : view (emitSelectedNodes now s) = view s.
Proof. unfold emitSelectedNodes. case_bool_decide; [done|apply view_emit]. Qed.

Lemma view_emitServiceEvents now l t s : view (emitServiceEvents now l t s) = view s.
Proof. apply view_emit_all. Qed.

Lemma view_emitResumeEvents now o r s : view (emitResumeEvents now o r s) = view s.
Proof.
  unfold emitResumeEvents. destruct (is_empty _); [done|]. rewrite view_emit.
  destruct o; [|done]. destruct (resume_Reused r); [done|apply view_emit].
Qed.

Lemma view_handleNodeSelection now nodes s : view (handleNodeSelection now nodes s) = view s.
Proof.
  unfold handleNodeSelection. destruct (_ && _); [|done]. by rewrite view_emit.
Qed.

Lemma view_set_heap h s :
  view (set_heap h s) =
  {| v_state := ss_state s; v_runtime := ss_runtime s; v_network := ss_network s;
     v_canceled := ss_canceled s; v_stageErr := ss_stageErr s; v_heap := h |}.
Proof. done. Qed.

Create Rewrite HintDb session_view.
#[export] Hint Rewrite view_emit view_emit_all view_failWith view_fail_session
  view_emitResourcesUpdated view_emitSelectedNodes view_emitServiceEvents
  view_emitResumeEvents view_handleNodeSelection : session_view.

(** ** The event buffer *)

(** The newest [n] elements. *)
Definition lastn {A} (n : nat) (l : list A) : list A := drop (length l - n) l.

Lemma lastn_short {A} n (l : list A) : (length l <= n)%nat -> lastn n l = l.
Proof. intros H. unfold lastn. by replace (length l - n)%nat with 0%nat by lia. Qed.

Lemma lastn_snoc {A} n (l l' : list A) :
  (0 < n)%nat -> lastn n (lastn n l ++ l') = lastn n (l ++ l').
Proof.
  intros Hn. unfold lastn. rewrite !length_app, length_drop.
  destruct (le_lt_dec (length l) n) as [H|H].
  - replace (length l - n)%nat with 0%nat by lia. simpl. f_equal. lia.
  - rewrite !drop_app, !drop_drop, length_drop. f_equal; [f_equal; lia|f_equal; lia].
Qed.

(** How the channel can be: senders wait only for a full channel, emits only for a blocked
    one, and at most one emit is blocked. *)
Record channel_ok (c : EventChannel) : Prop := {
  ok_bound : (length (ec_buffer c) <= sessionEventBuffer)%nat;
  ok_full : ec_senders c <> [] -> length (ec_buffer c) = sessionEventBuffer;
  ok_emits : ec_emits c <> [] -> emit_blocked c = true;
  ok_one : (length (List.filter is_emit (ec_senders c)) <= 1)%nat;
}.

(** The sends and emits that have not returned. *)
Definition channel_waits (c : EventChannel) : nat :=
  (length (ec_senders c) + length (ec_emits c))%nat.

Lemma emit_blocked_filter c :
  emit_blocked c = false <-> List.filter is_emit (ec_senders c) = [].
Proof.
  unfold emit_blocked. induction (ec_senders c) as [|w l IH]; simpl; [done|].
  destruct (is_emit w); simpl; [by split|done].
Qed.

Lemma emit_locked_ok e c :
  channel_ok c -> emit_blocked c = false -> channel_ok (emit_locked e c) /\
  (channel_waits (emit_locked e c) <= channel_waits c)%nat.
Proof.
  intros [Hb Hf He Ho] Hn. unfold emit_locked, channel_waits.
  assert (ec_emits c = []) as He'.
  { destruct (ec_emits c); [done|]. by rewrite He in Hn. }
  case_bool_decide as Hl.
  - assert (ec_senders c = []) as Hs.
    { destruct (ec_senders c); [done|]. rewrite Hf in Hl by done. lia. }
    split; [split|]; cbn [ec_buffer ec_senders ec_emits]; rewrite ?Hs, ?He'; try done; [|simpl; lia].
    rewrite length_app. simpl. lia.
  - apply emit_blocked_filter in Hn.
    destruct (ec_senders c) as [|w rest] eqn:Hs; cbn [ec_buffer ec_senders ec_emits].
    + split; [split|]; cbn [ec_buffer ec_senders ec_emits]; rewrite ?He'; try done;
        first [simpl; lia|rewrite length_app, length_drop; simpl; unfold sessionEventBuffer in *; lia].
    + simpl in Hn. destruct (is_emit w); [done|].
      split; [split|]; cbn [ec_buffer ec_senders ec_emits]; rewrite ?He'; try done.
      * rewrite length_app, length_drop. simpl. unfold sessionEventBuffer in *. lia.
      * intros _. rewrite length_app, length_drop. simpl. unfold sessionEventBuffer in *. lia.
      * rewrite List.filter_app, Hn. simpl. lia.
      * rewrite length_app. simpl. lia.
Qed.

Lemma emit_event_ok e c :
  channel_ok c -> channel_ok (emit_event e c) /\
  (channel_waits (emit_event e c) <= channel_waits c + 1)%nat.
Proof.
  intros Hc. unfold emit_event. destruct (emit_blocked c) eqn:Hn.
  - destruct Hc as [Hb Hf He Ho]. split.
    { split; cbn [ec_buffer ec_senders ec_emits]; try done. }
    unfold channel_waits. simpl. rewrite length_app. simpl. lia.
  - destruct (emit_locked_ok e c Hc Hn). split; [done|lia].
Qed.

Lemma emit_fold_ok es c :
  channel_ok c -> let c' := fold_left (fun c event => emit_event event c) es c in
  channel_ok c' /\ (channel_waits c' <= channel_waits c + length es)%nat.
Proof.
  revert c. induction es as [|e es IH]; intros c Hc; simpl; [split; [done|lia]|].
  destruct (emit_event_ok e c Hc) as [H1 H2]. destruct (IH _ H1) as [H3 H4].
  split; [done|lia].
Qed.

Lemma receive_event_ok c e c' :
  channel_ok c -> receive_event c = Some (e, c') ->
  channel_ok c' /\ (channel_waits c' <= channel_waits c - 1)%nat.
Proof.
  intros [Hb Hf He Ho] H. unfold receive_event in H.
  destruct (ec_buffer c) as [|x rest] eqn:Eb; [done|]. simpl in Hb.
  destruct (ec_senders c) as [|w senders] eqn:Es.
  { injection H as <- <-.
    assert (ec_emits c = []) as He'.
    { destruct (ec_emits c); [done|]. unfold emit_blocked in He. rewrite Es in He. by specialize (He ltac:(done)). }
    split; [split|]; cbn [ec_buffer ec_senders ec_emits]; rewrite ?He'; try done; [lia|].
    unfold channel_waits. simpl. lia. }
  specialize (Hf ltac:(done)). simpl in Hf.
  assert (length (rest ++ [sender_event w]) = S (length rest)) as Hl.
  { rewrite length_app. simpl. lia. }
  destruct (is_emit w) eqn:Ew; injection H as <- <-; simpl in Ho; rewrite Ew in Ho; simpl in Ho.
  - unfold resume_emits. cbn [ec_buffer ec_senders ec_emits].
    destruct (emit_fold_ok (ec_emits c)
      {| ec_buffer := rest ++ [sender_event w]; ec_senders := senders; ec_emits := [] |})
      as [H1 H2].
    { split; cbn [ec_buffer ec_senders ec_emits]; rewrite ?Hl; try done; lia. }
    split; [exact H1|]. etransitivity; [exact H2|].
    unfold channel_waits. simpl. rewrite Es. simpl. lia.
  - split; [split|]; cbn [ec_buffer ec_senders ec_emits]; rewrite ?Hl; try done; try lia.
    + intros H. specialize (He H). unfold emit_blocked in *. rewrite Es in He. simpl in He.
      by rewrite Ew in He.
    + unfold channel_waits. simpl. rewrite Es. simpl. lia.
Qed.

Lemma send_event_ok e c sent c' :
  channel_ok c -> send_event e c = (sent, c') -> channel_ok c'.
Proof.
  intros [Hb Hf He Ho] H. unfold send_event in H. case_bool_decide as Hl; injection H as <- <-.
  - assert (ec_senders c = []) as Hs.
    { destruct (ec_senders c); [done|]. rewrite Hf in Hl by done. lia. }
    split; cbn [ec_buffer ec_senders ec_emits]; rewrite ?Hs; try done.
    + rewrite length_app. simpl. lia.
    + intros H. specialize (He H). unfold emit_blocked in He. by rewrite Hs in He.
    + simpl. lia.
  - split; cbn [ec_buffer ec_senders ec_emits]; try done.
    + lia.
    + intros H. specialize (He H). unfold emit_blocked in *. simpl. by rewrite existsb_app, He.
    + rewrite List.filter_app. simpl. by rewrite app_nil_r.
Qed.

Lemma emit_event_free e c :
  channel_ok c -> ec_senders c = [] ->
  ec_senders (emit_event e c) = [] /\ ec_emits (emit_event e c) = [] /\
  ec_buffer (emit_event e c) = lastn sessionEventBuffer (ec_buffer c ++ [e]).
Proof.
  intros [Hl _ He _] Hs.
  assert (emit_blocked c = false) as Hn by (unfold emit_blocked; by rewrite Hs).
  assert (ec_emits c = []) as He'.
  { destruct (ec_emits c); [done|]. by rewrite He in Hn. }
  unfold emit_event, emit_locked. rewrite Hn, Hs, He'. case_bool_decide as H; simpl.
  - split_and!; [done..|]. rewrite lastn_short; [done|]. rewrite length_app. simpl. lia.
  - split_and!; [done..|]. unfold lastn. rewrite length_app. simpl.
    replace (length (ec_buffer c) + 1 - sessionEventBuffer)%nat with 1%nat by lia.
    rewrite drop_app_le; [done|]. unfold sessionEventBuffer in H. lia.
Qed.

Lemma emit_fold_free es c :
  channel_ok c -> ec_senders c = [] ->
  let c' := fold_left (fun c event => emit_event event c) es c in
  ec_buffer c' = lastn sessionEventBuffer (ec_buffer c ++ es) /\ ec_senders c' = [] /\
  ec_emits c' = [].
Proof.
  revert c. induction es as [|e es IH]; intros c Hc Hs; simpl.
  - rewrite app_nil_r, lastn_short by apply Hc. split_and!; [done..|].
    destruct (ec_emits c) eqn:E; [done|]. destruct Hc as [_ _ He _].
    unfold emit_blocked in He. rewrite Hs, E in He. by specialize (He ltac:(done)).
  - destruct (emit_event_free e c Hc Hs) as (H1 & H2 & H3).
    destruct (IH (emit_event e c)) as (H4 & H5 & H6); [by apply emit_event_ok|done|].
    split_and!; try done. rewrite H4, H3, lastn_snoc by (unfold sessionEventBuffer; lia).
    by rewrite <-app_assoc.
Qed.

Lemma ss_events_emit_all es s :
  ss_events (emit_all es s) = fold_left (fun c event => emit_event event c) es (ss_events s).
Proof.
  unfold emit_all. revert s. induction es as [|e es IH]; intros s; simpl; [done|]. by rewrite IH.
Qed.

(** However many events are emitted while nobody reads, emitting never waits or fails as long
    as no [SetRoutingMode] call waits in its send: the channel holds exactly the newest 32
    events, in the order in which they were emitted. In particular the last event (a shutdown
    report, say) is never lost. *)
Theorem emit_keeps_newest (es : list Event) (s : Session) :
  channel_ok (ss_events s) -> ec_senders (ss_events s) = [] ->
  let c := ss_events (emit_all es s) in
  ec_buffer c = lastn sessionEventBuffer (ec_buffer (ss_events s) ++ es) /\
  ec_senders c = [] /\ ec_emits c = [] /\ view (emit_all es s) = view s.
Proof.
  intros Hc Hs c. subst c. rewrite ss_events_emit_all.
  destruct (emit_fold_free es (ss_events s) Hc Hs) as (H1 & H2 & H3).
  split_and!; [done..|apply view_emit_all].
Qed.

Lemma emit_keeps_newest_witness :
  let s := newSession "s" {| scfg_ResumeState := None; scfg_ClientDataFile := "";
                             scfg_DisableAutoReconnect := false |} in
  let es := map (fun i => baseEvent "s" "e" i) (map Z.of_nat (seq 0 40)) in
  map event_Timestamp (ec_buffer (ss_events (emit_all es s))) = map Z.of_nat (seq 8 32).
Proof.
  intros s es.
  destruct (emit_keeps_newest es s) as (-> & _); [|done|by vm_compute].
  split; vm_compute; try done; lia.
Defined.

(** A [SetRoutingMode] call that waits in its send does make an emit wait: it takes the room
    that the emit has made, and the emit returns only when the reader receives. *)
Example direct_send_blocks_emit :
  let s := newSession "s" {| scfg_ResumeState := None; scfg_ClientDataFile := "";
                             scfg_DisableAutoReconnect := false |} in
  let e i := baseEvent "s" "e" i in
  let full := emit_all (map e (map Z.of_nat (seq 0 32))) s in
  let waits := set_events (send_event (e 100) (ss_events full)).2 full in
  let blocked := emit (e 200) waits in
  emits_returned waits = true /\ emits_returned blocked = false /\
  (exists c, receive_event (ss_events blocked) = Some (e 1, c) /\ ec_senders c = [] /\
     map event_Timestamp (ec_buffer c) = map Z.of_nat (seq 2 30) ++ [100; 200]).
Proof. split_and!; [by vm_compute..|]. eexists. split; [by vm_compute|]. by vm_compute. Qed.

(** ** Reconnection delays *)

Lemma reconnectDelay_loop_max fuel current attempt :
  reconnectDelay_loop fuel current attempt reconnectMaxDelay = reconnectMaxDelay.
Proof. destruct fuel; [done|]. simpl. by rewrite andb_false_r. Qed.

(** The delay before the [n]-th reconnection attempt: none for the first one, then one
    second doubling with every further attempt, never more than thirty seconds; so the
    delays never decrease and every delay is a whole number of milliseconds. *)
Theorem reconnectDelay_spec (attempt : Z) :
  reconnectDelay attempt =
    (if bool_decide (attempt <= 1) then 0
     else Z.min (2 ^ (attempt - 2)) 30 * second) /\
  0 <= reconnectDelay attempt <= reconnectMaxDelay /\
  reconnectDelay attempt <= reconnectDelay (attempt + 1) /\
  reconnectDelay attempt mod 1000000 = 0.
Proof.
  assert (forall a, reconnectDelay a =
            if bool_decide (a <= 1) then 0 else Z.min (2 ^ (a - 2)) 30 * second) as H.
  { intros a. unfold reconnectDelay. case_bool_decide; [done|].
    assert (a = 2 \/ a = 3 \/ a = 4 \/ a = 5 \/ a = 6 \/ 7 <= a) as D by lia.
    destruct D as [->|[->|[->|[->|[->|D]]]]]; [by vm_compute..|].
    rewrite Z.min_r.
    2:{ replace (a - 2) with (5 + (a - 7)) by lia. rewrite Z.pow_add_r by lia.
        pose proof (Z.pow_pos_nonneg 2 (a - 7) ltac:(lia) ltac:(lia)). lia. }
    cbn [reconnectDelay_loop].
    rewrite !(bool_decide_eq_true_2 (_ < a)) by lia. by vm_compute. }
  assert (forall a, 0 <= reconnectDelay a <= reconnectMaxDelay) as Hb.
  { intros a. rewrite H. case_bool_decide; [by vm_compute|].
    pose proof (Z.pow_pos_nonneg 2 (a - 2) ltac:(lia) ltac:(lia)).
    unfold reconnectMaxDelay, second. lia. }
  split_and!; [apply H|apply Hb..| |].
  - destruct (decide (attempt <= 1)) as [Hle|Hle].
    { rewrite (H attempt), bool_decide_eq_true_2 by done. apply Hb. }
    rewrite !H, !bool_decide_eq_false_2 by lia.
    assert (2 ^ (attempt - 2) <= 2 ^ (attempt + 1 - 2)) by (apply Z.pow_le_mono_r; lia).
    unfold second. lia.
  - rewrite H. case_bool_decide; [done|]. unfold second.
    change 1000000000 with (1000 * 1000000). rewrite Z.mul_assoc. by apply Z.mod_mul.
Qed.
