(* ===== verification/SessionSteps.v ===== *)
(** The goroutines of one session (internal/atrustruntime/session.go) and their
    interleavings: [Start], [Close], [monitorRuntime] with [reconnect], and
    [RefreshResources].

    Each goroutine has a program counter; a step is what one goroutine does between two
    accesses to state that another goroutine can see. Everything under one hold of [mu] is
    one step.

    An emit can block (Session.v), always at the end of a step. The steps let the goroutine
    of a blocked emit go on all the same: they have every run of the code, and more, so that
    what holds after any number of steps holds of the code. What a goroutine does while its
    emit has not returned is left out where it matters, in the [close_turn] of
    SessionSafety.v. *)

From S2P Require Import Prelude Core RuntimeStart Session.

(** ** Program counters *)

Inductive StartPC : Type :=
| SIdle
| SStage (done : nat)
| SStarted (r : nat)
| SChecked (r : nat) (network : option nat)
| SInstalled (r : nat) (network : option nat) (resources : Resources) (resume : ResumeState)
| SDone.

Inductive ClosePC : Type :=
| CIdle
| CBegin (state : SessionState)
| CStopping (stopErr : option error)
| CRead (stopErr : option error) (runtime network : option nat)
| CReleased (stopErr : option error) (result : CleanupResult) (closeErr : option error)
| CServices (stopErr : option error) (result : CleanupResult) (closeErr : option error)
| CStopped (stopErr : option error) (result : CleanupResult) (closeErr : option error)
| CDone.

Inductive MonitorPC : Type :=
| MIdle
| MWatch (r : nat)
| MFailing (r : nat) (network : option nat) (err : error)
| MClosed (err : error)
| MDrop (r : nat) (err : error)
| MDropped (r : nat) (reuse : option nat) (resume : option ResumeState) (err : error)
| MRetry (attempt : Z) (reuse : option nat) (resume : option ResumeState) (err : error)
| MScheduled (attempt : Z) (reuse : option nat) (resume : option ResumeState) (err : error)
| MGiveUp (err : error)
| MGivenUp (err : error)
| MCandidate (attempt : Z) (reuse : option nat) (resume : option ResumeState) (err : error)
    (r : nat)
| MInstalled (attempt : Z) (resume : option ResumeState) (r : nat)
| MDone.

Inductive RefreshPC : Type :=
| RIdle
| RFetch (r network : nat)
| RCandidate (r network candidate : nat)
| RAdopted (old : option nat) (resources : Resources) (nodes : option (gmap string string))
    (resume : ResumeState).

(** A session with its goroutines. *)
Record Config : Type := mkConfig {
  c_session : Session;
  c_start : StartPC;
  c_close : ClosePC;
  c_monitor : MonitorPC;
  c_refresh : RefreshPC;
}.

Definition initial (id : SessionID) (config : SessionConfig) : Config :=
  mkConfig (newSession id config) SIdle CIdle MIdle RIdle.

(** The stages that the aTrust client reports, in order (client/atrust/setup.go). *)
Definition setup_stages : list string :=
  ["discovering_auth"; "authenticating"; "fetching_resources"; "selecting_nodes";
   "establishing_tunnel"]%string.

(** A runtime that [startWithStageHandler] built: its client is open, and its network is
    either a new one or the one it was given. *)
Definition open_runtime (r c : nat) (outbound : option nat) (fresh : bool) (resume : ResumeState)
    (h : Heap) : Heap :=
  {| runtimes := <[r := {| rt_client := Some c; rt_outbound := outbound;
                           rt_owns := match outbound with Some _ => true | None => false end;
                           rt_closed := false; rt_resume := resume |}]> (runtimes h);
     clients := {[c]} ∪ clients h;
     networks := match outbound with
                 | Some n => if fresh then {[n]} ∪ networks h else networks h
                 | None => networks h
                 end |}.

Definition fresh_runtime (r c : nat) (h : Heap) : Prop :=
  runtimes h !! r = None /\ c ∉ clients h.

Definition runtime_closed (r : nat) (h : Heap) : bool :=
  match runtimes h !! r with Some rt => rt_closed rt | None => true end.

(** ** Steps

    [LateAdopt] marks the one step that gives a client to a runtime that is already
    closed. *)
Inductive label : Type := Normal | LateAdopt.

Inductive step : label -> Config -> Config -> Prop :=
(* Start *)
| start_begin s cl mo re :
    step Normal (mkConfig s SIdle cl mo re) (mkConfig s (SStage 0) cl mo re)
| start_stage now s k stage cl mo re :
    setup_stages !! k = Some stage ->
    step Normal (mkConfig s (SStage k) cl mo re)
      (mkConfig (handleSetupStage now stage s) (SStage (S k)) cl mo re)
| start_setup_failed now err s k cl mo re :
    step Normal (mkConfig s (SStage k) cl mo re)
      (mkConfig (start_failed now err s) SDone cl mo re)
| start_setup_ok s r c outbound resume cl mo re :
    fresh_runtime r c (ss_heap s) ->
    (forall n, outbound = Some n -> n ∉ networks (ss_heap s)) ->
    step Normal (mkConfig s (SStage 5) cl mo re)
      (mkConfig (set_heap (open_runtime r c outbound true resume (ss_heap s)) s)
                (SStarted r) cl mo re)
| start_check_failed now s r err s' cl mo re :
    start_check now r s = inl (err, s') ->
    step Normal (mkConfig s (SStarted r) cl mo re) (mkConfig s' SDone cl mo re)
| start_check_ok now s r s' network h cl mo re :
    start_check now r s = inr s' -> DetachOutbound r (ss_heap s') = (network, h) ->
    step Normal (mkConfig s (SStarted r) cl mo re)
      (mkConfig (set_heap h s') (SChecked r network) cl mo re)
| start_read_failed now s r network err cl mo re :
    step Normal (mkConfig s (SChecked r network) cl mo re)
      (mkConfig (start_resources_failed now r network err s) SDone cl mo re)
| start_read_ok s r network resources cl mo re :
    step Normal (mkConfig s (SChecked r network) cl mo re)
      (mkConfig (start_install r network resources s)
         (SInstalled r network resources (runtime_resume r (ss_heap s))) cl mo re)
| start_not_ready now services s r network resources resume err s' cl mo re :
    start_ready now r network resources resume services s = (Some err, s') ->
    step Normal (mkConfig s (SInstalled r network resources resume) cl mo re)
      (mkConfig s' SDone cl mo re)
| start_is_ready now services s r network resources resume s' cl mo re :
    start_ready now r network resources resume services s = (None, s') ->
    step Normal (mkConfig s (SInstalled r network resources resume) cl mo re)
      (mkConfig s' SDone cl (MWatch r) re)
(* Close *)
| close_begin s st mo re :
    step Normal (mkConfig s st CIdle mo re) (mkConfig (cancel s) st (CBegin (ss_state s)) mo re)
| close_transition now s state err s' st mo re :
    close_stop now state s = (err, s') ->
    step Normal (mkConfig s st (CBegin state) mo re) (mkConfig s' st (CStopping err) mo re)
| close_read s err st mo re :
    step Normal (mkConfig s st (CStopping err) mo re)
      (mkConfig s st (CRead err (ss_runtime s) (ss_network s)) mo re)
| close_resources s err runtime network networkErr runtimeErr result closeErr st mo re :
    close_errors runtime network networkErr runtimeErr = (result, closeErr) ->
    step Normal (mkConfig s st (CRead err runtime network) mo re)
      (mkConfig (close_release runtime network s) st (CReleased err result closeErr) mo re)
| close_service_events now services s err result closeErr st mo re :
    step Normal (mkConfig s st (CReleased err result closeErr) mo re)
      (mkConfig (emit_stopped_services now services s) st (CServices err result closeErr) mo re)
| close_transition_stopped now s err result closeErr closeErr' s' st mo re :
    close_stopped now closeErr s = (closeErr', s') ->
    step Normal (mkConfig s st (CServices err result closeErr) mo re)
      (mkConfig s' st (CStopped err result closeErr') mo re)
| close_done now started s err result closeErr report s' st mo re :
    close_report now started err result s = (report, s') ->
    step Normal (mkConfig s st (CStopped err result closeErr) mo re) (mkConfig s' st CDone mo re)
(* monitorRuntime and reconnect *)
| monitor_stop s st cl r re :
    step Normal (mkConfig s st cl (MWatch r) re) (mkConfig s st cl MDone re)
| monitor_gives_up s st cl r err re :
    gives_up err s = true ->
    step Normal (mkConfig s st cl (MWatch r) re)
      (mkConfig s st cl (MFailing r (ss_network s) err) re)
| monitor_close s st cl r network err re :
    step Normal (mkConfig s st cl (MFailing r network err) re)
      (mkConfig (set_heap (closeRuntime r (close_network_opt network (ss_heap s))) s)
         st cl (MClosed err) re)
| monitor_failed now s st cl err re :
    step Normal (mkConfig s st cl (MClosed err) re)
      (mkConfig (monitor_fail now err s) st cl MDone re)
| reconnect_refused now s st cl r err e s' re :
    gives_up err s = false -> transition now SessionStateReconnecting s = (Some e, s') ->
    step Normal (mkConfig s st cl (MWatch r) re) (mkConfig s' st cl MDone re)
| reconnect_begin now s st cl r err s' re :
    gives_up err s = false -> transition now SessionStateReconnecting s = (None, s') ->
    step Normal (mkConfig s st cl (MWatch r) re) (mkConfig s' st cl (MDrop r err) re)
| reconnect_forget s st cl r err (replaceable : nat -> bool) re :
    step Normal (mkConfig s st cl (MDrop r err) re)
      (mkConfig (if bool_decide (ss_runtime s = Some r) then set_runtime None s else s) st cl
         (MDropped r
            match ss_network s with Some n => if replaceable n then Some n else None
                                  | None => None end
            (reconnectConfig_ResumeState r s) err) re)
| reconnect_close_failed s st cl r reuse resume err re :
    step Normal (mkConfig s st cl (MDropped r reuse resume err) re)
      (mkConfig (set_heap (closeRuntime r (ss_heap s)) s) st cl (MRetry 1 reuse resume err) re)
| reconnect_scheduled now s st cl attempt reuse resume err re :
    step Normal (mkConfig s st cl (MRetry attempt reuse resume err) re)
      (mkConfig (reconnect_schedule now attempt err s) st cl
         (MScheduled attempt reuse resume err) re)
| reconnect_canceled s st cl attempt reuse resume err re :
    ss_canceled s = true ->
    step Normal (mkConfig s st cl (MScheduled attempt reuse resume err) re)
      (mkConfig s st cl MDone re)
| reconnect_attempt_failed now s st cl attempt reuse resume err (closed : bool) e re :
    step Normal (mkConfig s st cl (MScheduled attempt reuse resume err) re)
      (mkConfig
         (reconnect_failed now attempt e
            (set_heap (if closed then close_network_opt reuse (ss_heap s) else ss_heap s) s))
         st cl
         (if IsRetryable (Some e) then MRetry (attempt + 1) reuse resume err else MGiveUp e) re)
| reconnect_closes_network s st cl e re :
    step Normal (mkConfig s st cl (MGiveUp e) re)
      (mkConfig (reconnect_close_network s) st cl (MGivenUp e) re)
| reconnect_gives_up now s st cl e re :
    step Normal (mkConfig s st cl (MGivenUp e) re)
      (mkConfig (reconnect_give_up now e s) st cl MDone re)
| reconnect_attempt_ok s st cl attempt reuse resume err r c outbound state re :
    fresh_runtime r c (ss_heap s) ->
    (reuse = None -> forall n, outbound = Some n -> n ∉ networks (ss_heap s)) ->
    (forall n, reuse = Some n -> outbound = Some n) ->
    step Normal (mkConfig s st cl (MScheduled attempt reuse resume err) re)
      (mkConfig
         (set_heap (open_runtime r c outbound (bool_decide (reuse = None)) state (ss_heap s)) s)
         st cl (MCandidate attempt reuse resume err r) re)
| reconnect_install_failed now s st cl attempt reuse resume err r read s' re :
    installReconnectedRuntime now r read s = (false, s') ->
    step Normal (mkConfig s st cl (MCandidate attempt reuse resume err r) re)
      (mkConfig (set_heap (closeRuntime r (ss_heap s')) s') st cl MDone re)
| reconnect_install_ok now s st cl attempt reuse resume err r read s' re :
    installReconnectedRuntime now r read s = (true, s') ->
    step Normal (mkConfig s st cl (MCandidate attempt reuse resume err r) re)
      (mkConfig s' st cl (MInstalled attempt resume r) re)
| reconnect_announce now s st cl attempt resume r re :
    step Normal (mkConfig s st cl (MInstalled attempt resume r) re)
      (mkConfig (reconnect_installed now attempt resume r s) st cl (MWatch r) re)
(* RefreshResources *)
| refresh_start s st cl mo replaceable r n :
    refresh_begin replaceable s = Some (Ok (r, n)) ->
    step Normal (mkConfig s st cl mo RIdle) (mkConfig s st cl mo (RFetch r n))
| refresh_failed s st cl mo r n :
    step Normal (mkConfig s st cl mo (RFetch r n)) (mkConfig s st cl mo RIdle)
| refresh_candidate s st cl mo r n candidate c resume :
    fresh_runtime candidate c (ss_heap s) ->
    step Normal (mkConfig s st cl mo (RFetch r n))
      (mkConfig (set_heap (open_runtime candidate c None false resume (ss_heap s)) s) st cl mo
         (RCandidate r n candidate))
| refresh_abandon s st cl mo r n candidate :
    step Normal (mkConfig s st cl mo (RCandidate r n candidate))
      (mkConfig (set_heap (closeRuntime candidate (ss_heap s)) s) st cl mo RIdle)
| refresh_adopted s st cl mo r n candidate resources setup nodes old s' :
    refresh_adopt r n candidate resources setup nodes s = Ok (old, s') ->
    step (if runtime_closed r (ss_heap s) then LateAdopt else Normal)
      (mkConfig s st cl mo (RCandidate r n candidate))
      (mkConfig s' st cl mo
         (RAdopted old resources nodes (runtime_resume candidate (ss_heap s))))
| refresh_done now config_resume s st cl mo old resources nodes resume :
    step Normal (mkConfig s st cl mo (RAdopted old resources nodes resume))
      (mkConfig (refresh_finish now resources nodes config_resume resume old s) st cl mo RIdle)
(* Callbacks and callers *)
| node_selection now nodes s st cl mo re :
    step Normal (mkConfig s st cl mo re)
      (mkConfig (handleNodeSelection now nodes s) st cl mo re)
| wait_closed s st cl mo re :
    cl <> CIdle ->
    step Normal (mkConfig s st cl mo re) (mkConfig (waitRuntimeClosed s) st cl mo re)
| set_routing_mode now f mode s st cl mo re answer s' :
    session_SetRoutingMode now f mode s = (answer, s') ->
    step Normal (mkConfig s st cl mo re) (mkConfig s' st cl mo re)
| service_ended now status s st cl mo re :
    step Normal (mkConfig s st cl mo re)
      (mkConfig (emit (NewServiceEvent (ss_id s) EventTypeServiceStopped status now) s)
         st cl mo re)
| event_read s st cl mo re e rest :
    receive_event (ss_events s) = Some (e, rest) ->
    step Normal (mkConfig s st cl mo re) (mkConfig (set_events rest s) st cl mo re).

Definition normal_step (c c' : Config) : Prop := step Normal c c'.
Definition any_step (c c' : Config) : Prop := exists l, step l c c'.

(** ** Who holds what

    [held] are the runtimes that some goroutine or the session will close, [nets] the
    networks held directly and [owner] the runtimes whose network is still their own;
    [old] is a client about to be closed. *)

Record heap_ok (h : Heap) (old : option nat) (held nets owner : nat -> Prop) : Prop := {
  ok_client c : c ∈ clients h ->
    (exists r rt, runtimes h !! r = Some rt /\ rt_client rt = Some c /\ rt_closed rt = false)
    \/ old = Some c;
  ok_runtime r rt : runtimes h !! r = Some rt -> rt_closed rt = false ->
    is_Some (rt_client rt) -> held r;
  ok_network n : n ∈ networks h ->
    nets n \/ exists r rt, owner r /\ runtimes h !! r = Some rt /\ rt_outbound rt = Some n /\
                rt_owns rt = true /\ rt_closed rt = false;
}.

Lemma heap_ok_weaken h old (P Q O P' Q' O' : nat -> Prop) :
  heap_ok h old P Q O -> (forall r, P r -> P' r) -> (forall n, Q n -> Q' n) ->
  (forall r, O r -> O' r) -> heap_ok h old P' Q' O'.
Proof.
  intros [Hc Hr Hn] HP HQ HO. split; [done|eauto|].
  intros n Hin. destruct (Hn n Hin) as [?|(r & rt & ? & ?)]; [eauto|right; eauto].
Qed.

(** Closing a runtime settles it: nobody has to hold it any more. *)
Lemma heap_ok_close_runtime r h old (P Q O : nat -> Prop) :
  heap_ok h old P Q O ->
  heap_ok (closeRuntime r h) old (fun x => P x /\ x <> r) Q (fun x => O x /\ x <> r).
Proof.
  intros [Hc Hr Hn]. unfold closeRuntime.
  destruct (runtimes h !! r) as [rt|] eqn:Er.
  2:{ split; [done| |].
      - intros x xt Hx Ho Hcl. split; [by eapply Hr|congruence].
      - intros n Hin. destruct (Hn n Hin) as [?|(x & xt & ? & Hx & ?)]; [by left|].
        right. exists x, xt. split; [split; [done|congruence]|done]. }
  destruct (rt_closed rt) eqn:Ec.
  { split; [done| |].
    - intros x xt Hx Ho Hcl. split; [by eapply Hr|congruence].
    - intros n Hin. destruct (Hn n Hin) as [?|(x & xt & ? & Hx & ? & ? & ?)]; [by left|].
      right. exists x, xt. split; [split; [done|congruence]|done]. }
  set (h1 := if rt_owns rt then _ else h).
  assert (runtimes h1 = runtimes h /\ clients h1 = clients h /\
          networks h1 ⊆ networks h /\
          (forall n, rt_owns rt = true -> rt_outbound rt = Some n -> n ∉ networks h1))
    as (H1 & H2 & H3 & H4).
  { unfold h1. destruct (rt_owns rt), (rt_outbound rt) as [m|]; simpl; split_and!; try done;
      set_solver. }
  clearbody h1. set (h2 := match rt_client rt with Some c => close_client c h1 | None => h1 end).
  assert (runtimes h2 = runtimes h /\ networks h2 = networks h1 /\ clients h2 ⊆ clients h /\
          (forall c, rt_client rt = Some c -> c ∉ clients h2)) as (H5 & H6 & H7 & H8).
  { unfold h2. destruct (rt_client rt); simpl; rewrite ?H2; split_and!; try done; set_solver. }
  clearbody h2. split; simpl.
  - intros c Hin. destruct (Hc c (H7 c Hin)) as [(x & xt & Hx & Hcl & Ho)|?]; [left|by right].
    exists x, xt. rewrite lookup_insert_ne, H5; [done|]. intros ->.
    simplify_eq. by eapply H8.
  - intros x xt Hx Ho Hcl. apply lookup_insert_Some in Hx as [[<- <-]|[Hne Hx]]; [done|].
    rewrite H5 in Hx. split; [by eapply Hr|done].
  - intros n Hin. rewrite H6 in Hin.
    destruct (Hn n (H3 n Hin)) as [?|(x & xt & HO & Hx & Hob & Hown & Ho)]; [by left|right].
    exists x, xt. assert (x <> r) as Hne by (intros ->; simplify_eq; by eapply H4).
    rewrite lookup_insert_ne, H5 by done. done.
Qed.

Lemma heap_ok_close_network n h old (P Q O : nat -> Prop) :
  heap_ok h old P Q O -> heap_ok (close_network n h) old P (fun x => Q x /\ x <> n) O.
Proof.
  intros [Hc Hr Hn]. split; [done|done|]. simpl. intros m Hin.
  apply elem_of_difference in Hin as [Hin Hne]. rewrite elem_of_singleton in Hne.
  destruct (Hn m Hin); [by left|by right].
Qed.

Lemma heap_ok_close_network_opt o h old (P Q O : nat -> Prop) :
  heap_ok h old P Q O -> heap_ok (close_network_opt o h) old P (fun x => Q x /\ o <> Some x) O.
Proof.
  intros H. destruct o as [n|]; simpl.
  - eapply heap_ok_weaken; [by apply (heap_ok_close_network n)|done| |done].
    intros x [? ?]. split; congruence.
  - eapply heap_ok_weaken; [exact H|done| |done]. done.
Qed.

Lemma heap_ok_close_runtime_opt o h old (P Q O : nat -> Prop) :
  heap_ok h old P Q O ->
  heap_ok (close_runtime_opt o h) old (fun x => P x /\ o <> Some x) Q O.
Proof.
  intros H. destruct o as [r|]; simpl.
  - eapply heap_ok_weaken; [by apply (heap_ok_close_runtime r)| |done|by intros ? [? _]].
    intros x [? ?]. split; congruence.
  - eapply heap_ok_weaken; [exact H| |done|done]. done.
Qed.

(** [DetachOutbound] turns the runtime's own network into one that is held directly. *)
Lemma heap_ok_detach r h network h' old (P Q O : nat -> Prop) :
  DetachOutbound r h = (network, h') -> heap_ok h old P Q O ->
  heap_ok h' old P (fun n => Q n \/ network = Some n) (fun x => O x /\ x <> r).
Proof.
  unfold DetachOutbound. intros H [Hc Hr Hn].
  destruct (runtimes h !! r) as [rt|] eqn:Er; injection H as <- <-.
  2:{ split; [done|done|]. intros n Hin.
      destruct (Hn n Hin) as [?|(x & xt & ? & Hx & ?)]; [by left; left|].
      right. exists x, xt. split; [split; [done|congruence]|done]. }
  split; simpl.
  - intros c Hin. destruct (Hc c Hin) as [(x & xt & Hx & Hcl & Ho)|?]; [left|by right].
    destruct (decide (x = r)) as [->|Hne].
    + simplify_eq. eexists r, _. rewrite lookup_insert_eq. split; [done|]. done.
    + exists x, xt. by rewrite lookup_insert_ne.
  - intros x xt Hx Ho Hcl. apply lookup_insert_Some in Hx as [[<- <-]|[Hne Hx]].
    + by eapply Hr.
    + by eapply Hr.
  - intros n Hin. destruct (Hn n Hin) as [?|(x & xt & HO & Hx & Hob & ?)]; [by left; left|].
    destruct (decide (x = r)) as [->|Hne]; [left; right; congruence|].
    right. exists x, xt. by rewrite lookup_insert_ne.
Qed.

Lemma heap_ok_open r c outbound (fresh : bool) resume h old (P Q O : nat -> Prop) :
  fresh_runtime r c h -> heap_ok h old P Q O ->
  heap_ok (open_runtime r c outbound fresh resume h) old (fun x => P x \/ x = r) Q
    (fun x => O x \/ x = r).
Proof.
  intros [Hr0 Hc0] [Hc Hr Hn]. split; simpl.
  - intros d Hd. apply elem_of_union in Hd as [Hd|Hd].
    + apply elem_of_singleton in Hd as ->. left. eexists r, _.
      rewrite lookup_insert_eq. split; [done|done].
    + destruct (Hc d Hd) as [(x & xt & Hx & ?)|?]; [left|by right].
      exists x, xt. rewrite lookup_insert_ne by congruence. done.
  - intros x xt Hx Ho Hcl. apply lookup_insert_Some in Hx as [[<- _]|[Hne Hx]]; [by right|].
    left. by eapply Hr.
  - intros n Hin.
    assert (n ∈ networks h \/ (fresh = true /\ outbound = Some n)) as [Hin'|[-> ->]].
    { destruct outbound as [m|]; [|by left]. destruct fresh; [|by left].
      apply elem_of_union in Hin as [Hin|Hin]; [right|by left].
      by apply elem_of_singleton in Hin as ->. }
    + destruct (Hn n Hin') as [?|(x & xt & HO & Hx & ?)]; [by left|right].
      exists x, xt. rewrite lookup_insert_ne by congruence. split; [by left|done].
    + right. eexists r, _. rewrite lookup_insert_eq. split; [by right|]. done.
Qed.

(** Adopting a client: the runtime must be held, and the replaced client is closed next. *)
Lemma heap_ok_adopt r candidate h o h' (P Q O : nat -> Prop) :
  adoptClient r candidate h = (o, h') -> runtime_closed r h = false -> P r ->
  heap_ok h None P Q O -> heap_ok h' o (fun x => P x /\ (x = candidate -> x = r)) Q O.
Proof.
  unfold adoptClient, runtime_closed. intros H Hcl Pr [Hc Hr Hn].
  destruct (runtimes h !! r) as [rt|] eqn:Er; [|done].
  destruct (runtimes h !! candidate) as [ct|] eqn:Ect; injection H as <- <-.
  2:{ split; [|by intros x xt Hx Ho Hs; split; [by eapply Hr|congruence]|done].
      intros c Hin. destruct (Hc c Hin) as [?|?]; [by left|done]. }
  split; simpl.
  - intros c Hin. destruct (Hc c Hin) as [(x & xt & Hx & Hxc & Ho)|?]; [|done].
    destruct (decide (x = r)) as [->|Hnr]; [right; congruence|left].
    destruct (decide (x = candidate)) as [->|Hne].
    + eexists r, _. rewrite lookup_insert_eq. split; [done|]. simpl. split; [congruence|done].
    + exists x, xt. by rewrite !lookup_insert_ne.
  - intros x xt Hx Ho Hs. apply lookup_insert_Some in Hx as [[<- <-]|[Hne Hx]]; [done|].
    apply lookup_insert_Some in Hx as [[<- <-]|[Hne' Hx]]; [by destruct Hs|].
    split; [by eapply Hr|congruence].
  - intros n Hin. destruct (Hn n Hin) as [?|(x & xt & HO & Hx & Hob & Hown & Ho)]; [by left|right].
    exists x. destruct (decide (x = r)) as [->|Hnr].
    + simplify_eq. eexists. by rewrite lookup_insert_eq.
    + destruct (decide (x = candidate)) as [->|Hne].
      * simplify_eq. eexists. rewrite lookup_insert_ne, lookup_insert_eq by done. by split.
      * exists xt. by rewrite !lookup_insert_ne.
Qed.

Lemma heap_ok_close_client o h (P Q O : nat -> Prop) :
  heap_ok h o P Q O ->
  heap_ok (match o with Some c => close_client c h | None => h end) None P Q O.
Proof.
  intros [Hc Hr Hn]. destruct o as [c|]; [|done]. split; [|done|done]. simpl. intros d Hin.
  apply elem_of_difference in Hin as [Hin Hne]. rewrite elem_of_singleton in Hne.
  destruct (Hc d Hin) as [?|?]; [by left|congruence].
Qed.

(** ** The invariant *)

Definition start_holds (st : StartPC) : option nat :=
  match st with
  | SStarted r | SChecked r _ | SInstalled r _ _ _ => Some r
  | _ => None
  end.

Definition start_nets (st : StartPC) : option nat :=
  match st with SChecked _ n | SInstalled _ n _ _ => n | _ => None end.

Definition start_owner (st : StartPC) : option nat :=
  match st with SStarted r => Some r | _ => None end.

Definition close_holds (v : View) (cl : ClosePC) : option nat :=
  match cl with
  | CIdle | CBegin _ | CStopping _ => v_runtime v
  | CRead _ r _ => r
  | _ => None
  end.

Definition close_nets (v : View) (cl : ClosePC) : option nat :=
  match cl with
  | CIdle | CBegin _ | CStopping _ => v_network v
  | CRead _ _ n => n
  | _ => None
  end.

Definition monitor_holds (mo : MonitorPC) : option nat :=
  match mo with MDropped r _ _ _ | MCandidate _ _ _ _ r => Some r | _ => None end.

Definition monitor_owner (mo : MonitorPC) : option nat :=
  match mo with MCandidate _ _ _ _ r => Some r | _ => None end.

Definition refresh_holds (re : RefreshPC) : option nat :=
  match re with RCandidate _ _ c => Some c | _ => None end.

Definition refresh_old (re : RefreshPC) : option nat :=
  match re with RAdopted old _ _ _ => old | _ => None end.

Definition held (v : View) st cl mo re (r : nat) : Prop :=
  start_holds st = Some r \/ close_holds v cl = Some r \/ monitor_holds mo = Some r \/
  refresh_holds re = Some r.

Definition nets (v : View) st cl (n : nat) : Prop :=
  start_nets st = Some n \/ close_nets v cl = Some n.

Definition owner st mo (r : nat) : Prop := start_owner st = Some r \/ monitor_owner mo = Some r.

(** [close] has not reached its transition to [stopping]. *)
Definition close_early (cl : ClosePC) : bool :=
  match cl with CIdle | CBegin _ => true | _ => false end.

Definition stage_states : list SessionState :=
  [SessionStateIdle; SessionStateDiscoveringAuth; SessionStateAuthenticating;
   SessionStateFetchingResources; SessionStateSelectingNodes; SessionStateEstablishingTunnel].

(** [close] has made its transition to [stopped]. *)
Definition close_late (cl : ClosePC) : bool :=
  match cl with CStopped _ _ _ | CDone => true | _ => false end.

(** The error of the transition to [stopping], which goes to the report. *)
Definition close_stopErr (cl : ClosePC) : option error :=
  match cl with
  | CStopping e | CRead e _ _ | CReleased e _ _ | CServices e _ _ | CStopped e _ _ => e
  | CIdle | CBegin _ | CDone => None
  end.

(** During start-up the state is the one of the last stage, unless [close] has moved it. *)
Definition start_ok (v : View) (st : StartPC) : Prop :=
  let on state := stopping (v_state v) = true \/ (v_state v = state /\ v_stageErr v = None) in
  match st with
  | SIdle => on SessionStateIdle
  | SStage k => (k <= 5)%nat /\ on (nth k stage_states "")
  | SStarted _ | SChecked _ _ => on SessionStateEstablishingTunnel
  | SInstalled r network _ _ =>
      v_runtime v = Some r /\ v_network v = network /\ on SessionStateEstablishingTunnel
  | SDone => stopping (v_state v) = true \/ v_stageErr v = None
  end.

Definition start_early (st : StartPC) : bool :=
  match st with SInstalled _ _ _ _ | SDone => false | _ => true end.

Definition monitor_ok (v : View) (mo : MonitorPC) : Prop :=
  match mo with
  | MWatch r | MFailing r _ _ | MDrop r _ | MInstalled _ _ r => v_runtime v = Some r
  | MDropped _ _ _ _ | MRetry _ _ _ _ | MScheduled _ _ _ _ | MCandidate _ _ _ _ _ =>
      v_runtime v = None
  | MIdle | MClosed _ | MGiveUp _ | MGivenUp _ | MDone => True
  end.

Record Inv (v : View) (st : StartPC) (cl : ClosePC) (mo : MonitorPC) (re : RefreshPC) : Prop := {
  inv_heap : heap_ok (v_heap v) (refresh_old re) (held v st cl mo re) (nets v st cl) (owner st mo);
  inv_closing : stopping (v_state v) = negb (close_early cl);
  inv_stopped : v_state v = SessionStateStopped <-> close_late cl = true;
  inv_stopErr : close_stopErr cl = None;
  inv_begin state : cl = CBegin state -> stopping state = false;
  inv_start : start_ok v st;
  inv_starting : st <> SDone -> mo = MIdle /\ (re = RIdle);
  inv_empty : start_early st = true -> v_runtime v = None /\ v_network v = None;
  inv_monitor : monitor_ok v mo;
  inv_valid : SessionState_Valid (v_state v) = true;
}.

Definition config_inv (c : Config) : Prop :=
  Inv (view (c_session c)) (c_start c) (c_close c) (c_monitor c) (c_refresh c).

Lemma initial_inv id config : config_inv (initial id config).
Proof.
  split; simpl; try done. by right.
Qed.

(** *** Steps that only move the state *)

Lemma not_stopping_failed state : stopping state = false -> stopping (failed_state state) = false.
Proof. unfold failed_state. by destruct (CanTransitionSessionState _ _). Qed.

Lemma stopping_failed state : stopping (failed_state state) = stopping state.
Proof.
  unfold failed_state. destruct (stopping state) eqn:E.
  - by rewrite failed_cannot_fail by auto.
  - by destruct (CanTransitionSessionState _ _).
Qed.

Lemma failed_stopped state : failed_state state = SessionStateStopped <-> state = SessionStateStopped.
Proof.
  unfold failed_state. destruct (CanTransitionSessionState _ _) eqn:E; [|done].
  split; [done|]. intros ->. by vm_compute in E.
Qed.

Lemma failed_valid state :
  SessionState_Valid state = true -> SessionState_Valid (failed_state state) = true.
Proof. unfold failed_state. by destruct (CanTransitionSessionState _ _). Qed.

Lemma stopping_iff state :
  stopping state = true <-> state = SessionStateStopping \/ state = SessionStateStopped.
Proof. unfold stopping. rewrite orb_true_iff, !bool_decide_eq_true. done. Qed.
