(* ===== verification/SessionInv.v ===== *)
(** Every step of a session's goroutines keeps the invariant of SessionSteps.v: one lemma per
    step, grouped by goroutine, and their sum [normal_step_inv]. *)

From S2P Require Import Prelude Core RuntimeStart Session SessionSteps.

Lemma view_start_failed now err s :
  view (start_failed now err s) =
  {| v_state := failed_state (ss_state s); v_runtime := ss_runtime s; v_network := ss_network s;
     v_canceled := true; v_stageErr := ss_stageErr s; v_heap := ss_heap s |}.
Proof. unfold start_failed. by rewrite view_fail_session. Qed.

Lemma stage_transition k stage :
  setup_stages !! k = Some stage ->
  exists state, setupStageState stage = Some state /\
    nth (S k) stage_states "" = state /\ (k < 5)%nat /\ stopping state = false /\
    stopping (nth k stage_states "") = false /\ SessionState_Valid state = true /\
    CanTransitionSessionState (nth k stage_states "") state = true.
Proof.
  intros H. do 5 (destruct k as [|k]; [injection H as <-; eexists; split_and!;
    [by vm_compute|done|lia|by vm_compute..]|]). done.
Qed.

Lemma not_stopping_stopped state : stopping state = false -> state <> SessionStateStopped.
Proof. by intros H ->. Qed.

Lemma stopping_no_start state :
  stopping state = true -> forall k, CanTransitionSessionState state (nth (S k) stage_states "") = false.
Proof.
  intros H k. apply stopping_iff in H.
  do 5 (destruct k as [|k]; [by destruct H as [-> | ->]; vm_compute|]).
  simpl. destruct k; by destruct H as [-> | ->]; vm_compute.
Qed.

Lemma inv_set_state v st cl mo re state :
  Inv v st cl mo re -> stopping state = stopping (v_state v) ->
  (state = SessionStateStopped <-> v_state v = SessionStateStopped) ->
  start_ok (v_set_state state v) st -> SessionState_Valid state = true ->
  Inv (v_set_state state v) st cl mo re.
Proof.
  intros [Hheap Hc Hd Hse' Hb Hs Hg He Hm Hvd] H1 H2 H3 H4. split; simpl; try done.
  - by rewrite H1.
  - by rewrite H2.
Qed.

(** A step of [start] that holds nothing before and after, and may move the state. *)
Lemma inv_start_move v st cl mo re st' state :
  Inv v st cl mo re -> start_holds st = None -> start_holds st' = None -> start_early st = true ->
  stopping state = stopping (v_state v) ->
  (state = SessionStateStopped <-> v_state v = SessionStateStopped) ->
  start_ok (v_set_state state v) st' -> st' <> SIdle -> SessionState_Valid state = true ->
  Inv (v_set_state state v) st' cl mo re.
Proof.
  intros [Hheap Hc Hd Hse' Hb Hs Hg He Hm Hvd] H1 H2 H3 H4 H5 H6 H7 H8.
  assert (start_nets st = None /\ start_nets st' = None /\ start_owner st = None /\
          start_owner st' = None) as (E1 & E2 & E3 & E4) by (by destruct st, st').
  split; try done; cbn [v_set_state v_state v_heap v_runtime v_network].
  - eapply heap_ok_weaken; [exact Hheap|..]; unfold held, nets, owner; intros x;
      rewrite ?H1, ?H2, ?E1, ?E2, ?E3, ?E4; tauto.
  - by rewrite H4.
  - by rewrite H5.
  - intros _. apply Hg. by destruct st.
  - intros _. by apply He.
Qed.

Lemma v_set_state_same v : v_set_state (v_state v) v = v.
Proof. by destruct v. Qed.

Lemma inv_start_pc v st cl mo re st' :
  Inv v st cl mo re -> start_holds st = None -> start_holds st' = None -> start_early st = true ->
  start_ok v st' -> st' <> SIdle -> Inv v st' cl mo re.
Proof.
  intros HI H1 H2 H3 H4 H5. pose proof (inv_start_move v st cl mo re st' (v_state v)) as H.
  rewrite v_set_state_same in H. apply H; try done. apply (inv_valid _ _ _ _ _ HI).
Qed.

Lemma inv_handleSetupStage now stage s k cl mo re :
  setup_stages !! k = Some stage ->
  Inv (view s) (SStage k) cl mo re ->
  Inv (view (handleSetupStage now stage s)) (SStage (S k)) cl mo re.
Proof.
  intros Hk HI.
  destruct (stage_transition _ _ Hk) as (state & Hst & Hnth & Hlt & Hns & Hns' & Hvst & Hcan).
  assert (stopping (ss_state s) = true -> CanTransitionSessionState (ss_state s) state = false)
    as Hno by (rewrite <-Hnth; intros; by apply stopping_no_start).
  unfold handleSetupStage. rewrite Hst.
  destruct (transition now state s) as [err s'] eqn:Ht.
  pose proof (inv_start _ _ _ _ _ HI) as [Hle Hs].
  cbn [view v_state v_stageErr v_runtime v_network v_heap] in *.
  destruct (view_transition _ _ _ _ _ Ht) as [(-> & Hcan' & Hv)|([e ->] & Hcan' & ->)].
  - destruct Hs as [Hs|[Hs Hse]]; [by rewrite Hno in Hcan'|].
    rewrite Hv. apply (inv_start_move _ (SStage k)); try done; cbn [view v_state].
    + by rewrite Hns, Hs, Hns'.
    + split; intros H; exfalso; revert H; apply not_stopping_stopped; [done|by rewrite Hs].
    + split; [lia|]. right. by rewrite <-Hnth.
  - destruct Hs as [Hs|[Hs Hse]]; [|rewrite Hs, Hcan in Hcan'; done].
    assert (Inv (view (set_stageErr (Some e) s)) (SStage (S k)) cl mo re /\
            Inv (view s) (SStage (S k)) cl mo re) as [? ?].
    { split; [apply (inv_start_pc _ (SStage k))|by apply (inv_start_pc _ (SStage k)); try done; split; [lia|left]];
        try done; [|by split; [lia|left]].
      destruct HI as [Hheap Hc Hd Hse' Hb _ Hg He Hm Hvd]. split; try done. split; [lia|by left]. }
    by destruct (ss_stageErr s).
Qed.

Lemma inv_failed v cl mo re :
  Inv v SDone cl mo re -> Inv (v_set_state (failed_state (v_state v)) v) SDone cl mo re.
Proof.
  intros H. apply inv_set_state; [done|apply stopping_failed|apply failed_stopped|
    |apply failed_valid, (inv_valid _ _ _ _ _ H)].
  destruct H as [_ _ _ _ _ Hs _ _ _ _]. simpl in *. by rewrite stopping_failed.
Qed.

(** The heap changed, and with it who holds what. *)
Lemma inv_heap_change v st cl mo re v' st' cl' mo' re' :
  Inv v st cl mo re ->
  heap_ok (v_heap v') (refresh_old re') (held v' st' cl' mo' re') (nets v' st' cl')
    (owner st' mo') ->
  v_state v' = v_state v -> cl' = cl -> start_ok v' st' ->
  (st' <> SDone -> mo' = MIdle /\ re' = RIdle) ->
  (start_early st' = true -> v_runtime v' = None /\ v_network v' = None) ->
  monitor_ok v' mo' -> Inv v' st' cl' mo' re'.
Proof.
  intros [Hheap Hc Hd Hse' Hb Hs Hg He Hm Hvd] H1 H2 -> H4 H5 H6 H7. split; try done.
  - by rewrite H2.
  - by rewrite H2.
  - by rewrite H2.
Qed.

Lemma inv_start_failed now err s k cl mo re :
  Inv (view s) (SStage k) cl mo re -> Inv (view (start_failed now err s)) SDone cl mo re.
Proof.
  intros HI. rewrite view_start_failed.
  destruct HI as [Hheap Hc Hd Hse' Hb [_ Hs] Hg He Hm Hvd]. split; simpl; try done.
  - by rewrite stopping_failed.
  - by rewrite failed_stopped.
  - rewrite stopping_failed. destruct Hs as [?|[_ ?]]; auto.
  - by apply failed_valid.
Qed.

(** [start] gives its runtime up: it closes it, and its network when it was detached. *)
Lemma inv_start_release now code message err s r network cl mo re st :
  Inv (view s) st cl mo re -> start_holds st = Some r -> start_nets st = network ->
  st <> SDone ->
  Inv (view (failWith now code message err
        (cancel (set_heap (closeRuntime r (close_network_opt network (ss_heap s))) s))))
    SDone cl mo re.
Proof.
  intros [Hheap Hc Hd Hse' Hb Hs Hg He Hm Hvd] Hr Hn Hdone. rewrite view_failWith.
  destruct (Hg Hdone) as [-> ->].
  split; simpl; try done.
  - apply (heap_ok_close_network_opt network) in Hheap.
    apply (heap_ok_close_runtime r) in Hheap.
    eapply heap_ok_weaken; [exact Hheap|..]; unfold held, nets, owner; rewrite ?Hr, ?Hn; simpl.
    + intros x [[?|?] ?]; [congruence|tauto].
    + intros x [[?|?] ?]; [congruence|tauto].
    + intros x [[?|?] ?]; [|done]. destruct st; simpl in *; congruence.
  - by rewrite stopping_failed.
  - by rewrite failed_stopped.
  - rewrite stopping_failed. destruct st; simpl in *; try done; tauto.
  - by apply failed_valid.
Qed.

Lemma inv_start_setup_ok s r c outbound resume cl mo re :
  fresh_runtime r c (ss_heap s) -> Inv (view s) (SStage 5) cl mo re ->
  Inv (view (set_heap (open_runtime r c outbound true resume (ss_heap s)) s)) (SStarted r) cl mo re.
Proof.
  intros Hf HI. pose proof (inv_start _ _ _ _ _ HI) as [_ Hs].
  destruct (inv_starting _ _ _ _ _ HI) as [-> ->]; [done|].
  eapply inv_heap_change; [exact HI| |done..|by intros; apply (inv_empty _ _ _ _ _ HI)|done].
  destruct HI as [Hheap _ _ _ _ _ _ _ _ _].
  eapply heap_ok_weaken; [eapply heap_ok_open; [exact Hf|exact Hheap]|..];
    unfold held, nets, owner; simpl; intros x ?; try tauto; intuition (subst; auto).
Qed.

Lemma inv_start_check now r s cl mo re err s' :
  start_check now r s = inl (err, s') -> Inv (view s) (SStarted r) cl mo re ->
  Inv (view s') SDone cl mo re.
Proof.
  unfold start_check. intros H HI. pose proof (inv_start _ _ _ _ _ HI) as Hs. simpl in Hs.
  destruct (stopping (ss_state s)) eqn:Es.
  - destruct (ss_stageErr s); injection H as <- <-;
      by apply (inv_start_release _ _ _ _ _ _ None _ _ _ _ HI).
  - destruct Hs as [Hs|[_ Hs]]; [done|]. by rewrite Hs in H.
Qed.

Lemma start_check_kept now r s s' :
  start_check now r s = inr s' -> s' = s /\ stopping (ss_state s) = false.
Proof.
  unfold start_check. destruct (stopping (ss_state s)), (ss_stageErr s); intros H; by simplify_eq.
Qed.

Lemma inv_start_check_ok r s network h cl mo re :
  DetachOutbound r (ss_heap s) = (network, h) -> Inv (view s) (SStarted r) cl mo re ->
  Inv (view (set_heap h s)) (SChecked r network) cl mo re.
Proof.
  intros Hd HI. destruct (inv_starting _ _ _ _ _ HI) as [-> ->]; [done|].
  eapply inv_heap_change; [exact HI| |done|done|apply (inv_start _ _ _ _ _ HI)|done
    |by intros; apply (inv_empty _ _ _ _ _ HI)|done].
  destruct HI as [Hheap _ _ _ _ _ _ _ _ _].
  eapply heap_ok_weaken; [by eapply heap_ok_detach|..]; unfold held, nets, owner; simpl;
    intros x; try tauto; intuition congruence.
Qed.

Lemma inv_start_read_ok s r network resources cl mo re :
  Inv (view s) (SChecked r network) cl mo re ->
  Inv (view (start_install r network resources s))
    (SInstalled r network resources (runtime_resume r (ss_heap s))) cl mo re.
Proof.
  intros HI. destruct (inv_empty _ _ _ _ _ HI) as [Hr Hn]; [done|]. simpl in Hr, Hn.
  destruct (inv_starting _ _ _ _ _ HI) as [-> ->]; [done|].
  eapply inv_heap_change; [exact HI| |done|done|by split_and!; [..|apply (inv_start _ _ _ _ _ HI)]|done..].
  destruct HI as [Hheap _ _ _ _ _ _ _ _ _].
  eapply heap_ok_weaken; [exact Hheap|..]; unfold held, nets, owner; simpl; intros x; [| |tauto].
  - destruct cl; simpl; rewrite ?Hr; intuition congruence.
  - destruct cl; simpl; rewrite ?Hn; intuition congruence.
Qed.

Lemma start_ready_view now r network resources resume services s err s' :
  start_ready now r network resources resume services s = (err, s') ->
  match err with
  | Some e =>
      CanTransitionSessionState (ss_state s) SessionStateReady = false /\
      s' = failWith now ErrorCodeSessionStartFailed "start session" e
             (cancel (set_heap (closeRuntime r (close_network_opt network (ss_heap s))) s))
  | None =>
      CanTransitionSessionState (ss_state s) SessionStateReady = true /\
      view s' = v_set_state SessionStateReady (view s)
  end.
Proof.
  unfold start_ready. intros H.
  destruct (transition now SessionStateReady s) as [e s1] eqn:Ht.
  destruct (view_transition _ _ _ _ _ Ht) as [(-> & Hc & Hv)|([e' ->] & Hc & ->)];
    injection H as <- <-; [|done].
  split; [done|]. by autorewrite with session_view.
Qed.

Lemma inv_start_is_ready s s' r network resources resume cl mo re :
  CanTransitionSessionState (ss_state s) SessionStateReady = true ->
  view s' = v_set_state SessionStateReady (view s) ->
  Inv (view s) (SInstalled r network resources resume) cl mo re ->
  Inv (view s') SDone cl (MWatch r) re.
Proof.
  intros Hcan Hv [Hheap Hc Hd Hse' Hb Hs Hg He Hm Hvd]. rewrite Hv.
  simpl in Hs. destruct Hs as (Hr & Hn & [Hs|[Hs Hse]]).
  { apply stopping_iff in Hs as [Hs|Hs]; rewrite Hs in Hcan; by vm_compute in Hcan. }
  destruct (Hg ltac:(done)) as [-> ->]. simpl in Hc, Hd. rewrite Hs in Hc, Hd.
  assert (close_early cl = true) as Hcl by (by destruct cl; vm_compute in Hc).
  split; simpl; try done.
  - eapply heap_ok_weaken; [exact Hheap|..]; unfold held, nets, owner; simpl; rewrite ?Hr, ?Hn;
      destruct cl; simpl in *; intros; try done; intuition congruence.
  - split; [done|]. by destruct cl.
  - by right.
Qed.

(** *** Steps of [close] *)

Lemma inv_close_begin s st mo re :
  Inv (view s) st CIdle mo re -> Inv (view (cancel s)) st (CBegin (ss_state s)) mo re.
Proof.
  intros [Hheap Hc Hd Hse' Hb Hs Hg He Hm Hvd]. simpl in Hc. split; simpl; try done.
  by intros ? [= <-].
Qed.

Lemma inv_close_transition now s state err s' st mo re :
  close_stop now state s = (err, s') -> Inv (view s) st (CBegin state) mo re ->
  err = None /\ Inv (view s') st (CStopping err) mo re.
Proof.
  intros H HI. pose proof (inv_begin _ _ _ _ _ HI state eq_refl) as Hb.
  pose proof (inv_closing _ _ _ _ _ HI) as Hc. simpl in Hc.
  unfold close_stop in H. unfold stopping in Hb. apply orb_false_iff in Hb as [Hb1 Hb2].
  rewrite Hb1, Hb2 in H. simpl in H.
  destruct (view_transition _ _ _ _ _ H) as [(-> & Hcan & Hv)|([e ->] & Hcan & ->)].
  - split; [done|]. rewrite Hv.
    destruct HI as [Hheap _ Hd Hse' _ Hs Hg He Hm Hvd]. split; simpl; try done.
    destruct st; simpl in *; try (by left); intuition.
  - exfalso.
    destruct (session_can_stop _ (inv_valid _ _ _ _ _ HI)) as [E|[E|E]]; simpl in E.
    + rewrite E in Hc. by vm_compute in Hc.
    + apply bool_decide_eq_true in E. rewrite E in Hc. by vm_compute in Hc.
    + unfold session_step in E. congruence.
Qed.

Lemma inv_close_read s err st mo re :
  Inv (view s) st (CStopping err) mo re ->
  Inv (view s) st (CRead err (ss_runtime s) (ss_network s)) mo re.
Proof.
  intros [Hheap Hc Hd Hse' Hb Hs Hg He Hm Hvd]. split; simpl; done.
Qed.

Lemma heap_ok_release runtime network h old (P Q O : nat -> Prop) :
  heap_ok h old P Q O ->
  heap_ok (close_runtime_opt runtime (close_network_opt network h)) old
    (fun x => P x /\ runtime <> Some x) (fun x => Q x /\ network <> Some x) O.
Proof. intros H. by apply heap_ok_close_runtime_opt, heap_ok_close_network_opt. Qed.

Lemma inv_close_release s err runtime network result closeErr st mo re :
  Inv (view s) st (CRead err runtime network) mo re ->
  Inv (view (close_release runtime network s)) st (CReleased err result closeErr) mo re.
Proof.
  intros [Hheap Hc Hd Hse' Hb Hs Hg He Hm Hvd]. split; simpl; try done.
  - eapply heap_ok_weaken; [by apply heap_ok_release|..]; unfold held, nets, owner; simpl;
      intros x; tauto.
Qed.

Lemma inv_wait_closed s st cl mo re :
  Inv (view s) st cl mo re -> Inv (view (waitRuntimeClosed s)) st cl mo re.
Proof.
  intros HI. eapply inv_heap_change; [exact HI| |done|done|apply (inv_start _ _ _ _ _ HI)
    |apply (inv_starting _ _ _ _ _ HI)|apply (inv_empty _ _ _ _ _ HI)
    |apply (inv_monitor _ _ _ _ _ HI)].
  eapply heap_ok_weaken; [apply heap_ok_release, (inv_heap _ _ _ _ _ HI)|..];
    unfold held, nets, owner; simpl; intros x; tauto.
Qed.

Lemma view_emit_stopped_services now services s : view (emit_stopped_services now services s) = view s.
Proof. apply view_emit_all. Qed.

(** A step of [close] after the release that leaves the state alone. *)
Lemma inv_close_pc v st cl mo re cl' :
  Inv v st cl mo re -> close_early cl = false -> close_early cl' = false ->
  close_late cl' = close_late cl -> close_stopErr cl' = None ->
  close_holds v cl = None -> close_nets v cl = None ->
  close_holds v cl' = None -> close_nets v cl' = None ->
  (forall state, cl' <> CBegin state) -> Inv v st cl' mo re.
Proof.
  intros [Hheap Hc Hd Hse' Hb Hs Hg He Hm Hvd] H1 H2 H3 H4 H5 H6 H7 H8 H9. split; try done.
  - eapply heap_ok_weaken; [exact Hheap|..]; unfold held, nets; rewrite ?H5, ?H6, ?H7, ?H8; done.
  - by rewrite H2, Hc, H1.
  - by rewrite H3.
  - intros state E. by apply H9 in E.
Qed.

Lemma close_stopped_view now closeErr s closeErr' s' :
  close_stopped now closeErr s = (closeErr', s') ->
  ss_state s = SessionStateStopping -> view s' = v_set_state SessionStateStopped (view s).
Proof.
  unfold close_stopped. intros H Hst. rewrite Hst in H. simpl in H.
  destruct (transition now SessionStateStopped s) as [e s2] eqn:Ht.
  destruct (view_transition _ _ _ _ _ Ht) as [(-> & _ & Hv)|([e' ->] & Hcan & _)].
  - by injection H as _ <-.
  - rewrite Hst in Hcan. by vm_compute in Hcan.
Qed.

Lemma inv_close_stopped now s s' err result closeErr closeErr' st mo re :
  close_stopped now closeErr s = (closeErr', s') ->
  Inv (view s) st (CServices err result closeErr) mo re ->
  Inv (view s') st (CStopped err result closeErr') mo re /\ ss_state s = SessionStateStopping.
Proof.
  intros Hv [Hheap Hc Hd Hse' Hb Hs Hg He Hm Hvd]. simpl in Hc.
  assert (ss_state s = SessionStateStopping) as Hst.
  { apply stopping_iff in Hc as [?|Hc]; [done|]. by apply Hd in Hc. }
  split; [|done]. rewrite (close_stopped_view _ _ _ _ _ Hv Hst). split; simpl; try done.
  destruct st; simpl in *; tauto.
Qed.

Lemma close_report_view now started err result s report s' :
  close_report now started err result s = (report, s') -> view s' = view s.
Proof. unfold close_report. intros H. injection H as _ <-. apply view_emit. Qed.

(** *** Steps of [monitorRuntime] and [reconnect] *)

(** The monitor only runs once [start] is done. *)
Lemma inv_monitor_done v st cl mo re : Inv v st cl mo re -> mo <> MIdle -> st = SDone.
Proof.
  intros HI Hmo. destruct st; try done; by destruct (inv_starting _ _ _ _ _ HI ltac:(done)).
Qed.

(** A step of the monitor that holds nothing before or after. *)
Lemma inv_monitor_pc v st cl mo re mo' :
  Inv v st cl mo re -> mo <> MIdle -> monitor_holds mo' = monitor_holds mo ->
  monitor_owner mo' = monitor_owner mo -> monitor_ok v mo' -> Inv v st cl mo' re.
Proof.
  intros HI Hmo H1 H2 H3. pose proof (inv_monitor_done _ _ _ _ _ HI Hmo) as ->.
  destruct HI as [Hheap Hc Hd Hse' Hb Hs Hg He Hm Hvd]. split; try done.
  unfold held, owner. by rewrite H1, H2.
Qed.

Lemma inv_monitor_close s st cl r network err re :
  Inv (view s) st cl (MFailing r network err) re ->
  Inv (view (set_heap (closeRuntime r (close_network_opt network (ss_heap s))) s)) st cl
    (MClosed err) re.
Proof.
  intros HI. pose proof (inv_monitor_done _ _ _ _ _ HI ltac:(done)) as ->.
  eapply inv_heap_change; [exact HI| |done|done|apply (inv_start _ _ _ _ _ HI)|done|done|done].
  destruct HI as [Hheap _ _ _ _ _ _ _ _ _].
  eapply heap_ok_weaken; [apply (heap_ok_close_runtime r), (heap_ok_close_network_opt network), Hheap|..];
    unfold held, nets, owner; simpl; intros x; tauto.
Qed.

Lemma inv_monitor_failed now s st cl err re :
  Inv (view s) st cl (MClosed err) re -> Inv (view (monitor_fail now err s)) st cl MDone re.
Proof.
  intros HI. pose proof (inv_monitor_done _ _ _ _ _ HI ltac:(done)) as ->.
  assert (view (monitor_fail now err s) = v_set_state (failed_state (ss_state s)) (view s)) as ->.
  { unfold monitor_fail. case_bool_decide; apply view_failWith. }
  apply (inv_failed (view s)). by apply (inv_monitor_pc _ _ _ (MClosed err)).
Qed.

Lemma inv_reconnect_begin now s s' st cl r err re :
  transition now SessionStateReconnecting s = (None, s') ->
  Inv (view s) st cl (MWatch r) re -> Inv (view s') st cl (MDrop r err) re.
Proof.
  intros Ht HI. pose proof (inv_monitor_done _ _ _ _ _ HI ltac:(done)) as ->.
  destruct (view_transition _ _ _ _ _ Ht) as [(_ & Hcan & Hv)|([e He] & _)]; [|done].
  assert (stopping (ss_state s) = false) as Hns.
  { destruct (stopping (ss_state s)) eqn:E; [|done]. apply stopping_iff in E as [E|E];
      rewrite E in Hcan; by vm_compute in Hcan. }
  rewrite Hv. apply inv_set_state; simpl.
  - by apply (inv_monitor_pc _ _ _ (MWatch r)); [..|apply (inv_monitor _ _ _ _ _ HI)].
  - by rewrite Hns.
  - split; intros H; [done|]. rewrite H in Hns. by vm_compute in Hns.
  - pose proof (inv_start _ _ _ _ _ HI) as Hs. simpl in Hs. rewrite Hns in Hs. tauto.
  - done.
Qed.

Lemma inv_reconnect_forget s st cl r err reuse resume re :
  Inv (view s) st cl (MDrop r err) re ->
  Inv (view (if bool_decide (ss_runtime s = Some r) then set_runtime None s else s)) st cl
    (MDropped r reuse resume err) re.
Proof.
  intros HI. pose proof (inv_monitor_done _ _ _ _ _ HI ltac:(done)) as ->.
  pose proof (inv_monitor _ _ _ _ _ HI) as Hr. simpl in Hr.
  rewrite bool_decide_eq_true_2 by done.
  eapply inv_heap_change; [exact HI| |done|done|apply (inv_start _ _ _ _ _ HI)|done|done|done].
  destruct HI as [Hheap _ _ _ _ _ _ _ _ _].
  eapply heap_ok_weaken; [exact Hheap|..]; unfold held, nets, owner; simpl; intros x; [| |tauto].
  - destruct cl; simpl; rewrite ?Hr; intuition.
  - destruct cl; simpl; tauto.
Qed.

Lemma inv_reconnect_close s st cl r reuse resume err attempt re :
  Inv (view s) st cl (MDropped r reuse resume err) re ->
  Inv (view (set_heap (closeRuntime r (ss_heap s)) s)) st cl (MRetry attempt reuse resume err) re.
Proof.
  intros HI. pose proof (inv_monitor_done _ _ _ _ _ HI ltac:(done)) as ->.
  eapply inv_heap_change; [exact HI| |done|done|apply (inv_start _ _ _ _ _ HI)|done|done
    |apply (inv_monitor _ _ _ _ _ HI)].
  destruct HI as [Hheap _ _ _ _ _ _ _ _ _].
  eapply heap_ok_weaken; [apply (heap_ok_close_runtime r), Hheap|..]; unfold held, nets, owner;
    simpl; intros x; intuition congruence.
Qed.

Lemma view_set_heap_eq h s t : view s = view t -> view (set_heap h s) = view (set_heap h t).
Proof. unfold view. intros H. injection H. intros. simpl. congruence. Qed.

Lemma view_reconnect_failed now attempt e s : view (reconnect_failed now attempt e s) = view s.
Proof. unfold reconnect_failed. by rewrite view_emit. Qed.

Lemma inv_reconnect_close_network s st cl e re :
  Inv (view s) st cl (MGiveUp e) re ->
  Inv (view (reconnect_close_network s)) st cl (MGivenUp e) re.
Proof.
  intros HI. pose proof (inv_monitor_done _ _ _ _ _ HI ltac:(done)) as ->.
  eapply inv_heap_change; [exact HI| |done|done|apply (inv_start _ _ _ _ _ HI)|done..].
  destruct HI as [Hheap _ _ _ _ _ _ _ _ _].
  eapply heap_ok_weaken; [apply heap_ok_close_network_opt, Hheap|..];
    unfold held, nets, owner; simpl; intros x; tauto.
Qed.

Lemma inv_reconnect_give_up now s st cl e re :
  Inv (view s) st cl (MGivenUp e) re -> Inv (view (reconnect_give_up now e s)) st cl MDone re.
Proof.
  intros HI. pose proof (inv_monitor_done _ _ _ _ _ HI ltac:(done)) as ->.
  unfold reconnect_give_up. rewrite view_failWith. apply (inv_failed (view s)).
  by apply (inv_monitor_pc _ _ _ (MGivenUp e)).
Qed.

Lemma view_reconnect_schedule now attempt err s : view (reconnect_schedule now attempt err s) = view s.
Proof. apply view_emit. Qed.

Lemma inv_attempt_failed now s st cl attempt reuse resume err (closed : bool) e re :
  Inv (view s) st cl (MScheduled attempt reuse resume err) re ->
  Inv (view (reconnect_failed now attempt e
               (set_heap (if closed then close_network_opt reuse (ss_heap s) else ss_heap s) s)))
    st cl (if IsRetryable (Some e) then MRetry (attempt + 1) reuse resume err else MGiveUp e) re.
Proof.
  intros HI. pose proof (inv_monitor_done _ _ _ _ _ HI ltac:(done)) as ->.
  pose proof (inv_monitor _ _ _ _ _ HI) as Hr. simpl in Hr.
  rewrite view_reconnect_failed. set (h := if closed then _ else _).
  eapply inv_heap_change; [exact HI| |done|done|apply (inv_start _ _ _ _ _ HI)|done|done
    |by destruct (IsRetryable (Some e))].
  destruct HI as [Hheap _ _ _ _ _ _ _ _ _].
  assert (heap_ok h (refresh_old re) (held (view s) SDone cl (MScheduled attempt reuse resume err) re)
            (nets (view s) SDone cl) (owner SDone (MScheduled attempt reuse resume err))) as Hh.
  { unfold h. destruct closed; [|done].
    eapply heap_ok_weaken; [apply heap_ok_close_network_opt, Hheap|..];
      unfold held, nets, owner; simpl; intros x; tauto. }
  eapply heap_ok_weaken; [exact Hh|..]; unfold held, nets, owner; simpl;
    destruct (IsRetryable (Some e)); simpl; intros x; tauto.
Qed.

Lemma inv_attempt_ok s st cl attempt reuse resume err r c outbound state re :
  fresh_runtime r c (ss_heap s) ->
  Inv (view s) st cl (MScheduled attempt reuse resume err) re ->
  Inv (view (set_heap (open_runtime r c outbound (bool_decide (reuse = None)) state (ss_heap s)) s))
    st cl (MCandidate attempt reuse resume err r) re.
Proof.
  intros Hf HI. pose proof (inv_monitor_done _ _ _ _ _ HI ltac:(done)) as ->.
  eapply inv_heap_change; [exact HI| |done|done|apply (inv_start _ _ _ _ _ HI)|done|done
    |apply (inv_monitor _ _ _ _ _ HI)].
  destruct HI as [Hheap _ _ _ _ _ _ _ _ _].
  eapply heap_ok_weaken; [apply heap_ok_open; [exact Hf|exact Hheap]|..];
    unfold held, nets, owner; simpl; intros x; cbn beta; intuition congruence.
Qed.

Lemma install_view now r read s ok s' :
  installReconnectedRuntime now r read s = (ok, s') ->
  exists network h, DetachOutbound r (ss_heap s) = (network, h) /\
  if ok then
    ss_state s = SessionStateReconnecting /\
    view s' = {| v_state := SessionStateReady; v_runtime := Some r; v_network := network;
                 v_canceled := false; v_stageErr := ss_stageErr s;
                 v_heap := match ss_network s with
                           | Some n => if bool_decide (network = Some n) then h
                                       else close_network n h
                           | None => h
                           end |}
  else view s' = view (set_heap (close_network_opt network h) s).
Proof.
  unfold installReconnectedRuntime. intros H.
  destruct (DetachOutbound r (ss_heap s)) as [network h]. exists network, h. split; [done|].
  simpl in H. destruct (ss_canceled s) eqn:Ec; simpl in H; [by injection H as <- <-|].
  case_bool_decide as Hst; simpl in H; [|by injection H as <- <-].
  rewrite Hst in H.
  change (ValidateSessionStateTransition SessionStateReconnecting SessionStateReady)
    with (@None error) in H. cbv iota in H.
  injection H as <- <-. split; [done|].
  autorewrite with session_view.
  destruct (is_ok read); autorewrite with session_view;
    destruct (is_empty (resume_Data _)), (ss_network s) as [n|]; simpl;
    try case_bool_decide; unfold view; simpl; by rewrite ?Ec.
Qed.

Lemma inv_install_failed now s st cl attempt reuse resume err r read s' re :
  installReconnectedRuntime now r read s = (false, s') ->
  Inv (view s) st cl (MCandidate attempt reuse resume err r) re ->
  Inv (view (set_heap (closeRuntime r (ss_heap s')) s')) st cl MDone re.
Proof.
  intros H HI. pose proof (inv_monitor_done _ _ _ _ _ HI ltac:(done)) as ->.
  destruct (install_view _ _ _ _ _ _ H) as (network & h & Hd & Hv).
  assert (ss_heap s' = close_network_opt network h) as Hh.
  { change (v_heap (view s') = close_network_opt network h). by rewrite Hv. }
  rewrite (view_set_heap_eq _ _ _ Hv), Hh.
  eapply inv_heap_change; [exact HI| |done|done|apply (inv_start _ _ _ _ _ HI)|done..].
  destruct HI as [Hheap _ _ _ _ _ _ _ _ _].
  eapply heap_ok_weaken; [eapply heap_ok_close_runtime, heap_ok_close_network_opt,
    heap_ok_detach, Hheap; exact Hd|..]; unfold held, nets, owner; simpl; intros x;
    intuition congruence.
Qed.

Lemma inv_install_ok now s st cl attempt reuse resume err r read s' re :
  installReconnectedRuntime now r read s = (true, s') ->
  Inv (view s) st cl (MCandidate attempt reuse resume err r) re ->
  Inv (view s') st cl (MInstalled attempt resume r) re.
Proof.
  intros H HI. pose proof (inv_monitor_done _ _ _ _ _ HI ltac:(done)) as ->.
  destruct (install_view _ _ _ _ _ _ H) as (network & h & Hd & Hst & Hv).
  pose proof (inv_monitor _ _ _ _ _ HI) as Hr. simpl in Hr.
  pose proof (inv_start _ _ _ _ _ HI) as Hs. simpl in Hs. rewrite Hst in Hs.
  destruct HI as [Hheap Hc Hst' Hse' Hb _ _ _ _ _]. simpl in Hc, Hst'. rewrite Hst in Hc, Hst'.
  set (mkv h0 := {| v_state := SessionStateReady; v_runtime := Some r; v_network := network;
                    v_canceled := false; v_stageErr := ss_stageErr s; v_heap := h0 |}).
  rewrite Hv. split; simpl; try done.
  - apply (heap_ok_detach _ _ _ _ _ _ _ _ Hd) in Hheap.
    assert (forall h0, heap_ok h0 (refresh_old re)
      (held (view s) SDone cl (MCandidate attempt reuse resume err r) re)
      (fun n => (nets (view s) SDone cl n \/ network = Some n) /\
                (ss_network s = Some n -> network = Some n))
      (fun x => owner SDone (MCandidate attempt reuse resume err r) x /\ x <> r) ->
      heap_ok h0 (refresh_old re)
        (held (mkv h0) SDone cl (MInstalled attempt resume r) re)
        (nets (mkv h0) SDone cl) (owner SDone (MInstalled attempt resume r))) as Hw.
    { intros h0 H0. eapply heap_ok_weaken; [exact H0|..];
        unfold held, nets, owner; simpl; intros x; destruct cl; simpl in *; try done;
        rewrite ?Hr; intuition congruence. }
    apply Hw.
    destruct (ss_network s) as [n|] eqn:En; [case_bool_decide as Hsame|].
    + eapply heap_ok_weaken; [exact Hheap|done| |done]. intros x; cbn beta; intuition congruence.
    + eapply heap_ok_weaken; [apply (heap_ok_close_network n), Hheap|done| |done].
      intros x; cbn beta; intuition congruence.
    + eapply heap_ok_weaken; [exact Hheap|done| |done]. intros x; cbn beta; intuition congruence.
  - split; [done|]. by destruct cl.
Qed.

Lemma view_reconnect_installed now attempt resume r s :
  view (reconnect_installed now attempt resume r s) = view s.
Proof.
  unfold reconnect_installed. rewrite view_emit.
  by destruct (Runtime_ResumeState _ _); autorewrite with session_view.
Qed.

(** *** Steps of [RefreshResources] *)

(** A step of the refresh that only moves its own program counter. *)
Lemma inv_refresh_pc v cl mo re re' :
  Inv v SDone cl mo re -> refresh_old re' = refresh_old re ->
  (refresh_holds re = None \/ refresh_holds re' = refresh_holds re) ->
  Inv v SDone cl mo re'.
Proof.
  intros [Hheap Hc Hd Hse' Hb Hs Hg He Hm Hvd] H1 H2. split; try done. rewrite H1.
  eapply heap_ok_weaken; [exact Hheap|..]; unfold held, nets, owner; intros x; [|tauto|tauto].
  destruct H2 as [->| ->]; intuition congruence.
Qed.

Lemma refresh_begin_ready replaceable s r n :
  refresh_begin replaceable s = Some (Ok (r, n)) ->
  ss_state s = SessionStateReady /\ ss_runtime s = Some r /\ ss_network s = Some n.
Proof.
  unfold refresh_begin. case_bool_decide as Hst; simpl; [|done].
  destruct (ss_runtime s) as [r'|]; [|done]. destruct (ss_network s) as [n'|]; [|done].
  destruct (replaceable n'); simpl; [|done]. by intros [= -> ->].
Qed.

(** During start-up the session is never ready. *)
Lemma inv_ready_done v st cl mo re :
  Inv v st cl mo re -> v_state v = SessionStateReady -> v_runtime v <> None ->
  close_early cl = true /\ st = SDone.
Proof.
  intros [Hheap Hc Hd Hse' Hb Hs Hg He Hm Hvd] Hst Hr. rewrite Hst in Hc. split.
  { by destruct cl; vm_compute in Hc. }
  destruct st as [|k|r|r n|r n res rs|]; simpl in *; try done; exfalso;
    rewrite Hst in Hs.
  - by destruct (He eq_refl).
  - by destruct (He eq_refl).
  - by destruct (He eq_refl).
  - by destruct (He eq_refl).
  - destruct Hs as (_ & _ & [Hs|[Hs _]]); by vm_compute in Hs.
Qed.

Lemma inv_refresh_done v st cl mo re : Inv v st cl mo re -> re <> RIdle -> st = SDone.
Proof.
  intros HI Hre. destruct st; try done; by destruct (inv_starting _ _ _ _ _ HI ltac:(done)).
Qed.

Lemma inv_refresh_candidate s st cl mo r n candidate c resume :
  fresh_runtime candidate c (ss_heap s) -> Inv (view s) st cl mo (RFetch r n) ->
  Inv (view (set_heap (open_runtime candidate c None false resume (ss_heap s)) s)) st cl mo
    (RCandidate r n candidate).
Proof.
  intros Hf HI. pose proof (inv_refresh_done _ _ _ _ _ HI ltac:(done)) as ->.
  eapply inv_heap_change; [exact HI| |done|done|apply (inv_start _ _ _ _ _ HI)|done|done
    |apply (inv_monitor _ _ _ _ _ HI)].
  destruct HI as [[Hc Hr Hn] _ _ _ _ _ _ _ _ _].
  destruct (heap_ok_open _ _ None false resume (ss_heap s) None _ _ _ Hf
              (Build_heap_ok _ _ _ _ _ Hc Hr Hn)) as [Hc' Hr' Hn'].
  split; [exact Hc'| |].
  - intros x xt H1 H2 H3. destruct (Hr' x xt H1 H2 H3) as [H| ->]; unfold held in *; simpl in *;
      intuition congruence.
  - intros m Hm. simpl in Hm.
    destruct (Hn m Hm) as [?|(x & xt & HO & H0)]; [by left|right].
    exists x, xt. split; [done|]. simpl. rewrite lookup_insert_ne; [done|].
    intros <-. destruct Hf as [Hf _], H0 as [Hx _]. simpl in *. congruence.
Qed.

Lemma inv_refresh_abandon s st cl mo r n candidate :
  Inv (view s) st cl mo (RCandidate r n candidate) ->
  Inv (view (set_heap (closeRuntime candidate (ss_heap s)) s)) st cl mo RIdle.
Proof.
  intros HI. pose proof (inv_refresh_done _ _ _ _ _ HI ltac:(done)) as ->.
  eapply inv_heap_change; [exact HI| |done|done|apply (inv_start _ _ _ _ _ HI)|done|done
    |apply (inv_monitor _ _ _ _ _ HI)].
  destruct HI as [Hheap _ _ _ _ _ _ _ _ _].
  eapply heap_ok_weaken; [apply (heap_ok_close_runtime candidate), Hheap|..];
    unfold held, nets, owner; simpl; intros x; intuition congruence.
Qed.

Lemma refresh_adopt_view r n candidate resources setup nodes s old s' :
  refresh_adopt r n candidate resources setup nodes s = Ok (old, s') ->
  ss_state s = SessionStateReady /\ ss_runtime s = Some r /\
  exists h, adoptClient r candidate (ss_heap s) = (old, h) /\ view s' = view (set_heap h s).
Proof.
  unfold refresh_adopt. case_bool_decide as Hst; simpl; [|done].
  case_bool_decide as Hr; simpl; [|done].
  destruct setup as [[refreshed|]|]; try done. case_bool_decide; simpl; [|done].
  destruct (adoptClient r candidate (ss_heap s)) as [o h]. intros Hok. injection Hok as <- <-.
  split_and!; try done. exists h. split; [done|].
  by destruct (is_empty _); case_bool_decide.
Qed.

Lemma inv_refresh_adopted s s' st cl mo r n candidate resources setup nodes old resume :
  refresh_adopt r n candidate resources setup nodes s = Ok (old, s') ->
  runtime_closed r (ss_heap s) = false ->
  Inv (view s) st cl mo (RCandidate r n candidate) ->
  Inv (view s') st cl mo (RAdopted old resources nodes resume).
Proof.
  intros H Hcl HI. pose proof (inv_refresh_done _ _ _ _ _ HI ltac:(done)) as ->.
  destruct (refresh_adopt_view _ _ _ _ _ _ _ _ _ H) as (Hst & Hr & h & Ha & ->).
  destruct (inv_ready_done _ _ _ _ _ HI Hst) as [Hce _]; [by simpl; rewrite Hr|].
  assert (held (view s) SDone cl mo (RCandidate r n candidate) r) as Hheld.
  { right. left. by destruct cl. }
  eapply inv_heap_change; [exact HI| |done|done|apply (inv_start _ _ _ _ _ HI)|done|done
    |apply (inv_monitor _ _ _ _ _ HI)].
  destruct HI as [Hheap _ _ _ _ _ _ _ _ _].
  eapply heap_ok_weaken; [eapply heap_ok_adopt; [exact Ha|exact Hcl|exact Hheld|exact Hheap]|..];
    unfold held, nets, owner; simpl; intros x; [|tauto|tauto].
  intros [[?|[?|[?|Hx]]] Hy]; auto.
  right. left. injection Hx as <-. rewrite (Hy eq_refl). by destruct cl.
Qed.

Lemma refresh_finish_view now resources nodes config_resume resume old s :
  view (refresh_finish now resources nodes config_resume resume old s) =
  view (set_heap (match old with Some c => close_client c (ss_heap s) | None => ss_heap s end) s).
Proof.
  unfold refresh_finish. autorewrite with session_view.
  case_bool_decide; autorewrite with session_view; by destruct old.
Qed.

Lemma inv_refresh_finish now resources' nodes' config_resume resume' s st cl mo old resources
    nodes resume :
  Inv (view s) st cl mo (RAdopted old resources nodes resume) ->
  Inv (view (refresh_finish now resources' nodes' config_resume resume' old s)) st cl mo RIdle.
Proof.
  intros HI. pose proof (inv_refresh_done _ _ _ _ _ HI ltac:(done)) as ->.
  rewrite refresh_finish_view.
  eapply inv_heap_change; [exact HI| |done|done|apply (inv_start _ _ _ _ _ HI)|done|done
    |apply (inv_monitor _ _ _ _ _ HI)].
  destruct HI as [Hheap _ _ _ _ _ _ _ _ _]. simpl.
  eapply heap_ok_weaken; [apply heap_ok_close_client, Hheap|..];
    unfold held, nets, owner; simpl; intros x; tauto.
Qed.

Lemma view_set_routing now f mode s : view (session_SetRoutingMode now f mode s).2 = view s.
Proof.
  unfold session_SetRoutingMode.
  destruct (RoutingMode_Valid mode); simpl; [|done]. destruct (ss_network s); [|done].
  destruct (f _ _); [|done]. case_bool_decide; [done|]. by destruct (send_event _ _).
Qed.

(** ** Every normal step keeps the invariant *)

Lemma normal_step_inv c c' : normal_step c c' -> config_inv c -> config_inv c'.
Proof.
  unfold normal_step, config_inv. intros H HI. remember Normal as l eqn:El.
  destruct H; simpl in *; try done.
  - apply (inv_start_pc _ SIdle); try done. pose proof (inv_start _ _ _ _ _ HI). by split; [lia|].
  - by apply inv_handleSetupStage.
  - by eapply inv_start_failed.
  - by apply inv_start_setup_ok.
  - by eapply inv_start_check.
  - destruct (start_check_kept _ _ _ _ H) as [-> _]. by eapply inv_start_check_ok.
  - unfold start_resources_failed. by eapply inv_start_release.
  - by apply inv_start_read_ok.
  - apply start_ready_view in H as [_ ->]. by eapply inv_start_release.
  - apply start_ready_view in H as [? ?]. by eapply inv_start_is_ready.
  - by apply inv_close_begin.
  - by eapply inv_close_transition.
  - by apply inv_close_read.
  - by eapply inv_close_release.
  - rewrite view_emit_stopped_services. apply (inv_close_pc _ _ (CReleased err result closeErr)); try done.
    apply (inv_stopErr _ _ _ _ _ HI).
  - by eapply inv_close_stopped.
  - rewrite (close_report_view _ _ _ _ _ _ _ H).
    by apply (inv_close_pc _ _ (CStopped err result closeErr)).
  - by apply (inv_monitor_pc _ _ _ (MWatch r)).
  - apply (inv_monitor_pc _ _ _ (MWatch r)); try done. apply (inv_monitor _ _ _ _ _ HI).
  - by apply inv_monitor_close.
  - by apply inv_monitor_failed.
  - destruct (view_transition _ _ _ _ _ H0) as [(? & _)|(_ & _ & ->)]; [done|].
    by apply (inv_monitor_pc _ _ _ (MWatch r)).
  - by eapply inv_reconnect_begin.
  - by apply inv_reconnect_forget.
  - by apply inv_reconnect_close.
  - rewrite view_reconnect_schedule. apply (inv_monitor_pc _ _ _ (MRetry attempt reuse resume err));
      try done. apply (inv_monitor _ _ _ _ _ HI).
  - by apply (inv_monitor_pc _ _ _ (MScheduled attempt reuse resume err)).
  - by apply inv_attempt_failed.
  - by apply inv_reconnect_close_network.
  - by apply inv_reconnect_give_up.
  - by apply inv_attempt_ok.
  - by eapply inv_install_failed.
  - by eapply inv_install_ok.
  - rewrite view_reconnect_installed. eapply inv_monitor_pc; [exact HI|done..|].
    apply (inv_monitor _ _ _ _ _ HI).
  - destruct (refresh_begin_ready _ _ _ _ H) as (Hst & Hr & Hn).
    destruct (inv_ready_done _ _ _ _ _ HI Hst) as [_ ->]; [by simpl; rewrite Hr|].
    by apply (inv_refresh_pc _ _ _ RIdle); [..|left].
  - pose proof (inv_refresh_done _ _ _ _ _ HI ltac:(done)) as ->.
    by apply (inv_refresh_pc _ _ _ (RFetch r n)); [..|left].
  - by apply inv_refresh_candidate.
  - by eapply inv_refresh_abandon.
  - destruct (runtime_closed r (ss_heap s)) eqn:Ecl; [done|]. by eapply inv_refresh_adopted.
  - by eapply inv_refresh_finish.
  - by rewrite view_handleNodeSelection.
  - by apply inv_wait_closed.
  - pose proof (view_set_routing now f mode s) as Hv. rewrite H in Hv. simpl in Hv. by rewrite Hv.
Qed.

Lemma reachable_inv id config c : rtc normal_step (initial id config) c -> config_inv c.
Proof.
  intros H. eapply (rtc_closed normal_step); [|apply (initial_inv id config)|exact H].
  intros x y Hx Hxy. by eapply normal_step_inv.
Qed.

(** ** What a step does to the event channel *)

(** The session emitted some events and did nothing else to the channel. *)
Definition emits_to (s s' : Session) : Prop :=
  exists es, ss_events s' = fold_left (fun c event => emit_event event c) es (ss_events s).

Lemma emits_to_refl s : emits_to s s.
Proof. by exists []. Qed.

Lemma emits_to_same s t t' : emits_to s t -> ss_events t' = ss_events t -> emits_to s t'.
Proof. intros [es Hes] H. exists es. by rewrite H. Qed.

Lemma emits_to_emit e s t : emits_to s t -> emits_to s (emit e t).
Proof. intros [es Hes]. exists (es ++ [e]). rewrite fold_left_app, <-Hes. done. Qed.

Lemma emits_to_emit_all es s t : emits_to s t -> emits_to s (emit_all es t).
Proof.
  intros H. unfold emit_all. revert t H.
  induction es as [|e es IH]; intros t H; simpl; [done|]. by apply IH, emits_to_emit.
Qed.

Lemma emits_to_transition now next s t : emits_to s t -> emits_to s (transition now next t).2.
Proof.
  intros H. unfold transition. destruct (ValidateSessionStateTransition _ _); [done|].
  apply emits_to_emit. by eapply emits_to_same.
Qed.

Lemma emits_to_failWith now code message e s t :
  emits_to s t -> emits_to s (failWith now code message e t).
Proof.
  intros H. unfold failWith. apply emits_to_emit.
  destruct (_ && _); [apply emits_to_transition|]; by eapply emits_to_same.
Qed.

Lemma emits_to_resources now r s t : emits_to s t -> emits_to s (emitResourcesUpdated now r t).
Proof. intros H. unfold emitResourcesUpdated. case_match; [done|by apply emits_to_emit]. Qed.

Lemma emits_to_nodes now s t : emits_to s t -> emits_to s (emitSelectedNodes now t).
Proof. intros H. unfold emitSelectedNodes. case_match; [done|by apply emits_to_emit]. Qed.

Lemma emits_to_services now l ty s t : emits_to s t -> emits_to s (emitServiceEvents now l ty t).
Proof. apply emits_to_emit_all. Qed.

Lemma emits_to_resume now o r s t : emits_to s t -> emits_to s (emitResumeEvents now o r t).
Proof.
  intros H. unfold emitResumeEvents. case_match; [done|]. apply emits_to_emit.
  case_match; [|done]. case_match; [done|by apply emits_to_emit].
Qed.

Lemma emits_to_handleSetupStage now stage s : emits_to s (handleSetupStage now stage s).
Proof.
  unfold handleSetupStage. destruct (setupStageState stage) as [state|]; [|apply emits_to_refl].
  pose proof (emits_to_transition now state s s (emits_to_refl s)) as H.
  destruct (transition now state s) as [[e|] s']; [|done]. by destruct (ss_stageErr s').
Qed.

Lemma emits_to_start_check now r s err s' : start_check now r s = inl (err, s') -> emits_to s s'.
Proof.
  unfold start_check. intros H.
  destruct (stopping (ss_state s)), (ss_stageErr s); simplify_eq;
    apply emits_to_failWith; by eapply emits_to_same; [apply emits_to_refl|].
Qed.

Lemma emits_to_start_ready now r network resources resume services s err s' :
  start_ready now r network resources resume services s = (err, s') -> emits_to s s'.
Proof.
  unfold start_ready. intros H.
  pose proof (emits_to_transition now SessionStateReady s s (emits_to_refl s)) as Ht.
  destruct (transition now SessionStateReady s) as [[e|] t]; injection H as <- <-; simpl in Ht.
  - apply emits_to_failWith. by eapply emits_to_same.
  - by apply emits_to_resume, emits_to_services, emits_to_nodes, emits_to_resources.
Qed.

Lemma emits_to_install now r read s ok s' :
  installReconnectedRuntime now r read s = (ok, s') -> emits_to s s'.
Proof.
  unfold installReconnectedRuntime. intros H. destruct (DetachOutbound r (ss_heap s)) as [n h].
  cbv zeta in H.
  repeat case_match; injection H as <- <-;
    repeat first [apply emits_to_nodes|apply emits_to_resources|apply emits_to_emit];
    by exists [].
Qed.

Lemma emits_to_adopt r n candidate resources setup nodes s old s' :
  refresh_adopt r n candidate resources setup nodes s = Ok (old, s') -> emits_to s s'.
Proof.
  unfold refresh_adopt. intros H. destruct (_ || _); [done|].
  destruct setup as [[refreshed|]|]; [|done|done]. case_match; [done|].
  destruct (adoptClient _ _ _) as [o h]. injection H as <- <-. cbv zeta.
  repeat case_match; by exists [].
Qed.

(** Every step emits, receives, or sends for a routing mode. *)
Lemma step_channel l c c' :
  step l c c' -> channel_ok (ss_events (c_session c)) -> channel_ok (ss_events (c_session c')).
Proof.
  intros H Hc.
  assert (emits_to (c_session c) (c_session c') \/
          (exists e rest, receive_event (ss_events (c_session c)) = Some (e, rest) /\
             ss_events (c_session c') = rest) \/
          (exists e sent rest, send_event e (ss_events (c_session c)) = (sent, rest) /\
             ss_events (c_session c') = rest)) as [[es ->]|[(e & rest & He & ->)|(e & sent & rest & He & ->)]].
  2:{ apply emit_fold_ok, Hc. } 2:{ by eapply receive_event_ok. } 2:{ by eapply send_event_ok. }
  clear Hc. destruct H; simpl; try (left; by exists []).
  - left. apply emits_to_handleSetupStage.
  - left. apply emits_to_failWith. by exists [].
  - left. by eapply emits_to_start_check.
  - left. destruct (start_check_kept _ _ _ _ H) as [-> _]. by exists [].
  - left. apply emits_to_failWith. by exists [].
  - left. by eapply emits_to_start_ready.
  - left. by eapply emits_to_start_ready.
  - left. unfold close_stop in H. destruct (_ && _); [|injection H as <- <-; apply emits_to_refl].
    pose proof (emits_to_transition now SessionStateStopping s s (emits_to_refl s)) as Ht.
    by rewrite H in Ht.
  - left. apply emits_to_emit_all, emits_to_refl.
  - left. unfold close_stopped in H. destruct (negb _); [|injection H as <- <-; apply emits_to_refl].
    pose proof (emits_to_transition now SessionStateStopped s s (emits_to_refl s)) as Ht.
    by destruct (transition now SessionStateStopped s) as [[e|] t]; injection H as <- <-.
  - left. unfold close_report in H. injection H as _ <-. apply emits_to_emit, emits_to_refl.
  - left. unfold monitor_fail. case_match; apply emits_to_failWith, emits_to_refl.
  - left. pose proof (emits_to_transition now SessionStateReconnecting s s (emits_to_refl s)) as Ht.
    by rewrite H0 in Ht.
  - left. pose proof (emits_to_transition now SessionStateReconnecting s s (emits_to_refl s)) as Ht.
    by rewrite H0 in Ht.
  - left. case_match; by exists [].
  - left. apply emits_to_emit, emits_to_refl.
  - left. apply emits_to_emit. by exists [].
  - left. apply emits_to_failWith, emits_to_refl.
  - left. apply emits_to_install in H. by eapply emits_to_same.
  - left. by eapply emits_to_install.
  - left. unfold reconnect_installed. apply emits_to_emit.
    destruct (Runtime_ResumeState _ _); [apply emits_to_resume|]; apply emits_to_refl.
  - left. by eapply emits_to_adopt.
  - left. unfold refresh_finish. apply emits_to_resume.
    destruct old; case_match; repeat first [apply emits_to_emit|apply emits_to_resources];
      by exists [].
  - left. unfold handleNodeSelection. case_match; [apply emits_to_emit|]; by exists [].
  - unfold session_SetRoutingMode in H.
    destruct (negb _); [injection H as <- <-; left; apply emits_to_refl|].
    destruct (ss_network s); [|injection H as <- <-; left; apply emits_to_refl].
    destruct (f _ _); [|injection H as <- <-; left; apply emits_to_refl].
    case_match; [injection H as <- <-; left; apply emits_to_refl|].
    destruct (send_event _ _) as [sent rest] eqn:E. injection H as <- <-.
    right. right. by eexists _, _, _.
  - left. apply emits_to_emit, emits_to_refl.
  - right. left. by eexists _, _.
Qed.

Lemma reachable_channel id config c :
  rtc any_step (initial id config) c -> channel_ok (ss_events (c_session c)).
Proof.
  intros H. assert (channel_ok (ss_events (c_session (initial id config)))) as H0.
  { split; simpl; try done; lia. }
  eapply (rtc_closed any_step (fun c => channel_ok (ss_events (c_session c))));
    [|exact H0|exact H].
  intros x y Hx [l Hxy]. by eapply step_channel.
Qed.
