(* ===== verification/SessionSafety.v ===== *)
(** What the session promises whatever the interleaving of its goroutines: no leaked client
    or network, moves only along the state machine, a [Close] that completes. *)

From S2P Require Import Prelude Core RuntimeStart Session SessionSteps SessionInv.

(** ** Theorems *)

(** The configurations that a session can reach, and those it can reach without [LateAdopt]. *)
Definition reaches (id : SessionID) (config : SessionConfig) (c : Config) : Prop :=
  rtc any_step (initial id config) c.

Definition reaches_normally (id : SessionID) (config : SessionConfig) (c : Config) : Prop :=
  rtc normal_step (initial id config) c.

(** All goroutines of the session have returned. *)
Definition finished (c : Config) : Prop :=
  (c_start c = SIdle \/ c_start c = SDone) /\ c_close c = CDone /\
  (c_monitor c = MIdle \/ c_monitor c = MDone) /\ c_refresh c = RIdle.

(** C1: No leak, whatever the interleaving. Let [Start], [Close], the monitor with its
    reconnections and any number of refreshes interleave in any way, each with any outcome,
    and with network failures, cancellations and [WaitClosed] calls at any time: once all of
    them have returned and [Close] is one of them, no aTrust client and no network runtime is
    left open and the session is [stopped]. (The one step excluded, [LateAdopt], is a refresh
    that hands its client to a runtime the monitor has just closed.) *)
Theorem session_no_leak (id : SessionID) (config : SessionConfig) (c : Config) :
  reaches_normally id config c -> finished c ->
  clients (ss_heap (c_session c)) = ∅ /\ networks (ss_heap (c_session c)) = ∅ /\
  ss_state (c_session c) = SessionStateStopped.
Proof.
  unfold reaches_normally. intros Hreach (Hst & Hcl & Hmo & Hre). apply reachable_inv in Hreach.
  destruct c as [s st cl mo re]. unfold config_inv in Hreach. simpl in *. subst cl re.
  destruct Hreach as [[Hc Hr Hn] _ Hd _ _ _ _ _ _ _].
  assert (forall r, ~ held (view s) st CDone mo RIdle r) as Hnh.
  { intros r. unfold held. destruct Hst as [->| ->], Hmo as [->| ->]; simpl; intuition congruence. }
  split_and!; [..|by apply Hd].
  - apply elem_of_equiv_empty_L. intros x Hx.
    destruct (Hc x Hx) as [(r & rt & Hrt & Hx' & Ho)|?]; [|done].
    eapply (Hnh r), Hr; [exact Hrt|done|by rewrite Hx'].
  - apply elem_of_equiv_empty_L. intros x Hx.
    destruct (Hn x Hx) as [Hx'|(r & rt & Ho & _)].
    + unfold nets in Hx'. destruct Hst as [->| ->]; simpl in Hx'; intuition congruence.
    + unfold owner in Ho. destruct Hst as [->| ->], Hmo as [->| ->]; simpl in Ho;
        intuition congruence.
Qed.

Lemma failed_state_step state : failed_state state = state \/ session_step state (failed_state state).
Proof. unfold failed_state, session_step. by destruct (CanTransitionSessionState _ _) eqn:E; auto. Qed.

Lemma view_state s s' : view s' = view s -> ss_state s' = ss_state s.
Proof. intros H. change (v_state (view s') = v_state (view s)). by rewrite H. Qed.

Lemma transition_state now next s err s' :
  transition now next s = (err, s') ->
  ss_state s' = ss_state s \/ session_step (ss_state s) (ss_state s').
Proof.
  intros H. destruct (view_transition _ _ _ _ _ H) as [(-> & Hc & Hv)|(_ & _ & ->)]; [right|by left].
  assert (ss_state s' = next) as -> by (change (v_state (view s') = next); by rewrite Hv).
  exact Hc.
Qed.

Lemma failWith_state now code message err s :
  ss_state (failWith now code message err s) = failed_state (ss_state s).
Proof.
  pose proof (view_failWith now code message err s) as H.
  change (v_state (view (failWith now code message err s)) = failed_state (ss_state s)).
  by rewrite H.
Qed.

Lemma close_stopped_state now closeErr s closeErr' s' :
  close_stopped now closeErr s = (closeErr', s') ->
  ss_state s' = ss_state s \/ session_step (ss_state s) (ss_state s').
Proof.
  unfold close_stopped. intros H. destruct (negb (bool_decide (ss_state s = SessionStateStopped))).
  - destruct (transition now SessionStateStopped s) as [[e|] s2] eqn:Ht;
      injection H as _ <-; by eapply transition_state.
  - injection H as _ <-. by left.
Qed.

(** Whatever a step does to the state is a transition of the state machine. *)
Lemma step_state l c c' :
  step l c c' ->
  ss_state (c_session c') = ss_state (c_session c) \/
  session_step (ss_state (c_session c)) (ss_state (c_session c')).
Proof.
  destruct 1; cbn [c_session]; try (by left);
    unfold start_failed, start_resources_failed, fail_session; rewrite ?failWith_state; try apply failed_state_step.
  - unfold handleSetupStage. destruct (setupStageState stage) as [state|]; [|by left].
    destruct (transition now state s) as [[e|] s1] eqn:Ht; pose proof (transition_state _ _ _ _ _ Ht);
      [by destruct (ss_stageErr s1)|done].
  - unfold start_check in H. destruct (stopping (ss_state s)), (ss_stageErr s);
      simplify_eq; unfold fail_session; rewrite failWith_state; apply failed_state_step.
  - destruct (start_check_kept _ _ _ _ H) as [-> _]. by left.
  - apply start_ready_view in H as [_ ->]. rewrite failWith_state. apply failed_state_step.
  - apply start_ready_view in H as [Hc Hv]. right.
    assert (ss_state s' = SessionStateReady) as -> by
      (change (v_state (view s') = SessionStateReady); by rewrite Hv).
    exact Hc.
  - unfold close_stop in H. destruct (_ && _); [by eapply transition_state|].
    injection H as <- <-. by left.
  - left. apply view_state, view_emit_stopped_services.
  - by eapply close_stopped_state.
  - left. apply view_state. by eapply close_report_view.
  - unfold monitor_fail. case_bool_decide; rewrite failWith_state; apply failed_state_step.
  - by eapply transition_state.
  - by eapply transition_state.
  - left. by case_bool_decide.
  - unfold reconnect_give_up. rewrite failWith_state. apply failed_state_step.
  - left. destruct (install_view _ _ _ _ _ _ H) as (n & h & _ & Hv).
    change (v_state (view s') = ss_state s). by rewrite Hv.
  - destruct (install_view _ _ _ _ _ _ H) as (n & h & _ & Hst & Hv). right.
    assert (ss_state s' = SessionStateReady) as -> by
      (change (v_state (view s') = SessionStateReady); by rewrite Hv).
    rewrite Hst. by vm_compute.
  - left. apply view_state, view_reconnect_installed.
  - left. destruct (refresh_adopt_view _ _ _ _ _ _ _ _ _ H) as (_ & _ & h & _ & Hv).
    change (v_state (view s') = ss_state s). by rewrite Hv.
  - left. change (v_state (view (refresh_finish now resources nodes config_resume resume old s))
                  = ss_state s). by rewrite refresh_finish_view.
  - left. apply view_state, view_handleNodeSelection.
  - left. apply view_state. pose proof (view_set_routing now f mode s) as Hv. by rewrite H in Hv.
Qed.

(** C2: The session moves only along the state machine of core/state.go, whatever its
    goroutines do: every state it reaches from [idle] is reached by allowed transitions,
    every single step of a goroutine makes at most one of them, and (as no step leaves
    [stopped]) a stopped session stays stopped. *)
Theorem session_state_machine (id : SessionID) (config : SessionConfig) (c c' : Config) :
  reaches id config c -> rtc any_step c c' ->
  rtc session_step SessionStateIdle (ss_state (c_session c)) /\
  rtc session_step (ss_state (c_session c)) (ss_state (c_session c')) /\
  (ss_state (c_session c) = SessionStateStopped -> ss_state (c_session c') = SessionStateStopped) /\
  (forall c'', any_step c' c'' ->
     ss_state (c_session c'') = ss_state (c_session c') \/
     session_step (ss_state (c_session c')) (ss_state (c_session c''))).
Proof.
  unfold reaches. intros H1 H2.
  assert (forall x y, rtc any_step x y ->
            rtc session_step (ss_state (c_session x)) (ss_state (c_session y))) as Hrun.
  { intros x y Hr. induction Hr as [x|x y z [l Hxy] _ IH]; [apply rtc_refl|].
    destruct (step_state _ _ _ Hxy) as [Heq|Hst]; [by rewrite <-Heq|by eapply rtc_l]. }
  split_and!; [exact (Hrun _ _ H1)|exact (Hrun _ _ H2)| |].
  - intros Hs. pose proof (Hrun _ _ H2) as Hr. rewrite Hs in Hr.
    inversion Hr as [|? y ? Hy]; [done|]. by apply stopped_no_step in Hy.
  - intros c'' [l Hl]. by eapply step_state.
Qed.

(** ** [Close] completes *)

(** A step of [Close] itself (no other goroutine moves its program counter), taken when every
    emit has returned, its own among them. *)
Definition close_turn (c c' : Config) : Prop :=
  emits_returned (c_session c) = true /\ normal_step c c' /\ c_close c' <> c_close c.

(** The reader of [Events] receives an event. *)
Definition read_turn (c c' : Config) : Prop :=
  exists e rest, receive_event (ss_events (c_session c)) = Some (e, rest) /\
    c' = mkConfig (set_events rest (c_session c)) (c_start c) (c_close c) (c_monitor c)
           (c_refresh c).

Definition close_or_read (c c' : Config) : Prop := close_turn c c' \/ read_turn c c'.

(** The steps that [close] still has to make. *)
Definition close_steps_left (cl : ClosePC) : nat :=
  match cl with
  | CIdle => 7 | CBegin _ => 6 | CStopping _ => 5 | CRead _ _ _ => 4 | CReleased _ _ _ => 3
  | CServices _ _ _ => 2 | CStopped _ _ _ => 1 | CDone => 0
  end%nat.

Lemma close_step_rank l c c' :
  step l c c' -> c_close c' <> c_close c ->
  close_steps_left (c_close c) = S (close_steps_left (c_close c')).
Proof. by destruct 1; simpl. Qed.

Lemma close_turns_bound n c c' :
  nsteps close_turn n c c' -> (n + close_steps_left (c_close c') = close_steps_left (c_close c))%nat.
Proof.
  induction 1 as [c|n c c1 c' (_ & Hs & Hne) _ IH]; [done|].
  rewrite (close_step_rank _ _ _ Hs Hne). lia.
Qed.

(** [close] always has its next step, whatever the channel does. *)
Lemma close_next s st cl mo re :
  cl <> CIdle -> cl <> CDone ->
  exists s' cl', normal_step (mkConfig s st cl mo re) (mkConfig s' st cl' mo re) /\ cl' <> cl /\
    cl' <> CIdle /\ emits_to s s'.
Proof.
  intros H1 H2.
  destruct cl as [|state|err|err runtime network|err result closeErr|err result closeErr
                 |err result closeErr|]; try done.
  - destruct (close_stop 0 state s) as [e s1] eqn:Hc. exists s1, (CStopping e).
    split_and!; [by eapply (close_transition 0)|done..|].
    unfold close_stop in Hc. destruct (_ && _); [|injection Hc as <- <-; apply emits_to_refl].
    pose proof (emits_to_transition 0 SessionStateStopping s s (emits_to_refl s)) as Ht.
    by rewrite Hc in Ht.
  - eexists s, _. split_and!; [by apply close_read|done..|apply emits_to_refl].
  - destruct (close_errors runtime network None None) as [result closeErr] eqn:Hc.
    eexists _, _. split_and!; [by eapply close_resources|done..|by exists []].
  - eexists _, _. split_and!; [by apply (close_service_events 0 [])|done..|].
    apply emits_to_emit_all, emits_to_refl.
  - destruct (close_stopped 0 closeErr s) as [e s1] eqn:Hc. exists s1, (CStopped err result e).
    split_and!; [by eapply (close_transition_stopped 0)|done..|].
    unfold close_stopped in Hc. destruct (negb _); [|injection Hc as <- <-; apply emits_to_refl].
    pose proof (emits_to_transition 0 SessionStateStopped s s (emits_to_refl s)) as Ht.
    by destruct (transition 0 SessionStateStopped s) as [[?|] t]; injection Hc as <- <-.
  - destruct (close_report 0 0 err result s) as [report s1] eqn:Hc. exists s1, CDone.
    split_and!; [by eapply (close_done 0 0)|done..|].
    unfold close_report in Hc. injection Hc as _ <-. apply emits_to_emit, emits_to_refl.
Qed.

(** Receiving makes every emit return: each receive lets one waiting sender in. *)
Lemma reads_free n s st cl mo re :
  channel_ok (ss_events s) -> (channel_waits (ss_events s) <= n)%nat ->
  exists s', rtc read_turn (mkConfig s st cl mo re) (mkConfig s' st cl mo re) /\
    emits_returned s' = true /\ channel_ok (ss_events s') /\ view s' = view s.
Proof.
  revert s. induction n as [|n IH]; intros s Hc Hn.
  { exists s. split_and!; [apply rtc_refl| |done|done]. unfold channel_waits in Hn.
    unfold emits_returned, emit_blocked.
    destruct (ec_senders (ss_events s)), (ec_emits (ss_events s)); simpl in Hn; [done|lia..]. }
  destruct (emits_returned s) eqn:Er; [exists s; by split_and!; [apply rtc_refl|..]|].
  destruct (receive_event (ss_events s)) as [[e rest]|] eqn:Hr.
  - destruct (receive_event_ok _ _ _ Hc Hr) as [Hc' Hn'].
    destruct (IH (set_events rest s)) as (s' & Hs & ? & ? & Hv); [done|simpl; lia|].
    exists s'. split_and!; [|done..|exact Hv]. eapply rtc_l; [|exact Hs]. by exists e, rest.
  - exfalso. unfold receive_event in Hr. unfold emits_returned, emit_blocked in Er.
    destruct Hc as [_ Hf He _]. unfold emit_blocked in He.
    destruct (ec_senders (ss_events s)) as [|w l] eqn:Es.
    + simpl in *. destruct (ec_emits (ss_events s)); [done|]. by specialize (He ltac:(done)).
    + specialize (Hf ltac:(done)). destruct (ec_buffer (ss_events s)); [done|].
      by destruct (is_emit w).
Qed.

Lemma emits_to_free s s' :
  emits_to s s' -> channel_ok (ss_events s) -> ec_senders (ss_events s) = [] ->
  ec_senders (ss_events s') = [] /\ emits_returned s' = true.
Proof.
  intros [es Hes] Hc Hs. destruct (emit_fold_free es _ Hc Hs) as (_ & H1 & H2).
  unfold emits_returned, emit_blocked. by rewrite Hes, H1, H2.
Qed.

Lemma free_returned s :
  channel_ok (ss_events s) -> ec_senders (ss_events s) = [] -> emits_returned s = true.
Proof. intros Hc Hs. by destruct (emits_to_free s s (emits_to_refl s) Hc Hs). Qed.

(** With nobody waiting in a direct send [close] runs to its end alone. *)
Lemma close_runs_alone n s st cl mo re :
  (close_steps_left cl <= n)%nat -> cl <> CIdle -> channel_ok (ss_events s) ->
  ec_senders (ss_events s) = [] ->
  exists s', rtc close_turn (mkConfig s st cl mo re) (mkConfig s' st CDone mo re) /\
    emits_returned s' = true.
Proof.
  revert s cl. induction n as [|n IH]; intros s cl Hn Hcl Hc Hs;
    pose proof (free_returned s Hc Hs) as Hret;
    (destruct (decide (close_steps_left cl = 0%nat)) as [H0|H0];
     [destruct cl; try done; exists s; split; [apply rtc_refl|done]|]); [lia|].
  destruct (close_next s st cl mo re) as (s1 & cl1 & Hstep & Hne & Hcl1 & He);
    [done|by intros ->|].
  destruct (emits_to_free _ _ He Hc Hs) as [Hs1 _].
  destruct (IH s1 cl1) as (s' & Hr & Hret'); [|done|exact (step_channel _ _ _ Hstep Hc)|done|].
  { pose proof (close_step_rank _ _ _ Hstep Hne) as Hk. simpl in Hk. lia. }
  exists s'. split; [|done]. eapply rtc_l; [|exact Hr]. by split_and!.
Qed.

Lemma close_runs_read n s st cl mo re :
  (close_steps_left cl <= n)%nat -> cl <> CIdle -> channel_ok (ss_events s) ->
  exists s', rtc close_or_read (mkConfig s st cl mo re) (mkConfig s' st CDone mo re) /\
    emits_returned s' = true.
Proof.
  revert s cl. induction n as [|n IH]; intros s cl Hn Hcl Hc;
    destruct (reads_free _ s st cl mo re Hc (le_n _)) as (s0 & Hr0 & Hret & Hc0 & _);
    apply (rtc_subrel _ close_or_read) in Hr0; try (by intros ???; right);
    (destruct (decide (close_steps_left cl = 0%nat)) as [H0|H0];
     [destruct cl; try done; by exists s0|]); [lia|].
  destruct (close_next s0 st cl mo re) as (s1 & cl1 & Hstep & Hne & Hcl1 & _);
    [done|by intros ->|].
  destruct (IH s1 cl1) as (s' & Hr & Hret'); [|done|exact (step_channel _ _ _ Hstep Hc0)|].
  { pose proof (close_step_rank _ _ _ Hstep Hne) as Hk. simpl in Hk. lia. }
  exists s'. split; [|done]. etransitivity; [exact Hr0|].
  eapply rtc_l; [|exact Hr]. left. by split_and!.
Qed.

Lemma close_turn_normal c c' : close_turn c c' -> normal_step c c'.
Proof. by intros (_ & H & _). Qed.

Lemma close_or_read_normal c c' : close_or_read c c' -> normal_step c c'.
Proof.
  intros [H|(e & rest & He & ->)]; [by apply close_turn_normal|].
  destruct c as [s st cl mo re]. by eapply event_read.
Qed.


(** ** Example runs *)

Lemma fresh_runtime_eval r c h :
  match runtimes h !! r with None => bool_decide (c ∉ clients h) | Some _ => false end = true ->
  fresh_runtime r c h.
Proof.
  unfold fresh_runtime. destruct (runtimes h !! r); [done|]. intros ?. by bool_hyps.
Qed.

Lemma fresh_network_eval (o : option nat) h :
  match o with Some n => bool_decide (n ∉ networks h) | None => true end = true ->
  forall n, o = Some n -> n ∉ networks h.
Proof. intros H n ->. by bool_hyps. Qed.

(** The session of the run so far, evaluated. *)
Ltac at_session d :=
  match goal with
  | |- rtc _ (mkConfig ?s _ _ _ _) _ => replace s with d by (by vm_compute)
  end.

Definition demo_session : Session :=
  newSession "s" {| scfg_ResumeState := None; scfg_ClientDataFile := "";
                    scfg_DisableAutoReconnect := false |}.

Definition demo_staged : Session :=
  fold_left (fun s stage => handleSetupStage 0 stage s) setup_stages demo_session.

Definition demo_started : Session :=
  set_heap (open_runtime 1 2 (Some 3%nat) true zeroResumeState (ss_heap demo_staged)) demo_staged.

Definition demo_checked : Session :=
  set_heap (DetachOutbound 1 (ss_heap demo_started)).2 demo_started.

Definition demo_installed : Session := start_install 1 (Some 3%nat) zeroResources demo_checked.

Definition demo_ready : Session :=
  (start_ready 0 1 (Some 3%nat) zeroResources zeroResumeState [] demo_installed).2.

Lemma demo_run_ready :
  rtc normal_step (initial "s" (ss_config demo_session))
    (mkConfig demo_ready SDone CIdle (MWatch 1) RIdle).
Proof.
  eapply rtc_l; [apply start_begin|].
  do 5 (eapply rtc_l; [by eapply (start_stage 0)|]).
  eapply rtc_l; [apply (start_setup_ok demo_staged 1 2 (Some 3%nat) zeroResumeState);
    [apply fresh_runtime_eval|apply fresh_network_eval]; by vm_compute|].
  eapply rtc_l; [apply (start_check_ok 0 demo_started 1 demo_started (Some 3%nat)
    (DetachOutbound 1 (ss_heap demo_started)).2); by vm_compute|].
  eapply rtc_l; [apply (start_read_ok demo_checked 1 (Some 3%nat) zeroResources)|].
  eapply rtc_l; [apply (start_is_ready 0 [] demo_installed 1 (Some 3%nat) zeroResources
    zeroResumeState demo_ready); by vm_compute|].
  apply rtc_refl.
Qed.

(** The session closes while it is reconnecting: the monitor finds its candidate unwanted. *)
Definition demo_dropped : Session :=
  set_heap (closeRuntime 1 (ss_heap demo_ready))
    (set_runtime None (transition 0 SessionStateReconnecting demo_ready).2).

Definition demo_scheduled : Session := reconnect_schedule 0 1 (EText "tunnel closed") demo_dropped.

Definition demo_candidate : Session :=
  set_heap (open_runtime 4 5 (Some 6%nat) true zeroResumeState (ss_heap demo_scheduled))
    demo_scheduled.

Definition demo_stopping : Session := (close_stop 0 (ss_state demo_candidate) (cancel demo_candidate)).2.

Definition demo_released : Session :=
  close_release (ss_runtime demo_stopping) (ss_network demo_stopping) demo_stopping.

Definition demo_result : CleanupResult :=
  {| cleanup_Component := "atrust.runtime"; cleanup_Error := "" |}.

Definition demo_marked : Session := (close_stopped 0 None demo_released).2.

Definition demo_stopped : Session := (close_report 0 0 None demo_result demo_marked).2.

Definition demo_refused : Session :=
  (installReconnectedRuntime 0 4 (Ok zeroResources) demo_stopped).2.

Definition demo_end : Config :=
  mkConfig (set_heap (closeRuntime 4 (ss_heap demo_refused)) demo_refused) SDone CDone MDone RIdle.

Lemma demo_run_close :
  rtc normal_step (mkConfig demo_ready SDone CIdle (MWatch 1) RIdle) demo_end.
Proof.
  eapply rtc_l; [apply (reconnect_begin 0 demo_ready _ _ _ (EText "tunnel closed")
    (transition 0 SessionStateReconnecting demo_ready).2); by vm_compute|].
  eapply rtc_l; [apply (reconnect_forget _ _ _ _ _ (fun _ => false))|].
  eapply rtc_l; [apply reconnect_close_failed|].
  at_session demo_dropped.
  eapply rtc_l; [apply (reconnect_scheduled 0)|]. at_session demo_scheduled.
  eapply rtc_l; [eapply (reconnect_attempt_ok _ _ _ _ _ _ _ 4 5 (Some 6%nat) zeroResumeState);
    [apply fresh_runtime_eval; by vm_compute|intros _; apply fresh_network_eval; by vm_compute
    |by vm_compute]|].
  at_session demo_candidate.
  eapply rtc_l; [apply (close_begin demo_candidate)|].
  eapply rtc_l; [apply (close_transition 0 (cancel demo_candidate) _ None demo_stopping);
    by vm_compute|].
  eapply rtc_l; [apply (close_read demo_stopping)|].
  eapply rtc_l; [apply (close_resources demo_stopping None _ _ None None demo_result None);
    by vm_compute|].
  at_session demo_released.
  eapply rtc_l; [apply (close_service_events 0 [])|]. at_session demo_released.
  eapply rtc_l; [apply (close_transition_stopped 0 demo_released None demo_result None None
    demo_marked); by vm_compute|].
  eapply rtc_l; [apply (close_done 0 0 demo_marked None demo_result None
    (close_report 0 0 None demo_result demo_marked).1 demo_stopped); by vm_compute|].
  at_session demo_stopped.
  eapply rtc_l; [apply (reconnect_install_failed 0 demo_stopped _ _ _ _ _ _ 4
    (Ok zeroResources) demo_refused); by vm_compute|].
  apply rtc_refl.
Qed.

Lemma demo_run_end : rtc normal_step (initial "s" (ss_config demo_session)) demo_end.
Proof. etransitivity; [exact demo_run_ready|exact demo_run_close]. Qed.

Lemma session_no_leak_witness :
  finished demo_end /\ clients (ss_heap (c_session demo_end)) = ∅ /\
  networks (ss_heap (c_session demo_end)) = ∅ /\
  ss_state (c_session demo_end) = SessionStateStopped.
Proof.
  assert (finished demo_end) as H by (split_and!; [by right|done|by right|done]).
  split; [exact H|]. exact (session_no_leak _ _ _ demo_run_end H).
Defined.

(** A refresh hands its client to the runtime that the monitor has just closed, before the
    session turns to [failed]: the one step that [session_no_leak] excludes. *)
Definition demo_fetched : Session :=
  set_heap (open_runtime 7 8 None false zeroResumeState (ss_heap demo_ready)) demo_ready.

Definition demo_tun_error : error := WrapError ErrorCodeTUNUnavailable "TUN service stopped" false None.

Definition demo_shut : Session :=
  set_heap (closeRuntime 1 (close_network_opt (Some 3%nat) (ss_heap demo_fetched))) demo_fetched.

Definition demo_adopted : Session :=
  set_resources zeroResources (set_heap (adoptClient 1 7 (ss_heap demo_shut)).2 demo_shut).

Definition demo_failed : Session := monitor_fail 0 demo_tun_error demo_adopted.

Definition demo_leak_stopping : Session :=
  (close_stop 0 SessionStateFailed (cancel demo_failed)).2.

Definition demo_leak_released : Session := close_release (Some 1%nat) (Some 3%nat) demo_leak_stopping.

Definition demo_leak_marked : Session := (close_stopped 0 None demo_leak_released).2.

Definition demo_leaked : Config :=
  mkConfig (close_report 0 0 None demo_result demo_leak_marked).2 SDone CDone MDone RIdle.

(** Without that exclusion a client can leak: the refresh's critical section and the
    monitor's closing of the same runtime overlap, [closeOnce] has already run, and the
    client adopted afterwards stays open after [Close]. *)
Example late_adopt_leaks :
  reaches "s" (ss_config demo_session) demo_leaked /\ finished demo_leaked /\
  clients (ss_heap (c_session demo_leaked)) = {[8%nat]}.
Proof.
  unfold reaches. split; [|split; [split_and!; [by right|done|by right|done]|by vm_compute]].
  etransitivity.
  { eapply (rtc_subrel normal_step), demo_run_ready. intros x y H. by exists Normal. }
  eapply rtc_l; [exists Normal; apply (refresh_start demo_ready _ _ _ (fun _ => true) 1 3);
    by vm_compute|].
  eapply rtc_l; [exists Normal; apply (refresh_candidate demo_ready _ _ _ _ _ 7 8 zeroResumeState);
    apply fresh_runtime_eval; by vm_compute|].
  eapply rtc_l; [exists Normal; apply (monitor_gives_up demo_fetched _ _ _ demo_tun_error);
    by vm_compute|].
  eapply rtc_l; [exists Normal; apply monitor_close|]. at_session demo_shut.
  eapply rtc_l; [exists LateAdopt; apply (refresh_adopted demo_shut _ _ _ 1 3 7 zeroResources
    (Ok (Some 3%nat)) None None demo_adopted); by vm_compute|].
  eapply rtc_l; [exists Normal; apply (refresh_done 0 None)|]. at_session demo_adopted.
  eapply rtc_l; [exists Normal; apply (monitor_failed 0)|]. at_session demo_failed.
  eapply rtc_l; [exists Normal; apply close_begin|].
  eapply rtc_l; [exists Normal; apply (close_transition 0 _ _ None demo_leak_stopping);
    by vm_compute|].
  eapply rtc_l; [exists Normal; apply close_read|].
  eapply rtc_l; [exists Normal; apply (close_resources _ None _ _ None None demo_result None);
    by vm_compute|].
  at_session demo_leak_released.
  eapply rtc_l; [exists Normal; apply (close_service_events 0 [])|]. at_session demo_leak_released.
  eapply rtc_l; [exists Normal; apply (close_transition_stopped 0 demo_leak_released None demo_result
    None None demo_leak_marked); by vm_compute|].
  eapply rtc_l; [exists Normal; apply (close_done 0 0 demo_leak_marked None demo_result None
    (close_report 0 0 None demo_result demo_leak_marked).1 (c_session demo_leaked)); by vm_compute|].
  apply rtc_refl.
Qed.

Lemma session_state_machine_witness :
  rtc session_step SessionStateIdle SessionStateReady /\
  rtc session_step SessionStateReady SessionStateStopped.
Proof.
  assert (rtc any_step (initial "s" (ss_config demo_session))
            (mkConfig demo_ready SDone CIdle (MWatch 1) RIdle)) as H1.
  { eapply (rtc_subrel normal_step), demo_run_ready. intros x y H. by exists Normal. }
  assert (rtc any_step (mkConfig demo_ready SDone CIdle (MWatch 1) RIdle) demo_end) as H2.
  { eapply (rtc_subrel normal_step), demo_run_close. intros x y H. by exists Normal. }
  destruct (session_state_machine _ _ _ _ H1 H2) as (Ha & Hb & _).
  split; [exact Ha|exact Hb].
Defined.

(** The session becomes ready, 32 events fill the channel, a [SetRoutingMode] call waits in its
    send, and then [Close] begins: its emits have to wait for the reader. *)
Definition demo_full : Session :=
  Nat.iter 40 (fun s => emit (NewServiceEvent (ss_id s) EventTypeServiceStopped
    {| svc_Type := "tun"; svc_Address := ""; svc_Running := false; svc_LastError := "" |} 0) s)
    demo_ready.

Definition demo_waiting : Session :=
  (session_SetRoutingMode 0 (fun _ _ => Ok RoutingModeRule) RoutingModeGlobal demo_full).2.

Lemma demo_run_full :
  rtc normal_step (initial "s" (ss_config demo_session))
    (mkConfig demo_full SDone CIdle (MWatch 1) RIdle).
Proof.
  unfold demo_full. generalize 40%nat. intros n. induction n as [|n IH]; [exact demo_run_ready|].
  eapply rtc_r; [exact IH|]. cbn [Nat.iter nat_rect]. apply service_ended.
Qed.

Lemma demo_run_waiting :
  rtc normal_step (initial "s" (ss_config demo_session))
    (mkConfig (cancel demo_waiting) SDone (CBegin SessionStateReady) (MWatch 1) RIdle).
Proof.
  eapply rtc_r.
  - eapply rtc_r; [exact demo_run_full|].
    eapply (set_routing_mode 0 (fun _ _ => Ok RoutingModeRule) RoutingModeGlobal _ _ _ _ _
      None demo_waiting). by vm_compute.
  - assert (ss_state demo_waiting = SessionStateReady) as <- by (by vm_compute).
    apply close_begin.
Qed.

