(* ===== verification/AuthBroker.v ===== *)
(** The authentication broker (manager/manager.go): challenges raised by a session's set-up
    wait for a response that a client of the manager sends.

    Handlers and responders are goroutines. A step is what one of them does under one hold of
    the broker's mutex, or one channel operation. *)

From S2P Require Import Prelude Core.

Definition managerEventBuffer : nat := 128.
Definition managerAuthEventReserve : nat := 8.

(** ** State *)

(** [pendingAuth]: [pa_response] is the channel, of capacity one. *)
Record pendingAuth : Type := {
  pa_session : SessionID;
  pa_challenge : AuthChallenge;
  pa_response : option AuthResponse;
  pa_responded : bool;
}.

(** Where a call of [sessionAuthHandler.Handle] is. *)
Inductive handler : Type :=
| HRegistered
| HWaiting
| HReceived (response : AuthResponse)
| HReturned (result : result error AuthResponse).

(** [items] maps challenge identifiers to pending entries, named by numbers; [sends] are the
    responders that hold an accepted response and have not sent it yet. *)
Record authBroker : Type := {
  items : gmap string nat;
  pendings : gmap nat pendingAuth;
  handlers : gmap nat handler;
  sends : list (nat * AuthResponse);
  auth_events : list Event;
}.

Definition newAuthBroker : authBroker :=
  {| items := ∅; pendings := ∅; handlers := ∅; sends := []; auth_events := [] |}.

(** ** Operations *)

Definition set_response (r : option AuthResponse) (p : pendingAuth) : pendingAuth :=
  {| pa_session := pa_session p; pa_challenge := pa_challenge p; pa_response := r;
     pa_responded := pa_responded p |}.

Definition set_responded (b : bool) (p : pendingAuth) : pendingAuth :=
  {| pa_session := pa_session p; pa_challenge := pa_challenge p; pa_response := pa_response p;
     pa_responded := b |}.

Definition put_pending (i : nat) (p : pendingAuth) (b : authBroker) : authBroker :=
  {| items := items b; pendings := <[i := p]> (pendings b); handlers := handlers b;
     sends := sends b; auth_events := auth_events b |}.

Definition put_handler (i : nat) (h : handler) (b : authBroker) : authBroker :=
  {| items := items b; pendings := pendings b; handlers := <[i := h]> (handlers b);
     sends := sends b; auth_events := auth_events b |}.

Definition put_sends (l : list (nat * AuthResponse)) (b : authBroker) : authBroker :=
  {| items := items b; pendings := pendings b; handlers := handlers b; sends := l;
     auth_events := auth_events b |}.

Definition put_event (e : Event) (b : authBroker) : authBroker :=
  {| items := items b; pendings := pendings b; handlers := handlers b; sends := sends b;
     auth_events := auth_events b ++ [e] |}.

(** [Handle], up to the registration of the challenge: an invalid challenge or an identifier
    already pending is refused. *)
Definition Handle_register (i : nat) (session : SessionID) (challenge : AuthChallenge)
    (b : authBroker) : result error authBroker :=
  match AuthChallenge_Validate challenge with
  | Some err => Err err
  | None =>
      match items b !! challenge_ID challenge with
      | Some _ => Err (WrapError ErrorCodeAuthChallengeInvalid
                         "authentication challenge ID is already pending" false None)
      | None =>
          Ok {| items := <[challenge_ID challenge := i]> (items b);
                pendings := <[i := {| pa_session := session; pa_challenge := challenge;
                                      pa_response := None; pa_responded := false |}]> (pendings b);
                handlers := <[i := HRegistered]> (handlers b);
                sends := sends b; auth_events := auth_events b |}
      end
  end.

(** The event that announces the challenge. *)
Definition challenge_event (now : Z) (p : pendingAuth) : Event :=
  let kind := challenge_Kind (pa_challenge p) in
  let t := if bool_decide (kind = AuthChallengeCASCallback)
              || bool_decide (kind = AuthChallengeOAuthCallback)
           then EventTypeAuthBrowserRequired else EventTypeAuthRequired in
  authEvent (pa_session p) t (pa_challenge p) now.

(** Returning from [Handle]: the deferred function forgets the challenge. *)
Definition Handle_return (i : nat) (p : pendingAuth) (r : result error AuthResponse) (b : authBroker)
    : authBroker :=
  {| items := delete (challenge_ID (pa_challenge p)) (items b); pendings := pendings b;
     handlers := <[i := HReturned r]> (handlers b); sends := sends b;
     auth_events := auth_events b |}.

(** [respond], its critical section: the pending entry that accepts the response. *)
Definition respond (response : AuthResponse) (b : authBroker) : result error (nat * authBroker) :=
  match items b !! response_ChallengeID response with
  | None => Err (WrapError ErrorCodeAuthChallengeNotFound
                   "authentication challenge is not pending" false None)
  | Some i =>
      match pendings b !! i with
      | None => Err (WrapError ErrorCodeAuthChallengeNotFound
                       "authentication challenge is not pending" false None)
      | Some p =>
          if pa_responded p then
            Err (WrapError ErrorCodeAuthResponseInvalid
                   "authentication challenge already has a response" false None)
          else match AuthResponse_Validate response (pa_challenge p) with
          | Some err => Err err
          | None =>
              Ok (i, put_sends ((i, response) :: sends b) (put_pending i (set_responded true p) b))
          end
      end
  end.

(** [respond] after its context ended: the challenge takes responses again if it is still the
    pending one. *)
Definition respond_canceled (i : nat) (response : AuthResponse) (b : authBroker) : authBroker :=
  match pendings b !! i with
  | Some p =>
      if bool_decide (items b !! response_ChallengeID response = Some i)
      then put_pending i (set_responded false p) b else b
  | None => b
  end.

(** ** Steps *)

Inductive auth_step : authBroker -> authBroker -> Prop :=
| handle_register i session challenge b b' :
    pendings b !! i = None -> Handle_register i session challenge b = Ok b' ->
    auth_step b b'
| handle_emit now i p b :
    handlers b !! i = Some HRegistered -> pendings b !! i = Some p ->
    (length (auth_events b) < managerEventBuffer)%nat ->
    auth_step b (put_event (challenge_event now p) (put_handler i HWaiting b))
| handle_canceled i h p err b :
    handlers b !! i = Some h -> (forall r, h <> HReturned r) -> pendings b !! i = Some p ->
    auth_step b (Handle_return i p (Err err) b)
| handle_receive i p r b :
    handlers b !! i = Some HWaiting -> pendings b !! i = Some p -> pa_response p = Some r ->
    auth_step b (put_handler i (HReceived r) (put_pending i (set_response None p) b))
| handle_complete now i p r b :
    handlers b !! i = Some (HReceived r) -> pendings b !! i = Some p ->
    (length (auth_events b) < managerEventBuffer)%nat ->
    auth_step b
      (put_event (authEvent (pa_session p) EventTypeAuthCompleted (pa_challenge p) now)
         (Handle_return i p (Ok r) b))
| respond_accept response i b b' :
    respond response b = Ok (i, b') -> auth_step b b'
| respond_send i r p l1 l2 b :
    sends b = l1 ++ (i, r) :: l2 -> pendings b !! i = Some p -> pa_response p = None ->
    auth_step b (put_sends (l1 ++ l2) (put_pending i (set_response (Some r) p) b))
| respond_cancel i r l1 l2 b :
    sends b = l1 ++ (i, r) :: l2 ->
    auth_step b (respond_canceled i r (put_sends (l1 ++ l2) b))
| event_taken e rest b :
    auth_events b = e :: rest ->
    auth_step b {| items := items b; pendings := pendings b; handlers := handlers b;
                   sends := sends b; auth_events := rest |}.

(** ** Invariant *)

(** How many copies of a response to entry [i] are under way. *)
Definition in_channel (p : pendingAuth) : nat :=
  match pa_response p with Some _ => 1 | None => 0 end.

Definition in_hand (h : option handler) : nat :=
  match h with Some (HReceived _) | Some (HReturned (Ok _)) => 1 | _ => 0 end.

Definition pending_sends (i : nat) (b : authBroker) : nat :=
  length (List.filter (fun s => Nat.eqb s.1 i) (sends b)).

Definition valid_response (p : pendingAuth) (r : AuthResponse) : Prop :=
  AuthResponse_Validate r (pa_challenge p) = None.

Definition handler_response (h : handler) : option AuthResponse :=
  match h with HReceived r | HReturned (Ok r) => Some r | _ => None end.

Record entry_ok (b : authBroker) (i : nat) (p : pendingAuth) : Prop := {
  entry_once : (pending_sends i b + in_channel p + in_hand (handlers b !! i) <= 1)%nat;
  entry_free : pa_responded p = false ->
    (pending_sends i b + in_channel p + in_hand (handlers b !! i) = 0)%nat;
  entry_sent r : (i, r) ∈ sends b -> valid_response p r;
  entry_channel r : pa_response p = Some r -> valid_response p r;
  entry_received h r : handlers b !! i = Some h -> handler_response h = Some r ->
    valid_response p r;
}.

Record broker_ok (b : authBroker) : Prop := {
  broker_entries i p : pendings b !! i = Some p -> entry_ok b i p;
  broker_items id i : items b !! id = Some i ->
    exists p h, pendings b !! i = Some p /\ challenge_ID (pa_challenge p) = id /\
      handlers b !! i = Some h /\ (forall r, h <> HReturned r);
  broker_live i h : handlers b !! i = Some h -> (forall r, h <> HReturned r) ->
    exists p, pendings b !! i = Some p /\ items b !! challenge_ID (pa_challenge p) = Some i;
  broker_unknown i : pendings b !! i = None -> pending_sends i b = 0%nat /\ handlers b !! i = None;
}.

Definition count_sends (i : nat) (l : list (nat * AuthResponse)) : nat :=
  length (List.filter (fun s => Nat.eqb s.1 i) l).

Lemma count_sends_cons i j r l :
  count_sends i ((j, r) :: l) = ((if decide (j = i) then 1 else 0) + count_sends i l)%nat.
Proof.
  unfold count_sends. simpl. destruct (Nat.eqb_spec j i); destruct (decide (j = i)); by subst.
Qed.

Lemma count_sends_app i l1 l2 : count_sends i (l1 ++ l2) = (count_sends i l1 + count_sends i l2)%nat.
Proof. unfold count_sends. by rewrite List.filter_app, length_app. Qed.

Lemma count_sends_remove i j r l1 l2 :
  count_sends i (l1 ++ (j, r) :: l2) =
  ((if decide (j = i) then 1 else 0) + count_sends i (l1 ++ l2))%nat.
Proof. rewrite !count_sends_app, count_sends_cons. lia. Qed.

Lemma in_app_cons {A} (x y : A) l1 l2 : x ∈ l1 ++ l2 -> x ∈ l1 ++ y :: l2.
Proof. rewrite !elem_of_app, elem_of_cons. tauto. Qed.

Lemma newAuthBroker_ok : broker_ok newAuthBroker.
Proof. split; simpl; intros *; rewrite ?lookup_empty; try done. Qed.

(** An entry only depends on its own counts and responses. *)
Lemma entry_ok_same b b' i p p' :
  entry_ok b i p -> pa_challenge p' = pa_challenge p -> pa_responded p' = pa_responded p ->
  pa_response p' = pa_response p -> pending_sends i b' = pending_sends i b ->
  (forall r, (i, r) ∈ sends b' -> (i, r) ∈ sends b) -> handlers b' !! i = handlers b !! i ->
  entry_ok b' i p'.
Proof.
  intros [H1 H2 H3 H4 H5] E1 E2 E3 E4 E5 E6.
  assert (in_channel p' = in_channel p) as E7 by (unfold in_channel; by rewrite E3).
  assert (forall r, valid_response p r -> valid_response p' r) as E8
    by (unfold valid_response; by rewrite E1).
  split; rewrite ?E7, ?E2, ?E3, ?E4, ?E6; eauto.
Qed.

Lemma register_ok i session challenge b b' :
  pendings b !! i = None -> Handle_register i session challenge b = Ok b' ->
  broker_ok b -> broker_ok b'.
Proof.
  unfold Handle_register. intros Hi H [He Hit Hl Hu].
  destruct (AuthChallenge_Validate challenge); [done|].
  destruct (items b !! challenge_ID challenge) eqn:Eid; [done|]. injection H as <-.
  destruct (Hu i Hi) as [Hs Hh].
  split; simpl.
  - intros j p Hj. apply lookup_insert_Some in Hj as [[<- <-]|[Hne Hj]].
    + unfold pending_sends in Hs.
      split; simpl; unfold pending_sends, in_channel; simpl; rewrite ?lookup_insert_eq; simpl;
        rewrite ?Hs; try done; try lia.
      * intros r Hr. exfalso.
        assert ((i, r) ∈ List.filter (fun s => Nat.eqb s.1 i) (sends b)) as Hin.
        { apply list_elem_of_In, filter_In. simpl. split; [by apply list_elem_of_In|].
          apply Nat.eqb_refl. }
        apply nil_length_inv in Hs. rewrite Hs in Hin. by apply elem_of_nil in Hin.
      * by intros ? r [= <-].
    + eapply entry_ok_same; [by apply He|done..|]. simpl. by rewrite lookup_insert_ne.
  - intros id j Hj. apply lookup_insert_Some in Hj as [[<- <-]|[Hne Hj]].
    + eexists _, _. rewrite !lookup_insert_eq. split_and!; try done.
    + destruct (Hit id j Hj) as (p & h & Hp & ? & Hh' & ?).
      exists p, h. rewrite !lookup_insert_ne by congruence. done.
  - intros j h Hj Hn. apply lookup_insert_Some in Hj as [[<- <-]|[Hne Hj]].
    + eexists. split; [by rewrite lookup_insert_eq|]. simpl. by rewrite lookup_insert_eq.
    + destruct (Hl j h Hj Hn) as (p & Hp & Hid). exists p. rewrite !lookup_insert_ne; try done.
      intros Heq. rewrite <-Heq in Hid. congruence.
  - intros j Hj. apply lookup_insert_None in Hj as [Hj Hne].
    destruct (Hu j Hj). by rewrite lookup_insert_ne.
Qed.

(** Changing only the program counter of a live handler, or its events. *)
Lemma put_event_ok e b : broker_ok b -> broker_ok (put_event e b).
Proof. intros [He Hit Hl Hu]. split; try done. intros i p Hp. by eapply entry_ok_same; [by apply He|..]. Qed.

Lemma emit_ok i b :
  handlers b !! i = Some HRegistered -> broker_ok b -> broker_ok (put_handler i HWaiting b).
Proof.
  intros Hi [He Hit Hl Hu]. split; simpl.
  - intros j p Hj. destruct (decide (i = j)) as [<-|Hne].
    + destruct (He i p Hj) as [H1 H2 H3 H4 H5]. unfold pending_sends in *.
      split; simpl; rewrite ?lookup_insert_eq, ?Hi in *; simpl in *; try done.
      by intros ? r [= <-].
    + eapply entry_ok_same; [by apply He|done..|]. simpl. by rewrite lookup_insert_ne.
  - intros id j Hj. destruct (Hit id j Hj) as (p & h & Hp & Hid & Hh & Hn).
    exists p. destruct (decide (i = j)) as [<-|Hne].
    + exists HWaiting. by rewrite lookup_insert_eq.
    + exists h. by rewrite lookup_insert_ne.
  - intros j h Hj Hn. apply lookup_insert_Some in Hj as [[<- <-]|[Hne Hj]]; [|eauto].
    by apply (Hl i HRegistered).
  - intros j Hj. destruct (Hu j Hj) as [Hs Hh]. split; [done|].
    rewrite lookup_insert_ne; [done|congruence].
Qed.

Lemma return_ok i h p r b :
  handlers b !! i = Some h -> (forall r', h <> HReturned r') -> pendings b !! i = Some p ->
  (forall x, r = Ok x -> h = HReceived x) ->
  broker_ok b -> broker_ok (Handle_return i p r b).
Proof.
  intros Hi Hn Hp Hr [He Hit Hl Hu]. split; simpl.
  - intros j q Hj. destruct (decide (i = j)) as [<-|Hne].
    + assert (q = p) as -> by congruence. destruct (He i p Hp) as [H1 H2 H3 H4 H5]. unfold pending_sends in *.
      split; unfold pending_sends in *; simpl; rewrite ?lookup_insert_eq; rewrite ?Hi in *; try done.
      * destruct r as [x|]; simpl; [|lia]. by rewrite (Hr x eq_refl) in H1.
      * intros Hf. specialize (H2 Hf). destruct r as [x|]; simpl; [|lia].
        by rewrite (Hr x eq_refl) in H2.
      * intros ? x [= <-] Hx. destruct r as [y|]; [|done]. simplify_eq/=.
        apply (H5 _ x eq_refl). by rewrite (Hr x eq_refl).
    + eapply entry_ok_same; [by apply He|done..|]. simpl. by rewrite lookup_insert_ne.
  - intros id j Hj. apply lookup_delete_Some in Hj as [Hne Hj].
    destruct (Hit id j Hj) as (q & h' & Hq & Hid & Hh & Hn').
    exists q, h'. rewrite lookup_insert_ne; [done|]. intros <-. simplify_eq.
  - intros j h' Hj Hn'. apply lookup_insert_Some in Hj as [[<- <-]|[Hne Hj]]; [by destruct (Hn' r)|].
    destruct (Hl j h' Hj Hn') as (q & Hq & Hid). exists q. split; [done|].
    rewrite lookup_delete_ne; [done|]. intros Heq.
    destruct (Hl i h Hi Hn) as (p' & Hp' & Hid'). simplify_eq. rewrite Heq in Hid'. congruence.
  - intros j Hj. destruct (Hu j Hj) as [Hs Hh]. split; [done|].
    rewrite lookup_insert_ne; [done|congruence].
Qed.

Lemma receive_ok i p r b :
  handlers b !! i = Some HWaiting -> pendings b !! i = Some p -> pa_response p = Some r ->
  broker_ok b -> broker_ok (put_handler i (HReceived r) (put_pending i (set_response None p) b)).
Proof.
  intros Hi Hp Hr [He Hit Hl Hu]. split; simpl.
  - intros j q Hj. apply lookup_insert_Some in Hj as [[<- <-]|[Hne Hj]].
    + destruct (He i p Hp) as [H1 H2 H3 H4 H5].
      unfold pending_sends, in_channel, valid_response in *. rewrite Hi, Hr in *. simpl in *.
      split; unfold pending_sends, in_channel, valid_response in *; simpl;
        rewrite ?lookup_insert_eq; simpl; try done; [lia|intros Hf; specialize (H2 Hf); lia|].
      intros ? x [= <-] [= <-]. by apply H4.
    + eapply entry_ok_same; [by apply He|done..|]. simpl. by rewrite lookup_insert_ne.
  - intros id j Hj. destruct (Hit id j Hj) as (q & h & Hq & Hid & Hh & Hn).
    destruct (decide (i = j)) as [<-|Hne].
    + simplify_eq. eexists _, _. rewrite !lookup_insert_eq. by split_and!.
    + exists q, h. by rewrite !lookup_insert_ne.
  - intros j h Hj Hn. apply lookup_insert_Some in Hj as [[<- <-]|[Hne Hj]].
    + destruct (Hl i HWaiting Hi) as (q & Hq & Hid); [done|]. simplify_eq.
      eexists. by rewrite lookup_insert_eq.
    + destruct (Hl j h Hj Hn) as (q & Hq & Hid). exists q. by rewrite lookup_insert_ne.
  - intros j Hj. apply lookup_insert_None in Hj as [Hj Hne].
    destruct (Hu j Hj). by rewrite lookup_insert_ne.
Qed.

(** A pending entry changes, and with it the responses under way to it alone. *)
Lemma send_side_ok i p p' l b :
  pendings b !! i = Some p -> pa_challenge p' = pa_challenge p ->
  (forall j, j <> i -> count_sends j l = count_sends j (sends b)) ->
  (forall x, x ∈ l -> x ∈ sends b \/ x.1 = i) ->
  entry_ok (put_sends l (put_pending i p' b)) i p' ->
  broker_ok b -> broker_ok (put_sends l (put_pending i p' b)).
Proof.
  intros Hp Hc Hcount Hin Hok [He Hit Hl Hu]. split; simpl.
  - intros j q Hj. apply lookup_insert_Some in Hj as [[<- <-]|[Hne Hj]]; [done|].
    eapply entry_ok_same; [by apply He|done..|apply Hcount; congruence| |done].
    intros r Hr. destruct (Hin _ Hr) as [?|?]; [done|simpl in *; congruence].
  - intros id j Hj. destruct (Hit id j Hj) as (q & h & Hq & Hid & Hh & Hn).
    destruct (decide (i = j)) as [<-|Hne].
    + simplify_eq. exists p', h. by rewrite lookup_insert_eq, Hc.
    + exists q, h. by rewrite lookup_insert_ne.
  - intros j h Hj Hn. destruct (Hl j h Hj Hn) as (q & Hq & Hid).
    destruct (decide (i = j)) as [<-|Hne].
    + simplify_eq. exists p'. by rewrite lookup_insert_eq, Hc.
    + exists q. by rewrite lookup_insert_ne.
  - intros j Hj. apply lookup_insert_None in Hj as [Hj Hne]. destruct (Hu j Hj) as [Hs Hh].
    split; [|done]. rewrite <-Hs. apply Hcount. congruence.
Qed.

Lemma accept_ok response i b b' :
  respond response b = Ok (i, b') -> broker_ok b -> broker_ok b'.
Proof.
  unfold respond. intros H Hb. destruct (items b !! _) as [j|] eqn:Eid; [|done].
  destruct (pendings b !! j) as [p|] eqn:Ep; [|done].
  destruct (pa_responded p) eqn:Er; [done|].
  destruct (AuthResponse_Validate response (pa_challenge p)) eqn:Ev; [done|].
  injection H as -> <-. destruct (broker_entries _ Hb i p Ep) as [H1 H2 H3 H4 H5].
  specialize (H2 Er).
  apply (send_side_ok i p); [done|done|..|done].
  - intros j Hj. rewrite count_sends_cons, decide_False by congruence. done.
  - intros x [->|Hx]%elem_of_cons; auto.
  - split; simpl; try done.
    + change (count_sends i ((i, response) :: sends b) + in_channel p + in_hand (handlers b !! i) <= 1)%nat.
      change (count_sends i (sends b) + in_channel p + in_hand (handlers b !! i) = 0)%nat in H2.
      rewrite count_sends_cons, decide_True by done. lia.
    + intros r [[= ->]|Hr]%elem_of_cons; [done|by apply H3].
Qed.

Lemma send_ok i r p l1 l2 b :
  sends b = l1 ++ (i, r) :: l2 -> pendings b !! i = Some p -> pa_response p = None ->
  broker_ok b -> broker_ok (put_sends (l1 ++ l2) (put_pending i (set_response (Some r) p) b)).
Proof.
  intros Hs Hp Hr Hb. destruct (broker_entries _ Hb i p Hp) as [H1 H2 H3 H4 H5].
  unfold pending_sends, in_channel in *. fold (count_sends i (sends b)) in *.
  rewrite Hs, Hr, count_sends_remove, decide_True in H1, H2 by done. simpl in H1, H2.
  apply (send_side_ok i p); [done|done|..|done].
  - intros j Hj. rewrite Hs, count_sends_remove, decide_False by congruence. done.
  - intros x Hx. left. rewrite Hs. by apply in_app_cons.
  - split; simpl; unfold pending_sends, in_channel; simpl; fold (count_sends i (l1 ++ l2));
      try done.
    + lia.
    + intros Hf. specialize (H2 Hf). lia.
    + intros x Hx. apply H3. rewrite Hs. by apply in_app_cons.
    + intros x [= <-]. apply H3. rewrite Hs. apply elem_of_app. right. left.
Qed.

Lemma cancel_ok i r l1 l2 b :
  sends b = l1 ++ (i, r) :: l2 -> broker_ok b ->
  broker_ok (respond_canceled i r (put_sends (l1 ++ l2) b)).
Proof.
  intros Hs Hb. unfold respond_canceled. simpl.
  destruct (pendings b !! i) as [p|] eqn:Hp.
  2:{ destruct (broker_unknown _ Hb i Hp) as [Hz _].
      change (count_sends i (sends b) = 0%nat) in Hz.
      rewrite Hs, count_sends_remove, decide_True in Hz by done. lia. }
  destruct (broker_entries _ Hb i p Hp) as [H1 H2 H3 H4 H5].
  change (pending_sends i b) with (count_sends i (sends b)) in *.
  rewrite Hs, count_sends_remove, decide_True in H1, H2 by done.
  assert (forall p', pa_challenge p' = pa_challenge p -> pa_response p' = pa_response p ->
            broker_ok (put_sends (l1 ++ l2) (put_pending i p' b))) as Hall.
  { intros p' Ec Er. apply (send_side_ok i p); [done|done|..|done].
    - intros j Hj. rewrite Hs, count_sends_remove, decide_False by congruence. done.
    - intros x Hx. left. rewrite Hs. by apply in_app_cons.
    - split; simpl; unfold pending_sends, in_channel, valid_response; simpl;
        rewrite ?Ec, ?Er; fold (count_sends i (l1 ++ l2)); try done.
      + unfold in_channel in H1. lia.
      + intros _. unfold in_channel in H1. lia.
      + intros x Hx. apply H3. rewrite Hs. by apply in_app_cons. }
  case_bool_decide; [by apply (Hall (set_responded false p))|].
  pose proof (Hall p eq_refl eq_refl) as Hok.
  replace (put_sends (l1 ++ l2) (put_pending i p b)) with (put_sends (l1 ++ l2) b) in Hok; [done|].
  unfold put_sends, put_pending. simpl. by rewrite insert_id.
Qed.

Lemma auth_step_ok b b' : auth_step b b' -> broker_ok b -> broker_ok b'.
Proof.
  destruct 1; intros Hb.
  - by eapply register_ok.
  - by apply put_event_ok, emit_ok.
  - by eapply return_ok.
  - by apply receive_ok.
  - apply put_event_ok. eapply return_ok; [done|done|done| |done]. by intros x [= ->].
  - by eapply accept_ok.
  - by apply send_ok.
  - by apply cancel_ok.
  - destruct Hb as [He Hit Hl Hu]. split; try done. intros i p Hp.
    by eapply entry_ok_same; [by apply He|..].
Qed.

Lemma reachable_broker_ok b : rtc auth_step newAuthBroker b -> broker_ok b.
Proof.
  intros H. eapply (rtc_closed auth_step); [|apply newAuthBroker_ok|exact H].
  intros x y Hx Hxy. by eapply auth_step_ok.
Qed.

Lemma AuthResponse_Validate_names r c :
  AuthResponse_Validate r c = None -> response_ChallengeID r = challenge_ID c.
Proof.
  unfold AuthResponse_Validate. destruct (AuthChallenge_Validate c); [done|].
  by case_bool_decide.
Qed.

(** ** Theorem *)

(** C5: However handlers and responders interleave, with cancellations at any time: a
    challenge is answered at most once, and only with a response that [AuthResponse.Validate]
    accepts for that very challenge. A responder whose response was accepted finds the
    channel empty, so sending never blocks. While a challenge waits it is the one
    registered under its identifier, and once its handler has returned nothing is registered
    for it. *)
Theorem auth_response_once (b : authBroker) :
  rtc auth_step newAuthBroker b ->
  (forall i p, pendings b !! i = Some p ->
     (pending_sends i b + in_channel p + in_hand (handlers b !! i) <= 1)%nat) /\
  (forall i r, handlers b !! i = Some (HReturned (Ok r)) ->
     exists p, pendings b !! i = Some p /\ valid_response p r /\
       response_ChallengeID r = challenge_ID (pa_challenge p)) /\
  (forall i r, (i, r) ∈ sends b ->
     exists p, pendings b !! i = Some p /\ pa_response p = None /\ valid_response p r) /\
  (forall i h, handlers b !! i = Some h ->
     ((forall r, h <> HReturned r) <-> exists id, items b !! id = Some i)).
Proof.
  intros Hreach. destruct (reachable_broker_ok _ Hreach) as [He Hit Hl Hu].
  assert (forall i r, (i, r) ∈ sends b -> (1 <= pending_sends i b)%nat) as Hcount.
  { intros i r (l1 & l2 & Hs)%list_elem_of_split. change (1 <= count_sends i (sends b))%nat.
    rewrite Hs, count_sends_remove, decide_True by done. lia. }
  split_and!.
  - intros i p Hp. apply (He i p Hp).
  - intros i r Hr. destruct (pendings b !! i) as [p|] eqn:Hp.
    2:{ destruct (Hu i Hp). congruence. }
    assert (valid_response p r) as Hv by by eapply (entry_received _ _ _ (He i p Hp)).
    exists p. split_and!; [done|done|]. apply AuthResponse_Validate_names in Hv. done.
  - intros i r Hin. pose proof (Hcount i r Hin) as Hc. destruct (pendings b !! i) as [p|] eqn:Hp.
    2:{ destruct (Hu i Hp). lia. }
    exists p. pose proof (entry_once _ _ _ (He i p Hp)) as H1. split_and!; [done| |].
    + unfold in_channel in H1. destruct (pa_response p); [lia|done].
    + by apply (entry_sent _ _ _ (He i p Hp)).
  - intros i h Hh. split.
    + intros Hn. destruct (Hl i h Hh Hn) as (p & _ & ?). eauto.
    + intros [id Hid]. destruct (Hit id i Hid) as (p & h' & _ & _ & Hh' & Hn). by simplify_eq.
Qed.

Definition demo_challenge : AuthChallenge :=
  {| challenge_ID := "c1"; challenge_Kind := AuthChallengeSMS; challenge_Prompt := "";
     challenge_URL := ""; challenge_Image := []; challenge_AllowSkip := false;
     challenge_Choices := [] |}.

Definition demo_response : AuthResponse :=
  {| response_ChallengeID := "c1"; response_Value := "1234"; response_Skip := false;
     response_ChoiceID := "" |}.

Lemma auth_response_once_witness :
  exists b, rtc auth_step newAuthBroker b /\
    handlers b !! 0%nat = Some (HReturned (Ok demo_response)) /\ items b = ∅ /\
    exists p, pendings b !! 0%nat = Some p /\ valid_response p demo_response.
Proof.
  assert (exists b, rtc auth_step newAuthBroker b /\
            handlers b !! 0%nat = Some (HReturned (Ok demo_response)) /\ items b = ∅)
    as (b & Hr & Hh & Hi).
  { eexists. split.
    { eapply rtc_l; [by eapply (handle_register 0 "s" demo_challenge)|].
      eapply rtc_l; [eapply (handle_emit 0 0); [done|done|vm_compute; lia]|].
      eapply rtc_l; [by eapply (respond_accept demo_response 0)|].
      eapply rtc_l; [by eapply (respond_send 0 demo_response _ [] [])|].
      eapply rtc_l; [by eapply (handle_receive 0)|].
      eapply rtc_l; [eapply (handle_complete 0 0); [done|done|vm_compute; lia]|].
      apply rtc_refl. }
    split; by vm_compute. }
  exists b. destruct (auth_response_once b Hr) as (_ & H & _).
  destruct (H _ _ Hh) as (p & ? & ? & _). eauto 10.
Defined.
