(* ===== verification/ClientRun.v ===== *)
(** A set-up inside the program: the stages that the client announces drive the session
    (atrustruntime/session.go), and what the client is then asked for by the session
    (atrustruntime/resources.go) and by the network runtime (networkruntime/runtime.go). *)

From S2P Require Import Prelude Core GoNet Packet L3Codec Dial Nodes L3Link ClientResource AuthLogin ClientSetup NetRuntime Session SessionSteps SessionInv.

(** ** [snapshotResources] *)

(** What a getter answers; an absent resource leaves the entry as it is. *)
Definition optional_entry {A B} (r : result error A) (absent : B) (f : A -> B) : result error B :=
  match r with
  | Ok a => Ok (f a)
  | Err e => if errors_Is e "client.ErrResourceNotFound" then Ok absent else Err e
  end.

Definition ip_resource_info (entry : IPResource) : IPResourceInfo :=
  {| ri_IPMin := IP_String (IPMin entry); ri_IPMax := IP_String (IPMax entry);
     ri_PortMin := PortMin entry; ri_PortMax := PortMax entry; ri_Protocol := ResProtocol entry;
     ri_AppID := AppID entry; ri_NodeGroupID := NodeGroupID entry |}.

Definition domain_resource_info (entry : DomainResource) : DomainResourceInfo :=
  {| rd_PortMin := dr_PortMin entry; rd_PortMax := dr_PortMax entry; rd_Protocol := dr_Protocol entry;
     rd_AppID := dr_AppID entry; rd_NodeGroupID := dr_NodeGroupID entry |}.

Definition snapshotResources (c : Client) : result error Resources :=
  let? clientIP := optional_entry (client_IP c) ""%string IP_String in
  let? ipResources := optional_entry (client_IPResources c) [] (map ip_resource_info) in
  let? domainResources := optional_entry (client_DomainResources c) ∅ (fmap domain_resource_info) in
  let? dnsRecords := optional_entry (client_DNSResource c) ∅ (fmap IP_String) in
  let? dnsServer := optional_entry (client_DNSServer c) ""%string id in
  Ok {| res_Stale := false; res_ClientIP := clientIP; res_IPResources := Some ipResources;
        res_DomainResources := Some domainResources; res_DNSRecords := Some dnsRecords;
        res_DNSServer := dnsServer |}.

(** ** The stages *)

Lemma stages_of_announcements l : omap stage_of l = omap stage_of (announcements l).
Proof.
  induction l as [|e l IH]; [done|]. unfold announcements in *.
  destruct e; cbn [List.filter is_announcement]; csimpl; by rewrite <-?IH.
Qed.

Lemma omap_prefix {A B} (f : A -> option B) l1 l2 : l1 `prefix_of` l2 -> omap f l1 `prefix_of` omap f l2.
Proof. intros [l ->]. rewrite omap_app. by eexists. Qed.

Lemma stages_of_all best : omap stage_of (all_announcements best) = setup_stages.
Proof. reflexivity. Qed.

Lemma handleSetupStage_next now stage state s :
  setupStageState stage = Some state -> CanTransitionSessionState (ss_state s) state = true ->
  ss_state (handleSetupStage now stage s) = state /\
  ss_stageErr (handleSetupStage now stage s) = ss_stageErr s.
Proof.
  intros Hst Hcan. unfold handleSetupStage, transition, ValidateSessionStateTransition.
  rewrite Hst, Hcan. done.
Qed.

Definition run_stages (now : Z) (stages : list string) (s : Session) : Session :=
  fold_left (fun s stage => handleSetupStage now stage s) stages s.

(** Stages that are reported in order are all taken. *)
Lemma run_stages_in_order now stages k s :
  stages `prefix_of` drop k setup_stages -> (k <= 5)%nat -> ss_state s = nth k stage_states ""%string ->
  let s' := run_stages now stages s in
  ss_state s' = nth (k + length stages) stage_states ""%string /\ ss_stageErr s' = ss_stageErr s.
Proof.
  revert k s. induction stages as [|stage stages IH]; intros k s Hp Hk Hs.
  { cbn. by rewrite Nat.add_0_r. }
  destruct Hp as [l Hl]. simpl in Hl.
  assert (setup_stages !! k = Some stage) as Hstage.
  { rewrite <-(Nat.add_0_r k), <-lookup_drop, Hl. done. }
  destruct (stage_transition k stage Hstage) as (state & Hst & Hnth & Hlt & _ & _ & _ & Hcan).
  rewrite <-Hs in Hcan. destruct (handleSetupStage_next now stage state s Hst Hcan) as [H1 H2].
  change (run_stages now (stage :: stages) s) with (run_stages now stages (handleSetupStage now stage s)).
  destruct (IH (S k) (handleSetupStage now stage s)) as [H3 H4]; [|lia|by rewrite H1|].
  - exists l. rewrite <-(Nat.add_1_r k), <-drop_drop, Hl. done.
  - cbv zeta. rewrite H3, H4, H2. split; [|done]. f_equal. simpl. lia.
Qed.

Lemma getIP_address dial best major others ip :
  getIP dial best major others = Some (Ok ip) -> exists a b c d, ip = IPv4 a b c d.
Proof.
  unfold getIP. destruct (getIP_node _ _ _) as [node|]; [|done]. destruct (dial node) as [s|]; [|done].
  generalize (S (length s)). intros fuel. revert s.
  induction fuel as [|fuel IH]; intros s; [done|]. cbn [getIP_loop].
  destruct (ReadFull 2 s) as [[header rest]|]; [|done]. destruct (_ && _).
  - destruct (read_block rest) as [[data rest']|]; [|done]. destruct (Contains _ _); [apply IH|done].
  - destruct (_ && _); [|apply IH]. destruct (ReadFull 6 rest) as [[data rest']|]; [|done].
    simpl. destruct (_ || _); [done|]. intros [= <-]. by repeat eexists.
Qed.

(** C14: A set-up and the session around it. Whatever happens in a set-up, the stages it announces
    take an idle session through its states without a forbidden transition, up to establishing
    the tunnel when it succeeds; then the client has an IPv4 address, and its resources are
    snapshot exactly: every range, domain and record with the texts of its addresses. If the
    resource document names no DNS server, though, the error of the client is not the one that
    its callers take for an absent resource: the snapshot fails, and so does building a backend
    that asks the client for its DNS server, so the fallback to no remote DNS is never taken. *)
Theorem setup_drives_session {W : Type} (aw : AuthWorld W) (js : AuthJSON)
    (parse_url : string -> result error URL) (sw : SetupWorld W)
    (range_groups : gmap string (list string) -> list (string * list string))
    (range_nodes : gmap string string -> list (string * string)) (panic : error)
    (config : SetupConfig) (authData : option (list Z)) (resourceData : option string)
    (s s' : SetupState W) (r : result error (option (list Z))) (now : Z) (session : Session)
    (Hrun : SetupContext aw js parse_url sw range_groups range_nodes panic config authData resourceData s
            = (r, s'))
    (Hidle : ss_state session = SessionStateIdle) (Hclean : ss_stageErr session = None) :
  let c := ss_client s' in
  exists new, ss_log s' = ss_log s ++ new /\
    let stages := omap stage_of new in
    let session' := run_stages now stages session in
    stages `prefix_of` setup_stages /\
    ss_state session' = nth (length stages) stage_states ""%string /\ ss_stageErr session' = None /\
    match r with
    | Err _ => True
    | Ok _ =>
        ss_state session' = SessionStateEstablishingTunnel /\
        exists a1 a2 a3 a4 found, client_IP c = Ok [a1; a2; a3; a4] /\ pc_resources (c_parsed c) = Some found /\
          let server := pc_dnsServer (c_parsed c) in
          if is_empty server then
            snapshotResources c = Err (EText "DNS server not available") /\
            forall net, nc_DisableRemoteDNS net = false -> nc_RemoteDNSServer net ∈ [""; "auto"]%string ->
              choose_remote_dns net (client_DNSServer c) = Err (EText "DNS server not available")
          else
            snapshotResources c =
              Ok {| res_Stale := false; res_ClientIP := dotted [a1; a2; a3; a4];
                    res_IPResources := Some (map ip_resource_info (cl_ipResources found));
                    res_DomainResources := Some (domain_resource_info <$> cl_domainResources found);
                    res_DNSRecords := Some (IP_String <$> cl_dnsResource found);
                    res_DNSServer := server |} /\
            forall net, nc_DisableRemoteDNS net = false -> nc_RemoteDNSServer net ∈ [""; "auto"]%string ->
              choose_remote_dns net (client_DNSServer c) = Ok (true, server)
    end.
Proof.
  destruct (runs_SetupContext aw js parse_url sw range_groups range_nodes panic config authData resourceData
    (ss_client s) s eq_refl) as (new & Hlog & _ & _ & Hset). rewrite Hrun in *. simpl in Hlog, Hset.
  intros c. exists new. split; [done|]. intros stages session'.
  assert (stages `prefix_of` setup_stages) as Hp.
  { unfold stages. rewrite stages_of_announcements. rewrite <-(stages_of_all (c_BestNodes c)).
    apply omap_prefix. destruct r; [destruct Hset as [-> _]; done|apply Hset]. }
  destruct (run_stages_in_order now stages 0 session) as [Hstate Hstage]; [done|lia|by rewrite Hidle|].
  split; [done|]. split; [exact Hstate|]. split; [by unfold session'; rewrite Hstage|].
  destruct r as [data|e]; [|done]. destruct Hset as (Hann & _ & _ & [found Hfound] & (w & ip & Hip & _ & Haddr) & _).
  split.
  { unfold session'. rewrite Hstate. unfold stages. rewrite stages_of_announcements, Hann. done. }
  destruct (getIP_address _ _ _ _ _ Haddr) as (a1 & a2 & a3 & a4 & ->).
  exists a1, a2, a3, a4, found. fold c in Hip, Hfound.
  assert (client_IP c = Ok [a1; a2; a3; a4]) as HIP by (unfold client_IP; by rewrite Hip).
  split; [done|]. split; [done|]. intros server.
  unfold snapshotResources, client_IPResources, client_DomainResources, client_DNSResource, client_DNSServer,
    choose_remote_dns.
  rewrite HIP, Hfound. fold server. destruct (is_empty server) eqn:Hempty; simpl.
  - split; [done|]. intros net -> Hin.
    destruct (is_empty _ || _) eqn:E; [done|]. exfalso.
    apply orb_false_iff in E as [E1%is_empty_false E2%bool_decide_eq_false]. set_solver.
  - split; [done|]. intros net -> Hin.
    destruct (is_empty _ || _) eqn:E; [done|]. exfalso.
    apply orb_false_iff in E as [E1%is_empty_false E2%bool_decide_eq_false]. set_solver.
Qed.

(** ** Witness *)

Definition idle_session : Session :=
  newSession "s" {| scfg_ResumeState := None; scfg_ClientDataFile := ""; scfg_DisableAutoReconnect := false |}.

Lemma setup_drives_session_witness :
  exists s', SetupContext demo_auth demo_json (fun _ => Err (EText "no URL")) demo_setup map_to_list map_to_list
      (EText "panic") demo_config None None (fresh_state (newClient "" "" "" "")) = (Ok (Some [1]), s') /\
    exists new, ss_log s' = new /\
      ss_state (run_stages 0 (omap stage_of new) idle_session) = SessionStateEstablishingTunnel.
Proof.
  destruct demo_first_runs as (s1 & E & _). exists s1. split; [exact E|].
  destruct (setup_drives_session demo_auth demo_json (fun _ => Err (EText "no URL")) demo_setup map_to_list
    map_to_list (EText "panic") demo_config None None _ s1 (Ok (Some [1])) 0 idle_session E eq_refl eq_refl)
    as (new & Hlog & _ & _ & _ & Hstate & _).
  exists new. split; [exact Hlog|exact Hstate].
Defined.
