(* ===== verification/Manager.v ===== *)
(** The session manager (manager/manager.go): one process-wide active session, its
    replacement, and the event queue that keeps room for authentication events.

    Sessions are behind the interface [SessionOps]; several managers share one coordinator. *)

From S2P Require Import Prelude Core AuthBroker.

Definition ProtocolATrust : string := "atrust".

(** ** State *)

(** [sessionCoordinator.active] and, per manager, [current] and [nextID]; sessions are
    numbers. [live] are the sessions that were started and whose clean-up has not run to its
    end: it is not in the code. *)
Record Manager : Type := {
  current : option nat;
  nextID : Z;
}.

Record World : Type := {
  active : option nat;
  ids : gmap nat SessionID;
  live : gset nat;
}.

Definition newManager : Manager := {| current := None; nextID := 0 |}.

Definition newWorld : World := {| active := None; ids := ∅; live := ∅ |}.

(** What [Session.Close] reports: the clean-up ended, with or without an error, or the
    context ended first. *)
Inductive CloseResult : Type :=
| CloseDone (err : option error)
| CloseInterrupted (err : error).

Definition close_error (c : CloseResult) : option error :=
  match c with CloseDone err => err | CloseInterrupted err => Some err end.

(** The answers of one session to one operation of the manager. *)
Record SessionAnswers : Type := {
  ans_Close : CloseResult;
  ans_WaitClosed : option error;
  ans_Start : option error;
}.

Definition settle (n : nat) (w : World) : World :=
  {| active := active w; ids := ids w; live := live w ∖ {[n]} |}.

Definition clearActive (n : nat) (w : World) : World :=
  {| active := if bool_decide (active w = Some n) then None else active w; ids := ids w;
     live := live w |}.

Definition setActive (n : nat) (w : World) : World :=
  {| active := Some n; ids := ids w; live := live w |}.

(** [session.Close(ctx)] and what it does to the session. *)
Definition session_Close (n : nat) (c : CloseResult) (w : World) : option error * World :=
  (close_error c, match c with CloseDone _ => settle n w | CloseInterrupted _ => w end).

(** [session.WaitClosed(ctx)]: a nil error means that everything is closed. *)
Definition session_WaitClosed (n : nat) (e : option error) (w : World) : option error * World :=
  (e, match e with None => settle n w | Some _ => w end).

(** ** Operations *)

Definition closeActive (a : SessionAnswers) (w : World) : option error * World :=
  match active w with
  | None => (None, w)
  | Some n =>
      let '(err, w) := session_Close n (ans_Close a) w in
      match err with
      | None => (None, clearActive n w)
      | Some e =>
          let '(waitErr, w) := session_WaitClosed n (ans_WaitClosed a) w in
          match waitErr with
          | Some _ => (Some e, w)
          | None => (None, clearActive n w)
          end
      end
  end.

(** [factory] is the registered constructor of a protocol, [ctxErr] is [ctx.Err()] after the
    active session was closed, [fresh] names the new session. The last [Close] has no
    deadline, so it runs to its end. *)
Definition manager_Start (factory : string -> option (result error (option unit)))
    (config : CoreConfig) (ctxErr : option error) (old new : SessionAnswers) (fresh : nat)
    (closeErr : option error) (m : Manager) (w : World)
    : SessionID * option error * Manager * World :=
  let '(err, w) := closeActive old w in
  match err with
  | Some e => (""%string, Some e, m, w)
  | None =>
  match ctxErr with
  | Some e => (""%string, Some e, m, w)
  | None =>
      let '(id, m) :=
        if is_empty (cc_SessionID config)
        then let next := (nextID m + 1) mod 2 ^ 64 in
             ("session-" +:+ itoa next, {| current := current m; nextID := next |})
        else (cc_SessionID config, m) in
      let protocol := if is_empty (cc_Protocol config) then ProtocolATrust
                      else cc_Protocol config in
      match factory protocol with
      | None =>
          (""%string, Some (WrapError ErrorCodeConfigInvalid
             ("unsupported protocol " +:+ quote protocol) false None), m, w)
      | Some (Err e) => (""%string, Some e, m, w)
      | Some (Ok None) =>
          (""%string, Some (WrapError ErrorCodeSessionStartFailed
             ("protocol " +:+ quote protocol +:+ " returned no session") false None), m, w)
      | Some (Ok (Some _)) =>
          let w := setActive fresh {| active := active w; ids := <[fresh := id]> (ids w);
                                      live := {[fresh]} ∪ live w |} in
          let m := {| current := Some fresh; nextID := nextID m |} in
          match ans_Start new with
          | Some e =>
              let '(_, w) := session_Close fresh (CloseDone closeErr) w in
              (id, Some e, m, clearActive fresh w)
          | None => (id, None, m, w)
          end
      end
  end end.

Definition manager_Stop (id : SessionID) (a : SessionAnswers) (w : World) : option error * World :=
  match active w with
  | None => (None, w)
  | Some n =>
      if negb (bool_decide (ids w !! n = Some id)) then (None, w)
      else
        let '(err, w) := session_Close n (ans_Close a) w in
        match err with
        | None => (None, clearActive n w)
        | Some e =>
            let '(waitErr, w) := session_WaitClosed n (ans_WaitClosed a) w in
            match waitErr with
            | Some _ => (Some e, w)
            | None => (Some e, clearActive n w)
            end
        end
  end.

Definition manager_Close (a : SessionAnswers) (w : World) : option error * World :=
  closeActive a w.

(** [manager.session]: the session that a query is for. *)
Definition manager_session (id : SessionID) (m : Manager) (w : World) : result error nat :=
  let notFound := WrapError ErrorCodeSessionNotFound "session not found" false None in
  match current m with
  | None => Err notFound
  | Some n => if bool_decide (ids w !! n = Some id) then Ok n else Err notFound
  end.

(** *** The event queue *)

(** [emitSessionEvent]: dropped when only the reserve is left. *)
Definition emitSessionEvent (e : Event) (queue : list Event) : list Event :=
  if bool_decide (Z.of_nat (length queue) >=
                  Z.of_nat managerEventBuffer - Z.of_nat managerAuthEventReserve) then queue
  else queue ++ [e].

(** [forwardSessionEvents]: what one forwarder passes on, up to the shutdown report. *)
Fixpoint forwardSessionEvents (events : list Event) (queue : list Event) : list Event :=
  match events with
  | [] => queue
  | e :: rest =>
      let queue := emitSessionEvent e queue in
      if bool_decide (event_Type e = EventTypeShutdownCompleted) then queue
      else forwardSessionEvents rest queue
  end.

(** *** [toRuntimeConfig], the fields it computes *)

Record RuntimeInterfaces : Type := {
  ri_AutoDetectInterface : bool;
  ri_TUNOutboundInterface : string;
  ri_BindInterface : string;
}.

Definition toRuntimeConfig_interfaces (config : CoreConfig) : RuntimeInterfaces :=
  let auto := cc_TUNEnabled config && cc_TUNAutoRoute config in
  {| ri_AutoDetectInterface :=
       if auto && cc_TUNRouteAll config && is_empty (cc_BindInterface config) then true
       else cc_AutoDetectInterface config;
     ri_TUNOutboundInterface :=
       if auto && is_empty (cc_TUNOutboundInterface config) then cc_BindInterface config
       else cc_TUNOutboundInterface config;
     ri_BindInterface := cc_BindInterface config |}.

(** ** One active session *)

(** A world with the managers that share its coordinator; [operationMu] makes the operations
    of all managers sequential. *)
Inductive manager_step : World * gmap nat Manager -> World * gmap nat Manager -> Prop :=
| start_step k factory config ctxErr old new fresh closeErr w ms m id err m' w' :
    ms !! k = Some m -> ids w !! fresh = None ->
    manager_Start factory config ctxErr old new fresh closeErr m w = (id, err, m', w') ->
    manager_step (w, ms) (w', <[k := m']> ms)
| stop_step id a w ms err w' :
    manager_Stop id a w = (err, w') -> manager_step (w, ms) (w', ms)
| close_step a w ms err w' :
    manager_Close a w = (err, w') -> manager_step (w, ms) (w', ms).

Definition one_live (w : World) : Prop :=
  forall n, n ∈ live w -> active w = Some n.

Lemma closeActive_spec a w err w' :
  closeActive a w = (err, w') -> one_live w ->
  one_live w' /\ ids w' = ids w /\
  (err = None -> active w' = None /\ live w' = ∅) /\
  (is_Some err -> active w' = active w).
Proof.
  unfold closeActive, one_live. intros H Hl.
  destruct (active w) as [n|] eqn:Ea.
  2:{ injection H as <- <-. split_and!; [by rewrite Ea|done| |by intros []].
      intros _. split; [done|]. apply elem_of_equiv_empty_L. intros x Hx. by apply Hl in Hx. }
  assert (live w ⊆ {[n]}) as Hs.
  { intros x Hx. apply Hl in Hx as [= ->]. by apply elem_of_singleton. }
  destruct (ans_Close a) as [[e|]|e], (ans_WaitClosed a) as [e'|]; simpl in H;
    injection H as <- <-; simpl; rewrite ?Ea; simpl;
    (split_and!; [|done|try done|by try intros [? [=]]]);
    rewrite ?bool_decide_eq_true_2 by done;
    try (intros _; split; [done|set_solver]); set_solver.
Qed.

Lemma manager_Start_spec factory config ctxErr old new fresh closeErr m w id err m' w' :
  manager_Start factory config ctxErr old new fresh closeErr m w = (id, err, m', w') ->
  one_live w -> ids w !! fresh = None ->
  one_live w' /\
  (err = None -> active w' = Some fresh /\ live w' = {[fresh]} /\ ids w' !! fresh = Some id /\
     current m' = Some fresh) /\
  (is_Some err -> live w' = ∅ \/ (active w' = active w /\ id = ""%string)).
Proof.
  unfold manager_Start. intros H Hl Hf.
  destruct (closeActive old w) as [e w1] eqn:Hc.
  destruct (closeActive_spec _ _ _ _ Hc Hl) as (Hl1 & Hids & Hnone & Hsome).
  destruct e as [e|]; [injection H as <- <- <- <-; split_and!; [done|done|auto]|].
  destruct (Hnone eq_refl) as [Ha Hlive].
  destruct ctxErr as [e|]; [injection H as <- <- <- <-; split_and!; [done|done|auto]|].
  destruct (if is_empty (cc_SessionID config) then _ else _) as [id0 m0].
  destruct (factory _) as [[[u|]|e]|];
    [|injection H as <- <- <- <-; split_and!; [done|done|auto]..].
  set (w2 := setActive fresh _) in H.
  assert (live w2 = {[fresh]}) as Hl2 by (unfold w2; simpl; rewrite Hlive; set_solver).
  destruct (ans_Start new) as [e|].
  - injection H as <- <- <- <-. cbn [clearActive settle live active].
    rewrite Hl2. split_and!; [|done|].
    + intros n Hn. cbn [clearActive settle live] in Hn. rewrite Hl2 in Hn. set_solver.
    + intros _. left. set_solver.
  - injection H as <- <- <- <-. split_and!; [|intros _|by intros []].
    + intros n Hn. rewrite Hl2 in Hn. apply elem_of_singleton in Hn as ->. done.
    + split_and!; try done. simpl. by rewrite lookup_insert_eq.
Qed.

Lemma manager_step_live x y : manager_step x y -> one_live x.1 -> one_live y.1.
Proof.
  destruct 1; simpl; intros Hl.
  - by eapply manager_Start_spec.
  - unfold manager_Stop in H. destruct (active w) as [n|] eqn:Ea; [|by injection H as <- <-].
    assert (live w ⊆ {[n]}) as Hs.
    { intros y Hy. apply Hl in Hy. rewrite Ea in Hy. injection Hy as ->.
      by apply elem_of_singleton. }
    destruct (negb _); [by injection H as <- <-|].
    unfold one_live in *. rewrite Ea in Hl.
    destruct (ans_Close a) as [[e|]|e], (ans_WaitClosed a) as [e'|]; simpl in H;
      injection H as <- <-; simpl; rewrite ?Ea; simpl; try set_solver;
      rewrite ?bool_decide_eq_true_2 by done; set_solver.
  - by eapply closeActive_spec.
Qed.

(** C31: At most one session of the process runs at a time. Whatever the managers sharing
    the coordinator do, in any order and with any failures, a session whose clean-up has
    not ended is the active one. A successful [Start] leaves exactly the new session, and it is
    the one that its manager's queries find; a failed [Start] leaves nothing running, or
    leaves the active session as it was, returning no identifier. *)
Theorem single_active_session ms0 (w : World) (ms : gmap nat Manager) k factory config ctxErr old new
    fresh closeErr m id err m' w' :
  rtc manager_step (newWorld, ms0) (w, ms) ->
  ms !! k = Some m -> ids w !! fresh = None ->
  manager_Start factory config ctxErr old new fresh closeErr m w = (id, err, m', w') ->
  (forall n, n ∈ live w -> active w = Some n) /\
  (forall n, n ∈ live w' -> active w' = Some n) /\
  (err = None -> live w' = {[fresh]} /\ manager_session id m' w' = Ok fresh) /\
  (is_Some err -> live w' = ∅ \/ (active w' = active w /\ id = ""%string)).
Proof.
  intros Hr Hm Hf H.
  assert (one_live w) as Hl.
  { apply (rtc_closed manager_step (fun x => one_live x.1) (newWorld, ms0) (w, ms));
      [|by intros n Hn|done]. intros x y Hx Hxy. by eapply manager_step_live. }
  destruct (manager_Start_spec _ _ _ _ _ _ _ _ _ _ _ _ _ H Hl Hf) as (Hl' & Hok & Herr).
  split_and!; [exact Hl|exact Hl'| |exact Herr].
  intros He. destruct (Hok He) as (_ & Hlive & Hid & Hc). split; [done|].
  unfold manager_session. by rewrite Hc, bool_decide_eq_true_2.
Qed.

Definition demo_core_config : CoreConfig :=
  {| cc_Protocol := ""; cc_ResumeState := None; cc_SessionID := ""; cc_ServerAddress := "";
     cc_ServerPort := 443; cc_Username := ""; cc_Password := ""; cc_Phone := "";
     cc_LoginDomain := ""; cc_AuthType := ""; cc_GraphCodeFile := ""; cc_CASTicket := "";
     cc_OAuth2Code := ""; cc_SID := ""; cc_DeviceID := ""; cc_SignKey := "";
     cc_ClientDataFile := ""; cc_UpdateBestNodesSeconds := 0; cc_BindInterface := "";
     cc_AutoDetectInterface := false; cc_DisableAutoReconnect := false;
     cc_DisableRemoteDNS := false; cc_RemoteDNSServer := ""; cc_SecondaryDNSServer := "";
     cc_DNSTTL := 0; cc_DNSBind := ""; cc_Hosts := None; cc_SOCKSBind := "";
     cc_SOCKSUsername := ""; cc_SOCKSPassword := ""; cc_HTTPBind := ""; cc_TUNEnabled := false;
     cc_TUNName := ""; cc_TUNAddress := ""; cc_TUNMTU := 0; cc_TUNAutoRoute := false;
     cc_TUNRouteAll := false; cc_TUNOutboundInterface := ""; cc_TUNUDPTimeoutSeconds := 0;
     cc_TUNUDPMaxFlows := 0; cc_TUNDNSHijack := false; cc_TUNFakeIP := false;
     cc_TUNFakeIPRange := ""; cc_RoutingMode := "";
     cc_InternetOutbound := {| io_Type := ""; io_Address := ""; io_Username := "";
                               io_Password := "" |} |}.

Definition all_well : SessionAnswers :=
  {| ans_Close := CloseDone None; ans_WaitClosed := None; ans_Start := None |}.

Definition atrust_factory (protocol : string) : option (result error (option unit)) :=
  if bool_decide (protocol = ProtocolATrust) then Some (Ok (Some tt)) else None.

(** A second session replaces the first one, started by another manager of the process. *)
Lemma single_active_session_witness :
  exists w w' m', active w = Some 0%nat /\ live w' = {[1%nat]} /\
    manager_session "session-1" m' w' = Ok 1%nat.
Proof.
  set (ms0 := {[ 0%nat := newManager; 1%nat := newManager ]} : gmap nat Manager).
  destruct (manager_Start atrust_factory demo_core_config None all_well all_well 0 None newManager
              newWorld) as [[[id1 err1] m1] w1] eqn:H1.
  destruct (manager_Start atrust_factory demo_core_config None all_well all_well 1 None newManager
              w1) as [[[id2 err2] m2] w2] eqn:H2.
  assert (rtc manager_step (newWorld, ms0) (w1, <[0%nat := m1]> ms0)) as Hr.
  { eapply rtc_once, (start_step 0); [done|done|exact H1]. }
  assert (w1 = {| active := Some 0%nat; ids := {[0%nat := "session-1"%string]};
                  live := {[0%nat]} |}) as Hw1.
  { vm_compute in H1. injection H1 as _ _ _ <-. by vm_compute. }
  assert (err2 = None /\ id2 = "session-1"%string) as [He ->].
  { rewrite Hw1 in H2. vm_compute in H2. by injection H2 as <- <- _ _. }
  destruct (single_active_session ms0 w1 _ 1 atrust_factory demo_core_config None all_well all_well
              1 None newManager _ _ _ _ Hr eq_refl ltac:(by rewrite Hw1) H2) as (_ & _ & Hok & _).
  exists w1, w2, m2. split; [by rewrite Hw1|]. exact (Hok He).
Defined.

(** ** Room for authentication events *)

(** Session events never crowd out authentication: however many of them the forwarders
    pass on, the queue never goes beyond its capacity minus the reserve because of them, so
    at least eight authentication events find room without blocking; events already queued
    stay, in order, and forwarding ends with the shutdown report. *)
Theorem session_events_leave_room (events queue : list Event) :
  let queue' := forwardSessionEvents events queue in
  queue `prefix_of` queue' /\
  (length queue' <= Nat.max (length queue) (managerEventBuffer - managerAuthEventReserve))%nat /\
  (forall before e after, events = before ++ e :: after ->
     event_Type e = EventTypeShutdownCompleted ->
     queue' = forwardSessionEvents (before ++ [e]) queue).
Proof.
  revert queue. induction events as [|e events IH]; intros queue; simpl.
  - split_and!; [done|lia|]. by intros [].
  - assert (queue `prefix_of` emitSessionEvent e queue /\
            (length (emitSessionEvent e queue) <=
             Nat.max (length queue) (managerEventBuffer - managerAuthEventReserve))%nat)
      as [Hp Hl].
    { unfold emitSessionEvent. case_bool_decide as Hc; [split; [done|lia]|].
      split; [by eexists|]. rewrite length_app. simpl.
      unfold managerEventBuffer, managerAuthEventReserve in *. lia. }
    case_bool_decide as Ht.
    + split_and!; [done|done|]. intros [|b before] x after [= -> Heq] Hx; simpl;
        by rewrite bool_decide_eq_true_2.
    + destruct (IH (emitSessionEvent e queue)) as (IHp & IHl & IHs). split_and!.
      * by etransitivity.
      * etransitivity; [exact IHl|]. apply Nat.max_lub; [exact Hl|apply Nat.le_max_r].
      * intros [|b before] x after [= -> Heq] Hx; simpl; [done|].
        rewrite bool_decide_eq_false_2 by done. by eapply IHs.
Qed.
