(* ===== verification/DaemonConfig.v ===== *)
(** The daemon's configuration (daemonconfig/config.go, lifecycle.go): its data, defaults,
    validation, the session configuration derived from it, and the classification of
    changes. Decoding from YAML and JSON is left to those libraries. *)

From S2P Require Import Prelude Core GoNet.

Definition Version : Z := 1.
Definition MaxHostEntries : Z := 4096.
Definition maxNameLength : Z := 256.
Definition maxValueLength : Z := 4096.

(** [time.Second]; a [Duration] is in nanoseconds. *)
Definition Second : Z := 1000000000.

(** ** Data *)

Record LogConfig : Type := { log_Level : string; log_Output : string }.

Record RESTConfig : Type := {
  rest_Enabled : bool;
  rest_Listen : string;
  rest_Secret : string;
  rest_SecretFile : string;
}.

Record ControlConfig : Type := { stdio_Enabled : bool; control_REST : RESTConfig }.

Record DSessionConfig : Type := {
  session_ID : string;
  session_AutoStart : bool;
  session_AutoReconnect : bool;
}.

Record StateConfig : Type := { state_ResumeFile : string }.

Record ATrustConfig : Type := {
  at_Server : string;
  at_Port : Z;
  at_Username : string;
  at_Password : string;
  at_Phone : string;
  at_AuthType : string;
  at_LoginDomain : string;
  at_UpdateBestNodesInterval : Z;
}.

Record UnderlayConfig : Type := { under_Interface : string; under_AutoDetect : bool }.

Record RoutingConfig : Type := {
  routing_Mode : RoutingMode;
  routing_InternetOutbound : InternetOutboundConfig;
}.

Record DNSConfig : Type := {
  dns_RemoteEnabled : bool;
  dns_RemoteServer : string;
  dns_SecondaryServer : string;
  dns_CacheTTL : Z;
  dns_Listen : string;
  dns_Hosts : option (gmap string string);
}.

Record SOCKS5Config : Type := {
  socks_Enabled : bool;
  socks_Listen : string;
  socks_Username : string;
  socks_Password : string;
}.

Record HTTPConfig : Type := { http_Enabled : bool; http_Listen : string }.

Record TUNConfig : Type := {
  tun_Enabled : bool;
  tun_Name : string;
  tun_Address : string;
  tun_MTU : Z;
  tun_AutoRoute : bool;
  tun_RouteAll : bool;
  tun_OutboundInterface : string;
  tun_UDPIdleTimeout : Z;
  tun_UDPMaxFlows : Z;
  tun_DNSHijack : bool;
  tun_DNSFakeIP : bool;
  tun_DNSFakeIPRange : string;
}.

(** [daemonconfig.Config]; one-field wrappers ([StdioConfig], [RemoteDNSConfig], the UDP and
    DNS parts of the TUN inbound) are flattened, their JSON paths are kept in [leaves]. *)
Record DConfig : Type := {
  d_Version : Z;
  d_Log : LogConfig;
  d_Control : ControlConfig;
  d_Session : DSessionConfig;
  d_State : StateConfig;
  d_ATrust : ATrustConfig;
  d_Underlay : UnderlayConfig;
  d_Routing : RoutingConfig;
  d_DNS : DNSConfig;
  d_SOCKS5 : SOCKS5Config;
  d_HTTP : HTTPConfig;
  d_TUN : TUNConfig;
}.

Definition Default : DConfig :=
  {| d_Version := Version;
     d_Log := {| log_Level := "info"; log_Output := "stderr" |};
     d_Control := {| stdio_Enabled := false;
                     control_REST := {| rest_Enabled := false; rest_Listen := "127.0.0.1:9090";
                                        rest_Secret := ""; rest_SecretFile := "" |} |};
     d_Session := {| session_ID := "default"; session_AutoStart := true;
                     session_AutoReconnect := true |};
     d_State := {| state_ResumeFile := "" |};
     d_ATrust := {| at_Server := ""; at_Port := 443; at_Username := ""; at_Password := "";
                    at_Phone := ""; at_AuthType := "auth/psw"; at_LoginDomain := "Radius";
                    at_UpdateBestNodesInterval := 30 * Second |};
     d_Underlay := {| under_Interface := ""; under_AutoDetect := false |};
     d_Routing := {| routing_Mode := RoutingModeRule;
                     routing_InternetOutbound :=
                       {| io_Type := InternetOutboundDirect; io_Address := "";
                          io_Username := ""; io_Password := "" |} |};
     d_DNS := {| dns_RemoteEnabled := true; dns_RemoteServer := "auto";
                 dns_SecondaryServer := ""; dns_CacheTTL := 3600 * Second; dns_Listen := "";
                 dns_Hosts := Some ∅ |};
     d_SOCKS5 := {| socks_Enabled := false; socks_Listen := "127.0.0.1:1080";
                    socks_Username := ""; socks_Password := "" |};
     d_HTTP := {| http_Enabled := false; http_Listen := "127.0.0.1:1081" |};
     d_TUN := {| tun_Enabled := false; tun_Name := "ZJU-Portal"; tun_Address := "172.19.0.1/30";
                 tun_MTU := 1400; tun_AutoRoute := false; tun_RouteAll := false;
                 tun_OutboundInterface := ""; tun_UDPIdleTimeout := 60 * Second;
                 tun_UDPMaxFlows := 512; tun_DNSHijack := false; tun_DNSFakeIP := false;
                 tun_DNSFakeIPRange := "198.18.0.0/16" |} |}.

(** ** [Validate] *)

Section Validate.
(** The order in which [range] walks a map; any order. *)
Variable range_fields : list (string * string) -> list (string * string).
Variable range_hosts : gmap string string -> list (string * string).

Definition value_fields (c : DConfig) : list (string * string) := [
  ("session.id", session_ID (d_Session c));
  ("log.output", log_Output (d_Log c));
  ("control.rest.listen", rest_Listen (control_REST (d_Control c)));
  ("control.rest.secret", rest_Secret (control_REST (d_Control c)));
  ("control.rest.secret-file", rest_SecretFile (control_REST (d_Control c)));
  ("atrust.username", at_Username (d_ATrust c));
  ("atrust.password", at_Password (d_ATrust c));
  ("atrust.phone", at_Phone (d_ATrust c));
  ("atrust.auth-type", at_AuthType (d_ATrust c));
  ("atrust.login-domain", at_LoginDomain (d_ATrust c));
  ("routing.internet-outbound.address", io_Address (routing_InternetOutbound (d_Routing c)));
  ("routing.internet-outbound.username", io_Username (routing_InternetOutbound (d_Routing c)));
  ("routing.internet-outbound.password", io_Password (routing_InternetOutbound (d_Routing c)));
  ("dns.remote.server", dns_RemoteServer (d_DNS c));
  ("dns.secondary.server", dns_SecondaryServer (d_DNS c));
  ("dns.listen", dns_Listen (d_DNS c));
  ("inbounds.socks5.listen", socks_Listen (d_SOCKS5 c));
  ("inbounds.socks5.username", socks_Username (d_SOCKS5 c));
  ("inbounds.socks5.password", socks_Password (d_SOCKS5 c));
  ("inbounds.http.listen", http_Listen (d_HTTP c));
  ("inbounds.tun.address", tun_Address (d_TUN c));
  ("inbounds.tun.dns.fake-ip-range", tun_DNSFakeIPRange (d_TUN c)) ]%string.

Definition name_fields (c : DConfig) : list (string * string) := [
  ("atrust.server", at_Server (d_ATrust c));
  ("underlay.interface", under_Interface (d_Underlay c));
  ("inbounds.tun.name", tun_Name (d_TUN c));
  ("inbounds.tun.outbound-interface", tun_OutboundInterface (d_TUN c)) ]%string.

Fixpoint check_lengths (limit : Z) (fields : list (string * string)) : option error :=
  match fields with
  | [] => None
  | (name, value) :: rest =>
      if bool_decide (strlen value > limit) then
        Some (EText (name +:+ " exceeds " +:+ itoa limit +:+ " bytes"))
      else check_lengths limit rest
  end.

Fixpoint check_hosts (hosts : list (string * string)) : option error :=
  match hosts with
  | [] => None
  | (host, address) :: rest =>
      if bool_decide (strlen host > 253) || bool_decide (strlen address > 64) then
        Some (EText "dns.hosts contains oversized record")
      else if is_empty host || negb (match ParseIP address with Some _ => true | None => false end)
      then Some (EText ("dns.hosts contains invalid record " +:+ quote host +:+ "="
                        +:+ quote address))
      else check_hosts rest
  end.

Definition valid_auth_type (t : string) : bool :=
  existsb (fun x => bool_decide (x = t))
    [""; "auth/psw"; "auth/cas"; "auth/httpsOauth2"; "auth/smsCheckCode"]%string.

Definition map_size (m : option (gmap string string)) : Z :=
  match m with Some h => Z.of_nat (size h) | None => 0 end.

Definition validate_tun (t : TUNConfig) : option error :=
  if negb (tun_Enabled t) then None
  else match ParsePrefix (tun_Address t) with
  | None => Some (EText "inbounds.tun.address: invalid prefix")
  | Some _ =>
      if bool_decide (tun_MTU t = 0) then Some (EText "inbounds.tun.mtu must be positive")
      else if bool_decide (tun_UDPIdleTimeout t <= 0) then
        Some (EText "inbounds.tun.udp.idle-timeout must be positive")
      else if bool_decide (tun_UDPMaxFlows t <= 0) then
        Some (EText "inbounds.tun.udp.max-flows must be positive")
      else if tun_DNSFakeIP t && negb (tun_AutoRoute t) then
        Some (EText "inbounds.tun.dns.fake-ip requires auto-route")
      else if tun_DNSHijack t && negb (tun_AutoRoute t) then
        Some (EText "inbounds.tun.dns.hijack requires auto-route")
      else if tun_DNSFakeIP t then
        match ParsePrefix (tun_DNSFakeIPRange t) with
        | Some prefix =>
            if Is4 (pfx_addr prefix) then None
            else Some (EText "inbounds.tun.dns.fake-ip-range must be a valid IPv4 prefix")
        | None => Some (EText "inbounds.tun.dns.fake-ip-range must be a valid IPv4 prefix")
        end
      else None
  end.

Definition validate_inbounds (c : DConfig) : option error :=
  let rest := control_REST (d_Control c) in
  let socks := d_SOCKS5 c in
  let http := d_HTTP c in
  if negb (is_empty (rest_Secret rest)) && negb (is_empty (rest_SecretFile rest)) then
    Some (EText "control.rest.secret and secret-file are mutually exclusive")
  else if rest_Enabled rest && is_empty (rest_Listen rest) then
    Some (EText "control.rest.listen is required when enabled")
  else if socks_Enabled socks && is_empty (socks_Listen socks) then
    Some (EText "inbounds.socks5.listen is required when enabled")
  else if socks_Enabled socks
          && negb (Bool.eqb (is_empty (socks_Username socks)) (is_empty (socks_Password socks))) then
    Some (EText "inbounds.socks5 username and password must be configured together")
  else if http_Enabled http && is_empty (http_Listen http) then
    Some (EText "inbounds.http.listen is required when enabled")
  else if bool_decide (map_size (dns_Hosts (d_DNS c)) > MaxHostEntries) then
    Some (EText ("dns.hosts contains " +:+ itoa (map_size (dns_Hosts (d_DNS c)))
                 +:+ " entries, maximum is " +:+ itoa MaxHostEntries))
  else match check_hosts (range_hosts (default ∅ (dns_Hosts (d_DNS c)))) with
  | Some err => Some err
  | None => validate_tun (d_TUN c)
  end.

Definition Validate (c : DConfig) : option error :=
  let at_ := d_ATrust c in
  let routing := d_Routing c in
  let io := routing_InternetOutbound routing in
  if negb (bool_decide (d_Version c = Version)) then
    Some (EText ("unsupported config version " +:+ itoa (d_Version c)))
  else if is_empty (session_ID (d_Session c)) then Some (EText "session.id is required")
  else match check_lengths maxValueLength (range_fields (value_fields c)) with
  | Some err => Some err
  | None =>
  match check_lengths maxNameLength (range_fields (name_fields c)) with
  | Some err => Some err
  | None =>
  if session_AutoStart (d_Session c) && is_empty (at_Server at_) then
    Some (EText "atrust.server is required when session.auto-start is enabled")
  else if negb (bool_decide (log_Level (d_Log c) = "info"%string))
          && negb (bool_decide (log_Level (d_Log c) = "debug"%string)) then
    Some (EText ("log.level " +:+ quote (log_Level (d_Log c)) +:+ " is invalid"))
  else if bool_decide (at_Port at_ <= 0) || bool_decide (at_Port at_ > 65535) then
    Some (EText "atrust.port is invalid")
  else if bool_decide (at_UpdateBestNodesInterval at_ < 0) then
    Some (EText "atrust.update-best-nodes-interval cannot be negative")
  else if negb (valid_auth_type (at_AuthType at_)) then
    Some (EText ("atrust.auth-type " +:+ quote (at_AuthType at_) +:+ " is invalid"))
  else if bool_decide (at_AuthType at_ = "auth/smsCheckCode"%string) && is_empty (at_Phone at_) then
    Some (EText "atrust.phone is required for auth/smsCheckCode")
  else if negb (RoutingMode_Valid (routing_Mode routing)) then
    Some (EText ("routing.mode " +:+ quote (routing_Mode routing) +:+ " is invalid"))
  else if negb (InternetOutboundType_Valid (io_Type io)) then
    Some (EText ("routing.internet-outbound.type " +:+ quote (io_Type io) +:+ " is invalid"))
  else if bool_decide (io_Type io = InternetOutboundSOCKS5) && is_empty (io_Address io) then
    Some (EText "routing.internet-outbound.address is required for socks5")
  else if bool_decide (dns_CacheTTL (d_DNS c) <= 0) then
    Some (EText "dns.cache-ttl must be positive")
  else validate_inbounds c
  end end.
End Validate.

(** ** [CoreConfig] *)

Definition toCoreConfig (c : DConfig) : CoreConfig :=
  let at_ := d_ATrust c in
  let dns := d_DNS c in
  let socks := d_SOCKS5 c in
  let tun := d_TUN c in
  let on {A} (b : bool) (x zero : A) := if b then x else zero in
  {| cc_Protocol := "atrust"; cc_ResumeState := None; cc_SessionID := session_ID (d_Session c);
     cc_ServerAddress := at_Server at_; cc_ServerPort := at_Port at_;
     cc_Username := at_Username at_; cc_Password := at_Password at_; cc_Phone := at_Phone at_;
     cc_LoginDomain := at_LoginDomain at_; cc_AuthType := at_AuthType at_;
     cc_GraphCodeFile := ""; cc_CASTicket := ""; cc_OAuth2Code := ""; cc_SID := "";
     cc_DeviceID := ""; cc_SignKey := ""; cc_ClientDataFile := "";
     cc_UpdateBestNodesSeconds := at_UpdateBestNodesInterval at_ ÷ Second;
     cc_BindInterface := under_Interface (d_Underlay c);
     cc_AutoDetectInterface := under_AutoDetect (d_Underlay c);
     cc_DisableAutoReconnect := negb (session_AutoReconnect (d_Session c));
     cc_DisableRemoteDNS := negb (dns_RemoteEnabled dns);
     cc_RemoteDNSServer := dns_RemoteServer dns;
     cc_SecondaryDNSServer := dns_SecondaryServer dns;
     cc_DNSTTL := (dns_CacheTTL dns ÷ Second) mod 2 ^ 64; cc_DNSBind := dns_Listen dns;
     cc_Hosts := dns_Hosts dns;
     cc_SOCKSBind := on (socks_Enabled socks) (socks_Listen socks) ""%string;
     cc_SOCKSUsername := on (socks_Enabled socks) (socks_Username socks) ""%string;
     cc_SOCKSPassword := on (socks_Enabled socks) (socks_Password socks) ""%string;
     cc_HTTPBind := on (http_Enabled (d_HTTP c)) (http_Listen (d_HTTP c)) ""%string;
     cc_TUNEnabled := tun_Enabled tun;
     cc_TUNName := on (tun_Enabled tun) (tun_Name tun) ""%string;
     cc_TUNAddress := on (tun_Enabled tun) (tun_Address tun) ""%string;
     cc_TUNMTU := on (tun_Enabled tun) (tun_MTU tun) 0;
     cc_TUNAutoRoute := tun_Enabled tun && tun_AutoRoute tun;
     cc_TUNRouteAll := tun_Enabled tun && tun_RouteAll tun;
     cc_TUNOutboundInterface := on (tun_Enabled tun) (tun_OutboundInterface tun) ""%string;
     cc_TUNUDPTimeoutSeconds := on (tun_Enabled tun) (tun_UDPIdleTimeout tun ÷ Second) 0;
     cc_TUNUDPMaxFlows := on (tun_Enabled tun) (tun_UDPMaxFlows tun) 0;
     cc_TUNDNSHijack := tun_Enabled tun && tun_DNSHijack tun;
     cc_TUNFakeIP := tun_Enabled tun && tun_DNSFakeIP tun;
     cc_TUNFakeIPRange := on (tun_Enabled tun) (tun_DNSFakeIPRange tun) ""%string;
     cc_RoutingMode := routing_Mode (d_Routing c);
     cc_InternetOutbound := routing_InternetOutbound (d_Routing c) |}.

(** ** Changes between configurations (lifecycle.go) *)

Definition ApplyRequirement : Type := string.
Definition ApplyRequirementLive : ApplyRequirement := "live".
Definition ApplyRequirementSessionRestart : ApplyRequirement := "session_restart".
Definition ApplyRequirementCoreRestart : ApplyRequirement := "core_restart".

Record Change : Type := { change_Path : string; change_Requires : ApplyRequirement }.

Inductive Value : Type :=
| VString (s : string)
| VBool (b : bool)
| VInt (z : Z)
| VMap (m : option (gmap string string)).

#[export] Instance Value_eq_dec : EqDecision Value.
Proof. solve_decision. Defined.

(** The leaves that [collectChanges] visits by reflection: JSON paths and values, in the
    order of the struct fields. *)
Definition leaves (c : DConfig) : list (string * Value) := [
  ("version", VInt (d_Version c));
  ("log.level", VString (log_Level (d_Log c)));
  ("log.output", VString (log_Output (d_Log c)));
  ("control.stdio.enabled", VBool (stdio_Enabled (d_Control c)));
  ("control.rest.enabled", VBool (rest_Enabled (control_REST (d_Control c))));
  ("control.rest.listen", VString (rest_Listen (control_REST (d_Control c))));
  ("control.rest.secret", VString (rest_Secret (control_REST (d_Control c))));
  ("control.rest.secret-file", VString (rest_SecretFile (control_REST (d_Control c))));
  ("session.id", VString (session_ID (d_Session c)));
  ("session.auto-start", VBool (session_AutoStart (d_Session c)));
  ("session.auto-reconnect", VBool (session_AutoReconnect (d_Session c)));
  ("state.resume-file", VString (state_ResumeFile (d_State c)));
  ("atrust.server", VString (at_Server (d_ATrust c)));
  ("atrust.port", VInt (at_Port (d_ATrust c)));
  ("atrust.username", VString (at_Username (d_ATrust c)));
  ("atrust.password", VString (at_Password (d_ATrust c)));
  ("atrust.phone", VString (at_Phone (d_ATrust c)));
  ("atrust.auth-type", VString (at_AuthType (d_ATrust c)));
  ("atrust.login-domain", VString (at_LoginDomain (d_ATrust c)));
  ("atrust.update-best-nodes-interval", VInt (at_UpdateBestNodesInterval (d_ATrust c)));
  ("underlay.interface", VString (under_Interface (d_Underlay c)));
  ("underlay.auto-detect", VBool (under_AutoDetect (d_Underlay c)));
  ("routing.mode", VString (routing_Mode (d_Routing c)));
  ("routing.internet-outbound.type",
    VString (io_Type (routing_InternetOutbound (d_Routing c))));
  ("routing.internet-outbound.address",
    VString (io_Address (routing_InternetOutbound (d_Routing c))));
  ("routing.internet-outbound.username",
    VString (io_Username (routing_InternetOutbound (d_Routing c))));
  ("routing.internet-outbound.password",
    VString (io_Password (routing_InternetOutbound (d_Routing c))));
  ("dns.remote.enabled", VBool (dns_RemoteEnabled (d_DNS c)));
  ("dns.remote.server", VString (dns_RemoteServer (d_DNS c)));
  ("dns.secondary.server", VString (dns_SecondaryServer (d_DNS c)));
  ("dns.cache-ttl", VInt (dns_CacheTTL (d_DNS c)));
  ("dns.listen", VString (dns_Listen (d_DNS c)));
  ("dns.hosts", VMap (dns_Hosts (d_DNS c)));
  ("inbounds.socks5.enabled", VBool (socks_Enabled (d_SOCKS5 c)));
  ("inbounds.socks5.listen", VString (socks_Listen (d_SOCKS5 c)));
  ("inbounds.socks5.username", VString (socks_Username (d_SOCKS5 c)));
  ("inbounds.socks5.password", VString (socks_Password (d_SOCKS5 c)));
  ("inbounds.http.enabled", VBool (http_Enabled (d_HTTP c)));
  ("inbounds.http.listen", VString (http_Listen (d_HTTP c)));
  ("inbounds.tun.enabled", VBool (tun_Enabled (d_TUN c)));
  ("inbounds.tun.name", VString (tun_Name (d_TUN c)));
  ("inbounds.tun.address", VString (tun_Address (d_TUN c)));
  ("inbounds.tun.mtu", VInt (tun_MTU (d_TUN c)));
  ("inbounds.tun.auto-route", VBool (tun_AutoRoute (d_TUN c)));
  ("inbounds.tun.route-all", VBool (tun_RouteAll (d_TUN c)));
  ("inbounds.tun.outbound-interface", VString (tun_OutboundInterface (d_TUN c)));
  ("inbounds.tun.udp.idle-timeout", VInt (tun_UDPIdleTimeout (d_TUN c)));
  ("inbounds.tun.udp.max-flows", VInt (tun_UDPMaxFlows (d_TUN c)));
  ("inbounds.tun.dns.hijack", VBool (tun_DNSHijack (d_TUN c)));
  ("inbounds.tun.dns.fake-ip", VBool (tun_DNSFakeIP (d_TUN c)));
  ("inbounds.tun.dns.fake-ip-range", VString (tun_DNSFakeIPRange (d_TUN c))) ]%string.

(** [collectChanges] on two configurations: the paths whose values differ. *)
Fixpoint collectChanges (active configured : list (string * Value)) : list string :=
  match active, configured with
  | (path, a) :: active, (_, b) :: configured =>
      if bool_decide (a = b) then collectChanges active configured
      else path :: collectChanges active configured
  | _, _ => []
  end.

Definition requirementForPath (path : string) : ApplyRequirement :=
  if bool_decide (path = "routing.mode"%string) then ApplyRequirementLive
  else if HasPrefix path "control." || HasPrefix path "log."
          || bool_decide (path = "session.auto-start"%string)
          || HasPrefix path "state." || HasPrefix path "inbounds.tun."
  then ApplyRequirementCoreRestart
  else ApplyRequirementSessionRestart.

(** [sort.Slice] by path; the paths are distinct. *)
Fixpoint insert_change (c : Change) (l : list Change) : list Change :=
  match l with
  | [] => [c]
  | d :: l' => if String.ltb (change_Path c) (change_Path d) then c :: l
               else d :: insert_change c l'
  end.

Definition sort_changes (l : list Change) : list Change := fold_right insert_change [] l.

Definition Changes (active configured : DConfig) : list Change :=
  sort_changes (map (fun path => {| change_Path := path; change_Requires := requirementForPath path |})
                  (collectChanges (leaves active) (leaves configured))).

(** ** [sessionConfigCandidate] (daemonruntime/controller.go)

    What a new session runs with: the configured values, except those that need the daemon
    itself to restart. *)
Definition sessionConfigCandidate (active configured : DConfig) : DConfig :=
  {| d_Version := d_Version configured; d_Log := d_Log active; d_Control := d_Control active;
     d_Session := {| session_ID := session_ID (d_Session configured);
                     session_AutoStart := session_AutoStart (d_Session active);
                     session_AutoReconnect := session_AutoReconnect (d_Session configured) |};
     d_State := d_State active; d_ATrust := d_ATrust configured;
     d_Underlay := d_Underlay configured; d_Routing := d_Routing configured;
     d_DNS := d_DNS configured; d_SOCKS5 := d_SOCKS5 configured; d_HTTP := d_HTTP configured;
     d_TUN := d_TUN active |}.

(** ** Lemmas *)

Lemma elem_of_insert_change x c l : x ∈ insert_change c l <-> x = c \/ x ∈ l.
Proof.
  induction l as [|d l IH]; simpl; [by rewrite list_elem_of_singleton, elem_of_nil; tauto|].
  destruct (String.ltb _ _); rewrite ?elem_of_cons, ?IH; tauto.
Qed.

Lemma elem_of_sort_changes x l : x ∈ sort_changes l <-> x ∈ l.
Proof.
  induction l as [|c l IH]; simpl; [done|]. rewrite elem_of_insert_change, elem_of_cons, IH. done.
Qed.

Lemma collectChanges_in path l1 l2 :
  map fst l1 = map fst l2 ->
  path ∈ collectChanges l1 l2 <-> exists a b i, l1 !! i = Some (path, a) /\ l2 !! i = Some (path, b) /\ a <> b.
Proof.
  revert l2. induction l1 as [|[p a] l1 IH]; intros [|[q b] l2] H; simpl in H; try done; simpl.
  - rewrite elem_of_nil. split; [done|]. intros (? & ? & ? & ? & _). done.
  - injection H as -> H. specialize (IH l2 H).
    assert ((exists x y i, l1 !! i = Some (path, x) /\ l2 !! i = Some (path, y) /\ x <> y) ->
            exists x y i, ((q, a) :: l1) !! i = Some (path, x) /\
                          ((q, b) :: l2) !! i = Some (path, y) /\ x <> y) as Hin.
    { intros (x & y & i & ? & ? & ?). by exists x, y, (S i). }
    case_bool_decide as Hab.
    + rewrite IH. split; [exact Hin|]. intros (x & y & [|i] & Hx & Hy & Hxy); simpl in *.
      * congruence.
      * eauto 10.
    + rewrite elem_of_cons, IH. split.
      * intros [->|Hp]; [by exists a, b, 0%nat|by apply Hin].
      * intros (x & y & [|i] & Hx & Hy & Hxy); simpl in *; [left; congruence|right; eauto 10].
Qed.

Lemma elem_of_Changes active configured c :
  c ∈ Changes active configured <->
  change_Requires c = requirementForPath (change_Path c) /\
  change_Path c ∈ collectChanges (leaves active) (leaves configured).
Proof.
  unfold Changes. generalize (collectChanges (leaves active) (leaves configured)). intros paths.
  rewrite elem_of_sort_changes, (list_elem_of_fmap _ paths c). split.
  - intros (path & -> & Hp). split; [reflexivity|exact Hp].
  - intros [H1 H2]. exists (change_Path c). split; [|exact H2].
    destruct c as [p r]. simpl in H1. rewrite H1. reflexivity.
Qed.

Lemma leaves_paths a b : map fst (leaves a) = map fst (leaves b).
Proof. reflexivity. Qed.

Lemma collectChanges_nil l1 l2 :
  map fst l1 = map fst l2 -> (collectChanges l1 l2 = [] <-> l1 = l2).
Proof.
  revert l2. induction l1 as [|[p a] l1 IH]; intros [|[q b] l2] H; simpl in H; try done.
  injection H as -> H. simpl. case_bool_decide as Hab.
  - rewrite (IH _ H), Hab. split; [by intros ->|by intros [= ->]].
  - split; [done|]. congruence.
Qed.

(** Reading a configuration back from its leaves. *)
Definition leaf (l : list (string * Value)) (i : nat) : Value :=
  match l !! i with Some (_, v) => v | None => VInt 0 end.

Definition leaf_string l i : string := match leaf l i with VString s => s | _ => "" end.
Definition leaf_bool l i : bool := match leaf l i with VBool b => b | _ => false end.
Definition leaf_int l i : Z := match leaf l i with VInt z => z | _ => 0 end.
Definition leaf_map l i : option (gmap string string) := match leaf l i with VMap m => m | _ => None end.

Definition of_leaves (l : list (string * Value)) : DConfig :=
  {| d_Version := leaf_int l 0;
     d_Log := {| log_Level := leaf_string l 1; log_Output := leaf_string l 2 |};
     d_Control := {| stdio_Enabled := leaf_bool l 3;
                     control_REST := {| rest_Enabled := leaf_bool l 4;
                                        rest_Listen := leaf_string l 5;
                                        rest_Secret := leaf_string l 6;
                                        rest_SecretFile := leaf_string l 7 |} |};
     d_Session := {| session_ID := leaf_string l 8; session_AutoStart := leaf_bool l 9;
                     session_AutoReconnect := leaf_bool l 10 |};
     d_State := {| state_ResumeFile := leaf_string l 11 |};
     d_ATrust := {| at_Server := leaf_string l 12; at_Port := leaf_int l 13;
                    at_Username := leaf_string l 14; at_Password := leaf_string l 15;
                    at_Phone := leaf_string l 16; at_AuthType := leaf_string l 17;
                    at_LoginDomain := leaf_string l 18;
                    at_UpdateBestNodesInterval := leaf_int l 19 |};
     d_Underlay := {| under_Interface := leaf_string l 20; under_AutoDetect := leaf_bool l 21 |};
     d_Routing := {| routing_Mode := leaf_string l 22;
                     routing_InternetOutbound :=
                       {| io_Type := leaf_string l 23; io_Address := leaf_string l 24;
                          io_Username := leaf_string l 25; io_Password := leaf_string l 26 |} |};
     d_DNS := {| dns_RemoteEnabled := leaf_bool l 27; dns_RemoteServer := leaf_string l 28;
                 dns_SecondaryServer := leaf_string l 29; dns_CacheTTL := leaf_int l 30;
                 dns_Listen := leaf_string l 31; dns_Hosts := leaf_map l 32 |};
     d_SOCKS5 := {| socks_Enabled := leaf_bool l 33; socks_Listen := leaf_string l 34;
                    socks_Username := leaf_string l 35; socks_Password := leaf_string l 36 |};
     d_HTTP := {| http_Enabled := leaf_bool l 37; http_Listen := leaf_string l 38 |};
     d_TUN := {| tun_Enabled := leaf_bool l 39; tun_Name := leaf_string l 40;
                 tun_Address := leaf_string l 41; tun_MTU := leaf_int l 42;
                 tun_AutoRoute := leaf_bool l 43; tun_RouteAll := leaf_bool l 44;
                 tun_OutboundInterface := leaf_string l 45; tun_UDPIdleTimeout := leaf_int l 46;
                 tun_UDPMaxFlows := leaf_int l 47; tun_DNSHijack := leaf_bool l 48;
                 tun_DNSFakeIP := leaf_bool l 49; tun_DNSFakeIPRange := leaf_string l 50 |} |}.

Lemma of_leaves_leaves c : of_leaves (leaves c) = c.
Proof. destruct c as [? [] [? []] [] [] [] [] [? []] [] [] [] []]. reflexivity. Qed.

Lemma leaves_inj a b : leaves a = leaves b -> a = b.
Proof. intros H. by rewrite <-(of_leaves_leaves a), <-(of_leaves_leaves b), H. Qed.

Definition needs_core (path : string) : bool :=
  bool_decide (requirementForPath path = ApplyRequirementCoreRestart).

(** Leaf by leaf, the candidate takes the active value where the core would have to restart
    and the configured one elsewhere. *)
Lemma candidate_leaf active configured i path v :
  leaves (sessionConfigCandidate active configured) !! i = Some (path, v) ->
  leaves (if needs_core path then active else configured) !! i = Some (path, v).
Proof.
  do 51 (destruct i as [|i]; [intros H; injection H as <- <-; reflexivity|]). done.
Qed.

(** The settings, with their paths, that only a restart of the core applies. *)
Definition core_settings (c : DConfig) : list (string * Value) :=
  List.filter (fun leaf => needs_core leaf.1) (leaves c).

Lemma leaf_routing_mode c i v :
  leaves c !! i = Some ("routing.mode"%string, v) -> v = VString (routing_Mode (d_Routing c)).
Proof.
  do 51 (destruct i as [|i]; [intros H; injection H; clear H; intros <-; (reflexivity || discriminate)|]).
  done.
Qed.

Lemma core_settings_candidate active configured :
  core_settings (sessionConfigCandidate active configured) = core_settings active.
Proof. by vm_compute. Qed.

Lemma leaf_same_path a b i p q x y :
  leaves a !! i = Some (p, x) -> leaves b !! i = Some (q, y) -> p = q.
Proof.
  pose proof (leaves_paths a b) as H. revert H. generalize (leaves a) (leaves b).
  intros l1 l2 H Ha Hb. apply (f_equal (fun l => l !! i)) in H.
  change (map fst l1) with (fst <$> l1) in H. change (map fst l2) with (fst <$> l2) in H.
  rewrite !list_lookup_fmap, Ha, Hb in H. simpl in H. congruence.
Qed.

Lemma leaf_total a b i p x : leaves a !! i = Some (p, x) -> exists y, leaves b !! i = Some (p, y).
Proof.
  intros Ha. assert (is_Some (leaves b !! i)) as [[q y] Hb].
  { apply lookup_lt_is_Some. apply lookup_lt_Some in Ha. exact Ha. }
  exists y. by rewrite (leaf_same_path _ _ _ _ _ _ _ Ha Hb).
Qed.

#[local] Opaque leaves collectChanges.

(** A pending change that applies live is a change of the routing mode. *)
Lemma live_changes active configured c :
  c ∈ Changes active configured ->
  routing_Mode (d_Routing active) = routing_Mode (d_Routing configured) ->
  change_Requires c <> ApplyRequirementLive.
Proof.
  rewrite elem_of_Changes, collectChanges_in by apply leaves_paths. intros [Hreq (x & y & i & Hx & Hy & Hne)] Hmode Hl.
  rewrite Hl in Hreq. unfold requirementForPath in Hreq.
  case_bool_decide as Hp; [|by destruct (_ || _)]. rewrite Hp in Hx, Hy.
  apply leaf_routing_mode in Hx, Hy. congruence.
Qed.

(** ** Theorems *)

(** The two descriptions of what a session restart can apply agree. Whatever
    configuration is active and whatever is configured: every change left pending against
    the candidate that a new session runs with requires the core to restart, no change from
    the active configuration to that candidate does, and between them they are all the
    changes from active to configured. [Changes] is empty exactly when nothing changed. *)
Theorem candidate_splits_changes (active configured : DConfig) :
  let candidate := sessionConfigCandidate active configured in
  (forall c, c ∈ Changes candidate configured -> change_Requires c = ApplyRequirementCoreRestart) /\
  (forall c, c ∈ Changes active candidate -> change_Requires c <> ApplyRequirementCoreRestart) /\
  (forall c, c ∈ Changes active configured <->
     c ∈ Changes active candidate \/ c ∈ Changes candidate configured) /\
  (Changes active configured = [] <-> active = configured).
Proof.
  intros candidate.
  assert (forall a b c, c ∈ Changes a b <->
    change_Requires c = requirementForPath (change_Path c) /\
    exists x y i, leaves a !! i = Some (change_Path c, x) /\
                  leaves b !! i = Some (change_Path c, y) /\ x <> y) as HC.
  { intros a b c. by rewrite elem_of_Changes, collectChanges_in. }
  assert (forall i p v, leaves candidate !! i = Some (p, v) ->
            leaves (if needs_core p then active else configured) !! i = Some (p, v)) as Hleaf
    by apply candidate_leaf.
  split_and!.
  - intros c (Hreq & x & y & i & Hx & Hy & Hne)%HC. rewrite Hreq.
    pose proof (Hleaf _ _ _ Hx) as Hl. unfold needs_core in Hl.
    case_bool_decide; [done|congruence].
  - intros c (Hreq & x & y & i & Hx & Hy & Hne)%HC Hcore. rewrite Hreq in Hcore.
    pose proof (Hleaf _ _ _ Hy) as Hl. unfold needs_core in Hl.
    rewrite bool_decide_eq_true_2 in Hl by done. congruence.
  - intros c. rewrite !HC. split.
    + intros (Hreq & x & y & i & Hx & Hy & Hne).
      destruct (leaf_total _ candidate _ _ _ Hx) as [z Hz].
      pose proof (Hleaf _ _ _ Hz) as Hl.
      destruct (needs_core (change_Path c)); [right|left]; (split; [done|]).
      * exists z, y, i. split_and!; try done. congruence.
      * exists x, z, i. split_and!; try done. congruence.
    + intros [(Hreq & x & y & i & Hx & Hy & Hne)|(Hreq & x & y & i & Hx & Hy & Hne)].
      * split; [done|]. pose proof (Hleaf _ _ _ Hy) as Hl.
        destruct (needs_core _); [congruence|]. by exists x, y, i.
      * split; [done|]. pose proof (Hleaf _ _ _ Hx) as Hl.
        destruct (needs_core _); [by exists x, y, i|congruence].
  - split; [|intros ->].
    + intros H. apply leaves_inj, (collectChanges_nil _ _ (leaves_paths _ _)).
      destruct (collectChanges _ _) as [|p l] eqn:E; [done|].
      assert ({| change_Path := p; change_Requires := requirementForPath p |} ∈ Changes active configured)
        as Hin.
      { apply elem_of_Changes. rewrite E. split; [done|]. by left. }
      rewrite H in Hin. by apply elem_of_nil in Hin.
    + unfold Changes. by rewrite (proj2 (collectChanges_nil _ _ (leaves_paths _ _))).
Qed.

(** *** What validation guarantees *)

Ltac guard_none H :=
  match type of H with
  | (if ?b then Some _ else _) = None =>
      let E := fresh "G" in destruct b eqn:E; [discriminate H|]
  | match ?o with Some _ => Some _ | None => _ end = None =>
      let E := fresh "G" in destruct o eqn:E; [discriminate H|]
  end.

Lemma check_lengths_none limit fields :
  check_lengths limit fields = None -> forall name v, (name, v) ∈ fields -> strlen v <= limit.
Proof.
  induction fields as [|[n w] fields IH]; simpl; [by intros _ ? ? ?%elem_of_nil|].
  case_bool_decide; [done|]. intros Hn name v [[= -> ->]|Hin]%elem_of_cons; [lia|by eapply IH].
Qed.

Lemma check_hosts_none hosts :
  check_hosts hosts = None ->
  forall h a, (h, a) ∈ hosts -> h <> ""%string /\ is_Some (ParseIP a).
Proof.
  induction hosts as [|[n w] hosts IH]; simpl; [by intros _ ? ? ?%elem_of_nil|].
  destruct (_ || _); [done|]. destruct (is_empty n) eqn:En; simpl; [done|].
  destruct (ParseIP w) eqn:Ep; simpl; [|done].
  intros Hn h a [[= -> ->]|Hin]%elem_of_cons; [|by eapply IH].
  apply is_empty_false in En. by rewrite Ep.
Qed.

Lemma validate_tun_none t :
  validate_tun t = None -> tun_Enabled t = true ->
  is_Some (ParsePrefix (tun_Address t)) /\ tun_MTU t <> 0 /\ 0 < tun_UDPIdleTimeout t /\
  0 < tun_UDPMaxFlows t /\ (tun_DNSHijack t = true -> tun_AutoRoute t = true) /\
  (tun_DNSFakeIP t = true -> tun_AutoRoute t = true /\
     exists p, ParsePrefix (tun_DNSFakeIPRange t) = Some p /\ Is4 (pfx_addr p) = true).
Proof.
  unfold validate_tun. intros H Ht. rewrite Ht in H. simpl in H.
  destruct (ParsePrefix (tun_Address t)); [|done]. repeat guard_none H. bool_hyps.
  assert (tun_DNSFakeIP t = true -> tun_AutoRoute t = true /\
     exists p, ParsePrefix (tun_DNSFakeIPRange t) = Some p /\ Is4 (pfx_addr p) = true) as Hf.
  { intros Hf. rewrite Hf in *. simpl in *. bool_hyps. split; [done|].
    destruct (ParsePrefix (tun_DNSFakeIPRange t)) as [q|]; [|done].
    exists q. by destruct (Is4 (pfx_addr q)). }
  split_and!; try done; try lia.
  intros Hh. rewrite Hh in *. simpl in *. by bool_hyps.
Qed.

(** What a session is started with is sound whenever the daemon's configuration passed
    validation, in whatever order maps are walked: the port is a TCP port, identifiers
    and modes are known, SOCKS5 credentials are given together or not at all, every static
    host has a name and parses to an address, and a TUN inbound has a parsable address, a positive
    MTU and flow limit, hijacks DNS only with auto-route, and fakes addresses only with
    auto-route and an IPv4 range; no text value is longer than its limit. *)
Theorem valid_core_config range_fields range_hosts (c : DConfig) :
  (forall l, range_fields l ≡ₚ l) -> (forall m, range_hosts m ≡ₚ map_to_list m) ->
  Validate range_fields range_hosts c = None ->
  let cc := toCoreConfig c in
  1 <= cc_ServerPort cc <= 65535 /\ cc_SessionID cc <> ""%string /\
  RoutingMode_Valid (cc_RoutingMode cc) = true /\
  InternetOutboundType_Valid (io_Type (cc_InternetOutbound cc)) = true /\
  (io_Type (cc_InternetOutbound cc) = InternetOutboundSOCKS5 ->
     io_Address (cc_InternetOutbound cc) <> ""%string) /\
  0 <= cc_UpdateBestNodesSeconds cc /\
  (cc_SOCKSUsername cc = ""%string <-> cc_SOCKSPassword cc = ""%string) /\
  (forall h a, default ∅ (cc_Hosts cc) !! h = Some a -> h <> ""%string /\ is_Some (ParseIP a)) /\
  (cc_TUNEnabled cc = true ->
     is_Some (ParsePrefix (cc_TUNAddress cc)) /\ cc_TUNMTU cc <> 0 /\ 0 < cc_TUNUDPMaxFlows cc) /\
  (cc_TUNDNSHijack cc = true -> cc_TUNAutoRoute cc = true) /\
  (cc_TUNFakeIP cc = true -> cc_TUNEnabled cc = true /\ cc_TUNAutoRoute cc = true /\
     exists p, ParsePrefix (cc_TUNFakeIPRange cc) = Some p /\ Is4 (pfx_addr p) = true) /\
  (forall name v, (name, v) ∈ value_fields c -> strlen v <= maxValueLength) /\
  (forall name v, (name, v) ∈ name_fields c -> strlen v <= maxNameLength).
Proof.
  intros Hrf Hrh H cc. unfold Validate in H. cbv zeta in H. repeat guard_none H.
  unfold validate_inbounds in H. cbv zeta in H. repeat guard_none H.
  match goal with G : check_hosts _ = None |- _ => pose proof (check_hosts_none _ G) as Hhosts end.
  pose proof (validate_tun_none _ H) as Htun.
  repeat match goal with G : check_lengths _ _ = None |- _ =>
    let L := fresh "L" in pose proof (check_lengths_none _ _ G) as L; clear G end.
  repeat match goal with
  | G : _ || _ = false |- _ => apply orb_false_iff in G as [? ?]
  end.
  unfold cc, toCoreConfig. cbn [cc_ServerPort cc_SessionID cc_RoutingMode cc_InternetOutbound
    cc_UpdateBestNodesSeconds cc_SOCKSUsername cc_SOCKSPassword cc_Hosts cc_TUNEnabled
    cc_TUNAddress cc_TUNMTU cc_TUNUDPMaxFlows cc_TUNDNSHijack cc_TUNAutoRoute cc_TUNFakeIP
    cc_TUNFakeIPRange].
  bool_hyps. split_and!; try lia; try done.
  - by apply is_empty_false.
  - intros Hs. rewrite bool_decide_eq_true_2 in * by done. simpl in *. by apply is_empty_false.
  - apply Z.quot_pos; [lia|done].
  - destruct (socks_Enabled (d_SOCKS5 c)); [|done]. simpl in *. bool_hyps.
    match goal with G : Bool.eqb _ _ = true |- _ => apply Bool.eqb_prop in G as E end.
    rewrite <-!is_empty_true. by rewrite E.
  - intros h a Hin. apply Hhosts. rewrite Hrh. by apply elem_of_map_to_list.
  - intros Ht. rewrite Ht. destruct (Htun Ht) as (? & ? & _ & ? & _). done.
  - intros [Ht Hh]%andb_true_iff. rewrite Ht. destruct (Htun Ht) as (_ & _ & _ & _ & Hj & _). by apply Hj.
  - intros [Ht Hf]%andb_true_iff. rewrite Ht. destruct (Htun Ht) as (_ & _ & _ & _ & _ & Hfi).
    by destruct (Hfi Hf).
  - intros name v Hin. eapply L0. by rewrite Hrf.
  - intros name v Hin. eapply L. by rewrite Hrf.
Qed.

(** The defaults with a server, a TUN inbound with fake addresses, and one static host. *)
Definition demo_config : DConfig :=
  {| d_Version := 1; d_Log := d_Log Default; d_Control := d_Control Default;
     d_Session := d_Session Default; d_State := d_State Default;
     d_ATrust := {| at_Server := "vpn.example.com"; at_Port := 443; at_Username := "u";
                    at_Password := "p"; at_Phone := ""; at_AuthType := "auth/psw";
                    at_LoginDomain := "Radius"; at_UpdateBestNodesInterval := 30 * Second |};
     d_Underlay := d_Underlay Default; d_Routing := d_Routing Default;
     d_DNS := {| dns_RemoteEnabled := true; dns_RemoteServer := "auto";
                 dns_SecondaryServer := ""; dns_CacheTTL := Second ÷ 2; dns_Listen := "";
                 dns_Hosts := Some {["a.example"%string := "10.0.0.1"%string]} |};
     d_SOCKS5 := d_SOCKS5 Default; d_HTTP := d_HTTP Default;
     d_TUN := {| tun_Enabled := true; tun_Name := "tun0"; tun_Address := "172.19.0.1/30";
                 tun_MTU := 1400; tun_AutoRoute := true; tun_RouteAll := false;
                 tun_OutboundInterface := ""; tun_UDPIdleTimeout := Second ÷ 2;
                 tun_UDPMaxFlows := 512; tun_DNSHijack := true; tun_DNSFakeIP := true;
                 tun_DNSFakeIPRange := "198.18.0.0/16" |} |}.

Lemma valid_core_config_witness :
  Validate id map_to_list demo_config = None /\ cc_TUNFakeIP (toCoreConfig demo_config) = true /\
  exists p, ParsePrefix (cc_TUNFakeIPRange (toCoreConfig demo_config)) = Some p /\
    Is4 (pfx_addr p) = true.
Proof.
  assert (Validate id map_to_list demo_config = None) as H by (by vm_compute).
  split; [exact H|]. split; [done|].
  pose proof (valid_core_config id map_to_list demo_config (fun l => reflexivity l)
                (fun m => reflexivity _) H) as Hv.
  cbv zeta in Hv. destruct Hv as (_ & _ & _ & _ & _ & _ & _ & _ & _ & _ & Hf & _).
  by destruct (Hf eq_refl) as (_ & _ & Hp).
Defined.

(** Durations below a second pass validation as positive and reach the session as zero:
    a cache lifetime or UDP timeout that the network runtime then reads as "use the
    default". *)
Example subsecond_durations_become_zero :
  Validate id map_to_list demo_config = None /\
  dns_CacheTTL (d_DNS demo_config) > 0 /\ cc_DNSTTL (toCoreConfig demo_config) = 0 /\
  tun_UDPIdleTimeout (d_TUN demo_config) > 0 /\
  cc_TUNUDPTimeoutSeconds (toCoreConfig demo_config) = 0.
Proof. split_and!; by vm_compute. Qed.
