(* ===== verification/ConfigFile.v ===== *)
(** Configurations from outside (daemonconfig/config.go, lifecycle.go): a YAML file over the
    defaults, a JSON patch of the present configuration, and the warnings about servers that
    others can reach. Decoding text is left to the libraries. *)

From S2P Require Import Prelude Core GoNet DaemonConfig.

(** ** JSON values, as [encoding/json] decodes them into [any]

    An object is a Go map: its keys are distinct, and the order of its fields is the order in
    which [range] walks it. *)
Inductive JSON : Type :=
| JNull
| JBool (b : bool)
| JNumber (n : string)
| JString (s : string)
| JArray (l : list JSON)
| JObject (fields : list (string * JSON)).

Abbreviation Fields := (list (string * JSON)).

(** [m[key]], and [m[key] = value]. *)
Fixpoint field (key : string) (m : Fields) : option JSON :=
  match m with
  | [] => None
  | (k, v) :: m => if bool_decide (k = key) then Some v else field key m
  end.

Fixpoint set_field (key : string) (value : JSON) (m : Fields) : Fields :=
  match m with
  | [] => [(key, value)]
  | (k, v) :: m => if bool_decide (k = key) then (k, value) :: m else (k, v) :: set_field key value m
  end.

(** What becomes of a field that has the value [old] when a patch gives it the value [patch]. *)
Fixpoint merge_value (old : option JSON) (patch : JSON) {struct patch} : JSON :=
  match patch, old with
  | JObject patch, Some (JObject base) =>
      JObject
        ((fix merge (base patch : Fields) {struct patch} : Fields :=
            match patch with
            | [] => base
            | (key, value) :: patch => merge (set_field key (merge_value (field key base) value) base) patch
            end) base patch)
  | _, _ => patch
  end.

Definition mergeObject (base patch : Fields) : Fields :=
  fold_left (fun base '(key, value) => set_field key (merge_value (field key base) value) base) patch base.

(** ** Texts *)

Definition json_kind (v : JSON) : string :=
  match v with
  | JNull => "null"
  | JBool _ => "bool"
  | JNumber _ => "number"
  | JString _ => "string"
  | JArray _ => "array"
  | JObject _ => "object"
  end.

Section Texts.
(** One call of a [json.Decoder] that reads a value into [any]: [None] is [io.EOF], and the rest
    of the text is the next call's. *)
Variable json_Decode : string -> result error (option JSON) * string.
Variable marshal_config : DConfig -> result error string.
Variable marshal_any : Fields -> result error string.
Variable unmarshal_config : string -> result error DConfig.
Variable yaml_Decode : DConfig -> string -> result error DConfig.
Variable ReadFile : string -> result error string.
Variable validate : DConfig -> option error.

Definition decodeJSONObject (data : string) : result error Fields :=
  match json_Decode data with
  | (Err err, _) => Err err
  | (Ok None, _) => Err io_EOF
  | (Ok (Some JNull), _) => Err (EText "expected JSON object")
  | (Ok (Some (JObject target)), rest) =>
      match json_Decode rest with
      | (Ok None, _) => Ok target
      | (Ok (Some _), _) => Err (EText "multiple JSON values")
      | (Err err, _) => Err err
      end
  | (Ok (Some v), _) =>
      Err (EText ("json: cannot unmarshal " +:+ json_kind v +:+ " into Go value of type map[string]interface {}"))
  end.

(** [fmt.Errorf(what + ": %w", err)]. *)
Definition with_context {A} (what : string) (r : result error A) : result error A :=
  match r with
  | Err err => Err (EWrap (what +:+ ": " +:+ error_text err) err)
  | Ok a => Ok a
  end.

Definition MergeJSON (config : DConfig) (patch : string) : result error DConfig :=
  let? baseData := with_context "encode base config" (marshal_config config) in
  let? baseValue := with_context "decode base config" (decodeJSONObject baseData) in
  let? patchValue := with_context "decode config patch" (decodeJSONObject patch) in
  let? mergedData := with_context "encode merged config" (marshal_any (mergeObject baseValue patchValue)) in
  let? merged := with_context "decode merged config" (unmarshal_config mergedData) in
  guard? validate merged in Ok merged.

Definition DecodeYAML (data : string) : result error DConfig :=
  let? config := with_context "decode config" (yaml_Decode Default data) in
  guard? validate config in Ok config.

(** [daemonconfig.Load]. *)
Definition load_config (path : string) : result error DConfig :=
  let? data := with_context "read config" (ReadFile path) in DecodeYAML data.
End Texts.

(** ** Warnings *)

Definition isLoopbackListen (address : string) : bool :=
  match SplitHostPort address with
  | None => false
  | Some (host, _) =>
      bool_decide (host = "localhost"%string) || match ParseIP host with Some ip => IsLoopback ip | None => false end
  end.

Definition SecurityWarnings (c : DConfig) : list string :=
  let rest := control_REST (d_Control c) in
  let socks := d_SOCKS5 c in
  let http := d_HTTP c in
  let dns := d_DNS c in
  (if rest_Enabled rest && negb (isLoopbackListen (rest_Listen rest))
   then ["REST control " +:+ rest_Listen rest +:+ " is exposed over plaintext HTTP outside loopback"]%string else []) ++
  (if socks_Enabled socks && negb (isLoopbackListen (socks_Listen socks))
   then [("SOCKS5 inbound " +:+ socks_Listen socks +:+ " is not limited to loopback") +:+
         (if is_empty (socks_Username socks) then " and does not require authentication" else "")]%string else []) ++
  (if http_Enabled http && negb (isLoopbackListen (http_Listen http))
   then ["HTTP inbound " +:+ http_Listen http +:+ " is not limited to loopback and does not require authentication"]%string
   else []) ++
  (if negb (is_empty (dns_Listen dns)) && negb (isLoopbackListen (dns_Listen dns))
   then ["DNS service " +:+ dns_Listen dns +:+ " is not limited to loopback"]%string else []).

(** ** What a patch does *)

(** The value behind a path of keys, and the value where the path ends and no object is. *)
Fixpoint value_at (path : list string) (v : JSON) : option JSON :=
  match path with
  | [] => Some v
  | key :: path => match v with JObject m => field key m ≫= value_at path | _ => None end
  end.

Definition leaf_at (path : list string) (v : JSON) : option JSON :=
  match value_at path v with Some (JObject _) => None | r => r end.

(** Where the value behind a path comes from, without any merging: the patch is asked as long
    as both sides have an object; where the patch has nothing to say the base answers. *)
Fixpoint merged_leaf (path : list string) (base patch : option JSON) : option JSON :=
  match patch with
  | None => base ≫= leaf_at path
  | Some (JObject q) =>
      match base with
      | Some (JObject b) =>
          match path with [] => None | key :: path => merged_leaf path (field key b) (field key q) end
      | _ => leaf_at path (JObject q)
      end
  | Some v => leaf_at path v
  end.

(** Distinct keys, everywhere. *)
Inductive distinct_keys : JSON -> Prop :=
| distinct_object m : NoDup m.*1 -> Forall (fun kv => distinct_keys kv.2) m -> distinct_keys (JObject m)
| distinct_other v : match v with JObject _ => False | _ => True end -> distinct_keys v.

Lemma distinct_fields m key v :
  distinct_keys (JObject m) -> NoDup m.*1 /\ (field key m = Some v -> distinct_keys v).
Proof.
  inversion 1 as [m' Hnd Hall|]; [subst m'|done]. split; [done|]. clear Hnd H. induction m as [|[k w] m IH]; [done|].
  apply Forall_cons in Hall as [Hw Hall]. simpl. case_bool_decide; [by intros [= <-]|by apply IH].
Qed.

Lemma field_None key m : key ∉ m.*1 -> field key m = None.
Proof.
  induction m as [|[k v] m IH]; [done|]. csimpl. intros [Hk Hm]%not_elem_of_cons.
  rewrite bool_decide_eq_false_2 by congruence. by apply IH.
Qed.

Lemma field_set_field key k v m :
  field key (set_field k v m) = if bool_decide (k = key) then Some v else field key m.
Proof.
  induction m as [|[x w] m IH]; simpl; [done|]. destruct (decide (x = k)) as [->|Hx].
  - rewrite (bool_decide_eq_true_2 (k = k)) by done. simpl. by case_bool_decide.
  - rewrite (bool_decide_eq_false_2 (x = k)) by done. simpl. rewrite IH.
    destruct (decide (x = key)) as [->|Hxk]; [|by rewrite (bool_decide_eq_false_2 (x = key)) by done].
    by rewrite (bool_decide_eq_true_2 (key = key)), (bool_decide_eq_false_2 (k = key)) by congruence.
Qed.

(** One field of a merged object. *)
Lemma field_mergeObject key patch base :
  NoDup patch.*1 ->
  field key (mergeObject base patch) =
    match field key patch with
    | Some v => Some (merge_value (field key base) v)
    | None => field key base
    end.
Proof.
  unfold mergeObject. revert base. induction patch as [|[k v] patch IH]; intros base Hnd; [done|].
  csimpl in *. apply NoDup_cons in Hnd as [Hk Hnd]. rewrite IH by done. rewrite field_set_field.
  case_bool_decide as Hkey; [|done]. subst k. by rewrite (field_None key patch).
Qed.

Lemma merge_value_objects base patch :
  merge_value (Some (JObject base)) (JObject patch) = JObject (mergeObject base patch).
Proof.
  unfold mergeObject. cbn [merge_value]. f_equal. revert base.
  induction patch as [|[key value] patch IH]; intros base; [done|]. simpl. apply IH.
Qed.

Lemma merge_value_replaces base patch :
  match base, patch with Some (JObject _), JObject _ => False | _, _ => True end ->
  merge_value base patch = patch.
Proof. destruct patch; [done..|]. by destruct base as [[]|]. Qed.

Lemma leaf_at_merged path base patch :
  distinct_keys patch -> leaf_at path (merge_value base patch) = merged_leaf path base (Some patch).
Proof.
  revert base patch. induction path as [|key path IH]; intros base patch Hd.
  all: destruct patch as [| | | | |q]; try (by destruct base).
  all: destruct base as [[| | | | |b]|]; try (by rewrite merge_value_replaces).
  all: rewrite merge_value_objects; try done.
  destruct (distinct_fields q key JNull Hd) as [Hnd _]. unfold leaf_at. cbn [value_at merged_leaf].
  rewrite field_mergeObject by done. destruct (field key q) as [v|] eqn:Hq.
  - cbn [mbind option_bind]. apply IH. by apply (distinct_fields q key v Hd).
  - destruct (field key b) as [w|]; [|by destruct path]. destruct path; done.
Qed.

Section Merge.
Context (json_Decode : string -> result error (option JSON) * string).
Context (marshal_config : DConfig -> result error string) (marshal_any : Fields -> result error string).
Context (unmarshal_config : string -> result error DConfig) (validate : DConfig -> option error).

(** A map that the decoder makes has each key once. *)
Hypothesis json_maps : forall data v rest, json_Decode data = (Ok (Some v), rest) -> distinct_keys v.

Lemma with_context_Ok {A} what (r : result error A) a : with_context what r = Ok a -> r = Ok a.
Proof. destruct r; [done|discriminate]. Qed.

Lemma decodeJSONObject_Ok data m :
  decodeJSONObject json_Decode data = Ok m ->
  distinct_keys (JObject m) /\ exists rest, json_Decode data = (Ok (Some (JObject m)), rest) /\
    (json_Decode rest).1 = Ok None.
Proof.
  unfold decodeJSONObject. destruct (json_Decode data) as [r rest] eqn:Hd.
  destruct r as [[v|]|]; [|done..]. pose proof (json_maps _ _ _ Hd) as Hv. destruct v; try done.
  destruct (json_Decode rest) as [[[]|] rest'] eqn:Hr; [done| |done].
  intros [= ->]. split; [exact Hv|]. exists rest. by rewrite Hr.
Qed.

(** C25: What a JSON patch does to a configuration. The result is valid. It is decoded from the
    fields of the configuration merged with those of the patch, where behind each path that
    does not end in an object stands what the patch has there, or what the configuration has
    if the patch does not name it: no setting is lost and none changes unasked, whatever the
    order in which the maps are walked. The text of the patch is one object and nothing more. *)
Theorem patch_changes_what_it_names (config merged : DConfig) (patch : string)
    (Hmerge : MergeJSON json_Decode marshal_config marshal_any unmarshal_config validate config patch = Ok merged) :
  validate merged = None /\
  exists baseData base patchValue mergedData rest,
    marshal_config config = Ok baseData /\ decodeJSONObject json_Decode baseData = Ok base /\
    json_Decode patch = (Ok (Some (JObject patchValue)), rest) /\ (json_Decode rest).1 = Ok None /\
    marshal_any (mergeObject base patchValue) = Ok mergedData /\ unmarshal_config mergedData = Ok merged /\
    forall path,
      leaf_at path (JObject (mergeObject base patchValue)) =
      merged_leaf path (Some (JObject base)) (Some (JObject patchValue)).
Proof.
  unfold MergeJSON, result_bind in Hmerge.
  destruct (with_context _ (marshal_config config)) as [baseData|] eqn:Hb; [|done].
  destruct (with_context _ (decodeJSONObject _ baseData)) as [base|] eqn:Hbase; [|done].
  destruct (with_context _ (decodeJSONObject _ patch)) as [patchValue|] eqn:Hp; [|done].
  destruct (with_context _ (marshal_any _)) as [mergedData|] eqn:Hm; [|done].
  destruct (with_context _ (unmarshal_config _)) as [config'|] eqn:Hu; [|done].
  apply with_context_Ok in Hb, Hbase, Hp, Hm, Hu.
  destruct (validate config') as [e|] eqn:Hv; [done|]. injection Hmerge as ->. split; [done|].
  destruct (decodeJSONObject_Ok _ _ Hp) as (Hd & rest & Hdec & Hend).
  exists baseData, base, patchValue, mergedData, rest. split_and!; try done.
  intros path. rewrite <-merge_value_objects. by apply leaf_at_merged.
Qed.
End Merge.

(** ** A patch of the log level *)

Definition with_level (level : string) (c : DConfig) : DConfig :=
  {| d_Version := d_Version c; d_Log := {| log_Level := level; log_Output := log_Output (d_Log c) |};
     d_Control := d_Control c; d_Session := d_Session c; d_State := d_State c; d_ATrust := d_ATrust c;
     d_Underlay := d_Underlay c; d_Routing := d_Routing c; d_DNS := d_DNS c; d_SOCKS5 := d_SOCKS5 c;
     d_HTTP := d_HTTP c; d_TUN := d_TUN c |}.

Definition demo_fields (level : string) : Fields :=
  [("version", JNumber "1"); ("log", JObject [("level", JString level); ("output", JString "stderr")])]%string.

Definition demo_patch : Fields := [("log", JObject [("level", JString "debug")])]%string.

Definition demo_decode (data : string) : result error (option JSON) * string :=
  if is_empty data then (Ok None, ""%string)
  else if bool_decide (data = "patch"%string) then (Ok (Some (JObject demo_patch)), ""%string)
  else (Ok (Some (JObject (demo_fields data))), ""%string).

Definition demo_marshal_any (m : Fields) : result error string :=
  match value_at ["log"; "level"]%string (JObject m) with
  | Some (JString level) => Ok level
  | _ => Err (EText "unsupported")
  end.

Definition demo_MergeJSON : DConfig -> string -> result error DConfig :=
  MergeJSON demo_decode (fun c => Ok (log_Level (d_Log c))) demo_marshal_any
    (fun level => Ok (with_level level demo_config)) (Validate id map_to_list).

Lemma demo_json_maps data v rest : demo_decode data = (Ok (Some v), rest) -> distinct_keys v.
Proof.
  assert (forall level, distinct_keys (JObject (demo_fields level)) /\ distinct_keys (JObject demo_patch)) as Hd.
  { intros level. split; repeat (constructor; simpl; try done); try (apply not_elem_of_cons; split; [done|apply not_elem_of_nil]);
      try apply not_elem_of_nil. }
  unfold demo_decode. destruct (is_empty data); [done|]. case_bool_decide; intros [= <- _]; by apply Hd.
Qed.

Lemma demo_merged : demo_MergeJSON demo_config "patch" = Ok (with_level "debug" demo_config).
Proof. vm_compute. reflexivity. Qed.

Lemma patch_changes_what_it_names_witness :
  Validate id map_to_list (with_level "debug" demo_config) = None /\
  exists base patch, decodeJSONObject demo_decode "info" = Ok base /\
    forall path, leaf_at path (JObject (mergeObject base patch)) =
                 merged_leaf path (Some (JObject base)) (Some (JObject patch)).
Proof.
  destruct (patch_changes_what_it_names demo_decode (fun c => Ok (log_Level (d_Log c))) demo_marshal_any
    (fun level => Ok (with_level level demo_config)) (Validate id map_to_list) demo_json_maps
    demo_config (with_level "debug" demo_config) "patch" demo_merged)
    as (Hv & baseData & base & patch & mergedData & rest & Hb & Hbase & _ & _ & _ & _ & Hleaf).
  split; [exact Hv|]. exists base, patch. injection Hb as <-. split; [exact Hbase|exact Hleaf].
Defined.

(** The patch above, and patches that replace or add what is no object. *)
Example merged_fields :
  mergeObject (demo_fields "info") demo_patch = demo_fields "debug" /\
  mergeObject (demo_fields "info") [("log", JNull)]%string = [("version", JNumber "1"); ("log", JNull)]%string /\
  mergeObject [("version", JNumber "1")]%string demo_patch =
    [("version", JNumber "1"); ("log", JObject [("level", JString "debug")])]%string.
Proof. vm_compute. split_and!; reflexivity. Qed.

(** Which servers are announced as exposed. *)
Example loopback_listeners :
  map isLoopbackListen ["127.0.0.1:9090"; "localhost:1"; "[::1]:53"; ":9090"; "0.0.0.0:80"; "LOCALHOST:1"; "127.0.0.1"]%string =
  [true; true; true; false; false; false; false].
Proof. vm_compute. reflexivity. Qed.
