(* ===== verification/Controller.v ===== *)
(** The daemon's controller (daemonruntime/controller.go): the configured and the active
    configuration, their revisions, the running session and the cached resume state.

    The session manager is behind the interface [SessionManager]; the theorems about the
    controller are proved against its laws. *)

From S2P Require Import Prelude Core DaemonConfig.

#[export] Instance DConfig_eq_dec : EqDecision DConfig.
Proof.
  intros a b. destruct (decide (leaves a = leaves b)) as [H|H].
  - left. by apply leaves_inj.
  - right. intros ->. by apply H.
Defined.

(** ** The manager as the controller sees it *)

Definition set_ResumeState (r : option ResumeState) (c : CoreConfig) : CoreConfig :=
  {| cc_Protocol := cc_Protocol c; cc_ResumeState := r; cc_SessionID := cc_SessionID c;
     cc_ServerAddress := cc_ServerAddress c; cc_ServerPort := cc_ServerPort c;
     cc_Username := cc_Username c; cc_Password := cc_Password c; cc_Phone := cc_Phone c;
     cc_LoginDomain := cc_LoginDomain c; cc_AuthType := cc_AuthType c;
     cc_GraphCodeFile := cc_GraphCodeFile c; cc_CASTicket := cc_CASTicket c;
     cc_OAuth2Code := cc_OAuth2Code c; cc_SID := cc_SID c; cc_DeviceID := cc_DeviceID c;
     cc_SignKey := cc_SignKey c; cc_ClientDataFile := cc_ClientDataFile c;
     cc_UpdateBestNodesSeconds := cc_UpdateBestNodesSeconds c;
     cc_BindInterface := cc_BindInterface c; cc_AutoDetectInterface := cc_AutoDetectInterface c;
     cc_DisableAutoReconnect := cc_DisableAutoReconnect c;
     cc_DisableRemoteDNS := cc_DisableRemoteDNS c; cc_RemoteDNSServer := cc_RemoteDNSServer c;
     cc_SecondaryDNSServer := cc_SecondaryDNSServer c; cc_DNSTTL := cc_DNSTTL c;
     cc_DNSBind := cc_DNSBind c; cc_Hosts := cc_Hosts c; cc_SOCKSBind := cc_SOCKSBind c;
     cc_SOCKSUsername := cc_SOCKSUsername c; cc_SOCKSPassword := cc_SOCKSPassword c;
     cc_HTTPBind := cc_HTTPBind c; cc_TUNEnabled := cc_TUNEnabled c; cc_TUNName := cc_TUNName c;
     cc_TUNAddress := cc_TUNAddress c; cc_TUNMTU := cc_TUNMTU c;
     cc_TUNAutoRoute := cc_TUNAutoRoute c; cc_TUNRouteAll := cc_TUNRouteAll c;
     cc_TUNOutboundInterface := cc_TUNOutboundInterface c;
     cc_TUNUDPTimeoutSeconds := cc_TUNUDPTimeoutSeconds c;
     cc_TUNUDPMaxFlows := cc_TUNUDPMaxFlows c; cc_TUNDNSHijack := cc_TUNDNSHijack c;
     cc_TUNFakeIP := cc_TUNFakeIP c; cc_TUNFakeIPRange := cc_TUNFakeIPRange c;
     cc_RoutingMode := cc_RoutingMode c; cc_InternetOutbound := cc_InternetOutbound c |}.

(** [core.Manager], the operations the controller adds to or forwards. *)
Record ManagerOps (M : Type) : Type := {
  mgr_Start : CoreConfig -> M -> SessionID * option error * M;
  mgr_Stop : SessionID -> M -> option error * M;
  mgr_SetRoutingMode : SessionID -> RoutingMode -> M -> option error * M;
  mgr_ResumeState : SessionID -> M -> result error ResumeState;
}.
Arguments mgr_Start {M}.
Arguments mgr_Stop {M}.
Arguments mgr_SetRoutingMode {M}.
Arguments mgr_ResumeState {M}.

(** What a manager promises: [session_of] is the session that runs, with the configuration it
    was started with and its present routing mode. *)
Class SessionManager {M : Type} (ops : ManagerOps M) : Type := {
  session_of : M -> option (SessionID * CoreConfig * RoutingMode);
  start_ok config m id m' :
    mgr_Start ops config m = (id, None, m') ->
    session_of m' = Some (id, config, cc_RoutingMode config);
  start_err config m id e m' :
    mgr_Start ops config m = (id, Some e, m') ->
    session_of m' = None \/ session_of m' = session_of m;
  stop_any id m e m' :
    mgr_Stop ops id m = (e, m') ->
    session_of m' = None \/ (session_of m' = session_of m /\
      (e = None -> forall x cfg mode, session_of m = Some (x, cfg, mode) -> x <> id));
  routing_ok id mode m m' :
    mgr_SetRoutingMode ops id mode m = (None, m') ->
    match session_of m with
    | None => session_of m' = None
    | Some (x, cfg, _) => x = id /\ session_of m' = Some (x, cfg, mode)
    end;
  routing_err id mode m e m' :
    mgr_SetRoutingMode ops id mode m = (Some e, m') -> session_of m' = session_of m;
}.

(** ** State *)

Record Controller : Type := {
  configured : DConfig;
  active : DConfig;
  revision : Z;
  activeRevision : Z;
  initialized : bool;
  activeSessionID : SessionID;
  resumeState : option ResumeState;
}.

(** [daemonruntime.New]: the zero configuration is never read before [Initialize]; the
    defaults stand for it. *)
Definition newController : Controller :=
  {| configured := Default; active := Default; revision := 0; activeRevision := 0;
     initialized := false; activeSessionID := ""; resumeState := None |}.

Definition uint64_inc (n : Z) : Z := (n + 1) mod 2 ^ 64.

Definition set_Mode (mode : RoutingMode) (c : DConfig) : DConfig :=
  {| d_Version := d_Version c; d_Log := d_Log c; d_Control := d_Control c;
     d_Session := d_Session c; d_State := d_State c; d_ATrust := d_ATrust c;
     d_Underlay := d_Underlay c;
     d_Routing := {| routing_Mode := mode;
                     routing_InternetOutbound := routing_InternetOutbound (d_Routing c) |};
     d_DNS := d_DNS c; d_SOCKS5 := d_SOCKS5 c; d_HTTP := d_HTTP c; d_TUN := d_TUN c |}.

Record Snapshot : Type := {
  snap_Revision : Z;
  snap_Configured : DConfig;
  snap_Active : DConfig;
  snap_ActiveRevision : Z;
  snap_Pending : list Change;
}.

Definition ConfigSnapshot (c : Controller) : Snapshot :=
  {| snap_Revision := revision c; snap_Configured := configured c; snap_Active := active c;
     snap_ActiveRevision := activeRevision c;
     snap_Pending := Changes (active c) (configured c) |}.

Definition storeResumeState (state : option ResumeState) (c : Controller) : Controller :=
  {| configured := configured c; active := active c; revision := revision c;
     activeRevision := activeRevision c; initialized := initialized c;
     activeSessionID := activeSessionID c; resumeState := state |}.

Definition setActiveConfig (config : DConfig) (id : SessionID) (c : Controller) : Controller :=
  {| configured := configured c; active := config; revision := revision c;
     activeRevision := uint64_inc (activeRevision c); initialized := initialized c;
     activeSessionID := id; resumeState := resumeState c |}.

Definition setActiveSessionID (id : SessionID) (c : Controller) : Controller :=
  {| configured := configured c; active := active c; revision := revision c;
     activeRevision := activeRevision c; initialized := initialized c;
     activeSessionID := id; resumeState := resumeState c |}.

(** ** Resume states *)

Definition resumeStateMatchesConfig (state : option ResumeState) (config : CoreConfig) : bool :=
  match state with
  | None => false
  | Some s =>
      bool_decide (scope_ServerAddress (resume_Scope s) = cc_ServerAddress config)
      && bool_decide (scope_ServerPort (resume_Scope s) = cc_ServerPort config)
      && (is_empty (scope_Username (resume_Scope s))
          || bool_decide (scope_Username (resume_Scope s) = cc_Username config))
  end.

(** [if resumeStateMatchesConfig(state, config) { config.ResumeState = state }]. *)
Definition with_matching_resume (state : option ResumeState) (config : CoreConfig) : CoreConfig :=
  if resumeStateMatchesConfig state config then set_ResumeState state config else config.

Definition selectResumeState (options : SessionStartOptions) (config : CoreConfig)
    (c : Controller) : result error (option ResumeState) :=
  let policy := if is_empty (opt_Resume options) then ResumePolicyAuto else opt_Resume options in
  if bool_decide (policy = ResumePolicyAuto) then
    if resumeStateMatchesConfig (resumeState c) config then Ok (resumeState c) else Ok None
  else if bool_decide (policy = ResumePolicyNone) then Ok None
  else if bool_decide (policy = ResumePolicyProvided) then
    match opt_ResumeState options with
    | None => Err (WrapError ErrorCodeResumeStateInvalid
                     "resume_state is required when resume is provided" false None)
    | Some state =>
        if negb (resumeStateMatchesConfig (Some state) config) then
          Err (WrapError ErrorCodeResumeStateScope
                 "resume state does not match session configuration" false None)
        else Ok (Some state)
    end
  else Err (WrapError ErrorCodeInvalidRequest
              ("unsupported resume policy " +:+ quote policy) false None).

(** ** Operations

    All of them hold [operationMu], so they run one after another. A result is what the
    method returns, the controller and the manager after it. *)

Section Operations.
Context {M : Type} (ops : ManagerOps M).
(** [Validate] with some order of map walks, [daemonconfig.Load] and [MergeJSON]. *)
Variable validate : DConfig -> option error.
Variable load : string -> result error DConfig.
Variable merge_json : DConfig -> string -> result error DConfig.

Definition SetInitialResumeState (state : option ResumeState) (c : Controller) : Controller :=
  storeResumeState state c.

Definition cacheResumeStateLocked (id : SessionID) (c : Controller) (m : M) : Controller :=
  match mgr_ResumeState ops id m with
  | Ok state => storeResumeState (Some state) c
  | Err _ => c
  end.

Definition Initialize (config : DConfig) (c : Controller) (m : M) : option error * Controller * M :=
  match validate config with
  | Some err =>
      (Some (WrapError ErrorCodeConfigInvalid "validate configuration" false (Some err)), c, m)
  | None =>
      if initialized c then
        (Some (WrapError ErrorCodeInvalidStateTransition "configuration is already initialized"
                 false None), c, m)
      else
        let done id m :=
          (None, {| configured := config; active := config; revision := 1; activeRevision := 1;
                    initialized := true; activeSessionID := id; resumeState := resumeState c |}, m) in
        if session_AutoStart (d_Session config) then
          let '(id, err, m) :=
            mgr_Start ops (with_matching_resume (resumeState c) (toCoreConfig config)) m in
          match err with
          | Some e => (Some e, c, m)
          | None => done id m
          end
        else done ""%string m
  end.

(** [core_paths] of a change: what only a restart of the daemon can apply. *)
Definition core_changes (configured config : DConfig) : list string :=
  map change_Path (List.filter (fun ch => bool_decide (change_Requires ch = ApplyRequirementCoreRestart))
                     (Changes configured config)).

Definition join_paths (paths : list string) : string :=
  match paths with
  | [] => ""
  | p :: rest => fold_left (fun acc q => acc +:+ ", " +:+ q) rest p
  end.

Definition setConfigLocked (config : DConfig) (allowCoreChanges : bool) (c : Controller) (m : M)
    : option error * Controller * M :=
  match validate config with
  | Some err =>
      (Some (WrapError ErrorCodeConfigInvalid "validate configuration" false (Some err)), c, m)
  | None =>
  if negb (initialized c) then
    (Some (WrapError ErrorCodeConfigUnavailable "configuration is not initialized" true None), c, m)
  else if bool_decide (config = configured c) then (None, c, m)
  else
  let paths := if allowCoreChanges then [] else core_changes (configured c) config in
  if negb (is_nil paths) then
    (Some (WrapError ErrorCodeRestartRequired
             "Core configuration must be changed in the configuration file and Core restarted" false
             (Some (EText ("core restart required for " +:+ join_paths paths)))), c, m)
  else
  let modeChanged := negb (bool_decide (routing_Mode (d_Routing config)
                                        = routing_Mode (d_Routing (active c)))) in
  let '(err, m) :=
    if modeChanged && negb (is_empty (activeSessionID c))
    then mgr_SetRoutingMode ops (activeSessionID c) (routing_Mode (d_Routing config)) m
    else (None, m) in
  match err with
  | Some e => (Some e, c, m)
  | None =>
      let act := if modeChanged then set_Mode (routing_Mode (d_Routing config)) (active c)
                 else active c in
      let candidate := sessionConfigCandidate act config in
      let '(act, changed) :=
        if is_empty (activeSessionID c)
        then (candidate, modeChanged || negb (bool_decide (candidate = act)))
        else (act, modeChanged) in
      (None,
       {| configured := config; active := act; revision := uint64_inc (revision c);
          activeRevision := if changed then uint64_inc (activeRevision c) else activeRevision c;
          initialized := initialized c; activeSessionID := activeSessionID c;
          resumeState := resumeState c |}, m)
  end end.

Definition SetConfig (config : DConfig) (c : Controller) (m : M) : option error * Controller * M :=
  setConfigLocked config false c m.

Definition PatchConfig (patch : string) (c : Controller) (m : M) : option error * Controller * M :=
  if negb (initialized c) then
    (Some (WrapError ErrorCodeConfigUnavailable "configuration is not initialized" true None), c, m)
  else match merge_json (configured c) patch with
  | Err err =>
      (Some (WrapError ErrorCodeConfigInvalid "merge configuration patch" false (Some err)), c, m)
  | Ok config => setConfigLocked config false c m
  end.

Definition ReloadConfig (configPath : string) (c : Controller) (m : M)
    : option error * Controller * M :=
  if is_empty configPath then
    (Some (WrapError ErrorCodeConfigUnavailable "no configuration file was specified" false None),
     c, m)
  else match load configPath with
  | Err err =>
      (Some (WrapError ErrorCodeConfigInvalid "reload configuration" false (Some err)), c, m)
  | Ok config => setConfigLocked config true c m
  end.

Definition ApplyModeRestartSession : string := "restart-session".

Definition ApplyConfig (mode : string) (c : Controller) (m : M) : option error * Controller * M :=
  if negb (bool_decide (mode = ApplyModeRestartSession)) then
    (Some (WrapError ErrorCodeInvalidRequest
             ("unsupported config apply mode " +:+ quote mode) false None), c, m)
  else if negb (initialized c) then
    (Some (WrapError ErrorCodeConfigUnavailable "configuration is not initialized" true None), c, m)
  else
  let old := active c in
  let candidate := sessionConfigCandidate old (configured c) in
  if is_empty (activeSessionID c) then (None, setActiveConfig candidate ""%string c, m)
  else
  let c := cacheResumeStateLocked (activeSessionID c) c m in
  let '(newID, err, m) :=
    mgr_Start ops (with_matching_resume (resumeState c) (toCoreConfig candidate)) m in
  match err with
  | None => (None, setActiveConfig candidate newID c, m)
  | Some e =>
      let '(rollbackID, rollbackErr, m) :=
        mgr_Start ops (with_matching_resume (resumeState c) (toCoreConfig old)) m in
      match rollbackErr with
      | Some re =>
          (Some (WrapError ErrorCodeSessionStartFailed
                   "apply configuration and restore previous session" true
                   (Some (EWrap ("apply: " +:+ error_text e +:+ "; rollback: " +:+ error_text re) e))),
           setActiveSessionID ""%string c, m)
      | None => (Some e, setActiveSessionID rollbackID c, m)
      end
  end.

Definition StartSession (options : SessionStartOptions) (c : Controller) (m : M)
    : SessionID * option error * Controller * M :=
  if negb (initialized c) then
    (""%string,
     Some (WrapError ErrorCodeConfigUnavailable "configuration is not initialized" true None), c, m)
  else if negb (is_empty (activeSessionID c)) then
    (""%string,
     Some (WrapError ErrorCodeSessionAlreadyRunning "session is already running" false None), c, m)
  else
  let candidate := sessionConfigCandidate (active c) (configured c) in
  if negb (is_empty (opt_SessionID options))
     && negb (bool_decide (opt_SessionID options = session_ID (d_Session candidate))) then
    (""%string,
     Some (WrapError ErrorCodeInvalidRequest "session_id does not match configured session" false
             None), c, m)
  else match selectResumeState options (toCoreConfig candidate) c with
  | Err err => (""%string, Some err, c, m)
  | Ok state =>
      let '(id, err, m) := mgr_Start ops (set_ResumeState state (toCoreConfig candidate)) m in
      match err with
      | Some e => (id, Some e, c, m)
      | None =>
          let c := if bool_decide (opt_Resume options = ResumePolicyProvided)
                   then storeResumeState (opt_ResumeState options) c else c in
          (id, None, setActiveConfig candidate id c, m)
      end
  end.

Definition controller_Stop (id : SessionID) (c : Controller) (m : M) : option error * Controller * M :=
  let c := cacheResumeStateLocked id c m in
  let '(err, m) := mgr_Stop ops id m in
  match err with
  | Some e => (Some e, c, m)
  | None =>
      (None, if bool_decide (activeSessionID c = id) then setActiveSessionID ""%string c else c, m)
  end.

Definition controller_SetRoutingMode (id : SessionID) (mode : RoutingMode) (c : Controller) (m : M)
    : option error * Controller * M :=
  if negb (RoutingMode_Valid mode) then
    (Some (WrapError ErrorCodeConfigInvalid
             ("routing.mode " +:+ quote mode +:+ " is invalid") false None), c, m)
  else
  let '(err, m) := mgr_SetRoutingMode ops id mode m in
  match err with
  | Some e => (Some e, c, m)
  | None =>
      (None,
       {| configured := set_Mode mode (configured c); active := set_Mode mode (active c);
          revision := uint64_inc (revision c); activeRevision := uint64_inc (activeRevision c);
          initialized := initialized c; activeSessionID := activeSessionID c;
          resumeState := resumeState c |}, m)
  end.
End Operations.

(** ** Runs and their invariants *)

Section Invariant.
Context {M : Type} (ops : ManagerOps M) `{!SessionManager ops}.
Context (validate : DConfig -> option error) (load : string -> result error DConfig).
Context (merge_json : DConfig -> string -> result error DConfig).

(** One operation of the controller, or the session ending on its own. *)
Inductive controller_step : Controller * M -> Controller * M -> Prop :=
| step_session_ends c m m' :
    session_of m' = None \/ session_of m' = session_of m -> controller_step (c, m) (c, m')
| step_resume state c m : controller_step (c, m) (SetInitialResumeState state c, m)
| step_initialize config c m err c' m' :
    Initialize ops validate config c m = (err, c', m') -> controller_step (c, m) (c', m')
| step_set config c m err c' m' :
    SetConfig ops validate config c m = (err, c', m') -> controller_step (c, m) (c', m')
| step_patch patch c m err c' m' :
    PatchConfig ops validate merge_json patch c m = (err, c', m') ->
    controller_step (c, m) (c', m')
| step_reload path c m err c' m' :
    ReloadConfig ops validate load path c m = (err, c', m') -> controller_step (c, m) (c', m')
| step_apply mode c m err c' m' :
    ApplyConfig ops mode c m = (err, c', m') -> controller_step (c, m) (c', m')
| step_start options c m id err c' m' :
    StartSession ops options c m = (id, err, c', m') -> controller_step (c, m) (c', m')
| step_stop id c m err c' m' :
    controller_Stop ops id c m = (err, c', m') -> controller_step (c, m) (c', m')
| step_routing id mode c m err c' m' :
    controller_SetRoutingMode ops id mode c m = (err, c', m') -> controller_step (c, m) (c', m').

(** What a running session was started with, up to its resume state and the routing mode it
    has now. *)
Definition started_from (config : DConfig) (cfg : CoreConfig) (mode : RoutingMode) : Prop :=
  (exists old_mode, set_ResumeState None cfg = toCoreConfig (set_Mode old_mode config)) /\
  mode = routing_Mode (d_Routing config) /\
  (forall st, cc_ResumeState cfg = Some st -> resumeStateMatchesConfig (Some st) cfg = true).

Definition describes_session (c : Controller) (m : M) : Prop :=
  activeSessionID c <> ""%string ->
  match session_of m with
  | Some (id, cfg, mode) => id = activeSessionID c /\ started_from (active c) cfg mode
  | None => True
  end.

Lemma set_Mode_same c : set_Mode (routing_Mode (d_Routing c)) c = c.
Proof. by destruct c as [? ? ? ? ? ? ? []]. Qed.

Lemma set_Mode_twice a b c : set_Mode a (set_Mode b c) = set_Mode a c.
Proof. done. Qed.

Lemma matches_set_ResumeState st r cfg :
  resumeStateMatchesConfig st (set_ResumeState r cfg) = resumeStateMatchesConfig st cfg.
Proof. done. Qed.

Lemma started_from_resume config r :
  (forall st, r = Some st -> resumeStateMatchesConfig r (toCoreConfig config) = true) ->
  started_from config (set_ResumeState r (toCoreConfig config))
    (cc_RoutingMode (set_ResumeState r (toCoreConfig config))).
Proof.
  intros Hr. split_and!; [|done|].
  - exists (routing_Mode (d_Routing config)). by rewrite set_Mode_same.
  - intros st [= ->]. rewrite matches_set_ResumeState. by apply (Hr st).
Qed.

Lemma started_from_matching config r :
  started_from config (with_matching_resume r (toCoreConfig config))
    (cc_RoutingMode (with_matching_resume r (toCoreConfig config))).
Proof.
  unfold with_matching_resume. destruct (resumeStateMatchesConfig _ _) eqn:E.
  - apply started_from_resume. by intros.
  - apply (started_from_resume config None). done.
Qed.

Lemma started_from_mode config cfg mode new :
  started_from config cfg mode -> started_from (set_Mode new config) cfg new.
Proof.
  intros ([o Ho] & _ & Hr). split_and!; [|done|done]. exists o. by rewrite set_Mode_twice.
Qed.

(** A start that succeeds makes the controller describe the new session. *)
Lemma describes_started config id m m' cfg c :
  mgr_Start ops cfg m = (id, None, m') -> started_from config cfg (cc_RoutingMode cfg) ->
  active c = config -> activeSessionID c = id -> describes_session c m'.
Proof.
  intros Hs Hf <- <- _. by rewrite (start_ok _ _ _ _ Hs).
Qed.

Lemma describes_idle c m : activeSessionID c = ""%string -> describes_session c m.
Proof. by intros H ?. Qed.

Lemma setConfigLocked_describes config allow c m err c' m' :
  setConfigLocked ops validate config allow c m = (err, c', m') ->
  describes_session c m -> describes_session c' m'.
Proof.
  unfold setConfigLocked. intros H Hd.
  destruct (validate config); [by simplify_eq|]. destruct (negb _); [by simplify_eq|].
  destruct (bool_decide (config = _)); [by simplify_eq|].
  destruct (negb (is_nil _)); [by simplify_eq|].
  destruct (is_empty (activeSessionID c)) eqn:Eid.
  - apply is_empty_true in Eid. rewrite andb_false_r in H. simpl in H.
    injection H as <- <- <-. by apply describes_idle.
  - rewrite andb_true_r in H.
    destruct (bool_decide (routing_Mode _ = _)); cbn [negb] in H.
    + by simplify_eq.
    + destruct (mgr_SetRoutingMode ops _ _ m) as [[e|] m1] eqn:Hr; simplify_eq.
      * intros Hne. rewrite (routing_err _ _ _ _ _ Hr). by apply Hd.
      * intros Hne. specialize (Hd Hne). simpl. pose proof (routing_ok _ _ _ _ Hr) as Hok.
        destruct (session_of m) as [[[x cfg] mode]|]; [|by rewrite Hok].
        destruct Hok as [-> ->], Hd as [_ Hf]. split; [done|]. by eapply started_from_mode.
Qed.

Lemma cache_fields id c m :
  active (cacheResumeStateLocked ops id c m) = active c /\
  configured (cacheResumeStateLocked ops id c m) = configured c /\
  initialized (cacheResumeStateLocked ops id c m) = initialized c /\
  activeSessionID (cacheResumeStateLocked ops id c m) = activeSessionID c.
Proof. unfold cacheResumeStateLocked. by destruct (mgr_ResumeState _ _ _). Qed.

Lemma selectResumeState_matches options cfg c st :
  selectResumeState options cfg c = Ok (Some st) ->
  resumeStateMatchesConfig (Some st) cfg = true.
Proof.
  unfold selectResumeState. intros H.
  case_bool_decide.
  { destruct (resumeStateMatchesConfig (resumeState c) cfg) eqn:E; congruence. }
  case_bool_decide; [done|]. case_bool_decide; [|done].
  destruct (opt_ResumeState options) as [s|]; [|done].
  destruct (resumeStateMatchesConfig (Some s) cfg) eqn:E; simpl in H; congruence.
Qed.

Lemma ApplyConfig_describes mode c m err c' m' :
  ApplyConfig ops mode c m = (err, c', m') -> describes_session c m -> describes_session c' m'.
Proof.
  unfold ApplyConfig. intros H Hd.
  destruct (negb _); [by simplify_eq|]. destruct (negb _); [by simplify_eq|].
  destruct (is_empty (activeSessionID c)); [by simplify_eq; apply describes_idle|].
  destruct (cache_fields (activeSessionID c) c m) as (Ha & _ & _ & _).
  set (c1 := cacheResumeStateLocked _ _ _ _) in *.
  destruct (mgr_Start ops (with_matching_resume (resumeState c1)
    (toCoreConfig (sessionConfigCandidate (active c) (configured c)))) m) as [[id [e|]] m1] eqn:H1.
  - destruct (mgr_Start ops (with_matching_resume (resumeState c1) (toCoreConfig (active c))) m1)
      as [[id2 [e2|]] m2] eqn:H2; simplify_eq; [by apply describes_idle|].
    eapply describes_started; [exact H2|apply started_from_matching|done|done].
  - simplify_eq. eapply describes_started; [exact H1|apply started_from_matching|done|done].
Qed.

Lemma StartSession_describes options c m id err c' m' :
  StartSession ops options c m = (id, err, c', m') ->
  describes_session c m -> describes_session c' m'.
Proof.
  unfold StartSession. intros H Hd.
  destruct (negb _); [by simplify_eq|].
  destruct (is_empty (activeSessionID c)) eqn:Eid; simpl in H; [|by simplify_eq].
  apply is_empty_true in Eid.
  destruct (_ && _); [by simplify_eq|].
  destruct (selectResumeState _ _ c) as [st|e] eqn:Hsel; [|by simplify_eq].
  destruct (mgr_Start ops _ m) as [[i [e|]] m1] eqn:H1; simplify_eq; [by apply describes_idle|].
  eapply describes_started; [exact H1| |done|done].
  apply started_from_resume. intros s ->. by eapply selectResumeState_matches.
Qed.

Lemma controller_step_describes x y :
  controller_step x y -> describes_session x.1 x.2 -> describes_session y.1 y.2.
Proof.
  destruct 1; simpl; intros Hd.
  - intros Hne. specialize (Hd Hne). by destruct H as [->| ->].
  - done.
  - unfold Initialize in H. destruct (validate config); [by simplify_eq|].
    destruct (initialized c); [by simplify_eq|].
    destruct (session_AutoStart _); [|by simplify_eq; apply describes_idle].
    destruct (mgr_Start ops _ m) as [[id [e|]] m1] eqn:H1; simplify_eq.
    + intros Hne. specialize (Hd Hne).
      destruct (start_err _ _ _ _ _ H1) as [->| ->]; done.
    + eapply describes_started; [exact H1|apply started_from_matching|done|done].
  - by eapply setConfigLocked_describes.
  - unfold PatchConfig in H. destruct (negb _); [by simplify_eq|].
    destruct (merge_json _ _); [|by simplify_eq]. by eapply setConfigLocked_describes.
  - unfold ReloadConfig in H. destruct (is_empty path); [by simplify_eq|].
    destruct (load path); [|by simplify_eq]. by eapply setConfigLocked_describes.
  - by eapply ApplyConfig_describes.
  - by eapply StartSession_describes.
  - unfold controller_Stop in H.
    destruct (cache_fields id c m) as (Ha & _ & _ & Hs).
    set (c1 := cacheResumeStateLocked _ _ _ _) in *.
    assert (describes_session c1 m') as Hd1.
    { intros Hne. rewrite Hs in Hne. specialize (Hd Hne). rewrite Ha, Hs.
      destruct (mgr_Stop ops id m) as [e m1] eqn:Hstop.
      assert (m1 = m') as -> by (destruct e; by simplify_eq).
      destruct (stop_any _ _ _ _ Hstop) as [->|[-> _]]; done. }
    destruct (mgr_Stop ops id m) as [[e|] m1]; simplify_eq; [done|].
    case_bool_decide; [by apply describes_idle|done].
  - unfold controller_SetRoutingMode in H. destruct (negb _); [by simplify_eq|].
    destruct (mgr_SetRoutingMode ops id mode m) as [[e|] m1] eqn:Hr; simplify_eq.
    + intros Hne. rewrite (routing_err _ _ _ _ _ Hr). by apply Hd.
    + intros Hne. specialize (Hd Hne). simpl. pose proof (routing_ok _ _ _ _ Hr) as Hok.
      destruct (session_of m) as [[[x cfg] md]|]; [|by rewrite Hok].
      destruct Hok as [-> ->], Hd as [-> Hf]. split; [done|]. by eapply started_from_mode.
Qed.

(** *** Which settings an operation can apply *)

#[local] Opaque leaves core_settings.

Lemma core_settings_mode mode c : core_settings (set_Mode mode c) = core_settings c.
Proof. by vm_compute. Qed.

Definition modes_agree (c : Controller) : Prop :=
  routing_Mode (d_Routing (active c)) = routing_Mode (d_Routing (configured c)).

(** What every operation keeps: the daemon-wide settings in force, once the controller is
    initialized, and that the routing mode in force is the configured one. *)
Definition config_evolves (c c' : Controller) : Prop :=
  (initialized c = true ->
     initialized c' = true /\ core_settings (active c') = core_settings (active c)) /\
  (modes_agree c -> modes_agree c').

Lemma evolves_same c c' :
  active c' = active c -> configured c' = configured c -> initialized c' = initialized c ->
  config_evolves c c'.
Proof. unfold config_evolves, modes_agree. by intros -> -> ->. Qed.

Lemma evolves_to c c' :
  initialized c' = initialized c ->
  core_settings (active c') = core_settings (active c) -> (modes_agree c -> modes_agree c') ->
  config_evolves c c'.
Proof. intros Hi Hc Hm. split; [|exact Hm]. intros H. split; [congruence|exact Hc]. Qed.

Lemma evolves_candidate c c' :
  initialized c' = initialized c ->
  active c' = sessionConfigCandidate (active c) (configured c) -> configured c' = configured c ->
  config_evolves c c'.
Proof.
  intros Hi Ha Hc. apply evolves_to; [exact Hi|rewrite Ha; apply core_settings_candidate|].
  unfold modes_agree. by rewrite Ha, Hc.
Qed.

Lemma evolves_cache id c m : config_evolves c (cacheResumeStateLocked ops id c m).
Proof. destruct (cache_fields id c m) as (? & ? & ? & _). by apply evolves_same. Qed.

Lemma setConfigLocked_evolves config allow c m err c' m' :
  setConfigLocked ops validate config allow c m = (err, c', m') -> config_evolves c c'.
Proof.
  unfold setConfigLocked. intros H.
  destruct (validate config); [by simplify_eq|].
  destruct (initialized c) eqn:Hi; cbn [negb] in H; [|by simplify_eq].
  destruct (bool_decide (config = _)); [by simplify_eq|].
  destruct (negb (is_nil _)); [by simplify_eq|].
  destruct (if _ && _ then _ else _) as [[e|] m1]; [by simplify_eq|].
  destruct (bool_decide (routing_Mode _ = _)) eqn:Hm; cbn [negb] in H;
    destruct (is_empty (activeSessionID c)); injection H as <- <- <-;
    (apply evolves_to; [by simpl| |by try apply bool_decide_eq_true in Hm]);
    cbn [active]; rewrite ?core_settings_candidate; first [apply core_settings_mode|reflexivity].
Qed.

Lemma controller_step_evolves x y : controller_step x y -> config_evolves x.1 y.1.
Proof.
  destruct 1; simpl; [done|done|..].
  - unfold Initialize in H. destruct (validate config); [by simplify_eq|].
    destruct (initialized c) eqn:Hi; [by simplify_eq|].
    assert (forall c', active c' = configured c' -> config_evolves c c') as Hsame.
    { intros d Hd. split; [by rewrite Hi|]. intros _. unfold modes_agree. by rewrite Hd. }
    destruct (session_AutoStart _); [|simplify_eq; by apply Hsame].
    destruct (mgr_Start ops _ m) as [[? [?|]] ?]; simplify_eq; [done|by apply Hsame].
  - by eapply setConfigLocked_evolves.
  - unfold PatchConfig in H. destruct (negb _); [by simplify_eq|].
    destruct (merge_json _ _); [|by simplify_eq]. by eapply setConfigLocked_evolves.
  - unfold ReloadConfig in H. destruct (is_empty path); [by simplify_eq|].
    destruct (load path); [|by simplify_eq]. by eapply setConfigLocked_evolves.
  - unfold ApplyConfig in H. destruct (negb _); [by simplify_eq|].
    destruct (negb _); [by simplify_eq|].
    destruct (is_empty _); [injection H as <- <- <-; by apply evolves_candidate|].
    destruct (cache_fields (activeSessionID c) c m) as (Ha & Hc & Hin & _).
    set (c1 := cacheResumeStateLocked _ _ _ _) in *.
    destruct (mgr_Start ops _ m) as [[? [?|]] m1].
    + destruct (mgr_Start ops _ m1) as [[? [?|]] ?]; injection H as <- <- <-; by apply evolves_same.
    + injection H as <- <- <-. by apply evolves_candidate.
  - unfold StartSession in H. destruct (negb _); [by simplify_eq|].
    destruct (negb _); [by simplify_eq|]. destruct (_ && _); [by simplify_eq|].
    destruct (selectResumeState _ _ _); [|by simplify_eq].
    destruct (mgr_Start ops _ m) as [[? [?|]] ?]; [by simplify_eq|].
    case_bool_decide; injection H as <- <- <- <-; by apply evolves_candidate.
  - unfold controller_Stop in H. pose proof (evolves_cache id c m) as He.
    destruct (mgr_Stop ops id m) as [[?|] ?]; [by simplify_eq|].
    case_bool_decide; injection H as <- <- <-; [|exact He].
    destruct (cache_fields id c m) as (? & ? & ? & _). by apply evolves_same.
  - unfold controller_SetRoutingMode in H. destruct (negb _); [by simplify_eq|].
    destruct (mgr_SetRoutingMode ops id mode m) as [[?|] ?]; [by simplify_eq|].
    injection H as <- <- <-. apply evolves_to; [done|apply core_settings_mode|done].
Qed.

Lemma controller_run_evolves x y : rtc controller_step x y -> config_evolves x.1 y.1.
Proof.
  induction 1 as [x|x y z Hxy _ [IH1 IH2]]; [done|].
  apply controller_step_evolves in Hxy as [H1 H2]. split; [|by auto].
  intros Hi. destruct (H1 Hi) as [Hy <-]. by apply IH1.
Qed.

(** ** Theorems *)

(** C6: The controller knows the session that runs. After any run, if it records a
    session identifier then the manager runs no other session, and the one it runs was
    started from the configuration the controller calls active: the same values, up to the
    routing mode, which is the active one now, and with a resume state that was issued for
    the configured server and account. Failed operations, restored sessions and sessions
    that end on their own included. *)
Theorem controller_describes_session m0 c m id config mode :
  rtc controller_step (newController, m0) (c, m) -> activeSessionID c <> ""%string ->
  session_of m = Some (id, config, mode) ->
  id = activeSessionID c /\
  (exists old_mode, set_ResumeState None config = toCoreConfig (set_Mode old_mode (active c))) /\
  mode = routing_Mode (d_Routing (active c)) /\
  (forall st, cc_ResumeState config = Some st -> resumeStateMatchesConfig (Some st) config = true).
Proof.
  intros Hr Hne Hs.
  assert (describes_session c m) as Hd.
  { apply (rtc_closed controller_step (fun x => describes_session x.1 x.2) (newController, m0) (c, m));
      [|by apply describes_idle|done]. intros x y Hx Hxy. by eapply controller_step_describes. }
  specialize (Hd Hne). rewrite Hs in Hd. exact Hd.
Qed.

(** Each setting changes in force only at its level. Once the controller is
    initialized, no operation changes an active value that needs the core to restart; and a
    change of the routing mode, the only live setting, is never left pending. *)
Theorem settings_apply_at_their_level m0 c1 m1 c2 m2 :
  rtc controller_step (newController, m0) (c1, m1) -> initialized c1 = true ->
  rtc controller_step (c1, m1) (c2, m2) ->
  core_settings (active c2) = core_settings (active c1) /\
  (forall ch, ch ∈ snap_Pending (ConfigSnapshot c2) -> change_Requires ch <> ApplyRequirementLive).
Proof.
  intros H1 Hi H2. destruct (controller_run_evolves _ _ H2) as [Hcore Hmode].
  destruct (controller_run_evolves _ _ H1) as [_ Hmode1].
  split; [by apply Hcore|]. intros ch Hch.
  apply (live_changes _ _ _ Hch). by apply Hmode, Hmode1.
Qed.
End Invariant.
