(* ===== verification/ManagedController.v ===== *)
(** The controller over the session manager: [Manager] implements the interface
    [SessionManager] that the controller's theorems assume, so they hold of the two together.

    What the sessions themselves answer is given by an oracle, one answer per operation. *)

From S2P Require Import Prelude Core Manager DaemonConfig Controller.

(** A manager with its coordinator, the settings that each session was started with and runs
    with, and the number of operations so far. *)
Record Managed : Type := {
  mg : Manager;
  world : World;
  settings : gmap nat (CoreConfig * RoutingMode);
  tick : nat;
}.

Definition newManaged : Managed :=
  {| mg := newManager; world := newWorld; settings := ∅; tick := 0 |}.

(** What the surroundings answer to one operation. *)
Record Answers : Type := {
  on_ctx : option error;
  on_old : SessionAnswers;
  on_new : SessionAnswers;
  on_close : option error;
  on_routing : option error;
  on_resume : result error ResumeState;
}.

Section Managed.
Context (factory : string -> option (result error (option unit))) (oracle : nat -> Answers).

Definition managed_Start (config : CoreConfig) (x : Managed) : SessionID * option error * Managed :=
  let a := oracle (tick x) in
  let n := fresh (dom (ids (world x))) in
  let '(id, err, m, w) :=
    manager_Start factory config (on_ctx a) (on_old a) (on_new a) n (on_close a) (mg x) (world x) in
  (id, err, {| mg := m; world := w; settings := <[n := (config, cc_RoutingMode config)]> (settings x);
               tick := S (tick x) |}).

Definition managed_Stop (id : SessionID) (x : Managed) : option error * Managed :=
  let '(err, w) := manager_Stop id (on_old (oracle (tick x))) (world x) in
  (err, {| mg := mg x; world := w; settings := settings x; tick := S (tick x) |}).

Definition managed_SetRoutingMode (id : SessionID) (mode : RoutingMode) (x : Managed)
    : option error * Managed :=
  match manager_session id (mg x) (world x) with
  | Err e => (Some e, x)
  | Ok n =>
      match on_routing (oracle (tick x)) with
      | Some e => (Some e, {| mg := mg x; world := world x; settings := settings x;
                              tick := S (tick x) |})
      | None =>
          (None, {| mg := mg x; world := world x;
                    settings := alter (fun s => (s.1, mode)) n (settings x);
                    tick := S (tick x) |})
      end
  end.

Definition managed_ResumeState (id : SessionID) (x : Managed) : result error ResumeState :=
  match manager_session id (mg x) (world x) with
  | Err e => Err e
  | Ok _ => on_resume (oracle (tick x))
  end.

Definition managed_ops : ManagerOps Managed :=
  {| mgr_Start := managed_Start; mgr_Stop := managed_Stop;
     mgr_SetRoutingMode := managed_SetRoutingMode; mgr_ResumeState := managed_ResumeState |}.

(** The session that runs: the active one, as this manager's queries find it. *)
Definition managed_session (x : Managed) : option (SessionID * CoreConfig * RoutingMode) :=
  match current (mg x) with
  | None => None
  | Some n =>
      if bool_decide (Manager.active (world x) = Some n) then
        match ids (world x) !! n, settings x !! n with
        | Some id, Some (config, mode) => Some (id, config, mode)
        | _, _ => None
        end
      else None
  end.

(** [closeActive] leaves no session active or fails and leaves the active one. *)
Lemma closeActive_active a w err w' :
  closeActive a w = (err, w') ->
  ids w' = ids w /\ Manager.active w' = (if err is Some _ then Manager.active w else None).
Proof.
  unfold closeActive. intros H. destruct (Manager.active w) as [n|] eqn:Ea.
  2:{ injection H as <- <-. by rewrite Ea. }
  destruct (ans_Close a) as [[e|]|e], (ans_WaitClosed a) as [e'|]; simpl in H;
    injection H as <- <-; simpl; rewrite ?Ea; try done;
    (split; [done|]); by rewrite bool_decide_eq_true_2.
Qed.

Lemma manager_Start_active config ctxErr old new n closeErr m w id err m' w' :
  manager_Start factory config ctxErr old new n closeErr m w = (id, err, m', w') ->
  match err with
  | None => Manager.active w' = Some n /\ ids w' !! n = Some id /\ current m' = Some n
  | Some _ => Manager.active w' = None \/
              (Manager.active w' = Manager.active w /\ ids w' = ids w /\ m' = m)
  end.
Proof.
  unfold manager_Start. intros H.
  destruct (closeActive old w) as [e w1] eqn:Hc.
  destruct (closeActive_active _ _ _ _ Hc) as [Hids Ha].
  destruct e as [e|]; [injection H as <- <- <- <-; by right|].
  destruct ctxErr as [e|]; [injection H as <- <- <- <-; by left|].
  destruct (if is_empty (cc_SessionID config) then _ else _) as [id0 m0].
  destruct (factory _) as [[[u|]|e]|];
    [|injection H as <- <- <- <-; by left..].
  destruct (ans_Start new) as [e|]; injection H as <- <- <- <-; simpl.
  - left. by rewrite bool_decide_eq_true_2.
  - split_and!; [done|by rewrite lookup_insert_eq|done].
Qed.

Lemma manager_Stop_active id a w err w' :
  manager_Stop id a w = (err, w') ->
  ids w' = ids w /\
  (Manager.active w' = None \/
   (Manager.active w' = Manager.active w /\
    (err = None -> forall n, Manager.active w = Some n -> ids w !! n <> Some id))).
Proof.
  unfold manager_Stop. intros H. destruct (Manager.active w) as [n|] eqn:Ea.
  2:{ injection H as <- <-. split; [done|]. by left. }
  case_bool_decide as Hid; simpl in H.
  - destruct (ans_Close a) as [[e|]|e], (ans_WaitClosed a) as [e'|]; simpl in H;
      injection H as <- <-; simpl; rewrite ?Ea; (split; [done|]);
      rewrite ?bool_decide_eq_true_2 by done; first [by left|by right].
  - injection H as <- <-. split; [done|]. right. split; [done|]. by intros _ k [= <-].
Qed.

Lemma managed_session_inactive x : Manager.active (world x) = None -> managed_session x = None.
Proof. unfold managed_session. intros ->. by destruct (current _). Qed.

(** The manager keeps the promises of the interface. *)
#[export] Instance managed_manager : SessionManager managed_ops.
Proof.
  refine {| session_of := managed_session |}; simpl.
  - intros config x id x'. unfold managed_Start.
    destruct (manager_Start _ _ _ _ _ _ _ _ _) as [[[i e] m'] w'] eqn:H. intros [= -> -> <-].
    apply manager_Start_active in H as (Ha & Hi & Hc). unfold managed_session. simpl.
    by rewrite Hc, bool_decide_eq_true_2, Hi, lookup_insert_eq.
  - intros config x id e x'. unfold managed_Start.
    destruct (manager_Start _ _ _ _ _ _ _ _ _) as [[[i er] m'] w'] eqn:H. intros [= -> -> <-].
    apply manager_Start_active in H as [Ha|(Ha & Hi & ->)];
      [left; by apply managed_session_inactive|right].
    unfold managed_session. simpl. rewrite Ha, Hi.
    destruct (current (mg x)) as [n|]; [|done]. case_bool_decide; [|done].
    destruct (ids (world x) !! n) as [j|] eqn:Hj; [|done].
    rewrite lookup_insert_ne; [done|]. intros Hn. apply (is_fresh (dom (ids (world x)))).
    rewrite Hn. by eapply elem_of_dom_2.
  - intros id x e x'. unfold managed_Stop.
    destruct (manager_Stop _ _ _) as [er w'] eqn:H. intros [= -> <-].
    apply manager_Stop_active in H as [Hi [Ha|[Ha Hne]]];
      [left; by apply managed_session_inactive|right].
    unfold managed_session. simpl. rewrite Ha, Hi. split; [done|].
    intros He y cfg mode. destruct (current (mg x)) as [n|]; [|done].
    case_bool_decide as Hn; [|done]. specialize (Hne He n Hn).
    destruct (ids (world x) !! n) as [j|]; [|done].
    destruct (settings x !! n) as [[]|]; [|done]. congruence.
  - intros id mode x x'. unfold managed_SetRoutingMode, manager_session, managed_session.
    destruct (current (mg x)) as [n|] eqn:Hc; [|done]. case_bool_decide as Hid; [|done].
    destruct (on_routing _); intros [= <-]. simpl. rewrite Hc, Hid.
    case_bool_decide; [|done]. rewrite lookup_alter_eq.
    by destruct (settings x !! n) as [[]|].
  - intros id mode x e x'. unfold managed_SetRoutingMode, manager_session, managed_session.
    destruct (current (mg x)) as [n|] eqn:Hc; [|by intros [= _ <-]; rewrite ?Hc].
    case_bool_decide as Hid; [|by intros [= _ <-]; rewrite ?Hc].
    destruct (on_routing _); intros [= _ <-]. simpl. by rewrite ?Hc.
Defined.
End Managed.

(** ** A run of the controller over the manager *)

(** Sessions start and stop without errors, but for the start that is the third operation. *)
Definition restart_fails (n : nat) : Answers :=
  {| on_ctx := None; on_old := all_well;
     on_new := {| ans_Close := CloseDone None; ans_WaitClosed := None;
                  ans_Start := if bool_decide (n = 2%nat) then Some (EText "refused") else None |};
     on_close := None; on_routing := None; on_resume := Err (EText "none") |}.

Definition demo_ops : ManagerOps Managed := managed_ops atrust_factory restart_fails.

Definition demo_validate : DConfig -> option error := Validate id map_to_list.

Definition demo_merge (c : DConfig) (patch : string) : result error DConfig := Err (EText patch).

(** Another routing mode, an HTTP inbound, and another log level. *)
Definition demo_config_changed : DConfig :=
  {| d_Version := d_Version demo_config;
     d_Log := {| log_Level := "debug"; log_Output := log_Output (d_Log demo_config) |};
     d_Control := d_Control demo_config;
     d_Session := d_Session demo_config; d_State := d_State demo_config;
     d_ATrust := d_ATrust demo_config; d_Underlay := d_Underlay demo_config;
     d_Routing := {| routing_Mode := RoutingModeDirect;
                     routing_InternetOutbound := routing_InternetOutbound (d_Routing demo_config) |};
     d_DNS := d_DNS demo_config;
     d_SOCKS5 := d_SOCKS5 demo_config; d_HTTP := {| http_Enabled := true; http_Listen := "127.0.0.1:8080" |};
     d_TUN := d_TUN demo_config |}.

(** Initialized, the new configuration reloaded, applied, which fails and restores. *)
Definition demo_1 : Controller * Managed :=
  let '(_, c, m) := Initialize demo_ops demo_validate demo_config newController newManaged in (c, m).

Definition demo_2 : Controller * Managed :=
  let '(_, c, m) := setConfigLocked demo_ops demo_validate demo_config_changed true demo_1.1 demo_1.2
  in (c, m).

Definition demo_3 : Controller * Managed :=
  let '(_, c, m) := ApplyConfig demo_ops ApplyModeRestartSession demo_2.1 demo_2.2 in (c, m).

(** The failed restart left the old session settings, in the routing mode applied before it. *)
Example demo_3_eval :
  activeSessionID demo_3.1 = "default"%string /\
  (fun s => (s.1.1, cc_HTTPBind s.1.2, s.2)) <$> managed_session demo_3.2 =
    Some ("default"%string, ""%string, RoutingModeDirect) /\
  map change_Path (snap_Pending (ConfigSnapshot demo_3.1)) =
    ["inbounds.http.enabled"; "inbounds.http.listen"; "log.level"]%string.
Proof. split_and!; vm_compute; reflexivity. Qed.

(** The reload of the new configuration, which [ReloadConfig] reads. *)
Definition reload_step : Controller * Managed -> Controller * Managed -> Prop :=
  controller_step demo_ops demo_validate (fun _ => Ok demo_config_changed) demo_merge.

Lemma demo_run_1 : rtc reload_step (newController, newManaged) demo_1.
Proof.
  apply rtc_once. unfold demo_1.
  destruct (Initialize _ _ _ _ _) as [[e c] m] eqn:H. by eapply step_initialize.
Qed.

Lemma demo_run_3 : rtc reload_step demo_1 demo_3.
Proof.
  apply (rtc_l _ _ demo_2).
  - unfold demo_2. destruct demo_1 as [c1 m1]. simpl.
    destruct (setConfigLocked _ _ _ _ _ _) as [[e c] m] eqn:H.
    by eapply (step_reload _ _ _ _ "config.yaml").
  - apply rtc_once. unfold demo_3. destruct demo_2 as [c2 m2]. simpl.
    destruct (ApplyConfig _ _ _ _) as [[e c] m] eqn:H. by eapply step_apply.
Qed.

(** The session that runs after the failed restart is the one the controller describes. *)
Lemma controller_describes_session_witness :
  exists id config mode, managed_session demo_3.2 = Some (id, config, mode) /\
    id = activeSessionID demo_3.1 /\ mode = routing_Mode (d_Routing (active demo_3.1)).
Proof.
  destruct (managed_session demo_3.2) as [[[id config] mode]|] eqn:Hs;
    [|vm_compute in Hs; discriminate].
  assert (rtc reload_step (newController, newManaged) (demo_3.1, demo_3.2)) as Hr.
  { etransitivity; [exact demo_run_1|]. rewrite <-surjective_pairing. exact demo_run_3. }
  exists id, config, mode. split; [done|].
  destruct (controller_describes_session demo_ops demo_validate (fun _ => Ok demo_config_changed)
              demo_merge newManaged demo_3.1 demo_3.2 id config mode Hr) as (Hid & _ & Hm & _).
  - intros H. vm_compute in H. discriminate.
  - exact Hs.
  - by split.
Defined.

Lemma settings_apply_at_their_level_witness :
  core_settings (active demo_3.1) = core_settings (active demo_1.1) /\
  Changes (active demo_3.1) (configured demo_3.1) <> [].
Proof.
  split.
  - apply (settings_apply_at_their_level demo_ops demo_validate (fun _ => Ok demo_config_changed)
             demo_merge newManaged demo_1.1 demo_1.2 demo_3.1 demo_3.2).
    + rewrite <-surjective_pairing. exact demo_run_1.
    + by vm_compute.
    + rewrite <-!surjective_pairing. exact demo_run_3.
  - intros H. vm_compute in H. discriminate.
Defined.
