(* ===== verification/ControlEvents.v ===== *)
(** The event hub of the control service (control/v1/service.go): the events of the manager
    go to every subscriber, and authentication challenges that are still pending are shown
    to later subscribers. The critical sections of [eventMu] are the steps of a transition
    system; channels live in a store, so that a reader keeps the one it got when the
    service forgets it. *)

From S2P Require Import Prelude Core.

Definition serviceEventBuffer : nat := 128.

(** ** State *)

(** A subscriber's channel. What the reader has taken from it, what it was given when it
    subscribed and how many events had been broadcast before are not in the code. *)
Record Chan : Type := {
  ch_buffer : list Event;
  ch_closed : bool;
  ch_received : list Event;
  ch_snapshot : list Event;
  ch_since : nat;
}.

(** [eventDone] is closed when [hub_done]; [hub_history] is not in the code. *)
Record Hub : Type := {
  hub_nextEventID : Z;
  hub_subscribers : gmap Z nat;
  hub_pendingAuth : gmap string Event;
  hub_chans : list Chan;
  hub_done : bool;
  hub_history : list Event;
}.

Definition newHub : Hub :=
  {| hub_nextEventID := 0; hub_subscribers := ∅; hub_pendingAuth := ∅; hub_chans := [];
     hub_done := false; hub_history := [] |}.

Definition uint64_next (n : Z) : Z := (n + 1) mod 2 ^ 64.

Definition set_chans (subscribers : gmap Z nat) (chans : list Chan) (h : Hub) : Hub :=
  {| hub_nextEventID := hub_nextEventID h; hub_subscribers := subscribers;
     hub_pendingAuth := hub_pendingAuth h; hub_chans := chans; hub_done := hub_done h;
     hub_history := hub_history h |}.

Definition put_chan (e : Event) (c : Chan) : Chan :=
  {| ch_buffer := ch_buffer c ++ [e]; ch_closed := ch_closed c; ch_received := ch_received c;
     ch_snapshot := ch_snapshot c; ch_since := ch_since c |}.

Definition close_chan (c : Chan) : Chan :=
  {| ch_buffer := ch_buffer c; ch_closed := true; ch_received := ch_received c;
     ch_snapshot := ch_snapshot c; ch_since := ch_since c |}.

(** ** Pending challenges *)

Definition clearPendingAuthForSession (sid : SessionID) (pending : gmap string Event)
    : gmap string Event :=
  filter (fun p => event_SessionID p.2 <> sid) pending.

Definition session_is_over (e : Event) : bool :=
  bool_decide (event_State e = SessionStateFailed) || bool_decide (event_State e = SessionStateStopping)
  || bool_decide (event_State e = SessionStateStopped).

Definition updatePendingAuth (e : Event) (pending : gmap string Event) : gmap string Event :=
  let t := event_Type e in
  if bool_decide (t = EventTypeAuthRequired) || bool_decide (t = EventTypeAuthBrowserRequired) then
    match event_Auth e with
    | Some auth => if negb (is_empty (challenge_ID auth)) then <[challenge_ID auth := e]> pending
                   else pending
    | None => pending
    end
  else if bool_decide (t = EventTypeAuthCompleted) then
    match event_Auth e with
    | Some auth => if negb (is_empty (challenge_ID auth)) then delete (challenge_ID auth) pending
                   else clearPendingAuthForSession (event_SessionID e) pending
    | None => clearPendingAuthForSession (event_SessionID e) pending
    end
  else if bool_decide (t = EventTypeSessionError) || bool_decide (t = EventTypeShutdownCompleted) then
    clearPendingAuthForSession (event_SessionID e) pending
  else if bool_decide (t = EventTypeSessionStateChanged) then
    if session_is_over e then clearPendingAuthForSession (event_SessionID e) pending else pending
  else pending.

(** ** Operations

    [range] walks a map in some order. *)

Section Operations.
Variable range : gmap Z nat -> list (Z * nat).
Variable range_pending : gmap string Event -> list (string * Event).

(** One subscriber of [broadcast]: a full channel is closed and forgotten. *)
Definition deliver (e : Event) (h : Hub) (entry : Z * nat) : Hub :=
  let '(id, c) := entry in
  match hub_chans h !! c with
  | Some ch =>
      if bool_decide (length (ch_buffer ch) < serviceEventBuffer)%nat
      then set_chans (hub_subscribers h) (<[c := put_chan e ch]> (hub_chans h)) h
      else set_chans (delete id (hub_subscribers h)) (<[c := close_chan ch]> (hub_chans h)) h
  | None => h
  end.

Definition broadcast (e : Event) (h : Hub) : Hub :=
  let h := {| hub_nextEventID := hub_nextEventID h; hub_subscribers := hub_subscribers h;
              hub_pendingAuth := updatePendingAuth e (hub_pendingAuth h);
              hub_chans := hub_chans h; hub_done := hub_done h;
              hub_history := hub_history h ++ [e] |} in
  fold_left (deliver e) (range (hub_subscribers h)) h.

(** [Subscribe] sends the pending challenges while it holds the lock; [None] means that they
    do not fit into the channel, and that it waits for ever. *)
Definition Subscribe (h : Hub) : option (Z * nat * Hub) :=
  let id := uint64_next (hub_nextEventID h) in
  let snapshot := map snd (range_pending (hub_pendingAuth h)) in
  if bool_decide (length snapshot <= serviceEventBuffer)%nat then
    let c := length (hub_chans h) in
    Some (id, c,
      {| hub_nextEventID := id; hub_subscribers := <[id := c]> (hub_subscribers h);
         hub_pendingAuth := hub_pendingAuth h;
         hub_chans := hub_chans h ++ [{| ch_buffer := snapshot; ch_closed := false;
                                         ch_received := []; ch_snapshot := snapshot;
                                         ch_since := length (hub_history h) |}];
         hub_done := hub_done h; hub_history := hub_history h |})
  else None.

Definition close_subscriber (h : Hub) (entry : Z * nat) : Hub :=
  let '(id, c) := entry in
  set_chans (delete id (hub_subscribers h)) (alter close_chan c (hub_chans h)) h.

Definition removeSubscriber (id : Z) (h : Hub) : Hub :=
  match hub_subscribers h !! id with
  | Some c => close_subscriber h (id, c)
  | None => h
  end.

Definition closeSubscribers (h : Hub) : Hub :=
  fold_left close_subscriber (range (hub_subscribers h)) h.

(** The end of [forwardEvents]. *)
Definition end_events (h : Hub) : Hub :=
  let h := closeSubscribers h in
  {| hub_nextEventID := hub_nextEventID h; hub_subscribers := hub_subscribers h;
     hub_pendingAuth := hub_pendingAuth h; hub_chans := hub_chans h; hub_done := true;
     hub_history := hub_history h |}.

(** A reader takes the next event. *)
Definition receive (c : nat) (h : Hub) : Hub :=
  set_chans (hub_subscribers h)
    (alter (fun ch => match ch_buffer ch with
                      | [] => ch
                      | e :: l => {| ch_buffer := l; ch_closed := ch_closed ch;
                                     ch_received := ch_received ch ++ [e];
                                     ch_snapshot := ch_snapshot ch; ch_since := ch_since ch |}
                      end) c (hub_chans h)) h.

(** [forwardEvents] broadcasts until it ends; subscribers come and go at any time. *)
Inductive hub_step : Hub -> Hub -> Prop :=
| hub_subscribe h id c h' : Subscribe h = Some (id, c, h') -> hub_step h h'
| hub_broadcast e h : hub_done h = false -> hub_step h (broadcast e h)
| hub_receive c h : hub_step h (receive c h)
| hub_remove id h : hub_step h (removeSubscriber id h)
| hub_end h : hub_done h = false -> hub_step h (end_events h).
End Operations.

(** ** What is pending *)

(** The pending challenges after a history of events. *)
Definition pending_of (history : list Event) : gmap string Event :=
  fold_left (fun pending e => updatePendingAuth e pending) history ∅.

(** [e] announces the challenge [id]. *)
Definition announces (id : string) (e : Event) : bool :=
  (bool_decide (event_Type e = EventTypeAuthRequired)
   || bool_decide (event_Type e = EventTypeAuthBrowserRequired))
  && match event_Auth e with
     | Some auth => negb (is_empty (challenge_ID auth)) && bool_decide (challenge_ID auth = id)
     | None => false
     end.

(** [e] ends the challenge [id] of the session [sid]: it is answered, or its session has failed,
    is stopping or stopped, or reports an error. *)
Definition ends_challenge (id : string) (sid : SessionID) (e : Event) : bool :=
  let t := event_Type e in
  if bool_decide (t = EventTypeAuthCompleted) then
    match event_Auth e with
    | Some auth => if is_empty (challenge_ID auth) then bool_decide (event_SessionID e = sid)
                   else bool_decide (challenge_ID auth = id)
    | None => bool_decide (event_SessionID e = sid)
    end
  else (bool_decide (t = EventTypeSessionError) || bool_decide (t = EventTypeShutdownCompleted)
        || (bool_decide (t = EventTypeSessionStateChanged) && session_is_over e))
       && bool_decide (event_SessionID e = sid).

Lemma pending_of_snoc history e :
  pending_of (history ++ [e]) = updatePendingAuth e (pending_of history).
Proof. unfold pending_of. by rewrite fold_left_app. Qed.

Lemma clearPending_lookup sid pending id x :
  clearPendingAuthForSession sid pending !! id = Some x <->
  pending !! id = Some x /\ event_SessionID x <> sid.
Proof. apply map_lookup_filter_Some. Qed.

(** One event: the challenge it announces is pending, and so is one that was and that it
    neither announces again nor ends. *)
Lemma updatePendingAuth_lookup e pending id x :
  updatePendingAuth e pending !! id = Some x <->
  (x = e /\ announces id e = true) \/
  (pending !! id = Some x /\ announces id e = false /\
   ends_challenge id (event_SessionID x) e = false).
Proof.
  assert (forall P : Prop, P <-> (x = e /\ false = true) \/ (P /\ false = false /\ false = false)) as Hsame
    by (intros P; split; [by right|by intros [[_ ?]|[? _]]]).
  assert (forall sid, clearPendingAuthForSession sid pending !! id = Some x <->
    (x = e /\ false = true) \/ (pending !! id = Some x /\ false = false /\
       bool_decide (sid = event_SessionID x) = false)) as Hclear.
  { intros sid. rewrite clearPending_lookup, bool_decide_eq_false. intuition congruence. }
  unfold updatePendingAuth, announces, ends_challenge.
  destruct (bool_decide (event_Type e = EventTypeAuthRequired) ||
            bool_decide (event_Type e = EventTypeAuthBrowserRequired)) eqn:E1; simpl.
  { assert (event_Type e = EventTypeAuthRequired \/ event_Type e = EventTypeAuthBrowserRequired) as Ht.
    { apply orb_true_iff in E1 as [E1|E1]; apply bool_decide_eq_true in E1; auto. }
    rewrite (bool_decide_eq_false_2 (event_Type e = EventTypeAuthCompleted)),
      (bool_decide_eq_false_2 (event_Type e = EventTypeSessionError)),
      (bool_decide_eq_false_2 (event_Type e = EventTypeShutdownCompleted)),
      (bool_decide_eq_false_2 (event_Type e = EventTypeSessionStateChanged)) by (by destruct Ht as [->| ->]).
    simpl. destruct (event_Auth e) as [auth|]; [|apply Hsame].
    destruct (is_empty (challenge_ID auth)); simpl; [apply Hsame|].
    rewrite lookup_insert_Some, bool_decide_eq_true, bool_decide_eq_false. intuition congruence. }
  clear E1. destruct (bool_decide (event_Type e = EventTypeAuthCompleted)).
  { destruct (event_Auth e) as [auth|]; [|apply Hclear].
    destruct (is_empty (challenge_ID auth)); simpl; [apply Hclear|].
    rewrite lookup_delete_Some, bool_decide_eq_false. intuition congruence. }
  destruct (bool_decide (event_Type e = EventTypeSessionError) ||
            bool_decide (event_Type e = EventTypeShutdownCompleted)); simpl; [apply Hclear|].
  destruct (bool_decide (event_Type e = EventTypeSessionStateChanged)); simpl; [|apply Hsame].
  destruct (session_is_over e); simpl; [apply Hclear|apply Hsame].
Qed.

(** A challenge is pending exactly when some event announced it and no later one announced it
    again or ended it. *)
Lemma pending_of_spec history id x :
  pending_of history !! id = Some x <->
  exists before after, history = before ++ x :: after /\ announces id x = true /\
    Forall (fun e => announces id e = false /\ ends_challenge id (event_SessionID x) e = false) after.
Proof.
  induction history as [|e history IH] using rev_ind.
  { split; [done|]. by intros ([|? ?] & ? & [=] & _). }
  rewrite pending_of_snoc, updatePendingAuth_lookup, IH. split.
  - intros [[-> Ha]|((before & after & -> & Hx & Hall) & Ha & He)].
    + exists history, []. by rewrite Forall_nil.
    + exists before, (after ++ [e]). rewrite <-app_assoc. split_and!; [done|done|].
      by rewrite Forall_app, Forall_singleton.
  - intros (before & after & Heq & Hx & Hall).
    destruct after as [|y after _] using rev_ind.
    + apply app_inj_tail in Heq as [-> ->]. by left.
    + rewrite app_comm_cons, app_assoc in Heq. apply app_inj_tail in Heq as [-> ->].
      apply Forall_app in Hall as [Hall [Ha He]%Forall_singleton]. right. eauto 10.
Qed.

(** ** One event to all subscribers *)

Definition has_room (ch : Chan) : bool := bool_decide (length (ch_buffer ch) < serviceEventBuffer)%nat.

(** What [deliver] makes of a channel. *)
Definition delivered (e : Event) (ch : Chan) : Chan :=
  if has_room ch then put_chan e ch else close_chan ch.

(** The two lookups that describe a walk over the subscribers [l], where [f] is what happens to
    the channel of each and [forgets] tells which are forgotten. *)
Record walked (f : Chan -> Chan) (forgets : option Chan -> bool) (l : list (Z * nat)) (h h' : Hub)
    : Prop := {
  wk_chans : forall c, hub_chans h' !! c =
    if bool_decide (c ∈ l.*2) then f <$> hub_chans h !! c else hub_chans h !! c;
  wk_subscribers : forall id c, hub_subscribers h' !! id = Some c <->
    hub_subscribers h !! id = Some c /\
    ~ (exists d, (id, d) ∈ l /\ forgets (hub_chans h !! d) = true);
  wk_rest : hub_nextEventID h' = hub_nextEventID h /\ hub_pendingAuth h' = hub_pendingAuth h /\
    hub_done h' = hub_done h /\ hub_history h' = hub_history h;
}.

Lemma walked_nil f forgets h : walked f forgets [] h h.
Proof.
  split; [done| |done]. intros id c. split; [|by intros [? _]].
  intros H. split; [done|]. by intros (d & ?%elem_of_nil & _).
Qed.

Lemma walked_cons f forgets id c l h h1 h2 :
  c ∉ l.*2 -> walked f forgets [(id, c)] h h1 -> walked f forgets l h1 h2 ->
  walked f forgets ((id, c) :: l) h h2.
Proof.
  intros Hc [C1 S1 (N1 & P1 & D1 & Y1)] [C2 S2 (N2 & P2 & D2 & Y2)].
  assert (forall i k, (i, k) ∈ l -> hub_chans h1 !! k = hub_chans h !! k) as Hother.
  { intros i k Hin. rewrite C1. rewrite bool_decide_eq_false_2; [done|].
    change ([(id, c)].*2) with [c]. intros ->%list_elem_of_singleton.
    apply Hc, list_elem_of_fmap. by exists (i, c). }
  split.
  - intros d. rewrite C2, C1. change (((id, c) :: l).*2) with (c :: l.*2).
    change ([(id, c)].*2) with [c].
    rewrite (bool_decide_ext (d ∈ [c]) (d = c)) by apply list_elem_of_singleton.
    rewrite (bool_decide_ext (d ∈ c :: l.*2) (d = c \/ d ∈ l.*2)) by apply elem_of_cons.
    destruct (decide (d = c)) as [->|Hne].
    + by rewrite (bool_decide_eq_false_2 (c ∈ l.*2)), (bool_decide_eq_true_2 (c = c)),
        (bool_decide_eq_true_2 (c = c \/ _)) by auto.
    + rewrite (bool_decide_eq_false_2 (d = c)) by done.
      by rewrite (bool_decide_ext (d = c \/ d ∈ l.*2) (d ∈ l.*2)) by tauto.
  - intros i d. rewrite S2, S1. split.
    + intros [[H Hn1] Hn2]. split; [done|]. intros (k & [[= -> ->]|Hin]%elem_of_cons & Hf).
      * apply Hn1. exists c. split; [by left|done].
      * apply Hn2. exists k. split; [done|]. by rewrite (Hother i k).
    + intros [H Hn]. split; [split; [done|]|].
      * intros (k & [= -> ->]%list_elem_of_singleton & Hf). apply Hn. exists c.
        split; [by left|done].
      * intros (k & Hin & Hf). apply Hn. exists k. split; [by right|]. by rewrite <-(Hother i k).
  - split_and!; congruence.
Qed.

Lemma walk_walked f forgets (step : Hub -> Z * nat -> Hub) l h :
  (forall h id c, walked f forgets [(id, c)] h (step h (id, c))) -> NoDup l.*2 ->
  walked f forgets l h (fold_left step l h).
Proof.
  intros Hstep. revert h. induction l as [|[id c] l IH]; intros h Hnd; simpl; [apply walked_nil|].
  apply NoDup_cons in Hnd as [Hc Hnd]. by eapply walked_cons; [|apply Hstep|apply IH].
Qed.

Lemma walked_one f forgets id c h h' :
  (forall d, hub_chans h' !! d = if bool_decide (d = c) then f <$> hub_chans h !! d else hub_chans h !! d) ->
  (forall i d, hub_subscribers h' !! i = Some d <-> hub_subscribers h !! i = Some d /\
     ~ (i = id /\ forgets (hub_chans h !! c) = true)) ->
  hub_nextEventID h' = hub_nextEventID h /\ hub_pendingAuth h' = hub_pendingAuth h /\
    hub_done h' = hub_done h /\ hub_history h' = hub_history h ->
  walked f forgets [(id, c)] h h'.
Proof.
  intros Hc Hs Hr. split; [| |done].
  - intros d. rewrite Hc. by rewrite (bool_decide_ext (d ∈ [(id, c)].*2) (d = c)) by apply list_elem_of_singleton.
  - intros i d. rewrite Hs. split; intros [H Hn]; (split; [done|]).
    + intros (k & [= -> ->]%list_elem_of_singleton & Hch). by apply Hn.
    + intros [-> Hch]. apply Hn. exists c. split; [by left|done].
Qed.

Lemma insert_lookup_map (f : Chan -> Chan) (chans : list Chan) c ch d :
  chans !! c = Some ch ->
  <[c := f ch]> chans !! d = if bool_decide (d = c) then f <$> chans !! d else chans !! d.
Proof.
  intros Hc. case_bool_decide as Hd; [subst d|by rewrite list_lookup_insert_ne].
  rewrite Hc. apply list_lookup_insert_eq. by eapply lookup_lt_Some.
Qed.

Definition out_of_room (ch : option Chan) : bool :=
  match ch with Some ch => negb (has_room ch) | None => false end.

Lemma deliver_walked e h id c :
  walked (delivered e) out_of_room [(id, c)] h (deliver e h (id, c)).
Proof.
  unfold deliver. destruct (hub_chans h !! c) as [ch|] eqn:Hc.
  - fold (has_room ch).
    pose proof (fun d => insert_lookup_map (delivered e) (hub_chans h) c ch d Hc) as Hch.
    unfold delivered in Hch at 1.
    destruct (has_room ch) eqn:Hr; apply walked_one; try done; rewrite Hc; simpl; rewrite Hr; simpl.
    + intros i d. intuition congruence.
    + intros i d. rewrite lookup_delete_Some.
      split; [intros [Hn H]; split; [done|by intros [-> _]]
             |intros [H Hn]; split; [intros ->; by apply Hn|done]].
  - apply walked_one; [|rewrite Hc; simpl|done].
    + intros d. case_bool_decide; [subst; by rewrite Hc|done].
    + intros i d. intuition congruence.
Qed.

Lemma close_subscriber_walked h id c :
  walked close_chan (fun _ => true) [(id, c)] h (close_subscriber h (id, c)).
Proof.
  apply walked_one; [| |done]; unfold close_subscriber; simpl.
  - intros d. case_bool_decide as Hd; [by subst; rewrite list_lookup_alter_eq|].
    by rewrite list_lookup_alter_ne.
  - intros i d. rewrite lookup_delete_Some.
      split; [intros [Hn H]; split; [done|by intros [-> _]]
             |intros [H Hn]; split; [intros ->; by apply Hn|done]].
Qed.

(** ** Invariant *)

(** What a channel holds: its reader has got, or will get from the buffer, the pending
    challenges at its subscription and then the events since, in order and without a gap;
    all of them while it is open. *)
Record chan_ok (history : list Event) (ch : Chan) : Prop := {
  co_events : exists n,
    ch_received ch ++ ch_buffer ch = ch_snapshot ch ++ take n (drop (ch_since ch) history) /\
    (ch_closed ch = false -> length history <= ch_since ch + n)%nat;
  co_since : (ch_since ch <= length history)%nat;
  co_room : (length (ch_buffer ch) <= serviceEventBuffer)%nat;
  co_snapshot : ch_snapshot ch ≡ₚ (map_to_list (pending_of (take (ch_since ch) history))).*2;
}.

Record hub_inv (h : Hub) : Prop := {
  hi_next : hub_nextEventID h = Z.of_nat (length (hub_chans h));
  hi_pending : hub_pendingAuth h = pending_of (hub_history h);
  hi_owner : forall id c, hub_subscribers h !! id = Some c ->
    id = Z.of_nat (S c) /\ (c < length (hub_chans h))%nat;
  hi_open : forall c ch, hub_chans h !! c = Some ch ->
    (ch_closed ch = false <-> hub_subscribers h !! Z.of_nat (S c) = Some c);
  hi_chan : forall c ch, hub_chans h !! c = Some ch -> chan_ok (hub_history h) ch;
}.

Lemma newHub_inv : hub_inv newHub.
Proof. by split. Qed.

(** A channel after one more event, and one that is closed. *)
Lemma chan_ok_put history e ch :
  chan_ok history ch -> ch_closed ch = false -> has_room ch = true ->
  chan_ok (history ++ [e]) (put_chan e ch).
Proof.
  intros [(n & He & Hn) Hs Hr Hp] Ho Hroom%bool_decide_eq_true. specialize (Hn Ho).
  split; simpl; rewrite ?length_app; simpl; [|lia|lia|by rewrite take_app_le].
  exists (S n). split; [|lia].
  rewrite app_assoc, He, <-app_assoc. f_equal. rewrite drop_app_le by lia.
  rewrite !take_ge; [done|rewrite length_app, length_drop; simpl; lia|rewrite length_drop; lia].
Qed.

Lemma chan_ok_closed history history' ch :
  chan_ok history ch -> ch_closed ch = true -> chan_ok (history ++ history') ch.
Proof.
  intros [(n & He & _) Hs Hr Hp] Hc. split; rewrite ?length_app; [|lia|done|by rewrite take_app_le].
  exists (n `min` (length history - ch_since ch))%nat. split; [|congruence].
  rewrite He. f_equal. rewrite drop_app_le by lia. rewrite take_app_le by (rewrite length_drop; lia).
  destruct (decide (n <= length history - ch_since ch)%nat).
  - by rewrite Nat.min_l by lia.
  - rewrite Nat.min_r by lia. rewrite !take_ge; [done|rewrite length_drop; lia..].
Qed.

Lemma chan_ok_close history ch : chan_ok history ch -> chan_ok history (close_chan ch).
Proof. intros [(n & He & _) Hs Hr Hp]. split; [|done..]. by exists n. Qed.

Section Invariant.
Context (range : gmap Z nat -> list (Z * nat)) (range_pending : gmap string Event -> list (string * Event)).
Context (range_perm : forall m, range m ≡ₚ map_to_list m).
Context (range_pending_perm : forall m, range_pending m ≡ₚ map_to_list m).

Lemma elem_of_subscribers h id c :
  (id, c) ∈ range (hub_subscribers h) <-> hub_subscribers h !! id = Some c.
Proof. rewrite range_perm. apply elem_of_map_to_list. Qed.

Lemma elem_of_range_chan h c :
  hub_inv h -> c ∈ (range (hub_subscribers h)).*2 <-> hub_subscribers h !! Z.of_nat (S c) = Some c.
Proof.
  intros Hi. rewrite list_elem_of_fmap. split.
  - intros ([id d] & -> & Hin%elem_of_subscribers). simpl. by destruct (hi_owner h Hi id d Hin) as [<- _].
  - intros H. exists (Z.of_nat (S c), c). split; [done|]. by apply elem_of_subscribers.
Qed.

Lemma range_chans_NoDup h : hub_inv h -> NoDup (range (hub_subscribers h)).*2.
Proof.
  intros Hi. apply NoDup_fmap_2_strong; [|rewrite range_perm; apply NoDup_map_to_list].
  intros [i c] [j d] H1%elem_of_subscribers H2%elem_of_subscribers. simpl. intros ->.
  destruct (hi_owner h Hi i d H1) as [-> _]. by destruct (hi_owner h Hi j d H2) as [-> _].
Qed.

(** The channels keep their number in a walk. *)
Lemma walked_length f forgets l h h' :
  walked f forgets l h h' -> length (hub_chans h') = length (hub_chans h).
Proof.
  intros [Hc _ _]. assert (forall c, is_Some (hub_chans h' !! c) <-> is_Some (hub_chans h !! c)) as H.
  { intros c. rewrite Hc. case_bool_decide; [by rewrite fmap_is_Some|done]. }
  apply Nat.le_antisymm; apply Nat.le_ngt; intros Hlt.
  - apply lookup_lt_is_Some_2, H, lookup_lt_is_Some in Hlt. lia.
  - apply lookup_lt_is_Some_2, H, lookup_lt_is_Some in Hlt. lia.
Qed.

Lemma walk_length (step : Hub -> Z * nat -> Hub) l h :
  (forall h id c, length (hub_chans (step h (id, c))) = length (hub_chans h)) ->
  length (hub_chans (fold_left step l h)) = length (hub_chans h).
Proof.
  intros Hs. revert h. induction l as [|[i d] l IH]; intros h; simpl; [done|]. by rewrite IH, Hs.
Qed.

(** A walk over all subscribers keeps the invariant, when what it makes of an open channel is
    right after the history [history]. *)
Lemma walked_inv f forgets h h' history :
  hub_inv h ->
  walked f forgets (range (hub_subscribers h))
    {| hub_nextEventID := hub_nextEventID h; hub_subscribers := hub_subscribers h;
       hub_pendingAuth := pending_of (hub_history h ++ history); hub_chans := hub_chans h;
       hub_done := hub_done h; hub_history := hub_history h ++ history |} h' ->
  (forall c ch, hub_chans h !! c = Some ch -> ch_closed ch = false ->
     chan_ok (hub_history h ++ history) (f ch) /\ ch_closed (f ch) = forgets (Some ch)) ->
  hub_inv h'.
Proof.
  intros Hi Hw Hf. pose proof (walked_length _ _ _ _ _ Hw) as Hlen.
  destruct Hw as [Hc Hs (Hn & Hp & Hd & Hh)]. simpl in *.
  split.
  - rewrite Hn, Hlen. apply (hi_next h Hi).
  - by rewrite Hp, Hh.
  - intros id c [H _]%Hs. rewrite Hlen. by apply (hi_owner h Hi).
  - intros c ch' Hch. rewrite Hs. rewrite Hc in Hch.
    rewrite (bool_decide_ext _ _ (elem_of_range_chan h c Hi)) in Hch. case_bool_decide as Hin.
    + apply fmap_Some in Hch as (ch & Hch & ->). destruct (Hf c ch Hch) as [_ Ho].
      { by apply (hi_open h Hi c ch). }
      rewrite Ho. split; [intros Hfalse|intros [_ H]].
      * split; [done|]. intros (d & Hd'%elem_of_subscribers & Hforget).
        assert (d = c) as -> by congruence. by rewrite Hch, Hfalse in Hforget.
      * destruct (forgets (Some ch)) eqn:E; [|done]. destruct H. exists c. rewrite Hch.
        split; [by apply elem_of_subscribers|done].
    + rewrite (hi_open h Hi c ch' Hch). split; [by intros ?|by intros [? _]].
  - intros c ch' Hch. rewrite Hh. rewrite Hc in Hch.
    rewrite (bool_decide_ext _ _ (elem_of_range_chan h c Hi)) in Hch. case_bool_decide as Hin.
    + apply fmap_Some in Hch as (ch & Hch & ->). apply (Hf c ch Hch). by apply (hi_open h Hi c ch).
    + apply chan_ok_closed; [by apply (hi_chan h Hi c)|].
      destruct (ch_closed ch') eqn:E; [done|]. by apply (hi_open h Hi c ch') in E.
Qed.

Lemma broadcast_inv e h : hub_inv h -> hub_inv (broadcast range e h).
Proof.
  intros Hi. apply (walked_inv (delivered e) out_of_room h _ [e] Hi).
  - unfold broadcast. rewrite pending_of_snoc, <-(hi_pending h Hi). simpl.
    apply walk_walked; [apply deliver_walked|by apply range_chans_NoDup].
  - intros c ch Hch Ho. unfold delivered. simpl. destruct (has_room ch) eqn:Hr; simpl.
    + split; [|done]. apply chan_ok_put; [by apply (hi_chan h Hi c)|done|done].
    + split; [|done]. apply chan_ok_closed; [|done]. by apply chan_ok_close, (hi_chan h Hi c).
Qed.

Lemma end_events_inv h : hub_inv h -> hub_inv (end_events range h).
Proof.
  intros Hi. assert (hub_inv (closeSubscribers range h)) as [? ? ? ? ?]; [|by split].
  apply (walked_inv close_chan (fun _ => true) h _ [] Hi).
  - rewrite app_nil_r, <-(hi_pending h Hi). destruct h as [n s p cs d y].
    apply walk_walked; [apply close_subscriber_walked|]. by apply (range_chans_NoDup _ Hi).
  - intros c ch Hch _. split; [|done]. rewrite app_nil_r. by apply chan_ok_close, (hi_chan h Hi c).
Qed.

Lemma removeSubscriber_inv id h : hub_inv h -> hub_inv (removeSubscriber id h).
Proof.
  intros Hi. unfold removeSubscriber. destruct (hub_subscribers h !! id) as [c|] eqn:Hc; [|done].
  destruct (hi_owner h Hi id c Hc) as [-> Hlt]. destruct Hi as [Hn Hp Ho Hop Hch]. split; simpl.
  - by rewrite length_alter.
  - done.
  - intros i d [_ H]%lookup_delete_Some. rewrite length_alter. by apply Ho.
  - intros d ch H. rewrite list_lookup_alter in H. case_decide as Hd.
    + subst d. apply fmap_Some in H as (x & Hx & ->). simpl. split; [done|].
      by rewrite lookup_delete_eq.
    + rewrite lookup_delete_ne by lia. by apply Hop.
  - intros d ch H. rewrite list_lookup_alter in H. case_decide as Hd; [|by eapply Hch].
    apply fmap_Some in H as (x & Hx & ->). by eapply chan_ok_close, Hch.
Qed.

Lemma receive_inv c h : hub_inv h -> hub_inv (receive c h).
Proof.
  intros [Hn Hp Ho Hop Hch]. split; simpl; rewrite ?length_alter; try done.
  - intros d ch H. rewrite list_lookup_alter in H. case_decide as Hd; [|by eapply Hop].
    subst d. apply fmap_Some in H as (x & Hx & ->).
    rewrite <-(Hop c x Hx). by destruct (ch_buffer x).
  - intros d ch H. rewrite list_lookup_alter in H. case_decide as Hd; [|by eapply Hch].
    subst d. apply fmap_Some in H as (x & Hx & ->).
    destruct (Hch c x Hx) as [He Hs Hr Hsn]. destruct (ch_buffer x) as [|e l] eqn:E.
    + by apply (Hch c).
    + split; simpl; [|done| |done]; [|simpl in Hr; lia]. by rewrite <-app_assoc.
Qed.

Lemma Subscribe_inv h id c h' :
  Z.of_nat (length (hub_chans h')) < 2 ^ 64 -> hub_inv h ->
  Subscribe range_pending h = Some (id, c, h') -> hub_inv h'.
Proof.
  intros Hfew Hi H. unfold Subscribe in H. case_bool_decide as Hroom; [|done].
  injection H as <- <- <-. simpl in *. rewrite length_app in Hfew. simpl in Hfew.
  assert (uint64_next (hub_nextEventID h) = Z.of_nat (S (length (hub_chans h)))) as Hid.
  { unfold uint64_next. rewrite (hi_next h Hi). rewrite Z.mod_small by lia. lia. }
  destruct Hi as [Hn Hp Ho Hop Hch]. split; simpl; rewrite ?length_app; simpl; rewrite ?Hid.
  - lia.
  - done.
  - intros i d [[<- <-]|[Hne H]]%lookup_insert_Some; [split; lia|].
    destruct (Ho i d H). split; [done|lia].
  - intros d ch [H|[H1 H2]]%lookup_app_Some.
    + pose proof (lookup_lt_Some _ _ _ H). rewrite lookup_insert_ne by lia. by apply Hop.
    + apply list_lookup_singleton_Some in H2 as [Hd <-].
      assert (d = length (hub_chans h)) as -> by lia. simpl. by rewrite lookup_insert_eq.
  - intros d ch [H|[H1 H2]]%lookup_app_Some; [by eapply Hch|].
    apply list_lookup_singleton_Some in H2 as [_ <-].
    split; simpl; [|lia|done|].
    + exists 0%nat. split; [by rewrite app_nil_r|lia].
    + rewrite firstn_all, <-Hp. by rewrite range_pending_perm.
Qed.

Lemma hub_step_chans h h' :
  hub_step range range_pending h h' -> (length (hub_chans h) <= length (hub_chans h'))%nat.
Proof.
  destruct 1 as [h id c h' H|e h _|c h|id h|h _].
  - unfold Subscribe in H. case_bool_decide; [|done]. injection H as <- <- <-. simpl.
    rewrite length_app. lia.
  - unfold broadcast. by rewrite walk_length by (intros; eapply walked_length, deliver_walked).
  - simpl. by rewrite length_alter.
  - unfold removeSubscriber. destruct (hub_subscribers h !! id); [|done]. simpl. by rewrite length_alter.
  - unfold end_events, closeSubscribers. simpl.
    by rewrite walk_length by (intros; eapply walked_length, close_subscriber_walked).
Qed.

Definition hub_reachable (h : Hub) : Prop := rtc (hub_step range range_pending) newHub h.

Lemma hub_reachable_inv h :
  hub_reachable h -> Z.of_nat (length (hub_chans h)) < 2 ^ 64 -> hub_inv h.
Proof.
  apply (rtc_closed (hub_step range range_pending)
    (fun h => Z.of_nat (length (hub_chans h)) < 2 ^ 64 -> hub_inv h)); [|intros _; apply newHub_inv].
  intros x y Hx Hstep Hfew. pose proof (hub_step_chans _ _ Hstep) as Hle.
  assert (hub_inv x) as Hix by (apply Hx; lia).
  destruct Hstep; [by eapply Subscribe_inv|by apply broadcast_inv|by apply receive_inv
    |by apply removeSubscriber_inv|by apply end_events_inv].
Qed.
End Invariant.

(** C19: Subscribers miss no event. In whatever order events are broadcast and subscribers come,
    read, leave or are dropped: what a reader has received, followed by what waits in its
    channel, is the challenges that were pending when it subscribed and then the events
    since, in order and without a gap, all of them while the channel is open. A challenge
    is pending exactly when an event announced it and no later event announced it again,
    completed it or ended its session. An event closes the channel of a subscriber that is
    128 events behind, and of no other. A subscription waits for ever when more than 128
    challenges are pending, and only then. *)
Theorem subscribers_see_all_events (range : gmap Z nat -> list (Z * nat))
    (range_pending : gmap string Event -> list (string * Event))
    (range_perm : forall m, range m ≡ₚ map_to_list m)
    (range_pending_perm : forall m, range_pending m ≡ₚ map_to_list m) (h : Hub)
    (Hr : hub_reachable range range_pending h)
    (few : Z.of_nat (length (hub_chans h)) < 2 ^ 64) :
  (forall c ch, hub_chans h !! c = Some ch ->
     ch_snapshot ch ≡ₚ (map_to_list (pending_of (take (ch_since ch) (hub_history h)))).*2 /\
     (exists n, ch_received ch ++ ch_buffer ch
                = ch_snapshot ch ++ take n (drop (ch_since ch) (hub_history h))) /\
     (ch_closed ch = false ->
        ch_received ch ++ ch_buffer ch = ch_snapshot ch ++ drop (ch_since ch) (hub_history h)) /\
     (length (ch_buffer ch) <= serviceEventBuffer)%nat) /\
  (forall id e, hub_pendingAuth h !! id = Some e <->
     exists before after, hub_history h = before ++ e :: after /\ announces id e = true /\
       Forall (fun x => announces id x = false /\ ends_challenge id (event_SessionID e) x = false)
         after) /\
  (forall e c ch, hub_chans h !! c = Some ch ->
     hub_chans (broadcast range e h) !! c = Some (if ch_closed ch then ch else delivered e ch)) /\
  (Subscribe range_pending h = None <-> (serviceEventBuffer < size (hub_pendingAuth h))%nat).
Proof.
  pose proof (hub_reachable_inv range range_pending range_perm range_pending_perm h Hr few) as Hi.
  split_and!.
  - intros c ch Hch. destruct (hi_chan h Hi c ch Hch) as [(n & He & Hn) Hs Hb Hp].
    split_and!; [done|by exists n| |done]. intros Ho. rewrite He, take_ge; [done|].
    rewrite length_drop. specialize (Hn Ho). lia.
  - intros id e. rewrite (hi_pending h Hi). apply pending_of_spec.
  - intros e c ch Hch. unfold broadcast.
    destruct (walk_walked (delivered e) out_of_room (deliver e) (range (hub_subscribers h))
      {| hub_nextEventID := hub_nextEventID h; hub_subscribers := hub_subscribers h;
         hub_pendingAuth := updatePendingAuth e (hub_pendingAuth h); hub_chans := hub_chans h;
         hub_done := hub_done h; hub_history := hub_history h ++ [e] |}
      (deliver_walked e) ltac:(by apply (range_chans_NoDup range range_perm))) as [Hc _ _].
    simpl in Hc. rewrite Hc, Hch.
    rewrite (bool_decide_ext _ _ (elem_of_range_chan range range_perm h c Hi)).
    rewrite <-(bool_decide_ext _ _ (hi_open h Hi c ch Hch)). by destruct (ch_closed ch).
  - unfold Subscribe. rewrite length_map.
    rewrite (Permutation_length (range_pending_perm (hub_pendingAuth h))), length_map_to_list.
    case_bool_decide; [split; [done|lia]|split; [lia|done]].
Qed.

(** ** Witnesses *)

Definition demo_challenge : AuthChallenge :=
  {| challenge_ID := "c1"; challenge_Kind := AuthChallengeSMS; challenge_Prompt := "";
     challenge_Image := []; challenge_URL := ""; challenge_Choices := []; challenge_AllowSkip := false |}.

Definition demo_required : Event := authEvent "s" EventTypeAuthRequired demo_challenge 0.

Definition subscribe_or (h : Hub) : Hub :=
  match Subscribe map_to_list h with Some (_, _, h') => h' | None => h end.

Definition demo_hub : Hub := receive 0 (subscribe_or (broadcast map_to_list demo_required newHub)).

Lemma demo_hub_run : hub_reachable map_to_list map_to_list demo_hub.
Proof.
  eapply rtc_l; [by apply (hub_broadcast _ _ demo_required)|].
  eapply rtc_l; [by eapply hub_subscribe|]. apply rtc_once, hub_receive.
Qed.

Lemma subscribers_see_all_events_witness :
  hub_pendingAuth demo_hub !! "c1"%string = Some demo_required /\
  (exists ch, hub_chans demo_hub !! 0%nat = Some ch /\ ch_received ch = [demo_required]) /\
  Subscribe map_to_list demo_hub <> None.
Proof.
  destruct (subscribers_see_all_events map_to_list map_to_list (fun _ => reflexivity _)
    (fun _ => reflexivity _) demo_hub demo_hub_run ltac:(by vm_compute)) as (H1 & H2 & _ & H4).
  split_and!.
  - apply H2. exists [], []. by split_and!.
  - eexists. split; by vm_compute.
  - intros H%H4. vm_compute in H. lia.
Defined.

(** A subscription that comes when the manager's events have ended gets a channel that nobody
    will ever close: its reader waits until its own context ends. *)
Example late_subscriber_is_forgotten :
  exists h c, hub_reachable map_to_list map_to_list h /\ hub_done h = true /\
    (forall ch, hub_chans h !! c = Some ch -> ch_closed ch = false) /\ (c < length (hub_chans h))%nat.
Proof.
  exists (subscribe_or (end_events map_to_list newHub)), 0%nat. split_and!.
  - eapply rtc_l; [by apply hub_end|]. by eapply rtc_once, hub_subscribe.
  - done.
  - by intros ch [= <-].
  - by vm_compute; lia.
Qed.
