(* ===== verification/ControlService.v ===== *)
(** The control service (control/v1): the methods of the protocol over an interface to the
    manager, the lines of the JSONL server, and the daemon's controller behind them. Encoding
    and decoding JSON are parameters; a request is a step of the manager, since each of its
    operations is atomic. *)

From S2P Require Import Prelude Core DaemonConfig Controller ManagedController.

Definition ProtocolVersion : Z := 2.

Definition MethodHello : string := "hello".
Definition MethodSessionStart : string := "session.start".
Definition MethodAuthRespond : string := "auth.respond".
Definition MethodSessionStop : string := "session.stop".
Definition MethodSessionStatus : string := "session.status".
Definition MethodResourcesGet : string := "resources.get".
Definition MethodResourcesRefresh : string := "resources.refresh".
Definition MethodServicesGet : string := "services.get".
Definition MethodTrafficGet : string := "traffic.get".
Definition MethodConnectionsList : string := "connections.list".
Definition MethodConnectionClose : string := "connection.close".
Definition MethodTransportConnectionsList : string := "transport_connections.list".
Definition MethodRoutingModeGet : string := "routing.mode.get".
Definition MethodRoutingModeSet : string := "routing.mode.set".
Definition MethodResumeStateGet : string := "resume_state.get".
Definition MethodConfigGet : string := "config.get".
Definition MethodConfigSet : string := "config.set".
Definition MethodConfigPatch : string := "config.patch".
Definition MethodConfigApply : string := "config.apply".
Definition MethodConfigReload : string := "config.reload".

(** ** The manager that the service controls

    [core.Manager] and the two optional interfaces [sessionController] and
    [configController]. The statistics are only passed on. *)

Record ConfigOps (M : Type) : Type := {
  cfg_Snapshot : M -> Snapshot;
  cfg_Set : DConfig -> M -> result error Snapshot * M;
  cfg_Patch : string -> M -> result error Snapshot * M;
  cfg_Apply : string -> M -> result error Snapshot * M;
  cfg_Reload : M -> result error Snapshot * M;
}.
Arguments cfg_Snapshot {M}.
Arguments cfg_Set {M}.
Arguments cfg_Patch {M}.
Arguments cfg_Apply {M}.
Arguments cfg_Reload {M}.

Record ServiceManager (Stats Conns TConns M : Type) : Type := {
  sm_RespondAuth : AuthResponse -> M -> option error * M;
  sm_Stop : SessionID -> M -> option error * M;
  sm_Status : SessionID -> M -> SessionStatus;
  sm_Resources : SessionID -> M -> result error Resources;
  sm_RefreshResources : SessionID -> M -> result error Resources * M;
  sm_Services : SessionID -> M -> result error (list ServiceStatus);
  sm_TrafficStats : SessionID -> M -> result error Stats;
  sm_Connections : SessionID -> M -> result error Conns;
  sm_CloseConnection : SessionID -> string -> M -> option error * M;
  sm_TransportConnections : SessionID -> M -> result error TConns;
  sm_RoutingMode : SessionID -> M -> result error RoutingMode;
  sm_SetRoutingMode : SessionID -> RoutingMode -> M -> option error * M;
  sm_ResumeState : SessionID -> M -> result error ResumeState;
  sm_StartSession : option (SessionStartOptions -> M -> result error SessionID * M);
  sm_config : option (ConfigOps M);
}.
Arguments sm_RespondAuth {Stats Conns TConns M}.
Arguments sm_Stop {Stats Conns TConns M}.
Arguments sm_Status {Stats Conns TConns M}.
Arguments sm_Resources {Stats Conns TConns M}.
Arguments sm_RefreshResources {Stats Conns TConns M}.
Arguments sm_Services {Stats Conns TConns M}.
Arguments sm_TrafficStats {Stats Conns TConns M}.
Arguments sm_Connections {Stats Conns TConns M}.
Arguments sm_CloseConnection {Stats Conns TConns M}.
Arguments sm_TransportConnections {Stats Conns TConns M}.
Arguments sm_RoutingMode {Stats Conns TConns M}.
Arguments sm_SetRoutingMode {Stats Conns TConns M}.
Arguments sm_ResumeState {Stats Conns TConns M}.
Arguments sm_StartSession {Stats Conns TConns M}.
Arguments sm_config {Stats Conns TConns M}.

(** [json.Unmarshal] into the parameters of each method. [None] as [patch] is an absent one. *)
Record ParamDecoders : Type := {
  dec_Hello : string -> result error Z;
  dec_SessionStart : string -> result error SessionStartOptions;
  dec_AuthResponse : string -> result error AuthResponse;
  dec_SessionID : string -> result error SessionID;
  dec_ConnectionClose : string -> result error (SessionID * string);
  dec_RoutingModeSet : string -> result error (SessionID * RoutingMode);
  dec_ConfigSet : string -> result error DConfig;
  dec_ConfigPatch : string -> result error string;
  dec_ConfigApply : string -> result error string;
}.

Inductive CallResult (Stats Conns TConns : Type) : Type :=
| HelloResult (version : string) (protocol : Z) (capabilities : list string)
| SessionStartResult (id : SessionID) (resumeRevision : Z) (reused : bool)
| EmptyResult
| SessionStopResult
| StatusResult (status : SessionStatus)
| ResourcesResult (resources : Resources)
| ServicesResult (services : list ServiceStatus)
| TrafficResult (stats : Stats)
| ConnectionsResult (conns : Conns)
| ConnectionCloseResult
| TransportConnectionsResult (conns : TConns)
| RoutingModeResult (mode : RoutingMode)
| ResumeStateResult (state : ResumeState)
| SnapshotResult (snapshot : Snapshot).
Arguments HelloResult {Stats Conns TConns}.
Arguments SessionStartResult {Stats Conns TConns}.
Arguments EmptyResult {Stats Conns TConns}.
Arguments SessionStopResult {Stats Conns TConns}.
Arguments StatusResult {Stats Conns TConns}.
Arguments ResourcesResult {Stats Conns TConns}.
Arguments ServicesResult {Stats Conns TConns}.
Arguments TrafficResult {Stats Conns TConns}.
Arguments ConnectionsResult {Stats Conns TConns}.
Arguments ConnectionCloseResult {Stats Conns TConns}.
Arguments TransportConnectionsResult {Stats Conns TConns}.
Arguments RoutingModeResult {Stats Conns TConns}.
Arguments ResumeStateResult {Stats Conns TConns}.
Arguments SnapshotResult {Stats Conns TConns}.

(** [decodeParams]. *)
Definition decodeParams {T} (dec : string -> result error T) (raw : string) : result error T :=
  match dec (if is_empty raw then "{}"%string else raw) with
  | Err err => Err (WrapError ErrorCodeInvalidRequest "decode request params" false (Some err))
  | Ok t => Ok t
  end.

(** [asCoreError] of the package. *)
Definition control_asCoreError (err : error) : error :=
  asCoreError ErrorCodeUnknown (error_text err) err.

(** ** [Call] *)

Section Call.
Context {Stats Conns TConns M : Type} (sm : ServiceManager Stats Conns TConns M).
Context (dec : ParamDecoders) (coreVersion : string) (capabilities : list string).

Definition Answer : Type := result error (CallResult Stats Conns TConns) * M.

(** [if err := decodeParams(params, &t); err != nil { return nil, err }]. *)
Definition decoded {T} (d : string -> result error T) (params : string) (m : M)
    (k : T -> Answer) : Answer :=
  match decodeParams d params with
  | Err err => (Err err, m)
  | Ok t => k t
  end.

(** [return service.manager.Query(id)]. *)
Definition query {T} (make : T -> CallResult Stats Conns TConns) (r : result error T) (m : M) : Answer :=
  (let? t := r in Ok (make t), m).

Definition finish {T} (make : T -> CallResult Stats Conns TConns) (a : result error T * M) : Answer :=
  query make a.1 a.2.

(** [if err := service.manager.Do(..); err != nil { return nil, err }; return result, nil]. *)
Definition perform (res : CallResult Stats Conns TConns) (a : option error * M) : Answer :=
  (match a.1 with Some err => Err err | None => Ok res end, a.2).

Definition unavailable (message : string) (m : M) : Answer :=
  (Err (WrapError ErrorCodeMethodNotFound message false None), m).

Definition with_config (m : M) (k : ConfigOps M -> Answer) : Answer :=
  match sm_config sm with
  | None => unavailable "configuration control is unavailable" m
  | Some controller => k controller
  end.

Definition Call (method params : string) (m : M) : Answer :=
  if bool_decide (method = MethodHello) then
    decoded (dec_Hello dec) params m (fun version =>
      if negb (bool_decide (version = ProtocolVersion)) then
        (Err (WrapError ErrorCodeProtocolUnsupported
                ("protocol version " +:+ itoa version +:+ " is unsupported") false None), m)
      else (Ok (HelloResult coreVersion ProtocolVersion capabilities), m))
  else if bool_decide (method = MethodSessionStart) then
    match sm_StartSession sm with
    | None => unavailable "configured session control is unavailable" m
    | Some start =>
        decoded (dec_SessionStart dec) params m (fun options =>
          match start options m with
          | (Err err, m) => (Err err, m)
          | (Ok id, m) =>
              (Ok (match sm_ResumeState sm id m with
                   | Ok state => SessionStartResult id (resume_Revision state) (resume_Reused state)
                   | Err _ => SessionStartResult id 0 false
                   end), m)
          end)
    end
  else if bool_decide (method = MethodAuthRespond) then
    decoded (dec_AuthResponse dec) params m (fun response =>
      perform EmptyResult (sm_RespondAuth sm response m))
  else if bool_decide (method = MethodSessionStop) then
    decoded (dec_SessionID dec) params m (fun id => perform SessionStopResult (sm_Stop sm id m))
  else if bool_decide (method = MethodSessionStatus) then
    decoded (dec_SessionID dec) params m (fun id =>
      let status := sm_Status sm id m in
      if is_empty (status_ID status)
      then (Err (WrapError ErrorCodeSessionNotFound "session not found" false None), m)
      else (Ok (StatusResult status), m))
  else if bool_decide (method = MethodResourcesGet) then
    decoded (dec_SessionID dec) params m (fun id => query ResourcesResult (sm_Resources sm id m) m)
  else if bool_decide (method = MethodResourcesRefresh) then
    decoded (dec_SessionID dec) params m (fun id => finish ResourcesResult (sm_RefreshResources sm id m))
  else if bool_decide (method = MethodServicesGet) then
    decoded (dec_SessionID dec) params m (fun id => query ServicesResult (sm_Services sm id m) m)
  else if bool_decide (method = MethodTrafficGet) then
    decoded (dec_SessionID dec) params m (fun id => query TrafficResult (sm_TrafficStats sm id m) m)
  else if bool_decide (method = MethodConnectionsList) then
    decoded (dec_SessionID dec) params m (fun id => query ConnectionsResult (sm_Connections sm id m) m)
  else if bool_decide (method = MethodConnectionClose) then
    decoded (dec_ConnectionClose dec) params m (fun p =>
      perform ConnectionCloseResult (sm_CloseConnection sm p.1 p.2 m))
  else if bool_decide (method = MethodTransportConnectionsList) then
    decoded (dec_SessionID dec) params m (fun id =>
      query TransportConnectionsResult (sm_TransportConnections sm id m) m)
  else if bool_decide (method = MethodRoutingModeGet) then
    decoded (dec_SessionID dec) params m (fun id => query RoutingModeResult (sm_RoutingMode sm id m) m)
  else if bool_decide (method = MethodRoutingModeSet) then
    decoded (dec_RoutingModeSet dec) params m (fun p =>
      perform (RoutingModeResult p.2) (sm_SetRoutingMode sm p.1 p.2 m))
  else if bool_decide (method = MethodResumeStateGet) then
    decoded (dec_SessionID dec) params m (fun id => query ResumeStateResult (sm_ResumeState sm id m) m)
  else if bool_decide (method = MethodConfigGet) then
    with_config m (fun controller => (Ok (SnapshotResult (cfg_Snapshot controller m)), m))
  else if bool_decide (method = MethodConfigSet) then
    with_config m (fun controller =>
      decoded (dec_ConfigSet dec) params m (fun config =>
        finish SnapshotResult (cfg_Set controller config m)))
  else if bool_decide (method = MethodConfigPatch) then
    with_config m (fun controller =>
      decoded (dec_ConfigPatch dec) params m (fun patch =>
        if is_empty patch
        then (Err (WrapError ErrorCodeInvalidRequest "config patch is required" false None), m)
        else finish SnapshotResult (cfg_Patch controller patch m)))
  else if bool_decide (method = MethodConfigApply) then
    with_config m (fun controller =>
      decoded (dec_ConfigApply dec) params m (fun mode =>
        finish SnapshotResult (cfg_Apply controller mode m)))
  else if bool_decide (method = MethodConfigReload) then
    with_config m (fun controller => finish SnapshotResult (cfg_Reload controller m))
  else (Err (WrapError ErrorCodeMethodNotFound
               ("method " +:+ quote method +:+ " is not supported") false None), m).

(** ** The JSONL server (control/v1/server.go)

    A request's [ID] is its JSON text; it is empty when it is absent. *)
Record Request : Type := { req_ID : string; req_Method : string; req_Params : string }.

Record Response : Type := {
  rsp_ID : string;
  rsp_Result : option (CallResult Stats Conns TConns);
  rsp_Error : option error;
}.

Definition normalizeID (id : string) : string := if is_empty id then "null"%string else id.

(** [handleLine]: the response that is written. *)
Definition handleLine (unmarshal : string -> result error Request) (line : string) (m : M)
    : Response * M :=
  match unmarshal line with
  | Err err =>
      ({| rsp_ID := "null"; rsp_Result := None;
          rsp_Error := Some (WrapError ErrorCodeInvalidRequest "decode JSONL request" false
                               (Some err)) |}, m)
  | Ok request =>
      if is_empty (req_ID request) || is_empty (req_Method request) then
        ({| rsp_ID := normalizeID (req_ID request); rsp_Result := None;
            rsp_Error := Some (WrapError ErrorCodeInvalidRequest
                                 "request ID and method are required" false None) |}, m)
      else
        match Call (req_Method request) (req_Params request) m with
        | (Ok res, m) => ({| rsp_ID := req_ID request; rsp_Result := Some res; rsp_Error := None |}, m)
        | (Err err, m) =>
            ({| rsp_ID := req_ID request; rsp_Result := None;
                rsp_Error := Some (control_asCoreError err) |}, m)
        end
  end.
End Call.

(** ** What the methods do to the manager *)

Definition query_methods : list string :=
  [MethodHello; MethodSessionStatus; MethodResourcesGet; MethodServicesGet; MethodTrafficGet;
   MethodConnectionsList; MethodTransportConnectionsList; MethodRoutingModeGet;
   MethodResumeStateGet; MethodConfigGet].

Definition action_methods : list string :=
  [MethodSessionStart; MethodAuthRespond; MethodSessionStop; MethodResourcesRefresh;
   MethodConnectionClose; MethodRoutingModeSet; MethodConfigSet; MethodConfigPatch;
   MethodConfigApply; MethodConfigReload].

(** The parameters of the method decode; [config.get] and [config.reload] have none. *)
Definition params_ok (dec : ParamDecoders) (method params : string) : bool :=
  if bool_decide (method = MethodHello) then is_ok (decodeParams (dec_Hello dec) params)
  else if bool_decide (method = MethodSessionStart) then is_ok (decodeParams (dec_SessionStart dec) params)
  else if bool_decide (method = MethodAuthRespond) then is_ok (decodeParams (dec_AuthResponse dec) params)
  else if bool_decide (method = MethodConnectionClose) then is_ok (decodeParams (dec_ConnectionClose dec) params)
  else if bool_decide (method = MethodRoutingModeSet) then is_ok (decodeParams (dec_RoutingModeSet dec) params)
  else if bool_decide (method = MethodConfigSet) then is_ok (decodeParams (dec_ConfigSet dec) params)
  else if bool_decide (method = MethodConfigPatch) then is_ok (decodeParams (dec_ConfigPatch dec) params)
  else if bool_decide (method = MethodConfigApply) then is_ok (decodeParams (dec_ConfigApply dec) params)
  else if bool_decide (method = MethodConfigGet) then true
  else if bool_decide (method = MethodConfigReload) then true
  else is_ok (decodeParams (dec_SessionID dec) params).

(** Case analysis on the method of a call. *)
Ltac by_method H :=
  unfold Call in H;
  repeat match type of H with
  | (if bool_decide (?m = ?k) then _ else _) = _ =>
      destruct (decide (m = k)) as [->|?];
      [rewrite (bool_decide_eq_true_2 (k = k)) in H by done
      |rewrite (bool_decide_eq_false_2 (m = k)) in H by done]
  end.

Section CallSpec.
Context {Stats Conns TConns M : Type} (sm : ServiceManager Stats Conns TConns M).
Context (dec : ParamDecoders) (coreVersion : string) (capabilities : list string).

Lemma decoded_cases {T} (d : string -> result error T) params m k a :
  decoded (Stats := Stats) (Conns := Conns) (TConns := TConns) (M := M) d params m k = a ->
  (exists e, decodeParams d params = Err e /\ a = (Err e, m)) \/
  (exists t, decodeParams d params = Ok t /\ a = k t).
Proof. unfold decoded. destruct (decodeParams d params); intros <-; eauto. Qed.

(** A call that changes the manager has one of the ten methods that act, and parameters that
    decode. *)
Lemma Call_changes method params m r m' :
  Call sm dec coreVersion capabilities method params m = (r, m') ->
  m' = m \/ (method ∈ action_methods /\ params_ok dec method params = true).
Proof.
  intros H. by_method H.
  all: try (unfold with_config, unavailable in H; destruct (sm_config sm) as [controller|]; [|simplify_eq; by left]).
  all: try (destruct (sm_StartSession sm) as [start|]; [|unfold unavailable in H; simplify_eq; by left]).
  all: try (apply decoded_cases in H as [(e & Hd & [= -> ->])|(t & Hd & H)]; [by left|]).
  all: try (right; split; [apply (bool_decide_unpack (_ ∈ _)); by vm_compute|];
            unfold params_ok; rewrite ?bool_decide_eq_false_2 by discriminate;
            rewrite ?bool_decide_eq_true_2 by done; by rewrite ?Hd).
  all: left; unfold query in H; try case_match; by simplify_eq.
Qed.
End CallSpec.

Lemma as_core_is_core e c : as_core e = Some c -> exists code msg detail r i, c = ECore code msg detail r i.
Proof.
  revert e c. fix IH 1. intros e c. destruct e as [m|n m|m i|errs|m n a b|code m d r i]; simpl; try done.
  - apply IH.
  - revert c. induction errs as [|x l IHl]; intros c; [done|].
    pose proof (IH x) as Hx. destruct (as_core x); [|apply IHl]. intros [= ->]. by apply Hx.
  - intros [= <-]. eauto 10.
Qed.

Lemma control_asCoreError_is_core err :
  exists code msg detail r i, control_asCoreError err = ECore code msg detail r i.
Proof.
  unfold control_asCoreError, asCoreError. destruct (as_core err) eqn:E; [by eapply as_core_is_core|].
  unfold WrapError. eauto 10.
Qed.

(** Every line of the control protocol gets one answer, and only well-formed requests act.
    The answer carries the identifier of the request, or [null] when there is none; it has
    either a result or an error, and the error is a [core.Error]. A line that does not
    decode or lacks an identifier or a method, a method that is unknown or only queries,
    and parameters that do not decode leave the manager as it is. *)
Theorem control_responses {Stats Conns TConns M : Type} (sm : ServiceManager Stats Conns TConns M)
    (dec : ParamDecoders) (coreVersion : string) (capabilities : list string)
    (unmarshal : string -> result error Request) (line : string) (m : M) :
  let '(r, m') := handleLine sm dec coreVersion capabilities unmarshal line m in
  rsp_ID r = match unmarshal line with Ok q => normalizeID (req_ID q) | Err _ => "null"%string end /\
  ((exists res, rsp_Result r = Some res /\ rsp_Error r = None) \/
   (exists code msg detail retry i, rsp_Result r = None /\
      rsp_Error r = Some (ECore code msg detail retry i))) /\
  (m' <> m -> exists q, unmarshal line = Ok q /\ req_ID q <> ""%string /\
     req_Method q ∈ action_methods /\ params_ok dec (req_Method q) (req_Params q) = true).
Proof.
  unfold handleLine. destruct (unmarshal line) as [q|e].
  2:{ simpl. split_and!; [done|right; unfold WrapError; eauto 10|done]. }
  destruct (is_empty (req_ID q) || is_empty (req_Method q)) eqn:E.
  { simpl. split_and!; [done|right; unfold WrapError; eauto 10|done]. }
  apply orb_false_iff in E as [E _]. unfold normalizeID. rewrite E.
  destruct (Call _ _ _ _ _ _ m) as [r m'] eqn:Hc.
  assert (m' <> m -> exists q', Ok (E := error) q = Ok q' /\ req_ID q' <> ""%string /\
     req_Method q' ∈ action_methods /\ params_ok dec (req_Method q') (req_Params q') = true) as Hm.
  { intros Hne. apply Call_changes in Hc as [->|[Ha Hp]]; [done|]. exists q.
    by apply bool_decide_eq_false in E. }
  destruct r as [res|err]; simpl; (split_and!; [done| |exact Hm]); [left; by exists res|right].
  destruct (control_asCoreError_is_core err) as (code & msg & d & rt & i & ->). by exists code, msg, d, rt, i.
Qed.

(** ** The controller behind the service

    [daemonruntime.Controller] overrides [Stop] and [SetRoutingMode] of the manager it embeds and
    adds the two optional interfaces; the other operations are the manager's. *)

Record ManagerQueries (Stats Conns TConns M : Type) : Type := {
  mq_RespondAuth : AuthResponse -> M -> option error * M;
  mq_Status : SessionID -> M -> SessionStatus;
  mq_Resources : SessionID -> M -> result error Resources;
  mq_RefreshResources : SessionID -> M -> result error Resources * M;
  mq_Services : SessionID -> M -> result error (list ServiceStatus);
  mq_TrafficStats : SessionID -> M -> result error Stats;
  mq_Connections : SessionID -> M -> result error Conns;
  mq_CloseConnection : SessionID -> string -> M -> option error * M;
  mq_TransportConnections : SessionID -> M -> result error TConns;
  mq_RoutingMode : SessionID -> M -> result error RoutingMode;
}.
Arguments mq_RespondAuth {Stats Conns TConns M}.
Arguments mq_Status {Stats Conns TConns M}.
Arguments mq_Resources {Stats Conns TConns M}.
Arguments mq_RefreshResources {Stats Conns TConns M}.
Arguments mq_Services {Stats Conns TConns M}.
Arguments mq_TrafficStats {Stats Conns TConns M}.
Arguments mq_Connections {Stats Conns TConns M}.
Arguments mq_CloseConnection {Stats Conns TConns M}.
Arguments mq_TransportConnections {Stats Conns TConns M}.
Arguments mq_RoutingMode {Stats Conns TConns M}.

(** These operations start no session. *)
Class StartsNoSession {Stats Conns TConns M} (ops : ManagerOps M) `{!SessionManager ops}
    (mq : ManagerQueries Stats Conns TConns M) : Prop := {
  respond_starts_none response m : let m' := (mq_RespondAuth mq response m).2 in
    session_of m' = None \/ session_of m' = session_of m;
  refresh_starts_none id m : let m' := (mq_RefreshResources mq id m).2 in
    session_of m' = None \/ session_of m' = session_of m;
  close_starts_none id conn m : let m' := (mq_CloseConnection mq id conn m).2 in
    session_of m' = None \/ session_of m' = session_of m;
}.

Section Controlled.
Context {Stats Conns TConns M : Type} (ops : ManagerOps M) (mq : ManagerQueries Stats Conns TConns M).
Context (validate : DConfig -> option error) (load : string -> result error DConfig).
Context (merge_json : DConfig -> string -> result error DConfig) (configPath : string).

(** An operation of the embedded manager, and one of the controller that returns a snapshot. *)
Definition on_manager {T} (a : T * M) (c : Controller) : T * (Controller * M) := (a.1, (c, a.2)).

Definition with_snapshot (a : option error * Controller * M) : result error Snapshot * (Controller * M) :=
  let '(err, c, m) := a in
  (match err with Some e => Err e | None => Ok (ConfigSnapshot c) end, (c, m)).

Definition without_snapshot (a : option error * Controller * M) : option error * (Controller * M) :=
  let '(err, c, m) := a in (err, (c, m)).

Definition controller_service : ServiceManager Stats Conns TConns (Controller * M) :=
  {| sm_RespondAuth r s := on_manager (mq_RespondAuth mq r s.2) s.1;
     sm_Stop id s := without_snapshot (controller_Stop ops id s.1 s.2);
     sm_Status id s := mq_Status mq id s.2;
     sm_Resources id s := mq_Resources mq id s.2;
     sm_RefreshResources id s := on_manager (mq_RefreshResources mq id s.2) s.1;
     sm_Services id s := mq_Services mq id s.2;
     sm_TrafficStats id s := mq_TrafficStats mq id s.2;
     sm_Connections id s := mq_Connections mq id s.2;
     sm_CloseConnection id conn s := on_manager (mq_CloseConnection mq id conn s.2) s.1;
     sm_TransportConnections id s := mq_TransportConnections mq id s.2;
     sm_RoutingMode id s := mq_RoutingMode mq id s.2;
     sm_SetRoutingMode id mode s := without_snapshot (controller_SetRoutingMode ops id mode s.1 s.2);
     sm_ResumeState id s := mgr_ResumeState ops id s.2;
     sm_StartSession :=
       Some (fun options s =>
         let '(id, err, c, m) := StartSession ops options s.1 s.2 in
         (match err with Some e => Err e | None => Ok id end, (c, m)));
     sm_config :=
       Some {| cfg_Snapshot s := ConfigSnapshot s.1;
               cfg_Set config s := with_snapshot (SetConfig ops validate config s.1 s.2);
               cfg_Patch patch s := with_snapshot (PatchConfig ops validate merge_json patch s.1 s.2);
               cfg_Apply mode s := with_snapshot (ApplyConfig ops mode s.1 s.2);
               cfg_Reload s := with_snapshot (ReloadConfig ops validate load configPath s.1 s.2) |} |}.
End Controlled.

Section ControlledSpec.
Context {Stats Conns TConns M : Type} (ops : ManagerOps M) `{!SessionManager ops}.
Context (mq : ManagerQueries Stats Conns TConns M) `{!StartsNoSession ops mq}.
Context (validate : DConfig -> option error) (load : string -> result error DConfig).
Context (merge_json : DConfig -> string -> result error DConfig) (configPath : string).
Context (dec : ParamDecoders) (coreVersion : string) (capabilities : list string).

#[local] Abbreviation service := (controller_service ops mq validate load merge_json configPath).
#[local] Abbreviation step := (controller_step ops validate load merge_json).

(** One call is one operation of the controller at most. *)
Lemma Call_controller_step method params s r s' :
  Call service dec coreVersion capabilities method params s = (r, s') -> s' = s \/ step s s'.
Proof.
  destruct s as [c m]. intros H. by_method H.
  all: try (unfold with_config in H; simpl in H).
  all: try (apply decoded_cases in H as [(e & Hd & [= -> ->])|(t & Hd & H)]; [by left|]).
  all: unfold finish, query, perform, with_snapshot, without_snapshot in H; simpl in H.
  all: try (left; repeat case_match; by simplify_eq).
  - right. destruct (StartSession ops t c m) as [[[id err] c'] m'] eqn:E.
    assert (s' = (c', m')) as -> by (destruct err; by simplify_eq). by eapply step_start.
  - right. simplify_eq. apply step_session_ends, respond_starts_none.
  - right. destruct (controller_Stop ops t c m) as [[err c'] m'] eqn:E. simplify_eq. by eapply step_stop.
  - right. simplify_eq. apply step_session_ends, refresh_starts_none.
  - right. simplify_eq. apply step_session_ends, close_starts_none.
  - right. destruct (controller_SetRoutingMode ops t.1 t.2 c m) as [[err c'] m'] eqn:E. simplify_eq.
    by eapply step_routing.
  - right. destruct (SetConfig ops validate t c m) as [[err c'] m'] eqn:E. simplify_eq.
    by eapply step_set.
  - destruct (is_empty t); [left; by simplify_eq|right].
    destruct (PatchConfig ops validate merge_json t c m) as [[err c'] m'] eqn:E. simpl in H. simplify_eq.
    by eapply step_patch.
  - right. destruct (ApplyConfig ops t c m) as [[err c'] m'] eqn:E. simplify_eq. by eapply step_apply.
  - right. destruct (ReloadConfig ops validate load configPath c m) as [[err c'] m'] eqn:E. simplify_eq.
    by eapply step_reload.
Qed.

Lemma handleLine_controller_step unmarshal line s r s' :
  handleLine service dec coreVersion capabilities unmarshal line s = (r, s') -> s' = s \/ step s s'.
Proof.
  unfold handleLine. destruct (unmarshal line) as [q|e]; [|intros [= <- <-]; by left].
  destruct (_ || _); [intros [= <- <-]; by left|].
  destruct (Call _ _ _ _ _ _ s) as [a s1] eqn:Hc. intros H.
  assert (s1 = s') as -> by (destruct a; by simplify_eq). by eapply Call_controller_step.
Qed.

End ControlledSpec.

(** ** Witnesses

    The manager of [ManagedController] behind the controller: answering a challenge, refreshing
    resources and closing a connection leave its sessions as they are. *)

Definition demo_queries : ManagerQueries unit unit unit Managed :=
  {| mq_RespondAuth _ m := (None, m); mq_Status _ _ := zeroSessionStatus;
     mq_Resources _ _ := Ok zeroResources; mq_RefreshResources _ m := (Ok zeroResources, m);
     mq_Services _ _ := Ok []; mq_TrafficStats _ _ := Ok tt; mq_Connections _ _ := Ok tt;
     mq_CloseConnection _ _ m := (None, m); mq_TransportConnections _ _ := Ok tt;
     mq_RoutingMode _ _ := Ok RoutingModeDirect |}.

#[export] Instance demo_queries_quiet : StartsNoSession demo_ops demo_queries.
Proof. split; intros; by right. Qed.

(** Lines that are just a method, and parameters that are always the same. *)
Definition demo_unmarshal (line : string) : result error Request :=
  if is_empty line then Err (EText "unexpected end of JSON input")
  else Ok {| req_ID := "1"; req_Method := line; req_Params := "" |}.

Definition demo_decoders : ParamDecoders :=
  {| dec_Hello _ := Ok 2; dec_SessionStart _ := Err (EText "no"); dec_AuthResponse _ := Err (EText "no");
     dec_SessionID _ := Ok "default"%string; dec_ConnectionClose _ := Err (EText "no");
     dec_RoutingModeSet _ := Ok ("default"%string, RoutingModeGlobal);
     dec_ConfigSet _ := Ok demo_config_changed; dec_ConfigPatch _ := Err (EText "no");
     dec_ConfigApply _ := Ok ApplyModeRestartSession |}.

(** A configuration that needs a restart of the daemon is refused, and changes nothing. *)
Definition demo_line (line : string) : Response * (Controller * Managed) :=
  handleLine (controller_service demo_ops demo_queries demo_validate (fun _ => Ok demo_config_changed)
    demo_merge "config.yaml") demo_decoders "1.0" [] demo_unmarshal line demo_1.

Example demo_refused :
  (fun e => ErrorCodeOf (Some e)) <$> rsp_Error (demo_line MethodConfigSet).1 = Some ErrorCodeRestartRequired.
Proof. vm_compute. reflexivity. Qed.
