(* ===== verification/JSONLServer.v ===== *)
(** The JSONL server (control/v1/server.go): [Serve] reads lines, answers each in a goroutine of its own,
    and forwards the events of its subscription. The goroutines write through one lock, so
    values are never mixed, but a write may fail, and the server does not look; the calls of the service are those of ControlService, one step each. *)

From S2P Require Import Prelude Core DaemonConfig Controller ManagedController ControlService.

Definition maxJSONLMessageSize : Z := 4 * 1024 * 1024.

(** ** The scanner

    [bufio.Scanner] with [bufio.ScanLines] and a buffer of at most [max] bytes: a line and its end have to fit
    into it. *)
Definition bufio_ErrTooLong : error := EVar "bufio.ErrTooLong" "bufio.Scanner: token too long".

Definition newline_char : ascii := ascii_of_nat 10.
Definition return_char : ascii := ascii_of_nat 13.

(** [dropCR]; the line is reversed. *)
Definition token (line : list ascii) : string :=
  of_chars (rev (match line with c :: rest => if bool_decide (c = return_char) then rest else line | [] => [] end)).

(** [line] is what was read of the current line, in reverse, and [size] its length. *)
Fixpoint scan_from (max size : Z) (line input : list ascii) (readErr : option error) : list string * option error :=
  match input with
  | [] => (match line with [] => [] | _ => [token line] end, readErr)
  | c :: input =>
      if bool_decide (c = newline_char) then
        let '(tokens, err) := scan_from max 0 [] input readErr in (token line :: tokens, err)
      else if bool_decide (max <= size + 1) then ([], Some bufio_ErrTooLong)
      else scan_from max (size + 1) (c :: line) input readErr
  end.

(** The lines that [Scan] yields and [Err] afterwards; [readErr] is what ends the input, but for [io.EOF]. *)
Definition scan_lines (input : string) (readErr : option error) : list string * option error :=
  scan_from maxJSONLMessageSize 0 [] (chars input) readErr.

(** ** State *)

Section Serve.
Context {M R E : Type} (handle : string -> M -> R * M).
(** [ownService]: the server closes the service. *)
Context (ownService : bool).

(** The calls of [write], in the order of its lock, each with what became of it: the value is [written] as a whole,
    or [Encode] has failed, with the value or a part of it lost. [write] drops the error. *)
Inductive Output : Type :=
| OutResponse (task : nat) (r : R) (written : bool)
| OutEvent (e : E) (written : bool).

(** The goroutine of a line. *)
Inductive LineTask : Type :=
| TaskCalling (line : string)
| TaskWriting (line : string) (r : R)
| TaskDone (line : string) (r : R) (written : bool).

Inductive ForwardPC : Type :=
| ForwardReading
| ForwardWriting (e : E)
| ForwardDone.

Inductive ServePC : Type :=
| Scanning
| WaitingRequests
| ClosingService
| WaitingEvents (closeErr : option error)
| Served (res : option error).

(** [js_sent] is what was sent on the channel of the subscription so far; it is not in the code. *)
Record JSONLState : Type := {
  js_input : list string;
  js_scanErr : option error;
  js_tasks : list LineTask;
  js_manager : M;
  js_out : list Output;
  js_sent : list E;
  js_chan : list E;
  js_chanClosed : bool;
  js_eventsCancelled : bool;
  js_forward : ForwardPC;
  js_pc : ServePC;
}.

Definition Serve_state (tokens : list string * option error) (m : M) (pending : list E) : JSONLState :=
  {| js_input := tokens.1; js_scanErr := tokens.2; js_tasks := []; js_manager := m; js_out := []; js_sent := pending;
     js_chan := pending; js_chanClosed := false; js_eventsCancelled := false; js_forward := ForwardReading;
     js_pc := Scanning |}.

Definition set_tasks (input : list string) (tasks : list LineTask) (m : M) (out : list Output) (s : JSONLState) : JSONLState :=
  {| js_input := input; js_scanErr := js_scanErr s; js_tasks := tasks; js_manager := m; js_out := out;
     js_sent := js_sent s; js_chan := js_chan s; js_chanClosed := js_chanClosed s;
     js_eventsCancelled := js_eventsCancelled s; js_forward := js_forward s; js_pc := js_pc s |}.

Definition set_forward (chan : list E) (out : list Output) (pc : ForwardPC) (s : JSONLState) : JSONLState :=
  {| js_input := js_input s; js_scanErr := js_scanErr s; js_tasks := js_tasks s; js_manager := js_manager s; js_out := out;
     js_sent := js_sent s; js_chan := chan; js_chanClosed := js_chanClosed s;
     js_eventsCancelled := js_eventsCancelled s; js_forward := pc; js_pc := js_pc s |}.

Definition set_pc (cancelled : bool) (pc : ServePC) (s : JSONLState) : JSONLState :=
  {| js_input := js_input s; js_scanErr := js_scanErr s; js_tasks := js_tasks s; js_manager := js_manager s;
     js_out := js_out s; js_sent := js_sent s; js_chan := js_chan s; js_chanClosed := js_chanClosed s;
     js_eventsCancelled := cancelled; js_forward := js_forward s; js_pc := pc |}.

(** ** Steps *)

(** [for scanner.Scan()]. *)
Definition serve_scan (s : JSONLState) : option JSONLState :=
  match js_pc s, js_input s with
  | Scanning, line :: rest => Some (set_tasks rest (js_tasks s ++ [TaskCalling line]) (js_manager s) (js_out s) s)
  | Scanning, [] => Some (set_pc (js_eventsCancelled s) WaitingRequests s)
  | _, _ => None
  end.

(** The call, and the answer's [write]. *)
Definition line_call (i : nat) (s : JSONLState) : option JSONLState :=
  match js_tasks s !! i with
  | Some (TaskCalling line) =>
      let '(r, m) := handle line (js_manager s) in
      Some (set_tasks (js_input s) (<[i := TaskWriting line r]> (js_tasks s)) m (js_out s) s)
  | _ => None
  end.

Definition line_write (i : nat) (written : bool) (s : JSONLState) : option JSONLState :=
  match js_tasks s !! i with
  | Some (TaskWriting line r) =>
      Some (set_tasks (js_input s) (<[i := TaskDone line r written]> (js_tasks s)) (js_manager s)
              (js_out s ++ [OutResponse i r written]) s)
  | _ => None
  end.

Definition task_done (t : LineTask) : bool := match t with TaskDone _ _ _ => true | _ => false end.

(** [requestWaitGroup.Wait] and what follows it. *)
Definition serve_requests (s : JSONLState) : option JSONLState :=
  match js_pc s with
  | WaitingRequests =>
      if forallb task_done (js_tasks s) then
        Some (if ownService then set_pc (js_eventsCancelled s) ClosingService s else set_pc true (WaitingEvents None) s)
      else None
  | _ => None
  end.

(** [service.Close], which answers [closeErr]. *)
Definition serve_close (closeErr : option error) (s : JSONLState) : option JSONLState :=
  match js_pc s with
  | ClosingService => Some (set_pc (js_eventsCancelled s) (WaitingEvents closeErr) s)
  | _ => None
  end.

(** [eventWaitGroup.Wait] and the result. *)
Definition serve_return (ctx : option error) (s : JSONLState) : option JSONLState :=
  match js_pc s, js_forward s with
  | WaitingEvents closeErr, ForwardDone =>
      let scanErr := match ctx with Some _ => None | None => js_scanErr s end in
      Some (set_pc (js_eventsCancelled s) (Served (errors_Join [scanErr; closeErr])) s)
  | _, _ => None
  end.

(** [forwardEvents]: what its [select] may take, and the write. *)
Definition forward_event (s : JSONLState) : option JSONLState :=
  match js_forward s, js_chan s with
  | ForwardReading, e :: rest => Some (set_forward rest (js_out s) (ForwardWriting e) s)
  | ForwardReading, [] => if js_chanClosed s then Some (set_forward [] (js_out s) ForwardDone s) else None
  | _, _ => None
  end.

Definition forward_cancelled (s : JSONLState) : option JSONLState :=
  match js_forward s with
  | ForwardReading => if js_eventsCancelled s then Some (set_forward (js_chan s) (js_out s) ForwardDone s) else None
  | _ => None
  end.

Definition forward_write (written : bool) (s : JSONLState) : option JSONLState :=
  match js_forward s with
  | ForwardWriting e => Some (set_forward (js_chan s) (js_out s ++ [OutEvent e written]) ForwardReading s)
  | _ => None
  end.

(** The service's side of the subscription. *)
Definition chan_send (e : E) (s : JSONLState) : JSONLState :=
  {| js_input := js_input s; js_scanErr := js_scanErr s; js_tasks := js_tasks s; js_manager := js_manager s;
     js_out := js_out s; js_sent := js_sent s ++ [e]; js_chan := js_chan s ++ [e]; js_chanClosed := js_chanClosed s;
     js_eventsCancelled := js_eventsCancelled s; js_forward := js_forward s; js_pc := js_pc s |}.

Definition chan_close (s : JSONLState) : JSONLState :=
  {| js_input := js_input s; js_scanErr := js_scanErr s; js_tasks := js_tasks s; js_manager := js_manager s;
     js_out := js_out s; js_sent := js_sent s; js_chan := js_chan s; js_chanClosed := true;
     js_eventsCancelled := js_eventsCancelled s; js_forward := js_forward s; js_pc := js_pc s |}.

(** Other clients of the manager are at work as well. *)
Inductive serve_step : JSONLState -> JSONLState -> Prop :=
| sv_scan s s' : serve_scan s = Some s' -> serve_step s s'
| sv_call i s s' : line_call i s = Some s' -> serve_step s s'
| sv_write i written s s' : line_write i written s = Some s' -> serve_step s s'
| sv_requests s s' : serve_requests s = Some s' -> serve_step s s'
| sv_close closeErr s s' : serve_close closeErr s = Some s' -> serve_step s s'
| sv_return ctx s s' : serve_return ctx s = Some s' -> serve_step s s'
| sv_event s s' : forward_event s = Some s' -> serve_step s s'
| sv_cancelled s s' : forward_cancelled s = Some s' -> serve_step s s'
| sv_event_write written s s' : forward_write written s = Some s' -> serve_step s s'
| sv_send e s : js_chanClosed s = false -> serve_step s (chan_send e s)
| sv_chan_close s : serve_step s (chan_close s)
| sv_other m s : serve_step s (set_tasks (js_input s) (js_tasks s) m (js_out s) s).

(** ** Invariant *)

Definition line_of (t : LineTask) : string :=
  match t with TaskCalling line | TaskWriting line _ | TaskDone line _ _ => line end.

(** The events that were given to [write], and whether each was written. *)
Definition events_of (out : list Output) : list (E * bool) :=
  omap (fun o => match o with OutEvent e written => Some (e, written) | OutResponse _ _ _ => None end) out.

(** The responses that were given to [write] for the line of an index, and whether each was written. *)
Definition responses_to (i : nat) (out : list Output) : list (R * bool) :=
  omap (fun o => match o with
                 | OutResponse j r written => if bool_decide (j = i) then Some (r, written) else None
                 | OutEvent _ _ => None
                 end) out.

#[local] Arguments events_of : simpl never.
#[local] Arguments responses_to : simpl never.

Definition in_hand (pc : ForwardPC) : list E := match pc with ForwardWriting e => [e] | _ => [] end.

(** What a call may have answered. *)
Definition answers (line : string) (r : R) : Prop := exists m m', handle line m = (r, m').

Definition task_ok (t : LineTask) : Prop :=
  match t with TaskCalling _ => True | TaskWriting line r | TaskDone line r _ => answers line r end.

Definition past_requests (pc : ServePC) : bool :=
  match pc with Scanning | WaitingRequests => false | _ => true end.

Record serve_inv (tokens : list string) (s : JSONLState) : Prop := {
  sv_lines : (line_of <$> js_tasks s) ++ js_input s = tokens;
  sv_tasks : Forall task_ok (js_tasks s);
  sv_responses : forall i, responses_to i (js_out s) = match js_tasks s !! i with Some (TaskDone _ r w) => [(r, w)] | _ => [] end;
  sv_events : js_sent s = (events_of (js_out s)).*1 ++ in_hand (js_forward s) ++ js_chan s;
  sv_scanned : js_pc s <> Scanning -> js_input s = [];
  sv_done : past_requests (js_pc s) = true -> forallb task_done (js_tasks s) = true;
  sv_cancelled_own : js_eventsCancelled s = true -> ownService = false;
  sv_waiting : past_requests (js_pc s) = true -> ownService = false -> js_eventsCancelled s = true;
  sv_forwarded : js_forward s = ForwardDone -> ownService = true -> js_chan s = [] /\ js_chanClosed s = true;
  sv_served : forall res, js_pc s = Served res -> js_forward s = ForwardDone;
}.

Lemma responses_to_snoc i out o :
  responses_to i (out ++ [o]) = responses_to i out ++
    match o with OutResponse j r w => if bool_decide (j = i) then [(r, w)] else [] | OutEvent _ _ => [] end.
Proof. unfold responses_to. rewrite omap_app. cbn. f_equal. destruct o as [j r w|e w]; [|done]. by case_bool_decide. Qed.

Lemma events_of_snoc out o :
  events_of (out ++ [o]) = events_of out ++ match o with OutEvent e w => [(e, w)] | _ => [] end.
Proof. unfold events_of. rewrite omap_app. cbn. f_equal. by destruct o. Qed.

Lemma Serve_state_inv tokens m pending : serve_inv tokens.1 (Serve_state tokens m pending).
Proof. by split. Qed.

Lemma forallb_undone i t tasks : tasks !! i = Some t -> task_done t = false -> forallb task_done tasks = false.
Proof.
  intros H Ht. apply not_true_iff_false. rewrite forallb_forall. intros Hall.
  rewrite (Hall t) in Ht; [done|]. apply list_elem_of_In. by apply list_elem_of_lookup_2 in H.
Qed.

(** The goroutine of a line goes on. *)
Lemma line_step_inv tokens i t t' m out s :
  serve_inv tokens s -> js_tasks s !! i = Some t -> line_of t' = line_of t -> task_done t = false -> task_ok t' ->
  events_of out = events_of (js_out s) ->
  (forall j, responses_to j out = match <[i := t']> (js_tasks s) !! j with Some (TaskDone _ r w) => [(r, w)] | _ => [] end) ->
  serve_inv tokens (set_tasks (js_input s) (<[i := t']> (js_tasks s)) m out s).
Proof.
  intros [Hl Ht Hr He Hs Hd Hc Hw Hf Hv] Hi Hline Hnd Hok Hev Hresp.
  split; cbn; try done.
  - rewrite <-Hl. f_equal. rewrite (list_fmap_insert line_of (js_tasks s) i t'), Hline.
    apply list_insert_id. by rewrite list_lookup_fmap, Hi.
  - by apply Forall_insert.
  - by rewrite Hev.
  - intros Hp. rewrite (forallb_undone i t (js_tasks s) Hi Hnd) in Hd. by specialize (Hd Hp).
Qed.

Lemma serve_step_inv tokens s s' : serve_step s s' -> serve_inv tokens s -> serve_inv tokens s'.
Proof.
  intros Hstep Hi. pose proof Hi as [Hl Ht Hr He Hs Hd Hc Hw Hf Hv].
  destruct Hstep as [s s' H|i s s' H|i written s s' H|s s' H|closeErr s s' H|ctx s s' H|s s' H|s s' H|written s s' H|e s H|s|m s].
  - unfold serve_scan in H. destruct (js_pc s) eqn:Hpc; try done. destruct (js_input s) as [|line rest] eqn:Hin; injection H as <-.
    + split; cbn; try done; rewrite ?Hin; done.
    + split; cbn; try done; rewrite ?Hpc; try done.
      * rewrite fmap_app, <-app_assoc. exact Hl.
      * apply Forall_app. split; [done|by constructor].
      * intros i. rewrite Hr. destruct (decide (i < length (js_tasks s))%nat); [by rewrite lookup_app_l by lia|].
        rewrite (lookup_ge_None_2 (js_tasks s)) by lia. rewrite lookup_app_r by lia.
        by destruct (i - length (js_tasks s))%nat.
  - unfold line_call in H. destruct (js_tasks s !! i) as [[line| |]|] eqn:Hti; try done.
    destruct (handle line (js_manager s)) as [r m] eqn:Hh. injection H as <-.
    eapply line_step_inv; [done|done|done|done|by exists (js_manager s), m|done|].
    intros j. rewrite Hr. destruct (decide (i = j)) as [->|Hne]; [|by rewrite list_lookup_insert_ne].
    rewrite list_lookup_insert_eq by (by eapply lookup_lt_Some). by rewrite Hti.
  - unfold line_write in H. destruct (js_tasks s !! i) as [[|line r|]|] eqn:Hti; try done. injection H as <-.
    eapply line_step_inv; [done|done|done|done| | |].
    + exact (Forall_lookup_1 _ _ _ _ Ht Hti).
    + rewrite events_of_snoc. apply app_nil_r.
    + intros j. rewrite responses_to_snoc, Hr. case_bool_decide as Hij; [subst j|].
      * rewrite Hti, list_lookup_insert_eq by (by eapply lookup_lt_Some). done.
      * rewrite list_lookup_insert_ne by done. apply app_nil_r.
  - unfold serve_requests in H. destruct (js_pc s) eqn:Hpc; try done. destruct (forallb _ _) eqn:Hall; [|done].
    injection H as <-. destruct ownService eqn:Hown; split; cbn; try done; intros; rewrite ?Hown in *;
      first [by apply Hs|by apply Hc|by apply Hf|congruence].
  - unfold serve_close in H. destruct (js_pc s) eqn:Hpc; try done. injection H as <-. split; cbn; try done; intros _; first [by apply Hs|by apply Hd|by apply Hw].
  - unfold serve_return in H. destruct (js_pc s) eqn:Hpc; try done. destruct (js_forward s) eqn:Hfw; try done. injection H as <-.
    split; cbn; rewrite ?Hfw; try done; intros _; first [by apply Hs|by apply Hd|by apply Hw].
  - unfold forward_event in H. destruct (js_forward s) eqn:Hfw; try done. destruct (js_chan s) as [|e rest] eqn:Hch.
    + destruct (js_chanClosed s) eqn:Hcl; [|done]. injection H as <-. split; cbn; rewrite ?Hcl; try done.
    + injection H as <-. split; cbn; try done. intros res Hpc. by apply Hv in Hpc.
  - unfold forward_cancelled in H. destruct (js_forward s) eqn:Hfw; try done. destruct (js_eventsCancelled s) eqn:Hca; [|done].
    injection H as <-. split; cbn; rewrite ?Hca; try done. intros _ Hown. rewrite Hc in Hown; done.
  - unfold forward_write in H. destruct (js_forward s) eqn:Hfw; try done. injection H as <-. split; cbn; try done.
    + intros i. rewrite responses_to_snoc, Hr. apply app_nil_r.
    + rewrite events_of_snoc, He, fmap_app, <-app_assoc. done.
    + intros res Hpc. by apply Hv in Hpc.
  - split; cbn; try done.
    + rewrite He. by rewrite <-!app_assoc.
    + intros Hfd Hown. destruct (Hf Hfd Hown). congruence.
  - split; cbn; try done. intros Hfd Hown. by destruct (Hf Hfd Hown).
  - split; cbn; done.
Qed.

(** ** Progress *)

Definition reaches (s : JSONLState) : Prop := exists s' res, rtc serve_step s s' /\ js_pc s' = Served res.

Lemma reaches_step s s' : serve_step s s' -> reaches s' -> reaches s.
Proof. intros H (t & res & Hr & Hpc). exists t, res. split; [by eapply rtc_l|done]. Qed.

(** The end of the events: the subscription was cancelled or its channel closed. *)
Definition events_end (s : JSONLState) : Prop := js_eventsCancelled s = true \/ js_chanClosed s = true.

Lemma reaches_events closeErr s : js_pc s = WaitingEvents closeErr -> events_end s -> reaches s.
Proof.
  intros Hpc.
  assert (forall t, js_pc t = WaitingEvents closeErr -> js_forward t = ForwardDone -> reaches t) as Hret.
  { intros t Ht Hf. eexists _, _. split; [apply rtc_once, (sv_return None); unfold serve_return; by rewrite Ht, Hf|done]. }
  assert (forall chan t, js_chan t = chan -> js_pc t = WaitingEvents closeErr -> js_forward t = ForwardReading ->
    events_end t -> reaches t) as Hread.
  { induction chan as [|e chan IH]; intros t Hch Ht Hf Hend.
    - destruct Hend as [Hc|Hc].
      + eapply reaches_step; [apply sv_cancelled; unfold forward_cancelled; by rewrite Hf, Hc|by apply Hret].
      + eapply reaches_step; [apply sv_event; unfold forward_event; by rewrite Hf, Hch, Hc|by apply Hret].
    - eapply reaches_step; [apply sv_event; unfold forward_event; by rewrite Hf, Hch|].
      eapply reaches_step; [by apply (sv_event_write true)|]. by apply IH. }
  intros Hend. destruct (js_forward s) as [|e|] eqn:Hf; [by eapply Hread| |by apply Hret].
  eapply reaches_step; [apply (sv_event_write true); unfold forward_write; by rewrite Hf|]. by eapply Hread.
Qed.

(** What is left to do for the lines. *)
Definition task_work (t : LineTask) : nat := match t with TaskCalling _ => 2 | TaskWriting _ _ => 1 | TaskDone _ _ _ => 0 end.
Definition work (tasks : list LineTask) : nat := sum_list (task_work <$> tasks).

Lemma work_insert i t t' tasks :
  tasks !! i = Some t -> task_work t = S (task_work t') -> work tasks = S (work (<[i := t']> tasks)).
Proof.
  unfold work. revert i. induction tasks as [|x tasks IH]; intros [|i] Hi Hw; simplify_eq/=; [lia|].
  rewrite (IH i Hi Hw). lia.
Qed.

Lemma reaches_tasks n s :
  work (js_tasks s) = n -> js_pc s = WaitingRequests -> (ownService = true -> js_chanClosed s = true) -> reaches s.
Proof.
  revert s. induction n as [n IH] using lt_wf_ind. intros s Hn Hpc Hc.
  destruct (forallb task_done (js_tasks s)) eqn:Hall.
  - eapply reaches_step; [apply sv_requests; unfold serve_requests; by rewrite Hpc, Hall|].
    destruct ownService eqn:Hown.
    + eapply reaches_step; [by apply (sv_close None)|]. eapply reaches_events; [done|right; by apply Hc].
    + eapply reaches_events; [done|by left].
  - assert (exists i t, js_tasks s !! i = Some t /\ task_done t = false) as (i & t & Hi & Ht).
    { clear -Hall. induction (js_tasks s) as [|x l IHl]; [done|]. simpl in Hall. destruct (task_done x) eqn:Hx.
      - destruct (IHl Hall) as (i & t & Hi & Ht). by exists (S i), t.
      - by exists 0%nat, x. }
    destruct t as [line|line r|]; [| |done].
    + destruct (handle line (js_manager s)) as [r m] eqn:Hh.
      eapply reaches_step; [apply (sv_call i); unfold line_call; by rewrite Hi, Hh|].
      eapply (IH (work (<[i := TaskWriting line r]> (js_tasks s)))); [|done..].
      rewrite <-Hn, (work_insert i (TaskCalling line) (TaskWriting line r) (js_tasks s) Hi eq_refl). lia.
    + eapply reaches_step; [apply (sv_write i true); unfold line_write; by rewrite Hi|].
      eapply (IH (work (<[i := TaskDone line r true]> (js_tasks s)))); [|done..].
      rewrite <-Hn, (work_insert i (TaskWriting line r) (TaskDone line r true) (js_tasks s) Hi eq_refl). lia.
Qed.

Lemma reaches_scan input s :
  js_input s = input -> js_pc s = Scanning -> (ownService = true -> js_chanClosed s = true) -> reaches s.
Proof.
  revert s. induction input as [|line input IH]; intros s Hin Hpc Hc.
  - eapply reaches_step; [apply sv_scan; unfold serve_scan; by rewrite Hpc, Hin|]. by eapply reaches_tasks.
  - eapply reaches_step; [apply sv_scan; unfold serve_scan; by rewrite Hpc, Hin|]. by apply IH.
Qed.

(** From anywhere, the server can come to its end. *)
Lemma reaches_end tokens s : serve_inv tokens s -> (ownService = true -> js_chanClosed s = true) -> reaches s.
Proof.
  intros Hi Hc. destruct (js_pc s) as [| | |closeErr|res] eqn:Hpc.
  - by eapply reaches_scan.
  - by eapply reaches_tasks.
  - eapply reaches_step; [apply (sv_close None); unfold serve_close; by rewrite Hpc|].
    eapply reaches_events; [done|]. destruct ownService eqn:Hown; [right; by apply Hc|left].
    apply (sv_waiting tokens s Hi); [by rewrite Hpc|done].
  - eapply reaches_events; [done|]. destruct ownService eqn:Hown; [right; by apply Hc|left].
    apply (sv_waiting tokens s Hi); [by rewrite Hpc|done].
  - by exists s, res.
Qed.

Lemma serve_reachable_inv tokens m pending s :
  rtc serve_step (Serve_state tokens m pending) s -> serve_inv tokens.1 s.
Proof.
  intros Hr. eapply (rtc_closed serve_step (serve_inv tokens.1)); [|apply Serve_state_inv|exact Hr].
  intros s1 s2 Hs Hi. by eapply serve_step_inv.
Qed.

(** Each line has at most one response, of a call for that line, and has it when the calls are done. *)
Lemma responses_right tokens s i :
  serve_inv tokens s ->
  match tokens !! i with
  | Some line => (exists r, answers line r /\ exists written, responses_to i (js_out s) = [(r, written)]) \/
      (responses_to i (js_out s) = [] /\ past_requests (js_pc s) = false)
  | None => responses_to i (js_out s) = []
  end.
Proof.
  intros Hi. pose proof (sv_responses _ _ Hi i) as Hr. rewrite <-(sv_lines _ _ Hi), lookup_app, list_lookup_fmap.
  destruct (js_tasks s !! i) as [t|] eqn:Ht; cbn.
  - pose proof (Forall_lookup_1 _ _ _ _ (sv_tasks _ _ Hi) Ht) as Hok.
    assert (task_done t = true \/ past_requests (js_pc s) = false) as Hcase.
    { destruct (past_requests (js_pc s)) eqn:Hp; [left|by right].
      pose proof (sv_done _ _ Hi Hp) as Hall. rewrite forallb_forall in Hall. apply Hall, list_elem_of_In.
      by apply list_elem_of_lookup_2 in Ht. }
    destruct t as [line|line r|line r w]; cbn in *; [right|right|left].
    + by destruct Hcase.
    + by destruct Hcase.
    + exists r. split; [done|]. by exists w.
  - destruct (js_input s !! _) eqn:Hin; [right|done]. split; [done|].
    destruct (past_requests (js_pc s)) eqn:Hp; [|done]. rewrite (sv_scanned _ _ Hi) in Hin; [done|].
    intros Hpc. by rewrite Hpc in Hp.
Qed.

Lemma serve_step_scanErr s s' : serve_step s s' -> js_scanErr s' = js_scanErr s.
Proof.
  intros [t t' H|i t t' H|i w t t' H|t t' H|c t t' H|c t t' H|t t' H|t t' H|w t t' H|e t H|t|m t]; try done; revert H;
    unfold serve_scan, line_call, line_write, serve_requests, serve_close, serve_return, forward_event,
      forward_cancelled, forward_write; intros H; repeat case_match; by simplify_eq.
Qed.

Lemma serve_reachable_scanErr tokens m pending s :
  rtc serve_step (Serve_state tokens m pending) s -> js_scanErr s = tokens.2.
Proof.
  intros Hr. eapply (rtc_closed serve_step (fun s => js_scanErr s = tokens.2)); [| |exact Hr]; [|done].
  intros s1 s2 Hs Hi. by rewrite (serve_step_scanErr _ _ Hi).
Qed.
End Serve.

(** ** The lines of an input *)

Definition lines_text (lines : list string) : list ascii := concat (map (fun l => chars l ++ [newline_char]) lines).

(** What a client may send as a line. *)
Definition sendable (max : Z) (l : string) : Prop :=
  (newline_char ∉ chars l) /\ last (chars l) <> Some return_char /\ Z.of_nat (length (chars l)) < max.

Lemma token_line l : last (chars l) <> Some return_char -> token (rev (chars l)) = l.
Proof.
  intros Hl. unfold token. destruct (rev (chars l)) as [|c r] eqn:E.
  - assert (chars l = []) as H by (rewrite <-(rev_involutive (chars l)), E; done).
    rewrite <-(of_chars_chars l), H. done.
  - assert (chars l = rev r ++ [c]) as H by (rewrite <-(rev_involutive (chars l)), E; done).
    rewrite bool_decide_false; [rewrite <-E, rev_involutive; apply of_chars_chars|].
    intros ->. apply Hl. by rewrite H, last_snoc.
Qed.

Lemma scan_line max line size rest input readErr :
  newline_char ∉ rest -> size = Z.of_nat (length line) -> Z.of_nat (length line + length rest) < max ->
  scan_from max size line (rest ++ newline_char :: input) readErr =
    (token (rev rest ++ line) :: (scan_from max 0 [] input readErr).1, (scan_from max 0 [] input readErr).2).
Proof.
  revert line size. induction rest as [|c rest IH]; intros line size Hn Hs Hm; simpl.
  - destruct (scan_from max 0 [] input readErr). done.
  - apply not_elem_of_cons in Hn as [Hc Hn]. simpl in Hm. rewrite bool_decide_false by done.
    rewrite bool_decide_false by lia. rewrite IH; [|done|simpl; lia|simpl; lia]. by rewrite <-app_assoc.
Qed.

(** What does not fit into the scanner's buffer: [max] bytes without an end of line. *)
Definition oversized (max : Z) (rest : list ascii) : Prop :=
  exists long rest', rest = long ++ rest' /\ (newline_char ∉ long) /\ Z.of_nat (length long) = max.

Lemma scan_oversized max line size long rest readErr :
  newline_char ∉ long -> 0 <= size -> size < max -> size + Z.of_nat (length long) = max ->
  scan_from max size line (long ++ rest) readErr = ([], Some bufio_ErrTooLong).
Proof.
  revert line size. induction long as [|c long IH]; intros line size Hn Hs Hlt Hm; simpl in *; [lia|].
  apply not_elem_of_cons in Hn as [Hc Hn]. rewrite bool_decide_false by done.
  case_bool_decide; [done|]. apply IH; [done|lia..].
Qed.

(** The server sees the lines that a client has sent, each as it was sent, up to one that is too long. *)
Lemma scan_lines_text max lines rest readErr :
  0 < max -> Forall (sendable max) lines -> rest = [] \/ oversized max rest ->
  scan_from max 0 [] (lines_text lines ++ rest) readErr =
    (lines, match rest with [] => readErr | _ => Some bufio_ErrTooLong end).
Proof.
  intros Hmax Hl Hrest. induction Hl as [|l lines (Hn & Hr & Hm) Hl IH].
  - destruct Hrest as [->|(long & rest' & -> & Hlong & Hlen)]; [done|]. simpl.
    rewrite scan_oversized; [|done|lia..]. destruct long; [simpl in Hlen; lia|done].
  - unfold lines_text. simpl. rewrite <-!app_assoc. simpl. rewrite scan_line; [|done|done|simpl; lia].
    fold (lines_text lines). rewrite IH. simpl. by rewrite app_nil_r, token_line.
Qed.

(** The identifier of a response. *)
Lemma handleLine_ID {Stats Conns TConns M : Type} (sm : ServiceManager Stats Conns TConns M) dec coreVersion capabilities
    unmarshal line m r m' :
  handleLine sm dec coreVersion capabilities unmarshal line m = (r, m') ->
  rsp_ID r = match unmarshal line with Ok q => normalizeID (req_ID q) | Err _ => "null"%string end.
Proof.
  unfold handleLine. destruct (unmarshal line) as [q|e]; [|by intros [= <- _]].
  destruct (is_empty (req_ID q) || _) eqn:He; [by intros [= <- _]|]. apply orb_false_iff in He as [He _].
  unfold normalizeID. rewrite He. by destruct (Call _ _ _ _ _ _ m) as [[res|err] m1]; intros [= <- _].
Qed.

(** C18: The JSONL server, in every interleaving of its goroutines with each other, with the service's events and with
    other clients, whatever fails when it writes. The client sends lines that are shorter than the 4 MiB of the
    scanner's buffer, each without a carriage return at its end and ended by a newline, and then possibly one
    that is too long. For every line before that there is exactly one attempt to write a response, which is
    that of a call for this very line and carries its identifier, and every attempt is made before the
    server closes the service or returns; nothing is answered from a line that is too long on, which is the
    error of the scanner. Nothing else is written than these responses and events, in the order in which the
    subscription gave them, all of them when the server that owns its service has ended; a write that fails
    is neither repeated nor reported. The server can always come to its end, provided that a service it has
    closed closes the subscription. *)
Theorem jsonl_serves {Stats Conns TConns M E : Type} (sm : ServiceManager Stats Conns TConns M)
    (dec : ParamDecoders) (coreVersion : string) (capabilities : list string)
    (unmarshal : string -> result error Request) (ownService : bool) (lines : list string) (rest : list ascii)
    (readErr : option error) (m : M) (pending : list E) (s : JSONLState)
    (sent : Forall (sendable maxJSONLMessageSize) lines) (last : rest = [] \/ oversized maxJSONLMessageSize rest)
    (run : rtc (serve_step (handleLine sm dec coreVersion capabilities unmarshal) ownService)
             (Serve_state (scan_lines (of_chars (lines_text lines ++ rest)) readErr) m pending) s) :
  (forall i line, lines !! i = Some line ->
     (exists r, answers (handleLine sm dec coreVersion capabilities unmarshal) line r /\
        rsp_ID r = match unmarshal line with Ok q => normalizeID (req_ID q) | Err _ => "null"%string end /\
        exists written, responses_to i (js_out s) = [(r, written)]) \/
     (responses_to i (js_out s) = [] /\ past_requests (js_pc s) = false)) /\
  (forall i, (length lines <= i)%nat -> responses_to i (js_out s) = []) /\
  js_scanErr s = match rest with [] => readErr | _ => Some bufio_ErrTooLong end /\
  (events_of (js_out s)).*1 `prefix_of` js_sent s /\
  (js_forward s = ForwardDone -> ownService = true -> (events_of (js_out s)).*1 = js_sent s) /\
  ((ownService = true -> js_chanClosed s = true) ->
     reaches (handleLine sm dec coreVersion capabilities unmarshal) ownService s).
Proof.
  pose proof (serve_reachable_inv _ _ _ _ _ _ run) as Hi. pose proof (serve_reachable_scanErr _ _ _ _ _ _ run) as Hscan.
  unfold scan_lines in Hi, Hscan. rewrite chars_of_chars, (scan_lines_text maxJSONLMessageSize _ _ readErr eq_refl sent last) in Hi, Hscan.
  cbn [fst snd] in Hi, Hscan. split_and!; [| |exact Hscan|..].
  - intros i line Hline. pose proof (responses_right _ _ lines s i Hi) as Hr. rewrite Hline in Hr.
    destruct Hr as [(r & Hans & Hresp)|Hr]; [left|by right]. exists r. split; [done|]. split; [|done].
    destruct Hans as (m1 & m2 & Hh). by eapply handleLine_ID.
  - intros i Hlen. pose proof (responses_right _ _ lines s i Hi) as Hr. by rewrite lookup_ge_None_2 in Hr.
  - exists (in_hand (js_forward s) ++ js_chan s). apply (sv_events _ _ _ _ Hi).
  - intros Hf Hown. rewrite (sv_events _ _ _ _ Hi), Hf. destruct (sv_forwarded _ _ _ _ Hi Hf Hown) as [-> _].
    by rewrite app_nil_r.
  - by apply (reaches_end _ _ lines).
Qed.

(** ** A run

    Two lines, answered in the other order, with an event in between that could not be written. *)
Definition demo_input : list string := [MethodHello; ""].

Definition demo_handle := handleLine (controller_service demo_ops demo_queries demo_validate
  (fun _ => Ok demo_config_changed) demo_merge "config.yaml") demo_decoders "1.0" [] demo_unmarshal.

Definition DemoServe : Type :=
  @JSONLState (Controller * Managed) (@Response unit unit unit) nat.

Definition demo_serve_start : DemoServe :=
  Serve_state (scan_lines (of_chars (lines_text demo_input ++ [])) None) demo_1 [].

Definition demo_send (e : nat) (s : DemoServe) : option DemoServe :=
  if js_chanClosed s then None else Some (chan_send e s).

Definition demo_serve_ops : list (DemoServe -> option DemoServe) := [
  serve_scan; serve_scan; line_call demo_handle 1; line_write 1 true; demo_send 7; forward_event; forward_write false;
  line_call demo_handle 0; line_write 0 true; serve_scan; serve_requests false].

Definition run_ops {S : Type} (ops : list (S -> option S)) (s : S) : option S :=
  fold_left (fun s op => s ≫= op) ops (Some s).

Definition demo_served : DemoServe := default demo_serve_start (run_ops demo_serve_ops demo_serve_start).

Lemma run_ops_rtc {S : Type} (step : S -> S -> Prop) (ops : list (S -> option S)) (s : S) :
  Forall (fun op => forall s s', op s = Some s' -> step s s') ops ->
  bool_decide (is_Some (run_ops ops s)) = true -> rtc step s (default s (run_ops ops s)).
Proof.
  intros Hops His. apply bool_decide_eq_true in His as [t Ht]. rewrite Ht. cbn. revert s Ht.
  induction Hops as [|op ops Hop Hops IH]; intros s Ht; unfold run_ops in *; cbn in Ht; [by simplify_eq|].
  destruct (op s) as [s1|] eqn:E; [|clear -Ht; exfalso; by induction ops].
  eapply rtc_l; [by apply Hop|by apply IH].
Qed.

Lemma demo_served_run : rtc (serve_step demo_handle false) demo_serve_start demo_served.
Proof.
  apply run_ops_rtc; [|by vm_compute]. assert (forall e s s', demo_send e s = Some s' -> serve_step demo_handle false s s') as Hsend.
  { intros e s s' H. unfold demo_send in H. destruct (js_chanClosed s) eqn:Hc; [done|]. injection H as <-. by apply sv_send. }
  repeat apply Forall_cons_2; [exact (sv_scan _ _)|exact (sv_scan _ _)|exact (sv_call _ _ 1)|exact (sv_write _ _ 1 true)|exact (Hsend 7%nat)|
    exact (sv_event _ _)|exact (sv_event_write _ _ false)|exact (sv_call _ _ 0)|exact (sv_write _ _ 0 true)|exact (sv_scan _ _)|
    exact (sv_requests _ _)|apply Forall_nil_2].
Qed.

Lemma demo_input_sendable : Forall (sendable maxJSONLMessageSize) demo_input.
Proof.
  repeat (apply Forall_cons; split); [| |by apply Forall_nil]; (split; [|split; [by vm_compute|by vm_compute]]); simpl.
  - intros H. by repeat (apply elem_of_cons in H as [H|H]; [discriminate H|]); apply elem_of_nil in H.
  - apply not_elem_of_nil.
Qed.

Lemma jsonl_serves_witness :
  (exists r, answers demo_handle MethodHello r /\ responses_to 0 (js_out demo_served) = [(r, true)]) /\
  (events_of (js_out demo_served)).*1 `prefix_of` [7%nat].
Proof.
  destruct (jsonl_serves (controller_service demo_ops demo_queries demo_validate
    (fun _ => Ok demo_config_changed) demo_merge "config.yaml") demo_decoders "1.0" [] demo_unmarshal false
    demo_input [] None demo_1 [] demo_served demo_input_sendable (or_introl eq_refl) demo_served_run) as (Hr & _ & _ & Hev & _).
  split; [|exact Hev]. destruct (Hr 0%nat MethodHello eq_refl) as [(r & Ha & _ & w & Ho)|[_ H]].
  - exists r. split; [exact Ha|]. rewrite Ho. destruct w; [reflexivity|]. exfalso. revert Ho. vm_compute. congruence.
  - discriminate H.
Defined.
