(* ===== verification/ControlREST.v ===== *)
(** The REST server (control/rest/server.go) in front of the control service: authorisation,
    the handlers and the status codes. Encoding and decoding JSON and parsing the origin are
    parameters; the multiplexer gets paths that are clean already, since it redirects the
    others. What holds for the lines of the JSONL server holds for HTTP requests too. *)

From S2P Require Import Prelude Core DaemonConfig Controller ManagedController ControlService.

Definition APIBasePath : string := "/api/v1".

(** [hr_Path] is [URL.Path], which is decoded; absent headers and queries are empty. *)
Record HTTPRequest : Type := {
  hr_Method : string;
  hr_Path : string;
  hr_Host : string;
  hr_Authorization : string;
  hr_Origin : string;
  hr_access_token : string;
  hr_Body : string;
}.

Definition StatusOK : Z := 200.
Definition StatusBadRequest : Z := 400.
Definition StatusUnauthorized : Z := 401.
Definition StatusForbidden : Z := 403.
Definition StatusNotFound : Z := 404.
Definition StatusMethodNotAllowed : Z := 405.
Definition StatusConflict : Z := 409.
Definition StatusUpgradeRequired : Z := 426.
Definition StatusInternalServerError : Z := 500.
Definition StatusServiceUnavailable : Z := 503.

Definition core_code_in (err : error) (codes : list ErrorCode) : bool :=
  existsb (fun c => bool_decide (core_code err = c)) codes.

Definition statusForError (err : error) : Z :=
  if core_code_in err [ErrorCodeInvalidRequest; ErrorCodeAuthResponseInvalid;
                       ErrorCodeAuthChallengeInvalid; ErrorCodeConfigInvalid] then StatusBadRequest
  else if core_code_in err [ErrorCodeSessionNotFound; ErrorCodeAuthChallengeNotFound;
                            ErrorCodeConnectionNotFound] then StatusNotFound
  else if core_code_in err [ErrorCodeSessionNotReady; ErrorCodeSessionAlreadyRunning;
                            ErrorCodeSessionStartFailed; ErrorCodeSessionCloseFailed;
                            ErrorCodeRestartRequired] then StatusConflict
  else if core_code_in err [ErrorCodeAddressInUse] then StatusConflict
  else if core_code_in err [ErrorCodePermissionDenied] then StatusForbidden
  else if core_code_in err [ErrorCodeTUNUnavailable; ErrorCodeInterfaceUnavailable;
                            ErrorCodeRouteSetupFailed; ErrorCodeDNSStartFailed;
                            ErrorCodeOutboundUnavailable] then StatusServiceUnavailable
  else if core_code_in err [ErrorCodeMethodNotFound; ErrorCodeConfigUnavailable] then StatusNotFound
  else if core_code_in err [ErrorCodeProtocolUnsupported] then StatusUpgradeRequired
  else StatusInternalServerError.

(** [url.PathUnescape]. *)
Definition hex_digit (c : ascii) : option nat :=
  let n := nat_of_ascii c in
  if bool_decide (48 <= n <= 57)%nat then Some (n - 48)%nat
  else if bool_decide (65 <= n <= 70)%nat then Some (n - 55)%nat
  else if bool_decide (97 <= n <= 102)%nat then Some (n - 87)%nat
  else None.

(** The error is the first malformed escape, cut after three characters. *)
Fixpoint unescape_chars (l : list ascii) : result (list ascii) (list ascii) :=
  match l with
  | [] => Ok []
  | c :: l' =>
      if bool_decide (c = "%"%char) then
        match l' with
        | a :: b :: l'' =>
            match hex_digit a, hex_digit b with
            | Some x, Some y =>
                let? rest := unescape_chars l'' in Ok (ascii_of_nat (16 * x + y) :: rest)
            | _, _ => Err (take 3 l)
            end
        | _ => Err (take 3 l)
        end
      else let? rest := unescape_chars l' in Ok (c :: rest)
  end.

Definition PathUnescape (s : string) : result error string :=
  match unescape_chars (chars s) with
  | Ok l => Ok (of_chars l)
  | Err bad => Err (EText ("invalid URL escape " +:+ quote (of_chars bad)))
  end.

(** ** Authorisation *)

(** The constant-time comparison. *)
Definition same_token (provided token : string) : bool :=
  bool_decide (strlen provided = strlen token) && bool_decide (provided = token).

Definition authorized (token : string) (r : HTTPRequest) : bool :=
  if is_empty token then true
  else if same_token (TrimPrefix (hr_Authorization r) "Bearer ") token then true
  else if bool_decide (hr_Path r = APIBasePath +:+ "/events") then same_token (hr_access_token r) token
  else false.

(** [parse_origin] is [url.Parse]: scheme and host. *)
Definition sameOrigin (parse_origin : string -> option (string * string)) (r : HTTPRequest) : bool :=
  if is_empty (hr_Origin r) then true
  else match parse_origin (hr_Origin r) with
  | Some (scheme, host) =>
      bool_decide (host = hr_Host r)
      && (bool_decide (scheme = "http"%string) || bool_decide (scheme = "https"%string))
  | None => false
  end.

(** ** Replies *)

(** A JSON envelope, the multiplexer's 404 page, and the stream of events. *)
Inductive Reply (R : Type) : Type :=
| JSONReply (status : Z) (body : result error R) (allow : list string) (no_store : bool)
| NotFoundPage
| EventStream.
Arguments JSONReply {R}.
Arguments NotFoundPage {R}.
Arguments EventStream {R}.

Definition writeError {R} (status : Z) (err : error) : Reply R := JSONReply status (Err err) [] false.

Definition methodNotAllowed {R} (methods : list string) : Reply R :=
  JSONReply StatusMethodNotAllowed
    (Err (WrapError ErrorCodeMethodNotFound "HTTP method is not supported" false None)) methods false.

(** The strict JSON decoders of request bodies, with the limit on their size, and
    [json.Marshal] of the parameters. *)
Record Bodies : Type := {
  body_Config : string -> result error DConfig;
  body_Patch : string -> result error string;
  body_Apply : string -> result error string;
  body_SessionStart : string -> result error SessionStartOptions;
  body_RoutingMode : string -> result error (SessionID * RoutingMode);
  body_AuthResponse : string -> result error AuthResponse;
}.

Record ParamEncoders : Type := {
  enc_Hello : Z -> string;
  enc_SessionStart : SessionStartOptions -> string;
  enc_AuthResponse : AuthResponse -> string;
  enc_SessionID : SessionID -> string;
  enc_ConnectionClose : SessionID * string -> string;
  enc_RoutingModeSet : SessionID * RoutingMode -> string;
  enc_ConfigSet : DConfig -> string;
  enc_ConfigPatch : string -> string;
  enc_ConfigApply : string -> string;
}.

Definition GET : string := "GET".
Definition POST : string := "POST".
Definition PUT : string := "PUT".
Definition PATCH : string := "PATCH".
Definition DELETE : string := "DELETE".

Section Server.
Context {Stats Conns TConns M : Type} (sm : ServiceManager Stats Conns TConns M).
Context (dec : ParamDecoders) (coreVersion : string) (capabilities : list string).
Context (enc : ParamEncoders) (bodies : Bodies).
Context (parse_origin : string -> option (string * string)) (token : string).

Definition Handled : Type := Reply (CallResult Stats Conns TConns) * M.

(** [decodeBody]: a body that does not decode is answered at once. *)
Definition with_body {T} (d : string -> result error T) (r : HTTPRequest) (m : M) (k : T -> Handled)
    : Handled :=
  match d (hr_Body r) with
  | Err err => (writeError StatusBadRequest
                  (WrapError ErrorCodeInvalidRequest "decode request body" false (Some err)), m)
  | Ok t => k t
  end.

Definition call_storing (no_store : bool) (method params : string) (m : M) : Handled :=
  match Call sm dec coreVersion capabilities method params m with
  | (Err err, m) =>
      let e := control_asCoreError err in (JSONReply (statusForError e) (Err e) [] no_store, m)
  | (Ok res, m) => (JSONReply StatusOK (Ok res) [] no_store, m)
  end.

Definition call : string -> string -> M -> Handled := call_storing false.

Definition is_method (r : HTTPRequest) (method : string) : bool := bool_decide (hr_Method r = method).

Definition handleHello (r : HTTPRequest) (m : M) : Handled :=
  if negb (is_method r GET) then (methodNotAllowed [GET], m)
  else call MethodHello (enc_Hello enc ProtocolVersion) m.

Definition handleConfig (r : HTTPRequest) (m : M) : Handled :=
  if is_method r GET then call MethodConfigGet "" m
  else if is_method r PUT then
    with_body (body_Config bodies) r m (fun config => call MethodConfigSet (enc_ConfigSet enc config) m)
  else if is_method r PATCH then
    with_body (body_Patch bodies) r m (fun patch => call MethodConfigPatch (enc_ConfigPatch enc patch) m)
  else (methodNotAllowed [GET; PUT; PATCH], m).

Definition handleConfigApply (r : HTTPRequest) (m : M) : Handled :=
  if negb (is_method r POST) then (methodNotAllowed [POST], m)
  else with_body (body_Apply bodies) r m (fun mode => call MethodConfigApply (enc_ConfigApply enc mode) m).

Definition handleConfigReload (r : HTTPRequest) (m : M) : Handled :=
  if negb (is_method r POST) then (methodNotAllowed [POST], m) else call MethodConfigReload "" m.

Definition handleSessions (r : HTTPRequest) (m : M) : Handled :=
  if negb (is_method r POST) then (methodNotAllowed [POST], m)
  else with_body (body_SessionStart bodies) r m (fun options =>
         call MethodSessionStart (enc_SessionStart enc options) m).

Definition handleAuthResponse (r : HTTPRequest) (m : M) : Handled :=
  if negb (is_method r POST) then (methodNotAllowed [POST], m)
  else with_body (body_AuthResponse bodies) r m (fun response =>
         call MethodAuthRespond (enc_AuthResponse enc response) m).

(** [handleEvents]; the writer can flush. *)
Definition handleEvents (r : HTTPRequest) (m : M) : Handled :=
  if negb (is_method r GET) then (methodNotAllowed [GET], m) else (EventStream, m).

(** The last part of [handleSession], for the paths of two parts. *)
Definition handleSessionQuery (part params : string) (m : M) : Handled :=
  if bool_decide (part = "resources"%string) then call MethodResourcesGet params m
  else if bool_decide (part = "services"%string) then call MethodServicesGet params m
  else if bool_decide (part = "traffic"%string) then call MethodTrafficGet params m
  else if bool_decide (part = "connections"%string) then call MethodConnectionsList params m
  else if bool_decide (part = "transport-connections"%string) then
    call MethodTransportConnectionsList params m
  else if bool_decide (part = "resume-state"%string) then
    call_storing true MethodResumeStateGet params m
  else (NotFoundPage, m).

Definition handleSession (r : HTTPRequest) (m : M) : Handled :=
  let parts := Split (TrimPrefix (hr_Path r) (APIBasePath +:+ "/sessions/")) "/"%char in
  match parts with
  | [] => (NotFoundPage, m)
  | first :: rest =>
      if is_empty first then (NotFoundPage, m)
      else match PathUnescape first with
      | Err err => (writeError StatusBadRequest
                      (WrapError ErrorCodeInvalidRequest "invalid session ID" false (Some err)), m)
      | Ok sessionID =>
          let params := enc_SessionID enc sessionID in
          match rest with
          | [] =>
              if is_method r GET then call MethodSessionStatus params m
              else if is_method r DELETE then call MethodSessionStop params m
              else (methodNotAllowed [GET; DELETE], m)
          | [part] =>
              if bool_decide (part = "routing"%string) then
                if is_method r GET then call MethodRoutingModeGet params m
                else if is_method r PUT then
                  with_body (body_RoutingMode bodies) r m (fun p =>
                    call MethodRoutingModeSet (enc_RoutingModeSet enc (sessionID, p.2)) m)
                else (methodNotAllowed [GET; PUT], m)
              else if negb (is_method r GET) then (methodNotAllowed [GET], m)
              else handleSessionQuery part params m
          | [part; third] =>
              if bool_decide (part = "connections"%string) then
                if negb (is_method r DELETE) then (methodNotAllowed [DELETE], m)
                else match PathUnescape third with
                | Err err => (writeError StatusBadRequest
                                (WrapError ErrorCodeInvalidRequest "invalid connection ID" false
                                   (Some err)), m)
                | Ok connectionID =>
                    call MethodConnectionClose (enc_ConnectionClose enc (sessionID, connectionID)) m
                end
              else if bool_decide (part = "resources"%string)
                      && bool_decide (third = "refresh"%string) then
                if negb (is_method r POST) then (methodNotAllowed [POST], m)
                else call MethodResourcesRefresh params m
              else (NotFoundPage, m)
          | _ => (NotFoundPage, m)
          end
      end
  end.

(** The patterns of [NewServerContext]. *)
Definition mux (r : HTTPRequest) (m : M) : Handled :=
  let path := hr_Path r in
  if bool_decide (path = APIBasePath +:+ "/hello") then handleHello r m
  else if bool_decide (path = APIBasePath +:+ "/sessions") then handleSessions r m
  else if HasPrefix path (APIBasePath +:+ "/sessions/") then handleSession r m
  else if bool_decide (path = APIBasePath +:+ "/auth/responses") then handleAuthResponse r m
  else if bool_decide (path = APIBasePath +:+ "/events") then handleEvents r m
  else if bool_decide (path = APIBasePath +:+ "/config") then handleConfig r m
  else if bool_decide (path = APIBasePath +:+ "/config/apply") then handleConfigApply r m
  else if bool_decide (path = APIBasePath +:+ "/config/reload") then handleConfigReload r m
  else (NotFoundPage, m).

Definition ServeHTTP (r : HTTPRequest) (m : M) : Handled :=
  if negb (authorized token r) then
    (writeError StatusUnauthorized
       (WrapError ErrorCodeInvalidRequest "unauthorized control request" false None), m)
  else if negb (sameOrigin parse_origin r) then
    (writeError StatusForbidden
       (WrapError ErrorCodeInvalidRequest "cross-origin control request is forbidden" false None), m)
  else mux r m.
End Server.

(** ** What a request does *)

(** [h] is one [Call] of a method of [methods], or leaves the manager alone. *)
Section ServerSpec.
Context {Stats Conns TConns M : Type} (sm : ServiceManager Stats Conns TConns M).
Context (dec : ParamDecoders) (coreVersion : string) (capabilities : list string).
Context (enc : ParamEncoders) (bodies : Bodies).
Context (parse_origin : string -> option (string * string)) (token : string).

#[local] Abbreviation Call_ := (Call sm dec coreVersion capabilities).

(** Every reply in JSON has status 200 exactly when it has a result, and a core error
    otherwise; at most one method is called. *)
Definition reply_ok (reply : Reply (CallResult Stats Conns TConns)) : Prop :=
  match reply with
  | JSONReply status (Ok _) _ _ => status = StatusOK
  | JSONReply status (Err e) _ _ =>
      400 <= status <= 503 /\ exists code msg detail retry i, e = ECore code msg detail retry i
  | NotFoundPage | EventStream => True
  end.

Record served (get : bool) (m : M) (h : Handled (Stats := Stats) (Conns := Conns) (TConns := TConns) (M := M))
    : Prop := {
  sv_reply : reply_ok h.1;
  sv_call : h.2 = m \/
    (get = false /\ exists method params r, Call_ method params m = (r, h.2));
}.

Lemma statusForError_range e : 400 <= statusForError e <= 503.
Proof.
  unfold statusForError, StatusBadRequest, StatusNotFound, StatusConflict, StatusForbidden,
    StatusServiceUnavailable, StatusUpgradeRequired, StatusInternalServerError.
  repeat case_match; lia.
Qed.

Lemma call_served get no_store method params m :
  (get = true -> method ∉ action_methods) ->
  served get m (call_storing sm dec coreVersion capabilities no_store method params m).
Proof.
  intros Hget. unfold call_storing. destruct (Call_ method params m) as [r m'] eqn:Hc.
  assert (m' = m \/ (get = false /\ exists method params r, Call_ method params m = (r, m'))) as H.
  { destruct get; [|right; eauto 10]. left.
    apply Call_changes in Hc as [->|[Ha _]]; [done|]. by destruct (Hget eq_refl). }
  destruct r as [res|err]; (split; [|exact H]); simpl; [done|].
  split; [apply statusForError_range|apply control_asCoreError_is_core].
Qed.

Lemma not_served get m reply : reply_ok reply -> served get m (reply, m).
Proof. intros H. split; [exact H|by left]. Qed.

Lemma error_reply status code message i :
  400 <= status <= 503 -> reply_ok (writeError status (WrapError code message false i)).
Proof. intros H. simpl. split; [done|]. unfold WrapError. eauto 10. Qed.

Lemma body_served {T} get (d : string -> result error T) r m k :
  (forall t, served get m (k t)) -> served get m (with_body d r m k).
Proof.
  intros Hk. unfold with_body. destruct (d (hr_Body r)) as [t|err]; [apply Hk|].
  apply not_served, error_reply. unfold StatusBadRequest. lia.
Qed.

Lemma not_allowed_served get m methods : served get m (methodNotAllowed methods, m).
Proof.
  apply not_served. simpl. unfold StatusMethodNotAllowed, WrapError. split; [lia|eauto 10].
Qed.

(** One goal per branch of a handler, decided by what the branch does. *)
Ltac serve :=
  repeat first
    [ apply body_served; intros ?
    | apply call_served; first [intros _; apply (bool_decide_unpack (_ ∉ _)); by vm_compute|congruence]
    | apply not_allowed_served
    | by apply not_served
    | apply not_served, error_reply; unfold StatusBadRequest, StatusUnauthorized, StatusForbidden; lia
    | case_match ].

#[local] Abbreviation mux_ := (mux sm dec coreVersion capabilities enc bodies).

Lemma mux_served r m : served (is_method r GET) m (mux_ r m).
Proof.
  assert (is_method r GET = true -> is_method r POST = false /\ is_method r PUT = false /\
            is_method r PATCH = false /\ is_method r DELETE = false) as Hother.
  { unfold is_method. intros ->%bool_decide_eq_true. by vm_compute. }
  unfold mux, handleHello, handleSessions, handleSession, handleSessionQuery, handleAuthResponse,
    handleEvents, handleConfig, handleConfigApply, handleConfigReload, call.
  destruct (is_method r GET).
  - destruct (Hother eq_refl) as (H1 & H2 & H3 & H4). rewrite ?H1, ?H2, ?H3, ?H4. simpl negb. serve.
  - simpl negb. clear Hother. serve.
Qed.

(** C17: The REST server guards the service. Without the token, or with a foreign origin, a
    request is refused and does nothing. A request acts only if it is not a GET, and then as
    one call of one of the methods that act, with parameters that decode. A JSON reply has the
    status 200 and a result, or a status from 400 to 503 and a [core.Error]. *)
Theorem rest_requests_are_guarded (r : HTTPRequest) (m : M) :
  let '(reply, m') := ServeHTTP sm dec coreVersion capabilities enc bodies parse_origin token r m in
  reply_ok reply /\
  (authorized token r = false -> m' = m /\ exists e, reply = writeError StatusUnauthorized e) /\
  (authorized token r = true -> sameOrigin parse_origin r = false ->
     m' = m /\ exists e, reply = writeError StatusForbidden e) /\
  (m' <> m -> hr_Method r <> GET /\ exists method params res,
     Call_ method params m = (res, m') /\ method ∈ action_methods /\
     params_ok dec method params = true).
Proof.
  unfold ServeHTTP. destruct (authorized token r); simpl negb; cbn [negb].
  2:{ split_and!; [apply error_reply; unfold StatusUnauthorized; lia|by eauto|done|done]. }
  destruct (sameOrigin parse_origin r); cbn [negb].
  2:{ split_and!; [apply error_reply; unfold StatusForbidden; lia|done|by eauto|done]. }
  destruct (mux_served r m) as [Hr Hc]. destruct (mux_ r m) as [reply m'] eqn:E. simpl in *.
  split_and!; [done|done|done|]. intros Hne.
  destruct Hc as [Hc|(Hg & method & params & res & Hc)]; [done|].
  apply bool_decide_eq_false in Hg. split; [done|]. exists method, params, res. split; [done|].
  by apply Call_changes in Hc as [?|?].
Qed.
End ServerSpec.

(** ** Clients of the daemon

    What clients send to the daemon: lines to the JSONL server and requests to the REST
    server, in front of the same service and controller. *)

Inductive ClientInput : Type :=
| JSONLine (line : string)
| HTTP (r : HTTPRequest).

Inductive ClientReply (Stats Conns TConns : Type) : Type :=
| LineReply (r : Response (Stats := Stats) (Conns := Conns) (TConns := TConns))
| HTTPReply (r : Reply (CallResult Stats Conns TConns)).
Arguments LineReply {Stats Conns TConns}.
Arguments HTTPReply {Stats Conns TConns}.

#[local] Opaque leaves core_settings Changes.

Section Clients.
Context {Stats Conns TConns M : Type} (ops : ManagerOps M) `{!SessionManager ops}.
Context (mq : ManagerQueries Stats Conns TConns M) `{!StartsNoSession ops mq}.
Context (validate : DConfig -> option error) (load : string -> result error DConfig).
Context (merge_json : DConfig -> string -> result error DConfig) (configPath : string).
Context (dec : ParamDecoders) (coreVersion : string) (capabilities : list string).
Context (unmarshal : string -> result error Request) (enc : ParamEncoders) (bodies : Bodies).
Context (parse_origin : string -> option (string * string)) (token : string).

#[local] Abbreviation service := (controller_service ops mq validate load merge_json configPath).
#[local] Abbreviation step := (controller_step ops validate load merge_json).

Definition handle_input (input : ClientInput) (s : Controller * M)
    : ClientReply Stats Conns TConns * (Controller * M) :=
  match input with
  | JSONLine line =>
      let '(r, s) := handleLine service dec coreVersion capabilities unmarshal line s in
      (LineReply r, s)
  | HTTP r =>
      let '(reply, s) :=
        ServeHTTP service dec coreVersion capabilities enc bodies parse_origin token r s in
      (HTTPReply reply, s)
  end.

Fixpoint handle_inputs (inputs : list ClientInput) (s : Controller * M)
    : list (ClientReply Stats Conns TConns) * (Controller * M) :=
  match inputs with
  | [] => ([], s)
  | input :: inputs =>
      let '(r, s) := handle_input input s in
      let '(rs, s) := handle_inputs inputs s in (r :: rs, s)
  end.

Lemma handle_input_step input s r s' : handle_input input s = (r, s') -> s' = s \/ step s s'.
Proof.
  destruct input as [line|req]; simpl.
  - destruct (handleLine _ _ _ _ _ line s) as [r1 s1] eqn:E. intros [= <- <-].
    by eapply handleLine_controller_step.
  - unfold ServeHTTP. destruct (negb _); [intros [= <- <-]; by left|].
    destruct (negb _); [intros [= <- <-]; by left|].
    destruct (mux_served service dec coreVersion capabilities enc bodies req s) as [_ Hc].
    destruct (mux _ _ _ _ _ _ req s) as [r1 s1]. intros [= <- <-].
    destruct Hc as [Hc|(_ & method & params & res & Hc)]; [by left|]. by eapply Call_controller_step.
Qed.

Lemma handle_inputs_steps inputs s rs s' :
  handle_inputs inputs s = (rs, s') -> rtc step s s' /\ length rs = length inputs.
Proof.
  revert s rs. induction inputs as [|input inputs IH]; intros s rs H; simpl in H; [by simplify_eq|].
  destruct (handle_input input s) as [r s1] eqn:H1.
  destruct (handle_inputs inputs s1) as [rs1 s2] eqn:H2. simplify_eq.
  apply IH in H2 as [H2 Hl]. simpl. split; [|by rewrite Hl].
  apply handle_input_step in H1 as [->|H1]; [done|]. by eapply rtc_l.
Qed.

(** Clients cannot bring the daemon into a state that the controller would not reach by
    itself. Whatever lines and HTTP requests they send to a running daemon, each is answered
    once, a setting in force that needs a restart of the daemon stays as it is, no change of
    the routing mode is left pending, and the session that runs, if any, is the one that the
    controller records, started from the configuration it calls active. *)
Theorem clients_keep_controller (inputs : list ClientInput) (m0 : M) (s1 : Controller * M) rs
    (s2 : Controller * M) :
  rtc step (newController, m0) s1 -> initialized s1.1 = true ->
  handle_inputs inputs s1 = (rs, s2) ->
  length rs = length inputs /\
  core_settings (active s2.1) = core_settings (active s1.1) /\
  (forall ch, ch ∈ snap_Pending (ConfigSnapshot s2.1) -> change_Requires ch <> ApplyRequirementLive) /\
  describes_session ops s2.1 s2.2.
Proof.
  intros H1 Hi H2. apply handle_inputs_steps in H2 as [H2 Hl].
  destruct (controller_run_evolves ops validate load merge_json _ _ H1) as [_ Hmode1].
  destruct (controller_run_evolves ops validate load merge_json _ _ H2) as [Hcore Hmode].
  split; [exact Hl|]. split; [exact (proj2 (Hcore Hi))|]. split.
  - intros ch Hch. exact (live_changes _ _ ch Hch (Hmode (Hmode1 eq_refl))).
  - apply (rtc_closed step (fun x => describes_session ops x.1 x.2) (newController, m0) s2).
    + intros x y Hx Hxy. by eapply controller_step_describes.
    + by apply describes_idle.
    + by etransitivity.
Qed.
End Clients.

(** ** Witnesses *)

Definition demo_encoders : ParamEncoders :=
  {| enc_Hello _ := ""; enc_SessionStart _ := ""; enc_AuthResponse _ := ""; enc_SessionID _ := "";
     enc_ConnectionClose _ := ""; enc_RoutingModeSet _ := ""; enc_ConfigSet _ := "";
     enc_ConfigPatch _ := ""; enc_ConfigApply _ := "" |}.

Definition demo_bodies : Bodies :=
  {| body_Config _ := Ok demo_config_changed; body_Patch _ := Err (EText "no");
     body_Apply _ := Ok ApplyModeRestartSession; body_SessionStart _ := Err (EText "no");
     body_RoutingMode _ := Ok ("ignored"%string, RoutingModeGlobal);
     body_AuthResponse _ := Err (EText "no") |}.

Definition demo_request (method path token : string) : ClientInput :=
  HTTP {| hr_Method := method; hr_Path := path; hr_Host := "127.0.0.1:9090";
          hr_Authorization := "Bearer " +:+ token; hr_Origin := ""; hr_access_token := "";
          hr_Body := "" |}.

Definition demo_inputs : list ClientInput :=
  [JSONLine MethodHello; demo_request "PUT" "/api/v1/sessions/default/routing" "guess";
   demo_request "PUT" "/api/v1/sessions/default/routing" "secret";
   demo_request "PUT" "/api/v1/config" "secret"; JSONLine MethodConfigApply].

Definition demo_handled :=
  handle_inputs demo_ops demo_queries demo_validate (fun _ => Ok demo_config_changed) demo_merge
    "config.yaml" demo_decoders "1.0" [] demo_unmarshal demo_encoders demo_bodies (fun _ => None)
    "secret" demo_inputs demo_1.

Example demo_statuses :
  map (fun r => match r with HTTPReply (JSONReply status _ _ _) => status | _ => 0 end) demo_handled.1
    = [0; StatusUnauthorized; StatusOK; StatusConflict; 0] /\
  routing_Mode (d_Routing (active demo_handled.2.1)) = RoutingModeGlobal.
Proof. split; vm_compute; reflexivity. Qed.

Lemma clients_keep_controller_witness :
  length demo_handled.1 = 5%nat /\
  core_settings (active demo_handled.2.1) = core_settings (active demo_1.1).
Proof.
  destruct (clients_keep_controller demo_ops demo_queries demo_validate
    (fun _ => Ok demo_config_changed) demo_merge "config.yaml" demo_decoders "1.0" [] demo_unmarshal
    demo_encoders demo_bodies (fun _ => None) "secret" demo_inputs newManaged demo_1 demo_handled.1
    demo_handled.2 demo_run_1) as (Hl & Hc & _); [by vm_compute|by apply surjective_pairing|by split].
Defined.

(** The path of a request is decoded before [PathUnescape] decodes it again: the session whose
    identifier is "100%" cannot be reached, and "a%41" is taken for "aA". *)
Example session_id_is_unescaped_twice :
  (exists e, PathUnescape "100%" = Err e) /\ PathUnescape "a%41" = Ok "aA"%string.
Proof. split; [eexists|]; vm_compute; reflexivity. Qed.
