(* ===== verification/Monitoring.v ===== *)
(** What a client is told about a running session: the listings of the tracker
    (internal/networkruntime/tracker.go), the optional interfaces of a network
    (internal/atrustruntime/network.go), the queries of the session (stats.go, session.go) and of
    its runtime (runtime.go), and the manager's queries (manager/manager.go), which are the
    queries that the control service asks of a manager. *)

From stdpp Require Import sorting.
From S2P Require Import Prelude Core Dial Tracker NetRuntime Session Manager DaemonConfig Controller ManagedController ControlService.

(** ** Listings (core/stats.go, tracker.go) *)

Record ConnectionInfo : Type := {
  ci_ID : string;
  ci_SessionID : SessionID;
  ci_Inbound : string;
  ci_Outbound : string;
  ci_RouteReason : string;
  ci_Source : string;
  ci_Network : string;
  ci_Destination : string;
  ci_UploadedBytes : Z;
  ci_DownloadedBytes : Z;
  ci_OpenedAt : Z;
  ci_LastActivityAt : Z;
  ci_State : string;
  ci_TransportConnectionID : string;
}.

Record TransportConnectionInfo : Type := {
  ti_ID : string;
  ti_SessionID : SessionID;
  ti_Outbound : string;
  ti_RouteReason : string;
  ti_Network : string;
  ti_Destination : string;
  ti_UploadedBytes : Z;
  ti_DownloadedBytes : Z;
  ti_OpenedAt : Z;
  ti_LastActivityAt : Z;
  ti_State : string;
}.

(** [logicalConnection.info]. *)
Definition connection_info (c : logicalConnection) : ConnectionInfo :=
  let metadata := lc_metadata c in
  {| ci_ID := lc_id c; ci_SessionID := ""; ci_Inbound := md_Inbound metadata;
     ci_Outbound := md_Outbound metadata; ci_RouteReason := md_RouteReason metadata;
     ci_Source := md_Source metadata; ci_Network := md_Network metadata;
     ci_Destination := md_Destination metadata; ci_UploadedBytes := lc_uploaded c;
     ci_DownloadedBytes := lc_downloaded c; ci_OpenedAt := lc_openedAt c;
     ci_LastActivityAt := lc_lastActivity c; ci_State := ConnectionStateActive;
     ci_TransportConnectionID := md_TransportConnectionID metadata |}.

(** [trackedConn.info]. *)
Definition transport_info (now : Z) (c : trackedConn) : TransportConnectionInfo :=
  {| ti_ID := tc_id c; ti_SessionID := ""; ti_Outbound := route_Outbound (tc_route c);
     ti_RouteReason := route_Reason (tc_route c); ti_Network := tc_network c;
     ti_Destination := tc_destination c; ti_UploadedBytes := tc_uploaded c;
     ti_DownloadedBytes := tc_downloaded c; ti_OpenedAt := tc_openedAt c;
     ti_LastActivityAt := tc_lastActivity c; ti_State := transport_state now c |}.

(** [sort.Slice] with [Before] on a key. It is not stable; which of two entries of one instant comes
    first depends on the order of the map anyway. *)
Definition not_after {A} (key : A -> Z) (x y : A) : Prop := key x <= key y.

#[export] Instance not_after_dec {A} (key : A -> Z) : RelDecision (not_after key).
Proof. intros x y. unfold not_after. apply _. Defined.

#[export] Instance not_after_total {A} (key : A -> Z) : Total (not_after key).
Proof. intros x y. unfold not_after. lia. Qed.

Definition sort_by {A} (key : A -> Z) (l : list A) : list A := merge_sort (not_after key) l.

Section Listings.
(** The order of a walk over a map. *)
Context (range : gmap string nat -> list (string * nat)).

Definition tracker_Connections (t : connectionTracker) : list ConnectionInfo :=
  sort_by ci_OpenedAt
    (map connection_info (omap (fun l => ct_conns t !! l) (map snd (range (ct_connections t))))).

Definition outbound_TransportConnections (now : Z) (o : trackedOutbound) : list TransportConnectionInfo :=
  sort_by ti_OpenedAt
    (map (transport_info now) (omap (fun h => to_conns o !! h) (map snd (range (to_connections o))))).
End Listings.

(** ** A network and its optional interfaces (atrustruntime/network.go) *)

Record networkStatistics (N : Type) : Type := {
  nst_TrafficStats : N -> TrafficStats;
  nst_Connections : N -> list ConnectionInfo;
  nst_CloseConnection : string -> N -> option error * N;
  nst_TransportConnections : N -> list TransportConnectionInfo;
}.
Arguments nst_TrafficStats {N}.
Arguments nst_Connections {N}.
Arguments nst_CloseConnection {N}.
Arguments nst_TransportConnections {N}.

Record networkRouting (N : Type) : Type := {
  nro_RoutingMode : N -> RoutingMode;
  nro_SetRoutingMode : RoutingMode -> N -> result error RoutingMode * N;
}.
Arguments nro_RoutingMode {N}.
Arguments nro_SetRoutingMode {N}.

(** The interfaces that an outbound implements besides dialing. *)
Record Provider (N : Type) : Type := {
  pv_health : option (N -> option error);
  pv_services : option (N -> list ServiceStatus);
  pv_statistics : option (networkStatistics N);
  pv_routing : option (networkRouting N);
}.
Arguments pv_health {N}.
Arguments pv_services {N}.
Arguments pv_statistics {N}.
Arguments pv_routing {N}.

Definition unavailable (message : string) : error :=
  WrapError ErrorCodeOutboundUnavailable message true None.

(** The outcome of [network.outbound.(interface)]. *)
Definition provided {P A} (provider : option P) (message : string) (f : P -> A) : result error A :=
  match provider with None => Err (unavailable message) | Some p => Ok (f p) end.

Section Network.
Context {N : Type} (pv : Provider N).

Definition network_Err (network : N) : option error :=
  match pv_health pv with None => None | Some err => err network end.

Definition network_Services (network : N) : result error (list ServiceStatus) :=
  provided (pv_services pv) "session runtime is unavailable" (fun services => services network).

Definition network_TrafficStats (network : N) : result error TrafficStats :=
  provided (pv_statistics pv) "traffic statistics are unavailable" (fun p => nst_TrafficStats p network).

Definition network_Connections (network : N) : result error (list ConnectionInfo) :=
  provided (pv_statistics pv) "connection statistics are unavailable" (fun p => nst_Connections p network).

Definition network_CloseConnection (id : string) (network : N) : option error * N :=
  match pv_statistics pv with
  | None => (Some (unavailable "connection control is unavailable"), network)
  | Some p => nst_CloseConnection p id network
  end.

Definition network_TransportConnections (network : N) : result error (list TransportConnectionInfo) :=
  provided (pv_statistics pv) "transport connection statistics are unavailable"
    (fun p => nst_TransportConnections p network).

Definition network_RoutingMode (network : N) : result error RoutingMode :=
  provided (pv_routing pv) "routing mode is unavailable" (fun p => nro_RoutingMode p network).

Definition network_SetRoutingMode (mode : RoutingMode) (network : N) : result error RoutingMode * N :=
  match pv_routing pv with
  | None => (Err (unavailable "routing mode is unavailable"), network)
  | Some p => nro_SetRoutingMode p mode network
  end.

(** ** Queries of a session (stats.go, session.go, routing.go) *)

Definition name_connection (id : SessionID) (c : ConnectionInfo) : ConnectionInfo :=
  {| ci_ID := ci_ID c; ci_SessionID := id; ci_Inbound := ci_Inbound c; ci_Outbound := ci_Outbound c;
     ci_RouteReason := ci_RouteReason c; ci_Source := ci_Source c; ci_Network := ci_Network c;
     ci_Destination := ci_Destination c; ci_UploadedBytes := ci_UploadedBytes c;
     ci_DownloadedBytes := ci_DownloadedBytes c; ci_OpenedAt := ci_OpenedAt c;
     ci_LastActivityAt := ci_LastActivityAt c; ci_State := ci_State c;
     ci_TransportConnectionID := ci_TransportConnectionID c |}.

Definition name_transport (id : SessionID) (c : TransportConnectionInfo) : TransportConnectionInfo :=
  {| ti_ID := ti_ID c; ti_SessionID := id; ti_Outbound := ti_Outbound c; ti_RouteReason := ti_RouteReason c;
     ti_Network := ti_Network c; ti_Destination := ti_Destination c; ti_UploadedBytes := ti_UploadedBytes c;
     ti_DownloadedBytes := ti_DownloadedBytes c; ti_OpenedAt := ti_OpenedAt c;
     ti_LastActivityAt := ti_LastActivityAt c; ti_State := ti_State c |}.

(** The network of a session is a handle; [nets] has the networks' states. *)
Context (nets : nat -> N).

(** The identifier of the session is put beside the numbers. *)
Definition session_TrafficStats (s : Session) : result error (SessionID * TrafficStats) :=
  let? n := stableNetwork s in
  let? stats := network_TrafficStats (nets n) in
  Ok (ss_id s, stats).

Definition session_Connections (s : Session) : result error (list ConnectionInfo) :=
  let? n := stableNetwork s in
  let? connections := network_Connections (nets n) in
  Ok (map (name_connection (ss_id s)) connections).

(** The network that was asked, with the state it is left in. *)
Definition session_CloseConnection (id : string) (s : Session) : option error * option (nat * N) :=
  match stableNetwork s with
  | Err err => (Some err, None)
  | Ok n => let '(err, network) := network_CloseConnection id (nets n) in (err, Some (n, network))
  end.

Definition session_TransportConnections (s : Session) : result error (list TransportConnectionInfo) :=
  let? n := stableNetwork s in
  let? connections := network_TransportConnections (nets n) in
  Ok (map (name_transport (ss_id s)) connections).

Definition session_Services (s : Session) : result error (list ServiceStatus) :=
  let? n := stableNetwork s in network_Services (nets n).

Definition session_RoutingMode (s : Session) : result error RoutingMode :=
  match ss_network s with
  | None => Err (unavailable "routing mode is unavailable")
  | Some n => network_RoutingMode (nets n)
  end.

(** [serviceStatuses]. *)
Definition serviceStatuses (network : option nat) : list ServiceStatus :=
  match network with
  | None => []
  | Some n => match network_Services (nets n) with Ok services => services | Err _ => [] end
  end.

(** *** The getters of a runtime (runtime.go) *)

Definition rt_query {A} (message : string) (query : N -> result error A) (r : Runtime) : result error A :=
  match rt_outbound r with None => Err (unavailable message) | Some n => query (nets n) end.

Definition rt_Services (r : Runtime) : list ServiceStatus := serviceStatuses (rt_outbound r).

Definition rt_Err (r : Runtime) : option error :=
  match rt_outbound r with None => None | Some n => network_Err (nets n) end.

Definition rt_TrafficStats : Runtime -> result error TrafficStats :=
  rt_query "traffic statistics are unavailable" network_TrafficStats.

Definition rt_Connections : Runtime -> result error (list ConnectionInfo) :=
  rt_query "connection statistics are unavailable" network_Connections.

Definition rt_CloseConnection (id : string) (r : Runtime) : option error * option (nat * N) :=
  match rt_outbound r with
  | None => (Some (unavailable "connection control is unavailable"), None)
  | Some n => let '(err, network) := network_CloseConnection id (nets n) in (err, Some (n, network))
  end.

Definition rt_TransportConnections : Runtime -> result error (list TransportConnectionInfo) :=
  rt_query "transport connection statistics are unavailable" network_TransportConnections.
End Network.

(** ** The network runtime as a network (networkruntime/runtime.go) *)

Section RuntimeProvider.
Context {V I D : Type} (range : gmap string nat -> list (string * nat)).

(** What the runtime keeps for its queries; [nr_now] is the clock and [nr_closeErr] what closing a
    transport connection answers. *)
Record NetworkRuntime : Type := {
  nr_traffic : Traffic;
  nr_services : list serviceEntry;
  nr_router : Router V I D;
  nr_runErr : option error;
  nr_now : Z;
  nr_closeErr : option error;
}.

Definition set_traffic (traffic : Traffic) (r : NetworkRuntime) : NetworkRuntime :=
  {| nr_traffic := traffic; nr_services := nr_services r; nr_router := nr_router r;
     nr_runErr := nr_runErr r; nr_now := nr_now r; nr_closeErr := nr_closeErr r |}.

Definition set_router (router : Router V I D) (r : NetworkRuntime) : NetworkRuntime :=
  {| nr_traffic := nr_traffic r; nr_services := nr_services r; nr_router := router;
     nr_runErr := nr_runErr r; nr_now := nr_now r; nr_closeErr := nr_closeErr r |}.

(** [Runtime.Services]. *)
Definition runtime_Services (r : NetworkRuntime) : list ServiceStatus := map service_status (nr_services r).

Definition runtime_CloseConnection (id : string) (r : NetworkRuntime) : option error * NetworkRuntime :=
  let '(err, traffic) := Tracker.CloseConnection id (nr_closeErr r) (nr_traffic r) in
  (err, set_traffic traffic r).

Definition runtime_SetRoutingMode (mode : RoutingMode) (r : NetworkRuntime)
    : result error RoutingMode * NetworkRuntime :=
  let '(previous, router) := Router_SetMode mode (nr_router r) in (previous, set_router router r).

(** The runtime implements every interface. *)
Definition runtime_provider : Provider NetworkRuntime :=
  {| pv_health := Some nr_runErr;
     pv_services := Some runtime_Services;
     pv_statistics := Some
       {| nst_TrafficStats r := runtime_TrafficStats (nr_traffic r);
          nst_Connections r := tracker_Connections range (tracker (nr_traffic r));
          nst_CloseConnection := runtime_CloseConnection;
          nst_TransportConnections r := outbound_TransportConnections range (nr_now r) (outbound (nr_traffic r)) |};
     pv_routing := Some
       {| nro_RoutingMode r := router_mode (nr_router r); nro_SetRoutingMode := runtime_SetRoutingMode |} |}.
End RuntimeProvider.

(** ** The manager's queries (manager/manager.go) *)

Section Queries.
Context {N : Type} (pv : Provider N).

(** The sessions and the networks behind their handles, as the given operation finds them; the answers
    of the authentication broker and of a refresh. *)
Context (sessions : nat -> nat -> Session) (nets : nat -> nat -> N).
Context (respond : nat -> AuthResponse -> option error) (refresh : nat -> nat -> option error).

Definition query {A} (id : SessionID) (x : Managed) (ask : Session -> result error A) : result error A :=
  let? n := manager_session id (mg x) (world x) in ask (sessions (tick x) n).

(** The operation was the next one. *)
Definition ticked (x : Managed) : Managed :=
  {| mg := mg x; world := world x; settings := settings x; tick := S (tick x) |}.

Definition manager_Status (id : SessionID) (x : Managed) : SessionStatus :=
  match manager_session id (mg x) (world x) with
  | Err _ => zeroSessionStatus
  | Ok n => session_Status (sessions (tick x) n)
  end.

Definition manager_Resources (id : SessionID) (x : Managed) : result error Resources :=
  query id x session_Resources.

Definition manager_RefreshResources (id : SessionID) (x : Managed) : result error Resources * Managed :=
  match manager_session id (mg x) (world x) with
  | Err err => (Err err, x)
  | Ok n =>
      match refresh (tick x) n with
      | Some err => (Err err, ticked x)
      | None => (session_Resources (sessions (S (tick x)) n), ticked x)
      end
  end.

Definition manager_Outbound (id : SessionID) (x : Managed) : result error nat :=
  query id x session_Outbound.

Definition manager_Services (id : SessionID) (x : Managed) : result error (list ServiceStatus) :=
  query id x (session_Services pv (nets (tick x))).

Definition manager_TrafficStats (id : SessionID) (x : Managed) : result error (SessionID * TrafficStats) :=
  query id x (session_TrafficStats pv (nets (tick x))).

Definition manager_Connections (id : SessionID) (x : Managed) : result error (list ConnectionInfo) :=
  query id x (session_Connections pv (nets (tick x))).

Definition manager_CloseConnection (id : SessionID) (connectionID : string) (x : Managed)
    : option error * Managed :=
  match manager_session id (mg x) (world x) with
  | Err err => (Some err, x)
  | Ok n => ((session_CloseConnection pv (nets (tick x)) connectionID (sessions (tick x) n)).1, ticked x)
  end.

Definition manager_TransportConnections (id : SessionID) (x : Managed)
    : result error (list TransportConnectionInfo) :=
  query id x (session_TransportConnections pv (nets (tick x))).

Definition manager_RoutingMode (id : SessionID) (x : Managed) : result error RoutingMode :=
  query id x (session_RoutingMode pv (nets (tick x))).

Definition managed_queries
    : ManagerQueries (SessionID * TrafficStats) (list ConnectionInfo) (list TransportConnectionInfo) Managed :=
  {| mq_RespondAuth response x := (respond (tick x) response, ticked x);
     mq_Status := manager_Status;
     mq_Resources := manager_Resources;
     mq_RefreshResources := manager_RefreshResources;
     mq_Services := manager_Services;
     mq_TrafficStats := manager_TrafficStats;
     mq_Connections := manager_Connections;
     mq_CloseConnection := manager_CloseConnection;
     mq_TransportConnections := manager_TransportConnections;
     mq_RoutingMode := manager_RoutingMode |}.

(** The queries of the manager keep what the control service relies on. *)
#[export] Instance managed_queries_quiet factory oracle :
  StartsNoSession (managed_ops factory oracle) managed_queries.
Proof.
  split; cbn.
  - intros response x. by right.
  - intros id x. unfold manager_RefreshResources.
    destruct (manager_session _ _ _) as [n|]; [|by right]. destruct (refresh _ _); by right.
  - intros id conn x. unfold manager_CloseConnection. destruct (manager_session _ _ _) as [n|]; by right.
Qed.
End Queries.

(** ** Lemmas *)

Section Listed.
Context (range : gmap string nat -> list (string * nat)).
Context (range_all : forall m, range m ≡ₚ map_to_list m).

(** The entries of a table of handles, each of which leads to a connection of that identifier. *)
Lemma listed_entries {A} (conns : list A) (id_of : A -> string) (m : gmap string nat) :
  (forall id h, m !! id = Some h -> exists c, conns !! h = Some c /\ id_of c = id) ->
  let l := omap (fun h => conns !! h) (map snd (range m)) in
  map id_of l = map fst (range m) /\
  (forall c, c ∈ l <-> exists h, m !! id_of c = Some h /\ conns !! h = Some c).
Proof.
  intros Hm. cbv zeta.
  assert (forall id h, (id, h) ∈ range m <-> m !! id = Some h) as Hin.
  { intros id h. rewrite (range_all m). apply elem_of_map_to_list. }
  split.
  - assert (forall e, e ∈ range m -> exists c, conns !! e.2 = Some c /\ id_of c = e.1) as Hall.
    { intros [id h] He. by apply Hm, Hin. }
    clear Hin. induction (range m) as [|[id h] l IH]; [done|]. cbn.
    destruct (Hall (id, h) ltac:(by left)) as (c & Hc & Hid). cbn in Hc, Hid. rewrite Hc. cbn.
    f_equal; [done|]. apply IH. intros e He. apply Hall. by right.
  - intros c. rewrite list_elem_of_omap. split.
    + intros (h & Hh & Hc). apply list_elem_of_fmap in Hh as ([id h'] & -> & He). apply Hin in He.
      destruct (Hm _ _ He) as (d & Hd & Hid). cbn in Hc. simplify_eq. by exists h'.
    + intros (h & Hh & Hc). exists h. split; [|done]. apply list_elem_of_fmap. exists (id_of c, h).
      split; [done|]. by apply Hin.
Qed.

Lemma elem_of_sort_by {A} (key : A -> Z) l x : x ∈ sort_by key l <-> x ∈ l.
Proof. unfold sort_by. by rewrite merge_sort_Permutation. Qed.

Lemma Sorted_sort_by {A} (key : A -> Z) l : Sorted (not_after key) (sort_by key l).
Proof. apply Sorted_merge_sort, _. Qed.

Lemma length_sort_by {A} (key : A -> Z) l : length (sort_by key l) = length l.
Proof. unfold sort_by. by rewrite merge_sort_Permutation. Qed.

Lemma NoDup_range_keys m : NoDup (map fst (range m)).
Proof. rewrite (range_all m). apply NoDup_fst_map_to_list. Qed.

Lemma length_range m : length (range m) = size m.
Proof. by rewrite (range_all m), length_map_to_list. Qed.

(** The listing of logical connections: those that are open, each once. *)
Lemma tracker_Connections_spec t :
  tracker_inv t -> Z.of_nat (length (ct_conns t)) < 2 ^ 64 ->
  let l := tracker_Connections range t in
  Z.of_nat (length l) = Z.of_nat (size (ct_connections t)) /\ Sorted (not_after ci_OpenedAt) l /\
  NoDup (map ci_ID l) /\ (forall id, id ∈ map ci_ID l <-> is_Some (ct_connections t !! id)) /\
  (forall c, c ∈ l <-> exists d, d ∈ ct_conns t /\ lc_closed d = None /\ c = connection_info d).
Proof.
  intros Hi Hfew. cbv zeta. unfold tracker_Connections.
  set (open := omap _ _). pose proof (ti_listed t Hi Hfew) as Hl.
  destruct (listed_entries (ct_conns t) lc_id (ct_connections t)) as [Hids Hin].
  { intros id h Hh. apply Hl in Hh as (c & Hc & Hid & _). by exists c. }
  fold open in Hids, Hin.
  assert (map ci_ID (sort_by ci_OpenedAt (map connection_info open)) ≡ₚ map fst (range (ct_connections t))) as Hp.
  { unfold sort_by. rewrite merge_sort_Permutation, map_map, <-Hids. done. }
  split_and!.
  - rewrite length_sort_by, length_map, <-(length_map lc_id open), Hids, length_map, length_range. done.
  - apply Sorted_sort_by.
  - rewrite Hp. apply NoDup_range_keys.
  - intros id. rewrite Hp. rewrite list_elem_of_fmap. split.
    + intros ([i h] & -> & He). rewrite range_all in He. apply elem_of_map_to_list in He. by eexists.
    + intros [h Hh]. exists (id, h). split; [done|]. rewrite range_all. by apply elem_of_map_to_list.
  - intros c. rewrite elem_of_sort_by, list_elem_of_fmap. split.
    + intros (d & -> & Hd). apply Hin in Hd as (h & Hh & Hd). apply Hl in Hh as (d' & Hd' & _ & Hc).
      rewrite Hd in Hd'. injection Hd' as <-. exists d. split; [by eapply list_elem_of_lookup_2|done].
    + intros (d & [h Hh]%list_elem_of_lookup & Hc & ->). exists d. split; [done|]. apply Hin. exists h.
      split; [|done]. apply Hl. by exists d.
Qed.

(** The listing of transport connections: of open ones, each once. *)
Lemma outbound_TransportConnections_spec now o :
  outbound_inv o -> Z.of_nat (length (to_conns o)) < 2 ^ 64 ->
  let l := outbound_TransportConnections range now o in
  Z.of_nat (length l) = Z.of_nat (size (to_connections o)) /\ Sorted (not_after ti_OpenedAt) l /\
  NoDup (map ti_ID l) /\
  (forall c, c ∈ l -> exists d, d ∈ to_conns o /\ tc_closed d = None /\ c = transport_info now d).
Proof.
  intros Hi Hfew. cbv zeta. unfold outbound_TransportConnections.
  set (open := omap _ _). pose proof (oi_listed o Hi Hfew) as Hl.
  destruct (listed_entries (to_conns o) tc_id (to_connections o)) as [Hids Hin].
  { intros id h Hh. apply Hl in Hh as (c & Hc & Hid & _). by exists c. }
  fold open in Hids, Hin. split_and!.
  - rewrite length_sort_by, length_map, <-(length_map tc_id open), Hids, length_map, length_range. done.
  - apply Sorted_sort_by.
  - unfold sort_by. rewrite merge_sort_Permutation, map_map.
    change (NoDup (map tc_id open)). rewrite Hids. apply NoDup_range_keys.
  - intros c. rewrite elem_of_sort_by, list_elem_of_fmap. intros (d & -> & Hd).
    apply Hin in Hd as (h & Hh & Hd). apply Hl in Hh as (d' & Hd' & _ & Hc).
    rewrite Hd in Hd'. injection Hd' as <-. exists d. split; [by eapply list_elem_of_lookup_2|done].
Qed.
End Listed.

(** Closing a listed connection takes it, and it alone, off the list. *)
Lemma CloseConnection_unlists range id err s e s' :
  (forall m, range m ≡ₚ map_to_list m) ->
  traffic_inv s -> Z.of_nat (length (ct_conns (tracker s))) < 2 ^ 64 ->
  Tracker.CloseConnection id err s = (e, s') ->
  let l := tracker_Connections range (tracker s) in
  let l' := tracker_Connections range (tracker s') in
  (id ∉ map ci_ID l -> ErrorCodeOf e = ErrorCodeConnectionNotFound /\ s' = s) /\
  (id ∈ map ci_ID l -> forall c, c ∈ l' <-> c ∈ l /\ ci_ID c <> id).
Proof.
  intros Hrange [Ho Ht] Hfew H. cbv zeta.
  destruct (tracker_Connections_spec range Hrange _ Ht Hfew) as (_ & _ & _ & Hids & Hopen).
  unfold Tracker.CloseConnection in H. split.
  - intros Hn. destruct (ct_connections (tracker s) !! id) as [l|] eqn:Hid.
    + exfalso. apply Hn, Hids. by exists l.
    + by injection H as <- <-.
  - intros [l Hid]%Hids. rewrite Hid in H.
    destruct (proj1 (ti_listed _ Ht Hfew id l) Hid) as (c & Hc & <- & Hcl).
    pose proof (logical_Close_inv _ _ _ _ _ (conj Ho Ht) H) as [_ Ht'].
    unfold logical_Close in H. rewrite Hc, Hcl in H.
    destruct (match lc_transport c with Some h => _ | None => _ end) as [e1 o] eqn:H1.
    injection H as <- <-. cbn [tracker] in Ht' |- *. set (closed := tracker_remove _ _) in *.
    assert (ct_conns closed = <[l := set_lclosed e1 c]> (ct_conns (tracker s))) as Hconns by done.
    destruct (tracker_Connections_spec range Hrange _ Ht') as (_ & _ & _ & _ & Hopen').
    { by rewrite Hconns, length_insert. }
    intros ci. rewrite Hopen', Hopen, Hconns. split.
    + intros (d & [i Hi]%list_elem_of_lookup & Hd & ->).
      apply list_lookup_insert_Some in Hi as [(<- & <- & _)|[Hne Hi]]; [done|].
      split; [exists d; split; [by eapply list_elem_of_lookup_2|done]|]. cbn. intros Heq.
      assert (ct_connections (tracker s) !! lc_id d = Some i) as Hx
        by (apply (ti_listed _ Ht Hfew); by exists d).
      rewrite Heq in Hx. congruence.
    + intros [(d & [i Hi]%list_elem_of_lookup & Hd & ->) Hne]. exists d. split; [|done].
      apply list_elem_of_lookup. exists i. rewrite list_lookup_insert_ne; [done|]. intros <-.
      rewrite Hc in Hi. injection Hi as <-. by apply Hne.
Qed.

(** What queries may rely on: the traffic of a network comes from its operations, and its connections can be
    numbered. *)
Definition sound_traffic (is_timeout : error -> bool) (s : Traffic) : Prop :=
  traffic_reachable is_timeout s /\ Z.of_nat (length (to_conns (outbound s))) < 2 ^ 64 /\
  Z.of_nat (length (ct_conns (tracker s))) < 2 ^ 64.

Lemma manager_session_error id m w err :
  manager_session id m w = Err err -> err = WrapError ErrorCodeSessionNotFound "session not found" false None.
Proof. unfold manager_session. destruct (current m); [case_bool_decide|]; by intros [= <-]. Qed.

Lemma stableNetwork_error s err :
  stableNetwork s = Err err -> err = unavailable "session runtime is unavailable".
Proof. unfold stableNetwork. destruct (ss_network s); [destruct (stopping _)|]; by intros [= <-]. Qed.

Lemma Sorted_named {A} (key : A -> Z) (f : A -> A) l :
  (forall x, key (f x) = key x) -> Sorted (not_after key) l -> Sorted (not_after key) (map f l).
Proof.
  intros Hf Hs. induction Hs as [|x l Hs IH Hhd]; [constructor|]. cbn. constructor; [exact IH|].
  destruct Hhd as [|y l Hxy]; cbn; constructor. unfold not_after in *. by rewrite !Hf.
Qed.

Section Truth.
Context {V I D : Type} (range : gmap string nat -> list (string * nat)).
Context (range_all : forall m, range m ≡ₚ map_to_list m).
Context (is_timeout : error -> bool).
Context (sessions : nat -> nat -> Session) (nets : nat -> nat -> NetworkRuntime (V := V) (I := I) (D := D)).
Context (respond : nat -> AuthResponse -> option error) (refresh : nat -> nat -> option error).

#[local] Abbreviation queries := (managed_queries (runtime_provider range) sessions nets respond refresh).

(** C20: What the daemon says of a session's connections is true of the session that was asked for, over the
    manager, the session and its network. A query for another session than the manager's current one fails
    with SESSION_NOT_FOUND; one for a session that is stopping, stopped or has no network fails with a
    retryable OUTBOUND_UNAVAILABLE. Otherwise the listing of connections holds exactly the logical
    connections that are open, each once, the oldest first, under the session's identifier, and as many as
    the statistics say are active; the listing of transport connections holds open ones only, as
    many as the statistics say. Closing a connection takes the listed one off the list and leaves the others;
    for an identifier that is not listed it fails with CONNECTION_NOT_FOUND and changes nothing. *)
Theorem monitoring_is_true (id : SessionID) (x : Managed) :
  (forall n, manager_session id (mg x) (world x) = Ok n -> ss_id (sessions (tick x) n) = id) ->
  (forall n h, manager_session id (mg x) (world x) = Ok n -> stableNetwork (sessions (tick x) n) = Ok h ->
     sound_traffic is_timeout (nr_traffic (nets (tick x) h))) ->
  match manager_session id (mg x) (world x) with
  | Err err =>
      ErrorCodeOf (Some err) = ErrorCodeSessionNotFound /\ mq_TrafficStats queries id x = Err err /\
      mq_Connections queries id x = Err err /\ mq_TransportConnections queries id x = Err err /\
      mq_Services queries id x = Err err /\ (forall conn, mq_CloseConnection queries id conn x = (Some err, x))
  | Ok n =>
      match stableNetwork (sessions (tick x) n) with
      | Err err =>
          ErrorCodeOf (Some err) = ErrorCodeOutboundUnavailable /\ IsRetryable (Some err) = true /\
          mq_TrafficStats queries id x = Err err /\ mq_Connections queries id x = Err err /\
          mq_TransportConnections queries id x = Err err /\ mq_Services queries id x = Err err /\
          (forall conn, (mq_CloseConnection queries id conn x).1 = Some err)
      | Ok h =>
          let network := nets (tick x) h in
          exists stats l transports,
            mq_TrafficStats queries id x = Ok (id, stats) /\ mq_Connections queries id x = Ok l /\
            mq_TransportConnections queries id x = Ok transports /\
            mq_Services queries id x = Ok (map service_status (nr_services network)) /\
            Z.of_nat (length l) = stats_ActiveConnections stats /\
            Z.of_nat (length transports) = stats_OpenTransportConnections stats /\
            NoDup (map ci_ID l) /\ NoDup (map ti_ID transports) /\
            Sorted (not_after ci_OpenedAt) l /\ Sorted (not_after ti_OpenedAt) transports /\
            (forall c, c ∈ l <-> exists d, d ∈ ct_conns (tracker (nr_traffic network)) /\ lc_closed d = None /\
               c = name_connection id (connection_info d)) /\
            (forall c, c ∈ transports -> exists d, d ∈ to_conns (outbound (nr_traffic network)) /\
               tc_closed d = None /\ c = name_transport id (transport_info (nr_now network) d)) /\
            (forall conn err network', session_CloseConnection (runtime_provider range) (nets (tick x)) conn
                                         (sessions (tick x) n) = (err, Some (h, network')) ->
               (mq_CloseConnection queries id conn x).1 = err /\
               let listed := tracker_Connections range (tracker (nr_traffic network)) in
               let listed' := tracker_Connections range (tracker (nr_traffic network')) in
               (conn ∉ map ci_ID l -> ErrorCodeOf err = ErrorCodeConnectionNotFound /\ network' = network) /\
               (conn ∈ map ci_ID l -> forall c, c ∈ listed' <-> c ∈ listed /\ ci_ID c <> conn))
      end
  end.
Proof.
  intros Hname Hsound. cbn [managed_queries mq_TrafficStats mq_Connections mq_TransportConnections mq_Services
    mq_CloseConnection].
  unfold manager_TrafficStats, manager_Connections, manager_TransportConnections, manager_Services,
    manager_CloseConnection, query.
  destruct (manager_session id (mg x) (world x)) as [n|err] eqn:Hm.
  2:{ split_and!; try done. by apply manager_session_error in Hm as ->. }
  specialize (Hname n eq_refl). specialize (Hsound n). cbn [result_bind].
  unfold session_TrafficStats, session_Connections, session_TransportConnections, session_Services,
    session_CloseConnection.
  destruct (stableNetwork (sessions (tick x) n)) as [h|err] eqn:Hs.
  2:{ cbn. split_and!; try done; by apply stableNetwork_error in Hs as ->. }
  specialize (Hsound h eq_refl eq_refl). destruct Hsound as (Hr & Hft & Hfl).
  pose proof (traffic_reachable_inv _ _ Hr) as [Ho Ht]. cbv zeta.
  destruct (tracker_Connections_spec range range_all _ Ht Hfl) as (Hlen & Hsort & Hnd & _ & Hopen).
  destruct (outbound_TransportConnections_spec range range_all (nr_now (nets (tick x) h)) _ Ho Hft)
    as (Htlen & Htsort & Htnd & Htopen).
  eexists _, _, _. split; [cbn; rewrite Hname; reflexivity|]. split; [cbn; rewrite Hname; reflexivity|].
  split; [cbn; rewrite Hname; reflexivity|]. split; [reflexivity|]. rewrite !length_map, !map_map.
  split_and!; try done.
  - by apply Sorted_named.
  - by apply Sorted_named.
  - intros c. rewrite list_elem_of_fmap. setoid_rewrite Hopen. naive_solver.
  - intros c. rewrite list_elem_of_fmap. intros (d & -> & (d' & Hd & Hc & ->)%Htopen). by exists d'.
  - intros conn err network' Hclose. cbn in Hclose |- *. unfold runtime_CloseConnection in *.
    destruct (Tracker.CloseConnection conn _ _) as [e traffic] eqn:Hcc. cbn in Hclose |- *.
    injection Hclose as <- <-. split; [done|].
    destruct (CloseConnection_unlists range _ _ _ _ _ range_all (conj Ho Ht) Hfl Hcc) as [Hno Hyes].
    split; [|exact Hyes]. intros Hni. destruct (Hno Hni) as [He ->]. split; [done|]. by destruct (nets _ _).
Qed.
End Truth.

(** A manager whose current session runs, with the traffic of [Tracker]'s example. *)
Definition demo_managed : Managed :=
  {| mg := {| current := Some 0%nat; nextID := 0 |};
     world := {| Manager.active := Some 0%nat; ids := {[0%nat := "default"%string]}; live := {[0%nat]} |};
     settings := ∅; tick := 0 |}.

Definition demo_running : Session :=
  set_network (Some 0%nat) (Session.set_state SessionStateReady
    (newSession "default" {| scfg_ResumeState := None; scfg_ClientDataFile := ""; scfg_DisableAutoReconnect := false |})).

Definition demo_network : NetworkRuntime (V := unit) (I := unit) (D := unit) :=
  {| nr_traffic := demo_read; nr_services := []; nr_router := {| router_vpn := tt; router_internet := tt;
       router_direct := tt; router_mode := RoutingModeRule |}; nr_runErr := None; nr_now := 3; nr_closeErr := None |}.

Lemma monitoring_is_true_witness :
  manager_session "default" (mg demo_managed) (world demo_managed) = Ok 0%nat /\
  exists l, mq_Connections (managed_queries (runtime_provider map_to_list) (fun _ _ => demo_running)
                 (fun _ _ => demo_network) (fun _ _ => None) (fun _ _ => None)) "default" demo_managed = Ok l /\
    map ci_SessionID l = ["default"%string] /\ length l = 1%nat /\ NoDup (map ci_ID l).
Proof.
  pose proof (monitoring_is_true map_to_list (fun m => reflexivity _) (fun _ => false) (fun _ _ => demo_running)
    (fun _ _ => demo_network) (fun _ _ => None) (fun _ _ => None) "default" demo_managed) as H.
  assert (manager_session "default" (mg demo_managed) (world demo_managed) = Ok 0%nat) as Hm by (by vm_compute).
  split; [exact Hm|]. rewrite Hm in H.
  destruct H as (stats & l & transports & _ & Hl & _ & _ & _ & _ & Hnd & _).
  - intros n _. reflexivity.
  - intros n h _ _. split; [exact demo_read_reachable|]. done.
  - exists l. split; [exact Hl|]. split; [|split; [|exact Hnd]].
    + change (match Ok (E := error) l with Ok l => map ci_SessionID l | Err _ => [] end = ["default"%string]).
      rewrite <-Hl. vm_compute. reflexivity.
    + change (match Ok (E := error) l with Ok l => length l | Err _ => 0%nat end = 1%nat).
      rewrite <-Hl. vm_compute. reflexivity.
Defined.
