(* ===== verification/Relay.v ===== *)
(** What the inbounds do with a connection (service/connection.go, http.go, socks.go): it is
    announced to the tracker, observed, and relayed in both directions at once; a plain HTTP
    request is forwarded. [io.Copy] is written out. *)

From S2P Require Import Prelude Core GoNet Dial Tracker.

(** ** What the tracker is told *)

(** A CONNECT request, a SOCKS5 request, and a plain request, which has no connection yet. *)
Definition connect_metadata (remoteAddr host : string) (route : RouteInfo) (transportID : string) : ConnectionMetadata :=
  {| md_Inbound := "http"; md_Outbound := route_Outbound route; md_RouteReason := route_Reason route;
     md_Source := remoteAddr; md_Network := "tcp"; md_Destination := host; md_TransportConnectionID := transportID |}.

Definition socks_metadata (remoteAddr : option string) (network address : string) (route : RouteInfo)
    (transportID : string) : ConnectionMetadata :=
  {| md_Inbound := "socks5"; md_Outbound := route_Outbound route; md_RouteReason := route_Reason route;
     md_Source := default "" remoteAddr; md_Network := network; md_Destination := address;
     md_TransportConnectionID := transportID |}.

Definition request_metadata (remoteAddr urlHost host : string) : ConnectionMetadata :=
  {| md_Inbound := "http"; md_Outbound := ""; md_RouteReason := ""; md_Source := remoteAddr; md_Network := "tcp";
     md_Destination := if is_empty urlHost then host else urlHost; md_TransportConnectionID := "" |}.

(** ** [io.Copy], one direction *)

Definition io_ErrShortWrite : error := EVar "io.ErrShortWrite" "short write".
Definition os_ErrDeadlineExceeded : string := "os.ErrDeadlineExceeded".

(** In [Read], in [Write] with what was read, and done. *)
Inductive CopyPC : Type :=
| CopyReading
| CopyWriting (data : list Z) (readErr : option error)
| CopyDone (err : option error).

(** What an error of [Read] ends with: [io.EOF] itself is no error. *)
Definition copy_end (err : error) : CopyPC :=
  CopyDone (match err with
            | EVar name _ => if bool_decide (name = "io.EOF"%string) then None else Some err
            | _ => Some err
            end).

Definition after_read (data : list Z) (readErr : option error) : CopyPC :=
  match data, readErr with
  | [], None => CopyReading
  | [], Some err => copy_end err
  | _, _ => CopyWriting data readErr
  end.

Definition after_write (data : list Z) (n : nat) (readErr writeErr : option error) : CopyPC :=
  match writeErr with
  | Some err => CopyDone (Some err)
  | None =>
      if negb (bool_decide (n = length data)) then CopyDone (Some io_ErrShortWrite)
      else match readErr with Some err => copy_end err | None => CopyReading end
  end.

(** ** [relay]

    [rl_up] copies from the client to the server, [rl_down] back. The lists are the bytes that
    were read and written so far; they are not in the code. *)
Record RelayState : Type := {
  rl_traffic : Traffic;
  rl_up : CopyPC;
  rl_down : CopyPC;
  rl_clientRead : list Z;
  rl_serverWritten : list Z;
  rl_serverRead : list Z;
  rl_clientWritten : list Z;
}.

Definition relay_start (s : Traffic) : RelayState :=
  {| rl_traffic := s; rl_up := CopyReading; rl_down := CopyReading; rl_clientRead := []; rl_serverWritten := [];
     rl_serverRead := []; rl_clientWritten := [] |}.

Section Relay.
Variable is_timeout : error -> bool.
(** The logical connection of the request, and the transport connection below. *)
Variables l h : nat.

(** The observed connection to the server: [Read] and [Write] are counted. *)
Definition observed_Read (count : Z) (err : option error) (now : Z) (s : Traffic) : Traffic :=
  logical_Read is_timeout l h count err now s.
Definition observed_Write (count : Z) (err : option error) (now : Z) (s : Traffic) : Traffic :=
  logical_Write is_timeout l h count err now s.

Definition up_read (data : list Z) (err : option error) (s : RelayState) : option RelayState :=
  match rl_up s with
  | CopyReading => Some
      {| rl_traffic := rl_traffic s; rl_up := after_read data err; rl_down := rl_down s;
         rl_clientRead := rl_clientRead s ++ data; rl_serverWritten := rl_serverWritten s;
         rl_serverRead := rl_serverRead s; rl_clientWritten := rl_clientWritten s |}
  | _ => None
  end.

Definition up_write (n : nat) (err : option error) (now : Z) (s : RelayState) : option RelayState :=
  match rl_up s with
  | CopyWriting data readErr =>
      if bool_decide (n <= length data)%nat then Some
        {| rl_traffic := observed_Write (Z.of_nat n) err now (rl_traffic s); rl_up := after_write data n readErr err;
           rl_down := rl_down s; rl_clientRead := rl_clientRead s;
           rl_serverWritten := rl_serverWritten s ++ take n data;
           rl_serverRead := rl_serverRead s; rl_clientWritten := rl_clientWritten s |}
      else None
  | _ => None
  end.

Definition down_read (data : list Z) (err : option error) (now : Z) (s : RelayState) : option RelayState :=
  match rl_down s with
  | CopyReading => Some
      {| rl_traffic := observed_Read (len data) err now (rl_traffic s); rl_up := rl_up s;
         rl_down := after_read data err; rl_clientRead := rl_clientRead s; rl_serverWritten := rl_serverWritten s;
         rl_serverRead := rl_serverRead s ++ data; rl_clientWritten := rl_clientWritten s |}
  | _ => None
  end.

Definition down_write (n : nat) (err : option error) (s : RelayState) : option RelayState :=
  match rl_down s with
  | CopyWriting data readErr =>
      if bool_decide (n <= length data)%nat then Some
        {| rl_traffic := rl_traffic s; rl_up := rl_up s; rl_down := after_write data n readErr err;
           rl_clientRead := rl_clientRead s; rl_serverWritten := rl_serverWritten s;
           rl_serverRead := rl_serverRead s; rl_clientWritten := rl_clientWritten s ++ take n data |}
      else None
  | _ => None
  end.

Inductive relay_step : RelayState -> RelayState -> Prop :=
| relay_up_read data err s s' : up_read data err s = Some s' -> relay_step s s'
| relay_up_write n err now s s' : up_write n err now s = Some s' -> relay_step s s'
| relay_down_read data err now s s' : down_read data err now s = Some s' -> relay_step s s'
| relay_down_write n err s s' : down_write n err s = Some s' -> relay_step s s'.

(** What [relay] returns when both copies are done; a deadline of the other side is no error. *)
Definition relay_result (s : RelayState) : option (option error) :=
  match rl_up s, rl_down s with
  | CopyDone rightErr, CopyDone leftErr =>
      let reported e := match e with
                        | Some err => negb (errors_Is err os_ErrDeadlineExceeded)
                        | None => false
                        end in
      Some (if reported rightErr then rightErr else if reported leftErr then leftErr else None)
  | _, _ => None
  end.
End Relay.

(** ** The relay is faithful *)

Section RelaySpec.
Context (is_timeout : error -> bool) (l h : nat).

(** What a direction has read and not written: all of it, unless it failed. *)
Definition in_flight (pc : CopyPC) (read written : list Z) : Prop :=
  match pc with
  | CopyReading | CopyDone None => read = written
  | CopyWriting data _ => read = written ++ data
  | CopyDone (Some _) => written `prefix_of` read
  end.

(** Both counters of the logical and of the transport connection. *)
Definition counted (s : Traffic) (up down : Z) : Prop :=
  (exists c, ct_conns (tracker s) !! l = Some c /\ lc_uploaded c = u64 up /\ lc_downloaded c = u64 down) /\
  (exists d, to_conns (outbound s) !! h = Some d /\ tc_uploaded d = u64 up /\ tc_downloaded d = u64 down).

Record relay_inv (s : RelayState) : Prop := {
  ri_up : in_flight (rl_up s) (rl_clientRead s) (rl_serverWritten s);
  ri_down : in_flight (rl_down s) (rl_serverRead s) (rl_clientWritten s);
  ri_counted : counted (rl_traffic s) (len (rl_serverWritten s)) (len (rl_serverRead s));
}.

Lemma u64_step a b : u64 (u64 a + b) = u64 (a + b).
Proof. unfold u64. by rewrite Zplus_mod_idemp_l. Qed.

Lemma finish_if_conns terminal o : to_conns (finish_if terminal h o) = to_conns o.
Proof. unfold finish_if. destruct (to_conns o !! h); [|done]. by destruct terminal. Qed.

Lemma counted_Write count err now s up down :
  0 <= count -> counted s up down -> counted (observed_Write is_timeout l h count err now s) (up + count) down.
Proof.
  intros Hc [(c & Hl & Hlu & Hld) (d & Hh & Hhu & Hhd)]. unfold observed_Write, logical_Write, counted. simpl. split.
  - unfold RecordUploaded. case_bool_decide as H0; [subst count; rewrite Z.add_0_r; eauto|].
    eexists. simpl. rewrite list_lookup_alter_eq, Hl. split; [done|]. simpl. by rewrite Hlu, u64_step.
  - unfold transport_Write. rewrite finish_if_conns. case_bool_decide as H0.
    + simpl. eexists. rewrite list_lookup_alter_eq, Hh. split; [done|]. simpl. by rewrite Hhu, u64_step.
    + replace (up + count) with up by lia. eauto.
Qed.

Lemma counted_Read count err now s up down :
  0 <= count -> counted s up down -> counted (observed_Read is_timeout l h count err now s) up (down + count).
Proof.
  intros Hc [(c & Hl & Hlu & Hld) (d & Hh & Hhu & Hhd)]. unfold observed_Read, logical_Read, counted. simpl. split.
  - unfold RecordDownloaded. case_bool_decide as H0; [subst count; rewrite Z.add_0_r; eauto|].
    eexists. simpl. rewrite list_lookup_alter_eq, Hl. split; [done|]. simpl. by rewrite Hld, u64_step.
  - unfold transport_Read. rewrite finish_if_conns. case_bool_decide as H0.
    + simpl. eexists. rewrite list_lookup_alter_eq, Hh. split; [done|]. simpl. by rewrite Hhd, u64_step.
    + replace (down + count) with down by lia. eauto.
Qed.

Lemma in_flight_end err read written : read = written -> in_flight (copy_end err) read written.
Proof. intros ->. unfold copy_end. destruct err; simpl; try done. by case_bool_decide. Qed.

Lemma in_flight_read data err read written :
  read = written -> in_flight (after_read data err) (read ++ data) written.
Proof.
  intros ->. destruct data as [|b data]; simpl; [rewrite app_nil_r|done].
  destruct err; [by apply in_flight_end|done].
Qed.

Lemma in_flight_write data n readErr writeErr read written :
  (n <= length data)%nat -> read = written ++ data ->
  in_flight (after_write data n readErr writeErr) read (written ++ take n data).
Proof.
  intros Hn ->. assert (written ++ take n data `prefix_of` written ++ data) as Hpre.
  { exists (drop n data). by rewrite <-app_assoc, take_drop. }
  unfold after_write. destruct writeErr; [done|]. case_bool_decide as Hlen; [subst n|done]. simpl.
  rewrite firstn_all. destruct readErr; [by apply in_flight_end|done].
Qed.

Lemma in_flight_prefix pc read written : in_flight pc read written -> written `prefix_of` read.
Proof. destruct pc as [|data e|[e|]]; simpl; [by intros ->|intros ->; by apply prefix_app_r|done|by intros ->]. Qed.

Lemma relay_step_inv s s' : relay_inv s -> relay_step is_timeout l h s s' -> relay_inv s'.
Proof.
  intros [Hu Hd Hc].
  destruct 1 as [data err s s' H|n err now s s' H|data err now s s' H|n err s s' H].
  - unfold up_read in H. destruct (rl_up s) eqn:E; try done. injection H as <-. split; simpl; [|done..].
    by apply in_flight_read.
  - unfold up_write in H. destruct (rl_up s) as [|data readErr|] eqn:E; try done. case_bool_decide as Hn; [|done].
    injection H as <-. split; simpl; [by apply in_flight_write|done|].
    replace (len (rl_serverWritten s ++ take n data)) with (len (rl_serverWritten s) + Z.of_nat n).
    + apply counted_Write; [lia|done].
    + unfold len. rewrite length_app, length_take. lia.
  - unfold down_read in H. destruct (rl_down s) eqn:E; try done. injection H as <-. split; simpl; [done| |].
    + by apply in_flight_read.
    + replace (len (rl_serverRead s ++ data)) with (len (rl_serverRead s) + len data)
        by (unfold len; rewrite length_app; lia).
      apply counted_Read; [unfold len; lia|done].
  - unfold down_write in H. destruct (rl_down s) as [|data readErr|] eqn:E; try done. case_bool_decide as Hn; [|done].
    injection H as <-. split; simpl; [done|by apply in_flight_write|done].
Qed.
End RelaySpec.

(** C24: A relay, in every interleaving of its two directions. Each side gets a prefix of what the
    other one sent, in order and unchanged, and all of it when that direction ends without an
    error; so [relay] returns no error only if both directions were complete or ran into a
    deadline. The connections count exactly the bytes that went to the server and that came
    from it, modulo 2^64. *)
Theorem relay_faithful (is_timeout : error -> bool) (l h : nat) (before : Traffic) (s : RelayState)
    (Hnew : counted l h before 0 0) (Hs : rtc (relay_step is_timeout l h) (relay_start before) s) :
  rl_serverWritten s `prefix_of` rl_clientRead s /\ rl_clientWritten s `prefix_of` rl_serverRead s /\
  (rl_up s = CopyDone None -> rl_serverWritten s = rl_clientRead s) /\
  (rl_down s = CopyDone None -> rl_clientWritten s = rl_serverRead s) /\
  counted l h (rl_traffic s) (len (rl_serverWritten s)) (len (rl_serverRead s)) /\
  (relay_result s = Some None ->
     let complete_or_deadline pc read written := written = read \/
       exists err, pc = CopyDone (Some err) /\ errors_Is err os_ErrDeadlineExceeded = true in
     complete_or_deadline (rl_up s) (rl_clientRead s) (rl_serverWritten s) /\
     complete_or_deadline (rl_down s) (rl_serverRead s) (rl_clientWritten s)).
Proof.
  assert (relay_inv l h s) as [Hu Hd Hc].
  { assert (relay_inv l h (relay_start before)) as Hstart by done.
    eapply (rtc_closed (relay_step is_timeout l h) (relay_inv l h)); [|exact Hstart|exact Hs].
    eauto using relay_step_inv. }
  split_and!; [by eapply in_flight_prefix|by eapply in_flight_prefix| | |exact Hc|].
  - intros E. rewrite E in Hu. by symmetry.
  - intros E. rewrite E in Hd. by symmetry.
  - unfold relay_result. destruct (rl_up s) as [| |up], (rl_down s) as [| |down]; try done. intros [= Hres].
    assert (forall e read written, in_flight (CopyDone e) read written ->
      match e with Some err => errors_Is err os_ErrDeadlineExceeded = true | None => True end ->
      written = read \/ exists err, CopyDone e = CopyDone (Some err) /\ errors_Is err os_ErrDeadlineExceeded = true) as Hcase.
    { intros [err|] read written Hin He; [right; by exists err|left]. by symmetry. }
    split; apply Hcase; try done.
    + destruct up as [err|]; [|done]. by destruct (errors_Is err os_ErrDeadlineExceeded).
    + destruct down as [err|]; [|done]. destruct up as [err'|]; [destruct (errors_Is err' _); simpl in Hres|];
        (by destruct (errors_Is err os_ErrDeadlineExceeded)) || done.
Qed.

(** ** A relayed request *)

(** A transport connection, announced for a CONNECT request. *)
Definition demo_tunnel : Traffic :=
  let '(_, o) := outbound_DialContext (Ok {| route_Outbound := "atrust"; route_Reason := "vpn_resource" |}) 1 "tcp"
                   "10.0.0.1:443" (outbound newTraffic) in
  set_tracker (OpenConnection (connect_metadata "127.0.0.1:50000" "10.0.0.1:443"
    {| route_Outbound := "atrust"; route_Reason := "vpn_resource" |} "transport-1") (Some 0%nat) 1 (tracker newTraffic)).2
    (set_outbound o newTraffic).

Definition never : error -> bool := fun _ => false.

Definition demo_relay_ops : list (RelayState -> option RelayState) := [
  up_read [22; 3; 1] None; down_read never 0 0 [21] None 2; up_write never 0 0 3 None 3;
  down_write 1 None; up_read [] (Some io_EOF); down_read never 0 0 [] (Some io_EOF) 4].

Definition demo_relayed : RelayState :=
  default (relay_start demo_tunnel) (fold_left (fun s op => s ≫= op) demo_relay_ops (Some (relay_start demo_tunnel))).

Lemma demo_relayed_run : rtc (relay_step never 0 0) (relay_start demo_tunnel) demo_relayed.
Proof.
  eapply rtc_l; [by apply (relay_up_read _ _ _ [22; 3; 1] None)|].
  eapply rtc_l; [by apply (relay_down_read _ _ _ [21] None 2)|].
  eapply rtc_l; [by apply (relay_up_write _ _ _ 3 None 3)|].
  eapply rtc_l; [by apply (relay_down_write _ _ _ 1 None)|].
  eapply rtc_l; [by apply (relay_up_read _ _ _ [] (Some io_EOF))|].
  eapply rtc_l; [by apply (relay_down_read _ _ _ [] (Some io_EOF) 4)|]. apply rtc_refl.
Qed.

Lemma demo_relayed_ends : rl_up demo_relayed = CopyDone None /\ rl_clientRead demo_relayed = [22; 3; 1] /\
  counted 0 0 demo_tunnel 0 0.
Proof. split_and!; [by vm_compute..|]. split; by eexists. Qed.

Lemma relay_faithful_witness :
  rl_serverWritten demo_relayed = [22; 3; 1] /\
  counted 0 0 (rl_traffic demo_relayed) (len (rl_serverWritten demo_relayed)) (len (rl_serverRead demo_relayed)).
Proof.
  destruct demo_relayed_ends as (Hend & Hread & Hnew).
  destruct (relay_faithful never 0 0 demo_tunnel demo_relayed Hnew demo_relayed_run) as (_ & _ & Hup & _ & Hc & _).
  split; [rewrite (Hup Hend); exact Hread|exact Hc].
Defined.

(** ** A plain request

    [HTTPService.handle] for a request that is not CONNECT, with the tracker as the observer. The
    transport reads [sent] of the request's body; the client of the proxy takes the whole answer. *)

Record ProxyResponse : Type := { px_Status : Z; px_Header : list (string * list string); px_Body : list Z }.

Definition handle_request (remoteAddr urlHost host : string) (sent : list Z) (answer : result error ProxyResponse)
    (now : Z) (s : Traffic) : result error ProxyResponse * Traffic :=
  let '(l, t) := OpenConnection (request_metadata remoteAddr urlHost host) None now (tracker s) in
  let s := set_tracker (RecordUploaded l (len sent) now t) s in
  match answer with
  | Err err => (Err err, (logical_Close l None s).2)
  | Ok response =>
      (Ok response,
       (logical_Close l None (set_tracker (RecordDownloaded l (len (px_Body response)) now (tracker s)) s)).2)
  end.

Lemma RecordUploaded_at l n now t c :
  ct_conns t !! l = Some c -> lc_uploaded c = 0 ->
  exists last, ct_conns (RecordUploaded l n now t) !! l = Some (set_lcounts (u64 n) (lc_downloaded c) last c) /\
    ct_connections (RecordUploaded l n now t) = ct_connections t.
Proof.
  intros Hl Hu. unfold RecordUploaded. case_bool_decide as Hn.
  - subst n. exists (lc_lastActivity c). rewrite Hl. split; [|done]. f_equal. destruct c; simpl in *. by subst.
  - exists now. simpl. rewrite list_lookup_alter_eq, Hl. split; [|done]. simpl. by rewrite Hu.
Qed.

Lemma RecordDownloaded_at l n now t c :
  ct_conns t !! l = Some c -> lc_downloaded c = 0 ->
  exists last, ct_conns (RecordDownloaded l n now t) !! l = Some (set_lcounts (lc_uploaded c) (u64 n) last c) /\
    ct_connections (RecordDownloaded l n now t) = ct_connections t.
Proof.
  intros Hl Hu. unfold RecordDownloaded. case_bool_decide as Hn.
  - subst n. exists (lc_lastActivity c). rewrite Hl. split; [|done]. f_equal. destruct c; simpl in *. by subst.
  - exists now. simpl. rewrite list_lookup_alter_eq, Hl. split; [|done]. simpl. by rewrite Hu.
Qed.

Lemma logical_Close_at l s c :
  ct_conns (tracker s) !! l = Some c -> lc_closed c = None -> lc_transport c = None ->
  ct_connections (tracker (logical_Close l None s).2) = delete (lc_id c) (ct_connections (tracker s)) /\
  outbound (logical_Close l None s).2 = outbound s /\
  ct_conns (tracker (logical_Close l None s).2) !! l = Some (set_lclosed None c).
Proof.
  intros Hl Hc Ht. unfold logical_Close. rewrite Hl, Hc, Ht. simpl. split_and!; [done|done|].
  apply list_lookup_insert_eq. by eapply lookup_lt_Some.
Qed.

(** Every request is announced, counted and closed again, whether it is answered or not. *)
Lemma request_accounted remoteAddr urlHost host sent answer now s :
  let id := "connection-" +:+ itoa (u64 (ct_nextID (tracker s) + 1)) in
  let l := length (ct_conns (tracker s)) in
  let s' := (handle_request remoteAddr urlHost host sent answer now s).2 in
  ct_connections (tracker s') = delete id (ct_connections (tracker s)) /\ outbound s' = outbound s /\
  exists c, ct_conns (tracker s') !! l = Some c /\ lc_id c = id /\ lc_closed c = Some None /\
    lc_metadata c = request_metadata remoteAddr urlHost host /\ lc_uploaded c = u64 (len sent) /\
    lc_downloaded c = match answer with Ok r => u64 (len (px_Body r)) | Err _ => 0 end.
Proof.
  intros id l s'. subst s'. unfold handle_request.
  destruct (OpenConnection (request_metadata remoteAddr urlHost host) None now (tracker s)) as [l' t] eqn:Ho.
  injection Ho as <- <-. fold id l. set (c0 := {| lc_id := id |}). set (t := {| ct_nextID := _ |}).
  assert (ct_conns t !! l = Some c0) as Hl.
  { unfold t, l. simpl. rewrite lookup_app_r by lia. by rewrite Nat.sub_diag. }
  assert (delete id (ct_connections t) = delete id (ct_connections (tracker s))) as Hdel by apply delete_insert_eq.
  destruct (RecordUploaded_at l (len sent) now t c0 Hl eq_refl) as (last & Hup & Hconns).
  destruct answer as [r|err]; simpl.
  - destruct (RecordDownloaded_at l (len (px_Body r)) now _ _ Hup eq_refl) as (last' & Hdown & Hconns').
    edestruct (logical_Close_at l (set_tracker (RecordDownloaded l (len (px_Body r)) now (RecordUploaded l (len sent) now t)) s))
      as (H1 & H2 & H3); [exact Hdown|done|done|].
    split_and!; [|exact H2|by eexists; split; [exact H3|]].
    etrans; [exact H1|]. simpl. by rewrite Hconns', Hconns.
  - edestruct (logical_Close_at l (set_tracker (RecordUploaded l (len sent) now t) s)) as (H1 & H2 & H3); [exact Hup|done|done|].
    split_and!; [|exact H2|by eexists; split; [exact H3|]]. etrans; [exact H1|]. simpl. by rewrite Hconns.
Qed.
