(* ===== verification/TunConnection.v ===== *)
(** A TCP connection through the TUN (internal/networkruntime/tun.go): where it is dialed, what the
    tracker is told, the relay that ends with its first direction, and the clean-up behind it. The two
    copies and the function itself are goroutines that interleave; the copies are those of the inbounds'
    relay. *)

From S2P Require Import Prelude Core GoNet Dial Tracker FakeIP TunDNS Relay.

Section TunConnection.
Context (is_timeout : error -> bool).
(** [E.IsClosedOrCanceled] of the sing library. *)
Context (is_closed : error -> bool).

Definition isExpectedTUNCloseError (err : option error) : bool :=
  match err with None => true | Some e => is_closed e end.

(** [openActivity]: the observer is the runtime's tracker; [remote] is the handle of the dialed
    connection. *)
Definition openActivity (network source destination : string) (remote : nat) (now : Z) (s : Traffic)
    : nat * Traffic :=
  let id := match to_conns (outbound s) !! remote with Some c => tc_id c | None => "" end in
  let route := match to_conns (outbound s) !! remote with Some c => tc_route c | None => noRoute end in
  let '(l, t) := OpenConnection
    {| md_Inbound := "tun"; md_Outbound := route_Outbound route; md_RouteReason := route_Reason route;
       md_Source := source; md_Network := network; md_Destination := destination;
       md_TransportConnectionID := id |} (Some remote) now (tracker s) in
  (l, set_tracker t s).

(** ** State

    How far [NewConnection] is; the error is what [relayTUN] returned. [tn_relay] has the copies, which go
    on until reading or writing fails. *)
Inductive TunConnPC : Type :=
| TunRelaying
| TunClosingRemote (err : option error)
| TunClosingInbound (err : option error)
| TunReturned (err : option error).

Record TunConn : Type := {
  tn_relay : RelayState;
  tn_pc : TunConnPC;
  tn_inboundOpen : bool;
  tn_logical : nat;
  tn_transport : nat;
}.

(** What a connection turns into: a stream of DNS messages, a failed dial, or a relay. *)
Inductive TunBegun : Type :=
| TunDNSStream
| TunDialFailed (err : error)
| TunRelayed (c : TunConn).

(** [NewConnection] up to [relayTUN]; [dialed] is what the dial of an address answers. A failed dial
    closes the inbound connection. *)
Definition NewConnection (DNSHijack : bool) (source : string) (destination : Socksaddr) (now : Z)
    (dialed : string -> result error RouteInfo) (fakes : option fakeIPStore) (s : Traffic)
    : TunBegun * option fakeIPStore * Traffic :=
  if DNSHijack && bool_decide (sa_Port destination = 53) then (TunDNSStream, fakes, s)
  else
  let '(to, fakes) := routeDestination now destination fakes in
  let '(r, o) := outbound_DialContext (dialed (dst_dial to)) now "tcp" (dst_dial to) (outbound s) in
  let s := set_outbound o s in
  match r with
  | Err err => (TunDialFailed err, fakes, s)
  | Ok remote =>
      let '(l, s) := openActivity "tcp" source (dst_display to) remote now s in
      (TunRelayed {| tn_relay := relay_start s; tn_pc := TunRelaying; tn_inboundOpen := true;
                     tn_logical := l; tn_transport := remote |}, fakes, s)
  end.

(** The copy of one direction has sent its error on the channel. *)
Definition copy_ended (pc : CopyPC) : option (option error) :=
  match pc with CopyDone err => Some err | _ => None end.

(** [<-errCh] takes the error of a copy that has ended, and either may be the first. *)
Definition tun_first_end (up : bool) (c : TunConn) : option TunConn :=
  match tn_pc c, copy_ended (if up then rl_up (tn_relay c) else rl_down (tn_relay c)) with
  | TunRelaying, Some err => Some
      {| tn_relay := tn_relay c;
         tn_pc := TunClosingRemote (if isExpectedTUNCloseError err then None else err);
         tn_inboundOpen := tn_inboundOpen c; tn_logical := tn_logical c; tn_transport := tn_transport c |}
  | _, _ => None
  end.

Definition set_traffic (t : Traffic) (r : RelayState) : RelayState :=
  {| rl_traffic := t; rl_up := rl_up r; rl_down := rl_down r; rl_clientRead := rl_clientRead r;
     rl_serverWritten := rl_serverWritten r; rl_serverRead := rl_serverRead r;
     rl_clientWritten := rl_clientWritten r |}.

(** The deferred [remote.Close], through the logical connection; [closeErr] is the answer below. *)
Definition tun_close_remote (closeErr : option error) (c : TunConn) : option TunConn :=
  match tn_pc c with
  | TunClosingRemote err =>
      let '(_, s) := logical_Close (tn_logical c) closeErr (rl_traffic (tn_relay c)) in
      Some {| tn_relay := set_traffic s (tn_relay c); tn_pc := TunClosingInbound err;
              tn_inboundOpen := tn_inboundOpen c; tn_logical := tn_logical c; tn_transport := tn_transport c |}
  | _ => None
  end.

(** The deferred [inbound.Close]. *)
Definition tun_close_inbound (c : TunConn) : option TunConn :=
  match tn_pc c with
  | TunClosingInbound err => Some
      {| tn_relay := tn_relay c; tn_pc := TunReturned err; tn_inboundOpen := false;
         tn_logical := tn_logical c; tn_transport := tn_transport c |}
  | _ => None
  end.

Definition set_relay (r : RelayState) (c : TunConn) : TunConn :=
  {| tn_relay := r; tn_pc := tn_pc c; tn_inboundOpen := tn_inboundOpen c; tn_logical := tn_logical c;
     tn_transport := tn_transport c |}.

(** The connection is closed from outside: by its identifier, or with the runtime. *)
Definition tun_kill (closeErr : option error) (c : TunConn) : TunConn :=
  let '(_, s) := logical_Close (tn_logical c) closeErr (rl_traffic (tn_relay c)) in
  {| tn_relay := set_traffic s (tn_relay c); tn_pc := tn_pc c; tn_inboundOpen := tn_inboundOpen c;
     tn_logical := tn_logical c; tn_transport := tn_transport c |}.

Inductive tun_conn_step : TunConn -> TunConn -> Prop :=
| tun_copies r c : relay_step is_timeout (tn_logical c) (tn_transport c) (tn_relay c) r ->
    tun_conn_step c (set_relay r c)
| tun_ended up c c' : tun_first_end up c = Some c' -> tun_conn_step c c'
| tun_remote closeErr c c' : tun_close_remote closeErr c = Some c' -> tun_conn_step c c'
| tun_inbound c c' : tun_close_inbound c = Some c' -> tun_conn_step c c'
| tun_killed closeErr c : tun_conn_step c (tun_kill closeErr c).

(** ** Lemmas *)

Definition remote_closed (pc : TunConnPC) : Prop :=
  match pc with TunClosingInbound _ | TunReturned _ => True | _ => False end.

(** One of the copies has ended. *)
Definition ended (c : TunConn) : Prop :=
  is_Some (copy_ended (rl_up (tn_relay c))) \/ is_Some (copy_ended (rl_down (tn_relay c))).

(** The logical connection is over the transport connection; closing it has closed both. *)
Definition over (l h : nat) (s : Traffic) : Prop :=
  exists x d, ct_conns (tracker s) !! l = Some x /\ to_conns (outbound s) !! h = Some d /\
    lc_transport x = Some h /\ (lc_closed x <> None -> tc_closed d <> None).

Definition both_closed (l h : nat) (s : Traffic) : Prop :=
  exists x d, ct_conns (tracker s) !! l = Some x /\ to_conns (outbound s) !! h = Some d /\
    lc_closed x <> None /\ tc_closed d <> None.

Record tun_conn_inv (c : TunConn) : Prop := {
  tci_relay : relay_inv (tn_logical c) (tn_transport c) (tn_relay c);
  tci_traffic : traffic_inv (rl_traffic (tn_relay c));
  tci_over : over (tn_logical c) (tn_transport c) (rl_traffic (tn_relay c));
  tci_ended : tn_pc c <> TunRelaying -> ended c;
  tci_closed : remote_closed (tn_pc c) -> both_closed (tn_logical c) (tn_transport c) (rl_traffic (tn_relay c));
  tci_inbound : tn_inboundOpen c = match tn_pc c with TunReturned _ => false | _ => true end;
}.

(** Reading and writing leave every connection where it is, open or closed. *)
Definition keeps (s s' : Traffic) : Prop :=
  (forall l x, ct_conns (tracker s) !! l = Some x -> exists x', ct_conns (tracker s') !! l = Some x' /\
     lc_transport x' = lc_transport x /\ lc_closed x' = lc_closed x) /\
  (forall h d, to_conns (outbound s) !! h = Some d -> exists d', to_conns (outbound s') !! h = Some d' /\
     tc_closed d' = tc_closed d).

Lemma keeps_counts (f : logicalConnection -> logicalConnection) (g : trackedConn -> trackedConn) l h s s' :
  (forall x, lc_transport (f x) = lc_transport x /\ lc_closed (f x) = lc_closed x) ->
  (forall d, tc_closed (g d) = tc_closed d) ->
  (ct_conns (tracker s') = ct_conns (tracker s) \/ ct_conns (tracker s') = alter f l (ct_conns (tracker s))) ->
  (to_conns (outbound s') = to_conns (outbound s) \/ to_conns (outbound s') = alter g h (to_conns (outbound s))) ->
  keeps s s'.
Proof.
  intros Hf Hg Ht Ho. split.
  - intros k x Hx. destruct Ht as [->| ->]; [by exists x|]. rewrite list_lookup_alter.
    case_decide; [subst|by exists x]. rewrite Hx. exists (f x). by destruct (Hf x).
  - intros k d Hd. destruct Ho as [->| ->]; [by exists d|]. rewrite list_lookup_alter.
    case_decide; [subst|by exists d]. rewrite Hd. by exists (g d).
Qed.

Lemma keeps_Read l h count err now s : keeps s (logical_Read is_timeout l h count err now s).
Proof.
  unfold logical_Read. eapply keeps_counts; cbn [tracker outbound]; last first.
  - unfold transport_Read. rewrite finish_if_conns. case_bool_decide; [right; reflexivity|by left].
  - unfold RecordDownloaded. case_bool_decide; [by left|right; reflexivity].
  - done.
  - done.
Qed.

Lemma keeps_Write l h count err now s : keeps s (logical_Write is_timeout l h count err now s).
Proof.
  unfold logical_Write. eapply keeps_counts; cbn [tracker outbound]; last first.
  - unfold transport_Write. rewrite finish_if_conns. case_bool_decide; [right; reflexivity|by left].
  - unfold RecordUploaded. case_bool_decide; [by left|right; reflexivity].
  - done.
  - done.
Qed.

Lemma keeps_over l h s s' : keeps s s' -> over l h s -> over l h s'.
Proof.
  intros [Hl Hh] (x & d & Hx & Hd & Htr & Hc). destruct (Hl _ _ Hx) as (x' & Hx' & Ht' & Hc').
  destruct (Hh _ _ Hd) as (d' & Hd' & Hcd). exists x', d'. rewrite Ht', Hc', Hcd. done.
Qed.

Lemma keeps_both_closed l h s s' : keeps s s' -> both_closed l h s -> both_closed l h s'.
Proof.
  intros [Hl Hh] (x & d & Hx & Hd & Hxc & Hdc). destruct (Hl _ _ Hx) as (x' & Hx' & _ & Hc').
  destruct (Hh _ _ Hd) as (d' & Hd' & Hcd). exists x', d'. by rewrite Hc', Hcd.
Qed.

(** Closing the logical connection closes both. *)
Lemma logical_Close_both l h err s e s' :
  over l h s -> logical_Close l err s = (e, s') -> over l h s' /\ both_closed l h s'.
Proof.
  intros (x & d & Hx & Hd & Htr & Hc) H. unfold logical_Close in H. rewrite Hx in H.
  destruct (lc_closed x) as [e0|] eqn:Hcl.
  - injection H as _ <-. assert (tc_closed d <> None) as Hdc by (by apply Hc).
    split; exists x, d; rewrite Hcl; done.
  - rewrite Htr in H. unfold transport_Close in H. rewrite Hd in H.
    assert (l < length (ct_conns (tracker s)))%nat as Hll by (by eapply lookup_lt_Some).
    assert (h < length (to_conns (outbound s)))%nat as Hhl by (by eapply lookup_lt_Some).
    destruct (tc_closed d) as [e1|] eqn:Hdc; injection H as _ <-; cbn [tracker outbound].
    + split; exists (set_lclosed e1 x), d; cbn; rewrite list_lookup_insert_eq by done; rewrite Hd, Hdc; done.
    + split; exists (set_lclosed err x), (set_closed err d); cbn; rewrite !list_lookup_insert_eq by done; done.
Qed.

Lemma relay_step_keeps l h r r' :
  relay_step is_timeout l h r r' -> is_Some (to_conns (outbound (rl_traffic r)) !! h) -> traffic_inv (rl_traffic r) ->
  keeps (rl_traffic r) (rl_traffic r') /\ traffic_inv (rl_traffic r').
Proof.
  intros Hstep Hh Hi.
  assert (keeps (rl_traffic r) (rl_traffic r)) as Hrefl.
  { split; intros k y Hy; by exists y. }
  destruct Hstep as [data err s s' H|n err now s s' H|data err now s s' H|n err s s' H].
  - unfold up_read in H. destruct (rl_up s); try done. by injection H as <-.
  - unfold up_write in H. destruct (rl_up s); try done. case_bool_decide; [|done]. injection H as <-.
    split; [apply keeps_Write|]. eapply traffic_step_inv; [apply tr_logical_write|exact Hi]; [lia|exact Hh].
  - unfold down_read in H. destruct (rl_down s); try done. injection H as <-.
    split; [apply keeps_Read|]. eapply traffic_step_inv; [apply tr_logical_read|exact Hi]; [unfold len; lia|exact Hh].
  - unfold down_write in H. destruct (rl_down s); try done. case_bool_decide; [|done]. by injection H as <-.
Qed.

(** A copy that has ended stays so. *)
Lemma relay_step_ended l h r r' :
  relay_step is_timeout l h r r' ->
  (is_Some (copy_ended (rl_up r)) -> rl_up r' = rl_up r) /\
  (is_Some (copy_ended (rl_down r)) -> rl_down r' = rl_down r).
Proof.
  destruct 1 as [data err s s' H|n err now s s' H|data err now s s' H|n err s s' H].
  - unfold up_read in H. destruct (rl_up s); try done. injection H as <-. split; [by intros []|done].
  - unfold up_write in H. destruct (rl_up s); try done. case_bool_decide; [|done]. injection H as <-.
    split; [by intros []|done].
  - unfold down_read in H. destruct (rl_down s); try done. injection H as <-. split; [done|by intros []].
  - unfold down_write in H. destruct (rl_down s); try done. case_bool_decide; [|done]. injection H as <-.
    split; [done|by intros []].
Qed.

(** Closing leaves the counters. *)
Lemma counted_Close l h err s e s' up down :
  counted l h s up down -> logical_Close l err s = (e, s') -> counted l h s' up down.
Proof.
  intros [(c & Hc & Hu & Hd) (d & Hh & Hdu & Hdd)] H. unfold logical_Close in H. rewrite Hc in H.
  assert (l < length (ct_conns (tracker s)))%nat as Hl by (by eapply lookup_lt_Some).
  destruct (lc_closed c); [injection H as _ <-; split; eauto|].
  destruct (match lc_transport c with Some h => _ | None => _ end) as [e1 o] eqn:Ho. injection H as _ <-.
  split; cbn [tracker outbound].
  - exists (set_lclosed e1 c). cbn. by rewrite list_lookup_insert_eq.
  - destruct (lc_transport c) as [k|]; [|injection Ho as _ <-; eauto].
    unfold transport_Close in Ho. destruct (to_conns (outbound s) !! k) as [d'|] eqn:Hk; [|injection Ho as _ <-; eauto].
    destruct (tc_closed d'); injection Ho as _ <-; [eauto|]. cbn.
    destruct (decide (k = h)) as [->|Hne]; [|rewrite list_lookup_insert_ne by done; eauto].
    exists (set_closed err d'). simplify_eq. rewrite list_lookup_insert_eq by (by eapply lookup_lt_Some). done.
Qed.

(** What a close does to the relay of the connection. *)
Lemma close_relay_inv l h err r e s' :
  relay_inv l h r -> traffic_inv (rl_traffic r) -> over l h (rl_traffic r) ->
  logical_Close l err (rl_traffic r) = (e, s') ->
  relay_inv l h (set_traffic s' r) /\ traffic_inv s' /\ over l h s' /\ both_closed l h s'.
Proof.
  intros [Hu Hd Hc] Ht Ho H. destruct (logical_Close_both _ _ _ _ _ _ Ho H) as [Ho' Hb].
  split; [|split; [by eapply logical_Close_inv|done]].
  split; cbn; [done|done|by eapply counted_Close].
Qed.

Lemma tun_conn_step_inv c c' : tun_conn_step c c' -> tun_conn_inv c -> tun_conn_inv c'.
Proof.
  intros Hstep [Hr Ht Ho He Hb Hin].
  destruct Hstep as [r c Hstep|up c c' H|closeErr c c' H|c c' H|closeErr c].
  - assert (is_Some (to_conns (outbound (rl_traffic (tn_relay c))) !! tn_transport c)) as Hh.
    { destruct Ho as (x & d & _ & Hd & _). by exists d. }
    destruct (relay_step_keeps _ _ _ _ Hstep Hh Ht) as [Hk Ht'].
    destruct (relay_step_ended _ _ _ _ Hstep) as [Hup Hdown].
    split; cbn; [by eapply relay_step_inv|done|by eapply keeps_over| |intros Hc; by eapply keeps_both_closed; eauto|done].
    intros Hpc. unfold ended. cbn. destruct (He Hpc) as [H|H]; [left; by rewrite (Hup H)|right; by rewrite (Hdown H)].
  - unfold tun_first_end in H. destruct (tn_pc c) eqn:Hpc; try done.
    destruct (copy_ended _) eqn:Hend; [|done]. injection H as <-. split; cbn; try done.
    intros _. unfold ended. cbn. destruct up; rewrite Hend; eauto.
  - unfold tun_close_remote in H. destruct (tn_pc c) eqn:Hpc; try done.
    destruct (logical_Close _ _ _) as [e s] eqn:Hcl. injection H as <-.
    destruct (close_relay_inv _ _ _ _ _ _ Hr Ht Ho Hcl) as (Hr' & Ht' & Ho' & Hb').
    split; cbn; try done. intros _. by apply He.
  - unfold tun_close_inbound in H. destruct (tn_pc c) eqn:Hpc; try done. injection H as <-.
    assert (ended c) by (by apply He). split; cbn; done.
  - unfold tun_kill. destruct (logical_Close _ _ _) as [e s] eqn:Hcl.
    destruct (close_relay_inv _ _ _ _ _ _ Hr Ht Ho Hcl) as (Hr' & Ht' & Ho' & Hb').
    split; cbn; done.
Qed.

Lemma NewConnection_inv DNSHijack source destination now dialed fakes s c fakes' s' :
  NewConnection DNSHijack source destination now dialed fakes s = (TunRelayed c, fakes', s') ->
  traffic_inv s -> tun_conn_inv c.
Proof.
  unfold NewConnection. intros H [Ho Ht]. destruct (DNSHijack && _); [done|].
  destruct (routeDestination _ _ _) as [to fakes1]. destruct (dialed (dst_dial to)) as [route|err]; [|done].
  destruct (outbound_DialContext (Ok route) now "tcp" (dst_dial to) (outbound s)) as [r o] eqn:Hdial.
  pose proof (outbound_DialContext_inv _ _ _ _ _ _ _ Ho Hdial) as Ho'.
  destruct r as [remote|err]; [|done]. unfold openActivity in H.
  destruct (OpenConnection _ _ _ _) as [l t] eqn:Hopen. cbn [set_outbound tracker outbound] in Hopen.
  pose proof (OpenConnection_inv _ _ _ _ _ _ Ht Hopen) as Ht'.
  injection H as <- _ _. injection Hdial as <- <-. injection Hopen as <- <-.
  set (h := length (to_conns (outbound s))) in *. set (l := length (ct_conns (tracker s))) in *.
  split; cbn; try done.
  - split; cbn; [done|done|]. split; cbn.
    + eexists. unfold l. rewrite lookup_app_r, Nat.sub_diag by lia. done.
    + eexists. unfold h. rewrite lookup_app_r, Nat.sub_diag by lia. done.
  - unfold over. cbn. eexists _, _. unfold l, h. rewrite !lookup_app_r, !Nat.sub_diag by lia. done.
Qed.

(** The end of the function once a copy has ended; the copies do nothing on the way. *)
Lemma tun_returns c :
  ended c -> exists c' err, rtc tun_conn_step c c' /\ tn_pc c' = TunReturned err /\
    rl_up (tn_relay c') = rl_up (tn_relay c) /\ rl_down (tn_relay c') = rl_down (tn_relay c).
Proof.
  intros He.
  assert (forall d err, tn_pc d = TunClosingInbound err -> exists c' e, rtc tun_conn_step d c' /\ tn_pc c' = TunReturned e /\
    rl_up (tn_relay c') = rl_up (tn_relay d) /\ rl_down (tn_relay c') = rl_down (tn_relay d)) as Hin.
  { intros d err Hpc. eexists _, err. split; [apply rtc_once, tun_inbound; unfold tun_close_inbound; by rewrite Hpc|done]. }
  assert (forall d err, tn_pc d = TunClosingRemote err -> exists c' e, rtc tun_conn_step d c' /\ tn_pc c' = TunReturned e /\
    rl_up (tn_relay c') = rl_up (tn_relay d) /\ rl_down (tn_relay c') = rl_down (tn_relay d)) as Hre.
  { intros d err Hpc. destruct (logical_Close (tn_logical d) None (rl_traffic (tn_relay d))) as [e s] eqn:Hcl.
    assert (exists d', tun_close_remote None d = Some d' /\ tn_pc d' = TunClosingInbound err /\
      rl_up (tn_relay d') = rl_up (tn_relay d) /\ rl_down (tn_relay d') = rl_down (tn_relay d)) as (d' & Hd' & Hpc' & Hu & Hd).
    { unfold tun_close_remote. rewrite Hpc, Hcl. by eexists. }
    destruct (Hin d' err Hpc') as (c' & e' & Hrun & ? & Hu' & Hdn'). exists c', e'.
    split; [eapply rtc_l; [by eapply tun_remote|exact Hrun]|]. by rewrite Hu', Hdn'. }
  destruct (tn_pc c) as [|err|err|err] eqn:Hpc; [|by eapply Hre|by eapply Hin|by exists c, err].
  assert (exists up d err, tun_first_end up c = Some d /\ tn_pc d = TunClosingRemote err /\ tn_relay d = tn_relay c)
    as (up & d & err & Hfirst & Hpc' & Hrel).
  { destruct He as [[e He]|[e He]]; [exists true|exists false]; unfold tun_first_end; rewrite Hpc, He; by eexists _, _. }
  destruct (Hre d err Hpc') as (c' & e & Hrun & Hret). rewrite Hrel in Hret. exists c', e.
  split; [|done]. eapply rtc_l; [by eapply tun_ended|exact Hrun].
Qed.

(** A connection that is closed is not listed. *)
Lemma both_closed_unlisted l h s :
  traffic_inv s -> both_closed l h s ->
  Z.of_nat (length (to_conns (outbound s))) < 2 ^ 64 -> Z.of_nat (length (ct_conns (tracker s))) < 2 ^ 64 ->
  ct_connections (tracker s) !! connection_id l = None /\ to_connections (outbound s) !! transport_id h = None.
Proof.
  intros [Ho Ht] (x & d & Hx & Hd & Hxc & Hdc) few_t few_l. split.
  - destruct (ct_connections (tracker s) !! connection_id l) as [k|] eqn:Hk; [|done].
    apply (ti_listed _ Ht few_l) in Hk as (y & Hy & Hid & Hyc). rewrite (ti_id _ Ht _ _ Hy) in Hid.
    apply numbered_inj in Hid; [|apply lookup_lt_Some in Hy; lia|apply lookup_lt_Some in Hx; lia]. by simplify_eq.
  - destruct (to_connections (outbound s) !! transport_id h) as [k|] eqn:Hk; [|done].
    apply (oi_listed _ Ho few_t) in Hk as (y & Hy & Hid & Hyc). rewrite (oi_id _ Ho _ _ Hy) in Hid.
    apply numbered_inj in Hid; [|apply lookup_lt_Some in Hy; lia|apply lookup_lt_Some in Hd; lia]. by simplify_eq.
Qed.
End TunConnection.

(** C34: A TCP connection through the TUN, in every interleaving of its two copies, of the function that waits
    for them, and of closes from outside. Each side gets, in order and unchanged, a prefix of what the other
    one sent, and the counters of the logical and of the transport connection are the bytes that went to
    and came from the server. The function goes on only when a copy has ended, and from there it can
    always run to its return. When it has returned, the connection of the TUN is closed and so are the
    logical and the transport connection, of which neither is listed as active any more. *)
Theorem tun_connection_released (is_timeout is_closed : error -> bool) (DNSHijack : bool) (source : string)
    (destination : Socksaddr) (now : Z) (dialed : string -> result error RouteInfo)
    (fakes fakes' : option fakeIPStore) (s s' : Traffic) (c0 c : TunConn)
    (before : traffic_reachable is_timeout s)
    (begun : NewConnection DNSHijack source destination now dialed fakes s = (TunRelayed c0, fakes', s'))
    (run : rtc (tun_conn_step is_timeout is_closed) c0 c) :
  let r := tn_relay c in let t := rl_traffic r in
  rl_serverWritten r `prefix_of` rl_clientRead r /\ rl_clientWritten r `prefix_of` rl_serverRead r /\
  counted (tn_logical c) (tn_transport c) t (len (rl_serverWritten r)) (len (rl_serverRead r)) /\
  (tn_pc c <> TunRelaying -> ended c) /\
  (ended c -> exists d err, rtc (tun_conn_step is_timeout is_closed) c d /\ tn_pc d = TunReturned err) /\
  (forall err, tn_pc c = TunReturned err ->
     tn_inboundOpen c = false /\ both_closed (tn_logical c) (tn_transport c) t /\
     (Z.of_nat (length (to_conns (outbound t))) < 2 ^ 64 -> Z.of_nat (length (ct_conns (tracker t))) < 2 ^ 64 ->
      ct_connections (tracker t) !! connection_id (tn_logical c) = None /\
      to_connections (outbound t) !! transport_id (tn_transport c) = None)).
Proof.
  assert (tun_conn_inv c) as [Hr Ht Ho He Hb Hin].
  { assert (tun_conn_inv c0) as Hstart by (by eapply NewConnection_inv, traffic_reachable_inv).
    eapply (rtc_closed (tun_conn_step is_timeout is_closed) tun_conn_inv); [|exact Hstart|exact run].
    eauto using tun_conn_step_inv. }
  intros r t. destruct Hr as [Hu Hd Hc]. split_and!; [by eapply in_flight_prefix|by eapply in_flight_prefix|exact Hc|exact He| |].
  - intros H. destruct (tun_returns is_timeout is_closed c H) as (d & err & Hrun & Hpc & _). by exists d, err.
  - intros err Hpc. rewrite Hpc in *. split; [exact Hin|]. assert (both_closed (tn_logical c) (tn_transport c) t) as Hbc by (by apply Hb).
    split; [exact Hbc|]. by apply both_closed_unlisted.
Qed.

(** ** A client that has sent everything

    The client ends its direction while the answer is on its way; the copy of that direction ends first, the
    connections are closed, and the rest of the answer is lost. The inbounds' relay would wait for both. *)
Definition never_closed : error -> bool := fun _ => false.

Definition demo_tun : TunBegun * option fakeIPStore * Traffic :=
  NewConnection true "172.19.0.1:50000" {| sa_Addr := Addr4 167772161; sa_Port := 80; sa_String := "10.0.0.1:80" |}
    1 (fun _ => Ok atrust_route) None newTraffic.

Definition demo_tun_start : TunConn :=
  match demo_tun with
  | (TunRelayed c, _, _) => c
  | _ => {| tn_relay := relay_start newTraffic; tn_pc := TunRelaying; tn_inboundOpen := true; tn_logical := 0; tn_transport := 0 |}
  end.

Definition on_relay (op : RelayState -> option RelayState) (c : TunConn) : option TunConn :=
  (fun r => set_relay r c) <$> op (tn_relay c).

Definition demo_half_close : TunConn :=
  default demo_tun_start (fold_left (fun c op => c ≫= op) [
    on_relay (up_read [71; 69; 84] None); on_relay (up_write never 0 0 3 None 2);
    on_relay (up_read [] (Some io_EOF)); on_relay (down_read never 0 0 [50; 48; 48] None 3);
    tun_first_end never_closed true; tun_close_remote None; tun_close_inbound] (Some demo_tun_start)).

Lemma demo_half_close_run : rtc (tun_conn_step never never_closed) demo_tun_start demo_half_close.
Proof.
  eapply rtc_l; [by eapply tun_copies, (relay_up_read _ _ _ [71; 69; 84] None)|].
  eapply rtc_l; [by eapply tun_copies, (relay_up_write _ _ _ 3 None 2)|].
  eapply rtc_l; [by eapply tun_copies, (relay_up_read _ _ _ [] (Some io_EOF))|].
  eapply rtc_l; [by eapply tun_copies, (relay_down_read _ _ _ [50; 48; 48] None 3)|].
  eapply rtc_l; [by apply (tun_ended _ _ true)|]. eapply rtc_l; [by apply (tun_remote _ _ None)|].
  eapply rtc_l; [by apply tun_inbound|]. apply rtc_refl.
Qed.

Example half_close_loses_the_answer :
  tn_pc demo_half_close = TunReturned None /\ rl_serverRead (tn_relay demo_half_close) = [50; 48; 48] /\
  rl_clientWritten (tn_relay demo_half_close) = [] /\ tn_inboundOpen demo_half_close = false.
Proof. by vm_compute. Qed.

Lemma tun_connection_released_witness :
  tn_inboundOpen demo_half_close = false /\
  counted 0 0 (rl_traffic (tn_relay demo_half_close)) (len (rl_serverWritten (tn_relay demo_half_close)))
    (len (rl_serverRead (tn_relay demo_half_close))).
Proof.
  destruct (tun_connection_released never never_closed true "172.19.0.1:50000"
    {| sa_Addr := Addr4 167772161; sa_Port := 80; sa_String := "10.0.0.1:80" |} 1 (fun _ => Ok atrust_route) None
    demo_tun.1.2 newTraffic demo_tun.2 demo_tun_start demo_half_close (rtc_refl _ _) eq_refl demo_half_close_run)
    as (_ & _ & Hc & _ & _ & Hret).
  split; [apply (Hret None); apply half_close_loses_the_answer|exact Hc].
Defined.
