(* ===== verification/Inbound.v ===== *)
(** The HTTP and SOCKS5 inbounds (service/http.go, socks.go): starting, serving and closing as
    steps of goroutines that interleave. A listener or a connection is a handle, and
    the handles that are open are part of the state. Accepting connections and the two protocols
    belong to the libraries. *)

From S2P Require Import Prelude Core.

From stdpp Require Import gmap.

(** ** The goroutines of both services *)

(** [Start], behind [startOnce]: nothing yet, behind [listen] and before the lock, and over. *)
Inductive ListenPC : Type :=
| NotStarted
| Listening (l : nat)
| Started (err : option error).

(** The goroutine that serves: before [Serve], inside, behind it, and over. *)
Inductive ServePC : Type :=
| NotServing
| ToServe (l : nat)
| Serving (l : nat)
| ServeReturned (err : option error)
| Served.

(** A CONNECT request: dialed, hijacked, relayed, and relayed to the end. *)
Inductive ConnectPC : Type :=
| Dialed (server : nat)
| Hijacked (client server : nat)
| Relaying (client server : nat)
| RelayClosed.

(** [closeResources], behind [closeOnce]. *)
Inductive ClosePC : Type :=
| NotClosing
| CloseBegun
| ClosingConns (listener : option nat) (todo : list (nat * nat)) (errs : list (option error))
| AwaitingServe (listener : option nat) (shutdownErr : option error) (errs : list (option error))
| CloseDone (err : option error).

Definition listen_handles (pc : ListenPC) : gset nat := match pc with Listening l => {[l]} | _ => ∅ end.
Definition serve_handles (pc : ServePC) : gset nat :=
  match pc with ToServe l | Serving l => {[l]} | _ => ∅ end.
Definition connect_handles (pc : ConnectPC) : gset nat :=
  match pc with
  | Dialed server => {[server]}
  | Hijacked client server | Relaying client server => {[client; server]}
  | RelayClosed => ∅
  end.

(** ** The HTTP service *)

(** [hs_serverClosed] is the state of [http.Server]; [hs_next] is the next handle. A connection of
    the map [connections] is named after its request. *)
Record HTTPService : Type := {
  hs_ctxErr : option error;
  hs_start : ListenPC;
  hs_serve : ServePC;
  hs_close : ClosePC;
  hs_connects : gmap nat ConnectPC;
  hs_listener : option nat;
  hs_closed : bool;
  hs_runErr : option error;
  hs_connections : gmap nat (nat * nat);
  hs_serverClosed : bool;
  hs_open : gset nat;
  hs_next : nat;
}.

(** [NewHTTPServiceWithObserver]. *)
Definition NewHTTPService : HTTPService := {|
  hs_ctxErr := None; hs_start := NotStarted; hs_serve := NotServing; hs_close := NotClosing;
  hs_connects := ∅; hs_listener := None; hs_closed := false; hs_runErr := None; hs_connections := ∅;
  hs_serverClosed := false; hs_open := ∅; hs_next := 0 |}.

Definition set_start (pc : ListenPC) (s : HTTPService) : HTTPService := {|
  hs_ctxErr := hs_ctxErr s; hs_start := pc; hs_serve := hs_serve s; hs_close := hs_close s;
  hs_connects := hs_connects s; hs_listener := hs_listener s; hs_closed := hs_closed s; hs_runErr := hs_runErr s;
  hs_connections := hs_connections s; hs_serverClosed := hs_serverClosed s; hs_open := hs_open s; hs_next := hs_next s |}.

Definition set_serve (pc : ServePC) (s : HTTPService) : HTTPService := {|
  hs_ctxErr := hs_ctxErr s; hs_start := hs_start s; hs_serve := pc; hs_close := hs_close s;
  hs_connects := hs_connects s; hs_listener := hs_listener s; hs_closed := hs_closed s; hs_runErr := hs_runErr s;
  hs_connections := hs_connections s; hs_serverClosed := hs_serverClosed s; hs_open := hs_open s; hs_next := hs_next s |}.

Definition set_close (pc : ClosePC) (s : HTTPService) : HTTPService := {|
  hs_ctxErr := hs_ctxErr s; hs_start := hs_start s; hs_serve := hs_serve s; hs_close := pc;
  hs_connects := hs_connects s; hs_listener := hs_listener s; hs_closed := hs_closed s; hs_runErr := hs_runErr s;
  hs_connections := hs_connections s; hs_serverClosed := hs_serverClosed s; hs_open := hs_open s; hs_next := hs_next s |}.

Definition set_connects (m : gmap nat ConnectPC) (s : HTTPService) : HTTPService := {|
  hs_ctxErr := hs_ctxErr s; hs_start := hs_start s; hs_serve := hs_serve s; hs_close := hs_close s;
  hs_connects := m; hs_listener := hs_listener s; hs_closed := hs_closed s; hs_runErr := hs_runErr s;
  hs_connections := hs_connections s; hs_serverClosed := hs_serverClosed s; hs_open := hs_open s; hs_next := hs_next s |}.

Definition set_connections (m : gmap nat (nat * nat)) (s : HTTPService) : HTTPService := {|
  hs_ctxErr := hs_ctxErr s; hs_start := hs_start s; hs_serve := hs_serve s; hs_close := hs_close s;
  hs_connects := hs_connects s; hs_listener := hs_listener s; hs_closed := hs_closed s; hs_runErr := hs_runErr s;
  hs_connections := m; hs_serverClosed := hs_serverClosed s; hs_open := hs_open s; hs_next := hs_next s |}.

(** A new handle, and closing some. *)
Definition open_handle (s : HTTPService) : nat * HTTPService := (hs_next s, {|
  hs_ctxErr := hs_ctxErr s; hs_start := hs_start s; hs_serve := hs_serve s; hs_close := hs_close s;
  hs_connects := hs_connects s; hs_listener := hs_listener s; hs_closed := hs_closed s; hs_runErr := hs_runErr s;
  hs_connections := hs_connections s; hs_serverClosed := hs_serverClosed s;
  hs_open := {[hs_next s]} ∪ hs_open s; hs_next := S (hs_next s) |}).

Definition close_handles (l : gset nat) (s : HTTPService) : HTTPService := {|
  hs_ctxErr := hs_ctxErr s; hs_start := hs_start s; hs_serve := hs_serve s; hs_close := hs_close s;
  hs_connects := hs_connects s; hs_listener := hs_listener s; hs_closed := hs_closed s; hs_runErr := hs_runErr s;
  hs_connections := hs_connections s; hs_serverClosed := hs_serverClosed s;
  hs_open := hs_open s ∖ l; hs_next := hs_next s |}.

(** *** [Start] *)

(** The first call; [listened] is the error of the listener. *)
Definition http_start (listened : option error) (bindAddr : string) (s : HTTPService) : option HTTPService :=
  match hs_start s with
  | NotStarted => Some (
      match hs_ctxErr s, listened with
      | Some err, _ => set_start (Started (Some err)) s
      | None, Some err =>
          set_start (Started (Some (EWrap ("listen HTTP proxy on " +:+ bindAddr +:+ ": " +:+ error_text err) err))) s
      | None, None => let '(l, s) := open_handle s in set_start (Listening l) s
      end)
  | _ => None
  end.

(** The critical section of [start], and the goroutine it leaves behind. *)
Definition http_publish (s : HTTPService) : option HTTPService :=
  match hs_start s with
  | Listening l => Some (
      if hs_closed s then set_start (Started (Some ctx_Canceled)) (close_handles {[l]} s)
      else {|
        hs_ctxErr := hs_ctxErr s; hs_start := Started None; hs_serve := ToServe l; hs_close := hs_close s;
        hs_connects := hs_connects s; hs_listener := Some l; hs_closed := hs_closed s; hs_runErr := hs_runErr s;
        hs_connections := hs_connections s; hs_serverClosed := hs_serverClosed s; hs_open := hs_open s;
        hs_next := hs_next s |})
  | _ => None
  end.

(** *** Serving *)

(** [http.Server.Serve] closes the listener when it returns, at once if the server is closed. *)
Definition http_serve (s : HTTPService) : option HTTPService :=
  match hs_serve s with
  | ToServe l => Some (if hs_serverClosed s then set_serve (ServeReturned None) (close_handles {[l]} s)
                       else set_serve (Serving l) s)
  | _ => None
  end.

(** It returns by itself with the error of [Accept], or because the server was closed. *)
Definition http_serve_return (err : error) (s : HTTPService) : option HTTPService :=
  match hs_serve s with
  | Serving l => Some (
      let err := if hs_serverClosed s || errors_Is err "net.ErrClosed" then None else Some err in
      set_serve (ServeReturned err) (close_handles {[l]} s))
  | _ => None
  end.

(** [service.runErr = err] and [close(service.runDone)]. *)
Definition http_serve_end (s : HTTPService) : option HTTPService :=
  match hs_serve s with
  | ServeReturned err => Some {|
      hs_ctxErr := hs_ctxErr s; hs_start := hs_start s; hs_serve := Served; hs_close := hs_close s;
      hs_connects := hs_connects s; hs_listener := hs_listener s; hs_closed := hs_closed s; hs_runErr := err;
      hs_connections := hs_connections s; hs_serverClosed := hs_serverClosed s; hs_open := hs_open s;
      hs_next := hs_next s |}
  | _ => None
  end.

(** *** [handleConnect] *)

(** A new request [h] whose dial succeeds; a dial that fails changes nothing. *)
Definition connect_dial (h : nat) (s : HTTPService) : option HTTPService :=
  match hs_serve s, hs_connects s !! h with
  | NotServing, _ | _, Some _ => None
  | _, None => let '(server, s) := open_handle s in Some (set_connects (<[h := Dialed server]> (hs_connects s)) s)
  end.

(** Without hijacking the server's connection is closed. *)
Definition connect_refuse (h : nat) (s : HTTPService) : option HTTPService :=
  match hs_connects s !! h with
  | Some (Dialed server) => Some (close_handles {[server]} (set_connects (delete h (hs_connects s)) s))
  | _ => None
  end.

Definition connect_hijack (h : nat) (s : HTTPService) : option HTTPService :=
  match hs_connects s !! h with
  | Some (Dialed server) =>
      let '(client, s) := open_handle s in
      Some (set_connects (<[h := Hijacked client server]> (hs_connects s)) s)
  | _ => None
  end.

(** The answer cannot be written. *)
Definition connect_fail (h : nat) (s : HTTPService) : option HTTPService :=
  match hs_connects s !! h with
  | Some (Hijacked client server) =>
      Some (close_handles {[client; server]} (set_connects (delete h (hs_connects s)) s))
  | _ => None
  end.

(** The critical section that adds the connection, or closes it when the service is closed. *)
Definition connect_register (h : nat) (s : HTTPService) : option HTTPService :=
  match hs_connects s !! h with
  | Some (Hijacked client server) => Some (
      if hs_closed s then close_handles {[client; server]} (set_connects (delete h (hs_connects s)) s)
      else set_connections (<[h := (client, server)]> (hs_connections s))
             (set_connects (<[h := Relaying client server]> (hs_connects s)) s))
  | _ => None
  end.

(** The relay ends, and [connection.Close()]. *)
Definition connect_relayed (h : nat) (s : HTTPService) : option HTTPService :=
  match hs_connects s !! h with
  | Some (Relaying client server) =>
      Some (close_handles {[client; server]} (set_connects (<[h := RelayClosed]> (hs_connects s)) s))
  | _ => None
  end.

(** [delete(service.connections, connection)]. *)
Definition connect_forget (h : nat) (s : HTTPService) : option HTTPService :=
  match hs_connects s !! h with
  | Some RelayClosed =>
      Some (set_connections (delete h (hs_connections s)) (set_connects (delete h (hs_connects s)) s))
  | _ => None
  end.

(** *** [Close] *)

(** The first call, by anybody: by [context.AfterFunc] when the context of [Start] is done. *)
Definition http_close (s : HTTPService) : option HTTPService :=
  match hs_close s with NotClosing => Some (set_close CloseBegun s) | _ => None end.

(** The critical section of [closeResources]; the connections are in any order. *)
Definition http_close_snapshot (s : HTTPService) : option HTTPService :=
  match hs_close s with
  | CloseBegun => Some {|
      hs_ctxErr := hs_ctxErr s; hs_start := hs_start s; hs_serve := hs_serve s;
      hs_close := ClosingConns (hs_listener s) (map_to_list (hs_connections s)).*2 [];
      hs_connects := hs_connects s; hs_listener := hs_listener s; hs_closed := true; hs_runErr := hs_runErr s;
      hs_connections := hs_connections s; hs_serverClosed := hs_serverClosed s; hs_open := hs_open s;
      hs_next := hs_next s |}
  | _ => None
  end.

(** One [connection.Close()], which returns [err]. *)
Definition http_close_connection (err : option error) (s : HTTPService) : option HTTPService :=
  match hs_close s with
  | ClosingConns listener ((client, server) :: todo) errs =>
      Some (set_close (ClosingConns listener todo (errs ++ [err])) (close_handles {[client; server]} s))
  | _ => None
  end.

(** [service.server.Close()] closes the listener that is served, and [err] is its error. *)
Definition http_close_server (err : option error) (s : HTTPService) : option HTTPService :=
  match hs_close s with
  | ClosingConns listener [] errs =>
      let s := close_handles (match hs_serve s with Serving l => {[l]} | _ => ∅ end) s in
      Some {|
        hs_ctxErr := hs_ctxErr s; hs_start := hs_start s; hs_serve := hs_serve s;
        hs_close := AwaitingServe listener err errs;
        hs_connects := hs_connects s; hs_listener := hs_listener s; hs_closed := hs_closed s; hs_runErr := hs_runErr s;
        hs_connections := hs_connections s; hs_serverClosed := true; hs_open := hs_open s; hs_next := hs_next s |}
  | _ => None
  end.

(** [<-service.runDone] if there is a listener, and [close(service.closeDone)]. *)
Definition http_close_end (s : HTTPService) : option HTTPService :=
  match hs_close s with
  | AwaitingServe None shutdownErr errs =>
      Some (set_close (CloseDone (errors_Join [shutdownErr; errors_Join errs])) s)
  | AwaitingServe (Some _) shutdownErr errs =>
      match hs_serve s with
      | Served =>
          Some (set_close (CloseDone (errors_Join [errors_Join [shutdownErr; hs_runErr s]; errors_Join errs])) s)
      | _ => None
      end
  | _ => None
  end.

(** The context of [Start] is done. *)
Definition http_cancel (err : error) (s : HTTPService) : HTTPService := {|
  hs_ctxErr := Some err; hs_start := hs_start s; hs_serve := hs_serve s; hs_close := hs_close s;
  hs_connects := hs_connects s; hs_listener := hs_listener s; hs_closed := hs_closed s; hs_runErr := hs_runErr s;
  hs_connections := hs_connections s; hs_serverClosed := hs_serverClosed s; hs_open := hs_open s; hs_next := hs_next s |}.

(** ** Interleavings *)

(** What [Close] and the serving goroutine do, without anybody else. *)
Inductive closing_step : HTTPService -> HTTPService -> Prop :=
| step_snapshot s s' : http_close_snapshot s = Some s' -> closing_step s s'
| step_close_connection err s s' : http_close_connection err s = Some s' -> closing_step s s'
| step_close_server err s s' : http_close_server err s = Some s' -> closing_step s s'
| step_close_end s s' : http_close_end s = Some s' -> closing_step s s'
| step_serve s s' : http_serve s = Some s' -> closing_step s s'
| step_serve_return err s s' : http_serve_return err s = Some s' -> closing_step s s'
| step_serve_end s s' : http_serve_end s = Some s' -> closing_step s s'.

Inductive http_step : HTTPService -> HTTPService -> Prop :=
| step_start listened addr s s' : http_start listened addr s = Some s' -> http_step s s'
| step_publish s s' : http_publish s = Some s' -> http_step s s'
| step_dial h s s' : connect_dial h s = Some s' -> http_step s s'
| step_refuse h s s' : connect_refuse h s = Some s' -> http_step s s'
| step_hijack h s s' : connect_hijack h s = Some s' -> http_step s s'
| step_fail h s s' : connect_fail h s = Some s' -> http_step s s'
| step_register h s s' : connect_register h s = Some s' -> http_step s s'
| step_relayed h s s' : connect_relayed h s = Some s' -> http_step s s'
| step_forget h s s' : connect_forget h s = Some s' -> http_step s s'
| step_cancel err s : http_step s (http_cancel err s)
| step_close s s' : http_close s = Some s' -> http_step s s'
| step_closing s s' : closing_step s s' -> http_step s s'.

Definition http_reachable (s : HTTPService) : Prop := rtc http_step NewHTTPService s.

(** *** The invariant *)

(** Whether the service has taken its snapshot, and what it still has to close of it. *)
Definition past_snapshot (pc : ClosePC) : bool :=
  match pc with NotClosing | CloseBegun => false | _ => true end.
Definition closing_todo (pc : ClosePC) : list (nat * nat) :=
  match pc with ClosingConns _ todo _ => todo | _ => [] end.
(** The listener of the snapshot, and whether [server.Close()] is behind. *)
Definition snapshot_of (s : HTTPService) : option nat :=
  match hs_close s with
  | ClosingConns l _ _ | AwaitingServe l _ _ => l
  | _ => hs_listener s
  end.
Definition past_server_close (pc : ClosePC) : bool :=
  match pc with AwaitingServe _ _ _ | CloseDone _ => true | _ => false end.

Definition in_use (s : HTTPService) (x : nat) : Prop :=
  x ∈ hs_open s \/ x ∈ listen_handles (hs_start s) \/ x ∈ serve_handles (hs_serve s) \/
  exists h pc, hs_connects s !! h = Some pc /\ x ∈ connect_handles pc.

Record http_inv (s : HTTPService) : Prop := {
  inv_owned x : x ∈ hs_open s ->
    x ∈ listen_handles (hs_start s) \/ x ∈ serve_handles (hs_serve s) \/
    exists h pc, hs_connects s !! h = Some pc /\ x ∈ connect_handles pc;
  inv_fresh x : in_use s x -> Nat.lt x (hs_next s);
  inv_registered h client server : hs_connects s !! h = Some (Relaying client server) ->
    hs_connections s !! h = Some (client, server);
  inv_closed : hs_closed s = past_snapshot (hs_close s);
  inv_todo h client server : hs_closed s = true -> hs_connects s !! h = Some (Relaying client server) ->
    (client, server) ∈ closing_todo (hs_close s) \/ ((client ∉ hs_open s) /\ (server ∉ hs_open s));
  inv_serverClosed : hs_serverClosed s = past_server_close (hs_close s);
  inv_serving l : hs_serverClosed s = true -> hs_serve s = Serving l -> l ∉ hs_open s;
  inv_listener : hs_listener s = None <-> hs_serve s = NotServing;
  inv_snapshot : snapshot_of s = hs_listener s;
  inv_start : hs_listener s <> None -> hs_start s = Started None;
  inv_done err : hs_close s = CloseDone err -> hs_listener s <> None -> hs_serve s = Served;
}.

Lemma NewHTTPService_inv : http_inv NewHTTPService.
Proof. split; try done; unfold in_use; simpl; set_solver. Qed.

Lemma close_handles_inv l s : http_inv s -> http_inv (close_handles l s).
Proof.
  intros []. split; simpl; try done.
  - intros x [Hx _]%elem_of_difference. by apply inv_owned0.
  - intros x [[Hx _]%elem_of_difference|Hx]; apply inv_fresh0; [by left|by right].
  - intros h c v Hc Hh. destruct (inv_todo0 h c v Hc Hh) as [?|[? ?]]; [by left|right]. set_solver.
  - intros x Hc Hs [Hx _]%elem_of_difference. by eapply inv_serving0.
Qed.

(** The three ways in which the requests change. *)
Lemma connects_delete_inv h pc s :
  http_inv s -> hs_connects s !! h = Some pc ->
  http_inv (close_handles (connect_handles pc) (set_connects (delete h (hs_connects s)) s)).
Proof.
  intros [] Hpc. split; simpl; try done.
  - intros x [Hx Hpcx]%elem_of_difference. destruct (inv_owned0 x Hx) as [?|[?|(k & p & Hk & Hxp)]]; [auto..|].
    right; right. exists k, p. split; [|done]. apply lookup_delete_Some. split; [|done]. intros ->. congruence.
  - unfold in_use; simpl. intros x [[Hx _]%elem_of_difference|[Hx|[Hx|(k & p & [_ Hk]%lookup_delete_Some & Hx)]]]; apply inv_fresh0;
      unfold in_use; eauto 10.
  - intros k c v [_ Hk]%lookup_delete_Some. by apply inv_registered0.
  - intros k c v Hc [_ Hk]%lookup_delete_Some. destruct (inv_todo0 k c v Hc Hk) as [?|[? ?]]; [by left|right]. set_solver.
  - intros x Hc Hs [Hx _]%elem_of_difference. by eapply inv_serving0.
Qed.

Lemma connects_open_inv h pc s :
  http_inv s -> connect_handles pc = {[hs_next s]} ∪ default ∅ (connect_handles <$> hs_connects s !! h) ->
  match pc with Relaying _ _ => False | _ => True end ->
  http_inv (set_connects (<[h := pc]> (hs_connects s)) (open_handle s).2).
Proof.
  intros [] Hpc Hrel.
  assert (forall x, in_use s x -> x <> hs_next s) as Hfresh by (intros x Hx ->; apply inv_fresh0 in Hx; lia).
  split; simpl; try done.
  - intros x [->%elem_of_singleton|Hx]%elem_of_union.
    + right; right. exists h, pc. rewrite lookup_insert_eq. split; [done|]. rewrite Hpc. set_solver.
    + destruct (inv_owned0 x Hx) as [?|[?|(k & p & Hk & Hxp)]]; [auto..|]. right; right.
      destruct (decide (k = h)) as [->|Hne]; [|exists k, p; by rewrite lookup_insert_ne].
      exists h, pc. rewrite lookup_insert_eq. split; [done|]. rewrite Hpc, Hk. set_solver.
  - intros x Hx. unfold in_use in Hx; simpl in Hx. enough (x = hs_next s \/ in_use s x) as [->|Hu]; [lia|apply inv_fresh0 in Hu; lia|].
    destruct Hx as [[->%elem_of_singleton|Hx]%elem_of_union|[Hx|[Hx|(k & p & Hk & Hx)]]]; unfold in_use; simpl in *; auto.
    apply lookup_insert_Some in Hk as [[<- <-]|[_ Hk]]; [|right; eauto 10].
    rewrite Hpc in Hx. apply elem_of_union in Hx as [->%elem_of_singleton|Hx]; [by left|].
    destruct (hs_connects s !! h) eqn:E; [|set_solver]. right; eauto 10.
  - intros k c v [[_ ->]|[_ Hk]]%lookup_insert_Some; [done|]. by apply inv_registered0.
  - intros k c v Hc [[_ ->]|[_ Hk]]%lookup_insert_Some; [done|].
    destruct (inv_todo0 k c v Hc Hk) as [?|[Hcn Hvn]]; [by left|right].
    assert (in_use s c /\ in_use s v) as [Hlc%Hfresh Hlv%Hfresh].
    { split; right; right; right; exists k, (Relaying c v); (split; [done|]); simpl; set_solver. }
    split; intros [?%elem_of_singleton|?]%elem_of_union; done.
  - intros l Hc Hs [->%elem_of_singleton|Hl]%elem_of_union; [|by eapply inv_serving0].
    apply (Hfresh (hs_next s)); [|done]. right; right; left. rewrite Hs. simpl. set_solver.
Qed.

(** What no step of a request touches, for the steps that only move a program counter. *)
Lemma start_inv listened addr s s' : http_inv s -> http_start listened addr s = Some s' -> http_inv s'.
Proof.
  intros []. unfold http_start. destruct (hs_start s) eqn:Hst; try done.
  assert (hs_listener s = None) as Hl.
  { destruct (hs_listener s) eqn:E; [|done]. by discriminate inv_start0. }
  assert (forall err, http_inv (set_start (Started err) s)) as Hquit.
  { intros err. split; simpl; try done.
    intros x Hx. apply inv_fresh0. unfold in_use in *. by rewrite Hst. }
  destruct (hs_ctxErr s); [intros [= <-]; apply Hquit|]. destruct listened; [intros [= <-]; apply Hquit|].
  intros [= <-]. assert (forall x, in_use s x -> x <> hs_next s) as Hfresh by (intros x Hx ->; apply inv_fresh0 in Hx; lia).
  split; simpl; try done.
  - intros x [Hx|Hx]%elem_of_union; [by left|]. destruct (inv_owned0 x Hx) as [H|H]; [set_solver|by right].
  - intros x Hx. unfold in_use in Hx; simpl in Hx. enough (x = hs_next s \/ in_use s x) as [->|Hu]; [lia|apply inv_fresh0 in Hu; lia|].
    destruct Hx as [[->%elem_of_singleton|Hx]%elem_of_union|[->%elem_of_singleton|Hx]]; unfold in_use; simpl in *; auto.
  - intros k c v Hc Hk. destruct (inv_todo0 k c v Hc Hk) as [?|[Hcn Hvn]]; [by left|right].
    assert (in_use s c /\ in_use s v) as [Hlc%Hfresh Hlv%Hfresh].
    { split; right; right; right; exists k, (Relaying c v); (split; [done|]); simpl; set_solver. }
    split; intros [?%elem_of_singleton|?]%elem_of_union; done.
  - intros l Hc Hs [->%elem_of_singleton|Hx]%elem_of_union; [|by eapply inv_serving0].
    apply (Hfresh (hs_next s)); [|done]. right; right; left. rewrite Hs. simpl. set_solver.
Qed.

Lemma publish_inv s s' : http_inv s -> http_publish s = Some s' -> http_inv s'.
Proof.
  intros []. unfold http_publish. destruct (hs_start s) as [|l|] eqn:Hst; try done.
  assert (hs_listener s = None) as Hl.
  { destruct (hs_listener s) eqn:E; [|done]. by discriminate inv_start0. }
  destruct (hs_closed s) eqn:Hc; intros [= <-]; split; simpl; try done.
  - intros x [Hx Hxl]%elem_of_difference. destruct (inv_owned0 x Hx) as [H|H]; [set_solver|by right].
  - intros x Hx. apply inv_fresh0. unfold in_use in *; simpl in *. rewrite Hst. set_solver.
  - congruence.
  - intros h c v Hcl Hh. destruct (inv_todo0 h c v eq_refl Hh) as [?|[? ?]]; [by left|right]. set_solver.
  - intros x Hcl Hs [Hx _]%elem_of_difference. by eapply inv_serving0.
  - intros x Hx. destruct (inv_owned0 x Hx) as [H|[H|H]]; [right; by left| |right; by right].
    rewrite (proj1 inv_listener0 Hl) in H. set_solver.
  - intros x Hx. apply inv_fresh0. unfold in_use in *; simpl in *. rewrite Hst. simpl. set_solver.
  - unfold snapshot_of; simpl. destruct (hs_close s); simpl in *; congruence.
  - intros err Hcl. rewrite Hcl in inv_closed0. simpl in *. congruence.
Qed.

(** The serving goroutine: its handle is closed or stays. *)
Lemma serve_pc_inv pc closing s :
  http_inv s -> hs_serve s <> NotServing -> hs_serve s <> Served -> pc <> NotServing ->
  (serve_handles pc ⊆ serve_handles (hs_serve s)) -> (serve_handles (hs_serve s) ⊆ serve_handles pc ∪ closing) ->
  (hs_serverClosed s = true -> serve_handles pc = ∅) ->
  http_inv (set_serve pc (close_handles closing s)).
Proof.
  intros [] Hn Hnd Hpc Hsub Hcov Hcl. split; simpl; try done.
  - intros x [Hx Hxc]%elem_of_difference. destruct (inv_owned0 x Hx) as [H|[H|H]]; set_solver.
  - intros x Hx. apply inv_fresh0. unfold in_use in *; simpl in *. set_solver.
  - intros h c v Hc Hh. destruct (inv_todo0 h c v Hc Hh) as [?|[? ?]]; [by left|right]. set_solver.
  - intros x Hc -> _. specialize (Hcl Hc). simpl in Hcl. set_solver.
  - rewrite inv_listener0. tauto.
  - intros err Herr Hl. by destruct Hnd; eapply inv_done0.
Qed.

Lemma close_handles_empty s : close_handles ∅ s = s.
Proof. destruct s. unfold close_handles. simpl. f_equal. set_solver. Qed.

Lemma http_serve_inv s s' : http_inv s -> http_serve s = Some s' -> http_inv s'.
Proof.
  intros Hs. unfold http_serve. destruct (hs_serve s) as [|l| | |] eqn:Hpc; try done.
  destruct (hs_serverClosed s) eqn:Hc; intros [= <-].
  - apply serve_pc_inv; rewrite ?Hpc; try done; set_solver.
  - rewrite <-(close_handles_empty s) at 1. apply serve_pc_inv; rewrite ?Hpc; try done; [set_solver|congruence].
Qed.

Lemma http_serve_return_inv err s s' : http_inv s -> http_serve_return err s = Some s' -> http_inv s'.
Proof.
  intros Hs. unfold http_serve_return. destruct (hs_serve s) as [| |l| |] eqn:Hpc; try done.
  intros [= <-]. apply serve_pc_inv; rewrite ?Hpc; try done; set_solver.
Qed.

Lemma http_serve_end_inv s s' : http_inv s -> http_serve_end s = Some s' -> http_inv s'.
Proof.
  intros Hs. unfold http_serve_end. destruct (hs_serve s) as [| | |err|] eqn:Hpc; try done.
  intros [= <-]. destruct Hs. rewrite Hpc in *. split; simpl; try done.
  - intros x Hx. apply inv_fresh0. unfold in_use in *; simpl in *. by rewrite Hpc.
  - rewrite inv_listener0. by split.
Qed.

Lemma register_inv h s s' : http_inv s -> connect_register h s = Some s' -> http_inv s'.
Proof.
  intros Hs. unfold connect_register. destruct (hs_connects s !! h) as [[|c v| |]|] eqn:Hpc; try done.
  destruct (hs_closed s) eqn:Hc; intros [= <-]; [by apply (connects_delete_inv h (Hijacked c v))|].
  destruct Hs. split; simpl; try done.
  - intros x Hx. destruct (inv_owned0 x Hx) as [?|[?|(k & p & Hk & Hxp)]]; [auto..|]. right; right.
    destruct (decide (k = h)) as [->|Hne]; [|exists k, p; by rewrite lookup_insert_ne].
    exists h, (Relaying c v). rewrite lookup_insert_eq. split; [done|]. rewrite Hpc in Hk. by injection Hk as <-.
  - intros x Hx. apply inv_fresh0. unfold in_use in *; simpl in *.
    destruct Hx as [?|[?|[?|(k & p & [[<- <-]|[_ Hk]]%lookup_insert_Some & Hx)]]]; eauto 10.
  - intros k c' v'. rewrite !lookup_insert_Some. intros [[<- [= <- <-]]|[Hne Hk]]; [by left|right; eauto].
  - intros k c' v' Hc'. congruence.
Qed.

Lemma relayed_inv h s s' : http_inv s -> connect_relayed h s = Some s' -> http_inv s'.
Proof.
  intros []. unfold connect_relayed. destruct (hs_connects s !! h) as [[| |c v|]|] eqn:Hpc; try done.
  intros [= <-]. split; simpl; try done.
  - intros x [Hx Hxc]%elem_of_difference. destruct (inv_owned0 x Hx) as [?|[?|(k & p & Hk & Hxp)]]; [auto..|].
    right; right. exists k, p. split; [|done]. rewrite lookup_insert_ne; [done|]. intros ->.
    rewrite Hpc in Hk. by injection Hk as <-.
  - intros x Hx. apply inv_fresh0. unfold in_use in *; simpl in *.
    destruct Hx as [[Hx _]%elem_of_difference|[?|[?|(k & p & [[_ <-]|[_ Hk]]%lookup_insert_Some & Hx)]]];
      [eauto 10..|set_solver|eauto 10].
  - intros k c' v' [[_ ?]|[_ Hk]]%lookup_insert_Some; [done|by apply inv_registered0].
  - intros k c' v' Hc [[_ ?]|[_ Hk]]%lookup_insert_Some; [done|].
    destruct (inv_todo0 k c' v' Hc Hk) as [?|[? ?]]; [by left|right]. set_solver.
  - intros x Hcl Hs [Hx _]%elem_of_difference. by eapply inv_serving0.
Qed.

Lemma forget_inv h s s' : http_inv s -> connect_forget h s = Some s' -> http_inv s'.
Proof.
  intros []. unfold connect_forget. destruct (hs_connects s !! h) as [[| | |]|] eqn:Hpc; try done.
  intros [= <-]. split; simpl; try done.
  - intros x Hx. destruct (inv_owned0 x Hx) as [?|[?|(k & p & Hk & Hxp)]]; [auto..|]. right; right.
    exists k, p. split; [|done]. rewrite lookup_delete_ne; [done|]. intros <-.
    rewrite Hpc in Hk. injection Hk as <-. set_solver.
  - intros x Hx. apply inv_fresh0. unfold in_use in *; simpl in *.
    destruct Hx as [?|[?|[?|(k & p & [_ Hk]%lookup_delete_Some & Hx)]]]; eauto 10.
  - intros k c v [Hne Hk]%lookup_delete_Some. apply lookup_delete_Some. eauto.
  - intros k c v Hc [_ Hk]%lookup_delete_Some. eauto.
Qed.

Lemma close_snapshot_inv s s' : http_inv s -> http_close_snapshot s = Some s' -> http_inv s'.
Proof.
  intros []. unfold http_close_snapshot. destruct (hs_close s) eqn:Hcl; try done. intros [= <-].
  split; simpl; try done.
  intros h c v _ Hh%inv_registered0. left. apply list_elem_of_fmap. exists (h, (c, v)). split; [done|].
  by apply elem_of_map_to_list.
Qed.

Lemma close_connection_inv err s s' : http_inv s -> http_close_connection err s = Some s' -> http_inv s'.
Proof.
  intros Hs. unfold http_close_connection.
  destruct (hs_close s) as [| |listener [|[c v] todo] errs| |] eqn:Hcl; try done. intros [= <-].
  pose proof (close_handles_inv {[c; v]} s Hs) as []. split; simpl in *; try done.
  - by rewrite inv_closed0, Hcl.
  - intros h c' v' Hc Hh. destruct (inv_todo0 h c' v' Hc Hh) as [Hin|Hn]; [|by right]. rewrite Hcl in Hin.
    simpl in Hin. apply elem_of_cons in Hin as [[= -> ->]|Hin]; [|by left]. right. set_solver.
  - by rewrite inv_serverClosed0, Hcl.
  - unfold snapshot_of in *. simpl in *. by rewrite Hcl in inv_snapshot0.
Qed.

Lemma close_server_inv err s s' : http_inv s -> http_close_server err s = Some s' -> http_inv s'.
Proof.
  intros Hs. unfold http_close_server.
  destruct (hs_close s) as [| |listener [|] errs| |] eqn:Hcl; try done. intros [= <-].
  set (served := match hs_serve s with Serving l => _ | _ => _ end).
  pose proof (close_handles_inv served s Hs) as []. split; simpl in *; try done.
  - by rewrite inv_closed0, Hcl.
  - by rewrite Hcl in inv_todo0.
  - intros l _ Hl. subst served. rewrite Hl. set_solver.
  - unfold snapshot_of in *. simpl in *. by rewrite Hcl in inv_snapshot0.
Qed.

Lemma close_end_inv s s' : http_inv s -> http_close_end s = Some s' -> http_inv s'.
Proof.
  intros []. unfold http_close_end. destruct (hs_close s) as [| | |listener e errs|] eqn:Hcl; try done.
  unfold snapshot_of in inv_snapshot0. rewrite Hcl in inv_snapshot0.
  destruct listener as [l|]; [destruct (hs_serve s) eqn:Hsv; try done|]; intros [= <-]; split; unfold in_use in *; simpl; rewrite ?Hsv; try done.
  intros x Hx. apply inv_fresh0. by rewrite Hsv.
Qed.

Lemma closing_step_inv s s' : http_inv s -> closing_step s s' -> http_inv s'.
Proof.
  intros Hs. destruct 1; eauto using close_snapshot_inv, close_connection_inv, close_server_inv, close_end_inv,
    http_serve_inv, http_serve_return_inv, http_serve_end_inv.
Qed.

Lemma http_step_inv s s' : http_inv s -> http_step s s' -> http_inv s'.
Proof.
  intros Hs. destruct 1 as [listened addr s s' H|s s' H|h s s' H|h s s' H|h s s' H|h s s' H|h s s' H|h s s' H|h s s' H|err s|s s' H|s s' H].
  - by eapply start_inv.
  - by eapply publish_inv.
  - unfold connect_dial in H. destruct (hs_serve s), (hs_connects s !! h) eqn:E; try done; injection H as <-;
      apply (connects_open_inv h (Dialed (hs_next s)) s); rewrite ?E; set_solver.
  - unfold connect_refuse in H. destruct (hs_connects s !! h) as [[v| | |]|] eqn:E; try done. injection H as <-.
    by apply (connects_delete_inv h (Dialed v)).
  - unfold connect_hijack in H. destruct (hs_connects s !! h) as [[v| | |]|] eqn:E; try done. injection H as <-.
    apply (connects_open_inv h (Hijacked (hs_next s) v) s); rewrite ?E; [done|simpl; set_solver|done].
  - unfold connect_fail in H. destruct (hs_connects s !! h) as [[|c v| |]|] eqn:E; try done. injection H as <-.
    by apply (connects_delete_inv h (Hijacked c v)).
  - by eapply register_inv.
  - by eapply relayed_inv.
  - by eapply forget_inv.
  - destruct Hs. by split.
  - unfold http_close in H. destruct (hs_close s) eqn:E; try done. injection H as <-. destruct Hs.
    rewrite E in *. by split.
  - by eapply closing_step_inv.
Qed.

Lemma http_reachable_inv s : http_reachable s -> http_inv s.
Proof. intros Hs. eapply (rtc_closed http_step http_inv); [|apply NewHTTPService_inv|exact Hs]. eauto using http_step_inv. Qed.

(** *** [Close] ends *)

Lemma closing_conns_end todo s listener errs :
  hs_close s = ClosingConns listener todo errs ->
  exists s', rtc closing_step s s' /\ exists errs, hs_close s' = ClosingConns listener [] errs.
Proof.
  revert s errs. induction todo as [|[c v] todo IH]; intros s errs Hs; [by exists s; split; [|exists errs]|].
  destruct (IH (set_close (ClosingConns listener todo (errs ++ [None])) (close_handles {[c; v]} s)) (errs ++ [None]) eq_refl)
    as (s' & Hrun & Hs'). exists s'. split; [|done]. eapply rtc_l; [|exact Hrun].
  apply (step_close_connection None). unfold http_close_connection. by rewrite Hs.
Qed.

(** The serving goroutine ends when it is awaited. *)
Lemma serve_ends s :
  hs_serverClosed s = true -> hs_serve s <> NotServing ->
  exists s', rtc closing_step s s' /\ hs_serve s' = Served /\ hs_close s' = hs_close s.
Proof.
  intros Hc Hn.
  assert (forall s err, hs_serve s = ServeReturned err ->
    exists s', rtc closing_step s s' /\ hs_serve s' = Served /\ hs_close s' = hs_close s) as Hret.
  { intros s1 err H1. eexists. split; [apply rtc_once, step_serve_end; unfold http_serve_end; by rewrite H1|done]. }
  assert (forall s l, hs_serve s = Serving l ->
    exists s', rtc closing_step s s' /\ hs_serve s' = Served /\ hs_close s' = hs_close s) as Hserving.
  { intros s1 l H1. assert (exists s2, http_serve_return net_ErrClosed s1 = Some s2) as [s2 H2].
    { unfold http_serve_return. rewrite H1. by eexists. }
    destruct (Hret s2 None) as (s3 & Hrun & H3 & Hcl3).
    { unfold http_serve_return in H2. rewrite H1, orb_true_r in H2. by injection H2 as <-. }
    exists s3. split; [eapply rtc_l; [by apply (step_serve_return net_ErrClosed)|exact Hrun]|]. split; [done|].
    rewrite Hcl3. unfold http_serve_return in H2. rewrite H1 in H2. by injection H2 as <-. }
  destruct (hs_serve s) as [|l|l|err|] eqn:Hpc; [done| |by eapply Hserving|by eapply Hret|by exists s].
  set (s1 := set_serve (ServeReturned None) (close_handles {[l]} s)).
  destruct (Hret s1 None eq_refl) as (s2 & Hrun & H2 & Hcl2). exists s2. split; [|by split; [|rewrite Hcl2]].
  eapply rtc_l; [|exact Hrun]. apply step_serve. unfold http_serve. by rewrite Hpc, Hc.
Qed.

Lemma close_ends s :
  http_inv s -> hs_close s <> NotClosing -> exists s' err, rtc closing_step s s' /\ hs_close s' = CloseDone err.
Proof.
  assert (forall s l e errs, http_inv s -> hs_close s = AwaitingServe l e errs ->
    exists s' err, rtc closing_step s s' /\ hs_close s' = CloseDone err) as Hawait.
  { intros s1 l e errs Hinv H1. destruct l as [l|].
    - assert (hs_listener s1 = Some l) as Hl.
      { rewrite <-(inv_snapshot _ Hinv). unfold snapshot_of. by rewrite H1. }
      destruct (serve_ends s1) as (s2 & Hrun & H2 & Hcl).
      { by rewrite (inv_serverClosed _ Hinv), H1. }
      { rewrite <-(inv_listener _ Hinv). congruence. }
      eexists _, _. split; [eapply rtc_r; [exact Hrun|]|].
      + apply step_close_end. unfold http_close_end. by rewrite Hcl, H1, H2.
      + done.
    - eexists _, _. split; [apply rtc_once, step_close_end; unfold http_close_end; by rewrite H1|done]. }
  assert (forall s l todo errs, http_inv s -> hs_close s = ClosingConns l todo errs ->
    exists s' err, rtc closing_step s s' /\ hs_close s' = CloseDone err) as Hconns.
  { intros s1 l todo errs Hinv H1. destruct (closing_conns_end _ _ _ _ H1) as (s2 & Hrun & errs2 & H2).
    assert (http_inv s2) as Hinv2.
    { eapply (rtc_closed closing_step http_inv); [|exact Hinv|exact Hrun]. eauto using closing_step_inv. }
    assert (exists s3, http_close_server None s2 = Some s3) as [s3 H3].
    { unfold http_close_server. rewrite H2. by eexists. }
    assert (hs_close s3 = AwaitingServe l None errs2) as Hs3.
    { unfold http_close_server in H3. rewrite H2 in H3. by injection H3 as <-. }
    destruct (Hawait s3 l None errs2) as (s4 & err & Hrun4 & H4); [by eapply close_server_inv|done|].
    exists s4, err. split; [|done]. etrans; [exact Hrun|]. eapply rtc_l; [by apply (step_close_server None)|exact Hrun4]. }
  intros Hinv Hn. destruct (hs_close s) as [| |l todo errs|l e errs|err] eqn:Hcl; [done| |by eapply Hconns|by eapply Hawait|].
  - assert (exists s1, http_close_snapshot s = Some s1) as [s1 H1].
    { unfold http_close_snapshot. rewrite Hcl. by eexists. }
    destruct (Hconns s1 (hs_listener s) (map_to_list (hs_connections s)).*2 []) as (s2 & err & Hrun & H2).
    + by eapply close_snapshot_inv.
    + unfold http_close_snapshot in H1. rewrite Hcl in H1. by injection H1 as <-.
    + exists s2, err. split; [|done]. eapply rtc_l; [by apply step_snapshot|exact Hrun].
  - by exists s, err.
Qed.

(** A CONNECT request that is not relayed yet. *)
Definition unregistered (pc : ConnectPC) : bool :=
  match pc with Dialed _ | Hijacked _ _ => true | _ => false end.

(** C23: Closing the HTTP inbound, in every interleaving of starting, serving, CONNECT requests and
    closing. [Close] always ends: what it and the serving goroutine do by themselves leads to
    its end. Then neither the listener nor a relayed connection is open, whatever was open
    before. Only a [Start] or a request that is in the middle can hold something, and
    its next step under the lock closes it: such a [Start] fails, and such a request is
    dropped. When none is in the middle, nothing is open. *)
Theorem http_close_leaves_nothing (s : HTTPService) (Hs : http_reachable s) :
  (hs_close s <> NotClosing -> exists s' err, rtc closing_step s s' /\ hs_close s' = CloseDone err) /\
  (forall err, hs_close s = CloseDone err ->
     (forall x, x ∈ hs_open s -> x ∈ listen_handles (hs_start s) \/
        exists h pc, hs_connects s !! h = Some pc /\ unregistered pc = true /\ x ∈ connect_handles pc) /\
     (forall s', http_publish s = Some s' ->
        hs_start s' = Started (Some ctx_Canceled) /\ forall x, x ∈ listen_handles (hs_start s) -> x ∉ hs_open s') /\
     (forall h s', connect_register h s = Some s' ->
        hs_connects s' !! h = None /\
        forall pc x, hs_connects s !! h = Some pc -> x ∈ connect_handles pc -> x ∉ hs_open s') /\
     ((forall l, hs_start s <> Listening l) -> hs_connects s = ∅ -> hs_open s = ∅)).
Proof.
  pose proof (http_reachable_inv s Hs) as Hinv. split; [by apply close_ends|]. intros err Hcl.
  destruct Hinv. assert (hs_closed s = true) as Hc by (by rewrite inv_closed0, Hcl).
  assert (serve_handles (hs_serve s) = ∅) as Hsv.
  { destruct (hs_listener s) eqn:Hl; [by rewrite (inv_done0 err)|]. by rewrite (proj1 inv_listener0 eq_refl). }
  assert (forall x, x ∈ hs_open s -> x ∈ listen_handles (hs_start s) \/
        exists h pc, hs_connects s !! h = Some pc /\ unregistered pc = true /\ x ∈ connect_handles pc) as Hown.
  { intros x Hx. destruct (inv_owned0 x Hx) as [?|[H|(h & pc & Hpc & Hxp)]]; [by left|rewrite Hsv in H; set_solver|].
    right. exists h, pc. split_and!; [done| |done]. destruct pc as [| |c v|]; try done.
    destruct (inv_todo0 h c v Hc Hpc) as [Hin|Hno]; [rewrite Hcl in Hin; by apply elem_of_nil in Hin|set_solver]. }
  split_and!; [exact Hown| | |].
  - intros s' Hpub. unfold http_publish in Hpub. destruct (hs_start s); try done. rewrite Hc in Hpub.
    injection Hpub as <-. split; [done|]. simpl. set_solver.
  - intros h s' Hreg. unfold connect_register in Hreg. destruct (hs_connects s !! h) as [[|c v| |]|] eqn:Hpc; try done.
    rewrite Hc in Hreg. injection Hreg as <-. split; [apply lookup_delete_eq|]. intros pc x [= <-]. simpl. set_solver.
  - intros Hn He. apply leibniz_equiv, elem_of_equiv_empty. intros x Hx.
    destruct (Hown x Hx) as [H|(h & pc & Hpc & _)].
    + destruct (hs_start s) as [|l|]; [set_solver|by destruct (Hn l)|set_solver].
    + rewrite He in Hpc. done.
Qed.

(** A relayed request when the service is closed, and one that comes too late. *)
Definition demo_ops : list (HTTPService -> option HTTPService) := [
  http_start None "127.0.0.1:1081"; http_publish; http_serve; connect_dial 0; connect_hijack 0; connect_register 0;
  connect_dial 1; http_close; http_close_snapshot; connect_hijack 1; http_close_connection None;
  http_close_server None; http_serve_return net_ErrClosed; http_serve_end; http_close_end].

Definition run_ops (ops : list (HTTPService -> option HTTPService)) (s : HTTPService) : option HTTPService :=
  fold_left (fun s op => s ≫= op) ops (Some s).

Lemma run_ops_None ops : fold_left (fun (s : option HTTPService) op => s ≫= op) ops None = None.
Proof. by induction ops. Qed.

Lemma run_ops_reachable ops s s' :
  Forall (fun op => forall a b, op a = Some b -> http_step a b) ops -> run_ops ops s = Some s' -> rtc http_step s s'.
Proof.
  unfold run_ops. intros Hops. revert s. induction Hops as [|op ops Hop _ IH]; intros s; simpl; [by intros [= ->]|].
  destruct (op s) as [s1|] eqn:E; [|by rewrite run_ops_None]. intros Hrun. eapply rtc_l; [by apply Hop|by apply IH].
Qed.

Definition demo_closed : HTTPService := default NewHTTPService (run_ops demo_ops NewHTTPService).

Lemma demo_closed_run : run_ops demo_ops NewHTTPService = Some demo_closed.
Proof. vm_compute. reflexivity. Qed.

Lemma demo_closed_reachable : http_reachable demo_closed.
Proof.
  eapply run_ops_reachable; [|exact demo_closed_run].
  repeat (apply Forall_cons_2; [eauto using http_step, closing_step|]). apply Forall_nil_2.
Qed.

Lemma demo_closed_done : hs_close demo_closed = CloseDone None /\ hs_open demo_closed = {[3%nat; 4%nat]}.
Proof. vm_compute. split; reflexivity. Qed.

Lemma http_close_leaves_nothing_witness :
  hs_close demo_closed = CloseDone None /\
  forall h s', connect_register h demo_closed = Some s' -> hs_connects s' !! h = None.
Proof.
  destruct (http_close_leaves_nothing demo_closed demo_closed_reachable) as [_ Hdone].
  split; [exact (proj1 demo_closed_done)|]. intros h s' Hreg.
  destruct (Hdone None (proj1 demo_closed_done)) as (_ & _ & Hlate & _). exact (proj1 (Hlate h s' Hreg)).
Defined.
