(* ===== verification/SocksInbound.v ===== *)
(** The SOCKS5 inbound (service/socks.go): starting, serving and closing as steps of goroutines
    that interleave. The protocol belongs to a library, which may or may not close the listener
    when it returns. *)

From S2P Require Import Prelude Core Inbound.

From stdpp Require Import gmap.

(** ** State

    [so_open] has the handle of the listener while it is open. *)

(** [closeResources]: before and behind the lock, and behind [listener.Close()]. *)
Inductive SocksClosePC : Type :=
| SocksOpen
| SocksCloseBegun
| ClosingListener (listener : option nat)
| AwaitingRun (listener : option nat) (closeErr : option error)
| SocksClosed (err : option error).

Record Socks5Service : Type := {
  so_ctxErr : option error;
  so_start : ListenPC;
  so_serve : ServePC;
  so_close : SocksClosePC;
  so_listener : option nat;
  so_closed : bool;
  so_runErr : option error;
  so_open : gset nat;
}.

Definition NewSocks5Service : Socks5Service :=
  {| so_ctxErr := None; so_start := NotStarted; so_serve := NotServing; so_close := SocksOpen; so_listener := None;
     so_closed := false; so_runErr := None; so_open := ∅ |}.

(** The authentication methods: a password if there are both, else none. *)
Definition socks_auth (user password : string) : option (string * string) :=
  if negb (is_empty user) && negb (is_empty password) then Some (user, password) else None.

Definition move (start : ListenPC) (serve : ServePC) (close : SocksClosePC) (open : gset nat) (s : Socks5Service)
    : Socks5Service :=
  {| so_ctxErr := so_ctxErr s; so_start := start; so_serve := serve; so_close := close; so_listener := so_listener s;
     so_closed := so_closed s; so_runErr := so_runErr s; so_open := open |}.

(** The first call of [Start] up to the lock; the listener is a handle that is not open. *)
Definition socks_start (listened : result error nat) (bindAddr : string) (s : Socks5Service) : option Socks5Service :=
  match so_start s with
  | NotStarted => Some (
      match so_ctxErr s, listened with
      | Some err, _ => move (Started (Some err)) (so_serve s) (so_close s) (so_open s) s
      | None, Err err =>
          move (Started (Some (EWrap ("listen SOCKS5 on " +:+ bindAddr +:+ ": " +:+ error_text err) err)))
            (so_serve s) (so_close s) (so_open s) s
      | None, Ok l => move (Listening l) (so_serve s) (so_close s) ({[l]} ∪ so_open s) s
      end)
  | _ => None
  end.

Definition socks_publish (s : Socks5Service) : option Socks5Service :=
  match so_start s with
  | Listening l => Some (
      if so_closed s then move (Started (Some ctx_Canceled)) (so_serve s) (so_close s) (so_open s ∖ {[l]}) s
      else
        {| so_ctxErr := so_ctxErr s; so_start := Started None; so_serve := ToServe l; so_close := so_close s;
           so_listener := Some l; so_closed := so_closed s; so_runErr := so_runErr s; so_open := so_open s |})
  | _ => None
  end.

Definition socks_serve (s : Socks5Service) : option Socks5Service :=
  match so_serve s with
  | ToServe l => Some (move (so_start s) (Serving l) (so_close s) (so_open s) s)
  | _ => None
  end.

(** [Serve] returns the error of [Accept]; whether it closes the listener is the library's. *)
Definition socks_serve_return (err : error) (closes : bool) (s : Socks5Service) : option Socks5Service :=
  match so_serve s with
  | Serving l =>
      let err := if errors_Is err "net.ErrClosed" then None else Some err in
      Some (move (so_start s) (ServeReturned err) (so_close s) (if closes then so_open s ∖ {[l]} else so_open s) s)
  | _ => None
  end.

Definition socks_serve_end (s : Socks5Service) : option Socks5Service :=
  match so_serve s with
  | ServeReturned err => Some
      {| so_ctxErr := so_ctxErr s; so_start := so_start s; so_serve := Served; so_close := so_close s;
         so_listener := so_listener s; so_closed := so_closed s; so_runErr := err; so_open := so_open s |}
  | _ => None
  end.

Definition socks_close (s : Socks5Service) : option Socks5Service :=
  match so_close s with
  | SocksOpen => Some (move (so_start s) (so_serve s) SocksCloseBegun (so_open s) s)
  | _ => None
  end.

Definition socks_close_snapshot (s : Socks5Service) : option Socks5Service :=
  match so_close s with
  | SocksCloseBegun => Some
      {| so_ctxErr := so_ctxErr s; so_start := so_start s; so_serve := so_serve s;
         so_close := ClosingListener (so_listener s); so_listener := so_listener s; so_closed := true;
         so_runErr := so_runErr s; so_open := so_open s |}
  | _ => None
  end.

(** [listener.Close()], whose error is [err], if there is a listener. *)
Definition socks_close_listener (err : option error) (s : Socks5Service) : option Socks5Service :=
  match so_close s with
  | ClosingListener None => Some (move (so_start s) (so_serve s) (AwaitingRun None None) (so_open s) s)
  | ClosingListener (Some l) =>
      let closeErr := match err with
                      | Some e => if errors_Is e "net.ErrClosed" then None
                                  else Some (EWrap ("close SOCKS5 listener: " +:+ error_text e) e)
                      | None => None
                      end in
      Some (move (so_start s) (so_serve s) (AwaitingRun (Some l) closeErr) (so_open s ∖ {[l]}) s)
  | _ => None
  end.

Definition socks_close_end (s : Socks5Service) : option Socks5Service :=
  match so_close s with
  | AwaitingRun None closeErr => Some (move (so_start s) (so_serve s) (SocksClosed closeErr) (so_open s) s)
  | AwaitingRun (Some _) closeErr =>
      match so_serve s with
      | Served =>
          Some (move (so_start s) Served (SocksClosed (errors_Join [closeErr; so_runErr s])) (so_open s) s)
      | _ => None
      end
  | _ => None
  end.

Definition socks_cancel (err : error) (s : Socks5Service) : Socks5Service :=
  {| so_ctxErr := Some err; so_start := so_start s; so_serve := so_serve s; so_close := so_close s;
     so_listener := so_listener s; so_closed := so_closed s; so_runErr := so_runErr s; so_open := so_open s |}.

(** [Addr]. *)
Definition socks_Addr (s : Socks5Service) : option nat := so_listener s.

(** What [Close] and the serving goroutine do, without anybody else. *)
Inductive socks_closing_step : Socks5Service -> Socks5Service -> Prop :=
| socks_snapshot_step s s' : socks_close_snapshot s = Some s' -> socks_closing_step s s'
| socks_listener_step err s s' : socks_close_listener err s = Some s' -> socks_closing_step s s'
| socks_end_step s s' : socks_close_end s = Some s' -> socks_closing_step s s'
| socks_serve_step s s' : socks_serve s = Some s' -> socks_closing_step s s'
| socks_return_step err closes s s' : socks_serve_return err closes s = Some s' -> socks_closing_step s s'
| socks_served_step s s' : socks_serve_end s = Some s' -> socks_closing_step s s'.

Inductive socks_step : Socks5Service -> Socks5Service -> Prop :=
| socks_start_step listened addr s s' : socks_start listened addr s = Some s' -> socks_step s s'
| socks_publish_step s s' : socks_publish s = Some s' -> socks_step s s'
| socks_close_step s s' : socks_close s = Some s' -> socks_step s s'
| socks_cancel_step err s : socks_step s (socks_cancel err s)
| socks_other_step s s' : socks_closing_step s s' -> socks_step s s'.

Definition socks_reachable (s : Socks5Service) : Prop := rtc socks_step NewSocks5Service s.

(** *** The invariant *)

Definition socks_past_snapshot (pc : SocksClosePC) : bool :=
  match pc with SocksOpen | SocksCloseBegun => false | _ => true end.
Definition listener_may_be_open (pc : SocksClosePC) : bool :=
  match pc with AwaitingRun _ _ | SocksClosed _ => false | _ => true end.
Definition socks_snapshot (s : Socks5Service) : option nat :=
  match so_close s with ClosingListener l | AwaitingRun l _ => l | _ => so_listener s end.

Record socks_inv (s : Socks5Service) : Prop := {
  si_owned x : x ∈ so_open s -> x ∈ listen_handles (so_start s) \/
    (listener_may_be_open (so_close s) = true /\ so_listener s = Some x);
  si_closed : so_closed s = socks_past_snapshot (so_close s);
  si_listener : so_listener s = None <-> so_serve s = NotServing;
  si_snapshot : socks_snapshot s = so_listener s;
  si_start : so_listener s <> None -> so_start s = Started None;
  si_done err : so_close s = SocksClosed err -> so_listener s <> None -> so_serve s = Served;
}.

Lemma NewSocks5Service_inv : socks_inv NewSocks5Service.
Proof. split; try done; simpl; set_solver. Qed.

(** A step that moves program counters and changes what is open. *)
Lemma move_inv start serve close open s :
  socks_inv s ->
  (forall x, x ∈ open -> x ∈ listen_handles start \/ (listener_may_be_open close = true /\ so_listener s = Some x)) ->
  socks_past_snapshot close = socks_past_snapshot (so_close s) ->
  (serve = NotServing <-> so_serve s = NotServing) ->
  match close with ClosingListener l | AwaitingRun l _ => l = so_listener s | _ => True end ->
  (so_listener s <> None -> start = Started None) ->
  (forall err, close = SocksClosed err -> so_listener s <> None -> serve = Served) ->
  socks_inv (move start serve close open s).
Proof.
  intros [] Ho Hc Hs Hl Hst Hd. split; simpl; try done.
  - by rewrite Hc.
  - by rewrite si_listener0.
  - unfold socks_snapshot. simpl. by destruct close.
Qed.

(** The program counters stay, or only one moves. *)
Lemma socks_start_inv listened addr s s' :
  socks_inv s -> socks_start listened addr s = Some s' -> socks_inv s'.
Proof.
  intros Hs. pose proof Hs as []. unfold socks_start. destruct (so_start s) eqn:Est; try done.
  assert (so_listener s = None) as Hl.
  { destruct (so_listener s) eqn:E; [|done]. by discriminate si_start0. }
  assert (forall pc open, (forall x, x ∈ open -> x ∈ listen_handles pc \/ x ∈ so_open s) ->
    socks_inv (move pc (so_serve s) (so_close s) open s)) as Hmove.
  { intros pc open Hopen. apply move_inv; try done.
    - intros x Hx. destruct (Hopen x Hx) as [?|H]; [by left|]. destruct (si_owned0 x H) as [?|?]; [set_solver|by right].
    - unfold socks_snapshot in si_snapshot0. by destruct (so_close s). }
  destruct (so_ctxErr s); [|destruct listened]; intros [= <-]; apply Hmove; set_solver.
Qed.

Lemma socks_publish_inv s s' : socks_inv s -> socks_publish s = Some s' -> socks_inv s'.
Proof.
  intros Hs. pose proof Hs as []. unfold socks_publish. destruct (so_start s) as [|l|] eqn:Est; try done.
  assert (so_listener s = None) as Hl.
  { destruct (so_listener s) eqn:E; [|done]. by discriminate si_start0. }
  destruct (so_closed s) eqn:Hc; intros [= <-].
  - apply move_inv; try done.
    + intros x [Hx Hxl]%elem_of_difference. destruct (si_owned0 x Hx); [set_solver|by right].
    + unfold socks_snapshot in si_snapshot0. by destruct (so_close s).
  - split; simpl; try done.
    + intros x Hx. right. destruct (si_owned0 x Hx) as [Hx'|[_ Hx']]; [|congruence]. simpl in Hx'.
      apply elem_of_singleton in Hx' as ->. destruct (so_close s); try done; discriminate.
    + unfold socks_snapshot; simpl. by destruct (so_close s).
    + intros err E. rewrite E in si_closed0. discriminate.
Qed.

Lemma socks_serving_inv s pc open :
  socks_inv s -> open ⊆ so_open s -> so_serve s <> NotServing -> so_serve s <> Served -> pc <> NotServing ->
  socks_inv (move (so_start s) pc (so_close s) open s).
Proof.
  intros Hs Ho Hn Hv Hpc. pose proof Hs as []. apply move_inv; try done.
  - intros x Hx. apply si_owned0. set_solver.
  - unfold socks_snapshot in si_snapshot0. by destruct (so_close s).
  - intros err E Hl. by destruct Hv; eapply si_done0.
Qed.

Lemma socks_closing_step_inv s s' : socks_inv s -> socks_closing_step s s' -> socks_inv s'.
Proof.
  intros Hs. pose proof Hs as []. unfold socks_snapshot in si_snapshot0. destruct 1 as [s s' H|err s s' H|s s' H|s s' H|err closes s s' H|s s' H].
  - unfold socks_close_snapshot in H. destruct (so_close s) eqn:E; try done. injection H as <-. by split.
  - unfold socks_close_listener in H. destruct (so_close s) as [| |[l|]| |] eqn:E; try done; injection H as <-;
      apply move_inv; rewrite ?E; try done.
    + intros x [Hx Hxl]%elem_of_difference. destruct (si_owned0 x Hx) as [?|[_ Hl]]; [by left|].
      rewrite <-si_snapshot0 in Hl. injection Hl as <-. set_solver.
    + intros x Hx. destruct (si_owned0 x Hx) as [?|[_ Hl]]; [by left|]. congruence.
  - unfold socks_close_end in H. destruct (so_close s) as [| | |[l|] closeErr|] eqn:E; try done.
    + destruct (so_serve s) eqn:Hsv; try done. injection H as <-. apply move_inv; rewrite ?E, ?Hsv; done.
    + injection H as <-. apply move_inv; rewrite ?E; try done.
  - unfold socks_serve in H. destruct (so_serve s) eqn:E; try done. injection H as <-. by apply socks_serving_inv; rewrite ?E.
  - unfold socks_serve_return in H. destruct (so_serve s) eqn:E; try done. injection H as <-.
    apply socks_serving_inv; rewrite ?E; try done. destruct closes; set_solver.
  - unfold socks_serve_end in H. destruct (so_serve s) eqn:E; try done. injection H as <-. split; simpl; try done.
    rewrite si_listener0. by split.
Qed.

Lemma socks_step_inv s s' : socks_inv s -> socks_step s s' -> socks_inv s'.
Proof.
  intros Hs. destruct 1 as [listened addr s s' H|s s' H|s s' H|err s|s s' H].
  - by eapply socks_start_inv.
  - by eapply socks_publish_inv.
  - unfold socks_close in H. destruct (so_close s) eqn:E; try done. injection H as <-. pose proof Hs as [].
    apply move_inv; rewrite ?E; try done. intros x Hx. rewrite E in si_owned0. by apply si_owned0.
  - destruct Hs. by split.
  - by eapply socks_closing_step_inv.
Qed.

Lemma socks_reachable_inv s : socks_reachable s -> socks_inv s.
Proof.
  intros Hs. eapply (rtc_closed socks_step socks_inv); [|apply NewSocks5Service_inv|exact Hs]. eauto using socks_step_inv.
Qed.

(** *** [Close] ends *)

Lemma socks_serve_ends s :
  so_serve s <> NotServing ->
  exists s', rtc socks_closing_step s s' /\ so_serve s' = Served /\ so_close s' = so_close s.
Proof.
  intros Hn.
  assert (forall s err, so_serve s = ServeReturned err ->
    exists s', rtc socks_closing_step s s' /\ so_serve s' = Served /\ so_close s' = so_close s) as Hret.
  { intros s1 err H1. eexists. split; [apply rtc_once, socks_served_step; unfold socks_serve_end; by rewrite H1|done]. }
  assert (forall s l, so_serve s = Serving l ->
    exists s', rtc socks_closing_step s s' /\ so_serve s' = Served /\ so_close s' = so_close s) as Hserving.
  { intros s1 l H1.
    destruct (Hret (move (so_start s1) (ServeReturned None) (so_close s1) (so_open s1) s1) None eq_refl) as (s2 & Hrun & H2 & Hcl).
    exists s2. split; [|by split; [|rewrite Hcl]]. eapply rtc_l; [|exact Hrun].
    apply (socks_return_step net_ErrClosed false). unfold socks_serve_return. by rewrite H1. }
  destruct (so_serve s) as [|l|l|err|] eqn:Hpc; [done| |by eapply Hserving|by eapply Hret|by exists s].
  destruct (Hserving (move (so_start s) (Serving l) (so_close s) (so_open s) s) l eq_refl) as (s2 & Hrun & H2 & Hcl).
  exists s2. split; [|by split; [|rewrite Hcl]]. eapply rtc_l; [|exact Hrun].
  apply socks_serve_step. unfold socks_serve. by rewrite Hpc.
Qed.

Lemma socks_await_ends s l e :
  socks_inv s -> so_close s = AwaitingRun l e ->
  exists s' err, rtc socks_closing_step s s' /\ so_close s' = SocksClosed err.
Proof.
  intros [] Hcl. unfold socks_snapshot in si_snapshot0. rewrite Hcl in si_snapshot0. destruct l as [l|].
  - destruct (socks_serve_ends s) as (s1 & Hrun & H1 & Hcl1); [rewrite <-si_listener0; congruence|].
    eexists _, _. split; [eapply rtc_r; [exact Hrun|apply socks_end_step; unfold socks_close_end; by rewrite Hcl1, Hcl, H1]|done].
  - eexists _, _. split; [apply rtc_once, socks_end_step; unfold socks_close_end; by rewrite Hcl|done].
Qed.

Lemma socks_close_ends s :
  socks_inv s -> so_close s <> SocksOpen -> exists s' err, rtc socks_closing_step s s' /\ so_close s' = SocksClosed err.
Proof.
  assert (forall s l, socks_inv s -> so_close s = ClosingListener l ->
    exists s' err, rtc socks_closing_step s s' /\ so_close s' = SocksClosed err) as Hlistener.
  { intros s1 l Hs Hcl.
    assert (exists s2, socks_close_listener None s1 = Some s2 /\ so_close s2 = AwaitingRun l None) as (s2 & H2 & Hcl2).
    { unfold socks_close_listener. rewrite Hcl. destruct l; by eexists. }
    destruct (socks_await_ends s2 l None) as (s3 & err & Hrun & H3);
      [by eapply socks_closing_step_inv, socks_listener_step|done|].
    exists s3, err. split; [|done]. eapply rtc_l; [by eapply socks_listener_step|exact Hrun]. }
  intros Hs Hn. destruct (so_close s) as [| |l|l e|err] eqn:Hcl; [done| |by eapply Hlistener|by eapply socks_await_ends|by exists s, err].
  assert (exists s1, socks_close_snapshot s = Some s1 /\ so_close s1 = ClosingListener (so_listener s)) as (s1 & H1 & Hcl1).
  { unfold socks_close_snapshot. rewrite Hcl. by eexists. }
  destruct (Hlistener s1 (so_listener s)) as (s2 & err & Hrun & H2); [by eapply socks_closing_step_inv, socks_snapshot_step|done|].
  exists s2, err. split; [|done]. eapply rtc_l; [by apply socks_snapshot_step|exact Hrun].
Qed.

(** Closing the SOCKS5 inbound, in every interleaving of starting, serving and closing, whether
    or not the library closes the listener. [Close] always ends; then the listener is closed,
    unless a [Start] has it that is in the middle, whose next step closes it and fails. *)
Theorem socks_close_leaves_nothing (s : Socks5Service) (Hs : socks_reachable s) :
  (so_close s <> SocksOpen -> exists s' err, rtc socks_closing_step s s' /\ so_close s' = SocksClosed err) /\
  (forall err, so_close s = SocksClosed err ->
     (forall x, x ∈ so_open s -> x ∈ listen_handles (so_start s)) /\
     forall s', socks_publish s = Some s' -> so_start s' = Started (Some ctx_Canceled) /\ so_open s' = ∅).
Proof.
  pose proof (socks_reachable_inv s Hs) as Hinv. split; [by apply socks_close_ends|]. intros err Hcl. destruct Hinv.
  assert (forall x, x ∈ so_open s -> x ∈ listen_handles (so_start s)) as Hown.
  { intros x Hx. destruct (si_owned0 x Hx) as [?|[H _]]; [done|]. by rewrite Hcl in H. }
  split; [exact Hown|]. intros s' Hpub. unfold socks_publish in Hpub. destruct (so_start s) as [|l|] eqn:E; try done.
  rewrite si_closed0, Hcl in Hpub. injection Hpub as <-. split; [done|]. simpl. apply leibniz_equiv. set_solver.
Qed.

(** A [Start] that has its listener when the service is closed. *)
Example socks_late_start :
  let run ops := fold_left (fun (s : option Socks5Service) op => s ≫= op) ops (Some NewSocks5Service) in
  option_map (fun s => (so_close s, so_start s, elements (so_open s)))
    (run [socks_start (Ok 7%nat) "127.0.0.1:1080"; socks_close; socks_close_snapshot; socks_close_listener None;
          socks_close_end; socks_publish]) = Some (SocksClosed None, Started (Some ctx_Canceled), []).
Proof. vm_compute. reflexivity. Qed.
