(* ===== verification/DNSInbound.v ===== *)
(** The DNS inbound (service/dns.go): starting, serving and closing as steps of goroutines that
    interleave. The state of a server of the DNS library is a parameter, with the laws of the
    class [LawfulLibrary]. *)

From S2P Require Import Prelude Core.

From stdpp Require Import gmap.

(** ** The library

    A [dns.Server] of the library: [ActivateAndServe] makes it serve, and [ShutdownContext] ends
    one that serves and closes its socket. One that does not serve yet is not shut down: the
    call fails with "server not started", and a later [ActivateAndServe] serves. *)
Record ServerLibrary (S : Type) : Type := {
  dns_new : S;
  dns_activate : S -> S;
  dns_shutdown : S -> option error * S;
  dns_serving : S -> bool;
}.
Arguments dns_new {S}.
Arguments dns_activate {S}.
Arguments dns_shutdown {S}.
Arguments dns_serving {S}.

Class LawfulLibrary {S : Type} (lib : ServerLibrary S) : Prop := {
  new_idle : dns_serving lib (dns_new lib) = false;
  activate_serves s : dns_serving lib s = false -> dns_serving lib (dns_activate lib s) = true;
  shutdown_serving s : dns_serving lib s = true -> dns_serving lib (dns_shutdown lib s).2 = false;
  shutdown_idle s : dns_serving lib s = false -> (dns_shutdown lib s).1 <> None /\ (dns_shutdown lib s).2 = s;
}.

Inductive DNSStartPC : Type :=
| DNSNotStarted
| UDPListening
| BothListening
| DNSStarted (err : option error).

(** [Close], behind [closeOnce]: behind the lock, and behind each of the two servers. *)
Inductive DNSClosePC : Type :=
| DNSOpen
| ShuttingUDP
| ShuttingTCP (errs : list (option error))
| DNSClosed (err : option error).

Section Service.
Context {S : Type} (lib : ServerLibrary S).

(** A socket with its server, and whether the goroutine that serves has begun. *)
Record Socket : Type := { sk_open : bool; sk_server : S; sk_activated : bool }.

(** The servers are read by [Close] from fields that [Start] sets. *)
Record ManagedDNSService : Type := {
  md_start : DNSStartPC;
  md_close : DNSClosePC;
  md_udp : option Socket;
  md_tcp : option Socket;
  md_published : bool;
  md_seen : bool;
  md_runErr : option error;
}.

Definition NewManagedDNSService : ManagedDNSService :=
  {| md_start := DNSNotStarted; md_close := DNSOpen; md_udp := None; md_tcp := None; md_published := false;
     md_seen := false; md_runErr := None |}.

Definition set_sockets (start : DNSStartPC) (udp tcp : option Socket) (s : ManagedDNSService) : ManagedDNSService :=
  {| md_start := start; md_close := md_close s; md_udp := udp; md_tcp := tcp; md_published := md_published s;
     md_seen := md_seen s; md_runErr := md_runErr s |}.

Definition new_socket : Socket := {| sk_open := true; sk_server := dns_new lib; sk_activated := false |}.

Definition dns_listen_udp (listened : option error) (s : ManagedDNSService) : option ManagedDNSService :=
  match md_start s with
  | DNSNotStarted => Some
      match listened with
      | Some err =>
          set_sockets (DNSStarted (Some (EWrap ("listen DNS UDP: " +:+ error_text err) err))) (md_udp s) (md_tcp s) s
      | None => set_sockets UDPListening (Some new_socket) (md_tcp s) s
      end
  | _ => None
  end.

(** Without a TCP listener the UDP socket is closed. *)
Definition dns_listen_tcp (listened : option error) (s : ManagedDNSService) : option ManagedDNSService :=
  match md_start s with
  | UDPListening => Some
      match listened with
      | Some err =>
          set_sockets (DNSStarted (Some (EWrap ("listen DNS TCP: " +:+ error_text err) err))) None (md_tcp s) s
      | None => set_sockets BothListening (md_udp s) (Some new_socket) s
      end
  | _ => None
  end.

(** The critical section of [Start]. *)
Definition dns_publish (s : ManagedDNSService) : option ManagedDNSService :=
  match md_start s with
  | BothListening => Some
      {| md_start := DNSStarted None; md_close := md_close s; md_udp := md_udp s; md_tcp := md_tcp s;
         md_published := true; md_seen := md_seen s; md_runErr := md_runErr s |}
  | _ => None
  end.

Definition activate (k : Socket) : Socket :=
  {| sk_open := sk_open k; sk_server := dns_activate lib (sk_server k); sk_activated := true |}.

(** The two goroutines of [Start] reach [ActivateAndServe]. *)
Definition dns_activate_udp (s : ManagedDNSService) : option ManagedDNSService :=
  match md_udp s with
  | Some k => if md_published s && negb (sk_activated k)
              then Some (set_sockets (md_start s) (Some (activate k)) (md_tcp s) s) else None
  | None => None
  end.

Definition dns_activate_tcp (s : ManagedDNSService) : option ManagedDNSService :=
  match md_tcp s with
  | Some k => if md_published s && negb (sk_activated k)
              then Some (set_sockets (md_start s) (md_udp s) (Some (activate k)) s) else None
  | None => None
  end.

(** [recordRunError]. *)
Definition dns_recordRunError (err : error) (s : ManagedDNSService) : ManagedDNSService :=
  {| md_start := md_start s; md_close := md_close s; md_udp := md_udp s; md_tcp := md_tcp s;
     md_published := md_published s; md_seen := md_seen s; md_runErr := errors_Join [md_runErr s; Some err] |}.

(** The first [Close]: its critical section reads the servers. *)
Definition dns_close (s : ManagedDNSService) : option ManagedDNSService :=
  match md_close s with
  | DNSOpen => Some
      {| md_start := md_start s; md_close := ShuttingUDP; md_udp := md_udp s; md_tcp := md_tcp s;
         md_published := md_published s; md_seen := md_published s; md_runErr := md_runErr s |}
  | _ => None
  end.

(** [ShutdownContext] of a server, if there is one. *)
Definition shut (seen : bool) (k : option Socket) : option error * option Socket :=
  match k with
  | Some k =>
      if seen then
        let '(err, server) := dns_shutdown lib (sk_server k) in
        (err, Some {| sk_open := sk_open k && negb (dns_serving lib (sk_server k)); sk_server := server;
                      sk_activated := sk_activated k |})
      else (None, Some k)
  | None => (None, None)
  end.

Definition dns_shutdown_udp (s : ManagedDNSService) : option ManagedDNSService :=
  match md_close s with
  | ShuttingUDP =>
      let '(err, udp) := shut (md_seen s) (md_udp s) in
      Some {| md_start := md_start s; md_close := ShuttingTCP [err]; md_udp := udp; md_tcp := md_tcp s;
              md_published := md_published s; md_seen := md_seen s; md_runErr := md_runErr s |}
  | _ => None
  end.

Definition dns_shutdown_tcp (s : ManagedDNSService) : option ManagedDNSService :=
  match md_close s with
  | ShuttingTCP errs =>
      let '(err, tcp) := shut (md_seen s) (md_tcp s) in
      Some {| md_start := md_start s; md_close := DNSClosed (errors_Join (errs ++ [err])); md_udp := md_udp s;
              md_tcp := tcp; md_published := md_published s; md_seen := md_seen s; md_runErr := md_runErr s |}
  | _ => None
  end.

Inductive dns_step : ManagedDNSService -> ManagedDNSService -> Prop :=
| dns_listen_udp_step listened s s' : dns_listen_udp listened s = Some s' -> dns_step s s'
| dns_listen_tcp_step listened s s' : dns_listen_tcp listened s = Some s' -> dns_step s s'
| dns_publish_step s s' : dns_publish s = Some s' -> dns_step s s'
| dns_activate_udp_step s s' : dns_activate_udp s = Some s' -> dns_step s s'
| dns_activate_tcp_step s s' : dns_activate_tcp s = Some s' -> dns_step s s'
| dns_run_error_step err s : dns_step s (dns_recordRunError err s)
| dns_close_step s s' : dns_close s = Some s' -> dns_step s s'
| dns_shutdown_udp_step s s' : dns_shutdown_udp s = Some s' -> dns_step s s'
| dns_shutdown_tcp_step s s' : dns_shutdown_tcp s = Some s' -> dns_step s s'.

Definition dns_reachable (s : ManagedDNSService) : Prop := rtc dns_step NewManagedDNSService s.

Definition is_open (k : option Socket) : bool := match k with Some k => sk_open k | None => false end.

(** Both goroutines serve. *)
Definition both_serve (s : ManagedDNSService) : bool :=
  match md_udp s, md_tcp s with
  | Some udp, Some tcp => md_published s && dns_serving lib (sk_server udp) && dns_serving lib (sk_server tcp)
  | _, _ => false
  end.
End Service.
Arguments Socket : clear implicits.
Arguments ManagedDNSService : clear implicits.

Section Spec.
Context {S : Type} (lib : ServerLibrary S) `{lawful : !LawfulLibrary lib}.

#[local] Abbreviation Service := (ManagedDNSService S).
#[local] Abbreviation serving k := (dns_serving lib (sk_server k)).

(** A server serves only when its goroutine has begun. *)
Definition socket_ok (k : option (Socket S)) : Prop :=
  match k with Some k => sk_activated k = false -> serving k = false | None => True end.

Record dns_inv (s : Service) : Prop := {
  di_udp : socket_ok (md_udp s);
  di_tcp : socket_ok (md_tcp s);
  di_published : md_published s = true -> md_start s = DNSStarted None;
  di_seen : md_seen s = true -> md_published s = true;
}.

Lemma shut_ok seen k : socket_ok k -> socket_ok (shut lib seen k).2.
Proof.
  destruct k as [k|]; [|done]. intros Hk. unfold shut. destruct seen; [|done].
  destruct (dns_shutdown lib (sk_server k)) as [err server] eqn:E. simpl. intros Ha. specialize (Hk Ha).
  destruct (shutdown_idle (sk_server k) Hk) as [_ Hs]. rewrite E in Hs. simpl in Hs. by subst server.
Qed.

Lemma dns_step_inv s s' : dns_inv s -> dns_step lib s s' -> dns_inv s'.
Proof.
  intros [Hu Ht Hp Hseen].
  destruct 1 as [listened s s' H|listened s s' H|s s' H|s s' H|s s' H|err s|s s' H|s s' H|s s' H].
  - unfold dns_listen_udp in H. destruct (md_start s) eqn:E; try done. destruct listened; injection H as <-; split; simpl;
      try done; (by intros _; apply new_idle) || (intros Hpub; discriminate (Hp Hpub)).
  - unfold dns_listen_tcp in H. destruct (md_start s) eqn:E; try done. destruct listened; injection H as <-; split; simpl;
      try done; (by intros _; apply new_idle) || (intros Hpub; discriminate (Hp Hpub)).
  - unfold dns_publish in H. destruct (md_start s); try done. by injection H as <-.
  - unfold dns_activate_udp in H. destruct (md_udp s) as [k|]; [|done]. destruct (_ && _); [|done]. by injection H as <-.
  - unfold dns_activate_tcp in H. destruct (md_tcp s) as [k|]; [|done]. destruct (_ && _); [|done]. by injection H as <-.
  - by split.
  - unfold dns_close in H. destruct (md_close s); try done. by injection H as <-.
  - unfold dns_shutdown_udp in H. destruct (md_close s); try done. pose proof (shut_ok (md_seen s) (md_udp s) Hu) as Hu'.
    destruct (shut lib (md_seen s) (md_udp s)). by injection H as <-.
  - unfold dns_shutdown_tcp in H. destruct (md_close s); try done. pose proof (shut_ok (md_seen s) (md_tcp s) Ht) as Ht'.
    destruct (shut lib (md_seen s) (md_tcp s)). by injection H as <-.
Qed.

Lemma dns_reachable_inv s : dns_reachable lib s -> dns_inv s.
Proof.
  intros Hs. assert (dns_inv NewManagedDNSService) as Hnew by (by split).
  eapply (rtc_closed (dns_step lib) dns_inv); [|exact Hnew|exact Hs]. eauto using dns_step_inv.
Qed.

(** A [Close] that found both servers serving, and how far it is. *)
Definition shutting (s : Service) : Prop :=
  md_seen s = true /\ md_start s = DNSStarted None /\
  exists udp tcp, md_udp s = Some udp /\ md_tcp s = Some tcp /\ sk_activated udp = true /\ sk_activated tcp = true /\
    match md_close s with
    | DNSOpen => False
    | ShuttingUDP => serving udp = true /\ serving tcp = true
    | ShuttingTCP _ => sk_open udp = false /\ serving tcp = true
    | DNSClosed _ => sk_open udp = false /\ sk_open tcp = false
    end.

Lemma shutting_step s s' : shutting s -> dns_step lib s s' -> shutting s'.
Proof.
  intros (Hseen & Hst & udp & tcp & Hu & Ht & Hau & Hat & Hcl).
  destruct 1 as [listened s s' H|listened s s' H|s s' H|s s' H|s s' H|err s|s s' H|s s' H|s s' H].
  - unfold dns_listen_udp in H. by rewrite Hst in H.
  - unfold dns_listen_tcp in H. by rewrite Hst in H.
  - unfold dns_publish in H. by rewrite Hst in H.
  - unfold dns_activate_udp in H. by rewrite Hu, Hau, andb_false_r in H.
  - unfold dns_activate_tcp in H. by rewrite Ht, Hat, andb_false_r in H.
  - split; [done|]. split; [done|]. exists udp, tcp. by split_and!.
  - unfold dns_close in H. destruct (md_close s); done.
  - unfold dns_shutdown_udp, shut in H. destruct (md_close s) eqn:E; try done. rewrite Hu, Hseen in H. destruct Hcl as [Hcu Hct].
    destruct (dns_shutdown lib (sk_server udp)) as [err server] eqn:Es. injection H as <-. simpl.
    split; [done|]. split; [done|]. eexists _, tcp. simpl. split_and!; try done. by rewrite Hcu, andb_false_r.
  - unfold dns_shutdown_tcp, shut in H. destruct (md_close s) eqn:E; try done. rewrite Ht, Hseen in H. destruct Hcl as [Hcu Hct].
    destruct (dns_shutdown lib (sk_server tcp)) as [err server] eqn:Es. injection H as <-. simpl.
    split; [done|]. split; [done|]. eexists udp, _. simpl. split_and!; try done. by rewrite Hct, andb_false_r.
Qed.

(** A service that is closed and keeps its sockets. *)
Definition lost (s : Service) : Prop :=
  md_start s = DNSStarted None /\ (exists err, md_close s = DNSClosed err) /\
  is_open (md_udp s) = true /\ is_open (md_tcp s) = true.

Lemma lost_step s s' : lost s -> dns_step lib s s' -> lost s'.
Proof.
  intros (Hst & [e Hcl] & Hu & Ht).
  destruct 1 as [listened s s' H|listened s s' H|s s' H|s s' H|s s' H|err s|s s' H|s s' H|s s' H].
  - unfold dns_listen_udp in H. by rewrite Hst in H.
  - unfold dns_listen_tcp in H. by rewrite Hst in H.
  - unfold dns_publish in H. by rewrite Hst in H.
  - unfold dns_activate_udp in H. destruct (md_udp s) as [k|] eqn:E; [|done]. destruct (_ && _); [|done].
    injection H as <-. split_and!; eauto.
  - unfold dns_activate_tcp in H. destruct (md_tcp s) as [k|] eqn:E; [|done]. destruct (_ && _); [|done].
    injection H as <-. split_and!; eauto.
  - split_and!; eauto.
  - unfold dns_close in H. by rewrite Hcl in H.
  - unfold dns_shutdown_udp in H. by rewrite Hcl in H.
  - unfold dns_shutdown_tcp in H. by rewrite Hcl in H.
Qed.

(** [Start], and [Close] before the goroutines of [Start] have begun. *)
Definition early_close : option Service :=
  fold_left (fun s op => s ≫= op)
    [dns_listen_udp lib None; dns_listen_tcp lib None; dns_publish; dns_close; dns_shutdown_udp lib; dns_shutdown_tcp lib]
    (Some NewManagedDNSService).

Lemma early_close_lost :
  exists s, early_close = Some s /\ dns_reachable lib s /\ lost s /\ (forall err, md_close s = DNSClosed err -> err <> None).
Proof.
  pose proof (shutdown_idle (dns_new lib) new_idle) as [Herr Hsame].
  destruct (dns_shutdown lib (dns_new lib)) as [err server] eqn:E. simpl in Herr, Hsame. subst server.
  unfold early_close, dns_shutdown_udp, shut. simpl. rewrite E. simpl. unfold dns_shutdown_tcp, shut. simpl.
  rewrite E. simpl.
  destruct err as [err|]; [|done]. eexists. split; [done|]. split; [|split].
  - unfold dns_reachable. repeat (eapply rtc_l; [first
      [by apply (dns_listen_udp_step lib None)|by apply (dns_listen_tcp_step lib None)|by apply dns_publish_step
      |by apply dns_close_step]|]).
    eapply rtc_l; [apply dns_shutdown_udp_step; unfold dns_shutdown_udp; simpl; by rewrite E|].
    eapply rtc_l; [apply dns_shutdown_tcp_step; unfold dns_shutdown_tcp; simpl; by rewrite E|]. apply rtc_refl.
  - unfold lost. simpl. rewrite new_idle. eauto.
  - by intros e [= <-].
Qed.
End Spec.

(** Closing the DNS inbound. When both servers serve, [Close] leaves no socket open, whatever
    happens meanwhile. But between [Start] and the beginning of its goroutines, [Close] fails
    with the library's error, and since it acts only once, the two sockets then stay open for
    ever, whatever happens. *)
Theorem dns_close_needs_servers {S : Type} (lib : ServerLibrary S) `{lawful : !LawfulLibrary lib} :
  (forall s s1 s2 err, dns_reachable lib s -> both_serve lib s = true -> dns_close s = Some s1 ->
     rtc (dns_step lib) s1 s2 -> md_close s2 = DNSClosed err ->
     is_open (md_udp s2) = false /\ is_open (md_tcp s2) = false) /\
  (exists s, dns_reachable lib s /\ md_start s = DNSStarted None /\ (exists err, md_close s = DNSClosed (Some err)) /\
     forall s', rtc (dns_step lib) s s' -> is_open (md_udp s') = true /\ is_open (md_tcp s') = true).
Proof.
  split.
  - intros s s1 s2 err Hs Hboth Hclose Hrun Hcl. destruct (dns_reachable_inv lib s Hs) as [Hu Ht Hp _].
    unfold both_serve in Hboth. destruct (md_udp s) as [udp|] eqn:Eu, (md_tcp s) as [tcp|] eqn:Et; try done.
    apply andb_true_iff in Hboth as [[Hpub Hsu]%andb_true_iff Hst].
    assert (shutting lib s1) as Hs1.
    { unfold dns_close in Hclose. destruct (md_close s); try done. injection Hclose as <-. split; [done|].
      split; [by apply Hp|]. exists udp, tcp. simpl. simpl in Hu, Ht. split_and!; try done.
      - destruct (sk_activated udp); [done|]. specialize (Hu eq_refl). congruence.
      - destruct (sk_activated tcp); [done|]. specialize (Ht eq_refl). congruence. }
    assert (shutting lib s2) as (_ & _ & udp' & tcp' & -> & -> & _ & _ & Hend).
    { eapply (rtc_closed (dns_step lib) (shutting lib)); [|exact Hs1|exact Hrun]. eauto using shutting_step. }
    by rewrite Hcl in Hend.
  - destruct (early_close_lost lib) as (s & _ & Hs & Hlost & Herr). exists s. split; [exact Hs|].
    destruct Hlost as (Hst & [err Hcl] & Hopen). split; [exact Hst|]. split.
    + destruct err as [err|]; [by exists err|]. by destruct (Herr None Hcl).
    + intros s' Hrun. assert (lost s') as (_ & _ & Hl); [|exact Hl].
      eapply (rtc_closed (dns_step lib) lost); [|exact (conj Hst (conj (ex_intro _ err Hcl) Hopen))|exact Hrun]. eauto using lost_step.
Qed.

(** A server that is idle or serves. *)
Definition demo_library : ServerLibrary bool :=
  {| dns_new := false; dns_activate _ := true;
     dns_shutdown s := if s then (None, false) else (Some (EText "dns: server not started"), false);
     dns_serving s := s |}.

#[export] Instance demo_library_lawful : LawfulLibrary demo_library.
Proof. split; [done|done|by intros []|by intros []]. Qed.

Lemma dns_close_needs_servers_witness :
  exists s, dns_reachable demo_library s /\ (exists err, md_close s = DNSClosed (Some err)) /\
    forall s', rtc (dns_step demo_library) s s' -> is_open (md_udp s') = true.
Proof.
  destruct (dns_close_needs_servers demo_library) as [_ (s & Hs & _ & Hcl & Hopen)].
  exists s. split; [exact Hs|]. split; [exact Hcl|]. intros s' Hrun. exact (proj1 (Hopen s' Hrun)).
Defined.
