(* ===== verification/ConfigFlow.v ===== *)
(** How a configuration travels from the daemon to the components that use it: the copies of
    manager/manager.go, internal/atrustruntime/runtime.go and internal/networkruntime/inbound.go,
    composed with the validation of the daemon and with the constructors at the end. *)

From S2P Require Import Prelude Core GoNet FakeIP TunDNS TunService Underlay Dial NetRuntime AuthLogin ClientSetup RuntimeStart Session Manager DaemonConfig SocksInbound.

(** ** atrustruntime.Config *)

(** The fields that are data; the handlers and the network to replace are functions that the
    session passes on. *)
Record RuntimeConfig : Type := {
  rc_ResumeState : option ResumeState;
  rc_ServerAddress : string;
  rc_ServerPort : Z;
  rc_Username : string;
  rc_Password : string;
  rc_Phone : string;
  rc_LoginDomain : string;
  rc_AuthType : string;
  rc_GraphCodeFile : string;
  rc_CASTicket : string;
  rc_OAuth2Code : string;
  rc_SID : string;
  rc_DeviceID : string;
  rc_SignKey : string;
  rc_ClientDataFile : string;
  rc_ResourceFile : string;
  rc_UpdateBestNodesInterval : Z;
  rc_BindInterface : string;
  rc_AutoDetectInterface : bool;
  rc_SkipTCPTunnelWait : bool;
  rc_DisableAutoReconnect : bool;
  rc_SetupNetwork : bool;
  rc_TCPTunnelMode : bool;
  rc_DisableRemoteDNS : bool;
  rc_RemoteDNSServer : string;
  rc_SecondaryDNSServer : string;
  rc_DNSTTL : Z;
  rc_DNSBind : string;
  rc_Hosts : option (gmap string string);
  rc_SOCKSBind : string;
  rc_SOCKSUsername : string;
  rc_SOCKSPassword : string;
  rc_HTTPBind : string;
  rc_TUNEnabled : bool;
  rc_TUNName : string;
  rc_TUNAddress : string;
  rc_TUNMTU : Z;
  rc_TUNAutoRoute : bool;
  rc_TUNRouteAll : bool;
  rc_TUNStrictRoute : bool;
  rc_TUNStack : string;
  rc_TUNOutboundInterface : string;
  rc_TUNUDPTimeoutSeconds : Z;
  rc_TUNUDPMaxFlows : Z;
  rc_TUNDNSHijack : bool;
  rc_TUNFakeIP : bool;
  rc_TUNFakeIPRange : string;
  rc_RoutingMode : RoutingMode;
  rc_InternetOutbound : InternetOutboundConfig;
}.

(** The fields that are not named keep their zero value. *)
Definition toRuntimeConfig (config : CoreConfig) : RuntimeConfig :=
  let interfaces := toRuntimeConfig_interfaces config in
  {| rc_ResumeState := cc_ResumeState config; rc_ServerAddress := cc_ServerAddress config;
     rc_ServerPort := cc_ServerPort config; rc_Username := cc_Username config;
     rc_Password := cc_Password config; rc_Phone := cc_Phone config;
     rc_LoginDomain := cc_LoginDomain config; rc_AuthType := cc_AuthType config;
     rc_GraphCodeFile := cc_GraphCodeFile config; rc_CASTicket := cc_CASTicket config;
     rc_OAuth2Code := cc_OAuth2Code config; rc_SID := cc_SID config; rc_DeviceID := cc_DeviceID config;
     rc_SignKey := cc_SignKey config; rc_ClientDataFile := cc_ClientDataFile config; rc_ResourceFile := "";
     rc_UpdateBestNodesInterval := cc_UpdateBestNodesSeconds config;
     rc_BindInterface := cc_BindInterface config;
     rc_AutoDetectInterface := ri_AutoDetectInterface interfaces; rc_SkipTCPTunnelWait := false;
     rc_DisableAutoReconnect := cc_DisableAutoReconnect config; rc_SetupNetwork := false;
     rc_TCPTunnelMode := false; rc_DisableRemoteDNS := cc_DisableRemoteDNS config;
     rc_RemoteDNSServer := cc_RemoteDNSServer config; rc_SecondaryDNSServer := cc_SecondaryDNSServer config;
     rc_DNSTTL := cc_DNSTTL config; rc_DNSBind := cc_DNSBind config; rc_Hosts := cc_Hosts config;
     rc_SOCKSBind := cc_SOCKSBind config; rc_SOCKSUsername := cc_SOCKSUsername config;
     rc_SOCKSPassword := cc_SOCKSPassword config; rc_HTTPBind := cc_HTTPBind config;
     rc_TUNEnabled := cc_TUNEnabled config; rc_TUNName := cc_TUNName config;
     rc_TUNAddress := cc_TUNAddress config; rc_TUNMTU := cc_TUNMTU config;
     rc_TUNAutoRoute := cc_TUNAutoRoute config; rc_TUNRouteAll := cc_TUNRouteAll config;
     rc_TUNStrictRoute := false; rc_TUNStack := "";
     rc_TUNOutboundInterface := ri_TUNOutboundInterface interfaces;
     rc_TUNUDPTimeoutSeconds := cc_TUNUDPTimeoutSeconds config;
     rc_TUNUDPMaxFlows := cc_TUNUDPMaxFlows config; rc_TUNDNSHijack := cc_TUNDNSHijack config;
     rc_TUNFakeIP := cc_TUNFakeIP config; rc_TUNFakeIPRange := cc_TUNFakeIPRange config;
     rc_RoutingMode := cc_RoutingMode config; rc_InternetOutbound := cc_InternetOutbound config |}.

Definition set_SetupNetwork (b : bool) (c : RuntimeConfig) : RuntimeConfig :=
  {| rc_ResumeState := rc_ResumeState c; rc_ServerAddress := rc_ServerAddress c;
     rc_ServerPort := rc_ServerPort c; rc_Username := rc_Username c; rc_Password := rc_Password c;
     rc_Phone := rc_Phone c; rc_LoginDomain := rc_LoginDomain c; rc_AuthType := rc_AuthType c;
     rc_GraphCodeFile := rc_GraphCodeFile c; rc_CASTicket := rc_CASTicket c;
     rc_OAuth2Code := rc_OAuth2Code c; rc_SID := rc_SID c; rc_DeviceID := rc_DeviceID c;
     rc_SignKey := rc_SignKey c; rc_ClientDataFile := rc_ClientDataFile c;
     rc_ResourceFile := rc_ResourceFile c; rc_UpdateBestNodesInterval := rc_UpdateBestNodesInterval c;
     rc_BindInterface := rc_BindInterface c; rc_AutoDetectInterface := rc_AutoDetectInterface c;
     rc_SkipTCPTunnelWait := rc_SkipTCPTunnelWait c; rc_DisableAutoReconnect := rc_DisableAutoReconnect c;
     rc_SetupNetwork := b; rc_TCPTunnelMode := rc_TCPTunnelMode c;
     rc_DisableRemoteDNS := rc_DisableRemoteDNS c; rc_RemoteDNSServer := rc_RemoteDNSServer c;
     rc_SecondaryDNSServer := rc_SecondaryDNSServer c; rc_DNSTTL := rc_DNSTTL c; rc_DNSBind := rc_DNSBind c;
     rc_Hosts := rc_Hosts c; rc_SOCKSBind := rc_SOCKSBind c; rc_SOCKSUsername := rc_SOCKSUsername c;
     rc_SOCKSPassword := rc_SOCKSPassword c; rc_HTTPBind := rc_HTTPBind c; rc_TUNEnabled := rc_TUNEnabled c;
     rc_TUNName := rc_TUNName c; rc_TUNAddress := rc_TUNAddress c; rc_TUNMTU := rc_TUNMTU c;
     rc_TUNAutoRoute := rc_TUNAutoRoute c; rc_TUNRouteAll := rc_TUNRouteAll c;
     rc_TUNStrictRoute := rc_TUNStrictRoute c; rc_TUNStack := rc_TUNStack c;
     rc_TUNOutboundInterface := rc_TUNOutboundInterface c;
     rc_TUNUDPTimeoutSeconds := rc_TUNUDPTimeoutSeconds c; rc_TUNUDPMaxFlows := rc_TUNUDPMaxFlows c;
     rc_TUNDNSHijack := rc_TUNDNSHijack c; rc_TUNFakeIP := rc_TUNFakeIP c;
     rc_TUNFakeIPRange := rc_TUNFakeIPRange c; rc_RoutingMode := rc_RoutingMode c;
     rc_InternetOutbound := rc_InternetOutbound c |}.

(** [newATrustSession]: the configuration that the session gets. *)
Definition newATrustSession (config : CoreConfig) : RuntimeConfig :=
  set_SetupNetwork true (toRuntimeConfig config).

(** What session.go and the start of a runtime read of it. *)
Definition session_part (config : RuntimeConfig) : SessionConfig :=
  {| scfg_ResumeState := rc_ResumeState config; scfg_ClientDataFile := rc_ClientDataFile config;
     scfg_DisableAutoReconnect := rc_DisableAutoReconnect config |}.

Definition start_part (config : RuntimeConfig) : StartConfig :=
  {| sc_ResumeState := rc_ResumeState config; sc_ServerAddress := rc_ServerAddress config;
     sc_ServerPort := rc_ServerPort config; sc_Username := rc_Username config;
     sc_ClientDataFile := rc_ClientDataFile config; sc_ResourceFile := rc_ResourceFile config;
     sc_SetupNetwork := rc_SetupNetwork config |}.

(** ** The client's set-up *)

(** The [setup] of [defaultDependencies]: the configuration of [SetupContext]. *)
Definition setup_config (config : RuntimeConfig) : SetupConfig :=
  {| su_ServerAddress := rc_ServerAddress config; su_ServerPort := rc_ServerPort config;
     su_Username := rc_Username config; su_Password := rc_Password config; su_Phone := rc_Phone config;
     su_LoginDomain := rc_LoginDomain config; su_AuthType := rc_AuthType config;
     su_CASTicket := rc_CASTicket config; su_OAuth2Code := rc_OAuth2Code config;
     su_UpdateBestNodesInterval := rc_UpdateBestNodesInterval config |}.

(** [newUnderlayDialer], with the interface fields that [setup] copies. *)
Definition newUnderlayDialer (bindInterface : string) (autoDetectInterface : bool) : DialerOptions :=
  {| op_InterfaceName := bindInterface; op_AutoDetect := autoDetectInterface |}.

Definition dialer_options (config : RuntimeConfig) : DialerOptions :=
  newUnderlayDialer (rc_BindInterface config) (rc_AutoDetectInterface config).

(** ** networkruntime.Config *)

(** A product of durations, an int64. *)
Definition i64 (z : Z) : Z := (z + 2 ^ 63) mod 2 ^ 64 - 2 ^ 63.

(** The fields that are data; the constructors of services exist for tests. *)
Record NetworkConfig : Type := {
  nw_TCPTunnelMode : bool;
  nw_DisableRemoteDNS : bool;
  nw_RemoteDNSServer : string;
  nw_SecondaryDNSServer : string;
  nw_DNSTTL : Z;
  nw_DNSBind : string;
  nw_Hosts : option (gmap string string);
  nw_SOCKSBind : string;
  nw_SOCKSUsername : string;
  nw_SOCKSPassword : string;
  nw_HTTPBind : string;
  nw_TUNEnabled : bool;
  nw_TUNName : string;
  nw_TUNAddress : string;
  nw_TUNMTU : Z;
  nw_TUNAutoRoute : bool;
  nw_TUNRouteAll : bool;
  nw_TUNStrictRoute : bool;
  nw_TUNStack : string;
  nw_TUNOutboundInterface : string;
  nw_TUNUDPTimeoutSeconds : Z;
  nw_TUNUDPMaxFlows : Z;
  nw_TUNDNSHijack : bool;
  nw_TUNFakeIP : bool;
  nw_TUNFakeIPRange : string;
  nw_ControlServerHost : string;
  nw_TUNRouteAddresses : list Prefix;
  nw_RoutingMode : RoutingMode;
  nw_InternetOutbound : InternetOutboundConfig;
}.

(** The [setupNetwork] of [defaultDependencies]. *)
Definition network_config (config : RuntimeConfig) : NetworkConfig :=
  {| nw_TCPTunnelMode := rc_TCPTunnelMode config; nw_DisableRemoteDNS := rc_DisableRemoteDNS config;
     nw_RemoteDNSServer := rc_RemoteDNSServer config; nw_SecondaryDNSServer := rc_SecondaryDNSServer config;
     nw_DNSTTL := rc_DNSTTL config; nw_DNSBind := rc_DNSBind config; nw_Hosts := rc_Hosts config;
     nw_SOCKSBind := rc_SOCKSBind config; nw_SOCKSUsername := rc_SOCKSUsername config;
     nw_SOCKSPassword := rc_SOCKSPassword config; nw_HTTPBind := rc_HTTPBind config;
     nw_TUNEnabled := rc_TUNEnabled config; nw_TUNName := rc_TUNName config;
     nw_TUNAddress := rc_TUNAddress config; nw_TUNMTU := rc_TUNMTU config;
     nw_TUNAutoRoute := rc_TUNAutoRoute config; nw_TUNRouteAll := rc_TUNRouteAll config;
     nw_TUNStrictRoute := rc_TUNStrictRoute config; nw_TUNStack := rc_TUNStack config;
     nw_TUNOutboundInterface := rc_TUNOutboundInterface config;
     nw_TUNUDPTimeoutSeconds := rc_TUNUDPTimeoutSeconds config;
     nw_TUNUDPMaxFlows := rc_TUNUDPMaxFlows config; nw_TUNDNSHijack := rc_TUNDNSHijack config;
     nw_TUNFakeIP := rc_TUNFakeIP config; nw_TUNFakeIPRange := rc_TUNFakeIPRange config;
     nw_ControlServerHost := rc_ServerAddress config; nw_TUNRouteAddresses := [];
     nw_RoutingMode := rc_RoutingMode config; nw_InternetOutbound := rc_InternetOutbound config |}.

(** What runtime.go reads; [range_hosts] is the order in which it walks the static hosts. *)
Definition net_part (range_hosts : gmap string string -> list (string * string)) (config : NetworkConfig)
    : NetConfig :=
  {| nc_DisableRemoteDNS := nw_DisableRemoteDNS config; nc_RemoteDNSServer := nw_RemoteDNSServer config;
     nc_DNSTTL := nw_DNSTTL config; nc_DNSBind := nw_DNSBind config;
     nc_Hosts := range_hosts (default ∅ (nw_Hosts config)); nc_SOCKSBind := nw_SOCKSBind config;
     nc_HTTPBind := nw_HTTPBind config; nc_TUNEnabled := nw_TUNEnabled config;
     nc_TUNAutoRoute := nw_TUNAutoRoute config; nc_TUNRouteAll := nw_TUNRouteAll config;
     nc_TUNOutboundInterface := nw_TUNOutboundInterface config; nc_TUNFakeIP := nw_TUNFakeIP config;
     nc_TUNFakeIPRange := nw_TUNFakeIPRange config |}.

(** The TUN factory: the configuration of [newTUNService]; the product of durations wraps. *)
Definition tun_config (config : NetworkConfig) : TunConfig :=
  {| tn_Name := nw_TUNName config; tn_Address := nw_TUNAddress config; tn_MTU := nw_TUNMTU config;
     tn_AutoRoute := nw_TUNAutoRoute config; tn_Stack := nw_TUNStack config;
     tn_UDPTimeout := i64 (nw_TUNUDPTimeoutSeconds config * Second);
     tn_UDPMaxFlows := nw_TUNUDPMaxFlows config; tn_DNSHijack := nw_TUNDNSHijack config;
     tn_FakeIP := nw_TUNFakeIP config; tn_FakeIPRange := nw_TUNFakeIPRange config |}.

(** The SOCKS5 factory: the credentials of the service, as [NewSocks5Service] uses them. *)
Definition socks_credentials (config : NetworkConfig) : option (string * string) :=
  socks_auth (nw_SOCKSUsername config) (nw_SOCKSPassword config).

(** ** Lemmas *)

Lemma i64_id z : minInt <= z <= maxInt -> i64 z = z.
Proof. unfold i64, minInt, maxInt. intros Hz. rewrite Z.mod_small; lia. Qed.

Lemma seconds_of_duration d :
  0 < d <= maxInt -> i64 (d ÷ Second * Second) = d ÷ Second * Second /\ 0 <= d ÷ Second * Second <= d.
Proof.
  intros Hd. assert (0 <= d ÷ Second * Second <= d) as Hb.
  { rewrite Z.quot_div_nonneg by (unfold Second; lia).
    pose proof (Z.mul_div_le d Second ltac:(unfold Second; lia)).
    pose proof (Z.div_pos d Second ltac:(lia) ltac:(unfold Second; lia)). unfold Second in *. lia. }
  split; [apply i64_id|done]. unfold minInt, maxInt in *. lia.
Qed.

(** What the checks of [Validate] leave, as they are written. *)
Lemma validate_facts range_fields range_hosts c :
  Validate range_fields range_hosts c = None ->
  let io := routing_InternetOutbound (d_Routing c) in
  let socks := d_SOCKS5 c in
  valid_auth_type (at_AuthType (d_ATrust c)) = true /\
  RoutingMode_Valid (routing_Mode (d_Routing c)) = true /\
  InternetOutboundType_Valid (io_Type io) = true /\
  (io_Type io = InternetOutboundSOCKS5 -> is_empty (io_Address io) = false) /\
  (socks_Enabled socks = true -> is_empty (socks_Listen socks) = false /\
     is_empty (socks_Username socks) = is_empty (socks_Password socks)) /\
  (http_Enabled (d_HTTP c) = true -> is_empty (http_Listen (d_HTTP c)) = false) /\
  check_hosts (range_hosts (default ∅ (dns_Hosts (d_DNS c)))) = None /\
  validate_tun (d_TUN c) = None.
Proof.
  intros H. unfold Validate in H. cbv zeta in H. repeat guard_none H.
  unfold validate_inbounds in H. cbv zeta in H. repeat guard_none H.
  repeat match goal with G : check_lengths _ _ = None |- _ => clear G end.
  cbv zeta. bool_hyps. split_and!; try done.
  - intros Hs. rewrite bool_decide_eq_true_2 in * by done. done.
  - intros Hs. rewrite Hs in *. cbn [andb] in *. split; [done|]. bool_hyps. by apply Bool.eqb_prop.
  - intros Hs. by rewrite Hs in *.
Qed.

Lemma set_hosts_valid set hosts :
  check_hosts hosts = None -> (forall h a, set h a = None) -> set_hosts set hosts = None.
Proof.
  intros Hc Hs. induction hosts as [|[h a] hosts IH]; [done|]. cbn in Hc |- *.
  destruct (_ || _); [done|]. destruct (is_empty h); [done|]. destruct (ParseIP a); [|done].
  cbn in Hc |- *. rewrite Hs. by apply IH.
Qed.

(** Building the TUN service fails only for want of a DNS address or of a range of fake ones. *)
Lemma newTUNService_ok config prefix :
  let full := complete_config config in
  ParsePrefix (tn_Address full) = Some prefix -> (tn_DNSHijack full = true -> tn_AutoRoute config = true) ->
  ((exists parts, newTUNService config = Ok parts) <->
     (tn_DNSHijack full = true -> exists a, tunDNSServerAddress prefix = Ok a) /\
     (tn_FakeIP config = true -> exists s, newFakeIPStore (tn_FakeIPRange full) = Ok s)) /\
  (forall parts, newTUNService config = Ok parts -> tp_config parts = full).
Proof.
  intros full Hp Hauto. unfold newTUNService. fold full.
  change (tn_FakeIP full) with (tn_FakeIP config). change (tn_AutoRoute full) with (tn_AutoRoute config).
  assert (tn_FakeIP config = true -> tn_DNSHijack full = true) as Hfh.
  { intros Hf. unfold full. cbn [complete_config tn_DNSHijack]. rewrite Hf. apply orb_true_r. }
  destruct (tn_FakeIP config && negb (tn_AutoRoute config)) eqn:E.
  { apply andb_true_iff in E as [Ef En]. rewrite (Hauto (Hfh Ef)) in En. done. }
  rewrite Hp. clear E Hp. destruct (tn_DNSHijack full) eqn:Hh.
  - rewrite (Hauto eq_refl). cbn [negb].
    destruct (tunDNSServerAddress prefix) as [a|e] eqn:Ht; cbn.
    + destruct (tn_FakeIP config) eqn:Hf; cbn.
      * destruct (newFakeIPStore _) as [s|e] eqn:Hs; cbn; (split; [|by intros parts [= <-]]); split.
        -- intros _. split; intros _; by eexists.
        -- intros _. by eexists.
        -- by intros [].
        -- intros [_ Hx]. by destruct (Hx eq_refl).
      * split; [|by intros parts [= <-]]. split; [|intros _; by eexists]. intros _. split; [|done]. by exists a.
    + split; [|done]. split; [by intros []|]. intros [Hx _]. by destruct (Hx eq_refl).
  - destruct (tn_FakeIP config) eqn:Hf; [by specialize (Hfh eq_refl)|]. cbn.
    split; [|by intros parts [= <-]]. split; [|intros _; by eexists]. intros _. by split.
Qed.

Lemma newFakeIPStore_ok text prefix :
  ParsePrefix text = Some prefix -> Is4 (pfx_addr prefix) = true ->
  ((exists s, newFakeIPStore text = Ok s) <-> 8 <= pfx_bits prefix <= 30).
Proof.
  intros Hp H4. unfold newFakeIPStore. rewrite Hp. cbv zeta.
  assert (Is4 (pfx_addr (Masked prefix)) = true) as Hm by (unfold Masked; by destruct (pfx_addr prefix)).
  rewrite Hm. change (pfx_bits (Masked prefix)) with (pfx_bits prefix). cbn [negb orb].
  repeat case_bool_decide; cbn [orb]; (split; [intros Hx; try lia; by destruct Hx|]);
    intros Hx; try lia; by eexists.
Qed.

(** ** From the daemon to the components *)

(** The configurations that the components get when the daemon starts a session. *)
Definition daemon_session (c : DConfig) : RuntimeConfig := newATrustSession (toCoreConfig c).
Definition daemon_network (c : DConfig) : NetworkConfig := network_config (daemon_session c).

Definition service_types (config : NetConfig) (answers : string -> InboundFactory) : list string :=
  map if_Type (List.filter if_Enabled (defaultInboundFactories config answers)).

Lemma daemon_tun_config c :
  let tun := d_TUN c in
  tun_Enabled tun = true ->
  tun_config (daemon_network c) =
  {| tn_Name := tun_Name tun; tn_Address := tun_Address tun; tn_MTU := tun_MTU tun;
     tn_AutoRoute := tun_AutoRoute tun; tn_Stack := ""; tn_UDPTimeout := i64 (tun_UDPIdleTimeout tun ÷ Second * Second);
     tn_UDPMaxFlows := tun_UDPMaxFlows tun; tn_DNSHijack := tun_DNSHijack tun; tn_FakeIP := tun_DNSFakeIP tun;
     tn_FakeIPRange := tun_DNSFakeIPRange tun |}.
Proof.
  intros tun Ht.
  transitivity (let cc := toCoreConfig c in
    {| tn_Name := cc_TUNName cc; tn_Address := cc_TUNAddress cc; tn_MTU := cc_TUNMTU cc;
       tn_AutoRoute := cc_TUNAutoRoute cc; tn_Stack := ""; tn_UDPTimeout := i64 (cc_TUNUDPTimeoutSeconds cc * Second);
       tn_UDPMaxFlows := cc_TUNUDPMaxFlows cc; tn_DNSHijack := cc_TUNDNSHijack cc;
       tn_FakeIP := cc_TUNFakeIP cc; tn_FakeIPRange := cc_TUNFakeIPRange cc |}); [reflexivity|].
  cbv zeta. cbn [toCoreConfig cc_TUNName cc_TUNAddress cc_TUNMTU cc_TUNAutoRoute cc_TUNUDPTimeoutSeconds
    cc_TUNUDPMaxFlows cc_TUNDNSHijack cc_TUNFakeIP cc_TUNFakeIPRange]. fold tun. by rewrite Ht.
Qed.

(** The configuration of a TUN service that is switched on, after its defaults. *)
Lemma tun_config_made c :
  let tun := d_TUN c in
  let full := complete_config (tun_config (daemon_network c)) in
  tun_Enabled tun = true -> validate_tun tun = None -> tun_UDPIdleTimeout tun <= maxInt ->
  tn_Address full = tun_Address tun /\ tn_MTU full = tun_MTU tun /\ tn_UDPMaxFlows full = tun_UDPMaxFlows tun /\
  tn_DNSHijack full = tun_DNSHijack tun || tun_DNSFakeIP tun /\
  tn_UDPTimeout full = (if bool_decide (tun_UDPIdleTimeout tun < Second) then defaultTUNUDPTimeout
                        else tun_UDPIdleTimeout tun ÷ Second * Second) /\
  tn_AutoRoute full = tun_AutoRoute tun /\ tn_FakeIP full = tun_DNSFakeIP tun /\
  (tun_DNSFakeIP tun = true -> tn_FakeIPRange full = tun_DNSFakeIPRange tun).
Proof.
  intros tun full Ht Hv Hmax. destruct (validate_tun_none _ Hv Ht) as (Ha & Hm & Hu & Hf & _ & Hfake).
  unfold full. rewrite (daemon_tun_config c Ht). fold tun.
  destruct (seconds_of_duration _ (conj Hu Hmax)) as [Hi Hb]. rewrite Hi. unfold complete_config.
  cbn [tn_Name tn_Address tn_MTU tn_AutoRoute tn_Stack tn_UDPTimeout tn_UDPMaxFlows tn_DNSHijack tn_FakeIP
       tn_FakeIPRange].
  split_and!; [| | |done| |done|done|].
  - destruct (is_empty (tun_Address tun)) eqn:E; [|done]. apply is_empty_true in E. rewrite E in Ha. by destruct Ha.
  - by rewrite bool_decide_eq_false_2.
  - rewrite bool_decide_eq_false_2 by lia. done.
  - rewrite (bool_decide_ext _ (tun_UDPIdleTimeout tun < Second)); [done|].
    rewrite Z.quot_div_nonneg by (unfold Second; lia). unfold Second.
    assert (1000000000 <= tun_UDPIdleTimeout tun -> 0 < tun_UDPIdleTimeout tun `div` 1000000000) as Hs
      by (intros; apply Z.div_str_pos; lia).
    split; intros; [lia|]. rewrite Z.div_small; lia.
  - intros Hd. rewrite Hd. destruct (Hfake Hd) as (_ & q & Hq & _). cbn.
    destruct (is_empty (tun_DNSFakeIPRange tun)) eqn:E; [|done]. apply is_empty_true in E. by rewrite E in Hq.
Qed.

(** What the constructor of a TUN service that is switched on does with it. *)
Lemma tun_service_made c :
  let tun := d_TUN c in
  let config := tun_config (daemon_network c) in
  let hijack := tun_DNSHijack tun || tun_DNSFakeIP tun in
  tun_Enabled tun = true -> validate_tun tun = None -> tun_UDPIdleTimeout tun <= maxInt ->
  (forall parts, newTUNService config = Ok parts -> tp_config parts = complete_config config) /\
  exists prefix, ParsePrefix (tun_Address tun) = Some prefix /\
    ((exists parts, newTUNService config = Ok parts) <->
       (hijack = true -> exists a, tunDNSServerAddress prefix = Ok a) /\
       (tun_DNSFakeIP tun = true -> exists fakes, ParsePrefix (tun_DNSFakeIPRange tun) = Some fakes /\
          8 <= pfx_bits fakes <= 30)).
Proof.
  cbv zeta. intros Ht Hv Hmax.
  destruct (tun_config_made c Ht Hv Hmax) as (HA & _ & _ & HH & _ & HR & HF & HG).
  destruct (validate_tun_none _ Hv Ht) as ([prefix Hp] & _ & _ & _ & Hj & Hfake).
  set (config := tun_config (daemon_network c)) in *. cbv zeta in HA, HH, HR, HF, HG.
  destruct (newTUNService_ok config prefix) as [Hiff Hparts].
  - by rewrite HA.
  - rewrite HH. change (tn_AutoRoute config) with (tn_AutoRoute (complete_config config)). rewrite HR.
    intros [H|H]%orb_true_iff; [by apply Hj|]. by apply Hfake in H as [? _].
  - split; [exact Hparts|]. exists prefix. split; [done|]. rewrite Hiff, HH.
    change (tn_FakeIP config) with (tn_FakeIP (complete_config config)). rewrite HF.
    split; intros [H1 H2]; (split; [exact H1|]); intros Hd; destruct (Hfake Hd) as (_ & q & Hq & H4); specialize (H2 Hd);
      rewrite (HG Hd) in *.
    + exists q. split; [done|]. by apply (newFakeIPStore_ok _ _ Hq H4).
    + apply (newFakeIPStore_ok _ _ Hq H4). destruct H2 as (q' & Hq' & Hb). rewrite Hq in Hq'. by injection Hq' as <-.
Qed.

Lemma daemon_network_fields c :
  let network := daemon_network c in
  nw_InternetOutbound network = routing_InternetOutbound (d_Routing c) /\
  nw_RoutingMode network = routing_Mode (d_Routing c) /\
  nw_SOCKSUsername network = (if socks_Enabled (d_SOCKS5 c) then socks_Username (d_SOCKS5 c) else ""%string) /\
  nw_SOCKSPassword network = (if socks_Enabled (d_SOCKS5 c) then socks_Password (d_SOCKS5 c) else ""%string) /\
  nw_TUNFakeIPRange network = (if tun_Enabled (d_TUN c) then tun_DNSFakeIPRange (d_TUN c) else ""%string) /\
  nw_Hosts network = dns_Hosts (d_DNS c).
Proof. cbv zeta. split_and!; reflexivity. Qed.

Lemma valid_auth_type_method config :
  valid_auth_type (su_AuthType config) = true ->
  exists method, buildLoginMethod config = Ok method /\ (method = None <-> su_AuthType config = ""%string).
Proof.
  unfold valid_auth_type, buildLoginMethod. cbn. intros H.
  repeat case_bool_decide; cbn in H; try done;
    match goal with E : _ = su_AuthType config |- _ => rewrite <-E end;
    (eexists; split; [reflexivity|done]).
Qed.

Lemma valid_internet_outbound io :
  InternetOutboundType_Valid (io_Type io) = true ->
  (io_Type io = InternetOutboundSOCKS5 -> is_empty (io_Address io) = false) ->
  exists internet, NewInternetOutbound io = Ok internet.
Proof.
  unfold InternetOutboundType_Valid, NewInternetOutbound. intros Hv Ha.
  repeat case_bool_decide; try done; try (by eexists); try (rewrite Ha by done; by eexists).
  all: naive_solver.
Qed.

Lemma valid_mode_router {V I D} (vpn : V) (internet : I) (direct : D) mode :
  RoutingMode_Valid mode = true ->
  exists router, NewRouterWithDirect vpn internet direct mode = Ok router /\ router_mode router = mode.
Proof.
  intros Hm. unfold NewRouterWithDirect. destruct (is_empty mode) eqn:E.
  - apply is_empty_true in E. by rewrite E in Hm.
  - cbv zeta. rewrite Hm. by eexists.
Qed.

Lemma daemon_services range_hosts c answers :
  let socks := d_SOCKS5 c in
  (socks_Enabled socks = true -> is_empty (socks_Listen socks) = false /\
     is_empty (socks_Username socks) = is_empty (socks_Password socks)) ->
  (http_Enabled (d_HTTP c) = true -> is_empty (http_Listen (d_HTTP c)) = false) ->
  service_types (net_part range_hosts (daemon_network c)) answers =
     (if is_empty (dns_Listen (d_DNS c)) then [] else [ServiceTypeDNS]) ++
     (if tun_Enabled (d_TUN c) then [ServiceTypeTUN] else []) ++
     (if socks_Enabled socks then [ServiceTypeSOCKS5] else []) ++
     (if http_Enabled (d_HTTP c) then [ServiceTypeHTTP] else []).
Proof.
  cbv zeta. intros Hs Hh.
  transitivity (let pick (b : bool) (t : string) := if b then [t] else [] in
    pick (negb (is_empty (dns_Listen (d_DNS c)))) ServiceTypeDNS ++
    pick (tun_Enabled (d_TUN c)) ServiceTypeTUN ++
    pick (negb (is_empty (if socks_Enabled (d_SOCKS5 c) then socks_Listen (d_SOCKS5 c) else ""%string)))
      ServiceTypeSOCKS5 ++
    pick (negb (is_empty (if http_Enabled (d_HTTP c) then http_Listen (d_HTTP c) else ""%string)))
      ServiceTypeHTTP).
  - unfold service_types, defaultInboundFactories. cbv zeta. cbn [List.filter if_Enabled].
    change (nc_DNSBind (net_part range_hosts (daemon_network c))) with (dns_Listen (d_DNS c)).
    change (nc_TUNEnabled (net_part range_hosts (daemon_network c))) with (tun_Enabled (d_TUN c)).
    change (nc_SOCKSBind (net_part range_hosts (daemon_network c))) with
      (if socks_Enabled (d_SOCKS5 c) then socks_Listen (d_SOCKS5 c) else ""%string).
    change (nc_HTTPBind (net_part range_hosts (daemon_network c))) with
      (if http_Enabled (d_HTTP c) then http_Listen (d_HTTP c) else ""%string).
    by destruct (negb (is_empty (dns_Listen _))), (tun_Enabled _), (negb (is_empty (if socks_Enabled _ then _ else _))),
      (negb (is_empty (if http_Enabled _ then _ else _))).
  - cbv zeta. destruct (socks_Enabled _); [rewrite (proj1 (Hs eq_refl))|];
      (destruct (http_Enabled _); [rewrite (Hh eq_refl)|]); by destruct (is_empty (dns_Listen _)).
Qed.

Lemma daemon_underlay c :
  tun_Enabled (d_TUN c) = true -> tun_AutoRoute (d_TUN c) = true -> tun_RouteAll (d_TUN c) = true ->
  op_InterfaceName (dialer_options (daemon_session c)) <> ""%string \/
  op_AutoDetect (dialer_options (daemon_session c)) = true.
Proof.
  intros Ht Ha Hr. destruct (is_empty (under_Interface (d_Underlay c))) eqn:E; [right|left; by apply is_empty_false].
  change (ri_AutoDetectInterface (toRuntimeConfig_interfaces (toCoreConfig c)) = true).
  unfold toRuntimeConfig_interfaces. cbn [ri_AutoDetectInterface toCoreConfig cc_TUNEnabled cc_TUNAutoRoute cc_TUNRouteAll cc_BindInterface].
  by rewrite Ht, Ha, Hr, E.
Qed.

(** C39: A configuration that passes the daemon's validation is one that the components accept, and
    they get what it says. For every order in which maps are walked: the login method exists, and
    there is none only without an auth type; the Internet outbound is built; the router takes the
    mode; static hosts are refused only by the resolver itself. Exactly the inbounds that
    are switched on are started, in their order, and a SOCKS5 inbound with a user name asks for it and
    its password. The underlay is bound to the configured interface, and when the TUN takes all
    routes it is never left to the system's routes. The TUN gets its address, MTU and flow limit
    unchanged and a time-out in whole seconds or the default; it hijacks DNS whenever it fakes
    addresses, and then the range it fakes is the one that is routed. Only two things that its
    constructor asks for are not validated: an address for DNS in the TUN's network, and a fake
    range of 8 to 30 bits. *)
Theorem configuration_reaches_components range_fields range_hosts (c : DConfig) :
  tun_UDPIdleTimeout (d_TUN c) <= maxInt ->
  Validate range_fields range_hosts c = None ->
  let session := daemon_session c in
  let network := daemon_network c in
  let socks := d_SOCKS5 c in
  let tun := d_TUN c in
  let hijack := tun_DNSHijack tun || tun_DNSFakeIP tun in
  (exists method, buildLoginMethod (setup_config session) = Ok method /\
     (method = None <-> at_AuthType (d_ATrust c) = ""%string)) /\
  (exists internet, NewInternetOutbound (nw_InternetOutbound network) = Ok internet) /\
  (forall V I D (vpn : V) (internet : I) (direct : D), exists router,
     NewRouterWithDirect vpn internet direct (nw_RoutingMode network) = Ok router /\
     router_mode router = routing_Mode (d_Routing c)) /\
  (forall set, (forall h a, set h a = None) -> set_hosts set (nc_Hosts (net_part range_hosts network)) = None) /\
  (forall answers, service_types (net_part range_hosts network) answers =
     (if is_empty (dns_Listen (d_DNS c)) then [] else [ServiceTypeDNS]) ++
     (if tun_Enabled tun then [ServiceTypeTUN] else []) ++
     (if socks_Enabled socks then [ServiceTypeSOCKS5] else []) ++
     (if http_Enabled (d_HTTP c) then [ServiceTypeHTTP] else [])) /\
  (socks_Enabled socks = true -> socks_credentials network =
     if is_empty (socks_Username socks) then None else Some (socks_Username socks, socks_Password socks)) /\
  (op_InterfaceName (dialer_options session) = under_Interface (d_Underlay c) /\
   (tun_Enabled tun = true -> tun_AutoRoute tun = true -> tun_RouteAll tun = true ->
      op_InterfaceName (dialer_options session) <> ""%string \/ op_AutoDetect (dialer_options session) = true)) /\
  (tun_Enabled tun = true ->
     (forall parts, newTUNService (tun_config network) = Ok parts ->
        let made := tp_config parts in
        tn_Address made = tun_Address tun /\ tn_MTU made = tun_MTU tun /\
        tn_UDPMaxFlows made = tun_UDPMaxFlows tun /\ tn_DNSHijack made = hijack /\
        tn_UDPTimeout made = (if bool_decide (tun_UDPIdleTimeout tun < Second) then defaultTUNUDPTimeout
                              else tun_UDPIdleTimeout tun ÷ Second * Second) /\
        (tn_FakeIP made = true ->
           tn_FakeIPRange made = nc_TUNFakeIPRange (net_part range_hosts network))) /\
     exists prefix, ParsePrefix (tun_Address tun) = Some prefix /\
       ((exists parts, newTUNService (tun_config network) = Ok parts) <->
          (hijack = true -> exists a, tunDNSServerAddress prefix = Ok a) /\
          (tun_DNSFakeIP tun = true -> exists fakes, ParsePrefix (tun_DNSFakeIPRange tun) = Some fakes /\
             8 <= pfx_bits fakes <= 30))).
Proof.
  cbv zeta. intros Hmax Hv.
  destruct (validate_facts _ _ _ Hv) as (Hauth & Hmode & Hio & Hioa & Hsocks & Hhttp & Hhosts & Htun).
  destruct (daemon_network_fields c) as (Hn1 & Hn2 & Hn3 & Hn4 & Hn5 & Hn6).
  split_and!.
  - by apply valid_auth_type_method.
  - by apply valid_internet_outbound.
  - intros V I D vpn internet direct. rewrite Hn2. by apply valid_mode_router.
  - intros set. apply set_hosts_valid. exact Hhosts.
  - intros answers. by apply daemon_services.
  - intros Hs. rewrite Hs in *. unfold socks_credentials, socks_auth.
    rewrite Hn3, Hn4. destruct (Hsocks eq_refl) as [_ He]. rewrite <-He. by destruct (is_empty (socks_Username _)).
  - done.
  - intros Ht Ha Hr. by apply daemon_underlay.
  - intros Ht. destruct (tun_service_made c Ht Htun Hmax) as [Hmade Hex]. split; [|exact Hex].
    intros parts Hp. rewrite (Hmade _ Hp).
    destruct (tun_config_made c Ht Htun Hmax) as (HA & HM & HU & HH & HT & HR & HF & HG).
    split_and!; try done. intros Hf. rewrite HF in Hf. rewrite (HG Hf).
    change (tun_DNSFakeIPRange (d_TUN c) = nw_TUNFakeIPRange (daemon_network c)). by rewrite Hn5, Ht.
Qed.

(** The defaults with fake addresses: the range of eight to thirty bits and the DNS address exist. *)
Lemma demo_config_valid : Validate id map_to_list demo_config = None.
Proof. vm_compute. reflexivity. Qed.

Lemma configuration_reaches_components_witness :
  Validate id map_to_list demo_config = None /\
  (exists parts, newTUNService (tun_config (daemon_network demo_config)) = Ok parts /\
     tn_UDPTimeout (tp_config parts) = defaultTUNUDPTimeout) /\
  service_types (net_part map_to_list (daemon_network demo_config)) (fun t =>
    {| if_Type := t; if_Enabled := false; if_New := Ok (Some tt); if_Start := None; if_Close := None;
       if_Addr := "" |}) = [ServiceTypeTUN].
Proof.
  split; [exact demo_config_valid|].
  pose proof (configuration_reaches_components id map_to_list demo_config ltac:(by vm_compute) demo_config_valid) as H.
  cbv zeta in H. destruct H as (_ & _ & _ & _ & Hservices & _ & _ & Htun). split.
  - destruct (Htun eq_refl) as (Hmade & prefix & Hp & [_ Hok]). destruct Hok as [parts Hparts].
    + split.
      * intros _. vm_compute in Hp. injection Hp as <-. by eexists.
      * intros _. eexists. split; [vm_compute; reflexivity|]. cbn. lia.
    + exists parts. split; [exact Hparts|]. destruct (Hmade _ Hparts) as (_ & _ & _ & _ & Ht & _). exact Ht.
  - apply Hservices.
Defined.

(** Two configurations that pass validation and that the TUN service refuses: DNS over a network that
    has no second address, and a fake range of one address. *)
Definition with_tun (address range : string) : DConfig :=
  let c := demo_config in
  let t := d_TUN c in
  {| d_Version := d_Version c; d_Log := d_Log c; d_Control := d_Control c; d_Session := d_Session c;
     d_State := d_State c; d_ATrust := d_ATrust c; d_Underlay := d_Underlay c; d_Routing := d_Routing c;
     d_DNS := d_DNS c; d_SOCKS5 := d_SOCKS5 c; d_HTTP := d_HTTP c;
     d_TUN := {| tun_Enabled := true; tun_Name := tun_Name t; tun_Address := address; tun_MTU := tun_MTU t;
                 tun_AutoRoute := true; tun_RouteAll := false; tun_OutboundInterface := "";
                 tun_UDPIdleTimeout := tun_UDPIdleTimeout t; tun_UDPMaxFlows := tun_UDPMaxFlows t;
                 tun_DNSHijack := true; tun_DNSFakeIP := true; tun_DNSFakeIPRange := range |} |}.

Example valid_but_refused :
  let refused c := Validate id map_to_list c = None /\
                   exists e, newTUNService (tun_config (daemon_network c)) = Err e in
  refused (with_tun "172.19.0.1/32" "198.18.0.0/16") /\ refused (with_tun "fd00::1/64" "198.18.0.0/16") /\
  refused (with_tun "172.19.0.1/30" "198.18.0.0/32").
Proof. cbv zeta. split_and!; try (vm_compute; reflexivity); vm_compute; by eexists. Qed.

(** A session that is started by a client asks for fake addresses and names no range: the TUN service
    takes its default, and no route leads to it, since the backend takes the empty text for "no
    range". *)
Example empty_fake_range_is_not_routed cc :
  cc_TUNEnabled cc = true -> cc_TUNAutoRoute cc = true -> cc_TUNFakeIP cc = true ->
  cc_TUNFakeIPRange cc = ""%string ->
  let network := network_config (newATrustSession cc) in
  tn_FakeIPRange (complete_config (tun_config network)) = defaultTUNFakeIPRange /\
  nc_TUNFakeIPRange (net_part map_to_list network) = ""%string.
Proof.
  intros _ _ Hf Hr. cbv zeta. split; [|exact Hr].
  change ((if cc_TUNFakeIP cc && is_empty (cc_TUNFakeIPRange cc) then defaultTUNFakeIPRange
           else cc_TUNFakeIPRange cc) = defaultTUNFakeIPRange). by rewrite Hf, Hr.
Qed.
