(* ===== verification/Daemon.v ===== *)
(** The daemon (main.go): its flags, the order in which it reads its configuration and starts
    the log, the controller, the control transports and the session, how it takes them down, and
    the resume states it keeps in a file. *)

From S2P Require Import Prelude Core GoNet SystemDNS ResumeStore DaemonConfig ConfigFile ControlREST.

(** ** Options *)

Record daemonOptions : Type := {
  do_configPath : string;
  do_testConfig : bool;
  do_stdio : bool;
  do_rest : string;
  do_version : bool;
}.

Definition set_configPath (v : string) (o : daemonOptions) : daemonOptions :=
  {| do_configPath := v; do_testConfig := do_testConfig o; do_stdio := do_stdio o; do_rest := do_rest o;
     do_version := do_version o |}.
Definition set_testConfig (v : bool) (o : daemonOptions) : daemonOptions :=
  {| do_configPath := do_configPath o; do_testConfig := v; do_stdio := do_stdio o; do_rest := do_rest o;
     do_version := do_version o |}.
Definition set_stdio (v : bool) (o : daemonOptions) : daemonOptions :=
  {| do_configPath := do_configPath o; do_testConfig := do_testConfig o; do_stdio := v; do_rest := do_rest o;
     do_version := do_version o |}.
Definition set_rest (v : string) (o : daemonOptions) : daemonOptions :=
  {| do_configPath := do_configPath o; do_testConfig := do_testConfig o; do_stdio := do_stdio o; do_rest := v;
     do_version := do_version o |}.
Definition set_version (v : bool) (o : daemonOptions) : daemonOptions :=
  {| do_configPath := do_configPath o; do_testConfig := do_testConfig o; do_stdio := do_stdio o;
     do_rest := do_rest o; do_version := v |}.

(** *** Package flag, as far as it is used *)

Inductive FlagValue : Type :=
| StringVar (set : string -> daemonOptions -> daemonOptions)
| BoolVar (set : bool -> daemonOptions -> daemonOptions).

(** [strconv.ParseBool]. *)
Definition ParseBool (s : string) : option bool :=
  if bool_decide (s ∈ ["1"; "t"; "T"; "true"; "TRUE"; "True"]%string) then Some true
  else if bool_decide (s ∈ ["0"; "f"; "F"; "false"; "FALSE"; "False"]%string) then Some false
  else None.

Definition ErrHelp : error := EVar "flag.ErrHelp" "flag: help requested".

Section Flags.
Variable formal : list (string * FlagValue).

Fixpoint find_flag (name : string) (l : list (string * FlagValue)) : option FlagValue :=
  match l with
  | [] => None
  | (n, v) :: l => if bool_decide (n = name) then Some v else find_flag name l
  end.

(** What an argument is: not a flag, [--], a flag that is badly written, or a name with the value
    behind its equals sign. *)
Inductive FlagArgument : Type :=
| NoFlag
| EndOfFlags
| BadFlag
| NamedFlag (name : string) (value : option string).

Definition flag_argument (s : string) : FlagArgument :=
  match chars s with
  | "-"%char :: l =>
      match l with
      | [] => NoFlag
      | ["-"%char] => EndOfFlags
      | _ =>
          let name := match l with "-"%char :: l => l | _ => l end in
          match name with
          | "-"%char :: _ | "="%char :: _ => BadFlag
          | _ =>
              match split_first "="%char name with
              | Some (name, value) => NamedFlag (of_chars name) (Some (of_chars value))
              | None => NamedFlag (of_chars name) None
              end
          end
      end
  | _ => NoFlag
  end.

(** [flags.Parse], with the arguments that are left. *)
Fixpoint flags_Parse (args : list string) (o : daemonOptions) : result error (daemonOptions * list string) :=
  match args with
  | [] => Ok (o, [])
  | s :: rest =>
      match flag_argument s with
      | NoFlag => Ok (o, args)
      | EndOfFlags => Ok (o, rest)
      | BadFlag => Err (EText ("bad flag syntax: " +:+ s))
      | NamedFlag name value =>
          match find_flag name formal with
          | None =>
              if bool_decide (name = "help"%string) || bool_decide (name = "h"%string) then Err ErrHelp
              else Err (EText ("flag provided but not defined: -" +:+ name))
          | Some (BoolVar set) =>
              match value with
              | None => flags_Parse rest (set true o)
              | Some v =>
                  match ParseBool v with
                  | Some b => flags_Parse rest (set b o)
                  | None => Err (EText ("invalid boolean value " +:+ quote v +:+ " for -" +:+ name +:+ ": parse error"))
                  end
              end
          | Some (StringVar set) =>
              match value, rest with
              | Some v, _ => flags_Parse rest (set v o)
              | None, v :: rest => flags_Parse rest (set v o)
              | None, [] => Err (EText ("flag needs an argument: -" +:+ name))
              end
          end
      end
  end.
End Flags.

(** [strings.Join(l, " ")]. *)
Definition join_spaces (l : list string) : string := of_chars (join_with [" "%char] (map chars l)).

Definition daemon_flags : list (string * FlagValue) := [
  ("f", StringVar set_configPath); ("config", StringVar set_configPath);
  ("t", BoolVar set_testConfig); ("test-config", BoolVar set_testConfig);
  ("stdio", BoolVar set_stdio); ("rest", StringVar set_rest); ("version", BoolVar set_version)]%string.

Definition no_options : daemonOptions :=
  {| do_configPath := ""; do_testConfig := false; do_stdio := false; do_rest := ""; do_version := false |}.

Definition parseDaemonOptions (args : list string) : result error daemonOptions :=
  match flags_Parse daemon_flags args no_options with
  | Err err => Err err
  | Ok (options, rest) =>
      if negb (is_nil rest) then Err (EText ("unexpected arguments: " +:+ join_spaces rest)) else Ok options
  end.

(** ** The daemon's surroundings *)

(** [dw_Addr] is the address that a listener really has, [dw_runEnd] what ends the daemon: the
    context, or what came first from a control transport. *)
Record DaemonWorld : Type := {
  dw_ReadFile : string -> result error string;
  dw_OpenLog : string -> option error;
  dw_Load : string -> result error (option ResumeState);
  dw_Listen : string -> option error;
  dw_Addr : string -> string;
  dw_rand : nat -> result error (list Z);
  dw_runEnd : option (option error);
  dw_Shutdown : option error;
  dw_CloseService : option error;
}.

(** What the daemon does, in its order. [ServeREST], [ServeStdio], [Persist] and [Initialize] are
    the starts of goroutines; [ShutdownREST] and [CloseService] have what [Shutdown] and [Close] answered within the
    five seconds that they are given. *)
Inductive DaemonEffect : Type :=
| Stdout (line : string)
| Stderr (line : string)
| OpenLog (path : string)
| SetLog (output : string) (debug : bool)
| LogLine (line : string)
| CloseLog
| NewController
| InitialResume (state : option ResumeState)
| NewControl
| Persist (path : string)
| Listen (address : string)
| CloseListener (address : string)
| ServeREST (address token : string)
| ServeStdio
| InitializeConfig (config : DConfig)
| ShutdownREST (res : option error)
| CloseService (res : option error).

(** [da_restServer]: the variable [restServer] is not nil. *)
Record DaemonState : Type := { da_restServer : bool; da_effects : list DaemonEffect }.

Definition daemon_start : DaemonState := {| da_restServer := false; da_effects := [] |}.

Section Daemon.
Variable dw : DaemonWorld.
Variable yaml_Decode : DConfig -> string -> result error DConfig.
Variable validate : DConfig -> option error.
Variable CommitID : string.

#[local] Abbreviation Daemon := (StateError DaemonState).

Definition effect (e : DaemonEffect) : Daemon unit := fun s =>
  (Ok tt, {| da_restServer := da_restServer s; da_effects := da_effects s ++ [e] |}).

Definition set_restServer (b : bool) : Daemon unit := fun s =>
  (Ok tt, {| da_restServer := b; da_effects := da_effects s |}).

Definition coreVersionNumber : string := "v0.1.0-alpha.5".

Definition coreVersion : string :=
  if is_empty CommitID then coreVersionNumber else coreVersionNumber +:+ "-" +:+ CommitID.

(** ** The configuration of a run *)

Definition with_control (stdio : bool) (rest : RESTConfig) (c : DConfig) : DConfig :=
  {| d_Version := d_Version c; d_Log := d_Log c;
     d_Control := {| stdio_Enabled := stdio; control_REST := rest |};
     d_Session := d_Session c; d_State := d_State c; d_ATrust := d_ATrust c; d_Underlay := d_Underlay c;
     d_Routing := d_Routing c; d_DNS := d_DNS c; d_SOCKS5 := d_SOCKS5 c; d_HTTP := d_HTTP c; d_TUN := d_TUN c |}.

(** [config.Session.AutoStart = false]. *)
Definition without_auto_start (c : DConfig) : DConfig :=
  {| d_Version := d_Version c; d_Log := d_Log c; d_Control := d_Control c;
     d_Session := {| session_ID := session_ID (d_Session c); session_AutoStart := false;
                     session_AutoReconnect := session_AutoReconnect (d_Session c) |};
     d_State := d_State c; d_ATrust := d_ATrust c; d_Underlay := d_Underlay c;
     d_Routing := d_Routing c; d_DNS := d_DNS c; d_SOCKS5 := d_SOCKS5 c; d_HTTP := d_HTTP c; d_TUN := d_TUN c |}.

(** The flags that override the file. *)
Definition override (options : daemonOptions) (c : DConfig) : DConfig :=
  let control := d_Control c in
  let rest := control_REST control in
  with_control (do_stdio options || stdio_Enabled control)
    (if is_empty (do_rest options) then rest
     else {| rest_Enabled := true; rest_Listen := do_rest options; rest_Secret := rest_Secret rest;
             rest_SecretFile := rest_SecretFile rest |}) c.

Definition daemon_config (options : daemonOptions) : result error DConfig :=
  let? config := (if is_empty (do_configPath options) then Ok (without_auto_start Default)
                  else load_config yaml_Decode (dw_ReadFile dw) validate (do_configPath options)) in
  let config := override options config in
  guard? validate config in Ok config.

(** ** Starting *)

(** [configureLog]: whether there is a file to close. *)
Definition configureLog (c : LogConfig) : Daemon bool :=
  let to_file := negb (is_empty (log_Output c)) && negb (bool_decide (log_Output c = "stderr"%string)) in
  let set_log := effect (SetLog (if to_file then log_Output c else "stderr"%string)
                           (bool_decide (log_Level c = "debug"%string))) in
  if to_file then
    match dw_OpenLog dw (log_Output c) with
    | Some err => fail (EWrap ("open log output: " +:+ error_text err) err)
    | None => _ ← effect (OpenLog (log_Output c)); _ ← set_log; mret true
    end
  else _ ← set_log; mret false.

Definition restSecret (c : RESTConfig) : result error string :=
  if is_empty (rest_SecretFile c) then Ok (rest_Secret c)
  else match dw_ReadFile dw (rest_SecretFile c) with
  | Err err => Err (EWrap ("read REST secret file: " +:+ error_text err) err)
  | Ok data => Ok (TrimSpace data)
  end.

(** [hex.EncodeToString]. *)
Definition EncodeToString (data : list Z) : string :=
  of_chars (concat (map (fun b => [GoNet.hex_digit (b / 16); GoNet.hex_digit (b mod 16)]) data)).

(** [_ = listener.Close(); return nil, err] on an error. *)
Definition or_close_listener {A} (address : string) (r : result error A) : Daemon A :=
  match r with
  | Ok a => mret a
  | Err err => _ ← effect (CloseListener address); fail err
  end.

Definition startRESTServer (c : RESTConfig) : Daemon unit :=
  match dw_Listen dw (rest_Listen c) with
  | Some err => fail (EWrap ("listen REST control on " +:+ rest_Listen c +:+ ": " +:+ error_text err) err)
  | None =>
      _ ← effect (Listen (rest_Listen c));
      secret ← or_close_listener (rest_Listen c) (restSecret c);
      token ← (if is_empty secret then
                 data ← or_close_listener (rest_Listen c) (dw_rand dw 32);
                 _ ← effect (Stderr ("REST control token: " +:+ EncodeToString data));
                 mret (EncodeToString data)
               else mret secret);
      _ ← effect (ServeREST (rest_Listen c) token);
      effect (Stderr ("REST control listening on http://" +:+ dw_Addr dw (rest_Listen c) +:+ APIBasePath))
  end.

(** [shutdownControl]: the REST server and the service are taken down at the same time; it waits for the answers of
    both. *)
Definition shutdownControl (s : DaemonState) : option error * DaemonState :=
  let restErr := match dw_Shutdown dw with
                 | Some err => if errors_Is err "http.ErrServerClosed" then None else Some err
                 | None => None
                 end in
  let s := if da_restServer s then (effect (ShutdownREST (dw_Shutdown dw)) s).2 else s in
  (errors_Join [if da_restServer s then restErr else None; dw_CloseService dw], (effect (CloseService (dw_CloseService dw)) s).2).

(** [defer func() { returnErr = errors.Join(returnErr, shutdownControl(...)) }()]. *)
Definition with_shutdown (m : Daemon unit) : Daemon unit := fun s =>
  let '(r, s) := m s in
  let '(err, s) := shutdownControl s in
  (match errors_Join [match r with Err e => Some e | Ok _ => None end; err] with
   | Some e => Err e
   | None => Ok tt
   end, s).

(** [defer logCloser.Close()]. *)
Definition closing_log (closer : bool) (m : Daemon unit) : Daemon unit := fun s =>
  ((m s).1, if closer then (effect CloseLog (m s).2).2 else (m s).2).

Definition with_log (c : LogConfig) (m : Daemon unit) : Daemon unit :=
  closer ← configureLog c; closing_log closer m.

Fixpoint log_warnings (warnings : list string) : Daemon unit :=
  match warnings with
  | [] => mret tt
  | warning :: rest => _ ← effect (LogLine ("Security warning: " +:+ warning)); log_warnings rest
  end.

Definition load_initial (c : StateConfig) : Daemon unit :=
  if is_empty (state_ResumeFile c) then mret tt
  else
    resumeState ← lift (dw_Load dw (state_ResumeFile c));
    effect (InitialResume resumeState).

(** The transports and the session, and the end of the run. *)
Definition serve (config : DConfig) : Daemon unit :=
  let control := d_Control config in
  _ ← (if is_empty (state_ResumeFile (d_State config)) then mret tt
       else effect (Persist (state_ResumeFile (d_State config))));
  _ ← (if rest_Enabled (control_REST control)
       then _ ← startRESTServer (control_REST control); set_restServer true else mret tt);
  _ ← (if stdio_Enabled control then effect ServeStdio else mret tt);
  _ ← effect (InitializeConfig config);
  match dw_runEnd dw with
  | Some (Some runErr) => if errors_Is runErr "context.Canceled" then mret tt else fail runErr
  | _ => mret tt
  end.

Definition run_config (config : DConfig) : Daemon unit :=
  with_log (d_Log config)
    (_ ← log_warnings (SecurityWarnings config);
     _ ← effect NewController;
     _ ← load_initial (d_State config);
     _ ← effect NewControl;
     with_shutdown (serve config)).

Definition run_options (options : daemonOptions) : Daemon unit :=
  if do_version options then effect (Stdout coreVersion)
  else
  config ← lift (daemon_config options);
  if do_testConfig options then
    if is_empty (do_configPath options) then fail (EText "--test-config requires --config")
    else effect (Stdout "configuration is valid")
  else if negb (session_AutoStart (d_Session config)) && negb (stdio_Enabled (d_Control config))
          && negb (rest_Enabled (control_REST (d_Control config))) then
    fail (EText "no session or control transport is enabled")
  else run_config config.

Definition runDaemon (args : list string) : Daemon unit :=
  match parseDaemonOptions args with
  | Err err => if errors_Is err "flag.ErrHelp" then mret tt else fail err
  | Ok options => run_options options
  end.
End Daemon.

(** ** What the daemon holds

    The log file, the control service with its controller and manager, the listener and the REST
    server on it. What could not be taken down is still held. [held_after] is the protocol of the effects: [None] is
    an effect out of order. *)

Inductive Holding : Type :=
| Down
| Up
| NotDown (err : error).

Record DaemonHeld : Type := { he_log : bool; he_service : Holding; he_listener : option string; he_serving : Holding }.

Definition nothing_held : DaemonHeld :=
  {| he_log := false; he_service := Down; he_listener := None; he_serving := Down |}.

(** Nobody has tried, or no longer has to try, to take it down. *)
Definition tried (h : Holding) : bool := match h with Up => false | _ => true end.

Definition held_after (e : DaemonEffect) (h : DaemonHeld) : option DaemonHeld :=
  let held log service listener serving :=
    Some {| he_log := log; he_service := service; he_listener := listener; he_serving := serving |} in
  match e, h with
  | Stdout _, _ | Stderr _, _ | LogLine _, _ => Some h
  | OpenLog _, Build_DaemonHeld false Down None Down => held true Down None Down
  | SetLog _ _, Build_DaemonHeld _ Down None Down => Some h
  | (NewController | InitialResume _), Build_DaemonHeld _ Down None Down => Some h
  | NewControl, Build_DaemonHeld log Down None Down => held log Up None Down
  | (Persist _ | ServeStdio | InitializeConfig _), Build_DaemonHeld _ Up _ _ => Some h
  | Listen a, Build_DaemonHeld log Up None Down => held log Up (Some a) Down
  | CloseListener a, Build_DaemonHeld log Up (Some b) Down =>
      if bool_decide (a = b) then held log Up None Down else None
  | ServeREST a _, Build_DaemonHeld log Up (Some b) Down =>
      if bool_decide (a = b) then held log Up (Some b) Up else None
  | ShutdownREST None, Build_DaemonHeld log Up (Some _) Up => held log Up None Down
  | ShutdownREST (Some err), Build_DaemonHeld log Up (Some a) Up => held log Up (Some a) (NotDown err)
  | CloseService res, Build_DaemonHeld log Up listener serving =>
      match listener, serving with
      | Some _, NotDown _ | None, Down =>
          held log (match res with None => Down | Some err => NotDown err end) listener serving
      | _, _ => None
      end
  | CloseLog, Build_DaemonHeld true service listener serving =>
      if tried service && tried serving then held false service listener serving else None
  | _, _ => None
  end.

Fixpoint held_all (effects : list DaemonEffect) (h : DaemonHeld) : option DaemonHeld :=
  match effects with
  | [] => Some h
  | e :: effects => match held_after e h with Some h => held_all effects h | None => None end
  end.

Lemma held_all_app l1 l2 h :
  held_all (l1 ++ l2) h = match held_all l1 h with Some h => held_all l2 h | None => None end.
Proof. revert h. induction l1 as [|e l1 IH]; intros h; simpl; [done|]. by destruct (held_after e h). Qed.

Section DaemonSpec.
Context (dw : DaemonWorld) (yaml_Decode : DConfig -> string -> result error DConfig).
Context (validate : DConfig -> option error) (CommitID : string).
(** [rand.Read] fills its buffer or fails. *)
Hypothesis rand_reads : forall n data, dw_rand dw n = Ok data -> length data = n.
Context (config : DConfig).

#[local] Abbreviation Daemon := (StateError DaemonState).

(** What each effect of a run with [config] is like. *)
Definition effect_ok (e : DaemonEffect) : Prop :=
  match e with
  | ServeREST address token =>
      token <> ""%string /\ rest_Enabled (control_REST (d_Control config)) = true /\
      address = rest_Listen (control_REST (d_Control config))
  | InitializeConfig c => c = config
  | _ => True
  end.

#[local] Abbreviation safe := (safely da_effects effect_ok).

(** What is held, and the variable [restServer]. *)
Definition holds (h : DaemonHeld) (rest : bool) (s : DaemonState) : Prop :=
  held_all (da_effects s) nothing_held = Some h /\ da_restServer s = rest.

(** An effect, and one in front of a run. *)
Lemma effect_holds e h h' rest s :
  holds h rest s -> held_after e h = Some h' -> holds h' rest (effect e s).2.
Proof. intros [Hs Hr] Hh. split; [|exact Hr]. simpl. rewrite held_all_app, Hs. simpl. by rewrite Hh. Qed.

Lemma safe_effect e h h' rest :
  effect_ok e -> held_after e h = Some h' ->
  safe (holds h rest) (effect e) (fun r s => r = Ok tt /\ holds h' rest s).
Proof.
  intros He Hh s Hs. split; [exists [e]; by split; [|apply Forall_singleton]|].
  split; [done|by eapply effect_holds].
Qed.

Lemma safe_after {B} e h h' rest (m : Daemon B) (Q : result error B -> DaemonState -> Prop) :
  effect_ok e -> held_after e h = Some h' -> safe (holds h' rest) m Q ->
  safe (holds h rest) (_ ← effect e; m) Q.
Proof.
  intros He Hh Hm. eapply safely_bind; [by apply safe_effect| |by intros err s [? _]].
  intros []. eapply safely_weaken; [exact Hm|by intros s [_ Hs]|done].
Qed.

Lemma safe_last e h h' rest (Q : result error unit -> DaemonState -> Prop) :
  effect_ok e -> held_after e h = Some h' -> (forall s, holds h' rest s -> Q (Ok tt) s) ->
  safe (holds h rest) (effect e) Q.
Proof.
  intros He Hh HQ. apply (safely_weaken _ _ _ _ _ (safe_effect e h h' rest He Hh)); [done|].
  intros r s [-> Hs]. by apply HQ.
Qed.

Lemma safe_fail {A} err h rest (Q : result error A -> DaemonState -> Prop) :
  (forall s, holds h rest s -> Q (Err err) s) -> safe (holds h rest) (fail err) Q.
Proof. intros HQ. apply safely_quiet. intros s Hs. split; [done|by apply HQ]. Qed.

Definition service_held (log : bool) (listener : option string) (serving : Holding) : DaemonHeld :=
  {| he_log := log; he_service := Up; he_listener := listener; he_serving := serving |}.

(** The listener is closed when something for the server cannot be had. *)
Lemma safe_or_close_listener {A} log address (res : result error A) :
  safe (holds (service_held log (Some address) Down) false) (or_close_listener address res)
    (fun r s => r = res /\
       holds (service_held log (if is_ok res then Some address else None) Down) false s).
Proof.
  destruct res as [a|err]; simpl; [by apply safely_ret|].
  apply (safe_after _ _ (service_held log None Down)); [done|simpl; by rewrite bool_decide_eq_true_2|].
  by apply safe_fail.
Qed.

Lemma hex_not_empty data : (0 < length data)%nat -> EncodeToString data <> ""%string.
Proof. destruct data as [|b data]; simpl; [lia|discriminate]. Qed.

Definition up (log : bool) (s : DaemonState) : Prop :=
  holds (service_held log None Down) false s \/
  exists address, holds (service_held log (Some address) Up) true s.

Lemma safe_startRESTServer log :
  rest_Enabled (control_REST (d_Control config)) = true ->
  safe (holds (service_held log None Down) false) (startRESTServer dw (control_REST (d_Control config)))
    (fun r s => if is_ok r
       then holds (service_held log (Some (rest_Listen (control_REST (d_Control config)))) Up) false s
       else holds (service_held log None Down) false s).
Proof.
  intros Hen. set (c := control_REST (d_Control config)) in *. unfold startRESTServer.
  destruct (dw_Listen dw (rest_Listen c)); [by apply safe_fail|].
  apply (safe_after _ _ (service_held log (Some (rest_Listen c)) Down)); [done..|].
  eapply safely_bind; [apply safe_or_close_listener|intros secret|by intros err s [<- Hs]].
  apply (safely_pre (holds (service_held log (Some (rest_Listen c)) Down) false)); [by intros s [<- Hs]|].
  eapply safely_bind with (Q := fun r s => match r with
    | Ok token => token <> ""%string /\ holds (service_held log (Some (rest_Listen c)) Down) false s
    | Err _ => holds (service_held log None Down) false s end).
  - destruct (is_empty secret) eqn:He.
    + eapply safely_bind; [apply safe_or_close_listener|intros data|by intros err s [<- Hs]].
      apply safely_pure. intros Hr. rewrite <-Hr. apply (safe_after _ _ (service_held log (Some (rest_Listen c)) Down)); [done..|].
      apply safely_ret. intros s Hs. split; [|done]. apply hex_not_empty.
      rewrite (rand_reads 32 data) by done. lia.
    + apply safely_ret. intros s Hs. split; [|done]. by apply bool_decide_eq_false in He.
  - intros token. apply safely_pure. intros Htoken. apply (safe_after _ _ (service_held log (Some (rest_Listen c)) Up)); [done|simpl; by rewrite bool_decide_eq_true_2|].
    by eapply safe_last.
  - by intros err s Hs.
Qed.

Lemma safe_serve log :
  safe (holds (service_held log None Down) false) (serve dw config) (fun _ => up log).
Proof.
  unfold serve. set (resume := state_ResumeFile (d_State config)).
  set (control := d_Control config).
  eapply safely_bind with (Q := fun r s => is_ok r = true /\ holds (service_held log None Down) false s);
    [|intros []|by intros err s [? _]].
  { destruct (is_empty resume); [by apply safely_ret|].
    by eapply safe_last. }
  apply (safely_pre (holds (service_held log None Down) false)); [by intros s [_ Hs]|].
  eapply safely_bind with (Q := fun r => up log); [|intros []|done].
  { destruct (rest_Enabled (control_REST control)) eqn:Hen; [|apply safely_ret; intros s Hs; by left].
    eapply safely_bind; [by apply safe_startRESTServer|intros []|intros err s Hs; by left].
    apply safely_quiet. intros s [Hs _]. split; [done|]. right. by eexists. }
  assert (forall e, match e with ServeStdio | InitializeConfig _ => effect_ok e | _ => False end ->
    safe (up log) (effect e) (fun r s => r = Ok tt /\ up log s)) as Heff.
  { intros e He s Hs. unfold up in Hs.
    assert (exists h rest, holds h rest s /\ held_after e h = Some h /\ (forall s', holds h rest s' -> up log s')) as (h & rest & Hh & He' & Hup).
    { destruct Hs as [Hs|[a Hs]]; eexists _, _; (split; [exact Hs|]); split.
      - by destruct e.
      - intros s' Hs'. by left.
      - by destruct e.
      - intros s' Hs'. right. by eexists. }
    destruct (safe_effect e h h rest ltac:(by destruct e) He' s Hh) as [Htr [Hr Hs']]. split; [exact Htr|].
    split; [exact Hr|by apply Hup]. }
  eapply safely_bind with (Q := fun r s => r = Ok tt /\ up log s); [|intros []|by intros err s [? _]].
  { destruct (stdio_Enabled control); [by apply Heff|by apply safely_ret]. }
  apply (safely_pre (up log)); [by intros s [_ Hs]|].
  eapply safely_bind; [by apply Heff|intros []|by intros err s [? _]].
  apply safely_quiet. intros s [_ Hs]. by destruct (dw_runEnd dw) as [[e|]|]; [destruct (errors_Is e _)|..].
Qed.

(** What is still held is what could not be taken down, and the daemon then ends with an error; an
    [http.ErrServerClosed] of [Shutdown] is not one. *)
Definition released (h : DaemonHeld) (r : result error unit) : Prop :=
  match he_service h with
  | Down => True
  | Up => False
  | NotDown err => dw_CloseService dw = Some err /\ is_ok r = false
  end /\
  match he_serving h with
  | Down => he_listener h = None
  | Up => False
  | NotDown err => dw_Shutdown dw = Some err /\ (errors_Is err "http.ErrServerClosed" = false -> is_ok r = false)
  end.

(** The service and what was started above it has been taken down. *)
Definition down (log : bool) (r : result error unit) (s : DaemonState) : Prop :=
  exists h rest, holds h rest s /\ he_log h = log /\ released h r.

(** What [shutdownControl] does and answers. *)
Lemma shutdownControl_down log s :
  up log s ->
  exists h rest new, holds h rest (shutdownControl dw s).2 /\ he_log h = log /\ Forall effect_ok new /\
    da_effects (shutdownControl dw s).2 = da_effects s ++ new /\
    forall r, released h (match errors_Join [r; (shutdownControl dw s).1] with Some e => Err e | None => Ok tt end).
Proof.
  intros Hup. unfold shutdownControl.
  set (closed := match dw_CloseService dw with None => Down | Some err => NotDown err end).
  destruct Hup as [Hs|[a Hs]]; rewrite (proj2 Hs); cbn [fst snd].
  - exists {| he_log := log; he_service := closed; he_listener := None; he_serving := Down |}, false,
      [CloseService (dw_CloseService dw)].
    split; [by eapply effect_holds|]. split; [done|]. split; [by apply Forall_singleton|]. split; [done|].
    intros r. split; [|done]. subst closed. cbn. destruct (dw_CloseService dw) as [err|] eqn:Hc; [|done].
    split; [done|]. rewrite (proj2 Hs). by destruct r.
  - exists {| he_log := log; he_service := closed; he_listener := match dw_Shutdown dw with None => None | Some _ => Some a end;
              he_serving := match dw_Shutdown dw with None => Down | Some err => NotDown err end |}, true,
      [ShutdownREST (dw_Shutdown dw); CloseService (dw_CloseService dw)].
    split.
    { destruct (dw_Shutdown dw); (eapply effect_holds; [eapply effect_holds; [exact Hs|reflexivity]|reflexivity]). }
    split; [done|]. split; [by repeat constructor|]. split; [by simpl; rewrite <-app_assoc|].
    intros r. split; subst closed; cbn; rewrite ?(proj2 Hs).
    + destruct (dw_CloseService dw); [split; [done|]|done]. by destruct r; repeat case_match.
    + destruct (dw_Shutdown dw) as [err|]; [|done]. split; [done|]. intros ->. by destruct r, (dw_CloseService dw).
Qed.

Lemma safe_with_shutdown log (m : Daemon unit) P :
  safe P m (fun _ => up log) -> safe P (with_shutdown dw m) (down log).
Proof.
  intros Hm s Hs. unfold with_shutdown. destruct (Hm s Hs) as [(new & Htr & Hnew) Hup].
  destruct (m s) as [r s1]. simpl in Htr, Hup.
  destruct (shutdownControl_down log s1 Hup) as (h & rest & new' & Hh & Hlog & Hnew' & Htr' & Hrel).
  destruct (shutdownControl dw s1) as [err s2]. simpl in *. split.
  - exists (new ++ new'). rewrite Htr', Htr, app_assoc. split; [done|by apply Forall_app].
  - exists h, rest. split_and!; [exact Hh|exact Hlog|]. apply Hrel.
Qed.

(** The warnings are in the log. *)
Definition warned (s : DaemonState) : Prop :=
  forall warning, warning ∈ SecurityWarnings config ->
    LogLine ("Security warning: " +:+ warning) ∈ da_effects s.

Lemma warned_grows s s' new : warned s -> da_effects s' = da_effects s ++ new -> warned s'.
Proof. intros Hs Htr w Hw. rewrite Htr. apply elem_of_app. left. by apply Hs. Qed.

Definition before_service (log : bool) : DaemonHeld :=
  {| he_log := log; he_service := Down; he_listener := None; he_serving := Down |}.

Lemma safe_log_warnings log warnings :
  safe (holds (before_service log) false) (log_warnings warnings)
    (fun r s => r = Ok tt /\ holds (before_service log) false s /\
       forall w, w ∈ warnings -> LogLine ("Security warning: " +:+ w) ∈ da_effects s).
Proof.
  induction warnings as [|warning warnings IH]; simpl.
  { apply safely_ret. intros s Hs. split_and!; [done..|]. by intros w ?%elem_of_nil. }
  set (line := "Security warning: " +:+ warning).
  eapply safely_bind with (Q := fun r s => (r = Ok tt /\ holds (before_service log) false s) /\ LogLine line ∈ da_effects s);
    [|intros []|by intros err s [[? _] _]].
  - intros s Hs. destruct (safe_effect (LogLine line) (before_service log) (before_service log) false I eq_refl s Hs)
      as [Htr Hs']. split; [exact Htr|]. split; [exact Hs'|]. simpl. apply elem_of_app. right. by apply list_elem_of_singleton.
  - eapply safely_weaken.
    + apply (safely_frame (fun s => LogLine line ∈ da_effects s)); [|exact IH].
      intros s s' new Hs Htr. rewrite Htr. apply elem_of_app. by left.
    + by intros s [[_ Hs] Hl].
    + intros r s [(Hr & Hs & Hw) Hl]. split_and!; [done..|]. intros w [->|Hin]%elem_of_cons; [done|by apply Hw].
Qed.

(** The run behind the log. *)
Lemma safe_start log :
  safe (holds (before_service log) false)
    (_ ← log_warnings (SecurityWarnings config); _ ← effect NewController; _ ← load_initial dw (d_State config);
     _ ← effect NewControl; with_shutdown dw (serve dw config))
    (fun r s => down log r s /\ warned s).
Proof.
  eapply safely_bind; [apply safe_log_warnings|intros []|by intros err s [? _]].
  apply (safely_pre (fun s => holds (before_service log) false s /\ warned s)); [by intros s (_ & ? & ?)|].
  apply safely_frame; [exact warned_grows|].
  apply (safe_after _ _ (before_service log)); [done..|].
  eapply safely_bind with (Q := fun _ => holds (before_service log) false); [|intros []|intros err s Hs; by exists (before_service log), false].
  { unfold load_initial. destruct (is_empty _); [by apply safely_ret|].
    destruct (dw_Load dw _) as [state|err]; [|by apply safely_quiet].
    eapply safely_bind with (Q := fun _ => holds (before_service log) false); [by apply safely_quiet|intros st|done].
    by eapply safe_last. }
  apply (safe_after _ _ (service_held log None Down)); [done..|]. apply safe_with_shutdown, safe_serve.
Qed.

Definition no_server (s : DaemonState) : Prop := forall address token, ServeREST address token ∉ da_effects s.

Lemma safe_run_config :
  safe (fun s => s = daemon_start) (run_config dw config) (fun r s => down false r s /\ (warned s \/ no_server s)).
Proof.
  unfold run_config, with_log. set (c := d_Log config).
  eapply safely_bind with (Q := fun r s => match r with
    | Ok closer => holds (before_service closer) false s
    | Err _ => s = daemon_start end); [|intros closer|].
  - assert (forall s, s = daemon_start -> holds (before_service false) false s) as Hstart by (by intros s ->).
    unfold configureLog. destruct (_ && _).
    + destruct (dw_OpenLog dw (log_Output c)); [apply safely_quiet; by intros s|].
      apply (safely_pre (holds (before_service false) false)); [done|].
      apply (safe_after _ _ (before_service true)); [done..|].
      apply (safe_after _ _ (before_service true)); [done..|]. by apply safely_ret.
    + apply (safely_pre (holds (before_service false) false)); [done|].
      apply (safe_after _ _ (before_service false)); [done..|]. by apply safely_ret.
  - unfold closing_log. eapply (safely_then _ (fun _ s => if closer then (effect CloseLog s).2 else s));
      [apply safe_start|].
    intros r s [(h & rest & Hs & Hlog & Hrel) Hw]. destruct closer.
    + split; [exists [CloseLog]; by split; [|apply Forall_singleton]|].
      split; [|left; by eapply warned_grows].
      destruct h as [log service listener serving]. simpl in Hlog. subst log.
      exists {| he_log := false; he_service := service; he_listener := listener; he_serving := serving |}, rest.
      split_and!; [|done|exact Hrel]. eapply effect_holds; [exact Hs|]. by destruct Hrel, service, serving.
    + split; [exists []; by rewrite app_nil_r|]. split; [by exists h, rest|by left].
  - intros err s ->. split; [by exists nothing_held, false|]. right. intros a t ?%elem_of_nil. done.
Qed.
End DaemonSpec.

(** ** The daemon starts nothing unguarded and leaves nothing behind *)

Definition carries (token : string) (r : HTTPRequest) : Prop :=
  TrimPrefix (hr_Authorization r) "Bearer " = token \/
  hr_Path r = APIBasePath +:+ "/events" /\ hr_access_token r = token.

Lemma authorized_carries token r : token <> ""%string -> authorized token r = true -> carries token r.
Proof.
  intros Ht. unfold authorized, is_empty, same_token. rewrite (bool_decide_eq_false_2 (token = _)) by done.
  destruct (_ && bool_decide (TrimPrefix _ _ = token)) eqn:E.
  - intros _. left. by apply andb_true_iff in E as [_ E%bool_decide_eq_true].
  - destruct (bool_decide (hr_Path r = _)) eqn:Hp; [|done]. apply bool_decide_eq_true in Hp.
    intros [_ H%bool_decide_eq_true]%andb_true_iff. by right.
Qed.

Lemma rest_warning config :
  rest_Enabled (control_REST (d_Control config)) = true ->
  isLoopbackListen (rest_Listen (control_REST (d_Control config))) = false ->
  ("REST control " +:+ rest_Listen (control_REST (d_Control config)) +:+
   " is exposed over plaintext HTTP outside loopback") ∈ SecurityWarnings config.
Proof. intros Hen Hl. unfold SecurityWarnings. rewrite Hen, Hl. by left. Qed.

Definition is_output (e : DaemonEffect) : bool := match e with Stdout _ => true | _ => false end.

(** C21: The daemon, in whatever surroundings. The log, the service, the listener and the REST server
    are started in their order, each at most once. Whatever fails on the way, the log is closed when the daemon
    ends, and the shutdown of what else was started has been tried and answered: what is still held is a REST
    server whose [Shutdown], or a service whose [Close], has failed or run out of its time, and its error makes
    the daemon end with one. A REST server has a token that is not empty, so that only requests which carry
    the token are authorised; it is the one that is configured, and if others can reach it the
    log says so. Only the configuration of the flags and the file is initialised, which is
    valid, and without a file no session starts by itself. [--version] and [--test-config]
    start nothing. *)
Theorem daemon_guards_and_releases (dw : DaemonWorld) (yaml_Decode : DConfig -> string -> result error DConfig)
    (validate : DConfig -> option error) (CommitID : string) (args : list string)
    (rand_reads : forall n data, dw_rand dw n = Ok data -> length data = n) :
  let run := runDaemon dw yaml_Decode validate CommitID args daemon_start in
  let effects := da_effects run.2 in
  (exists h, held_all effects nothing_held = Some h /\ he_log h = false /\ released dw h run.1) /\
  (forall options, parseDaemonOptions args = Ok options -> do_version options || do_testConfig options = true ->
     forallb is_output effects = true) /\
  (forall config, InitializeConfig config ∈ effects ->
     exists options, parseDaemonOptions args = Ok options /\
       daemon_config dw yaml_Decode validate options = Ok config /\ validate config = None /\
       (do_configPath options = ""%string -> session_AutoStart (d_Session config) = false)) /\
  (forall address token, ServeREST address token ∈ effects ->
     token <> ""%string /\ (forall r, authorized token r = true -> carries token r) /\
     exists options config, parseDaemonOptions args = Ok options /\
       daemon_config dw yaml_Decode validate options = Ok config /\
       rest_Enabled (control_REST (d_Control config)) = true /\
       address = rest_Listen (control_REST (d_Control config)) /\
       (isLoopbackListen address = false ->
        LogLine ("Security warning: REST control " +:+ address +:+ " is exposed over plaintext HTTP outside loopback") ∈ effects)).
Proof.
  intros run effects.
  assert (forall l, forallb is_output l = true -> held_all l nothing_held = Some nothing_held /\
    (forall config, InitializeConfig config ∉ l) /\ (forall a t, ServeREST a t ∉ l)) as Hout.
  { intros l Hl. rewrite forallb_forall in Hl. split; [|split].
    - induction l as [|e l IH]; [done|]. simpl. pose proof (Hl e (or_introl eq_refl)). destruct e; try done.
      apply IH. intros x Hx. apply Hl. by right.
    - intros c Hin%list_elem_of_In. by apply Hl in Hin.
    - intros a t Hin%list_elem_of_In. by apply Hl in Hin. }
  assert (forallb is_output effects = true \/
    exists options config, parseDaemonOptions args = Ok options /\ do_version options || do_testConfig options = false /\
      daemon_config dw yaml_Decode validate options = Ok config /\
      run = run_config dw config daemon_start) as [Hquiet|(options & config & Ho & Hvt & Hc & Hrun)].
  { subst effects run. unfold runDaemon. destruct (parseDaemonOptions args) as [options|err]; [|left; by destruct (errors_Is _ _)].
    unfold run_options. destruct (do_version options) eqn:Hver; [by left|].
    unfold mbind, StateError_bind, lift. destruct (daemon_config dw yaml_Decode validate options) as [config|] eqn:Hc; [|by left].
    destruct (do_testConfig options) eqn:Ht; [left; by destruct (is_empty _)|].
    destruct (_ && _ && _); [by left|]. right. exists options, config. by rewrite Hver, Ht. }
  { destruct (Hout _ Hquiet) as (Hh & Hi & Hs). split_and!; [by exists nothing_held|done|..].
    - intros c Hin. by destruct (Hi c).
    - intros a t Hin. by destruct (Hs a t). }
  destruct (safe_run_config dw rand_reads config daemon_start eq_refl) as [(new & Htr & Hnew) [(h & rest & [Hh _] & Hlog & Hrel) Hw]].
  simpl in Htr. rewrite <-Hrun in *. fold effects in Hh, Htr. rewrite <-Htr in Hnew. rewrite Forall_forall in Hnew.
  split_and!; [by exists h|intros o Ho'; congruence|..].
  - intros c Hin%Hnew. simpl in Hin. subst c. exists options. split_and!; [done|done|..].
    + unfold daemon_config, result_bind in Hc. destruct (if is_empty _ then _ else _); [|done].
      destruct (validate _) eqn:Hv; [done|]. by injection Hc as <-.
    + intros Hp. unfold daemon_config in Hc. rewrite Hp in Hc. simpl in Hc. destruct (validate _); [done|].
      by injection Hc as <-.
  - intros a t Hin. pose proof (Hnew _ Hin) as (Ht & Hen & Ha). simpl in Ha.
    split; [done|]. split; [by intros r; apply authorized_carries|]. exists options, config. split_and!; [done..|].
    intros Hl. destruct Hw as [Hw|Hw]; [|by destruct (Hw a t)]. subst a.
    exact (Hw _ (rest_warning config Hen Hl)).
Qed.

(** A run with [--rest] on all addresses and no configured secret. *)
Definition demo_daemon : DaemonWorld := {|
  dw_ReadFile _ := Err (EText "no such file");
  dw_OpenLog _ := Some (EText "no such file");
  dw_Load _ := Ok None;
  dw_Listen _ := None;
  dw_Addr a := a;
  dw_rand n := Ok (replicate n 171);
  dw_runEnd := None;
  dw_Shutdown := None;
  dw_CloseService := Some (EText "shutdown timed out");
|}.

Definition demo_validate : DConfig -> option error := Validate id map_to_list.

Definition demo_run : result error unit * DaemonState :=
  runDaemon demo_daemon (fun c _ => Ok c) demo_validate "" ["--rest"; "0.0.0.0:9090"; "--stdio=true"] daemon_start.

Definition demo_token : string := EncodeToString (replicate 32 171).

Lemma demo_run_serves : existsb (fun e => match e with
    | ServeREST a t => bool_decide (a = "0.0.0.0:9090"%string) && bool_decide (t = demo_token)
    | _ => false end) (da_effects demo_run.2) = true.
Proof. vm_compute. reflexivity. Qed.

Lemma demo_run_serves_token : ServeREST "0.0.0.0:9090" demo_token ∈ da_effects demo_run.2.
Proof.
  apply list_elem_of_In. pose proof demo_run_serves as H. apply existsb_exists in H as (e & He & H).
  destruct e; try discriminate. apply andb_true_iff in H as [->%bool_decide_eq_true ->%bool_decide_eq_true].
  exact He.
Qed.

Lemma daemon_guards_and_releases_witness :
  (exists h, held_all (da_effects demo_run.2) nothing_held = Some h /\ he_log h = false /\
     he_service h = NotDown (EText "shutdown timed out") /\ he_listener h = None) /\ is_ok demo_run.1 = false /\
  (forall r, authorized demo_token r = true -> carries demo_token r) /\
  LogLine "Security warning: REST control 0.0.0.0:9090 is exposed over plaintext HTTP outside loopback" ∈ da_effects demo_run.2.
Proof.
  destruct (daemon_guards_and_releases demo_daemon (fun c _ => Ok c) demo_validate ""
    ["--rest"; "0.0.0.0:9090"; "--stdio=true"]
    ltac:(intros n data H; injection H as <-; apply length_replicate)) as (Hheld & _ & _ & Hserve).
  destruct Hheld as (h & Hh & Hlog & Hrel).
  assert (he_service h = NotDown (EText "shutdown timed out") /\ he_listener h = None) as [Hs Hl].
  { vm_compute in Hh. injection Hh as <-. by split. }
  split; [by exists h|]. split; [destruct Hrel as [Hrel _]; rewrite Hs in Hrel; by destruct Hrel|].
  destruct (Hserve _ _ demo_run_serves_token) as (_ & Hcarry & options & config & _ & _ & _ & _ & Hwarn).
  split; [exact Hcarry|]. exact (Hwarn eq_refl).
Defined.

(** What the flags mean, and how the package reads them. *)
Example parsed_flags :
  parseDaemonOptions ["-f"; "a.yaml"; "--config=b.yaml"; "-t"] =
    Ok {| do_configPath := "b.yaml"; do_testConfig := true; do_stdio := false; do_rest := ""; do_version := false |} /\
  parseDaemonOptions ["--rest"] = Err (EText "flag needs an argument: -rest") /\
  parseDaemonOptions ["-stdio"; "true"] = Err (EText "unexpected arguments: true") /\
  parseDaemonOptions ["--help"] = Err ErrHelp /\
  parseDaemonOptions ["--stdio=yes"] = Err (EText ("invalid boolean value " +:+ quote "yes" +:+ " for -stdio: parse error")).
Proof. vm_compute. split_and!; reflexivity. Qed.

(** ** Keeping the resume state *)

Section Persist.
Context {W : Type} (fs : FileSystem W).

(** An event, with what the manager answers to [ResumeState] when the daemon handles it. *)
Definition persist_event (s : StoreState W) (e : Event * result error ResumeState) : StoreState W :=
  let '(event, answer) := e in
  if negb (bool_decide (event_Type event = EventTypeResumeStateUpdated)) then s
  else match answer with
  | Err _ => s
  | Ok state => (resume_Save fs state s).2
  end.

(** The events until the context is done or the channel is closed. *)
Definition persistResumeStateEvents (events : list (Event * result error ResumeState)) (s : StoreState W)
    : StoreState W := fold_left persist_event events s.
End Persist.

Section PersistSpec.
Context {W : Type} (fs : FileSystem W) `{lawful : !LawfulFS fs}.
Context (before : option File) (events : list (Event * result error ResumeState)).

Definition mode_of (p : option File) : Z := match p with Some f => file_mode f | None => 384 end.

(** The file of before, or one that one of the events stored. *)
Definition kept (p : option File) : Prop :=
  p = before \/ exists f event state,
    p = Some f /\ (event, Ok state) ∈ events /\ event_Type event = EventTypeResumeStateUpdated /\
    fs_MarshalIndent fs state = Ok (file_data f) /\ file_mode f = mode_of before.

Lemma kept_mode p : kept p -> mode_of p = mode_of before.
Proof. by intros [->|(f & _ & _ & -> & _ & _ & _ & Hm)]. Qed.

Lemma persist_event_kept e s :
  e ∈ events -> kept (path_of (st_world s)) ->
  (exists new, st_trace (persist_event fs s e) = st_trace s ++ new /\ Forall (fun w => kept (path_of w)) new) /\
  kept (path_of (st_world (persist_event fs s e))).
Proof.
  intros He Hs. destruct e as [event answer]. unfold persist_event.
  destruct (bool_decide _) eqn:Ht; [|split; [exists []; by rewrite app_nil_r|done]].
  destruct answer as [state|]; [|split; [exists []; by rewrite app_nil_r|done]].
  destruct (fs_MarshalIndent fs state) as [data|err] eqn:Hdata.
  - set (old := path_of (st_world s)) in *.
    assert (forall p, whole old data (mode_of old) p -> kept p) as Hwhole.
    { intros p [->|(f & -> & Hd & Hm)]; [done|]. right. exists f, event, state.
      apply bool_decide_eq_true in Ht. rewrite Hd, Hm. split_and!; try done. by apply kept_mode. }
    destruct (safe_Save fs old data (mode_of old) state Hdata eq_refl s eq_refl) as [(new & Htr & Hnew) HQ].
    split; [exists new; split; [exact Htr|]; by eapply Forall_impl; [exact Hnew|]; intros w; apply Hwhole|].
    apply Hwhole. destruct (resume_Save fs state s).1; [|exact HQ]. destruct HQ as [(f & Hf & Hst) _]. right. by exists f.
  - unfold resume_Save, lift. rewrite Hdata. split; [exists []; by rewrite app_nil_r|done].
Qed.

Lemma persist_kept l s :
  (forall e, e ∈ l -> e ∈ events) -> kept (path_of (st_world s)) ->
  (exists new, st_trace (persistResumeStateEvents fs l s) = st_trace s ++ new /\
     Forall (fun w => kept (path_of w)) new) /\
  kept (path_of (st_world (persistResumeStateEvents fs l s))).
Proof.
  revert s. induction l as [|e l IH]; intros s Hl Hs; [split; [exists []; by rewrite app_nil_r|done]|].
  destruct (persist_event_kept e s ltac:(apply Hl; by left) Hs) as [(new & Htr & Hnew) Hs'].
  destruct (IH (persist_event fs s e) ltac:(intros x Hx; apply Hl; by right) Hs') as [(new' & Htr' & Hnew') HQ].
  split; [|exact HQ]. exists (new ++ new'). unfold persistResumeStateEvents in *. simpl.
  rewrite Htr', Htr, app_assoc. split; [done|by apply Forall_app].
Qed.
End PersistSpec.

Lemma persist_others {W : Type} (fs : FileSystem W) l s :
  Forall (fun e => event_Type e.1 <> EventTypeResumeStateUpdated) l -> persistResumeStateEvents fs l s = s.
Proof.
  intros Hl. revert s. induction Hl as [|[event answer] l Ht _ IH]; intros s; [done|].
  unfold persistResumeStateEvents in *. simpl in *. by rewrite bool_decide_eq_false_2.
Qed.

(** C22: The daemon keeps the session's resume state. In every world that it goes through, and so
    after a crash anywhere, the file is the one of before, or the whole encoding of a state that
    the manager gave when an update was announced, with the permissions of the first file, or
    0600. When the last update is stored, a [Load] that can read the file gives its state. *)
Theorem resume_file_follows_session {W : Type} (fs : FileSystem W) `{lawful : !LawfulFS fs}
    (events : list (Event * result error ResumeState)) (s : StoreState W) :
  let before := path_of (st_world s) in
  let s' := persistResumeStateEvents fs events s in
  (exists new, st_trace s' = st_trace s ++ new /\ Forall (fun w => kept fs before events (path_of w)) new) /\
  kept fs before events (path_of (st_world s')) /\
  (forall first event state data rest,
     events = first ++ (event, Ok state) :: rest -> event_Type event = EventTypeResumeStateUpdated ->
     Forall (fun e => event_Type e.1 <> EventTypeResumeStateUpdated) rest ->
     fs_MarshalIndent fs state = Ok data -> fs_Unmarshal fs data = Ok state ->
     (resume_Save fs state (persistResumeStateEvents fs first s)).1 = Ok tt ->
     forall found, resume_Load fs (st_world s') = Ok found -> found = Some state).
Proof.
  intros before s'. destruct (persist_kept fs before events events s ltac:(done) ltac:(by left)) as [Htr Hs'].
  split; [exact Htr|]. split; [exact Hs'|]. intros first event state data rest -> Ht Hrest Hdata Hcodec Hok found.
  assert (s' = (resume_Save fs state (persistResumeStateEvents fs first s)).2) as ->.
  { subst s'. unfold persistResumeStateEvents. rewrite fold_left_app. simpl. rewrite bool_decide_eq_true_2 by done.
    simpl. by apply (persist_others fs rest). }
  set (s1 := persistResumeStateEvents fs first s) in *.
  destruct (safe_Save fs _ data _ state Hdata eq_refl s1 eq_refl) as [_ HQ]. rewrite Hok in HQ.
  destruct HQ as [(f & Hf & Hfd & _) _]. unfold resume_Load.
  destruct (fs_ReadFile fs _) as [d|] eqn:Hread; [|done]. apply fs_reads in Hread. rewrite Hf in Hread.
  simpl in Hread. subst d. rewrite Hfd, Hcodec. by intros [= <-].
Qed.

Definition demo_update : Event := NewResumeStateUpdatedEvent "session" 3 false 0.

Definition demo_events : list (Event * result error ResumeState) :=
  [(demo_update, Err (EText "session not found")); (demo_update, Ok demo_state)].

Lemma demo_last_saved :
  (resume_Save demo_disk demo_state (persistResumeStateEvents demo_disk (take 1 demo_events) demo_stored)).1 = Ok tt.
Proof. vm_compute. reflexivity. Qed.

Lemma resume_file_follows_session_witness :
  let s' := persistResumeStateEvents demo_disk demo_events demo_stored in
  kept demo_disk (dk_path (st_world demo_stored)) demo_events (dk_path (st_world s')) /\
  forall found, resume_Load demo_disk (st_world s') = Ok found -> found = Some demo_state.
Proof.
  destruct (resume_file_follows_session demo_disk demo_events demo_stored) as (_ & Hkept & Hlast).
  split; [exact Hkept|].
  exact (Hlast (take 1 demo_events) demo_update demo_state [3] [] eq_refl eq_refl (Forall_nil_2 _)
    eq_refl eq_refl demo_last_saved).
Defined.
